(* ===== verification/_CoqProject ===== *)
-Q . S2P
Prelude.v
PyText.v
PyValue.v
Canonical.v
DagContract.v
DagDigest.v
DagTransform.v
DagValidation.v
DagOrder.v
DagAdmission.v
DagStore.v
DagDurability.v
DagEngine.v
DagRun.v
DagWave.v
DagTrace.v
DagProperties.v
DagOutcome.v
DagTermination.v
DagGuarantees.v
DagReport.v
DagWitness.v
ToolSchema.v
MutationContract.v
ToolRegistry.v
Policy.v
WriteCredentials.v
MutationDigest.v
MutationIdempotency.v
MutationLifecycle.v
MutationRegistry.v
PyTime.v
MutationAudit.v
GovernedWorld.v
GovernedSystem.v
MutationExecutor.v
MutationRuns.v
MutationGuarantees.v
MutationWitness.v
MergeGates.v
MergeExecutor.v
MergeGuarantees.v
MergeWitness.v
BatchContract.v
BatchScheduler.v
BatchRuns.v
BatchGuarantees.v
BatchProcess.v
BatchWitness.v
CircuitBreaker.v
UpstreamClient.v
UpstreamGuarantees.v
RunEvents.v
LockRegistry.v
ApprovalRegistry.v
ResolverContract.v
ResolverGraph.v
Resolver.v
ResolverGuarantees.v
ResolverWitness.v
RunbookContract.v
RunbookDigest.v
RunbookLoader.v
RunbookRoundTrip.v
RunbookAdmission.v
RunbookRegistry.v
RunbookCompile.v
RunbookEngine.v
RunbookGuarantees.v
ProviderContract.v
ProviderRegistry.v
ProviderCredentials.v
ProviderAudit.v
ProviderGateway.v
ProviderGuarantees.v
ProviderWitness.v
Hybrid.v
HybridGuarantees.v
PromptPolicy.v
PromptGate.v
