(* ===== verification/Prelude.v ===== *)
(** * Hermes MCP Bridge: a verification development

    The bridge ([src/src/hermes_mcp_bridge]) lets an agent act on providers through registered
    tools.  Its second version ([v2/]) decides what may run (registries, schemas, policy,
    credentials), in which mode (the resolver), executes batches, plans of tools (the DAG engine)
    and runbooks, performs governed writes to GitHub (mutations and merges: approval, idempotency,
    audit, executor), calls other providers through one gateway and asks reasoning for what is not
    deterministic.  The first version supplies the HTTP client, locks, approvals, and the way of a
    prompt to the upstream.  This development models that core and proves what it promises.

    ** Parts, and where they are modelled

    - Values and text.  [PyValue] is the [Any]-typed JSON data with Python's [==] and truth;
      [PyText] the string operations on UTF-8 bytes; [PyTime] instants, their ISO text and the
      float arithmetic of a duration; [Canonical] is [v2/canonical.py], with a reader and the
      round trip.  Every digest of the program is a hash of canonical text; SHA-256 is a parameter,
      and "no collisions" a hypothesis, or two colliding texts the alternative, where it matters.
    - The DAG engine.  [DagContract] ([v2/dag_contract.py]: plans, nodes, checkpoints), [DagDigest]
      ([v2/dag_digest.py]), [DagTransform] ([v2/dag_transform.py]), [DagValidation]
      ([v2/dag_validation.py]), [DagStore] ([v2/dag_store.py]: checkpoints, leases with fence
      tokens, single-use approvals, transactions), [DagEngine] ([v2/dag_engine.py]: admission, run,
      waves, resume, replay, compensation).
    - Batches.  [BatchContract] ([v2/batch_contract.py]), [BatchScheduler] ([v2/batch_scheduler.py]:
      the tasks of a batch, admission, capacity, interruption, the report).
    - Runbooks.  [RunbookContract], [RunbookDigest], [RunbookLoader], [RunbookAdmission],
      [RunbookRegistry], [RunbookCompile], [RunbookEngine] ([v2/runbook_*.py], file by file: a
      runbook is admitted, stored, compiled to a plan and run by the DAG engine).
    - The resolver.  [ResolverContract] ([v2/resolver_contract.py]), [ResolverGraph] and [Resolver]
      ([v2/resolver.py]: cycles and depths, the stages that choose a mode; [v2/audit_chain.py]).
      [Hybrid] ([v2/hybrid_execution.py]) is the coordinator above it: the shaping of a context and
      the loop that executes, asks for a plan and resolves again.
    - What may run.  [ToolSchema] ([v2/schema.py] and its enumerations: tool definitions and the
      rejection of credential material in schemas), [ToolRegistry] ([v2/capabilities.py],
      [v2/registry.py]: registration, freezing, the snapshot hash), [Policy] ([v2/policy.py],
      [v2/credentials.py]: the fail-closed evaluation), [WriteCredentials]
      ([v2/github_write_credentials.py] and what it uses of [v2/github_readiness.py],
      [v2/github_secret_provider.py], [v2/github_direct.py], [v2/github_auth.py]).
    - Governed mutations and merges.  [MutationContract] (enumerations and errors of [v2/enums.py],
      [v2/errors.py]), [MutationRegistry] ([v2/github_mutation_registry.py]: the two contracts and
      the normalization of arguments), [MutationDigest] ([v2/mutation_digest.py]: what an approval
      binds, and its single use), [MutationIdempotency] ([v2/mutation_idempotency.py]: keys,
      records, leases), [MutationAudit] ([v2/mutation_audit.py]: redaction, sinks, the write-ahead
      ledger), [MutationExecutor] ([v2/github_mutations.py]: the whole of [execute]), [MergeGates]
      ([v2/github_governed_merge.py]: policies, observations, the chain of gates), [MergeExecutor]
      ([v2/github_merge_executor.py]).  [GovernedWorld] holds what both executors share: the stores,
      the clock, the order of the stages; [GovernedSystem] the histories of either.
    - The provider gateway.  [ProviderContract], [ProviderRegistry] (with the probes of
      [v2/provider_health.py]), [ProviderCredentials], [ProviderAudit], [ProviderGateway]
      ([v2/provider_*.py], file by file: manifests, readiness, handles, the chained ledger, and the
      whole of [invoke]).
    - The HTTP client.  [CircuitBreaker] ([resilience/circuit.py]), [UpstreamClient] (the guarded
      call of [client.py] with [resilience/http_retry.py] and [http_circuit.py]), [RunEvents]
      ([resilience/events.py]: the state of a run from events and polling).
    - The first version.  [LockRegistry] ([locks.py]), [ApprovalRegistry] ([approvals.py]),
      [PromptPolicy] ([policy.py] and its enforcement in [server.py]: loading, classification, the
      decision), [PromptGate] ([prompt_approvals.py], [registry.py], and of [server.py] the handlers
      [hermes_submit] and [hermes_prompt]: guard, key lock, lookup, upstream call, record).

    ** How the parts interact, and how that is modelled

    A component with state is a record (or a finite map) and each of its operations a function
    [state -> result * state] ([st] below); an exception is a value of the component's error type,
    and keeps the effects made before it, as in Python.  Operations that run under a lock, in a
    transaction, or between two awaits are atomic; everything else is interleaved:
    - the tasks of a wave of the DAG engine, at the await of the executor, the semaphore and the
      resource locks ([DagEngine], [DagWave]), under every scheduler;
    - the tasks of a batch, at the semaphore and at the executor ([BatchScheduler]), with time-outs
      and cancellation, and batches with each other at the capacity they share ([BatchProcess]);
    - executions of mutations and merges, at their three awaits of the provider ([GovernedSystem]),
      with each other and with every other caller of the approval, idempotency and audit stores, and
      with cancellation;
    - calls of the HTTP client, between a request and its answer ([UpstreamClient]);
    - the handlers of prompts, at their awaits, with every other use of approvals and runs, with
      cancellation, and with restarts of the process ([PromptGate]).
    What the program is given as a callable (the executor and the reasoning step of [Hybrid], for
    one) may answer or raise anything, depending on all that was asked of it before.
    Interfaces are type classes with their laws: [CredentialBroker]/[BrokerLaws] (a static broker
    and the write broker implement it), [AuditSink]/[AuditSinkLaws] (in memory and as files),
    [ExecutionStore] (what the runbook engine asks of its store), [ProviderSink]/[ProviderSinkLaws];
    [GovernedSystem] is proved once against the laws of an executor, which the mutation and the merge
    executor discharge ([MutationRuns], [MergeGuarantees]).

    ** What is proved

    - [DagOrder], [DagAdmission]: ordering is complete and deterministic, validation raises nothing
      but its own error, and an admitted plan is acyclic, within budget and typed.
    - [DagDurability]: what was saved is loaded, old writers are fenced off, approvals are used
      once.  [DagWave], [DagTrace], [DagRun], [DagProperties], [DagGuarantees], [DagReport],
      [DagOutcome], [DagTermination]: checkpoint before effect, mutual exclusion, bounds on
      dispatches, replay without effects, resume, compensation, truthful reports, and termination
      under every fair scheduler.
    - [BatchRuns], [BatchGuarantees], [BatchProcess], [BatchWitness]: calls only of allowed steps,
      one each, none after admission is closed; bounded concurrency; a faithful report; batches end.
    - [RunbookRoundTrip], [RunbookAdmission], [RunbookGuarantees]: what is stored reads back;
      digests bind; admission is exact; runs are cleared before anything happens and not repeated;
      which runbooks can never run.
    - [ResolverGuarantees], [ResolverWitness]: which mode every intent gets; audit links and chains
      of digests bind.  [HybridGuarantees]: every call of a hybrid run is under a decision on the
      intent at hand, reasoning is asked through its gate and with a safe context only, outcomes are
      faithful, and runs end within their escalations.
    - [ToolSchema], [ToolRegistry], [Policy], [WriteCredentials]: exactly which schemas, registries,
      decisions and materials there are; two registries have the same snapshot hash exactly when
      they hold the same tools.
    - [MutationDigest], [MutationIdempotency]: digests and keys bind every field; approvals are
      verified exactly and consumed once.  [MutationLifecycle]: the idempotency store refines the
      documented life cycle of a key.  [MutationAudit]: handles mean durable records, evidence is
      sealed once, success needs a verified read-back, records are redacted.
    - [GovernedSystem], [MutationRuns], [MutationGuarantees], [MergeGuarantees]: over any history,
      no write and no merge without everything behind it; what is sent is what was approved; one
      write per execution, approval and audit record, and per key unless it was released; success is
      proved by the provider; executions end.
    - [ProviderAudit], [ProviderGuarantees]: an adapter is called only after every stage; approvals
      and keys are used once; every outcome has its one terminal record, in a chain that cannot be
      altered unnoticed; readiness only falls; manifests are least-privilege.
    - [UpstreamGuarantees]: what is sent at most once, and the circuit breaker.  [RunEvents],
      [LockRegistry], [ApprovalRegistry]: completion applied once, exclusive locks, single use.
      [PromptPolicy]: the decision exactly, and that tools fail closed.  [PromptGate]: no prompt is
      sent without its grant, none twice with one approval, none whose run is on record.
    - [DagWitness], [MutationWitness], [MergeWitness], [BatchWitness], [ResolverWitness],
      [ProviderWitness], and the last modules of the other files: concrete histories on which the
      theorems are applied, and runs that show corner cases of the code.

    ** Fuel and bounds

    A fixpoint that is not structural takes fuel, with a theorem that it is enough: the reader of
    JSON (the length of its text: [Canonical.loads_dumps]), Kahn's loop (the number of nodes:
    [DagOrder.kahn_spec]) and the runbooks' own ordering ([RunbookAdmission.topo_total]), the search
    for cycles ([ResolverGraph.visit_spec]: the number of operations), the turns of a hybrid run
    ([HybridGuarantees.hybrid_run_ends]: the escalations left, and one), propagation, waves and the
    main loop of the engine ([DagGuarantees.run_terminates]), the walk over a schema
    ([ToolSchema.need], its depth). Python's integers are unbounded, so [Z] is exact; instants are
    microseconds in [Z], and floats are binary64 where the code computes with them ([PyTime]) and
    mantissa and exponent elsewhere.

    ** Not modelled, and why

    - Transport and process: the rest of [server.py] (tools that only pass on to a store or to the
      client), [client_base.py], [http_runner.py], most of [protocol.py] and [models.py], the HTTP part
      of [v2/github_direct.py], of [HttpxMutationTransport] and of the probes (network, MCP framework
      and pydantic plumbing; the answer of the provider is an input of the model), [observability/]
      (metrics and logs nothing decides on), [scripts/] (acceptance tooling).
    - [v2/dag_loader.py] and the YAML of [v2/runbook_loader.py]: a third-party parser; the loader is
      modelled from the parsed document on, as is the policy of the first version.
    - The composition and evidence modules of [v2/] (gates over files of an acceptance run), the lengths
      of backoffs, the recovery report, and the first version's [plans.py], [sagas.py],
      [checkpoints.py] and [quotas.py], which put rows into SQLite and read them back.
    - Operating system: the file system appears only as what its calls may answer ([os_answer],
      [file_fault]); counters and [__repr__]s that no decision reads are left out. *)
From stdpp Require Export base tactics option list strings gmap sorting pretty.
From Stdlib Require Export ZArith Lia Ascii.
#[global] Open Scope Z_scope.

(** ** Results: values or a raised exception *)

Declare Scope py_scope.
Delimit Scope py_scope with py.

Inductive result (E A : Type) : Type :=
| Ok (a : A)
| Err (e : E).
Arguments Ok {E A} _.
Arguments Err {E A} _.

Definition rbind {E A B} (m : result E A) (k : A -> result E B) : result E B :=
  match m with
  | Ok a => k a
  | Err e => Err e
  end.

(** [raise_if b e]: the statement [if b: raise e]. *)
Definition raise_if {E} (b : bool) (e : E) : result E unit :=
  if b then Err e else Ok tt.

Definition is_ok {E A} (m : result E A) : bool :=
  match m with Ok _ => true | Err _ => false end.

Notation "'let!' x := m 'in' k" := (rbind m (fun x => k))
  (at level 10, x name, m at level 100, k at level 200,
   format "'[v' 'let!'  x  :=  m  'in' '/' k ']'") : py_scope.
Notation "'do!' m 'in' k" := (rbind m (fun _ => k))
  (at level 10, m at level 100, k at level 200,
   format "'[v' 'do!'  m  'in' '/' k ']'") : py_scope.
#[global] Open Scope py_scope.

Section Loops.
Context {E A : Type}.

(** [for x in xs: body x], where the body may raise. *)
Definition rfor (f : A -> result E unit) : list A -> result E unit :=
  fix go xs := match xs with
               | [] => Ok tt
               | x :: rest => do! f x in go rest
               end.

(** [[f x for x in xs]], where the body may raise. *)
Definition rmap {B} (f : A -> result E B) : list A -> result E (list B) :=
  fix go xs := match xs with
               | [] => Ok []
               | x :: rest => let! y := f x in let! ys := go rest in Ok (y :: ys)
               end.

(** A loop that threads an accumulator and may raise. *)
Definition rfold {S} (f : S -> A -> result E S) : S -> list A -> result E S :=
  fix go s xs := match xs with
                 | [] => Ok s
                 | x :: rest => let! s' := f s x in go s' rest
                 end.
End Loops.

(** ** State with exceptions: an exception keeps the effects made before it *)

Definition st (S E A : Type) : Type := S -> result E A * S.

Section StateMonad.
Context {S E : Type}.

Definition sret {A} (a : A) : st S E A := fun s => (Ok a, s).
Definition sraise {A} (e : E) : st S E A := fun s => (Err e, s).
Definition slift {A} (m : result E A) : st S E A := fun s => (m, s).
Definition sget : st S E S := fun s => (Ok s, s).
Definition smodify (f : S -> S) : st S E unit := fun s => (Ok tt, f s).

Definition sbind {A B} (m : st S E A) (k : A -> st S E B) : st S E B := fun s =>
  match m s with
  | (Ok a, s') => k a s'
  | (Err e, s') => (Err e, s')
  end.

(** [for x in xs: body x] *)
Definition sfor {A} (f : A -> st S E unit) : list A -> st S E unit :=
  fix go xs := match xs with
               | [] => sret tt
               | x :: rest => sbind (f x) (fun _ => go rest)
               end.
End StateMonad.

Notation "'let*' x := m 'in' k" := (sbind m (fun x => k))
  (at level 10, x name, m at level 100, k at level 200,
   format "'[v' 'let*'  x  :=  m  'in' '/' k ']'") : py_scope.
Notation "'do*' m 'in' k" := (sbind m (fun _ => k))
  (at level 10, m at level 100, k at level 200,
   format "'[v' 'do*'  m  'in' '/' k ']'") : py_scope.

(** ** Python string helpers; a Python [str] is represented by its UTF-8 bytes *)

Fixpoint string_forallb (p : ascii -> bool) (s : string) : bool :=
  match s with
  | EmptyString => true
  | String c rest => p c && string_forallb p rest
  end.

Definition string_existsb (p : ascii -> bool) (s : string) : bool :=
  negb (string_forallb (fun c => negb (p c)) s).

Definition code (c : ascii) : Z := Z.of_N (Ascii.N_of_ascii c).

Definition between (lo hi : Z) (c : ascii) : bool := (lo <=? code c) && (code c <=? hi).

(** UTF-8 continuation bytes do not start a code point. *)
Definition is_continuation (c : ascii) : bool := between 128 191 c.

(** [len(s)]: code points, i.e. bytes that are not continuation bytes. *)
Fixpoint py_len (s : string) : Z :=
  match s with
  | EmptyString => 0
  | String c rest => (if is_continuation c then 0 else 1) + py_len rest
  end.

(** [len(s.encode("utf-8"))]. *)
Definition byte_len (s : string) : Z := Z.of_nat (String.length s).

(** [s.lower()], as far as it produces ASCII letters: from the ASCII capitals and from the
    Kelvin sign U+212A (bytes 226, 132, 170), whose lower case is [k]. *)
Definition lower_char (c : ascii) : ascii :=
  if between 65 90 c then Ascii.ascii_of_N (Ascii.N_of_ascii c + 32) else c.

Fixpoint lower (s : string) : string :=
  match s with
  | EmptyString => EmptyString
  | String c rest =>
      match rest with
      | String d (String e rest') =>
          if (code c =? 226) && (code d =? 132) && (code e =? 170) then String "k" (lower rest')
          else String (lower_char c) (lower rest)
      | _ => String (lower_char c) (lower rest)
      end
  end.

(** [s.split(sep)] for a one-character separator. *)
Fixpoint split_on (sep : ascii) (s : string) : list string :=
  match s with
  | EmptyString => [""]
  | String c rest =>
      if Ascii.eqb c sep then "" :: split_on sep rest
      else match split_on sep rest with
           | [] => [String c ""]
           | w :: ws => String c w :: ws
           end
  end.

(** [s.split(sep, 1)] as the part before the first separator and what follows it, if any. *)
Fixpoint split_once (sep : ascii) (s : string) : string * option string :=
  match s with
  | EmptyString => ("", None)
  | String c rest =>
      if Ascii.eqb c sep then ("", Some rest)
      else let '(a, b) := split_once sep rest in (String c a, b)
  end.

(** [$] of a pattern also matches just before a newline that ends the text. *)
Definition nl : ascii := Ascii.ascii_of_nat 10.

Fixpoint chop_newline (s : string) : option string :=
  match s with
  | EmptyString => None
  | String c EmptyString => if Ascii.eqb c nl then Some "" else None
  | String c rest => s' ← chop_newline rest; Some (String c s')
  end.

Definition match_dollar (p : string -> bool) (s : string) : bool :=
  p s || match chop_newline s with Some s' => p s' | None => false end.

Definition join (sep : string) (xs : list string) : string := String.concat sep xs.

(** [hint in s]. *)
Fixpoint contains (hint s : string) : bool :=
  String.prefix hint s ||
  match s with
  | EmptyString => false
  | String _ rest => contains hint rest
  end.

(** ** Sorting by a string key: [sorted(xs, key=...)] is a stable sort *)

Section SortBy.
Context {A : Type} (key : A -> string).

Fixpoint insert_by (x : A) (l : list A) : list A :=
  match l with
  | [] => [x]
  | y :: ys => if String.leb (key x) (key y) then x :: y :: ys else y :: insert_by x ys
  end.

Fixpoint sort_by (l : list A) : list A :=
  match l with
  | [] => []
  | x :: xs => insert_by x (sort_by xs)
  end.
End SortBy.

Definition sort_str (l : list string) : list string := sort_by id l.

(** [set(xs)] as a duplicate-free list. *)
Definition dedup {A} `{EqDecision A} (l : list A) : list A := remove_dups l.

(** ** Association lists: Python dicts in insertion order *)

Section Dict.
Context {V : Type}.

Fixpoint dget (k : string) (d : list (string * V)) : option V :=
  match d with
  | [] => None
  | (k', v) :: rest => if String.eqb k k' then Some v else dget k rest
  end.

(** [d[k] = v]: replaces in place or appends. *)
Fixpoint dset (k : string) (v : V) (d : list (string * V)) : list (string * V) :=
  match d with
  | [] => [(k, v)]
  | (k', v') :: rest => if String.eqb k k' then (k, v) :: rest else (k', v') :: dset k v rest
  end.

Definition dhas (k : string) (d : list (string * V)) : bool :=
  match dget k d with Some _ => true | None => false end.

Definition dkeys (d : list (string * V)) : list string := map fst d.

(** [{**d1, **d2}]. *)
Definition dupdate (d1 d2 : list (string * V)) : list (string * V) :=
  fold_left (fun d '(k, v) => dset k v d) d2 d1.

Definition sort_items (d : list (string * V)) : list (string * V) := sort_by fst d.
End Dict.

Definition str_in (x : string) (l : list string) : bool := existsb (String.eqb x) l.

(** ** Lemmas on results *)

Section ResultLemmas.
Context {E : Type}.

Lemma rbind_Ok {A B} (m : result E A) (k : A -> result E B) b :
  rbind m k = Ok b <-> exists a, m = Ok a /\ k a = Ok b.
Proof.
  destruct m; simpl; split; [eauto|by intros (? & [= ->] & ?)|done|by intros (? & ? & ?)].
Qed.

Lemma rbind_Err {A B} (m : result E A) (k : A -> result E B) e :
  rbind m k = Err e <-> m = Err e \/ exists a, m = Ok a /\ k a = Err e.
Proof.
  destruct m; simpl; split; [eauto| |intros [= ->]; by left|].
  - by intros [?|(? & [= ->] & ?)].
  - by intros [[= ->]|(? & ? & ?)].
Qed.

Lemma rbind_ret_l {A B} (a : A) (k : A -> result E B) : rbind (Ok a) k = k a.
Proof. done. Qed.

Lemma rbind_assoc {A B C} (m : result E A) (k : A -> result E B) (h : B -> result E C) :
  rbind (rbind m k) h = rbind m (fun a => rbind (k a) h).
Proof. by destruct m. Qed.

Lemma raise_if_Ok (b : bool) (e : E) u : raise_if b e = Ok u <-> b = false.
Proof. by destruct b, u. Qed.

Lemma raise_if_Err (b : bool) (e e' : E) : raise_if b e = Err e' <-> b = true /\ e = e'.
Proof. destruct b; simpl; split; [by intros [= ->]|by intros [_ ->]|done|by intros [? _]]. Qed.

Lemma rfor_Ok {A} (f : A -> result E unit) xs u :
  rfor f xs = Ok u <-> Forall (fun x => f x = Ok tt) xs.
Proof.
  destruct u. induction xs as [|x xs IH]; simpl; [by split|].
  rewrite rbind_Ok, Forall_cons, <- IH. split.
  - by intros ([] & ? & ?).
  - intros [? ?]. eauto.
Qed.

(** A failing loop fails at a first element, everything before having passed. *)
Lemma rfor_Err {A} (f : A -> result E unit) xs e :
  rfor f xs = Err e <->
  exists l1 x l2, xs = l1 ++ x :: l2 /\ Forall (fun x => f x = Ok tt) l1 /\ f x = Err e.
Proof.
  induction xs as [|x xs IH]; simpl.
  - split; [done|]. intros (l1 & x & l2 & H & _). by destruct l1.
  - rewrite rbind_Err. split.
    + intros [H | ([] & Hx & H)].
      * exists [], x, xs. by split_and!.
      * apply IH in H as (l1 & y & l2 & -> & ? & ?). exists (x :: l1), y, l2.
        split_and!; [done|by constructor|done].
    + intros (l1 & y & l2 & Heq & Hall & Hy). destruct l1 as [|z l1]; simplify_eq/=.
      * by left.
      * right. apply Forall_cons in Hall as [? ?]. exists tt. split; [done|].
        apply IH. exists l1, y, l2. by split_and!.
Qed.

Lemma rmap_Ok {A B} (f : A -> result E B) xs ys :
  rmap f xs = Ok ys <-> Forall2 (fun x y => f x = Ok y) xs ys.
Proof.
  revert ys. induction xs as [|x xs IH]; intros ys; simpl.
  - split; [by intros [= <-]|]. by intros ->%Forall2_nil_inv_l.
  - rewrite rbind_Ok. split.
    + intros (y & ? & (ys' & Hys & [= <-])%rbind_Ok). constructor; [done|]. by apply IH.
    + intros H. inversion H as [|? y ? ys' ? Hys]; subst. exists y. split; [done|].
      apply rbind_Ok. exists ys'. split; [by apply IH|done].
Qed.

Lemma rfold_inv {A S} (P : S -> Prop) (f : S -> A -> result E S) xs s s' :
  (forall s x s', x ∈ xs -> P s -> f s x = Ok s' -> P s') ->
  P s -> rfold f s xs = Ok s' -> P s'.
Proof.
  revert s. induction xs as [|x xs IH]; simpl; intros s Hf Hs; [by intros [= <-]|].
  rewrite rbind_Ok. intros (s1 & H1 & H2). eapply IH; [|by eapply (Hf s x); eauto; left|done].
  intros. eapply Hf; [|done..]. by right.
Qed.

Lemma rfold_app {A S} (f : S -> A -> result E S) xs ys s :
  rfold f s (xs ++ ys) = rbind (rfold f s xs) (fun s' => rfold f s' ys).
Proof.
  revert s. induction xs as [|x xs IH]; simpl; intros s; [done|].
  destruct (f s x); simpl; auto.
Qed.
End ResultLemmas.

Section StateLemmas.
Context {S E : Type}.

Lemma sbind_Ok {A B} (m : st S E A) (k : A -> st S E B) s b s' :
  sbind m k s = (Ok b, s') <-> exists a s1, m s = (Ok a, s1) /\ k a s1 = (Ok b, s').
Proof.
  unfold sbind. destruct (m s) as [[a|e] s1]; split.
  - eauto.
  - by intros (? & ? & [= <- <-] & ?).
  - done.
  - by intros (? & ? & ? & ?).
Qed.

Lemma sbind_inv {A B} (m : st S E A) (k : A -> st S E B) s r s' :
  sbind m k s = (r, s') ->
  (exists a s1, m s = (Ok a, s1) /\ k a s1 = (r, s')) \/ (exists e, m s = (Err e, s') /\ r = Err e).
Proof. unfold sbind. destruct (m s) as [[a|e] s1]; [eauto|]. intros [= <- <-]. eauto. Qed.

Lemma sbind_unfold {A B} (m : st S E A) (k : A -> st S E B) s :
  sbind m k s = match m s with (Ok a, s1) => k a s1 | (Err e, s1) => (Err e, s1) end.
Proof. unfold sbind. by destruct (m s) as [[] ?]. Qed.

Lemma sbind_lift {A B} (m : result E A) (k : A -> st S E B) s :
  sbind (slift m) k s = match m with Ok a => k a s | Err e => (Err e, s) end.
Proof. done. Qed.
(** A property of the state that every step of a loop keeps. *)
Lemma sfor_inv {A} (P : S -> Prop) (f : A -> st S E unit) xs s :
  (forall s x, x ∈ xs -> P s -> P (snd (f x s))) -> P s -> P (snd (sfor f xs s)).
Proof.
  revert s. induction xs as [|x xs IH]; intros s Hf Hs; [done|]. simpl. unfold sbind.
  pose proof (Hf s x ltac:(by left) Hs) as Hx. destruct (f x s) as [[[]|e] s1]; [|done].
  apply IH; [|done]. intros. apply Hf; [by right|done].
Qed.
End StateLemmas.

(** Inverts every successful monadic step among the hypotheses. *)
Ltac res_inv :=
  repeat match goal with
  | H : rbind _ _ = Ok _ |- _ => apply rbind_Ok in H as (? & ? & ?)
  | H : sbind _ _ _ = (Ok _, _) |- _ => apply sbind_Ok in H as (? & ? & ? & ?)
  | H : raise_if _ _ = Ok _ |- _ => apply raise_if_Ok in H
  | H : Ok _ = Ok _ |- _ => injection H as H; subst
  | H : Err _ = Ok _ |- _ => discriminate H
  | H : Ok _ = Err _ |- _ => discriminate H
  | x : unit |- _ => destruct x
  end.

(** Turns boolean guards into propositions. *)
Ltac bool_prop :=
  repeat match goal with
  | H : negb _ = false |- _ => apply negb_false_iff in H
  | H : negb _ = true |- _ => apply negb_true_iff in H
  | H : _ || _ = false |- _ => apply orb_false_iff in H as [? ?]
  | H : _ && _ = true |- _ => apply andb_true_iff in H as [? ?]
  | H : bool_decide _ = true |- _ => apply bool_decide_eq_true in H
  | H : bool_decide _ = false |- _ => apply bool_decide_eq_false in H
  | H : String.eqb _ _ = true |- _ => apply String.eqb_eq in H
  | H : String.eqb _ _ = false |- _ => apply String.eqb_neq in H
  | H : (_ <? _) = true |- _ => apply Z.ltb_lt in H
  | H : (_ <? _) = false |- _ => apply Z.ltb_ge in H
  | H : (_ <=? _) = true |- _ => apply Z.leb_le in H
  | H : (_ <=? _) = false |- _ => apply Z.leb_gt in H
  | H : (_ =? _) = true |- _ => apply Z.eqb_eq in H
  | H : (_ =? _) = false |- _ => apply Z.eqb_neq in H
  end.

(** ** Lemmas on strings *)

Lemma str_app_nil_l (s : string) : "" +:+ s = s.
Proof. done. Qed.

Lemma str_app_cons c (s t : string) : String c s +:+ t = String c (s +:+ t).
Proof. done. Qed.

Lemma str_app_nil_r (s : string) : s +:+ "" = s.
Proof. induction s as [|c s IH]; [done|]. by rewrite str_app_cons, IH. Qed.

Lemma str_app_assoc (s t u : string) : (s +:+ t) +:+ u = s +:+ t +:+ u.
Proof. induction s as [|c s IH]; [done|]. by rewrite !str_app_cons, IH. Qed.

Lemma chop_newline_spec s t : chop_newline s = Some t -> s = t +:+ String nl "".
Proof.
  revert t. induction s as [|c s IH]; intros t; [done|]. cbn [chop_newline]. destruct s as [|d s].
  - destruct (Ascii.eqb_spec c nl) as [->|]; [|done]. by intros [= <-].
  - destruct (chop_newline (String d s)) as [t'|]; [|done]. intros [= <-]. rewrite str_app_cons. by rewrite <- (IH t' eq_refl).
Qed.

Lemma length_str_app (s t : string) :
  String.length (s +:+ t) = (String.length s + String.length t)%nat.
Proof. induction s as [|c s IH]; [done|]. rewrite str_app_cons. simpl. by rewrite IH. Qed.

(** ** Lemmas on sorting *)

Lemma leb_false_flip s1 s2 : String.leb s1 s2 = false -> String.leb s2 s1 = true.
Proof. intros H. destruct (String.leb_total s1 s2) as [H'|H']; congruence. Qed.

Lemma leb_refl s : String.leb s s = true.
Proof. by destruct (String.leb_total s s). Qed.

Lemma leb_trans s1 s2 s3 :
  String.leb s1 s2 = true -> String.leb s2 s3 = true -> String.leb s1 s3 = true.
Proof.
  intros H1 H2. apply Is_true_true. apply (transitivity (R := String.le) (y := s2));
    by apply Is_true_true.
Qed.

Section SortLemmas.
Context {A : Type} (key : A -> string).

(** The order [sort_by key] sorts by. *)
Definition key_le (x y : A) : Prop := String.leb (key x) (key y) = true.

Lemma insert_by_perm x l : insert_by key x l ≡ₚ x :: l.
Proof.
  induction l as [|y l IH]; simpl; [done|].
  case_match; [done|]. rewrite IH. apply Permutation_swap.
Qed.

Lemma sort_by_perm l : sort_by key l ≡ₚ l.
Proof. induction l as [|x l IH]; simpl; [done|]. by rewrite insert_by_perm, IH. Qed.

Lemma insert_by_sorted x l :
  StronglySorted key_le l -> StronglySorted key_le (insert_by key x l).
Proof.
  induction l as [|y l IH]; simpl; intros Hs; [repeat constructor|].
  apply StronglySorted_inv in Hs as [Hs Hy]. destruct (String.leb (key x) (key y)) eqn:Hle.
  - constructor; [by constructor|]. constructor; [done|].
    eapply Forall_impl; [done|]. intros z Hz. by eapply leb_trans.
  - constructor; [by apply IH|]. rewrite insert_by_perm. constructor; [|done].
    by apply leb_false_flip.
Qed.

Lemma sort_by_sorted l : StronglySorted key_le (sort_by key l).
Proof. induction l; simpl; [constructor|]. by apply insert_by_sorted. Qed.

Lemma elem_of_sort_by x l : x ∈ sort_by key l <-> x ∈ l.
Proof. by rewrite sort_by_perm. Qed.

Lemma length_sort_by l : length (sort_by key l) = length l.
Proof. by rewrite sort_by_perm. Qed.

(** With distinct keys the sorted list depends on the elements only. *)
Lemma sort_by_unique l1 l2 :
  NoDup (map key l1) -> l1 ≡ₚ l2 -> sort_by key l1 = sort_by key l2.
Proof.
  intros Hnd Hp. apply (StronglySorted_unique_strong key_le).
  - intros x1 x2 Hx1 Hx2 H12 H21. unfold key_le in *.
    rewrite elem_of_sort_by in Hx1, Hx2. rewrite <- Hp in Hx2.
    apply String.leb_antisym in H12; [|done]. clear H21 Hp l2.
    induction l1 as [|y l1 IH]; simpl in *; [by apply not_elem_of_nil in Hx1|].
    apply NoDup_cons in Hnd as [Hy Hnd]. apply elem_of_cons in Hx1, Hx2.
    destruct Hx1 as [->|Hx1], Hx2 as [->|Hx2]; [done| | |by apply IH]; exfalso; apply Hy.
    + rewrite <- H12. by apply list_elem_of_fmap_2.
    + rewrite H12. by apply list_elem_of_fmap_2.
  - apply sort_by_sorted.
  - apply sort_by_sorted.
  - by rewrite !sort_by_perm.
Qed.

Lemma sort_by_id l : StronglySorted key_le l -> sort_by key l = l.
Proof.
  induction l as [|x l IH]; simpl; [done|]. intros Hs. apply StronglySorted_inv in Hs as [Hs Hx].
  rewrite IH by done. destruct l as [|y l]; simpl; [done|].
  apply Forall_cons in Hx as [Hx _]. unfold key_le in Hx. by rewrite Hx.
Qed.
End SortLemmas.

(** The sort is stable: elements with the same key keep their order. *)
Lemma filter_insert_by {A} (key : A -> string) t x l :
  filter (fun y => key y = t) (insert_by key x l) = filter (fun y => key y = t) (x :: l).
Proof.
  induction l as [|y l IH]; simpl; [done|].
  destruct (String.leb (key x) (key y)) eqn:Hle; [done|].
  rewrite filter_cons, IH, !filter_cons.
  destruct (decide (key y = t)) as [Hy|Hy], (decide (key x = t)) as [Hx|Hx]; try done.
  exfalso. rewrite Hx, Hy, leb_refl in Hle. done.
Qed.

Lemma sort_by_stable {A} (key : A -> string) t l :
  filter (fun y => key y = t) (sort_by key l) = filter (fun y => key y = t) l.
Proof.
  induction l as [|x l IH]; simpl; [done|].
  rewrite filter_insert_by, !filter_cons, IH. done.
Qed.

Lemma insert_by_map {A B} (f : A -> B) (keyA : A -> string) (keyB : B -> string) x l :
  (forall y, keyB (f y) = keyA y) ->
  insert_by keyB (f x) (map f l) = map f (insert_by keyA x l).
Proof.
  intros Hk. induction l as [|y l IH]; simpl; [done|].
  rewrite !Hk, IH. by destruct (String.leb (keyA x) (keyA y)).
Qed.

(** Sorting commutes with a map that keeps the keys. *)
Lemma sort_by_map {A B} (f : A -> B) (keyA : A -> string) (keyB : B -> string) l :
  (forall y, keyB (f y) = keyA y) -> sort_by keyB (map f l) = map f (sort_by keyA l).
Proof.
  intros Hk. induction l as [|x l IH]; simpl; [done|].
  by rewrite IH, (insert_by_map _ keyA).
Qed.

Lemma elem_of_sort_str x l : x ∈ sort_str l <-> x ∈ l.
Proof. apply elem_of_sort_by. Qed.

Lemma sort_str_perm l1 l2 : l1 ≡ₚ l2 -> sort_str l1 = sort_str l2.
Proof.
  intros Hp. apply (StronglySorted_unique_strong (key_le id)).
  - intros x1 x2 _ _ H12 H21. by apply String.leb_antisym in H12.
  - apply sort_by_sorted.
  - apply sort_by_sorted.
  - unfold sort_str. by rewrite !sort_by_perm.
Qed.

Lemma str_in_elem x l : str_in x l = true <-> x ∈ l.
Proof.
  unfold str_in. rewrite existsb_exists. split.
  - intros (y & Hy & ->%String.eqb_eq). by apply list_elem_of_In.
  - intros H. exists x. split; [by apply list_elem_of_In|]. apply String.eqb_refl.
Qed.

Lemma str_in_false x l : str_in x l = false <-> x ∉ l.
Proof. rewrite <- str_in_elem. destruct (str_in x l); naive_solver. Qed.

(** ** Lemmas on dicts *)

Section DictLemmas.
Context {V : Type}.
Implicit Types (d : list (string * V)) (k : string) (v : V).

Lemma dget_dset_eq k v d : dget k (dset k v d) = Some v.
Proof.
  induction d as [|[k' v'] d IH]; simpl; [by rewrite String.eqb_refl|].
  destruct (String.eqb k k') eqn:Hk; simpl; [by rewrite String.eqb_refl|]. by rewrite Hk.
Qed.

Lemma dget_dset_ne k k' v d : k <> k' -> dget k' (dset k v d) = dget k' d.
Proof.
  intros Hne. induction d as [|[k0 v0] d IH]; simpl.
  - destruct (String.eqb_spec k' k); congruence.
  - destruct (String.eqb_spec k k0); simpl; subst.
    + destruct (String.eqb_spec k' k0); congruence.
    + destruct (String.eqb k' k0); auto.
Qed.

Lemma dget_elem k v d : dget k d = Some v -> (k, v) ∈ d.
Proof.
  induction d as [|[k' v'] d IH]; simpl; [done|].
  destruct (String.eqb_spec k k'); [intros [= ->]; subst; by left|]. right. auto.
Qed.

Lemma dget_None k d : dget k d = None <-> k ∉ dkeys d.
Proof.
  induction d as [|[k' v'] d IH]; simpl.
  - split; [intros _; apply not_elem_of_nil|done].
  - rewrite not_elem_of_cons. destruct (String.eqb_spec k k'); subst.
    + split; [done|]. by intros [? _].
    + rewrite IH. naive_solver.
Qed.

Lemma dhas_elem k d : dhas k d = true <-> k ∈ dkeys d.
Proof.
  unfold dhas. destruct (dget k d) eqn:H.
  - split; [intros _|done]. apply dget_elem in H. by apply (list_elem_of_fmap_2 fst) in H.
  - apply dget_None in H. by split.
Qed.

Lemma dget_NoDup k v d : NoDup (dkeys d) -> (k, v) ∈ d -> dget k d = Some v.
Proof.
  induction d as [|[k' v'] d IH]; simpl; intros Hnd Hin; [by apply not_elem_of_nil in Hin|].
  apply NoDup_cons in Hnd as [Hk Hnd]. apply elem_of_cons in Hin as [[= -> ->]|Hin].
  - by rewrite String.eqb_refl.
  - destruct (String.eqb_spec k k'); [subst|auto]. exfalso. apply Hk.
    by apply (list_elem_of_fmap_2 fst) in Hin.
Qed.

Lemma dkeys_dset k v d : k ∈ dkeys d -> dkeys (dset k v d) = dkeys d.
Proof.
  induction d as [|[k' v'] d IH]; simpl; intros Hin; [by apply not_elem_of_nil in Hin|].
  destruct (String.eqb_spec k k'); simpl; [by subst|].
  apply elem_of_cons in Hin as [?|?]; [done|]. f_equal. auto.
Qed.

Lemma dkeys_dset_new k v d : k ∉ dkeys d -> dset k v d = d ++ [(k, v)].
Proof.
  induction d as [|[k' v'] d IH]; simpl; intros Hin; [done|].
  apply not_elem_of_cons in Hin as [? ?]. destruct (String.eqb_spec k k'); [done|].
  by rewrite IH.
Qed.

Lemma NoDup_dset k v d : NoDup (dkeys d) -> NoDup (dkeys (dset k v d)).
Proof.
  intros Hnd. destruct (decide (k ∈ dkeys d)) as [Hin|Hin].
  - by rewrite dkeys_dset.
  - rewrite dkeys_dset_new by done. unfold dkeys. rewrite map_app. simpl.
    apply NoDup_app. split; [done|]. split; [|apply NoDup_singleton].
    intros x Hx ->%list_elem_of_singleton. by apply Hin.
Qed.
End DictLemmas.

Section DictPerm.
Context {V : Type}.
Implicit Types d : list (string * V).

(** With distinct keys, lookup does not depend on the order of the items. *)
Lemma dget_perm k d1 d2 : NoDup (dkeys d1) -> d1 ≡ₚ d2 -> dget k d1 = dget k d2.
Proof.
  intros Hnd Hp. destruct (dget k d1) as [v|] eqn:H1.
  - symmetry. apply dget_NoDup; [by rewrite <- (Permutation_map fst Hp)|].
    rewrite <- Hp. by apply dget_elem.
  - symmetry. apply dget_None. apply dget_None in H1. unfold dkeys in *.
    by rewrite <- (Permutation_map fst Hp).
Qed.

Lemma dget_sort_items k d : NoDup (dkeys d) -> dget k (sort_items d) = dget k d.
Proof. intros Hnd. symmetry. apply dget_perm; [done|]. symmetry. apply sort_by_perm. Qed.

Lemma dget_map {W} (f : V -> W) k d :
  dget k (map (fun '(k, x) => (k, f x)) d) = f <$> dget k d.
Proof. induction d as [|[k' x] d IH]; simpl; [done|]. by destruct (String.eqb k k'). Qed.
End DictPerm.

(** Two tests that agree on the elements of a list filter it alike. *)
Lemma filter_ext_in {A} (P Q : A -> Prop) `{!forall x, Decision (P x), !forall x, Decision (Q x)} (l : list A) :
  (forall x, x ∈ l -> P x <-> Q x) -> filter P l = filter Q l.
Proof.
  induction l as [|x l IH]; intros Hpq; [done|]. rewrite !filter_cons.
  rewrite IH by (intros; apply Hpq; by right). pose proof (Hpq x ltac:(by left)).
  destruct (decide (P x)), (decide (Q x)); tauto.
Qed.

Create HintDb hermes.

Lemma filter_length_mono {A} (p q : A -> bool) l :
  (forall x, p x = true -> q x = true) -> (length (List.filter p l) <= length (List.filter q l))%nat.
Proof.
  intros H. induction l as [|x l IH]; simpl; [lia|].
  destruct (p x) eqn:E; simpl; [rewrite (H _ E); simpl; lia|]. destruct (q x); simpl; lia.
Qed.

Lemma filter_length_strict {A} (p q : A -> bool) l x :
  (forall y, p y = true -> q y = true) -> x ∈ l -> p x = false -> q x = true ->
  (length (List.filter p l) < length (List.filter q l))%nat.
Proof.
  intros H Hx Hp Hq. induction l as [|y l IH]; [by apply not_elem_of_nil in Hx|].
  simpl. pose proof (filter_length_mono p q l H). apply elem_of_cons in Hx as [<-|Hx].
  - rewrite Hp, Hq. simpl. lia.
  - specialize (IH Hx). destruct (p y) eqn:E; [rewrite (H _ E); simpl; lia|]. destruct (q y); simpl; lia.
Qed.

#[export] Hint Resolve sort_by_sorted NoDup_dset leb_refl : hermes.

(** ** Distinct images *)

Lemma NoDup_map_eq {A B} (f : A -> B) l x y : NoDup (map f l) -> x ∈ l -> y ∈ l -> f x = f y -> x = y.
Proof.
  intros Hl [i Hi]%list_elem_of_lookup [j Hj]%list_elem_of_lookup Hf.
  assert (i = j) as ->; [|congruence].
  apply (proj1 (NoDup_alt _) Hl i j (f x)); rewrite list_lookup_fmap.
  - by rewrite Hi.
  - by rewrite Hj, Hf.
Qed.

(** Distinctness passes from one key of the elements to another that determines it. *)
Lemma NoDup_map_along {A B C} (f : A -> B) (g : A -> C) l :
  NoDup (map f l) -> (forall x y, x ∈ l -> y ∈ l -> g x = g y -> f x = f y) -> NoDup (map g l).
Proof.
  intros Hl Hg. apply NoDup_alt. intros i j c. rewrite !list_lookup_fmap.
  destruct (l !! i) as [x|] eqn:Hi; [|done]. destruct (l !! j) as [y|] eqn:Hj; [|done].
  intros [= <-] [= Hy]. apply (proj1 (NoDup_alt _) Hl i j (f x)); rewrite list_lookup_fmap, ?Hi, ?Hj; [done|].
  cbn. f_equal. apply Hg; [by eapply list_elem_of_lookup_2..|done].
Qed.
