(* ===== verification/PyText.v ===== *)
(** * Python text operations shared by the registries and the mutation stages

    A Python [str] is its UTF-8 bytes.  [str.strip] removes Unicode white space, so white space is
    recognised on the one-, two- and three-byte encodings of its code points. *)
From S2P Require Import Prelude.

(** ** White space: the code points for which [str.isspace] holds *)

Definition space1 (c : ascii) : bool := between 9 13 c || between 28 32 c.
Definition space2 (c d : ascii) : bool :=
  (code c =? 194) && ((code d =? 133) || (code d =? 160)).
Definition space3 (c d e : ascii) : bool :=
  ((code c =? 225) && (code d =? 154) && (code e =? 128))
  || ((code c =? 226) && (code d =? 128)
      && (between 128 138 e || (code e =? 168) || (code e =? 169) || (code e =? 175)))
  || ((code c =? 226) && (code d =? 129) && (code e =? 159))
  || ((code c =? 227) && (code d =? 128) && (code e =? 128)).

(** [s.lstrip()] *)
Fixpoint lstrip (s : string) : string :=
  match s with
  | EmptyString => EmptyString
  | String c s1 =>
      if space1 c then lstrip s1
      else
        match s1 with
        | EmptyString => s
        | String d s2 =>
            if space2 c d then lstrip s2
            else
              match s2 with
              | EmptyString => s
              | String e s3 => if space3 c d e then lstrip s3 else s
              end
        end
  end.

(** Only white space; a continuation byte never starts a code point, so the test is exact on any
    suffix of the bytes. *)
Definition blank (s : string) : bool := String.eqb (lstrip s) "".

(** [s.rstrip()] *)
Fixpoint rstrip (s : string) : string :=
  if blank s then ""
  else match s with EmptyString => "" | String c s' => String c (rstrip s') end.

Definition py_strip (s : string) : string := rstrip (lstrip s).

(** [any(char.isspace() for char in s)] *)
Fixpoint has_space (s : string) : bool :=
  match s with
  | EmptyString => false
  | String c s1 =>
      space1 c
      || match s1 with
         | EmptyString => false
         | String d s2 =>
             space2 c d || match s2 with EmptyString => false | String e _ => space3 c d e end
         end
      || has_space s1
  end.

(** [s.endswith(suffix)] *)
Definition ends_with (suffix s : string) : bool :=
  String.eqb (String.substring (String.length s - String.length suffix) (String.length suffix) s)
    suffix.

(** [s.count(c)] for one character. *)
Fixpoint count_char (c : ascii) (s : string) : Z :=
  match s with
  | EmptyString => 0
  | String d s' => (if Ascii.eqb c d then 1 else 0) + count_char c s'
  end.

(** [re.split("[...]", s)] for a class of single characters. *)
Fixpoint split_any (p : ascii -> bool) (s : string) : list string :=
  match s with
  | EmptyString => [""]
  | String c rest =>
      if p c then "" :: split_any p rest
      else match split_any p rest with
           | w :: ws => String c w :: ws
           | [] => [String c ""]
           end
  end.

(** ** Character classes of the patterns; all of them are ASCII, so bytes and characters agree *)

Definition is_lower (c : ascii) : bool := between 97 122 c.
Definition is_upper (c : ascii) : bool := between 65 90 c.
Definition is_num (c : ascii) : bool := between 48 57 c.
Definition is_alnum (c : ascii) : bool := is_lower c || is_upper c || is_num c.
Definition is_hex (c : ascii) : bool := is_num c || between 97 102 c.

Definition one_of (cs : string) (c : ascii) : bool := string_existsb (Ascii.eqb c) cs.

Definition all_chars (p : ascii -> bool) (s : string) : bool := string_forallb p s.

(** [first][rest]{0,max_rest} *)
Definition first_rest (first rest : ascii -> bool) (max_rest : Z) (s : string) : bool :=
  match s with
  | EmptyString => false
  | String c s' => first c && all_chars rest s' && (byte_len s' <=? max_rest)
  end.

(** [first]([rest]*[last])? *)
Definition bracketed (outer inner : ascii -> bool) (s : string) : bool :=
  match s with
  | EmptyString => false
  | String c s' => outer c && all_chars inner s' && match String.get (String.length s' - 1) s' with
                                                   | Some l => outer l
                                                   | None => true
                                                   end
  end.

(** ** Lemmas *)

Lemma all_chars_impl (p q : ascii -> bool) s :
  (forall c, p c = true -> q c = true) -> all_chars p s = true -> all_chars q s = true.
Proof.
  intros H. induction s as [|c s IH]; simpl; [done|].
  rewrite !andb_true_iff. intros [? ?]. auto.
Qed.

Lemma all_chars_cons p c s : all_chars p (String c s) = p c && all_chars p s.
Proof. done. Qed.

Lemma all_chars_app p s t : all_chars p (s +:+ t) = all_chars p s && all_chars p t.
Proof. induction s as [|c s IH]; [done|]. rewrite str_app_cons. simpl. by rewrite IH, andb_assoc. Qed.

(** Characters that neither [strip] nor [lower] touches. *)
Definition inert (c : ascii) : bool := between 33 126 c && negb (is_upper c).

Lemma inert_not_space c d e :
  inert c = true -> space1 c = false /\ space2 c d = false /\ space3 c d e = false
  /\ lower_char c = c /\ (code c =? 226) = false.
Proof.
  unfold inert, space1, space2, space3, between, lower_char, between, is_upper, between.
  intros H. bool_prop.
  assert (Hb : forall b : bool, (b = true -> False) -> b = false) by (intros []; [intros Hf; by destruct Hf|done]).
  split_and!; try done; try (apply Hb; rewrite ?orb_true_iff, ?andb_true_iff, ?Z.leb_le, ?Z.eqb_eq; intros; lia).
  by rewrite H0.
Qed.

Lemma lstrip_inert s : all_chars inert s = true -> lstrip s = s.
Proof.
  destruct s as [|c s]; [done|]. rewrite all_chars_cons, andb_true_iff. intros [Hc _].
  destruct s as [|d s].
  - destruct (inert_not_space c c c Hc) as (H1 & _). simpl. by rewrite H1.
  - destruct s as [|e s].
    + destruct (inert_not_space c d c Hc) as (H1 & H2 & _). simpl. by rewrite H1, H2.
    + destruct (inert_not_space c d e Hc) as (H1 & H2 & H3 & _). simpl. by rewrite H1, H2, H3.
Qed.

Lemma rstrip_inert s : all_chars inert s = true -> rstrip s = s.
Proof.
  induction s as [|c s IH]; [done|]. intros H. cbn [rstrip].
  unfold blank. rewrite lstrip_inert by done. simpl.
  rewrite all_chars_cons, andb_true_iff in H. destruct H as [_ H]. by rewrite (IH H).
Qed.

Lemma strip_inert s : all_chars inert s = true -> py_strip s = s.
Proof. intros H. unfold py_strip. rewrite (lstrip_inert s H). exact (rstrip_inert s H). Qed.

Lemma lower_inert s : all_chars inert s = true -> lower s = s.
Proof.
  induction s as [|c s IH]; [done|]. rewrite all_chars_cons, andb_true_iff. intros [Hc Hs].
  destruct (inert_not_space c c c Hc) as (_ & _ & _ & Hl & Hk).
  pose proof (IH Hs) as E. destruct s as [|d [|e s]]; cbn [lower] in *; rewrite ?Hk; cbn [andb];
    by rewrite Hl, ?E.
Qed.

Example strip_example :
  (py_strip "  a b	", py_strip (String "194" (String "160" "x ")), py_strip "") = ("a b", "x", "").
Proof. by vm_compute. Qed.
