(* ===== verification/PyValue.v ===== *)
(** * Python values: the [Any]-typed data that flows through plans, results and checkpoints.

    [VList] stands for both lists and tuples, [VFloat m e] is the finite float [m * 2^e], and
    [VOther] is an object of any other type, compared by identity.  Dict keys are strings. *)
From S2P Require Import Prelude.

Unset Elimination Schemes.
Inductive value : Type :=
| VNone
| VBool (b : bool)
| VInt (z : Z)
| VStr (s : string)
| VFloat (m e : Z)
| VList (l : list value)
| VDict (d : list (string * value))
| VOther (ident : Z).
Set Elimination Schemes.

(** Induction with the hypothesis for every element of a list or dict. *)
Section ValueInd.
Variable P : value -> Prop.
Hypotheses (Hnone : P VNone) (Hbool : forall b, P (VBool b)) (Hint : forall z, P (VInt z))
  (Hstr : forall s, P (VStr s)) (Hfloat : forall m e, P (VFloat m e))
  (Hlist : forall l, Forall P l -> P (VList l))
  (Hdict : forall d, Forall (fun kv => P (snd kv)) d -> P (VDict d))
  (Hother : forall i, P (VOther i)).

Fixpoint value_ind (v : value) : P v :=
  match v with
  | VNone => Hnone
  | VBool b => Hbool b
  | VInt z => Hint z
  | VStr s => Hstr s
  | VFloat m e => Hfloat m e
  | VList l =>
      Hlist l ((fix go l : Forall P l :=
                  match l with
                  | [] => Forall_nil_2 _
                  | x :: xs => Forall_cons_2 _ _ _ (value_ind x) (go xs)
                  end) l)
  | VDict d =>
      Hdict d ((fix go d : Forall (fun kv => P (snd kv)) d :=
                  match d with
                  | [] => Forall_nil_2 _
                  | kv :: rest => Forall_cons_2 _ _ _ (value_ind (snd kv)) (go rest)
                  end) d)
  | VOther i => Hother i
  end.
End ValueInd.

Fixpoint value_eq_dec (v w : value) : {v = w} + {v <> w}.
Proof.
  refine (
    match v, w with
    | VNone, VNone => left eq_refl
    | VBool a, VBool b => cast_if (decide (a = b))
    | VInt a, VInt b => cast_if (decide (a = b))
    | VStr a, VStr b => cast_if (decide (a = b))
    | VFloat m e, VFloat m' e' => cast_if_and (decide (m = m')) (decide (e = e'))
    | VList a, VList b => cast_if (@list_eq_dec _ value_eq_dec a b)
    | VDict a, VDict b =>
        cast_if (@list_eq_dec _ (@prod_eq_dec _ String.eq_dec _ value_eq_dec) a b)
    | VOther a, VOther b => cast_if (decide (a = b))
    | _, _ => right _
    end); clear value_eq_dec; abstract congruence.
Defined.
#[export] Instance value_eqdec : EqDecision value := value_eq_dec.

(** The exact numeric value of a bool, int or float, as mantissa and exponent. *)
Definition number_of (v : value) : option (Z * Z) :=
  match v with
  | VBool b => Some (if b then 1 else 0, 0)
  | VInt z => Some (z, 0)
  | VFloat m e => Some (m, e)
  | _ => None
  end.

Definition number_eqb (a b : Z * Z) : bool :=
  let low := Z.min (snd a) (snd b) in
  fst a * 2 ^ (snd a - low) =? fst b * 2 ^ (snd b - low).

(** An optional string: [None] or the text. *)
Definition vopt (o : option string) : value := match o with Some s => VStr s | None => VNone end.

(** Truth value of a JSON value. *)
Definition truthy (v : value) : bool :=
  match v with
  | VNone => false
  | VBool b => b
  | VInt z => negb (z =? 0)
  | VStr s => negb (String.eqb s "")
  | VFloat m _ => negb (m =? 0)
  | VList l => negb (bool_decide (l = []))
  | VDict d => negb (bool_decide (d = []))
  | VOther _ => true
  end.

(** Python's [==]: [True == 1 == 1.0]; dicts compare as maps. *)
Fixpoint py_eq (v w : value) : bool :=
  match v, w with
  | VNone, VNone => true
  | VStr a, VStr b => String.eqb a b
  | VList a, VList b =>
      (fix go a b := match a, b with
                     | [], [] => true
                     | x :: a', y :: b' => py_eq x y && go a' b'
                     | _, _ => false
                     end) a b
  | VDict a, VDict b =>
      (Z.of_nat (length a) =? Z.of_nat (length b)) &&
      (fix go a := match a with
                   | [] => true
                   | (k, x) :: a' =>
                       match dget k b with Some y => py_eq x y | None => false end && go a'
                   end) a
  | VOther i, VOther j => i =? j
  | _, _ =>
      match number_of v, number_of w with
      | Some m, Some n => number_eqb m n
      | _, _ => false
      end
  end.

Example py_eq_bool_int : py_eq (VBool true) (VInt 1) = true.
Proof. reflexivity. Qed.

Example py_eq_float_int : py_eq (VFloat 4 (-2)) (VBool true) = true.
Proof. reflexivity. Qed.

Example py_eq_dict_order :
  py_eq (VDict [("a", VInt 1); ("b", VNone)]) (VDict [("b", VNone); ("a", VInt 1)]) = true.
Proof. reflexivity. Qed.

(** Python dicts have distinct keys; the association lists standing for them must. *)
Fixpoint wf_value (v : value) : Prop :=
  match v with
  | VList l => (fix go l := match l with [] => True | x :: xs => wf_value x /\ go xs end) l
  | VDict d =>
      NoDup (dkeys d) /\
      (fix go d := match d with [] => True | (_, x) :: xs => wf_value x /\ go xs end) d
  | _ => True
  end.

Lemma wf_list l : wf_value (VList l) <-> Forall wf_value l.
Proof.
  induction l as [|x l IH]; [by split|].
  rewrite Forall_cons, <- IH. done.
Qed.

Lemma wf_dict d :
  wf_value (VDict d) <-> NoDup (dkeys d) /\ Forall (fun kv => wf_value (snd kv)) d.
Proof.
  simpl. apply and_iff_compat_l. induction d as [|[k x] d IH]; [by split|].
  rewrite Forall_cons, <- IH. done.
Qed.
