(* ===== verification/Canonical.v ===== *)
(** * Canonical JSON ([v2/canonical.py])

    [canonical_json_text] is [json.dumps] with sorted keys, fixed separators and no escaping
    of non-ASCII text, guarded by [_validate].  [json_loads] reads back the canonical subset
    of JSON; the round trip shows that the canonical text determines the value up to the
    order of dict keys. *)
From S2P Require Import Prelude.
From S2P Require Import PyValue.

(** The built-in exceptions the modelled code lets escape. *)
Inductive py_error : Type := TypeError | ValueError | KeyError | AttributeError
| AssertionError.

(** [_validate] *)
Fixpoint validate (v : value) : result py_error unit :=
  match v with
  | VBool _ | VNone | VInt _ | VStr _ => Ok tt
  | VFloat _ _ => Err TypeError
  | VDict d => rfor (fun kv => validate (snd kv)) d
  | VList l => rfor validate l
  | VOther _ => Err TypeError
  end.

Definition hex_digit (n : Z) : string :=
  String (Ascii.ascii_of_N (Z.to_N (if n <? 10 then 48 + n else 87 + n))) "".

(** One character inside a JSON string literal. *)
Definition escape_char (c : ascii) : string :=
  let n := code c in
  if n =? 34 then "\" +:+ String c ""
  else if n =? 92 then "\\"
  else if n =? 8 then "\b"
  else if n =? 12 then "\f"
  else if n =? 10 then "\n"
  else if n =? 13 then "\r"
  else if n =? 9 then "\t"
  else if n <? 32 then "\u00" +:+ hex_digit (n / 16) +:+ hex_digit (n mod 16)
  else String c "".

Fixpoint escape (s : string) : string :=
  match s with
  | EmptyString => EmptyString
  | String c rest => escape_char c +:+ escape rest
  end.

Definition dquote : string := String (Ascii.ascii_of_nat 34) "".
Definition quote (s : string) : string := dquote +:+ escape s +:+ dquote.

(** The elements of an array or object, comma separated. *)
Definition commas : list string -> string := join ",".

(** [json.dumps(..., sort_keys=True, separators=(",", ":"), ensure_ascii=False)]; floats and
    foreign objects never reach it because [validate] has refused them. *)
Fixpoint json_dumps (v : value) : string :=
  match v with
  | VNone => "null"
  | VBool b => if b then "true" else "false"
  | VInt z => pretty z
  | VStr s => quote s
  | VList l => "[" +:+ commas (map json_dumps l) +:+ "]"
  | VDict d =>
      let texts := sort_items (map (fun '(k, x) => (k, json_dumps x)) d) in
      "{" +:+ commas (map (fun '(k, t) => quote k +:+ ":" +:+ t) texts) +:+ "}"
  | VFloat _ _ | VOther _ => ""
  end.

Definition canonical_json_text (payload : value) : result py_error string :=
  do! validate payload in Ok (json_dumps payload).

(** Strings are already UTF-8 bytes, so encoding is the identity. *)
Definition canonical_json_bytes (payload : value) : result py_error string :=
  canonical_json_text payload.

Example canonical_sorts_keys :
  canonical_json_text (VDict [("b", VList [VInt (-12); VBool true]); ("a", VStr "x")])
  = Ok (String.concat dquote ["{"; "a"; ":"; "x"; ","; "b"; ":[-12,true]}"]).
Proof. vm_compute. reflexivity. Qed.

(** Values that have a canonical text. *)
Definition valid (v : value) : Prop := validate v = Ok tt.

Lemma valid_list l : valid (VList l) <-> Forall valid l.
Proof. apply (rfor_Ok validate). Qed.

Lemma valid_dict d : valid (VDict d) <-> Forall (fun kv => valid (snd kv)) d.
Proof. apply (rfor_Ok (fun kv => validate (snd kv))). Qed.

Lemma valid_text v : valid v -> canonical_json_bytes v = Ok (json_dumps v).
Proof. unfold canonical_json_bytes, canonical_json_text. by intros ->. Qed.

Lemma text_valid v t : canonical_json_bytes v = Ok t -> valid v /\ t = json_dumps v.
Proof. unfold canonical_json_bytes, canonical_json_text. intros H. by res_inv. Qed.

(** The value a canonical text denotes: every dict with its keys in order. *)
Fixpoint normal (v : value) : value :=
  match v with
  | VList l => VList (map normal l)
  | VDict d => VDict (sort_items (map (fun '(k, x) => (k, normal x)) d))
  | _ => v
  end.

(** ** Reading canonical JSON back *)

Definition is_digit (c : ascii) : bool := between 48 57 c.
Definition digit_val (c : ascii) : N := Ascii.N_of_ascii c - 48.

Definition hex_val (c : ascii) : option Z :=
  if between 48 57 c then Some (code c - 48)
  else if between 97 102 c then Some (code c - 87)
  else None.

(** The character a two-letter escape stands for. *)
Definition unescape (c : ascii) : option ascii :=
  let n := code c in
  if (n =? 34) || (n =? 92) then Some c
  else if n =? 98 then Some (Ascii.ascii_of_nat 8)
  else if n =? 102 then Some (Ascii.ascii_of_nat 12)
  else if n =? 110 then Some (Ascii.ascii_of_nat 10)
  else if n =? 114 then Some (Ascii.ascii_of_nat 13)
  else if n =? 116 then Some (Ascii.ascii_of_nat 9)
  else None.

Definition cons_fst (c : ascii) (r : option (string * string)) : option (string * string) :=
  '(s, rest) ← r; Some (String c s, rest).

(** The body of a string literal, after the opening quote. *)
Fixpoint read_string (s : string) : option (string * string) :=
  match s with
  | EmptyString => None
  | String c rest =>
      if code c =? 34 then Some ("", rest)
      else if code c =? 92 then
        match rest with
        | EmptyString => None
        | String e rest' =>
            if code e =? 117 then
              match rest' with
              | String z1 (String z2 (String h1 (String h2 rest''))) =>
                  x ← hex_val h1; y ← hex_val h2;
                  if (code z1 =? 48) && (code z2 =? 48) && (16 * x + y <? 128) then
                    cons_fst (Ascii.ascii_of_N (Z.to_N (16 * x + y))) (read_string rest'')
                  else None
              | _ => None
              end
            else ch ← unescape e; cons_fst ch (read_string rest')
        end
      else cons_fst c (read_string rest)
  end.

Fixpoint read_digits (acc : N) (s : string) : N * string :=
  match s with
  | String c rest => if is_digit c then read_digits (acc * 10 + digit_val c) rest else (acc, s)
  | EmptyString => (acc, s)
  end.

Definition read_number (s : string) : option (value * string) :=
  match s with
  | EmptyString => None
  | String c rest =>
      if code c =? 45 then
        match rest with
        | String d _ =>
            if is_digit d then let '(n, r) := read_digits 0 rest in Some (VInt (- Z.of_N n), r)
            else None
        | EmptyString => None
        end
      else if is_digit c then let '(n, r) := read_digits 0 s in Some (VInt (Z.of_N n), r)
      else None
  end.

Fixpoint strip_prefix (p s : string) : option string :=
  match p, s with
  | EmptyString, _ => Some s
  | String a p', String b s' => if Ascii.eqb a b then strip_prefix p' s' else None
  | _, _ => None
  end.

(** Recursive descent; the fuel bounds the nesting plus the width, and the length of the
    text is always enough. *)
Fixpoint read_value (n : nat) (s : string) : option (value * string) :=
  match n with
  | O => None
  | S n =>
      match s with
      | EmptyString => None
      | String c rest =>
          if code c =? 110 then r ← strip_prefix "null" s; Some (VNone, r)
          else if code c =? 116 then r ← strip_prefix "true" s; Some (VBool true, r)
          else if code c =? 102 then r ← strip_prefix "false" s; Some (VBool false, r)
          else if code c =? 34 then '(t, r) ← read_string rest; Some (VStr t, r)
          else if code c =? 91 then
            match strip_prefix "]" rest with
            | Some r => Some (VList [], r)
            | None => '(l, r) ← read_elems n rest; Some (VList l, r)
            end
          else if code c =? 123 then
            match strip_prefix "}" rest with
            | Some r => Some (VDict [], r)
            | None => '(d, r) ← read_items n rest; Some (VDict d, r)
            end
          else read_number s
      end
  end
with read_elems (n : nat) (s : string) : option (list value * string) :=
  match n with
  | O => None
  | S n =>
      '(v, r) ← read_value n s;
      match strip_prefix "," r with
      | Some r' => '(l, r'') ← read_elems n r'; Some (v :: l, r'')
      | None => r' ← strip_prefix "]" r; Some ([v], r')
      end
  end
with read_items (n : nat) (s : string) : option (list (string * value) * string) :=
  match n with
  | O => None
  | S n =>
      r0 ← strip_prefix dquote s;
      '(k, r1) ← read_string r0;
      r2 ← strip_prefix ":" r1;
      '(v, r) ← read_value n r2;
      match strip_prefix "," r with
      | Some r' => '(d, r'') ← read_items n r'; Some ((k, v) :: d, r'')
      | None => r' ← strip_prefix "}" r; Some ([(k, v)], r')
      end
  end.

(** [json.loads] on canonical text. *)
Definition json_loads (s : string) : option value :=
  '(v, r) ← read_value (String.length s) s;
  if String.eqb r "" then Some v else None.

Example loads_dumps_example :
  json_loads (json_dumps (VDict [("b", VList [VInt (-120); VNone; VStr "q\"]); ("a", VDict [])]))
  = Some (VDict [("a", VDict []); ("b", VList [VInt (-120); VNone; VStr "q\"])]).
Proof. vm_compute. reflexivity. Qed.

(** ** The round trip *)

Lemma strip_prefix_app p s : strip_prefix p (p +:+ s) = Some s.
Proof.
  induction p as [|c p IH]; [done|]. rewrite str_app_cons. simpl. by rewrite Ascii.eqb_refl.
Qed.

Lemma read_string_escape_char c t :
  read_string (escape_char c +:+ t) = cons_fst c (read_string t).
Proof. destruct c as [[] [] [] [] [] [] [] []]; reflexivity. Qed.

Lemma read_string_escape s rest :
  read_string (escape s +:+ dquote +:+ rest) = Some (s, rest).
Proof.
  induction s as [|c s IH]; [done|]. simpl.
  rewrite str_app_assoc, read_string_escape_char, IH. done.
Qed.

(** What follows a number in canonical text never continues it. *)
Definition no_digit (s : string) : Prop :=
  match s with EmptyString => True | String c _ => is_digit c = false end.

Lemma read_digits_stop acc s : no_digit s -> read_digits acc s = (acc, s).
Proof. destruct s as [|c s]; simpl; [done|]. by intros ->. Qed.

Lemma pretty_N_char_digit x :
  (x < 10)%N -> is_digit (pretty_N_char x) = true /\ digit_val (pretty_N_char x) = x.
Proof.
  intros Hx.
  assert (x = 0 \/ x = 1 \/ x = 2 \/ x = 3 \/ x = 4 \/ x = 5 \/ x = 6 \/ x = 7 \/ x = 8 \/ x = 9)%N
    as Hcases by lia.
  by destruct_or! Hcases; subst.
Qed.

Lemma pretty_N_go_app x s t : pretty_N_go x s +:+ t = pretty_N_go x (s +:+ t).
Proof.
  revert s. induction (N.lt_wf_0 x) as [x _ IH]; intros s.
  destruct (decide (0 < x)%N) as [Hx|Hx].
  - rewrite !(pretty_N_go_step x) by done. rewrite IH by by apply N.div_lt. done.
  - by replace x with 0%N by lia.
Qed.

Lemma read_digits_pretty_go x s : read_digits 0 (pretty_N_go x s) = read_digits x s.
Proof.
  revert s. induction (N.lt_wf_0 x) as [x _ IH]; intros s.
  destruct (decide (0 < x)%N) as [Hx|Hx].
  - rewrite pretty_N_go_step by done. rewrite IH by by apply N.div_lt. cbn [read_digits].
    destruct (pretty_N_char_digit (x `mod` 10)) as [-> ->]; [by apply N.mod_lt|].
    f_equal. pose proof (N.div_mod x 10 ltac:(lia)). lia.
  - by replace x with 0%N by lia.
Qed.

Lemma read_digits_pretty (x : N) rest :
  no_digit rest -> read_digits 0 (pretty x +:+ rest) = (x, rest).
Proof.
  intros Hr. unfold pretty, pretty_N. case_decide as Hx.
  - subst. rewrite str_app_cons. simpl. by rewrite read_digits_stop.
  - rewrite pretty_N_go_app, read_digits_pretty_go, str_app_nil_l. by apply read_digits_stop.
Qed.

Lemma pretty_N_go_head x s :
  (0 < x)%N -> exists c t, pretty_N_go x s = String c t /\ is_digit c = true.
Proof.
  revert s. induction (N.lt_wf_0 x) as [x _ IH]; intros s Hx. rewrite pretty_N_go_step by done.
  destruct (decide (0 < x `div` 10)%N) as [Hd|Hd].
  - apply IH; [by apply N.div_lt|done].
  - apply N.nlt_ge, N.le_0_r in Hd. rewrite Hd, pretty_N_go_0.
    eexists _, _. split; [done|]. by apply pretty_N_char_digit, N.mod_lt.
Qed.

Lemma pretty_N_head (x : N) : exists c t, pretty x = String c t /\ is_digit c = true.
Proof.
  unfold pretty, pretty_N. case_decide.
  - by exists "0"%char, "".
  - apply pretty_N_go_head. lia.
Qed.

Lemma digit_not_dash c : is_digit c = true -> (code c =? 45) = false.
Proof. unfold is_digit, between. intros H. bool_prop. apply Z.eqb_neq. lia. Qed.

Lemma read_number_nonneg (x : N) rest :
  no_digit rest -> read_number (pretty x +:+ rest) = Some (VInt (Z.of_N x), rest).
Proof.
  intros Hr. pose proof (read_digits_pretty x rest Hr) as Hd.
  destruct (pretty_N_head x) as (c & t & Heq & Hc). rewrite Heq in *.
  rewrite str_app_cons in *. unfold read_number.
  rewrite digit_not_dash, Hc by done. by rewrite Hd.
Qed.

Lemma read_number_pretty (z : Z) rest :
  no_digit rest -> read_number (pretty z +:+ rest) = Some (VInt z, rest).
Proof.
  intros Hr. destruct z as [|p|p].
  - by apply (read_number_nonneg 0).
  - by apply (read_number_nonneg (N.pos p)).
  - change (pretty (Z.neg p)) with ("-" +:+ pretty (N.pos p)).
    rewrite str_app_assoc, str_app_cons, str_app_nil_l.
    pose proof (read_digits_pretty (N.pos p) rest Hr) as Hd.
    destruct (pretty_N_head (N.pos p)) as (c & t & Heq & Hc). rewrite Heq in *.
    rewrite str_app_cons in *. simpl in *. rewrite Hc in *. by rewrite Hd.
Qed.

(** Fuel that suffices to read back a value. *)
Fixpoint need (v : value) : nat :=
  match v with
  | VList l => S (sum_list (map (fun x => S (need x)) l))
  | VDict d => S (sum_list (map (fun kx => S (need (snd kx))) d))
  | _ => 1%nat
  end.

(** Reads back [v] from its canonical text, whatever follows. *)
Definition reads (v : value) : Prop :=
  forall n rest, (need v <= n)%nat -> no_digit rest ->
  read_value n (json_dumps v +:+ rest) = Some (normal v, rest).

Lemma read_value_number n c t r :
  is_digit c = true \/ code c = 45 ->
  read_number (String c t) = Some r -> read_value (S n) (String c t) = Some r.
Proof.
  intros Hc Hr. cbn [read_value].
  assert (code c <= 57) as Hle.
  { destruct Hc as [Hc|Hc]; [|lia]. unfold is_digit, between in Hc. bool_prop. lia. }
  assert (34 < code c) as Hge.
  { destruct Hc as [Hc|Hc]; [|lia]. unfold is_digit, between in Hc. bool_prop. lia. }
  repeat match goal with
         | |- context [code c =? ?k] => rewrite (proj2 (Z.eqb_neq (code c) k)) by lia
         end.
  done.
Qed.

Lemma reads_int z : reads (VInt z).
Proof.
  intros [|n] rest Hn Hr; simpl in Hn; [lia|]. simpl json_dumps. simpl normal.
  pose proof (read_number_pretty z rest Hr) as Hz.
  assert (exists c t, pretty z = String c t /\ (is_digit c = true \/ code c = 45))
    as (c & t & Heq & Hc).
  { destruct z as [|p|p].
    - exists "0"%char, "". split; [done|]. by left.
    - destruct (pretty_N_head (N.pos p)) as (c & t & ? & ?). exists c, t. split; [done|]. by left.
    - exists "-"%char, (pretty (N.pos p)). split; [done|]. by right. }
  rewrite Heq in *. rewrite str_app_cons in *. by apply read_value_number.
Qed.

Lemma reads_str s : reads (VStr s).
Proof.
  intros [|n] rest Hn Hr; simpl in Hn; [lia|].
  change (json_dumps (VStr s)) with (quote s). unfold quote.
  rewrite !str_app_assoc. unfold dquote at 1. rewrite str_app_cons, str_app_nil_l.
  cbn [read_value]. change (code _ =? 110) with false. cbn. fold dquote.
  by rewrite read_string_escape.
Qed.

(** Canonical text never starts with a closing bracket. *)
Lemma dumps_head v :
  validate v = Ok tt -> exists c t, json_dumps v = String c t /\ Ascii.eqb "]" c = false.
Proof.
  destruct v as [|[]|z|s|m e|l|d|i]; intros Hv; try (eexists _, _; split; [done|reflexivity]); [|done..].
  destruct z as [|p|p].
  - exists "0"%char, "". done.
  - destruct (pretty_N_head (N.pos p)) as (c & t & Heq & Hc). exists c, t. split; [done|].
    apply Ascii.eqb_neq. intros <-. done.
  - exists "-"%char, (pretty (N.pos p)). done.
Qed.

Lemma commas_cons x y l : commas (x :: y :: l) = x +:+ "," +:+ commas (y :: l).
Proof. done. Qed.

Lemma reads_elems l n rest :
  l <> [] -> Forall reads l -> (sum_list (map (fun x => S (need x)) l) <= n)%nat ->
  no_digit rest ->
  read_elems n (commas (map json_dumps l) +:+ "]" +:+ rest) = Some (map normal l, rest).
Proof.
  revert n. induction l as [|x l IH]; intros n Hne Hl Hn Hr; [done|]. clear Hne.
  apply Forall_cons in Hl as [Hx Hl]. simpl in Hn. destruct n as [|n]; [lia|].
  destruct l as [|y l].
  - cbn [map commas join String.concat read_elems]. rewrite Hx by (simpl in *; try lia; done).
    cbn [mbind option_bind]. rewrite str_app_cons. cbn. done.
  - cbn [map]. rewrite commas_cons, !str_app_assoc. cbn [read_elems].
    rewrite Hx by (simpl in *; try lia; done). cbn [mbind option_bind].
    rewrite str_app_cons, str_app_nil_l. cbn [strip_prefix Ascii.eqb Bool.eqb].
    change (json_dumps y :: map json_dumps l) with (map json_dumps (y :: l)).
    rewrite IH by (simpl in *; try lia; done). done.
Qed.

Lemma read_items_head k x n t :
  reads x -> (need x <= n)%nat -> no_digit t ->
  read_items (S n) (quote k +:+ ":" +:+ json_dumps x +:+ t) =
  match strip_prefix "," t with
  | Some r' => '(d, r'') ← read_items n r'; Some ((k, normal x) :: d, r'')
  | None => r' ← strip_prefix "}" t; Some ([(k, normal x)], r')
  end.
Proof.
  intros Hx Hn Ht. unfold quote. rewrite !str_app_assoc. cbn [read_items].
  rewrite strip_prefix_app. cbn [mbind option_bind].
  rewrite read_string_escape. cbn [mbind option_bind].
  rewrite strip_prefix_app. cbn [mbind option_bind].
  by rewrite Hx.
Qed.

(** The canonical text of one dict item. *)
Definition item_text (kx : string * value) : string :=
  quote (fst kx) +:+ ":" +:+ json_dumps (snd kx).

Lemma reads_items d n rest :
  d <> [] -> Forall (fun kx => reads (snd kx)) d ->
  (sum_list (map (fun kx => S (need (snd kx))) d) <= n)%nat -> no_digit rest ->
  read_items n (commas (map item_text d) +:+ "}" +:+ rest)
  = Some (map (fun '(k, x) => (k, normal x)) d, rest).
Proof.
  revert n. induction d as [|[k x] d IH]; intros n Hne Hd Hn Hr; [done|]. clear Hne.
  apply Forall_cons in Hd as [Hx Hd]. simpl in Hn, Hx. destruct n as [|n]; [lia|].
  destruct d as [|[k' y] d].
  - cbn [map commas join String.concat]. unfold item_text. cbn [fst snd].
    rewrite !str_app_assoc, read_items_head by (simpl in *; try lia; done).
    rewrite str_app_cons. cbn. done.
  - specialize (IH n). cbn [map] in *. rewrite commas_cons. unfold item_text at 1. cbn [fst snd].
    rewrite !str_app_assoc, read_items_head by (simpl in *; try lia; done).
    rewrite strip_prefix_app, IH by (simpl in *; try lia; done). done.
Qed.

Lemma dumps_dict d :
  json_dumps (VDict d) = "{" +:+ commas (map item_text (sort_items d)) +:+ "}".
Proof.
  cbn [json_dumps]. f_equal. f_equal. f_equal. unfold sort_items.
  rewrite (sort_by_map _ fst fst) by by intros []. rewrite map_map.
  apply map_ext. by intros [k x].
Qed.

Lemma normal_dict d :
  normal (VDict d) = VDict (map (fun '(k, x) => (k, normal x)) (sort_items d)).
Proof.
  cbn [normal]. f_equal. unfold sort_items. by rewrite (sort_by_map _ fst fst) by by intros [].
Qed.

Lemma sum_list_perm (l1 l2 : list nat) : l1 ≡ₚ l2 -> sum_list l1 = sum_list l2.
Proof. induction 1; simpl; lia. Qed.

Lemma need_sorted d :
  sum_list (map (fun kx => S (need (snd kx))) (sort_items d))
  = sum_list (map (fun kx => S (need (snd kx))) d).
Proof. apply sum_list_perm, Permutation_map, sort_by_perm. Qed.

Lemma validate_reads v : validate v = Ok tt -> reads v.
Proof.
  induction v as [| | | |m e|l IH|d IH|i] using value_ind; intros Hv; try done.
  - intros [|n] rest Hn Hr; simpl in Hn; [lia|done].
  - intros [|n] rest Hn Hr; simpl in Hn; [lia|]. by destruct b.
  - apply reads_int.
  - apply reads_str.
  - apply (rfor_Ok validate) in Hv. intros [|n] rest Hn Hr; simpl in Hn; [lia|].
    destruct l as [|x l]; [done|].
    assert (Forall reads (x :: l)) as Hl.
    { apply Forall_forall. intros y Hy. rewrite Forall_forall in IH, Hv. auto. }
    change (json_dumps (VList (x :: l))) with ("[" +:+ commas (map json_dumps (x :: l)) +:+ "]").
    rewrite !str_app_assoc, str_app_cons, str_app_nil_l.
    cbn [read_value]. change (code "[") with 91. cbn [Z.eqb Pos.eqb].
    assert (strip_prefix "]" (commas (map json_dumps (x :: l)) +:+ "]" +:+ rest) = None) as ->.
    { apply Forall_cons in Hv as [(c & t & Hd & Hc)%dumps_head _]. cbn [map].
      unfold commas, join. cbn [String.concat]. destruct (map json_dumps l); rewrite Hd;
        rewrite !str_app_cons; cbn [strip_prefix]; by rewrite Hc. }
    rewrite reads_elems by (simpl in *; try lia; done). done.
  - apply (rfor_Ok (fun kv => validate (snd kv))) in Hv.
    intros [|n] rest Hn Hr; simpl in Hn; [lia|]. rewrite normal_dict, dumps_dict.
    rewrite !str_app_assoc, str_app_cons, str_app_nil_l.
    cbn [read_value]. change (code "{") with 123. cbn [Z.eqb Pos.eqb].
    rewrite <- need_sorted in Hn. assert (Forall (fun kx => reads (snd kx)) (sort_items d)) as Hd.
    { unfold sort_items. rewrite sort_by_perm. apply Forall_forall. intros y Hy.
      rewrite Forall_forall in IH, Hv. auto. }
    destruct (sort_items d) as [|[k x] d'] eqn:Hs; [done|].
    assert (strip_prefix "}" (commas (map item_text ((k, x) :: d')) +:+ "}" +:+ rest) = None) as ->.
    { cbn [map]. unfold item_text at 1, commas, join. cbn [String.concat].
      by destruct (map item_text d'). }
    rewrite reads_items by (simpl in *; try lia; done). done.
Qed.

Lemma length_commas (l : list string) :
  (sum_list (map (fun t => S (String.length t)) l) <= S (String.length (commas l)))%nat.
Proof.
  induction l as [|x l IH]; [simpl; lia|]. destruct l as [|y l].
  - cbn. lia.
  - rewrite commas_cons, !length_str_app. cbn [map sum_list sum_list_with id] in *.
    change (String.length ",") with 1%nat. lia.
Qed.

Lemma length_pretty_pos (z : Z) : (1 <= String.length (pretty z))%nat.
Proof.
  destruct z as [|p|p]; [simpl; lia| |].
  - destruct (pretty_N_head (N.pos p)) as (c & t & Heq & _).
    change (pretty (Z.pos p)) with (pretty (N.pos p)). rewrite Heq. simpl. lia.
  - change (pretty (Z.neg p)) with ("-" +:+ pretty (N.pos p)). rewrite length_str_app. simpl. lia.
Qed.

Lemma sum_list_map_le {A} (f g : A -> nat) l :
  Forall (fun x => f x <= g x)%nat l -> (sum_list (map f l) <= sum_list (map g l))%nat.
Proof. induction 1; simpl; lia. Qed.

(** The length of the canonical text is enough fuel to read it back. *)
Lemma need_length v : validate v = Ok tt -> (need v <= String.length (json_dumps v))%nat.
Proof.
  induction v as [| | | |m e|l IH|d IH|i] using value_ind; intros Hv; try done.
  - simpl. lia.
  - destruct b; simpl; lia.
  - simpl need. apply length_pretty_pos.
  - simpl json_dumps. unfold quote. rewrite length_str_app. simpl. lia.
  - apply (rfor_Ok validate) in Hv. pose proof (length_commas (map json_dumps l)) as Hc.
    change (json_dumps (VList l)) with ("[" +:+ commas (map json_dumps l) +:+ "]").
    rewrite !length_str_app. cbn [need String.length]. rewrite map_map in Hc.
    enough (sum_list (map (fun x => S (need x)) l)
            <= sum_list (map (fun x => S (String.length (json_dumps x))) l))%nat by lia.
    apply sum_list_map_le. rewrite Forall_forall in *. intros x Hx.
    specialize (IH x Hx (Hv x Hx)). lia.
  - apply (rfor_Ok (fun kv => validate (snd kv))) in Hv. rewrite dumps_dict.
    pose proof (length_commas (map item_text (sort_items d))) as Hc.
    rewrite !length_str_app. cbn [need String.length]. rewrite map_map in Hc.
    rewrite <- need_sorted.
    enough (sum_list (map (fun kx => S (need (snd kx))) (sort_items d))
            <= sum_list (map (fun kx => S (String.length (item_text kx))) (sort_items d)))%nat
      by lia.
    apply sum_list_map_le. apply Forall_forall. intros [k x] Hx.
    apply elem_of_sort_by in Hx. rewrite Forall_forall in IH, Hv.
    specialize (IH _ Hx (Hv _ Hx)). unfold item_text. rewrite !length_str_app. simpl in *. lia.
Qed.

Lemma loads_dumps v : validate v = Ok tt -> json_loads (json_dumps v) = Some (normal v).
Proof.
  intros Hv. unfold json_loads.
  pose proof (validate_reads v Hv (String.length (json_dumps v)) "" (need_length v Hv) I) as H.
  rewrite str_app_nil_r in H. by rewrite H.
Qed.

Lemma dumps_normal v : json_dumps (normal v) = json_dumps v.
Proof.
  induction v as [| | | | |l IH|d IH|] using value_ind; try done.
  - change (json_dumps (normal (VList l)))
      with ("[" +:+ commas (map json_dumps (map normal l)) +:+ "]").
    change (json_dumps (VList l)) with ("[" +:+ commas (map json_dumps l) +:+ "]").
    f_equal. f_equal. f_equal. rewrite map_map. apply map_ext_Forall. done.
  - rewrite normal_dict, !dumps_dict. f_equal. f_equal. f_equal.
    unfold sort_items at 1. rewrite (sort_by_map _ fst fst) by by intros [].
    rewrite sort_by_id by apply sort_by_sorted. rewrite map_map. apply map_ext_Forall.
    unfold sort_items. rewrite sort_by_perm. eapply Forall_impl; [exact IH|].
    intros [k x] Hx. unfold item_text. simpl in *. by rewrite Hx.
Qed.

Lemma canonical_text_Ok v t :
  canonical_json_text v = Ok t <-> validate v = Ok tt /\ t = json_dumps v.
Proof.
  unfold canonical_json_text. rewrite rbind_Ok. split.
  - intros ([] & ? & [= ->]). done.
  - intros [? ->]. eauto.
Qed.

Lemma dumps_eq_iff a b :
  validate a = Ok tt -> validate b = Ok tt -> json_dumps a = json_dumps b <-> normal a = normal b.
Proof.
  intros Ha Hb. split; intros H.
  - apply loads_dumps in Ha, Hb. rewrite H in Ha. congruence.
  - by rewrite <- (dumps_normal a), <- (dumps_normal b), H.
Qed.

(** Objects with equal normal forms agree key by key. *)
Lemma normal_dict_get d1 d2 k :
  NoDup (dkeys d1) -> NoDup (dkeys d2) -> normal (VDict d1) = normal (VDict d2) ->
  normal <$> dget k d1 = normal <$> dget k d2.
Proof.
  intros H1 H2. rewrite !normal_dict. intros [= H].
  by rewrite <- (dget_sort_items k d1), <- (dget_sort_items k d2), <- !dget_map, H.
Qed.

(** Closes the distinctness of a literal list of keys. *)
Ltac keys_distinct := apply (bool_decide_unpack _); vm_compute; exact I.

(** From equal normal forms of two literal dicts, the agreement [F] of every key. *)
Ltac dict_fields H F :=
  match type of H with
  | normal (VDict ?d1) = normal (VDict ?d2) =>
      assert (forall k, normal <$> dget k d1 = normal <$> dget k d2) as F
        by (intros ?; apply normal_dict_get; [keys_distinct|keys_distinct|exact H])
  end.

Lemma normal_dict_congr d1 d2 :
  map (fun '(k, x) => (k, normal x)) d1 = map (fun '(k, x) => (k, normal x)) d2 ->
  normal (VDict d1) = normal (VDict d2).
Proof. cbn [normal]. by intros ->. Qed.

Lemma normal_list l1 l2 :
  normal (VList l1) = normal (VList l2) <-> map normal l1 = map normal l2.
Proof. cbn [normal]. split; [by intros [= ->]|by intros ->]. Qed.

(** Normal forms are their own normal form. *)
Lemma normal_idem v : normal (normal v) = normal v.
Proof.
  induction v as [| | | | |l IH|d IH|] using value_ind; try done.
  - cbn [normal]. f_equal. rewrite map_map. by apply map_ext_Forall.
  - rewrite !normal_dict. f_equal. unfold sort_items at 1.
    rewrite (sort_by_map _ fst fst) by by intros []. rewrite sort_by_id by apply sort_by_sorted.
    rewrite map_map. apply map_ext_Forall. unfold sort_items. rewrite sort_by_perm.
    eapply Forall_impl; [exact IH|]. intros [k x] Hx. simpl in *. by rewrite Hx.
Qed.

Lemma dget_normal d k :
  NoDup (dkeys d) ->
  dget k (sort_items (map (fun '(k, x) => (k, normal x)) d)) = normal <$> dget k d.
Proof.
  intros Hd. rewrite dget_sort_items; [apply dget_map|].
  unfold dkeys. rewrite map_map. erewrite map_ext; [exact Hd|]. by intros [].
Qed.

Lemma map_normal_strs l : map normal (map VStr l) = map VStr l.
Proof. rewrite map_map. by apply map_ext. Qed.

Lemma vstr_map_inj l1 l2 : map VStr l1 = map VStr l2 -> l1 = l2.
Proof. revert l2. induction l1; intros []; simpl; intros; simplify_eq; f_equal; auto. Qed.

Lemma vopt_inj a b : normal (vopt a) = normal (vopt b) -> a = b.
Proof. destruct a, b; simpl; intros; simplify_eq; done. Qed.

Lemma valid_vopt o : valid (vopt o).
Proof. by destruct o. Qed.

Lemma valid_texts l : valid (VList (map VStr l)).
Proof. apply valid_list, Forall_map, Forall_forall. done. Qed.

(** Every key of a value satisfies [K] and every leaf [L]. *)
Section Tree.
Variables (K : string -> Prop) (L : value -> Prop).

Definition leaf (v : value) : Prop :=
  match v with VList _ | VDict _ => False | _ => L v end.

Inductive tree : value -> Prop :=
| tree_leaf v : leaf v -> tree v
| tree_list l : Forall tree l -> tree (VList l)
| tree_dict d : Forall (fun kv => K (fst kv) /\ tree (snd kv)) d -> tree (VDict d).

Lemma tree_list_iff l : tree (VList l) <-> Forall tree l.
Proof. split; [|by constructor]. by inversion 1. Qed.

Lemma tree_dict_iff d :
  tree (VDict d) <-> Forall (fun kv => K (fst kv) /\ tree (snd kv)) d.
Proof. split; [|by constructor]. by inversion 1. Qed.

Lemma Forall_iff_in {A} (P Q : A -> Prop) l :
  Forall (fun x => P x <-> Q x) l -> Forall P l <-> Forall Q l.
Proof. induction 1; rewrite ?Forall_cons; [by split|tauto]. Qed.

Lemma tree_normal v : tree (normal v) <-> tree v.
Proof.
  induction v as [| | | | |l IH|d IH|] using value_ind; try done.
  - cbn [normal]. rewrite !tree_list_iff, Forall_fmap. by apply Forall_iff_in.
  - rewrite normal_dict, !tree_dict_iff, Forall_fmap. unfold sort_items.
    rewrite sort_by_perm. apply Forall_iff_in. eapply Forall_impl; [exact IH|].
    intros [k x] Hx. simpl in *. by rewrite Hx.
Qed.
End Tree.

Lemma valid_tree v :
  valid v <-> tree (fun _ => True) (fun w => match w with VFloat _ _ | VOther _ => False | _ => True end) v.
Proof.
  induction v as [| | | | |l IH|d IH|] using value_ind;
    try (split; [intros _; by constructor|done]).
  - split; [done|]. by inversion 1.
  - rewrite valid_list, tree_list_iff. by apply Forall_iff_in.
  - rewrite valid_dict, tree_dict_iff. apply Forall_iff_in.
    eapply Forall_impl; [exact IH|]. intros kv Hkv. cbv beta. rewrite Hkv. tauto.
  - split; [done|]. by inversion 1.
Qed.

(** Two payloads have the same canonical text exactly when they are equal up to the order of
    dict keys (in particular [true] and [1] are told apart). *)
Theorem canonical_text_determines a b ta tb :
  canonical_json_text a = Ok ta -> canonical_json_text b = Ok tb ->
  ta = tb <-> normal a = normal b.
Proof. rewrite !canonical_text_Ok. intros [? ->] [? ->]. by apply dumps_eq_iff. Qed.

(** Reading canonical text back gives the payload with its keys sorted. *)
Theorem canonical_round_trip v t :
  canonical_json_text v = Ok t -> json_loads t = Some (normal v).
Proof. rewrite canonical_text_Ok. intros [? ->]. by apply loads_dumps. Qed.

(** ** Digests *)

Section Digest.
(** [hashlib.sha256(data).hexdigest()] *)
Variable sha256_hex : string -> string.

Definition canonical_hash (payload : value) : result py_error string :=
  let! bytes := canonical_json_bytes payload in Ok (sha256_hex bytes).

Lemma hash_valid v : valid v -> canonical_hash v = Ok (sha256_hex (json_dumps v)).
Proof. intros Hv. unfold canonical_hash. by rewrite (valid_text v Hv). Qed.

Lemma hash_Ok v h : canonical_hash v = Ok h -> valid v /\ h = sha256_hex (json_dumps v).
Proof. unfold canonical_hash. by intros (t & [Hv ->]%text_valid & [= <-])%rbind_Ok. Qed.

(** Two texts with one digest. *)
Definition collision : Prop := exists x y, x <> y /\ sha256_hex x = sha256_hex y.

Lemma digest_cases x y : sha256_hex x = sha256_hex y -> x = y \/ collision.
Proof. intros H. destruct (decide (x = y)); [by left|right; by exists x, y]. Qed.
End Digest.
