(* ===== verification/DagContract.v ===== *)
(** * The plan contract ([v2/dag_contract.py])

    A plan is a list of typed nodes with a budget, policies and an optional approval.  The
    dataclasses are records; each [__post_init__] is a function that returns the value or the
    exception it raises.  A field's annotation is its type here, so the [isinstance] guards
    that re-check annotations have nothing left to refuse. *)
From S2P Require Import Prelude.
From S2P Require Import PyValue.
From S2P Require Import Canonical.

(** ** Closed vocabulary *)

Inductive PlanReason : Type :=
| PLAN_SCHEMA_INVALID
| PLAN_UNKNOWN_FIELD
| PLAN_DUPLICATE_NODE
| PLAN_CYCLE_DETECTED
| PLAN_SELF_DEPENDENCY
| PLAN_UNKNOWN_DEPENDENCY
| PLAN_DUPLICATE_DEPENDENCY
| PLAN_UNREACHABLE_NODE
| PLAN_DEPTH_EXCEEDED
| PLAN_FANOUT_EXCEEDED
| PLAN_BUDGET_EXCEEDED
| PLAN_TOOL_UNKNOWN
| PLAN_TOOL_NOT_PROJECTED
| PLAN_SCOPE_DENIED
| PLAN_ARG_INVALID
| PLAN_IDEMPOTENCY_MISSING
| PLAN_COMPENSATION_UNDECLARED
| BINDING_EDGE_NOT_DECLARED
| BINDING_SOURCE_UNSHAPED
| BINDING_FIELD_UNKNOWN
| BINDING_TYPE_MISMATCH
| BINDING_TARGET_TYPE_MISMATCH
| BINDING_SIZE_EXCEEDED
| BINDING_CONTROL_FIELD_FORBIDDEN
| BINDING_RUNTIME_REJECT
| TRANSFORM_OP_UNKNOWN
| TRANSFORM_TYPE_MISMATCH
| TRANSFORM_OUTPUT_TOO_LARGE
| POLICY_MISSING
| POLICY_DENIED
| APPROVAL_MISSING
| APPROVAL_DIGEST_MISMATCH
| APPROVAL_EXPIRED
| APPROVAL_SCOPE_INSUFFICIENT
| APPROVAL_ALREADY_CONSUMED
| APPROVAL_OPERATION_DIGEST_UNCOVERED
| UPSTREAM_ABORT
| UPSTREAM_FAILED
| UPSTREAM_INDETERMINATE
| PROVIDER_UNAVAILABLE
| DEADLINE_EXCEEDED
| BUDGET_EXHAUSTED
| CHECKPOINT_TAMPERED
| CHECKPOINT_SCHEMA_UNSUPPORTED
| PLAN_DIGEST_MISMATCH
| LEASE_FENCE_STALE
| COMPENSATION_UNSAFE
| DAG_DISABLED.
#[export] Instance planreason_eq_dec : EqDecision PlanReason.
Proof. solve_decision. Defined.

Definition reason_value (x : PlanReason) : string :=
  match x with
  | PLAN_SCHEMA_INVALID => "PLAN_SCHEMA_INVALID"
  | PLAN_UNKNOWN_FIELD => "PLAN_UNKNOWN_FIELD"
  | PLAN_DUPLICATE_NODE => "PLAN_DUPLICATE_NODE"
  | PLAN_CYCLE_DETECTED => "PLAN_CYCLE_DETECTED"
  | PLAN_SELF_DEPENDENCY => "PLAN_SELF_DEPENDENCY"
  | PLAN_UNKNOWN_DEPENDENCY => "PLAN_UNKNOWN_DEPENDENCY"
  | PLAN_DUPLICATE_DEPENDENCY => "PLAN_DUPLICATE_DEPENDENCY"
  | PLAN_UNREACHABLE_NODE => "PLAN_UNREACHABLE_NODE"
  | PLAN_DEPTH_EXCEEDED => "PLAN_DEPTH_EXCEEDED"
  | PLAN_FANOUT_EXCEEDED => "PLAN_FANOUT_EXCEEDED"
  | PLAN_BUDGET_EXCEEDED => "PLAN_BUDGET_EXCEEDED"
  | PLAN_TOOL_UNKNOWN => "PLAN_TOOL_UNKNOWN"
  | PLAN_TOOL_NOT_PROJECTED => "PLAN_TOOL_NOT_PROJECTED"
  | PLAN_SCOPE_DENIED => "PLAN_SCOPE_DENIED"
  | PLAN_ARG_INVALID => "PLAN_ARG_INVALID"
  | PLAN_IDEMPOTENCY_MISSING => "PLAN_IDEMPOTENCY_MISSING"
  | PLAN_COMPENSATION_UNDECLARED => "PLAN_COMPENSATION_UNDECLARED"
  | BINDING_EDGE_NOT_DECLARED => "BINDING_EDGE_NOT_DECLARED"
  | BINDING_SOURCE_UNSHAPED => "BINDING_SOURCE_UNSHAPED"
  | BINDING_FIELD_UNKNOWN => "BINDING_FIELD_UNKNOWN"
  | BINDING_TYPE_MISMATCH => "BINDING_TYPE_MISMATCH"
  | BINDING_TARGET_TYPE_MISMATCH => "BINDING_TARGET_TYPE_MISMATCH"
  | BINDING_SIZE_EXCEEDED => "BINDING_SIZE_EXCEEDED"
  | BINDING_CONTROL_FIELD_FORBIDDEN => "BINDING_CONTROL_FIELD_FORBIDDEN"
  | BINDING_RUNTIME_REJECT => "BINDING_RUNTIME_REJECT"
  | TRANSFORM_OP_UNKNOWN => "TRANSFORM_OP_UNKNOWN"
  | TRANSFORM_TYPE_MISMATCH => "TRANSFORM_TYPE_MISMATCH"
  | TRANSFORM_OUTPUT_TOO_LARGE => "TRANSFORM_OUTPUT_TOO_LARGE"
  | POLICY_MISSING => "POLICY_MISSING"
  | POLICY_DENIED => "POLICY_DENIED"
  | APPROVAL_MISSING => "APPROVAL_MISSING"
  | APPROVAL_DIGEST_MISMATCH => "APPROVAL_DIGEST_MISMATCH"
  | APPROVAL_EXPIRED => "APPROVAL_EXPIRED"
  | APPROVAL_SCOPE_INSUFFICIENT => "APPROVAL_SCOPE_INSUFFICIENT"
  | APPROVAL_ALREADY_CONSUMED => "APPROVAL_ALREADY_CONSUMED"
  | APPROVAL_OPERATION_DIGEST_UNCOVERED => "APPROVAL_OPERATION_DIGEST_UNCOVERED"
  | UPSTREAM_ABORT => "UPSTREAM_ABORT"
  | UPSTREAM_FAILED => "UPSTREAM_FAILED"
  | UPSTREAM_INDETERMINATE => "UPSTREAM_INDETERMINATE"
  | PROVIDER_UNAVAILABLE => "PROVIDER_UNAVAILABLE"
  | DEADLINE_EXCEEDED => "DEADLINE_EXCEEDED"
  | BUDGET_EXHAUSTED => "BUDGET_EXHAUSTED"
  | CHECKPOINT_TAMPERED => "CHECKPOINT_TAMPERED"
  | CHECKPOINT_SCHEMA_UNSUPPORTED => "CHECKPOINT_SCHEMA_UNSUPPORTED"
  | PLAN_DIGEST_MISMATCH => "PLAN_DIGEST_MISMATCH"
  | LEASE_FENCE_STALE => "LEASE_FENCE_STALE"
  | COMPENSATION_UNSAFE => "COMPENSATION_UNSAFE"
  | DAG_DISABLED => "DAG_DISABLED"
  end.

Inductive NodeKind : Type :=
| NodeKind_TOOL
| NodeKind_TRANSFORM.
#[export] Instance nodekind_eq_dec : EqDecision NodeKind.
Proof. solve_decision. Defined.

Definition kind_value (x : NodeKind) : string :=
  match x with
  | NodeKind_TOOL => "TOOL"
  | NodeKind_TRANSFORM => "TRANSFORM"
  end.

Inductive FailurePolicy : Type :=
| FailurePolicy_FAIL_FAST
| FailurePolicy_CONTINUE_INDEPENDENT.
#[export] Instance failurepolicy_eq_dec : EqDecision FailurePolicy.
Proof. solve_decision. Defined.

Definition failure_policy_value (x : FailurePolicy) : string :=
  match x with
  | FailurePolicy_FAIL_FAST => "fail_fast"
  | FailurePolicy_CONTINUE_INDEPENDENT => "continue_independent"
  end.

Inductive RollbackPolicy : Type :=
| RollbackPolicy_NONE
| RollbackPolicy_COMPENSATE_ON_FAILURE
| RollbackPolicy_COMPENSATE_ON_ABORT.
#[export] Instance rollbackpolicy_eq_dec : EqDecision RollbackPolicy.
Proof. solve_decision. Defined.

Definition rollback_policy_value (x : RollbackPolicy) : string :=
  match x with
  | RollbackPolicy_NONE => "none"
  | RollbackPolicy_COMPENSATE_ON_FAILURE => "compensate_on_failure"
  | RollbackPolicy_COMPENSATE_ON_ABORT => "compensate_on_abort"
  end.

Inductive OnFailure : Type :=
| OnFailure_ABORT_PLAN
| OnFailure_ISOLATE_BRANCH
| OnFailure_DEAD_LETTER.
#[export] Instance onfailure_eq_dec : EqDecision OnFailure.
Proof. solve_decision. Defined.

Definition on_failure_value (x : OnFailure) : string :=
  match x with
  | OnFailure_ABORT_PLAN => "abort_plan"
  | OnFailure_ISOLATE_BRANCH => "isolate_branch"
  | OnFailure_DEAD_LETTER => "dead_letter"
  end.

Inductive NodeStatus : Type :=
| NodeStatus_PENDING
| NodeStatus_READY
| NodeStatus_DISPATCHED
| NodeStatus_SUCCESS
| NodeStatus_FAILED
| NodeStatus_DENIED
| NodeStatus_SKIPPED
| NodeStatus_INDETERMINATE
| NodeStatus_COMPENSATION_PENDING
| NodeStatus_COMPENSATED
| NodeStatus_COMPENSATION_SKIPPED
| NodeStatus_COMPENSATION_UNSAFE
| NodeStatus_COMPENSATION_FAILED
| NodeStatus_COMPENSATION_INDETERMINATE
| NodeStatus_DEAD_LETTER.
#[export] Instance nodestatus_eq_dec : EqDecision NodeStatus.
Proof. solve_decision. Defined.

Definition node_status_value (x : NodeStatus) : string :=
  match x with
  | NodeStatus_PENDING => "PENDING"
  | NodeStatus_READY => "READY"
  | NodeStatus_DISPATCHED => "DISPATCHED"
  | NodeStatus_SUCCESS => "SUCCESS"
  | NodeStatus_FAILED => "FAILED"
  | NodeStatus_DENIED => "DENIED"
  | NodeStatus_SKIPPED => "SKIPPED"
  | NodeStatus_INDETERMINATE => "INDETERMINATE"
  | NodeStatus_COMPENSATION_PENDING => "COMPENSATION_PENDING"
  | NodeStatus_COMPENSATED => "COMPENSATED"
  | NodeStatus_COMPENSATION_SKIPPED => "COMPENSATION_SKIPPED"
  | NodeStatus_COMPENSATION_UNSAFE => "COMPENSATION_UNSAFE"
  | NodeStatus_COMPENSATION_FAILED => "COMPENSATION_FAILED"
  | NodeStatus_COMPENSATION_INDETERMINATE => "COMPENSATION_INDETERMINATE"
  | NodeStatus_DEAD_LETTER => "DEAD_LETTER"
  end.

Inductive PlanStatus : Type :=
| PlanStatus_COMPLETED
| PlanStatus_PARTIAL
| PlanStatus_FAILED
| PlanStatus_ABORTED
| PlanStatus_INDETERMINATE
| PlanStatus_DEAD_LETTER.
#[export] Instance planstatus_eq_dec : EqDecision PlanStatus.
Proof. solve_decision. Defined.

Definition plan_status_value (x : PlanStatus) : string :=
  match x with
  | PlanStatus_COMPLETED => "COMPLETED"
  | PlanStatus_PARTIAL => "PARTIAL"
  | PlanStatus_FAILED => "FAILED"
  | PlanStatus_ABORTED => "ABORTED"
  | PlanStatus_INDETERMINATE => "INDETERMINATE"
  | PlanStatus_DEAD_LETTER => "DEAD_LETTER"
  end.

Definition terminal_node_status (s : NodeStatus) : bool :=
  match s with
  | NodeStatus_SUCCESS | NodeStatus_FAILED | NodeStatus_DENIED | NodeStatus_SKIPPED
  | NodeStatus_INDETERMINATE | NodeStatus_DEAD_LETTER => true
  | _ => false
  end.

Definition DAG_SCHEMA_VERSION : string := "dag/1".
Definition DAG_DIGEST_VERSION : string := "dagdigest/1".
Definition DAG_MAX_NODES : Z := 64.
Definition DAG_MAX_PARALLELISM : Z := 4.
Definition DAG_MAX_PARALLELISM_MUTATION : Z := 1.
Definition DAG_MAX_NODE_TIMEOUT_MS : Z := 120000.
Definition DAG_MAX_DEPTH : Z := 16.
Definition DAG_MAX_FANOUT : Z := 16.
Definition DAG_MAX_EXTERNAL_CALLS : Z := 64.
Definition DAG_MAX_TOTAL_WALL_MS : Z := 900000.
Definition DAG_MAX_RESULT_BYTES : Z := 1048576.
Definition DAG_MAX_CHECKPOINT_BYTES : Z := 1048576.
Definition DAG_MAX_BINDING_BYTES : Z := 262144.
Definition DAG_MAX_STRING_BYTES : Z := 4096.
Definition DAG_MAX_CANONICAL_BYTES : Z := 262144.
Definition DAG_MAX_NESTING_DEPTH : Z := 8.

(** ** Exceptions

    [StoreError] is a subclass of [PlanValidationError] in the source; [catches] says which
    values an [except PlanValidationError] clause takes.  [ExecutorError] is any other exception
    of an injected callback, [DatabaseError] an [sqlite3.OperationalError]; [Diverged] marks exhausted fuel and is shown unreachable. *)
Inductive exn : Type :=
| PlanValidationError (reason : PlanReason) (detail : string)
| StoreError (reason : PlanReason) (detail : string)
| DagDisabledError
| PyError (e : py_error)
| ExecutorError (detail : string)
| DatabaseError (detail : string)
| Diverged.

Definition catches_plan_validation (e : exn) : option PlanReason :=
  match e with
  | PlanValidationError r _ | StoreError r _ => Some r
  | _ => None
  end.

Definition lift_py {A} (m : result py_error A) : result exn A :=
  match m with Ok a => Ok a | Err e => Err (PyError e) end.

Lemma lift_py_Ok {A} (m : result py_error A) a : lift_py m = Ok a <-> m = Ok a.
Proof. destruct m; simpl; split; congruence. Qed.

(** [res_inv] that also sees through [lift_py]. *)
Ltac dag_inv :=
  repeat (res_inv; match goal with H : lift_py _ = Ok _ |- _ => apply lift_py_Ok in H end); res_inv.

(** [_fail] *)
Definition fail {A} (r : PlanReason) (detail : string) : result exn A :=
  Err (PlanValidationError r detail).

(** [ensures m Q]: [m] returns a value satisfying [Q] or raises a [PlanValidationError]
    (never another exception). *)
Definition ensures {A} (m : result exn A) (Q : A -> Prop) : Prop :=
  match m with
  | Ok a => Q a
  | Err e => exists r d, e = PlanValidationError r d
  end.

Lemma ensures_ok {A} (a : A) (Q : A -> Prop) : Q a -> ensures (Ok a) Q.
Proof. done. Qed.

Lemma ensures_fail {A} r d (Q : A -> Prop) : ensures (fail r d) Q.
Proof. simpl. eauto. Qed.

Lemma ensures_bind {A B} (m : result exn A) (k : A -> result exn B) Q R :
  ensures m Q -> (forall a, Q a -> ensures (k a) R) -> ensures (rbind m k) R.
Proof. destruct m; simpl; auto. Qed.

Lemma ensures_mono {A} (m : result exn A) (Q R : A -> Prop) :
  ensures m Q -> (forall a, Q a -> R a) -> ensures m R.
Proof. destruct m; simpl; auto. Qed.

Lemma ensures_raise_if b r d (Q : unit -> Prop) :
  (b = false -> Q tt) -> ensures (raise_if b (PlanValidationError r d)) Q.
Proof. destruct b; simpl; eauto. Qed.

Lemma ensures_rfor {A} (f : A -> result exn unit) xs :
  Forall (fun x => ensures (f x) (fun _ => True)) xs -> ensures (rfor f xs) (fun _ => True).
Proof.
  induction 1 as [|x xs Hx _ IH]; simpl; [done|]. eapply ensures_bind; eauto.
Qed.

Lemma ensures_rmap {A B} (f : A -> result exn B) xs (P : B -> Prop) :
  Forall (fun x => ensures (f x) P) xs ->
  ensures (rmap f xs) (fun ys => Forall P ys /\ length ys = length xs).
Proof.
  induction 1 as [|x xs Hx _ IH]; simpl; [done|].
  eapply ensures_bind; [exact Hx|]. intros y Hy. eapply ensures_bind; [exact IH|].
  intros ys [Hys Hlen]. simpl. rewrite Hlen. auto.
Qed.

Lemma ensures_rfold {A B} (f : B -> A -> result exn B) xs (P : B -> Prop) s :
  P s -> (forall s x, P s -> x ∈ xs -> ensures (f s x) P) -> ensures (rfold f s xs) P.
Proof.
  revert s. induction xs as [|x xs IH]; simpl; intros s Hs Hf; [done|].
  eapply ensures_bind; [apply Hf; [done|by left]|]. intros s' Hs'. apply IH; [done|].
  intros. apply Hf; [done|by right].
Qed.

Create HintDb ensures.
#[export] Hint Resolve ensures_ok ensures_fail ensures_raise_if : ensures.

(** ** Regular expressions *)

Definition alnum (c : ascii) : bool := between 48 57 c || between 65 90 c || between 97 122 c.
Definition word_char (c : ascii) : bool := alnum c || (code c =? 95).
Definition node_id_char (c : ascii) : bool :=
  between 97 122 c || between 48 57 c || (code c =? 95) || (code c =? 45).
Definition plan_id_char (c : ascii) : bool :=
  alnum c || (code c =? 46) || (code c =? 95) || (code c =? 58) || (code c =? 45).

Definition chars_between (p : ascii -> bool) (lo hi : Z) (s : string) : bool :=
  string_forallb p s && (lo <=? byte_len s) && (byte_len s <=? hi).

(** [^[a-z0-9_-]{1,64}$] *)
Definition NODE_ID_RE (s : string) : bool := match_dollar (chars_between node_id_char 1 64) s.
(** [^[A-Za-z0-9._:-]{1,128}$] *)
Definition PLAN_ID_RE (s : string) : bool := match_dollar (chars_between plan_id_char 1 128) s.

Definition word (s : string) : bool := string_forallb word_char s && negb (String.eqb s "").

(** [^args\.[A-Za-z0-9_]+(\.[A-Za-z0-9_]+)*$] *)
Definition BINDING_TARGET_RE (s : string) : bool :=
  match_dollar
    (fun t => match split_on "." t with
              | a :: w :: ws => String.eqb a "args" && forallb word (w :: ws)
              | _ => false
              end) s.

(** [^([a-z0-9_-]{1,64})\.result(\.[A-Za-z0-9_]+)*$] *)
Definition BINDING_SOURCE_RE (s : string) : bool :=
  match_dollar
    (fun t => match split_on "." t with
              | a :: r :: ws =>
                  chars_between node_id_char 1 64 a && String.eqb r "result" && forallb word ws
              | _ => false
              end) s.

(** A character of category [Cc]: U+0000..U+001F and U+007F..U+009F, in UTF-8. *)
Fixpoint has_control (s : string) : bool :=
  match s with
  | EmptyString => false
  | String c rest =>
      (code c <? 32) || (code c =? 127)
      || ((code c =? 194) &&
          match rest with String d _ => between 128 159 d | EmptyString => false end)
      || has_control rest
  end.

(** ** Data *)

Record Binding := mkBinding {
  source : string;
  binding_type : string;
  required : bool;
  max_bytes : Z
}.

(** [self.source.split(".", 1)[0]] *)
Definition source_node (b : Binding) : string := fst (split_once "." (source b)).
(** [tuple(self.source.split(".")[2:])] *)
Definition source_path (b : Binding) : list string := drop 2 (split_on "." (source b)).

Record Idempotency := mkIdempotency { enabled : bool; attempt_epoch : Z }.

Record Compensation := mkCompensation { operation : string }.

Record Budget := mkBudget {
  max_nodes : Z;
  max_parallelism : Z;
  max_external_calls : Z;
  max_total_wall_ms : Z;
  max_result_bytes : Z;
  max_checkpoint_bytes : Z;
  per_provider_limits : list (string * Z);
  per_credential_limits : list (string * Z)
}.

Record Approval := mkApproval {
  approval_id : string;
  approval_digest : string;
  nonce : string;
  expires_at_ms : Z;
  scope : list string;
  required_for : list string;
  runtime_bound : bool;
  operation_digests : list string
}.

Record Node := mkNode {
  id : string;
  kind : NodeKind;
  tool : option string;
  op : option string;
  args : list (string * value);
  bindings : list (string * Binding);
  depends_on : list string;
  policy_ref : option string;
  idempotency : option Idempotency;
  on_failure : OnFailure;
  timeout_ms : Z;
  retry_ref : option string;
  compensation : option Compensation;
  description : string
}.

Record PlanDefinition := mkPlan {
  plan_id : string;
  nodes : list Node;
  budget : Budget;
  failure_policy : FailurePolicy;
  deadline_ms : Z;
  rollback_policy : RollbackPolicy;
  approval : option Approval;
  dry_run : bool;
  schema_version : string;
  mode : string;
  plan_description : string
}.

Definition node_ids (p : PlanDefinition) : list string := map id (nodes p).

Fixpoint find_node (node_id : string) (ns : list Node) : option Node :=
  match ns with
  | [] => None
  | n :: rest => if String.eqb (id n) node_id then Some n else find_node node_id rest
  end.

(** [PlanDefinition.node] *)
Definition plan_node (p : PlanDefinition) (node_id : string) : result exn Node :=
  match find_node node_id (nodes p) with
  | Some n => Ok n
  | None => fail PLAN_UNKNOWN_DEPENDENCY node_id
  end.

(** [not s] for an optional string. *)
Definition falsy (s : option string) : bool :=
  match s with None => true | Some t => String.eqb t "" end.

(** [str(s)] for an optional string. *)
Definition str_of (s : option string) : string :=
  match s with None => "None" | Some t => t end.

(** ** Construction: the [__post_init__] checks *)

Section Construction.
(** [unicodedata.normalize("NFC", text)] *)
Variable nfc : string -> string.

(** [_check_text] *)
Definition check_text (field_name value : string) : result exn string :=
  do! raise_if (DAG_MAX_STRING_BYTES <? byte_len value)
        (PlanValidationError PLAN_SCHEMA_INVALID (field_name +:+ ": too long")) in
  do! raise_if (has_control value)
        (PlanValidationError PLAN_SCHEMA_INVALID (field_name +:+ ": control characters")) in
  let normalized := nfc value in
  do! raise_if (negb (String.eqb normalized value))
        (PlanValidationError PLAN_SCHEMA_INVALID (field_name +:+ ": must be NFC-normalized")) in
  Ok normalized.

(** [_check_int] *)
Definition check_int (field_name : string) (minimum maximum value : Z) : result exn Z :=
  do! raise_if ((value <? minimum) || (maximum <? value))
        (PlanValidationError PLAN_SCHEMA_INVALID (field_name +:+ ": out of range")) in
  Ok value.

(** [_check_plain] *)
Fixpoint check_plain (field_name : string) (depth : Z) (v : value) : result exn value :=
  do! raise_if (DAG_MAX_NESTING_DEPTH <? depth)
        (PlanValidationError PLAN_SCHEMA_INVALID (field_name +:+ ": nesting too deep")) in
  match v with
  | VNone | VBool _ | VInt _ => Ok v
  | VStr s => let! t := check_text field_name s in Ok (VStr t)
  | VFloat _ _ => fail PLAN_SCHEMA_INVALID (field_name +:+ ": floats are forbidden")
  | VDict d =>
      let! d' := rmap (fun kv =>
                   let! x := check_plain (field_name +:+ "." +:+ fst kv) (depth + 1) (snd kv) in
                   Ok (fst kv, x)) d in
      Ok (VDict d')
  | VList l =>
      let! l' := rmap (check_plain (field_name +:+ "[]") (depth + 1)) l in Ok (VList l')
  | VOther _ => fail PLAN_SCHEMA_INVALID (field_name +:+ ": unsupported type")
  end.

(** A check made for its exception only. *)
Definition ensure {A} (m : result exn A) : result exn unit := do! m in Ok tt.

Definition check_opt_text (field_name : string) (v : option string) : result exn unit :=
  match v with None => Ok tt | Some t => ensure (check_text field_name t) end.

(** [Binding.__post_init__] *)
Definition binding_post_init (b : Binding) : result exn unit :=
  do! check_text "binding.from" (source b) in
  do! raise_if (negb (BINDING_SOURCE_RE (source b)))
        (PlanValidationError PLAN_SCHEMA_INVALID "binding.from: malformed path") in
  do! check_text "binding.type" (binding_type b) in
  ensure (check_int "binding.max_bytes" 1 DAG_MAX_BINDING_BYTES (max_bytes b)).

(** [Idempotency.__post_init__] *)
Definition idempotency_post_init (i : Idempotency) : result exn unit :=
  ensure (check_int "idempotency.attempt_epoch" 0 1000000 (attempt_epoch i)).

(** [Compensation.__post_init__] *)
Definition compensation_post_init (c : Compensation) : result exn unit :=
  ensure (check_text "compensation.operation" (operation c)).

Definition check_limits (name : string) (m : list (string * Z)) : result exn unit :=
  rfor (fun kv =>
          do! check_text ("budget." +:+ name +:+ " key") (fst kv) in
          ensure (check_int ("budget." +:+ name +:+ "[" +:+ fst kv +:+ "]")
                    1 DAG_MAX_PARALLELISM (snd kv))) m.

(** [Budget.__post_init__] *)
Definition budget_post_init (b : Budget) : result exn unit :=
  do! check_int "budget.max_nodes" 1 DAG_MAX_NODES (max_nodes b) in
  do! check_int "budget.max_parallelism" 1 DAG_MAX_PARALLELISM (max_parallelism b) in
  do! check_int "budget.max_external_calls" 0 DAG_MAX_EXTERNAL_CALLS (max_external_calls b) in
  do! check_int "budget.max_total_wall_ms" 1 DAG_MAX_TOTAL_WALL_MS (max_total_wall_ms b) in
  do! check_int "budget.max_result_bytes" 1 DAG_MAX_RESULT_BYTES (max_result_bytes b) in
  do! check_int "budget.max_checkpoint_bytes" 1 DAG_MAX_CHECKPOINT_BYTES
        (max_checkpoint_bytes b) in
  do! check_limits "per_provider_limits" (per_provider_limits b) in
  check_limits "per_credential_limits" (per_credential_limits b).

(** [Approval.__post_init__] *)
Definition approval_post_init (a : Approval) : result exn unit :=
  do! check_text "approval.approval_id" (approval_id a) in
  do! check_text "approval.digest" (approval_digest a) in
  do! check_text "approval.nonce" (nonce a) in
  do! check_int "approval.expires_at_ms" 0 (2 ^ 63 - 1) (expires_at_ms a) in
  do! rfor (fun s => ensure (check_text "approval.scope entry" s)) (scope a) in
  rfor (fun s => ensure (check_text "approval.required_for entry" s)) (required_for a).

(** The loop over [depends_on], with the set of dependencies already seen. *)
Fixpoint check_depends (node_id : string) (seen deps : list string) : result exn unit :=
  match deps with
  | [] => Ok tt
  | dep :: rest =>
      do! raise_if (negb (NODE_ID_RE dep))
            (PlanValidationError PLAN_SCHEMA_INVALID "node.depends_on: bad node id") in
      do! raise_if (str_in dep seen)
            (PlanValidationError PLAN_DUPLICATE_DEPENDENCY (node_id +:+ "->" +:+ dep)) in
      do! raise_if (String.eqb dep node_id)
            (PlanValidationError PLAN_SELF_DEPENDENCY node_id) in
      check_depends node_id (dep :: seen) rest
  end.

(** [node.kind] decides which of [tool] and [op] must be present. *)
Definition check_kind (n : Node) : result exn unit :=
  match kind n with
  | NodeKind_TOOL =>
      do! raise_if (falsy (tool n) || match op n with Some _ => true | None => false end)
            (PlanValidationError PLAN_SCHEMA_INVALID "node: TOOL requires tool and no op") in
      check_opt_text "node.tool" (tool n)
  | NodeKind_TRANSFORM =>
      do! raise_if (falsy (op n) || match tool n with Some _ => true | None => false end)
            (PlanValidationError PLAN_SCHEMA_INVALID "node: TRANSFORM requires op and no tool") in
      check_opt_text "node.op" (op n)
  end.

Definition set_args (n : Node) (a : list (string * value)) : Node :=
  mkNode (id n) (kind n) (tool n) (op n) a (bindings n) (depends_on n) (policy_ref n)
    (idempotency n) (on_failure n) (timeout_ms n) (retry_ref n) (compensation n)
    (description n).

(** [Node.__post_init__]: the constructed node carries the checked copy of [args]. *)
Definition node_post_init (n : Node) : result exn Node :=
  do! raise_if (negb (NODE_ID_RE (id n)))
        (PlanValidationError PLAN_SCHEMA_INVALID "node.id: charset/length") in
  do! check_kind n in
  let! plain := check_plain "node.args" 0 (VDict (args n)) in
  do! rfor (fun tb =>
              do! check_text "node.bindings key" (fst tb) in
              raise_if (negb (BINDING_TARGET_RE (fst tb)))
                (PlanValidationError BINDING_CONTROL_FIELD_FORBIDDEN "node.bindings: target"))
        (bindings n) in
  do! check_depends (id n) [] (depends_on n) in
  do! check_opt_text "node.policy_ref" (policy_ref n) in
  do! check_opt_text "node.retry_ref" (retry_ref n) in
  do! check_int "node.timeout_ms" 1 DAG_MAX_TOTAL_WALL_MS (timeout_ms n) in
  do! check_text "node.description" (description n) in
  Ok (set_args n (match plain with VDict d => d | _ => [] end)).

(** The loop over the nodes, with the set of ids already seen. *)
Fixpoint check_node_ids (seen : list string) (ns : list Node) : result exn unit :=
  match ns with
  | [] => Ok tt
  | n :: rest =>
      do! raise_if (str_in (id n) seen) (PlanValidationError PLAN_DUPLICATE_NODE (id n)) in
      check_node_ids (id n :: seen) rest
  end.

(** [PlanDefinition.__post_init__] *)
Definition plan_post_init (p : PlanDefinition) : result exn unit :=
  do! raise_if (negb (String.eqb (schema_version p) DAG_SCHEMA_VERSION))
        (PlanValidationError PLAN_SCHEMA_INVALID "schema_version: unsupported") in
  do! raise_if (negb (String.eqb (mode p) "DAG"))
        (PlanValidationError PLAN_SCHEMA_INVALID "mode: must be DAG") in
  do! raise_if (negb (PLAN_ID_RE (plan_id p)))
        (PlanValidationError PLAN_SCHEMA_INVALID "plan_id: charset/length") in
  do! raise_if (match nodes p with [] => true | _ => false end)
        (PlanValidationError PLAN_SCHEMA_INVALID "nodes: at least one node is required") in
  do! raise_if (DAG_MAX_NODES <? Z.of_nat (length (nodes p)))
        (PlanValidationError PLAN_BUDGET_EXCEEDED "nodes: exceeds DAG_MAX_NODES") in
  do! check_node_ids [] (nodes p) in
  do! check_int "deadline_ms" 1 DAG_MAX_TOTAL_WALL_MS (deadline_ms p) in
  do! raise_if (max_nodes (budget p) <? Z.of_nat (length (nodes p)))
        (PlanValidationError PLAN_BUDGET_EXCEEDED "nodes: exceeds budget.max_nodes") in
  do! rfor (fun n => raise_if (deadline_ms p <? timeout_ms n)
                       (PlanValidationError PLAN_BUDGET_EXCEEDED
                          ("node " +:+ id n +:+ ": timeout > deadline"))) (nodes p) in
  ensure (check_text "description" (plan_description p)).

(** The parts are built before the plan that holds them. *)
Definition node_constructed (n : Node) : Prop :=
  node_post_init n = Ok n
  /\ Forall (fun tb => binding_post_init (snd tb) = Ok tt) (bindings n)
  /\ (forall i, idempotency n = Some i -> idempotency_post_init i = Ok tt)
  /\ (forall c, compensation n = Some c -> compensation_post_init c = Ok tt).

Definition constructed (p : PlanDefinition) : Prop :=
  Forall node_constructed (nodes p)
  /\ budget_post_init (budget p) = Ok tt
  /\ (forall a, approval p = Some a -> approval_post_init a = Ok tt)
  /\ plan_post_init p = Ok tt.
End Construction.
