(* ===== verification/DagDigest.v ===== *)
(** * Plan digests and idempotency keys ([v2/dag_digest.py])

    The canonical projection of a plan is a JSON value; the digest is the SHA-256 of its
    canonical bytes.  The hash is a parameter: what is proved about digests holds of any hash
    without collisions on the texts at hand. *)
From S2P Require Import Prelude.
From S2P Require Import PyValue.
From S2P Require Import Canonical.
From S2P Require Import DagContract.

Definition vstrs (l : list string) : value := VList (map VStr l).
Definition vints (l : list (string * Z)) : value := VDict (map (fun '(k, z) => (k, VInt z)) l).

(** [_canonical_binding] *)
Definition canonical_binding (tb : string * Binding) : value :=
  let b := snd tb in
  VDict [("target", VStr (fst tb)); ("from", VStr (source b)); ("type", VStr (binding_type b));
         ("required", VBool (required b)); ("max_bytes", VInt (max_bytes b))].

(** A key that is present only when the field is not [None]. *)
Definition opt_item {A} (k : string) (o : option A) (f : A -> value) : list (string * value) :=
  match o with Some a => [(k, f a)] | None => [] end.

(** The items of [canonical_node], in the order the code adds them. *)
Definition node_items (n : Node) : list (string * value) :=
    ([("id", VStr (id n));
      ("kind", VStr (kind_value (kind n)));
      ("args", VDict (args n));
      ("bindings", VList (map canonical_binding (sort_items (bindings n))));
      ("depends_on", vstrs (sort_str (dedup (depends_on n))));
      ("on_failure", VStr (on_failure_value (on_failure n)));
      ("timeout_ms", VInt (timeout_ms n))]
     ++ (match kind n with
         | NodeKind_TOOL => [("tool", vopt (tool n))]
         | NodeKind_TRANSFORM => [("op", vopt (op n))]
         end)
     ++ opt_item "policy_ref" (policy_ref n) VStr
     ++ opt_item "retry_ref" (retry_ref n) VStr
     ++ opt_item "idempotency" (idempotency n) (fun i =>
          VDict [("enabled", VBool (enabled i)); ("attempt_epoch", VInt (attempt_epoch i))])
     ++ opt_item "compensation" (compensation n) (fun c =>
          VDict [("operation", VStr (operation c))])).

(** [canonical_node] *)
Definition canonical_node (n : Node) : value := VDict (node_items n).

Definition canonical_budget (b : Budget) : value :=
  VDict [("max_nodes", VInt (max_nodes b));
         ("max_parallelism", VInt (max_parallelism b));
         ("max_external_calls", VInt (max_external_calls b));
         ("max_total_wall_ms", VInt (max_total_wall_ms b));
         ("max_result_bytes", VInt (max_result_bytes b));
         ("max_checkpoint_bytes", VInt (max_checkpoint_bytes b));
         ("per_provider_limits", vints (sort_items (per_provider_limits b)));
         ("per_credential_limits", vints (sort_items (per_credential_limits b)))].

(** [canonical_plan] *)
Definition canonical_plan (p : PlanDefinition) : value :=
  VDict [("digest_version", VStr DAG_DIGEST_VERSION);
         ("schema_version", VStr (schema_version p));
         ("mode", VStr (mode p));
         ("failure_policy", VStr (failure_policy_value (failure_policy p)));
         ("rollback_policy", VStr (rollback_policy_value (rollback_policy p)));
         ("deadline_ms", VInt (deadline_ms p));
         ("dry_run", VBool (dry_run p));
         ("budget", canonical_budget (budget p));
         ("nodes", VList (map canonical_node (sort_by id (nodes p))))].

(** [canonical_plan_bytes] *)
Definition canonical_plan_bytes (p : PlanDefinition) : result exn string :=
  let! encoded := lift_py (canonical_json_bytes (canonical_plan p)) in
  do! raise_if (DAG_MAX_CANONICAL_BYTES <? byte_len encoded)
        (PlanValidationError PLAN_BUDGET_EXCEEDED "canonical plan too large") in
  Ok encoded.

Section Hash.
(** [sha256_hex] of [v2/canonical.py], i.e. [hashlib.sha256(data).hexdigest()] *)
Variable sha256_hex : string -> string.

(** [plan_digest] *)
Definition plan_digest (p : PlanDefinition) : result exn string :=
  let! bytes := canonical_plan_bytes p in Ok (sha256_hex bytes).

Definition hash_value (v : value) : result exn string :=
  lift_py (canonical_hash sha256_hex v).

(** [operation_digest] *)
Definition operation_digest (node_id : string) (resolved_args : list (string * value)) :
  result exn string :=
  hash_value (VDict [("digest_version", VStr DAG_DIGEST_VERSION); ("node_id", VStr node_id);
                     ("args", VDict resolved_args)]).

(** [node_idempotency_key] *)
Definition node_idempotency_key (digest node_id : string) (epoch : Z)
  (resolved_args : list (string * value)) : result exn string :=
  hash_value (VDict [("plan_digest", VStr digest); ("node_id", VStr node_id);
                     ("attempt_epoch", VInt epoch); ("args", VDict resolved_args)]).

(** [compensation_key] *)
Definition compensation_key (digest node_id effect_ref : string) : result exn string :=
  hash_value (VDict [("plan_digest", VStr digest); ("node_id", VStr node_id);
                     ("kind", VStr "compensate"); ("effect_ref", VStr effect_ref)]).
End Hash.

(** ** What a digest binds *)

(** Equality of nodes up to editorial text, the order of dict keys and the order and
    repetition of dependencies. *)
Definition same_node (m n : Node) : Prop :=
  id m = id n /\ kind m = kind n
  /\ normal (VDict (args m)) = normal (VDict (args n))
  /\ sort_items (bindings m) = sort_items (bindings n)
  /\ sort_str (dedup (depends_on m)) = sort_str (dedup (depends_on n))
  /\ on_failure m = on_failure n /\ timeout_ms m = timeout_ms n
  /\ match kind m with
     | NodeKind_TOOL => tool m = tool n
     | NodeKind_TRANSFORM => op m = op n
     end
  /\ policy_ref m = policy_ref n /\ retry_ref m = retry_ref n
  /\ idempotency m = idempotency n /\ compensation m = compensation n.

Definition same_budget (b c : Budget) : Prop :=
  max_nodes b = max_nodes c /\ max_parallelism b = max_parallelism c
  /\ max_external_calls b = max_external_calls c
  /\ max_total_wall_ms b = max_total_wall_ms c
  /\ max_result_bytes b = max_result_bytes c
  /\ max_checkpoint_bytes b = max_checkpoint_bytes c
  /\ sort_items (per_provider_limits b) = sort_items (per_provider_limits c)
  /\ sort_items (per_credential_limits b) = sort_items (per_credential_limits c).

(** Equality of plans up to [plan_id], [approval], descriptions and node order. *)
Definition same_plan (p q : PlanDefinition) : Prop :=
  schema_version p = schema_version q /\ mode p = mode q
  /\ failure_policy p = failure_policy q /\ rollback_policy p = rollback_policy q
  /\ deadline_ms p = deadline_ms q /\ dry_run p = dry_run q
  /\ same_budget (budget p) (budget q)
  /\ Forall2 same_node (sort_by id (nodes p)) (sort_by id (nodes q)).

Lemma kind_value_inj a b : kind_value a = kind_value b -> a = b.
Proof. by destruct a, b. Qed.
Lemma on_failure_value_inj a b : on_failure_value a = on_failure_value b -> a = b.
Proof. by destruct a, b. Qed.
Lemma failure_policy_value_inj a b : failure_policy_value a = failure_policy_value b -> a = b.
Proof. by destruct a, b. Qed.
Lemma rollback_policy_value_inj a b : rollback_policy_value a = rollback_policy_value b -> a = b.
Proof. by destruct a, b. Qed.

Lemma canonical_binding_inj l1 l2 :
  map normal (map canonical_binding l1) = map normal (map canonical_binding l2) -> l1 = l2.
Proof.
  revert l2. induction l1 as [|[t [s ty r mb]] l1 IH]; intros [|[t' [s' ty' r' mb']] l2]; simpl;
    intros Heq; simplify_eq; [done|]. f_equal. auto.
Qed.

Lemma normal_vints l1 l2 :
  normal (vints (sort_items l1)) = normal (vints (sort_items l2)) <->
  sort_items l1 = sort_items l2.
Proof.
  split; [|by intros ->]. unfold vints. rewrite !normal_dict. unfold sort_items.
  rewrite !(sort_by_map _ fst fst) by by intros [].
  rewrite !(sort_by_id fst (sort_by fst _)) by apply sort_by_sorted.
  intros [= H]. revert H. generalize (sort_by fst l1) (sort_by fst l2). clear.
  intros d1. induction d1 as [|[k x] d1 IH]; intros [|[k' x'] d2]; simpl; intros; simplify_eq;
    f_equal; auto.
Qed.

(** The items of a node, key by key. *)
Section NodeItems.
Variable n : Node.

Lemma node_items_NoDup : NoDup (dkeys (node_items n)).
Proof.
  unfold node_items, opt_item.
  destruct (kind n), (policy_ref n), (retry_ref n), (idempotency n), (compensation n);
    keys_distinct.
Qed.

Ltac by_key :=
  unfold node_items, opt_item;
  destruct (kind n), (policy_ref n), (retry_ref n), (idempotency n), (compensation n);
  reflexivity.

Lemma get_policy_ref : dget "policy_ref" (node_items n) = VStr <$> policy_ref n.
Proof. by_key. Qed.
Lemma get_retry_ref : dget "retry_ref" (node_items n) = VStr <$> retry_ref n.
Proof. by_key. Qed.
Lemma get_idempotency :
  dget "idempotency" (node_items n) =
  (fun i => VDict [("enabled", VBool (enabled i)); ("attempt_epoch", VInt (attempt_epoch i))])
    <$> idempotency n.
Proof. by_key. Qed.
Lemma get_compensation :
  dget "compensation" (node_items n) =
  (fun c => VDict [("operation", VStr (operation c))]) <$> compensation n.
Proof. by_key. Qed.
Lemma get_tool :
  dget "tool" (node_items n) =
  match kind n with NodeKind_TOOL => Some (vopt (tool n)) | NodeKind_TRANSFORM => None end.
Proof. by_key. Qed.
Lemma get_op :
  dget "op" (node_items n) =
  match kind n with NodeKind_TOOL => None | NodeKind_TRANSFORM => Some (vopt (op n)) end.
Proof. by_key. Qed.
End NodeItems.

Lemma fmap_normal_vstr_inj (a b : option string) : normal <$> (VStr <$> a) = normal <$> (VStr <$> b) -> a = b.
Proof. destruct a, b; simpl; intros; simplify_eq; done. Qed.

Lemma same_node_fwd m n : normal (canonical_node m) = normal (canonical_node n) -> same_node m n.
Proof.
  intros H.
  assert (forall k, normal <$> dget k (node_items m) = normal <$> dget k (node_items n)) as F.
  { intros k. apply normal_dict_get; [apply node_items_NoDup..|done]. }
  pose proof (F "kind") as Hk. injection Hk as Hk%kind_value_inj.
  pose proof (F "id") as Hi. injection Hi as Hi.
  pose proof (F "args") as Ha. injection Ha as Ha.
  pose proof (F "bindings") as Hb. injection Hb as Hb%canonical_binding_inj.
  pose proof (F "depends_on") as Hd. injection Hd as Hd.
  rewrite !map_normal_strs in Hd. apply vstr_map_inj in Hd.
  pose proof (F "on_failure") as Hf. injection Hf as Hf%on_failure_value_inj.
  pose proof (F "timeout_ms") as Ht. injection Ht as Ht.
  pose proof (F "policy_ref") as Hp. rewrite !get_policy_ref in Hp. apply fmap_normal_vstr_inj in Hp.
  pose proof (F "retry_ref") as Hr. rewrite !get_retry_ref in Hr. apply fmap_normal_vstr_inj in Hr.
  pose proof (F "idempotency") as Hm. rewrite !get_idempotency in Hm.
  pose proof (F "compensation") as Hc. rewrite !get_compensation in Hc.
  pose proof (F "tool") as Htool. rewrite !get_tool, <- Hk in Htool.
  pose proof (F "op") as Hop. rewrite !get_op, <- Hk in Hop.
  unfold same_node. split_and!; try done.
  - cbn [normal]. by f_equal.
  - destruct (kind m); [injection Htool as Htool|injection Hop as Hop]; by apply vopt_inj.
  - destruct (idempotency m) as [[]|], (idempotency n) as [[]|]; simpl in Hm;
      by simplify_eq.
  - destruct (compensation m) as [[]|], (compensation n) as [[]|]; simpl in Hc;
      by simplify_eq.
Qed.

Lemma same_node_bwd m n : same_node m n -> normal (canonical_node m) = normal (canonical_node n).
Proof.
  intros (Hi & Hk & Ha & Hb & Hd & Hf & Ht & Hto & Hp & Hr & Hm & Hc).
  apply normal_dict_congr. unfold node_items.
  rewrite !map_app, Hi, Hk, Hb, Hd, Hf, Ht, Hp, Hr, Hm, Hc.
  f_equal; [|f_equal].
  - cbn [map]. by rewrite Ha.
  - rewrite Hk in Hto. destruct (kind n); simpl; by rewrite Hto.
Qed.

Lemma same_node_iff m n : same_node m n <-> normal (canonical_node m) = normal (canonical_node n).
Proof. split; [apply same_node_bwd|apply same_node_fwd]. Qed.

Lemma same_nodes_iff l1 l2 :
  Forall2 same_node l1 l2 <->
  map normal (map canonical_node l1) = map normal (map canonical_node l2).
Proof.
  revert l2. induction l1 as [|m l1 IH]; intros [|n l2]; cbn [map].
  - split; [done|constructor].
  - split; [intros H; inversion H|done].
  - split; [intros H; inversion H|done].
  - rewrite Forall2_cons, same_node_iff, IH. split; [by intros [-> ->]|apply cons_eq_inj].
Qed.

Lemma same_budget_iff b c :
  same_budget b c <-> normal (canonical_budget b) = normal (canonical_budget c).
Proof.
  unfold same_budget. rewrite <- (normal_vints (per_provider_limits b)).
  rewrite <- (normal_vints (per_credential_limits b)). split.
  - intros (H1 & H2 & H3 & H4 & H5 & H6 & H7 & H8). apply normal_dict_congr.
    cbn [map]. by rewrite H1, H2, H3, H4, H5, H6, H7, H8.
  - intros H. unfold canonical_budget in H.
    dict_fields H F.
    pose proof (F "max_nodes") as H1. pose proof (F "max_parallelism") as H2.
    pose proof (F "max_external_calls") as H3. pose proof (F "max_total_wall_ms") as H4.
    pose proof (F "max_result_bytes") as H5. pose proof (F "max_checkpoint_bytes") as H6.
    pose proof (F "per_provider_limits") as H7. pose proof (F "per_credential_limits") as H8.
    clear F H. cbn [dget String.eqb Ascii.eqb Bool.eqb fmap option_fmap option_map] in *.
    simplify_eq. split_and!; try done; cbn [normal vints] in *; congruence.
Qed.

Lemma same_plan_iff p q :
  same_plan p q <-> normal (canonical_plan p) = normal (canonical_plan q).
Proof.
  unfold same_plan. rewrite same_budget_iff, same_nodes_iff, <- normal_list. split.
  - intros (H1 & H2 & H3 & H4 & H5 & H6 & H7 & H8). apply normal_dict_congr.
    cbn [map]. by rewrite H1, H2, H3, H4, H5, H6, H7, H8.
  - intros H. unfold canonical_plan in H.
    dict_fields H F.
    pose proof (F "schema_version") as H1. pose proof (F "mode") as H2.
    pose proof (F "failure_policy") as H3. pose proof (F "rollback_policy") as H4.
    pose proof (F "deadline_ms") as H5. pose proof (F "dry_run") as H6.
    pose proof (F "budget") as H7. pose proof (F "nodes") as H8. clear F H.
    cbn [dget String.eqb Ascii.eqb Bool.eqb fmap option_fmap option_map] in *.
    injection H1 as H1. injection H2 as H2. injection H3 as H3%failure_policy_value_inj.
    injection H4 as H4%rollback_policy_value_inj. injection H5 as H5. injection H6 as H6.
    split_and!; try done; [exact (inj Some _ _ H7)|exact (inj Some _ _ H8)].
Qed.

(** ** Theorems *)

Lemma canonical_plan_bytes_Ok p bytes :
  canonical_plan_bytes p = Ok bytes ->
  validate (canonical_plan p) = Ok tt /\ bytes = json_dumps (canonical_plan p).
Proof.
  unfold canonical_plan_bytes. intros H. dag_inv. by apply canonical_text_Ok.
Qed.

Lemma canonical_plan_bytes_iff p q bp bq :
  canonical_plan_bytes p = Ok bp -> canonical_plan_bytes q = Ok bq -> bp = bq <-> same_plan p q.
Proof.
  intros [Hp ->]%canonical_plan_bytes_Ok [Hq ->]%canonical_plan_bytes_Ok.
  rewrite same_plan_iff. by apply dumps_eq_iff.
Qed.

Section DigestTheorems.
Variable sha256_hex : string -> string.
Hypothesis sha256_collision_free : forall x y, sha256_hex x = sha256_hex y -> x = y.

(** Two plans that both have a digest have the same digest exactly when they agree on
    everything but [plan_id], [approval], editorial text and the order of nodes, dict keys
    and dependencies: an approval bound to a digest authorises one plan content. *)
Theorem plan_digest_binds p q dp dq :
  plan_digest sha256_hex p = Ok dp -> plan_digest sha256_hex q = Ok dq ->
  dp = dq <-> same_plan p q.
Proof.
  unfold plan_digest. intros Hp Hq. res_inv.
  rewrite <- canonical_plan_bytes_iff by eassumption.
  split; [apply sha256_collision_free|congruence].
Qed.
End DigestTheorems.

(** Two nodes; the second depends on the first and reads its result. *)
Definition demo_node (i : string) (a : list (string * value)) (b : list (string * Binding))
  (d : list string) : Node :=
  mkNode i NodeKind_TOOL (Some "github.get_issue") None a b d None None OnFailure_ABORT_PLAN
    30000 None None "".

Definition demo_budget : Budget := mkBudget 64 2 64 900000 1048576 1048576 [] [].

Definition demo_plan (pid : string) (ns : list Node) : PlanDefinition :=
  mkPlan pid ns demo_budget FailurePolicy_FAIL_FAST 60000 RollbackPolicy_NONE None false
    DAG_SCHEMA_VERSION "DAG" "".

Definition demo_a : Node :=
  demo_node "a" [("repository", VStr "o/r"); ("number", VInt 7)] [] [].
Definition demo_a' : Node :=
  demo_node "a" [("number", VInt 7); ("repository", VStr "o/r")] [] [].
Definition demo_b : Node :=
  demo_node "b" [("repository", VStr "o/r")]
    [("args.number", mkBinding "a.result.number" "int" true 1024)] ["a"].

Lemma plan_digest_binds_witness :
  plan_digest (fun s => s) (demo_plan "p1" [demo_a; demo_b])
  = plan_digest (fun s => s) (demo_plan "p2" [demo_b; demo_a'])
  /\ same_plan (demo_plan "p1" [demo_a; demo_b]) (demo_plan "p2" [demo_b; demo_a']).
Proof.
  split; [vm_compute; reflexivity|].
  eapply (plan_digest_binds (fun s => s) (fun x y H => H));
    [vm_compute; reflexivity|vm_compute; reflexivity|reflexivity].
Defined.
