(* ===== verification/DagTransform.v ===== *)
(** * The closed transform table ([v2/dag_transform.py])

    Twelve pure operations over JSON-like values.  [handler] is the operation itself,
    [apply_transform] the checked entry point: arity, argument types, then the output size. *)
From S2P Require Import Prelude.
From S2P Require Import PyValue.
From S2P Require Import Canonical.
From S2P Require Import DagContract.

Definition TYPE_OBJECT : string := "object".
Definition TYPE_LIST : string := "list".
Definition TYPE_STRING : string := "string".
Definition TYPE_INT : string := "int".
Definition TYPE_BOOL : string := "bool".
Definition TYPE_ANY : string := "any".

Definition TYPE_NAMES : list string :=
  [TYPE_OBJECT; TYPE_LIST; TYPE_STRING; TYPE_INT; TYPE_BOOL; TYPE_ANY].

(** [type_of] *)
Definition type_of (v : value) : result exn string :=
  match v with
  | VBool _ => Ok TYPE_BOOL
  | VInt _ => Ok TYPE_INT
  | VStr _ => Ok TYPE_STRING
  | VDict _ => Ok TYPE_OBJECT
  | VList _ => Ok TYPE_LIST
  | VNone | VFloat _ _ | VOther _ => fail TRANSFORM_TYPE_MISMATCH "unsupported value type"
  end.

(** [types_compatible] *)
Definition types_compatible (declared actual : string) : bool :=
  if negb (str_in declared TYPE_NAMES) || negb (str_in actual TYPE_NAMES) then false
  else if String.eqb declared TYPE_ANY || String.eqb actual TYPE_ANY
  then String.eqb declared actual
  else String.eqb declared actual.

(** [_require] *)
Definition require (condition : bool) (r : PlanReason) (detail : string) : result exn unit :=
  raise_if (negb condition) (PlanValidationError r detail).

(** [_as_object], [_as_list], [_as_str] *)
Definition as_object (v : value) (name : string) : result exn (list (string * value)) :=
  match v with
  | VDict d => Ok d
  | _ => fail TRANSFORM_TYPE_MISMATCH (name +:+ ": object")
  end.

Definition as_list (v : value) (name : string) : result exn (list value) :=
  match v with
  | VList l => Ok l
  | _ => fail TRANSFORM_TYPE_MISMATCH (name +:+ ": list")
  end.

Definition as_str (v : value) (name : string) : result exn string :=
  match v with
  | VStr s => Ok s
  | _ => fail TRANSFORM_TYPE_MISMATCH (name +:+ ": string")
  end.

(** [args.get(name)] *)
Definition arg (a : list (string * value)) (name : string) : value := default VNone (dget name a).

(** [source[key]] after the membership test has passed. *)
Definition lookup_or (d : list (string * value)) (key detail : string) : result exn value :=
  match dget key d with
  | Some v => Ok v
  | None => fail TRANSFORM_TYPE_MISMATCH detail
  end.

(** [_field] *)
Definition field (item : value) (key : string) : result exn value :=
  let! mapping := as_object item "item" in lookup_or mapping key "field: unknown".

Definition transform := list (string * value) -> result exn value.

(** [_op_select] *)
Definition op_select : transform := fun a =>
  let! source := as_object (arg a "value") "value" in
  let! key := as_str (arg a "field") "field" in
  lookup_or source key "select: unknown field".

(** [_op_project] *)
Definition op_project : transform := fun a =>
  let! source := as_object (arg a "value") "value" in
  let! fields := as_list (arg a "fields") "fields" in
  let! out := rfold (fun out name =>
                let! key := as_str name "fields[]" in
                let! v := lookup_or source key "project: unknown field" in
                Ok (dset key v out)) [] fields in
  Ok (VDict out).

(** [[item for item in items if test item]], where the test may raise. *)
Definition rfilter {A} (test : A -> result exn bool) : list A -> result exn (list A) :=
  fix go l := match l with
              | [] => Ok []
              | x :: rest =>
                  let! keep := test x in
                  let! ys := go rest in
                  Ok (if keep then x :: ys else ys)
              end.

(** [_op_filter_eq] *)
Definition op_filter_eq : transform := fun a =>
  let! items := as_list (arg a "value") "value" in
  let! key := as_str (arg a "field") "field" in
  let expected := arg a "equals" in
  let! out := rfilter (fun item => let! v := field item key in Ok (py_eq v expected)) items in
  Ok (VList out).

(** [_op_filter_in] *)
Definition op_filter_in : transform := fun a =>
  let! items := as_list (arg a "value") "value" in
  let! key := as_str (arg a "field") "field" in
  let! allowed := as_list (arg a "values") "values" in
  let! out := rfilter (fun item =>
                let! v := field item key in Ok (existsb (py_eq v) allowed)) items in
  Ok (VList out).

(** [_op_map_field] *)
Definition op_map_field : transform := fun a =>
  let! items := as_list (arg a "value") "value" in
  let! key := as_str (arg a "field") "field" in
  let! out := rmap (fun item => field item key) items in Ok (VList out).

(** [_op_count] *)
Definition op_count : transform := fun a =>
  let! items := as_list (arg a "value") "value" in Ok (VInt (Z.of_nat (length items))).

(** [_op_first] *)
Definition op_first : transform := fun a =>
  let! items := as_list (arg a "value") "value" in
  match items with
  | x :: _ => Ok x
  | [] => fail TRANSFORM_TYPE_MISMATCH "first: empty list"
  end.

(** [_op_sort_by]: the sort is stable, so sorting on the key text alone orders by
    (canonical key bytes, original index). *)
Definition op_sort_by : transform := fun a =>
  let! items := as_list (arg a "value") "value" in
  let! key := as_str (arg a "field") "field" in
  let! keys := rmap (fun item => field item key) items in
  let! kinds := rmap type_of keys in
  do! require (Nat.leb (length (dedup kinds)) 1) TRANSFORM_TYPE_MISMATCH
        "sort_by: mixed key types" in
  let! texts := rmap (fun k => lift_py (canonical_json_bytes k)) keys in
  Ok (VList (map snd (sort_by fst (zip texts items)))).

(** The loop of [_op_unique] with its list of encodings already seen. *)
Fixpoint unique_loop (seen : list string) (items : list value) : result exn (list value) :=
  match items with
  | [] => Ok []
  | item :: rest =>
      let! encoded := lift_py (canonical_json_bytes item) in
      if str_in encoded seen then unique_loop seen rest
      else let! out := unique_loop (encoded :: seen) rest in Ok (item :: out)
  end.

(** [_op_unique] *)
Definition op_unique : transform := fun a =>
  let! items := as_list (arg a "value") "value" in
  let! out := unique_loop [] items in Ok (VList out).

(** [_op_merge_objects] *)
Definition op_merge_objects : transform := fun a =>
  let! left := as_object (arg a "left") "left" in
  let! right := as_object (arg a "right") "right" in
  let overlap := filter (fun k => k ∈ dkeys right) (dkeys left) in
  do! require (match overlap with [] => true | _ => false end) TRANSFORM_TYPE_MISMATCH
        "merge_objects: key collision" in
  Ok (VDict (dupdate left right)).

(** [_op_to_list] *)
Definition op_to_list : transform := fun a =>
  match arg a "value" with
  | VList l => Ok (VList l)
  | v => Ok (VList [v])
  end.

(** [_op_require_non_empty] *)
Definition op_require_non_empty : transform := fun a =>
  let! items := as_list (arg a "value") "value" in
  do! require (match items with [] => false | _ => true end) TRANSFORM_TYPE_MISMATCH
        "require_non_empty: empty" in
  Ok (VList items).

(** [TransformSpec] *)
Record TransformSpec := mkSpec {
  spec_name : string;
  required_args : list string;
  arg_types : list (string * string);
  output_type : string;
  handler : transform
}.

(** [TRANSFORM_OPS] *)
Definition TRANSFORM_OPS : list (string * TransformSpec) :=
  map (fun s => (spec_name s, s))
    [mkSpec "select" ["value"; "field"] [("value", TYPE_OBJECT); ("field", TYPE_STRING)]
       TYPE_ANY op_select;
     mkSpec "project" ["value"; "fields"] [("value", TYPE_OBJECT); ("fields", TYPE_LIST)]
       TYPE_OBJECT op_project;
     mkSpec "filter_eq" ["value"; "field"; "equals"]
       [("value", TYPE_LIST); ("field", TYPE_STRING)] TYPE_LIST op_filter_eq;
     mkSpec "filter_in" ["value"; "field"; "values"]
       [("value", TYPE_LIST); ("field", TYPE_STRING); ("values", TYPE_LIST)]
       TYPE_LIST op_filter_in;
     mkSpec "map_field" ["value"; "field"] [("value", TYPE_LIST); ("field", TYPE_STRING)]
       TYPE_LIST op_map_field;
     mkSpec "count" ["value"] [("value", TYPE_LIST)] TYPE_INT op_count;
     mkSpec "first" ["value"] [("value", TYPE_LIST)] TYPE_ANY op_first;
     mkSpec "sort_by" ["value"; "field"] [("value", TYPE_LIST); ("field", TYPE_STRING)]
       TYPE_LIST op_sort_by;
     mkSpec "unique" ["value"] [("value", TYPE_LIST)] TYPE_LIST op_unique;
     mkSpec "merge_objects" ["left"; "right"] [("left", TYPE_OBJECT); ("right", TYPE_OBJECT)]
       TYPE_OBJECT op_merge_objects;
     mkSpec "to_list" ["value"] [] TYPE_LIST op_to_list;
     mkSpec "require_non_empty" ["value"] [("value", TYPE_LIST)] TYPE_LIST
       op_require_non_empty].

Definition find_spec (op : string) : result exn TransformSpec :=
  match dget op TRANSFORM_OPS with
  | Some spec => Ok spec
  | None => fail TRANSFORM_OP_UNKNOWN op
  end.

(** [transform_output_type] *)
Definition transform_output_type (op : string) : result exn string :=
  let! spec := find_spec op in Ok (output_type spec).

(** [sorted(set(xs) - set(ys))] *)
Definition sorted_difference (xs ys : list string) : list string :=
  sort_str (filter (fun x => x ∉ ys) (dedup xs)).

(** [validate_transform_shape] *)
Definition validate_transform_shape (op : string) (arg_names : list string) : result exn unit :=
  let! spec := find_spec op in
  let missing := sorted_difference (required_args spec) arg_names in
  do! raise_if (match missing with [] => false | _ => true end)
        (PlanValidationError TRANSFORM_TYPE_MISMATCH (op +:+ ": missing " +:+ join "," missing)) in
  let extra := sorted_difference arg_names (required_args spec) in
  raise_if (match extra with [] => false | _ => true end)
    (PlanValidationError TRANSFORM_TYPE_MISMATCH (op +:+ ": unexpected " +:+ join "," extra)).

(** [apply_transform] *)
Definition apply_transform (op : string) (a : list (string * value)) (max_bytes : Z) :
  result exn value :=
  let! spec := find_spec op in
  do! validate_transform_shape op (dkeys a) in
  do! rfor (fun nt =>
              let '(name, declared) := nt in
              if String.eqb declared TYPE_ANY then Ok tt
              else
                let! actual := type_of (arg a name) in
                raise_if (negb (String.eqb actual declared))
                  (PlanValidationError TRANSFORM_TYPE_MISMATCH
                     (op +:+ "." +:+ name +:+ ": " +:+ actual +:+ " != " +:+ declared)))
        (arg_types spec) in
  let! res := handler spec a in
  let! encoded := lift_py (canonical_json_bytes res) in
  do! raise_if (max_bytes <? byte_len encoded)
        (PlanValidationError TRANSFORM_OUTPUT_TOO_LARGE op) in
  Ok res.

(** ** Type soundness *)

Definition has_type (t : string) (v : value) : Prop := t = TYPE_ANY \/ type_of v = Ok t.

Lemma ops_spec op spec : find_spec op = Ok spec -> (op, spec) ∈ TRANSFORM_OPS.
Proof.
  unfold find_spec. destruct (dget op TRANSFORM_OPS) eqn:H; intros Heq; [|done].
  injection Heq as ->. by apply dget_elem.
Qed.

Lemma handlers_typed :
  Forall (fun nspec => forall a v,
            handler (snd nspec) a = Ok v -> has_type (output_type (snd nspec)) v) TRANSFORM_OPS.
Proof.
  repeat apply Forall_cons_2; [..|apply Forall_nil_2]; simpl; intros a v H.
  all: try by left.
  all: right; unfold op_project, op_filter_eq, op_filter_in, op_map_field, op_count, op_sort_by,
         op_unique, op_merge_objects, op_to_list, op_require_non_empty in H; dag_inv; try done.
  by destruct (arg a "value"); simplify_eq.
Qed.

(** ** No exception but [PlanValidationError] *)

Lemma ensures_as_object v n : valid v -> ensures (as_object v n) (fun d => valid (VDict d)).
Proof. destruct v; simpl; eauto. Qed.

Lemma ensures_as_list v n : valid v -> ensures (as_list v n) (fun l => Forall valid l).
Proof. destruct v; simpl; try eauto. intros ?. by apply valid_list. Qed.

Lemma ensures_as_str v n : ensures (as_str v n) (fun _ => True).
Proof. destruct v; simpl; eauto. Qed.

Lemma ensures_lookup d k m : valid (VDict d) -> ensures (lookup_or d k m) valid.
Proof.
  intros Hd. unfold lookup_or. destruct (dget k d) as [v|] eqn:Hk; [|apply ensures_fail].
  apply valid_dict in Hd. rewrite Forall_forall in Hd. apply dget_elem in Hk.
  exact (Hd _ Hk).
Qed.

Lemma ensures_field v k : valid v -> ensures (field v k) valid.
Proof.
  intros Hv. eapply ensures_bind; [by apply ensures_as_object|]. intros d Hd.
  by apply ensures_lookup.
Qed.

Lemma ensures_type_of v : ensures (type_of v) (fun _ => True).
Proof. destruct v; simpl; eauto. Qed.

Lemma ensures_text v : valid v -> ensures (lift_py (canonical_json_bytes v)) (fun t => t = json_dumps v).
Proof. intros Hv. by rewrite valid_text. Qed.

Lemma ensures_rfilter (test : value -> result exn bool) l (P : value -> Prop) :
  Forall (fun x => P x /\ ensures (test x) (fun _ => True)) l ->
  ensures (rfilter test l) (Forall P).
Proof.
  induction 1 as [|x l [Hx Ht] _ IH]; simpl; [constructor|].
  eapply ensures_bind; [exact Ht|]. intros keep _. eapply ensures_bind; [exact IH|].
  intros ys Hys. simpl. destruct keep; auto.
Qed.

Lemma ensures_unique_loop seen l :
  Forall valid l -> ensures (unique_loop seen l) (Forall valid).
Proof.
  intros Hl. revert seen. induction Hl as [|x l Hx _ IH]; intros seen; simpl; [constructor|].
  eapply ensures_bind; [by apply ensures_text|]. intros t _.
  destruct (str_in t seen); [done|]. eapply ensures_bind; [done|]. intros out Hout. simpl. auto.
Qed.

#[export] Hint Resolve ensures_as_object ensures_as_list ensures_as_str ensures_lookup
  ensures_field ensures_type_of ensures_text : ensures.

Lemma valid_arg a n : valid (VDict a) -> valid (arg a n).
Proof.
  intros Ha. unfold arg. destruct (dget n a) as [v|] eqn:Hn; [|done].
  apply valid_dict in Ha. rewrite Forall_forall in Ha. exact (Ha _ (dget_elem _ _ _ Hn)).
Qed.

Lemma valid_dset k v d : valid (VDict d) -> valid v -> valid (VDict (dset k v d)).
Proof.
  rewrite !valid_dict. intros Hd Hv. induction Hd as [|[k' x] d Hx Hd IH]; simpl; [auto|].
  destruct (String.eqb k k'); constructor; auto.
Qed.

Lemma valid_dupdate d1 d2 :
  valid (VDict d1) -> valid (VDict d2) -> valid (VDict (dupdate d1 d2)).
Proof.
  unfold dupdate. revert d1. induction d2 as [|[k v] d2 IH]; simpl; intros d1 H1 H2; [done|].
  apply valid_dict in H2. apply Forall_cons in H2 as [Hv H2]. apply IH; [|by apply valid_dict].
  by apply valid_dset.
Qed.

(** Runs through the leading steps whose postcondition a hint gives. *)
Ltac ensures_steps :=
  repeat (eapply ensures_bind; [solve [eauto with ensures]|simpl; intros ? ?]).

Lemma ensures_require b r d (Q : unit -> Prop) : (b = true -> Q tt) -> ensures (require b r d) Q.
Proof. destruct b; simpl; eauto. Qed.

Lemma ensures_valid_items (m : result exn (list value)) :
  ensures m (Forall valid) -> ensures (let! out := m in Ok (VList out)) valid.
Proof. intros Hm. eapply ensures_bind; [exact Hm|]. intros l Hl. by apply valid_list. Qed.

Section Safe.
Variable a : list (string * value).
Hypothesis Ha : valid (VDict a).

Lemma arg_valid n : valid (arg a n).
Proof. by apply valid_arg. Qed.
#[local] Hint Resolve arg_valid : ensures.

Lemma op_project_safe : ensures (op_project a) valid.
Proof.
  unfold op_project. ensures_steps.
  apply (ensures_bind _ _ (fun out => valid (VDict out))); [|done].
  apply (ensures_rfold _ _ (fun out => valid (VDict out))); [done|].
  intros out name Hout _. ensures_steps. by apply valid_dset.
Qed.

Lemma op_filter_eq_safe : ensures (op_filter_eq a) valid.
Proof.
  unfold op_filter_eq. ensures_steps. apply ensures_valid_items.
  apply ensures_rfilter. eapply Forall_impl; [eassumption|]. intros x Hx.
  split; [done|]. by ensures_steps.
Qed.

Lemma op_filter_in_safe : ensures (op_filter_in a) valid.
Proof.
  unfold op_filter_in. ensures_steps. apply ensures_valid_items.
  apply ensures_rfilter. eapply Forall_impl; [eassumption|]. intros x Hx.
  split; [done|]. by ensures_steps.
Qed.

Lemma fields_safe l key :
  Forall valid l ->
  ensures (rmap (fun item => field item key) l)
    (fun ks => Forall valid ks /\ length ks = length l).
Proof.
  intros Hl. apply ensures_rmap. eapply Forall_impl; [exact Hl|]. eauto with ensures.
Qed.

Lemma op_map_field_safe : ensures (op_map_field a) valid.
Proof.
  unfold op_map_field. ensures_steps. apply ensures_valid_items.
  eapply ensures_mono; [by apply fields_safe|]. by intros ? [].
Qed.

Lemma op_sort_by_safe : ensures (op_sort_by a) valid.
Proof.
  unfold op_sort_by. ensures_steps. rename a0 into items.
  eapply ensures_bind; [by apply fields_safe|]. intros keys [Hkeys _].
  eapply ensures_bind; [apply (ensures_rmap _ _ (fun _ => True)), Forall_forall;
                        intros; apply ensures_type_of|].
  intros kinds _. eapply ensures_bind; [apply (ensures_require _ _ _ (fun _ => True)); done|].
  intros _ _. eapply ensures_bind.
  { apply (ensures_rmap _ _ (fun _ => True)). eapply Forall_impl; [exact Hkeys|].
    intros k Hk. eapply ensures_mono; [by apply ensures_text|done]. }
  intros texts _. simpl. apply valid_list. apply Forall_forall. intros x Hx.
  apply list_elem_of_fmap_1 in Hx as ([t y] & -> & Hy). rewrite sort_by_perm in Hy.
  rewrite Forall_forall in H. by apply elem_of_zip_r in Hy; auto.
Qed.

Lemma op_merge_objects_safe : ensures (op_merge_objects a) valid.
Proof.
  unfold op_merge_objects. ensures_steps.
  eapply ensures_bind; [apply (ensures_require _ _ _ (fun _ => True)); done|].
  intros _ _. by apply valid_dupdate.
Qed.

Lemma op_to_list_safe : ensures (op_to_list a) valid.
Proof.
  unfold op_to_list. pose proof (arg_valid "value") as Hv.
  destruct (arg a "value"); simpl; unfold valid in *; simpl in *; try done; by rewrite Hv.
Qed.
End Safe.

(** Every operation, on plain JSON arguments, returns plain JSON or raises a
    [PlanValidationError]. *)
Lemma handlers_safe :
  Forall (fun nspec => forall a,
            valid (VDict a) -> ensures (handler (snd nspec) a) valid) TRANSFORM_OPS.
Proof.
  repeat apply Forall_cons_2; [..|apply Forall_nil_2]; cbn [fst snd handler]; intros a Ha.
  all: pose proof (fun n => valid_arg a n Ha) as Harg.
  - unfold op_select. ensures_steps. eauto with ensures.
  - by apply op_project_safe.
  - by apply op_filter_eq_safe.
  - by apply op_filter_in_safe.
  - by apply op_map_field_safe.
  - unfold op_count. by ensures_steps.
  - unfold op_first. ensures_steps. destruct a0; simpl; [eauto|].
    by match goal with H : Forall _ _ |- _ => apply Forall_cons in H as [? _] end.
  - by apply op_sort_by_safe.
  - unfold op_unique. ensures_steps. apply ensures_valid_items.
    by apply ensures_unique_loop.
  - by apply op_merge_objects_safe.
  - by apply op_to_list_safe.
  - unfold op_require_non_empty. ensures_steps.
    eapply ensures_bind; [apply (ensures_require _ _ _ (fun _ => True)); done|].
    intros _ _. by apply valid_list.
Qed.

(** ** Theorems *)

(** The transform engine is total and type safe: on plain JSON arguments every operation,
    known or not, either returns plain JSON of its declared output type and within the byte
    budget, or raises a [PlanValidationError]; no other exception escapes. *)
Theorem apply_transform_sound op a max_bytes :
  valid (VDict a) ->
  ensures (apply_transform op a max_bytes) (fun v =>
    valid v /\ byte_len (json_dumps v) <= max_bytes
    /\ exists t, transform_output_type op = Ok t /\ has_type t v).
Proof.
  intros Ha. unfold apply_transform, transform_output_type.
  destruct (find_spec op) as [spec|e] eqn:Hspec.
  2:{ unfold find_spec, fail in Hspec. destruct (dget op TRANSFORM_OPS); simplify_eq.
      cbn. eauto. }
  pose proof (ops_spec _ _ Hspec) as Hin. cbn [rbind].
  eapply (ensures_bind _ _ (fun _ => True)).
  { unfold validate_transform_shape. rewrite Hspec. cbn [rbind].
    eapply (ensures_bind _ _ (fun _ => True)); auto with ensures. }
  intros _ _. eapply ensures_bind.
  { apply ensures_rfor, Forall_forall. intros [name declared] _.
    destruct (String.eqb declared TYPE_ANY); [done|].
    eapply ensures_bind; [apply ensures_type_of|]. auto with ensures. }
  intros _ _. pose proof (proj1 (Forall_forall _ _) handlers_typed _ Hin a) as Htyped.
  pose proof (proj1 (Forall_forall _ _) handlers_safe _ Hin a Ha) as Hsafe.
  simpl in Htyped, Hsafe. destruct (handler spec a) as [v|e]; [|exact Hsafe].
  cbn [rbind ensures] in *. rewrite valid_text by done. cbn [lift_py rbind].
  eapply ensures_bind; [by apply (ensures_raise_if _ _ _ (fun _ => byte_len (json_dumps v) <= max_bytes));
                        intros ?; bool_prop|].
  intros [] Hlen. simpl. eauto 10.
Qed.

Definition demo_items : value :=
  VList [VDict [("n", VInt 3); ("s", VStr "c")]; VDict [("n", VInt 1); ("s", VStr "a")];
         VDict [("n", VInt 3); ("s", VStr "b")]].

Lemma apply_transform_sound_witness :
  valid (VDict [("value", demo_items); ("field", VStr "n")]) /\
  ensures (apply_transform "sort_by" [("value", demo_items); ("field", VStr "n")] 200) (fun v =>
    valid v /\ byte_len (json_dumps v) <= 200
    /\ exists t, transform_output_type "sort_by" = Ok t /\ has_type t v).
Proof.
  split; [vm_compute; reflexivity|].
  apply (apply_transform_sound "sort_by" [("value", demo_items); ("field", VStr "n")] 200).
  vm_compute. reflexivity.
Defined.

Definition item_key (key : string) (item : value) (t : string) : Prop :=
  exists k, field item key = Ok k /\ canonical_json_bytes k = Ok t.

(** [sort_by] returns the items rearranged in the order of the canonical text of their
    key, and items whose keys have the same text keep their original order. *)
Theorem op_sort_by_spec items key out :
  op_sort_by [("value", VList items); ("field", VStr key)] = Ok out ->
  exists keyed,
    out = VList (map snd keyed)
    /\ Forall (fun tx => item_key key (snd tx) (fst tx)) keyed
    /\ StronglySorted (key_le fst) keyed
    /\ exists original,
        map snd original = items /\ keyed ≡ₚ original
        /\ forall t, filter (fun tx => fst tx = t) keyed = filter (fun tx => fst tx = t) original.
Proof.
  unfold op_sort_by. cbn. intros H. dag_inv.
  rename x into keys, x2 into texts.
  assert (length texts = length items) as Hlen.
  { match goal with H : rmap _ items = Ok keys |- _ =>
      apply rmap_Ok, Forall2_length in H; rewrite H end.
    match goal with H : rmap _ keys = Ok texts |- _ => apply rmap_Ok, Forall2_length in H end.
    done. }
  exists (sort_by fst (zip texts items)). split; [done|]. split; [|split; [apply sort_by_sorted|]].
  - rewrite sort_by_perm. apply Forall_forall. intros [t x] Htx.
    apply list_elem_of_lookup_1 in Htx as [i Hi]. apply lookup_zip_Some in Hi as [Ht Hx].
    match goal with H : rmap _ items = Ok keys |- _ => apply rmap_Ok in H as Hk end.
    match goal with H : rmap _ keys = Ok texts |- _ => apply rmap_Ok in H as Htx end.
    destruct (Forall2_lookup_l _ _ _ _ _ Hk Hx) as (k & Hki & Hfield).
    destruct (Forall2_lookup_l _ _ _ _ _ Htx Hki) as (t' & Hti & Htext).
    simplify_eq. exists k. by rewrite lift_py_Ok in Htext.
  - exists (zip texts items). split; [apply snd_zip; lia|]. split; [apply sort_by_perm|].
    intros t. apply sort_by_stable.
Qed.

Lemma op_sort_by_spec_witness :
  exists keyed,
    op_sort_by [("value", demo_items); ("field", VStr "n")] = Ok (VList (map snd keyed))
    /\ StronglySorted (key_le fst) keyed.
Proof.
  destruct (op_sort_by_spec
              [VDict [("n", VInt 3); ("s", VStr "c")]; VDict [("n", VInt 1); ("s", VStr "a")];
               VDict [("n", VInt 3); ("s", VStr "b")]] "n"
              (VList [VDict [("n", VInt 1); ("s", VStr "a")]; VDict [("n", VInt 3); ("s", VStr "c")];
               VDict [("n", VInt 3); ("s", VStr "b")]])
              ltac:(vm_compute; reflexivity)) as (keyed & Hout & _ & Hs & _).
  exists keyed. rewrite <- Hout. split; [vm_compute; reflexivity|exact Hs].
Defined.
