(* ===== verification/DagValidation.v ===== *)
(** * Static plan validation ([v2/dag_validation.py])

    Edges, Kahn's ordering, graph shape, nodes against the tool catalog, bindings, budget and
    finally the digest.  The catalog is an interface; [StaticToolCatalog] implements it. *)
From S2P Require Import Prelude.
From S2P Require Import PyValue.
From S2P Require Import Canonical.
From S2P Require Import DagContract.
From S2P Require Import DagDigest.
From S2P Require Import DagTransform.

(** ** The tool catalog *)

Record ToolContract := mkToolContract {
  tool_id : string;
  tool_arg_types : list (string * string);
  result_types : list (string * string);
  mutating : bool;
  provider : string;
  credential_capability_id : string;
  resource_arg : option string;
  compensations : list string
}.

(** [ToolCatalog], the protocol the validator and the engine read the registry through. *)
Class ToolCatalog (C : Type) := {
  contract : C -> string -> option ToolContract;
  is_projected : C -> string -> bool;
  in_scope : C -> string -> bool
}.

Record StaticToolCatalog := mkStaticCatalog {
  contracts : list (string * ToolContract);
  projected : list string;
  catalog_scope : list string
}.

#[export] Instance static_catalog : ToolCatalog StaticToolCatalog := {
  contract := fun c t => dget t (contracts c);
  is_projected := fun c t => str_in t (projected c);
  in_scope := fun c r => str_in r (catalog_scope c)
}.

Definition edge : Type := string * string.

(** ** Edges *)

(** [_declared_edges] *)
Definition declared_edges (plan : PlanDefinition) : result exn (list edge) :=
  let known := node_ids plan in
  do! rfor (fun n =>
        rfor (fun dep =>
          raise_if (negb (str_in dep known))
            (PlanValidationError PLAN_UNKNOWN_DEPENDENCY (id n +:+ "->" +:+ dep)))
          (depends_on n)) (nodes plan) in
  Ok (dedup (concat (map (fun n => map (fun dep => (dep, id n)) (depends_on n)) (nodes plan)))).

(** [_binding_edges] *)
Definition binding_edges (plan : PlanDefinition) : result exn (list edge) :=
  let known := node_ids plan in
  do! rfor (fun n =>
        rfor (fun tb =>
          let src := source_node (snd tb) in
          do! raise_if (negb (str_in src known))
                (PlanValidationError PLAN_UNKNOWN_DEPENDENCY (id n +:+ "<-" +:+ src)) in
          raise_if (String.eqb src (id n)) (PlanValidationError PLAN_SELF_DEPENDENCY (id n)))
          (bindings n)) (nodes plan) in
  Ok (dedup (concat (map (fun n => map (fun tb => (source_node (snd tb), id n)) (bindings n))
                       (nodes plan)))).

(** ** Kahn's algorithm *)

Definition key_error {A} : result exn A := Err (PyError KeyError).

(** [d[k]] on a dict held as a finite map. *)
Definition get_key {A} (m : gmap string A) (k : string) : result exn A :=
  match m !! k with Some a => Ok a | None => key_error end.

(** [indegree] after the loop over the edges. *)
Definition indegrees (ids : list string) (edges : list edge) : result exn (gmap string Z) :=
  let init : gmap string Z := list_to_map (map (fun i => (i, 0)) ids) in
  rfold (fun m e =>
           let! k := get_key m (snd e) in
           do! get_key init (fst e) in
           Ok (<[snd e := k + 1]> m)) init edges.

Definition successors (edges : list edge) (n : string) : list string :=
  map snd (filter (fun e => fst e = n) edges).

Definition parents (edges : list edge) (n : string) : list string :=
  map fst (filter (fun e => snd e = n) edges).

(** The inner loop: decrement the successors, appending those that become ready. *)
Fixpoint release (succs : list string) (indegree : gmap string Z) (ready : list string) :
  result exn (gmap string Z * list string) :=
  match succs with
  | [] => Ok (indegree, ready)
  | s :: rest =>
      let! k := get_key indegree s in
      release rest (<[s := k - 1]> indegree) (if k - 1 =? 0 then ready ++ [s] else ready)
  end.

(** [0 if not parents else max(ranks[src] for src in parents) + 1] *)
Definition rank_of (ranks : gmap string Z) (ps : list string) : result exn Z :=
  let! rs := rmap (get_key ranks) ps in
  Ok (match rs with [] => 0 | r :: rest => foldl Z.max r rest + 1 end).

(** The [while ready] loop. *)
Fixpoint kahn (fuel : nat) (edges : list edge) (indegree : gmap string Z) (ready : list string)
  (ranks : gmap string Z) (order : list string) : result exn (list string * gmap string Z) :=
  match ready with
  | [] => Ok (order, ranks)
  | current :: ready' =>
      match fuel with
      | O => Err Diverged
      | S fuel' =>
          let! rank := rank_of ranks (parents edges current) in
          let! st := release (sort_str (successors edges current)) indegree ready' in
          kahn fuel' edges (fst st) (sort_str (snd st)) (<[current := rank]> ranks)
            (order ++ [current])
      end
  end.

(** [topological_order]; one iteration per node, so the number of nodes is enough fuel. *)
Definition topological_order (ids : list string) (edges : list edge) :
  result exn (list string * gmap string Z) :=
  let! indegree := indegrees ids edges in
  let ready := sort_str (filter (fun i => indegree !! i = Some 0) ids) in
  let! res := kahn (length ids) edges indegree ready ∅ [] in
  do! raise_if (negb (Nat.eqb (length (fst res)) (length ids)))
        (PlanValidationError PLAN_CYCLE_DETECTED
           (join "," (sorted_difference ids (fst res)))) in
  Ok res.

(** ** Graph shape *)

(** [max(ranks.values())] *)
Definition max_rank (ranks : gmap string Z) : Z := map_fold (fun _ r m => Z.max r m) 0 ranks.

(** [fanout[src]] *)
Definition fanout (edges : list edge) (src : string) : Z :=
  Z.of_nat (length (successors edges src)).

(** [_check_graph_shape] *)
Definition check_graph_shape (plan : PlanDefinition) (edges : list edge)
  (ranks : gmap string Z) : result exn unit :=
  do! raise_if (negb (bool_decide (ranks = ∅)) && (DAG_MAX_DEPTH <? max_rank ranks + 1))
        (PlanValidationError PLAN_DEPTH_EXCEEDED "graph depth") in
  do! rfor (fun src => raise_if (DAG_MAX_FANOUT <? fanout edges src)
                         (PlanValidationError PLAN_FANOUT_EXCEEDED src))
        (sort_str (dedup (map fst edges))) in
  if (1 <? Z.of_nat (length (nodes plan))) && negb (bool_decide (edges = [])) then
    rfor (fun n => raise_if (negb (str_in (id n) (map fst edges))
                             && negb (str_in (id n) (map snd edges)))
                     (PlanValidationError PLAN_UNREACHABLE_NODE (id n))) (nodes plan)
  else Ok tt.

(** ** Nodes, bindings and budget against the catalog *)

(** [target.split(".", 1)[1]] *)
Definition slot_of (target : string) : string := default "" (snd (split_once "." target)).

Definition is_str (v : option value) : option string :=
  match v with Some (VStr s) => Some s | _ => None end.

Section Catalog.
Context {C : Type} `{ToolCatalog C} (catalog : C).

(** [_tool_result_types] *)
Definition tool_result_types (n : Node) : result exn (list (string * string)) :=
  match contract catalog (str_of (tool n)) with
  | Some c => Ok (result_types c)
  | None => fail PLAN_TOOL_UNKNOWN (str_of (tool n))
  end.

(** [_resolve_source_type] *)
Definition resolve_source_type (plan : PlanDefinition) (src : string) (path : list string) :
  result exn string :=
  let! n := plan_node plan src in
  match kind n with
  | NodeKind_TRANSFORM =>
      do! raise_if (match path with [] => false | _ => true end)
            (PlanValidationError BINDING_SOURCE_UNSHAPED src) in
      transform_output_type (str_of (op n))
  | NodeKind_TOOL =>
      match path with
      | [] => Ok "object"
      | _ =>
          let dotted := join "." path in
          let! types := tool_result_types n in
          match dget dotted types with
          | Some t => Ok t
          | None => fail BINDING_FIELD_UNKNOWN (src +:+ "." +:+ dotted)
          end
      end
  end.

(** The body of the loop of [_check_bindings]. *)
Definition check_binding (plan : PlanDefinition) (n : Node) (tb : string * Binding) :
  result exn unit :=
  let '(target, b) := tb in
  let where_ := id n +:+ ":" +:+ target in
  do! raise_if (negb (str_in (source_node b) (depends_on n)))
        (PlanValidationError BINDING_EDGE_NOT_DECLARED where_) in
  let! source_type := resolve_source_type plan (source_node b) (source_path b) in
  do! raise_if (negb (String.eqb source_type TYPE_ANY)
                && negb (String.eqb (binding_type b) source_type))
        (PlanValidationError BINDING_TYPE_MISMATCH where_) in
  let slot := slot_of target in
  do! match kind n with
      | NodeKind_TRANSFORM => Ok tt
      | NodeKind_TOOL =>
          match contract catalog (str_of (tool n)) with
          | None => Err (PyError AssertionError)
          | Some c =>
              match dget slot (tool_arg_types c) with
              | None => fail BINDING_FIELD_UNKNOWN where_
              | Some expected =>
                  raise_if (negb (String.eqb expected TYPE_ANY)
                            && negb (String.eqb expected (binding_type b)))
                    (PlanValidationError BINDING_TARGET_TYPE_MISMATCH where_)
              end
          end
      end in
  raise_if (dhas slot (args n))
    (PlanValidationError PLAN_ARG_INVALID (where_ +:+ " duplicates a literal")).

(** [_check_bindings] *)
Definition check_bindings (plan : PlanDefinition) : result exn unit :=
  rfor (fun n => rfor (check_binding plan n) (sort_items (bindings n))) (nodes plan).

Definition bound_slots (n : Node) : list string := map (fun tb => slot_of (fst tb)) (bindings n).

(** The [TRANSFORM] branch of the loop of [_check_nodes]. *)
Definition check_transform_node (n : Node) : result exn unit :=
  let slots := sort_str (dedup (dkeys (args n) ++ bound_slots n)) in
  do! validate_transform_shape (str_of (op n)) slots in
  raise_if (match compensation n with Some _ => true | None => false end)
    (PlanValidationError PLAN_COMPENSATION_UNDECLARED (id n)).

(** The arguments of a [TOOL] node against its contract. *)
Definition check_tool_args (n : Node) (c : ToolContract) : result exn unit :=
  do! rfor (fun nv =>
        let '(name, v) := nv in
        match dget name (tool_arg_types c) with
        | None => fail PLAN_ARG_INVALID (id n +:+ ":" +:+ name)
        | Some expected =>
            if String.eqb expected TYPE_ANY then Ok tt
            else
              let! actual := type_of v in
              raise_if (negb (String.eqb actual expected))
                (PlanValidationError PLAN_ARG_INVALID (id n +:+ ":" +:+ name))
        end) (sort_items (args n)) in
  let missing := sorted_difference (dkeys (tool_arg_types c)) (dkeys (args n) ++ bound_slots n) in
  raise_if (match missing with [] => false | _ => true end)
    (PlanValidationError PLAN_ARG_INVALID (id n +:+ ": missing " +:+ join "," missing)).

(** The literal resource of a [TOOL] node, checked against the scope. *)
Definition literal_resource (n : Node) (c : ToolContract) : option string :=
  match resource_arg c with
  | Some r => is_str (dget r (args n))
  | None => None
  end.

(** The [TOOL] branch of the loop of [_check_nodes]; returns the contract. *)
Definition check_tool_node (n : Node) : result exn ToolContract :=
  let tid := str_of (tool n) in
  match contract catalog tid with
  | None => fail PLAN_TOOL_UNKNOWN tid
  | Some c =>
      do! raise_if (negb (is_projected catalog tid))
            (PlanValidationError PLAN_TOOL_NOT_PROJECTED tid) in
      do! check_tool_args n c in
      do! raise_if (match literal_resource n c with
                    | Some r => negb (in_scope catalog r)
                    | None => false
                    end) (PlanValidationError PLAN_SCOPE_DENIED (id n)) in
      do! raise_if (mutating c && negb (match idempotency n with
                                        | Some i => enabled i
                                        | None => false
                                        end))
            (PlanValidationError PLAN_IDEMPOTENCY_MISSING (id n)) in
      do! raise_if (match compensation n with
                    | Some k => negb (str_in (operation k) (compensations c))
                    | None => false
                    end) (PlanValidationError PLAN_COMPENSATION_UNDECLARED (id n)) in
      Ok c
  end.

(** One iteration of [_check_nodes] over ([resources], [mutating]). *)
Definition check_node (acc : list (string * option string) * list string) (n : Node) :
  result exn (list (string * option string) * list string) :=
  let '(resources, muts) := acc in
  match kind n with
  | NodeKind_TRANSFORM =>
      do! check_transform_node n in Ok (resources ++ [(id n, None)], muts)
  | NodeKind_TOOL =>
      let! c := check_tool_node n in
      Ok (resources ++ [(id n, literal_resource n c)],
          if mutating c then muts ++ [id n] else muts)
  end.

(** [_check_nodes] *)
Definition check_nodes (plan : PlanDefinition) :
  result exn (list (string * option string) * list string) :=
  rfold check_node ([], []) (nodes plan).

(** [_check_budget] *)
Definition check_budget (plan : PlanDefinition) (muts : list string) : result exn unit :=
  let tool_nodes := filter (fun n => kind n = NodeKind_TOOL) (nodes plan) in
  do! raise_if (max_external_calls (budget plan) <? Z.of_nat (length tool_nodes))
        (PlanValidationError PLAN_BUDGET_EXCEEDED "external calls") in
  do! raise_if (max_total_wall_ms (budget plan) <? deadline_ms plan)
        (PlanValidationError PLAN_BUDGET_EXCEEDED "deadline exceeds wall budget") in
  do! rfor (fun n => raise_if (DAG_MAX_NODE_TIMEOUT_MS <? timeout_ms n)
                       (PlanValidationError PLAN_BUDGET_EXCEEDED (id n +:+ ": node timeout")))
        (nodes plan) in
  do! raise_if (DAG_MAX_PARALLELISM <? max_parallelism (budget plan))
        (PlanValidationError PLAN_BUDGET_EXCEEDED "parallelism ceiling") in
  raise_if (negb (bool_decide (muts = []))
            && (DAG_MAX_PARALLELISM_MUTATION <? max_parallelism (budget plan)))
    (PlanValidationError PLAN_BUDGET_EXCEEDED "mutating plan parallelism").
End Catalog.

Record ValidatedPlan := mkValidated {
  plan : PlanDefinition;
  digest : string;
  order : list string;
  ranks : gmap string Z;
  edges : list edge;
  resource_keys : list (string * option string);
  mutating_nodes : list string;
  node_result_types : list (string * list (string * string))
}.

Section Validate.
Variable sha256_hex : string -> string.
Context {C : Type} `{ToolCatalog C}.

(** [sorted(implied - declared)] *)
Definition undeclared_edges (implied declared : list edge) : list edge :=
  sort_by fst (sort_by snd (filter (fun e => e ∉ declared) implied)).

(** [validate_plan] *)
Definition validate_plan (p : PlanDefinition) (catalog : C) : result exn ValidatedPlan :=
  let! declared := declared_edges p in
  let! implied := binding_edges p in
  do! match undeclared_edges implied declared with
      | (src, dst) :: _ => fail BINDING_EDGE_NOT_DECLARED (src +:+ "->" +:+ dst)
      | [] => Ok tt
      end in
  let! ord := topological_order (node_ids p) declared in
  do! check_graph_shape p declared (snd ord) in
  let! rm := check_nodes catalog p in
  do! check_bindings catalog p in
  do! check_budget p (snd rm) in
  let! types := rmap (fun n => let! t := tool_result_types catalog n in Ok (id n, t))
                  (filter (fun n => kind n = NodeKind_TOOL) (nodes p)) in
  let! dig := plan_digest sha256_hex p in
  Ok (mkValidated p dig (fst ord) (snd ord) declared (fst rm) (snd rm) types).

(** [revalidate_bound_value] *)
Definition revalidate_bound_value (catalog : C) (v : value) (declared_type : string)
  (max_bytes : Z) (is_resource : bool) : result exn value :=
  let! actual := type_of v in
  do! raise_if (negb (String.eqb actual declared_type)
                && negb (String.eqb declared_type TYPE_ANY))
        (PlanValidationError BINDING_RUNTIME_REJECT "type") in
  let! encoded := lift_py (canonical_json_bytes v) in
  do! raise_if (max_bytes <? byte_len encoded)
        (PlanValidationError BINDING_RUNTIME_REJECT "size") in
  do! raise_if (is_resource && match v with VStr s => negb (in_scope catalog s) | _ => true end)
        (PlanValidationError PLAN_SCOPE_DENIED "bound resource") in
  Ok v.
End Validate.
