(* ===== verification/DagOrder.v ===== *)
(** * The ordering of a plan's nodes: correctness of [topological_order]

    Soundness (every edge points forward, ranks are the longest-path depths) and completeness
    (an order is found exactly when the graph has no cycle) of the Kahn loop of
    [v2/dag_validation.py]. *)
From S2P Require Import Prelude.
From S2P Require Import PyValue.
From S2P Require Import Canonical.
From S2P Require Import DagContract.
From S2P Require Import DagDigest.
From S2P Require Import DagTransform.
From S2P Require Import DagValidation.

(** ** Helper lemmas on edges *)

Lemma elem_of_successors edges n m : m ∈ successors edges n <-> (n, m) ∈ edges.
Proof.
  unfold successors. rewrite list_elem_of_fmap. split.
  - intros ([a b] & -> & [Ha Hin]%list_elem_of_filter). simpl in *. by subst.
  - intros H. exists (n, m). split; [done|]. by apply list_elem_of_filter.
Qed.

Lemma elem_of_parents edges n m : m ∈ parents edges n <-> (m, n) ∈ edges.
Proof.
  unfold parents. rewrite list_elem_of_fmap. split.
  - intros ([a b] & -> & [Ha Hin]%list_elem_of_filter). simpl in *. by subst.
  - intros H. exists (m, n). split; [done|]. by apply list_elem_of_filter.
Qed.

Lemma NoDup_successors edges n : NoDup edges -> NoDup (successors edges n).
Proof.
  intros Hnd. apply NoDup_fmap_2_strong; [|by apply NoDup_filter].
  intros [a b] [c d] [Ha _]%list_elem_of_filter [Hc _]%list_elem_of_filter; simpl in *.
  by intros <-; subst.
Qed.

Lemma NoDup_sort_str l : NoDup l -> NoDup (sort_str l).
Proof. unfold sort_str. by rewrite sort_by_perm. Qed.

(** ** The number of edges into a node from nodes not yet ordered *)

Definition open_edge (order : list string) (n : string) (e : edge) : Prop :=
  snd e = n /\ fst e ∉ order.

#[export] Instance open_edge_dec order n e : Decision (open_edge order n e).
Proof. unfold open_edge. apply _. Defined.

Definition pending (edges : list edge) (order : list string) (n : string) : Z :=
  Z.of_nat (length (filter (open_edge order n) edges)).

Lemma pending_nonneg edges order n : 0 <= pending edges order n.
Proof. unfold pending. lia. Qed.

Lemma pending_zero edges order n :
  pending edges order n = 0 <-> forall s, (s, n) ∈ edges -> s ∈ order.
Proof.
  unfold pending. split.
  - intros H s Hs. destruct (decide (s ∈ order)) as [|Hn]; [done|exfalso].
    assert (Hin : (s, n) ∈ filter (open_edge order n) edges)
      by (apply list_elem_of_filter; by split).
    destruct (filter (open_edge order n) edges); [by apply not_elem_of_nil in Hin|].
    simpl in H. lia.
  - intros H. destruct (filter (open_edge order n) edges) as [|[s t] l] eqn:Hf; [done|exfalso].
    assert (Hin : (s, t) ∈ filter (open_edge order n) edges) by (rewrite Hf; by left).
    apply list_elem_of_filter in Hin as [[Ht Hs] Hin]. simpl in *. subst t. by apply Hs, H.
Qed.

Lemma open_edge_snoc order c n e :
  open_edge (order ++ [c]) n e <-> open_edge order n e /\ e <> (c, n).
Proof.
  destruct e as [a b]. unfold open_edge. simpl. rewrite not_elem_of_app, list_elem_of_singleton.
  split; [|naive_solver]. intros [-> [? ?]]. split_and!; [done..|]. congruence.
Qed.

(** Ordering [c] removes exactly the edge from [c], when there is one. *)
Lemma pending_snoc edges order c n :
  NoDup edges -> c ∉ order ->
  pending edges (order ++ [c]) n
  = pending edges order n - (if bool_decide ((c, n) ∈ edges) then 1 else 0).
Proof.
  unfold pending. intros Hnd Hc. induction edges as [|e edges IH]; [done|].
  apply NoDup_cons in Hnd as [He Hnd]. specialize (IH Hnd).
  rewrite !filter_cons. destruct (decide (e = (c, n))) as [->|Hne].
  - rewrite bool_decide_eq_false_2 in IH by done.
    rewrite (bool_decide_eq_true_2 ((c, n) ∈ _)) by left.
    rewrite decide_False by (by rewrite open_edge_snoc; intros [_ ?]).
    rewrite decide_True by (by split). simpl. lia.
  - rewrite (bool_decide_ext ((c, n) ∈ e :: edges) ((c, n) ∈ edges)).
    2: { rewrite elem_of_cons. naive_solver. }
    destruct (decide (open_edge order n e)) as [Ho|Ho].
    + rewrite decide_True by (by rewrite open_edge_snoc). simpl. lia.
    + rewrite decide_False by (by rewrite open_edge_snoc; intros [? _]). lia.
Qed.

Lemma pending_edge edges order c n : (c, n) ∈ edges -> c ∉ order -> 1 <= pending edges order n.
Proof.
  intros He Hc. pose proof (pending_nonneg edges order n).
  destruct (decide (pending edges order n = 0)) as [H0|]; [|lia].
  rewrite pending_zero in H0. by apply H0 in He.
Qed.

(** ** The building blocks of the loop *)

Lemma get_key_Ok {A} (m : gmap string A) k a : get_key m k = Ok a <-> m !! k = Some a.
Proof. unfold get_key, key_error. destruct (m !! k); split; congruence. Qed.

Lemma release_spec succs m ready :
  NoDup succs -> (forall s, s ∈ succs -> is_Some (m !! s)) ->
  exists m', release succs m ready = Ok (m', ready ++ filter (fun s => m !! s = Some 1) succs)
  /\ forall n, m' !! n = if bool_decide (n ∈ succs) then Z.pred <$> m !! n else m !! n.
Proof.
  revert m ready. induction succs as [|s succs IH]; simpl; intros m ready Hnd Hin.
  - exists m. rewrite app_nil_r. by split.
  - apply NoDup_cons in Hnd as [Hs Hnd]. destruct (Hin s) as [k Hk]; [by left|].
    rewrite (proj2 (get_key_Ok m s k) Hk). simpl.
    destruct (IH (<[s := k - 1]> m) (if k - 1 =? 0 then ready ++ [s] else ready)) as (m' & Hm' & Hget).
    { done. }
    { intros t Ht. rewrite lookup_insert_ne by (by intros ->). apply Hin. by right. }
    exists m'. split.
    + rewrite Hm'. do 2 f_equal. rewrite filter_cons.
      rewrite (filter_ext_in _ (fun s => m !! s = Some 1)).
      2: { intros t Ht. by rewrite lookup_insert_ne by (by intros ->). }
      destruct (Z.eqb_spec (k - 1) 0) as [H0|H0].
      * rewrite decide_True by (rewrite Hk; f_equal; lia). by rewrite <- app_assoc.
      * rewrite decide_False by (rewrite Hk; intros [= ?]; lia). done.
    + intros n. rewrite Hget. destruct (decide (n = s)) as [->|Hne].
      * rewrite bool_decide_eq_false_2 by done. rewrite bool_decide_eq_true_2 by left.
        rewrite lookup_insert, decide_True by done. by rewrite Hk.
      * rewrite lookup_insert_ne by done.
        rewrite (bool_decide_ext (n ∈ s :: succs) (n ∈ succs)); [done|].
        rewrite elem_of_cons. naive_solver.
Qed.

Lemma rank_of_ext ranks ranks' ps :
  (forall p, p ∈ ps -> ranks !! p = ranks' !! p) -> rank_of ranks ps = rank_of ranks' ps.
Proof.
  intros H. unfold rank_of. f_equal. induction ps as [|p ps IH]; simpl; [done|].
  unfold get_key at 1 3. rewrite (H p) by left.
  destruct (ranks' !! p); simpl; [|done]. rewrite IH; [done|]. intros. apply H. by right.
Qed.

Lemma rank_of_Ok ranks ps :
  (forall p, p ∈ ps -> is_Some (ranks !! p)) -> exists r, rank_of ranks ps = Ok r.
Proof.
  intros H. unfold rank_of. assert (exists rs, rmap (get_key ranks) ps = Ok rs) as [rs ->].
  - induction ps as [|p ps IH]; simpl; [eauto|].
    destruct (H p) as [r Hr]; [by left|]. rewrite (proj2 (get_key_Ok ranks p r) Hr). simpl.
    destruct IH as [rs ->]; [|simpl; eauto]. intros. apply H. by right.
  - simpl. eauto.
Qed.

Lemma indegrees_loop (init m : gmap string Z) edges :
  (forall e, e ∈ edges -> is_Some (init !! fst e) /\ is_Some (m !! snd e)) ->
  exists m', rfold (fun m e => let! k := get_key m (snd e) in
                               do! get_key init (fst e) in Ok (<[snd e := k + 1]> m)) m edges = Ok m'
  /\ forall n, m' !! n = (fun k => k + pending edges [] n) <$> m !! n.
Proof.
  revert m. induction edges as [|[a b] edges IH]; simpl; intros m Hin.
  - exists m. split; [done|]. intros n. unfold pending. simpl.
    destruct (m !! n); simpl; [by rewrite Z.add_0_r|done].
  - destruct (Hin (a, b)) as [[ka Hka] [kb Hkb]]; [by left|]. simpl in *.
    rewrite (proj2 (get_key_Ok m b kb) Hkb), (proj2 (get_key_Ok init a ka) Hka). simpl.
    destruct (IH (<[b := kb + 1]> m)) as (m' & Hm' & Hget).
    { intros e He. destruct (Hin e) as [? ?]; [by right|]. split; [done|].
      rewrite lookup_insert_is_Some'. by right. }
    exists m'. split; [done|]. intros n. rewrite Hget. unfold pending. rewrite filter_cons.
    destruct (decide (n = b)) as [->|Hne].
    + rewrite lookup_insert, decide_True by done. rewrite Hkb.
      rewrite decide_True by (split; [done|apply not_elem_of_nil]). simpl. f_equal. lia.
    + rewrite lookup_insert_ne by done. rewrite decide_False by (by intros [? _]). done.
Qed.

Section Kahn.
Context (ids : list string) (edges : list edge).
Hypothesis ids_NoDup : NoDup ids.
Hypothesis edges_NoDup : NoDup edges.
Hypothesis edges_known : forall e, e ∈ edges -> fst e ∈ ids /\ snd e ∈ ids.

Lemma indegrees_spec :
  exists m, indegrees ids edges = Ok m
  /\ forall n, m !! n = if bool_decide (n ∈ ids) then Some (pending edges [] n) else None.
Proof.
  unfold indegrees. set (init := list_to_map (map (fun i => (i, 0)) ids) : gmap string Z).
  assert (Hinit : forall n, init !! n = if bool_decide (n ∈ ids) then Some 0 else None).
  { intros n. unfold init. destruct (bool_decide_reflect (n ∈ ids)) as [Hn|Hn].
    - apply elem_of_list_to_map_1.
      + rewrite <- list_fmap_compose. simpl. by rewrite list_fmap_id.
      + apply list_elem_of_fmap. by exists n.
    - apply not_elem_of_list_to_map_1. rewrite <- list_fmap_compose. simpl. by rewrite list_fmap_id. }
  destruct (indegrees_loop init init edges) as (m & Hm & Hget).
  { intros e He. rewrite !Hinit. destruct (edges_known e He).
    rewrite !bool_decide_eq_true_2 by done. eauto. }
  exists m. split; [done|]. intros n. rewrite Hget, Hinit.
  by destruct (bool_decide (n ∈ ids)).
Qed.

(** The loop invariant of [while ready]. *)
Record kahn_inv (m : gmap string Z) (ready : list string) (ranks : gmap string Z)
  (order : list string) : Prop := {
  ki_nodup : NoDup (order ++ ready);
  ki_degree : forall n, m !! n = if bool_decide (n ∈ ids) then Some (pending edges order n) else None;
  ki_ready : forall n, n ∈ order ++ ready <-> n ∈ ids /\ pending edges order n = 0;
  ki_ranked : forall n, is_Some (ranks !! n) <-> n ∈ order;
  ki_rank : forall n r, ranks !! n = Some r -> rank_of ranks (parents edges n) = Ok r;
  ki_before : forall l1 n l2, order = l1 ++ n :: l2 -> forall s, (s, n) ∈ edges -> s ∈ l1
}.

(** One iteration keeps the invariant. *)
Lemma kahn_step m ready ranks order c :
  kahn_inv m (c :: ready) ranks order ->
  exists r m' ready', rank_of ranks (parents edges c) = Ok r
  /\ release (sort_str (successors edges c)) m ready = Ok (m', ready')
  /\ kahn_inv m' (sort_str ready') (<[c := r]> ranks) (order ++ [c]).
Proof.
  intros [Hnd Hdeg Hready Hranked Hrank Hbefore].
  assert (Hc : c ∉ order).
  { apply NoDup_app in Hnd as (_ & H & _). intros Hin. apply (H c Hin). by left. }
  destruct (proj1 (Hready c)) as [Hcids Hc0]; [set_solver|].
  pose proof (proj1 (pending_zero edges order c) Hc0) as Hparents.
  destruct (rank_of_Ok ranks (parents edges c)) as [r Hr].
  { intros p Hp%elem_of_parents. by apply Hranked, Hparents. }
  destruct (release_spec (sort_str (successors edges c)) m ready) as (m' & Hm' & Hget).
  { by apply NoDup_sort_str, NoDup_successors. }
  { intros s Hs%elem_of_sort_str%elem_of_successors. rewrite Hdeg.
    rewrite bool_decide_eq_true_2 by (by apply (edges_known (c, s))). eauto. }
  assert (Hsucc : forall n, n ∈ filter (fun s => m !! s = Some 1) (sort_str (successors edges c))
                  <-> (c, n) ∈ edges /\ n ∈ ids /\ pending edges order n = 1).
  { intros n. rewrite list_elem_of_filter, elem_of_sort_str, elem_of_successors, Hdeg.
    destruct (bool_decide_reflect (n ∈ ids)); split.
    - intros [[= H1] H2]. by rewrite H1.
    - intros (? & _ & H1). by rewrite H1.
    - by intros [? _].
    - by intros (_ & ? & _). }
  assert (Hstep := fun n => pending_snoc edges order c n edges_NoDup Hc).
  exists r, m', (ready ++ filter (fun s => m !! s = Some 1) (sort_str (successors edges c))).
  split; [done|]. split; [done|]. split.
  - unfold sort_str at 1. rewrite sort_by_perm, <- app_assoc. simpl.
    rewrite app_comm_cons, app_assoc. apply NoDup_app. split; [done|]. split.
    + intros n Hn Hs. apply Hsucc in Hs as (_ & _ & H1). apply Hready in Hn as [_ H0]. lia.
    + by apply NoDup_filter, NoDup_sort_str, NoDup_successors.
  - intros n. rewrite Hget, Hdeg, Hstep.
    rewrite (bool_decide_ext (n ∈ sort_str _) ((c, n) ∈ edges))
      by (by rewrite elem_of_sort_str, elem_of_successors).
    destruct (bool_decide_reflect (n ∈ ids)), (bool_decide_reflect ((c, n) ∈ edges));
      simpl; f_equal; lia.
  - intros n. rewrite <- app_assoc, elem_of_app. simpl. rewrite elem_of_cons, elem_of_sort_str.
    rewrite elem_of_app, Hsucc, Hstep. pose proof (Hready n) as Hn.
    rewrite elem_of_app, elem_of_cons in Hn.
    destruct (bool_decide_reflect ((c, n) ∈ edges)) as [He|He].
    + pose proof (pending_edge edges order c n He Hc). split; [|intros [? ?]].
      * intros H'. destruct (decide (pending edges order n = 0)); [lia|].
        assert (n ∈ ids /\ pending edges order n = 1) as [? ?] by tauto. split; [done|lia].
      * right; right; right. split_and!; [done..|lia].
    + rewrite Z.sub_0_r. tauto.
  - intros n. rewrite lookup_insert_is_Some', Hranked, elem_of_app, list_elem_of_singleton.
    naive_solver.
  - assert (Hkeep : forall n, n ∈ order \/ n = c ->
              rank_of (<[c := r]> ranks) (parents edges n) = rank_of ranks (parents edges n)).
    { intros n Hn. apply rank_of_ext. intros p Hp%elem_of_parents.
      rewrite lookup_insert_ne; [done|]. intros <-. destruct Hn as [Hn| ->]; [|by apply Hc, Hparents].
      apply list_elem_of_split in Hn as (l1 & l2 & ->).
      apply Hc, elem_of_app. left. by eapply Hbefore. }
    intros n k. destruct (decide (n = c)) as [->|Hne].
    + rewrite lookup_insert, decide_True by done. intros [= <-]. rewrite Hkeep by auto. done.
    + rewrite lookup_insert_ne by done. intros Hk. rewrite Hkeep; [by apply Hrank|].
      left. apply Hranked. eauto.
  - intros l1 n l2 Heq s Hs. destruct l2 as [|x l2 _] using rev_ind.
    + apply app_inj_tail in Heq as [<- <-]. by apply Hparents.
    + rewrite app_comm_cons, app_assoc in Heq. apply app_inj_tail in Heq as [-> _].
      by eapply Hbefore.
Qed.

Lemma order_room m c ready ranks order :
  kahn_inv m (c :: ready) ranks order -> (length order < length ids)%nat.
Proof.
  intros Hinv. pose proof (ki_nodup _ _ _ _ Hinv) as Hnd.
  assert (Hle : (length (order ++ c :: ready) <= length ids)%nat).
  { apply NoDup_incl_length; [by apply NoDup_ListNoDup|]. intros x Hx.
    apply list_elem_of_In. apply list_elem_of_In in Hx. by apply (ki_ready _ _ _ _ Hinv). }
  rewrite length_app in Hle. simpl in Hle. lia.
Qed.

(** The loop ends with an empty [ready], having kept its invariant. *)
Lemma kahn_spec fuel m ready ranks order :
  kahn_inv m ready ranks order -> (length ids <= fuel + length order)%nat ->
  exists m' ranks' order', kahn fuel edges m ready ranks order = Ok (order', ranks')
  /\ kahn_inv m' [] ranks' order'.
Proof.
  revert m ready ranks order. induction fuel as [|fuel IH]; intros m [|c ready] ranks order Hinv Hf;
    [by exists m, ranks, order| |by exists m, ranks, order|].
  - pose proof (order_room _ _ _ _ _ Hinv). lia.
  - destruct (kahn_step _ _ _ _ _ Hinv) as (r & m1 & ready1 & Hr & Hrel & Hinv1).
    destruct (IH _ _ _ _ Hinv1) as (m' & ranks' & order' & Hk & ?).
    { rewrite length_app. simpl. lia. }
    exists m', ranks', order'. split; [|done]. simpl. by rewrite Hr, Hrel.
Qed.

Lemma kahn_init m :
  (forall n, m !! n = if bool_decide (n ∈ ids) then Some (pending edges [] n) else None) ->
  kahn_inv m (sort_str (filter (fun i => m !! i = Some 0) ids)) ∅ [].
Proof.
  intros Hm. split; simpl.
  - by apply NoDup_sort_str, NoDup_filter.
  - done.
  - intros n. rewrite elem_of_sort_str, list_elem_of_filter, Hm.
    destruct (bool_decide_reflect (n ∈ ids)) as [Hn|Hn]; split.
    + by intros [[= ->] _].
    + intros [_ ->]. done.
    + by intros [_ ?].
    + by intros [? _].
  - intros n. rewrite lookup_empty. split; [by intros [? ?]|]. by intros ?%not_elem_of_nil.
  - intros n r. by rewrite lookup_empty.
  - intros l1 n l2 Heq. by destruct l1.
Qed.

(** [topological_order] either returns the final state of the loop or reports a cycle. *)
Lemma topological_order_run :
  exists m ranks order, kahn_inv m [] ranks order
  /\ topological_order ids edges
     = if (length order =? length ids)%nat then Ok (order, ranks)
       else fail PLAN_CYCLE_DETECTED (join "," (sorted_difference ids order)).
Proof.
  destruct indegrees_spec as (m & Hm & Hget).
  destruct (kahn_spec (length ids) _ _ _ _ (kahn_init m Hget)) as (m' & ranks & order & Hk & Hinv);
    [simpl; lia|].
  exists m', ranks, order. split; [done|]. unfold topological_order. rewrite Hm. simpl.
  rewrite Hk. simpl. by destruct (length order =? length ids)%nat.
Qed.

Lemma kahn_order_ids m ranks order :
  kahn_inv m [] ranks order -> length order = length ids -> order ≡ₚ ids.
Proof.
  intros Hinv Hlen. pose proof (ki_nodup _ _ _ _ Hinv) as Hnd. rewrite app_nil_r in Hnd.
  apply submseteq_length_Permutation; [|lia]. apply NoDup_submseteq; [done|].
  intros x Hx. apply (ki_ready _ _ _ _ Hinv). by rewrite app_nil_r.
Qed.

(** Nodes the loop never reached all have a predecessor it never reached. *)
Lemma stuck_pred m ranks order n :
  kahn_inv m [] ranks order -> n ∈ ids -> n ∉ order ->
  exists s, s ∈ ids /\ s ∉ order /\ (s, n) ∈ edges.
Proof.
  intros Hinv Hn Ho. pose proof (ki_ready _ _ _ _ Hinv n) as Hr. rewrite app_nil_r in Hr.
  assert (Hp : pending edges order n <> 0) by tauto. unfold pending in Hp.
  destruct (filter (open_edge order n) edges) as [|[a b] l] eqn:Hf; [done|].
  assert (Hin : (a, b) ∈ filter (open_edge order n) edges) by (rewrite Hf; by left).
  apply list_elem_of_filter in Hin as [[Hb Ha] Hin]. simpl in *. subst b.
  exists a. split; [by apply (edges_known (a, n))|done].
Qed.
End Kahn.

(** ** Cycles *)

Definition edge_rel (edges : list edge) (a b : string) : Prop := (a, b) ∈ edges.

(** No node reaches itself through one or more edges. *)
Definition acyclic (edges : list edge) : Prop := forall n, ~ tc (edge_rel edges) n n.

(** Walking backwards inside a set without sources gives arbitrarily long descending paths. *)
Lemma backward_path edges (R : string -> Prop) x k :
  R x -> (forall n, R n -> exists s, R s /\ edge_rel edges s n) ->
  exists z l, StronglySorted (tc (edge_rel edges)) (z :: l) /\ length l = k /\ Forall R (z :: l).
Proof.
  intros Hx Hpred. induction k as [|k (z & l & Hs & Hlen & HR)].
  - exists x, []. split_and!; repeat constructor; done.
  - destruct (Hpred z) as (s & Hs' & He); [by inversion HR|].
    exists s, (z :: l). split_and!; [|simpl; lia|by constructor].
    constructor; [done|]. apply StronglySorted_inv in Hs as [_ Hz].
    constructor; [by apply tc_once|]. eapply Forall_impl; [done|].
    intros y Hy. by eapply tc_l.
Qed.

Lemma StronglySorted_irrefl_NoDup {A} (R : A -> A -> Prop) l :
  (forall x, ~ R x x) -> StronglySorted R l -> NoDup l.
Proof.
  intros Hirr. induction 1 as [|x l _ IH Hx]; constructor; [|done].
  intros Hin. rewrite Forall_forall in Hx. by eapply Hirr, Hx.
Qed.

(** A finite non-empty set without sources has a cycle. *)
Lemma no_source_cycle edges (ids : list string) (R : string -> Prop) x :
  R x -> (forall n, R n -> n ∈ ids) ->
  (forall n, R n -> exists s, R s /\ edge_rel edges s n) -> ~ acyclic edges.
Proof.
  intros Hx Hids Hpred Hac.
  destruct (backward_path edges R x (length ids) Hx Hpred) as (z & l & Hs & Hlen & HR).
  pose proof (StronglySorted_irrefl_NoDup _ _ Hac Hs) as Hnd.
  assert (length (z :: l) <= length ids)%nat; [|simpl in *; lia].
  apply NoDup_incl_length; [by apply NoDup_ListNoDup|]. intros y Hy.
  apply list_elem_of_In. apply list_elem_of_In in Hy. rewrite Forall_forall in HR. auto.
Qed.

(** In an order in which every edge points forward, so does every path. *)
Lemma forward_path edges (order : list string) a b :
  (forall l1 n l2, order = l1 ++ n :: l2 -> forall s, (s, n) ∈ edges -> s ∈ l1) ->
  tc (edge_rel edges) a b -> b ∈ order -> exists l1 l2, order = l1 ++ b :: l2 /\ a ∈ l1.
Proof.
  intros Hfw. induction 1 as [a b Hab|a c b Hac _ IH]; intros Hb.
  - apply list_elem_of_split in Hb as (l1 & l2 & ->). exists l1, l2. split; [done|].
    by eapply Hfw.
  - destruct (IH Hb) as (l1 & l2 & -> & Hc). exists l1, l2. split; [done|].
    apply list_elem_of_split in Hc as (l3 & l4 & ->). apply elem_of_app. left.
    eapply Hfw; [|done]. by rewrite <- app_assoc.
Qed.

Lemma path_target edges (ids : list string) a b :
  (forall e, e ∈ edges -> fst e ∈ ids /\ snd e ∈ ids) -> tc (edge_rel edges) a b -> b ∈ ids.
Proof. intros Hk. by induction 1 as [a b H|]; [apply (Hk (a, b))|]. Qed.

Lemma forward_acyclic edges (ids order : list string) :
  (forall e, e ∈ edges -> fst e ∈ ids /\ snd e ∈ ids) -> order ≡ₚ ids -> NoDup order ->
  (forall l1 n l2, order = l1 ++ n :: l2 -> forall s, (s, n) ∈ edges -> s ∈ l1) -> acyclic edges.
Proof.
  intros Hk Hp Hnd Hfw n Hn.
  destruct (forward_path edges order n n) as (l1 & l2 & -> & Hin); [done..| |].
  - rewrite Hp. by eapply path_target.
  - apply NoDup_app in Hnd as (_ & H & _). apply (H n Hin). by left.
Qed.

(** ** The properties of [topological_order] *)

Definition well_formed_graph (ids : list string) (edges : list edge) : Prop :=
  NoDup ids /\ NoDup edges /\ Forall (fun e => fst e ∈ ids /\ snd e ∈ ids) edges.

#[export] Instance well_formed_graph_dec ids edges : Decision (well_formed_graph ids edges).
Proof. unfold well_formed_graph. apply _. Defined.

(** [r] is one more than the largest rank of a parent, or 0 without parents. *)
Definition longest_path_rank (edges : list edge) (ranks : gmap string Z) (n : string) : Prop :=
  exists r, ranks !! n = Some r /\ rank_of ranks (parents edges n) = Ok r.

Lemma topological_order_Ok ids edges order ranks :
  well_formed_graph ids edges -> topological_order ids edges = Ok (order, ranks) ->
  exists m, kahn_inv ids edges m [] ranks order /\ order ≡ₚ ids.
Proof.
  intros (H1 & H2 & H3) H. rewrite Forall_forall in H3.
  destruct (topological_order_run ids edges H1 H2 H3) as (m & rk & ord & Hinv & Heq).
  rewrite Heq in H. destruct (Nat.eqb_spec (length ord) (length ids)); [|done].
  injection H as -> ->. exists m. split; [done|]. by eapply kahn_order_ids.
Qed.

(** When [topological_order] returns, the order is a permutation of the node ids in which
    every node comes after all the sources of its edges, and every rank is 0 for a node without
    parents and one more than the largest parent rank otherwise. *)
Theorem topological_order_sound ids edges order ranks :
  well_formed_graph ids edges ->
  topological_order ids edges = Ok (order, ranks) ->
  order ≡ₚ ids
  /\ (forall l1 n l2, order = l1 ++ n :: l2 -> forall s, (s, n) ∈ edges -> s ∈ l1)
  /\ (forall n, n ∈ ids -> longest_path_rank edges ranks n).
Proof.
  intros Hg H. destruct (topological_order_Ok _ _ _ _ Hg H) as (m & Hinv & Hp).
  split; [done|]. split; [apply Hinv|]. intros n Hn.
  destruct (proj2 (ki_ranked _ _ _ _ _ _ Hinv n)) as [r Hr]; [by rewrite Hp|].
  exists r. split; [done|]. by apply Hinv.
Qed.

(** On a graph whose edges join known nodes, [topological_order] terminates: it returns an
    order when the graph has no cycle, and raises PLAN_CYCLE_DETECTED (never a [KeyError])
    when it has one. *)
Theorem topological_order_complete ids edges :
  well_formed_graph ids edges ->
  (acyclic edges -> is_ok (topological_order ids edges) = true)
  /\ (~ acyclic edges ->
      exists d, topological_order ids edges = Err (PlanValidationError PLAN_CYCLE_DETECTED d)).
Proof.
  intros (H1 & H2 & H3). rewrite Forall_forall in H3.
  destruct (topological_order_run ids edges H1 H2 H3) as (m & ranks & order & Hinv & Heq).
  pose proof (ki_nodup _ _ _ _ _ _ Hinv) as Hnd. rewrite app_nil_r in Hnd. rewrite Heq.
  destruct (Nat.eqb_spec (length order) (length ids)) as [Hlen|Hlen]; split; [done| |
    |intros _; eexists; reflexivity].
  - intros []. eapply forward_acyclic; [done|by eapply kahn_order_ids|done|apply Hinv].
  - intros Hac. exfalso. assert (exists n, n ∈ ids /\ n ∉ order) as (n & Hn & Hno).
    { destruct (filter (fun i => i ∉ order) ids) as [|n l] eqn:Hf.
      - exfalso. apply Hlen, Nat.le_antisymm.
        + apply NoDup_incl_length; [by apply NoDup_ListNoDup|]. intros x Hx.
          apply list_elem_of_In. apply list_elem_of_In in Hx.
          apply (ki_ready _ _ _ _ _ _ Hinv). by rewrite app_nil_r.
        + apply NoDup_incl_length; [by apply NoDup_ListNoDup|]. intros x Hx.
          apply list_elem_of_In. apply list_elem_of_In in Hx.
          destruct (decide (x ∈ order)); [done|].
          assert (x ∈ filter (fun i => i ∉ order) ids) as Hx' by (by apply list_elem_of_filter).
          rewrite Hf in Hx'. by apply not_elem_of_nil in Hx'.
      - exists n. apply and_comm, (list_elem_of_filter (fun i => i ∉ order)). rewrite Hf. by left. }
    apply (no_source_cycle edges ids (fun i => i ∈ ids /\ i ∉ order) n); [done|naive_solver| |done].
    intros k [Hk Hko]. destruct (stuck_pred ids edges H3 _ _ _ k Hinv Hk Hko) as (s & ? & ? & ?).
    by exists s.
Qed.

Definition diamond : list edge := [("a", "b"); ("a", "c"); ("b", "d"); ("c", "d")].

Lemma topological_order_sound_witness :
  exists ranks, topological_order ["d"; "c"; "b"; "a"] diamond = Ok (["a"; "b"; "c"; "d"], ranks)
  /\ longest_path_rank diamond ranks "d".
Proof.
  eexists. split; [vm_compute; reflexivity|].
  apply (topological_order_sound ["d"; "c"; "b"; "a"] diamond ["a"; "b"; "c"; "d"]);
    [refine (bool_decide_unpack _ _); by vm_compute|by vm_compute|refine (bool_decide_unpack _ _); by vm_compute].
Defined.

(** A measure that grows along every edge excludes cycles. *)
Lemma measure_acyclic (f : string -> nat) edges :
  Forall (fun e => (f (fst e) < f (snd e))%nat) edges -> acyclic edges.
Proof.
  rewrite Forall_forall. intros Hf n Hn.
  assert (Hlt : forall x y, tc (edge_rel edges) x y -> (f x < f y)%nat).
  { induction 1 as [x y He|x y z He _ IH]; pose proof (Hf _ He); simpl in *; lia. }
  specialize (Hlt n n Hn). lia.
Qed.

Lemma diamond_acyclic : acyclic diamond.
Proof.
  apply (measure_acyclic (fun i => if String.eqb i "a" then 0 else if String.eqb i "d" then 2 else 1)%nat).
  repeat (constructor; [simpl; lia|]). constructor.
Qed.

Lemma topological_order_complete_witness :
  is_ok (topological_order ["d"; "c"; "b"; "a"] diamond) = true
  /\ exists d, topological_order ["a"; "b"] [("a", "b"); ("b", "a")]
              = Err (PlanValidationError PLAN_CYCLE_DETECTED d).
Proof.
  split.
  - apply (topological_order_complete ["d"; "c"; "b"; "a"] diamond); [|apply diamond_acyclic].
    refine (bool_decide_unpack _ _). by vm_compute.
  - apply (topological_order_complete ["a"; "b"] [("a", "b"); ("b", "a")]).
    + refine (bool_decide_unpack _ _). by vm_compute.
    + intros Hac. apply (Hac "a"). apply (tc_l _ _ "b"); [by left|apply tc_once; right; by left].
Defined.

(** The order pops ready nodes by id alone: [c] (rank 0) comes after [b] (rank 1). *)
Lemma order_ignores_rank :
  fst <$> (match topological_order ["a"; "b"; "c"] [("a", "b")] with Ok r => Some r | Err _ => None end)
  = Some ["a"; "b"; "c"].
Proof. by vm_compute. Qed.
