(* ===== verification/DagAdmission.v ===== *)
(** * What an admitted plan guarantees

    Construction checks ([__post_init__] in [v2/dag_contract.py]) and static validation
    ([validate_plan] in [v2/dag_validation.py]) taken together: totality, the order and the
    authority of every node of a validated plan. *)
From S2P Require Import Prelude.
From S2P Require Import PyValue.
From S2P Require Import Canonical.
From S2P Require Import DagContract.
From S2P Require Import DagDigest.
From S2P Require Import DagTransform.
From S2P Require Import DagValidation.
From S2P Require Import DagOrder.

(** ** Constructed data *)

Lemma check_text_Ok nfc f s t : check_text nfc f s = Ok t -> t = s.
Proof. unfold check_text. intros H. res_inv. bool_prop. done. Qed.

(** The copy [_check_plain] makes is the value itself, and it is canonicalisable. *)
Lemma check_plain_Ok nfc v : forall f d v', check_plain nfc f d v = Ok v' -> v' = v /\ valid v.
Proof.
  induction v as [|b|z|s|m e|l IH|dct IH|i] using value_ind; intros f d v' H; simpl in H;
    apply rbind_Ok in H as (_ & _ & H); try (by res_inv).
  - apply rbind_Ok in H as (t & ->%check_text_Ok & H). by res_inv.
  - apply rbind_Ok in H as (x & Hx & H). injection H as <-. apply rmap_Ok in Hx.
    rewrite valid_list. assert (x = l /\ Forall valid l) as [-> ?]; [|done]. revert x Hx.
    induction IH as [|w l Hw _ IHl]; intros x Hx; inversion Hx as [|? y ? ys Hy Hys]; subst.
    + by split.
    + apply Hw in Hy as [-> ?]. apply IHl in Hys as [-> ?]. auto.
  - apply rbind_Ok in H as (x & Hx & H). injection H as <-. apply rmap_Ok in Hx.
    rewrite valid_dict. assert (x = dct /\ Forall (fun kv => valid (snd kv)) dct) as [-> ?]; [|done].
    revert x Hx.
    induction IH as [|[k w] l Hw _ IHl]; intros x Hx; inversion Hx as [|? y ? ys Hy Hys]; subst.
    + by split.
    + apply rbind_Ok in Hy as (w' & Hy & [= <-]). apply Hw in Hy as [-> ?].
      apply IHl in Hys as [-> ?]. auto.
Qed.

Lemma constructed_args nfc n : node_constructed nfc n -> valid (VDict (args n)).
Proof.
  intros [H _]. unfold node_post_init in H. res_inv.
  match goal with Hp : check_plain _ _ _ _ = Ok _ |- _ => by apply check_plain_Ok in Hp as [_ ?] end.
Qed.

Lemma check_node_ids_Ok seen ns :
  check_node_ids seen ns = Ok tt -> NoDup (map id ns) /\ forall i, i ∈ map id ns -> i ∉ seen.
Proof.
  revert seen. induction ns as [|n ns IH]; simpl; intros seen H.
  - split; [constructor|]. by intros i ?%not_elem_of_nil.
  - res_inv. apply str_in_false in H. apply IH in H0 as [Hnd Hout]. split.
    + constructor; [|done]. intros Hin. apply (Hout _ Hin). by left.
    + intros i [->|Hi]%elem_of_cons; [done|]. intros Hs. apply (Hout _ Hi). by right.
Qed.

Lemma constructed_ids nfc p : constructed nfc p -> NoDup (node_ids p).
Proof.
  intros (_ & _ & _ & H). unfold plan_post_init in H. res_inv.
  match goal with Hp : check_node_ids _ _ = Ok _ |- _ => by apply check_node_ids_Ok in Hp as [? _] end.
Qed.

Lemma find_node_NoDup n ns : NoDup (map id ns) -> n ∈ ns -> find_node (id n) ns = Some n.
Proof.
  induction ns as [|m ns IH]; simpl; intros Hnd Hin; [by apply not_elem_of_nil in Hin|].
  apply NoDup_cons in Hnd as [Hm Hnd]. apply elem_of_cons in Hin as [->|Hin].
  - by rewrite String.eqb_refl.
  - destruct (String.eqb_spec (id m) (id n)) as [He|]; [|auto].
    exfalso. apply Hm. rewrite He. by apply (list_elem_of_fmap_2 id).
Qed.

(** ** Declared edges *)

Lemma declared_edges_Ok p es :
  declared_edges p = Ok es ->
  NoDup es /\ (forall s t, (s, t) ∈ es <-> exists n, n ∈ nodes p /\ t = id n /\ s ∈ depends_on n)
  /\ forall n s, n ∈ nodes p -> s ∈ depends_on n -> s ∈ node_ids p.
Proof.
  unfold declared_edges. intros H. res_inv. split; [apply NoDup_remove_dups|]. split.
  - intros s t. unfold dedup. rewrite elem_of_remove_dups, list_elem_of_In, in_concat. split.
    + intros (l & Hl & Hin). apply in_map_iff in Hl as (n & <- & Hn).
      apply in_map_iff in Hin as (d & [= -> <-] & Hd). exists n. by rewrite !list_elem_of_In.
    + intros (n & Hn & -> & Hs). apply list_elem_of_In in Hn, Hs.
      exists (map (fun d => (d, id n)) (depends_on n)). split.
      * by apply (in_map (fun n => map (fun d => (d, id n)) (depends_on n))).
      * by apply (in_map (fun d => (d, id n))).
  - intros n s Hn Hs. rename H into Hloop. apply rfor_Ok in Hloop.
    rewrite Forall_forall in Hloop. specialize (Hloop n Hn). apply rfor_Ok in Hloop.
    rewrite Forall_forall in Hloop. specialize (Hloop s Hs). res_inv. bool_prop.
    by apply str_in_elem.
Qed.

Lemma declared_well_formed p es :
  NoDup (node_ids p) -> declared_edges p = Ok es -> well_formed_graph (node_ids p) es.
Proof.
  intros Hnd (H1 & H2 & H3)%declared_edges_Ok. split; [done|]. split; [done|].
  apply Forall_forall. intros [s t] (n & Hn & -> & Hs)%H2. split; [by eapply H3|].
  by apply (list_elem_of_fmap_2 id).
Qed.

(** ** Nodes against the catalog *)

Section Facts.
Context {C : Type} `{ToolCatalog C} (catalog : C).

(** The node calls a tool whose contract says it mutates. *)
Definition node_mutates (n : Node) : bool :=
  match kind n, contract catalog (str_of (tool n)) with
  | NodeKind_TOOL, Some c => mutating c
  | _, _ => false
  end.

(** What validation grants a [TOOL] node. *)
Definition authorised (n : Node) : Prop :=
  exists c, contract catalog (str_of (tool n)) = Some c
  /\ is_projected catalog (str_of (tool n)) = true
  /\ (forall r, literal_resource n c = Some r -> in_scope catalog r = true)
  /\ (mutating c = true -> exists i, idempotency n = Some i /\ enabled i = true)
  /\ (forall k, compensation n = Some k -> operation k ∈ compensations c)
  /\ (forall a v, (a, v) ∈ args n -> exists t, dget a (tool_arg_types c) = Some t
        /\ (t = TYPE_ANY \/ type_of v = Ok t))
  /\ (forall a, a ∈ dkeys (tool_arg_types c) -> a ∈ dkeys (args n) \/ a ∈ bound_slots n).

Lemma sorted_difference_nil xs ys :
  (match sorted_difference xs ys with [] => false | _ => true end) = false ->
  forall x, x ∈ xs -> x ∈ ys.
Proof.
  intros Hd x Hx. destruct (decide (x ∈ ys)) as [|Hn]; [done|exfalso].
  assert (Hin : x ∈ sorted_difference xs ys).
  { apply elem_of_sort_str, list_elem_of_filter. split; [done|]. by apply elem_of_remove_dups. }
  destruct (sorted_difference xs ys); [by apply not_elem_of_nil in Hin|done].
Qed.

Lemma check_tool_args_Ok n c :
  check_tool_args n c = Ok tt ->
  (forall a v, (a, v) ∈ args n -> exists t, dget a (tool_arg_types c) = Some t
        /\ (t = TYPE_ANY \/ type_of v = Ok t))
  /\ (forall a, a ∈ dkeys (tool_arg_types c) -> a ∈ dkeys (args n) \/ a ∈ bound_slots n).
Proof.
  unfold check_tool_args. intros Hc. res_inv. split.
  - intros a v Hin. apply rfor_Ok in H0. unfold sort_items in H0.
    rewrite sort_by_perm, Forall_forall in H0. specialize (H0 _ Hin). simpl in H0.
    destruct (dget a (tool_arg_types c)) as [t|]; [|done]. exists t. split; [done|].
    destruct (String.eqb_spec t TYPE_ANY); [by left|right]. res_inv. bool_prop. by subst.
  - intros a Ha. apply elem_of_app. by apply (sorted_difference_nil _ _ H1).
Qed.

Lemma check_tool_node_Ok n c :
  check_tool_node catalog n = Ok c ->
  contract catalog (str_of (tool n)) = Some c /\ authorised n.
Proof.
  unfold check_tool_node. destruct (contract catalog (str_of (tool n))) as [k|] eqn:Hk; [|done].
  intros Hc. res_inv. split; [done|]. exists c. apply check_tool_args_Ok in H1 as [? ?].
  bool_prop. split_and!; try done.
  - intros r Hr. rewrite Hr in H2. by bool_prop.
  - intros Hm. rewrite Hm in H3. destruct (idempotency n) as [i|]; [|done]. simpl in H3.
    bool_prop. eauto.
  - intros k Hcomp. rewrite Hcomp in H4. bool_prop. by apply str_in_elem.
Qed.

(** One iteration of the loop appends the node's entries. *)
Lemma check_node_Ok rs ms n rs' ms' :
  check_node catalog (rs, ms) n = Ok (rs', ms') ->
  ms' = ms ++ (if node_mutates n then [id n] else [])
  /\ dkeys rs' = dkeys rs ++ [id n]
  /\ (kind n = NodeKind_TOOL -> authorised n).
Proof.
  unfold check_node, node_mutates. intros Hc. destruct (kind n); res_inv.
  - apply check_tool_node_Ok in H0 as [-> ?]. split_and!; [by destruct (mutating x); rewrite ?app_nil_r| |done].
    unfold dkeys. by rewrite map_app.
  - split_and!; [by rewrite app_nil_r| |done]. unfold dkeys. by rewrite map_app.
Qed.

Lemma check_nodes_loop ns rs ms rs' ms' :
  rfold (check_node catalog) (rs, ms) ns = Ok (rs', ms') ->
  ms' = ms ++ map id (filter (fun n => node_mutates n = true) ns)
  /\ Forall (fun n => kind n = NodeKind_TOOL -> authorised n) ns.
Proof.
  revert rs ms. induction ns as [|n ns IH]; intros rs ms Hl; cbn [rfold] in Hl.
  - res_inv. simpl. split; [by rewrite app_nil_r|constructor].
  - apply rbind_Ok in Hl as ([rs1 ms1] & H1 & H2). apply check_node_Ok in H1 as (-> & _ & Ha).
    apply IH in H2 as [-> Hall]. split; [|by constructor].
    rewrite <- app_assoc. f_equal. rewrite filter_cons.
    destruct (node_mutates n); [by rewrite decide_True|by rewrite decide_False].
Qed.
End Facts.

(** ** Totality *)

(** Splits an [ensures] goal along the code. *)
Ltac ens_step :=
  match goal with
  | |- ensures (rbind _ _) _ => apply (ensures_bind _ _ (fun _ => True))
  | |- ensures (raise_if _ _) _ => apply ensures_raise_if
  | |- ensures (fail _ _) _ => apply ensures_fail
  | |- ensures (rfor _ _) (fun _ => True) =>
      apply ensures_rfor, Forall_forall; let x := fresh "x" in intros x ?
  | |- ensures (Ok _) _ => simpl
  | |- ensures (let '(_, _) := ?x in _) _ => destruct x
  | |- ensures (match ?x with _ => _ end) _ => let Hx := fresh "Hx" in destruct x eqn:Hx
  | |- ensures (type_of _) _ => apply ensures_type_of
  | |- forall _, _ => intros ?
  | |- True => exact I
  end.
Ltac ens := repeat ens_step; try done.

Lemma valid_vstrs l : valid (vstrs l).
Proof. apply valid_list. unfold vstrs. by apply Forall_fmap, Forall_true. Qed.

Lemma valid_vints l : valid (vints l).
Proof.
  apply valid_dict. apply Forall_forall. intros kv Hin.
  apply list_elem_of_fmap in Hin as ([k z] & -> & _). done.
Qed.

Lemma valid_canonical_node n : valid (VDict (args n)) -> valid (canonical_node n).
Proof.
  intros Ha. unfold canonical_node, node_items. apply valid_dict.
  repeat (apply Forall_cons; split || apply Forall_app; split);
    repeat first
      [ done | apply valid_vstrs | apply valid_vopt | exact Ha
      | apply Forall_cons | split | apply Forall_app | unfold opt_item; case_match | apply Forall_nil ].
  all: try (apply valid_list, Forall_forall; intros v Hv;
            apply list_elem_of_fmap in Hv as (tb & -> & _); done).
Qed.

Lemma valid_canonical_plan p :
  Forall (fun n => valid (VDict (args n))) (nodes p) -> valid (canonical_plan p).
Proof.
  intros Hall. unfold canonical_plan. apply valid_dict.
  repeat (apply Forall_cons; split; [try done|]); [| |constructor].
  - unfold canonical_budget. simpl. apply valid_dict.
    repeat (apply Forall_cons; split; [try done; try apply valid_vints|]). constructor.
  - apply valid_list, Forall_fmap. rewrite sort_by_perm.
    eapply Forall_impl; [done|]. intros n. apply valid_canonical_node.
Qed.

Section Totality.
Context {C : Type} `{ToolCatalog C} (catalog : C) (sha256_hex : string -> string).

Lemma ensures_topological_order ids edges :
  well_formed_graph ids edges -> ensures (topological_order ids edges) (fun _ => True).
Proof.
  intros (H1 & H2 & H3). rewrite Forall_forall in H3.
  destruct (topological_order_run ids edges H1 H2 H3) as (m & ranks & order & _ & ->). ens.
Qed.

Lemma ensures_transform_shape o l : ensures (validate_transform_shape o l) (fun _ => True).
Proof. unfold validate_transform_shape, find_spec. ens. Qed.

Lemma ensures_check_tool_node n : ensures (check_tool_node catalog n) (fun _ => True).
Proof. unfold check_tool_node, check_tool_args. ens. Qed.

Lemma ensures_check_nodes p : ensures (check_nodes catalog p) (fun _ => True).
Proof.
  unfold check_nodes. apply ensures_rfold; [done|]. intros [rs ms] n _ _. unfold check_node.
  unfold check_transform_node.
  ens; first [apply ensures_check_tool_node | apply ensures_transform_shape].
Qed.

Lemma ensures_check_binding p n tb :
  (kind n = NodeKind_TOOL -> is_Some (contract catalog (str_of (tool n)))) ->
  ensures (check_binding catalog p n tb) (fun _ => True).
Proof.
  intros Hc. unfold check_binding, resolve_source_type, plan_node, tool_result_types,
    transform_output_type, find_spec. ens.
  by destruct (Hc eq_refl).
Qed.

(** A constructed plan is either validated or refused with a reason. *)
Lemma ensures_validate_plan nfc p :
  constructed nfc p -> ensures (validate_plan sha256_hex p catalog) (fun _ => True).
Proof.
  intros Hcon. unfold validate_plan.
  destruct (declared_edges p) as [es|e] eqn:Hes; cbn [rbind].
  2: { assert (ensures (declared_edges p) (fun _ => True)) as Hd by (unfold declared_edges; ens).
       by rewrite Hes in Hd. }
  apply (ensures_bind _ _ (fun _ => True)); [unfold binding_edges; ens|]. intros implied _.
  apply (ensures_bind _ _ (fun _ => True)); [by ens|]. intros _ _.
  apply (ensures_bind _ _ (fun _ => True)).
  { apply ensures_topological_order, declared_well_formed; [|done]. by eapply constructed_ids. }
  intros ord _. apply (ensures_bind _ _ (fun _ => True)); [unfold check_graph_shape; ens|]. intros _ _.
  destruct (check_nodes catalog p) as [[rs ms]|e] eqn:Hn; cbn [rbind].
  2: { pose proof (ensures_check_nodes p) as Hd. by rewrite Hn in Hd. }
  apply check_nodes_loop in Hn as [_ Hauth].
  apply (ensures_bind _ _ (fun _ => True)); [|intros _ _].
  { unfold check_bindings. apply ensures_rfor. eapply Forall_impl; [done|]. intros n Ha.
    apply ensures_rfor, Forall_forall. intros tb _. apply ensures_check_binding.
    intros (c & Hk & _)%Ha. rewrite Hk. eauto. }
  apply (ensures_bind _ _ (fun _ => True)); [unfold check_budget; ens|]. intros _ _.
  eapply ensures_bind; [apply (ensures_rmap _ _ (fun _ => True)), Forall_forall; intros n _;
    unfold tool_result_types; ens|]. intros types _.
  apply (ensures_bind _ _ (fun _ => True)); [|intros dig _; exact I].
  unfold plan_digest, canonical_plan_bytes. rewrite valid_text; [cbn [lift_py rbind]; by ens|].
  apply valid_canonical_plan. destruct Hcon as [Hall _].
  eapply Forall_impl; [exact Hall|]. intros n. apply constructed_args.
Qed.
End Totality.

(** ** The stages of a successful validation *)

Section Sound.
Context {C : Type} `{ToolCatalog C} (catalog : C) (sha256_hex : string -> string).

Lemma validate_plan_Ok p vp :
  validate_plan sha256_hex p catalog = Ok vp ->
  plan vp = p /\ plan_digest sha256_hex p = Ok (digest vp)
  /\ declared_edges p = Ok (edges vp)
  /\ topological_order (node_ids p) (edges vp) = Ok (order vp, ranks vp)
  /\ check_graph_shape p (edges vp) (ranks vp) = Ok tt
  /\ check_nodes catalog p = Ok (resource_keys vp, mutating_nodes vp)
  /\ check_bindings catalog p = Ok tt
  /\ check_budget p (mutating_nodes vp) = Ok tt.
Proof.
  unfold validate_plan. intros Hv.
  apply rbind_Ok in Hv as (es & Hes & Hv). apply rbind_Ok in Hv as (im & _ & Hv).
  apply rbind_Ok in Hv as (_ & _ & Hv). apply rbind_Ok in Hv as ([ord rk] & Hord & Hv).
  apply rbind_Ok in Hv as ([] & Hshape & Hv). apply rbind_Ok in Hv as ([rs ms] & Hn & Hv).
  apply rbind_Ok in Hv as ([] & Hb & Hv). apply rbind_Ok in Hv as ([] & Hbud & Hv).
  apply rbind_Ok in Hv as (ty & _ & Hv). apply rbind_Ok in Hv as (dig & Hdig & Hv).
  injection Hv as <-. done.
Qed.

Lemma check_binding_Ok p n t b :
  check_binding catalog p n (t, b) = Ok tt ->
  source_node b ∈ depends_on n /\ slot_of t ∉ dkeys (args n)
  /\ exists ty, resolve_source_type catalog p (source_node b) (source_path b) = Ok ty
      /\ (ty = TYPE_ANY \/ binding_type b = ty).
Proof.
  unfold check_binding. intros Hc.
  apply rbind_Ok in Hc as ([] & H1 & Hc). apply rbind_Ok in Hc as (ty & H2 & Hc).
  apply rbind_Ok in Hc as ([] & H3 & Hc). apply rbind_Ok in Hc as ([] & _ & Hc).
  res_inv. bool_prop. split; [by apply str_in_elem|]. split.
  - rewrite <- dhas_elem, Hc. done.
  - exists ty. split; [done|]. apply andb_false_iff in H3 as [H3|H3]; bool_prop; auto.
Qed.
End Sound.

(** Static validation is total: on a constructed plan, [validate_plan] returns a
    [ValidatedPlan] or raises a [PlanValidationError] with a reason; no [KeyError],
    [AssertionError], [TypeError] or endless loop is possible, whatever the catalog. *)
Theorem validate_plan_total {C} `{ToolCatalog C} (catalog : C) sha256_hex nfc p :
  constructed nfc p -> ensures (validate_plan sha256_hex p catalog) (fun _ => True).
Proof. apply ensures_validate_plan. Qed.

(** The order of a validated plan and its dependencies. *)
Lemma validated_order_facts {C} `{ToolCatalog C} (catalog : C) sha256_hex nfc p vp :
  constructed nfc p -> validate_plan sha256_hex p catalog = Ok vp ->
  order vp ≡ₚ node_ids p
  /\ forall n l1 l2, n ∈ nodes p -> order vp = l1 ++ id n :: l2 ->
       (forall d, d ∈ depends_on n -> d ∈ l1)
       /\ (forall t b, (t, b) ∈ bindings n -> source_node b ∈ l1).
Proof.
  intros Hcon (_ & _ & Hes & Hord & _ & _ & Hb & _)%validate_plan_Ok.
  pose proof (declared_well_formed _ _ (constructed_ids _ _ Hcon) Hes) as Hg.
  destruct (topological_order_Ok _ _ _ _ Hg Hord) as (m & Hinv & Hp). split; [done|].
  intros n l1 l2 Hn Heq. apply declared_edges_Ok in Hes as (_ & Hedge & _).
  assert (Hd : forall d, d ∈ depends_on n -> d ∈ l1).
  { intros d Hd. eapply (ki_before _ _ _ _ _ _ Hinv); [exact Heq|]. apply Hedge. by exists n. }
  split; [done|]. intros t b Htb. apply Hd. unfold check_bindings in Hb.
  apply rfor_Ok in Hb. rewrite Forall_forall in Hb. specialize (Hb n Hn).
  apply rfor_Ok in Hb. unfold sort_items in Hb. rewrite sort_by_perm, Forall_forall in Hb.
  by apply (Hb (t, b)), check_binding_Ok in Htb as [? _].
Qed.

(** The order of a validated plan is a permutation of its node ids in which every node
    comes after all its declared dependencies, hence after every node its bindings read. *)
Theorem validated_order {C} `{ToolCatalog C} (catalog : C) sha256_hex nfc p vp :
  constructed nfc p -> validate_plan sha256_hex p catalog = Ok vp ->
  order vp ≡ₚ node_ids p
  /\ forall n l1 l2, n ∈ nodes p -> order vp = l1 ++ id n :: l2 ->
       (forall d, d ∈ depends_on n -> d ∈ l1)
       /\ (forall t b, (t, b) ∈ bindings n -> source_node b ∈ l1).
Proof. apply validated_order_facts. Qed.

(** A validated plan calls only projected tools with a contract, with arguments of the
    declared types and none missing, on resources in scope when they are literal; every
    mutating node is idempotent and listed, its compensation is declared, and a plan that
    mutates runs one node at a time and within the external-call budget. *)
Theorem validated_authority {C} `{ToolCatalog C} (catalog : C) sha256_hex p vp :
  validate_plan sha256_hex p catalog = Ok vp ->
  (forall n, n ∈ nodes p -> kind n = NodeKind_TOOL -> authorised catalog n)
  /\ mutating_nodes vp = map id (filter (fun n => node_mutates catalog n = true) (nodes p))
  /\ (mutating_nodes vp <> [] -> max_parallelism (budget p) <= DAG_MAX_PARALLELISM_MUTATION)
  /\ Z.of_nat (length (filter (fun n => kind n = NodeKind_TOOL) (nodes p)))
       <= max_external_calls (budget p)
  /\ deadline_ms p <= max_total_wall_ms (budget p).
Proof.
  intros (_ & _ & _ & _ & _ & Hn & _ & Hb)%validate_plan_Ok.
  apply check_nodes_loop in Hn as [Hm Hall]. rewrite Forall_forall in Hall.
  split; [exact Hall|]. split; [exact Hm|]. unfold check_budget in Hb.
  apply rbind_Ok in Hb as ([] & H1 & Hb). apply rbind_Ok in Hb as ([] & H2 & Hb).
  apply rbind_Ok in Hb as ([] & _ & Hb). apply rbind_Ok in Hb as ([] & _ & Hb).
  res_inv. bool_prop. split_and!; [|lia|lia].
  intros Hne. apply andb_false_iff in Hb as [Hb|Hb]; bool_prop; [done|lia].
Qed.

(** ** Witnesses: a plan that reads an issue and then comments on it *)

Definition demo_write : Node :=
  mkNode "c" NodeKind_TOOL (Some "github.comment") None
    [("repository", VStr "o/r"); ("body", VStr "done")]
    [("args.number", mkBinding "a.result.number" "int" true 1024)] ["a"] None
    (Some (mkIdempotency true 0)) OnFailure_ABORT_PLAN 30000 None
    (Some (mkCompensation "github.delete_comment")) "".

Definition demo_catalog : StaticToolCatalog :=
  mkStaticCatalog
    [("github.get_issue",
      mkToolContract "github.get_issue" [("repository", "string"); ("number", "int")]
        [("number", "int"); ("title", "string")] false "github" "github.read"
        (Some "repository") []);
     ("github.comment",
      mkToolContract "github.comment"
        [("repository", "string"); ("number", "int"); ("body", "string")]
        [("id", "int")] true "github" "github.write" (Some "repository")
        ["github.delete_comment"])]
    ["github.get_issue"; "github.comment"] ["o/r"].

Definition demo_write_plan : PlanDefinition :=
  mkPlan "w1" [demo_write; demo_a] (mkBudget 64 1 64 900000 1048576 1048576 [] [])
    FailurePolicy_FAIL_FAST 60000 RollbackPolicy_COMPENSATE_ON_FAILURE None false
    DAG_SCHEMA_VERSION "DAG" "".

Lemma demo_write_constructed : constructed (fun s => s) demo_write_plan.
Proof.
  split_and!; [|by vm_compute|done|by vm_compute].
  repeat constructor; try (by vm_compute); cbn; intros ? [= <-]; by vm_compute.
Qed.

Definition demo_validated : ValidatedPlan :=
  match validate_plan (fun s => s) demo_write_plan demo_catalog with
  | Ok vp => vp
  | Err _ => mkValidated demo_write_plan "" [] ∅ [] [] [] []
  end.

Lemma demo_validated_eq : validate_plan (fun s => s) demo_write_plan demo_catalog = Ok demo_validated.
Proof. by vm_compute. Qed.

Lemma validate_plan_total_witness :
  ensures (validate_plan (fun s => s) demo_write_plan demo_catalog) (fun _ => True).
Proof. apply (validate_plan_total demo_catalog (fun s => s) (fun s => s)), demo_write_constructed. Defined.

Lemma validated_order_witness :
  order demo_validated = ["a"; "c"] /\ order demo_validated ≡ₚ ["c"; "a"].
Proof.
  split; [by vm_compute|].
  apply (validated_order demo_catalog (fun s => s) (fun s => s) demo_write_plan demo_validated
           demo_write_constructed demo_validated_eq).
Defined.

Lemma validated_authority_witness :
  mutating_nodes demo_validated = ["c"] /\ authorised demo_catalog demo_write.
Proof.
  split; [by vm_compute|].
  apply (validated_authority demo_catalog (fun s => s) demo_write_plan demo_validated
           demo_validated_eq); [left|done].
Defined.
