(* ===== verification/DagStore.v ===== *)
(** * Checkpoints, leases and single-use approvals ([v2/dag_store.py])

    The SQLite file is a finite map of checkpoint rows and a finite map of consumed approvals.
    Every writing operation runs under the store's lock inside one [BEGIN IMMEDIATE]
    transaction, so it is one atomic step; [in_transaction] says that a transaction was begun and
    neither committed nor rolled back.  The body column
    is canonical JSON text, read back by [json_loads].  Values of 64-bit columns are unbounded
    integers here. *)
From S2P Require Import Prelude.
From S2P Require Import PyValue.
From S2P Require Import Canonical.
From S2P Require Import DagContract.
From S2P Require Import DagDigest.

Definition CHECKPOINT_SCHEMA_VERSION : string := "dagstate/1".

Definition SECRET_HINTS : list string :=
  ["access_token"; "refresh_token"; "api_token"; "auth_token"; "id_token"; "secret"; "password";
   "authorization"; "cookie"; "private_key"; "client_secret"; "bearer"].

Definition store_error {A} (r : PlanReason) (detail : string) : result exn A :=
  Err (StoreError r detail).

Definition secret_like (key : string) : bool :=
  existsb (fun hint => contains hint (lower key)) SECRET_HINTS.

(** [assert_no_secret_material] *)
Fixpoint assert_no_secret_material (where_ : string) (payload : value) : result exn unit :=
  match payload with
  | VDict d =>
      rfor (fun kv =>
              do! raise_if (secret_like (fst kv))
                    (StoreError CHECKPOINT_TAMPERED (where_ +:+ ": secret-like field")) in
              assert_no_secret_material where_ (snd kv)) d
  | VList l => rfor (assert_no_secret_material where_) l
  | _ => Ok tt
  end.

(** ** Data *)

Record Lease := mkLease {
  owner_id : string;
  fence_token : Z;
  lease_expires_at_ms : Z;
  heartbeat_at_ms : Z
}.

(** The optional strings are whatever JSON value a loaded body holds. *)
Record NodeState := mkNodeState {
  node_id : string;
  status : NodeStatus;
  attempt : Z;
  idempotency_key : value;
  effect_ref : value;
  node_result : value;
  reason_code : value;
  state_operation_digest : value
}.

Record Checkpoint := mkCheckpoint {
  execution_id : string;
  ck_plan_digest : string;
  principal_ref : string;
  projection_digest : string;
  policy_digest : string;
  lease : Lease;
  ck_schema_version : string;
  approval_ref : value;
  ck_status : option PlanStatus;
  node_states : gmap string NodeState;
  ck_budget_consumed : gmap string value;
  replay : bool
}.

(** [NodeState(node_id=...)] with the defaults. *)
Definition new_state (n : string) : NodeState :=
  mkNodeState n NodeStatus_PENDING 0 VNone VNone VNone VNone VNone.

(** [NodeState.as_dict] *)
Definition as_dict (s : NodeState) : value :=
  VDict [("node_id", VStr (node_id s));
         ("status", VStr (node_status_value (status s)));
         ("attempt", VInt (attempt s));
         ("idempotency_key", idempotency_key s);
         ("effect_ref", effect_ref s);
         ("result", node_result s);
         ("reason_code", reason_code s);
         ("operation_digest", state_operation_digest s)].

(** The items of a mapping, sorted by key. *)
Definition map_items {A} (m : gmap string A) : list (string * A) := sort_items (map_to_list m).

Definition lease_dict (l : Lease) : value :=
  VDict [("owner_id", VStr (owner_id l));
         ("fence_token", VInt (fence_token l));
         ("expires_at_ms", VInt (lease_expires_at_ms l));
         ("heartbeat_at_ms", VInt (heartbeat_at_ms l))].

(** [Checkpoint.body] *)
Definition body (c : Checkpoint) : value :=
  VDict [("execution_id", VStr (execution_id c));
         ("plan_digest", VStr (ck_plan_digest c));
         ("principal_ref", VStr (principal_ref c));
         ("projection_digest", VStr (projection_digest c));
         ("policy_digest", VStr (policy_digest c));
         ("schema_version", VStr (ck_schema_version c));
         ("approval_ref", approval_ref c);
         ("status", vopt (plan_status_value <$> ck_status c));
         ("replay", VBool (replay c));
         ("budget_consumed", VDict (map_items (ck_budget_consumed c)));
         ("lease", lease_dict (lease c));
         ("node_states", VList (map (fun ks => as_dict (snd ks)) (map_items (node_states c))))].

(** [Checkpoint.with_node] *)
Definition with_node (c : Checkpoint) (s : NodeState) : Checkpoint :=
  mkCheckpoint (execution_id c) (ck_plan_digest c) (principal_ref c) (projection_digest c)
    (policy_digest c) (lease c) (ck_schema_version c) (approval_ref c) (ck_status c)
    (<[node_id s := s]> (node_states c)) (ck_budget_consumed c) (replay c).

(** [replace(checkpoint, node_states=..., status=...)] and [replace(checkpoint, lease=...)] *)
Definition with_states (c : Checkpoint) (m : gmap string NodeState) (s : option PlanStatus) :
  Checkpoint :=
  mkCheckpoint (execution_id c) (ck_plan_digest c) (principal_ref c) (projection_digest c)
    (policy_digest c) (lease c) (ck_schema_version c) (approval_ref c) s m
    (ck_budget_consumed c) (replay c).

Definition with_lease (c : Checkpoint) (l : Lease) : Checkpoint :=
  mkCheckpoint (execution_id c) (ck_plan_digest c) (principal_ref c) (projection_digest c)
    (policy_digest c) l (ck_schema_version c) (approval_ref c) (ck_status c) (node_states c)
    (ck_budget_consumed c) (replay c).

(** ** Enumeration members by value *)

Definition ALL_NODE_STATUS : list NodeStatus :=
  [NodeStatus_PENDING; NodeStatus_READY; NodeStatus_DISPATCHED; NodeStatus_SUCCESS;
   NodeStatus_FAILED; NodeStatus_DENIED; NodeStatus_SKIPPED; NodeStatus_INDETERMINATE;
   NodeStatus_COMPENSATION_PENDING; NodeStatus_COMPENSATED; NodeStatus_COMPENSATION_SKIPPED;
   NodeStatus_COMPENSATION_UNSAFE; NodeStatus_COMPENSATION_FAILED;
   NodeStatus_COMPENSATION_INDETERMINATE; NodeStatus_DEAD_LETTER].

Definition ALL_PLAN_STATUS : list PlanStatus :=
  [PlanStatus_COMPLETED; PlanStatus_PARTIAL; PlanStatus_FAILED; PlanStatus_ABORTED;
   PlanStatus_INDETERMINATE; PlanStatus_DEAD_LETTER].

(** [E(text)] for a [StrEnum] [E]. *)
Definition enum_of {A} (name : A -> string) (members : list A) (text : string) : result exn A :=
  match List.find (fun m => String.eqb (name m) text) members with
  | Some m => Ok m
  | None => Err (PyError ValueError)
  end.

(** ** Reading a body back *)

(** [payload[k]] and [payload.get(k, default)] on a JSON value. *)
Definition item (payload : value) (k : string) : result exn value :=
  match payload with
  | VDict d => match dget k d with Some v => Ok v | None => Err (PyError KeyError) end
  | _ => Err (PyError TypeError)
  end.

Definition get_or (payload : value) (k : string) (dflt : value) : result exn value :=
  match payload with
  | VDict d => Ok (default dflt (dget k d))
  | _ => Err (PyError AttributeError)
  end.

(** Decimal digits with an optional sign; the surrounding blanks and the underscores [int]
    also accepts never occur in a body. *)
Definition parse_int (s : string) : option Z :=
  let digits t := match t with
                  | EmptyString => None
                  | _ => if string_forallb is_digit t then Some (Z.of_N (fst (read_digits 0 t)))
                         else None
                  end in
  match s with
  | String c rest =>
      if code c =? 45 then Z.opp <$> digits rest
      else if code c =? 43 then digits rest
      else digits s
  | EmptyString => None
  end.

(** [int(v)] *)
Definition int_of (v : value) : result exn Z :=
  match v with
  | VInt z => Ok z
  | VBool b => Ok (if b then 1 else 0)
  | VStr s => match parse_int s with Some z => Ok z | None => Err (PyError ValueError) end
  | VFloat m e => Ok (if 0 <=? e then m * 2 ^ e else Z.quot m (2 ^ (- e)))
  | _ => Err (PyError TypeError)
  end.

(** [dict(v)]; an array that is not empty is refused here, while Python also takes an array of
    pairs: a body holds an object. *)
Definition dict_of (v : value) : result exn (gmap string value) :=
  match v with
  | VDict d => Ok (list_to_map d)
  | VList [] | VStr "" => Ok ∅
  | VList _ | VStr _ => Err (PyError ValueError)
  | _ => Err (PyError TypeError)
  end.

Definition list_of (v : value) : result exn (list value) :=
  match v with
  | VList l => Ok l
  | VDict d => Ok (map (fun kv => VStr (fst kv)) d)
  | VStr "" => Ok []
  | _ => Err (PyError TypeError)
  end.

(** ** Rows *)

Record Row := mkRow {
  row_plan_digest : string;
  row_fence_token : Z;
  row_record_digest : string;
  row_body : string
}.

Record Store := mkStore {
  checkpoints : gmap string Row;
  approvals : gmap (string * string) string;
  in_transaction : bool
}.

Definition set_row (e : string) (r : Row) (s : Store) : Store :=
  mkStore (<[e := r]> (checkpoints s)) (approvals s) (in_transaction s).

Definition set_transaction (b : bool) (s : Store) : Store :=
  mkStore (checkpoints s) (approvals s) b.

Definition store_op := st Store exn.

(** [BEGIN IMMEDIATE] *)
Definition begin : store_op unit :=
  let* s := sget in
  if in_transaction s
  then sraise (DatabaseError "cannot start a transaction within a transaction")
  else smodify (set_transaction true).

(** [COMMIT] and [ROLLBACK]: the modelled operations write last, so there is nothing to undo. *)
Definition commit : store_op unit := smodify (set_transaction false).
Definition rollback : store_op unit := smodify (set_transaction false).

Section Sqlite.
Variable sha256_hex : string -> string.
(** [str(v)] of a value that is neither a string nor an integer. *)
Variable repr : value -> string.

(** [str(v)] *)
Definition to_str (v : value) : string :=
  match v with
  | VStr s => s
  | VInt z => pretty z
  | VBool true => "True"
  | VBool false => "False"
  | VNone => "None"
  | _ => repr v
  end.

(** [NodeState.from_dict] *)
Definition from_dict (payload : value) : result exn NodeState :=
  let! n := item payload "node_id" in
  let! s := item payload "status" in
  let! s' := enum_of node_status_value ALL_NODE_STATUS (to_str s) in
  let! a := get_or payload "attempt" (VInt 0) in
  let! a' := int_of a in
  let! k := get_or payload "idempotency_key" VNone in
  let! e := get_or payload "effect_ref" VNone in
  let! r := get_or payload "result" VNone in
  let! c := get_or payload "reason_code" VNone in
  let! d := get_or payload "operation_digest" VNone in
  Ok (mkNodeState (to_str n) s' a' k e r c d).

Definition lease_of (l : value) : result exn Lease :=
  let! o := item l "owner_id" in
  let! f := item l "fence_token" in
  let! f' := int_of f in
  let! x := item l "expires_at_ms" in
  let! x' := int_of x in
  let! h := get_or l "heartbeat_at_ms" (VInt 0) in
  let! h' := int_of h in
  Ok (mkLease (to_str o) f' x' h').

(** The comprehension over [node_states]: a later entry replaces an earlier one. *)
Definition states_of (entries : list value) : result exn (gmap string NodeState) :=
  rfold (fun m e => let! k := item e "node_id" in
                    let! s := from_dict e in
                    Ok (<[to_str k := s]> m)) ∅ entries.

(** [checkpoint_from_body] *)
Definition checkpoint_from_body (payload : value) : result exn Checkpoint :=
  let! l := item payload "lease" in
  let! e := item payload "execution_id" in
  let! p := item payload "plan_digest" in
  let! pr := item payload "principal_ref" in
  let! pj := item payload "projection_digest" in
  let! po := item payload "policy_digest" in
  let! sv := item payload "schema_version" in
  let! ar := get_or payload "approval_ref" VNone in
  let! s0 := get_or payload "status" VNone in
  let! s := (if truthy s0
             then let! x := enum_of plan_status_value ALL_PLAN_STATUS (to_str s0) in Ok (Some x)
             else Ok None) in
  let! rp := get_or payload "replay" (VBool false) in
  let! b := get_or payload "budget_consumed" (VDict []) in
  let! b' := dict_of b in
  let! l' := lease_of l in
  let! ns := get_or payload "node_states" (VList []) in
  let! entries := list_of ns in
  let! ns' := states_of entries in
  Ok (mkCheckpoint (to_str e) (to_str p) (to_str pr) (to_str pj) (to_str po) l' (to_str sv) ar s
        ns' b' (truthy rp)).

(** [Checkpoint.record_digest] *)
Definition record_digest (c : Checkpoint) : result exn string :=
  hash_value sha256_hex (body c).

(** [json.loads(body)] *)
Definition loads (text : string) : result exn value :=
  match json_loads text with Some v => Ok v | None => Err (PyError ValueError) end.

(** [SqliteCheckpointStore.create] *)
Definition create (c : Checkpoint) : store_op unit :=
  do* slift (assert_no_secret_material "checkpoint" (body c)) in
  let* text := slift (lift_py (canonical_json_bytes (body c))) in
  do* begin in
  let* d := slift (record_digest c) in
  let* s := sget in
  match checkpoints s !! execution_id c with
  | Some _ => do* rollback in sraise (StoreError PLAN_SCHEMA_INVALID "duplicate execution")
  | None =>
      do* smodify (set_row (execution_id c)
                     (mkRow (ck_plan_digest c) (fence_token (lease c)) d text)) in
      commit
  end.

(** [SqliteCheckpointStore.load] *)
Definition load (e : string) : store_op Checkpoint := fun s =>
  (match checkpoints s !! e with
   | None => store_error CHECKPOINT_TAMPERED "unknown execution"
   | Some row =>
       let! payload := loads (row_body row) in
       let! sv := get_or payload "schema_version" VNone in
       do! raise_if (negb (bool_decide (sv = VStr CHECKPOINT_SCHEMA_VERSION)))
             (StoreError CHECKPOINT_SCHEMA_UNSUPPORTED "state schema") in
       let! c := checkpoint_from_body payload in
       let! d := record_digest c in
       do! raise_if (negb (String.eqb d (row_record_digest row)))
             (StoreError CHECKPOINT_TAMPERED "record digest") in
       Ok c
   end, s).

(** [SqliteCheckpointStore.save] *)
Definition save (c : Checkpoint) (fence : Z) : store_op unit :=
  do* slift (assert_no_secret_material "checkpoint" (body c)) in
  let* text := slift (lift_py (canonical_json_bytes (body c))) in
  do* begin in
  let* s := sget in
  match checkpoints s !! execution_id c with
  | None => do* rollback in sraise (StoreError CHECKPOINT_TAMPERED "unknown execution")
  | Some row =>
      if fence <? row_fence_token row
      then do* rollback in sraise (StoreError LEASE_FENCE_STALE "stale fence token")
      else
        let* d := slift (record_digest c) in
        do* smodify (set_row (execution_id c) (mkRow (row_plan_digest row) fence d text)) in
        commit
  end.

(** [SqliteCheckpointStore.acquire_lease] *)
Definition acquire_lease (e owner : string) (expires : Z) : store_op Lease :=
  do* begin in
  let* s := sget in
  match checkpoints s !! e with
  | None => do* rollback in sraise (StoreError CHECKPOINT_TAMPERED "unknown execution")
  | Some row =>
      let token := row_fence_token row + 1 in
      let* payload := slift (loads (row_body row)) in
      let* old := slift (item payload "lease") in
      let* hb := slift (get_or old "heartbeat_at_ms" (VInt 0)) in
      let new := VDict [("owner_id", VStr owner); ("fence_token", VInt token);
                        ("expires_at_ms", VInt expires); ("heartbeat_at_ms", hb)] in
      let payload' := match payload with VDict d => VDict (dset "lease" new d) | v => v end in
      let* c := slift (checkpoint_from_body payload') in
      let* d := slift (record_digest c) in
      let* text := slift (lift_py (canonical_json_bytes (body c))) in
      do* smodify (set_row e (mkRow (row_plan_digest row) token d text)) in
      do* commit in
      sret (lease c)
  end.

(** [SqliteCheckpointStore.consume_approval] *)
Definition consume_approval (a n e : string) : store_op bool :=
  do* begin in
  let* s := sget in
  match approvals s !! (a, n) with
  | Some _ => do* rollback in sret false
  | None =>
      do* smodify (fun s => mkStore (checkpoints s) (<[(a, n) := e]> (approvals s))
                              (in_transaction s)) in
      do* commit in
      sret true
  end.

(** [SqliteCheckpointStore.approval_holder] *)
Definition approval_holder (a n : string) : store_op (option string) := fun s =>
  (Ok (approvals s !! (a, n)), s).
End Sqlite.
