(* ===== verification/DagDurability.v ===== *)
(** * The checkpoint store: durability, fencing and single use

    What [v2/dag_store.py] promises the engine: a saved checkpoint is the one that is loaded, a
    writer with an old fence token is refused for ever, an approval is consumed once, and no
    row holds a secret-like field.  The store's traces are lists of operations. *)
From S2P Require Import Prelude.
From S2P Require Import PyValue.
From S2P Require Import Canonical.
From S2P Require Import DagContract.
From S2P Require Import DagDigest.
From S2P Require Import DagStore.

(** ** Mappings as sorted items *)

Section Items.
Context {A : Type}.
Implicit Types m : gmap string A.

Lemma map_items_perm m : map_items m ≡ₚ map_to_list m.
Proof. apply sort_by_perm. Qed.

Lemma map_items_NoDup m : NoDup (dkeys (map_items m)).
Proof.
  unfold dkeys. rewrite (Permutation_map fst (map_items_perm m)). apply NoDup_fst_map_to_list.
Qed.

Lemma elem_of_map_items m k x : (k, x) ∈ map_items m <-> m !! k = Some x.
Proof. rewrite map_items_perm. apply elem_of_map_to_list. Qed.

Lemma map_items_to_map m : list_to_map (map_items m) = m.
Proof.
  rewrite (list_to_map_proper _ (map_to_list m)); [apply list_to_map_to_list| |apply map_items_perm].
  apply map_items_NoDup.
Qed.
End Items.

Lemma map_items_fmap {A B} (f : A -> B) (m : gmap string A) :
  map_items (f <$> m) = map (fun kx => (fst kx, f (snd kx))) (map_items m).
Proof.
  unfold map_items, sort_items. rewrite map_to_list_fmap.
  by rewrite <- (sort_by_map (fun kx => (fst kx, f (snd kx))) fst fst).
Qed.

Lemma map_items_normal (m : gmap string value) :
  map (fun '(k, x) => (k, normal x)) (map_items m) = map_items (normal <$> m).
Proof. rewrite map_items_fmap. apply map_ext. by intros []. Qed.

Lemma sort_map_items {A} (m : gmap string A) : sort_items (map_items m) = map_items m.
Proof. apply sort_by_id, sort_by_sorted. Qed.

(** ** What is read back *)

(** A state as its canonical text denotes it. *)
Definition normal_state (s : NodeState) : NodeState :=
  mkNodeState (node_id s) (status s) (attempt s) (normal (idempotency_key s))
    (normal (effect_ref s)) (normal (node_result s)) (normal (reason_code s))
    (normal (state_operation_digest s)).

Definition normal_checkpoint (c : Checkpoint) : Checkpoint :=
  mkCheckpoint (execution_id c) (ck_plan_digest c) (principal_ref c) (projection_digest c)
    (policy_digest c) (lease c) (ck_schema_version c) (normal (approval_ref c)) (ck_status c)
    (normal_state <$> node_states c) (normal <$> ck_budget_consumed c) (replay c).

(** The states are keyed by their node id. *)
Definition wf_checkpoint (c : Checkpoint) : Prop :=
  map_Forall (fun k s => node_id s = k) (node_states c).

#[export] Instance wf_checkpoint_dec c : Decision (wf_checkpoint c).
Proof. unfold wf_checkpoint. apply _. Defined.

(** Decides a [NoDup] of literal keys. *)
Ltac literal_keys := refine (bool_decide_unpack _ _); vm_compute; exact I.

Lemma item_normal d k :
  NoDup (dkeys d) ->
  item (normal (VDict d)) k
  = match dget k d with Some v => Ok (normal v) | None => Err (PyError KeyError) end.
Proof. intros Hd. cbn [normal item]. rewrite dget_normal by done. by destruct (dget k d). Qed.

Lemma get_or_normal d k dflt :
  NoDup (dkeys d) ->
  get_or (normal (VDict d)) k dflt = Ok (default dflt (normal <$> dget k d)).
Proof. intros Hd. cbn [normal get_or]. by rewrite dget_normal. Qed.

Lemma enum_node_status s : enum_of node_status_value ALL_NODE_STATUS (node_status_value s) = Ok s.
Proof. by destruct s. Qed.

Lemma enum_plan_status s : enum_of plan_status_value ALL_PLAN_STATUS (plan_status_value s) = Ok s.
Proof. by destruct s. Qed.

Section Reading.
Variable repr : value -> string.

Lemma from_dict_normal s : from_dict repr (normal (as_dict s)) = Ok (normal_state s).
Proof.
  unfold from_dict, as_dict.
  rewrite !item_normal, !get_or_normal by literal_keys.
  cbn -[enum_of]. rewrite enum_node_status. done.
Qed.

Lemma item_node_id s : item (normal (as_dict s)) "node_id" = Ok (VStr (node_id s)).
Proof. unfold as_dict. by rewrite item_normal by literal_keys. Qed.

Lemma states_of_normal l (m : gmap string NodeState) :
  rfold (fun m e => let! k := item e "node_id" in
                    let! s := from_dict repr e in
                    Ok (<[to_str repr k := s]> m)) m (map normal (map as_dict l))
  = Ok (foldl (fun m s => <[node_id s := normal_state s]> m) m l).
Proof.
  revert m. induction l as [|s l IH]; intros m; [done|].
  cbn [map rfold foldl]. rewrite item_node_id, from_dict_normal. cbn [rbind to_str]. apply IH.
Qed.

Lemma foldl_insert_lookup (l : list (string * NodeState)) (m : gmap string NodeState) k :
  NoDup (dkeys l) -> Forall (fun ks => node_id (snd ks) = fst ks) l ->
  foldl (fun m s => <[node_id s := normal_state s]> m) m (map snd l) !! k
  = match dget k l with Some s => Some (normal_state s) | None => m !! k end.
Proof.
  revert m. induction l as [|[j s] l IH]; intros m Hnd Hall; [done|].
  apply NoDup_cons in Hnd as [Hj Hnd]. apply Forall_cons in Hall as [Hs Hall]. simpl in Hs.
  cbn [map foldl dget snd]. rewrite IH by done. rewrite Hs.
  destruct (String.eqb_spec k j) as [->|Hne].
  - assert (dget j l = None) as -> by (by apply dget_None).
    by rewrite lookup_insert, decide_True.
  - by rewrite lookup_insert_ne by congruence.
Qed.

Lemma dget_map_items {A} (m : gmap string A) k : dget k (map_items m) = m !! k.
Proof.
  destruct (m !! k) as [x|] eqn:Hx.
  - apply dget_NoDup; [apply map_items_NoDup|]. by apply elem_of_map_items.
  - apply dget_None. intros Hin. apply list_elem_of_fmap in Hin as ([k' x] & -> & Hin).
    apply elem_of_map_items in Hin. simpl in Hx. congruence.
Qed.

(** The entries of [node_states] are read back as the states, each in normal form. *)
Lemma states_of_body c :
  wf_checkpoint c ->
  states_of repr (map normal (map (fun ks => as_dict (snd ks)) (map_items (node_states c))))
  = Ok (normal_state <$> node_states c).
Proof.
  intros Hwf. unfold states_of. rewrite <- (map_map snd as_dict), states_of_normal. f_equal.
  apply map_eq. intros k. rewrite foldl_insert_lookup.
  - rewrite dget_map_items, lookup_fmap. by destruct (node_states c !! k).
  - apply map_items_NoDup.
  - apply Forall_forall. intros [j s] Hin%elem_of_map_items. by apply Hwf.
Qed.

Lemma lease_of_normal l : lease_of repr (normal (lease_dict l)) = Ok l.
Proof.
  unfold lease_of, lease_dict. rewrite !item_normal, get_or_normal by literal_keys. cbn.
  by destruct l.
Qed.
End Reading.

Definition body_items (c : Checkpoint) : list (string * value) :=
  match body c with VDict d => d | _ => [] end.

Lemma body_eq c : body c = VDict (body_items c).
Proof. done. Qed.

Lemma body_items_NoDup c : NoDup (dkeys (body_items c)).
Proof. literal_keys. Qed.

Definition sorted_body (c : Checkpoint) : list (string * value) :=
  sort_items (map (fun '(k, x) => (k, normal x)) (body_items c)).

Lemma normal_body c : normal (body c) = VDict (sorted_body c).
Proof. done. Qed.

Lemma dget_sorted_body c k : dget k (sorted_body c) = normal <$> dget k (body_items c).
Proof. apply dget_normal, body_items_NoDup. Qed.

Section ReadBody.
Variable repr : value -> string.

(** A body whose lease may have been replaced reads back as the checkpoint with that lease. *)
Lemma read_body c d l lv :
  wf_checkpoint c ->
  (forall k, k <> "lease" -> dget k d = normal <$> dget k (body_items c)) ->
  dget "lease" d = Some lv -> lease_of repr lv = Ok l ->
  checkpoint_from_body repr (VDict d) = Ok (with_lease (normal_checkpoint c) l).
Proof.
  intros Hwf Hd Hlv Hl. unfold checkpoint_from_body. cbn [item get_or].
  rewrite Hlv, !Hd by done. unfold body_items, body. cbn -[enum_of normal map_items lease_of].
  rewrite Hl. cbn [rbind].
  assert (Hst : (if truthy (normal (vopt (plan_status_value <$> ck_status c)))
          then let! x := enum_of plan_status_value ALL_PLAN_STATUS
                           (to_str repr (normal (vopt (plan_status_value <$> ck_status c)))) in
               Ok (Some x)
          else Ok None) = Ok (E := exn) (ck_status c)).
  { destruct (ck_status c) as [s|]; [|done]. cbn -[enum_of].
    rewrite enum_plan_status. by destruct s. }
  rewrite Hst. cbn [rbind]. rewrite normal_dict. cbn [dict_of rbind].
  rewrite sort_map_items, map_items_normal, map_items_to_map.
  cbn [normal list_of rbind]. by rewrite states_of_body.
Qed.

Lemma read_normal_body c :
  wf_checkpoint c -> checkpoint_from_body repr (normal (body c)) = Ok (normal_checkpoint c).
Proof.
  intros Hwf. rewrite normal_body.
  rewrite (read_body c (sorted_body c) (lease c) (normal (lease_dict (lease c)))); [by destruct c|done| | |].
  - intros k _. apply dget_sorted_body.
  - by rewrite dget_sorted_body.
  - apply lease_of_normal.
Qed.
End ReadBody.

(** Normalising a checkpoint keeps its canonical text, hence its digest. *)
Lemma normal_body_normal c : normal (body (normal_checkpoint c)) = normal (body c).
Proof.
  assert (H1 : normal (VDict (map_items (normal <$> ck_budget_consumed c)))
               = normal (VDict (map_items (ck_budget_consumed c)))).
  { apply normal_dict_congr. rewrite !map_items_normal. f_equal. rewrite <- map_fmap_compose.
    apply map_fmap_ext. intros k v _. apply normal_idem. }
  assert (H2 : normal (VList (map (fun ks => as_dict (snd ks)) (map_items (normal_state <$> node_states c))))
               = normal (VList (map (fun ks => as_dict (snd ks)) (map_items (node_states c))))).
  { apply normal_list. rewrite map_items_fmap, !map_map. apply map_ext. intros [k s].
    unfold as_dict. apply normal_dict_congr. cbn. by rewrite !normal_idem. }
  unfold body. apply normal_dict_congr.
  cbn [map execution_id ck_plan_digest principal_ref projection_digest policy_digest lease
       ck_schema_version approval_ref ck_status node_states ck_budget_consumed replay
       normal_checkpoint].
  by rewrite H1, H2, normal_idem.
Qed.

Lemma dumps_normal_checkpoint c : json_dumps (body (normal_checkpoint c)) = json_dumps (body c).
Proof. by rewrite <- dumps_normal, normal_body_normal, dumps_normal. Qed.

(** ** Bodies as trees *)

Definition state_values (s : NodeState) : list value :=
  [idempotency_key s; effect_ref s; node_result s; reason_code s; state_operation_digest s].

(** The parts of a body that the engine does not fix. *)
Definition free_parts (K : string -> Prop) (L : value -> Prop) (c : Checkpoint) : Prop :=
  tree K L (approval_ref c)
  /\ map_Forall (fun k v => K k /\ tree K L v) (ck_budget_consumed c)
  /\ map_Forall (fun _ s => Forall (tree K L) (state_values s)) (node_states c).

Section BodyTree.
Variables (K : string -> Prop) (L : value -> Prop).
Hypothesis fixed_keys : Forall K
  ["node_id"; "status"; "attempt"; "idempotency_key"; "effect_ref"; "result"; "reason_code";
   "operation_digest"; "execution_id"; "plan_digest"; "principal_ref"; "projection_digest";
   "policy_digest"; "schema_version"; "approval_ref"; "replay"; "budget_consumed"; "lease";
   "node_states"; "owner_id"; "fence_token"; "expires_at_ms"; "heartbeat_at_ms"].
Hypothesis fixed_leaves : forall v,
  match v with VNone | VBool _ | VInt _ | VStr _ => True | _ => False end -> L v.

Lemma fixed_leaf v :
  match v with VNone | VBool _ | VInt _ | VStr _ => True | _ => False end -> tree K L v.
Proof. intros Hv. apply tree_leaf. destruct v; try done; by apply fixed_leaves. Qed.

Lemma fixed_key k :
  str_in k ["node_id"; "status"; "attempt"; "idempotency_key"; "effect_ref"; "result"; "reason_code";
   "operation_digest"; "execution_id"; "plan_digest"; "principal_ref"; "projection_digest";
   "policy_digest"; "schema_version"; "approval_ref"; "replay"; "budget_consumed"; "lease";
   "node_states"; "owner_id"; "fence_token"; "expires_at_ms"; "heartbeat_at_ms"] = true -> K k.
Proof. rewrite str_in_elem. rewrite Forall_forall in fixed_keys. auto. Qed.

Lemma tree_as_dict s : tree K L (as_dict s) <-> Forall (tree K L) (state_values s).
Proof.
  unfold as_dict. rewrite tree_dict_iff. unfold state_values. rewrite !Forall_cons, !Forall_nil.
  simpl. pose proof (fixed_key "node_id" eq_refl). pose proof (fixed_key "status" eq_refl).
  pose proof (fixed_key "attempt" eq_refl). pose proof (fixed_key "idempotency_key" eq_refl).
  pose proof (fixed_key "effect_ref" eq_refl). pose proof (fixed_key "result" eq_refl).
  pose proof (fixed_key "reason_code" eq_refl). pose proof (fixed_key "operation_digest" eq_refl).
  pose proof (fixed_leaf (VStr (node_id s)) I). pose proof (fixed_leaf (VInt (attempt s)) I).
  pose proof (fixed_leaf (VStr (node_status_value (status s))) I). tauto.
Qed.

Lemma tree_lease l : tree K L (lease_dict l).
Proof.
  unfold lease_dict. apply tree_dict_iff.
  repeat (apply Forall_cons; split; [split; [by apply fixed_key|by apply fixed_leaf]|]).
  by apply Forall_nil.
Qed.

Lemma tree_vopt o : tree K L (vopt o).
Proof. destruct o; by apply fixed_leaf. Qed.

Lemma Forall_map_items {A} (m : gmap string A) (P : string -> A -> Prop) :
  Forall (fun kx => P (fst kx) (snd kx)) (map_items m) <-> map_Forall P m.
Proof.
  rewrite Forall_forall. split.
  - intros H k x Hk. by apply (H (k, x)), elem_of_map_items.
  - intros H [k x] Hin. by apply H, elem_of_map_items.
Qed.

Lemma tree_body c : tree K L (body c) <-> free_parts K L c.
Proof.
  unfold body, free_parts. rewrite tree_dict_iff, !Forall_cons, Forall_nil. simpl.
  rewrite tree_dict_iff, tree_list_iff, Forall_fmap.
  rewrite (Forall_map_items _ (fun k v => K k /\ tree K L v)).
  rewrite (Forall_iff _ _ (fun ks => Forall (tree K L) (state_values (snd ks))))
    by (intros ks; apply tree_as_dict).
  rewrite (Forall_map_items _ (fun _ s => Forall (tree K L) (state_values s))).
  assert (HK : forall k, str_in k ["execution_id"; "plan_digest"; "principal_ref";
    "projection_digest"; "policy_digest"; "schema_version"; "approval_ref"; "status"; "replay";
    "budget_consumed"; "lease"; "node_states"] = true -> K k).
  { intros k Hk. apply fixed_key. apply str_in_elem. apply str_in_elem in Hk. set_solver. }
  pose proof (HK "execution_id" eq_refl). pose proof (HK "plan_digest" eq_refl).
  pose proof (HK "principal_ref" eq_refl). pose proof (HK "projection_digest" eq_refl).
  pose proof (HK "policy_digest" eq_refl). pose proof (HK "schema_version" eq_refl).
  pose proof (HK "approval_ref" eq_refl). pose proof (HK "status" eq_refl).
  pose proof (HK "replay" eq_refl). pose proof (HK "budget_consumed" eq_refl).
  pose proof (HK "lease" eq_refl). pose proof (HK "node_states" eq_refl).
  pose proof (fun s => fixed_leaf (VStr s) I). pose proof (fixed_leaf (VBool (replay c)) I).
  pose proof (tree_vopt (plan_status_value <$> ck_status c)). pose proof (tree_lease (lease c)).
  naive_solver.
Qed.

Lemma free_parts_normal c l :
  free_parts K L (with_lease (normal_checkpoint c) l) <-> free_parts K L c.
Proof.
  unfold free_parts. cbn [approval_ref ck_budget_consumed node_states with_lease normal_checkpoint].
  rewrite tree_normal.
  assert (H1 : map_Forall ((fun k v => K k /\ tree K L v)) (normal <$> ck_budget_consumed c)
               <-> map_Forall (fun k v => K k /\ tree K L v) (ck_budget_consumed c)).
  { rewrite map_Forall_fmap. split; intros H k v Hk; specialize (H k v Hk);
      simpl in *; by rewrite tree_normal in *. }
  assert (H2 : map_Forall (fun _ s => Forall (tree K L) (state_values s))
                 (normal_state <$> node_states c)
               <-> map_Forall (fun _ s => Forall (tree K L) (state_values s)) (node_states c)).
  { rewrite map_Forall_fmap. split; intros H k s Hk; specialize (H k s Hk);
      unfold state_values in *; simpl in *; rewrite !Forall_cons, !tree_normal in *; done. }
  tauto.
Qed.
End BodyTree.

(** No key at any depth looks like credential material. *)
Definition no_secrets : value -> Prop :=
  tree (fun k => secret_like k = false) (fun _ => True).

Lemma assert_no_secret_iff w v : assert_no_secret_material w v = Ok tt <-> no_secrets v.
Proof.
  unfold no_secrets. induction v as [| | | | |l IH|d IH|] using value_ind;
    try (split; [intros _; by constructor|done]).
  - cbn [assert_no_secret_material]. rewrite rfor_Ok, tree_list_iff. by apply Forall_iff_in.
  - cbn [assert_no_secret_material]. rewrite rfor_Ok, tree_dict_iff. apply Forall_iff_in.
    eapply Forall_impl; [exact IH|]. intros [k v] Hv. cbn [fst snd] in *. rewrite <- Hv.
    rewrite rbind_Ok. split.
    + intros ([] & Hk%raise_if_Ok & ?). done.
    + intros [-> ?]. by exists tt.
Qed.

Lemma no_secrets_body_lease c l :
  no_secrets (body (with_lease (normal_checkpoint c) l)) <-> no_secrets (body c).
Proof.
  unfold no_secrets. rewrite !tree_body; [apply free_parts_normal|..]; try done;
    repeat (constructor; [by vm_compute|]); constructor.
Qed.

Lemma valid_body_lease c l :
  valid (body (with_lease (normal_checkpoint c) l)) <-> valid (body c).
Proof.
  rewrite !valid_tree, !tree_body; [apply free_parts_normal|..]; try (by intros []);
    by repeat constructor.
Qed.

Lemma wf_normal c l : wf_checkpoint c -> wf_checkpoint (with_lease (normal_checkpoint c) l).
Proof.
  unfold wf_checkpoint. simpl. rewrite map_Forall_fmap. intros Hwf k s Hk. simpl. by apply Hwf.
Qed.

(** ** The store's invariant *)

Section Store.
Variable sha256_hex : string -> string.
Variable repr : value -> string.

(** The row of execution [e] records the checkpoint [c]. *)
Definition records (e : string) (row : Row) (c : Checkpoint) : Prop :=
  execution_id c = e /\ wf_checkpoint c /\ valid (body c) /\ no_secrets (body c)
  /\ row_body row = json_dumps (body c) /\ row_record_digest row = sha256_hex (json_dumps (body c)).

Definition store_inv (s : Store) : Prop :=
  in_transaction s = false
  /\ forall e row, checkpoints s !! e = Some row -> exists c, records e row c.

Definition empty_store : Store := mkStore ∅ ∅ false.

Lemma empty_store_inv : store_inv empty_store.
Proof. split; [done|]. intros e row. simpl. by rewrite lookup_empty. Qed.

Lemma record_digest_valid c : valid (body c) -> record_digest sha256_hex c = Ok (sha256_hex (json_dumps (body c))).
Proof.
  intros Hv. unfold record_digest, hash_value, canonical_hash. by rewrite valid_text.
Qed.

Lemma set_row_inv e row c s :
  store_inv s -> records e row c ->
  store_inv (set_transaction false (set_row e row s)).
Proof.
  intros [_ Hs] Hr. split; [done|]. intros e' row'. simpl.
  destruct (decide (e' = e)) as [->|Hne].
  - rewrite lookup_insert, decide_True by done. intros [= <-]. eauto.
  - rewrite lookup_insert_ne by done. apply Hs.
Qed.

Lemma loads_body c row e :
  records e row c -> loads (row_body row) = Ok (normal (body c)).
Proof. intros (_ & _ & Hv & _ & Hb & _). unfold loads. by rewrite Hb, loads_dumps. Qed.

(** What [load] returns on a row that records a checkpoint. *)
Lemma load_records e row c s :
  checkpoints s !! e = Some row -> records e row c ->
  load sha256_hex repr e s
  = (if bool_decide (ck_schema_version c = CHECKPOINT_SCHEMA_VERSION) then Ok (normal_checkpoint c)
     else Err (StoreError CHECKPOINT_SCHEMA_UNSUPPORTED "state schema"), s).
Proof.
  intros Hrow Hr. unfold load. f_equal. rewrite Hrow, (loads_body _ _ _ Hr).
  destruct Hr as (_ & Hwf & Hv & _ & _ & Hd). cbn [rbind].
  rewrite normal_body. cbn [get_or]. rewrite dget_sorted_body.
  change (default VNone (normal <$> dget "schema_version" (body_items c)))
    with (VStr (ck_schema_version c)). cbn [rbind].
  destruct (bool_decide_reflect (ck_schema_version c = CHECKPOINT_SCHEMA_VERSION)) as [Hsv|Hsv].
  2: { by rewrite bool_decide_eq_false_2 by congruence. }
  rewrite bool_decide_eq_true_2 by congruence. cbn [negb raise_if rbind].
  rewrite <- normal_body, read_normal_body by done. cbn [rbind].
  assert (Hb : body (normal_checkpoint c) = body (with_lease (normal_checkpoint c) (lease c)))
    by (by destruct c).
  assert (Hv' : valid (body (normal_checkpoint c))) by (by rewrite Hb, valid_body_lease).
  rewrite record_digest_valid by done. cbn [rbind].
  rewrite dumps_normal_checkpoint, Hd. by rewrite String.eqb_refl.
Qed.

(** The three checks that precede a write, on a checkpoint that passes them. *)
Definition writable (c : Checkpoint) : Prop := valid (body c) /\ no_secrets (body c).

(** Either both checks pass, or the write is refused before the database is touched. *)
Lemma write_checks {A} (c : Checkpoint) (k : string -> store_op A) s :
  (writable c /\
   (do* slift (assert_no_secret_material "checkpoint" (body c)) in
    let* text := slift (lift_py (canonical_json_bytes (body c))) in k text) s
   = k (json_dumps (body c)) s)
  \/ (~ writable c /\ exists e,
   (do* slift (assert_no_secret_material "checkpoint" (body c)) in
    let* text := slift (lift_py (canonical_json_bytes (body c))) in k text) s = (Err e, s)).
Proof.
  unfold sbind, slift.
  destruct (assert_no_secret_material "checkpoint" (body c)) as [[]|e] eqn:Hn.
  - destruct (validate (body c)) as [[]|e] eqn:Hv.
    + left. apply assert_no_secret_iff in Hn. split; [by split|]. by rewrite valid_text.
    + right. split.
      * intros [Hv' _]. unfold valid in Hv'. congruence.
      * unfold canonical_json_bytes, canonical_json_text. rewrite Hv. simpl. eauto.
  - right. split; [|eauto]. intros [_ Hs%(assert_no_secret_iff "checkpoint")]. congruence.
Qed.

(** The row that records [c]. *)
Definition stored (pd : string) (fence : Z) (c : Checkpoint) : Row :=
  mkRow pd fence (sha256_hex (json_dumps (body c))) (json_dumps (body c)).

Lemma stored_records pd f c : wf_checkpoint c -> writable c -> records (execution_id c) (stored pd f c) c.
Proof. intros Hwf [Hv Hn]. by repeat split. Qed.

Lemma reset_transaction s f :
  in_transaction s = false -> (forall s, in_transaction (f s) = in_transaction s) ->
  (forall s b, f (set_transaction b s) = set_transaction b (f s)) ->
  set_transaction false (f (set_transaction true s)) = f s.
Proof.
  intros Hs Hf Hc. rewrite Hc. specialize (Hf s). destruct (f s) as [cs aps b].
  unfold set_transaction. simpl in *. congruence.
Qed.

(** [create]: refused with the store unchanged, or a new row. *)
Lemma create_cases c s :
  in_transaction s = false ->
  (exists e, create sha256_hex c s = (Err e, s) /\
     (writable c -> is_Some (checkpoints s !! execution_id c)))
  \/ (writable c /\ checkpoints s !! execution_id c = None
      /\ create sha256_hex c s
         = (Ok tt, set_row (execution_id c)
                     (stored (ck_plan_digest c) (fence_token (lease c)) c) s)).
Proof.
  intros Htx. unfold create.
  destruct (write_checks c (fun text =>
    do* begin in let* d := slift (record_digest sha256_hex c) in let* s := sget in
    match checkpoints s !! execution_id c with
    | Some _ => do* rollback in sraise (StoreError PLAN_SCHEMA_INVALID "duplicate execution")
    | None => do* smodify (set_row (execution_id c)
                  (mkRow (ck_plan_digest c) (fence_token (lease c)) d text)) in commit
    end) s) as [[Hw ->]|[Hw [e ->]]]; [|left; exists e; by split].
  unfold begin, sbind, sget, slift, smodify, rollback, commit, sraise.
  rewrite Htx, record_digest_valid by apply Hw. simpl.
  destruct (checkpoints s !! execution_id c) eqn:Hrow.
  - left. eexists. split; [f_equal; by destruct s; simplify_eq/=|eauto].
  - right. split_and!; [done..|]. f_equal. by destruct s; simplify_eq/=.
Qed.

(** [save]: refused with the store unchanged, or the row replaced under a fence that is not
    older than the stored one. *)
Lemma save_cases c f s :
  in_transaction s = false ->
  (exists e, save sha256_hex c f s = (Err e, s) /\
     (writable c -> forall row, checkpoints s !! execution_id c = Some row ->
        f < row_fence_token row /\ e = StoreError LEASE_FENCE_STALE "stale fence token"))
  \/ (exists row, writable c /\ checkpoints s !! execution_id c = Some row
      /\ row_fence_token row <= f
      /\ save sha256_hex c f s
         = (Ok tt, set_row (execution_id c) (stored (row_plan_digest row) f c) s)).
Proof.
  intros Htx. unfold save.
  destruct (write_checks c (fun text =>
    do* begin in let* s := sget in
    match checkpoints s !! execution_id c with
    | None => do* rollback in sraise (StoreError CHECKPOINT_TAMPERED "unknown execution")
    | Some row =>
        if f <? row_fence_token row
        then do* rollback in sraise (StoreError LEASE_FENCE_STALE "stale fence token")
        else let* d := slift (record_digest sha256_hex c) in
             do* smodify (set_row (execution_id c) (mkRow (row_plan_digest row) f d text)) in
             commit
    end) s) as [[Hw ->]|[Hw [e ->]]]; [|left; exists e; by split].
  unfold begin, sbind, sget, slift, smodify, rollback, commit, sraise.
  rewrite Htx, record_digest_valid by apply Hw. simpl.
  destruct (checkpoints s !! execution_id c) as [row|] eqn:Hrow.
  2: { left. eexists. split; [f_equal; by destruct s; simplify_eq/=|done]. }
  destruct (Z.ltb_spec f (row_fence_token row)).
  - left. eexists. split; [f_equal; by destruct s; simplify_eq/=|naive_solver].
  - right. exists row. split_and!; [done..|]. f_equal. by destruct s; simplify_eq/=.
Qed.

(** [acquire_lease] on a store that holds its invariant: the token grows by one and only the
    lease of the checkpoint changes. *)
Lemma acquire_cases e o x s :
  store_inv s ->
  (checkpoints s !! e = None
   /\ acquire_lease sha256_hex repr e o x s
      = (store_error CHECKPOINT_TAMPERED "unknown execution", s))
  \/ (exists row c l, checkpoints s !! e = Some row /\ records e row c
      /\ l = mkLease o (row_fence_token row + 1) x (heartbeat_at_ms (lease c))
      /\ acquire_lease sha256_hex repr e o x s
         = (Ok l, set_row e (stored (row_plan_digest row) (row_fence_token row + 1)
                              (with_lease (normal_checkpoint c) l)) s)).
Proof.
  intros [Htx Hs]. unfold acquire_lease.
  unfold begin, sbind, sget, slift, smodify, rollback, commit, sraise, sret. rewrite Htx. simpl.
  destruct (checkpoints s !! e) as [row|] eqn:Hrow.
  2: { left. split; [done|]. unfold store_error. f_equal. by destruct s; simplify_eq/=. }
  right. destruct (Hs e row Hrow) as [c Hc]. set (tok := row_fence_token row + 1).
  exists row, c, (mkLease o tok x (heartbeat_at_ms (lease c))). split; [done|]. split; [done|].
  split; [done|]. rewrite (loads_body _ _ _ Hc), normal_body. cbn [item].
  rewrite dget_sorted_body. cbn -[sorted_body set_row tok].
  set (lv := VDict [("owner_id", VStr o); ("fence_token", VInt tok); ("expires_at_ms", VInt x);
                    ("heartbeat_at_ms", VInt (heartbeat_at_ms (lease c)))]).
  destruct Hc as (He & Hwf & Hv & _).
  rewrite (read_body repr c _ (mkLease o tok x (heartbeat_at_ms (lease c))) lv Hwf).
  2: { intros k Hk. rewrite dget_dset_ne by congruence. apply dget_sorted_body. }
  2: { apply dget_dset_eq. }
  2: { done. }
  set (c' := with_lease (normal_checkpoint c) _).
  assert (Hv' : valid (body c')) by (by apply valid_body_lease).
  rewrite record_digest_valid, valid_text by done. cbn -[set_row tok body].
  f_equal. by destruct s; simplify_eq/=.
Qed.

Lemma consume_cases a n e s :
  in_transaction s = false ->
  consume_approval a n e s
  = match approvals s !! (a, n) with
    | Some _ => (Ok false, s)
    | None => (Ok true, mkStore (checkpoints s) (<[(a, n) := e]> (approvals s)) false)
    end.
Proof.
  intros Htx. unfold consume_approval, begin, sbind, sget, smodify, rollback, commit, sret.
  rewrite Htx. simpl. destruct (approvals s !! (a, n)); f_equal; by destruct s; simplify_eq/=.
Qed.
End Store.

(** ** Traces *)

(** One call of a writing operation, by any of the processes that share the file. *)
Inductive store_call : Type :=
| CallCreate (c : Checkpoint)
| CallSave (c : Checkpoint) (fence : Z)
| CallAcquire (e owner : string) (expires : Z)
| CallConsume (a n e : string).

Definition wf_call (o : store_call) : Prop :=
  match o with
  | CallCreate c | CallSave c _ => wf_checkpoint c
  | _ => True
  end.

Section Traces.
Variable sha256_hex : string -> string.
Variable repr : value -> string.

Definition run_call (s : Store) (o : store_call) : Store :=
  match o with
  | CallCreate c => snd (create sha256_hex c s)
  | CallSave c f => snd (save sha256_hex c f s)
  | CallAcquire e o x => snd (acquire_lease sha256_hex repr e o x s)
  | CallConsume a n e => snd (consume_approval a n e s)
  end.

Definition run_calls (s : Store) (os : list store_call) : Store := foldl run_call s os.

Abbreviation inv := (store_inv sha256_hex).

(** What one call does to the rows and approvals. *)
Lemma run_call_cases s o :
  inv s -> wf_call o ->
  run_call s o = s
  \/ (exists c pd f, wf_checkpoint c /\ writable c
      /\ run_call s o = set_row (execution_id c) (stored sha256_hex pd f c) s
      /\ forall row, checkpoints s !! execution_id c = Some row -> row_fence_token row <= f)
  \/ (exists a n e, approvals s !! (a, n) = None
      /\ run_call s o = mkStore (checkpoints s) (<[(a, n) := e]> (approvals s)) false).
Proof.
  intros Hinv Hwf. destruct o as [c|c f|e o x|a n e]; simpl in *.
  - destruct (create_cases sha256_hex c s (proj1 Hinv)) as [(e & -> & _)|(Hw & Hnone & ->)];
      [by left|]. right; left. exists c, (ck_plan_digest c), (fence_token (lease c)).
    split_and!; [done..|]. intros row. by rewrite Hnone.
  - destruct (save_cases sha256_hex c f s (proj1 Hinv)) as [(e & -> & _)|(row & Hw & Hrow & Hf & ->)];
      [by left|]. right; left. exists c, (row_plan_digest row), f. split_and!; [done..|].
    rewrite Hrow. by intros ? [= <-].
  - destruct (acquire_cases sha256_hex repr e o x s Hinv)
      as [(_ & ->)|(row & c & l & Hrow & Hc & -> & ->)]; [by left|]. right; left.
    destruct Hc as (He & Hwfc & Hv & Hn & _). eexists _, _, _. split_and!.
    + by apply wf_normal.
    + split; [by apply valid_body_lease|by apply no_secrets_body_lease].
    + simpl. by rewrite He.
    + simpl. rewrite He, Hrow. intros ? [= <-]. lia.
  - rewrite consume_cases by apply Hinv. destruct (approvals s !! (a, n)) eqn:Ha; [by left|].
    right; right. eauto.
Qed.

Lemma run_call_inv s o : inv s -> wf_call o -> inv (run_call s o).
Proof.
  intros Hinv Hwf. destruct (run_call_cases s o Hinv Hwf)
    as [->|[(c & pd & f & Hwfc & Hw & -> & _)|(a & n & e & _ & ->)]]; [done| |].
  - destruct (set_row_inv sha256_hex (execution_id c) (stored sha256_hex pd f c) c s Hinv) as [_ H].
    { by apply stored_records. }
    split; [apply Hinv|exact H].
  - by split; [|apply Hinv].
Qed.

Lemma run_calls_inv s os : inv s -> Forall wf_call os -> inv (run_calls s os).
Proof.
  revert s. induction os as [|o os IH]; intros s Hs Hwf; [done|].
  apply Forall_cons in Hwf as [Ho Hos]. by apply IH; [apply run_call_inv|].
Qed.

(** Fences never go back. *)
Lemma run_call_fence s o e row :
  inv s -> wf_call o -> checkpoints s !! e = Some row ->
  exists row', checkpoints (run_call s o) !! e = Some row'
  /\ row_fence_token row <= row_fence_token row'.
Proof.
  intros Hinv Hwf Hrow. destruct (run_call_cases s o Hinv Hwf)
    as [->|[(c & pd & f & _ & _ & -> & Hf)|(a & n & e' & _ & ->)]].
  - exists row. split; [done|lia].
  - simpl. destruct (decide (execution_id c = e)) as [Heq|Hne].
    + rewrite Heq, lookup_insert, decide_True by done. eexists. split; [done|].
      apply Hf. by rewrite Heq.
    + rewrite lookup_insert_ne by done. exists row. split; [done|lia].
  - exists row. split; [done|lia].
Qed.

Lemma run_calls_fence s os e row :
  inv s -> Forall wf_call os -> checkpoints s !! e = Some row ->
  exists row', checkpoints (run_calls s os) !! e = Some row'
  /\ row_fence_token row <= row_fence_token row'.
Proof.
  revert s row. induction os as [|o os IH]; intros s row Hs Hwf Hrow; [by exists row|].
  apply Forall_cons in Hwf as [Ho Hos].
  destruct (run_call_fence s o e row Hs Ho Hrow) as (row1 & Hrow1 & ?).
  destruct (IH (run_call s o) row1) as (row2 & ? & ?); [by apply run_call_inv|done..|].
  exists row2. split; [done|lia].
Qed.

(** A consumed approval stays with its holder. *)
Lemma run_calls_approval s os a n e :
  inv s -> Forall wf_call os -> approvals s !! (a, n) = Some e ->
  approvals (run_calls s os) !! (a, n) = Some e.
Proof.
  revert s. induction os as [|o os IH]; intros s Hs Hwf Ha; [done|].
  apply Forall_cons in Hwf as [Ho Hos]. apply IH; [by apply run_call_inv|done|].
  destruct (run_call_cases s o Hs Ho) as [->|[(c & pd & f & _ & _ & -> & _)|(a' & n' & e' & Hnone & ->)]];
    [done..|]. simpl. rewrite lookup_insert_ne; [done|]. intros [= <- <-]. congruence.
Qed.
End Traces.

(** ** Properties *)

Section Properties.
Variable sha256_hex : string -> string.
Variable repr : value -> string.
Abbreviation run_calls := (run_calls sha256_hex repr).


(** [C37] A checkpoint that [save] accepted is the one [load] returns, with its JSON values in
    normal form: nothing is lost between the write and the recovery that reads it. *)
Theorem load_after_save os c f s' :
  Forall wf_call os -> wf_checkpoint c -> ck_schema_version c = CHECKPOINT_SCHEMA_VERSION ->
  save sha256_hex c f (run_calls empty_store os) = (Ok tt, s') ->
  load sha256_hex repr (execution_id c) s' = (Ok (normal_checkpoint c), s').
Proof.
  intros Hos Hwf Hsv Hsave.
  pose proof (run_calls_inv sha256_hex repr _ os (empty_store_inv sha256_hex) Hos) as [Htx _].
  destruct (save_cases sha256_hex c f _ Htx) as [(e & He & _)|(row & [Hv Hn] & _ & _ & He)];
    rewrite He in Hsave; [done|]. injection Hsave as <-.
  rewrite (load_records sha256_hex repr _ (stored sha256_hex (row_plan_digest row) f c) c).
  - by rewrite bool_decide_eq_true_2.
  - simpl. by rewrite lookup_insert, decide_True.
  - by apply stored_records.
Qed.

(** Fencing: once a process has taken the lease of an execution, a save under any older
    token is refused with LEASE_FENCE_STALE and changes nothing, whatever calls happen in
    between. *)
Theorem stale_writer_fenced os1 os2 e o x l s1 c f :
  Forall wf_call os1 -> Forall wf_call os2 ->
  acquire_lease sha256_hex repr e o x (run_calls empty_store os1) = (Ok l, s1) ->
  execution_id c = e -> writable c -> f < fence_token l ->
  save sha256_hex c f (run_calls s1 os2)
  = (Err (StoreError LEASE_FENCE_STALE "stale fence token"), run_calls s1 os2).
Proof.
  intros H1 H2 Hacq He Hw Hf.
  pose proof (run_calls_inv sha256_hex repr _ os1 (empty_store_inv sha256_hex) H1) as Hinv.
  assert (Hinv1 : store_inv sha256_hex s1).
  { pose proof (run_call_inv sha256_hex repr _ (CallAcquire e o x) Hinv I) as H.
    simpl in H. by rewrite Hacq in H. }
  destruct (acquire_cases sha256_hex repr e o x _ Hinv)
    as [(_ & Heq)|(row & c' & l' & Hrow & _ & Hl' & Heq)]; rewrite Heq in Hacq; [done|].
  injection Hacq as -> <-. subst l.
  destruct (run_calls_fence sha256_hex repr _ os2 e
    (stored sha256_hex (row_plan_digest row) (row_fence_token row + 1)
       (with_lease (normal_checkpoint c') (mkLease o (row_fence_token row + 1) x
          (heartbeat_at_ms (lease c'))))) Hinv1 H2) as (row2 & Hrow2 & Hle).
  { simpl. by rewrite lookup_insert, decide_True. }
  pose proof (run_calls_inv sha256_hex repr _ os2 Hinv1 H2) as [Htx2 _]. simpl in Hle, Hf.
  destruct (save_cases sha256_hex c f _ Htx2) as [(e2 & Hs & Hwhy)|(row3 & _ & Hrow3 & Hle3 & _)].
  - rewrite Hs. f_equal. destruct (Hwhy Hw row2) as [_ ->]; [by rewrite He|done].
  - exfalso. rewrite He, Hrow2 in Hrow3. injection Hrow3 as <-. lia.
Qed.

(** An approval is consumed once: of two calls of [consume_approval] for the same
    approval and nonce, the later one returns [False] if the earlier returned [True],
    whatever happens in between, and the holder stays the first caller's execution. *)
Theorem approval_single_use os1 os2 a n e1 e2 s1 :
  Forall wf_call os1 -> Forall wf_call os2 ->
  consume_approval a n e1 (run_calls empty_store os1) = (Ok true, s1) ->
  consume_approval a n e2 (run_calls s1 os2) = (Ok false, run_calls s1 os2)
  /\ approval_holder a n (run_calls s1 os2) = (Ok (Some e1), run_calls s1 os2).
Proof.
  intros H1 H2 Hc.
  pose proof (run_calls_inv sha256_hex repr _ os1 (empty_store_inv sha256_hex) H1) as Hinv.
  assert (Hinv1 : store_inv sha256_hex s1).
  { pose proof (run_call_inv sha256_hex repr _ (CallConsume a n e1) Hinv I) as H.
    simpl in H. by rewrite Hc in H. }
  rewrite consume_cases in Hc by apply Hinv.
  destruct (approvals _ !! (a, n)) eqn:Ha; [done|]. injection Hc as <-.
  pose proof (run_calls_approval sha256_hex repr _ os2 a n e1 Hinv1 H2
                ltac:(simpl; by rewrite lookup_insert, decide_True)) as Hh.
  split.
  - rewrite consume_cases by (by apply run_calls_inv). by rewrite Hh.
  - unfold approval_holder. by rewrite Hh.
Qed.
End Properties.

(** ** Witnesses *)

Definition demo_checkpoint : Checkpoint :=
  mkCheckpoint "e1" "plan" "principal" "proj" "pol" (mkLease "engine-0" 1 1000 0)
    CHECKPOINT_SCHEMA_VERSION VNone None
    (<["a" := mkNodeState "a" NodeStatus_SUCCESS 0 VNone VNone
                (VDict [("title", VStr "t"); ("number", VInt 7)]) VNone VNone]>
       {["b" := new_state "b"]})
    ∅ false.

Definition demo_calls : list store_call :=
  [CallCreate demo_checkpoint; CallConsume "ap1" "n1" "e1"].

Lemma demo_calls_wf : Forall wf_call demo_calls.
Proof. repeat constructor. refine (bool_decide_unpack _ _). by vm_compute. Qed.


Lemma load_after_save_witness :
  exists s', save (fun s => s) demo_checkpoint 1
               (run_calls (fun s => s) (fun _ => "") empty_store demo_calls) = (Ok tt, s')
  /\ load (fun s => s) (fun _ => "") "e1" s' = (Ok (normal_checkpoint demo_checkpoint), s').
Proof.
  eexists. split; [vm_compute; reflexivity|].
  apply (load_after_save (fun s => s) (fun _ => "") demo_calls demo_checkpoint 1);
    [exact demo_calls_wf|refine (bool_decide_unpack _ _); by vm_compute|reflexivity|vm_compute; reflexivity].
Defined.

Lemma stale_writer_fenced_witness :
  fst (save (fun s => s) demo_checkpoint 1
        (run_calls (fun s => s) (fun _ => "")
           (snd (acquire_lease (fun s => s) (fun _ => "") "e1" "engine-1" 2000
                   (run_calls (fun s => s) (fun _ => "") empty_store demo_calls)))
           [CallAcquire "e1" "engine-2" 3000]))
  = Err (StoreError LEASE_FENCE_STALE "stale fence token").
Proof.
  erewrite (stale_writer_fenced (fun s => s) (fun _ => "") demo_calls
              [CallAcquire "e1" "engine-2" 3000] "e1" "engine-1" 2000
              (mkLease "engine-1" 2 2000 0)); [reflexivity|exact demo_calls_wf|by repeat constructor
    |vm_compute; reflexivity|reflexivity| |simpl; lia].
  split; [by vm_compute|]. apply (assert_no_secret_iff "checkpoint"). by vm_compute.
Defined.

Lemma approval_single_use_witness :
  fst (consume_approval "ap1" "n1" "e2"
        (run_calls (fun s => s) (fun _ => "")
           (snd (consume_approval "ap1" "n1" "e1" empty_store)) [CallCreate demo_checkpoint]))
  = Ok false.
Proof.
  destruct (approval_single_use (fun s => s) (fun _ => "") [] [CallCreate demo_checkpoint]
              "ap1" "n1" "e1" "e2" (snd (consume_approval "ap1" "n1" "e1" empty_store)))
    as [-> _]; [constructor|repeat constructor; refine (bool_decide_unpack _ _); by vm_compute
               |reflexivity|reflexivity].
Defined.

(** A row whose body is not JSON makes [acquire_lease] raise between BEGIN and COMMIT: the
    transaction stays open and every later write of the store fails. *)
Lemma acquire_lease_leaves_transaction_open :
  let s := mkStore {["e1" := mkRow "p" 1 "d" "{"]} ∅ false in
  let s' := snd (acquire_lease (fun s => s) (fun _ => "") "e1" "engine-0" 1000 s) in
  fst (acquire_lease (fun s => s) (fun _ => "") "e1" "engine-0" 1000 s) = Err (PyError ValueError)
  /\ in_transaction s' = true
  /\ fst (create (fun s => s) demo_checkpoint s')
     = Err (DatabaseError "cannot start a transaction within a transaction").
Proof. by vm_compute. Qed.
