(* ===== verification/DagEngine.v ===== *)
(** * The DAG engine ([v2/dag_engine.py])

    [run] is state passing over [RunState], the local variables of [DagEngine.run] together with
    the checkpoint store and the log of [governance.record].  An exception keeps the effects made
    before it.  The executor is awaited in the middle of [execute], so [execute] is split into
    [execute_start] (up to the await) and [execute_finish] (from the executor's outcome on); the
    tasks that [asyncio.gather] runs together are interleaved at exactly these points and at the
    semaphore and the resource locks, under a scheduler that also picks the executor's outcomes.
    Governance, reconciler and compensator are parameters. *)
From S2P Require Import Prelude.
From S2P Require Import PyValue.
From S2P Require Import Canonical.
From S2P Require Import DagContract.
From S2P Require Import DagDigest.
From S2P Require Import DagTransform.
From S2P Require Import DagValidation.
From S2P Require Import DagStore.

(** ** Data *)

(** The fields of [NodeDecision]. *)
Record NodeDecision := mkDecision {
  allowed : bool;
  reason : option PlanReason;
  approval_required : bool
}.

(** What awaiting the executor ends with: a shaped result, [NodeIndeterminate], [NodeFailed] or
    any other exception. *)
Inductive exec_outcome : Type :=
| ExecResult (result : list (string * value))
| ExecIndeterminate (detail : string)
| ExecFailed (detail : string)
| ExecRaised (detail : string).

(** What awaiting the reconciler returns: [None], [False] or the effect reference. *)
Inductive reconcile_outcome : Type := RecUnknown | RecAbsent | RecFound (ref : value).

(** What awaiting the compensator ends with. *)
Inductive compensate_outcome : Type := CompVerified (b : bool) | CompIndeterminate | CompRaised.

Record DryRunReport := mkDryRun {
  dry_plan_digest : string;
  dry_order : list string;
  dry_nodes : list value
}.

Record ExecutionReport := mkReport {
  report_status : PlanStatus;
  report_plan_digest : string;
  report_execution_id : string;
  node_statuses : list (string * NodeStatus);
  node_reasons : list (string * value);
  committed_effects : list (string * value);
  compensated_effects : list (string * string * string);
  unknown_effects : list (string * value * string);
  report_external_calls : Z;
  max_observed_inflight : Z;
  report_replay : bool;
  report_dispatch_order : list string
}.

(** [ExecutionReport.__post_init__] *)
Definition report_post_init (r : ExecutionReport) : result exn ExecutionReport :=
  do! raise_if (negb (bool_decide (unknown_effects r = []))
                && negb (bool_decide (report_status r = PlanStatus_INDETERMINATE
                                      \/ report_status r = PlanStatus_DEAD_LETTER)))
        (PlanValidationError PLAN_SCHEMA_INVALID "unknown_effects requires INDETERMINATE") in
  Ok r.

(** ** Node states *)

Definition set_status (s : NodeState) (x : NodeStatus) : NodeState :=
  mkNodeState (node_id s) x (attempt s) (idempotency_key s) (effect_ref s) (node_result s)
    (reason_code s) (state_operation_digest s).

Definition set_reason (s : NodeState) (r : value) : NodeState :=
  mkNodeState (node_id s) (status s) (attempt s) (idempotency_key s) (effect_ref s) (node_result s)
    r (state_operation_digest s).

(** [replace(state, status=x, reason_code=r)] *)
Definition set_outcome (s : NodeState) (x : NodeStatus) (r : string) : NodeState :=
  set_reason (set_status s x) (VStr r).

Definition set_key (s : NodeState) (k : value) : NodeState :=
  mkNodeState (node_id s) (status s) (attempt s) k (effect_ref s) (node_result s)
    (reason_code s) (state_operation_digest s).

Definition set_operation_digest (s : NodeState) (d : string) : NodeState :=
  mkNodeState (node_id s) (status s) (attempt s) (idempotency_key s) (effect_ref s) (node_result s)
    (reason_code s) (VStr d).

Definition set_result (s : NodeState) (v : value) : NodeState :=
  mkNodeState (node_id s) (status s) (attempt s) (idempotency_key s) (effect_ref s) v
    (reason_code s) (state_operation_digest s).

Definition set_effect (s : NodeState) (v : value) : NodeState :=
  mkNodeState (node_id s) (status s) (attempt s) (idempotency_key s) v (node_result s)
    (reason_code s) (state_operation_digest s).

(** [v or ""] *)
Definition or_empty (v : value) : value := if truthy v then v else VStr "".
(** [s or d] on strings *)
Definition or_default (s d : string) : string := if String.eqb s "" then d else s.

Abbreviation states_map := (gmap string NodeState).

Definition count_status (x : NodeStatus) (m : states_map) : nat :=
  length (filter (fun ks => status (snd ks) = x) (map_to_list m)).

Definition any_status (x : NodeStatus) (m : states_map) : bool :=
  negb (Nat.eqb (count_status x m) 0).

(** [plan_status_from] *)
Definition plan_status_from (m : states_map) (aborted : bool) : PlanStatus :=
  if any_status NodeStatus_DEAD_LETTER m then PlanStatus_DEAD_LETTER
  else if any_status NodeStatus_INDETERMINATE m then PlanStatus_INDETERMINATE
  else if aborted then PlanStatus_ABORTED
  else
    let successes := count_status NodeStatus_SUCCESS m in
    if negb (Nat.eqb (size m) 0) && Nat.eqb successes (size m) then PlanStatus_COMPLETED
    else if negb (Nat.eqb successes 0) then PlanStatus_PARTIAL
    else PlanStatus_FAILED.

(** [try: ... except PlanValidationError as exc]: the value, or the caught reason. *)
Definition try_pve {A} (m : result exn A) : result exn (A + PlanReason) :=
  match m with
  | Ok a => Ok (inl a)
  | Err e => match catches_plan_validation e with Some r => Ok (inr r) | None => Err e end
  end.

(** ** Scheduling helpers, over the plan and the states *)

(** [blocked_reason] *)
Fixpoint blocked_reason (m : states_map) (deps : list string) : result exn (option PlanReason) :=
  match deps with
  | [] => Ok None
  | dep :: rest =>
      let! s := get_key m dep in
      match status s with
      | NodeStatus_INDETERMINATE => Ok (Some UPSTREAM_INDETERMINATE)
      | NodeStatus_FAILED | NodeStatus_DENIED | NodeStatus_SKIPPED | NodeStatus_DEAD_LETTER =>
          Ok (Some UPSTREAM_FAILED)
      | _ => blocked_reason m rest
      end
  end.

(** [all(states[dep].status is NodeStatus.SUCCESS for dep in deps)] *)
Fixpoint all_success (m : states_map) (deps : list string) : result exn bool :=
  match deps with
  | [] => Ok true
  | dep :: rest =>
      let! s := get_key m dep in
      if bool_decide (status s = NodeStatus_SUCCESS) then all_success m rest else Ok false
  end.

(** The order of [(plan.ranks[n.id], n.id)]. *)
Definition rank_leb (a b : Z * Node) : bool :=
  (fst a <? fst b) || ((fst a =? fst b) && String.leb (id (snd a)) (id (snd b))).

Fixpoint insert_rank (x : Z * Node) (l : list (Z * Node)) : list (Z * Node) :=
  match l with
  | [] => [x]
  | y :: ys => if rank_leb x y then x :: l else y :: insert_rank x ys
  end.

Section Plan.
Variable vp : ValidatedPlan.

(** [ready_nodes] *)
Definition ready_nodes (m : states_map) : result exn (list Node) :=
  let! ready := rfold (fun acc i =>
      let! s := get_key m i in
      if bool_decide (status s = NodeStatus_PENDING) then
        let! n := plan_node (plan vp) i in
        let! ok := all_success m (depends_on n) in
        Ok (if ok then acc ++ [n] else acc)
      else Ok acc) [] (order vp) in
  let! ranked := rmap (fun n => let! r := get_key (ranks vp) (id n) in Ok (r, n)) ready in
  Ok (map snd (foldr insert_rank [] ranked)).

(** One pass of the [for] loop of [propagate]. *)
Definition propagate_pass (m : states_map) : result exn (states_map * bool) :=
  rfold (fun acc i =>
      let! s := get_key (fst acc) i in
      if bool_decide (status s = NodeStatus_PENDING) then
        let! n := plan_node (plan vp) i in
        let! r := blocked_reason (fst acc) (depends_on n) in
        match r with
        | Some why =>
            Ok (<[i := set_outcome s NodeStatus_SKIPPED (reason_value why)]> (fst acc), true)
        | None => Ok acc
        end
      else Ok acc) (m, false) (order vp).

(** [propagate]: the [while changed] loop. *)
Fixpoint propagate_loop (fuel : nat) (m : states_map) : result exn states_map :=
  match fuel with
  | O => Err Diverged
  | S fuel' =>
      let! r := propagate_pass m in
      if snd r then propagate_loop fuel' (fst r) else Ok (fst r)
  end.

(** Every pass that changes something skips a node, so one pass per node and a last one are
    enough. *)
Definition propagate (m : states_map) : result exn states_map :=
  propagate_loop (S (length (order vp))) m.

(** The step of [for part in binding.source_path]. *)
Fixpoint walk (v : value) (path : list string) : result exn value :=
  match path with
  | [] => Ok v
  | part :: rest =>
      match v with
      | VDict d =>
          match dget part d with
          | Some w => walk w rest
          | None => fail BINDING_RUNTIME_REJECT "path"
          end
      | _ => fail BINDING_RUNTIME_REJECT "path"
      end
  end.
End Plan.

Section Resolve.
Context {C : Type} `{ToolCatalog C} (catalog : C).

(** [_effective_parallelism] *)
Definition effective_parallelism (vp : ValidatedPlan) (engine_ceiling : Z) : Z :=
  let b := budget (plan vp) in
  Z.max 1 (foldl Z.min (max_parallelism b)
             (Z.max 1 engine_ceiling :: map snd (per_provider_limits b)
              ++ map snd (per_credential_limits b))).

(** The contract of a [TOOL] node. *)
Definition node_contract (n : Node) : option ToolContract :=
  match kind n with
  | NodeKind_TOOL => contract catalog (str_of (tool n))
  | NodeKind_TRANSFORM => None
  end.

(** The body of the loop of [_resolve_args]. *)
Definition resolve_binding (n : Node) (m : states_map) (acc : list (string * value))
  (tb : string * Binding) : result exn (list (string * value)) :=
  let '(target, b) := tb in
  let slot := slot_of target in
  match m !! source_node b with
  | None => fail BINDING_RUNTIME_REJECT "source not ready"
  | Some src =>
      do! raise_if (negb (bool_decide (status src = NodeStatus_SUCCESS)))
            (PlanValidationError BINDING_RUNTIME_REJECT "source not ready") in
      let! v := walk (node_result src) (source_path b) in
      let is_resource := match node_contract n with
                         | Some c => bool_decide (resource_arg c = Some slot)
                         | None => false
                         end in
      let! w := revalidate_bound_value catalog v (binding_type b) (max_bytes b) is_resource in
      Ok (dset slot w acc)
  end.

(** [_resolve_args] *)
Definition resolve_args (n : Node) (m : states_map) : result exn (list (string * value)) :=
  rfold (resolve_binding n m) (args n) (sort_items (bindings n)).

(** [_resource_key] *)
Definition resource_key (n : Node) (resolved : list (string * value)) : option string :=
  match node_contract n with
  | Some c =>
      match resource_arg c with
      | Some r => match dget r resolved with
                  | Some (VStr v) => Some (provider c +:+ ":" +:+ v)
                  | _ => None
                  end
      | None => None
      end
  | None => None
  end.
End Resolve.

(** ** The engine *)

(** The local variables of [run], with the store and the governance log. *)
Record RunState := mkRunState {
  rs_checkpoint : Checkpoint;
  rs_states : states_map;
  rs_aborted : bool;
  rs_external_calls : Z;
  rs_dispatch_order : list string;
  rs_current : Z;
  rs_max_observed : Z;
  rs_recorded : list (string * NodeState);
  rs_store : Store
}.

Definition set_states (f : states_map -> states_map) (r : RunState) : RunState :=
  mkRunState (rs_checkpoint r) (f (rs_states r)) (rs_aborted r) (rs_external_calls r)
    (rs_dispatch_order r) (rs_current r) (rs_max_observed r) (rs_recorded r) (rs_store r).

Definition set_aborted (r : RunState) : RunState :=
  mkRunState (rs_checkpoint r) (rs_states r) true (rs_external_calls r)
    (rs_dispatch_order r) (rs_current r) (rs_max_observed r) (rs_recorded r) (rs_store r).

Definition set_checkpoint (c : Checkpoint) (r : RunState) : RunState :=
  mkRunState c (rs_states r) (rs_aborted r) (rs_external_calls r)
    (rs_dispatch_order r) (rs_current r) (rs_max_observed r) (rs_recorded r) (rs_store r).

Definition set_store (s : Store) (r : RunState) : RunState :=
  mkRunState (rs_checkpoint r) (rs_states r) (rs_aborted r) (rs_external_calls r)
    (rs_dispatch_order r) (rs_current r) (rs_max_observed r) (rs_recorded r) s.

(** [self.dispatch_order.append(i); external_calls += 1; meter.enter()] *)
Definition enter_dispatch (i : string) (r : RunState) : RunState :=
  mkRunState (rs_checkpoint r) (rs_states r) (rs_aborted r) (rs_external_calls r + 1)
    (rs_dispatch_order r ++ [i]) (rs_current r + 1) (Z.max (rs_max_observed r) (rs_current r + 1))
    (rs_recorded r) (rs_store r).

(** [meter.leave()] *)
Definition leave_dispatch (r : RunState) : RunState :=
  mkRunState (rs_checkpoint r) (rs_states r) (rs_aborted r) (rs_external_calls r)
    (rs_dispatch_order r) (rs_current r - 1) (rs_max_observed r) (rs_recorded r) (rs_store r).

Definition add_record (i : string) (s : NodeState) (r : RunState) : RunState :=
  mkRunState (rs_checkpoint r) (rs_states r) (rs_aborted r) (rs_external_calls r)
    (rs_dispatch_order r) (rs_current r) (rs_max_observed r) (rs_recorded r ++ [(i, s)])
    (rs_store r).

Definition run_op := st RunState exn.

(** An operation of the store, seen from [run]. *)
Definition on_store {A} (op : store_op A) : run_op A := fun r =>
  let '(res, s) := op (rs_store r) in (res, set_store s r).

(** [states[i]] and [states[i] = f(states[i])] *)
Definition get_state (i : string) : run_op NodeState := fun r => (get_key (rs_states r) i, r).
Definition put_state (i : string) (s : NodeState) : run_op unit := smodify (set_states (<[i := s]>)).
Definition update_state (i : string) (f : NodeState -> NodeState) : run_op unit :=
  let* s := get_state i in put_state i (f s).

(** How far [execute] got: it returned, or it awaits the executor. *)
Inductive started : Type :=
| Returned
| Awaiting (key : value) (resolved : list (string * value)).

(** Where a task of [asyncio.gather] stands: before the semaphore, holding the semaphore and
    waiting for a resource lock, awaiting the executor, or done. *)
Inductive phase : Type :=
| Waiting
| Blocked (resource : string)
| InFlight (resource : option string) (key : value) (resolved : list (string * value))
| Finished.

Record wave := mkWave { w_tasks : list (Node * phase); w_run : RunState }.

(** What the event loop does next: resume a task before its await, or deliver an outcome. *)
Inductive choice : Type :=
| Resume (i : string)
| Deliver (i : string) (o : exec_outcome).

Section Engine.
Variable sha256_hex : string -> string.
Variable repr : value -> string.
Context {C : Type} `{ToolCatalog C} (catalog : C).
(** [NodeGovernance.decide] *)
Variable decide_node : ValidatedPlan -> Node -> list (string * value) -> NodeDecision.
Variable reconciler : option (Node -> value -> reconcile_outcome).
Variable compensator : option (Node -> string -> compensate_outcome).
Variables (enabled : bool) (engine_ceiling : Z) (engine_owner : string).

Definition denial_reason (d : NodeDecision) : string :=
  reason_value (default POLICY_DENIED (reason d)).

(** [_check_approval] *)
Definition check_approval (vp : ValidatedPlan) (now_ms : Z) (e : string) : store_op value :=
  if negb (existsb (fun n => approval_required (decide_node vp n (args n))) (nodes (plan vp)))
  then sret VNone
  else
    match approval (plan vp) with
    | None => slift (fail APPROVAL_MISSING "approval required")
    | Some a =>
        do* slift (raise_if (negb (String.eqb (approval_digest a) (digest vp)))
                     (PlanValidationError APPROVAL_DIGEST_MISMATCH "digest")) in
        do* slift (raise_if (expires_at_ms a <=? now_ms)
                     (PlanValidationError APPROVAL_EXPIRED "expired")) in
        do* slift (raise_if (negb (forallb (fun kr => match snd kr with
                                                     | Some r => str_in r (scope a)
                                                     | None => true
                                                     end) (resource_keys vp)))
                     (PlanValidationError APPROVAL_SCOPE_INSUFFICIENT "scope")) in
        let* won := consume_approval (approval_id a) (nonce a) e in
        do* slift (raise_if (negb won)
                     (PlanValidationError APPROVAL_ALREADY_CONSUMED "nonce")) in
        sret (VStr (approval_id a))
    end.

(** [_assert_operation_covered] *)
Definition assert_operation_covered (vp : ValidatedPlan) (n : Node)
  (resolved : list (string * value)) : result exn unit :=
  match approval (plan vp) with
  | None => fail APPROVAL_MISSING (id n)
  | Some a =>
      let! d := operation_digest sha256_hex (id n) resolved in
      let covered := match resource_key catalog n resolved with
                     | Some k => str_in (default "" (snd (split_once ":" k))) (scope a)
                     | None => false
                     end in
      raise_if (negb (str_in d (operation_digests a) || (runtime_bound a && covered)))
        (PlanValidationError APPROVAL_OPERATION_DIGEST_UNCOVERED (id n))
  end.

(** [admit]; every choice of the caller is an argument *)
Definition admit_execution (vp : ValidatedPlan) (e principal projection policy : string)
  (now_ms expires : Z) (is_replay : bool) : store_op Checkpoint :=
  do* slift (raise_if (negb enabled) DagDisabledError) in
  let* ref := (if is_replay then sret VNone else check_approval vp now_ms e) in
  let c := mkCheckpoint e (digest vp) principal projection policy
             (mkLease engine_owner 1 expires 0) CHECKPOINT_SCHEMA_VERSION ref None
             (list_to_map (map (fun n => (id n, new_state (id n))) (nodes (plan vp)))) ∅
             is_replay in
  do* create sha256_hex c in
  sret c.

(** ** Running *)

Section Run.
Variable vp : ValidatedPlan.
Variable replay_results : option (list (string * value)).
Variable replaying : bool.
Variable fence : Z.

(** [persist] *)
Definition persist : run_op unit :=
  do* smodify (fun r => set_checkpoint
                 (with_states (rs_checkpoint r) (rs_states r) (ck_status (rs_checkpoint r))) r) in
  let* r := sget in
  on_store (save sha256_hex (rs_checkpoint r) fence).

(** [self._governance.record(plan, node, states[node.id])] *)
Definition record (n : Node) : run_op unit :=
  let* s := get_state (id n) in smodify (add_record (id n) s).

Definition is_mutating (n : Node) : bool := str_in (id n) (mutating_nodes vp).

(** The epoch of the node's idempotency key. *)
Definition epoch (n : Node) : Z :=
  match idempotency n with Some i => attempt_epoch i | None => 0 end.

(** The write-ahead of a mutating node: its key and operation digest are durable before the
    executor is called. *)
Definition write_ahead (n : Node) (resolved : list (string * value)) : run_op value :=
  let* k := slift (node_idempotency_key sha256_hex (digest vp) (id n) (epoch n) resolved) in
  let* s := get_state (id n) in
  let* d := slift (operation_digest sha256_hex (id n) resolved) in
  do* put_state (id n)
        (set_operation_digest (set_key (set_status s NodeStatus_DISPATCHED) (VStr k)) d) in
  do* persist in
  sret (VStr k).

(** The end of [execute] before the await: the budget, the write-ahead, the meter. *)
Definition dispatch (n : Node) (resolved : list (string * value)) : run_op started :=
  let* r := sget in
  if max_external_calls (budget (plan vp)) <=? rs_external_calls r then
    do* update_state (id n) (fun s =>
          set_outcome s NodeStatus_SKIPPED (reason_value BUDGET_EXHAUSTED)) in
    sret Returned
  else
    let* k := (if is_mutating n then write_ahead n resolved else sret VNone) in
    do* smodify (enter_dispatch (id n)) in
    sret (Awaiting k resolved).

(** The [TRANSFORM] branch of [execute]. *)
Definition run_transform (n : Node) (resolved : list (string * value)) : run_op started :=
  let* r := slift (try_pve (apply_transform (str_of (op n)) resolved
                              (max_result_bytes (budget (plan vp))))) in
  match r with
  | inr why =>
      do* update_state (id n) (fun s => set_outcome s NodeStatus_FAILED (reason_value why)) in
      sret Returned
  | inl v =>
      do* update_state (id n) (fun s => set_result (set_status s NodeStatus_SUCCESS) v) in
      do* record n in
      sret Returned
  end.

(** The [replaying] branch of [execute]. *)
Definition run_replay (n : Node) : run_op started :=
  match default VNone (dget (id n) (default [] replay_results)) with
  | VNone =>
      do* update_state (id n) (fun s =>
            set_outcome s NodeStatus_FAILED (reason_value BINDING_RUNTIME_REJECT)) in
      sret Returned
  | recorded =>
      do* update_state (id n) (fun s => set_result (set_status s NodeStatus_SUCCESS) recorded) in
      do* record n in
      sret Returned
  end.

(** [execute], up to [await self._executor(...)]. *)
Definition execute_start (n : Node) : run_op started :=
  let* r := sget in
  let* res := slift (try_pve (resolve_args catalog n (rs_states r))) in
  match res with
  | inr why =>
      do* update_state (id n) (fun s => set_outcome s NodeStatus_FAILED (reason_value why)) in
      sret Returned
  | inl resolved =>
      let d := decide_node vp n resolved in
      if negb (allowed d) then
        do* update_state (id n) (fun s => set_outcome s NodeStatus_DENIED (denial_reason d)) in
        do* record n in
        sret Returned
      else
        let* covered := slift (try_pve (if is_mutating n && approval_required d
                                        then assert_operation_covered vp n resolved
                                        else Ok tt)) in
        match covered with
        | inr why =>
            do* update_state (id n) (fun s =>
                  set_outcome s NodeStatus_DENIED (reason_value why)) in
            sret Returned
        | inl _ =>
            match kind n with
            | NodeKind_TRANSFORM => run_transform n resolved
            | NodeKind_TOOL => if replaying then run_replay n else dispatch n resolved
            end
        end
  end.

(** [dict(result)]'s [effect_ref], for a mutating node. *)
Definition result_effect (n : Node) (d : list (string * value)) : value :=
  if is_mutating n then
    match dget "effect_ref" d with Some v => VStr (to_str repr v) | None => VNone end
  else VNone.

(** [execute], from the executor's outcome on. *)
Definition execute_finish (n : Node) (key : value) (o : exec_outcome) : run_op unit :=
  match o with
  | ExecIndeterminate detail =>
      do* smodify leave_dispatch in
      do* update_state (id n) (fun s =>
            set_key (set_outcome s NodeStatus_INDETERMINATE (or_default detail "INDETERMINATE"))
              key) in
      do* persist in
      if bool_decide (on_failure n = OnFailure_DEAD_LETTER) then
        do* update_state (id n) (fun s => set_status s NodeStatus_DEAD_LETTER) in
        persist
      else sret tt
  | ExecFailed detail =>
      do* smodify leave_dispatch in
      do* update_state (id n) (fun s =>
            set_outcome s NodeStatus_FAILED (or_default detail "FAILED")) in
      if (bool_decide (failure_policy (plan vp) = FailurePolicy_FAIL_FAST)
          && negb (bool_decide (on_failure n = OnFailure_ISOLATE_BRANCH)))
         || bool_decide (on_failure n = OnFailure_ABORT_PLAN)
      then smodify set_aborted else sret tt
  | ExecRaised detail => sraise (ExecutorError detail)
  | ExecResult d =>
      do* smodify leave_dispatch in
      do* update_state (id n) (fun s =>
            set_effect (set_result (set_status s NodeStatus_SUCCESS) (VDict d))
              (result_effect n d)) in
      record n
  end.

(** ** One wave: the tasks that [asyncio.gather] runs together *)

Definition phase_of (i : string) (ts : list (Node * phase)) : option (Node * phase) :=
  List.find (fun np => String.eqb (id (fst np)) i) ts.

Definition set_phase (i : string) (p : phase) (ts : list (Node * phase)) :
  list (Node * phase) :=
  map (fun np => if String.eqb (id (fst np)) i then (fst np, p) else np) ts.

(** Tasks inside [async with semaphore]. *)
Definition in_semaphore (p : phase) : bool :=
  match p with Blocked _ | InFlight _ _ _ => true | _ => false end.

Definition slots (ts : list (Node * phase)) : Z :=
  Z.of_nat (length (List.filter (fun np => in_semaphore (snd np)) ts)).

Definition holds (r : string) (p : phase) : bool :=
  match p with InFlight (Some r') _ _ => String.eqb r r' | _ => false end.

(** [resource_locks[r]] is held by a task that awaits the executor. *)
Definition locked (r : string) (ts : list (Node * phase)) : bool :=
  existsb (fun np => holds r (snd np)) ts.

Definition finished (ts : list (Node * phase)) : bool :=
  forallb (fun np => match snd np with Finished => true | _ => false end) ts.

Definition wave_op := st wave exn.

Definition on_run {A} (o : run_op A) : wave_op A := fun w =>
  let '(res, r) := o (w_run w) in (res, mkWave (w_tasks w) r).

Definition move (i : string) (p : phase) : wave_op unit :=
  smodify (fun w => mkWave (set_phase i p (w_tasks w)) (w_run w)).

(** [await execute(node)] up to the executor, under the lock of [res] if any. *)
Definition begin_execute (n : Node) (res : option string) : wave_op unit :=
  let* s := on_run (execute_start n) in
  match s with
  | Returned => move (id n) Finished
  | Awaiting k a => move (id n) (InFlight res k a)
  end.

(** The resource a task of [guarded] locks. *)
Definition guarded_resource (n : Node) (m : states_map) : result exn (option string) :=
  if is_mutating n then
    let! r := try_pve (resolve_args catalog n m) in
    Ok (match r with inl resolved => resource_key catalog n resolved | inr _ => None end)
  else Ok None.

(** One step of [guarded] under the scheduler; a step that is not possible does nothing. *)
Definition wave_step (parallelism : Z) (c : choice) : wave_op unit :=
  let* w := sget in
  match c with
  | Resume i =>
      match phase_of i (w_tasks w) with
      | Some (n, Waiting) =>
          if slots (w_tasks w) <? parallelism then
            let* res := slift (guarded_resource n (rs_states (w_run w))) in
            match res with
            | Some r => if locked r (w_tasks w) then move i (Blocked r)
                        else begin_execute n (Some r)
            | None => begin_execute n None
            end
          else sret tt
      | Some (n, Blocked r) =>
          if locked r (w_tasks w) then sret tt else begin_execute n (Some r)
      | _ => sret tt
      end
  | Deliver i o =>
      match phase_of i (w_tasks w) with
      | Some (n, InFlight _ k _) => do* on_run (execute_finish n k o) in move i Finished
      | _ => sret tt
      end
  end.

(** [asyncio.gather] under a scheduler. *)
Fixpoint run_wave (fuel : nat) (parallelism : Z) (sched : wave -> choice) : wave_op unit :=
  let* w := sget in
  if finished (w_tasks w) then sret tt
  else match fuel with
       | O => sraise Diverged
       | S fuel' =>
           do* wave_step parallelism (sched w) in run_wave fuel' parallelism sched
       end.

(** A task takes at most three steps. *)
Definition gather (parallelism : Z) (sched : wave -> choice) (batch : list Node) :
  run_op unit := fun r =>
  let '(res, w) := run_wave (3 * length batch) parallelism sched
                     (mkWave (map (fun n => (n, Waiting)) batch) r) in
  (res, w_run w).

(** ** The main loop *)

(** The pending nodes of an aborted fail-fast plan are skipped. *)
Definition skip_pending (m : states_map) : result exn states_map :=
  rfold (fun m i =>
           let! s := get_key m i in
           Ok (if bool_decide (status s = NodeStatus_PENDING)
               then <[i := set_outcome s NodeStatus_SKIPPED (reason_value UPSTREAM_ABORT)]> m
               else m)) m (order vp).

Definition lift_states (f : states_map -> result exn states_map) : run_op unit :=
  let* r := sget in
  let* m := slift (f (rs_states r)) in
  smodify (set_states (fun _ => m)).

Definition fail_fast : bool :=
  bool_decide (failure_policy (plan vp) = FailurePolicy_FAIL_FAST).

(** [while True] *)
Fixpoint main_loop (fuel : nat) (parallelism : Z) (sched : wave -> choice) : run_op unit :=
  match fuel with
  | O => sraise Diverged
  | S fuel' =>
      do* lift_states (propagate vp) in
      let* r := sget in
      let* ready := slift (ready_nodes vp (rs_states r)) in
      let batch := if rs_aborted r && fail_fast then [] else ready in
      match batch with
      | [] => sret tt
      | _ =>
          do* gather parallelism sched batch in
          do* persist in
          let* r := sget in
          if rs_aborted r && fail_fast then
            do* lift_states skip_pending in
            persist
          else main_loop fuel' parallelism sched
      end
  end.

(** ** Compensation *)

(** [candidates] *)
Definition compensation_candidates (m : states_map) : result exn (list string) :=
  rfold (fun acc i =>
           let! s := get_key m i in
           if bool_decide (status s = NodeStatus_SUCCESS) && truthy (effect_ref s) then
             let! n := plan_node (plan vp) i in
             Ok (match compensation n with Some _ => acc ++ [i] | None => acc end)
           else Ok acc) [] (rev (order vp)).

(** What the compensator's outcome does to the node's state, and the recorded outcome. *)
Definition compensated_state (o : compensate_outcome) (s : NodeState) : NodeState * string :=
  match o with
  | CompIndeterminate => (set_status s NodeStatus_COMPENSATION_INDETERMINATE, "INDETERMINATE")
  | CompRaised => (set_status s NodeStatus_COMPENSATION_FAILED, "FAILED")
  | CompVerified true => (set_status s NodeStatus_COMPENSATED, "COMPENSATED")
  | CompVerified false =>
      (set_outcome s NodeStatus_COMPENSATION_UNSAFE (reason_value COMPENSATION_UNSAFE), "UNSAFE")
  end.

(** One iteration of the loop of [_compensate]. *)
Definition compensate_node (i : string) : run_op (string * string * string) :=
  let* n := slift (plan_node (plan vp) i) in
  let* s := get_state i in
  let ref := to_str repr (effect_ref s) in
  do* put_state i (set_status s NodeStatus_COMPENSATION_PENDING) in
  let* k := slift (compensation_key sha256_hex (digest vp) i ref) in
  do* update_state i (fun s => set_key s (VStr k)) in
  do* persist in
  match compensator with
  | None =>
      do* update_state i (fun s =>
            set_outcome s NodeStatus_COMPENSATION_UNSAFE (reason_value COMPENSATION_UNSAFE)) in
      do* persist in
      sret (i, ref, "UNSAFE")
  | Some comp =>
      if negb (allowed (decide_node vp n (args n))) then
        do* update_state i (fun s =>
              set_outcome s NodeStatus_COMPENSATION_UNSAFE (reason_value POLICY_DENIED)) in
        do* persist in
        sret (i, ref, "DENIED")
      else
        let o := comp n ref in
        do* update_state i (fun s => fst (compensated_state o s)) in
        do* persist in
        sret (i, ref, snd (compensated_state o (new_state i)))
  end.

Fixpoint compensate_all (candidates : list string) : run_op (list (string * string * string)) :=
  match candidates with
  | [] => sret []
  | i :: rest =>
      let* o := compensate_node i in
      let* os := compensate_all rest in
      sret (o :: os)
  end.

(** [_compensate] *)
Definition compensate : run_op (list (string * string * string)) :=
  let* r := sget in
  let* candidates := slift (compensation_candidates (rs_states r)) in
  match candidates with
  | [] => sret []
  | _ =>
      if bool_decide (plan_status_from (rs_states r) false = PlanStatus_COMPLETED) then sret []
      else compensate_all candidates
  end.

(** ** The report *)

Definition is_unknown (s : NodeState) : bool :=
  bool_decide (status s = NodeStatus_INDETERMINATE \/ status s = NodeStatus_DEAD_LETTER).

Definition committed_of (m : states_map) : list (string * value) :=
  map (fun ks => (fst ks, or_empty (effect_ref (snd ks))))
    (filter (fun ks => status (snd ks) = NodeStatus_SUCCESS /\ truthy (effect_ref (snd ks)) = true)
       (map_items m)).

Definition unknown_of (m : states_map) : result exn (list (string * value * string)) :=
  rmap (fun ks => let! n := plan_node (plan vp) (fst ks) in
                  Ok (fst ks, or_empty (idempotency_key (snd ks)), default "" (tool n)))
    (filter (fun ks => is_unknown (snd ks) = true) (map_items m)).

(** The end of [run], once the loop and the compensation are over. *)
Definition finish_run (compensated : list (string * string * string)) : run_op ExecutionReport :=
  let* r := sget in
  let m := rs_states r in
  let st := plan_status_from m (rs_aborted r && negb (any_status NodeStatus_SUCCESS m)) in
  let* unknown := slift (unknown_of m) in
  do* smodify (fun r => set_checkpoint (with_states (rs_checkpoint r) m (Some st)) r) in
  let* r := sget in
  do* on_store (save sha256_hex (rs_checkpoint r) fence) in
  slift (report_post_init
           (mkReport st (digest vp) (execution_id (rs_checkpoint r))
              (map (fun ks => (fst ks, status (snd ks))) (map_items m))
              (map (fun ks => (fst ks, reason_code (snd ks))) (map_items m))
              (committed_of m) compensated unknown (rs_external_calls r) (rs_max_observed r)
              replaying (rs_dispatch_order r))).
End Run.

(** [states.setdefault(node.id, NodeState(node_id=node.id))] for every node. *)
Definition initial_states (vp : ValidatedPlan) (c : Checkpoint) : states_map :=
  foldl (fun m n => match m !! id n with
                    | Some _ => m
                    | None => <[id n := new_state (id n)]> m
                    end) (node_states c) (nodes (plan vp)).

(** The locals of [run] before its first [persist]. *)
Definition initial_run (vp : ValidatedPlan) (c : Checkpoint) (s : Store) : RunState :=
  mkRunState c (initial_states vp c) false 0 [] 0 0 [] s.

Definition is_replaying (replay_results : option (list (string * value))) (c : Checkpoint) : bool :=
  match replay_results with Some _ => true | None => false end || replay c.

(** [run], from its first [persist] on; at most one wave per node and one last look. *)
Definition run_body (vp : ValidatedPlan) (replay_results : option (list (string * value)))
  (replaying : bool) (fence : Z) (sched : wave -> choice) : run_op ExecutionReport :=
  do* persist fence in
  do* main_loop vp replay_results replaying fence (S (length (nodes (plan vp))))
        (effective_parallelism vp engine_ceiling) sched in
  do* lift_states (propagate vp) in
  do* persist fence in
  let* compensated :=
    (if negb replaying && negb (bool_decide (rollback_policy (plan vp) = RollbackPolicy_NONE))
     then compensate vp fence else sret []) in
  finish_run vp replaying fence compensated.

(** [run] *)
Definition run (vp : ValidatedPlan) (c : Checkpoint)
  (replay_results : option (list (string * value))) (sched : wave -> choice) :
  store_op ExecutionReport := fun s =>
  if negb enabled then (Err DagDisabledError, s)
  else if negb (String.eqb (ck_plan_digest c) (digest vp))
  then (fail PLAN_DIGEST_MISMATCH "checkpoint", s)
  else
    let '(res, r) := run_body vp replay_results (is_replaying replay_results c)
                       (fence_token (lease c)) sched (initial_run vp c s) in
    (res, rs_store r).

(** ** Dry run *)

(** The entry of one node. *)
Definition dry_node (vp : ValidatedPlan) (i : string) : result exn value :=
  let! n := plan_node (plan vp) i in
  let d := decide_node vp n (args n) in
  let! rank := get_key (ranks vp) (id n) in
  let muts := str_in (id n) (mutating_nodes vp) in
  Ok (VDict [("node_id", VStr (id n));
             ("kind", VStr (kind_value (kind n)));
             ("target", VStr (or_default (default "" (tool n)) (default "" (op n))));
             ("wave", VInt rank);
             ("policy_decision", VStr (if allowed d then "ALLOW" else "DENY"));
             ("policy_reason", if allowed d then VNone else VStr (denial_reason d));
             ("approval_required", VBool (approval_required d));
             ("mutating", VBool muts);
             ("resource_key", vopt (default None (dget (id n) (resource_keys vp))));
             ("idempotency_key_shape", if muts then VStr "sha256/hex64" else VNone)]).

(** [dry_run] *)
Definition run_dry (vp : ValidatedPlan) : result exn DryRunReport :=
  do! raise_if (negb enabled) DagDisabledError in
  let! ns := rmap (dry_node vp) (order vp) in
  Ok (mkDryRun (digest vp) (order vp) ns).

(** ** Resume *)

(** Step 6: reconcile a DISPATCHED or INDETERMINATE node. *)
Definition reconcile_state (vp : ValidatedPlan) (m : states_map) (ks : string * NodeState) :
  result exn states_map :=
  let '(i, s) := ks in
  if bool_decide (status s = NodeStatus_DISPATCHED \/ status s = NodeStatus_INDETERMINATE) then
    let! n := plan_node (plan vp) i in
    Ok (match reconciler with
        | None => <[i := set_status s NodeStatus_INDETERMINATE]> m
        | Some rec =>
            match rec n (or_empty (idempotency_key s)) with
            | RecUnknown => <[i := set_status s NodeStatus_INDETERMINATE]> m
            | RecAbsent => <[i := set_status s NodeStatus_PENDING]> m
            | RecFound v =>
                <[i := set_effect (set_status s NodeStatus_SUCCESS) (VStr (to_str repr v))]> m
            end
        end)
  else Ok m.

Definition RETRYABLE_SKIPS : list string :=
  map reason_value [UPSTREAM_INDETERMINATE; UPSTREAM_FAILED; UPSTREAM_ABORT; BUDGET_EXHAUSTED].

(** Step 5: a node skipped because of an upstream node or the budget is eligible again. *)
Definition retry_state (s : NodeState) : NodeState :=
  if bool_decide (status s = NodeStatus_SKIPPED)
     && match reason_code s with VStr r => str_in r RETRYABLE_SKIPS | _ => false end
  then set_reason (set_status s NodeStatus_PENDING) VNone
  else s.

(** Step 4: a pending node that is now denied is not run. *)
Definition redecide_state (vp : ValidatedPlan) (m : states_map) (ks : string * NodeState) :
  result exn states_map :=
  let '(i, s) := ks in
  if bool_decide (status s = NodeStatus_PENDING) then
    let! n := plan_node (plan vp) i in
    let d := decide_node vp n (args n) in
    Ok (if allowed d then m
        else <[i := set_outcome s NodeStatus_DENIED (denial_reason d)]> m)
  else Ok m.

(** The node states [resume] starts from. *)
Definition resume_states (vp : ValidatedPlan) (m : states_map) : result exn states_map :=
  let! m1 := rfold (reconcile_state vp) m (map_items m) in
  let m2 := retry_state <$> m1 in
  rfold (redecide_state vp) m2 (map_items m2).

(** [resume] *)
Definition resume (vp : ValidatedPlan) (e projection policy : string) (expires : Z)
  (sched : wave -> choice) : store_op ExecutionReport :=
  let* c0 := load sha256_hex repr e in
  do* slift (raise_if (negb (String.eqb (ck_plan_digest c0) (digest vp)))
               (PlanValidationError PLAN_DIGEST_MISMATCH "resume")) in
  let* l := acquire_lease sha256_hex repr e engine_owner expires in
  let* c1 := load sha256_hex repr e in
  let* m := slift (resume_states vp (node_states c1)) in
  let c := mkCheckpoint (execution_id c1) (ck_plan_digest c1) (principal_ref c1) projection policy
             l (ck_schema_version c1) (approval_ref c1) (ck_status c1) m
             (ck_budget_consumed c1) (replay c1) in
  do* save sha256_hex c (fence_token l) in
  run vp c None sched.
End Engine.
