(* ===== verification/DagRun.v ===== *)
(** * The runs of the DAG engine: safety and termination

    Invariants of the waves of [v2/dag_engine.py] under every scheduler and every answer of the
    executor, and what they say about whole runs. *)
From S2P Require Import Prelude.
From S2P Require Import PyValue.
From S2P Require Import Canonical.
From S2P Require Import DagContract.
From S2P Require Import DagDigest.
From S2P Require Import DagTransform.
From S2P Require Import DagValidation.
From S2P Require Import DagOrder.
From S2P Require Import DagAdmission.
From S2P Require Import DagStore.
From S2P Require Import DagDurability.
From S2P Require Import DagEngine.

Section Run.
Variable sha256_hex : string -> string.
Variable repr : value -> string.
Context {C : Type} `{ToolCatalog C} (catalog : C).
Variable decide_node : ValidatedPlan -> Node -> list (string * value) -> NodeDecision.
Variable vp : ValidatedPlan.
Variable replay_results : option (list (string * value)).
Variable replaying : bool.
Variable fence : Z.

Abbreviation execute_start :=
  (execute_start sha256_hex catalog decide_node vp replay_results replaying fence).
Abbreviation execute_finish := (execute_finish sha256_hex repr vp fence).
Abbreviation persist := (persist sha256_hex fence).
Abbreviation write_ahead := (write_ahead sha256_hex vp fence).

(** ** What one step of [execute] does *)

Definition final_status (x : NodeStatus) : Prop :=
  x = NodeStatus_SUCCESS \/ x = NodeStatus_FAILED \/ x = NodeStatus_DENIED
  \/ x = NodeStatus_SKIPPED.

(** Only the state of [i] changed, to [s]; the log of decisions may have grown. *)
Definition changed (i : string) (s : NodeState) (r r' : RunState) : Prop :=
  exists rec, r' = mkRunState (rs_checkpoint r) (<[i := s]> (rs_states r)) (rs_aborted r)
    (rs_external_calls r) (rs_dispatch_order r) (rs_current r) (rs_max_observed r) rec (rs_store r).

Lemma update_state_Ok i f r r' u :
  update_state i f r = (Ok u, r') ->
  exists s, rs_states r !! i = Some s /\ changed i (f s) r r'.
Proof.
  unfold update_state, get_state, put_state, sbind, smodify, get_key.
  destruct (rs_states r !! i) as [s|] eqn:Hs; simpl; [|done]. intros [= _ <-].
  exists s. split; [done|]. by exists (rs_recorded r).
Qed.

Lemma record_Ok n r r' u :
  record n r = (Ok u, r') ->
  exists rec, r' = mkRunState (rs_checkpoint r) (rs_states r) (rs_aborted r)
    (rs_external_calls r) (rs_dispatch_order r) (rs_current r) (rs_max_observed r) rec (rs_store r).
Proof.
  unfold record, get_state, sbind, smodify, get_key.
  destruct (rs_states r !! id n); simpl; [|done]. intros [= _ <-]. by eexists.
Qed.

Lemma changed_record n i s r r1 r' u :
  changed i s r r1 -> record n r1 = (Ok u, r') -> changed i s r r'.
Proof. intros [rec ->] [rec' ->]%record_Ok. by exists rec'. Qed.

(** [persist] succeeds by writing the states of the run under its fence. *)
Lemma persist_Ok r r' u :
  in_transaction (rs_store r) = false -> persist r = (Ok u, r') ->
  let c := with_states (rs_checkpoint r) (rs_states r) (ck_status (rs_checkpoint r)) in
  exists row, writable c /\ checkpoints (rs_store r) !! execution_id c = Some row
  /\ row_fence_token row <= fence
  /\ r' = set_store (set_row (execution_id c) (stored sha256_hex (row_plan_digest row) fence c)
                       (rs_store r)) (set_checkpoint c r).
Proof.
  intros Htx Hp c.
  assert (Hp' : (let '(res, s) := save sha256_hex c fence (rs_store r) in
                 (res, set_store s (set_checkpoint c r))) = (Ok u, r')) by exact Hp.
  clear Hp.
  destruct (save_cases sha256_hex c fence (rs_store r) Htx) as [(e & He & _)|(row & Hw & Hrow & Hf & He)];
    rewrite He in Hp'; [done|]. injection Hp' as _ <-. by exists row.
Qed.

(** Governance allows the node with these arguments, and the plan's approval covers the
    operation when one is required. *)
Definition granted (n : Node) (a : list (string * value)) : Prop :=
  let d := decide_node vp n a in
  allowed d = true
  /\ (is_mutating vp n = true -> approval_required d = true ->
      assert_operation_covered sha256_hex catalog vp n a = Ok tt).

(** [execute] before the await: it settles the node, or awaits the executor. *)
Definition dispatched (n : Node) (k : value) (a : list (string * value)) (r r' : RunState) : Prop :=
  kind n = NodeKind_TOOL /\ replaying = false
  /\ resolve_args catalog n (rs_states r) = Ok a
  /\ granted n a
  /\ rs_external_calls r < max_external_calls (budget (plan vp))
  /\ exists r1, r' = enter_dispatch (id n) r1
     /\ if is_mutating vp n
        then exists key, k = VStr key
             /\ node_idempotency_key sha256_hex (digest vp) (id n) (epoch n) a = Ok key
             /\ write_ahead n a r = (Ok k, r1)
        else k = VNone /\ r1 = r.

Lemma run_transform_Ok n a r s r' :
  run_transform vp n a r = (Ok s, r') ->
  s = Returned /\ exists st st', rs_states r !! id n = Some st
    /\ (final_status (status st') /\ node_id st' = node_id st) /\ changed (id n) st' r r'.
Proof.
  unfold run_transform, final_status. intros Hr.
  apply sbind_Ok in Hr as ([v|why] & r1 & Ht & Hr); unfold slift in Ht; injection Ht as Ht <-.
  - apply sbind_Ok in Hr as ([] & r2 & (st & Hst & Hch)%update_state_Ok & Hr).
    apply sbind_Ok in Hr as ([] & r3 & Hrec & Hr). unfold sret in Hr. injection Hr as <- <-.
    split; [done|]. eexists st, _. split; [done|].
    split; [|by eapply changed_record]. split; [by left|done].
  - apply sbind_Ok in Hr as ([] & r2 & (st & Hst & Hch)%update_state_Ok & Hr).
    unfold sret in Hr. injection Hr as <- <-. split; [done|]. eexists st, _.
    split; [done|]. split; [|done]. split; [right; by left|done].
Qed.

Lemma run_replay_Ok n r s r' :
  run_replay replay_results n r = (Ok s, r') ->
  s = Returned /\ exists st st', rs_states r !! id n = Some st
    /\ (final_status (status st') /\ node_id st' = node_id st) /\ changed (id n) st' r r'.
Proof.
  unfold run_replay, final_status. intros Hr.
  destruct (default VNone (dget (id n) (default [] replay_results)));
    apply sbind_Ok in Hr as ([] & r2 & (st & Hst & Hch)%update_state_Ok & Hr);
    try (apply sbind_Ok in Hr as ([] & r3 & Hrec & Hr)); unfold sret in Hr; injection Hr as <- <-;
    (split; [done|]); eexists st, _; (split; [done|]);
    (split; [|first [eassumption|by eapply changed_record]]); (split; [tauto|done]).
Qed.

Lemma dispatch_Ok n a r s r' :
  dispatch sha256_hex vp fence n a r = (Ok s, r') ->
  (s = Returned /\ exists st st', rs_states r !! id n = Some st
    /\ (final_status (status st') /\ node_id st' = node_id st) /\ changed (id n) st' r r')
  \/ (exists k r1, s = Awaiting k a /\ rs_external_calls r < max_external_calls (budget (plan vp))
      /\ r' = enter_dispatch (id n) r1
      /\ if is_mutating vp n
         then exists key, k = VStr key
              /\ node_idempotency_key sha256_hex (digest vp) (id n) (epoch n) a = Ok key
              /\ write_ahead n a r = (Ok k, r1)
         else k = VNone /\ r1 = r).
Proof.
  unfold dispatch. intros Hr. apply sbind_Ok in Hr as (r0 & r0' & Hg & Hr).
  unfold sget in Hg. injection Hg as <- <-.
  destruct (Z.leb_spec (max_external_calls (budget (plan vp))) (rs_external_calls r)) as [Hle|Hlt].
  - left. apply sbind_Ok in Hr as ([] & r2 & (st & Hst & Hch)%update_state_Ok & Hr).
    unfold sret in Hr. injection Hr as <- <-. split; [done|]. eexists st, _. split; [done|].
    split; [|done]. unfold final_status. simpl. split; [tauto|done].
  - right. apply sbind_Ok in Hr as (k & r1 & Hk & Hr).
    apply sbind_Ok in Hr as ([] & r2 & Hm & Hr). unfold smodify in Hm. injection Hm as <-.
    unfold sret in Hr. injection Hr as <- <-. exists k, r1. split_and!; [done..|].
    destruct (is_mutating vp n).
    + unfold DagEngine.write_ahead in Hk. pose proof Hk as Hk'.
      apply sbind_Ok in Hk as (key & r2 & Hkey & Hk). unfold slift in Hkey. injection Hkey as Hkey <-.
      apply sbind_Ok in Hk as (st & r2 & _ & Hk). apply sbind_Ok in Hk as (d & r3 & _ & Hk).
      apply sbind_Ok in Hk as ([] & r4 & _ & Hk). apply sbind_Ok in Hk as ([] & r5 & _ & Hk).
      unfold sret in Hk. injection Hk as <- <-. by exists key.
    + unfold sret in Hk. by injection Hk as <- <-.
Qed.

Lemma execute_start_Ok n r s r' :
  execute_start n r = (Ok s, r') ->
  (s = Returned /\ exists st st', rs_states r !! id n = Some st
    /\ (final_status (status st') /\ node_id st' = node_id st) /\ changed (id n) st' r r')
  \/ (exists k a, s = Awaiting k a /\ dispatched n k a r r').
Proof.
  unfold DagEngine.execute_start. intros Hr. apply sbind_Ok in Hr as (r0 & r0' & Hg & Hr).
  unfold sget in Hg. injection Hg as <- <-.
  apply sbind_Ok in Hr as ([a|why] & r1 & Ha & Hr); unfold slift in Ha; injection Ha as Ha <-.
  2: { left. apply sbind_Ok in Hr as ([] & r2 & (st & Hst & Hch)%update_state_Ok & Hr).
       unfold sret in Hr. injection Hr as <- <-. split; [done|]. eexists st, _. split; [done|].
       split; [|done]. unfold final_status. simpl. split; [tauto|done]. }
  assert (Hres : resolve_args catalog n (rs_states r) = Ok a).
  { unfold try_pve in Ha. destruct (resolve_args _ _ _) as [a'|e]; [congruence|].
    by destruct (catches_plan_validation e). }
  destruct (allowed (decide_node vp n a)) eqn:Hal; cbn [negb] in Hr.
  2: { left. apply sbind_Ok in Hr as ([] & r2 & (st & Hst & Hch)%update_state_Ok & Hr).
       apply sbind_Ok in Hr as ([] & r3 & Hrec & Hr). unfold sret in Hr. injection Hr as <- <-.
       split; [done|]. eexists st, _. split; [done|]. split; [|by eapply changed_record].
       unfold final_status. simpl. split; [tauto|done]. }
  apply sbind_Ok in Hr as ([[]|why] & r1 & Hc & Hr); unfold slift in Hc; injection Hc as Hc <-.
  2: { left. apply sbind_Ok in Hr as ([] & r2 & (st & Hst & Hch)%update_state_Ok & Hr).
       unfold sret in Hr. injection Hr as <- <-. split; [done|]. eexists st, _. split; [done|].
       split; [|done]. unfold final_status. simpl. split; [tauto|done]. }
  assert (Hg : granted n a).
  { split; [done|]. intros Hm Hap. rewrite Hm, Hap in Hc. unfold try_pve in Hc. cbn [andb] in Hc.
    destruct (assert_operation_covered _ _ _ _ _) as [[]|e]; [done|].
    by destruct (catches_plan_validation e). }
  destruct (kind n) eqn:Hk; [|left; by apply run_transform_Ok in Hr].
  destruct replaying eqn:Hrp; [left; by apply run_replay_Ok in Hr|].
  apply dispatch_Ok in Hr as [?|(k & r1 & -> & Hlt & Hrest)]; [by left|right].
  exists k, a. split; [done|]. split_and!; try done. by exists r1.
Qed.

(** ** What a step does to the store *)

Abbreviation inv := (store_inv sha256_hex).

(** The stored checkpoint of the run, if it was rewritten, carries the states of the run for
    every node but [i]. *)
Definition store_evolves (i : string) (r r' : RunState) : Prop :=
  execution_id (rs_checkpoint r') = execution_id (rs_checkpoint r)
  /\ (rs_store r' = rs_store r
      \/ exists row c, checkpoints (rs_store r') !! execution_id (rs_checkpoint r) = Some row
         /\ records sha256_hex (execution_id (rs_checkpoint r)) row c
         /\ forall j, j <> i -> node_states c !! j = rs_states r !! j).

Lemma store_same i r r' :
  rs_checkpoint r' = rs_checkpoint r -> rs_store r' = rs_store r -> store_evolves i r r'.
Proof. intros Hc Hs. split; [by rewrite Hc|by left]. Qed.

(** The store keeps its invariant and the states are keyed by their node. *)
Definition sane (r : RunState) : Prop :=
  inv (rs_store r) /\ map_Forall (fun k s => node_id s = k) (rs_states r).

Lemma persist_sane r r' u :
  sane r -> persist r = (Ok u, r') ->
  sane r' /\ rs_states r' = rs_states r /\ rs_external_calls r' = rs_external_calls r
  /\ rs_dispatch_order r' = rs_dispatch_order r /\ rs_current r' = rs_current r
  /\ rs_max_observed r' = rs_max_observed r /\ rs_aborted r' = rs_aborted r
  /\ execution_id (rs_checkpoint r') = execution_id (rs_checkpoint r)
  /\ approvals (rs_store r') = approvals (rs_store r)
  /\ exists row c, checkpoints (rs_store r') !! execution_id (rs_checkpoint r) = Some row
     /\ records sha256_hex (execution_id (rs_checkpoint r)) row c
     /\ node_states c = rs_states r.
Proof.
  intros [Hinv Hkey] Hp. apply persist_Ok in Hp as (row & Hw & Hrow & Hf & ->); [|apply Hinv].
  set (c := with_states (rs_checkpoint r) (rs_states r) (ck_status (rs_checkpoint r))) in *.
  assert (Hwf : wf_checkpoint c) by exact Hkey.
  pose proof (stored_records sha256_hex (row_plan_digest row) fence c Hwf Hw) as Hrec.
  pose proof (set_row_inv sha256_hex _ _ c (rs_store r) Hinv Hrec) as [_ Hinv'].
  split; [by split; [split; [apply Hinv|]|]|]. split_and!; try done.
  exists (stored sha256_hex (row_plan_digest row) fence c), c. split_and!; [|done|done].
  simpl. by rewrite lookup_insert, decide_True.
Qed.

Lemma write_ahead_Ok n a r k r1 :
  sane r -> write_ahead n a r = (Ok k, r1) ->
  exists st st', rs_states r !! id n = Some st /\ rs_states r1 = <[id n := st']> (rs_states r)
  /\ status st' = NodeStatus_DISPATCHED /\ idempotency_key st' = k
  /\ sane r1 /\ rs_external_calls r1 = rs_external_calls r
  /\ rs_dispatch_order r1 = rs_dispatch_order r /\ rs_current r1 = rs_current r
  /\ rs_max_observed r1 = rs_max_observed r /\ rs_aborted r1 = rs_aborted r
  /\ execution_id (rs_checkpoint r1) = execution_id (rs_checkpoint r)
  /\ approvals (rs_store r1) = approvals (rs_store r)
  /\ exists row c, checkpoints (rs_store r1) !! execution_id (rs_checkpoint r) = Some row
     /\ records sha256_hex (execution_id (rs_checkpoint r)) row c
     /\ node_states c = rs_states r1.
Proof.
  intros [Hinv Hkey] Hk. unfold DagEngine.write_ahead in Hk.
  apply sbind_Ok in Hk as (key & r2 & Hkk & Hk). unfold slift in Hkk. injection Hkk as _ <-.
  apply sbind_Ok in Hk as (st & r2 & Hst & Hk). unfold get_state in Hst.
  injection Hst as Hst%get_key_Ok <-.
  apply sbind_Ok in Hk as (d & r3 & Hd & Hk). unfold slift in Hd. injection Hd as _ <-.
  apply sbind_Ok in Hk as ([] & r4 & Hput & Hk). unfold put_state, smodify in Hput.
  injection Hput as <-. apply sbind_Ok in Hk as ([] & r5 & Hp & Hk).
  unfold sret in Hk. injection Hk as <- <-.
  set (st' := set_operation_digest _ d) in *. exists st, st'. split; [done|].
  apply persist_sane in Hp as (Hs & Hst' & H1 & H2 & H3 & H4 & H5 & H6 & H7 & row & c & Hrow & Hrec & Hc).
  - rewrite Hst'. split_and!; try done. by exists row, c.
  - split; [done|]. simpl. apply map_Forall_insert_2; [|done]. simpl. by apply Hkey.
Qed.

Lemma changed_sane i s r r' st :
  sane r -> rs_states r !! i = Some st -> node_id s = node_id st -> changed i s r r' -> sane r'.
Proof.
  intros [Hinv Hkey] Hst Hid [rec ->]. split; [done|]. simpl.
  apply map_Forall_insert_2; [|done]. rewrite Hid. by apply Hkey.
Qed.

(** [execute] after the await settles the node. *)
Lemma execute_finish_Ok n k o r r' u :
  sane r -> execute_finish n k o r = (Ok u, r') ->
  exists st st', rs_states r !! id n = Some st /\ rs_states r' = <[id n := st']> (rs_states r)
  /\ terminal_node_status (status st') = true
  /\ sane r' /\ rs_external_calls r' = rs_external_calls r
  /\ rs_dispatch_order r' = rs_dispatch_order r /\ rs_current r' = rs_current r - 1
  /\ rs_max_observed r' = rs_max_observed r /\ store_evolves (id n) r r'
  /\ approvals (rs_store r') = approvals (rs_store r).
Proof.
  intros Hsane Hr. destruct o as [d|detail|detail|detail]; simpl in Hr; [..|done].
  - apply sbind_Ok in Hr as ([] & r1 & Hl & Hr). unfold smodify in Hl. injection Hl as <-.
    apply sbind_Ok in Hr as ([] & r2 & (st & Hst & Hch)%update_state_Ok & Hr).
    apply (changed_record _ _ _ _ _ _ _ Hch) in Hr. pose proof Hr as [rec ->].
    eexists st, _. split_and!; try done; [|by apply store_same].
    eapply (changed_sane (id n)); [|exact Hst| |exact Hr]; [exact Hsane|done].
  - apply sbind_Ok in Hr as ([] & r1 & Hl & Hr). unfold smodify in Hl. injection Hl as <-.
    apply sbind_Ok in Hr as ([] & r2 & (st & Hst & Hch)%update_state_Ok & Hr).
    assert (Hs2 : sane r2) by (eapply (changed_sane (id n)); [|exact Hst| |exact Hch]; done).
    destruct Hch as [rec ->]. apply sbind_Ok in Hr as ([] & r3 & Hp & Hr).
    apply (persist_sane _ _ _ Hs2) in Hp
      as (Hs3 & H0 & H1 & H2 & H3 & H4 & _ & H6 & H7 & row & c & Hrow & Hrec & Hc); simpl in *.
    destruct (bool_decide (on_failure n = OnFailure_DEAD_LETTER)).
    + apply sbind_Ok in Hr as ([] & r4 & (st4 & Hst4 & Hch4)%update_state_Ok & Hr).
      assert (Hs4 : sane r4) by (eapply (changed_sane (id n)); [|exact Hst4| |exact Hch4]; done).
      destruct Hch4 as [rec4 ->].
      apply (persist_sane _ _ _ Hs4) in Hr
        as (Hs5 & H0' & H1' & H2' & H3' & H4' & _ & H6' & H7' & row' & c' & Hrow' & Hrec' & Hc');
        simpl in *.
      exists st, (set_status st4 NodeStatus_DEAD_LETTER). rewrite H0', H0, insert_insert.
      rewrite decide_True by done. split_and!; try done; try congruence.
      split; [congruence|]. right. exists row', c'. rewrite H6 in *. split_and!; try done.
      intros j Hj. rewrite Hc', H0. by rewrite !lookup_insert_ne by done.
    + unfold sret in Hr. injection Hr as _ <-.
      eexists st, _. rewrite H0. split_and!; try done.
      split; [done|]. right. exists row, c. split_and!; try done.
      intros j Hj. rewrite Hc. by rewrite lookup_insert_ne by done.
  - apply sbind_Ok in Hr as ([] & r1 & Hl & Hr). unfold smodify in Hl. injection Hl as <-.
    apply sbind_Ok in Hr as ([] & r2 & (st & Hst & Hch)%update_state_Ok & Hr).
    assert (Hs2 : sane r2) by (eapply (changed_sane (id n)); [|exact Hst| |exact Hch]; done).
    destruct Hch as [rec ->]. eexists st, _. split; [done|].
    destruct (_ || _) in Hr; unfold sret, smodify in Hr; injection Hr as _ <-;
      (split_and!; try done; by apply store_same).
Qed.
End Run.
