(* ===== verification/DagWave.v ===== *)
(** * Waves of the DAG engine under every schedule

    The tasks [asyncio.gather] runs together in [DagEngine.run] ([v2/dag_engine.py]), interleaved
    at the executor's await, the semaphore and the resource locks.  [wave_inv] holds of every
    wave any sequence of choices reaches, whatever the executor answers. *)
From S2P Require Import Prelude.
From S2P Require Import PyValue.
From S2P Require Import Canonical.
From S2P Require Import DagContract.
From S2P Require Import DagDigest.
From S2P Require Import DagTransform.
From S2P Require Import DagValidation.
From S2P Require Import DagOrder.
From S2P Require Import DagAdmission.
From S2P Require Import DagStore.
From S2P Require Import DagDurability.
From S2P Require Import DagEngine.
From S2P Require Import DagRun.

(** ** Counting tasks *)

Definition count_tasks (f : phase -> bool) (ts : list (Node * phase)) : Z :=
  Z.of_nat (length (List.filter (fun np => f (snd np)) ts)).

Lemma count_replace f l1 n p q l2 :
  count_tasks f (l1 ++ (n, q) :: l2)
  = count_tasks f (l1 ++ (n, p) :: l2) - Z.b2z (f p) + Z.b2z (f q).
Proof.
  unfold count_tasks. rewrite !List.filter_app, !length_app. simpl.
  destruct (f p), (f q); simpl; lia.
Qed.

Lemma count_nonneg f ts : 0 <= count_tasks f ts.
Proof. unfold count_tasks. lia. Qed.

Lemma count_le f g ts : (forall p, f p = true -> g p = true) -> count_tasks f ts <= count_tasks g ts.
Proof.
  intros Hfg. unfold count_tasks. induction ts as [|[n p] ts IH]; simpl; [lia|].
  destruct (f p) eqn:Hf, (g p) eqn:Hg; simpl; try lia. rewrite Hfg in Hg by done. done.
Qed.

Lemma count_pos f l1 n p l2 : f p = true -> 1 <= count_tasks f (l1 ++ (n, p) :: l2).
Proof.
  intros Hf. unfold count_tasks. rewrite List.filter_app, length_app. simpl. rewrite Hf. simpl. lia.
Qed.

Definition in_flight (p : phase) : bool := match p with InFlight _ _ _ => true | _ => false end.

Definition task_ids (ts : list (Node * phase)) : list string := map (fun np => id (fst np)) ts.

Lemma phase_of_split i ts n p :
  NoDup (task_ids ts) -> phase_of i ts = Some (n, p) ->
  exists l1 l2, ts = l1 ++ (n, p) :: l2 /\ id n = i
  /\ forall q, set_phase i q ts = l1 ++ (n, q) :: l2.
Proof.
  induction ts as [|[m q] ts IH]; intros Hnd Hp; [done|].
  unfold task_ids in Hnd. simpl in Hnd. apply NoDup_cons in Hnd as [Hm Hnd].
  unfold phase_of in Hp. cbn [List.find fst] in Hp.
  assert (Hkeep : forall j, j ∉ task_ids ts -> forall q, set_phase j q ts = ts).
  { clear. intros j. induction ts as [|[m p] ts IH]; intros Hj q; [done|].
    unfold task_ids in Hj. simpl in Hj. apply not_elem_of_cons in Hj as [Hne Hj].
    simpl. destruct (String.eqb_spec (id m) j); [congruence|]. f_equal. by apply IH. }
  destruct (String.eqb_spec (id m) i) as [Hi|Hi].
  - injection Hp as <- <-. exists [], ts. split_and!; [done..|]. intros q'. simpl.
    rewrite Hi, String.eqb_refl. f_equal. apply Hkeep. by rewrite <- Hi.
  - destruct (IH Hnd Hp) as (l1 & l2 & -> & Hid & Hset). exists ((m, q) :: l1), l2.
    split_and!; [done..|]. intros q'. simpl. destruct (String.eqb_spec (id m) i); [done|].
    f_equal. apply Hset.
Qed.

(** What the rest of the development needs to know of a validated plan. *)
Record wf_plan (vp : ValidatedPlan) : Prop := {
  wp_ids : NoDup (node_ids (plan vp));
  wp_order : order vp ≡ₚ node_ids (plan vp);
  wp_deps : forall n d, n ∈ nodes (plan vp) -> d ∈ depends_on n -> d ∈ node_ids (plan vp);
  wp_ranks : forall n, n ∈ nodes (plan vp) -> is_Some (ranks vp !! id n);
  wp_sources : forall n t b, n ∈ nodes (plan vp) -> (t, b) ∈ bindings n ->
    source_node b ∈ depends_on n;
  wp_before : forall n l1 l2, n ∈ nodes (plan vp) -> order vp = l1 ++ id n :: l2 ->
    forall d, d ∈ depends_on n -> d ∈ l1
}.

Section Wave.
Variable sha256_hex : string -> string.
Variable repr : value -> string.
Context {C : Type} `{ToolCatalog C} (catalog : C).
Variable decide_node : ValidatedPlan -> Node -> list (string * value) -> NodeDecision.
Variable vp : ValidatedPlan.
Variable replay_results : option (list (string * value)).
Variable replaying : bool.
Variable fence : Z.
Variable parallelism : Z.
Hypothesis plan_wf : wf_plan vp.

Abbreviation execute_start :=
  (execute_start sha256_hex catalog decide_node vp replay_results replaying fence).
Abbreviation execute_finish := (execute_finish sha256_hex repr vp fence).
Abbreviation wave_step :=
  (wave_step sha256_hex repr catalog decide_node vp replay_results replaying fence parallelism).
Abbreviation sane := (sane sha256_hex).
Abbreviation granted := (granted sha256_hex catalog decide_node vp).
Abbreviation store_evolves := (store_evolves sha256_hex).

(** ** The steps *)

Inductive task_step (w : wave) : wave -> Prop :=
| step_block l1 n l2 x :
    w_tasks w = l1 ++ (n, Waiting) :: l2 -> slots (w_tasks w) < parallelism ->
    guarded_resource catalog vp n (rs_states (w_run w)) = Ok (Some x) ->
    task_step w (mkWave (l1 ++ (n, Blocked x) :: l2) (w_run w))
| step_start l1 n p l2 res s r' :
    w_tasks w = l1 ++ (n, p) :: l2 ->
    (p = Waiting /\ slots (w_tasks w) < parallelism
       /\ guarded_resource catalog vp n (rs_states (w_run w)) = Ok res
     \/ exists x, p = Blocked x /\ res = Some x) ->
    (forall x, res = Some x -> locked x (w_tasks w) = false) ->
    execute_start n (w_run w) = (Ok s, r') ->
    task_step w (mkWave (l1 ++ (n, match s with
                                   | Returned => Finished
                                   | Awaiting k a => InFlight res k a
                                   end) :: l2) r')
| step_deliver l1 n res k a l2 o r' :
    w_tasks w = l1 ++ (n, InFlight res k a) :: l2 ->
    execute_finish n k o (w_run w) = (Ok tt, r') ->
    task_step w (mkWave (l1 ++ (n, Finished) :: l2) r').

Lemma begin_execute_Ok n res w w' u :
  begin_execute sha256_hex catalog decide_node vp replay_results replaying fence n res w = (Ok u, w') ->
  exists s r', execute_start n (w_run w) = (Ok s, r')
  /\ w' = mkWave (set_phase (id n) (match s with
                                    | Returned => Finished
                                    | Awaiting k a => InFlight res k a
                                    end) (w_tasks w)) r'.
Proof.
  unfold begin_execute. intros Hb. apply sbind_Ok in Hb as (s & w1 & Hs & Hb).
  unfold on_run in Hs. destruct (execute_start n (w_run w)) as [r r'] eqn:He.
  injection Hs as -> <-. exists s, r'. split; [done|].
  destruct s; unfold move, smodify in Hb; by injection Hb as _ <-.
Qed.

(** The choice is possible in the wave. *)
Definition enabled_choice (c : choice) (w : wave) : bool :=
  match c with
  | Resume i =>
      match phase_of i (w_tasks w) with
      | Some (_, Waiting) => slots (w_tasks w) <? parallelism
      | Some (_, Blocked x) => negb (locked x (w_tasks w))
      | _ => false
      end
  | Deliver i _ => match phase_of i (w_tasks w) with
                   | Some (_, InFlight _ _ _) => true
                   | _ => false
                   end
  end.

(** A step of the event loop that is not possible does nothing; any other is one of the
    three. *)
Lemma wave_step_Ok c w w' u :
  NoDup (task_ids (w_tasks w)) -> wave_step c w = (Ok u, w') ->
  (w' = w /\ enabled_choice c w = false) \/ task_step w w'.
Proof.
  intros Hnd Hw. unfold DagEngine.wave_step in Hw. apply sbind_Ok in Hw as (w0 & w0' & Hg & Hw).
  unfold sget in Hg. injection Hg as <- <-. unfold enabled_choice. destruct c as [i|i o].
  - destruct (phase_of i (w_tasks w)) as [[n [|x|res k a|]]|] eqn:Hp;
      try (unfold sret in Hw; injection Hw as _ <-; by left).
    + apply (phase_of_split i) in Hp as (l1 & l2 & Hts & <- & Hset); [|done].
      destruct (Z.ltb_spec (slots (w_tasks w)) parallelism) as [Hlt|];
        [|unfold sret in Hw; injection Hw as _ <-; by left].
      apply sbind_Ok in Hw as (res & w1 & Hres & Hw). unfold slift in Hres.
      injection Hres as Hres <-. right. destruct res as [x|].
      * destruct (locked x (w_tasks w)) eqn:Hl.
        -- unfold move, smodify in Hw. injection Hw as _ <-. rewrite Hset. by apply step_block.
        -- apply begin_execute_Ok in Hw as (s & r' & He & ->). rewrite Hset.
           eapply step_start; [done|left; by rewrite Hres| |done]. by intros y [= <-].
      * apply begin_execute_Ok in Hw as (s & r' & He & ->). rewrite Hset.
        by eapply step_start; [|left| |].
    + apply (phase_of_split i) in Hp as (l1 & l2 & Hts & <- & Hset); [|done].
      destruct (locked x (w_tasks w)) eqn:Hl; [unfold sret in Hw; injection Hw as _ <-; by left|].
      right. apply begin_execute_Ok in Hw as (s & r' & He & ->). rewrite Hset.
      eapply step_start; [done|right; by exists x| |done]. by intros y [= <-].
  - destruct (phase_of i (w_tasks w)) as [[n [|x|res k a|]]|] eqn:Hp;
      try (unfold sret in Hw; injection Hw as _ <-; by left).
    apply (phase_of_split i) in Hp as (l1 & l2 & Hts & <- & Hset); [|done].
    apply sbind_Ok in Hw as ([] & w1 & Ho & Hw). unfold on_run in Ho.
    destruct (execute_finish n k o (w_run w)) as [r r'] eqn:He. injection Ho as -> <-.
    unfold move, smodify in Hw. injection Hw as _ <-. cbn [w_tasks w_run]. rewrite Hset.
    right. by eapply step_deliver.
Qed.

(** ** The invariant *)

Definition deps_ok (m : states_map) (n : Node) : Prop :=
  forall d, d ∈ depends_on n -> exists st, m !! d = Some st /\ status st = NodeStatus_SUCCESS.

(** The stored checkpoint of the run has state [st] for node [i]. *)
Definition durable (r : RunState) (i : string) (st : NodeState) : Prop :=
  exists row c, checkpoints (rs_store r) !! execution_id (rs_checkpoint r) = Some row
  /\ records sha256_hex (execution_id (rs_checkpoint r)) row c
  /\ node_states c !! i = Some st.

(** A mutating node whose executor is awaited has its idempotency key on disk. *)
Definition written_ahead (r : RunState) (n : Node) (k : value) (a : list (string * value))
  (st : NodeState) : Prop :=
  status st = NodeStatus_DISPATCHED /\ idempotency_key st = k /\ durable r (id n) st
  /\ exists key, k = VStr key
     /\ node_idempotency_key sha256_hex (digest vp) (id n) (epoch n) a = Ok key.

Definition task_ok (r : RunState) (np : Node * phase) : Prop :=
  let '(n, p) := np in
  n ∈ nodes (plan vp) /\ deps_ok (rs_states r) n
  /\ exists st, rs_states r !! id n = Some st
  /\ match p with
     | Waiting => status st = NodeStatus_PENDING /\ id n ∉ rs_dispatch_order r
     | Blocked x => status st = NodeStatus_PENDING /\ id n ∉ rs_dispatch_order r
                    /\ guarded_resource catalog vp n (rs_states r) = Ok (Some x)
     | InFlight res k a =>
         if is_mutating vp n
         then written_ahead r n k a st /\ res = resource_key catalog n a
         else status st = NodeStatus_PENDING
     | Finished => terminal_node_status (status st) = true
     end.

Definition dispatch_ok (r : RunState) (ts : list (Node * phase)) : Prop :=
  NoDup (rs_dispatch_order r)
  /\ forall i, i ∈ rs_dispatch_order r -> exists n a,
       n ∈ nodes (plan vp) /\ id n = i /\ kind n = NodeKind_TOOL /\ replaying = false
       /\ granted n a /\ deps_ok (rs_states r) n
       /\ exists st, rs_states r !! i = Some st
          /\ (status st <> NodeStatus_PENDING \/ exists p, (n, p) ∈ ts /\ in_flight p = true).

Definition call_limit : Z := Z.max 0 (max_external_calls (budget (plan vp))).

Record wave_inv (w : wave) : Prop := {
  wi_nodup : NoDup (task_ids (w_tasks w));
  wi_slots : count_tasks in_semaphore (w_tasks w) <= parallelism;
  wi_locks : forall x, count_tasks (holds x) (w_tasks w) <= 1;
  wi_sane : sane (w_run w);
  wi_calls : rs_external_calls (w_run w) = Z.of_nat (length (rs_dispatch_order (w_run w)))
             /\ rs_external_calls (w_run w) <= call_limit;
  wi_meter : rs_current (w_run w) = count_tasks in_flight (w_tasks w)
             /\ rs_max_observed (w_run w) <= parallelism;
  wi_tasks : Forall (task_ok (w_run w)) (w_tasks w);
  wi_dispatch : dispatch_ok (w_run w) (w_tasks w)
}.

(** ** Stability under a step on another node *)

Record stable (i : string) (r r' : RunState) : Prop := {
  st_states : forall j, j <> i -> rs_states r' !! j = rs_states r !! j;
  st_open : forall st, rs_states r !! i = Some st -> status st <> NodeStatus_SUCCESS;
  st_dispatch : forall j, j <> i -> j ∈ rs_dispatch_order r' <-> j ∈ rs_dispatch_order r;
  st_store : store_evolves i r r'
}.

Lemma deps_ok_stable i r r' n :
  stable i r r' -> deps_ok (rs_states r) n -> deps_ok (rs_states r') n.
Proof.
  intros Hs Hd d Hin. destruct (Hd d Hin) as (st & Hst & Hok). exists st.
  rewrite (st_states _ _ _ Hs); [done|]. intros ->. by eapply (st_open _ _ _ Hs).
Qed.

Lemma durable_stable i r r' j st :
  stable i r r' -> j <> i -> rs_states r !! j = Some st -> durable r j st -> durable r' j st.
Proof.
  intros Hs Hne Hj (row & c & Hrow & Hrec & Hst). destruct (st_store _ _ _ Hs) as [He Hev].
  unfold durable. rewrite He. destruct Hev as [-> |(row' & c' & Hrow' & Hrec' & Hc')].
  - by exists row, c.
  - exists row', c'. split_and!; [done..|]. by rewrite Hc'.
Qed.

Lemma resolve_args_ext n (m m' : states_map) :
  (forall t b, (t, b) ∈ bindings n -> m !! source_node b = m' !! source_node b) ->
  resolve_args catalog n m = resolve_args catalog n m'.
Proof.
  intros Hm. unfold resolve_args. generalize (args n) as acc.
  assert (Hs : forall t b, (t, b) ∈ sort_items (bindings n) -> m !! source_node b = m' !! source_node b).
  { intros t b Hin. apply (Hm t). unfold sort_items in Hin. by rewrite sort_by_perm in Hin. }
  induction (sort_items (bindings n)) as [|[t b] l IH]; intros acc; [done|]. cbn [rfold].
  assert (resolve_binding catalog n m acc (t, b) = resolve_binding catalog n m' acc (t, b)) as ->.
  { unfold resolve_binding. by rewrite (Hs t b) by left. }
  destruct (resolve_binding catalog n m' acc (t, b)); simpl; [|done].
  apply IH. intros t' b' Hin. apply (Hs t'). by right.
Qed.

Lemma resolve_args_stable i r r' n :
  stable i r r' -> n ∈ nodes (plan vp) -> deps_ok (rs_states r) n ->
  resolve_args catalog n (rs_states r') = resolve_args catalog n (rs_states r).
Proof.
  intros Hs Hn Hd. apply resolve_args_ext. intros t b Hin.
  apply (st_states _ _ _ Hs). intros Heq. destruct (Hd (source_node b)) as (st & Hst & Hok).
  - by eapply (wp_sources _ plan_wf).
  - rewrite Heq in Hst. by eapply (st_open _ _ _ Hs).
Qed.

Lemma guarded_resource_stable i r r' n :
  stable i r r' -> n ∈ nodes (plan vp) -> deps_ok (rs_states r) n ->
  guarded_resource catalog vp n (rs_states r') = guarded_resource catalog vp n (rs_states r).
Proof. intros Hs Hn Hd. unfold guarded_resource. by rewrite (resolve_args_stable i r r'). Qed.

Lemma task_ok_stable i r r' n p :
  stable i r r' -> id n <> i -> task_ok r (n, p) -> task_ok r' (n, p).
Proof.
  intros Hs Hne (Hn & Hd & st & Hst & Hp). split; [done|]. split; [by eapply deps_ok_stable|].
  exists st. rewrite (st_states _ _ _ Hs) by done. split; [done|].
  destruct p as [|x|res k a|]; [..|done].
  - by rewrite (st_dispatch _ _ _ Hs).
  - rewrite (st_dispatch _ _ _ Hs) by done. by rewrite (guarded_resource_stable i r r').
  - destruct (is_mutating vp n); [|done]. destruct Hp as [(H1 & H2 & H3 & H4) ?].
    split; [|done]. split_and!; [done|done|by eapply durable_stable|done].
Qed.

Lemma tasks_stable r r' l1 n p q l2 :
  NoDup (task_ids (l1 ++ (n, p) :: l2)) -> stable (id n) r r' ->
  Forall (task_ok r) (l1 ++ (n, p) :: l2) -> task_ok r' (n, q) ->
  Forall (task_ok r') (l1 ++ (n, q) :: l2).
Proof.
  intros Hnd Hs Hall Hq. unfold task_ids in Hnd. rewrite map_app in Hnd. simpl in Hnd.
  apply NoDup_app in Hnd as (_ & H1 & H2). apply NoDup_cons in H2 as [H2 _].
  apply Forall_app in Hall as [Ha Hb]. apply Forall_cons in Hb as [_ Hb].
  apply Forall_app. split; [|constructor; [done|]].
  - rewrite Forall_forall in *. intros [m x] Hin. eapply task_ok_stable; [done| |by apply Ha].
    intros Heq. apply (H1 (id m)); [by apply (list_elem_of_fmap_2 (fun np => id (fst np)) _ (m, x))|].
    rewrite Heq. by left.
  - rewrite Forall_forall in *. intros [m x] Hin. eapply task_ok_stable; [done| |by apply Hb].
    intros Heq. apply H2. rewrite <- Heq.
    by apply (list_elem_of_fmap_2 (fun np => id (fst np)) _ (m, x)).
Qed.

Lemma task_ids_replace l1 n p q l2 :
  task_ids (l1 ++ (n, q) :: l2) = task_ids (l1 ++ (n, p) :: l2).
Proof. unfold task_ids. by rewrite !map_app. Qed.

Lemma NoDup_task l1 n p l2 m q :
  NoDup (task_ids (l1 ++ (n, p) :: l2)) -> (m, q) ∈ l1 ++ (n, p) :: l2 -> id m = id n ->
  m = n /\ q = p.
Proof.
  unfold task_ids. rewrite map_app. simpl. intros Hnd Hin Hid.
  apply NoDup_app in Hnd as (_ & H1 & H2). apply NoDup_cons in H2 as [H2 _].
  apply elem_of_app in Hin as [Hin|[[= -> ->]|Hin]%elem_of_cons]; [|done|]; exfalso.
  - apply (H1 (id m)); [by apply (list_elem_of_fmap_2 (fun np => id (fst np)) _ (m, q))|].
    rewrite Hid. by left.
  - apply H2. rewrite <- Hid. by apply (list_elem_of_fmap_2 (fun np => id (fst np)) _ (m, q)).
Qed.

Lemma dispatch_replace r r' l1 n p q l2 :
  NoDup (task_ids (l1 ++ (n, p) :: l2)) -> stable (id n) r r' -> n ∈ nodes (plan vp) ->
  deps_ok (rs_states r) n -> dispatch_ok r (l1 ++ (n, p) :: l2) ->
  NoDup (rs_dispatch_order r') ->
  (id n ∈ rs_dispatch_order r' ->
     (exists a, kind n = NodeKind_TOOL /\ replaying = false /\ granted n a)
     /\ exists st, rs_states r' !! id n = Some st
        /\ (status st <> NodeStatus_PENDING \/ in_flight q = true)) ->
  dispatch_ok r' (l1 ++ (n, q) :: l2).
Proof.
  intros Hids Hs Hn Hd [_ Hold] Hnd Hnew. split; [done|]. intros i Hi.
  destruct (decide (i = id n)) as [->|Hne].
  - destruct (Hnew Hi) as [(a & ? & ? & ?) (st & Hst & Hor)]. exists n, a.
    split_and!; try done; [by eapply deps_ok_stable|]. exists st. split; [done|].
    destruct Hor as [?|Hf]; [by left|right]. exists q. split; [|done].
    apply elem_of_app. right. by left.
  - rewrite (st_dispatch _ _ _ Hs) in Hi by done.
    destruct (Hold i Hi) as (m & a & Hm & <- & ? & ? & ? & Hdm & st & Hst & Hor). exists m, a.
    split_and!; try done; [by eapply deps_ok_stable|]. exists st.
    rewrite (st_states _ _ _ Hs) by done. split; [done|].
    destruct Hor as [?|(pm & Hin & Hf)]; [by left|right]. exists pm. split; [|done].
    apply elem_of_app in Hin as [?|[[= -> ->]|?]%elem_of_cons]; [..|done|]; apply elem_of_app;
      [by left|right; by right].
Qed.

(** The counts after one task moved from [p] to [q]. *)
Lemma locks_replace l1 n p q l2 :
  (forall x, count_tasks (holds x) (l1 ++ (n, p) :: l2) <= 1) ->
  (forall x, holds x q = true -> count_tasks (holds x) (l1 ++ (n, p) :: l2) = 0) ->
  forall x, count_tasks (holds x) (l1 ++ (n, q) :: l2) <= 1.
Proof.
  intros Hle Hq x. rewrite (count_replace (holds x) l1 n p q l2). specialize (Hle x).
  pose proof (count_nonneg (holds x) (l1 ++ (n, p) :: l2)).
  destruct (holds x q) eqn:Hx; [rewrite Hq by done|]; destruct (holds x p); simpl; lia.
Qed.

Lemma locked_count x ts : locked x ts = false -> count_tasks (holds x) ts = 0.
Proof.
  unfold locked, count_tasks. induction ts as [|[n p] ts IH]; [done|]. simpl.
  intros [-> ?]%orb_false_iff. auto.
Qed.

Lemma not_held q : in_flight q = false -> forall x, holds x q = false.
Proof. by destruct q. Qed.

Lemma stable_refl i r :
  (forall st, rs_states r !! i = Some st -> status st <> NodeStatus_SUCCESS) -> stable i r r.
Proof. intros Ho. split; [done|done|done|by apply store_same]. Qed.

Lemma block_inv w l1 n l2 x :
  wave_inv w -> w_tasks w = l1 ++ (n, Waiting) :: l2 -> slots (w_tasks w) < parallelism ->
  guarded_resource catalog vp n (rs_states (w_run w)) = Ok (Some x) ->
  wave_inv (mkWave (l1 ++ (n, Blocked x) :: l2) (w_run w)).
Proof.
  intros [Hnd Hsl Hlk Hsane Hcalls Hmeter Htasks Hdisp] Hts Hlt Hres.
  assert (Hlt' : count_tasks in_semaphore (w_tasks w) < parallelism) by exact Hlt. clear Hlt.
  rewrite Hts in *.
  pose proof Htasks as Htasks'. apply Forall_app in Htasks' as [_ Ht].
  apply Forall_cons in Ht as [(Hn & Hd & st & Hst & Hp & Hnin) _].
  assert (Hs : stable (id n) (w_run w) (w_run w)).
  { apply stable_refl. rewrite Hst. intros ? [= <-]. by rewrite Hp. }
  split; cbn [w_tasks w_run]; try done.
  - by rewrite (task_ids_replace l1 n Waiting).
  - rewrite (count_replace _ l1 n Waiting (Blocked x)). cbn [Z.b2z in_semaphore in_flight]. lia.
  - eapply locks_replace; [exact Hlk|]. done.
  - destruct Hmeter as [-> ?]. split; [|done]. rewrite (count_replace _ l1 n Waiting (Blocked x)). cbn [Z.b2z in_semaphore in_flight]. lia.
  - eapply tasks_stable; [exact Hnd|exact Hs|exact Htasks|].
    split; [done|]. split; [done|]. by exists st.
  - eapply dispatch_replace; [exact Hnd|exact Hs|done|done|exact Hdisp|apply Hdisp|].
    intros Hin. done.
Qed.

(** [changed] as a step on one open node. *)
Lemma changed_stable n s r r' st :
  rs_states r !! id n = Some st -> status st <> NodeStatus_SUCCESS -> changed (id n) s r r' ->
  stable (id n) r r'.
Proof.
  intros Hst Ho [rec ->]. split; simpl.
  - intros j Hj. by rewrite lookup_insert_ne.
  - rewrite Hst. by intros ? [= <-].
  - done.
  - by apply store_same.
Qed.


Lemma node_unique n m :
  n ∈ nodes (plan vp) -> m ∈ nodes (plan vp) -> id n = id m -> n = m.
Proof.
  intros Hn Hm Hid. pose proof (find_node_NoDup n _ (wp_ids _ plan_wf) Hn) as H1.
  pose proof (find_node_NoDup m _ (wp_ids _ plan_wf) Hm) as H2. rewrite Hid in H1. congruence.
Qed.

Lemma dispatched_granted w n :
  wave_inv w -> n ∈ nodes (plan vp) -> id n ∈ rs_dispatch_order (w_run w) ->
  exists a, kind n = NodeKind_TOOL /\ replaying = false /\ granted n a.
Proof.
  intros Hw Hn Hi. destruct (proj2 (wi_dispatch _ Hw) _ Hi)
    as (m & a & Hm & Hid & ? & ? & ? & _). apply node_unique in Hid as ->; [|done..]. by exists a.
Qed.

(** A task that ends: its node is settled and nothing else changes. *)
Lemma settle_inv w l1 n p l2 r' st' :
  wave_inv w -> w_tasks w = l1 ++ (n, p) :: l2 ->
  stable (id n) (w_run w) r' -> sane r' ->
  rs_external_calls r' = rs_external_calls (w_run w) ->
  rs_dispatch_order r' = rs_dispatch_order (w_run w) ->
  rs_current r' = rs_current (w_run w) - Z.b2z (in_flight p) ->
  rs_max_observed r' = rs_max_observed (w_run w) ->
  rs_states r' !! id n = Some st' -> terminal_node_status (status st') = true ->
  wave_inv (mkWave (l1 ++ (n, Finished) :: l2) r').
Proof.
  intros Hw Hts Hs Hsane' He Hdo Hcur Hmax Hst' Hterm.
  pose proof Hw as [Hnd Hsl Hlk Hsane Hcalls Hmeter Htasks Hdisp]. rewrite Hts in *.
  pose proof Htasks as Htasks'. apply Forall_app in Htasks' as [_ Ht].
  apply Forall_cons in Ht as [(Hn & Hd & st & Hst & Hp) _].
  split; cbn [w_tasks w_run]; try done.
  - by rewrite (task_ids_replace l1 n p).
  - rewrite (count_replace _ l1 n p Finished). cbn [in_semaphore Z.b2z].
    destruct (in_semaphore p); simpl; lia.
  - eapply locks_replace; [exact Hlk|]. done.
  - rewrite He, Hdo. done.
  - rewrite Hcur, Hmax, (count_replace _ l1 n p Finished). cbn [in_flight Z.b2z]. lia.
  - eapply tasks_stable; [exact Hnd|exact Hs|exact Htasks|].
    split; [done|]. split; [by eapply deps_ok_stable|]. by exists st'.
  - eapply dispatch_replace; [exact Hnd|exact Hs|done|done|exact Hdisp| |].
    + rewrite Hdo. apply Hdisp.
    + rewrite Hdo. intros Hi. split; [by eapply dispatched_granted|].
      exists st'. split; [done|]. left. intros Hpe. by rewrite Hpe in Hterm.
Qed.

Lemma deliver_inv w l1 n res k a l2 o r' :
  wave_inv w -> w_tasks w = l1 ++ (n, InFlight res k a) :: l2 ->
  execute_finish n k o (w_run w) = (Ok tt, r') ->
  wave_inv (mkWave (l1 ++ (n, Finished) :: l2) r').
Proof.
  intros Hw Hts Hf. pose proof (wi_tasks _ Hw) as Hall. rewrite Hts in Hall.
  apply Forall_app in Hall as [_ Hall]. apply Forall_cons in Hall as [(Hn & Hd & st & Hst & Hp) _].
  destruct (execute_finish_Ok sha256_hex repr vp fence n k o _ _ _ (wi_sane _ Hw) Hf)
    as (st0 & st' & Hst0 & Hm & Hterm & Hsane & He & Hdo & Hcur & Hmax & Hev & _).
  assert (Hopen : status st <> NodeStatus_SUCCESS).
  { destruct (is_mutating vp n); [destruct Hp as [[-> _] _]|rewrite Hp]; done. }
  eapply (settle_inv w l1 n _ l2 r' st'); try done.
  - split; [|by rewrite Hst; intros ? [= <-]|by rewrite Hdo|done].
    intros j Hj. rewrite Hm. by rewrite lookup_insert_ne.
  - by rewrite Hm, lookup_insert, decide_True.
Qed.

Lemma start_returned_inv w l1 n p l2 st s' r' :
  wave_inv w -> w_tasks w = l1 ++ (n, p) :: l2 -> in_flight p = false ->
  rs_states (w_run w) !! id n = Some st -> status st = NodeStatus_PENDING ->
  final_status (status s') -> node_id s' = node_id st -> changed (id n) s' (w_run w) r' ->
  wave_inv (mkWave (l1 ++ (n, Finished) :: l2) r').
Proof.
  intros Hw Hts Hp Hst Hpend Hfin Hid Hch.
  assert (Hs : stable (id n) (w_run w) r').
  { eapply changed_stable; [exact Hst| |exact Hch]. by rewrite Hpend. }
  assert (Hsane : sane r').
  { eapply changed_sane; [apply (wi_sane _ Hw)|exact Hst|done|exact Hch]. }
  destruct Hch as [rec ->]. eapply (settle_inv w l1 n p l2 _ s'); try done.
  - rewrite Hp. simpl. lia.
  - simpl. by rewrite lookup_insert, decide_True.
  - destruct Hfin as [->|[->|[->| ->]]]; done.
Qed.

(** A node that awaits the executor: what it waited for, and what is on disk. *)
Lemma dispatched_effect n k a r r' st :
  sane r -> rs_states r !! id n = Some st -> status st = NodeStatus_PENDING ->
  id n ∉ rs_dispatch_order r -> n ∈ nodes (plan vp) -> deps_ok (rs_states r) n ->
  dispatched sha256_hex catalog decide_node vp replaying fence n k a r r' ->
  stable (id n) r r' /\ sane r'
  /\ rs_external_calls r' = rs_external_calls r + 1
  /\ rs_dispatch_order r' = rs_dispatch_order r ++ [id n]
  /\ rs_current r' = rs_current r + 1
  /\ rs_max_observed r' = Z.max (rs_max_observed r) (rs_current r + 1)
  /\ exists st', rs_states r' !! id n = Some st'
     /\ if is_mutating vp n then written_ahead r' n k a st' else status st' = NodeStatus_PENDING.
Proof.
  intros Hsane Hst Hp Hnin Hn Hd (_ & _ & _ & _ & _ & r1 & -> & Hwa).
  assert (Hdisp : forall j, j <> id n -> j ∈ rs_dispatch_order r ++ [id n] <-> j ∈ rs_dispatch_order r).
  { intros j Hj. rewrite elem_of_app, list_elem_of_singleton. naive_solver. }
  assert (Hopen : forall st0, rs_states r !! id n = Some st0 -> status st0 <> NodeStatus_SUCCESS).
  { rewrite Hst. intros ? [= <-]. by rewrite Hp. }
  destruct (is_mutating vp n) eqn:Hm.
  - destruct Hwa as (key & -> & Hkey & Hwa).
    apply write_ahead_Ok in Hwa as (st0 & st' & Hst0 & Hst' & Hdis & Hk & Hsane1 & H1 & H2 & H3 & H4
      & _ & H6 & _ & row & c & Hrow & Hrec & Hc); [|done].
    split_and!; simpl; try congruence.
    + split; simpl.
      * intros j Hj. by rewrite Hst', lookup_insert_ne.
      * done.
      * rewrite H2. done.
      * split; [done|]. right. exists row, c. split_and!; [done..|].
        intros j Hj. by rewrite Hc, Hst', lookup_insert_ne.
    + exact Hsane1.
    + exists st'. rewrite Hst', lookup_insert, decide_True by done. split; [done|].
      split; [done|]. split; [done|]. split; [|by exists key].
      exists row, c. unfold enter_dispatch. cbn [rs_store rs_checkpoint]. rewrite H6.
      split; [done|]. split; [done|].
      by rewrite Hc, Hst', lookup_insert, decide_True.
  - destruct Hwa as [-> ->]. split_and!; try done.
    + split; simpl; try done. by apply store_same.
    + by exists st.
Qed.

Lemma start_awaiting_inv w l1 n p l2 st res k a r' :
  wave_inv w -> w_tasks w = l1 ++ (n, p) :: l2 ->
  (p = Waiting /\ slots (w_tasks w) < parallelism \/ exists x, p = Blocked x) ->
  guarded_resource catalog vp n (rs_states (w_run w)) = Ok res ->
  (forall x, res = Some x -> locked x (w_tasks w) = false) ->
  rs_states (w_run w) !! id n = Some st -> status st = NodeStatus_PENDING ->
  id n ∉ rs_dispatch_order (w_run w) ->
  dispatched sha256_hex catalog decide_node vp replaying fence n k a (w_run w) r' ->
  wave_inv (mkWave (l1 ++ (n, InFlight res k a) :: l2) r').
Proof.
  intros Hw Hts Hp Hres Hfree Hst Hpend Hnin Hdis.
  pose proof Hw as [Hnd Hsl Hlk Hsane Hcalls Hmeter Htasks Hdisp].
  pose proof Htasks as Htasks'. rewrite Hts in Htasks'. apply Forall_app in Htasks' as [_ Ht].
  apply Forall_cons in Ht as [(Hn & Hd & _) _].
  destruct (dispatched_effect n k a _ _ st Hsane Hst Hpend Hnin Hn Hd Hdis)
    as (Hs & Hsane' & He & Hdo & Hcur & Hmax & st' & Hst' & Hstat).
  destruct Hdis as (Hkind & Hrep & Hargs & Hgr & Hlt & _).
  assert (Hsl' : count_tasks in_semaphore (l1 ++ (n, InFlight res k a) :: l2) <= parallelism).
  { rewrite (count_replace _ l1 n p). rewrite Hts in Hsl.
    destruct Hp as [[-> Hlt']|[x ->]]; cbn [in_semaphore Z.b2z]; [|lia].
    assert (count_tasks in_semaphore (w_tasks w) < parallelism) by exact Hlt'.
    rewrite Hts in *. lia. }
  assert (Hcount : count_tasks in_flight (l1 ++ (n, InFlight res k a) :: l2)
                   = rs_current (w_run w) + 1).
  { destruct Hmeter as [-> _]. rewrite Hts, (count_replace _ l1 n p (InFlight res k a)).
    destruct Hp as [[-> _]|[x ->]]; simpl; lia. }
  rewrite Hts in *. split; cbn [w_tasks w_run]; try done.
  - by rewrite (task_ids_replace l1 n p).
  - eapply locks_replace; [exact Hlk|]. intros x Hx. apply locked_count.
    destruct res as [y|]; [|done]. apply Hfree. simpl in Hx. bool_prop. by subst.
  - rewrite He, Hdo, length_app. simpl. unfold call_limit in *. lia.
  - rewrite Hcount, Hcur. split; [done|]. rewrite Hmax, <- Hcount.
    pose proof (count_le in_flight in_semaphore (l1 ++ (n, InFlight res k a) :: l2)
      ltac:(by intros [])). lia.
  - eapply tasks_stable; [exact Hnd|exact Hs|exact Htasks|].
    split; [done|]. split; [by eapply deps_ok_stable|]. exists st'. split; [done|].
    destruct (is_mutating vp n) eqn:Hm; [|done]. split; [done|].
    unfold guarded_resource in Hres. rewrite Hm, Hargs in Hres. simpl in Hres. congruence.
  - eapply dispatch_replace; [exact Hnd|exact Hs|done|done|exact Hdisp| |].
    + rewrite Hdo. apply NoDup_app. split; [apply Hdisp|]. split; [|apply NoDup_singleton].
      intros i Hi ->%list_elem_of_singleton. done.
    + intros _. split; [by exists a|]. exists st'. split; [done|]. by right.
Qed.

Lemma task_step_inv w w' :
  wave_inv w ->
  task_step w w' ->
  wave_inv w'.
Proof.
  intros Hw Hstep. destruct Hstep as [l1 n l2 x Hts Hlt Hres|l1 n p l2 res s r' Hts Hp Hfree He
                                      |l1 n res k a l2 o r' Hts Hf].
  - by eapply block_inv.
  - pose proof (wi_tasks _ Hw) as Hall. rewrite Hts in Hall.
    apply Forall_app in Hall as [_ Hall].
    apply Forall_cons in Hall as [(Hn & Hd & st & Hst & Hph) _].
    assert (Hcommon : in_flight p = false /\ status st = NodeStatus_PENDING
      /\ id n ∉ rs_dispatch_order (w_run w)
      /\ guarded_resource catalog vp n (rs_states (w_run w)) = Ok res).
    { destruct Hp as [(-> & _ & Hres)|(x & -> & ->)]; naive_solver. }
    destruct Hcommon as (Hnf & Hpend & Hnin & Hres).
    apply execute_start_Ok in He as [[-> (st0 & s' & Hst0 & [Hfin Hid] & Hch)]|(k & a & -> & Hdis)].
    + rewrite Hst in Hst0. injection Hst0 as <-. by eapply start_returned_inv.
    + eapply start_awaiting_inv; try done.
      destruct Hp as [(-> & ? & _)|(x & -> & _)]; [by left|right; by exists x].
  - by eapply deliver_inv.
Qed.

Lemma wave_step_inv w c w' u : wave_inv w -> wave_step c w = (Ok u, w') -> wave_inv w'.
Proof.
  intros Hw Hs. apply wave_step_Ok in Hs as [[-> _]|Hs]; [done| |apply Hw]. by eapply task_step_inv.
Qed.

(** Every step works on one task, whose node is not yet settled. *)
Lemma task_step_stable w w' :
  wave_inv w -> task_step w w' ->
  exists n p, (n, p) ∈ w_tasks w /\ stable (id n) (w_run w) (w_run w')
  /\ task_ids (w_tasks w') = task_ids (w_tasks w).
Proof.
  intros Hw Hstep. pose proof (wi_tasks _ Hw) as Hall.
  destruct Hstep as [l1 n l2 x Hts Hlt Hres|l1 n p l2 res s r' Hts Hp Hfree He
                     |l1 n res k a l2 o r' Hts Hf]; rewrite Hts in *;
    apply Forall_app in Hall as [_ Hall]; apply Forall_cons in Hall as [(Hn & Hd & st & Hst & Hph) _];
    eexists n, _; (split; [apply elem_of_app; right; by left|]); cbn [w_run w_tasks];
    (split; [|apply task_ids_replace]).
  - apply stable_refl. rewrite Hst. intros ? [= <-]. destruct Hph as [-> _]. done.
  - assert (Hpend : status st = NodeStatus_PENDING /\ id n ∉ rs_dispatch_order (w_run w)).
    { destruct Hp as [(-> & _)|(x & -> & _)]; naive_solver. }
    destruct Hpend as [Hpend Hnin].
    apply execute_start_Ok in He as [[-> (st0 & s' & Hst0 & [Hfin Hid] & Hch)]|(k & a & -> & Hdis)].
    + eapply changed_stable; [exact Hst| |exact Hch]. by rewrite Hpend.
    + eapply dispatched_effect; [apply (wi_sane _ Hw)|exact Hst|exact Hpend|exact Hnin|exact Hn
        |exact Hd|exact Hdis].
  - destruct (execute_finish_Ok sha256_hex repr vp fence n k o _ _ _ (wi_sane _ Hw) Hf)
      as (st0 & st' & Hst0 & Hm & Hterm & Hsane & He & Hdo & Hcur & Hmax & Hev & _).
    split; [|rewrite Hst; intros ? [= <-]|by rewrite Hdo|done].
    + intros j Hj. rewrite Hm. by rewrite lookup_insert_ne.
    + destruct (is_mutating vp n); [destruct Hph as [[-> _] _]|rewrite Hph]; done.
Qed.

(** ** Progress *)

(** How many steps a task still has to take. *)
Definition steps_left (p : phase) : nat :=
  match p with Waiting => 3 | Blocked _ => 2 | InFlight _ _ _ => 1 | Finished => 0 end.

Definition total_steps (ts : list (Node * phase)) : nat :=
  sum_list_with (fun np => steps_left (snd np)) ts.

Lemma total_steps_replace l1 n p q l2 :
  (total_steps (l1 ++ (n, q) :: l2) + steps_left p = total_steps (l1 ++ (n, p) :: l2) + steps_left q)%nat.
Proof. unfold total_steps. rewrite !sum_list_with_app. simpl. lia. Qed.

Lemma task_step_total w w' :
  task_step w w' -> (total_steps (w_tasks w') < total_steps (w_tasks w))%nat.
Proof.
  intros Hstep. destruct Hstep as [l1 n l2 x Hts _ _|l1 n p l2 res s r' Hts Hp _ _|l1 n res k a l2 o r' Hts _];
    rewrite Hts; cbn [w_tasks].
  - pose proof (total_steps_replace l1 n Waiting (Blocked x) l2). simpl in *. lia.
  - pose proof (total_steps_replace l1 n p (match s with
                                            | Returned => Finished
                                            | Awaiting k a => InFlight res k a
                                            end) l2).
    destruct Hp as [(-> & _)|(x & -> & _)], s; simpl in *; lia.
  - pose proof (total_steps_replace l1 n (InFlight res k a) Finished l2). simpl in *. lia.
Qed.
End Wave.
