(* ===== verification/DagTrace.v ===== *)
(** * Traces of a run: what holds between and inside the waves

    [between r0 r]: a run of [DagEngine.run] ([v2/dag_engine.py]) that started in [r0] can be in
    [r] outside of [asyncio.gather]; [in_wave r0 w]: it can be in [w] inside one, after any
    sequence of choices of the event loop and answers of the executor. *)
From S2P Require Import Prelude.
From S2P Require Import PyValue.
From S2P Require Import Canonical.
From S2P Require Import DagContract.
From S2P Require Import DagDigest.
From S2P Require Import DagTransform.
From S2P Require Import DagValidation.
From S2P Require Import DagOrder.
From S2P Require Import DagAdmission.
From S2P Require Import DagStore.
From S2P Require Import DagDurability.
From S2P Require Import DagEngine.
From S2P Require Import DagRun.
From S2P Require Import DagWave.

(** ** Pending nodes only ever become skipped outside of the waves *)

Definition only_skips (m m' : states_map) : Prop :=
  forall i, m' !! i = m !! i
  \/ exists st why, m !! i = Some st /\ status st = NodeStatus_PENDING
     /\ m' !! i = Some (set_outcome st NodeStatus_SKIPPED why).

Lemma only_skips_refl m : only_skips m m.
Proof. intros i. by left. Qed.

Lemma only_skips_trans m1 m2 m3 : only_skips m1 m2 -> only_skips m2 m3 -> only_skips m1 m3.
Proof.
  intros H1 H2 i. destruct (H2 i) as [->|(st & why & Hst & Hp & ->)]; [apply H1|].
  destruct (H1 i) as [<-|(st' & why' & Hst' & Hp' & He)].
  - right. by exists st, why.
  - rewrite Hst in He. injection He as ->. done.
Qed.

Lemma only_skips_insert m i st why :
  m !! i = Some st -> status st = NodeStatus_PENDING ->
  only_skips m (<[i := set_outcome st NodeStatus_SKIPPED why]> m).
Proof.
  intros Hst Hp j. destruct (decide (j = i)) as [->|Hne].
  - right. exists st, why. by rewrite lookup_insert, decide_True.
  - left. by rewrite lookup_insert_ne.
Qed.

Lemma only_skips_keep m m' i st :
  only_skips m m' -> m !! i = Some st -> status st <> NodeStatus_PENDING -> m' !! i = Some st.
Proof. intros Hs Hst Hne. destruct (Hs i) as [->|(st' & why & Hst' & Hp & _)]; [done|congruence]. Qed.

Lemma only_skips_is_Some m m' i : only_skips m m' -> is_Some (m !! i) -> is_Some (m' !! i).
Proof. intros Hs Hi. destruct (Hs i) as [->|(st & why & _ & _ & ->)]; [done|eauto]. Qed.

Lemma only_skips_keyed m m' :
  only_skips m m' -> map_Forall (fun k s => node_id s = k) m ->
  map_Forall (fun k s => node_id s = k) m'.
Proof.
  intros Hs Hk i st Hst. destruct (Hs i) as [He|(st' & why & Hst' & _ & He)]; rewrite He in Hst.
  - by apply Hk.
  - injection Hst as <-. simpl. by apply Hk.
Qed.

Section Skips.
Variable vp : ValidatedPlan.

Lemma propagate_pass_Ok m m' b :
  propagate_pass vp m = Ok (m', b) -> only_skips m m'.
Proof.
  unfold propagate_pass. intros Hp.
  eapply (rfold_inv (fun acc => only_skips m (fst acc)) _ _ (m, false) (m', b));
    [|apply only_skips_refl|exact Hp].
  intros [mi bi] i [ms bs] _ Hm Hstep. simpl in *.
  apply rbind_Ok in Hstep as (st & Hst%get_key_Ok & Hstep).
  destruct (bool_decide_reflect (status st = NodeStatus_PENDING)); [|by injection Hstep as <- _].
  apply rbind_Ok in Hstep as (n & _ & Hstep). apply rbind_Ok in Hstep as ([why|] & _ & Hstep);
    injection Hstep as <- _; [|done].
  eapply only_skips_trans; [exact Hm|]. by apply only_skips_insert.
Qed.

Lemma propagate_loop_Ok fuel m m' : propagate_loop vp fuel m = Ok m' -> only_skips m m'.
Proof.
  revert m. induction fuel as [|fuel IH]; intros m Hp; [done|]. cbn [propagate_loop] in Hp.
  apply rbind_Ok in Hp as ([m1 b] & H1%propagate_pass_Ok & Hp). simpl in Hp. destruct b.
  - eapply only_skips_trans; [done|]. by apply IH.
  - by injection Hp as <-.
Qed.

Lemma propagate_Ok m m' : propagate vp m = Ok m' -> only_skips m m'.
Proof. apply propagate_loop_Ok. Qed.

Lemma skip_pending_Ok m m' : skip_pending vp m = Ok m' -> only_skips m m'.
Proof.
  unfold skip_pending. intros Hp.
  eapply (rfold_inv (only_skips m)); [|apply only_skips_refl|exact Hp].
  intros mi i ms _ Hm Hstep. simpl in *. apply rbind_Ok in Hstep as (st & Hst%get_key_Ok & Hstep).
  injection Hstep as <-. destruct (bool_decide_reflect (status st = NodeStatus_PENDING)); [|done].
  eapply only_skips_trans; [exact Hm|]. by apply only_skips_insert.
Qed.

(** ** Ready nodes *)

Lemma insert_rank_perm x l : insert_rank x l ≡ₚ x :: l.
Proof.
  induction l as [|y l IH]; simpl; [done|]. destruct (rank_leb x y); [done|].
  rewrite IH. apply Permutation_swap.
Qed.

Lemma sort_rank_perm l : foldr insert_rank [] l ≡ₚ l.
Proof. induction l as [|x l IH]; simpl; [done|]. by rewrite insert_rank_perm, IH. Qed.

Lemma find_node_id i ns n : find_node i ns = Some n -> n ∈ ns /\ id n = i.
Proof.
  induction ns as [|m ns IH]; simpl; [done|]. destruct (String.eqb_spec (id m) i) as [He|He].
  - intros [= ->]. split; [by left|done].
  - intros [? ?]%IH. split; [by right|done].
Qed.

Lemma plan_node_Ok p i n : plan_node p i = Ok n -> n ∈ nodes p /\ id n = i.
Proof.
  unfold plan_node. destruct (find_node i (nodes p)) eqn:Hf; [|done]. intros [= ->].
  by apply find_node_id.
Qed.

Lemma all_success_Ok m deps :
  all_success m deps = Ok true ->
  forall d, d ∈ deps -> exists st, m !! d = Some st /\ status st = NodeStatus_SUCCESS.
Proof.
  induction deps as [|x deps IH]; simpl; intros Ha d Hd; [by apply not_elem_of_nil in Hd|].
  apply rbind_Ok in Ha as (st & Hst%get_key_Ok & Ha).
  destruct (bool_decide_reflect (status st = NodeStatus_SUCCESS)); [|done].
  apply elem_of_cons in Hd as [->|Hd]; [by exists st|by apply IH].
Qed.

Definition ready_loop (m : states_map) (acc : list Node) (ids : list string) :
  result exn (list Node) :=
  rfold (fun acc i =>
      let! s := get_key m i in
      if bool_decide (status s = NodeStatus_PENDING) then
        let! n := plan_node (plan vp) i in
        let! ok := all_success m (depends_on n) in
        Ok (if ok then acc ++ [n] else acc)
      else Ok acc) acc ids.

Definition ready_node (m : states_map) (n : Node) : Prop :=
  n ∈ nodes (plan vp) /\ deps_ok m n
  /\ exists st, m !! id n = Some st /\ status st = NodeStatus_PENDING.

Lemma ready_loop_Ok m acc ids out :
  ready_loop m acc ids = Ok out ->
  exists new, out = acc ++ new /\ Forall (ready_node m) new /\ map id new `sublist_of` ids.
Proof.
  revert acc. induction ids as [|i ids IH]; intros acc Hr; cbn [ready_loop rfold] in Hr.
  - injection Hr as <-. exists []. by rewrite app_nil_r.
  - apply rbind_Ok in Hr as (acc' & Hstep & Hr). apply rbind_Ok in Hstep as (st & Hst%get_key_Ok & Hstep).
    destruct (bool_decide_reflect (status st = NodeStatus_PENDING)) as [Hp|Hp].
    + apply rbind_Ok in Hstep as (n & [Hn Hid]%plan_node_Ok & Hstep).
      apply rbind_Ok in Hstep as (ok & Hok & Hstep). injection Hstep as <-.
      apply IH in Hr as (new & -> & Hnew & Hsub). destruct ok.
      * exists (n :: new). rewrite <- app_assoc. split; [done|]. split.
        -- constructor; [|done]. split; [done|]. split; [|rewrite Hid; by exists st].
           intros d. by apply all_success_Ok.
        -- simpl. rewrite Hid. by apply sublist_skip.
      * exists new. split_and!; [done..|]. by apply sublist_cons.
    + injection Hstep as <-. apply IH in Hr as (new & -> & Hnew & Hsub).
      exists new. split_and!; [done..|]. by apply sublist_cons.
Qed.

Lemma ready_nodes_loop m batch :
  ready_nodes vp m = Ok batch -> exists new, ready_loop m [] (order vp) = Ok new /\ batch ≡ₚ new.
Proof.
  unfold ready_nodes. intros Hr. apply rbind_Ok in Hr as (new & Hnew & Hr).
  exists new. split; [exact Hnew|]. apply rbind_Ok in Hr as (ranked & Hk & Hr).
  injection Hr as <-. rewrite (Permutation_map snd (sort_rank_perm ranked)).
  apply rmap_Ok in Hk. clear Hnew. induction Hk as [|n [r n'] ns rs Hn _ IH]; [done|]. simpl.
  apply rbind_Ok in Hn as (k & _ & [= _ <-]). by rewrite IH.
Qed.

Lemma ready_nodes_Ok m batch :
  wf_plan vp -> ready_nodes vp m = Ok batch ->
  NoDup (map id batch) /\ Forall (ready_node m) batch.
Proof.
  intros Hwf (new & Hnew & Hp)%ready_nodes_loop.
  apply ready_loop_Ok in Hnew as (new' & -> & Hall & Hsub). simpl in Hp. rewrite Hp. split; [|done].
  eapply sublist_NoDup; [|exact Hsub].
  rewrite (wp_order _ Hwf). apply Hwf.
Qed.
End Skips.

(** ** Traces *)

Section Trace.
Variable sha256_hex : string -> string.
Variable repr : value -> string.
Context {C : Type} `{ToolCatalog C} (catalog : C).
Variable decide_node : ValidatedPlan -> Node -> list (string * value) -> NodeDecision.
Variable vp : ValidatedPlan.
Variable replay_results : option (list (string * value)).
Variable replaying : bool.
Variable fence : Z.
Variable parallelism : Z.

Abbreviation wave_step :=
  (wave_step sha256_hex repr catalog decide_node vp replay_results replaying fence parallelism).
Abbreviation persist := (persist sha256_hex fence).

(** A sequence of steps of the event loop. *)
Definition run_choices : list choice -> wave_op unit := sfor wave_step.

Definition start_wave (r : RunState) (batch : list Node) : wave :=
  mkWave (map (fun n => (n, Waiting)) batch) r.

Inductive between (r0 : RunState) : RunState -> Prop :=
| between_start r : persist r0 = (Ok tt, r) -> between r0 r
| between_persist r r' : between r0 r -> persist r = (Ok tt, r') -> between r0 r'
| between_skips r m : between r0 r -> only_skips (rs_states r) m ->
    between r0 (set_states (fun _ => m) r)
| between_wave r batch cs w :
    between r0 r -> ready_nodes vp (rs_states r) = Ok batch ->
    run_choices cs (start_wave r batch) = (Ok tt, w) -> finished (w_tasks w) = true ->
    between r0 (w_run w).

Definition in_wave (r0 : RunState) (w : wave) : Prop :=
  exists r batch cs, between r0 r /\ ready_nodes vp (rs_states r) = Ok batch
  /\ run_choices cs (start_wave r batch) = (Ok tt, w).

(** ** The invariant between waves *)

Record idle (r : RunState) : Prop := {
  id_sane : sane sha256_hex r;
  id_calls : rs_external_calls r = Z.of_nat (length (rs_dispatch_order r))
             /\ rs_external_calls r <= call_limit vp;
  id_meter : rs_current r = 0 /\ rs_max_observed r <= parallelism;
  id_dispatch : dispatch_ok sha256_hex catalog decide_node vp replaying r []
}.

Hypothesis plan_wf : wf_plan vp.
Hypothesis some_parallelism : 1 <= parallelism.

Lemma idle_persist r r' u : idle r -> persist r = (Ok u, r') -> idle r'.
Proof.
  intros [Hs Hc Hm Hd] Hp.
  apply (persist_sane _ _ _ _ _ Hs) in Hp as (Hs' & H0 & H1 & H2 & H3 & H4 & _).
  split; [done|by rewrite H1, H2|by rewrite H3, H4|].
  unfold dispatch_ok in *. by rewrite H0, H2.
Qed.

Lemma deps_ok_skips m m' n : only_skips m m' -> deps_ok m n -> deps_ok m' n.
Proof.
  intros Hs Hd d Hin. destruct (Hd d Hin) as (st & Hst & Hok). exists st. split; [|done].
  eapply only_skips_keep; [done..|]. by rewrite Hok.
Qed.

Lemma idle_skips r m : idle r -> only_skips (rs_states r) m -> idle (set_states (fun _ => m) r).
Proof.
  intros [[Hi Hk] Hc Hm Hd] Hs. split; try done.
  - split; [done|]. by eapply only_skips_keyed.
  - destruct Hd as [Hnd Hall]. split; [done|]. intros i Hin.
    destruct (Hall i Hin) as (n & a & ? & ? & ? & ? & ? & Hdeps & st & Hst & Hor).
    exists n, a. split_and!; try done; [by eapply deps_ok_skips|]. exists st.
    destruct Hor as [Hne|(p & Hp & _)]; [|by apply not_elem_of_nil in Hp].
    split; [|by left]. by eapply only_skips_keep.
Qed.

Lemma wave_of_idle r batch :
  idle r -> ready_nodes vp (rs_states r) = Ok batch ->
  wave_inv sha256_hex catalog decide_node vp replaying parallelism (start_wave r batch).
Proof.
  intros [Hs Hc Hm [Hnd Hall]] Hr. apply ready_nodes_Ok in Hr as [Hids Hready]; [|done].
  assert (Hcount : forall f, f Waiting = false ->
            count_tasks f (map (fun n => (n, Waiting)) batch) = 0).
  { intros f Hf. unfold count_tasks. clear -Hf. induction batch as [|n b IH]; [done|]. simpl.
    by rewrite Hf. }
  split; cbn [w_tasks w_run start_wave]; try done.
  - unfold task_ids. rewrite map_map. exact Hids.
  - rewrite Hcount by done. lia.
  - intros x. rewrite Hcount by done. lia.
  - rewrite Hcount by done. done.
  - apply Forall_fmap. eapply Forall_impl; [exact Hready|].
    intros n (Hn & Hd & st & Hst & Hp). split; [done|]. split; [done|]. exists st.
    split; [done|]. split; [done|]. intros Hin.
    destruct (Hall _ Hin) as (m & a & _ & Hid & _ & _ & _ & _ & st' & Hst' & [Hne|(p & Hp' & _)]);
      [|by apply not_elem_of_nil in Hp']. congruence.
  - split; [done|]. intros i Hin. destruct (Hall i Hin) as (n & a & ? & ? & ? & ? & ? & ? & st & Hst & Hor).
    exists n, a. split_and!; try done. exists st. split; [done|].
    destruct Hor as [?|(p & Hp & _)]; [by left|by apply not_elem_of_nil in Hp].
Qed.

Lemma run_choices_inv cs w w' :
  wave_inv sha256_hex catalog decide_node vp replaying parallelism w ->
  run_choices cs w = (Ok tt, w') ->
  wave_inv sha256_hex catalog decide_node vp replaying parallelism w'.
Proof.
  revert w. induction cs as [|c cs IH]; intros w Hw Hc; [by injection Hc as <-|].
  cbn [run_choices sfor] in Hc. apply sbind_Ok in Hc as ([] & w1 & H1 & H2).
  eapply IH; [|exact H2]. by eapply wave_step_inv.
Qed.

Lemma idle_of_wave w :
  wave_inv sha256_hex catalog decide_node vp replaying parallelism w ->
  finished (w_tasks w) = true -> idle (w_run w).
Proof.
  intros [Hnd Hsl Hlk Hsane Hcalls [Hcur Hmax] Htasks [Hdnd Hall]] Hf.
  unfold finished in Hf. rewrite forallb_forall in Hf.
  assert (Hfin : forall n p, (n, p) ∈ w_tasks w -> p = Finished).
  { intros n p Hin%list_elem_of_In%Hf. simpl in Hin. by destruct p. }
  split; [done|done| |].
  - split; [|done]. rewrite Hcur. clear -Hfin. unfold count_tasks.
    induction (w_tasks w) as [|[n p] ts IH]; [done|]. simpl.
    rewrite (Hfin n p) by left. simpl. apply IH. intros. apply (Hfin n0). by right.
  - split; [done|]. intros i Hi.
    destruct (Hall i Hi) as (n & a & ? & ? & ? & ? & ? & ? & st & Hst & Hor).
    exists n, a. split_and!; try done. exists st. split; [done|].
    destruct Hor as [?|(p & Hp & Hfl)]; [by left|]. apply Hfin in Hp as ->. done.
Qed.

(** The conditions on the state a run starts from. *)
Definition fresh (r0 : RunState) : Prop :=
  sane sha256_hex r0 /\ rs_external_calls r0 = 0 /\ rs_dispatch_order r0 = []
  /\ rs_current r0 = 0 /\ rs_max_observed r0 = 0.

Lemma idle_fresh r0 : fresh r0 -> idle r0.
Proof.
  intros (Hs & He & Hd & Hc & Hm). split; [done| | |].
  - rewrite He, Hd. unfold call_limit. simpl. lia.
  - rewrite Hc, Hm. lia.
  - split; rewrite Hd; [constructor|]. by intros i ?%not_elem_of_nil.
Qed.

Lemma between_idle r0 r : fresh r0 -> between r0 r -> idle r.
Proof.
  intros Hf. induction 1 as [r Hp|r r' _ IH Hp|r m _ IH Hs|r batch cs w _ IH Hr Hc Hfin].
  - eapply idle_persist; [by apply idle_fresh|done].
  - by eapply idle_persist.
  - by apply idle_skips.
  - eapply idle_of_wave; [|done]. eapply run_choices_inv; [|done]. by apply wave_of_idle.
Qed.

Lemma in_wave_inv r0 w :
  fresh r0 -> in_wave r0 w ->
  wave_inv sha256_hex catalog decide_node vp replaying parallelism w.
Proof.
  intros Hf (r & batch & cs & Hb & Hr & Hc). eapply run_choices_inv; [|exact Hc].
  apply wave_of_idle; [|done]. by eapply between_idle.
Qed.

(** The execution a run writes is the one it started with. *)
Lemma run_choices_execution cs w w' :
  wave_inv sha256_hex catalog decide_node vp replaying parallelism w ->
  run_choices cs w = (Ok tt, w') ->
  execution_id (rs_checkpoint (w_run w')) = execution_id (rs_checkpoint (w_run w)).
Proof.
  revert w. induction cs as [|c cs IH]; intros w Hw Hc; [by injection Hc as <-|].
  cbn [run_choices sfor] in Hc. apply sbind_Ok in Hc as ([] & w1 & H1 & H2).
  rewrite (IH w1); [|by eapply wave_step_inv|exact H2].
  apply wave_step_Ok in H1 as [[-> _]|H1]; [done| |apply Hw].
  eapply task_step_stable in H1 as (n & p & _ & Hst & _); [|done..].
  apply (st_store _ _ _ _ Hst).
Qed.

Lemma between_execution r0 r :
  fresh r0 -> between r0 r -> execution_id (rs_checkpoint r) = execution_id (rs_checkpoint r0).
Proof.
  intros Hf. induction 1 as [r Hp|r r' Hb IH Hp|r m Hb IH Hs|r batch cs w Hb IH Hr Hc Hfin].
  - apply persist_sane in Hp as (_ & _ & _ & _ & _ & _ & _ & He & _); [done|apply Hf].
  - apply persist_sane in Hp as (_ & _ & _ & _ & _ & _ & _ & He & _); [congruence|].
    by apply (between_idle r0 r).
  - done.
  - rewrite <- IH. apply (run_choices_execution cs (start_wave r batch)); [|done].
    apply wave_of_idle; [|done]. by eapply between_idle.
Qed.
End Trace.
