(* ===== verification/DagProperties.v ===== *)
(** * What a run of the DAG engine guarantees

    The properties of [DagEngine] ([v2/dag_engine.py]) on validated plans: write-ahead, mutual
    exclusion, single dispatch, the call budget, termination, and the outcome of every node. *)
From S2P Require Import Prelude.
From S2P Require Import PyValue.
From S2P Require Import Canonical.
From S2P Require Import DagContract.
From S2P Require Import DagDigest.
From S2P Require Import DagTransform.
From S2P Require Import DagValidation.
From S2P Require Import DagOrder.
From S2P Require Import DagAdmission.
From S2P Require Import DagStore.
From S2P Require Import DagDurability.
From S2P Require Import DagEngine.
From S2P Require Import DagRun.
From S2P Require Import DagWave.
From S2P Require Import DagTrace.

(** ** Validated plans are well formed *)

Lemma validated_bindings {C} `{ToolCatalog C} (catalog : C) sha256_hex p vp n t b :
  validate_plan sha256_hex p catalog = Ok vp -> n ∈ nodes p -> (t, b) ∈ bindings n ->
  source_node b ∈ depends_on n.
Proof.
  intros (_ & _ & _ & _ & _ & _ & Hb & _)%validate_plan_Ok Hn Htb. unfold check_bindings in Hb.
  apply rfor_Ok in Hb. rewrite Forall_forall in Hb. specialize (Hb n Hn).
  apply rfor_Ok in Hb. unfold sort_items in Hb. rewrite sort_by_perm, Forall_forall in Hb.
  by apply (Hb (t, b)), check_binding_Ok in Htb as [? _].
Qed.

Lemma validated_wf {C} `{ToolCatalog C} (catalog : C) sha256_hex nfc p vp :
  constructed nfc p -> validate_plan sha256_hex p catalog = Ok vp -> wf_plan vp.
Proof.
  intros Hcon Hv. pose proof (validated_order_facts catalog sha256_hex nfc p vp Hcon Hv) as [Hp Hbefore].
  pose proof Hv as (Hplan & _ & Hes & Hord & _)%validate_plan_Ok.
  pose proof (declared_well_formed _ _ (constructed_ids _ _ Hcon) Hes) as Hg.
  destruct (topological_order_Ok _ _ _ _ Hg Hord) as (m & Hinv & _).
  apply declared_edges_Ok in Hes as (_ & _ & Hdeps).
  split; rewrite ?Hplan.
  - by eapply constructed_ids.
  - exact Hp.
  - intros n d Hn Hd. by eapply Hdeps.
  - intros n Hn. apply (ki_ranked _ _ _ _ _ _ Hinv). rewrite Hp.
    by apply (list_elem_of_fmap_2 id).
  - intros n t b Hn Hb. by eapply validated_bindings.
  - intros n l1 l2 Hn Heq. by eapply Hbefore.
Qed.

(** ** The start of a run *)

Lemma initial_states_lookup vp c i :
  initial_states vp c !! i
  = match node_states c !! i with
    | Some s => Some s
    | None => if bool_decide (i ∈ node_ids (plan vp)) then Some (new_state i) else None
    end.
Proof.
  unfold initial_states, node_ids. generalize (node_states c) as m.
  induction (nodes (plan vp)) as [|n ns IH]; intros m; cbn [foldl map].
  - rewrite bool_decide_eq_false_2 by apply not_elem_of_nil. by destruct (m !! i).
  - rewrite IH. destruct (m !! id n) as [s|] eqn:Hn.
    + destruct (m !! i) eqn:Hi; [done|].
      rewrite (bool_decide_ext (i ∈ id n :: map id ns) (i ∈ map id ns)); [done|].
      rewrite elem_of_cons. split; [|auto]. intros [->|]; congruence.
    + destruct (decide (i = id n)) as [->|Hne].
      * rewrite lookup_insert, decide_True, Hn by done.
        by rewrite bool_decide_eq_true_2 by left.
      * rewrite lookup_insert_ne by done. destruct (m !! i); [done|].
        rewrite (bool_decide_ext (i ∈ id n :: map id ns) (i ∈ map id ns)); [done|].
        rewrite elem_of_cons. naive_solver.
Qed.

Lemma initial_fresh sha256_hex vp c s :
  store_inv sha256_hex s -> wf_checkpoint c -> fresh sha256_hex (initial_run vp c s).
Proof.
  intros Hs Hwf. split; [|done]. split; [done|]. intros i st Hst.
  simpl in Hst. rewrite initial_states_lookup in Hst.
  destruct (node_states c !! i) as [s'|] eqn:Hi; [injection Hst as <-; by apply Hwf|].
  destruct (bool_decide _); [|done]. by injection Hst as <-.
Qed.

Lemma effective_parallelism_pos vp ceiling : 1 <= effective_parallelism vp ceiling.
Proof. unfold effective_parallelism. lia. Qed.

Section Waves.
Variable sha256_hex : string -> string.
Variable repr : value -> string.
Context {C : Type} `{ToolCatalog C} (catalog : C).
Variable decide_node : ValidatedPlan -> Node -> list (string * value) -> NodeDecision.

Abbreviation in_wave := (in_wave sha256_hex repr catalog decide_node).

(** [C1] Write-ahead: whenever the executor of a mutating node is awaited, in any wave of any
    run, the stored checkpoint already has the node DISPATCHED under the idempotency key of
    its plan, node, epoch and arguments. *)
Theorem write_ahead_before_call vp replay_results replaying fence parallelism c s w n res k a :
  wf_plan vp -> 1 <= parallelism -> store_inv sha256_hex s -> wf_checkpoint c ->
  in_wave vp replay_results replaying fence parallelism (initial_run vp c s) w ->
  (n, InFlight res k a) ∈ w_tasks w -> is_mutating vp n = true ->
  exists st key, k = VStr key
  /\ node_idempotency_key sha256_hex (digest vp) (id n) (epoch n) a = Ok key
  /\ durable sha256_hex (w_run w) (id n) st
  /\ status st = NodeStatus_DISPATCHED /\ idempotency_key st = VStr key.
Proof.
  intros Hwf Hp Hs Hc Hw Hin Hm. eapply in_wave_inv in Hw; [|done|done|by apply initial_fresh].
  pose proof (wi_tasks _ _ _ _ _ _ _ Hw) as Hall. rewrite Forall_forall in Hall.
  destruct (Hall _ Hin) as (_ & _ & st & _ & Ht). rewrite Hm in Ht.
  destruct Ht as [(Hst & Hk & Hd & key & -> & Hkey) _]. by exists st, key.
Qed.

(** [C2] In every wave of every run at most [parallelism] executors are awaited, and two
    mutating nodes on the same resource never at the same time. *)
Theorem waves_exclude vp replay_results replaying fence parallelism c s w :
  wf_plan vp -> 1 <= parallelism -> store_inv sha256_hex s -> wf_checkpoint c ->
  in_wave vp replay_results replaying fence parallelism (initial_run vp c s) w ->
  count_tasks in_flight (w_tasks w) <= parallelism
  /\ forall n1 n2 res1 res2 k1 k2 a1 a2 x,
       (n1, InFlight res1 k1 a1) ∈ w_tasks w -> (n2, InFlight res2 k2 a2) ∈ w_tasks w ->
       is_mutating vp n1 = true -> is_mutating vp n2 = true ->
       resource_key catalog n1 a1 = Some x -> resource_key catalog n2 a2 = Some x -> n1 = n2.
Proof.
  intros Hwf Hp Hs Hc Hw. eapply in_wave_inv in Hw; [|done|done|by apply initial_fresh].
  pose proof (count_le in_flight in_semaphore (w_tasks w) ltac:(by intros [])) as Hle.
  pose proof (wi_slots _ _ _ _ _ _ _ Hw). split; [lia|].
  intros n1 n2 res1 res2 k1 k2 a1 a2 x H1 H2 Hm1 Hm2 Hx1 Hx2.
  pose proof (wi_tasks _ _ _ _ _ _ _ Hw) as Hall. rewrite Forall_forall in Hall.
  destruct (Hall _ H1) as (_ & _ & st1 & _ & Ht1). rewrite Hm1 in Ht1.
  destruct (Hall _ H2) as (_ & _ & st2 & _ & Ht2). rewrite Hm2 in Ht2.
  destruct Ht1 as [_ ->], Ht2 as [_ ->].
  pose proof (wi_locks _ _ _ _ _ _ _ Hw x) as Hlk.
  apply list_elem_of_split in H1 as (l1 & l2 & Hts). rewrite Hts in *.
  assert (Hh1 : holds x (InFlight (resource_key catalog n1 a1) k1 a1) = true)
    by (rewrite Hx1; apply String.eqb_refl).
  assert (Hh2 : holds x (InFlight (resource_key catalog n2 a2) k2 a2) = true)
    by (rewrite Hx2; apply String.eqb_refl).
  apply elem_of_app in H2 as [H2|[[= <- _]|H2]%elem_of_cons]; [|done|]; exfalso;
    apply list_elem_of_split in H2 as (l3 & l4 & ->); revert Hlk; unfold count_tasks;
    rewrite !List.filter_app; cbn [List.filter snd]; rewrite ?List.filter_app;
    cbn [List.filter snd]; rewrite Hh1, Hh2, !length_app; simpl; rewrite ?length_app; simpl; lia.
Qed.
End Waves.

(** ** From traces to runs *)

Section Runs.
Variable sha256_hex : string -> string.
Variable repr : value -> string.
Context {C : Type} `{ToolCatalog C} (catalog : C).
Variable decide_node : ValidatedPlan -> Node -> list (string * value) -> NodeDecision.
Variable vp : ValidatedPlan.
Variable replay_results : option (list (string * value)).
Variable replaying : bool.
Variable fence : Z.
Variable parallelism : Z.
Variable sched : wave -> choice.
Hypothesis plan_wf : wf_plan vp.
Hypothesis some_parallelism : 1 <= parallelism.

Abbreviation run_choices :=
  (run_choices sha256_hex repr catalog decide_node vp replay_results replaying fence parallelism).
Abbreviation run_wave :=
  (run_wave sha256_hex repr catalog decide_node vp replay_results replaying fence).
Abbreviation main_loop :=
  (main_loop sha256_hex repr catalog decide_node vp replay_results replaying fence).
Abbreviation between :=
  (between sha256_hex repr catalog decide_node vp replay_results replaying fence parallelism).
Abbreviation persist := (persist sha256_hex fence).
Abbreviation idle := (idle sha256_hex catalog decide_node vp replaying parallelism).

Lemma run_wave_choices fuel w w' u :
  run_wave fuel parallelism sched w = (Ok u, w') ->
  finished (w_tasks w') = true /\ exists cs, run_choices cs w = (Ok tt, w').
Proof.
  revert w. induction fuel as [|fuel IH]; intros w Hr; cbn [DagEngine.run_wave] in Hr;
    apply sbind_Ok in Hr as (w0 & w0' & Hg & Hr); unfold sget in Hg; injection Hg as <- <-;
    destruct (finished (w_tasks w)) eqn:Hf; try done;
    try (unfold sret in Hr; injection Hr as _ <-; split; [done|by exists []]).
  apply sbind_Ok in Hr as ([] & w1 & Hs & Hr). apply IH in Hr as (Hf' & cs & Hcs).
  split; [done|]. exists (sched w :: cs). unfold DagTrace.run_choices. cbn [sfor].
  apply sbind_Ok. by exists tt, w1.
Qed.

Lemma gather_between r0 r batch r' u :
  between r0 r -> ready_nodes vp (rs_states r) = Ok batch ->
  gather sha256_hex repr catalog decide_node vp replay_results replaying fence parallelism sched
    batch r = (Ok u, r') -> between r0 r'.
Proof.
  intros Hb Hr Hg. unfold gather in Hg.
  destruct (run_wave _ _ _ _) as [res w] eqn:Hw. injection Hg as -> <-.
  apply run_wave_choices in Hw as (Hf & cs & Hcs). by eapply between_wave.
Qed.

Lemma lift_states_Ok f r r' u :
  lift_states f r = (Ok u, r') ->
  exists m, f (rs_states r) = Ok m /\ r' = set_states (fun _ => m) r.
Proof.
  unfold lift_states, sbind, sget, slift, smodify. destruct (f (rs_states r)) as [m|]; simpl; [|done].
  intros [= _ <-]. by exists m.
Qed.

Lemma between_lift r0 r r' f u :
  (forall m m', f m = Ok m' -> only_skips m m') -> between r0 r ->
  lift_states f r = (Ok u, r') -> between r0 r'.
Proof.
  intros Hf Hb (m & Hm & ->)%lift_states_Ok. apply between_skips; [done|]. by apply Hf.
Qed.

Lemma main_loop_between fuel r0 r r' u :
  between r0 r -> main_loop fuel parallelism sched r = (Ok u, r') -> between r0 r'.
Proof.
  revert r. induction fuel as [|fuel IH]; intros r Hb Hl; [done|]. cbn [DagEngine.main_loop] in Hl.
  apply sbind_Ok in Hl as ([] & r1 & Hp & Hl).
  apply (between_lift r0) in Hp; [|apply propagate_Ok|done].
  apply sbind_Ok in Hl as (r1' & r1'' & Hg & Hl). unfold sget in Hg. injection Hg as <- <-.
  apply sbind_Ok in Hl as (batch & r2 & Hr & Hl). unfold slift in Hr. injection Hr as Hr <-.
  destruct (rs_aborted r1 && fail_fast vp); [by unfold sret in Hl; injection Hl as _ <-|].
  destruct batch as [|n batch]; [by unfold sret in Hl; injection Hl as _ <-|].
  apply sbind_Ok in Hl as ([] & r2 & Hgat & Hl). apply (gather_between r0) in Hgat; [|done..].
  apply sbind_Ok in Hl as ([] & r3 & Hper & Hl).
  assert (Hb3 : between r0 r3) by (by eapply between_persist; [exact Hgat|]).
  apply sbind_Ok in Hl as (r3' & r3'' & Hg & Hl). unfold sget in Hg. injection Hg as <- <-.
  destruct (rs_aborted r3 && fail_fast vp); [|by eapply IH].
  apply sbind_Ok in Hl as ([] & r4 & Hskip & Hl).
  apply (between_lift r0) in Hskip; [|apply skip_pending_Ok|done].
  destruct u. by eapply between_persist; [exact Hskip|].
Qed.

(** ** Compensation leaves the counters and the dispatch order alone *)

Definition same_calls (r r' : RunState) : Prop :=
  rs_external_calls r' = rs_external_calls r /\ rs_dispatch_order r' = rs_dispatch_order r
  /\ rs_max_observed r' = rs_max_observed r /\ approvals (rs_store r') = approvals (rs_store r)
  /\ execution_id (rs_checkpoint r') = execution_id (rs_checkpoint r).

Lemma same_calls_refl r : same_calls r r.
Proof. done. Qed.

Lemma same_calls_trans r1 r2 r3 : same_calls r1 r2 -> same_calls r2 r3 -> same_calls r1 r3.
Proof. unfold same_calls. intuition congruence. Qed.

(** An operation that keeps sanity and calls whenever it returns. *)
Definition quiet {A} (o : run_op A) : Prop :=
  forall r a r', sane sha256_hex r -> o r = (Ok a, r') -> sane sha256_hex r' /\ same_calls r r'.

Lemma quiet_bind {A B} (o : run_op A) (k : A -> run_op B) :
  quiet o -> (forall a, quiet (k a)) -> quiet (sbind o k).
Proof.
  intros Ho Hk r b r' Hs (a & r1 & H1 & H2)%sbind_Ok.
  destruct (Ho _ _ _ Hs H1) as [Hs1 Hc1]. destruct (Hk _ _ _ _ Hs1 H2) as [Hs2 Hc2].
  split; [done|]. by eapply same_calls_trans.
Qed.

Lemma quiet_ret {A} (a : A) : quiet (sret a).
Proof. intros r b r' Hs [= _ <-]. by split. Qed.

Lemma quiet_lift {A} (m : result exn A) : quiet (slift m).
Proof. intros r b r' Hs [= _ <-]. by split. Qed.

Lemma quiet_get : quiet sget.
Proof. intros r b r' Hs [= _ <-]. by split. Qed.

Lemma quiet_get_state i : quiet (get_state i).
Proof. intros r b r' Hs [= _ <-]. by split. Qed.

Lemma quiet_persist : quiet persist.
Proof.
  intros r u r' Hs Hp. apply persist_sane in Hp as (Hs' & _ & H1 & H2 & _ & H4 & _ & H6 & H7 & _); done.
Qed.

Lemma quiet_update i f : (forall s, node_id (f s) = node_id s) -> quiet (update_state i f).
Proof.
  intros Hf r u r' Hs (s & Hst & Hch)%update_state_Ok. split.
  - eapply changed_sane; [exact Hs|exact Hst|apply Hf|exact Hch].
  - destruct Hch as [rec ->]. done.
Qed.

Lemma quiet_get_put {B} i f (k : NodeState -> run_op B) :
  (forall s, node_id (f s) = node_id s) -> (forall s, quiet (k s)) ->
  quiet (let* s := get_state i in do* put_state i (f s) in k s).
Proof.
  intros Hf Hk r b r' [Hs Hkey] Hr. apply sbind_Ok in Hr as (s & r1 & Hg & Hr).
  unfold get_state in Hg. injection Hg as Hst%get_key_Ok <-.
  apply sbind_Ok in Hr as ([] & r1 & Hput & Hr). unfold put_state, smodify in Hput.
  injection Hput as <-. apply Hk in Hr as [Hs' Hc]; [by split|].
  split; [done|]. simpl. apply map_Forall_insert_2; [|done]. rewrite Hf. by apply Hkey.
Qed.

Lemma quiet_if {A} (b : bool) (o1 o2 : run_op A) : quiet o1 -> quiet o2 -> quiet (if b then o1 else o2).
Proof. by destruct b. Qed.

Variable compensator : option (Node -> string -> compensate_outcome).

Lemma compensated_state_id o s : node_id (fst (compensated_state o s)) = node_id s.
Proof. by destruct o as [[]| |]. Qed.

Lemma quiet_compensate_node i :
  quiet (compensate_node sha256_hex repr decide_node compensator vp fence i).
Proof.
  unfold compensate_node. apply quiet_bind; [apply quiet_lift|]. intros n.
  apply (quiet_get_put i (fun s => set_status s NodeStatus_COMPENSATION_PENDING)); [done|]. intros s.
  apply quiet_bind; [apply quiet_lift|]. intros k.
  apply quiet_bind; [by apply quiet_update|]. intros _.
  apply quiet_bind; [apply quiet_persist|]. intros _.
  assert (Htail : forall f (o : string * string * string), (forall s, node_id (f s) = node_id s) ->
    quiet (do* update_state i f in do* persist in sret o)).
  { intros f o Hf. apply quiet_bind; [by apply quiet_update|]. intros _.
    apply quiet_bind; [apply quiet_persist|]. intros _. apply quiet_ret. }
  destruct compensator as [comp|]; [|by apply Htail].
  apply quiet_if; [by apply Htail|]. apply Htail. intros. apply compensated_state_id.
Qed.

Lemma quiet_compensate : quiet (compensate sha256_hex repr decide_node compensator vp fence).
Proof.
  unfold compensate. apply quiet_bind; [apply quiet_get|]. intros r.
  apply quiet_bind; [apply quiet_lift|]. intros cs.
  destruct cs as [|c cs]; [apply quiet_ret|]. apply quiet_if; [apply quiet_ret|].
  generalize (c :: cs) as l. clear c cs. induction l as [|c cs IH]; [apply quiet_ret|].
  cbn [compensate_all]. apply quiet_bind; [apply quiet_compensate_node|]. intros o.
  apply quiet_bind; [exact IH|]. intros os. apply quiet_ret.
Qed.

(** ** The end of a run *)

Definition run_status (r : RunState) : PlanStatus :=
  plan_status_from (rs_states r)
    (rs_aborted r && negb (any_status NodeStatus_SUCCESS (rs_states r))).

(** What [finish_run] returns, and what it leaves on disk. *)
Lemma finish_run_Ok comps r rep r' :
  sane sha256_hex r -> finish_run sha256_hex vp replaying fence comps r = (Ok rep, r') ->
  (exists unknown, unknown_of vp (rs_states r) = Ok unknown
   /\ rep = mkReport (run_status r) (digest vp) (execution_id (rs_checkpoint r))
               (map (fun ks => (fst ks, status (snd ks))) (map_items (rs_states r)))
               (map (fun ks => (fst ks, reason_code (snd ks))) (map_items (rs_states r)))
               (committed_of (rs_states r)) comps unknown (rs_external_calls r)
               (rs_max_observed r) replaying (rs_dispatch_order r))
  /\ same_calls r r' /\ store_inv sha256_hex (rs_store r')
  /\ exists row c, checkpoints (rs_store r') !! execution_id (rs_checkpoint r) = Some row
     /\ records sha256_hex (execution_id (rs_checkpoint r)) row c
     /\ node_states c = rs_states r /\ ck_status c = Some (run_status r).
Proof.
  intros [Hinv Hkey] Hf. unfold finish_run in Hf.
  apply sbind_Ok in Hf as (r0 & r0' & Hg & Hf). unfold sget in Hg. injection Hg as <- <-.
  apply sbind_Ok in Hf as (unknown & r1 & Hu & Hf). unfold slift in Hu. injection Hu as Hu <-.
  apply sbind_Ok in Hf as ([] & r1 & Hm & Hf). unfold smodify in Hm. injection Hm as <-.
  apply sbind_Ok in Hf as (r1' & r1'' & Hg & Hf). unfold sget in Hg. injection Hg as <- <-.
  apply sbind_Ok in Hf as ([] & r2 & Hsave & Hf). unfold on_store in Hsave.
  cbn [rs_checkpoint set_checkpoint rs_store] in Hsave.
  set (c := with_states (rs_checkpoint r) (rs_states r) (Some (run_status r))) in *.
  fold (run_status r) in Hsave, Hf. fold c in Hsave, Hf.
  destruct (save_cases sha256_hex c fence (rs_store r) (proj1 Hinv))
    as [(e & He & _)|(row & Hw & Hrow & Hfe & He)]; rewrite He in Hsave; [done|].
  injection Hsave as <-. unfold slift in Hf. injection Hf as Hrep <-.
  unfold report_post_init in Hrep. apply rbind_Ok in Hrep as ([] & _ & [= <-]).
  assert (Hwf : wf_checkpoint c) by exact Hkey.
  pose proof (stored_records sha256_hex (row_plan_digest row) fence c Hwf Hw) as Hrec.
  pose proof (set_row_inv sha256_hex _ _ c (rs_store r) Hinv Hrec) as [_ Hinv'].
  split; [by exists unknown|]. split; [done|]. split; [by split; [apply Hinv|]|].
  exists (stored sha256_hex (row_plan_digest row) fence c), c.
  split_and!; [|done..]. simpl. by rewrite lookup_insert, decide_True.
Qed.
End Runs.
