(* ===== verification/DagOutcome.v ===== *)
(** * Approvals in the DAG engine

    Only [admit_execution] consumes an approval: [run] and [resume] of [v2/dag_engine.py] leave the table
    of consumed approvals as it is, whatever happens. *)
From S2P Require Import Prelude.
From S2P Require Import PyValue.
From S2P Require Import Canonical.
From S2P Require Import DagContract.
From S2P Require Import DagDigest.
From S2P Require Import DagTransform.
From S2P Require Import DagValidation.
From S2P Require Import DagOrder.
From S2P Require Import DagAdmission.
From S2P Require Import DagStore.
From S2P Require Import DagDurability.
From S2P Require Import DagEngine.
From S2P Require Import DagRun.
From S2P Require Import DagWave.
From S2P Require Import DagTrace.
From S2P Require Import DagProperties.

(** ** Operations that leave the approvals alone *)

Definition keeps_store {A} (o : store_op A) : Prop :=
  forall s, approvals (snd (o s)) = approvals s.

Definition keeps {A} (o : run_op A) : Prop :=
  forall r, approvals (rs_store (snd (o r))) = approvals (rs_store r).

Definition keeps_wave {A} (o : wave_op A) : Prop :=
  forall w, approvals (rs_store (w_run (snd (o w)))) = approvals (rs_store (w_run w)).

Lemma keeps_store_bind {A B} (o : store_op A) (k : A -> store_op B) :
  keeps_store o -> (forall a, keeps_store (k a)) -> keeps_store (sbind o k).
Proof.
  intros Ho Hk s. unfold sbind. specialize (Ho s). destruct (o s) as [[a|e] s1]; simpl in *; [|done].
  by rewrite Hk.
Qed.

Lemma keeps_bind {A B} (o : run_op A) (k : A -> run_op B) :
  keeps o -> (forall a, keeps (k a)) -> keeps (sbind o k).
Proof.
  intros Ho Hk s. unfold sbind. specialize (Ho s). destruct (o s) as [[a|e] s1]; simpl in *; [|done].
  by rewrite Hk.
Qed.

Lemma keeps_wave_bind {A B} (o : wave_op A) (k : A -> wave_op B) :
  keeps_wave o -> (forall a, keeps_wave (k a)) -> keeps_wave (sbind o k).
Proof.
  intros Ho Hk s. unfold sbind. specialize (Ho s). destruct (o s) as [[a|e] s1]; simpl in *; [|done].
  by rewrite Hk.
Qed.

Lemma keeps_on_store {A} (o : store_op A) : keeps_store o -> keeps (on_store o).
Proof. intros Ho r. unfold on_store. specialize (Ho (rs_store r)). by destruct (o (rs_store r)). Qed.

Lemma keeps_on_run {A} (o : run_op A) : keeps o -> keeps_wave (on_run o).
Proof. intros Ho w. unfold on_run. specialize (Ho (w_run w)). by destruct (o (w_run w)). Qed.

(** Walks through the code; the leaves are state updates that do not touch the store. *)
Ltac keeps_step :=
  match goal with
  | |- keeps_store (sbind _ _) => apply keeps_store_bind
  | |- keeps (sbind _ _) => apply keeps_bind
  | |- keeps_wave (sbind _ _) => apply keeps_wave_bind
  | |- keeps (on_store _) => apply keeps_on_store
  | |- keeps_wave (on_run _) => apply keeps_on_run
  | |- forall _, _ => intros ?
  | |- keeps_store (match ?x with _ => _ end) => destruct x
  | |- keeps (match ?x with _ => _ end) => destruct x
  | |- keeps_wave (match ?x with _ => _ end) => destruct x
  end.
Ltac keeps := repeat (keeps_step || (progress autounfold with keeps)); try (intros ?; reflexivity).

Create HintDb keeps.
#[export] Hint Unfold update_state put_state get_state record lift_states begin commit rollback : keeps.

Section Keeps.
Variable sha256_hex : string -> string.
Variable repr : value -> string.
Context {C : Type} `{ToolCatalog C} (catalog : C).
Variable decide_node : ValidatedPlan -> Node -> list (string * value) -> NodeDecision.
Variable reconciler : option (Node -> value -> reconcile_outcome).
Variable compensator : option (Node -> string -> compensate_outcome).
Variables (enabled : bool) (engine_ceiling : Z) (engine_owner : string).

Lemma keeps_save c f : keeps_store (save sha256_hex c f).
Proof. unfold save. keeps. Qed.

Lemma keeps_create c : keeps_store (create sha256_hex c).
Proof. unfold create. keeps. Qed.

Lemma keeps_load e : keeps_store (load sha256_hex repr e).
Proof. done. Qed.

Lemma keeps_acquire e o x : keeps_store (acquire_lease sha256_hex repr e o x).
Proof. unfold acquire_lease. keeps. Qed.

Section Run.
Variable vp : ValidatedPlan.
Variable replay_results : option (list (string * value)).
Variable replaying : bool.
Variable fence parallelism : Z.
Variable sched : wave -> choice.

Lemma keeps_persist : keeps (persist sha256_hex fence).
Proof. unfold persist. keeps. apply keeps_save. Qed.

Lemma keeps_write_ahead n a : keeps (write_ahead sha256_hex vp fence n a).
Proof. unfold write_ahead. keeps; apply keeps_persist. Qed.

Lemma keeps_execute_start n :
  keeps (execute_start sha256_hex catalog decide_node vp replay_results replaying fence n).
Proof.
  unfold execute_start, run_transform, run_replay, dispatch.
  keeps; apply keeps_write_ahead.
Qed.

Lemma keeps_execute_finish n k o : keeps (execute_finish sha256_hex repr vp fence n k o).
Proof. unfold execute_finish. keeps; apply keeps_persist. Qed.

Lemma keeps_wave_step c :
  keeps_wave (wave_step sha256_hex repr catalog decide_node vp replay_results replaying fence
                parallelism c).
Proof.
  unfold wave_step, begin_execute, move. keeps;
    first [apply keeps_execute_start | apply keeps_execute_finish].
Qed.

Lemma keeps_run_wave fuel :
  keeps_wave (run_wave sha256_hex repr catalog decide_node vp replay_results replaying fence
                fuel parallelism sched).
Proof.
  induction fuel as [|fuel IH]; cbn [run_wave]; keeps; [apply keeps_wave_step|exact IH].
Qed.

Lemma keeps_gather batch :
  keeps (gather sha256_hex repr catalog decide_node vp replay_results replaying fence
           parallelism sched batch).
Proof.
  intros r. unfold gather.
  pose proof (keeps_run_wave (3 * length batch) (mkWave (map (fun n => (n, Waiting)) batch) r)) as Hw.
  destruct (run_wave _ _ _ _ _ _ _ _ _ _ _) as [res w]. exact Hw.
Qed.

Lemma keeps_main_loop fuel :
  keeps (main_loop sha256_hex repr catalog decide_node vp replay_results replaying fence
           fuel parallelism sched).
Proof.
  induction fuel as [|fuel IH]; cbn [main_loop]; keeps;
    first [apply keeps_gather | apply keeps_persist | exact IH].
Qed.

Lemma keeps_compensate : keeps (compensate sha256_hex repr decide_node compensator vp fence).
Proof.
  assert (Hall : forall l, keeps (compensate_all sha256_hex repr decide_node compensator vp fence l)).
  { induction l as [|i l IH]; cbn [compensate_all]; [by intros ?|].
    unfold compensate_node. keeps; first [apply keeps_persist | exact IH]. }
  unfold compensate. keeps. apply Hall.
Qed.
End Run.

Lemma keeps_run vp c rr sched :
  keeps_store (run sha256_hex repr catalog decide_node compensator enabled engine_ceiling vp c rr sched).
Proof.
  intros s. unfold run. destruct (negb enabled); [done|].
  destruct (negb (String.eqb (ck_plan_digest c) (digest vp))); [done|].
  assert (Hb : keeps (run_body sha256_hex repr catalog decide_node compensator engine_ceiling vp rr
                        (is_replaying rr c) (fence_token (lease c)) sched)).
  { unfold run_body, finish_run. keeps;
      first [apply keeps_persist | apply keeps_main_loop | apply keeps_compensate | apply keeps_save]. }
  specialize (Hb (initial_run vp c s)).
  destruct (run_body _ _ _ _ _ _ _ _ _ _ _ _) as [res r]. exact Hb.
Qed.

Lemma keeps_resume vp e pj po x sched :
  keeps_store (resume sha256_hex repr catalog decide_node reconciler compensator enabled
                 engine_ceiling engine_owner vp e pj po x sched).
Proof.
  unfold resume. keeps;
    first [apply keeps_load | apply keeps_acquire | apply keeps_save | apply keeps_run].
Qed.
End Keeps.

(** * The outcome of a run: single dispatch, settled nodes, termination, resume

    Whole runs of [DagEngine.run] and [DagEngine.resume] ([v2/dag_engine.py]). *)

Section Frozen.
Variable sha256_hex : string -> string.
Variable repr : value -> string.
Context {C : Type} `{ToolCatalog C} (catalog : C).
Variable decide_node : ValidatedPlan -> Node -> list (string * value) -> NodeDecision.
Variable vp : ValidatedPlan.
Variable replay_results : option (list (string * value)).
Variable replaying : bool.
Variable fence : Z.
Variable parallelism : Z.
Hypothesis plan_wf : wf_plan vp.
Hypothesis some_parallelism : 1 <= parallelism.

Abbreviation wave_inv := (wave_inv sha256_hex catalog decide_node vp replaying parallelism).
Abbreviation wave_step :=
  (wave_step sha256_hex repr catalog decide_node vp replay_results replaying fence parallelism).
Abbreviation run_choices :=
  (run_choices sha256_hex repr catalog decide_node vp replay_results replaying fence parallelism).
Abbreviation between :=
  (between sha256_hex repr catalog decide_node vp replay_results replaying fence parallelism).
Abbreviation fresh := (fresh sha256_hex).

(** A node outside of the wave is not touched by it. *)
Lemma wave_step_outside c w w' u i :
  wave_inv w -> wave_step c w = (Ok u, w') -> i ∉ task_ids (w_tasks w) ->
  i ∉ task_ids (w_tasks w') /\ rs_states (w_run w') !! i = rs_states (w_run w) !! i
  /\ (i ∈ rs_dispatch_order (w_run w') <-> i ∈ rs_dispatch_order (w_run w)).
Proof.
  intros Hw Hs Hi. apply wave_step_Ok in Hs as [[-> _]|Hs]; [done| |apply Hw].
  eapply task_step_stable in Hs as (n & p & Hin & Hst & ->); [|done..].
  assert (Hne : i <> id n).
  { intros ->. apply Hi. by apply (list_elem_of_fmap_2 (fun np => id (fst np)) _ (n, p)). }
  split; [done|]. split; [by apply (st_states _ _ _ _ Hst)|by apply (st_dispatch _ _ _ _ Hst)].
Qed.

Lemma run_choices_outside cs w w' i :
  wave_inv w -> run_choices cs w = (Ok tt, w') -> i ∉ task_ids (w_tasks w) ->
  rs_states (w_run w') !! i = rs_states (w_run w) !! i
  /\ (i ∈ rs_dispatch_order (w_run w') <-> i ∈ rs_dispatch_order (w_run w)).
Proof.
  revert w. induction cs as [|c cs IH]; intros w Hw Hc Hi; [by injection Hc as <-|].
  unfold DagTrace.run_choices in Hc. cbn [sfor] in Hc. apply sbind_Ok in Hc as ([] & w1 & H1 & H2).
  destruct (wave_step_outside _ _ _ _ i Hw H1 Hi) as (Hi1 & He & Hd).
  destruct (IH w1) as [He' Hd']; [by eapply wave_step_inv|exact H2|done|].
  split; [congruence|]. by rewrite Hd'.
Qed.

(** The nodes of the batch are pending when it starts. *)
Lemma batch_pending r batch i st :
  ready_nodes vp (rs_states r) = Ok batch -> rs_states r !! i = Some st ->
  status st <> NodeStatus_PENDING -> i ∉ task_ids (w_tasks (start_wave r batch)).
Proof.
  intros Hr Hst Hne Hin. apply ready_nodes_Ok in Hr as [_ Hall]; [|done].
  unfold task_ids, start_wave in Hin. cbn [w_tasks] in Hin. rewrite map_map in Hin.
  apply list_elem_of_fmap in Hin as (n & -> & Hin). rewrite Forall_forall in Hall.
  destruct (Hall n Hin) as (_ & _ & st' & Hst' & Hp). simpl in Hst. congruence.
Qed.

(** A node that is not pending keeps its state until the compensation, and is not dispatched. *)
Lemma between_frozen r0 r i st :
  fresh r0 -> between r0 r -> rs_states r0 !! i = Some st -> status st <> NodeStatus_PENDING ->
  rs_states r !! i = Some st /\ i ∉ rs_dispatch_order r.
Proof.
  intros Hf Hb Hst Hne. induction Hb as [r Hp|r r' Hb IH Hp|r m Hb IH Hs|r batch cs w Hb IH Hr Hc Hfin].
  - destruct Hf as (Hsane & _ & Hd & _).
    apply persist_sane in Hp as (_ & H0 & _ & H2 & _); [|done].
    rewrite H0, H2, Hd. split; [done|apply not_elem_of_nil].
  - assert (Hi : idle sha256_hex catalog decide_node vp replaying parallelism r)
      by (eapply between_idle; done).
    apply persist_sane in Hp as (_ & H0 & _ & H2 & _); [|apply Hi]. by rewrite H0, H2.
  - destruct IH as [IH1 IH2]. split; [|done]. by eapply only_skips_keep.
  - destruct IH as [IH1 IH2].
    assert (Hw : wave_inv (start_wave r batch)).
    { apply wave_of_idle; try done. eapply between_idle; done. }
    destruct (run_choices_outside _ _ _ i Hw Hc) as [He Hd]; [by eapply batch_pending|].
    rewrite He. split; [done|]. by rewrite Hd.
Qed.

(** ** Every node of the batch is settled when the wave is over *)

Definition unsettled (m : states_map) (i : string) : Prop :=
  match m !! i with Some st => status st = NodeStatus_PENDING | None => False end.

#[export] Instance unsettled_dec m i : Decision (unsettled m i).
Proof. unfold unsettled. destruct (m !! i); apply _. Defined.

(** Initially every node of the plan is pending or settled. *)
Definition settled_or_pending (m : states_map) : Prop :=
  forall n, n ∈ nodes (plan vp) -> exists st, m !! id n = Some st
  /\ (status st = NodeStatus_PENDING \/ terminal_node_status (status st) = true).

Lemma skips_settled m m' : only_skips m m' -> settled_or_pending m -> settled_or_pending m'.
Proof.
  intros Hs Hm n Hn. destruct (Hm n Hn) as (st & Hst & Hor).
  destruct (Hs (id n)) as [->|(st' & why & Hst' & Hp & ->)]; [by exists st|].
  eexists. split; [done|]. by right.
Qed.

Lemma run_choices_tasks cs w w' :
  wave_inv w -> run_choices cs w = (Ok tt, w') -> task_ids (w_tasks w') = task_ids (w_tasks w).
Proof.
  revert w. induction cs as [|c cs IH]; intros w Hw Hc; [by injection Hc as <-|].
  unfold DagTrace.run_choices in Hc. cbn [sfor] in Hc. apply sbind_Ok in Hc as ([] & w1 & H1 & H2).
  rewrite (IH w1); [|by eapply wave_step_inv|exact H2].
  apply wave_step_Ok in H1 as [[-> _]|H1]; [done| |apply Hw].
  by eapply task_step_stable in H1 as (n & p & _ & _ & ->).
Qed.

(** After a wave its nodes are settled and the others are as before. *)
Lemma wave_result r batch cs w i :
  idle sha256_hex catalog decide_node vp replaying parallelism r ->
  ready_nodes vp (rs_states r) = Ok batch ->
  run_choices cs (start_wave r batch) = (Ok tt, w) -> finished (w_tasks w) = true ->
  if bool_decide (i ∈ map id batch)
  then exists st, rs_states (w_run w) !! i = Some st /\ terminal_node_status (status st) = true
  else rs_states (w_run w) !! i = rs_states r !! i.
Proof.
  intros Hid Hr Hc Hfin.
  assert (Hw0 : wave_inv (start_wave r batch)) by (by apply wave_of_idle).
  assert (Hids : task_ids (w_tasks (start_wave r batch)) = map id batch).
  { unfold task_ids, start_wave. cbn [w_tasks]. by rewrite map_map. }
  assert (Hw : wave_inv w) by (by eapply run_choices_inv).
  pose proof (run_choices_tasks _ _ _ Hw0 Hc) as Hsame. rewrite Hids in Hsame.
  destruct (bool_decide_reflect (i ∈ map id batch)) as [Hi|Hi].
  - rewrite <- Hsame in Hi. apply list_elem_of_fmap in Hi as ([n p] & -> & Hin). simpl.
    pose proof (wi_tasks _ _ _ _ _ _ _ Hw) as Hall. rewrite Forall_forall in Hall.
    destruct (Hall _ Hin) as (_ & _ & st & Hst & Hp). exists st. split; [done|].
    unfold finished in Hfin. rewrite forallb_forall in Hfin.
    apply list_elem_of_In in Hin. specialize (Hfin _ Hin). simpl in Hfin. by destruct p.
  - apply (run_choices_outside cs (start_wave r batch)); [done|done|]. by rewrite Hids.
Qed.

Lemma wave_settled r batch cs w :
  idle sha256_hex catalog decide_node vp replaying parallelism r ->
  ready_nodes vp (rs_states r) = Ok batch ->
  run_choices cs (start_wave r batch) = (Ok tt, w) -> finished (w_tasks w) = true ->
  settled_or_pending (rs_states r) -> settled_or_pending (rs_states (w_run w)).
Proof.
  intros Hid Hr Hc Hfin Hm n Hn. pose proof (wave_result r batch cs w (id n) Hid Hr Hc Hfin) as Hres.
  destruct (bool_decide _); [|rewrite Hres; by apply Hm].
  destruct Hres as (st & Hst & Ht). exists st. split; [done|by right].
Qed.
End Frozen.
