(* ===== verification/DagTermination.v ===== *)
(** * Termination of the DAG engine's loops

    The fuel of the model's loops ([propagate], a wave, [while True] of [v2/dag_engine.py]) is
    never used up: under every scheduler that makes possible choices, [run] ends with a report
    or with an exception of the program. *)
From S2P Require Import Prelude.
From S2P Require Import PyValue.
From S2P Require Import Canonical.
From S2P Require Import DagContract.
From S2P Require Import DagDigest.
From S2P Require Import DagTransform.
From S2P Require Import DagValidation.
From S2P Require Import DagOrder.
From S2P Require Import DagAdmission.
From S2P Require Import DagStore.
From S2P Require Import DagDurability.
From S2P Require Import DagEngine.
From S2P Require Import DagRun.
From S2P Require Import DagWave.
From S2P Require Import DagTrace.
From S2P Require Import DagProperties.
From S2P Require Import DagOutcome.

(** ** Computations that do not diverge *)

Definition nodiv {A} (m : result exn A) : Prop := m <> Err Diverged.

Lemma nodiv_bind {A B} (m : result exn A) (k : A -> result exn B) :
  nodiv m -> (forall a, nodiv (k a)) -> nodiv (rbind m k).
Proof. unfold nodiv. destruct m as [a|e]; simpl; [auto|congruence]. Qed.

Lemma nodiv_rfor {A} (f : A -> result exn unit) l : (forall x, nodiv (f x)) -> nodiv (rfor f l).
Proof.
  intros Hf. induction l as [|x l IH]; [done|]. simpl. apply nodiv_bind; [apply Hf|]. intros. exact IH.
Qed.

Lemma nodiv_rmap {A B} (f : A -> result exn B) l : (forall x, nodiv (f x)) -> nodiv (rmap f l).
Proof.
  intros Hf. induction l as [|x l IH]; [done|]. simpl. apply nodiv_bind; [apply Hf|]. intros y.
  apply nodiv_bind; [exact IH|]. done.
Qed.

Lemma nodiv_rfold {A S} (f : S -> A -> result exn S) l s :
  (forall s x, nodiv (f s x)) -> nodiv (rfold f s l).
Proof.
  intros Hf. revert s. induction l as [|x l IH]; intros s; [done|]. simpl.
  apply nodiv_bind; [apply Hf|]. intros. apply IH.
Qed.

Lemma nodiv_rfilter {A} (f : A -> result exn bool) l : (forall x, nodiv (f x)) -> nodiv (rfilter f l).
Proof.
  intros Hf. induction l as [|x l IH]; [done|]. simpl. apply nodiv_bind; [apply Hf|]. intros b.
  apply nodiv_bind; [exact IH|]. done.
Qed.

Lemma nodiv_lift {A} (m : result py_error A) : nodiv (lift_py m).
Proof. by destruct m. Qed.

Lemma nodiv_raise_if b r d : nodiv (raise_if b (PlanValidationError r d)).
Proof. by destruct b. Qed.

Lemma nodiv_raise_store b r d : nodiv (raise_if b (StoreError r d)).
Proof. by destruct b. Qed.

Lemma nodiv_try {A} (m : result exn A) : nodiv m -> nodiv (try_pve m).
Proof. unfold nodiv. destruct m as [a|[]]; simpl; congruence. Qed.

Lemma nodiv_get_key {A} (m : gmap string A) k : nodiv (get_key m k).
Proof. unfold get_key. by destruct (m !! k). Qed.

Ltac nodiv_step :=
  match goal with
  | |- nodiv (rbind _ _) => apply nodiv_bind
  | |- nodiv (rfor _ _) => apply nodiv_rfor
  | |- nodiv (rmap _ _) => apply nodiv_rmap
  | |- nodiv (rfold _ _ _) => apply nodiv_rfold
  | |- nodiv (rfilter _ _) => apply nodiv_rfilter
  | |- nodiv (lift_py _) => apply nodiv_lift
  | |- nodiv (raise_if _ (PlanValidationError _ _)) => apply nodiv_raise_if
  | |- nodiv (raise_if _ (StoreError _ _)) => apply nodiv_raise_store
  | |- nodiv (try_pve _) => apply nodiv_try
  | |- nodiv (get_key _ _) => apply nodiv_get_key
  | |- forall _, _ => intros ?
  | |- nodiv (match ?x with _ => _ end) => destruct x
  end.
Ltac nodiv := repeat (nodiv_step || (progress autounfold with nodiv)); try done.

Create HintDb nodiv.
#[export] Hint Unfold as_object as_list as_str lookup_or field require hash_value operation_digest
  node_idempotency_key compensation_key plan_node find_spec validate_transform_shape
  revalidate_bound_value tool_result_types type_of : nodiv.

Lemma nodiv_unique_loop seen l : nodiv (unique_loop seen l).
Proof. revert seen. induction l as [|x l IH]; intros seen; cbn [unique_loop]; nodiv; apply IH. Qed.

Lemma nodiv_handlers : Forall (fun s => forall a, nodiv (handler (snd s) a)) TRANSFORM_OPS.
Proof.
  unfold TRANSFORM_OPS. cbn [map].
  repeat (apply Forall_cons; split); [..|by apply Forall_nil]; intros a; cbn [handler snd];
    unfold op_select, op_project, op_filter_eq, op_filter_in, op_map_field, op_count, op_first,
      op_sort_by, op_unique, op_merge_objects, op_to_list, op_require_non_empty; nodiv;
    apply nodiv_unique_loop.
Qed.

Lemma nodiv_apply_transform o a b : nodiv (apply_transform o a b).
Proof.
  unfold apply_transform. destruct (find_spec o) as [spec|e] eqn:Hs; cbn [rbind].
  2: { unfold find_spec in Hs. destruct (dget o TRANSFORM_OPS); [done|]. by injection Hs as <-. }
  apply ops_spec in Hs. pose proof nodiv_handlers as Hall. rewrite Forall_forall in Hall.
  specialize (Hall _ Hs a). simpl in Hall.
  apply nodiv_bind; [nodiv|]. intros _. apply nodiv_bind; [nodiv|].
  intros _. apply nodiv_bind; [exact Hall|]. nodiv.
Qed.

(** ** The same, for operations on a state *)

Definition snodiv {S A} (o : st S exn A) : Prop := forall s, nodiv (fst (o s)).

Lemma snodiv_bind {S A B} (o : st S exn A) (k : A -> st S exn B) :
  snodiv o -> (forall a, snodiv (k a)) -> snodiv (sbind o k).
Proof.
  intros Ho Hk s. unfold sbind. specialize (Ho s). destruct (o s) as [[a|e] s1]; [apply Hk|].
  unfold nodiv in *. simpl in *. congruence.
Qed.

Lemma snodiv_lift {S A} (m : result exn A) : nodiv m -> snodiv (S := S) (slift m).
Proof. by intros Hm s. Qed.

Lemma snodiv_on_store {A} (o : store_op A) : snodiv o -> snodiv (on_store o).
Proof.
  intros Ho r. unfold on_store. specialize (Ho (rs_store r)). by destruct (o (rs_store r)).
Qed.

Lemma snodiv_on_run {A} (o : run_op A) : snodiv o -> snodiv (on_run o).
Proof. intros Ho w. unfold on_run. specialize (Ho (w_run w)). by destruct (o (w_run w)). Qed.

Lemma snodiv_get_state i : snodiv (get_state i).
Proof. intros r. apply nodiv_get_key. Qed.

Ltac snodiv_step :=
  match goal with
  | |- snodiv (sbind _ _) => apply snodiv_bind
  | |- snodiv (slift _) => apply snodiv_lift
  | |- snodiv (on_store _) => apply snodiv_on_store
  | |- snodiv (on_run _) => apply snodiv_on_run
  | |- snodiv (get_state _) => apply snodiv_get_state
  | |- forall _, _ => intros ?
  | |- snodiv (match ?x with _ => _ end) => destruct x
  end.
Ltac snodiv := repeat (snodiv_step || (progress autounfold with snodiv)); try done.

Create HintDb snodiv.
#[export] Hint Unfold update_state put_state record begin commit rollback move : snodiv.

Lemma nodiv_no_secret w v : nodiv (assert_no_secret_material w v).
Proof.
  induction v as [| | | | |l IH|d IH|] using value_ind; try done; cbn [assert_no_secret_material].
  - induction IH as [|x l Hx _ IHl]; [done|]. simpl. apply nodiv_bind; [done|]. intros. exact IHl.
  - induction IH as [|x l Hx _ IHl]; [done|]. simpl. apply nodiv_bind; [|intros; exact IHl].
    apply nodiv_bind; [apply nodiv_raise_store|]. intros. exact Hx.
Qed.

Section Ops.
Variable sha256_hex : string -> string.
Variable repr : value -> string.
Context {C : Type} `{ToolCatalog C} (catalog : C).
Variable decide_node : ValidatedPlan -> Node -> list (string * value) -> NodeDecision.
Variable compensator : option (Node -> string -> compensate_outcome).
Variable vp : ValidatedPlan.
Variable replay_results : option (list (string * value)).
Variable replaying : bool.
Variable fence : Z.
Variable parallelism : Z.

Lemma snodiv_save c f : snodiv (save sha256_hex c f).
Proof. unfold save, record_digest. snodiv; first [apply nodiv_no_secret | nodiv]. Qed.

Lemma snodiv_persist : snodiv (persist sha256_hex fence).
Proof. unfold persist. snodiv. apply snodiv_save. Qed.

Lemma nodiv_walk v path : nodiv (walk v path).
Proof. revert v. induction path as [|x path IH]; intros v; cbn [walk]; nodiv; apply IH. Qed.

Lemma nodiv_resolve_args n m : nodiv (resolve_args catalog n m).
Proof.
  unfold resolve_args. apply nodiv_rfold. intros acc [t b]. unfold resolve_binding.
  nodiv. apply nodiv_walk.
Qed.

Lemma snodiv_write_ahead n a : snodiv (write_ahead sha256_hex vp fence n a).
Proof. unfold write_ahead. snodiv; first [apply snodiv_persist | nodiv]. Qed.

Lemma snodiv_execute_start n :
  snodiv (execute_start sha256_hex catalog decide_node vp replay_results replaying fence n).
Proof.
  unfold execute_start, run_transform, run_replay, dispatch, assert_operation_covered. snodiv;
    first [ apply snodiv_write_ahead | apply nodiv_try; apply nodiv_resolve_args
          | apply nodiv_try; apply nodiv_apply_transform | nodiv ].
Qed.

Lemma snodiv_execute_finish n k o : snodiv (execute_finish sha256_hex repr vp fence n k o).
Proof. unfold execute_finish. snodiv; apply snodiv_persist. Qed.

Lemma snodiv_wave_step c :
  snodiv (wave_step sha256_hex repr catalog decide_node vp replay_results replaying fence
            parallelism c).
Proof.
  unfold wave_step, begin_execute, guarded_resource. snodiv;
    first [ apply snodiv_execute_start | apply snodiv_execute_finish | nodiv; apply nodiv_resolve_args ].
Qed.

(** A scheduler whose choices are possible while a task is left. *)
Definition fair (sched : wave -> choice) : Prop :=
  forall w, NoDup (task_ids (w_tasks w)) -> finished (w_tasks w) = false ->
    enabled_choice parallelism (sched w) w = true.

Variable sched : wave -> choice.
Hypothesis sched_fair : fair sched.

Lemma task_ids_step w w' :
  task_step sha256_hex repr catalog decide_node vp replay_results replaying fence parallelism w w' ->
  task_ids (w_tasks w') = task_ids (w_tasks w).
Proof. intros Hs. destruct Hs as [? ? ? ? Hts|? ? ? ? ? ? ? Hts|? ? ? ? ? ? ? ? Hts]; rewrite Hts; apply task_ids_replace. Qed.

Lemma run_wave_nodiv fuel w :
  NoDup (task_ids (w_tasks w)) -> (total_steps (w_tasks w) <= fuel)%nat ->
  nodiv (fst (run_wave sha256_hex repr catalog decide_node vp replay_results replaying fence
                fuel parallelism sched w)).
Proof.
  revert w. induction fuel as [|fuel IH]; intros w Hnd Hf; cbn [run_wave]; unfold sbind at 1, sget;
    destruct (finished (w_tasks w)) eqn:Hfin; try done.
  - exfalso. assert (finished (w_tasks w) = true); [|congruence].
    unfold finished, total_steps in *. apply forallb_forall. intros [n p] Hin%list_elem_of_In.
    simpl. apply list_elem_of_split in Hin as (l1 & l2 & Hts). rewrite Hts in Hf.
    rewrite sum_list_with_app in Hf. simpl in Hf. destruct p; simpl in Hf; [lia..|done].
  - unfold sbind. pose proof (snodiv_wave_step (sched w) w) as Hs.
    destruct (wave_step _ _ _ _ _ _ _ _ _ _ _) as [[[]|e] w'] eqn:Hw; [|unfold nodiv in *; simpl in *; congruence].
    apply wave_step_Ok in Hw as [[_ He]|Hw]; [|..|done].
    + by rewrite sched_fair in He.
    + apply IH; [by rewrite (task_ids_step _ _ Hw)|]. apply task_step_total in Hw. lia.
Qed.

Lemma gather_nodiv batch r :
  NoDup (map id batch) ->
  nodiv (fst (gather sha256_hex repr catalog decide_node vp replay_results replaying fence
                parallelism sched batch r)).
Proof.
  intros Hnd. unfold gather.
  pose proof (run_wave_nodiv (3 * length batch) (mkWave (map (fun n => (n, Waiting)) batch) r)) as Hw.
  destruct (run_wave _ _ _ _ _ _ _ _ _ _ _ _) as [res w]. apply Hw.
  - cbn [w_tasks]. unfold task_ids. by rewrite map_map.
  - cbn [w_tasks]. clear. unfold total_steps.
    induction batch as [|n b IHb]; [done|]. cbn [map sum_list_with snd steps_left length]. lia.
Qed.
End Ops.

(** ** The number of pending nodes *)

Definition pend (vp : ValidatedPlan) (m : states_map) : nat :=
  length (filter (unsettled m) (order vp)).

Lemma length_filter_le {A} (P Q : A -> Prop) `{!forall x, Decision (P x), !forall x, Decision (Q x)}
  (l : list A) : (forall x, Q x -> P x) -> (length (filter Q l) <= length (filter P l))%nat.
Proof.
  intros HQ. induction l as [|x l IH]; [done|]. rewrite !filter_cons.
  destruct (decide (Q x)) as [Hq|]; [rewrite decide_True by auto; simpl; lia|].
  destruct (decide (P x)); simpl; lia.
Qed.

Lemma length_filter_lt {A} (P Q : A -> Prop) `{!forall x, Decision (P x), !forall x, Decision (Q x)}
  (l : list A) x :
  (forall x, Q x -> P x) -> x ∈ l -> P x -> ~ Q x ->
  (length (filter Q l) < length (filter P l))%nat.
Proof.
  intros HQ Hx HP HnQ. apply list_elem_of_split in Hx as (l1 & l2 & ->).
  rewrite !filter_app, !filter_cons, (decide_True _ _ HP), (decide_False _ _ HnQ), !length_app. simpl.
  pose proof (length_filter_le P Q l1 HQ). pose proof (length_filter_le P Q l2 HQ). lia.
Qed.

Lemma only_skips_unsettled m m' i : only_skips m m' -> unsettled m' i -> unsettled m i.
Proof.
  unfold unsettled. intros Hs Hu. destruct (Hs i) as [He|(st & why & Hst & Hp & He)].
  - by rewrite <- He.
  - by rewrite He in Hu.
Qed.

Lemma pend_skips vp m m' : only_skips m m' -> (pend vp m' <= pend vp m)%nat.
Proof. intros Hs. apply length_filter_le. intros i. by apply only_skips_unsettled. Qed.

Lemma propagate_pass_true vp m m' :
  propagate_pass vp m = Ok (m', true) -> (pend vp m' < pend vp m)%nat.
Proof.
  intros Hp. pose proof (propagate_pass_Ok _ _ _ _ Hp) as Hskips. unfold propagate_pass in Hp.
  assert (Hex : only_skips m m' /\ (true = true -> exists i, i ∈ order vp /\ unsettled m i /\ ~ unsettled m' i)).
  { eapply (rfold_inv (fun acc => only_skips m (fst acc) /\ (snd acc = true ->
       exists i, i ∈ order vp /\ unsettled m i /\ ~ unsettled (fst acc) i)) _ _ (m, false) (m', true));
      [|split; [apply only_skips_refl|done]|exact Hp].
    intros [mi bi] i [ms bs] Hin [Hm Hb] Hstep. simpl in *.
    apply rbind_Ok in Hstep as (st & Hst%get_key_Ok & Hstep).
    destruct (bool_decide_reflect (status st = NodeStatus_PENDING)) as [Hpe|];
      [|injection Hstep as <- <-; by split].
    apply rbind_Ok in Hstep as (n & _ & Hstep). apply rbind_Ok in Hstep as ([why|] & _ & Hstep);
      injection Hstep as <- <-; [|by split].
    split; [eapply only_skips_trans; [exact Hm|]; by apply only_skips_insert|]. intros _.
    exists i. split; [done|]. split.
    - apply (only_skips_unsettled m mi); [done|]. unfold unsettled. by rewrite Hst.
    - unfold unsettled. by rewrite lookup_insert, decide_True. }
  destruct Hex as [_ Hex]. destruct (Hex eq_refl) as (i & Hi & Hu & Hn).
  apply (length_filter_lt _ _ _ i); [|done..]. intros j. by apply only_skips_unsettled.
Qed.

Lemma nodiv_blocked m deps : nodiv (blocked_reason m deps).
Proof. induction deps as [|d deps IH]; cbn [blocked_reason]; nodiv. Qed.

Lemma nodiv_all_success m deps : nodiv (all_success m deps).
Proof. induction deps as [|d deps IH]; cbn [all_success]; nodiv. Qed.

Lemma nodiv_propagate_loop vp fuel m : (pend vp m < fuel)%nat -> nodiv (propagate_loop vp fuel m).
Proof.
  revert m. induction fuel as [|fuel IH]; intros m Hf; [lia|]. cbn [propagate_loop].
  destruct (propagate_pass vp m) as [[m1 [|]]|e] eqn:Hp; cbn [rbind snd fst].
  - apply IH. apply propagate_pass_true in Hp. lia.
  - done.
  - assert (nodiv (propagate_pass vp m)) as Hn
      by (unfold propagate_pass; nodiv; apply nodiv_blocked).
    rewrite Hp in Hn. unfold nodiv in *. congruence.
Qed.

Lemma nodiv_propagate vp m : nodiv (propagate vp m).
Proof.
  apply nodiv_propagate_loop. unfold pend.
  pose proof (length_filter (unsettled m) (order vp)). lia.
Qed.

Lemma nodiv_ready vp m : nodiv (ready_nodes vp m).
Proof. unfold ready_nodes. nodiv; apply nodiv_all_success. Qed.

Section Loop.
Variable sha256_hex : string -> string.
Variable repr : value -> string.
Context {C : Type} `{ToolCatalog C} (catalog : C).
Variable decide_node : ValidatedPlan -> Node -> list (string * value) -> NodeDecision.
Variable compensator : option (Node -> string -> compensate_outcome).
Variable vp : ValidatedPlan.
Variable replay_results : option (list (string * value)).
Variable replaying : bool.
Variable fence : Z.
Variable parallelism : Z.
Variable sched : wave -> choice.
Hypothesis plan_wf : wf_plan vp.
Hypothesis some_parallelism : 1 <= parallelism.
Hypothesis sched_fair : fair parallelism sched.

Abbreviation idle := (idle sha256_hex catalog decide_node vp replaying parallelism).
Abbreviation gather :=
  (gather sha256_hex repr catalog decide_node vp replay_results replaying fence parallelism sched).

(** A wave that returns settles its batch and touches no other node. *)
Lemma gather_result r batch r' u :
  idle r -> ready_nodes vp (rs_states r) = Ok batch -> gather batch r = (Ok u, r') ->
  idle r' /\ forall i, if bool_decide (i ∈ map id batch)
    then exists st, rs_states r' !! i = Some st /\ terminal_node_status (status st) = true
    else rs_states r' !! i = rs_states r !! i.
Proof.
  intros Hi Hr Hg. unfold DagEngine.gather in Hg.
  destruct (run_wave _ _ _ _ _ _ _ _ _ _ _ _) as [res w] eqn:Hw. injection Hg as -> <-.
  apply run_wave_choices in Hw as (Hf & cs & Hcs). split.
  - eapply idle_of_wave; [|done]. eapply run_choices_inv; [done..| |exact Hcs].
    by apply wave_of_idle.
  - intros i. by eapply wave_result.
Qed.

Lemma gather_pend r batch r' u :
  idle r -> ready_nodes vp (rs_states r) = Ok batch -> batch <> [] ->
  gather batch r = (Ok u, r') -> (pend vp (rs_states r') < pend vp (rs_states r))%nat.
Proof.
  intros Hi Hr Hne Hg. destruct (gather_result r batch r' u Hi Hr Hg) as [_ Hres].
  destruct batch as [|n batch]; [done|].
  pose proof (ready_nodes_Ok vp _ _ plan_wf Hr) as [_ Hall].
  apply Forall_cons in Hall as [(Hn & _ & st & Hst & Hp) _].
  apply (length_filter_lt _ _ _ (id n)).
  - intros i Hu. specialize (Hres i). unfold unsettled in *.
    destruct (bool_decide_reflect (i ∈ map id (n :: batch))).
    + destruct Hres as (st' & Hst' & Ht). rewrite Hst' in Hu. by rewrite Hu in Ht.
    + by rewrite Hres in Hu.
  - rewrite (wp_order _ plan_wf). by apply (list_elem_of_fmap_2 id).
  - unfold unsettled. by rewrite Hst.
  - specialize (Hres (id n)). rewrite bool_decide_eq_true_2 in Hres by (by left).
    destruct Hres as (st' & Hst' & Ht). unfold unsettled. rewrite Hst'. intros Hpe.
    by rewrite Hpe in Ht.
Qed.

Lemma main_loop_nodiv fuel r :
  idle r -> (pend vp (rs_states r) < fuel)%nat ->
  nodiv (fst (main_loop sha256_hex repr catalog decide_node vp replay_results replaying fence fuel
                parallelism sched r)).
Proof.
  revert r. induction fuel as [|fuel IH]; intros r Hi Hf; [lia|]. cbn [main_loop].
  unfold sbind at 1. destruct (lift_states (propagate vp) r) as [[[]|e] r1] eqn:Hp.
  2: { simpl. unfold lift_states, sbind, sget, slift, smodify in Hp.
       pose proof (nodiv_propagate vp (rs_states r)). destruct (propagate vp (rs_states r)); [done|].
       injection Hp as <- _. unfold nodiv in *. congruence. }
  apply lift_states_Ok in Hp as (m & Hm & ->).
  pose proof (propagate_Ok _ _ _ Hm) as Hskips.
  pose proof (idle_skips _ _ _ _ _ _ _ _ Hi Hskips) as Hi1.
  pose proof (pend_skips vp _ _ Hskips) as Hle.
  set (r1 := set_states (fun _ => m) r) in *. unfold sbind at 1, sget.
  unfold sbind at 1, slift. destruct (ready_nodes vp (rs_states r1)) as [ready|e] eqn:Hr.
  2: { pose proof (nodiv_ready vp (rs_states r1)) as Hn. rewrite Hr in Hn.
       unfold nodiv in *. simpl. congruence. }
  destruct (rs_aborted r1 && fail_fast vp); [done|]. destruct ready as [|n ready]; [done|].
  unfold sbind at 1.
  destruct (gather (n :: ready) r1) as [[[]|e] r2] eqn:Hg.
  2: { pose proof (gather_nodiv sha256_hex repr catalog decide_node vp replay_results replaying
         fence parallelism sched sched_fair (n :: ready) r1) as Hn. rewrite Hg in Hn.
       unfold nodiv in *. simpl in *. intros He. apply Hn; [|congruence].
       by apply (ready_nodes_Ok vp _ _ plan_wf Hr). }
  destruct (gather_result _ _ _ _ Hi1 Hr Hg) as [Hi2 _].
  assert (Hlt : (pend vp (rs_states r2) < pend vp (rs_states r1))%nat) by (by eapply gather_pend).
  unfold sbind at 1. destruct (persist sha256_hex fence r2) as [[[]|e] r3] eqn:Hper.
  2: { pose proof (snodiv_persist sha256_hex fence r2) as Hn. rewrite Hper in Hn.
       unfold nodiv in *. simpl in *. congruence. }
  pose proof (idle_persist _ _ _ _ _ _ _ _ _ _ Hi2 Hper) as Hi3.
  apply persist_sane in Hper as (_ & Hst3 & _); [|apply Hi2].
  unfold sbind at 1, sget. destruct (rs_aborted r3 && fail_fast vp).
  - apply (snodiv_bind (lift_states (skip_pending vp))); [|intros _; apply snodiv_persist].
    unfold lift_states, skip_pending. snodiv. nodiv.
  - apply IH; [done|]. rewrite Hst3. simpl in Hle, Hlt. lia.
Qed.
End Loop.
