(* ===== verification/DagGuarantees.v ===== *)
(** * Guarantees of whole executions: admission, run, replay, resume, compensation

    The theorems of [DagEngine] ([v2/dag_engine.py]) that a caller relies on. *)
From S2P Require Import Prelude.
From S2P Require Import PyValue.
From S2P Require Import Canonical.
From S2P Require Import DagContract.
From S2P Require Import DagDigest.
From S2P Require Import DagTransform.
From S2P Require Import DagValidation.
From S2P Require Import DagOrder.
From S2P Require Import DagAdmission.
From S2P Require Import DagStore.
From S2P Require Import DagDurability.
From S2P Require Import DagEngine.
From S2P Require Import DagRun.
From S2P Require Import DagWave.
From S2P Require Import DagTrace.
From S2P Require Import DagProperties.
From S2P Require Import DagOutcome.
From S2P Require Import DagTermination.

Section Guarantees.
Variable sha256_hex : string -> string.
Variable repr : value -> string.
Context {C : Type} `{ToolCatalog C} (catalog : C).
Variable decide_node : ValidatedPlan -> Node -> list (string * value) -> NodeDecision.
Variable reconciler : option (Node -> value -> reconcile_outcome).
Variable compensator : option (Node -> string -> compensate_outcome).
Variables (enabled : bool) (engine_ceiling : Z) (engine_owner : string).

Abbreviation run :=
  (run sha256_hex repr catalog decide_node compensator enabled engine_ceiling).
Abbreviation resume :=
  (resume sha256_hex repr catalog decide_node reconciler compensator enabled engine_ceiling
     engine_owner).
Abbreviation admit_execution := (admit_execution sha256_hex decide_node enabled engine_owner).
Abbreviation granted vp := (granted sha256_hex catalog decide_node vp).
Abbreviation between vp rr rp fence :=
  (between sha256_hex repr catalog decide_node vp rr rp fence
     (effective_parallelism vp engine_ceiling)).

(** ** Shape of a successful run *)

Definition digest_matches (vp : ValidatedPlan) (c : Checkpoint) : Prop :=
  enabled = true /\ ck_plan_digest c = digest vp.

(** A run that returns went through its main loop, then compensation, then the report. *)
Lemma run_Ok vp c rr sched s rep s' :
  wf_plan vp -> store_inv sha256_hex s -> wf_checkpoint c ->
  run vp c rr sched s = (Ok rep, s') ->
  digest_matches vp c
  /\ exists r1 r2 comps r3,
     between vp rr (is_replaying rr c) (fence_token (lease c)) (initial_run vp c s) r1
     /\ (exists r0, persist sha256_hex (fence_token (lease c)) (initial_run vp c s) = (Ok tt, r0)
          /\ main_loop sha256_hex repr catalog decide_node vp rr (is_replaying rr c)
               (fence_token (lease c)) (S (length (nodes (plan vp))))
               (effective_parallelism vp engine_ceiling) sched r0 = (Ok tt, r1))
     /\ (exists m r1', propagate vp (rs_states r1) = Ok m
          /\ persist sha256_hex (fence_token (lease c)) (set_states (fun _ => m) r1) = (Ok tt, r1')
          /\ r2 = r1')
     /\ (if negb (is_replaying rr c)
             && negb (bool_decide (rollback_policy (plan vp) = RollbackPolicy_NONE))
         then compensate sha256_hex repr decide_node compensator vp (fence_token (lease c)) r2
              = (Ok comps, r3)
         else comps = [] /\ r3 = r2)
     /\ exists r4, finish_run sha256_hex vp (is_replaying rr c) (fence_token (lease c)) comps r3
                   = (Ok rep, r4) /\ s' = rs_store r4.
Proof.
  intros Hwf Hs Hc Hr. unfold DagEngine.run in Hr.
  destruct enabled eqn:Hen; cbn [negb] in Hr; [|done].
  destruct (String.eqb_spec (ck_plan_digest c) (digest vp)) as [Hd|]; cbn [negb] in Hr; [|done].
  split; [done|].
  destruct (run_body _ _ _ _ _ _ _ _ _ _ _ _) as [res r4] eqn:Hb. injection Hr as -> <-.
  unfold run_body in Hb. apply sbind_Ok in Hb as ([] & r0 & Hp & Hb).
  apply sbind_Ok in Hb as ([] & r1 & Hl & Hb).
  apply sbind_Ok in Hb as ([] & r1' & (m & Hm & ->)%lift_states_Ok & Hb).
  apply sbind_Ok in Hb as ([] & r2 & Hp2 & Hb). apply sbind_Ok in Hb as (comps & r3 & Hcomp & Hb).
  exists r1, r2, comps, r3. split.
  { eapply main_loop_between; [|exact Hl]. by apply between_start. }
  split; [by exists r0|]. split; [by exists m, r2|]. split; [|by exists r4].
  destruct (_ && _) in Hcomp |- *; [done|]. unfold sret in Hcomp. by injection Hcomp as <- <-.
Qed.

(** The state the report is made from. *)
Lemma run_report vp c rr sched s rep s' :
  wf_plan vp -> store_inv sha256_hex s -> wf_checkpoint c ->
  run vp c rr sched s = (Ok rep, s') ->
  exists r1 r3 comps r4,
    idle sha256_hex catalog decide_node vp (is_replaying rr c)
      (effective_parallelism vp engine_ceiling) r1
    /\ between vp rr (is_replaying rr c) (fence_token (lease c)) (initial_run vp c s) r1
    /\ same_calls r1 r3 /\ sane sha256_hex r3
    /\ finish_run sha256_hex vp (is_replaying rr c) (fence_token (lease c)) comps r3 = (Ok rep, r4)
    /\ s' = rs_store r4.
Proof.
  intros Hwf Hs Hc Hr. pose proof (effective_parallelism_pos vp engine_ceiling) as Hpos.
  apply run_Ok in Hr as (_ & r1 & r2 & comps & r3 & Hb & _ & (m & r1' & Hm & Hp & ->) & Hcomp & r4 & Hf & ->);
    [|done..].
  assert (Hi1 : idle sha256_hex catalog decide_node vp (is_replaying rr c)
                  (effective_parallelism vp engine_ceiling) r1).
  { eapply between_idle; [done..| |exact Hb]. by apply initial_fresh. }
  assert (Hi1' := idle_skips _ _ _ _ _ _ _ _ Hi1 (propagate_Ok _ _ _ Hm)).
  apply quiet_persist in Hp as [Hs2 Hc2]; [|apply Hi1'].
  assert (Hs3 : sane sha256_hex r3 /\ same_calls r1' r3).
  { destruct (_ && _) in Hcomp; [|by destruct Hcomp as [_ ->]].
    by apply quiet_compensate in Hcomp. }
  destruct Hs3 as [Hs3 Hc3]. exists r1, r3, comps, r4. split_and!; try done.
  unfold same_calls in *. simpl in Hc2. intuition congruence.
Qed.

Lemma run_keeps_inv vp c rr sched s rep s' :
  wf_plan vp -> store_inv sha256_hex s -> wf_checkpoint c ->
  run vp c rr sched s = (Ok rep, s') -> store_inv sha256_hex s'.
Proof.
  intros Hwf Hs Hc Hr.
  apply run_report in Hr as (r1 & r3 & comps & r4 & _ & _ & _ & Hs3 & Hf & ->); [|done..].
  by apply finish_run_Ok in Hf as (_ & _ & ? & _).
Qed.


(** Replay has no effects: a run on recorded results makes no external call and leaves
    the table of consumed approvals unchanged. *)
Theorem replay_no_effects vp c rr sched s rep s' :
  wf_plan vp -> store_inv sha256_hex s -> wf_checkpoint c -> is_replaying rr c = true ->
  run vp c rr sched s = (Ok rep, s') ->
  report_external_calls rep = 0 /\ report_dispatch_order rep = []
  /\ report_replay rep = true /\ compensated_effects rep = []
  /\ approvals s' = approvals s.
Proof.
  intros Hwf Hs Hc Hrep Hr.
  pose proof (keeps_run sha256_hex repr catalog decide_node compensator enabled engine_ceiling vp c rr sched s) as Hk.
  rewrite Hr in Hk. simpl in Hk. pose proof Hr as Hr'.
  apply run_report in Hr as (r1 & r3 & comps & r4 & Hi & Hb & (He & Hd & Hm & _) & Hs3 & Hf & _); [|done..].
  assert (Hcomps : compensated_effects rep = []).
  { apply run_Ok in Hr' as (_ & r1' & r2' & comps' & r3' & Hb' & _ & (m & r1'' & Hmm & Hp & ->) & Hcomp & r4' & Hf' & _);
      [|done..]. rewrite Hrep in Hcomp. simpl in Hcomp. destruct Hcomp as [-> ->].
    apply finish_run_Ok in Hf' as ((u & _ & ->) & _); [done|].
    apply quiet_persist in Hp as [? _]; [done|].
    eapply idle_skips; [|by eapply propagate_Ok]. eapply between_idle; [done| | |exact Hb'].
    - apply effective_parallelism_pos.
    - by apply initial_fresh. }
  apply finish_run_Ok in Hf as ((unknown & _ & ->) & _); [|done]. cbn in *.
  destruct Hi as [_ [Hc1 Hc2] _ [Hnd Hall]].
  assert (Hnil : rs_dispatch_order r1 = []).
  { destruct (rs_dispatch_order r1) as [|i l]; [done|].
    destruct (Hall i ltac:(by left)) as (n & a & _ & _ & _ & Hfalse & _). congruence. }
  rewrite He, Hd, Hc1, Hnil. split_and!; done.
Qed.

(** What a run dispatches was pending. *)
Lemma dispatches_pending vp c rr sched s rep s' i st :
  wf_plan vp -> store_inv sha256_hex s -> wf_checkpoint c ->
  run vp c rr sched s = (Ok rep, s') ->
  i ∈ report_dispatch_order rep -> node_states c !! i = Some st ->
  status st = NodeStatus_PENDING.
Proof.
  intros Hwf Hs Hc Hr Hin Hst.
  apply run_report in Hr as (r1 & r3 & comps & r4 & Hi & Hb & (He & Hd & Hm & _) & Hs3 & Hf & _); [|done..].
  apply finish_run_Ok in Hf as ((unknown & _ & ->) & _); [|done]. cbn in Hin. rewrite Hd in Hin.
  destruct (decide (status st = NodeStatus_PENDING)) as [|Hne]; [done|exfalso].
  eapply between_frozen in Hb as [_ Hnin]; [by apply Hnin|done|apply effective_parallelism_pos
    |by apply initial_fresh| |exact Hne].
  simpl. rewrite initial_states_lookup. by rewrite Hst.
Qed.

(** A run dispatches only nodes that the checkpoint has PENDING, or does not have at
    all: a node already succeeded, failed, denied or of unknown outcome is never called
    again. *)
Theorem run_dispatches_pending vp c rr sched s rep s' i st :
  wf_plan vp -> store_inv sha256_hex s -> wf_checkpoint c ->
  run vp c rr sched s = (Ok rep, s') ->
  i ∈ report_dispatch_order rep -> node_states c !! i = Some st ->
  status st = NodeStatus_PENDING.
Proof. apply dispatches_pending. Qed.

(** [C23] Termination: under every scheduler that makes possible choices, a run ends with a
    report or with an exception of the program, never by using up the fuel of the model's
    loops. *)
Theorem run_terminates vp c rr sched s :
  wf_plan vp -> store_inv sha256_hex s -> wf_checkpoint c ->
  fair (effective_parallelism vp engine_ceiling) sched ->
  nodiv (fst (run vp c rr sched s)).
Proof.
  intros Hwf Hs Hc Hfair. unfold DagEngine.run. destruct (negb enabled); [done|].
  destruct (negb (String.eqb (ck_plan_digest c) (digest vp))); [done|].
  assert (Hb : nodiv (fst (run_body sha256_hex repr catalog decide_node compensator engine_ceiling
    vp rr (is_replaying rr c) (fence_token (lease c)) sched (initial_run vp c s)))).
  2: { destruct (run_body _ _ _ _ _ _ _ _ _ _ _ _) as [res r]. exact Hb. }
  unfold run_body. unfold sbind at 1.
  destruct (persist sha256_hex (fence_token (lease c)) (initial_run vp c s)) as [[[]|e] r0] eqn:Hp.
  2: { pose proof (snodiv_persist sha256_hex (fence_token (lease c)) (initial_run vp c s)) as Hn.
       rewrite Hp in Hn. unfold nodiv in *. simpl in *. congruence. }
  assert (Hi : idle sha256_hex catalog decide_node vp (is_replaying rr c)
                 (effective_parallelism vp engine_ceiling) r0).
  { eapply idle_persist; [|exact Hp]. apply idle_fresh; [|by apply initial_fresh].
    apply effective_parallelism_pos. }
  unfold sbind at 1.
  destruct (main_loop _ _ _ _ _ _ _ _ _ _ _ r0) as [[[]|e] r1] eqn:Hl.
  2: { pose proof (main_loop_nodiv sha256_hex repr catalog decide_node vp rr (is_replaying rr c)
         (fence_token (lease c)) (effective_parallelism vp engine_ceiling) sched Hwf
         (effective_parallelism_pos _ _) Hfair (S (length (nodes (plan vp)))) r0 Hi) as Hn.
       rewrite Hl in Hn. unfold nodiv in *. simpl in *. intros He. apply Hn; [|congruence].
       unfold pend. pose proof (length_filter (unsettled (rs_states r0)) (order vp)).
       rewrite (wp_order _ Hwf) in *. unfold node_ids in *. rewrite length_map in *. lia. }
  match goal with |- nodiv (fst (?o r1)) => assert (Ho : snodiv o) end; [|exact (Ho r1)].
  apply snodiv_bind; [unfold lift_states; snodiv; apply nodiv_propagate|]. intros _.
  apply snodiv_bind; [apply snodiv_persist|]. intros _. apply snodiv_bind.
  - destruct (_ && _); [|done].
    assert (Hall : forall l, snodiv (compensate_all sha256_hex repr decide_node compensator vp
                                       (fence_token (lease c)) l)).
    { intros l. induction l as [|i l IH]; cbn [compensate_all]; [done|].
      unfold compensate_node. snodiv; first [apply snodiv_persist | nodiv]. }
    unfold compensate, compensation_candidates. snodiv; first [apply Hall | nodiv].
  - intros comps. unfold finish_run, unknown_of, report_post_init. snodiv;
      first [apply snodiv_save | nodiv].
Qed.

(** No run and no resume ever consumes an approval, whatever its outcome: only [admit_execution]
    does. *)
Theorem run_resume_keep_approvals vp c rr sched e projection policy expires s :
  approvals (snd (run vp c rr sched s)) = approvals s
  /\ approvals (snd (resume vp e projection policy expires sched s)) = approvals s.
Proof. split; [apply keeps_run|apply keeps_resume]. Qed.

(** ** Admission *)

Definition approval_needed (vp : ValidatedPlan) : bool :=
  existsb (fun n => approval_required (decide_node vp n (args n))) (nodes (plan vp)).

(** What an approval must satisfy to let the plan in at [now_ms]. *)
Definition approves (vp : ValidatedPlan) (a : Approval) (now_ms : Z) : Prop :=
  approval (plan vp) = Some a /\ approval_digest a = digest vp /\ now_ms < expires_at_ms a
  /\ forall i r, (i, Some r) ∈ resource_keys vp -> r ∈ scope a.

Lemma check_approval_Ok vp now_ms e s ref s' :
  in_transaction s = false ->
  check_approval decide_node vp now_ms e s = (Ok ref, s') ->
  (approval_needed vp = false /\ ref = VNone /\ s' = s)
  \/ approval_needed vp = true /\ exists a, approves vp a now_ms /\ ref = VStr (approval_id a)
     /\ approvals s !! (approval_id a, nonce a) = None
     /\ s' = mkStore (checkpoints s) (<[(approval_id a, nonce a) := e]> (approvals s)) false.
Proof.
  intros Htx Hc. unfold check_approval in Hc. fold (approval_needed vp) in Hc.
  destruct (approval_needed vp); cbn [negb] in Hc; [right; split; [done|]|left; by injection Hc as <- <-].
  destruct (approval (plan vp)) as [a|] eqn:Ha; [|done]. exists a.
  apply sbind_Ok in Hc as ([] & s1 & H1 & Hc). unfold slift in H1. injection H1 as H1 <-.
  apply sbind_Ok in Hc as ([] & s1 & H2 & Hc). unfold slift in H2. injection H2 as H2 <-.
  apply sbind_Ok in Hc as ([] & s1 & H3 & Hc). unfold slift in H3. injection H3 as H3 <-.
  apply sbind_Ok in Hc as (won & s1 & H4 & Hc). rewrite consume_cases in H4 by done.
  apply sbind_Ok in Hc as ([] & s2 & H5 & Hc). unfold slift in H5. injection H5 as H5 <-.
  unfold sret in Hc. injection Hc as <- <-. res_inv. bool_prop.
  destruct (approvals s !! (approval_id a, nonce a)) eqn:Hn; [by injection H4 as <- _|].
  injection H4 as _ <-. split; [|done]. split; [done|]. split; [done|]. split; [lia|].
  intros i r Hin. rewrite forallb_forall in H3. apply list_elem_of_In in Hin.
  specialize (H3 _ Hin). by apply str_in_elem.
Qed.

Lemma fresh_states_lookup ns i :
  (list_to_map (map (fun n => (id n, new_state (id n))) ns) : states_map) !! i
  = if bool_decide (i ∈ map id ns) then Some (new_state i) else None.
Proof.
  induction ns as [|n ns IH]; [done|]. cbn [map list_to_map foldr fst snd].
  destruct (decide (i = id n)) as [->|Hne].
  - rewrite lookup_insert, decide_True by done. by rewrite bool_decide_eq_true_2 by left.
  - rewrite lookup_insert_ne by done. rewrite IH.
    rewrite (bool_decide_ext (i ∈ id n :: map id ns) (i ∈ map id ns)); [done|].
    rewrite elem_of_cons. naive_solver.
Qed.

(** Admission: when some node needs approval, [admit_execution] succeeds only with an approval of
    exactly this plan digest, not expired, whose scope covers every literal resource, and it
    consumes it for this execution; the stored checkpoint has every node PENDING under a
    first lease. *)
Theorem admit_authority vp e principal projection policy now_ms expires is_replay s c s' :
  store_inv sha256_hex s ->
  admit_execution vp e principal projection policy now_ms expires is_replay s = (Ok c, s') ->
  enabled = true
  /\ (is_replay = false -> approval_needed vp = true ->
       exists a, approves vp a now_ms /\ approval_ref c = VStr (approval_id a)
       /\ approvals s !! (approval_id a, nonce a) = None
       /\ approvals s' !! (approval_id a, nonce a) = Some e)
  /\ (is_replay = true \/ approval_needed vp = false -> approvals s' = approvals s)
  /\ checkpoints s !! e = None
  /\ (exists row, checkpoints s' !! e = Some row /\ records sha256_hex e row c)
  /\ fence_token (lease c) = 1
  /\ forall i, node_states c !! i
            = if bool_decide (i ∈ node_ids (plan vp)) then Some (new_state i) else None.
Proof.
  intros [Htx Hrows] Ha. unfold DagEngine.admit_execution in Ha.
  apply sbind_Ok in Ha as ([] & s0 & Hen & Ha). unfold slift in Hen. injection Hen as Hen <-.
  apply raise_if_Ok, negb_false_iff in Hen.
  apply sbind_Ok in Ha as (ref & s1 & Hcheck & Ha).
  apply sbind_Ok in Ha as ([] & s2 & Hcreate & Ha). unfold sret in Ha. injection Ha as <- <-.
  set (c := mkCheckpoint e (digest vp) principal projection policy _ _ ref None _ _ is_replay) in *.
  assert (Hstates : forall i, node_states c !! i
     = if bool_decide (i ∈ node_ids (plan vp)) then Some (new_state i) else None).
  { intros i. apply fresh_states_lookup. }
  assert (Hwf : wf_checkpoint c).
  { intros i st Hst. rewrite Hstates in Hst. destruct (bool_decide _); [|done].
    by injection Hst as <-. }
  assert (Hs1 : in_transaction s1 = false /\ checkpoints s1 = checkpoints s).
  { destruct is_replay; [by injection Hcheck as _ <-|].
    apply check_approval_Ok in Hcheck as [(_ & _ & ->)|(_ & a & _ & _ & _ & ->)]; done. }
  destruct Hs1 as [Htx1 Hck1].
  destruct (create_cases sha256_hex c s1 Htx1) as [(er & Her & _)|(Hw & Hnone & Hok)];
    [rewrite Her in Hcreate; done|]. rewrite Hok in Hcreate. injection Hcreate as <-.
  rewrite Hck1 in Hnone. split; [done|]. split.
  { intros -> Hneed. apply check_approval_Ok in Hcheck as [(Hno & _)|(_ & a & Hap & Href & Hfree & ->)];
      [congruence| |done]. exists a. split; [done|]. split; [done|]. split; [done|].
    simpl. by rewrite lookup_insert, decide_True. }
  split.
  { intros Hor. simpl. destruct is_replay; [by injection Hcheck as _ <-|].
    destruct Hor as [?|Hno]; [done|].
    apply check_approval_Ok in Hcheck as [(_ & _ & ->)|(Hyes & _)]; [done|congruence|done]. }
  split; [done|]. split; [|by split].
  eexists. split; [simpl; by rewrite lookup_insert, decide_True|]. by apply stored_records.
Qed.
End Guarantees.
