(* ===== verification/DagReport.v ===== *)
(** * What the report of a run says: settled nodes, truthful status, resume and compensation

    The last part of [DagEngine.run] and [DagEngine.resume] ([v2/dag_engine.py]). *)
From S2P Require Import Prelude.
From S2P Require Import PyValue.
From S2P Require Import Canonical.
From S2P Require Import DagContract.
From S2P Require Import DagDigest.
From S2P Require Import DagTransform.
From S2P Require Import DagValidation.
From S2P Require Import DagOrder.
From S2P Require Import DagAdmission.
From S2P Require Import DagStore.
From S2P Require Import DagDurability.
From S2P Require Import DagEngine.
From S2P Require Import DagRun.
From S2P Require Import DagWave.
From S2P Require Import DagTrace.
From S2P Require Import DagProperties.
From S2P Require Import DagOutcome.
From S2P Require Import DagTermination.
From S2P Require Import DagGuarantees.

(** ** The fixpoint of [propagate] *)

Definition not_blocked (vp : ValidatedPlan) (m : states_map) (i : string) : Prop :=
  forall st n, m !! i = Some st -> status st = NodeStatus_PENDING ->
  plan_node (plan vp) i = Ok n -> blocked_reason m (depends_on n) = Ok None.

Definition pass_step (vp : ValidatedPlan) (acc : states_map * bool) (i : string) :
  result exn (states_map * bool) :=
  let! s := get_key (fst acc) i in
  if bool_decide (status s = NodeStatus_PENDING) then
    let! n := plan_node (plan vp) i in
    let! r := blocked_reason (fst acc) (depends_on n) in
    match r with
    | Some why => Ok (<[i := set_outcome s NodeStatus_SKIPPED (reason_value why)]> (fst acc), true)
    | None => Ok acc
    end
  else Ok acc.

Lemma pass_step_false vp m b i m' :
  pass_step vp (m, b) i = Ok (m', false) -> b = false /\ m' = m /\ not_blocked vp m i.
Proof.
  unfold pass_step, not_blocked. cbn [fst]. intros Hs.
  apply rbind_Ok in Hs as (s & Hs'%get_key_Ok & Hs).
  destruct (bool_decide_reflect (status s = NodeStatus_PENDING)) as [Hp|Hp].
  - apply rbind_Ok in Hs as (n & Hn & Hs). apply rbind_Ok in Hs as ([why|] & Hr & Hs); [done|].
    injection Hs as -> ->. split; [done|]. split; [done|]. intros st n' _ _ Hn'.
    rewrite Hn in Hn'. by injection Hn' as <-.
  - injection Hs as -> ->. split; [done|]. split; [done|]. intros st n Hst Hp'. congruence.
Qed.

Lemma pass_false vp m b ids m' :
  rfold (pass_step vp) (m, b) ids = Ok (m', false) ->
  b = false /\ m' = m /\ Forall (not_blocked vp m) ids.
Proof.
  revert m b. induction ids as [|i ids IH]; intros m b Hr; cbn [rfold] in Hr.
  - by injection Hr as -> ->.
  - apply rbind_Ok in Hr as ([m1 b1] & Hs & Hr). apply IH in Hr as (-> & -> & Hall).
    apply pass_step_false in Hs as (-> & -> & Hi). split; [done|]. split; [done|]. by constructor.
Qed.

Lemma propagate_fixpoint vp m m' : propagate vp m = Ok m' -> Forall (not_blocked vp m') (order vp).
Proof.
  unfold propagate. generalize (S (length (order vp))) as fuel. intros fuel. revert m.
  induction fuel as [|fuel IH]; intros m Hp; [done|]. cbn [propagate_loop] in Hp.
  apply rbind_Ok in Hp as ([m1 [|]] & H1 & Hp); cbn [fst snd] in Hp.
  - by eapply IH.
  - injection Hp as <-. by apply (pass_false vp m false (order vp) m1) in H1 as (_ & -> & ?).
Qed.

(** ** Every ready node is in the batch *)

Lemma ready_loop_complete vp m acc ids out n :
  wf_plan vp -> ready_loop vp m acc ids = Ok out -> id n ∈ ids -> ready_node vp m n -> n ∈ out.
Proof.
  intros Hwf. revert acc. induction ids as [|i ids IH]; intros acc Hr Hin Hn;
    [by apply not_elem_of_nil in Hin|]. cbn [ready_loop rfold] in Hr.
  apply rbind_Ok in Hr as (acc' & Hstep & Hr).
  apply elem_of_cons in Hin as [<-|Hin]; [|by eapply IH].
  destruct Hn as (Hnn & Hd & st & Hst & Hp).
  apply rbind_Ok in Hstep as (st' & Hst'%get_key_Ok & Hstep). rewrite Hst in Hst'. injection Hst' as <-.
  rewrite bool_decide_eq_true_2 in Hstep by done.
  apply rbind_Ok in Hstep as (n' & [Hn' Hid]%plan_node_Ok & Hstep).
  assert (n' = n) as -> by (by eapply node_unique).
  apply rbind_Ok in Hstep as (ok & Hok & Hstep).
  assert (Hall : forall deps, (forall d, d ∈ deps -> exists st, m !! d = Some st /\ status st = NodeStatus_SUCCESS) ->
            all_success m deps = Ok true).
  { induction deps as [|d deps IHd]; intros Hds; [done|]. cbn [all_success].
    destruct (Hds d ltac:(by left)) as (sd & Hsd & Hok').
    rewrite (proj2 (get_key_Ok m d sd) Hsd). cbn [rbind].
    rewrite bool_decide_eq_true_2 by done. apply IHd. intros. apply Hds. by right. }
  rewrite (Hall _ Hd) in Hok. injection Hok as <-. injection Hstep as <-.
  fold (ready_loop vp m (acc ++ [n]) ids) in Hr.
  apply ready_loop_Ok in Hr as (new & -> & _). rewrite !elem_of_app. left; right. by left.
Qed.

Lemma ready_nodes_complete vp m batch n :
  wf_plan vp -> ready_nodes vp m = Ok batch -> ready_node vp m n -> n ∈ batch.
Proof.
  intros Hwf (new & Hnew & ->)%ready_nodes_loop Hn. eapply ready_loop_complete; [done|exact Hnew| |done].
  rewrite (wp_order _ Hwf). apply (list_elem_of_fmap_2 id). apply Hn.
Qed.

(** ** Settled nodes *)

Definition all_settled (vp : ValidatedPlan) (m : states_map) : Prop :=
  forall n, n ∈ nodes (plan vp) -> exists st, m !! id n = Some st /\ terminal_node_status (status st) = true.

Lemma blocked_none_success m deps :
  blocked_reason m deps = Ok None ->
  (forall d, d ∈ deps -> exists st, m !! d = Some st /\ terminal_node_status (status st) = true) ->
  forall d, d ∈ deps -> exists st, m !! d = Some st /\ status st = NodeStatus_SUCCESS.
Proof.
  induction deps as [|x deps IH]; intros Hb Hall d Hd; [by apply not_elem_of_nil in Hd|].
  cbn [blocked_reason] in Hb. apply rbind_Ok in Hb as (st & Hst%get_key_Ok & Hb).
  destruct (Hall x ltac:(by left)) as (st' & Hst' & Ht). rewrite Hst in Hst'. injection Hst' as <-.
  apply elem_of_cons in Hd as [->|Hd].
  - exists st. split; [done|]. by destruct (status st).
  - apply IH; [|intros; apply Hall; by right|done]. by destruct (status st).
Qed.

Lemma no_ready_settled vp m :
  wf_plan vp -> settled_or_pending vp m -> Forall (not_blocked vp m) (order vp) ->
  ready_nodes vp m = Ok [] -> all_settled vp m.
Proof.
  intros Hwf Hm Hnb Hr.
  assert (Hprefix : forall l1 l2, order vp = l1 ++ l2 -> forall n, n ∈ nodes (plan vp) -> id n ∈ l1 ->
            exists st, m !! id n = Some st /\ terminal_node_status (status st) = true).
  { induction l1 as [|i l1 IH] using rev_ind; intros l2 Heq n Hn Hin; [by apply not_elem_of_nil in Hin|].
    rewrite <- app_assoc in Heq. simpl in Heq.
    apply elem_of_app in Hin as [Hin|Hin%list_elem_of_singleton]; [by eapply IH|].
    destruct (Hm n Hn) as (st & Hst & [Hp|Ht]); [|by exists st]. exfalso.
    assert (Hready : n ∈ @nil Node); [|by apply not_elem_of_nil in Hready].
    eapply ready_nodes_complete; [done|exact Hr|]. split; [done|]. split; [|by exists st].
    refine (blocked_none_success m (depends_on n) _ _).
    - rewrite Forall_forall in Hnb. apply (Hnb (id n)) with st; [|done..|].
      + rewrite Heq, Hin. apply elem_of_app. right. by left.
      + unfold plan_node. by rewrite (find_node_NoDup n _ (wp_ids _ Hwf) Hn).
    - intros d Hd. pose proof (wp_deps _ Hwf n d Hn Hd) as Hknown.
      apply list_elem_of_fmap in Hknown as (nd & -> & Hnd). eapply IH; [exact Heq|done|].
      eapply (wp_before _ Hwf n); [done| |exact Hd]. by rewrite Heq, Hin. }
  intros n Hn. apply (Hprefix (order vp) []); [by rewrite app_nil_r|done|].
  rewrite (wp_order _ Hwf). by apply (list_elem_of_fmap_2 id).
Qed.

(** After [skip_pending] nothing is pending. *)
Lemma skip_pending_settled vp m m' :
  wf_plan vp -> settled_or_pending vp m -> skip_pending vp m = Ok m' -> all_settled vp m'.
Proof.
  intros Hwf Hm Hs n Hn.
  assert (Hdone : forall ids m0, (exists st, m0 !! id n = Some st
             /\ (status st = NodeStatus_PENDING /\ id n ∈ ids \/ terminal_node_status (status st) = true)) ->
           rfold (fun m i => let! s := get_key m i in
               Ok (if bool_decide (status s = NodeStatus_PENDING)
                   then <[i := set_outcome s NodeStatus_SKIPPED (reason_value UPSTREAM_ABORT)]> m
                   else m)) m0 ids = Ok m' ->
           exists st, m' !! id n = Some st /\ terminal_node_status (status st) = true).
  { induction ids as [|i ids IH]; intros m0 (st & Hst & Hor) Hr; cbn [rfold] in Hr.
    - injection Hr as <-. exists st. split; [done|].
      destruct Hor as [[_ Hin]|]; [by apply not_elem_of_nil in Hin|done].
    - apply rbind_Ok in Hr as (m1 & Hstep & Hr). apply rbind_Ok in Hstep as (s & Hs0%get_key_Ok & Hstep).
      injection Hstep as <-. eapply IH; [|exact Hr].
      destruct (bool_decide_reflect (status s = NodeStatus_PENDING)) as [Hp|Hp].
      + destruct (decide (i = id n)) as [->|Hne].
        * rewrite lookup_insert, decide_True by done. eexists. split; [done|]. by right.
        * rewrite lookup_insert_ne by done. exists st. split; [done|].
          destruct Hor as [[Hpe Hin]|]; [left|by right]. split; [done|].
          apply elem_of_cons in Hin as [Hi|?]; [congruence|done].
      + exists st. split; [done|]. destruct Hor as [[Hpe Hin]|]; [left|by right]. split; [done|].
        apply elem_of_cons in Hin as [Hi|?]; [congruence|done]. }
  apply (Hdone (order vp) m); [|exact Hs]. destruct (Hm n Hn) as (st & Hst & Hor). exists st.
  split; [done|]. destruct Hor as [Hp|Ht]; [left|by right]. split; [done|].
  rewrite (wp_order _ Hwf). by apply (list_elem_of_fmap_2 id).
Qed.

Section Settles.
Variable sha256_hex : string -> string.
Variable repr : value -> string.
Context {C : Type} `{ToolCatalog C} (catalog : C).
Variable decide_node : ValidatedPlan -> Node -> list (string * value) -> NodeDecision.
Variable vp : ValidatedPlan.
Variable replay_results : option (list (string * value)).
Variable replaying : bool.
Variable fence : Z.
Variable parallelism : Z.
Variable sched : wave -> choice.
Hypothesis plan_wf : wf_plan vp.
Hypothesis some_parallelism : 1 <= parallelism.

Abbreviation idle := (idle sha256_hex catalog decide_node vp replaying parallelism).

(** The states at the end of the main loop: settled, and unchanged by a last [propagate]. *)
Lemma main_loop_settled fuel r r' u :
  idle r -> settled_or_pending vp (rs_states r) -> rs_aborted r && fail_fast vp = false ->
  main_loop sha256_hex repr catalog decide_node vp replay_results replaying fence fuel parallelism
    sched r = (Ok u, r') ->
  all_settled vp (rs_states r').
Proof.
  revert r. induction fuel as [|fuel IH]; intros r Hi Hm Hab Hl; [done|]. cbn [main_loop] in Hl.
  apply sbind_Ok in Hl as ([] & r1 & (m & Hp & ->)%lift_states_Ok & Hl).
  pose proof (propagate_Ok _ _ _ Hp) as Hskips.
  pose proof (idle_skips _ _ _ _ _ _ _ _ Hi Hskips) as Hi1.
  pose proof (skips_settled vp _ _ Hskips Hm) as Hm1.
  set (r1 := set_states (fun _ => m) r) in *.
  apply sbind_Ok in Hl as (r1' & r1'' & Hg & Hl). unfold sget in Hg. injection Hg as <- <-.
  apply sbind_Ok in Hl as (batch & r2 & Hr & Hl). unfold slift in Hr. injection Hr as Hr <-.
  change (rs_aborted r1) with (rs_aborted r) in Hl. rewrite Hab in Hl.
  destruct batch as [|n batch].
  { unfold sret in Hl. injection Hl as _ <-. eapply no_ready_settled; [done|exact Hm1| |exact Hr].
    by eapply propagate_fixpoint. }
  apply sbind_Ok in Hl as ([] & r2 & Hgat & Hl).
  destruct (gather_result _ _ _ _ _ _ _ _ _ _ plan_wf some_parallelism _ _ _ _ Hi1 Hr Hgat) as [Hi2 Hres].
  apply sbind_Ok in Hl as ([] & r3 & Hper & Hl).
  pose proof (idle_persist _ _ _ _ _ _ _ _ _ _ Hi2 Hper) as Hi3.
  apply persist_sane in Hper as (_ & Hst3 & _); [|apply Hi2].
  assert (Hm3 : settled_or_pending vp (rs_states r3)).
  { rewrite Hst3. intros x Hx. specialize (Hres (id x)).
    destruct (bool_decide (id x ∈ map id (n :: batch))).
    - destruct Hres as (st & Hst & Ht). exists st. split; [done|by right].
    - rewrite Hres. by apply Hm1. }
  apply sbind_Ok in Hl as (r3' & r3'' & Hg & Hl). unfold sget in Hg. injection Hg as <- <-.
  destruct (rs_aborted r3 && fail_fast vp) eqn:Hab3; [|by eapply IH].
  apply sbind_Ok in Hl as ([] & r4 & (m4 & Hsk & ->)%lift_states_Ok & Hl).
  apply persist_sane in Hl as (_ & -> & _).
  - simpl. by eapply skip_pending_settled.
  - apply (idle_skips _ _ _ _ _ _ _ _ Hi3 (skip_pending_Ok _ _ _ Hsk)).
Qed.
End Settles.

(** ** Compensation *)

Section Compensation.
Variable sha256_hex : string -> string.
Variable repr : value -> string.
Variable decide_node : ValidatedPlan -> Node -> list (string * value) -> NodeDecision.
Variable compensator : option (Node -> string -> compensate_outcome).
Variable vp : ValidatedPlan.
Variable fence : Z.

Abbreviation compensate_node := (compensate_node sha256_hex repr decide_node compensator vp fence).
Abbreviation compensate_all := (compensate_all sha256_hex repr decide_node compensator vp fence).
Abbreviation compensate := (compensate sha256_hex repr decide_node compensator vp fence).

(** The outcomes a compensation can have. *)
Definition compensation_status (x : NodeStatus) : Prop :=
  x = NodeStatus_COMPENSATED \/ x = NodeStatus_COMPENSATION_UNSAFE
  \/ x = NodeStatus_COMPENSATION_FAILED \/ x = NodeStatus_COMPENSATION_INDETERMINATE.

(** The recorded outcome is COMPENSATED exactly when governance allowed it and the compensator
    verified it. *)
Definition truly_compensated (n : Node) (ref : string) : Prop :=
  exists comp, compensator = Some comp /\ allowed (decide_node vp n (args n)) = true
  /\ comp n ref = CompVerified true.

Lemma update_sane i f r r' u :
  sane sha256_hex r -> (forall s, node_id (f s) = node_id s) -> update_state i f r = (Ok u, r') ->
  sane sha256_hex r' /\ exists s, rs_states r !! i = Some s /\ rs_states r' = <[i := f s]> (rs_states r).
Proof.
  intros Hs Hf (s & Hst & Hch)%update_state_Ok. split.
  - eapply changed_sane; [exact Hs|exact Hst|apply Hf|exact Hch].
  - exists s. destruct Hch as [rec ->]. done.
Qed.

Lemma compensate_node_Ok i r o r' :
  sane sha256_hex r -> compensate_node i r = (Ok o, r') ->
  exists n s s', plan_node (plan vp) i = Ok n /\ rs_states r !! i = Some s
  /\ rs_states r' = <[i := s']> (rs_states r) /\ compensation_status (status s')
  /\ fst o = (i, to_str repr (effect_ref s))
  /\ (status s' = NodeStatus_COMPENSATED <-> truly_compensated n (to_str repr (effect_ref s)))
  /\ (snd o = "COMPENSATED" <-> truly_compensated n (to_str repr (effect_ref s)))
  /\ sane sha256_hex r'.
Proof.
  intros Hs Hc. unfold DagEngine.compensate_node in Hc.
  apply sbind_Ok in Hc as (n & r1 & Hn & Hc). unfold slift in Hn. injection Hn as Hn <-.
  apply sbind_Ok in Hc as (s & r1 & Hg & Hc). unfold get_state in Hg. injection Hg as Hst%get_key_Ok <-.
  apply sbind_Ok in Hc as ([] & r1 & Hput & Hc). unfold put_state, smodify in Hput. injection Hput as <-.
  apply sbind_Ok in Hc as (k & r1 & Hk & Hc). unfold slift in Hk. injection Hk as _ <-.
  assert (Hs1 : sane sha256_hex (set_states <[i := set_status s NodeStatus_COMPENSATION_PENDING]> r)).
  { destruct Hs as [Hinv Hkey]. split; [done|]. simpl. apply map_Forall_insert_2; [|done]. simpl.
    by apply Hkey. }
  apply sbind_Ok in Hc as ([] & r2 & Hu & Hc). apply update_sane in Hu as (Hs2 & s2 & Hst2 & Hr2); [|done..].
  apply sbind_Ok in Hc as ([] & r3 & Hp & Hc).
  apply persist_sane in Hp as (Hs3 & Hr3 & _); [|done]. rewrite Hr2 in Hr3.
  simpl in Hr3. rewrite insert_insert, decide_True in Hr3 by done.
  assert (Htail : forall f (o : string * string * string) r',
    (forall s, node_id (f s) = node_id s) ->
    (do* update_state i f in do* persist sha256_hex fence in sret o) r3 = (Ok o, r') ->
    exists s', rs_states r' = <[i := s']> (rs_states r) /\ (exists s0, s' = f s0) /\ sane sha256_hex r').
  { intros f o' r'' Hf Ht. apply sbind_Ok in Ht as ([] & r4 & Hu & Ht).
    apply update_sane in Hu as (Hs4 & s4 & _ & Hr4); [|done..].
    apply sbind_Ok in Ht as ([] & r5 & Hp & Ht). unfold sret in Ht. injection Ht as <-.
    apply persist_sane in Hp as (Hs5 & Hr5 & _); [|done]. exists (f s4).
    rewrite Hr5, Hr4, Hr3. rewrite insert_insert, decide_True by done. split_and!; [done|by exists s4|done]. }
  assert (Hret : forall f (o' : string * string * string),
    (do* update_state i f in do* persist sha256_hex fence in sret o') r3 = (Ok o, r') -> o' = o).
  { intros f o' Ht. apply sbind_Ok in Ht as ([] & r4 & _ & Ht).
    apply sbind_Ok in Ht as ([] & r5 & _ & Ht). unfold sret in Ht. by injection Ht as ->. }
  exists n, s. unfold truly_compensated. destruct compensator as [comp|] eqn:Hcomp.
  - destruct (allowed (decide_node vp n (args n))) eqn:Hal; cbn [negb] in Hc.
    + pose proof (Hret _ _ Hc) as <-. apply Htail in Hc as (s' & Hr' & (s0 & ->) & Hs');
        [|intros; apply compensated_state_id]. exists (fst (compensated_state (comp n (to_str repr (effect_ref s))) s0)).
      unfold compensation_status. cbn [fst snd].
      destruct (comp n (to_str repr (effect_ref s))) as [[]| |] eqn:Ho; cbn [compensated_state fst snd];
        split_and!; try done; try tauto; split; try done; try (intros (c & [= <-] & _ & Hx); congruence);
        intros _; by exists comp.
    + pose proof (Hret _ _ Hc) as <-. apply Htail in Hc as (s' & Hr' & (s0 & ->) & Hs'); [|done].
      eexists. unfold compensation_status. cbn [fst snd]. split_and!; try done; [by right; left|..];
        (split; [done|]); intros (c & _ & Hx & _); congruence.
  - pose proof (Hret _ _ Hc) as <-. apply Htail in Hc as (s' & Hr' & (s0 & ->) & Hs'); [|done].
    eexists. unfold compensation_status. cbn [fst snd]. split_and!; try done; [by right; left|..];
      (split; [done|]); intros (c & Hx & _); congruence.
Qed.

(** What compensating one node must have done. *)
Definition compensation_done (r r' : RunState) (o : string * string * string) : Prop :=
  exists n s s', plan_node (plan vp) (fst (fst o)) = Ok n /\ rs_states r !! fst (fst o) = Some s
  /\ rs_states r' !! fst (fst o) = Some s' /\ compensation_status (status s')
  /\ snd (fst o) = to_str repr (effect_ref s)
  /\ (status s' = NodeStatus_COMPENSATED <-> truly_compensated n (snd (fst o)))
  /\ (snd o = "COMPENSATED" <-> truly_compensated n (snd (fst o))).

Lemma compensate_all_Ok cs r os r' :
  sane sha256_hex r -> NoDup cs -> compensate_all cs r = (Ok os, r') ->
  map (fun o => fst (fst o)) os = cs
  /\ (forall i, i ∉ cs -> rs_states r' !! i = rs_states r !! i)
  /\ Forall (compensation_done r r') os /\ sane sha256_hex r'.
Proof.
  revert r os. induction cs as [|i cs IH]; intros r os Hs Hnd Hc; cbn [DagEngine.compensate_all] in Hc.
  - unfold sret in Hc. injection Hc as <- <-. by split_and!.
  - apply NoDup_cons in Hnd as [Hi Hnd]. apply sbind_Ok in Hc as (o & r1 & Ho & Hc).
    apply sbind_Ok in Hc as (os' & r2 & Hos & Hc). unfold sret in Hc. injection Hc as <- <-.
    apply compensate_node_Ok in Ho as (n & s & s' & Hn & Hst & Hr1 & Hcs & Hfst & Hiff & Hout & Hs1); [|done].
    apply IH in Hos as (Hmap & Hkeep & Hall & Hs2); [|done..].
    destruct o as [[i' ref] out]. cbn [fst snd] in *. injection Hfst as -> ->.
    cbn [map fst]. split; [by rewrite Hmap|]. split; [|split; [|done]].
    + intros j Hj. apply not_elem_of_cons in Hj as [Hne Hj]. rewrite Hkeep by done.
      by rewrite Hr1, lookup_insert_ne.
    + constructor.
      * exists n, s, s'. cbn [fst snd]. split_and!; try done.
        rewrite Hkeep by done. by rewrite Hr1, lookup_insert, decide_True.
      * rewrite Forall_forall in *. intros [[j ref] out'] Hin.
        destruct (Hall _ Hin) as (nj & sj & sj' & H1 & H2 & H3). exists nj, sj, sj'.
        cbn [fst snd] in *. split; [done|]. split; [|done].
        rewrite Hr1 in H2. rewrite lookup_insert_ne in H2; [done|]. intros ->. apply Hi.
        rewrite <- Hmap. by apply (list_elem_of_fmap_2 (fun o => fst (fst o)) _ (j, ref, out')).
Qed.

(** A node that has to be compensated when the plan does not complete. *)
Definition compensable (m : states_map) (i : string) : Prop :=
  exists s n, m !! i = Some s /\ status s = NodeStatus_SUCCESS /\ truthy (effect_ref s) = true
  /\ plan_node (plan vp) i = Ok n /\ is_Some (compensation n).

Lemma candidates_loop m acc ids out :
  rfold (fun acc i =>
           let! s := get_key m i in
           if bool_decide (status s = NodeStatus_SUCCESS) && truthy (effect_ref s) then
             let! n := plan_node (plan vp) i in
             Ok (match compensation n with Some _ => acc ++ [i] | None => acc end)
           else Ok acc) acc ids = Ok out ->
  exists cs, out = acc ++ cs /\ cs `sublist_of` ids
  /\ forall i, i ∈ cs <-> i ∈ ids /\ compensable m i.
Proof.
  revert acc. induction ids as [|i ids IH]; intros acc Hr; cbn [rfold] in Hr.
  - injection Hr as <-. exists []. rewrite app_nil_r. split_and!; [done..|].
    intros i. split; [by intros ?%not_elem_of_nil|]. by intros [?%not_elem_of_nil _].
  - apply rbind_Ok in Hr as (acc' & Hstep & Hr). apply IH in Hr as (cs & -> & Hsub & Hiff).
    apply rbind_Ok in Hstep as (s & Hs%get_key_Ok & Hstep).
    assert (Hskip : ~ compensable m i -> acc' = acc ->
      exists cs0, acc' ++ cs = acc ++ cs0 /\ cs0 `sublist_of` i :: ids
      /\ forall j, j ∈ cs0 <-> j ∈ i :: ids /\ compensable m j).
    { intros Hno ->. exists cs. split; [done|]. split; [by apply sublist_cons|].
      intros j. rewrite Hiff, elem_of_cons. naive_solver. }
    destruct (bool_decide_reflect (status s = NodeStatus_SUCCESS)) as [Hok|Hok]; cbn [andb] in Hstep.
    2: { injection Hstep as <-. apply Hskip; [|done].
         intros (s0 & n & Hs0 & ? & _). congruence. }
    destruct (truthy (effect_ref s)) eqn:Ht; cbn [andb] in Hstep.
    2: { injection Hstep as <-. apply Hskip; [|done].
         intros (s0 & n & Hs0 & _ & ? & _). congruence. }
    apply rbind_Ok in Hstep as (n & Hn & Hstep). injection Hstep as <-.
    destruct (compensation n) as [c|] eqn:Hc.
    + exists (i :: cs). rewrite <- app_assoc. split; [done|]. split; [by apply sublist_skip|].
      intros j. rewrite !elem_of_cons, Hiff. split; [|tauto].
      intros [->|?]; [|tauto]. split; [by left|]. exists s, n. by split_and!.
    + apply Hskip; [|done]. intros (s0 & n0 & _ & _ & _ & Hn0 & Hc0). rewrite Hn in Hn0.
      injection Hn0 as <-. rewrite Hc in Hc0. by destruct Hc0.
Qed.

(** The two ways [compensate] can return. *)
Lemma compensate_facts r os r' :
  wf_plan vp -> sane sha256_hex r -> compensate r = (Ok os, r') ->
  (r' = r /\ os = [] /\ (plan_status_from (rs_states r) false = PlanStatus_COMPLETED
                        \/ forall i, i ∈ order vp -> ~ compensable (rs_states r) i))
  \/ (plan_status_from (rs_states r) false <> PlanStatus_COMPLETED
      /\ map (fun o => fst (fst o)) os `sublist_of` rev (order vp)
      /\ (forall i, i ∈ map (fun o => fst (fst o)) os <-> i ∈ order vp /\ compensable (rs_states r) i)
      /\ (forall i, i ∉ map (fun o => fst (fst o)) os -> rs_states r' !! i = rs_states r !! i)
      /\ Forall (compensation_done r r') os).
Proof.
  intros Hwf Hs Hc. unfold DagEngine.compensate in Hc.
  apply sbind_Ok in Hc as (r0 & r0' & Hg & Hc). unfold sget in Hg. injection Hg as <- <-.
  apply sbind_Ok in Hc as (cs & r1 & Hcs & Hc). unfold slift in Hcs. injection Hcs as Hcs <-.
  apply (candidates_loop _ []) in Hcs as (cs' & -> & Hsub & Hiff). cbn [app] in *.
  assert (Hiff' : forall i, i ∈ cs' <-> i ∈ order vp /\ compensable (rs_states r) i).
  { intros i. rewrite Hiff, !list_elem_of_In, <- in_rev. done. }
  destruct cs' as [|c cs]; [unfold sret in Hc; injection Hc as <- <-; left|].
  { split_and!; try done. right. intros i Hi Hcomp.
    assert (Hin : i ∈ @nil string) by (by apply Hiff'). by apply not_elem_of_nil in Hin. }
  destruct (bool_decide_reflect (plan_status_from (rs_states r) false = PlanStatus_COMPLETED)) as [Hd|Hd].
  { unfold sret in Hc. injection Hc as <- <-. left. split_and!; try done. by left. }
  right. split; [done|]. apply compensate_all_Ok in Hc as (Hmap & Hkeep & Hall & _); [|done|].
  - rewrite Hmap. split_and!; done.
  - eapply sublist_NoDup; [|exact Hsub]. rewrite <- Permutation_rev, (wp_order _ Hwf).
    apply Hwf.
Qed.
End Compensation.

(** ** Counting statuses *)

Lemma count_status_items x m :
  count_status x m = length (filter (fun ks => status (snd ks) = x) (map_items m)).
Proof. unfold count_status. by rewrite map_items_perm. Qed.

Lemma any_status_true x m : any_status x m = true <-> exists i s, m !! i = Some s /\ status s = x.
Proof.
  unfold any_status. rewrite negb_true_iff, Nat.eqb_neq, count_status_items. split.
  - intros Hn. destruct (filter _ (map_items m)) as [|[i s] l] eqn:Hf; [done|].
    assert (Hin : (i, s) ∈ filter (fun ks => status (snd ks) = x) (map_items m)) by (rewrite Hf; by left).
    apply list_elem_of_filter in Hin as [Hs Hin%elem_of_map_items]. by exists i, s.
  - intros (i & s & Hi & Hs) H0.
    assert (Hin : (i, s) ∈ filter (fun ks => status (snd ks) = x) (map_items m)).
    { apply list_elem_of_filter. split; [done|]. by apply elem_of_map_items. }
    destruct (filter _ (map_items m)); [by apply not_elem_of_nil in Hin|done].
Qed.

Lemma length_filter_all {A} (P : A -> Prop) `{!forall x, Decision (P x)} (l : list A) :
  length (filter P l) = length l <-> Forall P l.
Proof.
  induction l as [|x l IH]; [by split|]. rewrite filter_cons, Forall_cons.
  pose proof (length_filter P l) as Hle. destruct (decide (P x)) as [Hx|Hx]; cbn [length].
  - rewrite <- IH. split; [intros [= ?]; tauto|intros [_ ->]; done].
  - split; [intros Hl; exfalso; lia|tauto].
Qed.

Lemma size_items {A} (m : gmap string A) : size m = length (map_items m).
Proof. by rewrite map_items_perm, length_map_to_list. Qed.

(** COMPLETED means that every node succeeded. *)
Lemma completed_iff m ab :
  (ab = true -> any_status NodeStatus_SUCCESS m = false) ->
  plan_status_from m ab = PlanStatus_COMPLETED
  <-> map_items m <> [] /\ Forall (fun ks => status (snd ks) = NodeStatus_SUCCESS) (map_items m).
Proof.
  intros Hab. unfold plan_status_from. rewrite <- length_filter_all, <- count_status_items, <- size_items.
  assert (Hne : map_items m <> [] <-> size m <> 0%nat).
  { rewrite size_items. destruct (map_items m); simpl; naive_solver. }
  rewrite Hne. split.
  - destruct (any_status NodeStatus_DEAD_LETTER m), (any_status NodeStatus_INDETERMINATE m), ab; try done.
    destruct (Nat.eqb_spec (size m) 0), (Nat.eqb_spec (count_status NodeStatus_SUCCESS m) (size m));
      cbn [negb andb]; try done; by destruct (negb _).
  - intros [Hsz Hcount]. assert (Hall := Hcount).
    rewrite count_status_items, size_items, length_filter_all in Hall.
    assert (Hno : forall x, x <> NodeStatus_SUCCESS -> any_status x m = false).
    { intros x Hx. apply not_true_is_false. intros (i & s & Hi & Hs)%any_status_true.
      rewrite Forall_forall in Hall. apply elem_of_map_items in Hi. specialize (Hall _ Hi).
      simpl in Hall. congruence. }
    rewrite !Hno by done.
    assert (Hyes : any_status NodeStatus_SUCCESS m = true).
    { destruct (map_items m) as [|[i s] l] eqn:Hl; [by rewrite size_items, Hl in Hsz|].
      apply any_status_true. exists i, s. split; [|by apply Forall_cons in Hall as [? _]].
      apply elem_of_map_items. rewrite Hl. by left. }
    destruct ab; [by rewrite Hab in Hyes|].
    rewrite Hcount, Nat.eqb_refl. by destruct (Nat.eqb_spec (size m) 0).
Qed.

(** ** The properties of the report *)

Section Report.
Variable sha256_hex : string -> string.
Variable repr : value -> string.
Context {C : Type} `{ToolCatalog C} (catalog : C).
Variable decide_node : ValidatedPlan -> Node -> list (string * value) -> NodeDecision.
Variable reconciler : option (Node -> value -> reconcile_outcome).
Variable compensator : option (Node -> string -> compensate_outcome).
Variables (enabled : bool) (engine_ceiling : Z) (engine_owner : string).

Abbreviation run :=
  (run sha256_hex repr catalog decide_node compensator enabled engine_ceiling).
Abbreviation resume :=
  (resume sha256_hex repr catalog decide_node reconciler compensator enabled engine_ceiling
     engine_owner).

(** [C25] No silent side effect: the report of a run lists as unknown exactly the nodes whose
    outcome is INDETERMINATE or DEAD_LETTER, and then says so in its status; it says COMPLETED
    exactly when every node succeeded; and the status and node states are on disk. *)
Theorem report_truthful vp c rr sched s rep s' :
  wf_plan vp -> store_inv sha256_hex s -> wf_checkpoint c ->
  run vp c rr sched s = (Ok rep, s') ->
  map (fun u => fst (fst u)) (unknown_effects rep)
    = map fst (filter (fun ix => snd ix = NodeStatus_INDETERMINATE \/ snd ix = NodeStatus_DEAD_LETTER)
                 (node_statuses rep))
  /\ (unknown_effects rep <> [] ->
      report_status rep = PlanStatus_INDETERMINATE \/ report_status rep = PlanStatus_DEAD_LETTER)
  /\ (report_status rep = PlanStatus_COMPLETED
      <-> node_statuses rep <> [] /\ Forall (fun ix => snd ix = NodeStatus_SUCCESS) (node_statuses rep))
  /\ exists row c', checkpoints s' !! execution_id c = Some row
     /\ records sha256_hex (execution_id c) row c'
     /\ ck_status c' = Some (report_status rep)
     /\ node_statuses rep = map (fun ks => (fst ks, status (snd ks))) (map_items (node_states c')).
Proof.
  intros Hwf Hs Hc Hr.
  apply run_report in Hr as (r1 & r3 & comps & r4 & Hi & Hb & Hcalls & Hs3 & Hf & ->); [|done..].
  assert (Hid : execution_id (rs_checkpoint r3) = execution_id c).
  { destruct Hcalls as (_ & _ & _ & _ & ->). 
    eapply between_execution in Hb;
      [exact Hb|done|apply effective_parallelism_pos|by apply initial_fresh]. }
  apply finish_run_Ok in Hf as ((unknown & Hu & ->) & _ & _ & row & c' & Hrow & Hrec & Hst & Hck); [|done].
  cbn [unknown_effects node_statuses report_status]. rewrite Hid in *.
  assert (Hmap : map (fun u => fst (fst u)) unknown
    = map fst (filter (fun ix => snd ix = NodeStatus_INDETERMINATE \/ snd ix = NodeStatus_DEAD_LETTER)
                 (map (fun ks => (fst ks, status (snd ks))) (map_items (rs_states r3))))).
  { unfold unknown_of in Hu. apply rmap_Ok in Hu.
    assert (Hf : forall l, map fst (filter (fun ix : string * NodeStatus =>
        snd ix = NodeStatus_INDETERMINATE \/ snd ix = NodeStatus_DEAD_LETTER)
        (map (fun ks : string * NodeState => (fst ks, status (snd ks))) l))
      = map fst (filter (fun ks => is_unknown (snd ks) = true) l)).
    { induction l as [|[k st] l IH]; [done|]. cbn [map fst snd]. rewrite !filter_cons. cbn [snd].
      assert (Heq : is_unknown st = true <-> status st = NodeStatus_INDETERMINATE \/ status st = NodeStatus_DEAD_LETTER)
        by apply bool_decide_eq_true.
      case_decide as Ha; case_decide as Hb'; cbn [map fst]; try tauto; by rewrite IH. }
    rewrite Hf. clear Hf. induction Hu as [|ks u l us Hk _ IH]; [done|]. cbn [map]. rewrite IH.
    f_equal. apply rbind_Ok in Hk as (n & _ & [= <-]). done. }
  split; [exact Hmap|]. split; [|split].
  - intros Hne. assert (Hex : exists i st, rs_states r3 !! i = Some st
      /\ (status st = NodeStatus_INDETERMINATE \/ status st = NodeStatus_DEAD_LETTER)).
    { unfold unknown_of in Hu. apply rmap_Ok in Hu.
      destruct (filter (fun ks => is_unknown (snd ks) = true) (map_items (rs_states r3)))
        as [|[i st] l] eqn:Hfl; [by apply Forall2_nil_inv_l in Hu|].
      assert (Hin : (i, st) ∈ filter (fun ks => is_unknown (snd ks) = true) (map_items (rs_states r3)))
        by (rewrite Hfl; by left).
      apply list_elem_of_filter in Hin as [Hun Hin%elem_of_map_items].
      exists i, st. split; [done|]. by apply bool_decide_eq_true in Hun. }
    destruct Hex as (i & st & Hi' & Hor). unfold run_status, plan_status_from.
    destruct (any_status NodeStatus_DEAD_LETTER (rs_states r3)) eqn:Hdl; [by right|].
    destruct (any_status NodeStatus_INDETERMINATE (rs_states r3)) eqn:Hin; [by left|exfalso].
    destruct Hor as [Hor|Hor];
      [apply not_true_iff_false in Hin; apply Hin|apply not_true_iff_false in Hdl; apply Hdl];
      apply any_status_true; by exists i, st.
  - unfold run_status. rewrite completed_iff.
    + rewrite Forall_fmap. split; intros [Hne Hall]; (split; [|done]); by destruct (map_items (rs_states r3)).
    + by intros [_ ?%negb_true_iff]%andb_true_iff.
  - exists row, c'. split_and!; try done. by rewrite Hst.
Qed.

(** A compensation leaves each node as it was, or with a final outcome of compensation. *)
Lemma compensate_states vp fence r os r' i :
  wf_plan vp -> sane sha256_hex r ->
  compensate sha256_hex repr decide_node compensator vp fence r = (Ok os, r') ->
  rs_states r' !! i = rs_states r !! i
  \/ exists st, rs_states r' !! i = Some st /\ compensation_status (status st).
Proof.
  intros Hwf Hs Hc. apply compensate_facts in Hc as [(-> & _ & _)|(_ & _ & _ & Hkeep & Hall)];
    [by left| |done..].
  destruct (decide (i ∈ map (fun o => fst (fst o)) os)) as [Hin|Hnin]; [right|left; by apply Hkeep].
  apply list_elem_of_fmap in Hin as (o & -> & Ho). rewrite Forall_forall in Hall.
  destruct (Hall _ Ho) as (n & st & st' & _ & _ & Hst & Hcs & _). by exists st'.
Qed.


(** ** Resume *)

(** Why [resume] may run a node again. *)
Definition resumable (vp : ValidatedPlan) (i : string) (st : NodeState) : Prop :=
  status st = NodeStatus_PENDING
  \/ (status st = NodeStatus_SKIPPED /\ exists r, reason_code st = VStr r /\ r ∈ RETRYABLE_SKIPS)
  \/ ((status st = NodeStatus_DISPATCHED \/ status st = NodeStatus_INDETERMINATE)
      /\ exists rec n, reconciler = Some rec /\ plan_node (plan vp) i = Ok n
         /\ rec n (or_empty (idempotency_key st)) = RecAbsent).

(** A fold that rewrites each entry of a map on its own key. *)
Lemma rfold_items (P : string -> NodeState -> Prop)
  (f : states_map -> string * NodeState -> result exn states_map) (m m' : states_map) :
  (forall acc ks acc', ks ∈ map_items m -> map_Forall P acc -> f acc ks = Ok acc' -> map_Forall P acc') ->
  map_Forall P m -> rfold f m (map_items m) = Ok m' -> map_Forall P m'.
Proof. intros Hf Hm. by apply (rfold_inv (map_Forall P) f). Qed.

(** What [resume] makes pending was resumable. *)
Lemma resume_states_pending vp m m' i st :
  resume_states repr decide_node reconciler vp m = Ok m' ->
  m' !! i = Some st -> status st = NodeStatus_PENDING ->
  exists st0, m !! i = Some st0 /\ resumable vp i st0.
Proof.
  intros Hr. unfold resume_states in Hr. apply rbind_Ok in Hr as (m1 & H1 & H2). revert st.
  set (Q := fun (j : string) (x : NodeState) =>
         status x = NodeStatus_PENDING -> exists st0, m !! j = Some st0 /\ resumable vp j st0).
  assert (HQ1 : map_Forall (fun j x => Q j x /\ (status x = NodeStatus_SKIPPED -> m !! j = Some x)) m1).
  { eapply (rfold_items _ _ m m1); [|intros j x Hj; split; [intros Hp; exists x; by split; [|left]|done]
      |exact H1]. intros acc [j x] acc' Hin%elem_of_map_items Hacc Hstep. cbn [reconcile_state] in Hstep.
    destruct (bool_decide_reflect (status x = NodeStatus_DISPATCHED \/ status x = NodeStatus_INDETERMINATE))
      as [Hx|_]; [|by injection Hstep as <-].
    apply rbind_Ok in Hstep as (n & Hn & Hstep). injection Hstep as <-.
    destruct reconciler as [rec|] eqn:Hrec; [destruct (rec n (or_empty (idempotency_key x))) eqn:Hans|];
      (apply map_Forall_insert_2; [|done]); (split; [|done]); try done.
    intros _. exists x. split; [done|]. right; right. split; [done|]. rewrite Hrec. by exists rec, n. }
  assert (HQ2 : map_Forall Q (retry_state <$> m1)).
  { intros j x Hj. apply lookup_fmap_Some in Hj as (y & <- & Hy). destruct (HQ1 j y Hy) as [HQ Hskip].
    unfold retry_state.
    destruct (bool_decide_reflect (status y = NodeStatus_SKIPPED)) as [Hs|]; cbn [andb]; [|done].
    destruct (reason_code y) as [| | |r| | | |] eqn:Hreason; try done.
    destruct (str_in r RETRYABLE_SKIPS) eqn:Hin; [|done]. intros _. exists y.
    split; [by apply Hskip|]. right; left. split; [done|]. exists r. split; [done|]. by apply str_in_elem. }
  assert (HQ3 : map_Forall Q m').
  { eapply (rfold_items _ _ _ m'); [|exact HQ2|exact H2].
    intros acc [j x] acc' _ Hacc Hstep. cbn [redecide_state] in Hstep.
    destruct (bool_decide (status x = NodeStatus_PENDING)); [|by injection Hstep as <-].
    apply rbind_Ok in Hstep as (n & Hn & Hstep). injection Hstep as <-.
    destruct (allowed _); [done|]. by apply map_Forall_insert_2. }
  intros st Hst Hp. by apply (HQ3 i st Hst).
Qed.

(** [resume] keeps the entries of the checkpoint, each under its key. *)
Lemma resume_states_keep vp m m' i :
  map_Forall (fun k s => node_id s = k) m ->
  resume_states repr decide_node reconciler vp m = Ok m' ->
  map_Forall (fun k s => node_id s = k) m' /\ (is_Some (m !! i) -> is_Some (m' !! i)).
Proof.
  intros Hwf Hr. unfold resume_states in Hr. apply rbind_Ok in Hr as (m1 & H1 & H2).
  set (P := fun acc : states_map => map_Forall (fun k s => node_id s = k) acc /\ (is_Some (m !! i) -> is_Some (acc !! i))) in *.
  assert (Hput : forall acc j (x y : NodeState), P acc -> node_id x = j -> node_id y = node_id x -> P (<[j := y]> acc)).
  { intros acc j x y [Hacc Hin] Hx Hy. split; [apply map_Forall_insert_2; [congruence|done]|].
    intros Hi. destruct (decide (j = i)) as [->|Hne]; [rewrite lookup_insert, decide_True by done; by eexists|].
    rewrite lookup_insert_ne by done. by apply Hin. }
  assert (HP1 : P m1).
  { eapply (rfold_inv P); [|by split|exact H1].
    intros acc [j x] acc' Hin%elem_of_map_items Hacc Hstep. cbn [reconcile_state] in Hstep.
    destruct (bool_decide _); [|by injection Hstep as <-].
    apply rbind_Ok in Hstep as (n & _ & Hstep). injection Hstep as <-. specialize (Hwf j x Hin).
    destruct reconciler as [rec|]; [destruct (rec n _)|]; by apply (Hput acc j x). }
  assert (HP2 : P (retry_state <$> m1)).
  { destruct HP1 as [Hk Hy]. split; [|intros Hi; rewrite lookup_fmap, fmap_is_Some; by apply Hy].
    intros j x Hj. apply lookup_fmap_Some in Hj as (z & <- & Hz). unfold retry_state.
    destruct (_ && _); exact (Hk j z Hz). }
  assert (Hk2 := proj1 HP2). eapply (rfold_inv P); [|exact HP2|exact H2].
  intros acc [j x] acc' Hin%elem_of_map_items Hacc Hstep. cbn [redecide_state] in Hstep.
  destruct (bool_decide _); [|by injection Hstep as <-].
  apply rbind_Ok in Hstep as (n & _ & Hstep). injection Hstep as <-. specialize (Hk2 j x Hin).
  destruct (allowed _); [done|]. by apply (Hput acc j x).
Qed.

Lemma normal_states_idem (m : states_map) : normal_state <$> (normal_state <$> m) = normal_state <$> m.
Proof.
  rewrite <- map_fmap_compose. apply map_fmap_ext. intros i x _. unfold compose, normal_state. cbn.
  by rewrite !normal_idem.
Qed.

(** The states that [resume] hands to [run]: made from what [load] returns. *)
Lemma resume_run vp e projection policy expires sched s rep s' c0 :
  store_inv sha256_hex s -> load sha256_hex repr e s = (Ok c0, s) ->
  resume vp e projection policy expires sched s = (Ok rep, s') ->
  exists m c s1, resume_states repr decide_node reconciler vp (node_states c0) = Ok m
  /\ node_states c = m /\ execution_id c = e /\ store_inv sha256_hex s1
  /\ map_Forall (fun k st => node_id st = k) (node_states c0)
  /\ run vp c None sched s1 = (Ok rep, s').
Proof.
  intros Hs Hload Hr. unfold DagEngine.resume in Hr.
  apply sbind_Ok in Hr as (c0' & s0 & Hl & Hr). rewrite Hload in Hl. injection Hl as <- <-.
  apply sbind_Ok in Hr as ([] & s0 & Hdig & Hr). unfold slift in Hdig. injection Hdig as _ <-.
  apply sbind_Ok in Hr as (l & s1 & Hacq & Hr).
  destruct (acquire_cases sha256_hex repr e engine_owner expires s Hs)
    as [(_ & Ha)|(row & c & l' & Hrow & Hrec & -> & Ha)]; rewrite Ha in Hacq; [done|].
  injection Hacq as <- <-. rewrite (load_records _ _ e row c s Hrow Hrec) in Hload.
  destruct (bool_decide_reflect (ck_schema_version c = CHECKPOINT_SCHEMA_VERSION)) as [Hsv|];
    [|done]. injection Hload as <-.
  apply sbind_Ok in Hr as (c1 & s2 & Hl1 & Hr).
  set (l := mkLease _ _ _ _) in *. set (c' := with_lease (normal_checkpoint c) l) in *.
  set (row' := stored _ _ _ c') in *. set (s1 := set_row e row' s) in *.
  destruct (Hrec) as (He & Hwfc & Hv & Hns & _).
  assert (Hrec' : records sha256_hex e row' c').
  { assert (execution_id c' = e) as <- by done. apply stored_records; [by apply wf_normal|].
    split; [by apply valid_body_lease|by apply no_secrets_body_lease]. }
  assert (Hs1 : store_inv sha256_hex s1).
  { destruct (set_row_inv sha256_hex e row' c' s Hs Hrec') as [_ Hi]. split; [apply Hs|exact Hi]. }
  rewrite (load_records _ _ e row' c' s1) in Hl1; [|simpl; by rewrite lookup_insert, decide_True|done].
  rewrite bool_decide_eq_true_2 in Hl1 by done. injection Hl1 as <- <-.
  apply sbind_Ok in Hr as (m & s2 & Hm & Hr). unfold slift in Hm. injection Hm as Hm <-.
  cbn [node_states normal_checkpoint with_lease] in Hm. rewrite normal_states_idem in Hm.
  assert (Hkeys : map_Forall (fun k st => node_id st = k) (normal_state <$> node_states c)).
  { intros k x Hk. apply lookup_fmap_Some in Hk as (y & <- & Hy). exact (Hwfc k y Hy). }
  assert (Hkeys' : map_Forall (fun k st => node_id st = k) m).
  { by apply (resume_states_keep vp _ _ e Hkeys) in Hm as [? _]. }
  apply sbind_Ok in Hr as ([] & s2 & Hsave & Hr).
  match type of Hr with DagEngine.run _ _ _ _ _ _ _ _ ?ck _ _ _ = _ => set (cr := ck) in * end.
  exists m, cr, s2. split_and!; try done.
  destruct (save_cases sha256_hex cr (fence_token l) s1 (proj1 Hs1)) as [(er & Her & _)|(row2 & Hw & _ & _ & Hok)];
    [by rewrite Her in Hsave|]. rewrite Hok in Hsave. injection Hsave as <-.
  destruct (set_row_inv sha256_hex (execution_id cr) (stored sha256_hex (row_plan_digest row2) (fence_token l) cr) cr s1 Hs1) as [_ Hi].
  - by apply stored_records.
  - split; [apply Hs1|exact Hi].
Qed.

End Report.
