(* ===== verification/DagWitness.v ===== *)
(** * Concrete executions of the DAG engine

    One plan that reads an issue and then comments on it, admitted, run to the end, failed and
    compensated, replayed and resumed: the inputs at which the theorems about [v2/dag_engine.py]
    are applied. *)
From S2P Require Import Prelude.
From S2P Require Import PyValue.
From S2P Require Import Canonical.
From S2P Require Import DagContract.
From S2P Require Import DagDigest.
From S2P Require Import DagTransform.
From S2P Require Import DagValidation.
From S2P Require Import DagOrder.
From S2P Require Import DagAdmission.
From S2P Require Import DagStore.
From S2P Require Import DagDurability.
From S2P Require Import DagEngine.
From S2P Require Import DagRun.
From S2P Require Import DagWave.
From S2P Require Import DagTrace.
From S2P Require Import DagProperties.
From S2P Require Import DagOutcome.
From S2P Require Import DagTermination.
From S2P Require Import DagGuarantees.
From S2P Require Import DagReport.

(** ** A scheduler that always makes progress *)

Definition pick (f : phase -> bool) (ts : list (Node * phase)) : option (Node * phase) :=
  List.find (fun np => f (snd np)) ts.

Definition is_blocked (p : phase) : bool := match p with Blocked _ => true | _ => false end.
Definition is_waiting (p : phase) : bool := match p with Waiting => true | _ => false end.

(** Deliver what is awaited; else wake a blocked task; else start a waiting one. *)
Definition greedy (answer : string -> exec_outcome) (w : wave) : choice :=
  match pick in_flight (w_tasks w) with
  | Some (n, _) => Deliver (id n) (answer (id n))
  | None =>
      match pick is_blocked (w_tasks w) with
      | Some (n, _) => Resume (id n)
      | None => match pick is_waiting (w_tasks w) with
                | Some (n, _) => Resume (id n)
                | None => Resume ""
                end
      end
  end.

Lemma pick_phase f ts n p :
  NoDup (task_ids ts) -> pick f ts = Some (n, p) -> phase_of (id n) ts = Some (n, p) /\ f p = true.
Proof.
  unfold pick, phase_of, task_ids. induction ts as [|[m q] ts IH]; [done|].
  cbn [List.find fst snd map]. intros [Hm Hnd]%NoDup_cons. destruct (f q) eqn:Hq.
  - intros [= <- <-]. by rewrite String.eqb_refl.
  - intros Hp. destruct (IH Hnd Hp) as [Hph Hf]. split; [|done].
    destruct (String.eqb_spec (id m) (id n)) as [He|]; [exfalso|done]. apply Hm. rewrite He.
    apply find_some in Hp as [Hin _]. apply list_elem_of_In in Hin.
    by apply (list_elem_of_fmap_2 (fun np => id (fst np)) ts (n, p)).
Qed.

Lemma pick_none f ts : pick f ts = None -> Forall (fun np => f (snd np) = false) ts.
Proof.
  unfold pick. intros Hn. apply Forall_forall. intros np Hin.
  apply (find_none _ _ Hn). by apply list_elem_of_In.
Qed.

Lemma greedy_fair parallelism answer : 1 <= parallelism -> fair parallelism (greedy answer).
Proof.
  intros Hp w Hnd Hfin. unfold greedy.
  destruct (pick in_flight (w_tasks w)) as [[n p]|] eqn:Hf.
  { apply pick_phase in Hf as [Hph Hf]; [|done]. cbn [enabled_choice]. rewrite Hph. by destruct p. }
  apply pick_none in Hf.
  assert (Hfree : forall x, locked x (w_tasks w) = false).
  { intros x. unfold locked. apply not_true_is_false. intros (np & Hin & Hh)%existsb_exists.
    rewrite Forall_forall in Hf. apply list_elem_of_In in Hin. specialize (Hf _ Hin).
    by rewrite (not_held _ Hf) in Hh. }
  destruct (pick is_blocked (w_tasks w)) as [[n p]|] eqn:Hb.
  { apply pick_phase in Hb as [Hph Hb]; [|done]. cbn [enabled_choice]. rewrite Hph.
    destruct p; try done. by rewrite Hfree. }
  apply pick_none in Hb.
  destruct (pick is_waiting (w_tasks w)) as [[n p]|] eqn:Hw.
  { apply pick_phase in Hw as [Hph Hw]; [|done]. cbn [enabled_choice]. rewrite Hph.
    destruct p; try done. apply Z.ltb_lt. unfold slots.
    destruct (List.filter _ _) as [|np l] eqn:Hl; [simpl; lia|exfalso].
    assert (Hin : In np (np :: l)) by (by left). rewrite <- Hl in Hin.
    apply List.filter_In in Hin as [Hin Hs]. apply list_elem_of_In in Hin.
    rewrite Forall_forall in Hf, Hb. specialize (Hf _ Hin). specialize (Hb _ Hin).
    by destruct (snd np). }
  exfalso. apply pick_none in Hw. apply not_true_iff_false in Hfin. apply Hfin.
  apply forallb_forall. intros np Hin%list_elem_of_In. rewrite Forall_forall in Hf, Hb, Hw.
  specialize (Hf _ Hin). specialize (Hb _ Hin). specialize (Hw _ Hin). by destruct (snd np).
Qed.

(** ** A run *)

Definition no_hash (s : string) : string := s.
Definition no_repr (v : value) : string := "".

(** Governance that allows everything, and one that wants approval for the write. *)
Definition allow_all (vp : ValidatedPlan) (n : Node) (a : list (string * value)) : NodeDecision :=
  mkDecision true None false.
Definition ask_writes (vp : ValidatedPlan) (n : Node) (a : list (string * value)) : NodeDecision :=
  mkDecision true None (String.eqb (id n) "c").

Definition undo (n : Node) (ref : string) : compensate_outcome := CompVerified true.

Definition demo_wf : wf_plan demo_validated :=
  validated_wf demo_catalog no_hash no_hash demo_write_plan demo_validated demo_write_constructed
    demo_validated_eq.

Definition demo_admission (is_replay : bool) : result exn Checkpoint * Store :=
  admit_execution no_hash allow_all true "engine-0" demo_validated "e1" "user" "proj" "pol" 0 60000 is_replay
    empty_store.

Definition demo_start (is_replay : bool) : Checkpoint :=
  match demo_admission is_replay with
  | (Ok c, _) => c
  | (Err _, _) => demo_checkpoint
  end.

Definition demo_store (is_replay : bool) : Store := snd (demo_admission is_replay).

(** The answers of the tools; [lost] loses the answer of the write. *)
Definition answers (lost : bool) (i : string) : exec_outcome :=
  if String.eqb i "a" then ExecResult [("number", VInt 7); ("title", VStr "bug")]
  else if lost then ExecIndeterminate "timeout" else ExecResult [("id", VInt 1)].

Abbreviation demo_run is_replay lost :=
  (run no_hash no_repr demo_catalog allow_all (Some undo) true 2 demo_validated
     (demo_start is_replay) None (greedy (answers lost)) (demo_store is_replay)).

Example demo_completes :
  match fst (demo_run false false) with
  | Ok rep => report_status rep = PlanStatus_COMPLETED /\ report_dispatch_order rep = ["a"; "c"]
  | Err _ => False
  end.
Proof. by vm_compute. Qed.

Example demo_lost :
  match fst (demo_run false true) with
  | Ok rep => report_status rep = PlanStatus_INDETERMINATE
  | Err _ => False
  end.
Proof. by vm_compute. Qed.

Lemma demo_start_wf b : wf_checkpoint (demo_start b).
Proof. refine (bool_decide_unpack _ _). destruct b; by vm_compute. Qed.

Lemma demo_store_inv b : store_inv no_hash (demo_store b).
Proof.
  assert (Heq : demo_store b = run_calls no_hash no_repr empty_store [CallCreate (demo_start b)])
    by (destruct b; by vm_compute).
  rewrite Heq. apply run_calls_inv; [apply empty_store_inv|].
  constructor; [apply demo_start_wf|constructor].
Qed.

Lemma demo_pending b : settled_or_pending demo_validated (initial_states demo_validated (demo_start b)).
Proof.
  assert (Hall : forallb (fun n => match initial_states demo_validated (demo_start b) !! id n with
                                   | Some st => bool_decide (status st = NodeStatus_PENDING)
                                   | None => false
                                   end) (nodes (plan demo_validated)) = true)
    by (destruct b; by vm_compute).
  intros n Hn%list_elem_of_In. rewrite forallb_forall in Hall. specialize (Hall n Hn).
  destruct (_ !! id n) as [st|]; [|done]. exists st. split; [done|]. left.
  by apply bool_decide_eq_true in Hall.
Qed.

(** The report of a run that returns. *)
Definition the_report (o : result exn ExecutionReport * Store) : ExecutionReport :=
  match fst o with
  | Ok rep => rep
  | Err _ => mkReport PlanStatus_ABORTED "" "" [] [] [] [] [] 0 0 false []
  end.

Abbreviation report_of o := (fst o = Ok (the_report o)).

Lemma run_pair {A B} (o : result exn A * B) a : fst o = Ok a -> o = (Ok a, snd o).
Proof. destruct o as [x y]. simpl. by intros ->. Qed.

(** ** The theorems at these inputs *)

(** Two waves: first [a], then [c], whose executor is awaited. *)
Definition demo_r0 : RunState :=
  snd (persist no_hash 1 (initial_run demo_validated (demo_start false) (demo_store false))).
Abbreviation demo_steps :=
  (run_choices no_hash no_repr demo_catalog allow_all demo_validated None false 1 1).
Definition demo_w1 : wave :=
  snd (demo_steps [Resume "a"; Deliver "a" (answers false "a")] (start_wave demo_r0 [demo_a])).
Definition demo_w2 : wave := snd (demo_steps [Resume "c"] (start_wave (w_run demo_w1) [demo_write])).

Lemma demo_in_wave :
  in_wave no_hash no_repr demo_catalog allow_all demo_validated None false 1 1
    (initial_run demo_validated (demo_start false) (demo_store false)) demo_w2.
Proof.
  exists (w_run demo_w1), [demo_write], [Resume "c"]. split; [|split; by vm_compute].
  apply (between_wave _ _ _ _ _ _ _ _ _ _ demo_r0 [demo_a]
           [Resume "a"; Deliver "a" (answers false "a")] demo_w1); try by vm_compute.
  apply between_start. by vm_compute.
Qed.

Definition demo_key : value :=
  match phase_of "c" (w_tasks demo_w2) with Some (_, InFlight _ k _) => k | _ => VNone end.
Definition demo_args : list (string * value) :=
  match phase_of "c" (w_tasks demo_w2) with Some (_, InFlight _ _ a) => a | _ => [] end.

Lemma demo_tasks : (demo_write, InFlight (Some "github:o/r") demo_key demo_args) ∈ w_tasks demo_w2.
Proof. assert (Ht : w_tasks demo_w2 = [(demo_write, InFlight (Some "github:o/r") demo_key demo_args)]) by (by vm_compute).
  rewrite Ht. by left. Qed.

Lemma write_ahead_before_call_witness :
  exists st, durable no_hash (w_run demo_w2) "c" st /\ status st = NodeStatus_DISPATCHED
  /\ idempotency_key st = demo_key.
Proof.
  destruct (write_ahead_before_call no_hash no_repr demo_catalog allow_all demo_validated None false 1 1
              (demo_start false) (demo_store false) demo_w2 demo_write (Some "github:o/r") demo_key demo_args
              demo_wf ltac:(lia) (demo_store_inv _) (demo_start_wf _) demo_in_wave demo_tasks
              ltac:(by vm_compute)) as (st & key & -> & _ & Hd & Hs & Hk).
  by exists st.
Defined.

Lemma waves_exclude_witness : count_tasks in_flight (w_tasks demo_w2) <= 1.
Proof.
  apply (waves_exclude no_hash no_repr demo_catalog allow_all demo_validated None false 1 1
           (demo_start false) (demo_store false) demo_w2 demo_wf ltac:(lia) (demo_store_inv _)
           (demo_start_wf _) demo_in_wave).
Defined.

Definition demo_report (is_replay lost : bool) : ExecutionReport := the_report (demo_run is_replay lost).
Definition demo_end (is_replay lost : bool) : Store := snd (demo_run is_replay lost).

Lemma demo_run_Ok is_replay lost :
  demo_run is_replay lost = (Ok (demo_report is_replay lost), demo_end is_replay lost).
Proof. destruct is_replay, lost; by vm_compute. Qed.


Lemma replay_no_effects_witness :
  report_external_calls (demo_report true false) = 0.
Proof.
  pose proof (replay_no_effects no_hash no_repr demo_catalog allow_all (Some undo) true 2 demo_validated
           (demo_start true) None (greedy (answers false)) (demo_store true) (demo_report true false)
           (demo_end true false) demo_wf
           (demo_store_inv _) (demo_start_wf _) ltac:(by vm_compute) (demo_run_Ok true false)) as [He _].
  exact He.
Defined.

Lemma run_dispatches_pending_witness : status (new_state "c") = NodeStatus_PENDING.
Proof.
  refine (run_dispatches_pending no_hash no_repr demo_catalog allow_all (Some undo) true 2 demo_validated
           (demo_start false) None (greedy (answers false)) (demo_store false) (demo_report false false)
           (demo_end false false) "c" (new_state "c") demo_wf
           (demo_store_inv _) (demo_start_wf _) (demo_run_Ok false false) _ _); [|by vm_compute].
  refine (bool_decide_unpack _ _). by vm_compute.
Defined.

Lemma run_terminates_witness : nodiv (fst (demo_run false true)).
Proof.
  apply (run_terminates no_hash no_repr demo_catalog allow_all (Some undo) true 2 demo_validated
           (demo_start false) None _ (demo_store false) demo_wf (demo_store_inv _) (demo_start_wf _)).
  apply greedy_fair. apply effective_parallelism_pos.
Defined.

Lemma report_truthful_witness :
  report_status (demo_report false true) = PlanStatus_INDETERMINATE
  /\ map (fun u => fst (fst u)) (unknown_effects (demo_report false true)) = ["c"].
Proof.
  destruct (report_truthful no_hash no_repr demo_catalog allow_all (Some undo) true 2 demo_validated
           (demo_start false) None (greedy (answers true)) (demo_store false) (demo_report false true)
           (demo_end false true) demo_wf
           (demo_store_inv _) (demo_start_wf _) (demo_run_Ok false true)) as (-> & _).
  split; by vm_compute.
Defined.


(** Admission with an approval of exactly this plan. *)
Definition approved : ValidatedPlan :=
  let p := demo_write_plan in
  let a := mkApproval "ap1" (digest demo_validated) "n1" 100 ["o/r"; "github:o/r"] [] false [] in
  match validate_plan no_hash
          (mkPlan (plan_id p) (nodes p) (budget p) (failure_policy p) (deadline_ms p)
             (rollback_policy p) (Some a) (dry_run p) (schema_version p) (mode p) (plan_description p))
          demo_catalog with
  | Ok vp => vp
  | Err _ => demo_validated
  end.

Lemma admit_authority_witness :
  exists a, approves approved a 50 /\ approval_id a = "ap1".
Proof.
  destruct (admit_execution no_hash ask_writes true "engine-0" approved "e1" "user" "proj" "pol" 50 60000 false
              empty_store) as [[c|e] s'] eqn:Ha.
  - destruct (admit_authority no_hash ask_writes true "engine-0" approved "e1" "user" "proj" "pol" 50 60000
                false empty_store c s' (empty_store_inv _) Ha) as (_ & Happ & _).
    destruct (Happ eq_refl ltac:(by vm_compute)) as (a & H1 & H2 & _). exists a. split; [done|].
    destruct H1 as [H1 _]. vm_compute in H1. by injection H1 as <-.
  - vm_compute in Ha. discriminate Ha.
Defined.

(** A plan whose write succeeded and whose last node failed is compensated. *)
Definition failed_run : RunState :=
  let r := initial_run demo_validated (demo_start false) (demo_store false) in
  set_states (fun _ =>
    <["c" := mkNodeState "c" NodeStatus_SUCCESS 1 (VStr "k") (VStr "1") VNone VNone VNone]>
      {["a" := mkNodeState "a" NodeStatus_FAILED 1 VNone VNone VNone VNone VNone]}) r.


(** The run lost the answer of the write; a resume whose reconciler finds no effect runs it
    again. *)
Definition nothing_there (n : Node) (key : value) : reconcile_outcome := RecAbsent.

Abbreviation demo_resume :=
  (resume no_hash no_repr demo_catalog allow_all (Some nothing_there) (Some undo) true 2 "engine-1"
    demo_validated "e1" "proj" "pol" 120000 (greedy (answers false)) (demo_end false true)).

Definition resume_report : ExecutionReport := the_report demo_resume.
Definition resume_end : Store := snd demo_resume.
Definition lost_checkpoint : Checkpoint :=
  match fst (load no_hash no_repr "e1" (demo_end false true)) with Ok c => c | Err _ => demo_checkpoint end.
Definition lost_state : NodeState := default (new_state "c") (node_states lost_checkpoint !! "c").

Lemma demo_end_inv : store_inv no_hash (demo_end false true).
Proof.
  apply (run_keeps_inv no_hash no_repr demo_catalog allow_all (Some undo) true 2 demo_validated
           (demo_start false) None (greedy (answers true)) (demo_store false) (demo_report false true)
           (demo_end false true) demo_wf (demo_store_inv _) (demo_start_wf _) (demo_run_Ok false true)).
Qed.

