(* ===== verification/ToolSchema.v ===== *)
(** * Tool definitions ([v2/schema.py], [v2/enums.py], [v2/errors.py])

    The typed, validated description of one tool, and its canonical projection.  The errors carry
    no message: the models translate every validation failure into one class. *)
From S2P Require Import Prelude.
From S2P Require Import PyText.
From S2P Require Import PyValue.
From S2P Require Import Canonical.

(** ** Errors; [SchemaTooDeep] is the model's own (fuel), and is never raised (below) *)

Inductive registry_exn : Type :=
| RegistryValidationError | DuplicateToolError | DuplicateCapabilityError | UnknownToolError
| UnknownCapabilityError | RegistryFrozenError | PolicyValidationError
| RegistryRaised (e : py_error) | SchemaTooDeep.

Definition raise_registry {A} (m : result py_error A) : result registry_exn A :=
  match m with Ok a => Ok a | Err e => Err (RegistryRaised e) end.

(** [if cond: raise RegistryValidationError(...)] *)
Definition invalid_if (b : bool) : result registry_exn unit := raise_if b RegistryValidationError.

(** ** Vocabularies *)

Inductive ExecutionMode : Type :=
| Mode_DIRECT | Mode_BATCH | Mode_DAG | Mode_RUNBOOK | Mode_HYBRID | Mode_AGENTIC.
Definition mode_value (m : ExecutionMode) : string :=
  match m with
  | Mode_DIRECT => "DIRECT" | Mode_BATCH => "BATCH" | Mode_DAG => "DAG"
  | Mode_RUNBOOK => "RUNBOOK" | Mode_HYBRID => "HYBRID" | Mode_AGENTIC => "AGENTIC"
  end.

Inductive SecurityTier : Type := T0 | T1 | T2 | T3 | T4.
Definition tier_value (t : SecurityTier) : string :=
  match t with T0 => "T0" | T1 => "T1" | T2 => "T2" | T3 => "T3" | T4 => "T4" end.
(** [SecurityTier.is_read_only_tier], [SecurityTier.is_destructive] *)
Definition is_read_only_tier (t : SecurityTier) : bool :=
  match t with T0 | T1 => true | _ => false end.
Definition tier_destructive (t : SecurityTier) : bool := match t with T4 => true | _ => false end.

Inductive MutationClass : Type :=
| Class_NONE | Class_LOW | Class_STANDARD | Class_PRIVILEGED | Class_DESTRUCTIVE.
Definition class_value (c : MutationClass) : string :=
  match c with
  | Class_NONE => "NONE" | Class_LOW => "LOW" | Class_STANDARD => "STANDARD"
  | Class_PRIVILEGED => "PRIVILEGED" | Class_DESTRUCTIVE => "DESTRUCTIVE"
  end.
(** [MutationClass.mutates], [MutationClass.is_destructive] *)
Definition mutates (c : MutationClass) : bool := match c with Class_NONE => false | _ => true end.
Definition class_destructive (c : MutationClass) : bool :=
  match c with Class_DESTRUCTIVE => true | _ => false end.

Inductive IdempotencySemantics : Type :=
| Idem_READ | Idem_NATURALLY_IDEMPOTENT | Idem_KEYED_IDEMPOTENT | Idem_BY_PRECONDITION
| Idem_NON_IDEMPOTENT.
Definition idempotency_value (i : IdempotencySemantics) : string :=
  match i with
  | Idem_READ => "READ" | Idem_NATURALLY_IDEMPOTENT => "NATURALLY_IDEMPOTENT"
  | Idem_KEYED_IDEMPOTENT => "KEYED_IDEMPOTENT"
  | Idem_BY_PRECONDITION => "IDEMPOTENT_BY_PRECONDITION"
  | Idem_NON_IDEMPOTENT => "NON_IDEMPOTENT"
  end.

Inductive RetryClass : Type := RETRY_SAFE | RETRY_CONDITIONAL | NO_RETRY.
Definition retry_value (r : RetryClass) : string :=
  match r with
  | RETRY_SAFE => "RETRY_SAFE" | RETRY_CONDITIONAL => "RETRY_CONDITIONAL" | NO_RETRY => "NO_RETRY"
  end.

Inductive ApprovalRequirement : Type := Appr_NOT_REQUIRED | Appr_CONDITIONAL | Appr_REQUIRED.
Definition approval_requirement_value (a : ApprovalRequirement) : string :=
  match a with
  | Appr_NOT_REQUIRED => "NOT_REQUIRED" | Appr_CONDITIONAL => "CONDITIONAL"
  | Appr_REQUIRED => "REQUIRED"
  end.

Inductive ResultShaping : Type := Shape_UNSUPPORTED | Shape_SUPPORTED | Shape_REQUIRED.
Definition shaping_value (r : ResultShaping) : string :=
  match r with
  | Shape_UNSUPPORTED => "UNSUPPORTED" | Shape_SUPPORTED => "SUPPORTED"
  | Shape_REQUIRED => "REQUIRED"
  end.

Inductive Stability : Type := Stab_EXPERIMENTAL | Stab_BETA | Stab_STABLE | Stab_DEPRECATED.
Definition stability_value (s : Stability) : string :=
  match s with
  | Stab_EXPERIMENTAL => "EXPERIMENTAL" | Stab_BETA => "BETA" | Stab_STABLE => "STABLE"
  | Stab_DEPRECATED => "DEPRECATED"
  end.

#[export] Instance ExecutionMode_eq_dec : EqDecision ExecutionMode.
Proof. solve_decision. Defined.
#[export] Instance SecurityTier_eq_dec : EqDecision SecurityTier.
Proof. solve_decision. Defined.
#[export] Instance MutationClass_eq_dec : EqDecision MutationClass.
Proof. solve_decision. Defined.
#[export] Instance IdempotencySemantics_eq_dec : EqDecision IdempotencySemantics.
Proof. solve_decision. Defined.
#[export] Instance RetryClass_eq_dec : EqDecision RetryClass.
Proof. solve_decision. Defined.
#[export] Instance ApprovalRequirement_eq_dec : EqDecision ApprovalRequirement.
Proof. solve_decision. Defined.
#[export] Instance ResultShaping_eq_dec : EqDecision ResultShaping.
Proof. solve_decision. Defined.
#[export] Instance Stability_eq_dec : EqDecision Stability.
Proof. solve_decision. Defined.

(** ** Identifiers *)

Definition is_ident_outer (c : ascii) : bool := is_lower c || is_num c.
Definition is_ident_inner (c : ascii) : bool := is_ident_outer c || one_of "_-" c.

Definition IDENTIFIER_SEGMENTS (s : string) : bool :=
  forallb (bracketed is_ident_outer is_ident_inner) (split_on "." s).

Definition WILDCARD_TOKENS : list string := ["*"; "?"; "["; "]"; "**"].

(** [normalize_identifier] on a string *)
Definition normalize_identifier (raw : string) : result registry_exn string :=
  let v := lower (py_strip raw) in
  do! invalid_if (String.eqb v "") in
  do! rfor (fun token => invalid_if (contains token v)) WILDCARD_TOKENS in
  do! invalid_if (negb (IDENTIFIER_SEGMENTS v)) in
  Ok v.

(** ** Credential names *)

Definition SENSITIVE_CREDENTIAL_NAMES : list string :=
  ["password"; "passwd"; "secret"; "token"; "api_key"; "apikey"; "authorization"; "cookie";
   "private_key"; "credential"].

Definition MATERIALIZING_KEYWORDS : list string := ["default"; "const"; "example"; "examples"].

Definition is_sensitive_property_name (name : string) : bool :=
  str_in (lower (py_strip name)) SENSITIVE_CREDENTIAL_NAMES.

Definition is_sensitive_identifier (name : string) : bool :=
  let lowered := lower (py_strip name) in
  str_in lowered SENSITIVE_CREDENTIAL_NAMES
  || existsb (fun segment => negb (String.eqb segment "") && str_in segment SENSITIVE_CREDENTIAL_NAMES)
       (split_any (one_of "._-") lowered).

Definition reject_sensitive_identifier (v : string) : result registry_exn unit :=
  invalid_if (is_sensitive_identifier v).

(** [_is_materialized] *)
Definition is_materialized (v : value) : bool :=
  match v with
  | VNone => false
  | VStr s => 0 <? py_len s
  | VList l => match l with [] => false | _ => true end
  | VDict d => match d with [] => false | _ => true end
  | _ => true
  end.

(** The blocks of named children, the combinators and the single children of a schema. *)
Definition NAMED_BLOCKS : list string := ["properties"; "$defs"; "definitions"; "patternProperties"].
Definition COMBINATORS : list string := ["allOf"; "anyOf"; "oneOf"].
Definition SINGLES : list string := ["not"; "additionalProperties"; "contains"].

(** [_reject_materialized_credentials]; [n] bounds the nesting. *)
Fixpoint reject_materialized (n : nat) (node : value) (sensitive : bool) :
  result registry_exn unit :=
  match n with
  | O => Err SchemaTooDeep
  | S n =>
      match node with
      | VDict d =>
          do! (if sensitive then
                 rfor (fun keyword => invalid_if match dget keyword d with
                                                 | Some v => is_materialized v
                                                 | None => false
                                                 end) MATERIALIZING_KEYWORDS
               else Ok tt) in
          do! rfor (fun container =>
                match dget container d with
                | Some (VDict block) =>
                    rfor (fun '(name, child) =>
                            reject_materialized n child (is_sensitive_property_name name)) block
                | _ => Ok tt
                end) NAMED_BLOCKS in
          do! match dget "items" d with
              | Some (VDict items) => reject_materialized n (VDict items) sensitive
              | Some (VList items) => rfor (fun child => reject_materialized n child sensitive) items
              | _ => Ok tt
              end in
          do! rfor (fun combinator =>
                match dget combinator d with
                | Some (VList block) => rfor (fun child => reject_materialized n child sensitive) block
                | _ => Ok tt
                end) COMBINATORS in
          rfor (fun single =>
                match dget single d with
                | Some (VDict child) => reject_materialized n (VDict child) sensitive
                | _ => Ok tt
                end) SINGLES
      | _ => Ok tt
      end
  end.

(** [_validate_json_schema]; the size of the schema bounds its nesting. *)
Definition validate_json_schema (schema : value) : result registry_exn (list (string * value)) :=
  match schema with
  | VDict d =>
      do! invalid_if match d with [] => true | _ => false end in
      do! invalid_if match dget "type" d with
                     | None | Some VNone => false
                     | Some declared => negb (py_eq declared (VStr "object"))
                     end in
      do! reject_materialized (need schema) schema false in
      Ok d
  | _ => Err RegistryValidationError
  end.

(** ** Retry policies and resource keys *)

Record RetryPolicy := mkRetryPolicy {
  retry_class : RetryClass;
  max_attempts : Z;
  initial_backoff_seconds : Z;
  max_backoff_seconds : Z;
  honor_retry_after : bool
}.

Definition in_range (lo hi z : Z) : bool := (lo <=? z) && (z <=? hi).

(** [RetryPolicy(...)]: the field bounds, then [_check]. *)
Definition retry_policy (p : RetryPolicy) : result registry_exn RetryPolicy :=
  do! invalid_if (negb (in_range 1 10 (max_attempts p))) in
  do! invalid_if (negb (in_range 0 60 (initial_backoff_seconds p))) in
  do! invalid_if (negb (in_range 0 300 (max_backoff_seconds p))) in
  do! invalid_if (bool_decide (retry_class p = NO_RETRY) && negb (max_attempts p =? 1)) in
  do! invalid_if (negb (bool_decide (retry_class p = NO_RETRY)) && (max_attempts p <? 2)) in
  do! invalid_if (max_backoff_seconds p <? initial_backoff_seconds p) in
  Ok p.

Definition retry_canonical (p : RetryPolicy) : list (string * value) :=
  [("honor_retry_after", VBool (honor_retry_after p));
   ("initial_backoff_seconds", VInt (initial_backoff_seconds p));
   ("max_attempts", VInt (max_attempts p));
   ("max_backoff_seconds", VInt (max_backoff_seconds p));
   ("retry_class", VStr (retry_value (retry_class p)))].

Record ResourceKey := mkResourceKey { scope : string; selector : string }.

(** [ResourceKey(...)]: the validators [_scope] and [_selector]. *)
Definition resource_key (k : ResourceKey) : result registry_exn ResourceKey :=
  let! sc := normalize_identifier (scope k) in
  let! se := normalize_identifier (selector k) in
  do! reject_sensitive_identifier se in
  Ok (mkResourceKey sc se).

(** [ResourceKey.key] *)
Definition key_text (k : ResourceKey) : string := scope k +:+ ":" +:+ selector k.

Definition resource_key_canonical (k : ResourceKey) : list (string * value) :=
  [("scope", VStr (scope k)); ("selector", VStr (selector k))].

(** ** Tool definitions *)

Definition MIN_TIMEOUT_SECONDS : Z := 1.
Definition MAX_TIMEOUT_SECONDS : Z := 3600.

Record ToolDefinition := mkTool {
  tool_id : string;
  provider : string;
  tool_operation : string;
  tool_version : Z;
  execution_mode : ExecutionMode;
  input_schema : list (string * value);
  output_schema : list (string * value);
  security_tier : SecurityTier;
  read_only : bool;
  mutation_class : MutationClass;
  tool_idempotency : IdempotencySemantics;
  policy_action : string;
  approval_requirement : ApprovalRequirement;
  capability_id : string;
  credential_capability_id : option string;
  timeout_seconds : Z;
  tool_retry : RetryPolicy;
  tool_resource : ResourceKey;
  result_shaping : ResultShaping;
  stability : Stability;
  deprecated : bool;
  description : string;
  backend : string
}.

(** [_backend] *)
Definition normalize_backend (raw : string) : result registry_exn string :=
  let text := py_strip raw in
  if String.eqb text "" then Ok ""
  else let! v := normalize_identifier text in do! reject_sensitive_identifier v in Ok v.

(** [_invariants] *)
Definition tool_invariants (t : ToolDefinition) : result registry_exn unit :=
  let ro := read_only t in
  do! invalid_if (ro && mutates (mutation_class t)) in
  do! invalid_if (negb ro && negb (mutates (mutation_class t))) in
  do! invalid_if (ro && negb (is_read_only_tier (security_tier t))) in
  do! invalid_if (negb ro && is_read_only_tier (security_tier t)) in
  do! invalid_if (ro && negb (bool_decide (tool_idempotency t = Idem_READ))) in
  do! invalid_if (negb ro && bool_decide (tool_idempotency t = Idem_READ)) in
  do! invalid_if (class_destructive (mutation_class t) && negb (tier_destructive (security_tier t))) in
  do! invalid_if (tier_destructive (security_tier t) && negb (class_destructive (mutation_class t))) in
  do! invalid_if (negb (String.prefix (provider t +:+ ".") (tool_id t))) in
  invalid_if (negb ro && bool_decide (retry_class (tool_retry t) = RETRY_SAFE)
              && bool_decide (tool_idempotency t = Idem_NON_IDEMPOTENT)).

(** [ToolDefinition(...)]: the field validators, then the invariants. *)
Definition tool_definition (t : ToolDefinition) : result registry_exn ToolDefinition :=
  let! i := normalize_identifier (tool_id t) in
  let! p := normalize_identifier (provider t) in
  let! o := normalize_identifier (tool_operation t) in
  do! invalid_if (tool_version t <? 1) in
  let! inp := validate_json_schema (VDict (input_schema t)) in
  let! out := validate_json_schema (VDict (output_schema t)) in
  let! action := normalize_identifier (policy_action t) in
  let! cap := normalize_identifier (capability_id t) in
  let! cred := match credential_capability_id t with
               | None => Ok None
               | Some c => let! c := normalize_identifier c in Ok (Some c)
               end in
  do! invalid_if (negb (in_range MIN_TIMEOUT_SECONDS MAX_TIMEOUT_SECONDS (timeout_seconds t))) in
  let! b := normalize_backend (backend t) in
  let t' := mkTool i p o (tool_version t) (execution_mode t) inp out (security_tier t) (read_only t)
              (mutation_class t) (tool_idempotency t) action (approval_requirement t) cap cred
              (timeout_seconds t) (tool_retry t) (tool_resource t) (result_shaping t) (stability t)
              (deprecated t) (py_strip (description t)) b in
  do! tool_invariants t' in
  Ok t'.

(** [ToolDefinition.is_destructive] *)
Definition is_destructive (t : ToolDefinition) : bool :=
  class_destructive (mutation_class t) || tier_destructive (security_tier t).

(** [ToolDefinition.canonical]: no description. *)
Definition tool_canonical (t : ToolDefinition) : list (string * value) :=
  [("approval_requirement", VStr (approval_requirement_value (approval_requirement t)));
   ("backend", VStr (backend t));
   ("capability_id", VStr (capability_id t));
   ("credential_capability_id",
     match credential_capability_id t with Some c => VStr c | None => VNone end);
   ("deprecated", VBool (deprecated t));
   ("execution_mode", VStr (mode_value (execution_mode t)));
   ("idempotency", VStr (idempotency_value (tool_idempotency t)));
   ("input_schema", VDict (input_schema t));
   ("mutation_class", VStr (class_value (mutation_class t)));
   ("operation", VStr (tool_operation t));
   ("output_schema", VDict (output_schema t));
   ("policy_action", VStr (policy_action t));
   ("provider", VStr (provider t));
   ("read_only", VBool (read_only t));
   ("resource_key", VDict (resource_key_canonical (tool_resource t)));
   ("result_shaping", VStr (shaping_value (result_shaping t)));
   ("retry_policy", VDict (retry_canonical (tool_retry t)));
   ("security_tier", VStr (tier_value (security_tier t)));
   ("stability", VStr (stability_value (stability t)));
   ("timeout_seconds", VInt (timeout_seconds t));
   ("tool_id", VStr (tool_id t));
   ("version", VInt (tool_version t))].

Section Hash.
Variable sha256_hex : string -> string.

(** [ToolDefinition.definition_hash] *)
Definition definition_hash (t : ToolDefinition) : result registry_exn string :=
  raise_registry (canonical_hash sha256_hex (VDict (tool_canonical t))).
End Hash.

(** ** Lemmas: normalized identifiers *)

Lemma invalid_if_Ok b u : invalid_if b = Ok u <-> b = false.
Proof. apply raise_if_Ok. Qed.

Lemma split_on_chars sep p s :
  Forall (fun w => all_chars p w = true) (split_on sep s) ->
  all_chars (fun c => p c || Ascii.eqb c sep) s = true.
Proof.
  induction s as [|c s IH]; [done|]. cbn [split_on]. rewrite all_chars_cons.
  destruct (Ascii.eqb c sep) eqn:Hc.
  - rewrite Forall_cons, orb_true_r. intros [_ H]. by apply IH.
  - destruct (split_on sep s) as [|w ws]; rewrite Forall_cons.
    + intros [H _]. rewrite all_chars_cons in H. apply andb_true_iff in H as [-> _]. simpl. by apply IH.
    + intros [H Hws]. rewrite all_chars_cons in H. apply andb_true_iff in H as [-> Hw]. simpl.
      apply IH. by constructor.
Qed.

Lemma bracketed_chars outer inner s :
  (forall c, outer c = true -> inner c = true) ->
  bracketed outer inner s = true -> all_chars inner s = true.
Proof.
  destruct s as [|c s]; [done|]. unfold bracketed. rewrite !andb_true_iff, all_chars_cons.
  intros H [[Hc Hs] _]. by rewrite (H c Hc), Hs.
Qed.

Lemma ident_char_inert c : is_ident_inner c || Ascii.eqb c "." = true -> inert c = true.
Proof. by destruct c as [[] [] [] [] [] [] [] []]. Qed.

Lemma segments_inert s : IDENTIFIER_SEGMENTS s = true -> all_chars inert s = true.
Proof.
  intros H. apply (all_chars_impl (fun c => is_ident_inner c || Ascii.eqb c ".") _ _ ident_char_inert).
  apply split_on_chars, Forall_forall. intros w Hw.
  eapply bracketed_chars; [|eapply (proj1 (forallb_forall _ _) H); by apply list_elem_of_In].
  intros c Hc. unfold is_ident_inner. by rewrite Hc.
Qed.

Lemma normalize_identifier_Ok raw v :
  normalize_identifier raw = Ok v ->
  v = lower (py_strip raw) /\ v <> "" /\ IDENTIFIER_SEGMENTS v = true /\ all_chars inert v = true
  /\ normalize_identifier v = Ok v.
Proof.
  unfold normalize_identifier. intros H. res_inv.
  repeat match goal with H : invalid_if _ = Ok _ |- _ => apply invalid_if_Ok in H end. bool_prop.
  match goal with H : IDENTIFIER_SEGMENTS _ = true |- _ => pose proof (segments_inert _ H) as Hin end.
  split_and!; try done. rewrite strip_inert, lower_inert by done.
  match goal with H : _ <> "" |- _ => apply String.eqb_neq in H; rewrite H end. cbn [invalid_if raise_if rbind].
  match goal with H : rfor _ _ = Ok _ |- _ => rewrite H end. cbn [rbind].
  match goal with H : IDENTIFIER_SEGMENTS _ = true |- _ => by rewrite H end.
Qed.

(** ** Lemmas: credentials in schemas *)

Definition sensitive_children (sensitive : bool) (d : list (string * value)) (child : value)
  (s : bool) : Prop :=
  (exists container block name, container ∈ NAMED_BLOCKS /\ dget container d = Some (VDict block)
     /\ (name, child) ∈ block /\ s = is_sensitive_property_name name)
  \/ s = sensitive
     /\ ((dget "items" d = Some child /\ exists e, child = VDict e)
         \/ (exists l, dget "items" d = Some (VList l) /\ child ∈ l)
         \/ (exists combinator l, combinator ∈ COMBINATORS /\ dget combinator d = Some (VList l)
              /\ child ∈ l)
         \/ (exists single e, single ∈ SINGLES /\ dget single d = Some (VDict e) /\ child = VDict e)).

(** Somewhere below, a schema in a sensitive position pins a non-empty literal. *)
Inductive carries_credential : bool -> value -> Prop :=
| carries_here d keyword v :
    keyword ∈ MATERIALIZING_KEYWORDS -> dget keyword d = Some v -> is_materialized v = true ->
    carries_credential true (VDict d)
| carries_below sensitive d child s :
    sensitive_children sensitive d child s -> carries_credential s child ->
    carries_credential sensitive (VDict d).

Lemma need_in (d : list (string * value)) k v : (k, v) ∈ d -> (need v < need (VDict d))%nat.
Proof.
  simpl. induction d as [|[k' w] d IH]; [by rewrite elem_of_nil|].
  rewrite elem_of_cons. simpl. intros [[= <- <-]|H]; [lia|]. specialize (IH H). lia.
Qed.

Lemma need_elem (l : list value) v : v ∈ l -> (need v < need (VList l))%nat.
Proof.
  simpl. induction l as [|w l IH]; [by rewrite elem_of_nil|].
  rewrite elem_of_cons. simpl. intros [<-|H]; [lia|]. specialize (IH H). lia.
Qed.

Lemma child_need sensitive d child s :
  sensitive_children sensitive d child s -> (need child < need (VDict d))%nat.
Proof.
  intros [(c & b & n & _ & H & Hc & _)|(_ & [[H _]|[(l & H & Hc)|[(c & l & _ & H & Hc)|(c & e & _ & H & ->)]]])];
    apply dget_elem, need_in in H; try (apply need_in in Hc; lia); try (apply need_elem in Hc; lia); done.
Qed.

(** A check that raises [RegistryValidationError] exactly when [P] holds. *)
Definition verdict (P : Prop) (m : result registry_exn unit) : Prop :=
  (P /\ m = Err RegistryValidationError) \/ (~ P /\ m = Ok tt).

Lemma verdict_iff P Q m : (P <-> Q) -> verdict P m -> verdict Q m.
Proof. unfold verdict. tauto. Qed.

Lemma verdict_pass (P : Prop) : ~ P -> verdict P (Ok tt).
Proof. by right. Qed.

Lemma verdict_if b : verdict (b = true) (invalid_if b).
Proof. destruct b; [by left|by right]. Qed.

Lemma verdict_bind P Q m k : verdict P m -> verdict Q k -> verdict (P \/ Q) (do! m in k).
Proof. intros [[? ->]|[? ->]] Hk; simpl; [left; by split; [left|]|]. destruct Hk as [[? ->]|[? ->]]; [left|right]; tauto. Qed.

Lemma verdict_for {A} (P : A -> Prop) f (l : list A) :
  (forall x, x ∈ l -> verdict (P x) (f x)) -> verdict (exists x, x ∈ l /\ P x) (rfor f l).
Proof.
  induction l as [|x l IH]; intros H; [right; split; [|done]; by intros (x & []%not_elem_of_nil & _)|].
  eapply verdict_iff; [|apply (verdict_bind (P x) (exists y, y ∈ l /\ P y))].
  - split; [intros [Hx|(y & Hy & HP)]; [exists x|exists y]; (split; [|done]); rewrite elem_of_cons; tauto|].
    intros (y & [->|Hy]%elem_of_cons & HP); [by left|right; by exists y].
  - apply H. by left.
  - apply IH. intros y Hy. apply H. by right.
Qed.

Lemma carries_dict sensitive d :
  carries_credential sensitive (VDict d) <->
  (sensitive = true /\ exists k, k ∈ MATERIALIZING_KEYWORDS
     /\ match dget k d with Some v => is_materialized v | None => false end = true)
  \/ exists child s, sensitive_children sensitive d child s /\ carries_credential s child.
Proof.
  split.
  - inversion 1; subst; [left; split; [done|]; eexists; split; [done|]; by simplify_option_eq|right; eauto].
  - intros [(-> & k & Hk & H)|(c & s & H1 & H2)]; [|by eapply carries_below].
    destruct (dget k d) as [v|] eqn:Hv; [|done]. by eapply carries_here.
Qed.

Lemma reject_verdict n node sensitive :
  (need node <= n)%nat -> verdict (carries_credential sensitive node) (reject_materialized n node sensitive).
Proof.
  revert node sensitive. induction n as [|n IH]; intros node sensitive Hn; [by destruct node; simpl in Hn; lia|].
  destruct node as [| | | | |l|d|]; try (apply verdict_pass; by inversion 1). cbn [reject_materialized].
  assert (Hchild : forall child s, sensitive_children sensitive d child s ->
    verdict (carries_credential s child) (reject_materialized n child s)).
  { intros c s Hc. apply IH. pose proof (child_need _ _ _ _ Hc). lia. }
  eapply verdict_iff; [symmetry; apply carries_dict|].
  eapply verdict_iff; cycle 1.
  { apply (verdict_bind (sensitive = true /\ exists k, k ∈ MATERIALIZING_KEYWORDS
             /\ match dget k d with Some v => is_materialized v | None => false end = true)).
    { destruct sensitive; [|by apply verdict_pass; intros [? _]].
      eapply verdict_iff; [|apply verdict_for; intros k _; apply verdict_if]. naive_solver. }
    apply (verdict_bind (exists c, c ∈ NAMED_BLOCKS /\ exists b, dget c d = Some (VDict b)
             /\ exists nc, nc ∈ b /\ carries_credential (is_sensitive_property_name (fst nc)) (snd nc))).
    { apply verdict_for. intros c Hc. destruct (dget c d) as [[| | | | | |b|]|] eqn:Hd;
        try (apply verdict_pass; by intros (? & ? & _)).
      eapply verdict_iff; [|apply (verdict_for (fun nc => carries_credential (is_sensitive_property_name (fst nc)) (snd nc)))].
      - naive_solver.
      - intros [name child] Hin. apply Hchild. left. by exists c, b, name. }
    apply (verdict_bind (exists v, dget "items" d = Some v /\ exists c, carries_credential sensitive c
             /\ ((v = c /\ exists e, c = VDict e) \/ exists l, v = VList l /\ c ∈ l))).
    { destruct (dget "items" d) as [v|] eqn:Hd; [|apply verdict_pass; by intros (? & ? & _)].
      destruct v as [| | | | |l|e|]; try (apply verdict_pass; naive_solver).
      - eapply verdict_iff; [|apply (verdict_for (fun c => carries_credential sensitive c))]; [naive_solver|].
        intros c Hc. apply Hchild. right. split; [done|]. right; left. by exists l.
      - eapply verdict_iff; [|apply Hchild; right; split; [done|]; left; split; [exact Hd|by exists e]]. naive_solver. }
    apply (verdict_bind (exists k, k ∈ COMBINATORS /\ exists l, dget k d = Some (VList l)
             /\ exists c, c ∈ l /\ carries_credential sensitive c)).
    { apply verdict_for. intros k Hk. destruct (dget k d) as [[| | | | |l| |]|] eqn:Hd;
        try (apply verdict_pass; by intros (? & ? & _)).
      eapply verdict_iff; [|apply (verdict_for (fun c => carries_credential sensitive c))]; [naive_solver|].
      intros c Hc. apply Hchild. right. split; [done|]. right; right; left. by exists k, l. }
    apply (verdict_for (fun k => exists e, dget k d = Some (VDict e) /\ carries_credential sensitive (VDict e))).
    intros k Hk. destruct (dget k d) as [[| | | | | |e|]|] eqn:Hd; try (apply verdict_pass; by intros (? & ? & _)).
    eapply verdict_iff; [|apply Hchild; right; split; [done|]; right; right; right; by exists k, e].
    naive_solver. }
  apply or_iff_compat_l. unfold sensitive_children. split; [|naive_solver].
  intros [(c & Hc & b & Hd & [nm ch] & Hin & Hcar)|[(v & Hd & c & Hcar & Hv)|[(k & Hk & l & Hd & c & Hin & Hcar)|(k & Hk & e & Hd & Hcar)]]].
  - exists ch, (is_sensitive_property_name nm). split; [left; by exists c, b, nm|done].
  - exists c, sensitive. split; [|done]. right. split; [done|]. naive_solver.
  - exists c, sensitive. split; [|done]. right. split; [done|]. naive_solver.
  - exists (VDict e), sensitive. split; [|done]. right. split; [done|]. naive_solver.
Qed.

Lemma validate_json_schema_cases schema :
  (exists d, schema = VDict d /\ d <> []
     /\ (dget "type" d = None \/ dget "type" d = Some VNone \/ dget "type" d = Some (VStr "object"))
     /\ ~ carries_credential false schema /\ validate_json_schema schema = Ok d)
  \/ validate_json_schema schema = Err RegistryValidationError
     /\ forall d, schema = VDict d -> d <> [] ->
        (dget "type" d = None \/ dget "type" d = Some VNone \/ dget "type" d = Some (VStr "object")) ->
        carries_credential false schema.
Proof.
  destruct schema as [| | | | | |d|]; try (right; split; [done|]; by intros ? [=]). unfold validate_json_schema.
  destruct d as [|kv d]; [right; split; [done|]; by intros ? [= <-]|]. set (d0 := kv :: d). cbn [invalid_if raise_if rbind].
  pose proof (reject_verdict (need (VDict d0)) (VDict d0) false ltac:(done)) as Hv.
  assert (Ht : match dget "type" d0 with None | Some VNone => false
               | Some declared => negb (py_eq declared (VStr "object")) end = false <->
    (dget "type" d0 = None \/ dget "type" d0 = Some VNone \/ dget "type" d0 = Some (VStr "object"))).
  { destruct (dget "type" d0) as [[| | |s| | | |]|]; simpl; try (split; [discriminate|naive_solver]);
      try (by split; auto).
    rewrite negb_false_iff, String.eqb_eq. naive_solver. }
  destruct (match dget "type" d0 with None | Some VNone => false | Some _ => _ end) eqn:Hm.
  - right. split; [done|]. intros d' [= <-] _ H. apply Ht in H. congruence.
  - cbn [invalid_if raise_if rbind]. destruct Hv as [[Hc ->]|[Hc ->]]; [right|left].
    + split; [done|]. by intros.
    + exists d0. split_and!; try done. by apply Ht.
Qed.

(** A schema is accepted exactly when it is a non-empty object that does not declare another
    type and pins no literal on a property, definition or pattern named after a credential,
    however deep; everything else is a validation error, and the fuel is enough. *)
Theorem validate_json_schema_spec schema :
  (exists d, schema = VDict d /\ d <> []
     /\ (dget "type" d = None \/ dget "type" d = Some VNone \/ dget "type" d = Some (VStr "object"))
     /\ ~ carries_credential false schema /\ validate_json_schema schema = Ok d)
  \/ validate_json_schema schema = Err RegistryValidationError
     /\ forall d, schema = VDict d -> d <> [] ->
        (dget "type" d = None \/ dget "type" d = Some VNone \/ dget "type" d = Some (VStr "object")) ->
        carries_credential false schema.
Proof. apply validate_json_schema_cases. Qed.

(** ** Well-formed definitions *)

(** An identifier in normal form. *)
Definition identifier (s : string) : Prop := normalize_identifier s = Ok s.

(** What every constructed definition satisfies. *)
Record tool_ok (t : ToolDefinition) : Prop := {
  ok_ids : identifier (tool_id t) /\ identifier (provider t) /\ identifier (tool_operation t)
    /\ identifier (policy_action t) /\ identifier (capability_id t);
  ok_credential : forall c, credential_capability_id t = Some c -> identifier c;
  ok_namespace : String.prefix (provider t +:+ ".") (tool_id t) = true;
  ok_bounds : 1 <= tool_version t /\ 1 <= timeout_seconds t <= 3600;
  ok_read_only : read_only t = true <-> mutation_class t = Class_NONE;
  ok_tier : read_only t = true <-> security_tier t = T0 \/ security_tier t = T1;
  ok_idempotency : read_only t = true <-> tool_idempotency t = Idem_READ;
  ok_destructive : mutation_class t = Class_DESTRUCTIVE <-> security_tier t = T4;
  ok_retry : read_only t = false -> retry_class (tool_retry t) = RETRY_SAFE ->
    tool_idempotency t <> Idem_NON_IDEMPOTENT;
  ok_schemas : ~ carries_credential false (VDict (input_schema t))
    /\ ~ carries_credential false (VDict (output_schema t));
  ok_backend : backend t = "" \/ identifier (backend t) /\ is_sensitive_identifier (backend t) = false
}.

Lemma normalize_identifier_normal raw v : normalize_identifier raw = Ok v -> identifier v.
Proof. intros H. by apply normalize_identifier_Ok in H as (_ & _ & _ & _ & ?). Qed.

Lemma validate_json_schema_clean d d' :
  validate_json_schema (VDict d) = Ok d' -> d' = d /\ ~ carries_credential false (VDict d).
Proof.
  intros H. destruct (validate_json_schema_cases (VDict d)) as [(e & [= <-] & _ & _ & Hc & He)|[He _]];
    rewrite He in H; [injection H as <-|]; done.
Qed.

Ltac raise_inv :=
  repeat match goal with
  | H : invalid_if _ = Ok _ |- _ => apply invalid_if_Ok in H
  | H : normalize_identifier _ = Ok _ |- _ => apply normalize_identifier_normal in H
  end.

(** Every constructed definition is well formed: its identifiers are in normal form and in the
    provider's namespace, reading and mutating agree across class, tier and idempotency, T4 is
    exactly the destructive class, and neither schema pins a credential. *)
Theorem tool_definition_ok t t' : tool_definition t = Ok t' -> tool_ok t'.
Proof.
  unfold tool_definition. intros H. res_inv. unfold tool_invariants in *. res_inv. raise_inv.
  repeat match goal with H : validate_json_schema _ = Ok _ |- _ =>
    apply validate_json_schema_clean in H as [-> ?] end.
  cbn [read_only mutation_class security_tier tool_idempotency provider tool_id tool_retry] in *.
  unfold in_range, MIN_TIMEOUT_SECONDS, MAX_TIMEOUT_SECONDS in *.
  split; cbn; try done.
  - intros c ->. destruct (credential_capability_id t); [|done]. res_inv. by raise_inv.
  - by bool_prop.
  - bool_prop. lia.
  - by destruct (read_only t), (mutation_class t).
  - destruct (read_only t), (security_tier t); naive_solver.
  - destruct (read_only t), (tool_idempotency t); naive_solver.
  - destruct (mutation_class t), (security_tier t); naive_solver.
  - intros Hr Hs. rewrite Hr, Hs in *. simpl in *. by destruct (tool_idempotency t).
  - match goal with H : normalize_backend _ = Ok _ |- _ => unfold normalize_backend in H end.
    destruct (String.eqb _ _); res_inv; [by left|right]. raise_inv.
    match goal with H : reject_sensitive_identifier _ = Ok _ |- _ => apply invalid_if_Ok in H end. done.
Qed.

(** ** What the canonical projection determines *)

(** A definition without its schemas and its description. *)
Definition forget_text (t : ToolDefinition) : ToolDefinition :=
  mkTool (tool_id t) (provider t) (tool_operation t) (tool_version t) (execution_mode t) [] []
    (security_tier t) (read_only t) (mutation_class t) (tool_idempotency t) (policy_action t)
    (approval_requirement t) (capability_id t) (credential_capability_id t) (timeout_seconds t)
    (tool_retry t) (tool_resource t) (result_shaping t) (stability t) (deprecated t) "" (backend t).

(** The same tool, up to the order of schema keys and the description. *)
Definition same_tool (t1 t2 : ToolDefinition) : Prop :=
  forget_text t1 = forget_text t2
  /\ normal (VDict (input_schema t1)) = normal (VDict (input_schema t2))
  /\ normal (VDict (output_schema t1)) = normal (VDict (output_schema t2)).

#[export] Instance same_tool_equivalence : Equivalence same_tool.
Proof.
  split; unfold same_tool; [done|by intros ? ? (-> & -> & ->)|].
  by intros ? ? ? (-> & -> & ->) (-> & -> & ->).
Qed.

Lemma enum_inj :
  (forall a b, mode_value a = mode_value b -> a = b)
  /\ (forall a b, tier_value a = tier_value b -> a = b)
  /\ (forall a b, class_value a = class_value b -> a = b)
  /\ (forall a b, idempotency_value a = idempotency_value b -> a = b)
  /\ (forall a b, retry_value a = retry_value b -> a = b)
  /\ (forall a b, approval_requirement_value a = approval_requirement_value b -> a = b)
  /\ (forall a b, shaping_value a = shaping_value b -> a = b)
  /\ (forall a b, stability_value a = stability_value b -> a = b).
Proof. split_and!; by intros [] []. Qed.

Lemma retry_canonical_inj p q :
  normal (VDict (retry_canonical p)) = normal (VDict (retry_canonical q)) -> p = q.
Proof.
  unfold retry_canonical. intros H. dict_fields H F.
  pose proof (F "honor_retry_after") as E1. pose proof (F "initial_backoff_seconds") as E2.
  pose proof (F "max_attempts") as E3. pose proof (F "max_backoff_seconds") as E4.
  pose proof (F "retry_class") as E5.
  injection E1 as E1. injection E2 as E2. injection E3 as E3. injection E4 as E4.
  injection E5 as E5%enum_inj. destruct p, q. simpl in *. by subst.
Qed.

Lemma resource_key_canonical_inj p q :
  normal (VDict (resource_key_canonical p)) = normal (VDict (resource_key_canonical q)) -> p = q.
Proof.
  unfold resource_key_canonical. intros H. dict_fields H F.
  pose proof (F "scope") as E1. pose proof (F "selector") as E2.
  injection E1 as E1. injection E2 as E2. destruct p, q. simpl in *. by subst.
Qed.

Lemma tool_canonical_iff t1 t2 :
  normal (VDict (tool_canonical t1)) = normal (VDict (tool_canonical t2)) <-> same_tool t1 t2.
Proof.
  destruct enum_inj as (I1 & I2 & I3 & I4 & _ & I6 & I7 & I8). split.
  - unfold tool_canonical. intros H. dict_fields H F.
    pose proof (F "approval_requirement") as [= A1%I6]. pose proof (F "backend") as [= A2].
    pose proof (F "capability_id") as [= A3]. pose proof (F "credential_capability_id") as A4.
    pose proof (F "deprecated") as [= A5]. pose proof (F "execution_mode") as [= A6%I1].
    pose proof (F "idempotency") as [= A7%I4]. pose proof (F "input_schema") as A8.
    pose proof (F "mutation_class") as [= A9%I3]. pose proof (F "operation") as [= A10].
    pose proof (F "output_schema") as A11. pose proof (F "policy_action") as [= A12].
    pose proof (F "provider") as [= A13]. pose proof (F "read_only") as [= A14].
    pose proof (F "resource_key") as A15. pose proof (F "result_shaping") as [= A16%I7].
    pose proof (F "retry_policy") as A17. pose proof (F "security_tier") as [= A18%I2].
    pose proof (F "stability") as [= A19%I8]. pose proof (F "timeout_seconds") as [= A20].
    pose proof (F "tool_id") as [= A21]. pose proof (F "version") as [= A22].
    apply (inj Some) in A8, A11, A15, A17.
    apply resource_key_canonical_inj in A15. apply retry_canonical_inj in A17.
    assert (A4' : credential_capability_id t1 = credential_capability_id t2).
    { cbn in A4. destruct (credential_capability_id t1), (credential_capability_id t2); simpl in A4; congruence. }
    split_and!; [|done|done]. unfold forget_text. by f_equal.
  - intros (H & H1 & H2). injection H as E1 E2 E3 E4 E5 E6 E7 E8 E9 E10 E11 E12 E13 E14 E15 E16 E17 E18 E19 E20.
    apply normal_dict_congr. unfold tool_canonical. cbn [map].
    by rewrite E1, E2, E3, E4, E5, E6, E7, E8, E9, E10, E11, E12, E13, E14, E15, E16, E17, E18, E19, E20, H1, H2.
Qed.

(** ** Concrete schemas *)

Definition pinned_schema : value :=
  VDict [("type", VStr "object");
         ("$defs", VDict [("API_Key ", VDict [("anyOf", VList [VDict [("const", VStr "k")]])])])].

Example pinned_rejected : validate_json_schema pinned_schema = Err RegistryValidationError.
Proof. by vm_compute. Qed.

Definition plain_tool : ToolDefinition :=
  mkTool " GitHub.Read " "github" "read" 1 Mode_DIRECT [("type", VStr "object")]
    [("properties", VDict [("token", VDict [("type", VStr "string")])])] T1 true Class_NONE Idem_READ
    "github.read" Appr_NOT_REQUIRED "github.api" None 30 (mkRetryPolicy RETRY_SAFE 3 0 1 true)
    (mkResourceKey "repository" "default") Shape_REQUIRED Stab_STABLE false "reads" "github-rest".

Lemma tool_definition_ok_witness :
  match tool_definition plain_tool with Ok t => tool_ok t /\ tool_id t = "github.read" | Err _ => False end.
Proof.
  destruct (tool_definition plain_tool) as [t|e] eqn:He; [|vm_compute in He; discriminate].
  split; [exact (tool_definition_ok plain_tool t He)|]. vm_compute in He. injection He as <-. reflexivity.
Defined.
