(* ===== verification/MutationContract.v ===== *)
(** * The contract of the governed mutations ([v2/enums.py], [v2/errors.py], [v2/mutation_digest.py])

    The closed vocabularies, the error taxonomy and the input validators that the stages of a
    mutation share. *)
From S2P Require Import Prelude.
From S2P Require Import PyText.
From S2P Require Import PyValue.
From S2P Require Import Canonical.

(** ** Vocabularies ([v2/enums.py]) *)

Inductive WriteCapabilityId : Type := WC_BRANCH | WC_PR | WC_MERGE.
#[export] Instance WriteCapabilityId_eq_dec : EqDecision WriteCapabilityId.
Proof. solve_decision. Defined.

Definition capability_value (c : WriteCapabilityId) : string :=
  match c with
  | WC_BRANCH => "github.write.branch"
  | WC_PR => "github.write.pr"
  | WC_MERGE => "github.write.merge"
  end.

(** An enum's value, and the [AMBIGUOUS] outcome that is neither failure nor success. *)
Inductive MutationOutcome : Type :=
| Outcome_PENDING | Outcome_COMMITTED | Outcome_FAILED_CLEAN | Outcome_AMBIGUOUS | Outcome_DENIED.
#[export] Instance MutationOutcome_eq_dec : EqDecision MutationOutcome.
Proof. solve_decision. Defined.

Definition outcome_value (o : MutationOutcome) : string :=
  match o with
  | Outcome_PENDING => "PENDING"
  | Outcome_COMMITTED => "COMMITTED"
  | Outcome_FAILED_CLEAN => "FAILED_CLEAN"
  | Outcome_AMBIGUOUS => "AMBIGUOUS"
  | Outcome_DENIED => "DENIED"
  end.

(** [is_terminal], [requires_reconciliation], [allows_new_attempt] *)
Definition is_terminal (o : MutationOutcome) : bool := negb (bool_decide (o = Outcome_PENDING)).
Definition requires_reconciliation (o : MutationOutcome) : bool :=
  bool_decide (o = Outcome_AMBIGUOUS).
Definition allows_new_attempt (o : MutationOutcome) : bool :=
  bool_decide (o = Outcome_FAILED_CLEAN).

Inductive IdempotencyStatus : Type := Status_NEW | Status_REPLAYED | Status_IN_PROGRESS.
#[export] Instance IdempotencyStatus_eq_dec : EqDecision IdempotencyStatus.
Proof. solve_decision. Defined.

Definition status_value (s : IdempotencyStatus) : string :=
  match s with
  | Status_NEW => "NEW"
  | Status_REPLAYED => "REPLAYED"
  | Status_IN_PROGRESS => "IN_PROGRESS"
  end.

(** [IdempotencyStatus.executes_provider_call] *)
Definition status_executes (s : IdempotencyStatus) : bool := bool_decide (s = Status_NEW).

Inductive ApprovalState : Type := AS_PENDING | AS_CONSUMED | AS_EXPIRED | AS_REVOKED.
#[export] Instance ApprovalState_eq_dec : EqDecision ApprovalState.
Proof. solve_decision. Defined.

Definition approval_state_value (s : ApprovalState) : string :=
  match s with
  | AS_PENDING => "PENDING"
  | AS_CONSUMED => "CONSUMED"
  | AS_EXPIRED => "EXPIRED"
  | AS_REVOKED => "REVOKED"
  end.

(** [ApprovalState.is_usable] *)
Definition is_usable (s : ApprovalState) : bool := bool_decide (s = AS_PENDING).

Inductive PolicyDecision : Type := Policy_ALLOW | Policy_DENY | Policy_APPROVAL_REQUIRED.
#[export] Instance PolicyDecision_eq_dec : EqDecision PolicyDecision.
Proof. solve_decision. Defined.

Definition policy_value (p : PolicyDecision) : string :=
  match p with
  | Policy_ALLOW => "ALLOW"
  | Policy_DENY => "DENY"
  | Policy_APPROVAL_REQUIRED => "APPROVAL_REQUIRED"
  end.

Inductive CapabilityState : Type :=
| Cap_CONFIGURED | Cap_AVAILABLE | Cap_HEALTHY | Cap_READY | Cap_DEGRADED | Cap_UNAVAILABLE
| Cap_DENIED.
#[export] Instance CapabilityState_eq_dec : EqDecision CapabilityState.
Proof. solve_decision. Defined.

Definition capability_state_value (c : CapabilityState) : string :=
  match c with
  | Cap_CONFIGURED => "CONFIGURED"
  | Cap_AVAILABLE => "AVAILABLE"
  | Cap_HEALTHY => "HEALTHY"
  | Cap_READY => "READY"
  | Cap_DEGRADED => "DEGRADED"
  | Cap_UNAVAILABLE => "UNAVAILABLE"
  | Cap_DENIED => "DENIED"
  end.

(** [CapabilityState.is_ready] *)
Definition capability_is_ready (c : CapabilityState) : bool := bool_decide (c = Cap_READY).

Inductive MutationReasonCode : Type :=
| REPOSITORY_OUT_OF_SCOPE | UNKNOWN_MUTATION | MUTATION_NOT_REGISTERED
| DESTRUCTIVE_OPERATION_FORBIDDEN | WRITE_CAPABILITY_NOT_READY | WRITE_CAPABILITY_MISMATCH
| READ_CAPABILITY_CANNOT_MUTATE | PERMISSION_SUPERSET | ADMINISTRATION_PERMISSION_PRESENT
| APPROVAL_MISSING | APPROVAL_UNKNOWN | APPROVAL_EXPIRED | APPROVAL_ALREADY_CONSUMED
| APPROVAL_DIGEST_MISMATCH | APPROVAL_SCOPE_MISMATCH | APPROVER_NOT_DISTINCT
| IDEMPOTENT_REPLAY | OPERATION_IN_PROGRESS | RECONCILIATION_REQUIRED | PRECONDITION_DRIFT
| REF_ALREADY_EXISTS | MERGE_NOT_PERMITTED | MERGE_TARGET_DEFAULT_BRANCH
| PULL_REQUEST_NOT_MERGEABLE | REQUIRED_CHECKS_NOT_GREEN | PROTECTION_STATE_UNVERIFIABLE
| REQUIRED_REVIEWS_NOT_SATISFIED | AUDIT_RECORD_UNWRITABLE | REDACTION_UNPROVEN
| INVALID_REF_NAME | INVALID_ARGUMENTS.
#[export] Instance MutationReasonCode_eq_dec : EqDecision MutationReasonCode.
Proof. solve_decision. Defined.

Definition mutation_reason_value (r : MutationReasonCode) : string :=
  match r with
  | REPOSITORY_OUT_OF_SCOPE => "REPOSITORY_OUT_OF_SCOPE"
  | UNKNOWN_MUTATION => "UNKNOWN_MUTATION"
  | MUTATION_NOT_REGISTERED => "MUTATION_NOT_REGISTERED"
  | DESTRUCTIVE_OPERATION_FORBIDDEN => "DESTRUCTIVE_OPERATION_FORBIDDEN"
  | WRITE_CAPABILITY_NOT_READY => "WRITE_CAPABILITY_NOT_READY"
  | WRITE_CAPABILITY_MISMATCH => "WRITE_CAPABILITY_MISMATCH"
  | READ_CAPABILITY_CANNOT_MUTATE => "READ_CAPABILITY_CANNOT_MUTATE"
  | PERMISSION_SUPERSET => "PERMISSION_SUPERSET"
  | ADMINISTRATION_PERMISSION_PRESENT => "ADMINISTRATION_PERMISSION_PRESENT"
  | APPROVAL_MISSING => "APPROVAL_MISSING"
  | APPROVAL_UNKNOWN => "APPROVAL_UNKNOWN"
  | APPROVAL_EXPIRED => "APPROVAL_EXPIRED"
  | APPROVAL_ALREADY_CONSUMED => "APPROVAL_ALREADY_CONSUMED"
  | APPROVAL_DIGEST_MISMATCH => "APPROVAL_DIGEST_MISMATCH"
  | APPROVAL_SCOPE_MISMATCH => "APPROVAL_SCOPE_MISMATCH"
  | APPROVER_NOT_DISTINCT => "APPROVER_NOT_DISTINCT"
  | IDEMPOTENT_REPLAY => "IDEMPOTENT_REPLAY"
  | OPERATION_IN_PROGRESS => "OPERATION_IN_PROGRESS"
  | RECONCILIATION_REQUIRED => "RECONCILIATION_REQUIRED"
  | PRECONDITION_DRIFT => "PRECONDITION_DRIFT"
  | REF_ALREADY_EXISTS => "REF_ALREADY_EXISTS"
  | MERGE_NOT_PERMITTED => "MERGE_NOT_PERMITTED"
  | MERGE_TARGET_DEFAULT_BRANCH => "MERGE_TARGET_DEFAULT_BRANCH"
  | PULL_REQUEST_NOT_MERGEABLE => "PULL_REQUEST_NOT_MERGEABLE"
  | REQUIRED_CHECKS_NOT_GREEN => "REQUIRED_CHECKS_NOT_GREEN"
  | PROTECTION_STATE_UNVERIFIABLE => "PROTECTION_STATE_UNVERIFIABLE"
  | REQUIRED_REVIEWS_NOT_SATISFIED => "REQUIRED_REVIEWS_NOT_SATISFIED"
  | AUDIT_RECORD_UNWRITABLE => "AUDIT_RECORD_UNWRITABLE"
  | REDACTION_UNPROVEN => "REDACTION_UNPROVEN"
  | INVALID_REF_NAME => "INVALID_REF_NAME"
  | INVALID_ARGUMENTS => "INVALID_ARGUMENTS"
  end.

Inductive MutationStage : Type :=
| Stage_SCOPE | Stage_REGISTRY | Stage_POLICY | Stage_CREDENTIAL | Stage_APPROVAL
| Stage_IDEMPOTENCY | Stage_PRECONDITION_REVALIDATION | Stage_WRITE_AHEAD_AUDIT
| Stage_PROVIDER_CALL | Stage_READ_BACK | Stage_RESULT_SHAPING.
#[export] Instance MutationStage_eq_dec : EqDecision MutationStage.
Proof. solve_decision. Defined.

Definition stage_value (s : MutationStage) : string :=
  match s with
  | Stage_SCOPE => "SCOPE"
  | Stage_REGISTRY => "REGISTRY"
  | Stage_POLICY => "POLICY"
  | Stage_CREDENTIAL => "CREDENTIAL"
  | Stage_APPROVAL => "APPROVAL"
  | Stage_IDEMPOTENCY => "IDEMPOTENCY"
  | Stage_PRECONDITION_REVALIDATION => "PRECONDITION_REVALIDATION"
  | Stage_WRITE_AHEAD_AUDIT => "WRITE_AHEAD_AUDIT"
  | Stage_PROVIDER_CALL => "PROVIDER_CALL"
  | Stage_READ_BACK => "READ_BACK"
  | Stage_RESULT_SHAPING => "RESULT_SHAPING"
  end.

Definition MUTATION_STAGE_ORDER : list MutationStage :=
  [Stage_SCOPE; Stage_REGISTRY; Stage_POLICY; Stage_CREDENTIAL; Stage_APPROVAL;
   Stage_IDEMPOTENCY; Stage_PRECONDITION_REVALIDATION; Stage_WRITE_AHEAD_AUDIT;
   Stage_PROVIDER_CALL; Stage_READ_BACK; Stage_RESULT_SHAPING].

(** ** Errors ([v2/errors.py])

    Every subclass of [MutationDeniedError] is a denial; [MutationIndeterminateError] is the
    only other subclass of [MutationError].  The detail is kept out of the message. *)
Inductive denial : Type :=
| MutationDeniedError | MutationScopeError | WriteCapabilityError | ApprovalError
| DigestMismatchError | IdempotencyConflictError | ConcurrencyDriftError | AuditWriteError
| MergeGovernanceError.

Inductive mutation_exn : Type :=
| Denied (class : denial) (reason : MutationReasonCode) (stage : MutationStage) (detail : string)
| Indeterminate (reason : MutationReasonCode) (stage : MutationStage)
| PyRaised (e : py_error).

(** [str(exc)] *)
Definition error_text (reason : MutationReasonCode) (stage : MutationStage) : string :=
  stage_value stage +:+ ":" +:+ mutation_reason_value reason.

(** The reason an [except MutationDeniedError as exc] clause sees. *)
Definition catches_denied (e : mutation_exn) : option MutationReasonCode :=
  match e with Denied _ r _ _ => Some r | _ => None end.

Definition raise_py {A} (m : result py_error A) : result mutation_exn A :=
  match m with Ok a => Ok a | Err e => Err (PyRaised e) end.

(** ** Instants

    [dt_utc] is the instant [astimezone(UTC)] gives, in microseconds; [dt_aware] says whether
    the value carries a zone ([tzinfo is not None and utcoffset() is not None]). *)
Record datetime := mkDatetime { dt_utc : Z; dt_aware : bool }.

Definition astimezone_utc (d : datetime) : datetime := mkDatetime (dt_utc d) true.

(** [d + timedelta(seconds=n)] *)
Definition plus_seconds (d : datetime) (n : Z) : datetime :=
  mkDatetime (dt_utc d + n * 1000000) (dt_aware d).

(** ** Input validators ([v2/mutation_digest.py])

    The patterns are anchored with [\A] and [\Z] and hold ASCII classes only, so bytes and
    characters count alike. *)
Definition slash : ascii := Ascii.ascii_of_nat 47.
Definition dot : ascii := Ascii.ascii_of_nat 46.

Definition SHA_RE (s : string) : bool := all_chars is_hex s && (byte_len s =? 40).
Definition DIGEST_RE (s : string) : bool := all_chars is_hex s && (byte_len s =? 64).

Definition repo_char (c : ascii) : bool := is_alnum c || one_of "._-" c.

Definition REPOSITORY_RE (s : string) : bool :=
  match split_on slash s with
  | [owner; repo] => first_rest is_alnum repo_char 38 owner && first_rest is_alnum repo_char 99 repo
  | _ => false
  end.

Definition operation_char (c : ascii) : bool := is_lower c || is_num c || one_of "_" c.

Definition OPERATION_RE (s : string) : bool :=
  let segments := split_on dot s in
  (1 <? Z.of_nat (length segments))
  && forallb (first_rest is_lower operation_char (byte_len s)) segments.

Definition identifier_char (c : ascii) : bool := is_alnum c || one_of "._:@=+-" c.
Definition IDENTIFIER_RE (s : string) : bool := first_rest is_alnum identifier_char 127 s.

(** [_deny] of the module *)
Definition deny {A} (r : MutationReasonCode) (s : MutationStage) (detail : string) :
  result mutation_exn A :=
  Err (Denied MutationDeniedError r s detail).

Definition require_if (ok : bool) (r : MutationReasonCode) (s : MutationStage) (detail : string) :
  result mutation_exn unit :=
  if ok then Ok tt else deny r s detail.

Definition require_identifier (v detail : string) : result mutation_exn unit :=
  require_if (IDENTIFIER_RE v) INVALID_ARGUMENTS Stage_APPROVAL detail.
Definition require_sha (v detail : string) : result mutation_exn unit :=
  require_if (SHA_RE v) INVALID_ARGUMENTS Stage_APPROVAL detail.
Definition require_digest (v detail : string) : result mutation_exn unit :=
  require_if (DIGEST_RE v) INVALID_ARGUMENTS Stage_APPROVAL detail.
Definition require_repository (v : string) : result mutation_exn unit :=
  require_if (REPOSITORY_RE v) INVALID_ARGUMENTS Stage_SCOPE "repository".
Definition require_operation (v : string) : result mutation_exn unit :=
  require_if (OPERATION_RE v) INVALID_ARGUMENTS Stage_REGISTRY "operation".

(** ** Lemmas *)

Lemma require_if_Ok ok r s d u : require_if ok r s d = Ok u <-> ok = true.
Proof. destruct ok, u; simpl; split; done. Qed.

Lemma raise_py_Ok {A} (m : result py_error A) a : raise_py m = Ok a <-> m = Ok a.
Proof. destruct m; simpl; split; congruence. Qed.

Lemma capability_value_inj c1 c2 : capability_value c1 = capability_value c2 -> c1 = c2.
Proof. by destruct c1, c2. Qed.

Example repository_example :
  (REPOSITORY_RE "owner/repo.name", REPOSITORY_RE "owner", REPOSITORY_RE "a/b/c", REPOSITORY_RE "-a/b")
  = (true, false, false, false).
Proof. by vm_compute. Qed.

Example operation_example :
  (OPERATION_RE "github.create_branch", OPERATION_RE "github", OPERATION_RE "github.", OPERATION_RE "Git.hub")
  = (true, false, false, false).
Proof. by vm_compute. Qed.
