(* ===== verification/ToolRegistry.v ===== *)
(** * Capability and tool registries ([v2/capabilities.py], [v2/registry.py])

    Two dicts in insertion order, open to registration until they are frozen; the snapshot that
    identifies their content is the canonical JSON of both, ordered by identifier. *)
From S2P Require Import Prelude.
From S2P Require Import PyText.
From S2P Require Import PyValue.
From S2P Require Import Canonical.
From S2P Require Import MutationContract.
From S2P Require Import ToolSchema.

(** ** Capabilities *)

Record CapabilityDescriptor := mkCapability {
  cap_id : string;
  cap_provider : string;
  cap_state : CapabilityState;
  cap_version : Z;
  cap_description : string
}.

(** [CapabilityDescriptor(...)] *)
Definition capability_descriptor (c : CapabilityDescriptor) : result registry_exn CapabilityDescriptor :=
  let! i := normalize_identifier (cap_id c) in
  let! p := normalize_identifier (cap_provider c) in
  do! invalid_if (cap_version c <? 1) in
  Ok (mkCapability i p (cap_state c) (cap_version c) (py_strip (cap_description c))).

(** [CapabilityDescriptor.is_ready], [canonical], [with_state] *)
Definition cap_is_ready (c : CapabilityDescriptor) : bool := capability_is_ready (cap_state c).

Definition cap_canonical (c : CapabilityDescriptor) : list (string * value) :=
  [("capability_id", VStr (cap_id c)); ("provider", VStr (cap_provider c));
   ("state", VStr (capability_state_value (cap_state c))); ("version", VInt (cap_version c))].

Definition with_state (c : CapabilityDescriptor) (s : CapabilityState) : CapabilityDescriptor :=
  mkCapability (cap_id c) (cap_provider c) s (cap_version c) (cap_description c).

Record CapabilityRegistry := mkCapabilities {
  cap_dict : list (string * CapabilityDescriptor);
  cap_frozen : bool
}.

(** [CapabilityRegistry.register] *)
Definition cap_register (c : CapabilityDescriptor) : st CapabilityRegistry registry_exn CapabilityDescriptor :=
  let* r := sget in
  if cap_frozen r then sraise RegistryFrozenError
  else if dhas (cap_id c) (cap_dict r) then sraise DuplicateCapabilityError
  else
    do* smodify (fun r => mkCapabilities (dset (cap_id c) c (cap_dict r)) (cap_frozen r)) in
    sret c.

(** [CapabilityRegistry.__init__] *)
Definition cap_init (cs : list CapabilityDescriptor) : result registry_exn unit * CapabilityRegistry :=
  sfor (fun c => do* cap_register c in sret tt) cs (mkCapabilities [] false).

(** [CapabilityRegistry.freeze] *)
Definition cap_freeze (r : CapabilityRegistry) : CapabilityRegistry :=
  mkCapabilities (cap_dict r) true.

(** [CapabilityRegistry.get]: an invalid identifier is unknown. *)
Definition cap_get (i : string) (r : CapabilityRegistry) : result registry_exn CapabilityDescriptor :=
  match normalize_identifier i with
  | Err _ => Err UnknownCapabilityError
  | Ok k => match dget k (cap_dict r) with Some c => Ok c | None => Err UnknownCapabilityError end
  end.

(** [CapabilityRegistry.contains], [is_ready] *)
Definition cap_contains (i : string) (r : CapabilityRegistry) : bool := is_ok (cap_get i r).
Definition cap_ready (i : string) (r : CapabilityRegistry) : bool :=
  match cap_get i r with Ok c => cap_is_ready c | Err _ => false end.

(** [CapabilityRegistry.ordered], [canonical] *)
Definition cap_ordered (r : CapabilityRegistry) : list CapabilityDescriptor :=
  map snd (sort_items (cap_dict r)).
Definition cap_registry_canonical (r : CapabilityRegistry) : value :=
  VList (map (fun c => VDict (cap_canonical c)) (cap_ordered r)).

(** ** Tools *)

Definition SNAPSHOT_SCHEMA_VERSION : string := "v2.phase1.1".

Record ToolRegistry := mkRegistry {
  reg_capabilities : CapabilityRegistry;
  reg_tools : list (string * ToolDefinition);
  reg_frozen : bool
}.

Definition registry_op := st ToolRegistry registry_exn.

(** The capability registry is shared with whoever passed it in: an operation on it, made
    through the tool registry or through that alias. *)
Definition on_capabilities {A} (m : st CapabilityRegistry registry_exn A) : registry_op A := fun r =>
  let '(a, c) := m (reg_capabilities r) in (a, mkRegistry c (reg_tools r) (reg_frozen r)).

(** [ToolRegistry.register_capability] *)
Definition register_capability (c : CapabilityDescriptor) : registry_op CapabilityDescriptor :=
  let* r := sget in
  if reg_frozen r then sraise RegistryFrozenError else on_capabilities (cap_register c).

(** [ToolRegistry.register] *)
Definition register (t : ToolDefinition) : registry_op ToolDefinition :=
  let* r := sget in
  if reg_frozen r then sraise RegistryFrozenError
  else if dhas (tool_id t) (reg_tools r) then sraise DuplicateToolError
  else if negb (cap_contains (capability_id t) (reg_capabilities r)) then
    sraise RegistryValidationError
  else if match credential_capability_id t with
          | Some c => negb (cap_contains c (reg_capabilities r))
          | None => false
          end
  then sraise RegistryValidationError
  else
    do* smodify (fun r =>
          mkRegistry (reg_capabilities r) (dset (tool_id t) t (reg_tools r)) (reg_frozen r)) in
    sret t.

(** [ToolRegistry.__init__] *)
Definition registry_init (caps : CapabilityRegistry) (ts : list ToolDefinition) :
  result registry_exn unit * ToolRegistry :=
  sfor (fun t => do* register t in sret tt) ts (mkRegistry caps [] false).

(** [ToolRegistry.freeze] *)
Definition freeze (r : ToolRegistry) : ToolRegistry :=
  mkRegistry (cap_freeze (reg_capabilities r)) (reg_tools r) true.

(** [ToolRegistry.get], [contains] *)
Definition get_tool (i : string) (r : ToolRegistry) : result registry_exn ToolDefinition :=
  match normalize_identifier i with
  | Err _ => Err UnknownToolError
  | Ok k => match dget k (reg_tools r) with Some t => Ok t | None => Err UnknownToolError end
  end.
Definition contains_tool (i : string) (r : ToolRegistry) : bool := is_ok (get_tool i r).

(** [ToolRegistry.ordered], [capability_state] *)
Definition ordered (r : ToolRegistry) : list ToolDefinition := map snd (sort_items (reg_tools r)).
Definition capability_state (t : ToolDefinition) (r : ToolRegistry) :
  result registry_exn CapabilityState :=
  let! c := cap_get (capability_id t) (reg_capabilities r) in Ok (cap_state c).

(** [ToolRegistry.snapshot_payload] *)
Definition snapshot_payload (r : ToolRegistry) : value :=
  VDict [("capabilities", cap_registry_canonical (reg_capabilities r));
         ("schema_version", VStr SNAPSHOT_SCHEMA_VERSION);
         ("tools", VList (map (fun t => VDict (tool_canonical t)) (ordered r)))].

Section Hash.
Variable sha256_hex : string -> string.

(** [ToolRegistry.snapshot().capability_snapshot_hash]; [CapabilitySnapshot] keeps the bytes and
    their digest. *)
Definition capability_snapshot_hash (r : ToolRegistry) : result registry_exn string :=
  raise_registry (canonical_hash sha256_hex (snapshot_payload r)).
End Hash.

(** ** Sequences of calls; the arguments are constructed by their models first *)

Inductive registry_call : Type :=
| RegisterCapability (raw : CapabilityDescriptor)
| AliasRegisterCapability (raw : CapabilityDescriptor)
| AliasFreeze
| Register (raw : ToolDefinition)
| Freeze.

Definition run_registry (r : ToolRegistry) (c : registry_call) : ToolRegistry :=
  match c with
  | RegisterCapability raw =>
      match capability_descriptor raw with Ok c => snd (register_capability c r) | Err _ => r end
  | AliasRegisterCapability raw =>
      match capability_descriptor raw with
      | Ok c => snd (on_capabilities (cap_register c) r)
      | Err _ => r
      end
  | AliasFreeze => mkRegistry (cap_freeze (reg_capabilities r)) (reg_tools r) (reg_frozen r)
  | Register raw => match tool_definition raw with Ok t => snd (register t r) | Err _ => r end
  | Freeze => freeze r
  end.

Definition run_registries : ToolRegistry -> list registry_call -> ToolRegistry := foldl run_registry.

Definition new_registry : ToolRegistry := mkRegistry (mkCapabilities [] false) [] false.

(** ** The invariant *)

(** A dict keyed by the identifier of its values. *)
Definition keyed {A} (key : A -> string) (d : list (string * A)) : Prop :=
  NoDup (dkeys d) /\ forall k x, (k, x) ∈ d -> key x = k.

Record reg_inv (r : ToolRegistry) : Prop := {
  ri_caps : keyed cap_id (cap_dict (reg_capabilities r));
  ri_cap_ids : forall k c, (k, c) ∈ cap_dict (reg_capabilities r) -> identifier k;
  ri_tools : keyed tool_id (reg_tools r);
  ri_tool_ok : forall k t, (k, t) ∈ reg_tools r -> tool_ok t;
  ri_closed : forall k t, (k, t) ∈ reg_tools r ->
    cap_contains (capability_id t) (reg_capabilities r) = true
    /\ forall c, credential_capability_id t = Some c -> cap_contains c (reg_capabilities r) = true;
  ri_frozen : reg_frozen r = true -> cap_frozen (reg_capabilities r) = true
}.

Lemma keyed_dset {A} (key : A -> string) x d :
  keyed key d -> dhas (key x) d = false -> keyed key (dset (key x) x d)
  /\ dset (key x) x d = d ++ [(key x, x)].
Proof.
  intros [Hnd Hk] Hh.
  assert (Hn : key x ∉ dkeys d) by (rewrite <- dhas_elem; congruence).
  rewrite (dkeys_dset_new _ x _ Hn). split; [|done]. split.
  - rewrite <- (dkeys_dset_new _ x _ Hn). by apply NoDup_dset.
  - intros k y [H|[= -> ->]%list_elem_of_singleton]%elem_of_app; eauto.
Qed.

Lemma dget_app_l {A} k (d e : list (string * A)) x : dget k d = Some x -> dget k (d ++ e) = Some x.
Proof. induction d as [|[k' y] d IH]; simpl; [done|]. by destruct (String.eqb k k'). Qed.

(** More capabilities never make a known one unknown. *)
Lemma cap_contains_app i d e f :
  cap_contains i (mkCapabilities d f) = true -> cap_contains i (mkCapabilities (d ++ e) f) = true.
Proof.
  unfold cap_contains, cap_get. simpl. destruct (normalize_identifier i) as [k|]; [|done].
  destruct (dget k d) as [c|] eqn:Hd; [|done]. by rewrite (dget_app_l k d e c Hd).
Qed.

Lemma cap_contains_frozen i d f g : cap_contains i (mkCapabilities d f) = cap_contains i (mkCapabilities d g).
Proof. done. Qed.

Lemma on_cap_register_inv raw c r :
  capability_descriptor raw = Ok c -> reg_inv r -> reg_inv (snd (on_capabilities (cap_register c) r)).
Proof.
  intros Hc Hi. destruct Hi as [H1 H2 H3 H4 H5 H6].
  unfold on_capabilities, cap_register, sbind, sget, sraise, smodify, sret.
  destruct r as [[cd cf] ts f]. simpl in *. destruct cf; [done|].
  destruct (dhas (cap_id c) cd) eqn:Hh; [done|]. simpl.
  destruct (keyed_dset cap_id c cd H1 Hh) as [Hk Heq].
  split; simpl; try done.
  - intros k x. rewrite Heq. intros [H|[= -> ->]%list_elem_of_singleton]%elem_of_app; [eauto|].
    unfold capability_descriptor in Hc. res_inv. by raise_inv.
  - intros k t Ht. destruct (H5 k t Ht) as [Ha Hb]. rewrite Heq. split; [by apply cap_contains_app|].
    intros x Hx. by apply cap_contains_app, Hb.
Qed.

Lemma register_inv raw t r : tool_definition raw = Ok t -> reg_inv r -> reg_inv (snd (register t r)).
Proof.
  intros Ht Hi. unfold register, sbind, sget, sraise, smodify, sret. cbn beta iota.
  destruct (reg_frozen r); [done|]. destruct (dhas (tool_id t) (reg_tools r)) eqn:Hh; [done|].
  destruct (cap_contains (capability_id t) (reg_capabilities r)) eqn:Hc; [|done]. cbn [negb].
  destruct (match credential_capability_id t with Some c => _ | None => false end) eqn:Hcred; [done|].
  destruct Hi as [H1 H2 H3 H4 H5 H6]. destruct (keyed_dset tool_id t _ H3 Hh) as [Hk Heq].
  split; cbn; try done; intros k x; rewrite Heq;
    (intros [H|[= -> ->]%list_elem_of_singleton]%elem_of_app; [by eauto|]).
  - by eapply tool_definition_ok.
  - split; [done|]. intros c Hc'. rewrite Hc' in Hcred. by apply negb_false_iff in Hcred.
Qed.

Lemma run_registry_inv r c : reg_inv r -> reg_inv (run_registry r c).
Proof.
  intros Hi. destruct c as [raw|raw| |raw|]; simpl.
  - destruct (capability_descriptor raw) as [c|] eqn:Hc; [|done].
    unfold register_capability, sbind, sget, sraise. cbn beta iota.
    destruct (reg_frozen r); [done|]. by eapply on_cap_register_inv.
  - destruct (capability_descriptor raw) as [c|] eqn:Hc; [|done]. by eapply on_cap_register_inv.
  - destruct Hi as [H1 H2 H3 H4 H5 H6]. by split.
  - destruct (tool_definition raw) as [t|] eqn:Ht; [|done]. by eapply register_inv.
  - destruct Hi as [H1 H2 H3 H4 H5 H6]. by split.
Qed.

Lemma run_registries_inv r cs : reg_inv r -> reg_inv (run_registries r cs).
Proof. revert r. induction cs as [|c cs IH]; intros r Hi; [done|]. by apply IH, run_registry_inv. Qed.

Lemma new_registry_inv : reg_inv new_registry.
Proof. split; simpl; try (split; [constructor|]); try (intros; by match goal with H : _ ∈ [] |- _ => apply not_elem_of_nil in H end); done. Qed.

(** ** What a registry promises *)

(** Lookup is total on what was registered: whatever calls built the registry, a tool found
    under some spelling of its identifier is a well-formed definition with that identifier in
    normal form, and its capability and credential capability are known. *)
Theorem registry_lookup cs i t :
  get_tool i (run_registries new_registry cs) = Ok t ->
  tool_ok t /\ normalize_identifier i = Ok (tool_id t)
  /\ is_ok (capability_state t (run_registries new_registry cs)) = true
  /\ forall c, credential_capability_id t = Some c ->
       cap_contains c (reg_capabilities (run_registries new_registry cs)) = true.
Proof.
  pose proof (run_registries_inv _ cs new_registry_inv) as Hi. set (r := run_registries _ _) in *.
  unfold get_tool. destruct (normalize_identifier i) as [k|]; [|done].
  destruct (dget k (reg_tools r)) as [t'|] eqn:Hd; [|done]. intros [= ->].
  apply dget_elem in Hd. destruct (ri_closed r Hi k t Hd) as [Hc Hcred].
  split_and!; [by eapply ri_tool_ok| |unfold capability_state, cap_contains in *|done].
  - by rewrite (proj2 (ri_tools r Hi) k t Hd).
  - by destruct (cap_get _ _).
Qed.

(** A frozen registry never changes again, whoever holds its capability registry. *)
Theorem frozen_registry_stays r cs : run_registries (freeze r) cs = freeze r.
Proof.
  induction cs as [|c cs IH]; [done|]. cbn [run_registries foldl].
  replace (run_registry (freeze r) c) with (freeze r); [exact IH|].
  destruct c as [raw|raw| |raw|]; simpl; try done;
    [destruct (capability_descriptor raw) | destruct (capability_descriptor raw) | destruct (tool_definition raw)]; done.
Qed.

(** ** Snapshots *)

(** The same capability, up to its description. *)
Definition same_capability (a b : CapabilityDescriptor) : Prop :=
  cap_id a = cap_id b /\ cap_provider a = cap_provider b /\ cap_state a = cap_state b
  /\ cap_version a = cap_version b.

Lemma cap_canonical_iff a b :
  normal (VDict (cap_canonical a)) = normal (VDict (cap_canonical b)) <-> same_capability a b.
Proof.
  unfold same_capability. split.
  - unfold cap_canonical. intros H. dict_fields H F.
    pose proof (F "capability_id") as [= A1]. pose proof (F "provider") as [= A2].
    pose proof (F "state") as [= A3]. pose proof (F "version") as [= A4].
    split_and!; try done. by destruct (cap_state a), (cap_state b).
  - intros (H1 & H2 & H3 & H4). apply normal_dict_congr. unfold cap_canonical. cbn [map].
    by rewrite H1, H2, H3, H4.
Qed.

(** Two dicts hold related values under the same keys. *)
Definition same_dict {A} (R : A -> A -> Prop) (d1 d2 : list (string * A)) : Prop :=
  forall k, option_Forall2 R (dget k d1) (dget k d2).

Section Ordered.
Context {A : Type} (key : A -> string) (canonical : A -> list (string * value)) (R : A -> A -> Prop).
Hypothesis canonical_iff : forall x y,
  normal (VDict (canonical x)) = normal (VDict (canonical y)) <-> R x y.
Hypothesis R_key : forall x y, R x y -> key x = key y.

Definition texts (d : list (string * A)) : list value :=
  map (fun x => normal (VDict (canonical x))) (map snd (sort_items d)).

Lemma keyed_sorted d : keyed key d -> keyed key (sort_items d).
Proof.
  intros [Hnd Hk]. unfold sort_items, dkeys. split.
  - unfold dkeys. rewrite sort_by_perm. exact Hnd.
  - intros k x. rewrite elem_of_sort_by. apply Hk.
Qed.

Lemma sorted_keys (d : list (string * A)) : dkeys (sort_items d) = sort_str (dkeys d).
Proof. unfold dkeys, sort_items, sort_str. symmetry. by apply sort_by_map. Qed.

Lemma same_dict_keys (d1 d2 : list (string * A)) : same_dict R d1 d2 -> NoDup (dkeys d1) -> NoDup (dkeys d2) ->
  sort_str (dkeys d1) = sort_str (dkeys d2).
Proof.
  intros H N1 N2. apply sort_str_perm, NoDup_Permutation; [done..|]. intros k.
  rewrite <- !dhas_elem. unfold dhas. by destruct (H k).
Qed.

Lemma texts_lookup d : NoDup (dkeys d) ->
  texts d = omap (fun k => (fun x => normal (VDict (canonical x))) <$> dget k d) (sort_str (dkeys d)).
Proof.
  intros Hnd. rewrite <- sorted_keys. unfold texts.
  assert (Hget : forall k x, (k, x) ∈ sort_items d -> dget k d = Some x).
  { intros k x H. apply dget_NoDup; [done|]. by apply elem_of_sort_by in H. }
  induction (sort_items d) as [|[k x] l IH]; [done|]. simpl.
  rewrite (Hget k x) by by left. simpl. f_equal. apply IH. intros. apply Hget. by right.
Qed.

Lemma texts_iff d1 d2 : keyed key d1 -> keyed key d2 -> texts d1 = texts d2 <-> same_dict R d1 d2.
Proof.
  intros K1 K2. split.
  - intros H k. rewrite <- (dget_sort_items k d1), <- (dget_sort_items k d2) by apply K1 || apply K2.
    pose proof (proj2 (keyed_sorted d1 K1)) as E1. pose proof (proj2 (keyed_sorted d2 K2)) as E2.
    unfold texts in H. revert H E1 E2. generalize (sort_items d1) (sort_items d2). clear -canonical_iff R_key.
    intros l1. induction l1 as [|[k1 x1] l1 IH]; intros [|[k2 x2] l2] H E1 E2; [constructor|discriminate H|discriminate H|].
    simpl in H. injection H as Hx Hl.
    assert (HR : R x1 x2) by (apply canonical_iff; simpl; congruence).
    assert (k1 = k2) as <- by (rewrite <- (E1 k1 x1), <- (E2 k2 x2) by (by left); by apply R_key).
    simpl. destruct (String.eqb k k1); [by constructor|]. 
    apply IH; [done|intros k' x' ?; apply E1; by right|intros k' x' ?; apply E2; by right].
  - intros H. rewrite !texts_lookup by apply K1 || apply K2. rewrite (same_dict_keys d1 d2 H) by apply K1 || apply K2.
    assert (Hp : forall k, (fun x => normal (VDict (canonical x))) <$> dget k d1
                         = (fun x => normal (VDict (canonical x))) <$> dget k d2).
    { intros k. destruct (H k) as [x y Hxy|]; [|done]. apply (f_equal Some). by apply canonical_iff. }
    induction (sort_str (dkeys d2)) as [|k ks IH]; [done|]. unfold omap in *. cbn [list_omap].
    by rewrite Hp, IH.
Qed.
End Ordered.

Lemma snapshot_iff r1 r2 :
  reg_inv r1 -> reg_inv r2 ->
  normal (snapshot_payload r1) = normal (snapshot_payload r2) <->
  same_dict same_capability (cap_dict (reg_capabilities r1)) (cap_dict (reg_capabilities r2))
  /\ same_dict same_tool (reg_tools r1) (reg_tools r2).
Proof.
  intros I1 I2.
  rewrite <- (texts_iff cap_id cap_canonical same_capability cap_canonical_iff ltac:(by intros x y [? _]))
    by apply I1 || apply I2.
  rewrite <- (texts_iff tool_id tool_canonical same_tool tool_canonical_iff) by
    (apply I1 || apply I2 || by intros x y [[= -> _] _]).
  assert (Hmap : forall {A} (f : A -> list (string * value)) d,
    map normal (map (fun x => VDict (f x)) (map snd (sort_items d))) = texts f d)
    by (intros; unfold texts; by rewrite map_map).
  split.
  - unfold snapshot_payload, cap_registry_canonical, cap_ordered, ordered. intros H. dict_fields H F.
    pose proof (F "capabilities") as H1. pose proof (F "tools") as H2.
    apply (inj Some) in H1, H2. apply normal_list in H1, H2. rewrite !Hmap in H1, H2. done.
  - intros [H1 H2]. unfold snapshot_payload, cap_registry_canonical, cap_ordered, ordered.
    apply normal_dict_congr. cbn [map]. f_equal; [|f_equal; f_equal]; f_equal;
      apply normal_list; by rewrite !Hmap.
Qed.

Section SnapshotHash.
Variable sha256_hex : string -> string.
Hypothesis sha256_collision_free : forall x y, sha256_hex x = sha256_hex y -> x = y.

(** The snapshot hash identifies the tool surface: two registries, built by any calls in any
    order, have the same hash exactly when they hold the same capabilities and the same tools
    under the same identifiers, descriptions and the order of schema keys apart. *)
Theorem snapshot_hash_identifies cs1 cs2 h1 h2 :
  let r1 := run_registries new_registry cs1 in let r2 := run_registries new_registry cs2 in
  capability_snapshot_hash sha256_hex r1 = Ok h1 -> capability_snapshot_hash sha256_hex r2 = Ok h2 ->
  h1 = h2 <->
  same_dict same_capability (cap_dict (reg_capabilities r1)) (cap_dict (reg_capabilities r2))
  /\ same_dict same_tool (reg_tools r1) (reg_tools r2).
Proof.
  intros r1 r2. unfold capability_snapshot_hash, canonical_hash, raise_registry. intros H1 H2.
  destruct (canonical_json_bytes (snapshot_payload r1)) as [b1|] eqn:E1; [|done].
  destruct (canonical_json_bytes (snapshot_payload r2)) as [b2|] eqn:E2; [|done].
  injection H1 as <-. injection H2 as <-.
  rewrite <- snapshot_iff by apply run_registries_inv, new_registry_inv.
  rewrite <- (canonical_text_determines _ _ b1 b2) by done.
  split; [apply sha256_collision_free|by intros ->].
Qed.
End SnapshotHash.

(** ** Concrete registries *)

Definition demo_schema : list (string * value) :=
  [("type", VStr "object"); ("properties", VDict [("token", VDict [("type", VStr "string")])])].

Definition demo_tool (i text : string) : ToolDefinition :=
  mkTool i "github" "create_branch" 1 Mode_DIRECT demo_schema demo_schema T3 false Class_STANDARD
    Idem_BY_PRECONDITION "github.branch.create" Appr_REQUIRED "github.api"
    (Some "github.write.branch") 30 (mkRetryPolicy NO_RETRY 1 0 0 true)
    (mkResourceKey "repository" "default") Shape_REQUIRED Stab_EXPERIMENTAL false text "github-rest".

Definition demo_capability (i text : string) : CapabilityDescriptor :=
  mkCapability i "github" Cap_READY 1 text.

Definition demo_calls (text : string) : list registry_call :=
  [RegisterCapability (demo_capability "github.api" text);
   RegisterCapability (demo_capability "github.write.branch" text);
   Register (demo_tool "github.create_branch" text); Register (demo_tool " GitHub.other " text); Freeze].

Definition demo_calls_reordered (text : string) : list registry_call :=
  [AliasRegisterCapability (demo_capability "github.write.branch" text);
   RegisterCapability (demo_capability "github.api" text);
   Register (demo_tool "github.other" text); Register (demo_tool "github.create_branch" text)].

Lemma registry_lookup_witness :
  exists t, get_tool "github.OTHER" (run_registries new_registry (demo_calls "")) = Ok t
  /\ tool_ok t /\ tool_id t = "github.other".
Proof.
  destruct (get_tool "github.OTHER" (run_registries new_registry (demo_calls ""))) as [t|e] eqn:He;
    [|vm_compute in He; discriminate].
  exists t. split; [reflexivity|].
  destruct (registry_lookup (demo_calls "") "github.OTHER" t He) as (Hok & Hn & _).
  split; [exact Hok|]. vm_compute in Hn. injection Hn as Hn. symmetry. exact Hn.
Defined.

Lemma snapshot_hash_identifies_witness :
  capability_snapshot_hash (fun s => s) (run_registries new_registry (demo_calls "a"))
  = capability_snapshot_hash (fun s => s) (run_registries new_registry (demo_calls_reordered "b"))
  /\ same_dict same_tool (reg_tools (run_registries new_registry (demo_calls "a")))
       (reg_tools (run_registries new_registry (demo_calls_reordered "b"))).
Proof.
  destruct (capability_snapshot_hash (fun s => s) (run_registries new_registry (demo_calls "a")))
    as [h1|e] eqn:H1; [|vm_compute in H1; discriminate].
  destruct (capability_snapshot_hash (fun s => s) (run_registries new_registry (demo_calls_reordered "b")))
    as [h2|e] eqn:H2; [|vm_compute in H2; discriminate].
  assert (He : h1 = h2) by (vm_compute in H1, H2; congruence).
  split; [congruence|].
  apply (snapshot_hash_identifies (fun s => s) (fun x y H => H) (demo_calls "a") (demo_calls_reordered "b")
           h1 h2 H1 H2). exact He.
Defined.
