(* ===== verification/Policy.v ===== *)
(** * Policy evaluation ([v2/policy.py], [v2/credentials.py])

    Explicit rules per action, and the fixed order of fail-closed checks.  The credential broker
    is an interface: the engine only asks for the status of a capability. *)
From S2P Require Import Prelude.
From S2P Require Import PyText.
From S2P Require Import PyValue.
From S2P Require Import Canonical.
From S2P Require Import MutationContract.
From S2P Require Import ToolSchema.
From S2P Require Import ToolRegistry.

(** ** Credential brokers *)

Record CredentialCapabilityStatus := mkCredentialStatus {
  cs_id : string;
  cs_provider : string;
  cs_state : CapabilityState;
  cs_version : Z
}.

(** [CredentialCapabilityStatus(...)] *)
Definition credential_status (c : CredentialCapabilityStatus) :
  result registry_exn CredentialCapabilityStatus :=
  let! i := normalize_identifier (cs_id c) in
  let! p := normalize_identifier (cs_provider c) in
  do! invalid_if (cs_version c <? 1) in
  Ok (mkCredentialStatus i p (cs_state c) (cs_version c)).

Definition cs_is_ready (c : CredentialCapabilityStatus) : bool := capability_is_ready (cs_state c).

Definition credential_canonical (c : CredentialCapabilityStatus) : list (string * value) :=
  [("capability_id", VStr (cs_id c)); ("provider", VStr (cs_provider c));
   ("state", VStr (capability_state_value (cs_state c))); ("version", VInt (cs_version c))].

(** The protocol [CredentialBroker], and the law that a status is about the capability asked for:
    an unknown or unresolvable one has none. *)
Class CredentialBroker (B : Type) := broker_status : B -> string -> option CredentialCapabilityStatus.

Class BrokerLaws (B : Type) `{CredentialBroker B} :=
  status_about : forall (b : B) i s, broker_status b i = Some s -> cs_id s = lower (py_strip i).

(** [CredentialBroker.is_ready] *)
Definition broker_is_ready `{CredentialBroker B} (b : B) (i : string) : bool :=
  match broker_status b i with Some s => cs_is_ready s | None => false end.

(** [StaticCredentialBroker]: later statuses replace earlier ones of the same capability. *)
Record StaticCredentialBroker := mkStaticBroker { statuses : list CredentialCapabilityStatus }.

Definition static_dict (b : StaticCredentialBroker) : list (string * CredentialCapabilityStatus) :=
  fold_left (fun d c => dset (cs_id c) c d) (statuses b) [].

#[export] Instance static_status : CredentialBroker StaticCredentialBroker := fun b i =>
  match normalize_identifier i with Ok k => dget k (static_dict b) | Err _ => None end.

Definition static_ordered (b : StaticCredentialBroker) : list CredentialCapabilityStatus :=
  map snd (sort_items (static_dict b)).

Lemma static_dict_keyed b k c : dget k (static_dict b) = Some c -> cs_id c = k.
Proof.
  unfold static_dict. assert (H : forall l d, (forall k c, dget k d = Some c -> cs_id c = k) ->
    forall k c, dget k (fold_left (fun d c => dset (cs_id c) c d) l d) = Some c -> cs_id c = k).
  { induction l as [|x l IH]; intros d Hd; [exact Hd|]. apply IH. intros k' c'.
    destruct (decide (cs_id x = k')) as [<-|Hne];
      [rewrite dget_dset_eq; by intros [= <-]|rewrite dget_dset_ne by done; apply Hd]. }
  by apply H.
Qed.

#[export] Instance static_laws : BrokerLaws StaticCredentialBroker.
Proof.
  intros b i s. unfold broker_status, static_status.
  destruct (normalize_identifier i) as [k|] eqn:Hk; [|done].
  intros H%static_dict_keyed. apply normalize_identifier_Ok in Hk as (Hk & _). congruence.
Qed.

(** ** Rules *)

Record PolicyRule := mkRule { rule_action : string; rule_decision : PolicyDecision; note : string }.

Definition WILDCARD_CHARS : list string := ["*"; "?"; "["; "]"].

Definition policy_error {A} : result registry_exn A := Err PolicyValidationError.

(** [PolicyRule(...)] with its validator [_action] *)
Definition policy_rule (r : PolicyRule) : result registry_exn PolicyRule :=
  let raw := py_strip (rule_action r) in
  do! rfor (fun char => raise_if (contains char raw) PolicyValidationError) WILDCARD_CHARS in
  match normalize_identifier raw with
  | Ok a => Ok (mkRule a (rule_decision r) (note r))
  | Err _ => policy_error
  end.

(** [PolicyRule.canonical]: no note. *)
Definition rule_canonical (r : PolicyRule) : list (string * value) :=
  [("decision", VStr (policy_value (rule_decision r))); ("policy_action", VStr (rule_action r))].

Abbreviation PolicyRuleSet := (list (string * PolicyRule)).

(** [PolicyRuleSet.__init__] *)
Definition policy_rule_set (rules : list PolicyRule) : result registry_exn PolicyRuleSet :=
  rfold (fun m r => if dhas (rule_action r) m then policy_error else Ok (dset (rule_action r) r m))
    [] rules.

(** [PolicyRuleSet.get], [ordered], [canonical] *)
Definition get_rule (action : string) (rs : PolicyRuleSet) : option PolicyRule :=
  match normalize_identifier action with Ok k => dget k rs | Err _ => None end.
Definition rules_ordered (rs : PolicyRuleSet) : list PolicyRule := map snd (sort_items rs).
Definition rules_canonical (rs : PolicyRuleSet) : value :=
  VList (map (fun r => VDict (rule_canonical r)) (rules_ordered rs)).

(** ** Evaluation *)

Inductive ReasonCode : Type :=
| ALLOWED | UNKNOWN_TOOL | MISSING_POLICY_RULE | EXPLICIT_DENY | APPROVAL_REQUIRED_BY_RULE
| APPROVAL_REQUIRED_BY_TOOL | CAPABILITY_UNKNOWN | CAPABILITY_NOT_READY
| CREDENTIAL_CAPABILITY_UNKNOWN | CREDENTIAL_CAPABILITY_NOT_READY | DESTRUCTIVE_DENIED_BY_DEFAULT
| POLICY_ACTION_MISMATCH.

Definition reason_code_value (r : ReasonCode) : string :=
  match r with
  | ALLOWED => "ALLOWED"
  | UNKNOWN_TOOL => "UNKNOWN_TOOL"
  | MISSING_POLICY_RULE => "MISSING_POLICY_RULE"
  | EXPLICIT_DENY => "EXPLICIT_DENY"
  | APPROVAL_REQUIRED_BY_RULE => "APPROVAL_REQUIRED_BY_RULE"
  | APPROVAL_REQUIRED_BY_TOOL => "APPROVAL_REQUIRED_BY_TOOL"
  | CAPABILITY_UNKNOWN => "CAPABILITY_UNKNOWN"
  | CAPABILITY_NOT_READY => "CAPABILITY_NOT_READY"
  | CREDENTIAL_CAPABILITY_UNKNOWN => "CREDENTIAL_CAPABILITY_UNKNOWN"
  | CREDENTIAL_CAPABILITY_NOT_READY => "CREDENTIAL_CAPABILITY_NOT_READY"
  | DESTRUCTIVE_DENIED_BY_DEFAULT => "DESTRUCTIVE_DENIED_BY_DEFAULT"
  | POLICY_ACTION_MISMATCH => "POLICY_ACTION_MISMATCH"
  end.

Record PolicyEvaluation := mkEvaluation {
  ev_tool : string;
  ev_action : string;
  ev_decision : PolicyDecision;
  ev_reason : ReasonCode
}.

(** [_deny] *)
Definition policy_deny (t action : string) (reason : ReasonCode) : PolicyEvaluation :=
  mkEvaluation t action Policy_DENY reason.

Definition evaluation_canonical (e : PolicyEvaluation) : list (string * value) :=
  [("decision", VStr (policy_value (ev_decision e))); ("policy_action", VStr (ev_action e));
   ("reason_code", VStr (reason_code_value (ev_reason e))); ("tool_id", VStr (ev_tool e))].

Section Engine.
Context {B : Type} `{CredentialBroker B}.
Variables (registry : ToolRegistry) (rules : PolicyRuleSet) (broker : option B).

(** Step 3 of [evaluate_tool]: the credential capability. *)
Definition credential_refusal (t : ToolDefinition) : option ReasonCode :=
  match credential_capability_id t with
  | None => None
  | Some c =>
      match broker with
      | None => Some CREDENTIAL_CAPABILITY_UNKNOWN
      | Some b =>
          match broker_status b c with
          | None => Some CREDENTIAL_CAPABILITY_UNKNOWN
          | Some s => if cs_is_ready s then None else Some CREDENTIAL_CAPABILITY_NOT_READY
          end
      end
  end.

(** [PolicyEngine.evaluate_tool] *)
Definition evaluate_tool (t : ToolDefinition) : PolicyEvaluation :=
  let action := policy_action t in
  let i := tool_id t in
  if is_destructive t then policy_deny i action DESTRUCTIVE_DENIED_BY_DEFAULT
  else
    match cap_get (capability_id t) (reg_capabilities registry) with
    | Err _ => policy_deny i action CAPABILITY_UNKNOWN
    | Ok c =>
        if negb (cap_is_ready c) then policy_deny i action CAPABILITY_NOT_READY
        else
          match credential_refusal t with
          | Some r => policy_deny i action r
          | None =>
              match get_rule action rules with
              | None => policy_deny i action MISSING_POLICY_RULE
              | Some r =>
                  if negb (String.eqb (rule_action r) action)
                  then policy_deny i action POLICY_ACTION_MISMATCH
                  else
                    match rule_decision r with
                    | Policy_DENY => policy_deny i action EXPLICIT_DENY
                    | Policy_APPROVAL_REQUIRED =>
                        mkEvaluation i action Policy_APPROVAL_REQUIRED APPROVAL_REQUIRED_BY_RULE
                    | Policy_ALLOW =>
                        if bool_decide (approval_requirement t = Appr_REQUIRED)
                        then mkEvaluation i action Policy_APPROVAL_REQUIRED APPROVAL_REQUIRED_BY_TOOL
                        else mkEvaluation i action Policy_ALLOW ALLOWED
                    end
              end
          end
    end.

(** [PolicyEngine.evaluate] *)
Definition evaluate (i : string) : PolicyEvaluation :=
  match get_tool i registry with
  | Err _ =>
      let safe := lower (py_strip i) in
      mkEvaluation (if String.eqb safe "" then "<empty>" else safe) "<unknown>" Policy_DENY UNKNOWN_TOOL
  | Ok t => evaluate_tool t
  end.

(** [PolicyEngine.evaluate_all] *)
Definition evaluate_all : list PolicyEvaluation := map evaluate_tool (ordered registry).
End Engine.

(** ** What the decision means *)

Section Meaning.
Context {B : Type} `{BrokerLaws B}.

(** The conditions every non-denied tool meets: it is not destructive, its capability is READY,
    and its credential capability, if it needs one, is READY according to the broker. *)
Definition usable (registry : ToolRegistry) (broker : option B) (t : ToolDefinition) : Prop :=
  is_destructive t = false /\ cap_ready (capability_id t) (reg_capabilities registry) = true
  /\ forall c, credential_capability_id t = Some c ->
       exists b s, broker = Some b /\ broker_status b c = Some s /\ cs_is_ready s = true
       /\ cs_id s = lower (py_strip c).

Lemma policy_rule_set_get rules rs a r :
  policy_rule_set rules = Ok rs -> (forall r, r ∈ rules -> identifier (rule_action r)) ->
  identifier a -> get_rule a rs = Some r <-> r ∈ rules /\ rule_action r = a.
Proof.
  intros Hrs Hids Ha. unfold get_rule. rewrite Ha. clear Ha Hids. unfold policy_rule_set in Hrs.
  assert (Hgen : forall l m rs, rfold (fun m r => if dhas (rule_action r) m then policy_error
                             else Ok (dset (rule_action r) r m)) m l = Ok rs ->
    keyed rule_action m ->
    keyed rule_action rs /\ forall r, (rule_action r, r) ∈ rs <-> (rule_action r, r) ∈ m \/ r ∈ l).
  { clear. induction l as [|x l IH]; intros m rs; cbn [rfold].
    - intros [= <-] Hk. split; [done|]. intros r. rewrite elem_of_nil. tauto.
    - destruct (dhas (rule_action x) m) eqn:Hh; [done|]. cbn [rbind]. intros Hf Hk.
      destruct (keyed_dset rule_action x m Hk Hh) as [Hk' Heq].
      destruct (IH _ _ Hf Hk') as [K1 K2]. split; [done|]. intros r. rewrite K2, Heq, elem_of_app.
      rewrite !elem_of_cons, elem_of_nil. naive_solver. }
  destruct (Hgen rules [] rs Hrs) as [[K1 K2] K3];
    [split; [constructor|]; by intros ? ? []%not_elem_of_nil|].
  split.
  - intros Hd%dget_elem. pose proof (K2 a r Hd) as <-. split; [|done].
    apply K3 in Hd as [[]%not_elem_of_nil|?]. done.
  - intros [Hin <-]. apply dget_NoDup; [done|]. apply K3. by right.
Qed.

Lemma policy_rule_action raw r : policy_rule raw = Ok r -> identifier (rule_action r).
Proof.
  unfold policy_rule. intros (u & _ & Hr)%rbind_Ok. destruct (normalize_identifier _) eqn:Hk; [|done].
  injection Hr as <-. by eapply normalize_identifier_normal.
Qed.

Lemma cap_ready_iff i r :
  cap_ready i r = true <-> exists c, cap_get i r = Ok c /\ cap_is_ready c = true.
Proof. unfold cap_ready. destruct (cap_get i r); naive_solver. Qed.

Lemma credential_refusal_None broker t :
  credential_refusal broker t = None <->
  forall c, credential_capability_id t = Some c ->
    exists b s, broker = Some b /\ broker_status b c = Some s /\ cs_is_ready s = true
    /\ cs_id s = lower (py_strip c).
Proof.
  unfold credential_refusal. destruct (credential_capability_id t) as [c|]; [|naive_solver].
  split.
  - intros Hn c' [= <-]. destruct broker as [b|]; [|done].
    destruct (broker_status b c) as [s|] eqn:Hs; [|done].
    destruct (cs_is_ready s) eqn:Hr; [|done]. exists b, s. split_and!; try done. by apply (status_about b).
  - intros Hc. destruct (Hc c eq_refl) as (b & s & -> & Hs & Hr & _). by rewrite Hs, Hr.
Qed.

(** A refused tool meets none of the two conditions. *)
Ltac denied :=
  split; (split; [intros Hdeny; discriminate Hdeny|]);
  intros ((? & (? & ? & ?) & ?) & ? & ? & ?); simplify_eq; congruence.

(** The decision, for a registry built by any calls and rules built by the models: a tool is
    ALLOWED exactly when it is registered and usable, the rule for its action says ALLOW and it
    does not require approval itself; it needs approval exactly when it is usable and the rule or
    the tool (under an ALLOW rule) requires it; everything else is denied. *)
Theorem evaluate_decision cs raw_rules rules rs (broker : option B) i :
  let registry := run_registries new_registry cs in
  rmap policy_rule raw_rules = Ok rules -> policy_rule_set rules = Ok rs ->
  (ev_decision (evaluate registry rs broker i) = Policy_ALLOW <->
     exists t r, get_tool i registry = Ok t /\ usable registry broker t /\ r ∈ rules
       /\ rule_action r = policy_action t /\ rule_decision r = Policy_ALLOW
       /\ approval_requirement t <> Appr_REQUIRED)
  /\ (ev_decision (evaluate registry rs broker i) = Policy_APPROVAL_REQUIRED <->
     exists t r, get_tool i registry = Ok t /\ usable registry broker t /\ r ∈ rules
       /\ rule_action r = policy_action t
       /\ (rule_decision r = Policy_APPROVAL_REQUIRED
           \/ rule_decision r = Policy_ALLOW /\ approval_requirement t = Appr_REQUIRED)).
Proof.
  intros registry Hrules Hrs.
  assert (Hids : forall r, r ∈ rules -> identifier (rule_action r)).
  { apply rmap_Ok in Hrules. intros r Hr. apply list_elem_of_lookup in Hr as [n Hn].
    eapply Forall2_lookup_r in Hrules as (raw & _ & Hraw); [|exact Hn]. by eapply policy_rule_action. }
  unfold evaluate. destruct (get_tool i registry) as [t|e] eqn:Hget; [|split; naive_solver].
  assert (Hact : identifier (policy_action t)).
  { apply (ok_ids t). by destruct (registry_lookup cs i t Hget) as [? _]. }
  pose proof (fun r => policy_rule_set_get rules rs (policy_action t) r Hrs Hids Hact) as Hrule.
  assert (Huse : usable registry broker t <-> is_destructive t = false
            /\ (exists c, cap_get (capability_id t) (reg_capabilities registry) = Ok c /\ cap_is_ready c = true)
            /\ credential_refusal broker t = None)
    by (unfold usable; by rewrite cap_ready_iff, credential_refusal_None).
  assert (Hex : forall P : ToolDefinition -> PolicyRule -> Prop,
    (exists t' r, @Ok registry_exn _ t = Ok t' /\ usable registry broker t' /\ r ∈ rules
       /\ rule_action r = policy_action t' /\ P t' r)
    <-> usable registry broker t /\ exists r, get_rule (policy_action t) rs = Some r /\ P t r).
  { intros P. split.
    - intros (t' & r & [= <-] & Hu & Hin & Ha & HP). split; [done|]. exists r. split; [|done]. by apply Hrule.
    - intros (Hu & r & [Hin Ha]%Hrule & HP). by exists t, r. }
  rewrite (Hex (fun t r => rule_decision r = Policy_ALLOW /\ approval_requirement t <> Appr_REQUIRED)).
  rewrite (Hex (fun t r => rule_decision r = Policy_APPROVAL_REQUIRED
           \/ rule_decision r = Policy_ALLOW /\ approval_requirement t = Appr_REQUIRED)).
  rewrite Huse. unfold evaluate_tool.
  destruct (is_destructive t); [denied|].
  destruct (cap_get (capability_id t) (reg_capabilities registry)) as [c|]; [|denied].
  destruct (cap_is_ready c) eqn:Hready; cbn [negb]; [|denied].
  destruct (credential_refusal broker t); [denied|].
  destruct (get_rule (policy_action t) rs) as [r|] eqn:Hr; [|denied].
  rewrite (proj2 (proj1 (Hrule r) eq_refl)). rewrite String.eqb_refl. cbn [negb].
  assert (Hred : forall P : PolicyRule -> Prop,
    ((false = false /\ (exists c', @Ok registry_exn _ c = Ok c' /\ cap_is_ready c' = true)
      /\ @None ReasonCode = None) /\ exists r', Some r = Some r' /\ P r') <-> P r).
  { intros P. split; [by intros (_ & r' & [= <-] & HP)|]. intros HP. split_and!; try done; eauto. }
  rewrite (Hred (fun r => rule_decision r = Policy_ALLOW /\ approval_requirement t <> Appr_REQUIRED)).
  rewrite (Hred (fun r => rule_decision r = Policy_APPROVAL_REQUIRED
           \/ rule_decision r = Policy_ALLOW /\ approval_requirement t = Appr_REQUIRED)).
  clear. destruct (rule_decision r); [destruct (approval_requirement t)|..]; simpl; intuition congruence.
Qed.
End Meaning.

(** ** A concrete policy *)

Definition demo_rules : list PolicyRule :=
  [mkRule " GitHub.Branch.Create" Policy_ALLOW "reviewed"].

Definition demo_broker (s : CapabilityState) : StaticCredentialBroker :=
  mkStaticBroker [mkCredentialStatus "github.write.branch" "github" s 1].

Lemma evaluate_decision_witness :
  match rmap policy_rule demo_rules with
  | Ok rules =>
      match policy_rule_set rules with
      | Ok rs =>
          (exists t r, get_tool "github.create_branch" (run_registries new_registry (demo_calls "")) = Ok t
             /\ r ∈ rules /\ rule_action r = policy_action t)
          /\ ev_decision (evaluate (run_registries new_registry (demo_calls "")) rs
                            (Some (demo_broker Cap_DEGRADED)) "github.create_branch") = Policy_DENY
      | Err _ => False
      end
  | Err _ => False
  end.
Proof.
  destruct (rmap policy_rule demo_rules) as [rules|] eqn:H1; [|vm_compute in H1; discriminate].
  destruct (policy_rule_set rules) as [rs|] eqn:H2;
    [|vm_compute in H1; injection H1 as <-; vm_compute in H2; discriminate].
  destruct (evaluate_decision (demo_calls "") demo_rules rules rs (Some (demo_broker Cap_READY))
              "github.create_branch" H1 H2) as [_ [Happ _]].
  split.
  - destruct Happ as (t & r & Hg & _ & Hin & Ha & _).
    + vm_compute in H1. injection H1 as <-. vm_compute in H2. injection H2 as <-. vm_compute. reflexivity.
    + exists t, r. split; [exact Hg|]. split; [exact Hin|exact Ha].
  - vm_compute in H1. injection H1 as <-. vm_compute in H2. injection H2 as <-. vm_compute. reflexivity.
Defined.
