(* ===== verification/WriteCredentials.v ===== *)
(** * Write credentials ([v2/github_write_credentials.py], [v2/github_readiness.py],
      [v2/github_secret_provider.py], [v2/github_direct.py])

    The repository allow-list, the file-mounted provider of one write capability's secret, and
    the broker that lets a mutation have it.  What the operating system answers to [os.open],
    [os.fstat] and [os.read] is an input; so is the environment. *)
From S2P Require Import Prelude.
From S2P Require Import PyText.
From S2P Require Import PyValue.
From S2P Require Import Canonical.
From S2P Require Import MutationContract.
From S2P Require Import ToolSchema.
From S2P Require Import ToolRegistry.
From S2P Require Import Policy.

Definition READ_CAPABILITY_ID : string := "github.read".
Definition FORBIDDEN_PERMISSION : string := "Administration".

(** [_normalize] on a string *)
Definition normalize (s : string) : string := lower (py_strip s).

(** ** The repository allow-list ([GitHubRepositoryScope]) *)

Definition repo_part_char (c : ascii) : bool := is_alnum c || one_of "_.-" c.
Definition REPO_PART_RE (s : string) : bool :=
  all_chars repo_part_char s && (1 <=? byte_len s) && (byte_len s <=? 100).

(** [_normalize_repository_part]; [None] is [GitHubDirectDenied("INVALID_REPOSITORY_SCOPE")]. *)
Definition normalize_repository_part (v : string) : option string :=
  let cleaned := py_strip v in
  if negb (REPO_PART_RE cleaned) then None
  else if existsb (fun token => contains token cleaned) ["*"; "?"; "["; "]"; "/"; "\"] then None
  else if str_in cleaned ["."; ".."] then None
  else Some (lower cleaned).

(** [_repository_ref] *)
Definition repository_ref (owner repo : string) : option string :=
  o ← normalize_repository_part owner;
  r ← normalize_repository_part repo;
  Some (o +:+ "/" +:+ r).

(** [s.split("/", 1)] of a string with one slash. *)
Definition split_repository (s : string) : option (string * string) :=
  if count_char "/" s =? 1 then
    match split_once "/" s with (o, Some r) => Some (o, r) | (_, None) => None end
  else None.

(** [_normalize_repository_ref]; [None] is [ValueError]. *)
Definition normalize_repository_ref (v : string) : option string :=
  '(o, r) ← split_repository v; repository_ref o r.

Record GitHubRepositoryScope := mkScope { scope_repositories : list string }.

(** [GitHubRepositoryScope.__init__] *)
Definition repository_scope (repositories : list string) : result mutation_exn GitHubRepositoryScope :=
  match mapM normalize_repository_ref repositories with
  | None => Err (PyRaised ValueError)
  | Some [] => Err (PyRaised ValueError)
  | Some rs => Ok (mkScope (dedup rs))
  end.

(** [GitHubRepositoryScope.allows]; [None] when the parts themselves are denied. *)
Definition scope_allows (s : GitHubRepositoryScope) (owner repo : string) : option bool :=
  r ← repository_ref owner repo; Some (str_in r (scope_repositories s)).

(** ** Permissions ([v2/github_readiness.py]) *)

Definition normalize_permissions (granted : option (list (string * string))) :
  option (list (string * string)) :=
  (fun g => fold_left (fun d '(name, level) =>
              let key := normalize name in
              if String.eqb key "" then d else dset key (normalize level) d) g []) <$> granted.

Definition has_forbidden_permission (granted : option (list (string * string))) : bool :=
  match normalize_permissions granted with
  | None => false
  | Some n => dhas (normalize FORBIDDEN_PERMISSION) n
  end.

(** Equality of dicts. *)
Definition dict_eqb (d1 d2 : list (string * string)) : bool :=
  (Z.of_nat (length d1) =? Z.of_nat (length d2))
  && forallb (fun '(k, v) => bool_decide (dget k d2 = Some v)) d1.

Definition exact_permission_failure (intended : list (string * string))
  (granted : option (list (string * string))) : option MutationReasonCode :=
  if has_forbidden_permission granted then Some ADMINISTRATION_PERMISSION_PRESENT
  else
    match normalize_permissions granted with
    | None => Some WRITE_CAPABILITY_NOT_READY
    | Some normalized =>
        let expected := default [] (normalize_permissions (Some intended)) in
        if existsb (fun k => negb (str_in k (dkeys expected))) (dkeys normalized)
        then Some PERMISSION_SUPERSET
        else if negb (dict_eqb normalized expected) then Some WRITE_CAPABILITY_MISMATCH
        else None
    end.

(** [INTENDED_WRITE_PERMISSIONS], [WRITE_SECRET_NAMES] *)
Definition intended_permissions (c : WriteCapabilityId) : list (string * string) :=
  match c with
  | WC_BRANCH => [("contents", "write"); ("metadata", "read")]
  | WC_PR => [("contents", "read"); ("metadata", "read"); ("pull_requests", "write")]
  | WC_MERGE =>
      [("checks", "read"); ("contents", "write"); ("metadata", "read"); ("pull_requests", "write")]
  end.

Definition write_secret_name (c : WriteCapabilityId) : string :=
  match c with
  | WC_BRANCH => "BRIDGE_V2_GITHUB_WRITE_BRANCH_TOKEN"
  | WC_PR => "BRIDGE_V2_GITHUB_WRITE_PR_TOKEN"
  | WC_MERGE => "BRIDGE_V2_GITHUB_WRITE_MERGE_TOKEN"
  end.

Definition permission_failure (c : WriteCapabilityId) (granted : option (list (string * string))) :
  option MutationReasonCode := exact_permission_failure (intended_permissions c) granted.

(** ** Capability identifiers *)

Definition write_capabilities : list WriteCapabilityId := [WC_BRANCH; WC_PR; WC_MERGE].

(** [write_capability_ids], [is_write_capability], [parse_write_capability] *)
Definition write_capability_ids : list string := sort_str (map capability_value write_capabilities).
Definition is_write_capability (i : string) : bool := str_in (normalize i) write_capability_ids.
Definition parse_write_capability (i : string) : option WriteCapabilityId :=
  let key := normalize i in
  if String.eqb key "" || String.eqb key READ_CAPABILITY_ID then None
  else List.find (fun m => String.eqb (capability_value m) key) write_capabilities.

(** ** Material ([v2/github_secret_provider.py]) *)

Inductive MaterialClass : Type := GITHUB_APP | FINE_GRAINED_TOKEN | CLASSIC_PAT | UNKNOWN_MATERIAL.
#[export] Instance MaterialClass_eq_dec : EqDecision MaterialClass.
Proof. solve_decision. Defined.

Inductive GitHubProviderType : Type := PT_GITHUB_APP | PT_FINE_GRAINED_TOKEN.

Inductive AuthorizationStatus : Type :=
| AUTH_READY | NOT_CONFIGURED | FILE_UNREADABLE | FILE_EMPTY | FILE_NOT_REGULAR
| FILE_PERMISSIONS_TOO_OPEN | ENV_MATERIAL_REJECTED | MATERIAL_MALFORMED | CLASSIC_PAT_REJECTED
| PROVIDER_TYPE_MISMATCH | CAPABILITY_MISMATCH | REPOSITORY_OUT_OF_SCOPE_STATUS.
#[export] Instance AuthorizationStatus_eq_dec : EqDecision AuthorizationStatus.
Proof. solve_decision. Defined.

Definition hex_digits : string := "0123456789abcdef".

Definition classify_material (v : string) : MaterialClass :=
  if String.prefix "github_pat_" v then FINE_GRAINED_TOKEN
  else if String.prefix "ghs_" v then GITHUB_APP
  else if String.prefix "ghp_" v || String.prefix "gho_" v then CLASSIC_PAT
  else if (py_len v =? 40) && all_chars (one_of hex_digits) (lower v) then CLASSIC_PAT
  else UNKNOWN_MATERIAL.

Definition expected_class (t : GitHubProviderType) : MaterialClass :=
  match t with PT_GITHUB_APP => GITHUB_APP | PT_FINE_GRAINED_TOKEN => FINE_GRAINED_TOKEN end.

(** What the operating system answers for a path: [os.open] fails (on a symbolic link or
    otherwise), or [os.fstat] answers or fails, and then [os.read] answers or fails. *)
Inductive os_answer : Type :=
| OpenFails (symlink : bool)
| FstatFails
| Opened (regular : bool) (mode : Z) (content : option string).

(** ** UTF-8 decoding: [raw.decode("utf-8")] succeeds *)

Definition cont (c : ascii) : bool := between 128 191 c.
Fixpoint utf8_valid (s : string) : bool :=
  match s with
  | EmptyString => true
  | String c s1 =>
      if between 0 127 c then utf8_valid s1
      else
        match s1 with
        | EmptyString => false
        | String d s2 =>
            if between 194 223 c then cont d && utf8_valid s2
            else
              match s2 with
              | EmptyString => false
              | String e s3 =>
                  if between 224 239 c then
                    cont d && cont e && (if code c =? 224 then between 160 191 d else true)
                    && (if code c =? 237 then between 128 159 d else true) && utf8_valid s3
                  else
                    match s3 with
                    | EmptyString => false
                    | String f s4 =>
                        between 240 244 c && cont d && cont e && cont f
                        && (if code c =? 240 then between 144 191 d else true)
                        && (if code c =? 244 then between 128 143 d else true) && utf8_valid s4
                    end
              end
        end
  end.

Definition MAX_MATERIAL_BYTES : Z := 8192.
Definition MIN_MATERIAL_LENGTH : Z := 20.

(** ** The file provider ([FileWriteMaterialProvider]) *)

Record FileWriteMaterialProvider := mkFileProvider {
  fp_capability : WriteCapabilityId;
  fp_scope : GitHubRepositoryScope;
  fp_type : GitHubProviderType;
  fp_secret_name : string;
  fp_require_secure_mode : bool
}.

(** [__init__]: the name of the secret is stripped and must not be blank. *)
Definition file_provider (c : WriteCapabilityId) (s : GitHubRepositoryScope) (t : GitHubProviderType)
  (secret_name : option string) (secure : bool) : result mutation_exn FileWriteMaterialProvider :=
  let name := default (write_secret_name c) secret_name in
  if String.eqb (py_strip name) "" then Err (PyRaised ValueError)
  else Ok (mkFileProvider c s t (py_strip name) secure).

Section FileProvider.
Variables (environ : string -> option string) (os_open : string -> os_answer).

(** [_read_fd_validated]; at most one byte over the limit is read. *)
Definition read_fd_validated (p : FileWriteMaterialProvider) (target : string) :
  option string * AuthorizationStatus :=
  match os_open target with
  | OpenFails true => (None, FILE_NOT_REGULAR)
  | OpenFails false => (None, FILE_UNREADABLE)
  | FstatFails => (None, FILE_UNREADABLE)
  | Opened regular mode content =>
      if negb regular then (None, FILE_NOT_REGULAR)
      else if fp_require_secure_mode p && negb (Z.land mode 63 =? 0)
      then (None, FILE_PERMISSIONS_TOO_OPEN)
      else
        match content with
        | None => (None, FILE_UNREADABLE)
        | Some bytes =>
            (Some (String.substring 0 (Z.to_nat (MAX_MATERIAL_BYTES + 1)) bytes), AUTH_READY)
        end
  end.

(** [_read_material] *)
Definition read_material (p : FileWriteMaterialProvider) : option string * AuthorizationStatus :=
  match environ (fp_secret_name p +:+ "_FILE") with
  | Some path =>
      if String.eqb path "" || String.eqb (py_strip path) "" then
        match environ (fp_secret_name p) with
        | Some v => if String.eqb v "" then (None, NOT_CONFIGURED) else (None, ENV_MATERIAL_REJECTED)
        | None => (None, NOT_CONFIGURED)
        end
      else
        match read_fd_validated p (py_strip path) with
        | (None, status) => (None, status)
        | (Some raw, _) =>
            if negb (utf8_valid raw) then (None, MATERIAL_MALFORMED)
            else
              let v := py_strip raw in
              if String.eqb v "" then (None, FILE_EMPTY)
              else if (MAX_MATERIAL_BYTES <? byte_len v) || (py_len v <? MIN_MATERIAL_LENGTH) || has_space v
              then (None, MATERIAL_MALFORMED)
              else
                let observed := classify_material v in
                if bool_decide (observed = CLASSIC_PAT) then (None, CLASSIC_PAT_REJECTED)
                else if negb (bool_decide (observed = expected_class (fp_type p)))
                then (None, PROVIDER_TYPE_MISMATCH)
                else (Some v, AUTH_READY)
        end
  | None =>
      match environ (fp_secret_name p) with
      | Some v => if String.eqb v "" then (None, NOT_CONFIGURED) else (None, ENV_MATERIAL_REJECTED)
      | None => (None, NOT_CONFIGURED)
      end
  end.

(** [_repository_allowed] *)
Definition repository_allowed (p : FileWriteMaterialProvider) (repository : string) : bool :=
  match split_repository repository with
  | Some (o, r) => default false (scope_allows (fp_scope p) o r)
  | None => false
  end.

(** [GitHubAuthorization(value)]; [None] when it raises. *)
Definition github_authorization (v : string) : option string :=
  if String.eqb v "" || String.eqb (py_strip v) "" then None
  else if contains (String "013" "") v || contains (String "010" "") v then None
  else Some v.

(** [probe] and [resolve], with the status they record. *)
Definition file_probe (p : FileWriteMaterialProvider) : AuthorizationStatus := snd (read_material p).

Definition file_resolve (p : FileWriteMaterialProvider) (i repository : string) :
  option string * AuthorizationStatus :=
  let key := normalize i in
  if String.eqb key READ_CAPABILITY_ID || negb (String.eqb key (capability_value (fp_capability p)))
  then (None, CAPABILITY_MISMATCH)
  else if negb (repository_allowed p repository) then (None, REPOSITORY_OUT_OF_SCOPE_STATUS)
  else
    match read_material p with
    | (Some material, AUTH_READY) =>
        match github_authorization material with
        | Some a => (Some a, AUTH_READY)
        | None => (None, MATERIAL_MALFORMED)
        end
    | (_, status) => (None, status)
    end.
End FileProvider.

(** ** The broker ([WriteCapabilityBroker]) *)

(** The protocol [WriteMaterialProvider], at one moment: [probe] may raise ([None]). *)
Record WriteMaterialProvider := mkProvider {
  wp_capability : WriteCapabilityId;
  wp_probe : option AuthorizationStatus;
  wp_resolve : string -> string -> option string
}.

(** The file provider implements it. *)
Definition of_file (environ : string -> option string) (os_open : string -> os_answer)
  (p : FileWriteMaterialProvider) : WriteMaterialProvider :=
  mkProvider (fp_capability p) (Some (file_probe environ os_open p))
    (fun i repository => fst (file_resolve environ os_open p i repository)).

Record WriteCapabilityBroker := mkBroker {
  wb_providers : list WriteMaterialProvider;
  wb_permissions : WriteCapabilityId -> option (list (string * string));
  wb_policy_allows : WriteCapabilityId -> bool
}.

(** [provider_name], which the program always leaves at its default. *)
Definition provider_name : string := "github".

(** [WriteCapabilityBroker.__init__] *)
Definition write_broker (ps : list WriteMaterialProvider)
  (permissions : WriteCapabilityId -> option (list (string * string)))
  (policy_allows : WriteCapabilityId -> bool) : result mutation_exn WriteCapabilityBroker :=
  let fix go (seen : list WriteCapabilityId) (ps : list WriteMaterialProvider) :=
    match ps with
    | [] => Ok tt
    | p :: rest =>
        if existsb (fun c => bool_decide (c = wp_capability p)) seen then Err (PyRaised ValueError)
        else go (wp_capability p :: seen) rest
    end in
  do! go [] ps in Ok (mkBroker ps permissions policy_allows).

Definition provider_of (b : WriteCapabilityBroker) (c : WriteCapabilityId) :
  option WriteMaterialProvider :=
  List.find (fun p => bool_decide (wp_capability p = c)) (wb_providers b).

Record WriteCapabilityReadiness := mkReadiness {
  wr_id : string;
  wr_provider : string;
  wr_state : CapabilityState;
  wr_reason : option MutationReasonCode;
  wr_attested : bool
}.

(** [WriteCapabilityReadiness.is_ready], [status], [sanitized] *)
Definition wr_ready (r : WriteCapabilityReadiness) : bool :=
  capability_is_ready (wr_state r) && bool_decide (wr_reason r = None).
Definition wr_status (r : WriteCapabilityReadiness) : CredentialCapabilityStatus :=
  mkCredentialStatus (wr_id r) (wr_provider r) (wr_state r) 1.
Definition wr_sanitized (r : WriteCapabilityReadiness) : list (string * value) :=
  [("capability_id", VStr (wr_id r)); ("permissions_attested", VBool (wr_attested r));
   ("provider", VStr (wr_provider r));
   ("reason", match wr_reason r with Some c => VStr (mutation_reason_value c) | None => VNone end);
   ("ready", VBool (wr_ready r)); ("state", VStr (capability_state_value (wr_state r)))].

Definition DENIED_STATUSES : list AuthorizationStatus :=
  [CLASSIC_PAT_REJECTED; ENV_MATERIAL_REJECTED; PROVIDER_TYPE_MISMATCH; CAPABILITY_MISMATCH;
   REPOSITORY_OUT_OF_SCOPE_STATUS; FILE_PERMISSIONS_TOO_OPEN].

(** [_not_ready] *)
Definition not_ready (c : WriteCapabilityId) (s : CapabilityState) (r : MutationReasonCode) :
  WriteCapabilityReadiness :=
  mkReadiness (capability_value c) provider_name s (Some r) false.

(** The body of [readiness] for a write capability. *)
Definition capability_readiness (b : WriteCapabilityBroker) (c : WriteCapabilityId) :
  WriteCapabilityReadiness :=
  match provider_of b c with
  | None => not_ready c Cap_UNAVAILABLE WRITE_CAPABILITY_NOT_READY
  | Some p =>
      let probe_status := default FILE_UNREADABLE (wp_probe p) in
      if negb (bool_decide (probe_status = AUTH_READY)) then
        not_ready c
          (if existsb (fun s => bool_decide (s = probe_status)) DENIED_STATUSES
           then Cap_DENIED else Cap_UNAVAILABLE) WRITE_CAPABILITY_NOT_READY
      else
        let granted := wb_permissions b c in
        match permission_failure c granted with
        | Some failure =>
            let attested := match granted with Some _ => true | None => false end in
            mkReadiness (capability_value c) provider_name
              (if attested then Cap_DENIED else Cap_UNAVAILABLE) (Some failure) attested
        | None =>
            if negb (wb_policy_allows b c)
            then mkReadiness (capability_value c) provider_name Cap_HEALTHY
                   (Some WRITE_CAPABILITY_NOT_READY) true
            else mkReadiness (capability_value c) provider_name Cap_READY None true
        end
  end.

(** [readiness] *)
Definition readiness (b : WriteCapabilityBroker) (i : string) : option WriteCapabilityReadiness :=
  capability_readiness b <$> parse_write_capability i.

(** [status] and [is_ready]: the broker is a credential broker. *)
#[export] Instance write_status : CredentialBroker WriteCapabilityBroker := fun b i =>
  wr_status <$> readiness b i.

(** [report] *)
Definition report (b : WriteCapabilityBroker) : list (list (string * value)) :=
  omap (fun i => wr_sanitized <$> readiness b i) write_capability_ids.

Definition write_capability_error {A} (r : MutationReasonCode) : result mutation_exn A :=
  Err (Denied WriteCapabilityError r Stage_CREDENTIAL "").

(** [authorize]: readiness is read when the capability is checked, the material afterwards. *)
Definition authorize (b : WriteCapabilityBroker) (i repository : string) : result mutation_exn string :=
  match parse_write_capability i with
  | None =>
      write_capability_error
        (if String.eqb (normalize i) READ_CAPABILITY_ID then READ_CAPABILITY_CANNOT_MUTATE
         else WRITE_CAPABILITY_MISMATCH)
  | Some c =>
      match readiness b (capability_value c) with
      | None => write_capability_error WRITE_CAPABILITY_NOT_READY
      | Some r =>
          if negb (wr_ready r) then
            write_capability_error (default WRITE_CAPABILITY_NOT_READY (wr_reason r))
          else
            match provider_of b c with
            | None => Err (PyRaised KeyError)
            | Some p =>
                match wp_resolve p (capability_value c) repository with
                | None => write_capability_error WRITE_CAPABILITY_NOT_READY
                | Some material => Ok material
                end
            end
      end
  end.

(** ** Lemmas *)

Lemma parse_capability_value c : parse_write_capability (capability_value c) = Some c.
Proof. by destruct c. Qed.

Lemma parse_write_capability_Some i c :
  parse_write_capability i = Some c <-> normalize i = capability_value c.
Proof.
  unfold parse_write_capability. split.
  - destruct (_ || _); [done|]. intros [_ H]%List.find_some. symmetry. by apply String.eqb_eq.
  - intros ->. by destruct c.
Qed.

#[export] Instance write_laws : BrokerLaws WriteCapabilityBroker.
Proof.
  intros b i s. unfold broker_status, write_status, readiness.
  destruct (parse_write_capability i) as [c|] eqn:Hc; [|done]. intros [= <-].
  apply parse_write_capability_Some in Hc. change (lower (py_strip i)) with (normalize i).
  rewrite Hc. unfold capability_readiness, not_ready.
  destruct (provider_of b c) as [p|]; [|done]. destruct (negb _); [done|].
  destruct (permission_failure _ _); [done|]. by destruct (negb _).
Qed.

(** The granted permissions are exactly the intended ones, names and levels stripped and in
    lower case. *)
Definition exactly (intended : list (string * string)) (granted : option (list (string * string))) : Prop :=
  exists g n, granted = Some g /\ normalize_permissions (Some g) = Some n
  /\ forall k, dget k n = dget k intended.

Lemma normalize_permissions_NoDup g n : normalize_permissions (Some g) = Some n -> NoDup (dkeys n).
Proof.
  intros [= <-]. assert (H : forall g d, NoDup (dkeys d) -> NoDup (dkeys (fold_left (fun d '(name, level) =>
    if String.eqb (normalize name) "" then d else dset (normalize name) (normalize level) d) g d))).
  { clear. induction g as [|[nm lv] g IH]; intros d Hd; [done|]. apply IH.
    destruct (String.eqb _ _); [done|by apply NoDup_dset]. }
  apply (H g []). constructor.
Qed.

Lemma intended_normal c : normalize_permissions (Some (intended_permissions c)) = Some (intended_permissions c).
Proof. by destruct c. Qed.

Lemma intended_NoDup c : NoDup (dkeys (intended_permissions c)).
Proof. destruct c; keys_distinct. Qed.

Lemma dict_eqb_iff d1 d2 : NoDup (dkeys d1) -> NoDup (dkeys d2) ->
  dict_eqb d1 d2 = true <-> forall k, dget k d1 = dget k d2.
Proof.
  intros N1 N2. unfold dict_eqb. rewrite andb_true_iff, Z.eqb_eq, forallb_forall. split.
  - intros [Hlen Hall].
    assert (Hsub : forall k v, dget k d1 = Some v -> dget k d2 = Some v).
    { intros k v Hk%dget_elem. apply list_elem_of_In in Hk. specialize (Hall _ Hk). by apply bool_decide_eq_true in Hall. }
    intros k. destruct (dget k d1) as [v|] eqn:Hk; [symmetry; by apply Hsub|].
    destruct (dget k d2) as [w|] eqn:Hw; [|done]. exfalso.
    assert (Hincl : k :: dkeys d1 ⊆+ dkeys d2).
    { apply NoDup_submseteq; [constructor; [by apply dget_None|done]|].
      intros x [->|Hx]%elem_of_cons; apply dhas_elem; unfold dhas; [by rewrite Hw|].
      apply dhas_elem in Hx. unfold dhas in Hx. destruct (dget x d1) as [y|] eqn:Hy; [|done].
      by rewrite (Hsub x y Hy). }
    apply submseteq_length in Hincl. unfold dkeys in Hincl. simpl in Hincl. rewrite !length_map in Hincl. lia.
  - intros H. assert (Hp : dkeys d1 ≡ₚ dkeys d2).
    { apply NoDup_Permutation; [done..|]. intros k. rewrite <- !dhas_elem. unfold dhas. by rewrite H. }
    split.
    + apply Permutation_length in Hp. unfold dkeys in Hp. rewrite !length_map in Hp. by rewrite Hp.
    + intros [k v] Hin%list_elem_of_In. apply bool_decide_eq_true. rewrite <- H. by apply dget_NoDup.
Qed.

Lemma permission_failure_None c granted :
  permission_failure c granted = None <-> exactly (intended_permissions c) granted.
Proof.
  unfold permission_failure, exact_permission_failure, has_forbidden_permission, exactly.
  rewrite intended_normal. cbn [default from_option id].
  destruct granted as [g|]; [|split; [done|by intros (? & ? & ? & _)]].
  destruct (normalize_permissions (Some g)) as [n|] eqn:Hn; [|done].
  pose proof (normalize_permissions_NoDup g n Hn) as Hnd.
  split.
  - destruct (dhas _ n); [done|]. destruct (existsb _ _); [done|].
    destruct (dict_eqb n (intended_permissions c)) eqn:Heq; [|done]. intros _.
    exists g, n. split_and!; try done. by apply dict_eqb_iff; [|apply intended_NoDup|].
  - intros (g' & n' & [= <-] & Hn' & Hall). rewrite Hn in Hn'. injection Hn' as <-.
    assert (Hhas : forall k, dhas k n = dhas k (intended_permissions c)) by (intros k; unfold dhas; by rewrite Hall).
    rewrite Hhas. replace (dhas (normalize FORBIDDEN_PERMISSION) (intended_permissions c)) with false by by destruct c.
    destruct (existsb _ _) eqn:He.
    + apply existsb_exists in He as (k & Hk%list_elem_of_In & Hf).
      apply dhas_elem in Hk. rewrite Hhas in Hk. apply dhas_elem in Hk.
      apply negb_true_iff, str_in_false in Hf. done.
    + by rewrite (proj2 (dict_eqb_iff n _ Hnd (intended_NoDup c)) Hall).
Qed.

(** ** What authorization takes *)

(** A write is authorized exactly when the identifier names a write capability, its provider's
    probe is READY, the attested permissions are exactly the intended ones (so never a superset,
    and never Administration), the policy allows the capability and the provider resolves the
    material; then the result is that material. *)
Theorem authorize_iff b i repository m :
  authorize b i repository = Ok m <->
  exists c p, normalize i = capability_value c /\ provider_of b c = Some p
  /\ wp_probe p = Some AUTH_READY /\ exactly (intended_permissions c) (wb_permissions b c)
  /\ wb_policy_allows b c = true /\ wp_resolve p (capability_value c) repository = Some m.
Proof.
  unfold authorize. destruct (parse_write_capability i) as [c|] eqn:Hc.
  2: { split; [done|]. intros (c & p & Hn & _). apply parse_write_capability_Some in Hn. congruence. }
  apply parse_write_capability_Some in Hc. unfold readiness. rewrite parse_capability_value.
  cbn [fmap option_fmap option_map].
  assert (Huniq : forall c', normalize i = capability_value c' -> c' = c)
    by (intros c' Hc'; rewrite Hc in Hc'; symmetry; by apply capability_value_inj).
  unfold capability_readiness. destruct (provider_of b c) as [p|] eqn:Hp.
  2: { split; [done|]. intros (c' & p & Hn & Hp' & _). apply Huniq in Hn as ->. congruence. }
  assert (Hred : (exists c p, normalize i = capability_value c /\ provider_of b c = Some p
      /\ wp_probe p = Some AUTH_READY /\ exactly (intended_permissions c) (wb_permissions b c)
      /\ wb_policy_allows b c = true /\ wp_resolve p (capability_value c) repository = Some m)
    <-> wp_probe p = Some AUTH_READY /\ permission_failure c (wb_permissions b c) = None
      /\ wb_policy_allows b c = true /\ wp_resolve p (capability_value c) repository = Some m).
  { split.
    - intros (c' & p' & Hn & Hp' & H). apply Huniq in Hn as ->. rewrite Hp in Hp'. injection Hp' as <-.
      by rewrite permission_failure_None.
    - rewrite permission_failure_None. intros H. by exists c, p. }
  rewrite Hred. clear Hred.
  destruct (bool_decide_reflect (default FILE_UNREADABLE (wp_probe p) = AUTH_READY)) as [Hready|Hready]; cbn [negb].
  2: { split; [by destruct (existsb _ _)|]. intros [H _]. by rewrite H in Hready. }
  assert (Hprobe : wp_probe p = Some AUTH_READY) by (destruct (wp_probe p); simpl in Hready; congruence).
  destruct (permission_failure c (wb_permissions b c)) as [f|].
  { split; [by destruct (wb_permissions b c)|by intros (_ & ? & _)]. }
  destruct (wb_policy_allows b c); cbn; [|split; [done|by intros (_ & _ & ? & _)]].
  destruct (wp_resolve p (capability_value c) repository); split; try done; naive_solver.
Qed.

(** The secret a file-backed provider hands out: the stripped content of the configured regular
    file, not readable by others when the mode is checked, in a repository of the allow-list, of
    the declared class and so never a classic token, for its own capability only. *)
Theorem file_material environ os_open p i repository m :
  wp_resolve (of_file environ os_open p) i repository = Some m ->
  normalize i = capability_value (fp_capability p) /\ repository_allowed p repository = true
  /\ classify_material m = expected_class (fp_type p) /\ has_space m = false
  /\ exists path mode content,
       environ (fp_secret_name p +:+ "_FILE") = Some path
       /\ os_open (py_strip path) = Opened true mode (Some content)
       /\ (fp_require_secure_mode p = true -> Z.land mode 63 = 0)
       /\ m = py_strip (String.substring 0 (Z.to_nat (MAX_MATERIAL_BYTES + 1)) content).
Proof.
  cbn. unfold file_resolve.
  destruct (String.eqb (normalize i) READ_CAPABILITY_ID); [done|].
  destruct (String.eqb_spec (normalize i) (capability_value (fp_capability p))) as [Hi|]; [|done].
  cbn [orb negb]. destruct (repository_allowed p repository); [|done]. cbn [negb].
  unfold read_material. destruct (environ (fp_secret_name p +:+ "_FILE")) as [path|];
    [|by destruct (environ _) as [v|]; [destruct (String.eqb v "")|]].
  destruct (String.eqb path "" || String.eqb (py_strip path) "");
    [by destruct (environ _) as [v|]; [destruct (String.eqb v "")|]|].
  unfold read_fd_validated. destruct (os_open (py_strip path)) as [[]| |regular mode content] eqn:Ho; try done.
  destruct regular; [|done]. cbn [negb].
  destruct (fp_require_secure_mode p && negb (Z.land mode 63 =? 0)) eqn:Hmode; [done|].
  destruct content as [bytes|]; [|done]. set (raw := String.substring _ _ bytes).
  destruct (utf8_valid raw); [|done]. cbn [negb].
  destruct (String.eqb (py_strip raw) ""); [done|].
  destruct (MAX_MATERIAL_BYTES <? byte_len (py_strip raw)); [done|].
  destruct (py_len (py_strip raw) <? MIN_MATERIAL_LENGTH); [done|].
  destruct (has_space (py_strip raw)) eqn:Hspace; [done|]. cbn [orb].
  destruct (bool_decide_reflect (classify_material (py_strip raw) = CLASSIC_PAT)); [done|].
  destruct (bool_decide_reflect (classify_material (py_strip raw) = expected_class (fp_type p))) as [Hcl|]; [|done].
  cbn [negb]. unfold github_authorization. repeat (destruct (_ || _); [done|]). intros [= <-].
  split_and!; try done. exists path, mode, bytes. split_and!; try done.
  intros Hs. rewrite Hs in Hmode. by apply negb_false_iff, Z.eqb_eq in Hmode.
Qed.

(** ** A concrete secret *)

Definition demo_scope : GitHubRepositoryScope := mkScope ["o/r"].
Definition demo_provider : FileWriteMaterialProvider :=
  mkFileProvider WC_BRANCH demo_scope PT_GITHUB_APP (write_secret_name WC_BRANCH) true.
Definition demo_environ (name : string) : option string :=
  if String.eqb name (write_secret_name WC_BRANCH +:+ "_FILE") then Some " /run/secret " else None.
Definition demo_open (mode : Z) (path : string) : os_answer :=
  if String.eqb path "/run/secret" then Opened true mode (Some " ghs_0123456789abcdef ") else OpenFails false.

Definition demo_write_broker (mode : Z) (permissions : list (string * string)) : WriteCapabilityBroker :=
  mkBroker [of_file demo_environ (demo_open mode) demo_provider]
    (fun c => if bool_decide (c = WC_BRANCH) then Some permissions else None)
    (fun c => bool_decide (c = WC_BRANCH)).

Definition demo_permissions : list (string * string) := [("Contents", "write"); ("metadata", "Read ")].

Example authorize_examples :
  (authorize (demo_write_broker 384 demo_permissions) "github.write.branch" "O/r",
   authorize (demo_write_broker 416 demo_permissions) "github.write.branch" "o/r",
   authorize (demo_write_broker 384 (("administration", "read") :: demo_permissions)) "github.write.branch" "o/r",
   authorize (demo_write_broker 384 demo_permissions) "GitHub.Read" "o/r")
  = (Ok "ghs_0123456789abcdef", write_capability_error WRITE_CAPABILITY_NOT_READY,
     write_capability_error ADMINISTRATION_PERMISSION_PRESENT,
     write_capability_error READ_CAPABILITY_CANNOT_MUTATE).
Proof. by vm_compute. Qed.

Lemma file_material_witness :
  classify_material "ghs_0123456789abcdef" = GITHUB_APP /\ repository_allowed demo_provider "o/r" = true.
Proof.
  destruct (file_material demo_environ (demo_open 384) demo_provider "github.write.branch" "o/r"
              "ghs_0123456789abcdef") as (_ & Hrepo & Hclass & _).
  - vm_compute. reflexivity.
  - split; [exact Hclass|exact Hrepo].
Defined.
