(* ===== verification/MutationDigest.v ===== *)
(** * Operation digests and single-use approvals ([v2/mutation_digest.py])

    A descriptor holds everything a mutation does; its digest is the SHA-256 of its canonical
    JSON.  The store keeps approvals bound to a digest and consumes each at most once. *)
From S2P Require Import Prelude.
From S2P Require Import PyText.
From S2P Require Import PyValue.
From S2P Require Import Canonical.
From S2P Require Import MutationContract.

Definition OPERATION_DIGEST_SCHEMA : string := "v2.phase3.operation.1".
Definition MERGE_OPERATION_SUFFIX : string := ".merge_pr".

(** ** Descriptors *)

Record OperationPreconditions := mkPreconditions {
  base_sha : option string;
  expected_head_sha : option string;
  required_checks_policy : option string
}.

(** [if v is not None: require(v)] *)
Definition require_opt (require : string -> result mutation_exn unit) (v : option string) :
  result mutation_exn unit :=
  match v with Some s => require s | None => Ok tt end.

(** [OperationPreconditions.__post_init__] *)
Definition preconditions_post_init (p : OperationPreconditions) :
  result mutation_exn OperationPreconditions :=
  do! require_if (negb (bool_decide (base_sha p = None) && bool_decide (expected_head_sha p = None)))
        INVALID_ARGUMENTS Stage_PRECONDITION_REVALIDATION "preconditions" in
  do! require_opt (fun s => require_sha s "base_sha") (base_sha p) in
  do! require_opt (fun s => require_sha s "expected_head_sha") (expected_head_sha p) in
  do! require_opt (fun s => require_identifier s "required_checks_policy")
        (required_checks_policy p) in
  Ok p.

(** [if v is not None: payload[k] = v] *)
Definition opt_entry (k : string) (v : option string) : list (string * value) :=
  match v with Some s => [(k, VStr s)] | None => [] end.

(** [OperationPreconditions.canonical_payload] *)
Definition preconditions_payload (p : OperationPreconditions) : list (string * value) :=
  opt_entry "base_sha" (base_sha p) ++ opt_entry "expected_head_sha" (expected_head_sha p)
  ++ opt_entry "required_checks_policy" (required_checks_policy p).

Record OperationDescriptor := mkDescriptor {
  operation : string;
  capability : WriteCapabilityId;
  repository : string;
  arguments : list (string * value);
  preconditions : OperationPreconditions;
  policy_version : string;
  registry_snapshot_hash : string
}.

(** [_canonical_arguments] on a mapping *)
Definition canonical_arguments (a : list (string * value)) :
  result mutation_exn (list (string * value)) :=
  match canonical_json_text (VDict a) with
  | Ok _ => Ok a
  | Err TypeError => deny INVALID_ARGUMENTS Stage_APPROVAL "arguments"
  | Err e => Err (PyRaised e)
  end.

(** [OperationDescriptor.__post_init__] *)
Definition descriptor_post_init (d : OperationDescriptor) : result mutation_exn OperationDescriptor :=
  do! require_operation (operation d) in
  do! require_repository (repository d) in
  let! a := canonical_arguments (arguments d) in
  do! require_identifier (policy_version d) "policy" in
  do! require_digest (registry_snapshot_hash d) "registry_snapshot_hash" in
  Ok (mkDescriptor (operation d) (capability d) (repository d) a (preconditions d)
        (policy_version d) (registry_snapshot_hash d)).

(** [OperationDescriptor.requires_distinct_approver] *)
Definition requires_distinct_approver (d : OperationDescriptor) : bool :=
  ends_with MERGE_OPERATION_SUFFIX (operation d).

(** [OperationDescriptor.canonical_payload] *)
Definition descriptor_payload (d : OperationDescriptor) : value :=
  VDict [("schema", VStr OPERATION_DIGEST_SCHEMA); ("operation", VStr (operation d));
         ("capability", VStr (capability_value (capability d)));
         ("repository", VStr (repository d)); ("arguments", VDict (arguments d));
         ("preconditions", VDict (preconditions_payload (preconditions d)));
         ("policy_version", VStr (policy_version d));
         ("registry_snapshot_hash", VStr (registry_snapshot_hash d))].

(** ** Approvals *)

Record ApprovalRecord := mkApprovalRecord {
  approval_id : string;
  principal : string;
  approver : string;
  approved_digest : string;
  approved_repository : string;
  approved_operation : string;
  nonce : string;
  expires_at : datetime;
  trust_context : string;
  state : ApprovalState;
  consumed_at : option datetime
}.

(** [ApprovalRecord.__post_init__] *)
Definition approval_post_init (a : ApprovalRecord) : result mutation_exn ApprovalRecord :=
  do! require_identifier (approval_id a) "approval_id" in
  do! require_identifier (principal a) "principal" in
  do! require_identifier (approver a) "approver" in
  do! require_digest (approved_digest a) "operation_digest" in
  do! require_repository (approved_repository a) in
  do! require_operation (approved_operation a) in
  do! require_identifier (nonce a) "nonce" in
  do! require_identifier (trust_context a) "trust_context" in
  do! require_if (dt_aware (expires_at a)) INVALID_ARGUMENTS Stage_APPROVAL "expires_at" in
  Ok a.

(** [ApprovalRecord.is_expired] *)
Definition approval_expired (a : ApprovalRecord) (now : datetime) : bool :=
  dt_utc (expires_at a) <=? dt_utc now.

(** [replace(record, state=...)] and [replace(record, state=..., consumed_at=...)] *)
Definition set_state (a : ApprovalRecord) (s : ApprovalState) : ApprovalRecord :=
  mkApprovalRecord (approval_id a) (principal a) (approver a) (approved_digest a)
    (approved_repository a) (approved_operation a) (nonce a) (expires_at a) (trust_context a) s
    (consumed_at a).

Definition set_consumed (a : ApprovalRecord) (at_ : datetime) : ApprovalRecord :=
  mkApprovalRecord (approval_id a) (principal a) (approver a) (approved_digest a)
    (approved_repository a) (approved_operation a) (nonce a) (expires_at a) (trust_context a)
    AS_CONSUMED (Some at_).

(** [ApprovalRecord.evidence]: no nonce. *)
Definition approval_evidence (a : ApprovalRecord) : list (string * value) :=
  [("approval_id", VStr (approval_id a)); ("operation", VStr (approved_operation a));
   ("repository", VStr (approved_repository a)); ("operation_digest", VStr (approved_digest a));
   ("state", VStr (approval_state_value (state a))); ("trust_context", VStr (trust_context a))].

(** [ApprovalStore._records]; every operation holds the store's lock for its whole body. *)
Abbreviation ApprovalStore := (gmap string ApprovalRecord).
Definition approval_op := st ApprovalStore mutation_exn.

(** [ApprovalStore.issue] *)
Definition issue (a : ApprovalRecord) : approval_op ApprovalRecord :=
  if negb (bool_decide (state a = AS_PENDING)) || negb (bool_decide (consumed_at a = None))
  then slift (deny APPROVAL_ALREADY_CONSUMED Stage_APPROVAL "issue")
  else
    let* m := sget in
    match m !! approval_id a with
    | Some _ => slift (deny APPROVAL_ALREADY_CONSUMED Stage_APPROVAL "duplicate")
    | None => do* smodify <[approval_id a := a]> in sret a
    end.

(** [ApprovalStore.revoke] *)
Definition revoke (i : string) : approval_op unit :=
  let* m := sget in
  match m !! i with
  | Some a => if bool_decide (state a = AS_PENDING) then smodify <[i := set_state a AS_REVOKED]>
              else sret tt
  | None => sret tt
  end.

(** [ApprovalStore.purge_expired] *)
Definition purge_expired (now : datetime) : approval_op Z := fun m =>
  (Ok (Z.of_nat (size (filter (fun ka => state (snd ka) = AS_PENDING
                                         /\ approval_expired (snd ka) now = true) m))),
   (fun a => if bool_decide (state a = AS_PENDING) && approval_expired a now
             then set_state a AS_EXPIRED else a) <$> m).

Definition approval_error {A} (class : denial) (r : MutationReasonCode) : approval_op A :=
  sraise (Denied class r Stage_APPROVAL "").

Section Digest.
Variable sha256_hex : string -> string.

(** [compute_operation_digest] *)
Definition compute_operation_digest (d : OperationDescriptor) : result mutation_exn string :=
  raise_py (canonical_hash sha256_hex (descriptor_payload d)).

(** [digest_evidence]: no arguments. *)
Definition digest_evidence (d : OperationDescriptor) : result mutation_exn (list (string * value)) :=
  let! h := compute_operation_digest d in
  Ok [("schema", VStr OPERATION_DIGEST_SCHEMA); ("operation", VStr (operation d));
      ("capability", VStr (capability_value (capability d))); ("repository", VStr (repository d));
      ("operation_digest", VStr h); ("policy_version", VStr (policy_version d));
      ("registry_snapshot_hash", VStr (registry_snapshot_hash d))].

(** [ApprovalStore.verify_and_consume] *)
Definition verify_and_consume (i : string) (d : OperationDescriptor) (who : string)
  (now : datetime) : approval_op ApprovalRecord :=
  let* expected := slift (compute_operation_digest d) in
  let* m := sget in
  match m !! i with
  | None => approval_error ApprovalError APPROVAL_UNKNOWN
  | Some a =>
      if bool_decide (state a = AS_CONSUMED)
      then approval_error ApprovalError APPROVAL_ALREADY_CONSUMED
      else if negb (bool_decide (state a = AS_PENDING))
      then approval_error ApprovalError APPROVAL_UNKNOWN
      else if approval_expired a now then
        do* smodify <[i := set_state a AS_EXPIRED]> in
        approval_error ApprovalError APPROVAL_EXPIRED
      else if negb (String.eqb (approved_digest a) expected)
      then approval_error DigestMismatchError APPROVAL_DIGEST_MISMATCH
      else if negb (String.eqb (approved_repository a) (repository d))
              || negb (String.eqb (approved_operation a) (operation d))
              || negb (String.eqb (principal a) who)
      then approval_error ApprovalError APPROVAL_SCOPE_MISMATCH
      else if requires_distinct_approver d && String.eqb (approver a) (principal a)
      then approval_error ApprovalError APPROVER_NOT_DISTINCT
      else
        let a' := set_consumed a (astimezone_utc now) in
        do* smodify <[i := a']> in sret a'
  end.
End Digest.

(** ** What the digest binds *)

(** Two descriptors of the same operation, up to the order of argument keys. *)
Definition same_operation (d1 d2 : OperationDescriptor) : Prop :=
  operation d1 = operation d2 /\ capability d1 = capability d2 /\ repository d1 = repository d2
  /\ normal (VDict (arguments d1)) = normal (VDict (arguments d2))
  /\ preconditions d1 = preconditions d2 /\ policy_version d1 = policy_version d2
  /\ registry_snapshot_hash d1 = registry_snapshot_hash d2.

Lemma NoDup_preconditions p : NoDup (dkeys (preconditions_payload p)).
Proof.
  destruct p as [[b|] [h|] [c|]]; unfold preconditions_payload, opt_entry, dkeys; simpl;
    keys_distinct.
Qed.

Lemma dget_preconditions p :
  dget "base_sha" (preconditions_payload p) = VStr <$> base_sha p
  /\ dget "expected_head_sha" (preconditions_payload p) = VStr <$> expected_head_sha p
  /\ dget "required_checks_policy" (preconditions_payload p) = VStr <$> required_checks_policy p.
Proof. by destruct p as [[b|] [h|] [c|]]. Qed.

Lemma preconditions_payload_inj p q :
  normal (VDict (preconditions_payload p)) = normal (VDict (preconditions_payload q)) -> p = q.
Proof.
  intros H.
  assert (F : forall k, normal <$> dget k (preconditions_payload p)
                      = normal <$> dget k (preconditions_payload q))
    by (intros k; apply normal_dict_get; [apply NoDup_preconditions..|done]).
  assert (Hopt : forall a b : option string, normal <$> (VStr <$> a) = normal <$> (VStr <$> b) -> a = b)
    by (intros [] []; simpl; congruence).
  destruct (dget_preconditions p) as (P1 & P2 & P3), (dget_preconditions q) as (Q1 & Q2 & Q3).
  pose proof (F "base_sha") as E1. pose proof (F "expected_head_sha") as E2.
  pose proof (F "required_checks_policy") as E3. rewrite P1, Q1 in E1. rewrite P2, Q2 in E2.
  rewrite P3, Q3 in E3. destruct p, q. f_equal; by apply Hopt.
Qed.

Lemma same_operation_iff d1 d2 :
  same_operation d1 d2 <-> normal (descriptor_payload d1) = normal (descriptor_payload d2).
Proof.
  unfold same_operation. split.
  - intros (H1 & H2 & H3 & H4 & H5 & H6 & H7). apply normal_dict_congr. cbn [map].
    by rewrite H1, H2, H3, H4, H5, H6, H7.
  - unfold descriptor_payload. intros H. dict_fields H F.
    pose proof (F "operation") as E1. pose proof (F "capability") as E2.
    pose proof (F "repository") as E3. pose proof (F "arguments") as E4.
    pose proof (F "preconditions") as E5. pose proof (F "policy_version") as E6.
    pose proof (F "registry_snapshot_hash") as E7.
    injection E1 as E1. injection E2 as E2%capability_value_inj. injection E3 as E3.
    injection E4 as E4. injection E5 as E5. injection E6 as E6. injection E7 as E7.
    split_and!; try done.
    + cbn [normal]. by rewrite E4.
    + apply preconditions_payload_inj. cbn [normal]. by rewrite E5.
Qed.

Section Binding.
Variable sha256_hex : string -> string.
Hypothesis sha256_collision_free : forall x y, sha256_hex x = sha256_hex y -> x = y.

Lemma operation_digest_eq d1 d2 h1 h2 :
  compute_operation_digest sha256_hex d1 = Ok h1 -> compute_operation_digest sha256_hex d2 = Ok h2 ->
  h1 = h2 <-> same_operation d1 d2.
Proof.
  unfold compute_operation_digest, canonical_hash. rewrite !raise_py_Ok, same_operation_iff.
  intros (t1 & [V1 ->]%text_valid & [= <-])%rbind_Ok (t2 & [V2 ->]%text_valid & [= <-])%rbind_Ok.
  rewrite <- dumps_eq_iff by done. split; [apply sha256_collision_free|intros H; exact (f_equal sha256_hex H)].
Qed.

(** An approval bound to a digest approves one operation: two descriptors that both have a
    digest have the same one exactly when they agree on the operation, the capability, the
    repository, the arguments up to key order, the expected state and both versions. *)
Theorem operation_digest_binds d1 d2 h1 h2 :
  compute_operation_digest sha256_hex d1 = Ok h1 -> compute_operation_digest sha256_hex d2 = Ok h2 ->
  h1 = h2 <-> same_operation d1 d2.
Proof. apply operation_digest_eq. Qed.
End Binding.

(** ** Consumption *)

(** The conditions under which an approval lets a mutation through. *)
Definition authorises (a : ApprovalRecord) (d : OperationDescriptor) (h who : string)
  (now : datetime) : Prop :=
  state a = AS_PENDING /\ dt_utc now < dt_utc (expires_at a) /\ approved_digest a = h
  /\ approved_repository a = repository d /\ approved_operation a = operation d
  /\ principal a = who /\ (requires_distinct_approver d = true -> approver a <> principal a).

Section Consume.
Variable sha256_hex : string -> string.
Notation verify := (verify_and_consume sha256_hex).

(** The three ways [verify_and_consume] ends. *)
Lemma verify_cases i d who now m :
  (exists a h, m !! i = Some a /\ compute_operation_digest sha256_hex d = Ok h
     /\ authorises a d h who now
     /\ verify i d who now m
        = (Ok (set_consumed a (astimezone_utc now)),
           <[i := set_consumed a (astimezone_utc now)]> m))
  \/ (exists a, m !! i = Some a /\ state a = AS_PENDING /\ approval_expired a now = true
      /\ verify i d who now m = (Err (Denied ApprovalError APPROVAL_EXPIRED Stage_APPROVAL ""),
                                 <[i := set_state a AS_EXPIRED]> m))
  \/ exists e, verify i d who now m = (Err e, m)
     /\ (forall a h, m !! i = Some a -> compute_operation_digest sha256_hex d = Ok h ->
           ~ authorises a d h who now)
     /\ (forall a h, m !! i = Some a -> state a = AS_CONSUMED ->
           compute_operation_digest sha256_hex d = Ok h ->
           e = Denied ApprovalError APPROVAL_ALREADY_CONSUMED Stage_APPROVAL "").
Proof.
  unfold verify_and_consume, approval_error, authorises, approval_expired.
  destruct (compute_operation_digest sha256_hex d) as [h|e] eqn:Hh.
  2: { right; right. exists e. split; [done|]. split; intros; discriminate. }
  unfold slift, sbind, sget, sraise, sret, smodify. cbn beta iota.
  destruct (m !! i) as [a|] eqn:Ha.
  2: { right; right. eexists. split; [done|]. split; intros; discriminate. }
  destruct (bool_decide_reflect (state a = AS_CONSUMED)) as [Hc|Hc].
  { right; right. eexists. split; [done|]. split; [|by intros].
    intros a' h' [= <-] [= <-] (Hp & _). congruence. }
  assert (Hno : forall e, (forall a0 h0, Some a = Some a0 -> state a0 = AS_CONSUMED ->
      @Ok mutation_exn string h = Ok h0 -> e = Denied ApprovalError APPROVAL_ALREADY_CONSUMED Stage_APPROVAL ""))
    by (intros e a' h' [= <-] ?; congruence).
  destruct (bool_decide_reflect (state a = AS_PENDING)) as [Hp|Hp]; cbn [negb].
  2: { right; right. eexists. split; [done|]. split; [|apply Hno].
       intros a' h' [= <-] [= <-] (? & _). congruence. }
  destruct (Z.leb_spec (dt_utc (expires_at a)) (dt_utc now)) as [Hexp|Hexp].
  { right; left. exists a. split_and!; try done. by apply Z.leb_le. }
  destruct (String.eqb_spec (approved_digest a) h) as [Hd|Hd]; cbn [negb].
  2: { right; right. eexists. split; [done|]. split; [|apply Hno].
       intros a' h' [= <-] [= <-] (_ & _ & ? & _). congruence. }
  destruct (String.eqb_spec (approved_repository a) (repository d)) as [Hr|Hr]; cbn [negb orb].
  2: { right; right. eexists. split; [done|]. split; [|apply Hno].
       intros a' h' [= <-] [= <-] (_ & _ & _ & ? & _). congruence. }
  destruct (String.eqb_spec (approved_operation a) (operation d)) as [Ho|Ho]; cbn [negb orb].
  2: { right; right. eexists. split; [done|]. split; [|apply Hno].
       intros a' h' [= <-] [= <-] (_ & _ & _ & _ & ? & _). congruence. }
  destruct (String.eqb_spec (principal a) who) as [Hw|Hw]; cbn [negb orb].
  2: { right; right. eexists. split; [done|]. split; [|apply Hno].
       intros a' h' [= <-] [= <-] (_ & _ & _ & _ & _ & ? & _). congruence. }
  destruct (requires_distinct_approver d && String.eqb (approver a) (principal a)) eqn:Hap.
  { right; right. eexists. split; [done|]. split; [|apply Hno].
    apply andb_true_iff in Hap as [Hm ?%String.eqb_eq].
    intros a' h' [= <-] [= <-] (_ & _ & _ & _ & _ & _ & Hd'). by apply Hd'. }
  left. exists a, h. split_and!; try done. intros Hm. rewrite Hm in Hap. simpl in Hap.
  by apply String.eqb_neq.
Qed.

Lemma verify_Ok_iff i d who now m a' m' :
  verify i d who now m = (Ok a', m')
  <-> exists a h, m !! i = Some a /\ compute_operation_digest sha256_hex d = Ok h
      /\ authorises a d h who now
      /\ a' = set_consumed a (astimezone_utc now) /\ m' = <[i := a']> m.
Proof.
  destruct (verify_cases i d who now m)
    as [(a & h & Ha & Hh & Hauth & ->)|[(a & Ha & Hp & Hexp & ->)|(e & -> & Hno & _)]].
  - split.
    + intros [= <- <-]. exists a, h. by split_and!.
    + intros (a0 & h0 & Ha0 & _ & _ & -> & ->). rewrite Ha in Ha0. by injection Ha0 as <-.
  - split; [done|]. intros (a0 & h0 & Ha0 & _ & (_ & Hlt & _) & _). rewrite Ha in Ha0.
    injection Ha0 as <-. unfold approval_expired in Hexp. lia.
  - split; [done|]. intros (a0 & h0 & Ha0 & Hh0 & Hauth & _). by eapply Hno in Hauth.
Qed.

(** Verification decides exactly the binding: it succeeds if and only if the approval exists,
    is pending, has not expired, carries the digest of this very operation, names the same
    repository, operation and principal, and (for a merge) was given by somebody else; then it
    marks the approval consumed and changes nothing else. *)
Theorem verify_and_consume_iff i d who now m a' m' :
  verify i d who now m = (Ok a', m')
  <-> exists a h, m !! i = Some a /\ compute_operation_digest sha256_hex d = Ok h
      /\ authorises a d h who now
      /\ a' = set_consumed a (astimezone_utc now) /\ m' = <[i := a']> m.
Proof. apply verify_Ok_iff. Qed.

(** ** Traces of the approval store *)

Inductive approval_call : Type :=
| Issue (a : ApprovalRecord)
| Revoke (i : string)
| Verify (i : string) (d : OperationDescriptor) (who : string) (now : datetime)
| PurgeExpired (now : datetime).

Definition run_approval (m : ApprovalStore) (c : approval_call) : ApprovalStore :=
  match c with
  | Issue a => snd (issue a m)
  | Revoke i => snd (revoke i m)
  | Verify i d who now => snd (verify i d who now m)
  | PurgeExpired now => snd (purge_expired now m)
  end.

Definition run_approvals : ApprovalStore -> list approval_call -> ApprovalStore :=
  foldl run_approval.

(** A consumed approval stays exactly as it is. *)
Lemma consumed_stays m c i a :
  m !! i = Some a -> state a = AS_CONSUMED -> run_approval m c !! i = Some a.
Proof.
  intros Hi Hc. destruct c as [b|j|j d who now|now]; simpl.
  - unfold issue. destruct (_ || _); [done|]. unfold sbind, sget, smodify, sret.
    destruct (m !! approval_id b) eqn:Hb; [done|]. simpl. rewrite lookup_insert_ne; [done|].
    intros <-. congruence.
  - unfold revoke, sbind, sget, smodify, sret. destruct (m !! j) as [b|] eqn:Hb; [|done].
    case_bool_decide as Hs; [|done]. simpl. rewrite lookup_insert_ne; [done|]. intros ->. congruence.
  - assert (Hne : forall b, m !! j = Some b -> state b = AS_PENDING -> j <> i)
      by (intros b Hb Hs ->; congruence).
    destruct (verify_cases j d who now m)
      as [(b & h & Hb & _ & (Hs & _) & ->)|[(b & Hb & Hs & _ & ->)|(e & -> & _)]]; simpl; [..|done];
      rewrite lookup_insert_ne by (by eapply Hne); done.
  - rewrite lookup_fmap, Hi. simpl. by rewrite bool_decide_eq_false_2 by congruence.
Qed.

Lemma consumed_stays_run m cs i a :
  m !! i = Some a -> state a = AS_CONSUMED -> run_approvals m cs !! i = Some a.
Proof.
  revert m. induction cs as [|c cs IH]; intros m Hi Hs; [done|]. simpl.
  apply IH; [|done]. by apply consumed_stays.
Qed.

(** Single use: once an approval has been consumed, no sequence of calls makes any later
    verification of it succeed: it is refused as already consumed, for every operation,
    principal and time, and stays recorded as consumed. *)
Theorem approval_consumed_once i d who now m a m' cs d' who' now' h' :
  verify i d who now m = (Ok a, m') -> compute_operation_digest sha256_hex d' = Ok h' ->
  verify i d' who' now' (run_approvals m' cs)
  = (Err (Denied ApprovalError APPROVAL_ALREADY_CONSUMED Stage_APPROVAL ""), run_approvals m' cs)
  /\ run_approvals m' cs !! i = Some a.
Proof.
  intros Hv Hh'.
  assert (Ha : m' !! i = Some a /\ state a = AS_CONSUMED).
  { destruct (verify_cases i d who now m)
      as [(b & h & _ & _ & _ & Heq)|[(b & _ & _ & _ & Heq)|(e & Heq & _)]]; rewrite Heq in Hv; try done.
    injection Hv as <- <-. split; [by rewrite lookup_insert, decide_True|done]. }
  destruct Ha as [Ha Hs]. pose proof (consumed_stays_run m' cs i a Ha Hs) as Hi.
  split; [|done].
  destruct (verify_cases i d' who' now' (run_approvals m' cs))
    as [(b & h & Hb & _ & (Hp & _) & _)|[(b & Hb & Hp & _)|(e & -> & _ & Hc)]];
    [congruence|congruence|]. f_equal. f_equal. by eapply Hc.
Qed.
End Consume.

(** ** Witnesses *)

Definition plain_sha (s : string) : string := s.
Definition at_time (t : Z) : datetime := mkDatetime t true.

Definition demo_descriptor (branch : string) : OperationDescriptor :=
  mkDescriptor "github.create_branch" WC_BRANCH "o/r" [("branch", VStr branch)]
    (mkPreconditions (Some "0123456789012345678901234567890123456789") None None) "policy.1"
    "0000000000000000000000000000000000000000000000000000000000000000".

Definition digest_text (d : OperationDescriptor) : string :=
  match compute_operation_digest plain_sha d with Ok h => h | Err _ => "" end.

Definition demo_approval : ApprovalRecord :=
  mkApprovalRecord "ap1" "alice" "bob" (digest_text (demo_descriptor "b")) "o/r"
    "github.create_branch" "n1" (at_time 1000) "ctx" AS_PENDING None.

Lemma operation_digest_binds_witness :
  same_operation (demo_descriptor "b") (demo_descriptor "b")
  /\ ~ same_operation (demo_descriptor "b") (demo_descriptor "c").
Proof.
  split.
  - eapply (operation_digest_binds plain_sha (fun x y H => H) (demo_descriptor "b") (demo_descriptor "b"));
      [vm_compute; reflexivity|vm_compute; reflexivity|reflexivity].
  - intros H.
    eapply (operation_digest_binds plain_sha (fun x y H => H) (demo_descriptor "b") (demo_descriptor "c")) in H;
      [|vm_compute; reflexivity|vm_compute; reflexivity]. discriminate H.
Defined.

Lemma approval_consumed_once_witness :
  fst (verify_and_consume plain_sha "ap1" (demo_descriptor "b") "alice" (at_time 8)
         (run_approvals plain_sha
            (snd (verify_and_consume plain_sha "ap1" (demo_descriptor "b") "alice" (at_time 7)
                    {["ap1" := demo_approval]}))
            [Revoke "ap1"; PurgeExpired (at_time 2000); Issue demo_approval]))
  = Err (Denied ApprovalError APPROVAL_ALREADY_CONSUMED Stage_APPROVAL "").
Proof.
  destruct (approval_consumed_once plain_sha "ap1" (demo_descriptor "b") "alice" (at_time 7)
    {["ap1" := demo_approval]} (set_consumed demo_approval (at_time 7))
    (snd (verify_and_consume plain_sha "ap1" (demo_descriptor "b") "alice" (at_time 7) {["ap1" := demo_approval]}))
    [Revoke "ap1"; PurgeExpired (at_time 2000); Issue demo_approval]
    (demo_descriptor "b") "alice" (at_time 8) (digest_text (demo_descriptor "b"))) as [-> _];
    [by vm_compute|by vm_compute|reflexivity].
Defined.
