(* ===== verification/MutationIdempotency.v ===== *)
(** * Idempotency records and leases ([v2/mutation_idempotency.py])

    The store writes the intent of a mutation ahead of the provider call, replays committed
    results, and makes an attempt whose lease expired AMBIGUOUS instead of retrying it. *)
From S2P Require Import Prelude.
From S2P Require Import PyText.
From S2P Require Import PyValue.
From S2P Require Import Canonical.
From S2P Require Import MutationContract.
From S2P Require Import MutationDigest.

Definition IDEMPOTENCY_KEY_SCHEMA : string := "v2.phase3.idempotency.1".
Definition TERMINAL_RETENTION_SECONDS : Z := 7 * 24 * 3600.
Definition DEFAULT_LEASE_SECONDS : Z := 120.
Definition LOCK_TYPE_INTENT_TO_WRITE : string := "INTENT_TO_WRITE".
Definition LOCK_TYPE_WRITE_EXCLUSIVE : string := "WRITE_EXCLUSIVE".
Definition MERGE_FAMILY : string := "merge".

(** [_conflict] *)
Definition conflict {A} (r : MutationReasonCode) (detail : string) : result mutation_exn A :=
  Err (Denied IdempotencyConflictError r Stage_IDEMPOTENCY detail).

(** [assert_no_precondition_drift] *)
Definition assert_no_precondition_drift (expected : string) (observed : option string)
  (stage : MutationStage) : result mutation_exn unit :=
  do! require_sha expected "expected_sha" in
  if bool_decide (observed = Some expected) then Ok tt
  else Err (Denied ConcurrencyDriftError PRECONDITION_DRIFT stage "").

(** ** Lock keys *)

(** [s.rsplit(".", 1)[-1]] *)
Definition last_segment (s : string) : string := List.last (split_on dot s) s.

(** [s[len(prefix):]] when [s] starts with [prefix]. *)
Definition strip (prefix s : string) : option string :=
  if String.prefix prefix s
  then Some (String.substring (String.length prefix) (String.length s - String.length prefix) s)
  else None.

Definition operation_family (operation : string) : string :=
  let tail := last_segment operation in
  match strip "create_" tail with
  | Some rest => rest
  | None => match strip "merge_" tail with Some _ => MERGE_FAMILY | None => tail end
  end.

Definition lock_type_for (operation : string) : string :=
  if String.eqb (operation_family operation) MERGE_FAMILY then LOCK_TYPE_WRITE_EXCLUSIVE
  else LOCK_TYPE_INTENT_TO_WRITE.

Record MutationLease := mkMutationLease {
  lease_repository : string;
  lease_operation : string;
  lease_target : string;
  lease_owner : string;
  acquired_at : datetime;
  lease_expires_at : datetime
}.

(** [f"{repository}#{family}#{target}"] *)
Definition lock_key_of (repository operation target : string) : string :=
  repository +:+ "#" +:+ operation_family operation +:+ "#" +:+ target.

(** [MutationLease.lock_key], [lock_type], [is_expired], [evidence] *)
Definition lock_key (l : MutationLease) : string :=
  lock_key_of (lease_repository l) (lease_operation l) (lease_target l).
Definition lock_type (l : MutationLease) : string := lock_type_for (lease_operation l).
Definition lease_expired (l : MutationLease) (now : datetime) : bool :=
  dt_utc (lease_expires_at l) <=? dt_utc now.
Definition lease_evidence (l : MutationLease) : list (string * value) :=
  [("lock_key", VStr (lock_key l)); ("lock_type", VStr (lock_type l));
   ("owner", VStr (lease_owner l))].

(** ** Records *)

Record IdempotencyRecord := mkRecord {
  ir_key : string;
  ir_principal : string;
  ir_repository : string;
  ir_operation : string;
  ir_digest : string;
  ir_outcome : MutationOutcome;
  ir_created_at : datetime;
  ir_updated_at : datetime;
  ir_lease : option MutationLease;
  ir_result : option (list (string * value));
  ir_reason : option MutationReasonCode
}.

(** [replace(record, outcome=, updated_at=, lease=, result=, reason=)] *)
Definition with_outcome (r : IdempotencyRecord) (o : MutationOutcome) (at_ : datetime)
  (l : option MutationLease) (res : option (list (string * value)))
  (why : option MutationReasonCode) : IdempotencyRecord :=
  mkRecord (ir_key r) (ir_principal r) (ir_repository r) (ir_operation r) (ir_digest r) o
    (ir_created_at r) at_ l res why.

(** [IdempotencyRecord.evidence]: neither the result nor the inputs of the key. *)
Definition record_evidence (r : IdempotencyRecord) : list (string * value) :=
  [("idempotency_key", VStr (ir_key r)); ("operation", VStr (ir_operation r));
   ("repository", VStr (ir_repository r)); ("operation_digest", VStr (ir_digest r));
   ("outcome", VStr (outcome_value (ir_outcome r)))]
  ++ match ir_reason r with Some why => [("reason", VStr (mutation_reason_value why))] | None => [] end.

Record IdempotencyDecision := mkIdempotencyDecision {
  id_status : IdempotencyStatus;
  id_record : IdempotencyRecord;
  id_lease : option MutationLease
}.

(** [IdempotencyDecision.evidence] *)
Definition decision_evidence (d : IdempotencyDecision) : list (string * value) :=
  record_evidence (id_record d) ++ [("idempotency_status", VStr (status_value (id_status d)))]
  ++ match id_lease d with Some l => lease_evidence l | None => [] end.

(** ** The store *)

Record IdempotencyStore := mkStore {
  lease_seconds : Z;
  records : gmap string IdempotencyRecord;
  leases : gmap string string
}.

Definition idem_op := st IdempotencyStore mutation_exn.

(** [IdempotencyStore.__init__] *)
Definition store_init (seconds : Z) : result mutation_exn IdempotencyStore :=
  if seconds <=? 0 then Err (PyRaised ValueError) else Ok (mkStore seconds ∅ ∅).

Definition put_record (k : string) (r : IdempotencyRecord) (s : IdempotencyStore) :
  IdempotencyStore :=
  mkStore (lease_seconds s) (<[k := r]> (records s)) (leases s).
Definition pop_lease (lk : string) (s : IdempotencyStore) : IdempotencyStore :=
  mkStore (lease_seconds s) (records s) (delete lk (leases s)).
Definition put_lease (lk k : string) (s : IdempotencyStore) : IdempotencyStore :=
  mkStore (lease_seconds s) (records s) (<[lk := k]> (leases s)).

(** [if lease is not None: leases.pop(lease.lock_key, None)] *)
Definition pop_lease_of (l : option MutationLease) : idem_op unit :=
  match l with Some l => smodify (pop_lease (lock_key l)) | None => sret tt end.

(** The record whose lease was lost: AMBIGUOUS until it is reconciled. *)
Definition lost (r : IdempotencyRecord) (moment : datetime) : IdempotencyRecord :=
  with_outcome r Outcome_AMBIGUOUS moment None (ir_result r) (Some RECONCILIATION_REQUIRED).

(** [_decide_existing] *)
Definition decide_existing (r : IdempotencyRecord) (moment : datetime) :
  idem_op (option IdempotencyDecision) :=
  match ir_outcome r with
  | Outcome_COMMITTED => sret (Some (mkIdempotencyDecision Status_REPLAYED r None))
  | Outcome_DENIED => slift (conflict IDEMPOTENT_REPLAY "denied")
  | Outcome_AMBIGUOUS => slift (conflict RECONCILIATION_REQUIRED "ambiguous")
  | Outcome_PENDING =>
      match ir_lease r with
      | Some l =>
          if negb (lease_expired l moment)
          then sret (Some (mkIdempotencyDecision Status_IN_PROGRESS r (Some l)))
          else
            do* smodify (put_record (ir_key r) (lost r moment)) in
            do* smodify (pop_lease (lock_key l)) in
            slift (conflict RECONCILIATION_REQUIRED "lease_lost")
      | None =>
          do* smodify (put_record (ir_key r) (lost r moment)) in
          slift (conflict RECONCILIATION_REQUIRED "lease_lost")
      end
  | Outcome_FAILED_CLEAN => do* pop_lease_of (ir_lease r) in sret None
  end.

(** The holder of the lock, if it is another key, must not be pending. *)
Definition check_holder (key lk : string) (moment : datetime) : idem_op unit :=
  let* s := sget in
  match leases s !! lk with
  | Some holder =>
      if String.eqb holder key then sret tt
      else
        match records s !! holder with
        | Some held =>
            if bool_decide (ir_outcome held = Outcome_PENDING) then
              match ir_lease held with
              | Some l =>
                  if negb (lease_expired l moment)
                  then slift (conflict OPERATION_IN_PROGRESS "lock_key")
                  else
                    do* smodify (put_record holder (lost held moment)) in
                    slift (conflict RECONCILIATION_REQUIRED "lock_key")
              | None =>
                  do* smodify (put_record holder (lost held moment)) in
                  slift (conflict RECONCILIATION_REQUIRED "lock_key")
              end
            else sret tt
        | None => sret tt
        end
  | None => sret tt
  end.

(** Write ahead: the pending record under its lease. *)
Definition claim (key principal repository operation digest target : string) (moment : datetime) :
  idem_op IdempotencyDecision :=
  let* s := sget in
  let l := mkMutationLease repository operation target principal moment
             (plus_seconds moment (lease_seconds s)) in
  do* check_holder key (lock_key l) moment in
  let r := mkRecord key principal repository operation digest Outcome_PENDING moment moment
             (Some l) None None in
  do* smodify (put_record key r) in
  do* smodify (put_lease (lock_key l) key) in
  sret (mkIdempotencyDecision Status_NEW r (Some l)).

(** [IdempotencyStore.begin]; the whole body after the checks holds the store's lock. *)
Definition begin_mutation (key principal repository operation digest target : string)
  (now : datetime) : idem_op IdempotencyDecision :=
  do* slift (require_digest key "idempotency_key") in
  do* slift (require_digest digest "operation_digest") in
  do* slift (require_repository repository) in
  let moment := astimezone_utc now in
  let* s := sget in
  match records s !! key with
  | Some r =>
      let* d := decide_existing r moment in
      match d with
      | Some d => sret d
      | None => claim key principal repository operation digest target moment
      end
  | None => claim key principal repository operation digest target moment
  end.

(** [_resolve] *)
Definition resolve (key : string) (o : MutationOutcome) (now : datetime)
  (res : option (list (string * value))) (why : option MutationReasonCode) :
  idem_op IdempotencyRecord :=
  let moment := astimezone_utc now in
  let* s := sget in
  match records s !! key with
  | None => slift (conflict IDEMPOTENT_REPLAY "unknown_key")
  | Some r =>
      if negb (bool_decide (ir_outcome r = Outcome_PENDING))
      then slift (conflict IDEMPOTENT_REPLAY "already_resolved")
      else
        do* pop_lease_of (ir_lease r) in
        let r' := with_outcome r o moment None res why in
        do* smodify (put_record key r') in sret r'
  end.

(** [commit], [fail_clean], [mark_ambiguous] *)
Definition commit_mutation (key : string) (res : list (string * value)) (now : datetime) :
  idem_op IdempotencyRecord := resolve key Outcome_COMMITTED now (Some res) None.
Definition fail_clean (key : string) (why : MutationReasonCode) (now : datetime) :
  idem_op IdempotencyRecord := resolve key Outcome_FAILED_CLEAN now None (Some why).
Definition mark_ambiguous (key : string) (now : datetime) : idem_op IdempotencyRecord :=
  resolve key Outcome_AMBIGUOUS now None (Some RECONCILIATION_REQUIRED).

(** [reconcile]: the only way out of AMBIGUOUS. *)
Definition reconcile (key : string) (observed_committed : bool)
  (res : option (list (string * value))) (now : datetime) : idem_op IdempotencyRecord :=
  let moment := astimezone_utc now in
  let* s := sget in
  match records s !! key with
  | Some r =>
      if bool_decide (ir_outcome r = Outcome_AMBIGUOUS) then
        let r' :=
          if observed_committed
          then with_outcome r Outcome_COMMITTED moment (ir_lease r) (Some (default [] res)) None
          else with_outcome r Outcome_FAILED_CLEAN moment (ir_lease r) (ir_result r)
                 (Some RECONCILIATION_REQUIRED) in
        do* smodify (put_record key r') in sret r'
      else slift (conflict IDEMPOTENT_REPLAY "not_ambiguous")
  | None => slift (conflict IDEMPOTENT_REPLAY "not_ambiguous")
  end.

(** A record [purge_terminal] drops. *)
Definition purgeable (cutoff : Z) (r : IdempotencyRecord) : bool :=
  negb (bool_decide (ir_outcome r = Outcome_PENDING \/ ir_outcome r = Outcome_AMBIGUOUS))
  && (dt_utc (ir_updated_at r) <=? cutoff).

(** [purge_terminal] *)
Definition purge_terminal (now : datetime) (retention_seconds : Z) : idem_op Z := fun s =>
  let cutoff := dt_utc (plus_seconds (astimezone_utc now) (- retention_seconds)) in
  (Ok (Z.of_nat (size (filter (fun kr => purgeable cutoff (snd kr) = true) (records s)))),
   mkStore (lease_seconds s) (filter (fun kr => purgeable cutoff (snd kr) = false) (records s))
     (leases s)).

(** ** Keys *)

Section Keys.
Variable sha256_hex : string -> string.

(** The payload of [compute_idempotency_key]. *)
Definition key_payload (principal : string) (c : WriteCapabilityId)
  (repository operation digest : string) (client_key : option string) : list (string * value) :=
  [("schema", VStr IDEMPOTENCY_KEY_SCHEMA); ("principal", VStr principal);
   ("capability", VStr (capability_value c)); ("repository", VStr repository);
   ("operation", VStr operation); ("operation_digest", VStr digest)]
  ++ opt_entry "client_key" client_key.

(** [compute_idempotency_key] *)
Definition compute_idempotency_key (principal : string) (c : WriteCapabilityId)
  (repository operation digest : string) (client_key : option string) :
  result mutation_exn string :=
  do! require_repository repository in
  do! require_digest digest "operation_digest" in
  do! require_if (negb (bool_decide (client_key = Some ""))) INVALID_ARGUMENTS Stage_IDEMPOTENCY
        "client_key" in
  let payload := VDict (key_payload principal c repository operation digest client_key) in
  do! match canonical_json_text payload with
      | Ok _ => Ok tt
      | Err TypeError => deny INVALID_ARGUMENTS Stage_IDEMPOTENCY "key"
      | Err e => Err (PyRaised e)
      end in
  raise_py (canonical_hash sha256_hex payload).
End Keys.

Example family_examples :
  (operation_family "github.create_branch", operation_family "github.merge_pr", lock_type_for "github.merge_pr",
   lock_type_for "github.create_pr")
  = ("branch", "merge", "WRITE_EXCLUSIVE", "INTENT_TO_WRITE").
Proof. by vm_compute. Qed.

(** ** What a key binds *)

Section KeyBinding.
Variable sha256_hex : string -> string.
Hypothesis sha256_collision_free : forall x y, sha256_hex x = sha256_hex y -> x = y.

Lemma NoDup_key_payload p c r o d k : NoDup (dkeys (key_payload p c r o d k)).
Proof. destruct k; unfold key_payload, opt_entry, dkeys; simpl; keys_distinct. Qed.

Lemma key_payload_inj p1 c1 r1 o1 d1 k1 p2 c2 r2 o2 d2 k2 :
  normal (VDict (key_payload p1 c1 r1 o1 d1 k1)) = normal (VDict (key_payload p2 c2 r2 o2 d2 k2)) ->
  p1 = p2 /\ c1 = c2 /\ r1 = r2 /\ o1 = o2 /\ d1 = d2 /\ k1 = k2.
Proof.
  intros H.
  assert (F : forall x, normal <$> dget x (key_payload p1 c1 r1 o1 d1 k1)
                      = normal <$> dget x (key_payload p2 c2 r2 o2 d2 k2))
    by (intros x; apply normal_dict_get; [apply NoDup_key_payload..|done]).
  pose proof (F "principal") as E1. pose proof (F "capability") as E2.
  pose proof (F "repository") as E3. pose proof (F "operation") as E4.
  pose proof (F "operation_digest") as E5. pose proof (F "client_key") as E6.
  injection E1 as E1. injection E2 as E2%capability_value_inj. injection E3 as E3.
  injection E4 as E4. injection E5 as E5.
  destruct k1, k2; try discriminate E6; try (injection E6 as E6); by subst.
Qed.

(** An idempotency key names one attempt: two computed keys are equal exactly when principal,
    capability, repository, operation, operation digest and attempt token are. *)
Theorem idempotency_key_binds p1 c1 r1 o1 d1 k1 p2 c2 r2 o2 d2 k2 h1 h2 :
  compute_idempotency_key sha256_hex p1 c1 r1 o1 d1 k1 = Ok h1 ->
  compute_idempotency_key sha256_hex p2 c2 r2 o2 d2 k2 = Ok h2 ->
  h1 = h2 <-> p1 = p2 /\ c1 = c2 /\ r1 = r2 /\ o1 = o2 /\ d1 = d2 /\ k1 = k2.
Proof.
  unfold compute_idempotency_key, canonical_hash.
  intros H1 H2. split; [|intros (-> & -> & -> & -> & -> & ->); congruence]. res_inv.
  repeat match goal with H : raise_py _ = Ok _ |- _ => apply raise_py_Ok in H end. res_inv.
  intros Hsha%sha256_collision_free. eapply key_payload_inj, canonical_text_determines; [..|exact Hsha]; eassumption.
Qed.
End KeyBinding.

Lemma idempotency_key_binds_witness :
  compute_idempotency_key plain_sha "alice" WC_BRANCH "o/r" "github.create_branch"
    (String.concat "" (replicate 64 "a")) None
  <> compute_idempotency_key plain_sha "alice" WC_BRANCH "o/r" "github.create_branch"
    (String.concat "" (replicate 64 "a")) (Some "again").
Proof.
  destruct (compute_idempotency_key plain_sha "alice" WC_BRANCH "o/r" "github.create_branch"
    (String.concat "" (replicate 64 "a")) None) as [h1|e] eqn:H1; [|vm_compute in H1; discriminate].
  destruct (compute_idempotency_key plain_sha "alice" WC_BRANCH "o/r" "github.create_branch"
    (String.concat "" (replicate 64 "a")) (Some "again")) as [h2|e] eqn:H2; [|vm_compute in H2; discriminate].
  intros [= H].
  apply (idempotency_key_binds plain_sha (fun x y H => H) _ _ _ _ _ _ _ _ _ _ _ _ h1 h2 H1 H2) in H
    as (_ & _ & _ & _ & _ & Hk).
  discriminate Hk.
Defined.
