(* ===== verification/MutationLifecycle.v ===== *)
(** * The life of an idempotency record ([v2/mutation_idempotency.py])

    The states a key goes through, as a transition relation, and the proof that every operation
    of [IdempotencyStore] follows it; from it, what a caller may rely on over any sequence of
    calls. *)
From S2P Require Import Prelude.
From S2P Require Import PyText.
From S2P Require Import PyValue.
From S2P Require Import Canonical.
From S2P Require Import MutationContract.
From S2P Require Import MutationDigest.
From S2P Require Import MutationIdempotency.

(** ** The invariant of the store *)

Record idem_inv (s : IdempotencyStore) : Prop := {
  ii_keyed : forall k r, records s !! k = Some r -> ir_key r = k;
  ii_pending : forall k r, records s !! k = Some r -> ir_outcome r = Outcome_PENDING ->
    exists l, ir_lease r = Some l /\ leases s !! lock_key l = Some k;
  ii_settled : forall k r, records s !! k = Some r -> ir_outcome r <> Outcome_PENDING ->
    ir_lease r = None;
  ii_undenied : forall k r, records s !! k = Some r -> ir_outcome r <> Outcome_DENIED;
  ii_result : forall k r, records s !! k = Some r -> ir_outcome r = Outcome_COMMITTED ->
    is_Some (ir_result r)
}.

Lemma init_inv n : idem_inv (mkStore n ∅ ∅).
Proof. split; simpl; intros k r; by rewrite lookup_empty. Qed.

(** A record that is not pending, has no lease and, if committed, has its result. *)
Definition settled (k : string) (r : IdempotencyRecord) : Prop :=
  ir_key r = k /\ ir_outcome r <> Outcome_PENDING /\ ir_outcome r <> Outcome_DENIED
  /\ ir_lease r = None /\ (ir_outcome r = Outcome_COMMITTED -> is_Some (ir_result r)).

(** Settling a record keeps the invariant, whether or not its lock is freed, as long as nobody
    else holds that lock. *)
Lemma settle_keeps s k r (free : option string) :
  idem_inv s -> settled k r ->
  (forall lk, free = Some lk -> forall k' r' l, k' <> k -> records s !! k' = Some r' ->
     ir_outcome r' = Outcome_PENDING -> ir_lease r' = Some l -> lock_key l <> lk) ->
  idem_inv (put_record k r (match free with Some lk => pop_lease lk s | None => s end)).
Proof.
  intros [I1 I2 I3 I4 I5] (Hk & Hp & Hd & Hl & Hr) Hfree.
  assert (Hrec : records (match free with Some lk => pop_lease lk s | None => s end) = records s)
    by (by destruct free).
  split; unfold put_record; cbn [records leases]; rewrite Hrec; intros k0 r0;
    (destruct (decide (k = k0)) as [<-|Hne];
     [rewrite lookup_insert, decide_True by done; intros [= <-]|rewrite lookup_insert_ne by done]);
    try done; eauto.
  intros Hr0 Hp0. destruct (I2 k0 r0 Hr0 Hp0) as (l & Hl0 & Hlk). exists l. split; [done|].
  destruct free as [lk|]; [|done]. simpl. rewrite lookup_delete_ne; [done|]. intros ->.
  by eapply Hfree.
Qed.

(** Two pending records have different locks: a lock names one holder. *)
Lemma pending_locks_differ s k1 k2 r1 r2 l1 l2 :
  idem_inv s -> records s !! k1 = Some r1 -> records s !! k2 = Some r2 ->
  ir_outcome r1 = Outcome_PENDING -> ir_outcome r2 = Outcome_PENDING ->
  ir_lease r1 = Some l1 -> ir_lease r2 = Some l2 -> lock_key l1 = lock_key l2 -> k1 = k2.
Proof.
  intros Hi H1 H2 P1 P2 L1 L2 Hlk.
  destruct (ii_pending s Hi k1 r1 H1 P1) as (l & Hl & E1). rewrite L1 in Hl. injection Hl as <-.
  destruct (ii_pending s Hi k2 r2 H2 P2) as (l & Hl & E2). rewrite L2 in Hl. injection Hl as <-.
  rewrite Hlk in E1. congruence.
Qed.

(** Losing a pending record: it becomes AMBIGUOUS, and its lock may be freed. *)
Lemma lost_settled k r m : ir_key r = k -> settled k (lost r m).
Proof. intros <-. by split_and!. Qed.

(** ** What each operation does *)

(** A record whose lease was lost. *)
Definition loses (k : string) (s s' : IdempotencyStore) : Prop :=
  exists r m, records s !! k = Some r /\ ir_outcome r = Outcome_PENDING
  /\ records s' = <[k := lost r m]> (records s).

(** What [begin] does: replay, report, refuse (possibly noticing a lost lease), or claim. *)
Inductive begin_result (key : string) (s : IdempotencyStore) :
  result mutation_exn IdempotencyDecision * IdempotencyStore -> Prop :=
| begin_refused e : begin_result key s (Err e, s)
| begin_lost e k s' : loses k s s' -> begin_result key s (Err e, s')
| begin_replayed r res :
    records s !! key = Some r -> ir_outcome r = Outcome_COMMITTED -> ir_result r = Some res ->
    begin_result key s (Ok (mkIdempotencyDecision Status_REPLAYED r None), s)
| begin_in_progress r l :
    records s !! key = Some r -> ir_outcome r = Outcome_PENDING -> ir_lease r = Some l ->
    begin_result key s (Ok (mkIdempotencyDecision Status_IN_PROGRESS r (Some l)), s)
| begin_claimed r l s' :
    (forall r0, records s !! key = Some r0 -> ir_outcome r0 = Outcome_FAILED_CLEAN) ->
    (forall k0 r0 l0, k0 <> key -> records s !! k0 = Some r0 -> ir_outcome r0 = Outcome_PENDING ->
       ir_lease r0 = Some l0 -> lock_key l0 <> lock_key l) ->
    ir_outcome r = Outcome_PENDING -> ir_lease r = Some l -> ir_key r = key ->
    s' = put_lease (lock_key l) key (put_record key r s) ->
    begin_result key s (Ok (mkIdempotencyDecision Status_NEW r (Some l)), s').

Definition begins (key : string) (s : IdempotencyStore)
  (o : result mutation_exn IdempotencyDecision * IdempotencyStore) : Prop :=
  begin_result key s o /\ idem_inv (snd o).

Lemma begins_refused key s e : idem_inv s -> begins key s (Err e, s).
Proof. split; [constructor|done]. Qed.

Lemma claim_cases key who repo op d tgt m s :
  idem_inv s ->
  (forall r0, records s !! key = Some r0 -> ir_outcome r0 = Outcome_FAILED_CLEAN) ->
  begins key s (claim key who repo op d tgt m s).
Proof.
  intros Hi Hkey. unfold claim, sbind, sget. cbn beta iota.
  set (l := mkMutationLease repo op tgt who m (plus_seconds m (lease_seconds s))).
  unfold check_holder, sbind, sget, sret, slift, smodify, conflict. cbn beta iota.
  assert (Hclaim : (forall k0 r0 l0, k0 <> key -> records s !! k0 = Some r0 ->
      ir_outcome r0 = Outcome_PENDING -> ir_lease r0 = Some l0 -> lock_key l0 <> lock_key l) ->
    let r := mkRecord key who repo op d Outcome_PENDING m m (Some l) None None in
    let s' := put_lease (lock_key l) key (put_record key r s) in
    begins key s (Ok (mkIdempotencyDecision Status_NEW r (Some l)), s')).
  { intros Hfree r s'. split; [by eapply begin_claimed|].
    destruct Hi as [I1 I2 I3 I4 I5]. split; subst s'; unfold put_lease, put_record; cbn [records leases snd];
      intros k0 r0; (destruct (decide (key = k0)) as [<-|Hne];
        [rewrite lookup_insert, decide_True by done; intros [= <-]|rewrite lookup_insert_ne by done]);
      try done; eauto.
    - intros _. exists l. split; [done|]. by rewrite lookup_insert, decide_True.
    - intros Hr0 Hp0. destruct (I2 k0 r0 Hr0 Hp0) as (l0 & Hl0 & Hlk). exists l0. split; [done|].
      rewrite lookup_insert_ne; [done|]. intros He. by eapply (Hfree k0 r0 l0). }
  assert (Hhold : forall k0 r0 l0, records s !! k0 = Some r0 -> ir_outcome r0 = Outcome_PENDING ->
      ir_lease r0 = Some l0 -> lock_key l0 = lock_key l -> leases s !! lock_key l = Some k0).
  { intros k0 r0 l0 H0 Hp0 Hl0 <-. destruct (ii_pending s Hi k0 r0 H0 Hp0) as (l' & Hl' & Hlk).
    rewrite Hl0 in Hl'. by injection Hl' as <-. }
  destruct (leases s !! lock_key l) as [holder|] eqn:Hlk.
  2: { apply Hclaim. intros k0 r0 l0 _ H0 Hp0 Hl0 He. by specialize (Hhold k0 r0 l0 H0 Hp0 Hl0 He). }
  assert (Hnot : (forall r0, records s !! holder = Some r0 -> holder <> key ->
                    ir_outcome r0 = Outcome_PENDING -> False) ->
    forall k0 r0 l0, k0 <> key -> records s !! k0 = Some r0 -> ir_outcome r0 = Outcome_PENDING ->
      ir_lease r0 = Some l0 -> lock_key l0 <> lock_key l).
  { intros Hno k0 r0 l0 Hne H0 Hp0 Hl0 He. specialize (Hhold k0 r0 l0 H0 Hp0 Hl0 He).
    injection Hhold as <-. by eapply Hno. }
  destruct (String.eqb_spec holder key) as [->|Hne]; [apply Hclaim, Hnot; by intros|].
  destruct (records s !! holder) as [held|] eqn:Hheld;
    [|apply Hclaim, Hnot; by intros r0 Hr0].
  destruct (bool_decide_reflect (ir_outcome held = Outcome_PENDING)) as [Hp|Hp];
    [|apply Hclaim, Hnot; intros r0 [= <-] _ ?; done].
  assert (Hlost : begins key s (Err (Denied IdempotencyConflictError RECONCILIATION_REQUIRED
            Stage_IDEMPOTENCY "lock_key"), put_record holder (lost held m) s)).
  { split; [apply (begin_lost _ _ _ holder); by exists held, m|].
    apply (settle_keeps s holder (lost held m) None Hi); [|done].
    apply lost_settled. by apply (ii_keyed s Hi). }
  destruct (ir_lease held) as [hl|]; [|exact Hlost].
  destruct (lease_expired hl m); cbn [negb]; [exact Hlost|by apply begins_refused].
Qed.

Lemma begin_cases key who repo op d tgt now s :
  idem_inv s ->
  begins key s (begin_mutation key who repo op d tgt now s).
Proof.
  intros Hi. unfold begin_mutation, require_digest, require_repository, require_if, deny.
  unfold sbind at 1, slift at 1. destruct (DIGEST_RE key); [|by apply begins_refused].
  unfold sbind at 1, slift at 1. destruct (DIGEST_RE d); [|by apply begins_refused].
  unfold sbind at 1, slift at 1. destruct (REPOSITORY_RE repo); [|by apply begins_refused].
  unfold sbind at 1, sget at 1. cbn beta iota zeta.
  destruct (records s !! key) as [r|] eqn:Hr; [|apply claim_cases; [done|intros r0; by rewrite Hr]].
  unfold decide_existing. destruct (ir_outcome r) eqn:Ho.
  - unfold sbind, slift, smodify, sret, conflict.
    destruct (ii_pending s Hi key r Hr Ho) as (l & Hl & Hlk). rewrite Hl.
    destruct (lease_expired l (astimezone_utc now)); cbn [negb];
      [|split; [by eapply begin_in_progress|done]].
    pose proof (ii_keyed s Hi key r Hr) as Hkey. rewrite Hkey.
    set (r' := lost r (astimezone_utc now)). split; [apply (begin_lost _ _ _ key); by exists r, (astimezone_utc now)|].
    apply (settle_keeps s key r' (Some (lock_key l)) Hi); [by apply lost_settled|].
    intros lk [= <-] k' r'' l' Hne Hr' Hp' Hl' He. apply Hne.
    symmetry. eapply (pending_locks_differ s key k' r r'' l l'); done.
  - unfold sbind, sret. destruct (ii_result s Hi key r Hr Ho) as [res Hres].
    split; [by eapply begin_replayed|done].
  - unfold sbind at 1. unfold pop_lease_of, sbind, sret.
    rewrite (ii_settled s Hi key r Hr ltac:(congruence)).
    apply claim_cases; [done|]. intros r0 Hr0. congruence.
  - by apply begins_refused.
  - by apply (ii_undenied s Hi) in Hr.
Qed.

(** [resolve] refuses, or settles a pending record and frees its lock. *)
Lemma resolve_cases key o now res why s :
  idem_inv s -> o <> Outcome_PENDING -> o <> Outcome_DENIED ->
  (o = Outcome_COMMITTED -> is_Some res) ->
  (exists e, resolve key o now res why s = (Err e, s))
  \/ exists r l, let r' := with_outcome r o (astimezone_utc now) None res why in
     records s !! key = Some r /\ ir_outcome r = Outcome_PENDING /\ ir_lease r = Some l
     /\ resolve key o now res why s = (Ok r', put_record key r' (pop_lease (lock_key l) s))
     /\ idem_inv (put_record key r' (pop_lease (lock_key l) s)).
Proof.
  intros Hi Hp Hd Hc. unfold resolve, sbind, sget, slift, smodify, sret, pop_lease_of, conflict.
  cbn beta iota zeta. destruct (records s !! key) as [r|] eqn:Hr; [|left; by eexists].
  destruct (bool_decide_reflect (ir_outcome r = Outcome_PENDING)) as [Ho|Ho]; cbn [negb];
    [right|left; by eexists].
  destruct (ii_pending s Hi key r Hr Ho) as (l & Hl & Hlk). rewrite Hl. exists r, l.
  split_and!; try done.
  apply (settle_keeps s key _ (Some (lock_key l)) Hi).
  - split_and!; try done. cbn. by apply (ii_keyed s Hi).
  - intros lk [= <-] k' r'' l' Hne Hr' Hp' Hl' He. apply Hne. symmetry.
    eapply (pending_locks_differ s key k' r r'' l l'); done.
Qed.

(** [reconcile] refuses, or settles an AMBIGUOUS record. *)
Lemma reconcile_cases key b res now s :
  idem_inv s ->
  (exists e, reconcile key b res now s = (Err e, s))
  \/ exists r r', records s !! key = Some r /\ ir_outcome r = Outcome_AMBIGUOUS
     /\ ir_outcome r' = (if b then Outcome_COMMITTED else Outcome_FAILED_CLEAN)
     /\ (b = true -> ir_result r' = Some (default [] res))
     /\ reconcile key b res now s = (Ok r', put_record key r' s)
     /\ idem_inv (put_record key r' s).
Proof.
  intros Hi. unfold reconcile, sbind, sget, slift, smodify, sret, conflict. cbn beta iota zeta.
  destruct (records s !! key) as [r|] eqn:Hr; [|left; by eexists].
  destruct (bool_decide_reflect (ir_outcome r = Outcome_AMBIGUOUS)) as [Ho|Ho]; [right|left; by eexists].
  assert (Hl : ir_lease r = None) by (apply (ii_settled s Hi key); [done|congruence]).
  pose proof (ii_keyed s Hi key r Hr) as Hk.
  exists r, (if b then with_outcome r Outcome_COMMITTED (astimezone_utc now) (ir_lease r) (Some (default [] res)) None
             else with_outcome r Outcome_FAILED_CLEAN (astimezone_utc now) (ir_lease r) (ir_result r)
                    (Some RECONCILIATION_REQUIRED)).
  split; [done|]. split; [done|].
  destruct b; cbn; (split; [done|]); (split; [done|]); (split; [done|]);
    (apply (settle_keeps s key _ None Hi); [|done]); by split_and!.
Qed.

Lemma purge_inv now ret s : idem_inv s -> idem_inv (snd (purge_terminal now ret s)).
Proof.
  intros [I1 I2 I3 I4 I5]. split; cbn; intros k r [Hr Hp]%map_lookup_filter_Some; eauto.
Qed.

(** ** Sequences of calls *)

Inductive idem_call : Type :=
| CallBegin (key who repo op d tgt : string) (now : datetime)
| CallCommit (key : string) (res : list (string * value)) (now : datetime)
| CallFailClean (key : string) (why : MutationReasonCode) (now : datetime)
| CallAmbiguous (key : string) (now : datetime)
| CallReconcile (key : string) (committed : bool) (res : option (list (string * value)))
    (now : datetime)
| CallPurge (now : datetime) (retention : Z).

Definition run_idem (s : IdempotencyStore) (c : idem_call) : IdempotencyStore :=
  match c with
  | CallBegin key who repo op d tgt now => snd (begin_mutation key who repo op d tgt now s)
  | CallCommit key res now => snd (commit_mutation key res now s)
  | CallFailClean key why now => snd (fail_clean key why now s)
  | CallAmbiguous key now => snd (mark_ambiguous key now s)
  | CallReconcile key b res now => snd (reconcile key b res now s)
  | CallPurge now ret => snd (purge_terminal now ret s)
  end.

Definition run_idems : IdempotencyStore -> list idem_call -> IdempotencyStore := foldl run_idem.

(** [begin] answered NEW for the key: the provider may be called. *)
Definition claims (s : IdempotencyStore) (c : idem_call) (k : string) : Prop :=
  exists who repo op d tgt now dec, c = CallBegin k who repo op d tgt now
  /\ fst (begin_mutation k who repo op d tgt now s) = Ok dec /\ id_status dec = Status_NEW.

Lemma run_idem_inv s c : idem_inv s -> idem_inv (run_idem s c).
Proof.
  intros Hi. destruct c as [key who repo op d tgt now|key res now|key why now|key now|key b res now|now ret];
    simpl.
  - by apply begin_cases.
  - unfold commit_mutation.
    destruct (resolve_cases key Outcome_COMMITTED now (Some res) None s Hi) as [[e ->]|(r & l & _ & _ & _ & -> & ?)];
      done.
  - unfold fail_clean.
    destruct (resolve_cases key Outcome_FAILED_CLEAN now None (Some why) s Hi) as [[e ->]|(r & l & _ & _ & _ & -> & ?)];
      done.
  - unfold mark_ambiguous.
    destruct (resolve_cases key Outcome_AMBIGUOUS now None (Some RECONCILIATION_REQUIRED) s Hi)
      as [[e ->]|(r & l & _ & _ & _ & -> & ?)]; done.
  - by destruct (reconcile_cases key b res now s Hi) as [[e ->]|(r & r' & _ & _ & _ & _ & -> & ?)].
  - by apply purge_inv.
Qed.

Lemma run_idems_inv s cs : idem_inv s -> idem_inv (run_idems s cs).
Proof. revert s. induction cs as [|c cs IH]; intros s Hi; [done|]. by apply IH, run_idem_inv. Qed.

(** ** The specification: the states a key goes through *)

Inductive key_phase : Type :=
| Free
| InProgress
| CommittedWith (res : list (string * value))
| FailedClean
| Ambiguous.

Definition phase_of_record (r : IdempotencyRecord) : key_phase :=
  match ir_outcome r with
  | Outcome_PENDING => InProgress
  | Outcome_COMMITTED => CommittedWith (default [] (ir_result r))
  | Outcome_FAILED_CLEAN => FailedClean
  | Outcome_AMBIGUOUS | Outcome_DENIED => Ambiguous
  end.

Definition key_phase_of (s : IdempotencyStore) (k : string) : key_phase :=
  match records s !! k with Some r => phase_of_record r | None => Free end.

(** One call seen from one key: a claim from FREE or FAILED_CLEAN, a resolution, a
    reconciliation, a loss noticed by some [begin], or nothing. *)
Inductive lifecycle (c : idem_call) (k : string) : bool -> key_phase -> key_phase -> Prop :=
| lc_stay p : lifecycle c k false p p
| lc_claim who repo op d tgt now p :
    c = CallBegin k who repo op d tgt now -> p = Free \/ p = FailedClean ->
    lifecycle c k true p InProgress
| lc_lost key who repo op d tgt now :
    c = CallBegin key who repo op d tgt now -> lifecycle c k false InProgress Ambiguous
| lc_commit res now : c = CallCommit k res now -> lifecycle c k false InProgress (CommittedWith res)
| lc_fail why now : c = CallFailClean k why now -> lifecycle c k false InProgress FailedClean
| lc_ambiguous now : c = CallAmbiguous k now -> lifecycle c k false InProgress Ambiguous
| lc_committed res now :
    c = CallReconcile k true res now -> lifecycle c k false Ambiguous (CommittedWith (default [] res))
| lc_absent res now : c = CallReconcile k false res now -> lifecycle c k false Ambiguous FailedClean
| lc_forget now ret p :
    c = CallPurge now ret -> p = FailedClean \/ (exists res, p = CommittedWith res) ->
    lifecycle c k false p Free.

Lemma phase_put k r s k0 :
  key_phase_of (put_record k r s) k0 = if decide (k = k0) then phase_of_record r else key_phase_of s k0.
Proof. unfold key_phase_of, put_record. cbn. rewrite lookup_insert. by case_decide. Qed.

(** Every call moves every key along the lifecycle, and the key is claimed exactly when [begin]
    answers NEW for it. *)
Lemma lifecycle_step s c k :
  idem_inv s -> exists b, lifecycle c k b (key_phase_of s k) (key_phase_of (run_idem s c) k)
                /\ (b = true <-> claims s c k).
Proof.
  intros Hi.
  assert (Hstay : forall c, (forall key who repo op d tgt now, c <> CallBegin key who repo op d tgt now) ->
    ~ claims s c k) by (intros c' Hc (? & ? & ? & ? & ? & ? & ? & Heq & _); by eapply Hc).
  assert (Hres : forall o now res why, o <> Outcome_PENDING -> o <> Outcome_DENIED ->
    (o = Outcome_COMMITTED -> is_Some res) -> forall key,
    key_phase_of (snd (resolve key o now res why s)) k = key_phase_of s k
    \/ key = k /\ key_phase_of s k = InProgress
       /\ key_phase_of (snd (resolve key o now res why s)) k
          = match o with Outcome_COMMITTED => CommittedWith (default [] res)
            | Outcome_FAILED_CLEAN => FailedClean | _ => Ambiguous end).
  { intros o now res why Ho1 Ho2 Ho3 key.
    destruct (resolve_cases key o now res why s Hi Ho1 Ho2 Ho3)
      as [[e ->]|(r & l & Hr & Hp & _ & -> & _)]; [by left|]. cbn [snd]. rewrite phase_put.
    case_decide as Hk; [right|by left]. subst key. split; [done|]. split.
    - unfold key_phase_of. rewrite Hr. unfold phase_of_record. by rewrite Hp.
    - unfold phase_of_record. cbn. by destruct o. }
  destruct c as [key who repo op d tgt now|key res now|key why now|key now|key b res now|now ret]; simpl.
  - destruct (begin_cases key who repo op d tgt now s Hi) as [Hb _].
    destruct (begin_mutation key who repo op d tgt now s) as [res s'] eqn:He. simpl in Hb |- *.
    assert (Hcl : claims s (CallBegin key who repo op d tgt now) k
                  <-> key = k /\ exists dec, res = Ok dec /\ id_status dec = Status_NEW).
    { split.
      - intros (? & ? & ? & ? & ? & ? & dec & [= -> -> -> -> -> -> ->] & H1 & H2). split; [done|].
        rewrite He in H1. by exists dec.
      - intros [-> (dec & -> & H2)]. exists who, repo, op, d, tgt, now, dec. by rewrite He. }
    inversion Hb as [e H1|e k0 s0 (r & m & Hr & Hp & Hrec) H1|r rs Hr Ho Hrs H1|r l Hr Ho Hl H1
                    |r l s0 Hold Hfree Hp Hl Hk Hs H1]; subst.
    + exists false. split; [constructor|]. rewrite Hcl. naive_solver.
    + exists false. split; [|rewrite Hcl; naive_solver].
      unfold key_phase_of. rewrite Hrec, lookup_insert. case_decide as Hk.
      * subst k0. rewrite Hr. unfold phase_of_record at 1. rewrite Hp. by eapply lc_lost.
      * constructor.
    + exists false. split; [constructor|]. rewrite Hcl. naive_solver.
    + exists false. split; [constructor|]. rewrite Hcl. naive_solver.
    + destruct (decide (ir_key r = k)) as [<-|Hne].
      * exists true. split; [|rewrite Hcl; naive_solver].
        replace (key_phase_of (put_lease _ _ _) _) with InProgress.
        2: { unfold key_phase_of. cbn. rewrite lookup_insert, decide_True by done.
             unfold phase_of_record. by rewrite Hp. }
        eapply lc_claim; [done|]. unfold key_phase_of.
        destruct (records s !! ir_key r) as [r0|] eqn:Hr0; [right|by left].
        unfold phase_of_record. by rewrite (Hold r0).
      * exists false. split; [|rewrite Hcl; naive_solver].
        replace (key_phase_of (put_lease _ _ _) _) with (key_phase_of s k); [constructor|].
        unfold key_phase_of. cbn. by rewrite lookup_insert_ne.
  - exists false. split; [|split; [done|by intros ?%Hstay]].
    destruct (Hres Outcome_COMMITTED now (Some res) None ltac:(done) ltac:(done) ltac:(done) key)
      as [Heq|(-> & Heq & Heq')]; unfold commit_mutation.
    + rewrite Heq. constructor.
    + rewrite Heq, Heq'. by eapply lc_commit.
  - exists false. split; [|split; [done|by intros ?%Hstay]].
    destruct (Hres Outcome_FAILED_CLEAN now None (Some why) ltac:(done) ltac:(done) ltac:(done) key)
      as [Heq|(-> & Heq & Heq')]; unfold fail_clean.
    + rewrite Heq. constructor.
    + rewrite Heq, Heq'. by eapply lc_fail.
  - exists false. split; [|split; [done|by intros ?%Hstay]].
    destruct (Hres Outcome_AMBIGUOUS now None (Some RECONCILIATION_REQUIRED) ltac:(done) ltac:(done) ltac:(done) key)
      as [Heq|(-> & Heq & Heq')]; unfold mark_ambiguous.
    + rewrite Heq. constructor.
    + rewrite Heq, Heq'. by eapply lc_ambiguous.
  - exists false. split; [|split; [done|by intros ?%Hstay]].
    destruct (reconcile_cases key b res now s Hi) as [[e ->]|(r & r' & Hr & Ho & Ho' & Hr' & -> & _)];
      [constructor|]. cbn [snd]. rewrite phase_put. case_decide as Hk; [subst key|constructor].
    unfold key_phase_of. rewrite Hr. unfold phase_of_record. rewrite Ho, Ho'. destruct b.
    + rewrite Hr' by done. by apply (lc_committed _ _ res now).
    + by eapply lc_absent.
  - exists false. split; [|split; [done|by intros ?%Hstay]].
    unfold key_phase_of. cbn. set (cut := _ + _ * _). rewrite map_lookup_filter.
    destruct (records s !! k) as [r|] eqn:Hr; simpl; [|constructor].
    case_guard as Hp; simpl; [constructor|].
    eapply lc_forget; [done|]. apply not_false_iff_true, andb_true_iff in Hp as [Hp _].
    apply negb_true_iff, bool_decide_eq_false in Hp. unfold phase_of_record.
    pose proof (ii_undenied s Hi k r Hr) as Hd.
    destruct (ir_outcome r); try done; naive_solver.
Qed.

(** ** What callers rely on *)

Section Guarantees.
(** The store of a process, after any calls. *)
Definition reached (n : Z) (cs : list idem_call) : IdempotencyStore := run_idems (mkStore n ∅ ∅) cs.

Lemma reached_inv n cs : idem_inv (reached n cs).
Proof. apply run_idems_inv, init_inv. Qed.

(** [C35] The store refines the documented lifecycle: after any calls, one more call moves each key
    along one edge of it, and a key is claimed exactly when [begin] answers NEW for it: in
    particular AMBIGUOUS is left only by a reconciliation and COMMITTED only by retention. *)
Theorem store_refines_lifecycle n cs c k :
  exists b, lifecycle c k b (key_phase_of (reached n cs) k) (key_phase_of (run_idem (reached n cs) c) k)
  /\ (b = true <-> claims (reached n cs) c k).
Proof. apply lifecycle_step, reached_inv. Qed.

(** A call that may free a key for a new attempt. *)
Definition may_release (k : string) (c : idem_call) : Prop :=
  (exists why now, c = CallFailClean k why now)
  \/ (exists res now, c = CallReconcile k false res now)
  \/ exists now ret, c = CallPurge now ret.

(** A key whose attempt is under way, lost or committed. *)
Definition taken (p : key_phase) : Prop := p <> Free /\ p <> FailedClean.

Lemma taken_step s c k :
  idem_inv s -> taken (key_phase_of s k) -> ~ may_release k c ->
  ~ claims s c k /\ taken (key_phase_of (run_idem s c) k)
  /\ (forall res, key_phase_of s k = CommittedWith res ->
        key_phase_of (run_idem s c) k = CommittedWith res).
Proof.
  intros Hi [H1 H2] Hno. destruct (lifecycle_step s c k Hi) as (b & Hl & Hb). unfold taken.
  inversion Hl as [p|who repo op d tgt now p Hc Hor|key who repo op d tgt now Hc|res now Hc|why now Hc|now Hc
                  |res now Hc|res now Hc|now ret p Hc Hor]; subst; rewrite <- Hb; try by split_and!.
  - exfalso. destruct Hor; congruence.
  - destruct Hno. left. by exists why, now.
  - destruct Hno. right; left. by exists res, now.
  - destruct Hno. right; right. by exists now, ret.
Qed.

Lemma taken_run s cs k :
  idem_inv s -> taken (key_phase_of s k) -> Forall (fun c => ~ may_release k c) cs ->
  taken (key_phase_of (run_idems s cs) k)
  /\ forall res, key_phase_of s k = CommittedWith res ->
       key_phase_of (run_idems s cs) k = CommittedWith res.
Proof.
  revert s. induction cs as [|c cs IH]; intros s Hi Ht Hall; [by split|].
  apply Forall_cons in Hall as [Hc Hcs].
  destruct (taken_step s c k Hi Ht Hc) as (_ & Ht' & Hres).
  destruct (IH (run_idem s c) (run_idem_inv _ _ Hi) Ht' Hcs) as [Ht2 Hres2].
  split; [done|]. intros res Hr. by apply Hres2, Hres.
Qed.

(** At most one write per key: once [begin] has answered NEW, no later [begin] for the key
    answers NEW again, however often and however late it is called, unless the attempt was
    resolved or reconciled as a clean failure, or the retention dropped its record. *)
Theorem one_attempt_per_key n cs1 c k cs2 c' :
  claims (reached n cs1) c k -> Forall (fun x => ~ may_release k x) cs2 ->
  ~ claims (run_idems (run_idem (reached n cs1) c) cs2) c' k.
Proof.
  intros Hc Hall Hc'. pose proof (reached_inv n cs1) as Hi.
  destruct (lifecycle_step _ c k Hi) as (b & Hl & Hb). apply Hb in Hc as ->.
  assert (Ht : taken (key_phase_of (run_idem (reached n cs1) c) k)).
  { inversion Hl as [|? ? ? ? ? ? ? ? ? Hp Hp'| | | | | | |]. by split. }
  destruct (taken_run _ cs2 k (run_idem_inv _ c Hi) Ht Hall) as [[Hf Hfc] _].
  destruct (lifecycle_step _ c' k (run_idems_inv _ cs2 (run_idem_inv _ c Hi))) as (b' & Hl' & Hb').
  apply Hb' in Hc' as ->. inversion Hl' as [|? ? ? ? ? ? ? ? [Ho|Ho]| | | | | | |]; congruence.
Qed.

(** Replay: a committed mutation is answered from its record, with the result it was committed
    with, by every later [begin] for its key until the retention drops it. *)
Theorem committed_replays n cs1 k res now r s' cs2 who repo op d tgt now' :
  commit_mutation k res now (reached n cs1) = (Ok r, s') ->
  Forall (fun c => ~ may_release k c) cs2 ->
  DIGEST_RE k = true -> DIGEST_RE d = true -> REPOSITORY_RE repo = true ->
  exists r', begin_mutation k who repo op d tgt now' (run_idems s' cs2)
             = (Ok (mkIdempotencyDecision Status_REPLAYED r' None), run_idems s' cs2)
  /\ ir_outcome r' = Outcome_COMMITTED /\ ir_result r' = Some res.
Proof.
  intros Hc Hall H1 H2 H3. pose proof (reached_inv n cs1) as Hi.
  assert (Hs' : idem_inv s' /\ key_phase_of s' k = CommittedWith res).
  { unfold commit_mutation in Hc.
    destruct (resolve_cases k Outcome_COMMITTED now (Some res) None _ Hi ltac:(done) ltac:(done) ltac:(done))
      as [[e He]|(r0 & l & _ & _ & _ & He & Hi')]; rewrite He in Hc; [done|]. injection Hc as <- <-.
    split; [done|]. rewrite phase_put, decide_True by done. done. }
  destruct Hs' as [Hi' Hp].
  destruct (taken_run s' cs2 k Hi' ltac:(by rewrite Hp) Hall) as [_ Hres].
  specialize (Hres res Hp). unfold key_phase_of in Hres.
  pose proof (run_idems_inv s' cs2 Hi') as Hi2.
  destruct (records (run_idems s' cs2) !! k) as [r'|] eqn:Hr; [|done].
  unfold phase_of_record in Hres. destruct (ir_outcome r') eqn:Ho; try done.
  destruct (ii_result _ Hi2 k r' Hr Ho) as [res' Hres']. rewrite Hres' in Hres.
  injection Hres as ->. exists r'. split; [|done].
  unfold begin_mutation, require_digest, require_repository, require_if. rewrite H1, H2, H3.
  unfold sbind, slift, sget. rewrite Hr. unfold decide_existing. by rewrite Ho.
Qed.

(** Two attempts in progress never work on the same target: a lock names at most one of them. *)
Theorem locks_exclude n cs k1 k2 r1 r2 :
  records (reached n cs) !! k1 = Some r1 -> records (reached n cs) !! k2 = Some r2 ->
  ir_outcome r1 = Outcome_PENDING -> ir_outcome r2 = Outcome_PENDING ->
  lock_key <$> ir_lease r1 = lock_key <$> ir_lease r2 -> k1 = k2.
Proof.
  intros H1 H2 P1 P2 Hlk. pose proof (reached_inv n cs) as Hi.
  destruct (ii_pending _ Hi k1 r1 H1 P1) as (l1 & Hl1 & _).
  destruct (ii_pending _ Hi k2 r2 H2 P2) as (l2 & Hl2 & _).
  rewrite Hl1, Hl2 in Hlk. injection Hlk as Hlk. by eapply pending_locks_differ.
Qed.
End Guarantees.

(** ** Concrete runs *)

Definition demo_hex (c : string) : string := String.concat "" (replicate 64 c).

Definition demo_begin (c target : string) (t : Z) : idem_call :=
  CallBegin (demo_hex c) "alice" "o/r" "github.create_branch" (demo_hex "0") target (at_time t).

Lemma one_attempt_per_key_witness :
  claims (reached 120 []) (demo_begin "a" "b1" 5) (demo_hex "a")
  /\ ~ claims (run_idems (run_idem (reached 120 []) (demo_begin "a" "b1" 5))
                 [demo_begin "b" "b1" 6; CallCommit (demo_hex "a") [] (at_time 7)])
        (demo_begin "a" "b2" 8) (demo_hex "a").
Proof.
  assert (H : claims (reached 120 []) (demo_begin "a" "b1" 5) (demo_hex "a")).
  { do 6 eexists. eexists. split; [reflexivity|]. split; [vm_compute; reflexivity|reflexivity]. }
  split; [exact H|].
  apply (one_attempt_per_key 120 [] (demo_begin "a" "b1" 5) (demo_hex "a")
           [demo_begin "b" "b1" 6; CallCommit (demo_hex "a") [] (at_time 7)] (demo_begin "a" "b2" 8) H).
  repeat constructor; unfold may_release; intros [(? & ? & ?)|[(? & ? & ?)|(? & ? & ?)]]; discriminate.
Defined.

Lemma committed_replays_witness :
  exists r', begin_mutation (demo_hex "a") "alice" "o/r" "github.create_branch" (demo_hex "0") "b1" (at_time 9)
    (run_idems (snd (commit_mutation (demo_hex "a") [("sha", VStr "c0ffee")] (at_time 7)
                      (reached 120 [demo_begin "a" "b1" 5]))) [demo_begin "b" "b2" 8])
    = (Ok (mkIdempotencyDecision Status_REPLAYED r' None),
       run_idems (snd (commit_mutation (demo_hex "a") [("sha", VStr "c0ffee")] (at_time 7)
                      (reached 120 [demo_begin "a" "b1" 5]))) [demo_begin "b" "b2" 8])
  /\ ir_outcome r' = Outcome_COMMITTED /\ ir_result r' = Some [("sha", VStr "c0ffee")].
Proof.
  destruct (commit_mutation (demo_hex "a") [("sha", VStr "c0ffee")] (at_time 7)
              (reached 120 [demo_begin "a" "b1" 5])) as [[r|e] s'] eqn:He; [|vm_compute in He; discriminate].
  apply (committed_replays 120 [demo_begin "a" "b1" 5] (demo_hex "a") [("sha", VStr "c0ffee")] (at_time 7)
           r s' [demo_begin "b" "b2" 8] "alice" "o/r" "github.create_branch" (demo_hex "0") "b1" (at_time 9) He);
    [|by vm_compute..].
  repeat constructor; unfold may_release; intros [(? & ? & ?)|[(? & ? & ?)|(? & ? & ?)]]; discriminate.
Defined.

Definition demo_two : IdempotencyStore :=
  reached 120 [demo_begin "a" "b1" 5; demo_begin "b" "b1" 6; demo_begin "c" "b2" 7].

(** The second call was refused: the records of the first and the third are the pending ones. *)
Lemma locks_exclude_witness :
  match records demo_two !! demo_hex "a", records demo_two !! demo_hex "b", records demo_two !! demo_hex "c" with
  | Some r1, None, Some r2 => lock_key <$> ir_lease r1 <> lock_key <$> ir_lease r2
  | _, _, _ => False
  end.
Proof.
  destruct (records demo_two !! demo_hex "a") as [r1|] eqn:H1; [|vm_compute in H1; discriminate].
  destruct (records demo_two !! demo_hex "b") as [r3|] eqn:H3; [vm_compute in H3; discriminate|].
  destruct (records demo_two !! demo_hex "c") as [r2|] eqn:H2; [|vm_compute in H2; discriminate].
  intros Hl.
  assert (He : demo_hex "a" = demo_hex "c").
  { apply (locks_exclude 120 [demo_begin "a" "b1" 5; demo_begin "b" "b1" 6; demo_begin "c" "b2" 7]
             (demo_hex "a") (demo_hex "c") r1 r2 H1 H2); [|..|exact Hl].
    - vm_compute in H1. injection H1 as <-. reflexivity.
    - vm_compute in H2. injection H2 as <-. reflexivity. }
  vm_compute in He. discriminate.
Defined.
