(* ===== verification/MutationRegistry.v ===== *)
(** * The mutation registry ([v2/github_mutation_registry.py])

    The two registered mutations: their typed contracts, the closed normalization of their
    arguments, the classification of provider statuses and the policy rules. *)
From S2P Require Import Prelude.
From S2P Require Import PyText.
From S2P Require Import PyValue.
From S2P Require Import Canonical.
From S2P Require Import MutationContract.
From S2P Require Import ToolSchema.
From S2P Require Import ToolRegistry.
From S2P Require Import Policy.

Definition REQUIRED_WRITE_CAPABILITY_PREFIX : string := "github.write".
Definition CREATE_BRANCH_TOOL_ID : string := "github.create_branch".
Definition CREATE_PR_TOOL_ID : string := "github.create_pr".
Definition MUTATION_TOOL_IDS : list string := [CREATE_BRANCH_TOOL_ID; CREATE_PR_TOOL_ID].
Definition FORBIDDEN_MUTATION_TOOL_IDS : list string :=
  ["github.delete_repository"; "github.delete_ref"; "github.update_ref"; "github.merge_pr"].
Definition DESTRUCTIVE_TOOL_IDS : list string := ["github.delete_repository"; "github.delete_ref"].
Definition MAX_TITLE_LENGTH : Z := 200.
Definition MAX_BODY_LENGTH : Z := 8000.
Definition MUTATION_TIMEOUT_SECONDS : Z := 30.
Definition GITHUB_API_CAPABILITY : string := "github.api".

(** [_deny] at the REGISTRY stage *)
Definition reg_deny {A} (r : MutationReasonCode) : result mutation_exn A := deny r Stage_REGISTRY "".
Definition reg_deny_if (b : bool) (r : MutationReasonCode) : result mutation_exn unit :=
  if b then reg_deny r else Ok tt.

(** A registry or policy model failed: a [ValueError]. *)
Definition raise_model {A} (m : result registry_exn A) : result mutation_exn A :=
  match m with Ok a => Ok a | Err _ => Err (PyRaised ValueError) end.

(** ** Argument validation *)

Definition repo_segment_char (c : ascii) : bool := is_alnum c || one_of "._-" c.
Definition REPO_SEGMENT_RE (s : string) : bool := first_rest is_alnum repo_segment_char 99 s.
Definition branch_char (c : ascii) : bool := is_alnum c || one_of "._/-" c.
Definition BRANCH_SEGMENT_RE (s : string) : bool := first_rest is_alnum branch_char 254 s.

Definition scope_error {A} : result mutation_exn A :=
  Err (Denied MutationScopeError INVALID_ARGUMENTS Stage_SCOPE "").

(** [validate_repository] *)
Definition validate_repository (owner repo : value) : result mutation_exn string :=
  match owner, repo with
  | VStr o, VStr r =>
      if negb (REPO_SEGMENT_RE o) || negb (REPO_SEGMENT_RE r) then scope_error
      else Ok (o +:+ "/" +:+ r)
  | _, _ => scope_error
  end.

Definition BRANCH_TOKENS : list string := [".."; "//"; "\"; "@{"; "~"; "^"; ":"; "?"; "*"; "["; "]"].

Definition is_ascii (c : ascii) : bool := between 0 127 c.
Definition is_control (c : ascii) : bool := (code c <? 32) || (code c =? 127).

(** [validate_branch_name] *)
Definition validate_branch_name (name : value) : result mutation_exn string :=
  match name with
  | VStr n =>
      do! reg_deny_if (String.eqb n "") INVALID_REF_NAME in
      do! reg_deny_if (negb (all_chars is_ascii n)) INVALID_REF_NAME in
      do! reg_deny_if (string_existsb is_control n) INVALID_REF_NAME in
      do! reg_deny_if (has_space n) INVALID_REF_NAME in
      do! reg_deny_if (String.prefix "-" n || String.prefix "/" n || String.prefix "." n)
            INVALID_REF_NAME in
      do! reg_deny_if (ends_with "/" n || ends_with "." n || ends_with ".lock" n) INVALID_REF_NAME in
      do! rfor (fun token => reg_deny_if (contains token n) INVALID_REF_NAME) BRANCH_TOKENS in
      do! reg_deny_if (String.prefix "refs/" (lower n)) INVALID_REF_NAME in
      do! reg_deny_if (negb (BRANCH_SEGMENT_RE n)) INVALID_REF_NAME in
      Ok n
  | _ => reg_deny INVALID_REF_NAME
  end.

(** [qualified_ref] *)
Definition qualified_ref (branch : value) : result mutation_exn string :=
  let! b := validate_branch_name branch in Ok ("refs/heads/" +:+ b).

(** [validate_sha] at the REGISTRY stage *)
Definition validate_sha (v : value) : result mutation_exn string :=
  match v with
  | VStr s => if SHA_RE s then Ok s else reg_deny INVALID_ARGUMENTS
  | _ => reg_deny INVALID_ARGUMENTS
  end.

Definition text_control (c : ascii) : bool := (code c <? 32) && negb (code c =? 10) && negb (code c =? 9).

(** [_validate_text] *)
Definition validate_text (v : value) (maximum : Z) (required : bool) : result mutation_exn string :=
  match v with
  | VNone => if required then reg_deny INVALID_ARGUMENTS else Ok ""
  | VStr s =>
      do! reg_deny_if (required && String.eqb (py_strip s) "") INVALID_ARGUMENTS in
      do! reg_deny_if (maximum <? py_len s) INVALID_ARGUMENTS in
      do! reg_deny_if (string_existsb text_control s) INVALID_ARGUMENTS in
      do! reg_deny_if (string_existsb (fun c => code c =? 127) s) INVALID_ARGUMENTS in
      Ok s
  | _ => reg_deny INVALID_ARGUMENTS
  end.

(** ** Schemas *)

Definition object_schema (properties : list (string * value)) (required : list string) :
  list (string * value) :=
  [("type", VStr "object"); ("additionalProperties", VBool false);
   ("properties", VDict properties); ("required", VList (map VStr required))].

Definition sha_property (hint : string) : value :=
  VDict [("type", VStr "string"); ("pattern", VStr "^[0-9a-f]{40}$"); ("minLength", VInt 40);
         ("maxLength", VInt 40); ("title", VStr hint)].

Definition text_property (lo : option Z) (hi : Z) : value :=
  VDict ([("type", VStr "string")]
         ++ match lo with Some n => [("minLength", VInt n)] | None => [] end ++ [("maxLength", VInt hi)]).

Definition string_type : value := VDict [("type", VStr "string")].
Definition string_enum (vs : list string) : value :=
  VDict [("type", VStr "string"); ("enum", VList (map VStr vs))].

Definition repository_properties : list (string * value) :=
  [("owner", text_property (Some 1) 100); ("repo", text_property (Some 1) 100)].

Definition create_branch_input_schema : list (string * value) :=
  object_schema
    (repository_properties
     ++ [("branch", text_property (Some 1) 255); ("base_sha", sha_property "pinned base commit")])
    ["owner"; "repo"; "branch"; "base_sha"].

Definition create_pr_input_schema : list (string * value) :=
  object_schema
    (repository_properties
     ++ [("head", text_property (Some 1) 255); ("base", text_property (Some 1) 255);
         ("title", text_property (Some 1) MAX_TITLE_LENGTH);
         ("body", text_property None MAX_BODY_LENGTH);
         ("draft", VDict [("type", VStr "boolean")]);
         ("expected_head_sha", sha_property "expected head commit")])
    ["owner"; "repo"; "head"; "base"; "title"; "expected_head_sha"].

Definition result_schema (properties : list (string * value)) (required : list string) :
  list (string * value) :=
  object_schema
    ([("repository", string_type); ("operation_digest", string_type);
      ("idempotency_status", string_enum ["NEW"; "REPLAYED"; "IN_PROGRESS"]);
      ("outcome", string_enum ["PENDING"; "COMMITTED"; "FAILED_CLEAN"; "AMBIGUOUS"; "DENIED"])]
     ++ properties)
    (["repository"; "outcome"; "idempotency_status"] ++ required).

Definition create_branch_output_schema : list (string * value) :=
  result_schema [("ref", string_type); ("sha", sha_property "created ref target"); ("url", string_type)]
    ["ref"].

Definition create_pr_output_schema : list (string * value) :=
  result_schema
    [("number", VDict [("type", VStr "integer"); ("minimum", VInt 1)]);
     ("head_sha", sha_property "head commit at creation"); ("state", string_enum ["open"; "closed"]);
     ("draft", VDict [("type", VStr "boolean")]); ("url", string_type)]
    ["number"].

(** The names under a schema's [key]. *)
Definition schema_properties (schema : list (string * value)) : list string :=
  match dget "properties" schema with Some (VDict d) => dkeys d | _ => [] end.
Definition schema_required (schema : list (string * value)) : list string :=
  match dget "required" schema with
  | Some (VList l) => omap (fun v => match v with VStr s => Some s | _ => None end) l
  | _ => []
  end.

(** [_reject_unknown_keys] *)
Definition reject_unknown_keys (arguments schema : list (string * value)) : result mutation_exn unit :=
  do! reg_deny_if (existsb (fun k => negb (str_in k (schema_properties schema))) (dkeys arguments))
        INVALID_ARGUMENTS in
  reg_deny_if (existsb (fun k => negb (dhas k arguments)) (schema_required schema)) INVALID_ARGUMENTS.

(** [arguments.get(k)] *)
Definition arg (k : string) (arguments : list (string * value)) : value :=
  default VNone (dget k arguments).

(** [normalize_create_branch_arguments] *)
Definition normalize_create_branch_arguments (a : list (string * value)) :
  result mutation_exn (list (string * value)) :=
  do! reject_unknown_keys a create_branch_input_schema in
  let! repository := validate_repository (arg "owner" a) (arg "repo" a) in
  let! branch := validate_branch_name (arg "branch" a) in
  let! base_sha := validate_sha (arg "base_sha" a) in
  Ok [("base_sha", VStr base_sha); ("branch", VStr branch);
      ("ref", VStr ("refs/heads/" +:+ branch)); ("repository", VStr repository)].

(** [normalize_create_pr_arguments] *)
Definition normalize_create_pr_arguments (a : list (string * value)) :
  result mutation_exn (list (string * value)) :=
  do! reject_unknown_keys a create_pr_input_schema in
  let! repository := validate_repository (arg "owner" a) (arg "repo" a) in
  let! head := validate_branch_name (arg "head" a) in
  let! base := validate_branch_name (arg "base" a) in
  do! reg_deny_if (String.eqb head base) INVALID_ARGUMENTS in
  let! title := validate_text (arg "title" a) MAX_TITLE_LENGTH true in
  let! body := validate_text (arg "body" a) MAX_BODY_LENGTH false in
  let! draft := match default (VBool true) (dget "draft" a) with
                | VBool b => Ok b
                | _ => reg_deny INVALID_ARGUMENTS
                end in
  let! expected_head_sha := validate_sha (arg "expected_head_sha" a) in
  Ok [("base", VStr base); ("body", VStr body); ("draft", VBool draft);
      ("expected_head_sha", VStr expected_head_sha); ("head", VStr head);
      ("repository", VStr repository); ("title", VStr title)].

(** [_unknown_mutation] *)
Definition unknown_mutation {A} (tool : string) : result mutation_exn A :=
  let identifier := lower (py_strip tool) in
  if str_in identifier DESTRUCTIVE_TOOL_IDS then reg_deny DESTRUCTIVE_OPERATION_FORBIDDEN
  else if str_in identifier FORBIDDEN_MUTATION_TOOL_IDS then reg_deny MUTATION_NOT_REGISTERED
  else reg_deny UNKNOWN_MUTATION.

(** [normalize_arguments] *)
Definition normalize_arguments (tool : string) (a : list (string * value)) :
  result mutation_exn (list (string * value)) :=
  if String.eqb tool CREATE_BRANCH_TOOL_ID then normalize_create_branch_arguments a
  else if String.eqb tool CREATE_PR_TOOL_ID then normalize_create_pr_arguments a
  else unknown_mutation tool.

(** ** Contracts *)

Record ReadBackContract := mkReadBack {
  rb_required : bool;
  rb_endpoint_template : string;
  verified_fields : list string;
  unverifiable_outcome : MutationOutcome
}.

(** [ReadBackContract.__post_init__] *)
Definition read_back_contract (r : ReadBackContract) : result mutation_exn ReadBackContract :=
  do! reg_deny_if (negb (rb_required r)) INVALID_ARGUMENTS in
  do! reg_deny_if match verified_fields r with [] => true | _ => false end INVALID_ARGUMENTS in
  do! reg_deny_if (negb (bool_decide (unverifiable_outcome r = Outcome_AMBIGUOUS))) INVALID_ARGUMENTS in
  Ok r.

Inductive ParallelSafety : Type := SERIALIZE_PER_RESOURCE | UNRESTRICTED.
Definition parallel_value (p : ParallelSafety) : string :=
  match p with SERIALIZE_PER_RESOURCE => "SERIALIZE_PER_RESOURCE" | UNRESTRICTED => "UNRESTRICTED" end.
(** [ParallelSafety.requires_lease] *)
Definition requires_lease (p : ParallelSafety) : bool :=
  match p with SERIALIZE_PER_RESOURCE => true | UNRESTRICTED => false end.

Record MutationContract := mkContract {
  mc_tool_id : string;
  definition : ToolDefinition;
  write_capability : WriteCapabilityId;
  parallel_safety : ParallelSafety;
  read_back : ReadBackContract;
  method : string;
  endpoint_template : string;
  success_status : list Z;
  clean_failure_status : list Z;
  ambiguous_status : list Z;
  precondition_fields : list string;
  result_fields : list string;
  compensation : string
}.

Definition z_in (z : Z) (l : list Z) : bool := existsb (Z.eqb z) l.

(** [_require_write_capability] *)
Definition require_write_capability (c : WriteCapabilityId) : result mutation_exn string :=
  let v := capability_value c in
  if String.eqb v "github.read" || negb (String.prefix REQUIRED_WRITE_CAPABILITY_PREFIX v)
  then deny WRITE_CAPABILITY_MISMATCH Stage_CREDENTIAL "" else Ok v.

(** [MutationContract.__post_init__] *)
Definition mutation_contract (c : MutationContract) : result mutation_exn MutationContract :=
  let d := definition c in
  do! reg_deny_if (negb (str_in (mc_tool_id c) MUTATION_TOOL_IDS)) MUTATION_NOT_REGISTERED in
  do! reg_deny_if (negb (String.eqb (tool_id d) (mc_tool_id c))) INVALID_ARGUMENTS in
  do! reg_deny_if (read_only d || negb (mutates (mutation_class d))) INVALID_ARGUMENTS in
  do! reg_deny_if (class_destructive (mutation_class d) || is_destructive d) DESTRUCTIVE_OPERATION_FORBIDDEN in
  do! reg_deny_if (negb (String.eqb (method c) "POST")) INVALID_ARGUMENTS in
  do! reg_deny_if (negb (contains "{" (endpoint_template c)) || String.prefix "http" (endpoint_template c))
        INVALID_ARGUMENTS in
  do! (if bool_decide (credential_capability_id d = Some (capability_value (write_capability c)))
       then Ok tt else deny WRITE_CAPABILITY_MISMATCH Stage_CREDENTIAL "") in
  do! require_write_capability (write_capability c) in
  do! reg_deny_if (negb (bool_decide (tool_idempotency d = Idem_BY_PRECONDITION))) INVALID_ARGUMENTS in
  do! reg_deny_if match precondition_fields c with [] => true | _ => false end INVALID_ARGUMENTS in
  do! reg_deny_if (negb (bool_decide (retry_class (tool_retry d) = NO_RETRY))) INVALID_ARGUMENTS in
  do! reg_deny_if (negb (max_attempts (tool_retry d) =? 1)) INVALID_ARGUMENTS in
  do! (if bool_decide (approval_requirement d = Appr_REQUIRED)
       then Ok tt else deny APPROVAL_MISSING Stage_APPROVAL "") in
  do! reg_deny_if
        (existsb (fun z => z_in z (clean_failure_status c ++ ambiguous_status c)) (success_status c)
         || existsb (fun z => z_in z (ambiguous_status c)) (clean_failure_status c)) INVALID_ARGUMENTS in
  Ok c.

(** [MutationContract.classify_status] *)
Definition classify_status (c : MutationContract) (status : Z) : MutationOutcome :=
  if z_in status (success_status c) then Outcome_COMMITTED
  else if z_in status (clean_failure_status c) then Outcome_FAILED_CLEAN
  else Outcome_AMBIGUOUS.

(** [_mutation_definition]; [tool_id.split(".", 1)[1]] is the operation. *)
Definition mutation_definition (i action : string) (inp out : list (string * value))
  (c : WriteCapabilityId) : result mutation_exn ToolDefinition :=
  let! credential := require_write_capability c in
  let! retry := raise_model (retry_policy (mkRetryPolicy NO_RETRY 1 0 0 true)) in
  let! resource := raise_model (resource_key (mkResourceKey "repository" "default")) in
  raise_model (tool_definition
    (mkTool i "github" (default "" (snd (split_once "." i))) 1 Mode_DIRECT inp out T3 false
       Class_STANDARD Idem_BY_PRECONDITION action Appr_REQUIRED GITHUB_API_CAPABILITY
       (Some credential) MUTATION_TIMEOUT_SECONDS retry resource Shape_REQUIRED
       Stab_EXPERIMENTAL false "" "github-rest")).

(** [create_branch_contract] *)
Definition create_branch_contract : result mutation_exn MutationContract :=
  let! d := mutation_definition CREATE_BRANCH_TOOL_ID "github.branch.create"
              create_branch_input_schema create_branch_output_schema WC_BRANCH in
  let! rb := read_back_contract
               (mkReadBack true "/repos/{owner}/{repo}/git/ref/heads/{branch}" ["ref"; "sha"]
                  Outcome_AMBIGUOUS) in
  mutation_contract
    (mkContract CREATE_BRANCH_TOOL_ID d WC_BRANCH SERIALIZE_PER_RESOURCE rb "POST"
       "/repos/{owner}/{repo}/git/refs" [201] [401; 403; 404; 422] [408; 429; 500; 502; 503; 504]
       ["base_sha"] ["ref"; "sha"; "url"] "delete_created_ref_if_unreferenced_and_at_base_sha").

(** [create_pr_contract] *)
Definition create_pr_contract : result mutation_exn MutationContract :=
  let! d := mutation_definition CREATE_PR_TOOL_ID "github.pr.create"
              create_pr_input_schema create_pr_output_schema WC_PR in
  let! rb := read_back_contract
               (mkReadBack true "/repos/{owner}/{repo}/pulls/{number}" ["number"; "head_sha"; "state"]
                  Outcome_AMBIGUOUS) in
  mutation_contract
    (mkContract CREATE_PR_TOOL_ID d WC_PR SERIALIZE_PER_RESOURCE rb "POST"
       "/repos/{owner}/{repo}/pulls" [201] [401; 403; 404; 422] [408; 429; 500; 502; 503; 504]
       ["expected_head_sha"] ["number"; "head_sha"; "state"; "draft"; "url"]
       "close_pull_request_never_delete").

(** [mutation_contracts]: keyed by tool id, sorted. *)
Definition mutation_contracts : result mutation_exn (list (string * MutationContract)) :=
  let! b := create_branch_contract in
  let! p := create_pr_contract in
  Ok (map (fun c => (mc_tool_id c, c)) (sort_by mc_tool_id [b; p])).

(** [get_mutation_contract] on a string *)
Definition get_mutation_contract (tool : string) : result mutation_exn MutationContract :=
  let! cs := mutation_contracts in
  match dget (lower (py_strip tool)) cs with Some c => Ok c | None => unknown_mutation tool end.

(** [github_mutation_policy_rules] *)
Definition github_mutation_policy_rules : result registry_exn PolicyRuleSet :=
  let! rules := rmap policy_rule
                  [mkRule "github.branch.create" Policy_APPROVAL_REQUIRED "";
                   mkRule "github.pr.create" Policy_APPROVAL_REQUIRED ""] in
  policy_rule_set rules.

(** [build_github_mutation_registry] *)
Definition build_calls (api branch pr : CapabilityState) (ts : list ToolDefinition) : list registry_call :=
  [AliasRegisterCapability (mkCapability GITHUB_API_CAPABILITY "github" api 1
     "GitHub REST API connectivity for typed V2 operations.");
   AliasRegisterCapability (mkCapability (capability_value WC_BRANCH) "github" branch 1
     "Least-privilege authorization to create a branch ref.");
   AliasRegisterCapability (mkCapability (capability_value WC_PR) "github" pr 1
     "Least-privilege authorization to open a pull request.")]
  ++ map Register ts ++ [Freeze].

Definition build_github_mutation_registry (api branch pr : CapabilityState) :
  result mutation_exn ToolRegistry :=
  let! cs := mutation_contracts in
  Ok (run_registries new_registry (build_calls api branch pr (map (fun c => definition (snd c)) cs))).

(** ** The contracts are what the program says *)

(** What the executor relies on in a contract. *)
Record contract_ok (c : MutationContract) : Prop := {
  co_tool : mc_tool_id c = CREATE_BRANCH_TOOL_ID /\ write_capability c = WC_BRANCH
            \/ mc_tool_id c = CREATE_PR_TOOL_ID /\ write_capability c = WC_PR;
  co_status : success_status c = [201] /\ clean_failure_status c = [401; 403; 404; 422];
  co_fields : verified_fields (read_back c)
    = if String.eqb (mc_tool_id c) CREATE_BRANCH_TOOL_ID then ["ref"; "sha"]
      else ["number"; "head_sha"; "state"];
  co_endpoints : (endpoint_template c, rb_endpoint_template (read_back c))
    = if String.eqb (mc_tool_id c) CREATE_BRANCH_TOOL_ID
      then ("/repos/{owner}/{repo}/git/refs", "/repos/{owner}/{repo}/git/ref/heads/{branch}")
      else ("/repos/{owner}/{repo}/pulls", "/repos/{owner}/{repo}/pulls/{number}");
  co_definition : tool_ok (definition c) /\ tool_id (definition c) = mc_tool_id c
    /\ approval_requirement (definition c) = Appr_REQUIRED
    /\ is_destructive (definition c) = false
    /\ credential_capability_id (definition c) = Some (capability_value (write_capability c))
}.

Lemma raise_model_Ok {A} (m : result registry_exn A) a : raise_model m = Ok a -> m = Ok a.
Proof. destruct m; [by intros [= ->]|done]. Qed.

Lemma mutation_definition_ok i action inp out c d :
  mutation_definition i action inp out c = Ok d -> tool_ok d.
Proof.
  unfold mutation_definition. intros H. res_inv.
  match goal with H : raise_model (tool_definition _) = Ok _ |- _ =>
    apply raise_model_Ok, tool_definition_ok in H end. done.
Qed.

(** Reads a closed fact off a contract computed by [H]. *)
Ltac computed H := vm_compute in H; injection H as <-; vm_compute; reflexivity.

Lemma create_branch_contract_ok b :
  create_branch_contract = Ok b -> contract_ok b /\ mc_tool_id b = CREATE_BRANCH_TOOL_ID.
Proof.
  intros H. assert (Hi : mc_tool_id b = CREATE_BRANCH_TOOL_ID) by computed H.
  split; [split|done].
  - left. split; [done|computed H].
  - split; computed H.
  - rewrite Hi. computed H.
  - rewrite Hi. computed H.
  - split; [|split_and!; computed H]. unfold create_branch_contract, mutation_contract in H. res_inv.
    by eapply mutation_definition_ok.
Qed.

Lemma create_pr_contract_ok p :
  create_pr_contract = Ok p -> contract_ok p /\ mc_tool_id p = CREATE_PR_TOOL_ID.
Proof.
  intros H. assert (Hi : mc_tool_id p = CREATE_PR_TOOL_ID) by computed H.
  split; [split|done].
  - right. split; [done|computed H].
  - split; computed H.
  - rewrite Hi. computed H.
  - rewrite Hi. computed H.
  - split; [|split_and!; computed H]. unfold create_pr_contract, mutation_contract in H. res_inv.
    by eapply mutation_definition_ok.
Qed.

(** Both contracts are accepted by their own validation. *)
Lemma contracts_exist :
  exists b p, create_branch_contract = Ok b /\ create_pr_contract = Ok p
  /\ mutation_contracts = Ok [(CREATE_BRANCH_TOOL_ID, b); (CREATE_PR_TOOL_ID, p)].
Proof.
  destruct create_branch_contract as [b|e] eqn:Hb; [|vm_compute in Hb; discriminate].
  destruct create_pr_contract as [p|e] eqn:Hp; [|vm_compute in Hp; discriminate].
  exists b, p. split_and!; [done..|]. unfold mutation_contracts. rewrite Hb, Hp. cbn [rbind].
  destruct (create_branch_contract_ok b Hb) as [_ Ib], (create_pr_contract_ok p Hp) as [_ Ip].
  cbn [sort_by insert_by]. 
  replace (String.leb (mc_tool_id b) (mc_tool_id p)) with true by (by rewrite Ib, Ip).
  cbn [map]. by rewrite Ib, Ip.
Qed.

(** A lookup finds one of the two registered mutations, under any spelling of its identifier, and
    denies everything else: destructive operations as such, the other forbidden ones as not
    registered, and the rest as unknown. *)
Theorem get_mutation_contract_spec tool :
  let i := lower (py_strip tool) in
  match get_mutation_contract tool with
  | Ok c => i ∈ MUTATION_TOOL_IDS /\ mc_tool_id c = i /\ contract_ok c
  | Err e =>
      i ∉ MUTATION_TOOL_IDS /\ e = Denied MutationDeniedError
        (if decide (i ∈ DESTRUCTIVE_TOOL_IDS) then DESTRUCTIVE_OPERATION_FORBIDDEN
         else if decide (i ∈ FORBIDDEN_MUTATION_TOOL_IDS) then MUTATION_NOT_REGISTERED
         else UNKNOWN_MUTATION) Stage_REGISTRY ""
  end.
Proof.
  intros i. unfold get_mutation_contract.
  destruct contracts_exist as (b & p & Hb & Hp & ->). cbn [rbind dget]. fold i.
  destruct (create_branch_contract_ok b Hb) as [Ob Ib], (create_pr_contract_ok p Hp) as [Op Ip].
  unfold MUTATION_TOOL_IDS.
  destruct (String.eqb_spec i CREATE_BRANCH_TOOL_ID) as [->|H1]; [by split_and!; [left|..]|].
  destruct (String.eqb_spec i CREATE_PR_TOOL_ID) as [->|H2]; [by split_and!; [right; left|..]|].
  unfold unknown_mutation. fold i.
  assert (Hin : i ∉ [CREATE_BRANCH_TOOL_ID; CREATE_PR_TOOL_ID])
    by (rewrite !elem_of_cons, elem_of_nil; intros [?|[?|[]]]; contradiction).
  destruct (str_in i DESTRUCTIVE_TOOL_IDS) eqn:E1.
  { apply str_in_elem in E1. split; [done|]. by rewrite decide_True. }
  apply str_in_false in E1. destruct (str_in i FORBIDDEN_MUTATION_TOOL_IDS) eqn:E2.
  - apply str_in_elem in E2. split; [done|]. by rewrite decide_False, decide_True.
  - apply str_in_false in E2. split; [done|]. by rewrite !decide_False.
Qed.

(** Statuses are classified fail-closed: only 201 may be a success, only the four enumerated
    rejections are clean, and every other status is ambiguous. *)
Theorem classify_status_spec tool c status :
  get_mutation_contract tool = Ok c ->
  classify_status c status
  = if decide (status = 201) then Outcome_COMMITTED
    else if decide (status ∈ [401; 403; 404; 422]) then Outcome_FAILED_CLEAN else Outcome_AMBIGUOUS.
Proof.
  intros Hc. pose proof (get_mutation_contract_spec tool) as H. rewrite Hc in H.
  destruct H as (_ & _ & Hok). unfold classify_status, z_in.
  destruct (co_status c Hok) as [-> ->].
  assert (Hin : forall l, existsb (Z.eqb status) l = bool_decide (status ∈ l)).
  { induction l as [|z l IH]; [done|]. cbn [existsb]. rewrite IH.
    apply eq_bool_prop_intro. rewrite orb_True, !bool_decide_spec, elem_of_cons, Is_true_true, Z.eqb_eq. tauto. }
  rewrite !Hin, (bool_decide_ext (status ∈ [201]) (status = 201))
    by (rewrite elem_of_cons, elem_of_nil; tauto).
  clear. repeat case_bool_decide; repeat case_decide; done.
Qed.

(** ** Normalized arguments *)

Definition branch_ok (b : string) : Prop := validate_branch_name (VStr b) = Ok b.
Definition repository_ok (r : string) : Prop :=
  exists o n, r = o +:+ "/" +:+ n /\ REPO_SEGMENT_RE o = true /\ REPO_SEGMENT_RE n = true.

Lemma validate_branch_name_Ok v b : validate_branch_name v = Ok b <-> v = VStr b /\ branch_ok b.
Proof.
  unfold branch_ok. split; [|by intros [-> ?]]. destruct v; try done. intros H.
  assert (s = b) as ->; [|done]. unfold validate_branch_name in H. by res_inv.
Qed.

Lemma validate_repository_Ok o r s : validate_repository o r = Ok s -> repository_ok s.
Proof.
  destruct o; try done. destruct r; try done. unfold validate_repository.
  destruct (REPO_SEGMENT_RE s0) eqn:E1; [|done]. destruct (REPO_SEGMENT_RE s1) eqn:E2; [|done].
  intros [= <-]. by exists s0, s1.
Qed.

Lemma validate_sha_Ok v s : validate_sha v = Ok s <-> v = VStr s /\ SHA_RE s = true.
Proof.
  unfold validate_sha. destruct v; try (split; [done|by intros [? _]]).
  destruct (SHA_RE s0) eqn:E; split; try done; try (intros [= ->]; done); intros [[= ->] ?]; congruence.
Qed.

Lemma validate_text_Ok v hi rq s :
  validate_text v hi rq = Ok s ->
  0 <= hi -> py_len s <= hi /\ string_existsb text_control s = false
  /\ (rq = true -> py_strip s <> "").
Proof.
  unfold validate_text. destruct v; try done.
  - destruct rq; [done|]. intros [= <-] ?. by split_and!.
  - intros H _. res_inv. repeat match goal with
    | H : reg_deny_if ?b _ = Ok _ |- _ => destruct b eqn:?; [done|]; clear H end.
    bool_prop. split_and!; try done. intros ->. simpl in *. by apply String.eqb_neq.
Qed.

(** The resolved arguments of each mutation. *)
Inductive resolved : string -> list (string * value) -> Prop :=
| resolved_branch base_sha branch repository :
    SHA_RE base_sha = true -> branch_ok branch -> repository_ok repository ->
    resolved CREATE_BRANCH_TOOL_ID
      [("base_sha", VStr base_sha); ("branch", VStr branch); ("ref", VStr ("refs/heads/" +:+ branch));
       ("repository", VStr repository)]
| resolved_pr base body draft expected_head_sha head repository title :
    branch_ok base -> branch_ok head -> head <> base -> SHA_RE expected_head_sha = true ->
    repository_ok repository -> py_len body <= MAX_BODY_LENGTH ->
    py_len title <= MAX_TITLE_LENGTH -> py_strip title <> "" ->
    resolved CREATE_PR_TOOL_ID
      [("base", VStr base); ("body", VStr body); ("draft", VBool draft);
       ("expected_head_sha", VStr expected_head_sha); ("head", VStr head);
       ("repository", VStr repository); ("title", VStr title)].

Lemma normalize_arguments_Ok tool a r :
  normalize_arguments tool a = Ok r -> resolved tool r.
Proof.
  unfold normalize_arguments.
  destruct (String.eqb_spec tool CREATE_BRANCH_TOOL_ID) as [->|_].
  { unfold normalize_create_branch_arguments. intros H. res_inv. constructor.
    - by match goal with H : validate_sha _ = Ok _ |- _ => apply validate_sha_Ok in H as [_ ?] end.
    - by match goal with H : validate_branch_name _ = Ok _ |- _ => apply validate_branch_name_Ok in H as [_ ?] end.
    - by eapply validate_repository_Ok. }
  destruct (String.eqb_spec tool CREATE_PR_TOOL_ID) as [->|_].
  2: { unfold unknown_mutation. by repeat (destruct (str_in _ _)). }
  unfold normalize_create_pr_arguments. intros H. res_inv.
  repeat match goal with
  | H : validate_branch_name _ = Ok _ |- _ => apply validate_branch_name_Ok in H as [_ ?]
  | H : validate_sha _ = Ok _ |- _ => apply validate_sha_Ok in H as [_ ?]
  | H : validate_repository _ _ = Ok _ |- _ => apply validate_repository_Ok in H
  | H : validate_text _ _ _ = Ok _ |- _ => apply validate_text_Ok in H as (? & _ & ?); [|done]
  end.
  constructor; try done; [|by auto].
  intros ->. match goal with H : reg_deny_if (String.eqb ?x ?x) _ = Ok _ |- _ =>
    rewrite String.eqb_refl in H end. done.
Qed.

(** Normalization closes the arguments: whatever the caller sent, what is executed has exactly
    the declared fields, each valid: an ASCII branch name without any special token, a full commit
    id, an owner and a repository, bounded texts, and different head and base. *)
Theorem normalize_arguments_resolved tool a r :
  normalize_arguments tool a = Ok r -> resolved tool r.
Proof. apply normalize_arguments_Ok. Qed.

(** ** Concrete arguments *)

Definition demo_sha1 : string := "0123456789012345678901234567890123456789".
Definition demo_branch_arguments : list (string * value) :=
  [("owner", VStr "o"); ("repo", VStr "r"); ("branch", VStr "feature/x"); ("base_sha", VStr demo_sha1)].

Example builds :
  match build_github_mutation_registry Cap_READY Cap_READY Cap_READY with
  | Ok r => (contains_tool "github.create_branch" r, contains_tool "github.create_pr" r, reg_frozen r)
  | Err _ => (false, false, false)
  end = (true, true, true).
Proof. by vm_compute. Qed.

Lemma normalize_arguments_resolved_witness :
  resolved CREATE_BRANCH_TOOL_ID
    [("base_sha", VStr demo_sha1); ("branch", VStr "feature/x"); ("ref", VStr "refs/heads/feature/x");
     ("repository", VStr "o/r")].
Proof.
  apply (normalize_arguments_resolved CREATE_BRANCH_TOOL_ID demo_branch_arguments).
  vm_compute. reflexivity.
Defined.

Lemma classify_status_spec_witness :
  match get_mutation_contract " GitHub.Create_Branch" with
  | Ok c => classify_status c 500 = Outcome_AMBIGUOUS
  | Err _ => False
  end.
Proof.
  destruct (get_mutation_contract " GitHub.Create_Branch") as [c|e] eqn:Hc; [|vm_compute in Hc; discriminate].
  exact (classify_status_spec " GitHub.Create_Branch" c 500 Hc).
Defined.
