(* ===== verification/PyTime.v ===== *)
(** * Python instants ([datetime]), as far as the records print and subtract them

    An instant is a number of microseconds since 1970-01-01T00:00:00 UTC. *)
From Stdlib Require Import SpecFloat.
From S2P Require Import Prelude.

(** ** The proleptic Gregorian calendar *)

(** Year, month and day of a day number. *)
Definition civil (days : Z) : Z * Z * Z :=
  let z := days + 719468 in
  let era := z / 146097 in
  let doe := z - era * 146097 in
  let yoe := (doe - doe / 1460 + doe / 36524 - doe / 146096) / 365 in
  let doy := doe - (365 * yoe + yoe / 4 - yoe / 100) in
  let mp := (5 * doy + 2) / 153 in
  let m := if mp <? 10 then mp + 3 else mp - 9 in
  (yoe + era * 400 + (if m <=? 2 then 1 else 0), m, doy - (153 * mp + 2) / 5 + 1).

Fixpoint zeros (n : nat) : string := match n with O => "" | S n => String "0" (zeros n) end.

(** A decimal number padded with zeros to [width]. *)
Definition pad (width : nat) (z : Z) : string :=
  let s := pretty z in zeros (width - String.length s) +:+ s.

Definition DAY_US : Z := 86400 * 1000000.

(** [d.astimezone(UTC).isoformat()]; microseconds are printed when they are not zero. *)
Definition isoformat (us : Z) : string :=
  let '(y, m, d) := civil (us / DAY_US) in
  let t := us mod DAY_US in
  let s := t / 1000000 in
  let f := t mod 1000000 in
  pad 4 y +:+ "-" +:+ pad 2 m +:+ "-" +:+ pad 2 d +:+ "T"
  +:+ pad 2 (s / 3600) +:+ ":" +:+ pad 2 (s / 60 mod 60) +:+ ":" +:+ pad 2 (s mod 60)
  +:+ (if f =? 0 then "" else "." +:+ pad 6 f) +:+ "+00:00".

Example isoformat_examples :
  (isoformat 0, isoformat 1577836800000005, isoformat (- 62135596800000000), isoformat 951782399000000)
  = ("1970-01-01T00:00:00+00:00", "2020-01-01T00:00:00.000005+00:00", "0001-01-01T00:00:00+00:00",
     "2000-02-28T23:59:59+00:00").
Proof. by vm_compute. Qed.

(** ** [int(delta.total_seconds() * 1000)], in double precision *)

Definition double_of_Z (z : Z) : spec_float :=
  match z with
  | Z0 => S754_zero false
  | Zpos p => S754_finite false p 0
  | Zneg p => S754_finite true p 0
  end.

(** [delta.total_seconds()]: microseconds divided by a million, rounded once. *)
Definition total_seconds (delta_us : Z) : spec_float :=
  SFdiv 53 1024 (double_of_Z delta_us) (double_of_Z 1000000).

(** [int(f)]: towards zero. *)
Definition int_of_double (f : spec_float) : Z :=
  match f with
  | S754_finite s m e =>
      let a := if 0 <=? e then Z.pos m * 2 ^ e else Z.pos m / 2 ^ (- e) in
      if s then - a else a
  | _ => 0
  end.

Definition duration_ms (delta_us : Z) : Z :=
  int_of_double (SFmul 53 1024 (total_seconds delta_us) (double_of_Z 1000)).

(** The rounding of the two float operations can lose the last millisecond. *)
Example duration_examples :
  (duration_ms 0, duration_ms 1500000, duration_ms 1001000, duration_ms 1999) = (0, 1500, 1000, 1).
Proof. by vm_compute. Qed.
