(* ===== verification/MutationAudit.v ===== *)
(** * Write-ahead audit of mutations ([v2/mutation_audit.py])

    The redaction gate every recorded string passes, the intent and the observation of an
    attempt, the append-only sinks as an interface with two implementations, and the ledger that
    hands out a handle only for a durable record. *)
From S2P Require Import Prelude.
From S2P Require Import PyText.
From S2P Require Import PyValue.
From S2P Require Import Canonical.
From S2P Require Import MutationContract.
From S2P Require Import PyTime.

Definition MUTATION_AUDIT_SCHEMA : string := "v2.phase3.mutation-audit.1".
Definition MUTATION_EVIDENCE_SCHEMA : string := "v2.phase3.mutation-evidence.1".

(** [_audit_error], [_redaction_error] *)
Definition audit_exn (r : MutationReasonCode) : mutation_exn :=
  Denied AuditWriteError r Stage_WRITE_AHEAD_AUDIT "".
Definition audit_error {A} (r : MutationReasonCode) : result mutation_exn A := Err (audit_exn r).
Definition audit_if (b : bool) (r : MutationReasonCode) : result mutation_exn unit :=
  raise_if b (audit_exn r).

(** ** Classes *)

Inductive VerificationState : Type := NOT_ATTEMPTED | VERIFIED | MISMATCH | UNVERIFIABLE.
#[export] Instance VerificationState_eq_dec : EqDecision VerificationState.
Proof. solve_decision. Defined.
Definition verification_value (v : VerificationState) : string :=
  match v with
  | NOT_ATTEMPTED => "NOT_ATTEMPTED" | VERIFIED => "VERIFIED" | MISMATCH => "MISMATCH"
  | UNVERIFIABLE => "UNVERIFIABLE"
  end.
(** [VerificationState.proves_commit] *)
Definition proves_commit (v : VerificationState) : bool := bool_decide (v = VERIFIED).

Inductive EvidenceClass : Type := SUCCESS | FAILED | BLOCKED | INDETERMINATE.
#[export] Instance EvidenceClass_eq_dec : EqDecision EvidenceClass.
Proof. solve_decision. Defined.
Definition evidence_value (e : EvidenceClass) : string :=
  match e with
  | SUCCESS => "SUCCESS" | FAILED => "FAILED" | BLOCKED => "BLOCKED"
  | INDETERMINATE => "INDETERMINATE"
  end.

(** [evidence_class_for] *)
Definition evidence_class_for (o : MutationOutcome) : result mutation_exn EvidenceClass :=
  match o with
  | Outcome_COMMITTED => Ok SUCCESS
  | Outcome_FAILED_CLEAN => Ok FAILED
  | Outcome_DENIED => Ok BLOCKED
  | Outcome_AMBIGUOUS => Ok INDETERMINATE
  | Outcome_PENDING => audit_error AUDIT_RECORD_UNWRITABLE
  end.

(** ** The redaction gate *)

Definition SECRET_MARKERS : list string :=
  ["ghp_"; "gho_"; "ghu_"; "ghs_"; "ghr_"; "github_pat_"; "-----begin"; "authorization:"; "bearer ";
   "basic "; "private_key"; "client_secret"; "installation_id"; "access_token"; "refresh_token";
   "password"; "x-hub-signature"].

Definition opaque_char (c : ascii) : bool := is_alnum c || one_of "+/_=-" c.

(** [_LONG_OPAQUE_RE.search(s)]: a run of at least 80 such characters; [run] counts the current
    one. *)
Fixpoint long_run (run : Z) (s : string) : bool :=
  (80 <=? run) ||
  match s with
  | EmptyString => false
  | String c s' => long_run (if opaque_char c then run + 1 else 0) s'
  end.

(** [looks_secret_bearing] on a string *)
Definition looks_secret_bearing (s : string) : bool :=
  existsb (fun marker => contains marker (lower s)) SECRET_MARKERS || long_run 0 s.

Definition MAX_STRING_LENGTH : Z := 256.

Definition forbidden_char (c : ascii) : bool := (code c =? 10) || (code c =? 13) || (code c =? 0).

(** [_require_safe_text] *)
Definition require_safe_text (max_length : Z) (s : string) : result mutation_exn string :=
  do! audit_if (String.eqb s "") REDACTION_UNPROVEN in
  do! audit_if (max_length <? py_len s) REDACTION_UNPROVEN in
  do! audit_if (string_existsb forbidden_char s) REDACTION_UNPROVEN in
  do! audit_if (looks_secret_bearing s) REDACTION_UNPROVEN in
  Ok s.

(** The patterns; a newline has been refused before they are tried, so [$] is the end. *)
Definition SHA1_RE (s : string) : bool := all_chars is_hex s && (byte_len s =? 40).
Definition SHA256_RE (s : string) : bool := all_chars is_hex s && (byte_len s =? 64).
Definition audit_repo_char (c : ascii) : bool := is_alnum c || one_of "_.-" c.
Definition audit_repo_part (s : string) : bool :=
  all_chars audit_repo_char s && (1 <=? byte_len s) && (byte_len s <=? 100).
Definition AUDIT_REPOSITORY_RE (s : string) : bool :=
  match split_on "/" s with [o; r] => audit_repo_part o && audit_repo_part r | _ => false end.
Definition AUDIT_OPERATION_RE (s : string) : bool :=
  let segments := split_any (one_of "._") s in
  (2 <=? Z.of_nat (length segments))
  && forallb (fun w => negb (String.eqb w "") && all_chars (fun c => is_lower c || is_num c) w) segments.
Definition opaque_id_char (c : ascii) : bool := is_alnum c || one_of "._:-" c.
Definition OPAQUE_ID_RE (s : string) : bool := first_rest is_alnum opaque_id_char 127 s.

(** [_require_pattern], [_require_optional_pattern] *)
Definition require_pattern (pattern : string -> bool) (s : string) : result mutation_exn string :=
  let! text := require_safe_text MAX_STRING_LENGTH s in
  do! audit_if (negb (pattern text)) AUDIT_RECORD_UNWRITABLE in
  Ok text.
Definition require_optional_pattern (pattern : string -> bool) (s : option string) :
  result mutation_exn (option string) :=
  match s with None => Ok None | Some s => let! t := require_pattern pattern s in Ok (Some t) end.

Definition PRECONDITION_KEYS : list string := ["base_sha"; "expected_head_sha"; "merge_base_sha"].

(** [_require_preconditions] *)
Definition require_preconditions (observed : option (list (string * string))) :
  result mutation_exn (list (string * string)) :=
  match observed with
  | None => Ok []
  | Some o =>
      let! items := rmap (fun '(key, v) =>
                      do! audit_if (negb (str_in key PRECONDITION_KEYS)) REDACTION_UNPROVEN in
                      let! s := require_pattern SHA1_RE v in Ok (key, s)) o in
      Ok (sort_items items)
  end.

(** [_require_artifact_refs] *)
Definition require_artifact_refs (refs : option (list (string * string))) :
  result mutation_exn (list (string * string)) :=
  match refs with
  | None => Ok []
  | Some o =>
      let! items := rmap (fun '(key, v) =>
                      let! k := require_pattern OPAQUE_ID_RE key in
                      let! text := require_safe_text MAX_STRING_LENGTH v in
                      do! audit_if (contains "://" text || String.prefix "/" text || String.prefix "~" text)
                            REDACTION_UNPROVEN in
                      do! audit_if (negb (OPAQUE_ID_RE text)) REDACTION_UNPROVEN in
                      Ok (k, text)) o in
      Ok (sort_items items)
  end.

(** ** Intents *)

Record CapabilitySnapshot := mkSnapshot {
  sn_capability : WriteCapabilityId;
  sn_state : CapabilityState;
  sn_hash : string;
  sn_policy_version : string
}.

(** [CapabilitySnapshot(...)], [is_ready], [as_canonical] *)
Definition capability_snapshot (c : CapabilitySnapshot) : result mutation_exn CapabilitySnapshot :=
  do! require_pattern SHA256_RE (sn_hash c) in
  do! require_pattern OPAQUE_ID_RE (sn_policy_version c) in
  Ok c.
Definition snapshot_ready (c : CapabilitySnapshot) : bool := capability_is_ready (sn_state c).
Definition snapshot_canonical (c : CapabilitySnapshot) : list (string * value) :=
  [("capability_id", VStr (capability_value (sn_capability c)));
   ("state", VStr (capability_state_value (sn_state c)));
   ("snapshot_hash", VStr (sn_hash c)); ("policy_version", VStr (sn_policy_version c))].

Record ApprovalReference := mkApprovalRef {
  ar_id : string;
  ar_state : ApprovalState;
  ar_digest : string
}.

(** [ApprovalReference(...)], [as_canonical] *)
Definition approval_reference (a : ApprovalReference) : result mutation_exn ApprovalReference :=
  do! require_pattern OPAQUE_ID_RE (ar_id a) in
  do! require_pattern SHA256_RE (ar_digest a) in
  Ok a.
Definition approval_ref_canonical (a : ApprovalReference) : list (string * value) :=
  [("approval_id", VStr (ar_id a)); ("state", VStr (approval_state_value (ar_state a)));
   ("bound_digest", VStr (ar_digest a))].

Record MutationIntent := mkIntent {
  mi_principal : string;
  mi_operation : string;
  mi_repository : string;
  mi_digest : string;
  mi_decision : PolicyDecision;
  mi_capability : CapabilitySnapshot;
  mi_key : string;
  mi_status : IdempotencyStatus;
  mi_approval : option ApprovalReference;
  mi_preconditions : option (list (string * string));
  mi_registry_hash : option string
}.

(** [MutationIntent.__post_init__] *)
Definition mutation_intent (i : MutationIntent) : result mutation_exn MutationIntent :=
  do! require_pattern OPAQUE_ID_RE (mi_principal i) in
  do! require_pattern AUDIT_OPERATION_RE (mi_operation i) in
  do! require_pattern AUDIT_REPOSITORY_RE (mi_repository i) in
  do! require_pattern SHA256_RE (mi_digest i) in
  do! require_pattern SHA256_RE (mi_key i) in
  do! require_optional_pattern SHA256_RE (mi_registry_hash i) in
  do! require_preconditions (mi_preconditions i) in
  Ok i.

(** [MutationIntent.approval_required] *)
Definition intent_approval_required (i : MutationIntent) : bool :=
  bool_decide (mi_decision i = Policy_APPROVAL_REQUIRED).

(** [MutationIntent.as_canonical] *)
Definition intent_canonical (i : MutationIntent) : result mutation_exn (list (string * value)) :=
  let! observed := require_preconditions (mi_preconditions i) in
  Ok ([("schema", VStr MUTATION_AUDIT_SCHEMA); ("principal", VStr (mi_principal i));
       ("operation", VStr (mi_operation i)); ("repository", VStr (mi_repository i));
       ("operation_digest", VStr (mi_digest i));
       ("policy_decision", VStr (policy_value (mi_decision i)));
       ("capability", VDict (snapshot_canonical (mi_capability i)));
       ("idempotency_key", VStr (mi_key i));
       ("idempotency_status", VStr (status_value (mi_status i)));
       ("preconditions_observed",
         VList (map (fun '(k, v) => VDict [("key", VStr k); ("sha", VStr v)]) observed))]
      ++ match mi_approval i with
         | Some a => [("approval", VDict (approval_ref_canonical a))] | None => [] end
      ++ match mi_registry_hash i with
         | Some h => [("registry_snapshot_hash", VStr h)] | None => [] end).

(** ** Observations *)

Record ProviderObservation := mkObservation {
  po_outcome : MutationOutcome;
  po_verification : VerificationState;
  po_attempts : Z;
  po_started_at : datetime;
  po_finished_at : datetime;
  po_status_class : option string;
  po_reason : option MutationReasonCode;
  po_result_digest : option string;
  po_artifact_refs : option (list (string * string))
}.

(** [re.fullmatch("[1-5]xx", s)] *)
Definition STATUS_CLASS_RE (s : string) : bool :=
  match s with
  | String c rest => between 49 53 c && String.eqb rest "xx"
  | EmptyString => false
  end.

(** [ProviderObservation.__post_init__] *)
Definition provider_observation (o : ProviderObservation) : result mutation_exn ProviderObservation :=
  do! audit_if (bool_decide (po_outcome o = Outcome_PENDING)) AUDIT_RECORD_UNWRITABLE in
  do! audit_if (po_attempts o <? 0) AUDIT_RECORD_UNWRITABLE in
  do! audit_if (negb (dt_aware (po_started_at o)) || negb (dt_aware (po_finished_at o)))
        AUDIT_RECORD_UNWRITABLE in
  do! audit_if (dt_utc (po_finished_at o) <? dt_utc (po_started_at o)) AUDIT_RECORD_UNWRITABLE in
  do! match po_status_class o with
      | Some s =>
          let! status := require_safe_text 8 s in
          audit_if (negb (STATUS_CLASS_RE status)) AUDIT_RECORD_UNWRITABLE
      | None => Ok tt
      end in
  do! require_optional_pattern SHA256_RE (po_result_digest o) in
  do! require_artifact_refs (po_artifact_refs o) in
  do! audit_if (bool_decide (po_outcome o = Outcome_COMMITTED) && negb (proves_commit (po_verification o)))
        RECONCILIATION_REQUIRED in
  do! audit_if (bool_decide (po_outcome o = Outcome_DENIED) && negb (po_attempts o =? 0))
        AUDIT_RECORD_UNWRITABLE in
  Ok o.

(** [ProviderObservation.as_canonical] *)
Definition observation_canonical (o : ProviderObservation) : result mutation_exn (list (string * value)) :=
  let! class := evidence_class_for (po_outcome o) in
  let! refs := require_artifact_refs (po_artifact_refs o) in
  Ok ([("outcome", VStr (outcome_value (po_outcome o)));
       ("evidence_class", VStr (evidence_value class));
       ("verification", VStr (verification_value (po_verification o)));
       ("attempts", VInt (po_attempts o));
       ("started_at", VStr (isoformat (dt_utc (po_started_at o))));
       ("finished_at", VStr (isoformat (dt_utc (po_finished_at o))));
       ("duration_ms", VInt (duration_ms (dt_utc (po_finished_at o) - dt_utc (po_started_at o))))]
      ++ match po_status_class o with Some s => [("status_class", VStr s)] | None => [] end
      ++ match po_reason o with Some r => [("reason", VStr (mutation_reason_value r))] | None => [] end
      ++ match po_result_digest o with Some d => [("result_digest", VStr d)] | None => [] end
      ++ match refs with
         | [] => []
         | _ => [("artifact_refs",
                   VList (map (fun '(k, v) => VDict [("key", VStr k); ("ref", VStr v)]) refs))]
         end).

(** ** Sinks ([AuditSink]) *)

(** What an append may raise: an [AuditWriteError], or any other exception. *)
Inductive sink_exn : Type := SinkAudit (r : MutationReasonCode) | SinkOther (e : py_error) | SinkOS.

Abbreviation payload := (list (string * value)).

Class AuditSink (S : Type) := {
  sink_append : string -> payload -> st S sink_exn unit;
  sink_exists : string -> S -> result sink_exn bool;
  sink_read : string -> S -> result sink_exn (option payload);
  sink_durable : bool
}.

(** The contract of a sink: an append that returns made the record readable, under its
    identifier and with the same content up to the order of keys; a record once there stays and
    is never written over; and an identifier that exists reads back. *)
Class AuditSinkLaws (S : Type) `{AuditSink S} := {
  append_durable : forall i p s s', sink_append i p s = (Ok tt, s') ->
    sink_exists i s' = Ok true
    /\ exists q, sink_read i s' = Ok (Some q) /\ normal (VDict q) = normal (VDict p);
  append_keeps : forall i p s r s' j q, sink_append i p s = (r, s') ->
    sink_read j s = Ok (Some q) -> sink_read j s' = Ok (Some q);
  append_once : forall i p s q, sink_read i s = Ok (Some q) ->
    exists e, sink_append i p s = (Err e, s)
}.

(** *** In memory *)

Record InMemoryAuditSink := mkMemorySink { sink_records : gmap string payload }.

#[export] Instance memory_sink : AuditSink InMemoryAuditSink := {
  sink_append := fun i p s =>
    match sink_records s !! i with
    | Some _ => (Err (SinkAudit AUDIT_RECORD_UNWRITABLE), s)
    | None => (Ok tt, mkMemorySink (<[i := p]> (sink_records s)))
    end;
  sink_exists := fun i s => Ok (bool_decide (is_Some (sink_records s !! i)));
  sink_read := fun i s => Ok (sink_records s !! i);
  sink_durable := false
}.

#[export] Instance memory_sink_laws : AuditSinkLaws InMemoryAuditSink.
Proof.
  split; unfold sink_append, sink_read, sink_exists, memory_sink; intros i p s.
  - intros s'. destruct (sink_records s !! i) eqn:Hi; intros [= <-]. cbn.
    rewrite lookup_insert, decide_True by done. split; [by rewrite bool_decide_true|]. by exists p.
  - intros r s' j q. destruct (sink_records s !! i) eqn:Hi; intros [= <- <-]; [done|].
    intros [= Hj]. cbn. f_equal. rewrite lookup_insert. case_decide; [congruence|done].
  - intros q [= Hq]. rewrite Hq. by eexists.
Qed.

(** *** Files *)

(** What goes wrong in one append: nothing; creating the temporary file; writing, syncing or
    renaming it; or syncing the directory once the record is in place. *)
Inductive file_fault : Type := NoFault | FailCreate | FailWrite | FailDirectorySync.

(** The directory, as the text of each file, and the faults of the next appends. *)
Record FileAuditSink := mkFileSink { sink_files : gmap string string; sink_faults : list file_fault }.

(** [_path_for] *)
Definition path_for (i : string) : result mutation_exn string :=
  let! safe := require_pattern OPAQUE_ID_RE i in
  do! audit_if (contains "/" safe || String.prefix "." safe) AUDIT_RECORD_UNWRITABLE in
  Ok (safe +:+ ".json").

Definition sink_of_mutation (e : mutation_exn) : sink_exn :=
  match e with Denied _ r _ _ | Indeterminate r _ => SinkAudit r | PyRaised e => SinkOther e end.

(** [FileAuditSink.append] *)
Definition file_append (i : string) (p : payload) (s : FileAuditSink) :
  result sink_exn unit * FileAuditSink :=
  match path_for i with
  | Err e => (Err (sink_of_mutation e), s)
  | Ok target =>
      match sink_files s !! target with
      | Some _ => (Err (SinkAudit AUDIT_RECORD_UNWRITABLE), s)
      | None =>
          match canonical_json_bytes (VDict p) with
          | Err e => (Err (SinkOther e), s)
          | Ok data =>
              let rest := tail (sink_faults s) in
              match default NoFault (head (sink_faults s)) with
              | NoFault => (Ok tt, mkFileSink (<[target := data]> (sink_files s)) rest)
              | FailCreate => (Err SinkOS, mkFileSink (sink_files s) rest)
              | FailWrite => (Err (SinkAudit AUDIT_RECORD_UNWRITABLE), mkFileSink (sink_files s) rest)
              | FailDirectorySync =>
                  (Err (SinkAudit AUDIT_RECORD_UNWRITABLE),
                   mkFileSink (<[target := data]> (sink_files s)) rest)
              end
          end
      end
  end.

(** [FileAuditSink.exists] and [read] *)
Definition file_exists (i : string) (s : FileAuditSink) : bool :=
  match path_for i with Ok target => bool_decide (is_Some (sink_files s !! target)) | Err _ => false end.
Definition file_read (i : string) (s : FileAuditSink) : result sink_exn (option payload) :=
  match path_for i with
  | Err _ => Err (SinkAudit AUDIT_RECORD_UNWRITABLE)
  | Ok target =>
      match sink_files s !! target with
      | None => Ok None
      | Some text =>
          match json_loads text with
          | Some (VDict d) => Ok (Some d)
          | Some _ => Err (SinkOther AttributeError)
          | None => Err (SinkAudit AUDIT_RECORD_UNWRITABLE)
          end
      end
  end.

#[export] Instance file_sink : AuditSink FileAuditSink := {
  sink_append := file_append;
  sink_exists := fun i s => Ok (file_exists i s);
  sink_read := file_read;
  sink_durable := true
}.

#[export] Instance file_sink_laws : AuditSinkLaws FileAuditSink.
Proof.
  split; unfold sink_append, sink_read, sink_exists, file_sink, file_append, file_read, file_exists;
    intros i p s.
  - intros s'. destruct (path_for i) as [t|]; [|done]. destruct (sink_files s !! t) eqn:Ht; [done|].
    destruct (canonical_json_bytes (VDict p)) as [data|] eqn:Hd; [|done].
    destruct (default NoFault _); intros [= <-]. cbn. rewrite lookup_insert, decide_True by done.
    split; [by rewrite bool_decide_true|].
    rewrite (canonical_round_trip _ _ Hd).
    assert (exists d, normal (VDict p) = VDict d) as [d E] by (rewrite normal_dict; eauto).
    pose proof (normal_idem (VDict p)) as E'. rewrite E in E'. rewrite E. exists d. split; [reflexivity|].
    change (normal (VDict d) = normal (VDict p)). congruence.
  - intros r s' j q H Hj. destruct (path_for j) as [t'|]; [|done].
    assert (Hk : forall text, sink_files s !! t' = Some text -> sink_files s' !! t' = Some text).
    { intros text Ht'. destruct (path_for i) as [t|]; [|by injection H as <- <-].
      destruct (sink_files s !! t) eqn:Ht; [by injection H as <- <-|].
      destruct (canonical_json_bytes (VDict p)) as [data|]; [|by injection H as <- <-].
      destruct (default NoFault _); injection H as <- <-; try done; cbn;
        rewrite lookup_insert; case_decide; congruence. }
    destruct (sink_files s !! t') as [text|]; [|done]. by rewrite (Hk text eq_refl).
  - intros q H. destruct (path_for i) as [t|]; [|done].
    destruct (sink_files s !! t); [|done]. by eexists.
Qed.

(** ** The ledger ([MutationAuditLedger]) *)

Record AuditHandle := mkHandle {
  ah_id : string;
  ah_digest : string;
  ah_intent : MutationIntent;
  ah_recorded_at : datetime;
  ah_token : Z
}.

#[export] Instance datetime_eq_dec : EqDecision datetime.
Proof. solve_decision. Defined.
#[export] Instance CapabilitySnapshot_eq_dec : EqDecision CapabilitySnapshot.
Proof. solve_decision. Defined.
#[export] Instance ApprovalReference_eq_dec : EqDecision ApprovalReference.
Proof. solve_decision. Defined.
#[export] Instance MutationIntent_eq_dec : EqDecision MutationIntent.
Proof. solve_decision. Defined.
#[export] Instance AuditHandle_eq_dec : EqDecision AuditHandle.
Proof. solve_decision. Defined.

(** The ledger's private token, its sink, its open attempts, and the handles whose
    [_finalized] flag is set. *)
Record Ledger (S : Type) := mkLedger {
  l_token : Z;
  l_sink : S;
  l_open : gmap string AuditHandle;
  l_finalized : gset string
}.
Arguments mkLedger {S} _ _ _ _.
Arguments l_token {S} _.
Arguments l_sink {S} _.
Arguments l_open {S} _.
Arguments l_finalized {S} _.

Record MutationEvidence := mkEvidence {
  me_audit_id : string;
  me_intent_digest : string;
  me_class : EvidenceClass;
  me_outcome : MutationOutcome;
  me_verification : VerificationState;
  me_attempts : Z;
  me_recorded_at : datetime;
  me_finalized_at : datetime;
  me_body : payload;
  me_evidence_digest : string
}.

Section Ledger.
Context {S : Type} `{AuditSink S}.
Variable sha256_hex : string -> string.

(** [__init__] *)
Definition ledger_init (token : Z) (s : S) (allow_non_durable : bool) : result mutation_exn (Ledger S) :=
  if negb sink_durable && negb allow_non_durable then audit_error AUDIT_RECORD_UNWRITABLE
  else Ok (mkLedger token s ∅ ∅).

(** [AuditHandle.finalized], [provider_call_permitted] *)
Definition handle_finalized (h : AuditHandle) (l : Ledger S) : bool :=
  bool_decide (ah_id h ∈ l_finalized l).
Definition provider_call_permitted (h : AuditHandle) (l : Ledger S) : bool :=
  negb (handle_finalized h l).

(** The checks [begin] makes on the intent before anything is written. *)
Definition admissible_intent (i : MutationIntent) : result mutation_exn unit :=
  do! (if intent_approval_required i then
         match mi_approval i with
         | None => audit_error APPROVAL_MISSING
         | Some a =>
             do! audit_if (negb (is_usable (ar_state a))) APPROVAL_MISSING in
             audit_if (negb (String.eqb (ar_digest a) (mi_digest i))) APPROVAL_DIGEST_MISMATCH
         end
       else Ok tt) in
  do! audit_if (bool_decide (mi_decision i = Policy_DENY)) AUDIT_RECORD_UNWRITABLE in
  do! audit_if (negb (snapshot_ready (mi_capability i))) WRITE_CAPABILITY_NOT_READY in
  audit_if (negb (status_executes (mi_status i))) IDEMPOTENT_REPLAY.

(** The write-ahead record: its body, and the digest that seals it. *)
Definition write_ahead_body (i : MutationIntent) (audit_id : string) (recorded_at : datetime) :
  result mutation_exn payload :=
  let! body := intent_canonical i in
  Ok (body ++ [("audit_id", VStr audit_id); ("recorded_at", VStr (isoformat (dt_utc recorded_at)));
               ("stage", VStr (stage_value Stage_WRITE_AHEAD_AUDIT));
               ("outcome", VStr (outcome_value Outcome_PENDING))]).

(** [begin]; the new audit id and the clock's answer are inputs. *)
Definition ledger_begin (i : MutationIntent) (audit_id : string) (recorded_at : datetime) :
  st (Ledger S) mutation_exn AuditHandle := fun l =>
  match (do! admissible_intent i in
         do! audit_if (negb (dt_aware recorded_at)) AUDIT_RECORD_UNWRITABLE in
         let! body := write_ahead_body i audit_id recorded_at in
         let! digest := raise_py (canonical_hash sha256_hex (VDict body)) in
         Ok (body, digest)) with
  | Err e => (Err e, l)
  | Ok (body, digest) =>
      match sink_append audit_id (body ++ [("record_digest", VStr digest)]) (l_sink l) with
      | (Err (SinkAudit r), s) => (audit_error r, mkLedger (l_token l) s (l_open l) (l_finalized l))
      | (Err _, s) =>
          (audit_error AUDIT_RECORD_UNWRITABLE, mkLedger (l_token l) s (l_open l) (l_finalized l))
      | (Ok _, s) =>
          match sink_exists audit_id s with
          | Ok true =>
              let h := mkHandle audit_id digest i recorded_at (l_token l) in
              (Ok h, mkLedger (l_token l) s (<[audit_id := h]> (l_open l)) (l_finalized l))
          | _ =>
              (audit_error AUDIT_RECORD_UNWRITABLE, mkLedger (l_token l) s (l_open l) (l_finalized l))
          end
      end
  end.

(** [finalize]; the clock's answer is an input. *)
Definition ledger_finalize (h : AuditHandle) (o : ProviderObservation) (finalized_at : datetime) :
  st (Ledger S) mutation_exn MutationEvidence := fun l =>
  match (do! audit_if (negb (ah_token h =? l_token l)) AUDIT_RECORD_UNWRITABLE in
         do! audit_if (handle_finalized h l || negb (bool_decide (l_open l !! ah_id h = Some h)))
               AUDIT_RECORD_UNWRITABLE in
         do! audit_if (dt_utc (po_started_at o) <? dt_utc (ah_recorded_at h)) AUDIT_RECORD_UNWRITABLE in
         do! match sink_read (ah_id h) (l_sink l) with
             | Err (SinkAudit r) => audit_error r
             | Err _ => audit_error AUDIT_RECORD_UNWRITABLE
             | Ok None | Ok (Some []) => audit_error AUDIT_RECORD_UNWRITABLE
             | Ok (Some stored) =>
                 audit_if (negb (bool_decide (dget "record_digest" stored = Some (VStr (ah_digest h)))))
                   AUDIT_RECORD_UNWRITABLE
             end in
         let! intent := intent_canonical (ah_intent h) in
         let! observation := observation_canonical o in
         let body :=
           [("schema", VStr MUTATION_EVIDENCE_SCHEMA); ("audit_id", VStr (ah_id h));
            ("intent_digest", VStr (ah_digest h)); ("intent", VDict intent);
            ("observation", VDict observation);
            ("recorded_at", VStr (isoformat (dt_utc (ah_recorded_at h))));
            ("finalized_at", VStr (isoformat (dt_utc finalized_at)))] in
         let! digest := raise_py (canonical_hash sha256_hex (VDict body)) in
         let! class := evidence_class_for (po_outcome o) in
         Ok (mkEvidence (ah_id h) (ah_digest h) class (po_outcome o) (po_verification o)
               (po_attempts o) (ah_recorded_at h) finalized_at
               (body ++ [("evidence_digest", VStr digest)]) digest)) with
  | Err e => (Err e, l)
  | Ok e =>
      (Ok e, mkLedger (l_token l) (l_sink l) (delete (ah_id h) (l_open l))
               ({[ah_id h]} ∪ l_finalized l))
  end.

(** [has_write_ahead_record] *)
Definition has_write_ahead_record (audit_id : string) (l : Ledger S) : bool :=
  match sink_exists audit_id (l_sink l) with Ok b => b | Err _ => false end.
End Ledger.

(** [audit_metric_labels]: the four label names, of finite domains. *)
Definition audit_metric_labels (operation : string) (class : EvidenceClass) (stage : MutationStage)
  (reason : option MutationReasonCode) : result mutation_exn (list (string * string)) :=
  let! op := require_pattern AUDIT_OPERATION_RE operation in
  Ok [("operation", op); ("outcome", evidence_value class); ("stage", stage_value stage);
      ("reason", match reason with Some r => mutation_reason_value r | None => "NONE" end)].

(** ** What the ledger promises, for any sink that keeps its contract *)

Section Promises.
Context {S : Type} `{AuditSinkLaws S}.
Variable sha256_hex : string -> string.
Notation begin := (ledger_begin sha256_hex).
Notation finalize := (ledger_finalize sha256_hex).

(** What [begin] accepts. *)
Definition admissible (i : MutationIntent) : Prop :=
  (mi_decision i = Policy_APPROVAL_REQUIRED ->
     exists a, mi_approval i = Some a /\ ar_state a = AS_PENDING /\ ar_digest a = mi_digest i)
  /\ mi_decision i <> Policy_DENY /\ sn_state (mi_capability i) = Cap_READY
  /\ mi_status i = Status_NEW.

Lemma audit_if_Ok b r u : audit_if b r = Ok u <-> b = false.
Proof. apply raise_if_Ok. Qed.

Lemma admissible_intent_Ok i u : admissible_intent i = Ok u <-> admissible i.
Proof.
  destruct u. unfold admissible_intent, admissible, intent_approval_required, snapshot_ready,
    capability_is_ready, status_executes, is_usable. split.
  - intros Hi. res_inv. repeat match goal with H : audit_if _ _ = Ok _ |- _ => apply audit_if_Ok in H end.
    bool_prop. split_and!; try done. intros Ha.
    match goal with H : (if _ then _ else _) = Ok _ |- _ => rewrite (bool_decide_true _ Ha) in H end.
    destruct (mi_approval i) as [a|]; [|done]. res_inv.
    repeat match goal with H : audit_if _ _ = Ok _ |- _ => apply audit_if_Ok in H end. bool_prop.
    by exists a.
  - intros (H1 & H2 & -> & ->). rewrite (bool_decide_false _ H2).
    destruct (bool_decide_reflect (mi_decision i = Policy_APPROVAL_REQUIRED)) as [Ha|]; [|done].
    destruct (H1 Ha) as (a & -> & -> & ->). by rewrite String.eqb_refl.
Qed.

(** The two ways [begin] ends: the ledger is as before, with whatever happened in the sink, or
    the record is in the sink and the handle is open. *)
Lemma ledger_begin_cases i audit_id t l :
  (exists e s, begin i audit_id t l = (Err e, mkLedger (l_token l) s (l_open l) (l_finalized l))
     /\ (s = l_sink l \/ exists r p, sink_append audit_id p (l_sink l) = (r, s)))
  \/ exists body digest s, let h := mkHandle audit_id digest i t (l_token l) in
     begin i audit_id t l
       = (Ok h, mkLedger (l_token l) s (<[audit_id := h]> (l_open l)) (l_finalized l))
     /\ admissible i /\ dt_aware t = true /\ write_ahead_body i audit_id t = Ok body
     /\ canonical_hash sha256_hex (VDict body) = Ok digest
     /\ sink_append audit_id (body ++ [("record_digest", VStr digest)]) (l_sink l) = (Ok tt, s).
Proof.
  unfold ledger_begin.
  destruct (do! admissible_intent i in _) as [[body digest]|e] eqn:Hpre.
  2: { left. exists e, (l_sink l). destruct l. split; [done|by left]. }
  destruct (sink_append audit_id _ (l_sink l)) as [[[]|e] s] eqn:Happ.
  2: { left. destruct e; do 2 eexists; (split; [done|right; by do 2 eexists]). }
  destruct (sink_exists audit_id s) as [[]|] eqn:Hex;
    [right|left; do 2 eexists; (split; [done|right; by do 2 eexists])..].
  exists body, digest, s. split; [done|]. res_inv.
  match goal with H : admissible_intent i = _ |- _ => apply admissible_intent_Ok in H end.
  match goal with H : audit_if _ _ = _ |- _ => apply audit_if_Ok, negb_false_iff in H end.
  match goal with H : raise_py _ = _ |- _ => apply raise_py_Ok in H end.
  by split_and!.
Qed.

(** A handle means a durable record: when [begin] returns, the intent was admissible, and what
    the sink now reads back under the handle's identifier is the write-ahead record of this very
    intent, sealed by the handle's digest, with outcome PENDING; the provider may be called. *)
Theorem handle_means_record i audit_id t l h l' :
  begin i audit_id t l = (Ok h, l') -> audit_id ∉ l_finalized l ->
  admissible i /\ ah_intent h = i /\ ah_id h = audit_id /\ provider_call_permitted h l' = true
  /\ exists body q, write_ahead_body i audit_id t = Ok body
     /\ canonical_hash sha256_hex (VDict body) = Ok (ah_digest h)
     /\ sink_read audit_id (l_sink l') = Ok (Some q)
     /\ normal (VDict q) = normal (VDict (body ++ [("record_digest", VStr (ah_digest h))])).
Proof.
  intros Hb Hfin. destruct (ledger_begin_cases i audit_id t l) as [(e & s & He & _)|(body & dg & s & He & Hadm & _ & Hbody & Hdg & Happ)];
    rewrite He in Hb; [done|]. injection Hb as <- <-. cbn [ah_intent ah_id ah_digest l_sink].
  split_and!; try done.
  - unfold provider_call_permitted, handle_finalized. cbn. by rewrite bool_decide_false.
  - destruct (append_durable _ _ _ _ Happ) as (_ & q & Hq & Hn). by exists body, q.
Qed.

(** *** Sequences of calls; other writers may append to the same sink *)

Inductive ledger_call : Type :=
| CallBeginAudit (i : MutationIntent) (audit_id : string) (t : datetime)
| CallFinalize (h : AuditHandle) (o : ProviderObservation) (t : datetime)
| ForeignAppend (audit_id : string) (p : payload).

Definition run_ledger (l : Ledger S) (c : ledger_call) : Ledger S :=
  match c with
  | CallBeginAudit i audit_id t => snd (begin i audit_id t l)
  | CallFinalize h o t => snd (finalize h o t l)
  | ForeignAppend audit_id p =>
      mkLedger (l_token l) (snd (sink_append audit_id p (l_sink l))) (l_open l) (l_finalized l)
  end.

Definition run_ledgers : Ledger S -> list ledger_call -> Ledger S := foldl run_ledger.

(** Every handle the ledger ever issued, open or finalized, has its record in the sink; no
    identifier is both open and finalized. *)
Record ledger_inv (l : Ledger S) : Prop := {
  li_open : forall k h, l_open l !! k = Some h -> ah_id h = k /\ ah_token h = l_token l
    /\ admissible (ah_intent h)
    /\ exists q, sink_read k (l_sink l) = Ok (Some q) /\ dget "record_digest" q = Some (VStr (ah_digest h));
  li_finalized : forall k, k ∈ l_finalized l -> l_open l !! k = None
    /\ exists q, sink_read k (l_sink l) = Ok (Some q)
}.

Lemma finalize_cases h o t l :
  (exists e, finalize h o t l = (Err e, l))
  \/ exists e, finalize h o t l = (Ok e, mkLedger (l_token l) (l_sink l) (delete (ah_id h) (l_open l))
                                        ({[ah_id h]} ∪ l_finalized l))
     /\ ah_token h = l_token l /\ ah_id h ∉ l_finalized l /\ l_open l !! ah_id h = Some h
     /\ dt_utc (ah_recorded_at h) <= dt_utc (po_started_at o)
     /\ (exists q, sink_read (ah_id h) (l_sink l) = Ok (Some q)
           /\ dget "record_digest" q = Some (VStr (ah_digest h)))
     /\ me_audit_id e = ah_id h /\ me_outcome e = po_outcome o /\ me_verification e = po_verification o
     /\ me_attempts e = po_attempts o /\ evidence_class_for (po_outcome o) = Ok (me_class e).
Proof.
  unfold ledger_finalize. destruct (do! audit_if (negb (ah_token h =? l_token l)) _ in _) as [e|e] eqn:He;
    [right|left; by eexists].
  exists e. split; [done|]. res_inv.
  repeat match goal with H : audit_if _ _ = Ok _ |- _ => apply audit_if_Ok in H end. bool_prop.
  unfold handle_finalized in *. bool_prop. cbn [me_audit_id me_outcome me_verification me_attempts me_class].
  split_and!; try done.
  destruct (sink_read (ah_id h) (l_sink l)) as [[[|kv q]|]|[]] eqn:Hr; try done.
  exists (kv :: q). split; [done|].
  match goal with H : audit_if _ _ = Ok _ |- _ => apply audit_if_Ok in H end. by bool_prop.
Qed.

Lemma normal_NoDup p q : normal (VDict p) = normal (VDict q) -> NoDup (dkeys p) -> NoDup (dkeys q).
Proof.
  rewrite !normal_dict. intros [= Hs] Hp.
  assert (Hk : forall d : payload, dkeys (map (fun '(k, x) => (k, normal x)) (sort_items d)) ≡ₚ dkeys d).
  { intros d. unfold dkeys. rewrite map_map, (map_ext _ fst) by (by intros []).
    unfold sort_items. by rewrite sort_by_perm. }
  rewrite <- (Hk q), <- Hs, (Hk p). exact Hp.
Qed.

Lemma record_digest_of body digest q :
  "record_digest" ∉ dkeys body -> NoDup (dkeys body) ->
  normal (VDict q) = normal (VDict (body ++ [("record_digest", VStr digest)])) ->
  dget "record_digest" q = Some (VStr digest).
Proof.
  intros Hn Hb Hq. rewrite <- (dkeys_dset_new "record_digest" (VStr digest) body Hn) in Hq.
  pose proof (NoDup_dset "record_digest" (VStr digest) _ Hb) as Hnd.
  pose proof (normal_NoDup _ _ (eq_sym Hq) Hnd) as Hndq.
  pose proof (normal_dict_get _ _ "record_digest" Hndq Hnd Hq) as Hg. rewrite dget_dset_eq in Hg.
  destruct (dget "record_digest" q) as [v|]; [|done]. injection Hg as Hg. by destruct v; inversion Hg.
Qed.

Lemma write_ahead_keys i audit_id t body :
  write_ahead_body i audit_id t = Ok body -> NoDup (dkeys body) /\ "record_digest" ∉ dkeys body.
Proof.
  unfold write_ahead_body, intent_canonical. intros Hb. res_inv.
  destruct (mi_approval i), (mi_registry_hash i); unfold dkeys; simpl;
    (split; [keys_distinct|apply (bool_decide_unpack _); vm_compute; exact I]).
Qed.

Lemma run_ledger_inv l c : ledger_inv l -> ledger_inv (run_ledger l c).
Proof.
  intros [I1 I2].
  assert (Hkeep : forall s, (forall k q, sink_read k (l_sink l) = Ok (Some q) -> sink_read k s = Ok (Some q)) ->
    ledger_inv (mkLedger (l_token l) s (l_open l) (l_finalized l))).
  { intros s Hs. split; cbn.
    - intros k h Hk. destruct (I1 k h Hk) as (? & ? & ? & q & ? & ?). split_and!; eauto.
    - intros k Hk. destruct (I2 k Hk) as (? & q & ?). eauto. }
  assert (Happ : forall k p r s, sink_append k p (l_sink l) = (r, s) ->
    forall j q, sink_read j (l_sink l) = Ok (Some q) -> sink_read j s = Ok (Some q))
    by (intros; by eapply append_keeps).
  destruct c as [i audit_id t|h o t|audit_id p]; cbn [run_ledger].
  - destruct (ledger_begin_cases i audit_id t l) as [(e & s & -> & Hs)|(body & dg & s & -> & Hadm & _ & Hbody & Hdg & Ha)]; cbn [snd].
    { apply Hkeep. destruct Hs as [->|(r & p & Hs)]; [done|]. by eapply Happ. }
    destruct (Hkeep s (Happ _ _ _ _ Ha)) as [J1 J2]. cbn in J1, J2.
    destruct (append_durable _ _ _ _ Ha) as (_ & q & Hq & Hn).
    assert (Hnew : forall k q', sink_read k (l_sink l) = Ok (Some q') -> k <> audit_id).
    { intros k q' Hk ->. destruct (append_once _ (body ++ [("record_digest", VStr dg)]) _ _ Hk) as [e He]. congruence. }
    split; cbn.
    + intros k h. rewrite lookup_insert. case_decide as Hk; [subst k|apply J1].
      intros [= <-]. split_and!; try done. exists q. split; [done|].
      destruct (write_ahead_keys _ _ _ _ Hbody). by eapply record_digest_of.
    + intros k Hk. destruct (I2 k Hk) as (Hop & q' & Hq'). pose proof (Hnew k q' Hq').
      rewrite lookup_insert_ne by done. split; [done|]. eauto.
  - destruct (finalize_cases h o t l) as [(e & ->)|(e & -> & _ & _ & Hop & _ & (q & Hq & _) & _)]; [done|].
    split; cbn.
    + intros k h'. rewrite lookup_delete. case_decide; [done|]. apply I1.
    + intros k. rewrite elem_of_union, elem_of_singleton. intros [->|Hk].
      * rewrite lookup_delete, decide_True by done. eauto.
      * rewrite lookup_delete. case_decide; [subst; eauto|]. apply I2 in Hk. done.
  - apply Hkeep. destruct (sink_append audit_id p (l_sink l)) as [r s] eqn:Ha. by eapply Happ.
Qed.

Lemma run_ledgers_inv l cs : ledger_inv l -> ledger_inv (run_ledgers l cs).
Proof. revert l. induction cs as [|c cs IH]; intros l Hl; [done|]. by apply IH, run_ledger_inv. Qed.

Lemma new_ledger_inv token s : ledger_inv (mkLedger token s ∅ ∅).
Proof. split; cbn; [intros k h; by rewrite lookup_empty|set_solver]. Qed.

Lemma finalized_grows l cs k : k ∈ l_finalized l -> k ∈ l_finalized (run_ledgers l cs).
Proof.
  revert l. induction cs as [|c cs IH]; intros l Hk; [done|]. apply IH.
  destruct c as [i audit_id t|h o t|audit_id p]; cbn [run_ledger].
  - by destruct (ledger_begin_cases i audit_id t l) as [(e & s & -> & _)|(? & ? & ? & -> & _)].
  - destruct (finalize_cases h o t l) as [(e & ->)|(e & -> & _)]; [done|]. cbn. set_solver.
  - done.
Qed.

(** Evidence is emitted once, and only about recorded attempts: in any history, when [finalize]
    returns, the handle is one the ledger issued for an admissible intent and has not finalized
    before, the provider call did not predate the record, the sink still holds the record with
    the handle's digest; and no later call, with any handle of the same attempt, succeeds. *)
Theorem finalize_once token s cs h o t e l' :
  finalize h o t (run_ledgers (mkLedger token s ∅ ∅) cs) = (Ok e, l') ->
  (ah_token h = token /\ admissible (ah_intent h)
   /\ dt_utc (ah_recorded_at h) <= dt_utc (po_started_at o)
   /\ exists q, sink_read (ah_id h) (l_sink l') = Ok (Some q)
        /\ dget "record_digest" q = Some (VStr (ah_digest h)))
  /\ forall cs' h' o' t', ah_id h' = ah_id h ->
       fst (finalize h' o' t' (run_ledgers l' cs')) = Err (audit_exn AUDIT_RECORD_UNWRITABLE).
Proof.
  intros Hf. pose proof (run_ledgers_inv _ cs (new_ledger_inv token s)) as Hi. set (l := run_ledgers _ _) in *.
  destruct (finalize_cases h o t l) as [(e' & He)|(e' & He & _ & _ & Hop & Hle & Hq & _)]; rewrite He in Hf; [done|].
  injection Hf as <- <-.
  assert (Htok : forall cs l0, l_token (run_ledgers l0 cs) = l_token l0).
  { clear. induction cs as [|c cs IH]; intros l0; [done|]. cbn [run_ledgers foldl]. rewrite (IH (run_ledger l0 c)).
    destruct c as [i audit_id t|h o t|audit_id p]; cbn [run_ledger]; [|..|done].
    - by destruct (ledger_begin_cases i audit_id t l0) as [(e & s & -> & _)|(? & ? & ? & -> & _)].
    - by destruct (finalize_cases h o t l0) as [(e & ->)|(e & -> & _)]. }
  destruct (li_open _ Hi _ _ Hop) as (_ & Ht & Hadm & _). split.
  - split; [|done]. rewrite Ht. apply (Htok cs).
  - intros cs' h' o' t' Hid. unfold ledger_finalize.
    assert (Hin : ah_id h' ∈ l_finalized (run_ledgers (mkLedger (l_token l) (l_sink l)
              (delete (ah_id h) (l_open l)) ({[ah_id h]} ∪ l_finalized l)) cs')).
    { apply finalized_grows. cbn. rewrite Hid. set_solver. }
    unfold handle_finalized. rewrite (bool_decide_true _ Hin). cbn [orb].
    by destruct (ah_token h' =? _).
Qed.

(** Success is never inferred: evidence about a constructed observation says SUCCESS exactly when
    the outcome is COMMITTED, and then the read-back was VERIFIED; BLOCKED means no attempt was
    made, and an ambiguous outcome is neither success nor failure. *)
Theorem success_is_verified raw h o t l e l' :
  provider_observation raw = Ok o -> finalize h o t l = (Ok e, l') ->
  (me_class e = SUCCESS <-> me_outcome e = Outcome_COMMITTED)
  /\ (me_class e = SUCCESS -> me_verification e = VERIFIED)
  /\ (me_class e = BLOCKED -> me_attempts e = 0)
  /\ (me_outcome e = Outcome_AMBIGUOUS <-> me_class e = INDETERMINATE).
Proof.
  intros Ho Hf. destruct (finalize_cases h o t l) as [(e' & He)|(e' & He & _ & _ & _ & _ & _ & _ & E1 & E2 & E3 & E4)];
    rewrite He in Hf; [done|]. injection Hf as <- _. rewrite E1, E2, E3.
  unfold provider_observation in Ho. res_inv.
  repeat match goal with H : audit_if _ _ = Ok _ |- _ => apply audit_if_Ok in H end.
  assert (Hv : po_outcome o = Outcome_COMMITTED -> po_verification o = VERIFIED).
  { intros E. rewrite (bool_decide_true _ E) in *. unfold proves_commit in *. cbn [andb] in *. by bool_prop. }
  assert (Ha : po_outcome o = Outcome_DENIED -> po_attempts o = 0).
  { intros E. rewrite (bool_decide_true (po_outcome o = Outcome_DENIED) E) in *. cbn [andb] in *. by bool_prop. }
  destruct (po_outcome o); cbn in E4; try discriminate E4; injection E4 as <-; split_and!; auto; done.
Qed.
End Promises.

(** ** Redaction *)

(** An intent as the program constructs it, with its parts. *)
Definition intent_constructed (i : MutationIntent) : Prop :=
  mutation_intent i = Ok i /\ capability_snapshot (mi_capability i) = Ok (mi_capability i)
  /\ forall a, mi_approval i = Some a -> approval_reference a = Ok a.

(** No string of the value bears a secret, keys apart. *)
Definition clean : value -> Prop :=
  tree (fun _ => True) (fun v => match v with VStr s => looks_secret_bearing s = false | _ => True end).

Lemma clean_str s : looks_secret_bearing s = false -> clean (VStr s).
Proof. intros H. by constructor. Qed.

Lemma clean_dict d : Forall (fun kv => clean (snd kv)) d -> clean (VDict d).
Proof. intros H. apply tree_dict_iff. eapply Forall_impl; [exact H|]. by intros kv. Qed.

Lemma safe_text_Ok m s t :
  require_safe_text m s = Ok t ->
  t = s /\ s <> "" /\ py_len s <= m /\ string_existsb forbidden_char s = false
  /\ looks_secret_bearing s = false.
Proof.
  unfold require_safe_text. intros H. res_inv.
  repeat match goal with H : audit_if _ _ = Ok _ |- _ => apply raise_if_Ok in H end. by bool_prop.
Qed.

Lemma require_pattern_Ok p s t :
  require_pattern p s = Ok t -> t = s /\ p s = true /\ looks_secret_bearing s = false.
Proof.
  unfold require_pattern. intros H. res_inv.
  match goal with H : require_safe_text _ _ = Ok _ |- _ => apply safe_text_Ok in H as (-> & _ & _ & _ & ?) end.
  match goal with H : audit_if _ _ = Ok _ |- _ => apply raise_if_Ok, negb_false_iff in H end. done.
Qed.

Lemma enum_values_clean :
  (forall c, looks_secret_bearing (capability_value c) = false)
  /\ (forall c, looks_secret_bearing (capability_state_value c) = false)
  /\ (forall s, looks_secret_bearing (approval_state_value s) = false)
  /\ (forall d, looks_secret_bearing (policy_value d) = false)
  /\ (forall s, looks_secret_bearing (status_value s) = false)
  /\ looks_secret_bearing MUTATION_AUDIT_SCHEMA = false.
Proof. split_and!; try (intros []; by vm_compute); by vm_compute. Qed.

Lemma preconditions_clean o l :
  require_preconditions o = Ok l ->
  Forall (fun kv => looks_secret_bearing (fst kv) = false /\ looks_secret_bearing (snd kv) = false) l.
Proof.
  unfold require_preconditions. destruct o as [o|]; [|by intros [= <-]].
  intros H. res_inv. unfold sort_items. rewrite sort_by_perm.
  match goal with H : rmap _ _ = Ok ?r |- _ => apply rmap_Ok in H; induction H as [|[k v] [k' v'] l1 l2 Hx _ IH] end;
    constructor; [|done]. res_inv.
  match goal with H : require_pattern _ _ = Ok _ |- _ => apply require_pattern_Ok in H as (-> & _ & ?) end.
  split; [|done].
  match goal with H : audit_if _ _ = Ok _ |- _ => apply raise_if_Ok, negb_false_iff, str_in_elem in H; rename H into Hin end.
  unfold PRECONDITION_KEYS in Hin. rewrite !elem_of_cons, elem_of_nil in Hin.
  destruct Hin as [->|[->|[->|[]]]]; by vm_compute.
Qed.

(** Nothing credential-bearing is recorded: every string of the record of a constructed intent
    passed the redaction gate. *)
Theorem intent_record_redacted i body :
  intent_constructed i -> intent_canonical i = Ok body -> clean (VDict body).
Proof.
  intros (Hi & Hcap & Happ) Hb. unfold intent_canonical in Hb. res_inv.
  destruct enum_values_clean as (E1 & E2 & E3 & E4 & E5 & E6).
  unfold mutation_intent in Hi. unfold capability_snapshot in Hcap. res_inv.
  repeat match goal with H : require_pattern _ _ = Ok _ |- _ => apply require_pattern_Ok in H as (_ & _ & ?) end.
  repeat match goal with H : require_preconditions _ = Ok _ |- _ => apply preconditions_clean in H end.
  apply clean_dict. repeat match goal with |- Forall _ (_ :: _) => apply Forall_cons; split end; cbn [snd];
    try (apply clean_str; done || apply E4 || apply E5).
  - apply clean_dict. repeat constructor; cbn [snd leaf]; done || apply E1 || apply E2.
  - apply tree_list_iff. rewrite Forall_fmap. eapply Forall_impl; [eassumption|]. intros [k v] [Hk Hv].
    apply clean_dict. repeat constructor; cbn [snd leaf]; exact Hk || exact Hv.
  - rewrite !Forall_app. split_and!.
    * destruct (mi_approval i) as [a|]; [|done]. specialize (Happ a eq_refl). unfold approval_reference in Happ.
    res_inv. repeat match goal with H : require_pattern _ _ = Ok _ |- _ => apply require_pattern_Ok in H as (_ & _ & ?) end.
    constructor; [|done]. apply clean_dict. repeat constructor; cbn [snd leaf]; done || apply E3.
    * destruct (mi_registry_hash i) as [h|]; [|done]. constructor; [|done]. apply clean_str.
    match goal with H : require_optional_pattern _ _ = Ok _ |- _ => unfold require_optional_pattern in H end.
    res_inv. by match goal with H : require_pattern _ _ = Ok _ |- _ => apply require_pattern_Ok in H as (_ & _ & ?) end.
Qed.

(** ** A concrete attempt *)

Definition hex64 (c : string) : string := String.concat "" (replicate 64 c).
Definition instant (t : Z) : datetime := mkDatetime t true.

Definition demo_intent : MutationIntent :=
  mkIntent "alice" "github.create_branch" "o/r" (hex64 "a") Policy_APPROVAL_REQUIRED
    (mkSnapshot WC_BRANCH Cap_READY (hex64 "b") "phase3.mutations.v1") (hex64 "c") Status_NEW
    (Some (mkApprovalRef "ap-1" AS_PENDING (hex64 "a")))
    (Some [("base_sha", "0123456789012345678901234567890123456789")]) (Some (hex64 "b")).

Definition demo_observation (o : MutationOutcome) (v : VerificationState) : ProviderObservation :=
  mkObservation o v 1 (instant 20) (instant 1001020) (Some "2xx") None None None.

Definition demo_ledger : Ledger FileAuditSink := mkLedger 7 (mkFileSink ∅ []) ∅ ∅.

Abbreviation demo_begin := (ledger_begin (fun s => s) demo_intent "mut-1" (instant 10) demo_ledger).

Lemma handle_means_record_witness :
  match demo_begin with
  | (Ok h, l') => provider_call_permitted h l' = true
      /\ exists q, sink_read "mut-1" (l_sink l') = Ok (Some q)
  | (Err _, _) => False
  end.
Proof.
  destruct demo_begin as [[h|e] l'] eqn:Hb; [|vm_compute in Hb; discriminate].
  destruct (handle_means_record (fun s => s) demo_intent "mut-1" (instant 10) demo_ledger h l' Hb)
    as (_ & _ & _ & Hp & body & q & _ & _ & Hq & _).
  - cbn. set_solver.
  - split; [exact Hp|exists q; exact Hq].
Defined.

Lemma intent_record_redacted_witness :
  match intent_canonical demo_intent with Ok body => clean (VDict body) | Err _ => False end.
Proof.
  destruct (intent_canonical demo_intent) as [body|e] eqn:Hb; [|vm_compute in Hb; discriminate].
  apply (intent_record_redacted demo_intent body); [|exact Hb].
  split; [vm_compute; reflexivity|]. split; [vm_compute; reflexivity|].
  intros a Ha. injection Ha as <-. vm_compute. reflexivity.
Defined.

Definition demo_handle : AuditHandle :=
  match demo_begin with
  | (Ok h, _) => h
  | (Err _, _) => mkHandle "" "" demo_intent (instant 0) 0
  end.

Abbreviation demo_finalize o v :=
  (ledger_finalize (fun s => s) demo_handle (demo_observation o v) (instant 2000000)
     (run_ledgers (fun s => s) demo_ledger [CallBeginAudit demo_intent "mut-1" (instant 10)])).

Lemma finalize_once_witness :
  match demo_finalize Outcome_COMMITTED VERIFIED with
  | (Ok e, l') => fst (ledger_finalize (fun s => s) demo_handle (demo_observation Outcome_DENIED MISMATCH)
                         (instant 3000000) l') = Err (audit_exn AUDIT_RECORD_UNWRITABLE)
  | (Err _, _) => False
  end.
Proof.
  destruct (demo_finalize Outcome_COMMITTED VERIFIED) as [[e|x] l'] eqn:Hf; [|vm_compute in Hf; discriminate].
  destruct (finalize_once (fun s => s) 7 (mkFileSink ∅ []) [CallBeginAudit demo_intent "mut-1" (instant 10)]
              demo_handle (demo_observation Outcome_COMMITTED VERIFIED) (instant 2000000) e l' Hf) as [_ Honce].
  exact (Honce [] demo_handle (demo_observation Outcome_DENIED MISMATCH) (instant 3000000) eq_refl).
Defined.

Lemma success_is_verified_witness :
  match demo_finalize Outcome_COMMITTED VERIFIED with
  | (Ok e, _) => me_class e = SUCCESS /\ me_verification e = VERIFIED
  | (Err _, _) => False
  end.
Proof.
  destruct (demo_finalize Outcome_COMMITTED VERIFIED) as [[e|x] l'] eqn:Hf; [|vm_compute in Hf; discriminate].
  destruct (success_is_verified (fun s => s) (demo_observation Outcome_COMMITTED VERIFIED) demo_handle
              (demo_observation Outcome_COMMITTED VERIFIED) (instant 2000000)
              (run_ledgers (fun s => s) demo_ledger [CallBeginAudit demo_intent "mut-1" (instant 10)]) e l')
    as ([_ Hc] & Hv & _).
  - vm_compute. reflexivity.
  - exact Hf.
  - assert (me_outcome e = Outcome_COMMITTED) as Ho by (vm_compute in Hf; injection Hf as <- _; reflexivity).
    split; [exact (Hc Ho)|exact (Hv (Hc Ho))].
Defined.

Example unverified_commit_refused :
  provider_observation (demo_observation Outcome_COMMITTED UNVERIFIABLE) = audit_error RECONCILIATION_REQUIRED.
Proof. by vm_compute. Qed.
