(* ===== verification/GovernedWorld.v ===== *)
(** * What the governed executors share ([v2/github_mutations.py], [v2/github_merge_executor.py])

    The stores, the answers of the provider, where an execution stands, and how a run may change
    the stores.  The executor of the create operations and the one of the merge both run over one
    approval store, one idempotency store and one audit ledger. *)
From S2P Require Import Prelude.
From S2P Require Import PyText.
From S2P Require Import PyValue.
From S2P Require Import Canonical.
From S2P Require Import MutationContract.
From S2P Require Import MutationDigest.
From S2P Require Import MutationIdempotency.
From S2P Require Import MutationLifecycle.
From S2P Require Import MutationAudit.

(** ** The provider *)

Record ProviderResponse := mkResponse { status_code : Z; response_payload : list (string * value) }.

(** [ProviderResponse.status_class] *)
Definition status_class (r : ProviderResponse) : string :=
  pretty (Z.max 1 (Z.min 5 (status_code r / 100))) +:+ "xx".

(** ** The stores *)

Record World (S : Type) := mkWorld {
  w_approvals : ApprovalStore;
  w_idempotency : IdempotencyStore;
  w_ledger : Ledger S
}.
Arguments mkWorld {S} _ _ _.
Arguments w_approvals {S} _.
Arguments w_idempotency {S} _.
Arguments w_ledger {S} _.

(** Where an execution stands: suspended at a provider call, with what its admission established
    [C], the write it issued [X] and the answer to it [B]; or finished. *)
Inductive task (C X B R : Type) : Type :=
| Revalidating (c : C)
| Writing (x : X)
| ReadingBack (x : X) (created : B)
| Finished (r : result mutation_exn R).
Arguments Revalidating {C X B R} _.
Arguments Writing {C X B R} _.
Arguments ReadingBack {C X B R} _ _.
Arguments Finished {C X B R} _.

(** [_indeterminate] *)
Definition indeterminate (s : MutationStage) : mutation_exn := Indeterminate RECONCILIATION_REQUIRED s.

(** [_SingleWriteGuard.claim], on the number of writes so far. *)
Definition guard_claim (writes : Z) : result mutation_exn Z :=
  if negb (writes =? 0) then deny RECONCILIATION_REQUIRED Stage_PROVIDER_CALL "duplicate_provider_write"
  else Ok (writes + 1).

(** [_assert_stage_order] *)
Definition stage_index (s : MutationStage) : Z :=
  match s with
  | Stage_SCOPE => 0 | Stage_REGISTRY => 1 | Stage_POLICY => 2 | Stage_CREDENTIAL => 3
  | Stage_APPROVAL => 4 | Stage_IDEMPOTENCY => 5 | Stage_PRECONDITION_REVALIDATION => 6
  | Stage_WRITE_AHEAD_AUDIT => 7 | Stage_PROVIDER_CALL => 8 | Stage_READ_BACK => 9
  | Stage_RESULT_SHAPING => 10
  end.

Definition assert_stage_order (stages : list MutationStage) : result mutation_exn Z :=
  rfold (fun index stage =>
    if stage_index stage <=? index then deny RECONCILIATION_REQUIRED Stage_RESULT_SHAPING "stage_order"
    else Ok (stage_index stage)) (-1) stages.

Section Operations.
Context {S : Type} `{AuditSink S}.
Variable sha256_hex : string -> string.

Definition exec_op := st (World S) mutation_exn.

Definition on_approvals {A} (m : st ApprovalStore mutation_exn A) : exec_op A := fun w =>
  let '(r, s) := m (w_approvals w) in (r, mkWorld s (w_idempotency w) (w_ledger w)).
Definition on_idempotency {A} (m : st IdempotencyStore mutation_exn A) : exec_op A := fun w =>
  let '(r, s) := m (w_idempotency w) in (r, mkWorld (w_approvals w) s (w_ledger w)).
Definition on_ledger {A} (m : st (Ledger S) mutation_exn A) : exec_op A := fun w =>
  let '(r, s) := m (w_ledger w) in (r, mkWorld (w_approvals w) (w_idempotency w) s).

(** The outcome of a run that ends the execution. *)
Definition finished {C X B R} (m : exec_op R) : World S -> task C X B R * World S := fun w =>
  let '(r, w') := m w in (Finished r, w').

(** A run that ends in a suspension, or raises. *)
Definition suspends {C X B R} (m : exec_op (task C X B R)) : World S -> task C X B R * World S := fun w =>
  match m w with (Ok t, w') => (t, w') | (Err e, w') => (Finished (Err e), w') end.

(** [except MutationDeniedError as exc: fail_clean(...); raise] *)
Definition failing_clean {A} (key : string) (now : datetime) (m : exec_op A) : exec_op A := fun w =>
  match m w with
  | (Err (Denied c r s d), w') =>
      sbind (on_idempotency (fail_clean key r now)) (fun _ => sraise (Denied c r s d)) w'
  | other => other
  end.

(** [_finish_ambiguous], raised: the attempt is sealed as ambiguous and never retried. *)
Definition settle_ambiguous {A} (h : AuditHandle) (key : string) (writes : Z) (started_at : datetime)
  (class : option string) (s : MutationStage) (v : VerificationState) (finished_at ledger_now now : datetime) :
  exec_op A :=
  let* o := slift (provider_observation
              (mkObservation Outcome_AMBIGUOUS v writes started_at finished_at class
                 (Some RECONCILIATION_REQUIRED) None None)) in
  do* on_ledger (ledger_finalize sha256_hex h o ledger_now) in
  do* on_idempotency (mark_ambiguous key now) in
  sraise (indeterminate s).
End Operations.

(** ** Runs *)

Section Runs.
Context {S : Type} `{AuditSinkLaws S}.
Variable sha256_hex : string -> string.

Lemma on_approvals_unfold {A} (m : approval_op A) (w : World S) :
  on_approvals m w
  = (fst (m (w_approvals w)), mkWorld (snd (m (w_approvals w))) (w_idempotency w) (w_ledger w)).
Proof. unfold on_approvals. by destruct (m (w_approvals w)). Qed.

Lemma on_idempotency_unfold {A} (m : idem_op A) (w : World S) :
  on_idempotency m w
  = (fst (m (w_idempotency w)), mkWorld (w_approvals w) (snd (m (w_idempotency w))) (w_ledger w)).
Proof. unfold on_idempotency. by destruct (m (w_idempotency w)). Qed.

Lemma on_ledger_unfold {A} (m : st (Ledger S) mutation_exn A) (w : World S) :
  on_ledger m w
  = (fst (m (w_ledger w)), mkWorld (w_approvals w) (w_idempotency w) (snd (m (w_ledger w)))).
Proof. unfold on_ledger. by destruct (m (w_ledger w)). Qed.

(** ** Effects: how a run may change the stores *)

(** The calls that settle the attempt under a key; a clean failure only under [clean]. *)
Definition settling (k : string) (clean : Prop) (c : idem_call) : Prop :=
  match c with
  | CallAmbiguous k' _ | CallCommit k' _ _ => k' = k
  | CallFailClean k' _ _ => k' = k /\ clean
  | _ => False
  end.

(** Approvals are left alone; only this attempt is settled; the ledger changes by its calls. *)
Record effects (k : string) (clean : Prop) (w w' : World S) : Prop := {
  ef_approvals : w_approvals w' = w_approvals w;
  ef_idempotency : exists cs, w_idempotency w' = run_idems (w_idempotency w) cs
    /\ Forall (settling k clean) cs;
  ef_ledger : exists cs, w_ledger w' = run_ledgers sha256_hex (w_ledger w) cs
}.

#[export] Instance effects_preorder k clean : PreOrder (effects k clean).
Proof.
  split.
  - intros w. split; [done|by exists []|by exists []].
  - intros w1 w2 w3 [A1 (c1 & I1 & F1) (l1 & L1)] [A2 (c2 & I2 & F2) (l2 & L2)]. split; [congruence|..].
    + exists (c1 ++ c2). rewrite I2, I1. unfold run_idems. rewrite foldl_app. split; [done|].
      by apply Forall_app.
    + exists (l1 ++ l2). rewrite L2, L1. unfold run_ledgers. by rewrite foldl_app.
Qed.

Lemma effects_mono k (c1 c2 : Prop) w w' : (c1 -> c2) -> effects k c1 w w' -> effects k c2 w w'.
Proof.
  intros Hc [H1 (cs & H2 & Hcs) H3]. split; [done| |done]. exists cs. split; [done|].
  eapply Forall_impl; [exact Hcs|]. intros [] Hs; simpl in *; try done. split; [apply Hs|apply Hc, Hs].
Qed.

Definition settles {A} (k : string) (clean : Prop) (m : exec_op (S:=S) A) : Prop :=
  forall w, effects k clean w (snd (m w)).

Lemma settles_pure {A} k clean (m : result mutation_exn A) : settles k clean (slift m).
Proof. intros w. reflexivity. Qed.

Lemma settles_bind {A B} k clean (m : exec_op A) (f : A -> exec_op B) :
  settles k clean m -> (forall a, settles k clean (f a)) -> settles k clean (sbind m f).
Proof.
  intros Hm Hf w. rewrite sbind_unfold. specialize (Hm w). destruct (m w) as [[a|e] w1]; [|done].
  etrans; [exact Hm|apply Hf].
Qed.

Lemma settles_mono {A} k (c1 c2 : Prop) (m : exec_op A) : (c1 -> c2) -> settles k c1 m -> settles k c2 m.
Proof.
  intros Hc Hm w. eapply effects_mono; [exact Hc|apply Hm].
Qed.

(** One call of the idempotency store. *)
Lemma settles_call {A} k (clean : Prop) (m : idem_op A) c :
  (forall s, snd (m s) = run_idem s c) -> settling k clean c -> settles k clean (on_idempotency m).
Proof.
  intros Hm Hc w. rewrite on_idempotency_unfold. split; cbn; [done| |by exists []].
  exists [c]. split; [apply Hm|by apply Forall_singleton].
Qed.

Lemma settles_ambiguous k clean now : settles k clean (on_idempotency (mark_ambiguous k now)).
Proof. by apply (settles_call _ _ _ (CallAmbiguous k now)). Qed.

Lemma settles_commit k clean d now : settles k clean (on_idempotency (commit_mutation k d now)).
Proof. by apply (settles_call _ _ _ (CallCommit k d now)). Qed.

Lemma settles_fail_clean k (clean : Prop) r now :
  clean -> settles k clean (on_idempotency (fail_clean k r now)).
Proof. intros ?. by apply (settles_call _ _ _ (CallFailClean k r now)). Qed.

Lemma settles_finalize k clean h o t : settles k clean (on_ledger (ledger_finalize sha256_hex h o t)).
Proof.
  intros w. rewrite on_ledger_unfold. split; cbn; [done|by exists []|]. by exists [CallFinalize h o t].
Qed.

Lemma settles_begin k clean intent i t : settles k clean (on_ledger (ledger_begin sha256_hex intent i t)).
Proof.
  intros w. rewrite on_ledger_unfold. split; cbn; [done|by exists []|]. by exists [CallBeginAudit intent i t].
Qed.
(** What a run that suspends or raises leaves behind. *)
Lemma suspends_eq {C X B R} (m : exec_op (S:=S) (task C X B R)) w :
  suspends m w = (match fst (m w) with Ok t => t | Err e => Finished (Err e) end, snd (m w)).
Proof. unfold suspends. by destruct (m w) as [[] ?]. Qed.

Lemma finished_eq {C X B R} (m : exec_op (S:=S) R) w :
  finished (C:=C) (X:=X) (B:=B) m w = (Finished (fst (m w)), snd (m w)).
Proof. unfold finished. by destruct (m w). Qed.

(** A run that only settles the attempt and never returns a value ends in an error. *)
Lemma ends_badly {A C X B R} k clean (m : exec_op (S:=S) A) (f : result mutation_exn A -> task C X B R) w :
  (forall e, f (Err e) = Finished (Err e)) -> is_ok (fst (m w)) = false ->
  settles k clean m ->
  exists e w', (f (fst (m w)), snd (m w)) = (Finished (Err e), w') /\ effects k clean w w'.
Proof.
  intros Hf Hok Hm. specialize (Hm w). destruct (m w) as [[a|e] w']; [done|].
  exists e, w'. cbn. by rewrite Hf.
Qed.

Lemma raises_bind {A B} (m : exec_op (S:=S) A) (f : A -> exec_op B) w :
  (forall a w, is_ok (fst (f a w)) = false) -> is_ok (fst (sbind m f w)) = false.
Proof. intros Hf. rewrite sbind_unfold. destruct (m w) as [[a|e] w1]; [apply Hf|done]. Qed.

End Runs.

Create HintDb runs.
#[export] Hint Resolve settles_pure settles_ambiguous settles_commit settles_finalize settles_begin : runs.

(** Splits a [settles] goal along the code. *)
Ltac settle :=
  repeat match goal with
  | |- settles _ _ _ (sbind _ _) => apply settles_bind; [|intros ?]
  | |- settles _ _ _ (sret ?a) => apply (settles_pure _ _ _ (Ok a))
  | |- settles _ _ _ (sraise ?e) => apply (settles_pure _ _ _ (Err e))
  | |- settles _ _ _ (on_idempotency (fail_clean _ _ _)) => apply settles_fail_clean; try done
  | |- settles _ _ _ (match ?x with _ => _ end) => destruct x eqn:?
  | _ => solve [auto with runs]
  end.

(** ** Facts both executors use *)

Lemma py_eq_str v s : py_eq v (VStr s) = true -> v = VStr s.
Proof. destruct v; cbn; intros Heq; try discriminate Heq. by rewrite (proj1 (String.eqb_eq _ _) Heq). Qed.

Lemma committed_phase k data now s r s' :
  idem_inv s -> commit_mutation k data now s = (Ok r, s') -> key_phase_of s' k = CommittedWith data.
Proof.
  intros Hi. unfold commit_mutation.
  destruct (resolve_cases k Outcome_COMMITTED now (Some data) None s Hi ltac:(done) ltac:(done) ltac:(done))
    as [[e ->]|(r0 & l & _ & _ & _ & -> & _)]; intros Hc; [done|]. injection Hc as <- <-.
  by rewrite phase_put, decide_True.
Qed.
