(* ===== verification/GovernedSystem.v ===== *)
(** * Concurrent executions over the governed stores

    Any number of executions of one governed executor: their runs interleave at the provider calls,
    with each other and with the other users of the stores (who issue, revoke and purge approvals,
    reconcile keys, append to the audit sink; among them the executions of the other executor).
    The log of admissions and of writes is the specification's: the program does not keep it.

    An executor comes as a record of its two operations, with the laws its own file proves. *)
From S2P Require Import Prelude.
From S2P Require Import PyText.
From S2P Require Import PyValue.
From S2P Require Import Canonical.
From S2P Require Import MutationContract.
From S2P Require Import MutationDigest.
From S2P Require Import MutationIdempotency.
From S2P Require Import MutationLifecycle.
From S2P Require Import MutationAudit.
From S2P Require Import GovernedWorld.

(** An executor of requests [Rq], over inputs [I] and answers [A] of the provider.  Each of its
    executions is admitted with the context [C], issues a write [X] and ends with a result [R]. *)
Record Execution (S Rq I A C X B R : Type) := mkExecution {
  ex_start : Rq -> I -> World S -> task C X B R * World S;
  ex_resume : task C X B R -> A -> I -> World S -> task C X B R * World S;
  ex_approval : C -> ApprovalRecord;
  ex_handle : X -> AuditHandle;
  (** what its admission establishes about an execution *)
  ex_granted : C -> Prop;
  (** what is established when an admitted execution issues its write *)
  ex_issued : C -> X -> Prop;
  (** the answer by which the provider accepted the write *)
  ex_acknowledged : X -> B -> Prop;
  (** the result of an execution that has written *)
  ex_wrote : R -> Prop;
  (** the idempotency key of an admitted execution, and of a write *)
  ex_key : C -> string;
  ex_write_key : X -> string;
  (** the provider refused the write, in a way that proves nothing was done *)
  ex_refused : X -> A -> bool
}.
Arguments mkExecution {S Rq I A C X B R} _ _ _ _ _ _ _ _ _ _ _.
Arguments ex_start {S Rq I A C X B R} _ _ _ _.
Arguments ex_resume {S Rq I A C X B R} _ _ _ _ _.
Arguments ex_approval {S Rq I A C X B R} _ _.
Arguments ex_handle {S Rq I A C X B R} _ _.
Arguments ex_granted {S Rq I A C X B R} _ _.
Arguments ex_issued {S Rq I A C X B R} _ _ _.
Arguments ex_acknowledged {S Rq I A C X B R} _ _ _.
Arguments ex_wrote {S Rq I A C X B R} _ _.
Arguments ex_key {S Rq I A C X B R} _ _.
Arguments ex_write_key {S Rq I A C X B R} _ _.
Arguments ex_refused {S Rq I A C X B R} _ _ _.

Record System (S C X B R : Type) := mkSystem {
  sy_world : World S;
  sy_tasks : gmap nat (task C X B R);
  sy_next : nat;
  sy_admitted : list (nat * C);
  sy_writes : list (nat * X)
}.
Arguments mkSystem {S C X B R} _ _ _ _ _.
Arguments sy_world {S C X B R} _.
Arguments sy_tasks {S C X B R} _.
Arguments sy_next {S C X B R} _.
Arguments sy_admitted {S C X B R} _.
Arguments sy_writes {S C X B R} _.

(** A new execution runs to its first suspension; a suspended one gets its answer and runs to the
    next; one is cancelled where it is suspended; or somebody else calls one of the stores. *)
Inductive event (Rq I A : Type) : Type :=
| Submitted (rq : Rq) (i : I)
| Answered (p : nat) (answer : A) (i : I)
| Cancelled (p : nat)
| ApprovalsUsed (c : approval_call)
| IdempotencyUsed (c : idem_call)
| LedgerUsed (c : ledger_call).
Arguments Submitted {Rq I A} _ _.
Arguments Answered {Rq I A} _ _ _.
Arguments Cancelled {Rq I A} _.
Arguments ApprovalsUsed {Rq I A} _.
Arguments IdempotencyUsed {Rq I A} _.
Arguments LedgerUsed {Rq I A} _.

Section System.
Context {S Rq I A C X B R : Type} `{AuditSink S}.
Variable sha256_hex : string -> string.
Variable E : Execution S Rq I A C X B R.

Definition run_event (s : System S C X B R) (e : event Rq I A) : System S C X B R :=
  let '(mkSystem w tasks next admitted writes) := s in
  match e with
  | Submitted rq i =>
      let '(t, w') := ex_start E rq i w in
      mkSystem w' (<[next := t]> tasks) (Datatypes.S next)
        (match t with Revalidating c => (next, c) :: admitted | _ => admitted end) writes
  | Answered p answer i =>
      match tasks !! p with
      | None | Some (Finished _) => s
      | Some t =>
          let '(t', w') := ex_resume E t answer i w in
          mkSystem w' (<[p := t']> tasks) next admitted
            (match t' with Writing c => (p, c) :: writes | _ => writes end)
      end
  | Cancelled p => mkSystem w (delete p tasks) next admitted writes
  | ApprovalsUsed c =>
      mkSystem (mkWorld (run_approval sha256_hex (w_approvals w) c) (w_idempotency w) (w_ledger w))
        tasks next admitted writes
  | IdempotencyUsed c =>
      mkSystem (mkWorld (w_approvals w) (run_idem (w_idempotency w) c) (w_ledger w)) tasks next admitted writes
  | LedgerUsed c =>
      mkSystem (mkWorld (w_approvals w) (w_idempotency w) (run_ledger sha256_hex (w_ledger w) c))
        tasks next admitted writes
  end.

Definition run_events : System S C X B R -> list (event Rq I A) -> System S C X B R := foldl run_event.

(** Fresh stores: no approval, no key, and a ledger over the sink [sink]. *)
Definition initial (lease token : Z) (sink : S) : System S C X B R :=
  mkSystem (mkWorld ∅ (mkStore lease ∅ ∅) (mkLedger token sink ∅ ∅)) ∅ 0 [] [].

Definition system_after (lease token : Z) (sink : S) (es : list (event Rq I A)) : System S C X B R :=
  run_events (initial lease token sink) es.

End System.

(** ** The laws of an executor *)

Section Laws.
Context {S Rq I A C X B R : Type} `{AuditSinkLaws S}.
Variable sha256_hex : string -> string.

(** How the stores change: by calls of their own operations. *)
Definition evolves (w w' : World S) : Prop :=
  (exists cs, w_approvals w' = run_approvals sha256_hex (w_approvals w) cs)
  /\ (exists cs, w_idempotency w' = run_idems (w_idempotency w) cs)
  /\ exists cs, w_ledger w' = run_ledgers sha256_hex (w_ledger w) cs.


(** Every approval is stored under its identifier. *)
Definition keyed (m : ApprovalStore) : Prop := forall i a, m !! i = Some a -> approval_id a = i.

Record ExecutionLaws (E : Execution S Rq I A C X B R) : Prop := {
  (** a new execution is refused, at most verifying an approval; or it consumes its approval and
      claims its key, and goes on if the claim is answered NEW *)
  el_start : forall rq i (w : World S), keyed (w_approvals w) ->
    (exists e calls, ex_start E rq i w
       = (Finished (Err e), mkWorld (run_approvals sha256_hex (w_approvals w) calls) (w_idempotency w) (w_ledger w)))
    \/ exists c j d who now holder repo op digest target at_ t,
       let claim := CallBegin (ex_key E c) holder repo op digest target at_ in
       ex_granted E c
       /\ verify_and_consume sha256_hex j d who now (w_approvals w)
          = (Ok (ex_approval E c), <[j := ex_approval E c]> (w_approvals w))
       /\ ex_start E rq i w
          = (t, mkWorld (<[j := ex_approval E c]> (w_approvals w)) (run_idem (w_idempotency w) claim) (w_ledger w))
       /\ (t = Revalidating c /\ claims (w_idempotency w) claim (ex_key E c) \/ exists r, t = Finished r);
  (** after the revalidation the write is issued, with its intent just recorded; or it ends *)
  el_revalidated : forall c answer i (w : World S),
    (exists x intent id t h l', ex_issued E c x /\ ex_handle E x = h /\ ex_write_key E x = ex_key E c
       /\ ledger_begin sha256_hex intent id t (w_ledger w) = (Ok h, l')
       /\ ex_resume E (Revalidating c) answer i w = (Writing x, mkWorld (w_approvals w) (w_idempotency w) l'))
    \/ exists e w', ex_resume E (Revalidating c) answer i w = (Finished (Err e), w')
       /\ effects sha256_hex (ex_key E c) True w w';
  (** after the write it waits for the read-back of what the provider accepted; or it ends, and has
      failed cleanly only if the provider refused *)
  el_written : forall x answer i (w : World S),
    (exists r, ex_acknowledged E x r /\ ex_resume E (Writing x) answer i w = (ReadingBack x r, w))
    \/ exists e w', ex_resume E (Writing x) answer i w = (Finished (Err e), w')
       /\ effects sha256_hex (ex_write_key E x) (ex_refused E x answer = true) w w';
  (** after the read-back it ends *)
  el_read_back : forall x created answer i (w : World S),
    exists r w', ex_resume E (ReadingBack x created) answer i w = (Finished r, w')
    /\ effects sha256_hex (ex_write_key E x) False w w'
    /\ forall v c, r = Ok v -> ex_granted E c -> ex_issued E c x -> ex_wrote E v;
  el_issued_key : forall c x, ex_issued E c x -> ex_write_key E x = ex_key E c
}.

Variable E : Execution S Rq I A C X B R.
Hypothesis laws : ExecutionLaws E.

Abbreviation run_event := (run_event sha256_hex E).
Abbreviation run_events := (run_events sha256_hex E).
Abbreviation system_after := (system_after sha256_hex E).
Abbreviation initial := (initial (S:=S) (C:=C) (X:=X) (B:=B) (R:=R)).

(** ** The invariant *)

(** The record a handle stands for is readable in the sink, sealed by the handle's digest. *)
Definition recorded (h : AuditHandle) (l : Ledger S) : Prop :=
  exists q, sink_read (ah_id h) (l_sink l) = Ok (Some q)
  /\ dget "record_digest" q = Some (VStr (ah_digest h)).

Definition approval_of (pc : nat * C) : string := approval_id (ex_approval E (snd pc)).
Definition record_of (px : nat * X) : string := ah_id (ex_handle E (snd px)).

(** Where a task may stand. *)
Definition task_ok (s : System S C X B R) (p : nat) (t : task C X B R) : Prop :=
  match t with
  | Revalidating c => (p, c) ∈ sy_admitted s /\ p ∉ (sy_writes s).*1
  | Writing x => (p, x) ∈ sy_writes s
  | ReadingBack x r => (p, x) ∈ sy_writes s /\ ex_acknowledged E x r
  | Finished (Err _) => True
  | Finished (Ok r) => ex_wrote E r \/ p ∉ (sy_writes s).*1
  end.

Record system_inv (s : System S C X B R) : Prop := {
  si_idempotency : idem_inv (w_idempotency (sy_world s));
  si_ledger : ledger_inv (w_ledger (sy_world s));
  si_keyed : forall i a, w_approvals (sy_world s) !! i = Some a -> approval_id a = i;
  si_tasks : forall p t, sy_tasks s !! p = Some t -> (p < sy_next s)%nat /\ task_ok s p t;
  si_admitted : forall p c, (p, c) ∈ sy_admitted s -> (p < sy_next s)%nat /\ ex_granted E c
    /\ w_approvals (sy_world s) !! approval_id (ex_approval E c) = Some (ex_approval E c)
    /\ state (ex_approval E c) = AS_CONSUMED;
  si_admitted_once : NoDup (sy_admitted s).*1 /\ NoDup (map approval_of (sy_admitted s));
  si_writes : forall p x, (p, x) ∈ sy_writes s ->
    recorded (ex_handle E x) (w_ledger (sy_world s))
    /\ exists c, (p, c) ∈ sy_admitted s /\ ex_issued E c x;
  si_written_once : NoDup (sy_writes s).*1 /\ NoDup (map record_of (sy_writes s))
}.

Lemma initial_inv lease token sink : system_inv (initial lease token sink).
Proof.
  split; cbn [initial sy_world sy_tasks sy_next sy_admitted sy_writes w_approvals w_idempotency w_ledger];
    [apply init_inv|apply new_ledger_inv|..].
  - intros i a. by rewrite lookup_empty.
  - intros p t. by rewrite lookup_empty.
  - intros p c Hc. by apply elem_of_nil in Hc.
  - by split; apply NoDup_nil.
  - intros p x Hx. by apply elem_of_nil in Hx.
  - by split; apply NoDup_nil.
Qed.
(** ** The stores evolve by their own calls *)

Lemma effects_evolves k clean w w' : effects sha256_hex k clean w w' -> evolves w w'.
Proof. intros [Ha (cs & Hi & _) Hl]. split_and!; [by exists []|by exists cs|done]. Qed.

Lemma keyed_insert m i a : keyed m -> approval_id a = i -> keyed (<[i := a]> m).
Proof. intros Hm Ha j b. rewrite lookup_insert. case_decide as Hj; [|apply Hm]. intros [= <-]. congruence. Qed.

Lemma run_approval_keyed m c : keyed m -> keyed (run_approval sha256_hex m c).
Proof.
  intros Hm. destruct c as [b|j|j d who now|now]; cbn [run_approval].
  - unfold issue. destruct (_ || _); [done|]. unfold sbind, sget, smodify, sret.
    destruct (m !! approval_id b); [done|]. by apply keyed_insert.
  - unfold revoke, sbind, sget, smodify, sret. destruct (m !! j) as [b|] eqn:Hb; [|done].
    case_bool_decide; [|done]. apply keyed_insert; [done|]. cbn. by apply Hm.
  - destruct (verify_cases sha256_hex j d who now m)
      as [(b & h & Hb & _ & _ & ->)|[(b & Hb & _ & _ & ->)|(e & -> & _)]]; [..|done];
      (apply keyed_insert; [done|]; cbn; by apply Hm).
  - intros i a. cbn. rewrite lookup_fmap. destruct (m !! i) as [b|] eqn:Hb; [|done].
    intros [= <-]. apply Hm in Hb. by destruct (_ && _).
Qed.

Lemma run_ledger_keeps l c j q :
  sink_read j (l_sink l) = Ok (Some q) -> sink_read j (l_sink (run_ledger sha256_hex l c)) = Ok (Some q).
Proof.
  intros Hj. destruct c as [i audit_id t|h o t|audit_id p]; cbn [run_ledger].
  - destruct (ledger_begin_cases sha256_hex i audit_id t l)
      as [(e & s & -> & [->|(r & p & Hp)])|(b & d & s & -> & _ & _ & _ & _ & Hp)]; [done|..];
      by eapply append_keeps.
  - by destruct (finalize_cases sha256_hex h o t l) as [(e & ->)|(e & -> & _)].
  - cbn. destruct (sink_append audit_id p (l_sink l)) as [r s] eqn:Hp. by eapply append_keeps.
Qed.

Lemma recorded_evolves h l cs : recorded h l -> recorded h (run_ledgers sha256_hex l cs).
Proof.
  intros (q & Hq & Hd). exists q. split; [|done]. clear Hd. revert l Hq.
  induction cs as [|c cs IH]; intros l Hq; [done|]. by apply IH, run_ledger_keeps.
Qed.

Definition with_world (s : System S C X B R) (w : World S) : System S C X B R :=
  mkSystem w (sy_tasks s) (sy_next s) (sy_admitted s) (sy_writes s).

Lemma evolves_inv s w : system_inv s -> evolves (sy_world s) w -> system_inv (with_world s w).
Proof.
  intros [I1 I2 I3 I4 I5 I6 I7 I8] ((ca & Ha) & (ci & Hi) & (cl & Hl)). split; cbn; try done.
  - rewrite Hi. by apply run_idems_inv.
  - rewrite Hl. by apply run_ledgers_inv.
  - rewrite Ha. clear Ha I5. revert I3. generalize (w_approvals (sy_world s)).
    induction ca as [|c ca IH]; intros m Hm; [done|]. by apply IH, run_approval_keyed.
  - intros p c Hc. destruct (I5 p c Hc) as (? & ? & ? & ?). split_and!; try done.
    rewrite Ha. by apply consumed_stays_run.
  - intros p x Hx. destruct (I7 p x Hx) as [Hr ?]. split; [|done]. rewrite Hl. by apply recorded_evolves.
Qed.

(** ** Moving a task, admitting an execution, issuing a write *)

Lemma set_task_inv s p t :
  system_inv s -> (p < sy_next s)%nat -> task_ok s p t ->
  system_inv (mkSystem (sy_world s) (<[p := t]> (sy_tasks s)) (sy_next s) (sy_admitted s) (sy_writes s)).
Proof.
  intros [I1 I2 I3 I4 I5 I6 I7 I8] Hp Ht. split; cbn; try done.
  intros p' t'. rewrite lookup_insert. case_decide as Heq; [|apply I4]. intros [= <-]. by subst p'.
Qed.
(** An execution is admitted with an approval that no admitted execution holds. *)
Lemma admit_inv s c :
  system_inv s -> ex_granted E c ->
  w_approvals (sy_world s) !! approval_id (ex_approval E c) = Some (ex_approval E c) ->
  state (ex_approval E c) = AS_CONSUMED -> approval_id (ex_approval E c) ∉ map approval_of (sy_admitted s) ->
  system_inv (mkSystem (sy_world s) (<[sy_next s := Revalidating c]> (sy_tasks s)) (Datatypes.S (sy_next s))
                ((sy_next s, c) :: sy_admitted s) (sy_writes s)).
Proof.
  intros [I1 I2 I3 I4 I5 [I6 I6'] I7 I8] Hg Ha Hs Hnew.
  assert (Hfresh : sy_next s ∉ (sy_admitted s).*1).
  { rewrite list_elem_of_fmap. intros ([p c'] & Hn & Hc'). apply I5 in Hc' as [? _]. cbn in *. lia. }
  split; cbn; try done.
  - intros p t. rewrite lookup_insert. case_decide as Heq.
    + intros [= <-]. subst p. split; [lia|]. split; [by left|].
      rewrite list_elem_of_fmap. intros ([p x] & Hp & Hx). apply I7 in Hx as (_ & c' & Hc' & _).
      apply Hfresh, list_elem_of_fmap. exists (p, c'). by cbn in *.
    + intros Ht. destruct (I4 p t Ht) as [Hp Hok]. split; [lia|].
      destruct t; [|done..]. destruct Hok as [Hc Hw]. split; [by right|done].
  - intros p c'. rewrite elem_of_cons. intros [[= -> ->]|Hc]; [by split_and!; [lia|..]|].
    destruct (I5 p c' Hc) as (? & ?). split; [lia|done].
  - by split; apply NoDup_cons.
  - intros p x Hx. destruct (I7 p x Hx) as (Hr & c' & Hc' & Hi). split; [done|]. exists c'. split; [by right|done].
Qed.

(** A write is issued by an execution that has not written, under a record of its own. *)
Lemma write_inv s p c x :
  system_inv s -> sy_tasks s !! p = Some (Revalidating c) -> ex_issued E c x ->
  recorded (ex_handle E x) (w_ledger (sy_world s)) -> ah_id (ex_handle E x) ∉ map record_of (sy_writes s) ->
  system_inv (mkSystem (sy_world s) (<[p := Writing x]> (sy_tasks s)) (sy_next s) (sy_admitted s)
                ((p, x) :: sy_writes s)).
Proof.
  intros [I1 I2 I3 I4 I5 I6 I7 [I8 I8']] Ht Hi Hr Hnew. destruct (I4 p _ Ht) as [Hp [Hc Hw]].
  split; cbn; try done.
  - intros p' t'. rewrite lookup_insert. case_decide as Heq.
    + intros [= <-]. subst p'. split; [done|]. by left.
    + intros Ht'. destruct (I4 p' t' Ht') as [Hp' Hok]. split; [done|]. destruct t' as [c'|x'|x' r|[r|e]]; cbn in *.
      * split; [apply Hok|]. rewrite not_elem_of_cons. split; [done|apply Hok].
      * by right.
      * split; [right|]; apply Hok.
      * destruct Hok as [?|?]; [by left|right]. by rewrite not_elem_of_cons.
      * done.
  - intros p' x'. rewrite elem_of_cons. intros [[= -> ->]|Hx]; [|by apply I7]. split; [done|]. by exists c.
  - by split; apply NoDup_cons.
Qed.

Lemma cancel_inv s p :
  system_inv s ->
  system_inv (mkSystem (sy_world s) (delete p (sy_tasks s)) (sy_next s) (sy_admitted s) (sy_writes s)).
Proof.
  intros [I1 I2 I3 I4 I5 I6 I7 I8]. split; cbn; try done.
  intros p' t'. rewrite lookup_delete. case_decide; [done|]. apply I4.
Qed.
(** ** Every event keeps the invariant *)

Lemma settled_task_inv s w p t :
  system_inv s -> evolves (sy_world s) w -> is_Some (sy_tasks s !! p) -> task_ok s p t ->
  system_inv (mkSystem w (<[p := t]> (sy_tasks s)) (sy_next s) (sy_admitted s) (sy_writes s)).
Proof.
  intros Hs Hw [t0 Ht0] Ht. apply (set_task_inv (with_world s w)); [by apply evolves_inv| |done].
  by apply (si_tasks s Hs p t0).
Qed.

Lemma ledger_begin_intent intent audit_id t l h (l' : Ledger S) :
  ledger_begin sha256_hex intent audit_id t l = (Ok h, l') -> ah_intent h = intent.
Proof.
  destruct (ledger_begin_cases sha256_hex intent audit_id t l) as [(e & s & -> & _)|(b & d & s & -> & _)]; [done|].
  by intros [= <- _].
Qed.

(** The record behind a handle [begin] just returned, which no earlier write shares. *)
Lemma begun_recorded l intent audit_id t h l' :
  ledger_inv l -> ledger_begin sha256_hex intent audit_id t l = (Ok h, l') ->
  recorded h l' /\ ah_intent h = intent /\ forall h', recorded h' l -> ah_id h' <> ah_id h.
Proof.
  intros Hl Hb. pose proof (run_ledger_inv sha256_hex l (CallBeginAudit intent audit_id t) Hl) as Hl'.
  cbn [run_ledger] in Hl'. rewrite Hb in Hl'. cbn [snd] in Hl'.
  destruct (ledger_begin_cases sha256_hex intent audit_id t l) as [(e & s & He & _)|(b & d & s & He & _ & _ & _ & _ & Ha)];
    rewrite He in Hb; [done|]. injection Hb as <- <-. split_and!; [|done|].
  - destruct (li_open _ Hl' audit_id (mkHandle audit_id d intent t (l_token l))) as (_ & _ & _ & Hq); [|exact Hq].
    cbn. by rewrite lookup_insert, decide_True.
  - cbn. intros h' (q & Hq & _) Heq. rewrite Heq in Hq.
    destruct (append_once audit_id (b ++ [("record_digest", VStr d)]) _ _ Hq) as [e' He']. congruence.
Qed.

Lemma submitted_inv s rq i : system_inv s -> system_inv (run_event s (Submitted rq i)).
Proof.
  intros Hs. destruct s as [w tasks next admitted writes]. cbn [run_event].
  assert (Hnew : forall s t, system_inv s -> task_ok s (sy_next s) t -> (forall c, t <> Revalidating c) ->
    system_inv (mkSystem (sy_world s) (<[sy_next s := t]> (sy_tasks s)) (Datatypes.S (sy_next s))
                  (sy_admitted s) (sy_writes s))).
  { intros s t Hs' Ht _. apply (set_task_inv (mkSystem (sy_world s) (sy_tasks s) (Datatypes.S (sy_next s))
                                   (sy_admitted s) (sy_writes s))); [|cbn; lia|done].
    destruct Hs' as [I1 I2 I3 I4 I5 I6 I7 I8]. split; cbn; try done.
    - intros p t' Hp. destruct (I4 p t' Hp). split; [lia|done].
    - intros p c Hc. destruct (I5 p c Hc). split; [lia|done]. }
  destruct (el_start _ laws rq i w (si_keyed _ Hs))
    as [(e & calls & ->)|(c & j & d & who & now & holder & repo & op & dg & tgt & at_ & t & Hg & Hv & -> & Ht)].
  { apply (Hnew (with_world (mkSystem w tasks next admitted writes) _)); [|done|done].
    apply evolves_inv; [done|]. split_and!; [by exists calls|by exists []|by exists []]. }
  pose proof Hv as (a & h & Ha & _ & Hauth & Hc & _)%verify_Ok_iff.
  assert (Hid : approval_id (ex_approval E c) = j) by (rewrite Hc; apply (si_keyed _ Hs _ _ Ha)).
  set (w' := mkWorld _ _ _). assert (Hw : evolves w w').
  { split_and!; [exists [Verify j d who now]|by exists [CallBegin (ex_key E c) holder repo op dg tgt at_]|by exists []].
    unfold run_approvals. cbn [foldl run_approval w' w_approvals]. by rewrite Hv. }
  pose proof (evolves_inv _ w' Hs Hw) as Hs'. destruct Ht as [[-> _]|[r ->]].
  - apply (admit_inv _ c Hs' Hg).
    + cbn. by rewrite Hid, lookup_insert, decide_True.
    + by rewrite Hc.
    + rewrite Hid. intros ([p c'] & Hp & Hc')%list_elem_of_fmap. unfold approval_of in Hp. cbn in Hp, Hc'.
      destruct (si_admitted _ Hs p c' Hc') as (_ & _ & Ha' & Hs''). rewrite <- Hp in Ha'. cbn in Ha'.
      rewrite Ha in Ha'. injection Ha' as ->. destruct Hauth as [Hauth _]. congruence.
  - replace (match @Finished C X B R r with Revalidating c0 => (next, c0) :: admitted | _ => admitted end)
      with admitted by done.
    apply (Hnew _ _ Hs'); [|done]. destruct r as [r|e]; [right|done]. cbn.
    intros ([p x] & Hp & Hx)%list_elem_of_fmap. destruct (si_writes _ Hs p x Hx) as (_ & c' & Hc' & _).
    apply (si_admitted _ Hs) in Hc' as [? _]. cbn in *. lia.
Qed.

Lemma answered_inv s p answer i : system_inv s -> system_inv (run_event s (Answered p answer i)).
Proof.
  intros Hs. destruct s as [w tasks next admitted writes]. cbn [run_event].
  destruct (tasks !! p) as [t|] eqn:Ht; [|done]. destruct (si_tasks _ Hs p t Ht) as [Hp Hok].
  assert (Hset : forall w' t', evolves w w' -> task_ok (mkSystem w tasks next admitted writes) p t' ->
    system_inv (mkSystem w' (<[p := t']> tasks) next admitted writes)).
  { intros w' t' Hw Ht'. by apply (settled_task_inv (mkSystem w tasks next admitted writes)). }
  destruct t as [c|x|x created|r]; [..|done].
  - destruct (el_revalidated _ laws c answer i w) 
      as [(x & intent & id & t & h & l' & Hi & Hh & _ & Hb & ->)|(e & w' & -> & Hw)].
    2: { apply Hset; [by eapply effects_evolves|done]. }
    destruct (begun_recorded _ _ _ _ _ _ (si_ledger _ Hs) Hb) as (Hrec & _ & Hfresh).
    set (w' := mkWorld _ _ _).
    assert (Hs' : system_inv (with_world (mkSystem w tasks next admitted writes) w')).
    { apply evolves_inv; [done|]. split_and!; [by exists []|by exists []|].
      exists [CallBeginAudit intent id t]. unfold run_ledgers. cbn [foldl run_ledger sy_world]. by rewrite Hb. }
    apply (write_inv _ p c x Hs'); try done; rewrite Hh; [done|].
    intros ([p' x'] & Hp' & Hx')%list_elem_of_fmap. unfold record_of in Hp'. cbn in Hp', Hx'.
    destruct (si_writes _ Hs p' x' Hx') as [Hrec' _]. by apply (Hfresh _ Hrec').
  - destruct (el_written _ laws x answer i w) as [(r & Ha & ->)|(e & w' & -> & Hw)];
      [|by apply Hset; [eapply effects_evolves|]].
    apply Hset; [by split_and!; exists []|by split].
  - destruct Hok as [Hx _]. destruct (si_writes _ Hs p x Hx) as (_ & c & Hc & Hi).
    destruct (el_read_back _ laws x created answer i w) as (r & w' & -> & Hw & Hr).
    apply Hset; [by eapply effects_evolves|]. destruct r as [r|e]; [left|done].
    by apply (Hr r c); [|apply (si_admitted _ Hs p)|].
Qed.

Lemma run_event_inv s e : system_inv s -> system_inv (run_event s e).
Proof.
  intros Hs. destruct e as [rq i|p answer i|p|c|c|c]; [by apply submitted_inv|by apply answered_inv|..];
    destruct s as [w tasks next admitted writes]; cbn [run_event].
  - by apply (cancel_inv (mkSystem w tasks next admitted writes)).
  - apply (evolves_inv _ _ Hs). split_and!; [by exists [c]|by exists []|by exists []].
  - apply (evolves_inv _ _ Hs). split_and!; [by exists []|by exists [c]|by exists []].
  - apply (evolves_inv _ _ Hs). split_and!; [by exists []|by exists []|by exists [c]].
Qed.

Lemma run_events_inv s es : system_inv s -> system_inv (run_events s es).
Proof. revert s. induction es as [|e es IH]; intros s Hs; [done|]. by apply IH, run_event_inv. Qed.

Lemma system_after_inv lease token sink es : system_inv (system_after lease token sink es).
Proof. apply run_events_inv, initial_inv. Qed.

(** At most one write per execution, per approval and per audit record. *)
Lemma writes_once (f : X -> string) s :
  system_inv s -> (forall c x, ex_granted E c -> ex_issued E c x -> f x = approval_id (ex_approval E c)) ->
  NoDup (map fst (sy_writes s)) /\ NoDup (map (fun px => f (snd px)) (sy_writes s))
  /\ NoDup (map (fun px => ah_id (ex_handle E (snd px))) (sy_writes s)).
Proof.
  intros Hs Hf. destruct (si_written_once _ Hs) as [Hp Hr]. destruct (si_admitted_once _ Hs) as [_ Ha].
  split_and!; [exact Hp| |exact Hr]. apply (NoDup_map_along fst _ _ Hp). intros [p1 x1] [p2 x2] H1 H2 Heq.
  destruct (si_writes _ Hs p1 x1 H1) as (_ & c1 & Hc1 & Hi1), (si_writes _ Hs p2 x2 H2) as (_ & c2 & Hc2 & Hi2).
  cbn in Heq |- *. rewrite (Hf c1 x1), (Hf c2 x2) in Heq by (done || by eapply si_admitted).
  by injection (NoDup_map_eq approval_of _ (p1, c1) (p2, c2) Ha Hc1 Hc2 Heq) as ->.
Qed.
End Laws.

(** * Writes per idempotency key

    Over any history of executions and of other users of the stores, the writes issued under one
    key are paid for by the events that released it. *)

Section Keys.
Context {S Rq I A C X B R : Type} `{AuditSinkLaws S}.
Variable sha256_hex : string -> string.
Variable E : Execution S Rq I A C X B R.
Hypothesis laws : ExecutionLaws sha256_hex E.

(** A call by which the store's other users may free a key for a new attempt. *)
Definition call_releases (k : string) (c : idem_call) : bool :=
  match c with
  | CallFailClean k' _ _ | CallReconcile k' false _ _ => String.eqb k' k
  | CallPurge _ _ => true
  | _ => false
  end.

(** The execution is over. *)
Definition is_over (t : task C X B R) : bool := match t with Finished _ => true | _ => false end.

(** An event that may free a key: an execution under the key that ended before its write, or whose
    write the provider refused cleanly; or such a call. *)
Definition event_releases (k : string) (s : System S C X B R) (e : event Rq I A) : bool :=
  match e with
  | IdempotencyUsed c => call_releases k c
  | Answered p answer i =>
      match sy_tasks s !! p with
      | Some (Revalidating c) =>
          String.eqb (ex_key E c) k && is_over (fst (ex_resume E (Revalidating c) answer i (sy_world s)))
      | Some (Writing x) => String.eqb (ex_write_key E x) k && ex_refused E x answer
      | _ => false
      end
  | _ => false
  end.

Fixpoint count_releases (k : string) (s : System S C X B R) (es : list (event Rq I A)) : nat :=
  match es with
  | [] => 0
  | e :: es => Nat.b2n (event_releases k s e) + count_releases k (run_event sha256_hex E s e) es
  end.

Definition admitted_under (k : string) (s : System S C X B R) : nat :=
  length (filter (fun pc => ex_key E (snd pc) = k) (sy_admitted s)).
Definition writes_under (k : string) (s : System S C X B R) : nat :=
  length (filter (fun px => ex_write_key E (snd px) = k) (sy_writes s)).

(** 1 if an attempt holds the key. *)
Definition held (k : string) (s : System S C X B R) : nat :=
  match key_phase_of (w_idempotency (sy_world s)) k with Free | FailedClean => 0 | _ => 1 end.

Lemma held_le k s : (held k s <= 1)%nat.
Proof. unfold held. destruct (key_phase_of _ _); lia. Qed.

Lemma held_taken k s : held k s = 1%nat <-> taken (key_phase_of (w_idempotency (sy_world s)) k).
Proof. unfold held, taken. destruct (key_phase_of _ _); split; try done; intros [? ?]; done. Qed.

Lemma call_keeps k c : call_releases k c = false -> ~ may_release k c.
Proof.
  intros Hc [(why & now & ->)|[(res & now & ->)|(now & ret & ->)]]; simpl in Hc;
    rewrite ?String.eqb_refl in Hc; done.
Qed.

(** Calls that do not release a held key keep it held. *)
Lemma held_calls k s s' cs :
  idem_inv (w_idempotency (sy_world s)) ->
  w_idempotency (sy_world s') = run_idems (w_idempotency (sy_world s)) cs ->
  Forall (fun c => ~ may_release k c) cs -> (held k s <= held k s')%nat.
Proof.
  intros Hi Hs Hcs. destruct (decide (held k s = 1%nat)) as [Hh|Hh]; [|pose proof (held_le k s); lia].
  rewrite Hh. apply held_taken in Hh. destruct (taken_run _ cs k Hi Hh Hcs) as [Ht _].
  rewrite <- Hs in Ht. apply held_taken in Ht. lia.
Qed.
(** A settlement of another key, or of this one without [clean], does not release it. *)
Lemma settling_keeps k key (clean : Prop) cs :
  Forall (settling key clean) cs -> (key = k -> ~ clean) -> Forall (fun c => ~ may_release k c) cs.
Proof.
  intros Hcs Hk. eapply Forall_impl; [exact Hcs|]. intros c Hc. apply call_keeps.
  destruct c; simpl in *; try done. destruct Hc as [-> Hclean]. apply String.eqb_neq. naive_solver.
Qed.

Lemma held_effects k key clean s s' :
  system_inv E s -> effects sha256_hex key clean (sy_world s) (sy_world s') ->
  (key = k -> ~ clean) -> (held k s <= held k s')%nat.
Proof.
  intros Hs [_ (cs & Hi & Hcs) _] Hk. eapply held_calls; [apply (si_idempotency _ _ Hs)|exact Hi|].
  by eapply settling_keeps.
Qed.

(** Admissions are paid for: by the key becoming held, or by a release. *)
Lemma answered_held k s p answer i :
  system_inv E s ->
  (held k s <= held k (run_event sha256_hex E s (Answered p answer i))
               + Nat.b2n (event_releases k s (Answered p answer i)))%nat.
Proof.
  intros Hs. pose proof (held_le k s). set (s' := run_event _ _ _ _).
  destruct (event_releases k s (Answered p answer i)) eqn:Hrel; [cbn; lia|]. cbn [Nat.b2n]. rewrite Nat.add_0_r.
  subst s'. destruct s as [w tasks next admitted writes]. cbn [run_event event_releases sy_tasks sy_world] in *.
  destruct (tasks !! p) as [[c|x|x created|r]|] eqn:Ht; try done.
  - destruct (el_revalidated _ _ laws c answer i w)
      as [(x & intent & id & t & h & l' & _ & _ & _ & _ & He)|(e & w' & He & Hw)]; rewrite He in *; [done|].
    apply (held_effects k (ex_key E c) True (mkSystem w tasks next admitted writes)); [done|exact Hw|].
    intros Hk. cbn in Hrel. by rewrite Hk, String.eqb_refl in Hrel.
  - destruct (el_written _ _ laws x answer i w) as [(r & _ & ->)|(e & w' & -> & Hw)]; [done|].
    eapply (held_effects k _ _ (mkSystem w tasks next admitted writes)); [done|exact Hw|].
    intros Hk Hr. by rewrite Hk, String.eqb_refl, Hr in Hrel.
  - destruct (el_read_back _ _ laws x created answer i w) as (r & w' & -> & Hw & _).
    eapply (held_effects k _ False (mkSystem w tasks next admitted writes)); [done|exact Hw|by intros _ ?].
Qed.

Lemma submitted_held k s rq i :
  system_inv E s ->
  let s' := run_event sha256_hex E s (Submitted rq i) in
  (admitted_under k s' + held k s <= admitted_under k s + held k s')%nat.
Proof.
  intros Hs. destruct s as [w tasks next admitted writes]. cbn [run_event].
  destruct (el_start _ _ laws rq i w (si_keyed _ _ Hs))
    as [(e & calls & ->)|(c & j & d & who & now & holder & repo & op & dg & tgt & at_ & t & _ & _ & -> & Ht)]; [done|].
  set (call := CallBegin (ex_key E c) holder repo op dg tgt at_) in *.
  set (w' := mkWorld _ _ _). cbn zeta.
  assert (Hkeep : forall t n a, (held k (mkSystem w tasks next admitted writes)
            <= held k (mkSystem w' t n a writes))%nat).
  { intros t' n a. eapply (held_calls k _ _ [call]); [apply (si_idempotency _ _ Hs)|done|].
    apply Forall_singleton. by apply call_keeps. }
  destruct Ht as [[-> Hcl]|[r ->]];
    [|specialize (Hkeep (<[next := Finished r]> tasks) (Datatypes.S next) admitted); unfold admitted_under; cbn in *; lia].
  set (s' := mkSystem w' _ _ _ _). unfold admitted_under. cbn [sy_admitted s'].
  rewrite filter_cons. cbn [snd]. case_decide as Hk; [|apply Nat.add_le_mono_l, Hkeep]. subst k.
  destruct (lifecycle_step _ call (ex_key E c) (si_idempotency _ _ Hs)) as (b & Hl & Hb). cbn [sy_world] in Hl, Hb.
  apply Hb in Hcl as ->. cbn [length].
  assert (held (ex_key E c) (mkSystem w tasks next admitted writes) = 0%nat /\ held (ex_key E c) s' = 1%nat)
    as [-> ->]; [|lia].
  unfold held. cbn [sy_world s' w_idempotency w'].
  inversion Hl as [|? ? ? ? ? ? ? ? Hp Hp' Hp2 Hp3| | | | | | |].
  change (run_idem (w_idempotency w) call) with (snd (begin_mutation (ex_key E c) holder repo op dg tgt at_ (w_idempotency w))).
  rewrite <- Hp3. by destruct Hp as [->| ->].
Qed.

Lemma admitted_bound k s e :
  system_inv E s ->
  (admitted_under k (run_event sha256_hex E s e) + held k s
   <= admitted_under k s + held k (run_event sha256_hex E s e) + Nat.b2n (event_releases k s e))%nat.
Proof.
  intros Hs. destruct e as [rq i|p answer i|p|c|c|c].
  - pose proof (submitted_held k s rq i Hs) as Hh. cbv zeta in Hh. lia.
  - pose proof (answered_held k s p answer i Hs) as Hh.
    assert (admitted_under k (run_event sha256_hex E s (Answered p answer i)) = admitted_under k s) as ->; [|lia].
    destruct s as [w tasks next admitted writes]. cbn [run_event].
    destruct (tasks !! p) as [[| | |]|]; try done; by destruct (ex_resume _ _ _ _ _).
  - destruct s; unfold held, admitted_under; cbn; lia.
  - destruct s; unfold held, admitted_under; cbn; lia.
  - pose proof (held_le k s). destruct (call_releases k c) eqn:Hc.
    + destruct s; cbn [run_event event_releases]; rewrite Hc; cbn; lia.
    + assert (held k s <= held k (run_event sha256_hex E s (IdempotencyUsed c)))%nat; [|destruct s; cbn in *; lia].
      apply (held_calls k s _ [c]); [apply (si_idempotency _ _ Hs)|by destruct s|].
      apply Forall_singleton. by apply call_keeps.
  - destruct s; unfold held, admitted_under; cbn; lia.
Qed.

Lemma admitted_bounds k s es :
  system_inv E s ->
  (admitted_under k (run_events sha256_hex E s es) + held k s
   <= admitted_under k s + 1 + count_releases k s es)%nat.
Proof.
  revert s. induction es as [|e es IH]; intros s Hs.
  - pose proof (held_le k s). cbn. lia.
  - cbn [run_events foldl count_releases]. pose proof (admitted_bound k s e Hs) as He.
    specialize (IH _ (run_event_inv sha256_hex E laws s e Hs)). cbn [run_events] in IH. lia.
Qed.

Lemma writes_le_admitted k s : system_inv E s -> (writes_under k s <= admitted_under k s)%nat.
Proof.
  intros Hs. unfold writes_under, admitted_under.
  rewrite <- (length_fmap fst (filter _ (sy_writes s))), <- (length_fmap fst (filter _ (sy_admitted s))).
  apply submseteq_length, NoDup_submseteq.
  - destruct (si_written_once _ _ Hs) as [Hnd _]. eapply sublist_NoDup; [exact Hnd|].
    apply fmap_sublist, sublist_filter.
  - intros p ([p' x] & -> & [Hk Hx]%list_elem_of_filter)%list_elem_of_fmap. cbn in Hk |- *.
    destruct (si_writes _ _ Hs p' x Hx) as (_ & c & Hc & Hi). pose proof (el_issued_key _ _ laws c x Hi) as Hkey.
    apply list_elem_of_fmap. exists (p', c). split; [done|]. apply list_elem_of_filter. cbn. by rewrite <- Hkey.
Qed.

(** At most one write under a key, plus one for each event that released it. *)
Lemma writes_per_release es k lease token sink :
  (writes_under k (system_after sha256_hex E lease token sink es)
   <= 1 + count_releases k (initial lease token sink) es)%nat.
Proof.
  pose proof (writes_le_admitted k _ (system_after_inv sha256_hex E laws lease token sink es)).
  pose proof (admitted_bounds k (initial lease token sink) es (initial_inv _ _ _ _)) as Hb.
  unfold system_after in *. cbn in Hb. lia.
Qed.
End Keys.
