(* ===== verification/MutationExecutor.v ===== *)
(** * The mutation executor ([v2/github_mutations.py])

    One execution is a state machine that suspends at the three provider calls: revalidation, the
    write, the read-back.  Between two suspensions it runs without interruption on the stores it
    shares with the other executions. *)
From S2P Require Import Prelude.
From S2P Require Import PyText.
From S2P Require Import PyValue.
From S2P Require Import Canonical.
From S2P Require Import MutationContract.
From S2P Require Import ToolSchema.
From S2P Require Import ToolRegistry.
From S2P Require Import Policy.
From S2P Require Import WriteCredentials.
From S2P Require Import MutationDigest.
From S2P Require Import MutationIdempotency.
From S2P Require Import MutationRegistry.
From S2P Require Import MutationAudit.
From S2P Require Import GovernedWorld.

Definition DEFAULT_POLICY_VERSION : string := "phase3.mutations.v1".
Definition MUTATION_RESULT_SCHEMA : string := "v2.phase3.mutation-result.1".
Definition MAX_RESPONSE_BYTES : Z := 256 * 1024.

(** [_assert_relative_path]: the path is accepted. *)
Definition relative_path (path : string) : bool :=
  String.prefix "/repos/" path && negb (contains "://" path) && negb (contains ".." path)
  && negb (contains "\" path) && (py_len path <=? 512) && all_chars (between 32 126) path.

(** [json.loads] of the content, an empty object if it is too large, not JSON or not an object
    ([HttpxMutationTransport._request] after the response arrived). *)
Definition parsed_response (max_bytes status : Z) (content : string) (loads : string -> option value) :
  ProviderResponse :=
  if max_bytes <? byte_len content then mkResponse status []
  else if String.eqb content "" then mkResponse status []
  else match loads content with Some (VDict d) => mkResponse status d | _ => mkResponse status [] end.

(** ** Requests, results, errors *)

Record MutationRequest := mkRequest {
  rq_principal : string;
  rq_tool_id : string;
  rq_arguments : list (string * value);
  rq_approval_id : string;
  rq_attempt_token : option string
}.

Record MutationResult := mkResult {
  rs_tool_id : string;
  rs_repository : string;
  rs_outcome : MutationOutcome;
  rs_verification : VerificationState;
  rs_evidence_class : EvidenceClass;
  rs_status : IdempotencyStatus;
  rs_digest : string;
  rs_key : string;
  rs_audit_id : option string;
  rs_evidence_digest : option string;
  rs_data : list (string * value);
  rs_stages : list MutationStage;
  rs_writes : Z
}.

(** [MutationResult.as_canonical] *)
Definition result_canonical (r : MutationResult) : list (string * value) :=
  [("schema", VStr MUTATION_RESULT_SCHEMA); ("tool_id", VStr (rs_tool_id r));
   ("repository", VStr (rs_repository r)); ("outcome", VStr (outcome_value (rs_outcome r)));
   ("verification", VStr (verification_value (rs_verification r)));
   ("evidence_class", VStr (evidence_value (rs_evidence_class r)));
   ("idempotency_status", VStr (status_value (rs_status r)));
   ("operation_digest", VStr (rs_digest r)); ("idempotency_key", VStr (rs_key r));
   ("data", VDict (rs_data r)); ("stages", VList (map (fun s => VStr (stage_value s)) (rs_stages r)));
   ("provider_writes", VInt (rs_writes r))]
  ++ opt_entry "audit_id" (rs_audit_id r) ++ opt_entry "evidence_digest" (rs_evidence_digest r).

(** [_shape_value] *)
Definition shape_value (v : value) : value :=
  match v with
  | VBool _ | VInt _ => v
  | VStr s => if (256 <? py_len s) || looks_secret_bearing s then VNone else v
  | _ => VNone
  end.

(** [_object_sha], [_ref_url], [_extract_sha] *)
Definition object_sha (p : list (string * value)) : value :=
  match arg "object" p with VDict d => arg "sha" d | _ => VNone end.
Definition ref_url (p : list (string * value)) : value :=
  match arg "url" p with VStr s => VStr s | _ => VNone end.
Definition extract_sha (tool : string) (p : list (string * value)) : value :=
  if String.eqb tool CREATE_BRANCH_TOOL_ID then arg "sha" p else object_sha p.

(** ** Endpoints *)

(** [template.format] with the keyword arguments [env]; the templates name only fields of [env]. *)
Fixpoint fill (env : list (string * string)) (name : option string) (template : string) : string :=
  match template with
  | EmptyString => ""
  | String c rest =>
      match name with
      | None => if Ascii.eqb c "{" then fill env (Some "") rest else String c (fill env None rest)
      | Some n =>
          if Ascii.eqb c "}" then default "" (dget n env) +:+ fill env None rest
          else fill env (Some (n +:+ String c "")) rest
      end
  end.

(** [repository.partition("/")] *)
Definition partition_repository (r : string) : string * string :=
  let '(o, rest) := split_once "/" r in (o, default "" rest).

(** [_endpoint] *)
Definition endpoint (template repository : string) (extra : list (string * string)) : string :=
  let '(o, r) := partition_repository repository in
  fill ([("owner", o); ("repo", r)] ++ extra) None template.

(** The string under a key of the resolved arguments. *)
Definition arg_str (k : string) (a : list (string * value)) : string :=
  match arg k a with VStr s => s | _ => "" end.

Definition is_branch (c : MutationContract) : bool := String.eqb (mc_tool_id c) CREATE_BRANCH_TOOL_ID.

(** [_descriptor] *)
Definition descriptor_of (c : MutationContract) (repository : string) (a : list (string * value))
  (policy_version snapshot_hash : string) : result mutation_exn OperationDescriptor :=
  let! p := preconditions_post_init
              (if is_branch c then mkPreconditions (Some (arg_str "base_sha" a)) None None
               else mkPreconditions None (Some (arg_str "expected_head_sha" a)) None) in
  descriptor_post_init
    (mkDescriptor (mc_tool_id c) (write_capability c) repository
       (List.filter (fun kv => negb (String.eqb (fst kv) "repository")) a) p policy_version snapshot_hash).

(** [_target], [_observed_preconditions], [_write_body] *)
Definition target_of (c : MutationContract) (a : list (string * value)) : string :=
  if is_branch c then arg_str "branch" a else arg_str "head" a.
Definition observed_preconditions (c : MutationContract) (a : list (string * value)) :
  list (string * string) :=
  if is_branch c then [("base_sha", arg_str "base_sha" a)]
  else [("expected_head_sha", arg_str "expected_head_sha" a)].
Definition write_body (c : MutationContract) (a : list (string * value)) : list (string * value) :=
  if is_branch c then [("ref", arg "ref" a); ("sha", arg "base_sha" a)]
  else [("title", arg "title" a); ("head", arg "head" a); ("base", arg "base" a); ("draft", arg "draft" a)]
       ++ (if truthy (arg "body" a) then [("body", arg "body" a)] else []).

(** ** One execution *)

(** What the executor is built with. *)
Record Executor := mkExecutor {
  ex_registry : ToolRegistry;
  ex_rules : PolicyRuleSet;
  ex_scope : GitHubRepositoryScope;
  ex_policy_version : string
}.

(** What the surroundings answer during one uninterrupted run: the executor's and the ledger's
    clock, call by call; the next audit id; and the credential broker at each of its three uses. *)
Record Inputs := mkInputs {
  in_clock : nat -> datetime;
  in_ledger_clock : datetime;
  in_audit_id : string;
  in_policy_broker : WriteCapabilityBroker;
  in_readiness_broker : WriteCapabilityBroker;
  in_authorize_broker : WriteCapabilityBroker
}.

(** The local variables of [execute] once the key is claimed. *)
Record Context := mkContext {
  cx_request : MutationRequest;
  cx_contract : MutationContract;
  cx_arguments : list (string * value);
  cx_repository : string;
  cx_authorization : string;
  cx_digest : string;
  cx_approval : ApprovalRecord;
  cx_key : string;
  cx_status : IdempotencyStatus;
  cx_stages : list MutationStage
}.

(** And once the write is issued. *)
Record WriteContext := mkWriteContext {
  wx_context : Context;
  wx_handle : AuditHandle;
  wx_started_at : datetime;
  wx_writes : Z
}.

(** Where an execution stands. *)
Abbreviation task := (GovernedWorld.task Context WriteContext ProviderResponse MutationResult).

(** [_replayed_result] *)
Definition replayed_result (c : MutationContract) (repository : string) (d : IdempotencyDecision)
  (digest key : string) (stages : list MutationStage) : MutationResult :=
  let r := id_record d in
  mkResult (mc_tool_id c) repository (ir_outcome r) NOT_ATTEMPTED
    (if bool_decide (ir_outcome r = Outcome_COMMITTED) then SUCCESS else BLOCKED) (id_status d)
    digest key None None (default [] (ir_result r)) stages 0.

(** [_shape] *)
Definition shape (c : MutationContract) (observed payload : list (string * value)) :
  list (string * value) :=
  omap (fun name =>
    let raw :=
      if String.eqb name "url" then
        if truthy (arg "html_url" payload) then arg "html_url" payload else ref_url payload
      else match dget name observed with Some v => v | None => arg name payload end in
    match shape_value raw with VNone => None | v => Some (name, v) end) (result_fields c).

Section Execute.
Context {S : Type} `{AuditSink S}.
Variable sha256_hex : string -> string.
Variable ex : Executor.

Abbreviation exec_op := (exec_op (S:=S)).

(** Stages 1 to 4: registry, scope, policy, credential; no store is touched. *)
Definition preflight (rq : MutationRequest) (i : Inputs) :
  result mutation_exn (MutationContract * list (string * value) * string * string) :=
  let! contract := get_mutation_contract (rq_tool_id rq) in
  let! arguments := normalize_arguments (mc_tool_id contract) (rq_arguments rq) in
  let repository := arg_str "repository" arguments in
  let '(owner, repo) := partition_repository repository in
  do! match scope_allows (ex_scope ex) owner repo with
      | None => Err (PyRaised ValueError)
      | Some true => Ok tt
      | Some false => Err (Denied MutationScopeError REPOSITORY_OUT_OF_SCOPE Stage_SCOPE "")
      end in
  let evaluation := evaluate (ex_registry ex) (ex_rules ex) (Some (in_policy_broker i)) (mc_tool_id contract) in
  do! match ev_decision evaluation with
      | Policy_APPROVAL_REQUIRED => Ok tt
      | Policy_ALLOW =>
          deny MUTATION_NOT_REGISTERED Stage_POLICY (reason_code_value (ev_reason evaluation))
      | Policy_DENY =>
          deny DESTRUCTIVE_OPERATION_FORBIDDEN Stage_POLICY (reason_code_value (ev_reason evaluation))
      end in
  let capability := capability_value (write_capability contract) in
  do! match readiness (in_readiness_broker i) capability with
      | None => write_capability_error WRITE_CAPABILITY_NOT_READY
      | Some r =>
          if wr_ready r then Ok tt
          else write_capability_error (default WRITE_CAPABILITY_NOT_READY (wr_reason r))
      end in
  let! authorization := authorize (in_authorize_broker i) capability repository in
  Ok (contract, arguments, repository, authorization).

(** [execute] up to its first suspension. *)
Definition start (rq : MutationRequest) (i : Inputs) : World S -> task * World S := suspends (
  let stages := [Stage_SCOPE; Stage_REGISTRY; Stage_POLICY; Stage_CREDENTIAL; Stage_APPROVAL] in
  let* pre := slift (preflight rq i) in
  let '(contract, arguments, repository, authorization) := pre in
  let* snapshot_hash := slift (raise_model (capability_snapshot_hash sha256_hex (ex_registry ex))) in
  let* descriptor := slift (descriptor_of contract repository arguments (ex_policy_version ex) snapshot_hash) in
  let* digest := slift (compute_operation_digest sha256_hex descriptor) in
  if String.eqb (rq_approval_id rq) "" then sraise (Denied ApprovalError APPROVAL_MISSING Stage_APPROVAL "")
  else
    let* approval := on_approvals (verify_and_consume sha256_hex (rq_approval_id rq) descriptor
                                     (rq_principal rq) (in_clock i 0)) in
    let stages := stages ++ [Stage_IDEMPOTENCY] in
    let* key := slift (compute_idempotency_key sha256_hex (rq_principal rq) (write_capability contract)
                         repository (mc_tool_id contract) digest (rq_attempt_token rq)) in
    let* decision := on_idempotency (begin_mutation key (rq_principal rq) repository (mc_tool_id contract)
                                       digest (target_of contract arguments) (in_clock i 1)) in
    if negb (status_executes (id_status decision)) then
      sret (Finished (Ok (replayed_result contract repository decision digest key stages)))
    else
      sret (Revalidating (mkContext rq contract arguments repository authorization digest approval key
              (id_status decision) (stages ++ [Stage_PRECONDITION_REVALIDATION])))).

(** The path a suspended execution waits for, and the body if it is the write. *)
Definition revalidation_path (c : Context) : string :=
  if is_branch (cx_contract c)
  then endpoint "/repos/{owner}/{repo}/git/commits/{sha}" (cx_repository c)
         [("sha", arg_str "base_sha" (cx_arguments c))]
  else endpoint "/repos/{owner}/{repo}/git/ref/heads/{branch}" (cx_repository c)
         [("branch", arg_str "head" (cx_arguments c))].

Definition write_path (c : Context) : string :=
  endpoint (endpoint_template (cx_contract c)) (cx_repository c) [].

Definition created_number (created : ProviderResponse) : option Z :=
  match arg "number" (response_payload created) with
  | VInt n => if n <? 1 then None else Some n
  | _ => None
  end.

Definition read_back_path (c : Context) (created : ProviderResponse) : string :=
  endpoint (rb_endpoint_template (read_back (cx_contract c))) (cx_repository c)
    (if is_branch (cx_contract c) then [("branch", arg_str "branch" (cx_arguments c))]
     else [("number", match created_number created with Some n => pretty n | None => "" end)]).

(** [_revalidate] after its request was answered; [None] is a [ProviderTransportError]. *)
Definition revalidate (c : Context) (answer : option ProviderResponse) : result mutation_exn unit :=
  let expected := if is_branch (cx_contract c) then arg_str "base_sha" (cx_arguments c)
                  else arg_str "expected_head_sha" (cx_arguments c) in
  let drift := Denied ConcurrencyDriftError PRECONDITION_DRIFT Stage_PRECONDITION_REVALIDATION "" in
  match answer with
  | None => Err (indeterminate Stage_PRECONDITION_REVALIDATION)
  | Some response =>
      if negb (status_code response =? 200) then Err drift
      else if negb (py_eq (extract_sha (mc_tool_id (cx_contract c)) (response_payload response)) (VStr expected))
      then Err drift
      else Ok tt
  end.

(** Stage 8: the intent of the write-ahead record, with its parts constructed first. *)
Definition build_intent (c : Context) : result mutation_exn MutationIntent :=
  let! hash := raise_model (capability_snapshot_hash sha256_hex (ex_registry ex)) in
  let! capability := capability_snapshot
        (mkSnapshot (write_capability (cx_contract c)) Cap_READY hash (ex_policy_version ex)) in
  let! approval := approval_reference
        (mkApprovalRef (approval_id (cx_approval c)) AS_PENDING (cx_digest c)) in
  mutation_intent
    (mkIntent (rq_principal (cx_request c)) (mc_tool_id (cx_contract c)) (cx_repository c) (cx_digest c)
       Policy_APPROVAL_REQUIRED capability (cx_key c) (cx_status c) (Some approval)
       (Some (observed_preconditions (cx_contract c) (cx_arguments c))) (Some hash)).

(** Stages 7 to 9, up to the write. *)
Definition after_revalidation (c : Context) (answer : option ProviderResponse) (i : Inputs) :
  World S -> task * World S := suspends (
  match revalidate c answer with
  | Err (Indeterminate r s) =>
      do* on_idempotency (mark_ambiguous (cx_key c) (in_clock i 0)) in sraise (Indeterminate r s)
  | Err (Denied d r s t) =>
      do* on_idempotency (fail_clean (cx_key c) r (in_clock i 0)) in sraise (Denied d r s t)
  | Err e => sraise e
  | Ok _ =>
      let* intent := slift (build_intent c) in
      let* handle := failing_clean (cx_key c) (in_clock i 0)
                       (on_ledger (ledger_begin sha256_hex intent (in_audit_id i) (in_ledger_clock i))) in
      let* w := sget in
      if negb (provider_call_permitted handle (w_ledger w)) then
        sraise (Denied MutationDeniedError AUDIT_RECORD_UNWRITABLE Stage_WRITE_AHEAD_AUDIT "")
      else
        let* writes := slift (guard_claim 0) in
        sret (Writing (mkWriteContext
          (mkContext (cx_request c) (cx_contract c) (cx_arguments c) (cx_repository c) (cx_authorization c)
             (cx_digest c) (cx_approval c) (cx_key c) (cx_status c)
             (cx_stages c ++ [Stage_WRITE_AHEAD_AUDIT; Stage_PROVIDER_CALL]))
          handle (in_clock i 0) writes))
  end).

(** [_finish_ambiguous], raised. *)
Definition finish_ambiguous {A} (c : WriteContext) (i : Inputs) (class : option string) (s : MutationStage)
  (v : VerificationState) : exec_op A :=
  settle_ambiguous sha256_hex (wx_handle c) (cx_key (wx_context c)) (wx_writes c) (wx_started_at c) class s v
    (in_clock i 0) (in_ledger_clock i) (in_clock i 1).

(** Stage 9 after the write was answered; [None] is a [ProviderTransportError]. *)
Definition after_write (c : WriteContext) (answer : option ProviderResponse) (i : Inputs) :
  World S -> task * World S := suspends (
  let x := wx_context c in
  match answer with
  | None => finish_ambiguous c i None Stage_PROVIDER_CALL UNVERIFIABLE
  | Some response =>
      match classify_status (cx_contract x) (status_code response) with
      | Outcome_AMBIGUOUS =>
          finish_ambiguous c i (Some (status_class response)) Stage_PROVIDER_CALL UNVERIFIABLE
      | Outcome_FAILED_CLEAN =>
          let reason := if status_code response =? 422 then REF_ALREADY_EXISTS else WRITE_CAPABILITY_NOT_READY in
          let* o := slift (provider_observation
                      (mkObservation Outcome_FAILED_CLEAN NOT_ATTEMPTED (wx_writes c) (wx_started_at c)
                         (in_clock i 0) (Some (status_class response)) (Some reason) None None)) in
          do* on_ledger (ledger_finalize sha256_hex (wx_handle c) o (in_ledger_clock i)) in
          do* on_idempotency (fail_clean (cx_key x) reason (in_clock i 1)) in
          sraise (Denied MutationDeniedError reason Stage_PROVIDER_CALL "")
      | _ =>
          if negb (is_branch (cx_contract x)) && bool_decide (created_number response = None) then
            finish_ambiguous c i (Some (status_class response)) Stage_READ_BACK UNVERIFIABLE
          else sret (ReadingBack c response)
      end
  end).

(** The loop of [_read_back] over the contract's verified fields. *)
Fixpoint check_fields (observed expected : list (string * value)) (fields : list string) :
  VerificationState * list (string * value) :=
  match fields with
  | [] => (VERIFIED, observed)
  | f :: rest =>
      match arg f observed with
      | VNone => (UNVERIFIABLE, [])
      | v => if negb (py_eq v (arg f expected)) then (MISMATCH, []) else check_fields observed expected rest
      end
  end.

(** [_read_back] after its request was answered. *)
Definition read_back_check (x : Context) (created : ProviderResponse) (answer : option ProviderResponse) :
  VerificationState * list (string * value) :=
  match answer with
  | None => (UNVERIFIABLE, [])
  | Some response =>
      let p := response_payload response in
      if negb (status_code response =? 200) || match p with [] => true | _ => false end
      then (UNVERIFIABLE, [])
      else
        let '(observed, expected) :=
          if is_branch (cx_contract x) then
            ([("ref", arg "ref" p); ("sha", object_sha p)],
             [("ref", arg "ref" (cx_arguments x)); ("sha", arg "base_sha" (cx_arguments x))])
          else
            ([("number", arg "number" p);
              ("head_sha", match arg "head" p with VDict d => arg "sha" d | _ => VNone end);
              ("state", arg "state" p)],
             [("number", arg "number" (response_payload created));
              ("head_sha", arg "expected_head_sha" (cx_arguments x)); ("state", VStr "open")]) in
        check_fields observed expected (verified_fields (read_back (cx_contract x)))
  end.

(** Stages 10 and 11. *)
Definition after_read_back (c : WriteContext) (created : ProviderResponse) (answer : option ProviderResponse)
  (i : Inputs) : World S -> task * World S := finished (
  let x := wx_context c in
  let '(verification, observed) := read_back_check x created answer in
  if negb (bool_decide (verification = VERIFIED)) then
    finish_ambiguous c i (Some (status_class created)) Stage_READ_BACK verification
  else
    let stages := cx_stages x ++ [Stage_READ_BACK; Stage_RESULT_SHAPING] in
    let data := shape (cx_contract x) observed (response_payload created) in
    let* o := slift (provider_observation
                (mkObservation Outcome_COMMITTED VERIFIED (wx_writes c) (wx_started_at c) (in_clock i 0)
                   (Some (status_class created)) None None None)) in
    let* evidence := on_ledger (ledger_finalize sha256_hex (wx_handle c) o (in_ledger_clock i)) in
    do* on_idempotency (commit_mutation (cx_key x) data (in_clock i 1)) in
    do* slift (assert_stage_order stages) in
    sret (mkResult (mc_tool_id (cx_contract x)) (cx_repository x) Outcome_COMMITTED VERIFIED SUCCESS
            (cx_status x) (cx_digest x) (cx_key x) (Some (me_audit_id evidence))
            (Some (me_evidence_digest evidence)) data stages (wx_writes c))).

(** What a suspended execution waits for. *)
Inductive provider_call : Type :=
| GetJson (path authorization : string)
| PostJson (path authorization : string) (body : list (string * value)).

Definition awaited (t : task) : option provider_call :=
  match t with
  | Revalidating c => Some (GetJson (revalidation_path c) (cx_authorization c))
  | Writing c =>
      let x := wx_context c in
      Some (PostJson (write_path x) (cx_authorization x) (write_body (cx_contract x) (cx_arguments x)))
  | ReadingBack c created =>
      Some (GetJson (read_back_path (wx_context c) created) (cx_authorization (wx_context c)))
  | Finished _ => None
  end.

(** The next run of a suspended execution, on the answer it waited for. *)
Definition resume (t : task) (answer : option ProviderResponse) (i : Inputs) : World S -> task * World S :=
  match t with
  | Revalidating c => after_revalidation c answer i
  | Writing c => after_write c answer i
  | ReadingBack c created => after_read_back c created answer i
  | Finished r => fun w => (Finished r, w)
  end.
End Execute.
