(* ===== verification/MutationRuns.v ===== *)
(** * The runs of one execution ([v2/github_mutations.py])

    What each uninterrupted run of [execute] does to the shared stores and where it leaves the
    execution: one inversion lemma per run, and an effects calculus for the runs that settle an
    attempt. *)
From S2P Require Import Prelude.
From S2P Require Import PyText.
From S2P Require Import PyValue.
From S2P Require Import Canonical.
From S2P Require Import MutationContract.
From S2P Require Import ToolSchema.
From S2P Require Import ToolRegistry.
From S2P Require Import Policy.
From S2P Require Import WriteCredentials.
From S2P Require Import MutationDigest.
From S2P Require Import MutationIdempotency.
From S2P Require Import MutationLifecycle.
From S2P Require Import MutationRegistry.
From S2P Require Import MutationAudit.
From S2P Require Import GovernedWorld.
From S2P Require Import MutationExecutor.

(** The stages an execution has walked when it suspends for the revalidation, and for the write. *)
Definition stages_claimed : list MutationStage :=
  [Stage_SCOPE; Stage_REGISTRY; Stage_POLICY; Stage_CREDENTIAL; Stage_APPROVAL; Stage_IDEMPOTENCY;
   Stage_PRECONDITION_REVALIDATION].
Definition stages_writing : list MutationStage :=
  stages_claimed ++ [Stage_WRITE_AHEAD_AUDIT; Stage_PROVIDER_CALL].

Section Runs.
Context {S : Type} `{AuditSinkLaws S}.
Variable sha256_hex : string -> string.
Variable ex : Executor.
Abbreviation start := (start (S:=S) sha256_hex ex).
Abbreviation resume := (resume (S:=S) sha256_hex ex).

(** ** Admission: the run up to the idempotency claim *)

(** Everything stages 1 to 5 establish about an execution, on the world [w] it started in. *)
Record admission (rq : MutationRequest) (i : Inputs) (w : World S) (c : Context) : Prop := {
  ad_request : cx_request c = rq;
  ad_preflight : preflight ex rq i
    = Ok (cx_contract c, cx_arguments c, cx_repository c, cx_authorization c);
  ad_approved : exists snapshot d a,
    capability_snapshot_hash sha256_hex (ex_registry ex) = Ok snapshot
    /\ descriptor_of (cx_contract c) (cx_repository c) (cx_arguments c) (ex_policy_version ex) snapshot = Ok d
    /\ compute_operation_digest sha256_hex d = Ok (cx_digest c)
    /\ w_approvals w !! rq_approval_id rq = Some a
    /\ authorises a d (cx_digest c) (rq_principal rq) (in_clock i 0)
    /\ cx_approval c = set_consumed a (astimezone_utc (in_clock i 0));
  ad_key : compute_idempotency_key sha256_hex (rq_principal rq) (write_capability (cx_contract c))
    (cx_repository c) (mc_tool_id (cx_contract c)) (cx_digest c) (rq_attempt_token rq) = Ok (cx_key c);
  ad_status : cx_status c = Status_NEW;
  ad_stages : cx_stages c = stages_claimed
}.

(** The claim an admitted execution makes. *)
Definition claim_of (c : Context) (now : datetime) : idem_op IdempotencyDecision :=
  begin_mutation (cx_key c) (rq_principal (cx_request c)) (cx_repository c)
    (mc_tool_id (cx_contract c)) (cx_digest c) (target_of (cx_contract c) (cx_arguments c)) now.

Definition after_claim (c : Context) (r : result mutation_exn IdempotencyDecision) : task :=
  match r with
  | Err e => Finished (Err e)
  | Ok d => if status_executes (id_status d) then Revalidating c
            else Finished (Ok (replayed_result (cx_contract c) (cx_repository c) d (cx_digest c)
                                 (cx_key c) (take 6 stages_claimed)))
  end.

(** The two ways the first run ends: refused without touching the claims, at most verifying an
    approval; or admitted, with the approval consumed, and then as the claim is answered. *)
Lemma start_cases rq i w :
  (exists e calls, start rq i w
     = (Finished (Err e), mkWorld (run_approvals sha256_hex (w_approvals w) calls) (w_idempotency w) (w_ledger w)))
  \/ exists c, admission rq i w c
     /\ start rq i w
        = (after_claim c (fst (claim_of c (in_clock i 1) (w_idempotency w))),
           mkWorld (<[rq_approval_id rq := cx_approval c]> (w_approvals w))
             (snd (claim_of c (in_clock i 1) (w_idempotency w))) (w_ledger w)).
Proof.
  assert (Hsame : forall e, exists e' calls, ((Finished (Err e) : task), w)
     = (Finished (Err e'), mkWorld (run_approvals sha256_hex (w_approvals w) calls) (w_idempotency w) (w_ledger w)))
    by (intros e; exists e, []; by destruct w).
  unfold start, suspends. rewrite sbind_lift.
  destruct (preflight ex rq i) as [[[[contract arguments] repository] auth]|e] eqn:Hpre; [|left; apply Hsame].
  rewrite sbind_lift.
  destruct (raise_model (capability_snapshot_hash sha256_hex (ex_registry ex))) as [snap|e] eqn:Hsnap;
    [|left; apply Hsame].
  rewrite sbind_lift.
  destruct (descriptor_of contract repository arguments (ex_policy_version ex) snap) as [d|e] eqn:Hd;
    [|left; apply Hsame].
  rewrite sbind_lift.
  destruct (compute_operation_digest sha256_hex d) as [h|e] eqn:Hh; [|left; apply Hsame].
  destruct (String.eqb (rq_approval_id rq) ""); [left; apply Hsame|].
  assert (Hcall : run_approvals sha256_hex (w_approvals w)
      [Verify (rq_approval_id rq) d (rq_principal rq) (in_clock i 0)]
    = snd (verify_and_consume sha256_hex (rq_approval_id rq) d (rq_principal rq) (in_clock i 0) (w_approvals w)))
    by done.
  rewrite sbind_unfold, on_approvals_unfold.
  destruct (verify_and_consume sha256_hex (rq_approval_id rq) d (rq_principal rq) (in_clock i 0) (w_approvals w))
    as [[a'|e] m'] eqn:Hv; [|left; eexists e, [_]; by rewrite Hcall].
  pose proof Hv as (a & h' & Ha & Hh' & Hauth & -> & ->)%verify_Ok_iff.
  rewrite Hh in Hh'. injection Hh' as <-. cbn [fst snd]. cbv zeta. rewrite sbind_lift.
  destruct (compute_idempotency_key sha256_hex (rq_principal rq) (write_capability contract) repository
              (mc_tool_id contract) h (rq_attempt_token rq)) as [key|e] eqn:Hkey;
    [|left; eexists e, [_]; by rewrite Hcall].
  right.
  set (c := mkContext rq contract arguments repository auth h (set_consumed a (astimezone_utc (in_clock i 0)))
              key Status_NEW stages_claimed).
  exists c. split.
  { split; [done|exact Hpre| |exact Hkey|done|done]. apply raise_model_Ok in Hsnap.
    exists snap, d, a. split_and!; done. }
  rewrite sbind_unfold, on_idempotency_unfold. unfold claim_of. cbn [w_idempotency w_approvals w_ledger cx_key cx_request c
    cx_repository cx_contract cx_digest cx_arguments cx_approval].
  destruct (begin_mutation _ _ _ _ _ _ _ _) as [[dec|e] s1] eqn:Hb; [|done].
  cbn [fst snd after_claim]. unfold status_executes.
  destruct (bool_decide_reflect (id_status dec = Status_NEW)) as [Hn|]; [|done].
  unfold negb, sret. by rewrite Hn.
Qed.
End Runs.

Section Resumptions.
Context {S : Type} `{AuditSinkLaws S}.
Variable sha256_hex : string -> string.
Variable ex : Executor.
Abbreviation effects := (effects sha256_hex).

(** ** After the revalidation *)

Definition issue_write (c : Context) (h : AuditHandle) (now : datetime) : WriteContext :=
  mkWriteContext
    (mkContext (cx_request c) (cx_contract c) (cx_arguments c) (cx_repository c) (cx_authorization c)
       (cx_digest c) (cx_approval c) (cx_key c) (cx_status c)
       (cx_stages c ++ [Stage_WRITE_AHEAD_AUDIT; Stage_PROVIDER_CALL])) h now 1.

(** Either the write is issued, with the precondition just confirmed and the record of the intent
    just written; or the execution ends, and at most this attempt is settled. *)
Lemma after_revalidation_cases c answer i w :
  (exists intent h l', revalidate c answer = Ok tt /\ build_intent sha256_hex ex c = Ok intent
     /\ ledger_begin sha256_hex intent (in_audit_id i) (in_ledger_clock i) (w_ledger w) = (Ok h, l')
     /\ after_revalidation sha256_hex ex c answer i w
        = (Writing (issue_write c h (in_clock i 0)), mkWorld (w_approvals w) (w_idempotency w) l'))
  \/ exists e w', after_revalidation sha256_hex ex c answer i w = (Finished (Err e), w')
     /\ effects (cx_key c) True w w'.
Proof.
  unfold after_revalidation. rewrite suspends_eq.
  destruct (revalidate c answer) as [[]|e] eqn:Hr.
  2: { right. assert (Hend : forall m : exec_op (S:=S) task, (forall w, is_ok (fst (m w)) = false) ->
         settles sha256_hex (cx_key c) True m -> exists e w',
           (match fst (m w) with Ok t => t | Err e => Finished (Err e) end, snd (m w)) = (Finished (Err e), w')
           /\ effects (cx_key c) True w w').
       { intros m He Hm. specialize (He w). specialize (Hm w). destruct (m w) as [[t|e'] w']; [done|].
         by exists e', w'. }
       destruct e; apply Hend; try (intros w1; rewrite ?sbind_unfold; repeat case_match; done); settle. }
  rewrite sbind_lift. destruct (build_intent sha256_hex ex c) as [intent|e] eqn:Hi.
  2: { right. exists e, w. split; [done|reflexivity]. }
  rewrite sbind_unfold. unfold failing_clean. rewrite on_ledger_unfold.
  pose proof (settles_begin sha256_hex (cx_key c) True intent (in_audit_id i) (in_ledger_clock i) w) as Hb.
  rewrite on_ledger_unfold in Hb. cbn [snd] in Hb.
  destruct (ledger_begin sha256_hex intent (in_audit_id i) (in_ledger_clock i) (w_ledger w)) as [[h|e] l'] eqn:Hl;
    cbn [fst snd] in *.
  - rewrite sbind_unfold. unfold sget. cbn [w_ledger].
    destruct (provider_call_permitted h l'); [left|right].
    + by exists intent, h, l'.
    + do 2 eexists. split; [done|exact Hb].
  - right. destruct e as [d r s t|r s|p]; try (do 2 eexists; split; [done|exact Hb]).
    pose proof (settles_fail_clean sha256_hex (cx_key c) True r (in_clock i 0) I
                  (mkWorld (w_approvals w) (w_idempotency w) l')) as Hf.
    rewrite sbind_unfold. destruct (on_idempotency _ _) as [[a|e] w1] eqn:Hw;
      (do 2 eexists; split; [done|]; etrans; [exact Hb|exact Hf]).
Qed.
(** ** After the write *)

(** The provider refused the write, in a way that proves nothing was created. *)
Definition refused (c : MutationContract) (answer : option ProviderResponse) : Prop :=
  exists r, answer = Some r /\ classify_status c (status_code r) = Outcome_FAILED_CLEAN.

Lemma finish_ambiguous_raises {A} c i class s v (w : World S) :
  is_ok (fst (finish_ambiguous (A:=A) sha256_hex c i class s v w)) = false.
Proof. unfold finish_ambiguous, settle_ambiguous. apply raises_bind. intros. repeat (apply raises_bind; intros). done. Qed.

Lemma finish_ambiguous_settles {A} c i class s v clean :
  settles sha256_hex (cx_key (wx_context c)) clean (finish_ambiguous (A:=A) (S:=S) sha256_hex c i class s v).
Proof. unfold finish_ambiguous, settle_ambiguous. settle. Qed.

Lemma classify_total c n : classify_status c n = Outcome_COMMITTED
  \/ classify_status c n = Outcome_FAILED_CLEAN \/ classify_status c n = Outcome_AMBIGUOUS.
Proof. unfold classify_status. destruct (z_in _ _); [auto|]. destruct (z_in _ _); auto. Qed.

Lemma after_write_cases c answer i (w : World S) :
  (exists r, answer = Some r
     /\ classify_status (cx_contract (wx_context c)) (status_code r) = Outcome_COMMITTED
     /\ (is_branch (cx_contract (wx_context c)) = true \/ is_Some (created_number r))
     /\ after_write sha256_hex c answer i w = (ReadingBack c r, w))
  \/ exists e w', after_write sha256_hex c answer i w = (Finished (Err e), w')
     /\ effects (cx_key (wx_context c)) (refused (cx_contract (wx_context c)) answer) w w'.
Proof.
  unfold after_write. rewrite suspends_eq.
  assert (Hamb : forall class s v, exists e w',
    (match fst (finish_ambiguous (A:=task) sha256_hex c i class s v w) with
     | Ok t => t | Err e => Finished (Err e) end,
     snd (finish_ambiguous (A:=task) sha256_hex c i class s v w)) = (Finished (Err e), w')
    /\ effects (cx_key (wx_context c)) (refused (cx_contract (wx_context c)) answer) w w').
  { intros class s v. eapply (ends_badly _ _ _ _ (fun r => match r with Ok t => t | Err e => Finished (Err e) end));
      [done|apply finish_ambiguous_raises|apply finish_ambiguous_settles]. }
  destruct answer as [r|]; [|right; apply Hamb].
  destruct (classify_total (cx_contract (wx_context c)) (status_code r)) as [Hc|[Hc|Hc]]; rewrite Hc.
  - destruct (is_branch (cx_contract (wx_context c))) eqn:Hb; cbn [negb andb].
    { left. exists r. split_and!; auto. }
    case_bool_decide as Hn; [right; apply Hamb|left]. exists r. split_and!; try done. right.
    by apply not_eq_None_Some.
  - right. eapply (ends_badly _ _ _ _ (fun r => match r with Ok t => t | Err e => Finished (Err e) end)); [done|..].
    + apply raises_bind. intros. repeat (apply raises_bind; intros). done.
    + settle. by exists r.
  - right; apply Hamb.
Qed.

(** ** After the read-back *)

(** What a successful execution reports. *)
Definition success_result (c : WriteContext) (created : ProviderResponse) (observed : list (string * value))
  (e : MutationEvidence) : MutationResult :=
  let x := wx_context c in
  mkResult (mc_tool_id (cx_contract x)) (cx_repository x) Outcome_COMMITTED VERIFIED SUCCESS (cx_status x)
    (cx_digest x) (cx_key x) (Some (me_audit_id e)) (Some (me_evidence_digest e))
    (shape (cx_contract x) observed (response_payload created))
    (cx_stages x ++ [Stage_READ_BACK; Stage_RESULT_SHAPING]) (wx_writes c).

(** Success needs a verified read-back, the evidence sealed and the key committed. *)
Lemma after_read_back_cases c created answer i (w : World S) :
  let x := wx_context c in
  (exists observed o e rec w',
     read_back_check x created answer = (VERIFIED, observed)
     /\ provider_observation (mkObservation Outcome_COMMITTED VERIFIED (wx_writes c) (wx_started_at c)
          (in_clock i 0) (Some (status_class created)) None None None) = Ok o
     /\ ledger_finalize sha256_hex (wx_handle c) o (in_ledger_clock i) (w_ledger w) = (Ok e, w_ledger w')
     /\ commit_mutation (cx_key x) (shape (cx_contract x) observed (response_payload created)) (in_clock i 1)
          (w_idempotency w) = (Ok rec, w_idempotency w')
     /\ after_read_back sha256_hex c created answer i w
        = (Finished (Ok (success_result c created observed e)), w')
     /\ effects (cx_key x) False w w')
  \/ exists e w', after_read_back sha256_hex c created answer i w = (Finished (Err e), w')
     /\ effects (cx_key x) False w w'.
Proof.
  intros x. unfold after_read_back. rewrite finished_eq. fold x.
  destruct (read_back_check x created answer) as [v observed] eqn:Hv.
  destruct (bool_decide_reflect (v = VERIFIED)) as [->|Hne]; cbn [negb].
  2: { right. eapply (ends_badly _ _ _ _ Finished); [done|apply finish_ambiguous_raises|].
       apply finish_ambiguous_settles. }
  set (m := sbind _ _). assert (Heff : effects (cx_key x) False w (snd (m w))).
  { enough (settles sha256_hex (cx_key x) False m) as Hm by apply Hm. unfold m. settle. }
  destruct (m w) as [[r|e] w'] eqn:Hm; [left|right; by exists e, w'].
  unfold m in Hm. clear m. res_inv. unfold slift, sret, on_ledger, on_idempotency in *.
  repeat match goal with
  | H : (_, _) = (_, _) |- _ => injection H as H; subst
  | H : (let '(_, _) := ?y in _) = _ |- _ => destruct y eqn:?
  end.
  match goal with
  | Ho : provider_observation _ = Ok ?o, Hf : ledger_finalize _ _ _ _ (w_ledger ?w0) = (Ok ?e, ?l),
    Hc : commit_mutation _ _ _ _ = (Ok ?r, ?s) |- _ =>
      exists observed, o, e, r, (mkWorld (w_approvals w0) s l);
      split_and!; [reflexivity|exact Ho|exact Hf|exact Hc|reflexivity|exact Heff]
  end.
Qed.
End Resumptions.
