(* ===== verification/MutationGuarantees.v ===== *)
(** * Concurrent executions ([v2/github_mutations.py])

    The executor of the create operations as an execution over the governed stores, with its laws;
    [GovernedSystem] runs any number of them concurrently. *)
From S2P Require Import Prelude.
From S2P Require Import PyText.
From S2P Require Import PyValue.
From S2P Require Import Canonical.
From S2P Require Import ToolSchema.
From S2P Require Import MutationContract.
From S2P Require Import ToolRegistry.
From S2P Require Import Policy.
From S2P Require Import WriteCredentials.
From S2P Require Import MutationDigest.
From S2P Require Import MutationIdempotency.
From S2P Require Import MutationLifecycle.
From S2P Require Import MutationRegistry.
From S2P Require Import MutationAudit.
From S2P Require Import GovernedWorld.
From S2P Require Import GovernedSystem.
From S2P Require Import MutationExecutor.
From S2P Require Import MutationRuns.

Section System.
Context {S : Type} `{AuditSinkLaws S}.
Variable sha256_hex : string -> string.
Variable ex : Executor.

(** What was established about an execution when it was admitted. *)
Definition granted (c : Context) : Prop :=
  exists i (w : World S), admission sha256_hex ex (cx_request c) i w c
  /\ approval_id (cx_approval c) = rq_approval_id (cx_request c).

(** The write of an admitted execution: issued after a matching revalidation, with the intent of
    the same execution recorded under the handle. *)
Definition issued (c : Context) (x : WriteContext) : Prop :=
  exists answer intent h now, revalidate c answer = Ok tt /\ build_intent sha256_hex ex c = Ok intent
  /\ x = issue_write c h now /\ ah_intent h = intent.

(** The provider's answer by which it accepted the write. *)
Definition acknowledged (x : WriteContext) (r : ProviderResponse) : Prop :=
  classify_status (cx_contract (wx_context x)) (status_code r) = Outcome_COMMITTED.

(** The provider's answer by which it refused the write, with nothing created. *)
Definition cleanly_refused (x : WriteContext) (answer : option ProviderResponse) : bool :=
  match answer with
  | Some r => bool_decide (classify_status (cx_contract (wx_context x)) (status_code r) = Outcome_FAILED_CLEAN)
  | None => false
  end.

(** [MutationExecutor.execute] as an execution. *)
Definition mutations : Execution S MutationRequest Inputs (option ProviderResponse) Context WriteContext
  ProviderResponse MutationResult :=
  mkExecution (start sha256_hex ex) (resume sha256_hex ex) cx_approval wx_handle granted issued acknowledged
    (fun r => rs_status r = Status_NEW)
    cx_key (fun x => cx_key (wx_context x)) cleanly_refused.

Lemma granted_status c : granted c -> cx_status c = Status_NEW.
Proof. intros (i & w & Had & _). by eapply ad_status. Qed.

Lemma issued_context c x : issued c x -> wx_context x = wx_context (issue_write c (wx_handle x) (wx_started_at x))
  /\ wx_writes x = 1.
Proof. by intros (answer & intent & h & now & _ & _ & -> & _). Qed.

Lemma mutations_start rq i (w : World S) :
  keyed (w_approvals w) ->
  (exists e calls, start sha256_hex ex rq i w
     = (Finished (Err e), mkWorld (run_approvals sha256_hex (w_approvals w) calls) (w_idempotency w) (w_ledger w)))
  \/ exists c j d who now holder repo op digest target at_ t,
     let claim := CallBegin (cx_key c) holder repo op digest target at_ in
     granted c
     /\ verify_and_consume sha256_hex j d who now (w_approvals w) = (Ok (cx_approval c), <[j := cx_approval c]> (w_approvals w))
     /\ start sha256_hex ex rq i w
        = (t, mkWorld (<[j := cx_approval c]> (w_approvals w)) (run_idem (w_idempotency w) claim) (w_ledger w))
     /\ (t = Revalidating c /\ claims (w_idempotency w) claim (cx_key c) \/ exists r, t = Finished r).
Proof.
  intros Hk. destruct (start_cases sha256_hex ex rq i w) as [Hl|(c & Had & ->)]; [by left|right].
  pose proof (ad_request _ _ _ _ _ _ Had) as Hrq.
  destruct (ad_approved _ _ _ _ _ _ Had) as (snap & d & a & _ & _ & Hd & Ha & Hauth & Hc).
  exists c, (rq_approval_id rq), d, (rq_principal rq), (in_clock i 0), (rq_principal (cx_request c)),
    (cx_repository c), (mc_tool_id (cx_contract c)), (cx_digest c), (target_of (cx_contract c) (cx_arguments c)),
    (in_clock i 1). eexists. split_and!.
  - exists i, w. rewrite Hrq. split; [done|]. rewrite Hc. cbn. by apply Hk.
  - apply verify_Ok_iff. exists a, (cx_digest c). by split_and!.
  - reflexivity.
  - unfold after_claim. destruct (fst _) as [dec|e] eqn:Hdec; [destruct (status_executes (id_status dec)) eqn:Hnew|]; eauto.
    left. split; [done|]. do 6 eexists. exists dec. split_and!; [reflexivity|exact Hdec|].
    by apply bool_decide_eq_true in Hnew.
Qed.

Lemma mutations_laws : ExecutionLaws sha256_hex mutations.
Proof.
  split; cbn [ex_start ex_resume ex_approval ex_handle ex_granted ex_issued ex_acknowledged ex_wrote ex_key
    ex_write_key ex_refused mutations resume].
  - apply mutations_start.
  - intros c answer i w. destruct (after_revalidation_cases sha256_hex ex c answer i w)
      as [(intent & h & l' & Hr & Hi & Hb & ->)|(e & w' & -> & Hw)]; [left|right; by exists e, w'].
    exists (issue_write c h (in_clock i 0)), intent, (in_audit_id i), (in_ledger_clock i), h, l'.
    split_and!; try done. exists answer, intent, h, (in_clock i 0). split_and!; try done.
    by apply ledger_begin_intent in Hb.
  - intros x answer i w. destruct (after_write_cases sha256_hex x answer i w) as [(r & -> & Hc & _ & ->)|(e & w' & -> & Hw)].
    + left. by exists r.
    + right. exists e, w'. split; [done|]. eapply effects_mono; [|exact Hw]. intros (r & -> & Hr). cbn.
      by apply bool_decide_eq_true.
  - intros x created answer i w. destruct (after_read_back_cases sha256_hex x created answer i w)
      as [(observed & o & e & rec & w' & _ & _ & _ & _ & -> & Hw)|(e & w' & -> & Hw)]; do 2 eexists.
    + split_and!; [done|exact Hw|]. intros v c [= <-] Hg Hi. cbn.
      destruct (issued_context c x Hi) as [-> _]. exact (granted_status c Hg).
    + by split_and!; [done|exact Hw|].
  - intros c x Hi. by destruct (issued_context c x Hi) as [-> _].
Qed.

Lemma written_status s p x :
  system_inv mutations s -> (p, x) ∈ sy_writes s -> cx_status (wx_context x) = Status_NEW.
Proof.
  intros Hs Hx. destruct (si_writes _ _ Hs p x Hx) as (_ & c & Hc & Hi).
  destruct (issued_context c x Hi) as [-> _]. apply (granted_status c), (si_admitted _ _ Hs p c Hc).
Qed.
End System.

(** The system of executions of the create operations. *)
Abbreviation event := (GovernedSystem.event MutationRequest Inputs (option ProviderResponse)).
Abbreviation System S := (GovernedSystem.System S Context WriteContext ProviderResponse MutationResult).
Abbreviation run_event sha256_hex ex := (GovernedSystem.run_event sha256_hex (mutations sha256_hex ex)).
Abbreviation run_events sha256_hex ex := (GovernedSystem.run_events sha256_hex (mutations sha256_hex ex)).
Abbreviation system_after sha256_hex ex := (GovernedSystem.system_after sha256_hex (mutations sha256_hex ex)).
Abbreviation system_inv sha256_hex ex := (GovernedSystem.system_inv (mutations sha256_hex ex)).

(** * What the executor guarantees ([v2/github_mutations.py])

    Over any history of executions and of other users of the stores: what a write needs, how many
    there can be, what a success means; and that an execution ends. *)

Section Preflight.
Variable ex : Executor.

(** What stages 1 to 4 establish. *)
Record cleared (rq : MutationRequest) (c : Context) : Prop := {
  cl_contract : get_mutation_contract (rq_tool_id rq) = Ok (cx_contract c) /\ contract_ok (cx_contract c);
  cl_arguments : normalize_arguments (mc_tool_id (cx_contract c)) (rq_arguments rq) = Ok (cx_arguments c)
    /\ resolved (mc_tool_id (cx_contract c)) (cx_arguments c)
    /\ cx_repository c = arg_str "repository" (cx_arguments c);
  cl_scope : scope_allows (ex_scope ex) (fst (partition_repository (cx_repository c)))
    (snd (partition_repository (cx_repository c))) = Some true;
  cl_policy : exists broker, ev_decision (evaluate (ex_registry ex) (ex_rules ex) (Some broker)
      (mc_tool_id (cx_contract c))) = Policy_APPROVAL_REQUIRED;
  cl_credential : exists broker, authorize broker (capability_value (write_capability (cx_contract c)))
      (cx_repository c) = Ok (cx_authorization c)
}.

Lemma preflight_cleared rq i c :
  preflight ex rq i = Ok (cx_contract c, cx_arguments c, cx_repository c, cx_authorization c) ->
  cleared rq c.
Proof.
  unfold preflight. intros Hp. apply rbind_Ok in Hp as (contract & Hc & Hp).
  apply rbind_Ok in Hp as (arguments & Ha & Hp).
  destruct (partition_repository (arg_str "repository" arguments)) as [owner repo] eqn:Hr.
  apply rbind_Ok in Hp as (u1 & Hs & Hp). apply rbind_Ok in Hp as (u2 & Hpol & Hp).
  apply rbind_Ok in Hp as (u3 & Hcr & Hp). apply rbind_Ok in Hp as (auth & Hau & Hp).
  injection Hp as E1 E2 E3 E4. subst contract arguments auth. rewrite E3 in Hr, Hau.
  pose proof (get_mutation_contract_spec (rq_tool_id rq)) as Hspec. rewrite Hc in Hspec.
  split.
  - split; [done|apply Hspec].
  - split_and!; [done|by eapply normalize_arguments_Ok|done].
  - rewrite Hr. cbn. by destruct (scope_allows _ _ _) as [[]|].
  - exists (in_policy_broker i). by destruct (ev_decision _).
  - by exists (in_authorize_broker i).
Qed.
End Preflight.

(** ** What a write needs *)

Section Writes.
Context {S : Type} `{AuditSinkLaws S}.
Variable sha256_hex : string -> string.
Variable ex : Executor.

(** The descriptor the approval of an admitted execution was verified against. *)
Record approved (s : System S) (c : Context) (d : OperationDescriptor) : Prop := {
  ap_descriptor : exists snapshot, capability_snapshot_hash sha256_hex (ex_registry ex) = Ok snapshot
    /\ descriptor_of (cx_contract c) (cx_repository c) (cx_arguments c) (ex_policy_version ex) snapshot = Ok d;
  ap_digest : compute_operation_digest sha256_hex d = Ok (cx_digest c)
    /\ approved_digest (cx_approval c) = cx_digest c;
  ap_stored : w_approvals (sy_world s) !! rq_approval_id (cx_request c) = Some (cx_approval c)
    /\ state (cx_approval c) = AS_CONSUMED;
  ap_scope : approved_repository (cx_approval c) = cx_repository c
    /\ approved_operation (cx_approval c) = mc_tool_id (cx_contract c)
    /\ principal (cx_approval c) = rq_principal (cx_request c)
}.

(** Everything behind a write. *)
Record authorised (s : System S) (x : WriteContext) : Prop := {
  aw_cleared : cleared ex (cx_request (wx_context x)) (wx_context x);
  aw_approved : exists d, approved s (wx_context x) d;
  aw_key : compute_idempotency_key sha256_hex (rq_principal (cx_request (wx_context x)))
    (write_capability (cx_contract (wx_context x))) (cx_repository (wx_context x))
    (mc_tool_id (cx_contract (wx_context x))) (cx_digest (wx_context x))
    (rq_attempt_token (cx_request (wx_context x))) = Ok (cx_key (wx_context x));
  aw_confirmed : exists answer, revalidate (wx_context x) answer = Ok tt;
  aw_recorded : recorded (wx_handle x) (w_ledger (sy_world s))
    /\ mi_digest (ah_intent (wx_handle x)) = cx_digest (wx_context x)
    /\ mi_key (ah_intent (wx_handle x)) = cx_key (wx_context x)
    /\ mi_principal (ah_intent (wx_handle x)) = rq_principal (cx_request (wx_context x));
  aw_once : wx_writes x = 1
}.

Lemma descriptor_of_Ok c repo a pv snap d :
  descriptor_of c repo a pv snap = Ok d ->
  operation d = mc_tool_id c /\ repository d = repo
  /\ arguments d = List.filter (fun kv => negb (String.eqb (fst kv) "repository")) a.
Proof.
  unfold descriptor_of. intros Hd. apply rbind_Ok in Hd as (pre & _ & Hd).
  unfold descriptor_post_init in Hd. cbn [operation repository arguments] in Hd.
  apply rbind_Ok in Hd as (u1 & _ & Hd). apply rbind_Ok in Hd as (u2 & _ & Hd).
  apply rbind_Ok in Hd as (a' & Ha & Hd). apply rbind_Ok in Hd as (u3 & _ & Hd).
  apply rbind_Ok in Hd as (u4 & _ & Hd). injection Hd as <-. cbn. split_and!; try done.
  unfold canonical_arguments in Ha. by destruct (canonical_json_text _) as [|[]]; try injection Ha as <-.
Qed.

Lemma build_intent_Ok c intent :
  build_intent sha256_hex ex c = Ok intent ->
  mi_digest intent = cx_digest c /\ mi_key intent = cx_key c
  /\ mi_principal intent = rq_principal (cx_request c).
Proof.
  unfold build_intent, mutation_intent. intros Hi. res_inv. done.
Qed.

Lemma write_authorised s p x : system_inv sha256_hex ex s -> (p, x) ∈ sy_writes s -> authorised s x.
Proof.
  intros Hs Hx. destruct (si_writes _ _ Hs p x Hx) as (Hrec & c & Hc & answer & intent & h & now & Hr & Hi & -> & Hint).
  destruct (si_admitted _ _ Hs p c Hc) as (_ & (i & w & Had & Hid) & Hst & Hcon).
  destruct Had as [_ Hpre (snap & d & a & Hsnap & Hd & Hdig & Ha & Hauth & Hap) Hkey _ _].
  destruct (descriptor_of_Ok _ _ _ _ _ _ Hd) as (Ho & Hrepo & _).
  destruct (build_intent_Ok _ _ Hi) as (Hm1 & Hm2 & Hm3).
  destruct Hauth as (_ & _ & Hd1 & Hd2 & Hd3 & Hd4 & _).
  split.
  - exact (preflight_cleared ex _ i (wx_context (issue_write c h now)) Hpre).
  - exists d. split.
    + exists snap. exact (conj Hsnap Hd).
    + split; [exact Hdig|]. cbn [issue_write wx_context cx_approval cx_digest]. by rewrite Hap.
    + cbn [issue_write wx_context cx_approval cx_request]. rewrite <- Hid. exact (conj Hst Hcon).
    + cbn [issue_write wx_context cx_approval cx_request cx_repository cx_contract].
      rewrite Hap, <- Hrepo, <- Ho. exact (conj Hd2 (conj Hd3 Hd4)).
  - exact Hkey.
  - exists answer. exact Hr.
  - rewrite <- Hint in Hm1, Hm2, Hm3. exact (conj Hrec (conj Hm1 (conj Hm2 Hm3))).
  - reflexivity.
Qed.

(** The admission behind a write. *)
Lemma write_admitted s p x :
  system_inv sha256_hex ex s -> (p, x) ∈ sy_writes s ->
  exists c, (p, c) ∈ sy_admitted s
  /\ rq_approval_id (cx_request (wx_context x)) = approval_id (cx_approval c)
  /\ cx_key (wx_context x) = cx_key c.
Proof.
  intros Hs Hx. destruct (si_writes _ _ Hs p x Hx) as (_ & c & Hc & answer & intent & h & now & _ & _ & -> & _).
  exists c. split; [done|]. destruct (si_admitted _ _ Hs p c Hc) as (_ & (i & w & _ & Hid) & _).
  split; [|done]. symmetry. exact Hid.
Qed.
End Writes.

(** What a write sends to the provider. *)
Definition sent (x : WriteContext) : option provider_call := awaited (Writing x).

(** A value that is its own canonical form. *)
Definition flat (v : value) : Prop := match v with VStr _ | VBool _ => True | _ => False end.

Lemma normal_flat v w : flat w -> normal v = normal w -> v = w.
Proof. destruct w; try done; destruct v; simpl; congruence. Qed.

Lemma resolved_flat tool a : resolved tool a -> NoDup (dkeys a) /\ forall k v, dget k a = Some v -> flat v.
Proof.
  intros Hr. split; [destruct Hr; unfold dkeys; simpl; keys_distinct|].
  intros k v Hv%dget_elem.
  destruct Hr; repeat (apply elem_of_cons in Hv as [[= -> ->]|Hv]; [done|]); by apply elem_of_nil in Hv.
Qed.

Lemma filtered_keys k (a : list (string * value)) :
  dget k (List.filter (fun kv => negb (String.eqb (fst kv) "repository")) a)
  = if String.eqb k "repository" then None else dget k a.
Proof.
  induction a as [|[k' v] a IH]; cbn [List.filter fst dget]; [by destruct (String.eqb k _)|].
  destruct (String.eqb_spec k' "repository") as [->|Hr]; cbn [negb dget].
  - rewrite IH. by destruct (String.eqb k "repository").
  - rewrite IH. destruct (String.eqb_spec k k') as [->|Hk]; [|done].
    by rewrite (proj2 (String.eqb_neq _ _) Hr).
Qed.

Lemma NoDup_filtered (p : string * value -> bool) a : NoDup (dkeys a) -> NoDup (dkeys (List.filter p a)).
Proof.
  induction a as [|[k v] a IH]; [done|]. cbn. rewrite NoDup_cons. intros [Hk Ha].
  destruct (p (k, v)); cbn; [|by apply IH]. rewrite NoDup_cons. split; [|by apply IH].
  rewrite !list_elem_of_In. intros ([k' v'] & <- & [Hin _]%filter_In)%in_map_iff. apply Hk.
  rewrite list_elem_of_In. apply in_map_iff. by exists (k', v').
Qed.

Section Binding.
Context {S : Type} `{AuditSinkLaws S}.
Variable sha256_hex : string -> string.
Hypothesis sha256_collision_free : forall x y, sha256_hex x = sha256_hex y -> x = y.
Variable ex : Executor.

(** An operation with the approved digest has the arguments that are executed. *)
Lemma approved_arguments (s : System S) c d d0 k :
  approved sha256_hex ex s c d -> cleared ex (cx_request c) c ->
  compute_operation_digest sha256_hex d0 = Ok (cx_digest c) ->
  NoDup (dkeys (arguments d0)) -> k <> "repository" -> arg k (arguments d0) = arg k (cx_arguments c).
Proof.
  intros [(snap & _ & Hd) [Hdig _] _ _] [_ (_ & Hres & _) _ _ _] Hd0 Hnd Hk.
  destruct (resolved_flat _ _ Hres) as [Hnd' Hflat].
  destruct (descriptor_of_Ok _ _ _ _ _ _ Hd) as (_ & _ & Ha).
  pose proof (proj1 (operation_digest_eq sha256_hex sha256_collision_free d0 d _ _ Hd0 Hdig) eq_refl)
    as (_ & _ & _ & Hn & _).
  rewrite Ha in Hn. apply (normal_dict_get _ _ k) in Hn; [|done|by apply NoDup_filtered].
  rewrite filtered_keys, (proj2 (String.eqb_neq _ _) Hk) in Hn. unfold arg.
  destruct (dget k (cx_arguments c)) as [v|] eqn:Hv, (dget k (arguments d0)) as [v0|]; try done.
  injection Hn as Hn. cbn. apply normal_flat; [by eapply Hflat|done].
Qed.
End Binding.

(** ** The guarantees *)

Section Guarantees.
Context {S : Type} `{AuditSinkLaws S}.
Variable sha256_hex : string -> string.
Variable ex : Executor.

(** A system after any history, from fresh stores. *)
Variable lease token : Z.
Variable sink : S.
Abbreviation after es := (system_after sha256_hex ex lease token sink es).

Lemma after_inv es : system_inv sha256_hex ex (after es).
Proof. apply system_after_inv, mutations_laws. Qed.


(** At most one write per execution, per approval and per audit record, over any history. *)
Theorem writes_are_single es :
  let writes := sy_writes (system_after sha256_hex ex lease token sink es) in
  NoDup (map fst writes)
  /\ NoDup (map (fun px => rq_approval_id (cx_request (wx_context (snd px)))) writes)
  /\ NoDup (map (fun px => ah_id (wx_handle (snd px))) writes).
Proof.
  apply (writes_once (mutations sha256_hex ex) (fun x => rq_approval_id (cx_request (wx_context x))) _ (after_inv es)).
  intros c x (i & w & _ & Hid) (answer & intent & h & now & _ & _ & -> & _). symmetry. exact Hid.
Qed.

(** [C5] What goes out is what was approved: if an approval was given for the operation [d0], by its
    digest, then the write it let through is a POST to the endpoint of [d0]'s operation in [d0]'s
    repository, with the body [d0]'s arguments give, whatever was submitted. *)
Theorem writes_send_what_was_approved es p x d0 :
  (forall u v, sha256_hex u = sha256_hex v -> u = v) ->
  (p, x) ∈ sy_writes (after es) ->
  compute_operation_digest sha256_hex d0 = Ok (approved_digest (cx_approval (wx_context x))) ->
  NoDup (dkeys (arguments d0)) ->
  mc_tool_id (cx_contract (wx_context x)) = operation d0
  /\ awaited (Writing x)
     = Some (PostJson (endpoint (endpoint_template (cx_contract (wx_context x))) (repository d0) [])
               (cx_authorization (wx_context x)) (write_body (cx_contract (wx_context x)) (arguments d0))).
Proof.
  intros Hsha Hx Hd0 Hnd. destruct (write_authorised _ _ _ _ _ (after_inv es) Hx) as [Hcl [d Hd] _ _ _ _].
  destruct (ap_digest _ _ _ _ _ Hd) as [Hdig Heq]. rewrite Heq in Hd0.
  destruct (operation_digest_eq sha256_hex Hsha d0 d _ _ Hd0 Hdig) as [Hsame _].
  destruct (Hsame eq_refl) as (Ho & _ & Hr & _).
  destruct (ap_descriptor _ _ _ _ _ Hd) as (snap & _ & (Ho' & Hr' & _)%descriptor_of_Ok).
  split; [congruence|]. cbn [awaited]. unfold write_path. do 2 f_equal; [congruence|].
  assert (Ha : forall k, k <> "repository" -> arg k (arguments d0) = arg k (cx_arguments (wx_context x))).
  { intros k Hk. by eapply approved_arguments. }
  unfold write_body. by rewrite !Ha.
Qed.
(** [C6] Writes under one idempotency key, over any history and however executions interleave: at most
    one, plus one for each event that released the key: an execution under it that ended before
    its write or was refused cleanly by the provider, a reconciliation that found the write absent,
    or a purge.  A write that may have happened is never repeated on its own. *)
Theorem writes_per_key es k :
  (writes_under (mutations sha256_hex ex) k (after es)
   <= 1 + count_releases sha256_hex (mutations sha256_hex ex) k (initial lease token sink) es)%nat.
Proof. apply writes_per_release, mutations_laws. Qed.
End Guarantees.

(** ** What a success means *)

Section Success.
(** The provider reports the created object as it was asked for. *)
Definition confirmed (c : Context) (created : ProviderResponse) (answer : option ProviderResponse) : Prop :=
  exists r, answer = Some r /\ status_code r = 200
  /\ if is_branch (cx_contract c) then
       arg "ref" (response_payload r) = arg "ref" (cx_arguments c)
       /\ object_sha (response_payload r) = arg "base_sha" (cx_arguments c)
     else
       py_eq (arg "number" (response_payload r)) (arg "number" (response_payload created)) = true
       /\ (exists h, arg "head" (response_payload r) = VDict h
             /\ arg "sha" h = arg "expected_head_sha" (cx_arguments c))
       /\ arg "state" (response_payload r) = VStr "open".

Lemma check_fields_verified observed expected fields o :
  check_fields observed expected fields = (VERIFIED, o) ->
  forall f, f ∈ fields -> py_eq (arg f observed) (arg f expected) = true.
Proof.
  induction fields as [|f fields IH]; intros Hc g Hg; [by apply elem_of_nil in Hg|]. cbn [check_fields] in Hc.
  assert (py_eq (arg f observed) (arg f expected) = true /\ check_fields observed expected fields = (VERIFIED, o))
    as [Hf Hrest].
  { destruct (arg f observed); try done; cbv iota in Hc; by destruct (py_eq _ _). }
  apply elem_of_cons in Hg as [->|Hg]; [done|]. by apply IH.
Qed.

Lemma read_back_confirmed c created answer observed :
  contract_ok (cx_contract c) -> resolved (mc_tool_id (cx_contract c)) (cx_arguments c) ->
  read_back_check c created answer = (VERIFIED, observed) -> confirmed c created answer.
Proof.
  intros Hok Hres. unfold read_back_check, confirmed, is_branch. rewrite (co_fields _ Hok).
  destruct answer as [r|]; [|done].
  destruct (_ || _) eqn:Hst; [done|]. apply orb_false_iff in Hst as [Hst _]. bool_prop.
  intros Hv. exists r. split; [done|]. split; [done|]. revert Hv.
  remember (mc_tool_id (cx_contract c)) as tool eqn:Ht. remember (cx_arguments c) as a eqn:Ha.
  destruct Hres as [base_sha branch repo|base body draft sha head repo title].
  - rewrite String.eqb_refl. intros Hc. pose proof (check_fields_verified _ _ _ _ Hc) as Hf.
    pose proof (Hf "ref" ltac:(by left)) as Href. pose proof (Hf "sha" ltac:(by right; left)) as Hsha.
    split; apply py_eq_str; [exact Href|exact Hsha].
  - change (String.eqb CREATE_PR_TOOL_ID CREATE_BRANCH_TOOL_ID) with false. cbv iota.
    intros Hc. pose proof (check_fields_verified _ _ _ _ Hc) as Hf.
    pose proof (Hf "number" ltac:(by left)) as Hn. pose proof (Hf "head_sha" ltac:(by right; left)) as Hs.
    pose proof (Hf "state" ltac:(by right; right; left)) as Hst'.
    split; [exact Hn|]. split; [|by apply py_eq_str].
    change (py_eq match arg "head" (response_payload r) with VDict d => arg "sha" d | _ => VNone end (VStr sha) = true) in Hs.
    apply py_eq_str in Hs. destruct (arg "head" (response_payload r)) as [| | | | | |h|]; try done. by exists h.
Qed.
End Success.

Section Outcomes.
Context {S : Type} `{AuditSinkLaws S}.
Variable sha256_hex : string -> string.
Variable ex : Executor.
Variable lease token : Z.
Variable sink : S.
Abbreviation after es := (system_after sha256_hex ex lease token sink es).

Lemma written_stages s p x :
  system_inv sha256_hex ex s -> (p, x) ∈ sy_writes s -> cx_stages (wx_context x) = stages_writing.
Proof.
  intros Hs Hx. destruct (si_writes _ _ Hs p x Hx) as (_ & c & Hc & answer & intent & h & now & _ & _ & -> & _).
  destruct (si_admitted _ _ Hs p c Hc) as (_ & (i & w & Had & _) & _).
  cbn [issue_write wx_context cx_stages]. by rewrite (ad_stages _ _ _ _ _ _ Had).
Qed.

(** [C7] Success is proved, never assumed: when a run ends an execution successfully, in any history,
    it had written (once, with status 201) and it was the read-back that ended it: the provider
    reported the object as it was asked for, the attempt was sealed as evidence under its own
    record and committed under its key with the reported data, and every stage was walked in the
    documented order. *)
Theorem success_is_proved es p t answer i r w :
  sy_tasks (after es) !! p = Some t -> (forall r, t <> Finished r) ->
  resume sha256_hex ex t answer i (sy_world (after es)) = (Finished (Ok r), w) ->
  exists x created, (p, x) ∈ sy_writes (after es) /\ t = ReadingBack x created
  /\ status_code created = 201 /\ confirmed (wx_context x) created answer
  /\ rs_outcome r = Outcome_COMMITTED /\ rs_verification r = VERIFIED /\ rs_evidence_class r = SUCCESS
  /\ rs_status r = Status_NEW /\ rs_writes r = 1 /\ rs_stages r = MUTATION_STAGE_ORDER
  /\ rs_key r = cx_key (wx_context x) /\ key_phase_of (w_idempotency w) (rs_key r) = CommittedWith (rs_data r)
  /\ rs_audit_id r = Some (ah_id (wx_handle x)) /\ ah_id (wx_handle x) ∈ l_finalized (w_ledger w).
Proof.
  intros Ht Hnot Hres. pose proof (after_inv sha256_hex ex lease token sink es) as Hs.
  destruct t as [c|x|x created|r0]; cbn [resume] in Hres; [..|by destruct (Hnot r0)].
  - destruct (after_revalidation_cases sha256_hex ex c answer i (sy_world (after es)))
      as [(? & ? & ? & _ & _ & _ & He)|(? & ? & He & _)]; rewrite He in Hres; discriminate Hres.
  - destruct (after_write_cases sha256_hex x answer i (sy_world (after es)))
      as [(? & _ & _ & _ & He)|(? & ? & He & _)]; rewrite He in Hres; discriminate Hres.
  - destruct (after_read_back_cases sha256_hex x created answer i (sy_world (after es)))
      as [(observed & o & e & rec & w' & Hrb & _ & Hf & Hc & He & _)|(e & w' & He & _)];
      rewrite He in Hres; [|discriminate Hres]. injection Hres as <- <-.
    destruct (si_tasks _ _ Hs p _ Ht) as [_ [Hx Hst]].
    destruct (write_authorised _ _ _ _ _ Hs Hx) as [[[_ Hok] (_ & Hargs & _) _ _ _] _ _ _ _ Honce].
    exists x, created. cbn [success_result rs_outcome rs_verification rs_evidence_class rs_status rs_writes
      rs_stages rs_key rs_data rs_audit_id].
    split_and!; try done.
    + cbn in Hst. unfold acknowledged, classify_status in Hst. destruct (co_status _ Hok) as [H1 H2]. rewrite H1, H2 in Hst. clear -Hst.
      cbn in Hst. destruct (Z.eqb_spec (status_code created) 201); [done|]. cbn in Hst. by case_match.
    + by eapply read_back_confirmed.
    + by eapply written_status.
    + by rewrite (written_stages _ _ _ Hs Hx).
    + eapply committed_phase; [apply (si_idempotency _ _ Hs)|exact Hc].
    + destruct (finalize_cases sha256_hex (wx_handle x) o (in_ledger_clock i) (w_ledger (sy_world (after es))))
        as [(e' & Hf')|(e' & Hf' & _ & _ & _ & _ & _ & Hid & _)]; rewrite Hf' in Hf; [done|].
      injection Hf as <- _. by rewrite Hid.
    + destruct (finalize_cases sha256_hex (wx_handle x) o (in_ledger_clock i) (w_ledger (sy_world (after es))))
        as [(e' & Hf')|(e' & Hf' & _)]; rewrite Hf' in Hf; [done|]. injection Hf as _ <-. cbn. set_solver.
Qed.
(** A replay reports the record and does nothing else: an execution that ends in its first run
    with a result found its key committed or in progress; it reports that record's outcome and
    result, claims no verification and no write, and leaves the keys and the audit ledger as they
    were. *)
Theorem replay_reports_record es rq i r w :
  start sha256_hex ex rq i (sy_world (after es)) = (Finished (Ok r), w) ->
  exists rec, records (w_idempotency (sy_world (after es))) !! rs_key r = Some rec
  /\ (ir_outcome rec = Outcome_COMMITTED /\ rs_status r = Status_REPLAYED /\ rs_evidence_class r = SUCCESS
      \/ ir_outcome rec = Outcome_PENDING /\ rs_status r = Status_IN_PROGRESS /\ rs_evidence_class r = BLOCKED)
  /\ rs_outcome r = ir_outcome rec /\ rs_data r = default [] (ir_result rec)
  /\ rs_verification r = NOT_ATTEMPTED /\ rs_writes r = 0
  /\ w_idempotency w = w_idempotency (sy_world (after es)) /\ w_ledger w = w_ledger (sy_world (after es)).
Proof.
  intros Hst. pose proof (after_inv sha256_hex ex lease token sink es) as Hs.
  destruct (start_cases sha256_hex ex rq i (sy_world (after es))) as [(e & calls & He)|(c & _ & He)];
    rewrite He in Hst; [discriminate Hst|]. injection Hst as Hr <-.
  destruct (begin_cases (cx_key c) (rq_principal (cx_request c)) (cx_repository c) (mc_tool_id (cx_contract c))
              (cx_digest c) (target_of (cx_contract c) (cx_arguments c)) (in_clock i 1) _ (si_idempotency _ _ Hs))
    as [Hb _]. fold (claim_of c (in_clock i 1)) in *. unfold claim_of in *.
  destruct (begin_mutation _ _ _ _ _ _ _ _) as [res s'] eqn:Hbm. cbn [fst snd] in *.
  clear Hbm He. assert (Hrep : forall d, id_status d <> Status_NEW ->
      after_claim c (Ok d) = Finished (Ok r) ->
      r = replayed_result (cx_contract c) (cx_repository c) d (cx_digest c) (cx_key c) (take 6 stages_claimed)).
  { intros d Hn Hd. unfold after_claim, status_executes in Hd.
    rewrite (bool_decide_false _ Hn) in Hd. by injection Hd. }
  inversion Hb as [e He'|e k s0 _ He'|rec rs Hrec Ho Hrs He'|rec l Hrec Ho Hl He'|rec l s0 _ _ _ _ _ _ He'];
    subst res s'; try discriminate Hr; exists rec; apply Hrep in Hr; try done; subst r; unfold replayed_result;
    cbn [id_record id_status rs_key rs_status rs_evidence_class rs_outcome rs_data rs_verification rs_writes
         w_idempotency w_ledger].
  - split; [exact Hrec|]. split; [left|done]. split; [done|]. split; [done|]. by rewrite bool_decide_true.
  - split; [exact Hrec|]. split; [right|done]. split; [done|]. split; [done|].
    rewrite bool_decide_false; [done|congruence].
Qed.

(** An execution ends: whatever the provider answers (a transport error included) and whatever
    happens to the stores in between, the third answer at the latest finishes it. *)
Theorem execution_ends rq i0 w0 a1 i1 w1 a2 i2 w2 a3 i3 w3 :
  let t1 := fst (start (S:=S) sha256_hex ex rq i0 w0) in
  let t2 := fst (resume sha256_hex ex t1 a1 i1 w1) in
  let t3 := fst (resume sha256_hex ex t2 a2 i2 w2) in
  exists r, fst (resume sha256_hex ex t3 a3 i3 w3) = Finished r.
Proof.
  intros t1 t2 t3.
  assert (Hback : forall x created a i w, exists r, fst (resume sha256_hex ex (ReadingBack x created) a i w) = Finished r).
  { intros x created a i w. cbn [resume].
    destruct (after_read_back_cases sha256_hex x created a i w)
      as [(? & ? & ? & ? & ? & _ & _ & _ & _ & -> & _)|(? & ? & -> & _)]; by eexists. }
  assert (Hwrite : forall x a i w, (exists r, fst (resume sha256_hex ex (Writing x) a i w) = ReadingBack x r)
      \/ exists r, fst (resume sha256_hex ex (Writing x) a i w) = Finished r).
  { intros x a i w. cbn [resume].
    destruct (after_write_cases sha256_hex x a i w) as [(r & _ & _ & _ & ->)|(? & ? & -> & _)]; eauto. }
  assert (Hreval : forall c a i w, (exists x, fst (resume sha256_hex ex (Revalidating c) a i w) = Writing x)
      \/ exists r, fst (resume sha256_hex ex (Revalidating c) a i w) = Finished r).
  { intros c a i w. cbn [resume].
    destruct (after_revalidation_cases sha256_hex ex c a i w) as [(? & ? & ? & _ & _ & _ & ->)|(? & ? & -> & _)]; eauto. }
  assert (H1 : (exists c, t1 = Revalidating c) \/ exists r, t1 = Finished r).
  { subst t1. destruct (start_cases sha256_hex ex rq i0 w0) as [(e & calls & ->)|(c & _ & ->)]; cbn [fst]; [eauto|].
    destruct (fst (claim_of _ _ _)) as [dec|e]; cbn [after_claim]; [destruct (status_executes _)|]; eauto. }
  assert (H2 : (exists x, t2 = Writing x) \/ exists r, t2 = Finished r).
  { subst t2. destruct H1 as [[c ->]|[r ->]]; [apply Hreval|cbn; eauto]. }
  assert (H3 : (exists x r, t3 = ReadingBack x r) \/ exists r, t3 = Finished r).
  { subst t3. destruct H2 as [[x ->]|[r ->]]; [|cbn; eauto]. destruct (Hwrite x a2 i2 w2) as [[r ->]|[r ->]]; eauto. }
  destruct H3 as [(x & r & ->)|[r ->]]; [apply Hback|by exists r].
Qed.
End Outcomes.
