(* ===== verification/MutationWitness.v ===== *)
(** * Concrete histories of the mutation executor

    One deployment (two registered mutations, one repository, one credential) and histories of it:
    the runs the theorems are applied to, and runs that show what the code does in corner cases. *)
From S2P Require Import Prelude.
From S2P Require Import PyText.
From S2P Require Import PyValue.
From S2P Require Import Canonical.
From S2P Require Import MutationContract.
From S2P Require Import ToolSchema.
From S2P Require Import ToolRegistry.
From S2P Require Import Policy.
From S2P Require Import WriteCredentials.
From S2P Require Import MutationDigest.
From S2P Require Import MutationIdempotency.
From S2P Require Import MutationLifecycle.
From S2P Require Import MutationRegistry.
From S2P Require Import MutationAudit.
From S2P Require Import GovernedWorld.
From S2P Require Import GovernedSystem.
From S2P Require Import MutationExecutor.
From S2P Require Import MutationRuns.
From S2P Require Import MutationGuarantees.

(** ** A digest without collisions

    A transposition of strings is injective, so a composition of them is; it gives the three
    texts the program hashes to identifiers a value of the form of a digest. *)

Definition swap (a b s : string) : string :=
  if String.eqb s a then b else if String.eqb s b then a else s.

Lemma swap_swap a b s : swap a b (swap a b s) = s.
Proof.
  unfold swap. destruct (String.eqb_spec s a) as [->|Ha].
  - rewrite String.eqb_refl. by destruct (String.eqb_spec b a).
  - destruct (String.eqb_spec s b) as [->|Hb]; [by rewrite String.eqb_refl|].
    by rewrite (proj2 (String.eqb_neq _ _) Ha), (proj2 (String.eqb_neq _ _) Hb).
Qed.

Lemma swap_inj a b s t : swap a b s = swap a b t -> s = t.
Proof. intros H. by rewrite <- (swap_swap a b s), H, swap_swap. Qed.

Definition text_of (v : value) : string :=
  match canonical_json_text v with Ok t => t | Err _ => "" end.

(** ** The deployment *)

Definition demo_registry : ToolRegistry :=
  match build_github_mutation_registry Cap_READY Cap_READY Cap_READY with
  | Ok r => r
  | Err _ => new_registry
  end.

Definition demo_rules : PolicyRuleSet :=
  match github_mutation_policy_rules with Ok r => r | Err _ => [] end.

Definition demo_repositories : GitHubRepositoryScope := mkScope ["o/r"; "o/a..b"].

Definition demo_executor : Executor :=
  mkExecutor demo_registry demo_rules demo_repositories DEFAULT_POLICY_VERSION.

Definition demo_broker : WriteCapabilityBroker :=
  mkBroker [of_file demo_environ (demo_open 384)
              (mkFileProvider WC_BRANCH demo_repositories PT_GITHUB_APP (write_secret_name WC_BRANCH) true)]
    (fun _ => Some demo_permissions) (fun _ => true).

Definition demo_inputs (t : Z) (audit_id : string) : Inputs :=
  mkInputs (fun n => instant (t + Z.of_nat n)) (instant t) audit_id
    demo_broker demo_broker demo_broker.

Definition demo_args (repo branch : string) : list (string * value) :=
  [("owner", VStr "o"); ("repo", VStr repo); ("branch", VStr branch); ("base_sha", VStr demo_sha1)].

Definition demo_request (who repo approval : string) (token : option string) : MutationRequest :=
  mkRequest who CREATE_BRANCH_TOOL_ID (demo_args repo "b1") approval token.

(** The operation a request of this deployment asks for. *)
Definition demo_operation (repo branch : string) : OperationDescriptor :=
  mkDescriptor CREATE_BRANCH_TOOL_ID WC_BRANCH ("o/" +:+ repo)
    [("base_sha", VStr demo_sha1); ("branch", VStr branch); ("ref", VStr ("refs/heads/" +:+ branch))]
    (mkPreconditions (Some demo_sha1) None None) DEFAULT_POLICY_VERSION (hex64 "1").

Definition demo_key_text (who repo digest : string) (token : option string) : string :=
  text_of (VDict (key_payload who WC_BRANCH ("o/" +:+ repo) CREATE_BRANCH_TOOL_ID digest token)).

(** The registry, two operations, and the keys of their requests. *)
Definition demo_table : list (string * string) :=
  [(text_of (snapshot_payload demo_registry), hex64 "1");
   (text_of (descriptor_payload (demo_operation "r" "b1")), hex64 "2");
   (text_of (descriptor_payload (demo_operation "a..b" "b1")), hex64 "3");
   (demo_key_text "alice" "r" (hex64 "2") None, hex64 "a");
   (demo_key_text "al@ice" "r" (hex64 "2") None, hex64 "b");
   (demo_key_text "alice" "r" (hex64 "2") (Some "t1"), hex64 "c");
   (demo_key_text "alice" "r" (hex64 "2") (Some "t2"), hex64 "d");
   (demo_key_text "alice" "a..b" (hex64 "3") None, hex64 "e")].

Definition demo_sha (s : string) : string := fold_right (fun th => swap (fst th) (snd th)) s demo_table.

Lemma demo_sha_inj s t : demo_sha s = demo_sha t -> s = t.
Proof.
  unfold demo_sha. induction demo_table as [|th table IH]; [done|]. cbn. intros H. by eapply IH, swap_inj.
Qed.

Definition demo_approved (id who repo digest : string) : ApprovalRecord :=
  mkApprovalRecord id who "bob" digest ("o/" +:+ repo) CREATE_BRANCH_TOOL_ID "n1" (instant 1000000000) "ctx"
    AS_PENDING None.

Abbreviation demo_after es :=
  (system_after demo_sha demo_executor 120 7 (mkFileSink ∅ []) es).

Definition answer_with (status : Z) (p : list (string * value)) : option ProviderResponse :=
  Some (mkResponse status p).

Definition demo_events : list event :=
  [ApprovalsUsed (Issue (demo_approved "ap1" "alice" "r" (hex64 "2")));
   Submitted (demo_request "alice" "r" "ap1" None) (demo_inputs 10 "mut-1");
   Answered 0 (answer_with 200 [("sha", VStr demo_sha1)]) (demo_inputs 20 "mut-1");
   Answered 0 (answer_with 201 [("ref", VStr "refs/heads/b1")]) (demo_inputs 30 "mut-2")].

Definition demo_read_back : option ProviderResponse :=
  answer_with 200 [("ref", VStr "refs/heads/b1"); ("object", VDict [("sha", VStr demo_sha1)])].

(** ** The theorems on this history *)

Abbreviation demo_writes := (sy_writes (demo_after demo_events)).


Lemma writes_are_single_witness :
  length demo_writes = 1%nat
  /\ NoDup (map (fun px => rq_approval_id (cx_request (wx_context (snd px)))) demo_writes).
Proof.
  split; [vm_compute; reflexivity|].
  exact (proj1 (proj2 (writes_are_single demo_sha demo_executor 120 7 (mkFileSink ∅ []) demo_events))).
Defined.

(** The endpoint and the body of the approved operation. *)
Lemma writes_send_what_was_approved_witness :
  match demo_writes with
  | (p, x) :: _ =>
      awaited (Writing x)
      = Some (PostJson (endpoint (endpoint_template (cx_contract (wx_context x))) "o/r" [])
                (cx_authorization (wx_context x))
                (write_body (cx_contract (wx_context x)) (arguments (demo_operation "r" "b1"))))
  | [] => False
  end.
Proof.
  assert (Ha : map (fun px => approved_digest (cx_approval (wx_context (snd px)))) demo_writes = [hex64 "2"])
    by (vm_compute; reflexivity).
  destruct demo_writes as [|[p x] rest] eqn:Hw; [discriminate Ha|]. injection Ha as Ha _.
  apply (writes_send_what_was_approved demo_sha demo_executor 120 7 (mkFileSink ∅ []) demo_events p x
           (demo_operation "r" "b1") demo_sha_inj).
  - rewrite Hw. by left.
  - cbn [snd] in Ha. rewrite Ha. vm_compute. reflexivity.
  - apply (bool_decide_unpack _). vm_compute. exact I.
Defined.

Lemma writes_per_key_witness :
  writes_under (mutations demo_sha demo_executor) (hex64 "a") (demo_after demo_events) = 1%nat
  /\ (writes_under (mutations demo_sha demo_executor) (hex64 "a") (demo_after demo_events)
      <= 1 + count_releases demo_sha (mutations demo_sha demo_executor) (hex64 "a") (initial 120 7 (mkFileSink ∅ [])) demo_events)%nat.
Proof.
  split; [vm_compute; reflexivity|].
  apply (writes_per_key demo_sha demo_executor 120 7 (mkFileSink ∅ []) demo_events (hex64 "a")).
Defined.

Lemma success_is_proved_witness :
  match sy_tasks (demo_after demo_events) !! 0%nat with
  | Some t =>
      match resume demo_sha demo_executor t demo_read_back (demo_inputs 40 "mut-3") (sy_world (demo_after demo_events)) with
      | (Finished (Ok r), w) => rs_stages r = MUTATION_STAGE_ORDER
          /\ key_phase_of (w_idempotency w) (rs_key r) = CommittedWith (rs_data r)
      | _ => False
      end
  | None => False
  end.
Proof.
  assert (Hend : match sy_tasks (demo_after demo_events) !! 0%nat with
    | Some t =>
        match t with ReadingBack _ _ => true | _ => false end
        && match fst (resume demo_sha demo_executor t demo_read_back (demo_inputs 40 "mut-3")
                   (sy_world (demo_after demo_events))) with Finished (Ok _) => true | _ => false end
    | None => false end = true) by (vm_compute; reflexivity).
  destruct (sy_tasks (demo_after demo_events) !! 0%nat) as [t|] eqn:Ht; [|discriminate Hend].
  destruct (resume demo_sha demo_executor t demo_read_back (demo_inputs 40 "mut-3") (sy_world (demo_after demo_events)))
    as [t' w] eqn:Hr in Hend |- *. cbn [fst] in Hend.
  assert (Hnot : forall r, t <> Finished r) by (intros r ->; discriminate Hend).
  apply andb_true_iff in Hend as [_ Hend]. destruct t' as [| | |[r|e]]; try discriminate Hend.
  destruct (success_is_proved demo_sha demo_executor 120 7 (mkFileSink ∅ []) demo_events 0%nat t demo_read_back
              (demo_inputs 40 "mut-3") r w Ht Hnot Hr)
    as (x & created & _ & _ & _ & _ & _ & _ & _ & _ & _ & Hs & _ & Hc & _).
  exact (conj Hs Hc).
Defined.

(** The same request again, under a second approval. *)
Definition demo_again : list event :=
  demo_events ++ [Answered 0 demo_read_back (demo_inputs 40 "mut-3");
                  ApprovalsUsed (Issue (demo_approved "ap2" "alice" "r" (hex64 "2")))].

Lemma replay_reports_record_witness :
  match start demo_sha demo_executor (demo_request "alice" "r" "ap2" None) (demo_inputs 50 "mut-4")
          (sy_world (demo_after demo_again)) with
  | (Finished (Ok r), w) => rs_writes r = 0 /\ rs_outcome r = Outcome_COMMITTED
      /\ w_idempotency w = w_idempotency (sy_world (demo_after demo_again))
  | _ => False
  end.
Proof.
  assert (Hend : match fst (start demo_sha demo_executor (demo_request "alice" "r" "ap2" None) (demo_inputs 50 "mut-4")
          (sy_world (demo_after demo_again))) with
    | Finished (Ok r) => bool_decide (rs_outcome r = Outcome_COMMITTED) | _ => false end = true)
    by (vm_compute; reflexivity).
  destruct (start demo_sha demo_executor (demo_request "alice" "r" "ap2" None) (demo_inputs 50 "mut-4")
          (sy_world (demo_after demo_again))) as [t w] eqn:Hs in Hend |- *. cbn [fst] in Hend.
  destruct t as [| | |[r|e]]; try discriminate Hend. apply bool_decide_eq_true in Hend.
  destruct (replay_reports_record demo_sha demo_executor 120 7 (mkFileSink ∅ []) demo_again
              (demo_request "alice" "r" "ap2" None) (demo_inputs 50 "mut-4") r w Hs)
    as (rec & _ & _ & _ & _ & _ & Hw & Hi & _).
  exact (conj Hw (conj Hend Hi)).
Defined.

Lemma execution_ends_witness :
  let w := sy_world (demo_after [ApprovalsUsed (Issue (demo_approved "ap1" "alice" "r" (hex64 "2")))]) in
  let t1 := fst (start demo_sha demo_executor (demo_request "alice" "r" "ap1" None) (demo_inputs 10 "m") w) in
  let t2 := fst (resume demo_sha demo_executor t1 None (demo_inputs 20 "m") w) in
  let t3 := fst (resume demo_sha demo_executor t2 None (demo_inputs 30 "m") w) in
  exists r, fst (resume demo_sha demo_executor t3 None (demo_inputs 40 "m") w) = Finished r.
Proof.
  intros w t1 t2 t3.
  exact (execution_ends demo_sha demo_executor (demo_request "alice" "r" "ap1" None) (demo_inputs 10 "m") w
           None (demo_inputs 20 "m") w None (demo_inputs 30 "m") w None (demo_inputs 40 "m") w).
Defined.

(** ** Corner cases *)

(** Where a task stands, and the phase of a key. *)
Definition standing (t : option task) : string :=
  match t with
  | Some (Revalidating _) => "revalidating"
  | Some (Writing _) => "writing"
  | Some (ReadingBack _ _) => "reading back"
  | Some (Finished (Ok _)) => "succeeded"
  | Some (Finished (Err (Denied _ _ _ _))) => "denied"
  | Some (Finished (Err (Indeterminate _ _))) => "indeterminate"
  | Some (Finished (Err (PyRaised _))) => "crashed"
  | None => "unknown"
  end.

Definition standings (es : list event) (n : nat) : list string :=
  map (fun p => standing (sy_tasks (demo_after es) !! p)) (seq 0 n).

Definition phase_after (es : list event) (k : string) : key_phase :=
  key_phase_of (w_idempotency (sy_world (demo_after es))) k.

(** A principal with an [@] passes the digest's identifier check, consumes its approval and claims
    its key; the audit's check then refuses it outside the handler that settles the attempt: the
    key stays in progress and nothing was sent. *)
Definition refused_principal : list event :=
  [ApprovalsUsed (Issue (demo_approved "ap1" "al@ice" "r" (hex64 "2")));
   Submitted (demo_request "al@ice" "r" "ap1" None) (demo_inputs 10 "mut-1");
   Answered 0 (answer_with 200 [("sha", VStr demo_sha1)]) (demo_inputs 20 "mut-1")].

Lemma refused_principal_leaves_key_pending :
  standings refused_principal 1 = ["denied"] /\ phase_after refused_principal (hex64 "b") = InProgress
  /\ sy_writes (demo_after refused_principal) = [].
Proof. split_and!; by vm_compute. Qed.

(** A repository whose name holds two consecutive dots is registered, in scope and approved; but no
    path to it is a path the transport accepts, so the revalidation is a transport error and the
    key ends up waiting for a reconciliation although nothing was sent. *)
Definition dotted_repository : list event :=
  [ApprovalsUsed (Issue (demo_approved "ap1" "alice" "a..b" (hex64 "3")));
   Submitted (demo_request "alice" "a..b" "ap1" None) (demo_inputs 10 "mut-1");
   Answered 0 None (demo_inputs 20 "mut-1")].

Lemma dotted_repository_is_ambiguous :
  match sy_tasks (demo_after (take 2 dotted_repository)) !! 0%nat with
  | Some (Revalidating c) => relative_path (revalidation_path c) = false
  | _ => False
  end
  /\ phase_after dotted_repository (hex64 "e") = Ambiguous.
Proof. split_and!; by vm_compute. Qed.

(** A lease is not checked again before the write: an execution that is still waiting for its
    revalidation when its lease runs out is overtaken by another one on the same branch (after a
    third request noticed the loss), and then both write. *)
Definition overtaken : list event :=
  [ApprovalsUsed (Issue (demo_approved "ap1" "alice" "r" (hex64 "2")));
   ApprovalsUsed (Issue (demo_approved "ap2" "alice" "r" (hex64 "2")));
   ApprovalsUsed (Issue (demo_approved "ap3" "alice" "r" (hex64 "2")));
   Submitted (demo_request "alice" "r" "ap1" None) (demo_inputs 10 "mut-1");
   Submitted (demo_request "alice" "r" "ap2" (Some "t1")) (demo_inputs 200000000 "mut-2");
   Submitted (demo_request "alice" "r" "ap3" (Some "t2")) (demo_inputs 201000000 "mut-3");
   Answered 2 (answer_with 200 [("sha", VStr demo_sha1)]) (demo_inputs 202000000 "mut-3");
   Answered 0 (answer_with 200 [("sha", VStr demo_sha1)]) (demo_inputs 203000000 "mut-4")].

Lemma lost_lease_still_writes :
  standings overtaken 3 = ["writing"; "denied"; "writing"]
  /\ phase_after overtaken (hex64 "a") = Ambiguous /\ phase_after overtaken (hex64 "d") = InProgress
  /\ NoDup (map (fun px => cx_key (wx_context (snd px))) (sy_writes (demo_after overtaken)))
  /\ map (fun px => target_of (cx_contract (wx_context (snd px))) (cx_arguments (wx_context (snd px))))
       (sy_writes (demo_after overtaken)) = ["b1"; "b1"].
Proof. split_and!; [by vm_compute..| |by vm_compute]. apply (bool_decide_unpack _). by vm_compute. Qed.

(** What the ledger refuses after the write has been answered is a denial, like what is refused
    before anything was sent: here the wall clock was set back between the record and the write, so
    the evidence of the successful write is refused and its key stays in progress. *)
Definition clock_set_back : list event :=
  take 2 demo_events
  ++ [Answered 0 (answer_with 200 [("sha", VStr demo_sha1)])
        (mkInputs (fun _ => instant 19) (instant 20) "mut-1" demo_broker demo_broker demo_broker);
      Answered 0 (answer_with 201 [("ref", VStr "refs/heads/b1")]) (demo_inputs 30 "mut-2");
      Answered 0 demo_read_back (demo_inputs 40 "mut-3")].

Lemma denial_after_write :
  sy_tasks (demo_after clock_set_back) !! 0%nat = Some (Finished (Err (audit_exn AUDIT_RECORD_UNWRITABLE)))
  /\ length (sy_writes (demo_after clock_set_back)) = 1%nat
  /\ phase_after clock_set_back (hex64 "a") = InProgress.
Proof. split_and!; by vm_compute. Qed.
