(* ===== verification/MergeGates.v ===== *)
(** * The governed merge: policy and gates ([v2/github_governed_merge.py])

    Which repositories may be merged and how; the live facts read before a merge; the fixed chain of
    gates over them, with a reference definition of "the first gate that fails"; the request that is
    sent and the reading of its answer; and the closed set of excluded operations.

    The static scan of the package's own source text ([assert_no_repository_deletion_path]) is not
    modelled: it reads files. *)
From S2P Require Import Prelude.
From S2P Require Import PyText.
From S2P Require Import PyValue.
From S2P Require Import Canonical.
From S2P Require Import MutationContract.
From S2P Require Import ToolSchema.
From S2P Require Import ToolRegistry.
From S2P Require Import Policy.
From S2P Require Import MutationRegistry.

Definition MERGE_TOOL_ID : string := "github.merge_pr".
Definition MERGE_POLICY_ACTION : string := "github.pr.merge".
Definition PERMANENTLY_EXCLUDED_OPERATIONS : list string :=
  ["github.delete_repository"; "github.delete_repo"; "github.delete_ref"; "github.force_push";
   "github.update_branch_protection"; "github.manage_webhooks"; "github.manage_deploy_keys";
   "github.manage_secrets"; "github.org_admin"].
Definition ALLOWED_MERGEABLE_STATES : list string := ["clean"; "has_hooks"].
Definition GREEN_CHECK_CONCLUSIONS : list string := ["success"].
Definition MERGE_WRITE_CAPABILITY : WriteCapabilityId := WC_MERGE.
Definition ALLOWED_HTTP_VERBS : list string := ["GET"; "POST"; "PUT"].

(** ** Vocabularies *)

Inductive MergeMethod : Type := Method_MERGE | Method_SQUASH | Method_REBASE.
#[export] Instance MergeMethod_eq_dec : EqDecision MergeMethod.
Proof. solve_decision. Defined.
Definition method_value (m : MergeMethod) : string :=
  match m with Method_MERGE => "merge" | Method_SQUASH => "squash" | Method_REBASE => "rebase" end.

Inductive MergeGate : Type :=
| REPOSITORY_MERGE_ENABLED | BASE_NOT_DEFAULT_BRANCH | PULL_REQUEST_STATE | REQUIRED_CHECKS_GREEN
| PROTECTION_AND_REVIEWS | HEAD_SHA_PINNED.
#[export] Instance MergeGate_eq_dec : EqDecision MergeGate.
Proof. solve_decision. Defined.
Definition gate_value (g : MergeGate) : string :=
  match g with
  | REPOSITORY_MERGE_ENABLED => "REPOSITORY_MERGE_ENABLED"
  | BASE_NOT_DEFAULT_BRANCH => "BASE_NOT_DEFAULT_BRANCH"
  | PULL_REQUEST_STATE => "PULL_REQUEST_STATE"
  | REQUIRED_CHECKS_GREEN => "REQUIRED_CHECKS_GREEN"
  | PROTECTION_AND_REVIEWS => "PROTECTION_AND_REVIEWS"
  | HEAD_SHA_PINNED => "HEAD_SHA_PINNED"
  end.

Definition MERGE_GATE_ORDER : list MergeGate :=
  [REPOSITORY_MERGE_ENABLED; BASE_NOT_DEFAULT_BRANCH; PULL_REQUEST_STATE; REQUIRED_CHECKS_GREEN;
   PROTECTION_AND_REVIEWS; HEAD_SHA_PINNED].

(** [_deny] of the module *)
Definition merge_denial (r : MutationReasonCode) (s : MutationStage) (detail : string) : mutation_exn :=
  Denied MergeGovernanceError r s detail.
Definition merge_deny {A} (r : MutationReasonCode) (s : MutationStage) (detail : string) :
  result mutation_exn A := Err (merge_denial r s detail).
Definition merge_deny_if (b : bool) (r : MutationReasonCode) (s : MutationStage) : result mutation_exn unit :=
  raise_if b (merge_denial r s "").

(** [_require_repository], [_require_branch], [_require_sha], [_require_pr_number]; the patterns hold
    ASCII classes only, so bytes and characters count alike. *)
Definition MERGE_REPOSITORY_RE (s : string) : bool :=
  match split_on slash s with
  | [owner; repo] => REPO_SEGMENT_RE owner && REPO_SEGMENT_RE repo
  | _ => false
  end.
Definition merge_require_repository (v : string) : result mutation_exn unit :=
  merge_deny_if (negb (MERGE_REPOSITORY_RE v)) INVALID_ARGUMENTS Stage_SCOPE.
Definition merge_require_branch (v : string) : result mutation_exn unit :=
  merge_deny_if (negb (BRANCH_SEGMENT_RE v)) INVALID_ARGUMENTS Stage_REGISTRY.
Definition merge_require_sha (v : string) : result mutation_exn unit :=
  merge_deny_if (negb (SHA_RE v)) INVALID_ARGUMENTS Stage_REGISTRY.
Definition require_pr_number (n : Z) : result mutation_exn unit :=
  merge_deny_if (n <? 1) INVALID_ARGUMENTS Stage_REGISTRY.

(** ** Policy: which repositories may be merged, and how *)

Record RepositoryMergePolicy := mkMergePolicy {
  mp_repository : string;
  merge_method : MergeMethod;
  mp_required_checks : gset string;
  default_branch_merge_allowed : bool;
  require_distinct_approver : bool
}.

(** [RepositoryMergePolicy.__post_init__] *)
Definition merge_policy (p : RepositoryMergePolicy) : result mutation_exn RepositoryMergePolicy :=
  do! merge_require_repository (mp_repository p) in
  do! merge_deny_if (bool_decide (mp_required_checks p = ∅)) REQUIRED_CHECKS_NOT_GREEN Stage_POLICY in
  do! merge_deny_if (existsb blank (elements (mp_required_checks p))) REQUIRED_CHECKS_NOT_GREEN Stage_POLICY in
  Ok p.

(** [sorted(s)] of a set of strings *)
Definition sorted_set (s : gset string) : list string := sort_str (elements s).

(** [RepositoryMergePolicy.canonical] *)
Definition merge_policy_canonical (p : RepositoryMergePolicy) : list (string * value) :=
  [("default_branch_merge_allowed", VBool (default_branch_merge_allowed p));
   ("merge_method", VStr (method_value (merge_method p))); ("repository", VStr (mp_repository p));
   ("require_distinct_approver", VBool (require_distinct_approver p));
   ("required_checks", VList (map VStr (sorted_set (mp_required_checks p))))].

(** [MergePolicyRegistry] *)
Abbreviation MergePolicyRegistry := (gmap string RepositoryMergePolicy).

(** [MergePolicyRegistry.__init__] *)
Definition merge_policy_registry (ps : list RepositoryMergePolicy) : result mutation_exn MergePolicyRegistry :=
  rfold (fun m p => match m !! mp_repository p with
                    | Some _ => merge_deny INVALID_ARGUMENTS Stage_POLICY "duplicate_repository"
                    | None => Ok (<[mp_repository p := p]> m)
                    end) ∅ ps.

(** [is_merge_enabled], [require], [canonical] *)
Definition is_merge_enabled (m : MergePolicyRegistry) (repository : string) : bool :=
  bool_decide (is_Some (m !! repository)).
Definition require_policy (m : MergePolicyRegistry) (repository : string) :
  result mutation_exn RepositoryMergePolicy :=
  do! merge_require_repository repository in
  match m !! repository with Some p => Ok p | None => merge_deny MERGE_NOT_PERMITTED Stage_POLICY "" end.
Definition merge_registry_canonical (m : MergePolicyRegistry) : list value :=
  omap (fun k => (fun p => VDict (merge_policy_canonical p)) <$> m !! k) (sort_str (map fst (map_to_list m))).

(** [github_merge_policy_rules] *)
Definition github_merge_policy_rules : result registry_exn PolicyRuleSet :=
  let! rules := rmap policy_rule [mkRule MERGE_POLICY_ACTION Policy_APPROVAL_REQUIRED ""] in
  policy_rule_set rules.

(** ** Observed live state *)

Record PullRequestState := mkPullRequest {
  pr_number : Z;
  pr_state : string;
  draft : bool;
  mergeable : option bool;
  mergeable_state : option string;
  head_sha : string;
  base_ref : string
}.

(** [PullRequestState.__post_init__] *)
Definition pull_request_state (p : PullRequestState) : result mutation_exn PullRequestState :=
  do! require_pr_number (pr_number p) in
  do! merge_require_sha (head_sha p) in
  do! merge_require_branch (base_ref p) in
  do! merge_deny_if (String.eqb (pr_state p) "") INVALID_ARGUMENTS Stage_REGISTRY in
  Ok p.

(** [PullRequestState.is_open] *)
Definition is_open (p : PullRequestState) : bool := String.eqb (pr_state p) "open".

Record CheckState := mkCheck { check_name : string; check_status : string; conclusion : option string }.

(** [CheckState.is_green] *)
Definition is_green (c : CheckState) : bool :=
  String.eqb (check_status c) "completed" && str_in (default "" (conclusion c)) GREEN_CHECK_CONCLUSIONS.

Record BranchProtectionState := mkProtection {
  readable : bool;
  bp_required_checks : gset string;
  required_approving_review_count : Z;
  approving_reviews : Z;
  changes_requested : Z;
  enforce_admins : bool
}.

(** [BranchProtectionState.reviews_satisfied] *)
Definition reviews_satisfied (p : BranchProtectionState) : bool :=
  if negb (changes_requested p =? 0) then false
  else required_approving_review_count p <=? approving_reviews p.

Record MergeObservation := mkObserved {
  pull_request : PullRequestState;
  protection : BranchProtectionState;
  checks : list CheckState;
  default_branch : string
}.

(** [MergeObservation.check_by_name] *)
Definition check_by_name (o : MergeObservation) (name : string) : option CheckState :=
  List.find (fun c => String.eqb (check_name c) name) (checks o).

Record MergeRequest := mkMergeRequest {
  mr_principal : string;
  mr_repository : string;
  mr_number : Z;
  mr_base : string;
  mr_expected_head_sha : string;
  mr_approval_id : string;
  mr_approver : option string
}.

(** [MergeRequest.__post_init__] *)
Definition merge_request (r : MergeRequest) : result mutation_exn MergeRequest :=
  do! merge_require_repository (mr_repository r) in
  do! require_pr_number (mr_number r) in
  do! merge_require_branch (mr_base r) in
  do! merge_require_sha (mr_expected_head_sha r) in
  do! merge_deny_if (String.eqb (mr_principal r) "") INVALID_ARGUMENTS Stage_REGISTRY in
  do! merge_deny_if (String.eqb (mr_approval_id r) "") APPROVAL_MISSING Stage_APPROVAL in
  Ok r.

(** ** The gate chain *)

Record MergeGateReport := mkGateReport {
  gr_repository : string;
  gr_number : Z;
  cleared_gates : list MergeGate;
  gr_merge_method : MergeMethod;
  gr_required_checks : list string
}.

(** [MergeGateReport.all_gates_cleared], [MergeGateReport.canonical] *)
Definition all_gates_cleared (r : MergeGateReport) : bool := bool_decide (cleared_gates r = MERGE_GATE_ORDER).
Definition gate_report_canonical (r : MergeGateReport) : list (string * value) :=
  [("cleared_gates", VList (map (fun g => VStr (gate_value g)) (cleared_gates r)));
   ("merge_method", VStr (method_value (gr_merge_method r))); ("number", VInt (gr_number r));
   ("repository", VStr (gr_repository r)); ("required_checks", VList (map VStr (gr_required_checks r)))].

(** [required], after the live protection is added to the policy's own checks. *)
Definition required_names (o : MergeObservation) (p : RepositoryMergePolicy) : gset string :=
  mp_required_checks p ∪ (if readable (protection o) then bp_required_checks (protection o) else ∅).

(** [check is None or not check.is_green] is false. *)
Definition observed_green (o : MergeObservation) (name : string) : bool :=
  match check_by_name o name with Some c => is_green c | None => false end.

Definition gate_deny_if (b : bool) (r : MutationReasonCode) : result mutation_exn unit :=
  merge_deny_if b r Stage_POLICY.

(** [evaluate_merge_gates] *)
Definition evaluate_merge_gates (rq : MergeRequest) (o : MergeObservation) (p : RepositoryMergePolicy) :
  result mutation_exn MergeGateReport :=
  let pr := pull_request o in
  do! gate_deny_if (negb (String.eqb (mp_repository p) (mr_repository rq))) MERGE_NOT_PERMITTED in
  let cleared := [REPOSITORY_MERGE_ENABLED] in
  do! gate_deny_if (String.eqb (default_branch o) "") PROTECTION_STATE_UNVERIFIABLE in
  do! gate_deny_if (String.eqb (mr_base rq) (default_branch o) && negb (default_branch_merge_allowed p))
        MERGE_TARGET_DEFAULT_BRANCH in
  let cleared := cleared ++ [BASE_NOT_DEFAULT_BRANCH] in
  do! gate_deny_if (negb (is_open pr) || draft pr) PULL_REQUEST_NOT_MERGEABLE in
  do! gate_deny_if (negb (bool_decide (mergeable pr = Some true))) PULL_REQUEST_NOT_MERGEABLE in
  do! gate_deny_if (negb (str_in (default "" (mergeable_state pr)) ALLOWED_MERGEABLE_STATES))
        PULL_REQUEST_NOT_MERGEABLE in
  do! gate_deny_if (negb (String.eqb (base_ref pr) (mr_base rq))) PULL_REQUEST_NOT_MERGEABLE in
  let cleared := cleared ++ [PULL_REQUEST_STATE] in
  let required := required_names o p in
  do! gate_deny_if (bool_decide (required = ∅)) REQUIRED_CHECKS_NOT_GREEN in
  do! rfor (fun name => gate_deny_if (negb (observed_green o name)) REQUIRED_CHECKS_NOT_GREEN)
        (sorted_set required) in
  let cleared := cleared ++ [REQUIRED_CHECKS_GREEN] in
  do! gate_deny_if (negb (readable (protection o))) PROTECTION_STATE_UNVERIFIABLE in
  do! gate_deny_if (negb (enforce_admins (protection o))) PROTECTION_STATE_UNVERIFIABLE in
  do! gate_deny_if (negb (reviews_satisfied (protection o))) REQUIRED_REVIEWS_NOT_SATISFIED in
  do! merge_deny_if (require_distinct_approver p && bool_decide (mr_approver rq = Some (mr_principal rq)))
        APPROVER_NOT_DISTINCT Stage_APPROVAL in
  let cleared := cleared ++ [PROTECTION_AND_REVIEWS] in
  do! merge_deny_if (negb (String.eqb (head_sha pr) (mr_expected_head_sha rq)))
        PRECONDITION_DRIFT Stage_PRECONDITION_REVALIDATION in
  let cleared := cleared ++ [HEAD_SHA_PINNED] in
  let report := mkGateReport (mr_repository rq) (mr_number rq) cleared (merge_method p) (sorted_set required) in
  if negb (all_gates_cleared report) then merge_deny MERGE_NOT_PERMITTED Stage_POLICY "gate_chain"
  else Ok report.

(** ** The request and its answer *)

(** [merge_request_body], [merge_endpoint] *)
Definition merge_request_body (rq : MergeRequest) (p : RepositoryMergePolicy) : list (string * value) :=
  [("merge_method", VStr (method_value (merge_method p))); ("sha", VStr (mr_expected_head_sha rq))].
Definition pull_path (repository : string) (number : Z) : string :=
  let '(owner, repo) := split_once "/" repository in
  "/repos/" +:+ owner +:+ "/" +:+ default "" repo +:+ "/pulls/" +:+ pretty number.
Definition merge_endpoint (rq : MergeRequest) : string :=
  pull_path (mr_repository rq) (mr_number rq) +:+ "/merge".

(** [classify_merge_status]; [None] is success. *)
Definition classify_merge_status (status : Z) : option MutationReasonCode :=
  if status =? 200 then None
  else if status =? 409 then Some PRECONDITION_DRIFT
  else if status =? 405 then Some PULL_REQUEST_NOT_MERGEABLE
  else if z_in status [401; 403] then Some WRITE_CAPABILITY_NOT_READY
  else if status =? 404 then Some MERGE_NOT_PERMITTED
  else Some RECONCILIATION_REQUIRED.

(** ** Excluded operations *)

(** [assert_no_excluded_operation_contract], on the identifiers as a list. *)
Definition assert_no_excluded_operation_contract (ids : list string) : list string :=
  omap (fun excluded => if str_in excluded ids then Some ("excluded operation registered: " +:+ excluded) else None)
    (sort_str PERMANENTLY_EXCLUDED_OPERATIONS).

(** [destructive_exclusion_report]; [scan] is what the static scan of the package found. *)
Definition destructive_exclusion_report (scan ids : list string) : list (string * value) :=
  let findings := scan ++ assert_no_excluded_operation_contract ids in
  [("allowed_http_verbs", VList (map VStr (sort_str ALLOWED_HTTP_VERBS)));
   ("excluded_operations", VList (map VStr (sort_str PERMANENTLY_EXCLUDED_OPERATIONS)));
   ("failures", VList (map VStr findings)); ("forbidden_permission_requested", VBool false);
   ("verdict", VStr (match findings with [] => "PASS" | _ => "FAIL" end))].

(** ** The chain against its specification *)

(** What each gate asks. *)
Definition gate_holds (rq : MergeRequest) (o : MergeObservation) (p : RepositoryMergePolicy) (g : MergeGate) : Prop :=
  let pr := pull_request o in
  match g with
  | REPOSITORY_MERGE_ENABLED => mp_repository p = mr_repository rq
  | BASE_NOT_DEFAULT_BRANCH =>
      default_branch o <> "" /\ (mr_base rq = default_branch o -> default_branch_merge_allowed p = true)
  | PULL_REQUEST_STATE =>
      pr_state pr = "open" /\ draft pr = false /\ mergeable pr = Some true
      /\ (mergeable_state pr = Some "clean" \/ mergeable_state pr = Some "has_hooks")
      /\ base_ref pr = mr_base rq
  | REQUIRED_CHECKS_GREEN =>
      required_names o p <> ∅
      /\ forall name, name ∈ required_names o p -> exists c, check_by_name o name = Some c
           /\ check_status c = "completed" /\ conclusion c = Some "success"
  | PROTECTION_AND_REVIEWS =>
      let b := protection o in
      readable b = true /\ enforce_admins b = true /\ changes_requested b = 0
      /\ required_approving_review_count b <= approving_reviews b
      /\ (require_distinct_approver p = true -> mr_approver rq <> Some (mr_principal rq))
  | HEAD_SHA_PINNED => head_sha pr = mr_expected_head_sha rq
  end.

(** The reasons with which a gate denies. *)
Definition gate_reasons (g : MergeGate) : list MutationReasonCode :=
  match g with
  | REPOSITORY_MERGE_ENABLED => [MERGE_NOT_PERMITTED]
  | BASE_NOT_DEFAULT_BRANCH => [PROTECTION_STATE_UNVERIFIABLE; MERGE_TARGET_DEFAULT_BRANCH]
  | PULL_REQUEST_STATE => [PULL_REQUEST_NOT_MERGEABLE]
  | REQUIRED_CHECKS_GREEN => [REQUIRED_CHECKS_NOT_GREEN]
  | PROTECTION_AND_REVIEWS =>
      [PROTECTION_STATE_UNVERIFIABLE; REQUIRED_REVIEWS_NOT_SATISFIED; APPROVER_NOT_DISTINCT]
  | HEAD_SHA_PINNED => [PRECONDITION_DRIFT]
  end.

(** The part of the chain that belongs to one gate. *)
Definition gate_check (rq : MergeRequest) (o : MergeObservation) (p : RepositoryMergePolicy) (g : MergeGate) :
  result mutation_exn unit :=
  let pr := pull_request o in
  match g with
  | REPOSITORY_MERGE_ENABLED =>
      gate_deny_if (negb (String.eqb (mp_repository p) (mr_repository rq))) MERGE_NOT_PERMITTED
  | BASE_NOT_DEFAULT_BRANCH =>
      do! gate_deny_if (String.eqb (default_branch o) "") PROTECTION_STATE_UNVERIFIABLE in
      gate_deny_if (String.eqb (mr_base rq) (default_branch o) && negb (default_branch_merge_allowed p))
        MERGE_TARGET_DEFAULT_BRANCH
  | PULL_REQUEST_STATE =>
      do! gate_deny_if (negb (is_open pr) || draft pr) PULL_REQUEST_NOT_MERGEABLE in
      do! gate_deny_if (negb (bool_decide (mergeable pr = Some true))) PULL_REQUEST_NOT_MERGEABLE in
      do! gate_deny_if (negb (str_in (default "" (mergeable_state pr)) ALLOWED_MERGEABLE_STATES))
            PULL_REQUEST_NOT_MERGEABLE in
      gate_deny_if (negb (String.eqb (base_ref pr) (mr_base rq))) PULL_REQUEST_NOT_MERGEABLE
  | REQUIRED_CHECKS_GREEN =>
      do! gate_deny_if (bool_decide (required_names o p = ∅)) REQUIRED_CHECKS_NOT_GREEN in
      rfor (fun name => gate_deny_if (negb (observed_green o name)) REQUIRED_CHECKS_NOT_GREEN)
        (sorted_set (required_names o p))
  | PROTECTION_AND_REVIEWS =>
      do! gate_deny_if (negb (readable (protection o))) PROTECTION_STATE_UNVERIFIABLE in
      do! gate_deny_if (negb (enforce_admins (protection o))) PROTECTION_STATE_UNVERIFIABLE in
      do! gate_deny_if (negb (reviews_satisfied (protection o))) REQUIRED_REVIEWS_NOT_SATISFIED in
      merge_deny_if (require_distinct_approver p && bool_decide (mr_approver rq = Some (mr_principal rq)))
        APPROVER_NOT_DISTINCT Stage_APPROVAL
  | HEAD_SHA_PINNED =>
      merge_deny_if (negb (String.eqb (head_sha pr) (mr_expected_head_sha rq)))
        PRECONDITION_DRIFT Stage_PRECONDITION_REVALIDATION
  end.

(** The report of a merge that may go ahead. *)
Definition full_report (rq : MergeRequest) (o : MergeObservation) (p : RepositoryMergePolicy) : MergeGateReport :=
  mkGateReport (mr_repository rq) (mr_number rq) MERGE_GATE_ORDER (merge_method p) (sorted_set (required_names o p)).

Lemma evaluate_gates rq o p :
  evaluate_merge_gates rq o p
  = (do! rfor (gate_check rq o p) MERGE_GATE_ORDER in Ok (full_report rq o p)).
Proof.
  unfold evaluate_merge_gates, MERGE_GATE_ORDER, gate_check, gate_deny_if, merge_deny_if.
  cbn [rfor]. cbv zeta.
  repeat match goal with
  | |- context [raise_if ?b _] => destruct b; cbn [raise_if rbind]; try reflexivity
  | |- context [rfor ?f ?l] =>
      lazymatch l with sorted_set _ => destruct (rfor f l) as [[]|e]; cbn [rbind]; try reflexivity end
  end.
Qed.

(** One check of a gate: it passes and [P] holds, or it denies with [r] and [P] fails. *)
Definition decides (m : result mutation_exn unit) (P : Prop) (rs : list MutationReasonCode) : Prop :=
  match m with
  | Ok _ => P
  | Err e => ~ P /\ exists r s, e = merge_denial r s "" /\ r ∈ rs
  end.

Lemma decides_if b P r s rs : (b = false <-> P) -> r ∈ rs -> decides (merge_deny_if b r s) P rs.
Proof.
  intros Hb Hr. unfold merge_deny_if, raise_if. destruct b; cbn; [|by apply Hb].
  split; [by intros ?%Hb|by exists r, s].
Qed.

Lemma decides_bind m (k : result mutation_exn unit) P Q rs :
  decides m P rs -> decides k Q rs -> decides (do! m in k) (P /\ Q) rs.
Proof. destruct m; cbn; [|tauto]. destruct k; cbn; tauto. Qed.

Lemma decides_iff m P Q rs : (P <-> Q) -> decides m P rs -> decides m Q rs.
Proof. unfold decides. destruct m; tauto. Qed.

Lemma decides_all (f : string -> result mutation_exn unit) (P : string -> Prop) rs l :
  (forall x, decides (f x) (P x) rs) -> decides (rfor f l) (forall x, x ∈ l -> P x) rs.
Proof.
  intros Hf. induction l as [|x l IH]; [by intros x ?%elem_of_nil|]. cbn [rfor].
  eapply decides_iff; [|apply (decides_bind _ _ _ _ _ (Hf x) IH)]. split.
  - intros [Hx Hl] y [->|Hy]%elem_of_cons; auto.
  - intros Hl. split; [apply Hl|intros y Hy; apply Hl]; by constructor.
Qed.

Lemma observed_green_iff o name :
  observed_green o name = true <-> exists c, check_by_name o name = Some c
    /\ check_status c = "completed" /\ conclusion c = Some "success".
Proof.
  unfold observed_green, is_green, str_in. destruct (check_by_name o name) as [c|].
  2: { split; [done|]. by intros (c & ? & _). }
  cbn [GREEN_CHECK_CONCLUSIONS existsb]. rewrite andb_true_iff, orb_false_r, !String.eqb_eq. split.
  - intros [H1 H2]. exists c. split_and!; [done|done|]. destruct (conclusion c); cbn in H2; [congruence|done].
  - intros (c' & [= <-] & -> & ->). done.
Qed.

Lemma elem_of_sorted_set x s : x ∈ sorted_set s <-> x ∈ s.
Proof. unfold sorted_set. by rewrite elem_of_sort_str, elem_of_elements. Qed.

Lemma gate_check_decides rq o p g : decides (gate_check rq o p g) (gate_holds rq o p g) (gate_reasons g).
Proof.
  destruct g; cbn [gate_check gate_holds gate_reasons]; unfold gate_deny_if.
  - apply decides_if; [|by left]. by rewrite negb_false_iff, String.eqb_eq.
  - apply decides_bind; apply decides_if; [apply String.eqb_neq|by left| |by right; left].
    rewrite andb_false_iff, negb_false_iff, String.eqb_neq.
    destruct (decide (mr_base rq = default_branch o)) as [->|]; naive_solver.
  - eapply decides_iff; [apply Logic.and_assoc|]. repeat apply decides_bind; try (apply decides_if; [|by left]).
    + unfold is_open. by rewrite orb_false_iff, negb_false_iff, String.eqb_eq.
    + by rewrite negb_false_iff, bool_decide_eq_true.
    + unfold str_in. cbn [ALLOWED_MERGEABLE_STATES existsb].
      rewrite negb_false_iff, orb_false_r, orb_true_iff, !String.eqb_eq.
      destruct (mergeable_state (pull_request o)) as [t|]; cbn; [|naive_solver].
      split; (intros [?|?]; [left|right]; congruence).
    + by rewrite negb_false_iff, String.eqb_eq.
  - apply decides_bind; [apply decides_if; [apply bool_decide_eq_false|by left]|].
    eapply decides_iff; [|apply (decides_all _ (fun name => exists c, check_by_name o name = Some c
      /\ check_status c = "completed" /\ conclusion c = Some "success"))].
    + split; intros Hall name Hn; apply Hall; by apply elem_of_sorted_set.
    + intros name. apply decides_if; [|by left]. by rewrite negb_false_iff, observed_green_iff.
  - set (b := protection o).
    assert (Hb : reviews_satisfied b = true
                 <-> changes_requested b = 0 /\ required_approving_review_count b <= approving_reviews b).
    { unfold reviews_satisfied. destruct (Z.eqb_spec (changes_requested b) 0); cbn; rewrite ?Z.leb_le; naive_solver. }
    apply (decides_iff _ (readable b = true /\ enforce_admins b = true /\ reviews_satisfied b = true
      /\ (require_distinct_approver p = true -> mr_approver rq <> Some (mr_principal rq)))); [rewrite Hb; tauto|].
    repeat apply decides_bind; apply decides_if; try (by repeat constructor); rewrite ?negb_false_iff; try done.
    rewrite andb_false_iff, bool_decide_eq_false. destruct (require_distinct_approver p); naive_solver.
  - apply decides_if; [|by left]. by rewrite negb_false_iff, String.eqb_eq.
Qed.

(** A chain of checks stops at the first that fails. *)
Lemma chain_decides {G} (f : G -> result mutation_exn unit) (P : G -> Prop) (rs : G -> list MutationReasonCode) gs :
  (forall g, decides (f g) (P g) (rs g)) ->
  match rfor f gs with
  | Ok _ => Forall P gs
  | Err e => exists pre g post r s, gs = pre ++ g :: post /\ Forall P pre /\ ~ P g
             /\ e = merge_denial r s "" /\ r ∈ rs g
  end.
Proof.
  intros Hf. induction gs as [|g gs IH]; [constructor|]. cbn [rfor]. specialize (Hf g).
  destruct (f g) as [[]|e]; cbn [rbind] in *.
  - destruct (rfor f gs) as [u|e]; [by constructor|].
    destruct IH as (pre & g' & post & r & s & -> & Hpre & H). exists (g :: pre), g', post, r, s. split_and!; try done; by constructor || tauto.
  - destruct Hf as (Hg & r & s & He & Hr). exists [], g, gs, r, s. by split_and!.
Qed.

Lemma evaluate_cases rq o p :
  match evaluate_merge_gates rq o p with
  | Ok r => Forall (gate_holds rq o p) MERGE_GATE_ORDER /\ r = full_report rq o p
  | Err e => exists pre g post r s, MERGE_GATE_ORDER = pre ++ g :: post
      /\ Forall (gate_holds rq o p) pre /\ ~ gate_holds rq o p g
      /\ e = merge_denial r s "" /\ r ∈ gate_reasons g
  end.
Proof.
  rewrite evaluate_gates. pose proof (chain_decides _ _ _ MERGE_GATE_ORDER (gate_check_decides rq o p)) as Hc.
  by destruct (rfor (gate_check rq o p) MERGE_GATE_ORDER).
Qed.

(** [C11] The gate chain is exact: it lets a merge through exactly when every gate holds, in a
    report that names all of them in order; otherwise it denies for the first gate, in the fixed
    order, that does not hold, with a reason of that gate. *)
Theorem merge_gates_exact rq o p :
  match evaluate_merge_gates rq o p with
  | Ok r => Forall (gate_holds rq o p) MERGE_GATE_ORDER /\ r = full_report rq o p
  | Err e => exists pre g post r s, MERGE_GATE_ORDER = pre ++ g :: post
      /\ Forall (gate_holds rq o p) pre /\ ~ gate_holds rq o p g
      /\ e = merge_denial r s "" /\ r ∈ gate_reasons g
  end.
Proof. apply evaluate_cases. Qed.
