(* ===== verification/MergeExecutor.v ===== *)
(** * The governed merge executor ([v2/github_merge_executor.py])

    One merge is a state machine that suspends three times: while the live state is observed, at the
    [PUT], at the read-back.  Between two suspensions it runs without interruption on the stores it
    shares with the other executions.  The reader of the live state is outside the program: its
    answer is an input, as is the provider's. *)
From S2P Require Import Prelude.
From S2P Require Import PyText.
From S2P Require Import PyValue.
From S2P Require Import Canonical.
From S2P Require Import MutationContract.
From S2P Require Import ToolSchema.
From S2P Require Import ToolRegistry.
From S2P Require Import Policy.
From S2P Require Import WriteCredentials.
From S2P Require Import MutationDigest.
From S2P Require Import MutationIdempotency.
From S2P Require Import MutationRegistry.
From S2P Require Import MutationAudit.
From S2P Require Import GovernedWorld.
From S2P Require Import MutationExecutor.
From S2P Require Import MergeGates.

Definition MERGE_RESULT_SCHEMA : string := "v2.phase3.merge-result.1".
Definition MERGE_POLICY_VERSION : string := "phase3.merge.v1".

(** ** Results *)

Record MergeResult := mkMergeResult {
  ms_repository : string;
  ms_number : Z;
  ms_outcome : MutationOutcome;
  ms_verification : VerificationState;
  ms_evidence_class : EvidenceClass;
  ms_status : IdempotencyStatus;
  ms_digest : string;
  ms_key : string;
  merged_sha : option string;
  ms_audit_id : option string;
  ms_evidence_digest : option string;
  ms_gates : option MergeGateReport;
  ms_stages : list MutationStage;
  ms_writes : Z
}.

(** [MergeResult.as_canonical]; [schema] and [tool_id] are the same in every result. *)
Definition merge_result_canonical (r : MergeResult) : list (string * value) :=
  [("schema", VStr MERGE_RESULT_SCHEMA); ("tool_id", VStr MERGE_TOOL_ID);
   ("repository", VStr (ms_repository r)); ("number", VInt (ms_number r));
   ("outcome", VStr (outcome_value (ms_outcome r)));
   ("verification", VStr (verification_value (ms_verification r)));
   ("evidence_class", VStr (evidence_value (ms_evidence_class r)));
   ("idempotency_status", VStr (status_value (ms_status r)));
   ("operation_digest", VStr (ms_digest r)); ("idempotency_key", VStr (ms_key r));
   ("stages", VList (map (fun s => VStr (stage_value s)) (ms_stages r)));
   ("provider_writes", VInt (ms_writes r))]
  ++ opt_entry "merged_sha" (merged_sha r) ++ opt_entry "audit_id" (ms_audit_id r)
  ++ opt_entry "evidence_digest" (ms_evidence_digest r)
  ++ match ms_gates r with Some g => [("gates", VDict (gate_report_canonical g))] | None => [] end.

(** [merge_reconciliation_handle] *)
Definition merge_reconciliation_handle (repository : string) (number : Z) (key digest : string) :
  list (string * value) :=
  [("action", VStr "MANUAL_RECONCILIATION_REQUIRED"); ("compensation", VStr "none_automatic");
   ("idempotency_key", VStr key); ("number", VInt number); ("operation", VStr MERGE_TOOL_ID);
   ("operation_digest", VStr digest); ("repository", VStr repository)].

(** ** One execution *)

(** What [GovernedMergeExecutor] is built with; the stores, the broker and the clock are shared. *)
Record GovernedMergeExecutor := mkMergeExecutor {
  mx_scope : GitHubRepositoryScope;
  mx_policies : MergePolicyRegistry;
  mx_snapshot_hash : string;
  mx_policy_version : string
}.

(** The local variables of [execute] once the key is claimed. *)
Record MergeContext := mkMergeContext {
  mc_request : MergeRequest;
  mc_policy : RepositoryMergePolicy;
  mc_authorization : string;
  mc_digest : string;
  mc_approval : ApprovalRecord;
  mc_key : string;
  mc_status : IdempotencyStatus;
  mc_stages : list MutationStage
}.

(** And once the [PUT] is issued. *)
Record MergeWrite := mkMergeWrite {
  mw_context : MergeContext;
  mw_gates : MergeGateReport;
  mw_handle : AuditHandle;
  mw_started_at : datetime;
  mw_writes : Z
}.

Abbreviation merge_task := (GovernedWorld.task MergeContext MergeWrite ProviderResponse MergeResult).

(** What observing the live state ends with: [ProviderTransportError], another exception (the
    reader builds the observed facts, which validate themselves), [None], or the observation. *)
Inductive observe_outcome : Type :=
| ObserveFailed
| ObserveRaised (e : mutation_exn)
| ObserveNone
| Observed (o : MergeObservation).

(** What a suspended execution is answered: the observation, or the provider's response ([None] is a
    [ProviderTransportError]).  It reads the one it waits for. *)
Record merge_answer := mkMergeAnswer {
  an_observed : observe_outcome;
  an_response : option ProviderResponse
}.

Section Merge.
Context {S : Type} `{AuditSink S}.
Variable sha256_hex : string -> string.
Variable mx : GovernedMergeExecutor.

Abbreviation exec_op := (exec_op (S:=S)).

(** [_descriptor] *)
Definition merge_descriptor (rq : MergeRequest) : result mutation_exn OperationDescriptor :=
  let! p := preconditions_post_init
              (mkPreconditions None (Some (mr_expected_head_sha rq)) (Some (mx_policy_version mx))) in
  descriptor_post_init
    (mkDescriptor MERGE_TOOL_ID MERGE_WRITE_CAPABILITY (mr_repository rq)
       [("base", VStr (mr_base rq)); ("number", VInt (mr_number rq))] p (mx_policy_version mx)
       (mx_snapshot_hash mx)).

(** Stages 1 to 4: scope, registry, policy, credential; no store is touched. *)
Definition merge_preflight (rq : MergeRequest) (i : Inputs) :
  result mutation_exn (RepositoryMergePolicy * string) :=
  let '(owner, repo) := partition_repository (mr_repository rq) in
  do! match scope_allows (mx_scope mx) owner repo with
      | None => Err (PyRaised ValueError)
      | Some true => Ok tt
      | Some false => Err (Denied MutationScopeError REPOSITORY_OUT_OF_SCOPE Stage_SCOPE "")
      end in
  let! policy := require_policy (mx_policies mx) (mr_repository rq) in
  do! merge_deny_if (negb (is_merge_enabled (mx_policies mx) (mr_repository rq)))
        MERGE_NOT_PERMITTED Stage_POLICY in
  let capability := capability_value MERGE_WRITE_CAPABILITY in
  do! match readiness (in_readiness_broker i) capability with
      | None => write_capability_error WRITE_CAPABILITY_NOT_READY
      | Some r =>
          if wr_ready r then Ok tt
          else write_capability_error (default WRITE_CAPABILITY_NOT_READY (wr_reason r))
      end in
  let! authorization := authorize (in_authorize_broker i) capability (mr_repository rq) in
  Ok (policy, authorization).

(** The result of an execution whose key has been used before. *)
Definition replayed_merge (rq : MergeRequest) (d : IdempotencyDecision) (digest key : string)
  (stages : list MutationStage) : MergeResult :=
  mkMergeResult (mr_repository rq) (mr_number rq) (ir_outcome (id_record d)) NOT_ATTEMPTED
    (if bool_decide (ir_outcome (id_record d) = Outcome_COMMITTED) then SUCCESS else BLOCKED) (id_status d)
    digest key None None None None stages 0.

(** [execute] up to its first suspension. *)
Definition merge_start (rq : MergeRequest) (i : Inputs) : World S -> merge_task * World S := suspends (
  let stages := [Stage_SCOPE; Stage_REGISTRY; Stage_POLICY; Stage_CREDENTIAL; Stage_APPROVAL] in
  let* pre := slift (merge_preflight rq i) in
  let '(policy, authorization) := pre in
  let* descriptor := slift (merge_descriptor rq) in
  let* digest := slift (compute_operation_digest sha256_hex descriptor) in
  let* approval := on_approvals (verify_and_consume sha256_hex (mr_approval_id rq) descriptor
                                   (mr_principal rq) (in_clock i 0)) in
  let stages := stages ++ [Stage_IDEMPOTENCY] in
  let* key := slift (compute_idempotency_key sha256_hex (mr_principal rq) MERGE_WRITE_CAPABILITY
                       (mr_repository rq) MERGE_TOOL_ID digest None) in
  let* decision := on_idempotency (begin_mutation key (mr_principal rq) (mr_repository rq) MERGE_TOOL_ID
                                     digest (pretty (mr_number rq)) (in_clock i 1)) in
  if negb (status_executes (id_status decision)) then
    sret (Finished (Ok (replayed_merge rq decision digest key stages)))
  else
    sret (Revalidating (mkMergeContext rq policy authorization digest approval key (id_status decision)
            (stages ++ [Stage_PRECONDITION_REVALIDATION])))).

(** Stage 8: the intent of the write-ahead record, with its parts constructed first. *)
Definition merge_intent (c : MergeContext) : result mutation_exn MutationIntent :=
  let rq := mc_request c in
  let! capability := capability_snapshot
        (mkSnapshot MERGE_WRITE_CAPABILITY Cap_READY (mx_snapshot_hash mx) (mx_policy_version mx)) in
  let! approval := approval_reference
        (mkApprovalRef (approval_id (mc_approval c)) AS_PENDING (mc_digest c)) in
  mutation_intent
    (mkIntent (mr_principal rq) MERGE_TOOL_ID (mr_repository rq) (mc_digest c)
       Policy_APPROVAL_REQUIRED capability (mc_key c) (mc_status c) (Some approval)
       (Some [("expected_head_sha", mr_expected_head_sha rq)]) (Some (mx_snapshot_hash mx))).

(** Stage 7 after the live state was observed, then [_write_and_verify] up to the [PUT]. *)
Definition merge_after_observe (c : MergeContext) (answer : observe_outcome) (i : Inputs) :
  World S -> merge_task * World S := suspends (
  let fail r := on_idempotency (fail_clean (mc_key c) r (in_clock i 0)) in
  match answer with
  | ObserveFailed =>
      do* on_idempotency (mark_ambiguous (mc_key c) (in_clock i 0)) in
      sraise (indeterminate Stage_PRECONDITION_REVALIDATION)
  | ObserveRaised e => sraise e
  | ObserveNone =>
      do* fail PROTECTION_STATE_UNVERIFIABLE in
      sraise (merge_denial PROTECTION_STATE_UNVERIFIABLE Stage_PRECONDITION_REVALIDATION "")
  | Observed o =>
      let* gates := failing_clean (mc_key c) (in_clock i 0)
                      (slift (evaluate_merge_gates (mc_request c) o (mc_policy c))) in
      let* intent := slift (merge_intent c) in
      let* handle := failing_clean (mc_key c) (in_clock i 0)
                       (on_ledger (ledger_begin sha256_hex intent (in_audit_id i) (in_ledger_clock i))) in
      let* writes := slift (guard_claim 0) in
      sret (Writing (mkMergeWrite
        (mkMergeContext (mc_request c) (mc_policy c) (mc_authorization c) (mc_digest c) (mc_approval c)
           (mc_key c) (mc_status c) (mc_stages c ++ [Stage_WRITE_AHEAD_AUDIT; Stage_PROVIDER_CALL]))
        gates handle (in_clock i 0) writes))
  end).

(** [_finish_ambiguous], raised. *)
Definition merge_ambiguous {A} (x : MergeWrite) (i : Inputs) (class : option string) (s : MutationStage)
  (v : VerificationState) : exec_op A :=
  settle_ambiguous sha256_hex (mw_handle x) (mc_key (mw_context x)) (mw_writes x) (mw_started_at x) class s v
    (in_clock i 0) (in_ledger_clock i) (in_clock i 1).

(** Stage 9 after the [PUT] was answered. *)
Definition merge_after_write (x : MergeWrite) (answer : option ProviderResponse) (i : Inputs) :
  World S -> merge_task * World S := suspends (
  match answer with
  | None => merge_ambiguous x i None Stage_PROVIDER_CALL UNVERIFIABLE
  | Some response =>
      match classify_merge_status (status_code response) with
      | Some RECONCILIATION_REQUIRED =>
          merge_ambiguous x i (Some (status_class response)) Stage_PROVIDER_CALL UNVERIFIABLE
      | Some reason =>
          let* o := slift (provider_observation
                      (mkObservation Outcome_FAILED_CLEAN NOT_ATTEMPTED (mw_writes x) (mw_started_at x)
                         (in_clock i 0) (Some (status_class response)) (Some reason) None None)) in
          do* on_ledger (ledger_finalize sha256_hex (mw_handle x) o (in_ledger_clock i)) in
          do* on_idempotency (fail_clean (mc_key (mw_context x)) reason (in_clock i 1)) in
          sraise (merge_denial reason Stage_PROVIDER_CALL "")
      | None => sret (ReadingBack x response)
      end
  end).

(** [_read_back] after its request was answered. *)
Definition merge_read_back (rq : MergeRequest) (answer : option ProviderResponse) :
  VerificationState * option string :=
  match answer with
  | None => (UNVERIFIABLE, None)
  | Some response =>
      let p := response_payload response in
      if negb (status_code response =? 200) || match p with [] => true | _ => false end
      then (UNVERIFIABLE, None)
      else
        match arg "merged" p with
        | VBool true =>
            let sha := match arg "head" p with VDict d => arg "sha" d | _ => VNone end in
            if negb (py_eq sha (VStr (mr_expected_head_sha rq))) then (MISMATCH, None)
            else match arg "merge_commit_sha" p with
                 | VStr s => if String.eqb s "" then (UNVERIFIABLE, None) else (VERIFIED, Some s)
                 | _ => (UNVERIFIABLE, None)
                 end
        | _ => (MISMATCH, None)
        end
  end.

(** The data the key is committed with. *)
Definition merge_data (rq : MergeRequest) (sha : option string) : list (string * value) :=
  [("merged_sha", vopt sha); ("number", VInt (mr_number rq))].

(** Stages 10 and 11. *)
Definition merge_after_read_back (x : MergeWrite) (response : ProviderResponse)
  (answer : option ProviderResponse) (i : Inputs) : World S -> merge_task * World S := finished (
  let c := mw_context x in
  let '(verification, sha) := merge_read_back (mc_request c) answer in
  if negb (bool_decide (verification = VERIFIED)) then
    merge_ambiguous x i (Some (status_class response)) Stage_READ_BACK verification
  else
    let stages := mc_stages c ++ [Stage_READ_BACK; Stage_RESULT_SHAPING] in
    let* o := slift (provider_observation
                (mkObservation Outcome_COMMITTED VERIFIED (mw_writes x) (mw_started_at x) (in_clock i 0)
                   (Some (status_class response)) None None None)) in
    let* evidence := on_ledger (ledger_finalize sha256_hex (mw_handle x) o (in_ledger_clock i)) in
    do* on_idempotency (commit_mutation (mc_key c) (merge_data (mc_request c) sha) (in_clock i 1)) in
    do* slift (assert_stage_order stages) in
    sret (mkMergeResult (mr_repository (mc_request c)) (mr_number (mc_request c)) Outcome_COMMITTED VERIFIED
            SUCCESS (mc_status c) (mc_digest c) (mc_key c) sha (Some (me_audit_id evidence))
            (Some (me_evidence_digest evidence)) (Some (mw_gates x)) stages (mw_writes x))).

(** What a suspended execution waits for. *)
Inductive merge_call : Type :=
| Observe (rq : MergeRequest) (authorization : string)
| MergePut (path authorization : string) (body : list (string * value))
| MergeGet (path authorization : string).

Definition merge_awaited (t : merge_task) : option merge_call :=
  match t with
  | Revalidating c => Some (Observe (mc_request c) (mc_authorization c))
  | Writing x =>
      let c := mw_context x in
      Some (MergePut (merge_endpoint (mc_request c)) (mc_authorization c)
              (merge_request_body (mc_request c) (mc_policy c)))
  | ReadingBack x _ =>
      let c := mw_context x in
      Some (MergeGet (pull_path (mr_repository (mc_request c)) (mr_number (mc_request c))) (mc_authorization c))
  | Finished _ => None
  end.

(** The next run of a suspended execution, on the answer it waited for. *)
Definition merge_resume (t : merge_task) (answer : merge_answer) (i : Inputs) : World S -> merge_task * World S :=
  match t with
  | Revalidating c => merge_after_observe c (an_observed answer) i
  | Writing x => merge_after_write x (an_response answer) i
  | ReadingBack x response => merge_after_read_back x response (an_response answer) i
  | Finished r => fun w => (Finished r, w)
  end.
End Merge.
