(* ===== verification/MergeGuarantees.v ===== *)
(** * The runs of one merge ([v2/github_merge_executor.py])

    What each uninterrupted run does to the shared stores and where it leaves the merge, and the
    executor of merges as an execution over the governed stores, with its laws. *)
From S2P Require Import Prelude.
From S2P Require Import PyText.
From S2P Require Import PyValue.
From S2P Require Import Canonical.
From S2P Require Import ToolSchema.
From S2P Require Import MutationContract.
From S2P Require Import ToolRegistry.
From S2P Require Import Policy.
From S2P Require Import WriteCredentials.
From S2P Require Import MutationDigest.
From S2P Require Import MutationIdempotency.
From S2P Require Import MutationLifecycle.
From S2P Require Import MutationRegistry.
From S2P Require Import MutationAudit.
From S2P Require Import GovernedWorld.
From S2P Require Import GovernedSystem.
From S2P Require Import MutationExecutor.
From S2P Require Import MutationRuns.
From S2P Require Import MergeGates.
From S2P Require Import MergeExecutor.

Section Runs.
Context {S : Type} `{AuditSinkLaws S}.
Variable sha256_hex : string -> string.
Variable mx : GovernedMergeExecutor.
Abbreviation merge_start := (merge_start (S:=S) sha256_hex mx).
Abbreviation effects := (effects sha256_hex).

(** ** Admission *)

(** Everything stages 1 to 5 establish about a merge, on the world [w] it started in. *)
Record merge_admission (rq : MergeRequest) (i : Inputs) (w : World S) (c : MergeContext) : Prop := {
  ma_request : mc_request c = rq;
  ma_preflight : merge_preflight mx rq i = Ok (mc_policy c, mc_authorization c);
  ma_approved : exists d a, merge_descriptor mx rq = Ok d
    /\ compute_operation_digest sha256_hex d = Ok (mc_digest c)
    /\ w_approvals w !! mr_approval_id rq = Some a
    /\ authorises a d (mc_digest c) (mr_principal rq) (in_clock i 0)
    /\ mc_approval c = set_consumed a (astimezone_utc (in_clock i 0));
  ma_key : compute_idempotency_key sha256_hex (mr_principal rq) MERGE_WRITE_CAPABILITY
    (mr_repository rq) MERGE_TOOL_ID (mc_digest c) None = Ok (mc_key c);
  ma_status : mc_status c = Status_NEW;
  ma_stages : mc_stages c = stages_claimed
}.

(** The claim an admitted merge makes. *)
Definition merge_claim (c : MergeContext) (now : datetime) : idem_op IdempotencyDecision :=
  begin_mutation (mc_key c) (mr_principal (mc_request c)) (mr_repository (mc_request c)) MERGE_TOOL_ID
    (mc_digest c) (pretty (mr_number (mc_request c))) now.

Definition merge_after_claim (c : MergeContext) (r : result mutation_exn IdempotencyDecision) : merge_task :=
  match r with
  | Err e => Finished (Err e)
  | Ok d => if status_executes (id_status d) then Revalidating c
            else Finished (Ok (replayed_merge (mc_request c) d (mc_digest c) (mc_key c) (take 6 stages_claimed)))
  end.

(** Refused without touching the claims, at most verifying an approval; or admitted, with the
    approval consumed, and then as the claim is answered. *)
Lemma merge_start_cases rq i w :
  (exists e calls, merge_start rq i w
     = (Finished (Err e), mkWorld (run_approvals sha256_hex (w_approvals w) calls) (w_idempotency w) (w_ledger w)))
  \/ exists c, merge_admission rq i w c
     /\ merge_start rq i w
        = (merge_after_claim c (fst (merge_claim c (in_clock i 1) (w_idempotency w))),
           mkWorld (<[mr_approval_id rq := mc_approval c]> (w_approvals w))
             (snd (merge_claim c (in_clock i 1) (w_idempotency w))) (w_ledger w)).
Proof.
  assert (Hsame : forall e, exists e' calls, ((Finished (Err e) : merge_task), w)
     = (Finished (Err e'), mkWorld (run_approvals sha256_hex (w_approvals w) calls) (w_idempotency w) (w_ledger w)))
    by (intros e; exists e, []; by destruct w).
  unfold MergeExecutor.merge_start, suspends. rewrite sbind_lift.
  destruct (merge_preflight mx rq i) as [[policy auth]|e] eqn:Hpre; [|left; apply Hsame].
  rewrite sbind_lift. destruct (merge_descriptor mx rq) as [d|e] eqn:Hd; [|left; apply Hsame].
  rewrite sbind_lift. destruct (compute_operation_digest sha256_hex d) as [h|e] eqn:Hh; [|left; apply Hsame].
  assert (Hcall : run_approvals sha256_hex (w_approvals w)
      [Verify (mr_approval_id rq) d (mr_principal rq) (in_clock i 0)]
    = snd (verify_and_consume sha256_hex (mr_approval_id rq) d (mr_principal rq) (in_clock i 0) (w_approvals w)))
    by done.
  rewrite sbind_unfold, on_approvals_unfold.
  destruct (verify_and_consume sha256_hex (mr_approval_id rq) d (mr_principal rq) (in_clock i 0) (w_approvals w))
    as [[a'|e] m'] eqn:Hv; [|left; eexists e, [_]; by rewrite Hcall].
  pose proof Hv as (a & h' & Ha & Hh' & Hauth & -> & ->)%verify_Ok_iff.
  rewrite Hh in Hh'. injection Hh' as <-. cbn [fst snd]. cbv zeta. rewrite sbind_lift.
  destruct (compute_idempotency_key sha256_hex (mr_principal rq) MERGE_WRITE_CAPABILITY (mr_repository rq)
              MERGE_TOOL_ID h None) as [key|e] eqn:Hkey; [|left; eexists e, [_]; by rewrite Hcall].
  right.
  set (c := mkMergeContext rq policy auth h (set_consumed a (astimezone_utc (in_clock i 0))) key Status_NEW
              stages_claimed).
  exists c. split.
  { split; [done|exact Hpre| |exact Hkey|done|done]. exists d, a. by split_and!. }
  rewrite sbind_unfold, on_idempotency_unfold. unfold merge_claim.
  cbn [w_idempotency w_approvals w_ledger mc_key mc_request c mc_digest mc_approval].
  destruct (begin_mutation _ _ _ _ _ _ _ _) as [[dec|e] s1] eqn:Hb; [|done].
  cbn [fst snd merge_after_claim]. unfold status_executes.
  destruct (bool_decide_reflect (id_status dec = Status_NEW)) as [Hn|]; [|done].
  unfold negb, sret. by rewrite Hn.
Qed.

(** ** After the observation *)

Definition issue_merge (c : MergeContext) (g : MergeGateReport) (h : AuditHandle) (now : datetime) : MergeWrite :=
  mkMergeWrite
    (mkMergeContext (mc_request c) (mc_policy c) (mc_authorization c) (mc_digest c) (mc_approval c)
       (mc_key c) (mc_status c) (mc_stages c ++ [Stage_WRITE_AHEAD_AUDIT; Stage_PROVIDER_CALL])) g h now 1.

Lemma slift_Ok {A} (m : result mutation_exn A) (w : World S) a w' :
  slift m w = (Ok a, w') <-> m = Ok a /\ w' = w.
Proof. unfold slift. split; [by intros [= -> ->]|by intros [-> ->]]. Qed.

(** [failing_clean], step by step. *)
Lemma failing_clean_settles {A} key now (m : exec_op (S:=S) A) :
  settles sha256_hex key True m -> settles sha256_hex key True (failing_clean key now m).
Proof.
  intros Hm w. specialize (Hm w). unfold failing_clean. destruct (m w) as [[a|[]] w1]; try done.
  cbn [snd] in *. etrans; [exact Hm|].
  assert (Hs : settles sha256_hex key True
    (sbind (on_idempotency (fail_clean key reason now)) (fun _ => sraise (A:=A) (Denied class reason stage detail))))
    by settle. apply Hs.
Qed.

Lemma failing_clean_Ok {A} key now (m : exec_op (S:=S) A) w a w' :
  failing_clean key now m w = (Ok a, w') <-> m w = (Ok a, w').
Proof.
  unfold failing_clean. destruct (m w) as [[b|[d r s t|r s|p]] w1]; try done.
  rewrite sbind_unfold. split; [|done]. by destruct (on_idempotency _ _) as [[] ?].
Qed.

(** Either the [PUT] is issued, every gate having just held on the live state and the record of the
    intent just written; or the merge ends, and at most this attempt is settled. *)
Lemma merge_after_observe_cases c answer i (w : World S) :
  (exists o g intent h l', answer = Observed o /\ evaluate_merge_gates (mc_request c) o (mc_policy c) = Ok g
     /\ merge_intent mx c = Ok intent
     /\ ledger_begin sha256_hex intent (in_audit_id i) (in_ledger_clock i) (w_ledger w) = (Ok h, l')
     /\ merge_after_observe sha256_hex mx c answer i w
        = (Writing (issue_merge c g h (in_clock i 0)), mkWorld (w_approvals w) (w_idempotency w) l'))
  \/ exists e w', merge_after_observe sha256_hex mx c answer i w = (Finished (Err e), w')
     /\ effects (mc_key c) True w w'.
Proof.
  unfold merge_after_observe. rewrite suspends_eq. set (m := match answer with ObserveFailed => _ | _ => _ end).
  assert (Hm : settles sha256_hex (mc_key c) True m).
  { unfold m. destruct answer; settle; apply failing_clean_settles; auto with runs. }
  specialize (Hm w). destruct (m w) as [[t|e] w'] eqn:Hw; [left|right; by exists e, w'].
  destruct answer as [|e| |o]; unfold m in Hw; [res_inv; done|done|res_inv; done|]. clear m Hm.
  apply sbind_Ok in Hw as (g & w1 & [Hg ->]%failing_clean_Ok%slift_Ok & Hw).
  apply sbind_Ok in Hw as (intent & w2 & [Hi ->]%slift_Ok & Hw).
  apply sbind_Ok in Hw as (h & w3 & Hl%failing_clean_Ok & Hw).
  rewrite on_ledger_unfold in Hl.
  destruct (ledger_begin sha256_hex intent (in_audit_id i) (in_ledger_clock i) (w_ledger w)) as [r l'] eqn:Hb.
  injection Hl as -> <-. injection Hw as <- <-.
  by exists o, g, intent, h, l'.
Qed.

(** ** After the [PUT] *)

(** The provider refused the merge, in a way that proves nothing was merged. *)
Definition merge_refused (answer : option ProviderResponse) : bool :=
  match answer with
  | Some r => match classify_merge_status (status_code r) with
              | None | Some RECONCILIATION_REQUIRED => false
              | Some _ => true
              end
  | None => false
  end.

Lemma merge_ambiguous_raises {A} x i class s v (w : World S) :
  is_ok (fst (merge_ambiguous (A:=A) sha256_hex x i class s v w)) = false.
Proof. unfold merge_ambiguous, settle_ambiguous. repeat (apply raises_bind; intros). done. Qed.

Lemma merge_ambiguous_settles {A} x i class s v clean :
  settles sha256_hex (mc_key (mw_context x)) clean (merge_ambiguous (A:=A) (S:=S) sha256_hex x i class s v).
Proof. unfold merge_ambiguous, settle_ambiguous. settle. Qed.

Lemma merge_after_write_cases x answer i (w : World S) :
  (exists r, answer = Some r /\ classify_merge_status (status_code r) = None
     /\ merge_after_write sha256_hex x answer i w = (ReadingBack x r, w))
  \/ exists e w', merge_after_write sha256_hex x answer i w = (Finished (Err e), w')
     /\ effects (mc_key (mw_context x)) (merge_refused answer = true) w w'.
Proof.
  unfold merge_after_write. rewrite suspends_eq.
  assert (Hend : forall m : exec_op (S:=S) merge_task, is_ok (fst (m w)) = false ->
    settles sha256_hex (mc_key (mw_context x)) (merge_refused answer = true) m -> exists e w',
    (match fst (m w) with Ok t => t | Err e => Finished (Err e) end, snd (m w)) = (Finished (Err e), w')
    /\ effects (mc_key (mw_context x)) (merge_refused answer = true) w w').
  { intros m Hok Hm. by eapply (ends_badly _ _ _ _ (fun r => match r with Ok t => t | Err e => Finished (Err e) end)). }
  destruct answer as [r|]; [|right; apply Hend; [apply merge_ambiguous_raises|apply merge_ambiguous_settles]].
  destruct (classify_merge_status (status_code r)) as [[]|] eqn:Hc;
    try (right; apply Hend; [repeat (apply raises_bind; intros); done|settle; cbn; by rewrite Hc]).
  - right; apply Hend; [apply merge_ambiguous_raises|apply merge_ambiguous_settles].
  - left. by exists r.
Qed.

(** ** After the read-back *)

(** What a successful merge reports. *)
Definition merge_success (x : MergeWrite) (sha : option string) (e : MutationEvidence) : MergeResult :=
  let c := mw_context x in
  mkMergeResult (mr_repository (mc_request c)) (mr_number (mc_request c)) Outcome_COMMITTED VERIFIED SUCCESS
    (mc_status c) (mc_digest c) (mc_key c) sha (Some (me_audit_id e)) (Some (me_evidence_digest e))
    (Some (mw_gates x)) (mc_stages c ++ [Stage_READ_BACK; Stage_RESULT_SHAPING]) (mw_writes x).

(** Success needs a verified read-back, the evidence sealed and the key committed. *)
Lemma merge_after_read_back_cases x created answer i (w : World S) :
  let c := mw_context x in
  (exists sha o e rec w',
     merge_read_back (mc_request c) answer = (VERIFIED, sha)
     /\ provider_observation (mkObservation Outcome_COMMITTED VERIFIED (mw_writes x) (mw_started_at x)
          (in_clock i 0) (Some (status_class created)) None None None) = Ok o
     /\ ledger_finalize sha256_hex (mw_handle x) o (in_ledger_clock i) (w_ledger w) = (Ok e, w_ledger w')
     /\ commit_mutation (mc_key c) (merge_data (mc_request c) sha) (in_clock i 1) (w_idempotency w)
        = (Ok rec, w_idempotency w')
     /\ merge_after_read_back sha256_hex x created answer i w = (Finished (Ok (merge_success x sha e)), w')
     /\ effects (mc_key c) False w w')
  \/ exists e w', merge_after_read_back sha256_hex x created answer i w = (Finished (Err e), w')
     /\ effects (mc_key c) False w w'.
Proof.
  intros c. unfold merge_after_read_back. rewrite finished_eq. fold c.
  destruct (merge_read_back (mc_request c) answer) as [v sha] eqn:Hv.
  destruct (bool_decide_reflect (v = VERIFIED)) as [->|Hne]; cbn [negb].
  2: { right. eapply (ends_badly _ _ _ _ Finished); [done|apply merge_ambiguous_raises|].
       apply merge_ambiguous_settles. }
  set (m := sbind _ _). assert (Heff : effects (mc_key c) False w (snd (m w))).
  { enough (settles sha256_hex (mc_key c) False m) as Hm by apply Hm. unfold m. settle. }
  destruct (m w) as [[r|e] w'] eqn:Hm; [left|right; by exists e, w'].
  unfold m in Hm. clear m. res_inv. unfold slift, sret, on_ledger, on_idempotency in *.
  repeat match goal with
  | H : (_, _) = (_, _) |- _ => injection H as H; subst
  | H : (let '(_, _) := ?y in _) = _ |- _ => destruct y eqn:?
  end.
  match goal with
  | Ho : provider_observation _ = Ok ?o, Hf : ledger_finalize _ _ _ _ (w_ledger ?w0) = (Ok ?e, ?l),
    Hc : commit_mutation _ _ _ _ = (Ok ?r, ?s) |- _ =>
      exists sha, o, e, r, (mkWorld (w_approvals w0) s l);
      split_and!; [reflexivity|exact Ho|exact Hf|exact Hc|reflexivity|exact Heff]
  end.
Qed.

(** ** The executor as an execution *)

(** What was established about a merge when it was admitted. *)
Definition merge_granted (c : MergeContext) : Prop :=
  exists i (w : World S), merge_admission (mc_request c) i w c
  /\ approval_id (mc_approval c) = mr_approval_id (mc_request c).

(** The [PUT] of an admitted merge: issued after every gate held on an observation of the live
    state, with the intent of the same merge recorded under the handle. *)
Definition merge_issued (c : MergeContext) (x : MergeWrite) : Prop :=
  exists o g intent h now, evaluate_merge_gates (mc_request c) o (mc_policy c) = Ok g
  /\ merge_intent mx c = Ok intent /\ x = issue_merge c g h now /\ ah_intent h = intent.

(** [GovernedMergeExecutor.execute] as an execution. *)
Definition merges : Execution S MergeRequest Inputs merge_answer MergeContext MergeWrite ProviderResponse MergeResult :=
  mkExecution merge_start (merge_resume sha256_hex mx) mc_approval mw_handle merge_granted merge_issued
    (fun _ r => classify_merge_status (status_code r) = None) (fun r => ms_status r = Status_NEW)
    mc_key (fun x => mc_key (mw_context x)) (fun _ a => merge_refused (an_response a)).

Lemma merge_issued_context c x : merge_issued c x ->
  mc_request (mw_context x) = mc_request c /\ mc_policy (mw_context x) = mc_policy c
  /\ mc_key (mw_context x) = mc_key c /\ mc_status (mw_context x) = mc_status c.
Proof. by intros (o & g & intent & h & now & _ & _ & -> & _). Qed.

Lemma merges_start rq i (w : World S) :
  keyed (w_approvals w) ->
  (exists e calls, merge_start rq i w
     = (Finished (Err e), mkWorld (run_approvals sha256_hex (w_approvals w) calls) (w_idempotency w) (w_ledger w)))
  \/ exists c j d who now holder repo op digest target at_ t,
     let claim := CallBegin (mc_key c) holder repo op digest target at_ in
     merge_granted c
     /\ verify_and_consume sha256_hex j d who now (w_approvals w) = (Ok (mc_approval c), <[j := mc_approval c]> (w_approvals w))
     /\ merge_start rq i w
        = (t, mkWorld (<[j := mc_approval c]> (w_approvals w)) (run_idem (w_idempotency w) claim) (w_ledger w))
     /\ (t = Revalidating c /\ claims (w_idempotency w) claim (mc_key c) \/ exists r, t = Finished r).
Proof.
  intros Hk. destruct (merge_start_cases rq i w) as [Hl|(c & Had & ->)]; [by left|right].
  pose proof (ma_request _ _ _ _ Had) as Hrq.
  destruct (ma_approved _ _ _ _ Had) as (d & a & _ & Hd & Ha & Hauth & Hc).
  exists c, (mr_approval_id rq), d, (mr_principal rq), (in_clock i 0), (mr_principal (mc_request c)),
    (mr_repository (mc_request c)), MERGE_TOOL_ID, (mc_digest c), (pretty (mr_number (mc_request c))),
    (in_clock i 1). eexists. split_and!.
  - exists i, w. rewrite Hrq. split; [done|]. rewrite Hc. cbn. by apply Hk.
  - apply verify_Ok_iff. exists a, (mc_digest c). by split_and!.
  - reflexivity.
  - unfold merge_after_claim. destruct (fst _) as [dec|e] eqn:Hdec; [destruct (status_executes (id_status dec)) eqn:Hnew|]; eauto.
    left. split; [done|]. do 6 eexists. exists dec. split_and!; [reflexivity|exact Hdec|].
    by apply bool_decide_eq_true in Hnew.
Qed.

Lemma merges_laws : ExecutionLaws sha256_hex merges.
Proof.
  split; cbn [ex_start ex_resume ex_approval ex_handle ex_granted ex_issued ex_acknowledged ex_wrote ex_key
    ex_write_key ex_refused merges merge_resume].
  - apply merges_start.
  - intros c answer i w. destruct (merge_after_observe_cases c (an_observed answer) i w)
      as [(o & g & intent & h & l' & _ & Hg & Hi & Hb & ->)|(e & w' & -> & Hw)]; [left|right; by exists e, w'].
    exists (issue_merge c g h (in_clock i 0)), intent, (in_audit_id i), (in_ledger_clock i), h, l'.
    split_and!; try done. exists o, g, intent, h, (in_clock i 0). split_and!; try done.
    by apply ledger_begin_intent in Hb.
  - intros x answer i w. destruct (merge_after_write_cases x (an_response answer) i w)
      as [(r & _ & Hc & ->)|(e & w' & -> & Hw)]; [left; by exists r|right; by exists e, w'].
  - intros x created answer i w. destruct (merge_after_read_back_cases x created (an_response answer) i w)
      as [(sha & o & e & rec & w' & _ & _ & _ & _ & -> & Hw)|(e & w' & -> & Hw)]; do 2 eexists.
    + split_and!; [done|exact Hw|]. intros v c [= <-] (i' & w1 & Had & _) Hi. cbn.
      destruct (merge_issued_context c x Hi) as (_ & _ & _ & ->). exact (ma_status _ _ _ _ Had).
    + by split_and!; [done|exact Hw|].
  - intros c x Hi. by apply merge_issued_context in Hi as (_ & _ & -> & _).
Qed.
End Runs.

(** * What the merge executor guarantees ([v2/github_merge_executor.py])

    Over any history of merges and of other users of the stores: what a [PUT] needs, that it is the
    one that was approved, how many there can be, and what a success means. *)

Lemma merge_descriptor_Ok mx rq d :
  merge_descriptor mx rq = Ok d ->
  operation d = MERGE_TOOL_ID /\ capability d = WC_MERGE /\ repository d = mr_repository rq
  /\ arguments d = [("base", VStr (mr_base rq)); ("number", VInt (mr_number rq))]
  /\ expected_head_sha (preconditions d) = Some (mr_expected_head_sha rq).
Proof.
  unfold merge_descriptor. intros Hd. apply rbind_Ok in Hd as (p & Hp & Hd).
  assert (p = mkPreconditions None (Some (mr_expected_head_sha rq)) (Some (mx_policy_version mx))) as ->.
  { unfold preconditions_post_init in Hp. res_inv. done. }
  unfold descriptor_post_init in Hd. cbn [operation repository arguments] in Hd.
  apply rbind_Ok in Hd as (u1 & _ & Hd). apply rbind_Ok in Hd as (u2 & _ & Hd).
  apply rbind_Ok in Hd as (a' & Ha & Hd). apply rbind_Ok in Hd as (u3 & _ & Hd).
  apply rbind_Ok in Hd as (u4 & _ & Hd). injection Hd as <-. cbn. split_and!; try done.
  unfold canonical_arguments in Ha. by destruct (canonical_json_text _) as [|[]]; try injection Ha as <-.
Qed.

(** The digest of a merge binds its repository, number, base and head. *)
Lemma merge_descriptor_binds mx1 mx2 rq1 rq2 d1 d2 :
  merge_descriptor mx1 rq1 = Ok d1 -> merge_descriptor mx2 rq2 = Ok d2 -> same_operation d1 d2 ->
  mr_repository rq1 = mr_repository rq2 /\ mr_number rq1 = mr_number rq2 /\ mr_base rq1 = mr_base rq2
  /\ mr_expected_head_sha rq1 = mr_expected_head_sha rq2.
Proof.
  intros (_ & _ & R1 & A1 & P1)%merge_descriptor_Ok (_ & _ & R2 & A2 & P2)%merge_descriptor_Ok.
  intros (_ & _ & Hr & Ha & Hp & _). rewrite A1, A2 in Ha.
  assert (Hget : forall k, normal <$> dget k [("base", VStr (mr_base rq1)); ("number", VInt (mr_number rq1))]
                         = normal <$> dget k [("base", VStr (mr_base rq2)); ("number", VInt (mr_number rq2))]).
  { intros k. apply normal_dict_get; [unfold dkeys; simpl; keys_distinct..|done]. }
  pose proof (Hget "base") as Hb. pose proof (Hget "number") as Hn. cbn in Hb, Hn.
  injection Hb as Hb. injection Hn as Hn. split_and!; congruence.
Qed.

Section Writes.
Context {S : Type} `{AuditSinkLaws S}.
Variable sha256_hex : string -> string.
Variable mx : GovernedMergeExecutor.
Abbreviation governed := (merges sha256_hex mx).

(** Everything behind the [PUT] of a merge. *)
Record merge_authorised (w : World S) (x : MergeWrite) : Prop := {
  mz_scope : let '(owner, repo) := partition_repository (mr_repository (mc_request (mw_context x))) in
    scope_allows (mx_scope mx) owner repo = Some true;
  mz_policy : mx_policies mx !! mr_repository (mc_request (mw_context x)) = Some (mc_policy (mw_context x));
  mz_credential : exists broker, authorize broker "github.write.merge" (mr_repository (mc_request (mw_context x)))
    = Ok (mc_authorization (mw_context x));
  mz_approved : exists d, merge_descriptor mx (mc_request (mw_context x)) = Ok d
    /\ compute_operation_digest sha256_hex d = Ok (mc_digest (mw_context x))
    /\ approved_digest (mc_approval (mw_context x)) = mc_digest (mw_context x);
  mz_approval : w_approvals w !! mr_approval_id (mc_request (mw_context x)) = Some (mc_approval (mw_context x))
    /\ state (mc_approval (mw_context x)) = AS_CONSUMED
    /\ approved_operation (mc_approval (mw_context x)) = MERGE_TOOL_ID
    /\ principal (mc_approval (mw_context x)) = mr_principal (mc_request (mw_context x))
    /\ approver (mc_approval (mw_context x)) <> principal (mc_approval (mw_context x));
  mz_gates : exists o, Forall (gate_holds (mc_request (mw_context x)) o (mc_policy (mw_context x))) MERGE_GATE_ORDER
    /\ mw_gates x = full_report (mc_request (mw_context x)) o (mc_policy (mw_context x));
  mz_recorded : recorded (mw_handle x) (w_ledger w)
    /\ mi_digest (ah_intent (mw_handle x)) = mc_digest (mw_context x)
    /\ mi_key (ah_intent (mw_handle x)) = mc_key (mw_context x);
  mz_once : mw_writes x = 1
}.

Lemma merge_preflight_Ok rq i p auth :
  merge_preflight mx rq i = Ok (p, auth) ->
  (let '(owner, repo) := partition_repository (mr_repository rq) in scope_allows (mx_scope mx) owner repo = Some true)
  /\ mx_policies mx !! mr_repository rq = Some p
  /\ authorize (in_authorize_broker i) "github.write.merge" (mr_repository rq) = Ok auth.
Proof.
  unfold merge_preflight. destruct (partition_repository (mr_repository rq)) as [owner repo].
  intros Hp. apply rbind_Ok in Hp as (u1 & Hs & Hp). apply rbind_Ok in Hp as (p' & Hreq & Hp).
  apply rbind_Ok in Hp as (u2 & _ & Hp). apply rbind_Ok in Hp as (u3 & _ & Hp).
  apply rbind_Ok in Hp as (auth' & Ha & Hp). injection Hp as -> ->. split_and!.
  - by destruct (scope_allows _ _ _) as [[]|].
  - unfold require_policy in Hreq. apply rbind_Ok in Hreq as (u4 & _ & Hreq).
    destruct (mx_policies mx !! mr_repository rq); [by injection Hreq as ->|done].
  - exact Ha.
Qed.

Lemma merge_intent_Ok c intent :
  merge_intent mx c = Ok intent -> mi_digest intent = mc_digest c /\ mi_key intent = mc_key c.
Proof. unfold merge_intent, mutation_intent. intros Hi. res_inv. done. Qed.

Lemma merge_write_authorised s p x :
  system_inv governed s -> (p, x) ∈ sy_writes s -> merge_authorised (sy_world s) x.
Proof.
  intros Hs Hx. destruct (si_writes _ _ Hs p x Hx) as (Hrec & c & Hc & o & g & intent & h & now & Hg & Hi & -> & Hint).
  destruct (si_admitted _ _ Hs p c Hc) as (_ & (i & w & Had & Hid) & Hst & Hcon).
  destruct Had as [_ Hpre (d & a & Hd & Hdig & Ha & Hauth & Hap) Hkey _ _].
  destruct (merge_descriptor_Ok _ _ _ Hd) as (Ho & _ & Hrepo & _).
  destruct (merge_intent_Ok _ _ Hi) as (Hm1 & Hm2). destruct (merge_preflight_Ok _ _ _ _ Hpre) as (Hsc & Hpol & Hau).
  destruct Hauth as (_ & _ & Hd1 & _ & Hd3 & Hd4 & Hd5).
  pose proof (evaluate_cases (mc_request c) o (mc_policy c)) as Hgates. rewrite Hg in Hgates.
  cbn [governed ex_handle ex_approval] in *.
  split; cbn [issue_merge mw_context mc_request mc_policy mc_authorization mc_digest mc_approval mc_key mw_gates
    mw_handle mw_writes].
  - exact Hsc.
  - exact Hpol.
  - by exists (in_authorize_broker i).
  - exists d. rewrite Hap. by split_and!.
  - rewrite <- Hid. split_and!; [exact Hst|exact Hcon|..]; rewrite Hap; cbn [set_consumed approved_operation principal approver].
    + congruence.
    + done.
    + apply Hd5. unfold requires_distinct_approver. by rewrite Ho.
  - by exists o.
  - rewrite <- Hint in Hm1, Hm2. exact (conj Hrec (conj Hm1 Hm2)).
  - reflexivity.
Qed.
End Writes.

(** ** The guarantees *)

Section Guarantees.
Context {S : Type} `{AuditSinkLaws S}.
Variable sha256_hex : string -> string.
Variable mx : GovernedMergeExecutor.

(** A system of merges after any history, from fresh stores. *)
Variable lease token : Z.
Variable sink : S.
Abbreviation after es := (system_after sha256_hex (merges sha256_hex mx) lease token sink es).

Lemma after_merges_inv es : system_inv (merges sha256_hex mx) (after es).
Proof. apply system_after_inv, merges_laws. Qed.


(** [C9] What is merged is what was approved: if the approval of a merge was given for the request
    [rq0], by its digest, then the [PUT] goes to the endpoint of [rq0]'s repository and number and
    pins [rq0]'s head, whatever was submitted; the method is the one the repository's policy fixes. *)
Theorem merges_send_what_was_approved es p x mx0 rq0 d0 :
  (forall u v, sha256_hex u = sha256_hex v -> u = v) ->
  (p, x) ∈ sy_writes (after es) ->
  merge_descriptor mx0 rq0 = Ok d0 ->
  compute_operation_digest sha256_hex d0 = Ok (approved_digest (mc_approval (mw_context x))) ->
  exists policy, mx_policies mx !! mr_repository rq0 = Some policy
  /\ merge_awaited (Writing x)
     = Some (MergePut (merge_endpoint rq0) (mc_authorization (mw_context x)) (merge_request_body rq0 policy))
  /\ mr_base (mc_request (mw_context x)) = mr_base rq0.
Proof.
  intros Hsha Hx Hd0 Hdig0. destruct (merge_write_authorised _ _ _ _ _ (after_merges_inv es) Hx)
    as [_ Hpol _ (d & Hd & Hdig & Heq) _ _ _ _]. rewrite Heq in Hdig0.
  pose proof (proj1 (operation_digest_eq sha256_hex Hsha d0 d _ _ Hdig0 Hdig) eq_refl) as Hsame.
  destruct (merge_descriptor_binds _ _ _ _ _ _ Hd0 Hd Hsame) as (Hr & Hn & Hb & Hh).
  exists (mc_policy (mw_context x)). rewrite Hr. split; [exact Hpol|]. split; [|done].
  cbn [merge_awaited]. unfold merge_endpoint, merge_request_body. by rewrite Hr, Hn, Hh.
Qed.

(** At most one merge per execution, per approval and per audit record, over any history. *)
Theorem merges_are_single es :
  let writes := sy_writes (system_after sha256_hex (merges sha256_hex mx) lease token sink es) in
  NoDup (map fst writes)
  /\ NoDup (map (fun px => mr_approval_id (mc_request (mw_context (snd px)))) writes)
  /\ NoDup (map (fun px => ah_id (mw_handle (snd px))) writes).
Proof.
  apply (writes_once (merges sha256_hex mx) (fun x => mr_approval_id (mc_request (mw_context x))) _ (after_merges_inv es)).
  intros c x (i & w & _ & Hid) (-> & _)%merge_issued_context. symmetry. exact Hid.
Qed.

(** Merges under one idempotency key, over any history: at most one, plus one for each event
    that released the key: an execution under it that ended before its [PUT] or that the provider
    refused cleanly (409, 405, 404, 401 or 403), a reconciliation that found the merge absent, or a
    purge.  A merge that may have happened is never repeated on its own. *)
Theorem merges_per_key es k :
  (writes_under (merges sha256_hex mx) k (after es)
   <= 1 + count_releases sha256_hex (merges sha256_hex mx) k (initial lease token sink) es)%nat.
Proof. apply writes_per_release, merges_laws. Qed.

(** ** What a success means *)

(** The provider reports the pull request merged, at the pinned head, by the commit [sha]. *)
Definition merged_at (rq : MergeRequest) (answer : option ProviderResponse) (sha : string) : Prop :=
  exists r head, answer = Some r /\ status_code r = 200 /\ arg "merged" (response_payload r) = VBool true
  /\ arg "head" (response_payload r) = VDict head /\ arg "sha" head = VStr (mr_expected_head_sha rq)
  /\ arg "merge_commit_sha" (response_payload r) = VStr sha /\ sha <> "".

Lemma merge_read_back_verified rq answer o :
  merge_read_back rq answer = (VERIFIED, o) -> exists sha, o = Some sha /\ merged_at rq answer sha.
Proof.
  unfold merge_read_back, merged_at. destruct answer as [r|]; [|done].
  destruct (_ || _) eqn:Hst; [done|]. apply orb_false_iff in Hst as [Hst _]. bool_prop.
  destruct (arg "merged" (response_payload r)) as [|[]| | | | | |] eqn:Hm; try done.
  destruct (negb (py_eq _ _)) eqn:Hsha; [done|]. apply negb_false_iff, py_eq_str in Hsha.
  destruct (arg "merge_commit_sha" (response_payload r)) as [| | |s| | | |] eqn:Hc; try done.
  destruct (String.eqb_spec s "") as [|Hs]; [done|]. intros [= <-].
  destruct (arg "head" (response_payload r)) as [| | | | | |d|] eqn:Hh; try done.
  exists s. split; [done|]. by exists r, d.
Qed.

(** [C10] A merge succeeds only when it is proved: when a run ends a merge successfully, in any
    history, it had sent its one [PUT], accepted with status 200, and it was the read-back that
    ended it: the provider reported the pull request merged at the pinned head, the attempt was
    sealed as evidence under its own record and committed under its key with the merge commit, and
    every stage was walked in the documented order. *)
Theorem merge_success_is_proved es p t answer i r w :
  sy_tasks (after es) !! p = Some t -> (forall r, t <> Finished r) ->
  merge_resume sha256_hex mx t answer i (sy_world (after es)) = (Finished (Ok r), w) ->
  exists x created sha, (p, x) ∈ sy_writes (after es) /\ t = ReadingBack x created
  /\ status_code created = 200 /\ merged_at (mc_request (mw_context x)) (an_response answer) sha
  /\ ms_outcome r = Outcome_COMMITTED /\ ms_verification r = VERIFIED /\ merged_sha r = Some sha
  /\ ms_status r = Status_NEW /\ ms_writes r = 1 /\ ms_stages r = MUTATION_STAGE_ORDER
  /\ ms_gates r = Some (mw_gates x)
  /\ key_phase_of (w_idempotency w) (ms_key r) = CommittedWith (merge_data (mc_request (mw_context x)) (Some sha))
  /\ ms_audit_id r = Some (ah_id (mw_handle x)) /\ ah_id (mw_handle x) ∈ l_finalized (w_ledger w).
Proof.
  intros Ht Hnot Hres. pose proof (after_merges_inv es) as Hs.
  destruct t as [c|x|x created|r0]; cbn [merge_resume] in Hres; [..|by destruct (Hnot r0)].
  - destruct (merge_after_observe_cases sha256_hex mx c (an_observed answer) i (sy_world (after es)))
      as [(? & ? & ? & ? & ? & _ & _ & _ & _ & He)|(? & ? & He & _)]; rewrite He in Hres; discriminate Hres.
  - destruct (merge_after_write_cases sha256_hex x (an_response answer) i (sy_world (after es)))
      as [(? & _ & _ & He)|(? & ? & He & _)]; rewrite He in Hres; discriminate Hres.
  - destruct (merge_after_read_back_cases sha256_hex x created (an_response answer) i (sy_world (after es)))
      as [(o & ob & e & rec & w' & Hrb & _ & Hf & Hc & He & _)|(e & w' & He & _)];
      rewrite He in Hres; [|discriminate Hres]. injection Hres as <- <-.
    destruct (si_tasks _ _ Hs p _ Ht) as [_ [Hx Hst]]. cbn [ex_acknowledged merges] in Hst.
    destruct (si_writes _ _ Hs p x Hx) as (_ & c & Hadm & og & g & intent & h & now & _ & _ & -> & _).
    destruct (si_admitted _ _ Hs p c Hadm) as (_ & (i0 & w0 & Had & _) & _).
    cbn [issue_merge mw_context mc_request mw_handle] in Hrb, Hc, Hf.
    destruct (merge_read_back_verified _ _ _ Hrb) as (sha & -> & Hsha).
    exists (issue_merge c g h now), created, sha.
    cbn [merge_success issue_merge mw_context mw_gates mw_handle mw_writes ms_outcome ms_verification merged_sha
      ms_status ms_writes ms_stages ms_gates ms_key ms_audit_id mc_request mc_key mc_status mc_stages].
    rewrite (ma_status _ _ _ _ _ _ Had), (ma_stages _ _ _ _ _ _ Had). split_and!; try done.
    + unfold classify_merge_status in Hst. destruct (Z.eqb_spec (status_code created) 200); [done|].
      by repeat case_match.
    + eapply committed_phase; [apply (si_idempotency _ _ Hs)|exact Hc].
    + destruct (finalize_cases sha256_hex h ob (in_ledger_clock i) (w_ledger (sy_world (after es))))
        as [(e' & He')|(e' & He' & _ & _ & _ & _ & _ & Hid & _)]; rewrite He' in Hf; [discriminate Hf|].
      injection Hf as <- _. by rewrite Hid.
    + destruct (finalize_cases sha256_hex h ob (in_ledger_clock i) (w_ledger (sy_world (after es))))
        as [(e' & He')|(e' & He' & _)]; rewrite He' in Hf; [discriminate Hf|].
      injection Hf as _ Hl. rewrite <- Hl. cbn. set_solver.
Qed.
End Guarantees.
