(* ===== verification/MergeWitness.v ===== *)
(** * Concrete merges

    One deployment (a merge-enabled repository, a merge credential) and histories of it: the runs the
    theorems are applied to, and runs that show what the code does in corner cases. *)
From S2P Require Import Prelude.
From S2P Require Import PyText.
From S2P Require Import PyValue.
From S2P Require Import Canonical.
From S2P Require Import MutationContract.
From S2P Require Import ToolSchema.
From S2P Require Import ToolRegistry.
From S2P Require Import Policy.
From S2P Require Import WriteCredentials.
From S2P Require Import MutationDigest.
From S2P Require Import MutationIdempotency.
From S2P Require Import MutationLifecycle.
From S2P Require Import MutationRegistry.
From S2P Require Import MutationAudit.
From S2P Require Import GovernedWorld.
From S2P Require Import GovernedSystem.
From S2P Require Import MutationExecutor.
From S2P Require Import MutationRuns.
From S2P Require Import MutationWitness.
From S2P Require Import MergeGates.
From S2P Require Import MergeExecutor.
From S2P Require Import MergeGuarantees.

(** ** The deployment *)

Definition demo_merge_policy : RepositoryMergePolicy := mkMergePolicy "o/r" Method_SQUASH {["ci"]} false true.

Definition demo_mx : GovernedMergeExecutor :=
  mkMergeExecutor demo_repositories {["o/r" := demo_merge_policy]} (hex64 "1") MERGE_POLICY_VERSION.

Definition demo_merge_environ (name : string) : option string :=
  if String.eqb name (write_secret_name WC_MERGE +:+ "_FILE") then Some " /run/secret " else None.

Definition demo_merge_permissions : list (string * string) :=
  [("contents", "write"); ("pull_requests", "write"); ("metadata", "read"); ("checks", "read")].

Definition demo_merge_broker : WriteCapabilityBroker :=
  mkBroker [of_file demo_merge_environ (demo_open 384)
              (mkFileProvider WC_MERGE demo_repositories PT_GITHUB_APP (write_secret_name WC_MERGE) true)]
    (fun _ => Some demo_merge_permissions) (fun _ => true).

Definition demo_merge_inputs (t : Z) (audit_id : string) : Inputs :=
  mkInputs (fun n => instant (t + Z.of_nat n)) (instant t) audit_id
    demo_merge_broker demo_merge_broker demo_merge_broker.

Definition demo_merge (approval : string) : MergeRequest :=
  mkMergeRequest "alice" "o/r" 7 "release" demo_sha1 approval (Some "bob").

Definition demo_merge_operation : OperationDescriptor :=
  mkDescriptor MERGE_TOOL_ID WC_MERGE "o/r" [("base", VStr "release"); ("number", VInt 7)]
    (mkPreconditions None (Some demo_sha1) (Some MERGE_POLICY_VERSION)) MERGE_POLICY_VERSION (hex64 "1").

Definition demo_merge_table : list (string * string) :=
  [(text_of (descriptor_payload demo_merge_operation), hex64 "2");
   (text_of (VDict (key_payload "alice" WC_MERGE "o/r" MERGE_TOOL_ID (hex64 "2") None)), hex64 "a")].

Definition demo_merge_sha (s : string) : string :=
  fold_right (fun th => swap (fst th) (snd th)) s demo_merge_table.

Lemma demo_merge_sha_inj s t : demo_merge_sha s = demo_merge_sha t -> s = t.
Proof.
  unfold demo_merge_sha. induction demo_merge_table as [|th table IH]; [done|]. cbn. intros H. by eapply IH, swap_inj.
Qed.

Definition demo_merge_approved (id approver : string) : ApprovalRecord :=
  mkApprovalRecord id "alice" approver (hex64 "2") "o/r" MERGE_TOOL_ID "n1" (instant 1000000000) "ctx"
    AS_PENDING None.

Definition demo_observation (merge_state : string) : MergeObservation :=
  mkObserved (mkPullRequest 7 "open" false (Some true) (Some merge_state) demo_sha1 "release")
    (mkProtection true {["lint"]} 1 1 0 true)
    [mkCheck "ci" "completed" (Some "success"); mkCheck "lint" "completed" (Some "success")] "main".

Definition no_response : option ProviderResponse := None.
Definition observed (o : MergeObservation) : merge_answer := mkMergeAnswer (Observed o) None.
Definition responded (status : Z) (p : list (string * value)) : merge_answer :=
  mkMergeAnswer ObserveNone (Some (mkResponse status p)).

Abbreviation demo_merges_after es :=
  (system_after demo_merge_sha (merges demo_merge_sha demo_mx) 120 7 (mkFileSink ∅ []) es).
Abbreviation merge_event := (event MergeRequest Inputs merge_answer).

Definition demo_merge_events : list merge_event :=
  [ApprovalsUsed (Issue (demo_merge_approved "ap1" "bob"));
   Submitted (demo_merge "ap1") (demo_merge_inputs 10 "mut-1");
   Answered 0 (observed (demo_observation "clean")) (demo_merge_inputs 20 "mut-1");
   Answered 0 (responded 200 [("merged", VBool true)]) (demo_merge_inputs 30 "mut-2")].

Definition demo_merged : merge_answer :=
  responded 200 [("merged", VBool true); ("head", VDict [("sha", VStr demo_sha1)]);
                 ("merge_commit_sha", VStr "c0ffee")].

Abbreviation demo_merge_writes := (sy_writes (demo_merges_after demo_merge_events)).

(** ** The theorems on this history *)


Lemma merges_are_single_witness :
  length demo_merge_writes = 1%nat
  /\ NoDup (map (fun px => mr_approval_id (mc_request (mw_context (snd px)))) demo_merge_writes).
Proof.
  split; [vm_compute; reflexivity|].
  exact (proj1 (proj2 (merges_are_single demo_merge_sha demo_mx 120 7 (mkFileSink ∅ []) demo_merge_events))).
Defined.

Lemma merges_per_key_witness :
  writes_under (merges demo_merge_sha demo_mx) (hex64 "a") (demo_merges_after demo_merge_events) = 1%nat
  /\ (writes_under (merges demo_merge_sha demo_mx) (hex64 "a") (demo_merges_after demo_merge_events)
      <= 1 + count_releases demo_merge_sha (merges demo_merge_sha demo_mx) (hex64 "a")
               (initial 120 7 (mkFileSink ∅ [])) demo_merge_events)%nat.
Proof.
  split; [vm_compute; reflexivity|].
  apply (merges_per_key demo_merge_sha demo_mx 120 7 (mkFileSink ∅ []) demo_merge_events (hex64 "a")).
Defined.

Lemma merges_send_what_was_approved_witness :
  match demo_merge_writes with
  | (p, x) :: _ =>
      exists policy, mx_policies demo_mx !! "o/r" = Some policy
      /\ merge_awaited (Writing x)
         = Some (MergePut (merge_endpoint (demo_merge "other")) (mc_authorization (mw_context x))
                   (merge_request_body (demo_merge "other") policy))
      /\ mr_base (mc_request (mw_context x)) = "release"
  | [] => False
  end.
Proof.
  assert (Ha : map (fun px => approved_digest (mc_approval (mw_context (snd px)))) demo_merge_writes = [hex64 "2"])
    by (vm_compute; reflexivity).
  destruct demo_merge_writes as [|[p x] rest] eqn:Hw; [discriminate Ha|]. injection Ha as Ha _.
  apply (merges_send_what_was_approved demo_merge_sha demo_mx 120 7 (mkFileSink ∅ []) demo_merge_events p x
           demo_mx (demo_merge "other") demo_merge_operation demo_merge_sha_inj).
  - rewrite Hw. by left.
  - vm_compute. reflexivity.
  - cbn [snd] in Ha. rewrite Ha. vm_compute. reflexivity.
Defined.

Lemma merge_success_is_proved_witness :
  match sy_tasks (demo_merges_after demo_merge_events) !! 0%nat with
  | Some t =>
      match merge_resume demo_merge_sha demo_mx t demo_merged (demo_merge_inputs 40 "mut-2")
              (sy_world (demo_merges_after demo_merge_events)) with
      | (Finished (Ok r), w) =>
          exists x created sha, (0%nat, x) ∈ demo_merge_writes /\ t = ReadingBack x created
          /\ merged_sha r = Some sha /\ merged_at (mc_request (mw_context x)) (an_response demo_merged) sha
      | _ => False
      end
  | None => False
  end.
Proof.
  destruct (sy_tasks (demo_merges_after demo_merge_events) !! 0%nat) as [t|] eqn:Ht; [|vm_compute in Ht; discriminate].
  destruct (merge_resume demo_merge_sha demo_mx t demo_merged (demo_merge_inputs 40 "mut-2")
              (sy_world (demo_merges_after demo_merge_events))) as [t' w] eqn:Hr.
  assert (Hs : match sy_tasks (demo_merges_after demo_merge_events) !! 0%nat with
               | Some (ReadingBack _ _ as t) =>
                   match fst (merge_resume demo_merge_sha demo_mx t demo_merged (demo_merge_inputs 40 "mut-2")
                                (sy_world (demo_merges_after demo_merge_events))) with
                   | Finished (Ok _) => True | _ => False end
               | _ => False end) by (vm_compute; exact I).
  rewrite Ht in Hs. destruct t as [|?|x created|]; try (exfalso; exact Hs). rewrite Hr in Hs. cbn [fst] in Hs.
  destruct t' as [|?|? ?|[r|e]]; try (exfalso; exact Hs). clear Hs.
  destruct (merge_success_is_proved demo_merge_sha demo_mx 120 7 (mkFileSink ∅ []) demo_merge_events 0%nat
              (ReadingBack x created) demo_merged (demo_merge_inputs 40 "mut-2") r w Ht ltac:(discriminate) Hr)
    as (x' & created' & sha & H1 & H2 & _ & H4 & _ & _ & H7 & _).
  exists x', created', sha. exact (conj H1 (conj H2 (conj H7 H4))).
Defined.

(** ** Corner cases *)

(** What became of the execution [0]. *)
Definition merge_end (es : list merge_event) : option (result mutation_exn (option string)) :=
  match sy_tasks (demo_merges_after es) !! 0%nat with
  | Some (Finished (Ok r)) => Some (Ok (merged_sha r))
  | Some (Finished (Err e)) => Some (Err e)
  | _ => None
  end.

Lemma demo_merge_ends : merge_end (demo_merge_events ++ [Answered 0 demo_merged (demo_merge_inputs 40 "mut-2")])
  = Some (Ok (Some "c0ffee")).
Proof. by vm_compute. Qed.

(** An approval given by the principal itself does not let a merge through. *)
Lemma self_approved_merge_is_denied :
  merge_end [ApprovalsUsed (Issue (demo_merge_approved "ap1" "alice"));
             Submitted (demo_merge "ap1") (demo_merge_inputs 10 "mut-1")]
  = Some (Err (Denied ApprovalError APPROVER_NOT_DISTINCT Stage_APPROVAL "")).
Proof. by vm_compute. Qed.

(** A gate that fails after the approval was consumed fails the attempt cleanly: its key is free
    again, but a new attempt needs a new approval. *)
Lemma failed_gate_frees_the_key :
  let es := [ApprovalsUsed (Issue (demo_merge_approved "ap1" "bob"));
             Submitted (demo_merge "ap1") (demo_merge_inputs 10 "mut-1");
             Answered 0 (observed (demo_observation "blocked")) (demo_merge_inputs 20 "mut-1")] in
  merge_end es = Some (Err (merge_denial PULL_REQUEST_NOT_MERGEABLE Stage_POLICY ""))
  /\ key_phase_of (w_idempotency (sy_world (demo_merges_after es))) (hex64 "a") = FailedClean
  /\ (state <$> w_approvals (sy_world (demo_merges_after es)) !! "ap1") = Some AS_CONSUMED.
Proof. by vm_compute. Qed.

(** A reader that raises anything but [ProviderTransportError] (an observed fact that does not
    validate) leaves the key in progress: nothing settles the attempt. *)
Lemma raising_reader_leaves_key_pending :
  let es := [ApprovalsUsed (Issue (demo_merge_approved "ap1" "bob"));
             Submitted (demo_merge "ap1") (demo_merge_inputs 10 "mut-1");
             Answered 0 (mkMergeAnswer (ObserveRaised (merge_denial INVALID_ARGUMENTS Stage_REGISTRY "")) None)
               (demo_merge_inputs 20 "mut-1")] in
  merge_end es = Some (Err (merge_denial INVALID_ARGUMENTS Stage_REGISTRY ""))
  /\ key_phase_of (w_idempotency (sy_world (demo_merges_after es))) (hex64 "a") = InProgress.
Proof. by vm_compute. Qed.

(** No gate looks at the number of the pull request that was observed. *)
Lemma gates_ignore_the_number :
  forall n, is_ok (evaluate_merge_gates (demo_merge "ap1")
    (mkObserved (mkPullRequest n "open" false (Some true) (Some "clean") demo_sha1 "release")
       (protection (demo_observation "clean")) (checks (demo_observation "clean")) "main") demo_merge_policy) = true.
Proof. intros n. by vm_compute. Qed.

(** The registered tools, and the merge, hold none of the excluded operations. *)
Lemma no_excluded_operation_is_registered :
  assert_no_excluded_operation_contract (MERGE_TOOL_ID :: MUTATION_TOOL_IDS) = [].
Proof. by vm_compute. Qed.
