(* ===== verification/BatchContract.v ===== *)
(** * The batch contract ([v2/batch_contract.py])

    A batch is an envelope over typed steps.  Constructing it is the validation gate: a request
    that exists is within every ceiling.  The statuses of a batch are aggregated from those of its
    steps. *)
From S2P Require Import Prelude.
From S2P Require Import PyText.
From S2P Require Import PyValue.
From S2P Require Import Canonical.

Definition BATCH_SCHEMA_VERSION : string := "batch/1".
Definition BATCH_MAX_ITEMS : Z := 10.
Definition BATCH_MAX_PARALLELISM : Z := 4.
Definition BATCH_MAX_PARALLELISM_MUTATION : Z := 1.
Definition BATCH_MAX_TIMEOUT_S : Z := 300.
Definition BATCH_MAX_INFLIGHT_GLOBAL : Z := 8.
Definition BATCH_FEATURE_ENABLED : bool := false.
Definition IDENTIFIER_MAX : Z := 128.

(** ** Vocabularies *)

Inductive BatchErrorCode : Type :=
| BATCH_VALIDATION_FAILED | BATCH_CAPACITY_EXHAUSTED | BATCH_TIMEOUT | BATCH_CANCELLED | BATCH_DISABLED.
Definition batch_error_value (c : BatchErrorCode) : string :=
  match c with
  | BATCH_VALIDATION_FAILED => "BATCH_VALIDATION_FAILED"
  | BATCH_CAPACITY_EXHAUSTED => "BATCH_CAPACITY_EXHAUSTED"
  | BATCH_TIMEOUT => "BATCH_TIMEOUT"
  | BATCH_CANCELLED => "BATCH_CANCELLED"
  | BATCH_DISABLED => "BATCH_DISABLED"
  end.

Inductive BatchFailurePolicy : Type := BatchFailFast | BatchContinue.
#[export] Instance BatchFailurePolicy_eq_dec : EqDecision BatchFailurePolicy.
Proof. solve_decision. Defined.
Definition batch_policy_value (p : BatchFailurePolicy) : string :=
  match p with BatchFailFast => "fail_fast" | BatchContinue => "continue_on_error" end.

Inductive StepStatus : Type :=
| Step_SUCCESS | Step_FAILED | Step_DENIED | Step_TIMED_OUT | Step_CANCELLED | Step_NOT_STARTED.
#[export] Instance StepStatus_eq_dec : EqDecision StepStatus.
Proof. solve_decision. Defined.
Definition step_status_value (s : StepStatus) : string :=
  match s with
  | Step_SUCCESS => "SUCCESS" | Step_FAILED => "FAILED" | Step_DENIED => "DENIED"
  | Step_TIMED_OUT => "TIMED_OUT" | Step_CANCELLED => "CANCELLED" | Step_NOT_STARTED => "NOT_STARTED"
  end.
(** The members in the order of their definition. *)
Definition STEP_STATUSES : list StepStatus :=
  [Step_SUCCESS; Step_FAILED; Step_DENIED; Step_TIMED_OUT; Step_CANCELLED; Step_NOT_STARTED].

Inductive BatchStatus : Type :=
| Batch_SUCCESS | Batch_PARTIAL | Batch_FAILED | Batch_DENIED | Batch_TIMED_OUT | Batch_CANCELLED.
#[export] Instance BatchStatus_eq_dec : EqDecision BatchStatus.
Proof. solve_decision. Defined.

Inductive IdempotencyOutcome : Type := EXECUTED | REPLAYED | CONFLICT.

(** ** Errors: the classes of [BatchError], and what else is raised *)

Inductive batch_exn : Type :=
| BatchValidationError (detail : string)
| BatchCapacityError (detail : string)
| BatchDisabledError
| BatchRaised (e : py_error)
| BatchInterrupted.

(** [BatchError.code] *)
Definition batch_code (e : batch_exn) : option BatchErrorCode :=
  match e with
  | BatchValidationError _ => Some BATCH_VALIDATION_FAILED
  | BatchCapacityError _ => Some BATCH_CAPACITY_EXHAUSTED
  | BatchDisabledError => Some BATCH_DISABLED
  | _ => None
  end.

(** [str(exc)] *)
Definition batch_error_text (code : BatchErrorCode) (detail : string) : string :=
  if String.eqb detail "" then batch_error_value code else batch_error_value code +:+ ":" +:+ detail.

Definition invalid_if (b : bool) (detail : string) : result batch_exn unit :=
  raise_if b (BatchValidationError detail).

(** [_require_identifier], [_require_positive_int] *)
Definition batch_identifier (v field : string) : result batch_exn unit :=
  do! invalid_if (blank v) (field +:+ ": must be a non-empty string") in
  do! invalid_if (IDENTIFIER_MAX <? py_len v) (field +:+ ": too long") in
  invalid_if (has_space v) (field +:+ ": must not contain whitespace").
Definition positive_int (v : Z) (field : string) : result batch_exn unit :=
  invalid_if (v <? 1) (field +:+ ": must be >= 1").

(** ** Steps *)

Record BatchStep := mkStep {
  step_id : string;
  step_tool : string;
  step_args : list (string * value);
  step_key : option string;
  step_approval : option string;
  step_timeout_s : Z;
  step_depends_on : list string
}.

Definition optional_identifier (v : option string) (field : string) : result batch_exn unit :=
  match v with Some s => batch_identifier s field | None => Ok tt end.

(** [BatchStep.__post_init__] *)
Definition batch_step (s : BatchStep) : result batch_exn BatchStep :=
  do! batch_identifier (step_id s) "step_id" in
  do! batch_identifier (step_tool s) "tool" in
  do! optional_identifier (step_key s) "idempotency_key" in
  do! optional_identifier (step_approval s) "approval_ref" in
  do! positive_int (step_timeout_s s) "step_timeout_s" in
  do! invalid_if (negb (bool_decide (step_depends_on s = []))) "depends_on: must be empty in BATCH mode" in
  Ok s.

(** What the digest of a step covers. *)
Definition step_payload (s : BatchStep) : value :=
  VDict [("step_id", VStr (step_id s)); ("tool", VStr (step_tool s)); ("args", VDict (step_args s));
         ("idempotency_key", vopt (step_key s)); ("step_timeout_s", VInt (step_timeout_s s))].

(** ** Requests *)

Record BatchRequest := mkBatchRequest {
  batch_id : string;
  steps : list BatchStep;
  batch_failure_policy : BatchFailurePolicy;
  batch_parallelism : Z;
  batch_timeout_s : Z;
  dry_run : bool;
  schema_version : string;
  mode : string
}.

Section Contract.
Variable sha256_hex : string -> string.
(** [repr] of a string *)
Variable repr : string -> string.

(** The loop over [self.steps] that rejects a repeated identifier. *)
Definition distinct_steps (ss : list BatchStep) : result batch_exn (list string) :=
  rfold (fun seen s =>
    do! invalid_if (str_in (step_id s) seen) ("steps: duplicate step_id " +:+ repr (step_id s)) in
    Ok (step_id s :: seen)) [] ss.

(** [BatchRequest.__post_init__] *)
Definition batch_request (r : BatchRequest) : result batch_exn BatchRequest :=
  do! invalid_if (negb (String.eqb (schema_version r) BATCH_SCHEMA_VERSION)) "schema_version: unknown value" in
  do! invalid_if (negb (String.eqb (mode r) "BATCH")) "mode: must be BATCH" in
  do! batch_identifier (batch_id r) "batch_id" in
  do! invalid_if (bool_decide (steps r = [])) "steps: at least one step is required" in
  let n := Z.of_nat (length (steps r)) in
  do! invalid_if (BATCH_MAX_ITEMS <? n)
        ("steps: " +:+ pretty n +:+ " exceeds BATCH_MAX_ITEMS=" +:+ pretty BATCH_MAX_ITEMS) in
  do! distinct_steps (steps r) in
  do! positive_int (batch_parallelism r) "max_parallelism" in
  do! positive_int (batch_timeout_s r) "batch_timeout_s" in
  do! invalid_if (BATCH_MAX_PARALLELISM <? batch_parallelism r)
        ("max_parallelism: " +:+ pretty (batch_parallelism r) +:+ " exceeds ceiling "
         +:+ pretty BATCH_MAX_PARALLELISM) in
  do! invalid_if (BATCH_MAX_TIMEOUT_S <? batch_timeout_s r)
        ("batch_timeout_s: exceeds ceiling " +:+ pretty BATCH_MAX_TIMEOUT_S) in
  do! rfor (fun s => invalid_if (batch_timeout_s r <? step_timeout_s s)
                       ("step_timeout_s: step " +:+ repr (step_id s) +:+ " exceeds batch_timeout_s")) (steps r) in
  Ok r.

(** [BatchStep.digest], [BatchRequest.digest] *)
Definition step_digest (s : BatchStep) : result py_error string :=
  canonical_hash sha256_hex (step_payload s).
Definition batch_digest (r : BatchRequest) : result py_error string :=
  let! ds := rmap step_digest (steps r) in
  canonical_hash sha256_hex
    (VDict [("batch_id", VStr (batch_id r));
            ("failure_policy", VStr (batch_policy_value (batch_failure_policy r)));
            ("max_parallelism", VInt (batch_parallelism r)); ("batch_timeout_s", VInt (batch_timeout_s r));
            ("dry_run", VBool (dry_run r)); ("steps", VList (map VStr ds))]).
End Contract.

(** [BatchRequest.step_ids] *)
Definition step_ids (r : BatchRequest) : list string := map step_id (steps r).

(** ** Results *)

Record BatchStepResult := mkStepResult {
  sr_step_id : string;
  sr_status : StepStatus;
  sr_started_at : option string;
  sr_finished_at : option string;
  sr_result : option (list (string * value));
  sr_error : option (list (string * value));
  sr_idempotency : option IdempotencyOutcome;
  sr_audit_ref : option string
}.

(** [BatchStepResult.__post_init__] *)
Definition step_result (r : BatchStepResult) : result batch_exn BatchStepResult :=
  do! invalid_if (bool_decide (sr_status r = Step_NOT_STARTED)
                  && (negb (bool_decide (sr_started_at r = None)) || match sr_result r with Some _ => true | None => false end))
        "NOT_STARTED step must carry no timing or result" in
  Ok r.

(** [BatchStepResult(step_id=i, status=NOT_STARTED)] *)
Definition not_started (i : string) : BatchStepResult :=
  mkStepResult i Step_NOT_STARTED None None None None None None.

Record BatchResult := mkBatchResult {
  br_batch_id : string;
  aggregate : BatchStatus;
  br_steps : list BatchStepResult;
  counts : list (string * Z);
  br_started_at : string;
  br_finished_at : string;
  evidence_ref : string;
  br_parallelism : Z;
  br_max_observed : Z
}.

(** [sum(xs)] *)
Definition py_sum (xs : list Z) : Z := fold_right Z.add 0 xs.

(** [BatchResult.__post_init__] *)
Definition batch_result (r : BatchResult) : result batch_exn BatchResult :=
  do! invalid_if (negb (py_sum (map snd (counts r)) =? Z.of_nat (length (br_steps r))))
        "counts: must sum to the number of steps" in
  do! invalid_if (negb (bool_decide (NoDup (map sr_step_id (br_steps r))))) "steps: duplicate step_id in result" in
  Ok r.

Definition count_of (s : StepStatus) (rs : list BatchStepResult) : Z :=
  Z.of_nat (length (List.filter (fun r => bool_decide (sr_status r = s)) rs)).

(** [count_statuses] *)
Definition count_statuses (rs : list BatchStepResult) : list (string * Z) :=
  List.filter (fun kv => negb (snd kv =? 0)) (map (fun s => (step_status_value s, count_of s rs)) STEP_STATUSES).

Definition status_in (s : StepStatus) (l : list StepStatus) : bool := bool_decide (s ∈ l).

(** [aggregate_status] *)
Definition aggregate_status (rs : list BatchStepResult) (cancelled timed_out : bool) : BatchStatus :=
  let statuses := map sr_status rs in
  let nonempty := negb (bool_decide (statuses = [])) in
  let successes := count_of Step_SUCCESS rs in
  if (successes =? Z.of_nat (length statuses)) && nonempty then Batch_SUCCESS
  else if negb (successes =? 0) then Batch_PARTIAL
  else if timed_out then Batch_TIMED_OUT
  else if nonempty && forallb (fun s => bool_decide (s = Step_DENIED)) statuses then Batch_DENIED
  else if nonempty && forallb (fun s => status_in s [Step_TIMED_OUT; Step_CANCELLED; Step_NOT_STARTED]) statuses then
    if existsb (fun s => bool_decide (s = Step_TIMED_OUT)) statuses then Batch_TIMED_OUT else Batch_CANCELLED
  else if existsb (fun s => status_in s [Step_FAILED; Step_DENIED; Step_TIMED_OUT]) statuses then Batch_FAILED
  else if cancelled then Batch_CANCELLED
  else Batch_FAILED.
