(* ===== verification/BatchScheduler.v ===== *)
(** * The batch scheduler ([v2/batch_scheduler.py])

    A batch runs its steps as asyncio tasks behind a bounded semaphore.  A task runs from one
    [await] to the next without interruption; what it is waiting for is an event.  The answers of
    the executor and the instants are inputs.  A [Process] holds any number of batches that share
    one [GlobalCapacity].

    The logs [b_calls] (the calls of the executor), [b_answers] (its answers) and [b_recorded] (the
    calls of [governance.record]) are the specification's: the program does not keep them. *)
From S2P Require Import Prelude.
From S2P Require Import PyText.
From S2P Require Import PyValue.
From S2P Require Import Canonical.
From S2P Require Import BatchContract.

Record StepDecision := mkDecision {
  allowed : bool;
  reason : string;
  decision_audit : option string;
  decision_idempotency : option IdempotencyOutcome;
  mutates : bool
}.

(** [AllowAllGovernance.decide] *)
Definition allow_all (r : BatchRequest) (s : BatchStep) : StepDecision :=
  mkDecision true "" (Some ("audit:" +:+ batch_id r +:+ ":" +:+ step_id s)) None false.

(** ** [_InflightMeter] *)

Record Meter := mkMeter { current : Z; max_observed : Z }.
Definition new_meter : Meter := mkMeter 0 0.
Definition enter (m : Meter) : Meter := mkMeter (current m + 1) (Z.max (max_observed m) (current m + 1)).
Definition leave (m : Meter) : Meter := mkMeter (current m - 1) (max_observed m).

(** ** [GlobalCapacity] *)

Record GlobalCapacity := mkCapacity { limit : Z; used : Z }.
Definition new_capacity (limit : Z) : result batch_exn GlobalCapacity :=
  do! raise_if (limit <? 1) (BatchRaised ValueError) in Ok (mkCapacity limit 0).
Definition reserve (amount : Z) (c : GlobalCapacity) : result batch_exn GlobalCapacity :=
  do! raise_if (limit c <? used c + amount)
        (BatchCapacityError ("requested " +:+ pretty amount +:+ ", used " +:+ pretty (used c)
                             +:+ ", limit " +:+ pretty (limit c))) in
  Ok (mkCapacity (limit c) (used c + amount)).
Definition release (amount : Z) (c : GlobalCapacity) : GlobalCapacity :=
  mkCapacity (limit c) (Z.max 0 (used c - amount)).

Definition effective_parallelism (r : BatchRequest) (has_mutation : bool) : Z :=
  let ceiling := if has_mutation then BATCH_MAX_PARALLELISM_MUTATION else BATCH_MAX_PARALLELISM in
  Z.max 1 (Z.min (batch_parallelism r) ceiling).

(** ** Tasks *)

(** Where a task stands: not yet run; waiting for a slot; holding one it has not been woken for;
    waiting for the executor; or ended. *)
Inductive phase : Type := Created | Queued | Granted | Running (started : string) | Done.
#[export] Instance phase_eq_dec : EqDecision phase.
Proof. solve_decision. Defined.

(** A task with its step and [decisions[step.step_id]]. *)
Record Task := mkTask { t_step : BatchStep; t_decision : StepDecision; t_phase : phase }.
Definition t_id (t : Task) : string := step_id (t_step t).
Definition in_phase (p : phase) (t : Task) : Task := mkTask (t_step t) (t_decision t) p.

(** How the executor's call ends: with a payload, with one [dict()] does not accept, with an
    exception. *)
Inductive answer : Type :=
| Payload (d : list (string * value))
| Unconvertible
| TimeoutRaised
| CancelRaised
| ExceptionRaised (type : string).

(** What ends [run] early: [batch_timeout_s], or the cancellation of [run] itself. *)
Inductive interruption : Type := TimedOut | Disconnected.
#[export] Instance interruption_eq_dec : EqDecision interruption.
Proof. solve_decision. Defined.

Record Batch := mkBatch {
  b_request : BatchRequest;
  b_started : string;
  b_parallelism : Z;
  b_tasks : list Task;
  b_slots : Z;
  b_waiters : list nat;
  b_closed : bool;
  b_results : gmap string BatchStepResult;
  b_meter : Meter;
  b_interrupt : option interruption;
  b_calls : list string;
  b_answers : gmap string answer;
  b_recorded : list BatchStepResult
}.

(** ** Assignments *)

Definition set_tasks (f : list Task -> list Task) (b : Batch) : Batch :=
  let '(mkBatch r st k ts v ws c res m i cs ans rec) := b in mkBatch r st k (f ts) v ws c res m i cs ans rec.
Definition set_phase (i : nat) (p : phase) : Batch -> Batch := set_tasks (alter (in_phase p) i).
Definition set_semaphore (v : Z) (ws : list nat) (b : Batch) : Batch :=
  let '(mkBatch r st k ts _ _ c res m i cs ans rec) := b in mkBatch r st k ts v ws c res m i cs ans rec.
Definition close_admission (b : Batch) : Batch :=
  let '(mkBatch r st k ts v ws _ res m i cs ans rec) := b in mkBatch r st k ts v ws true res m i cs ans rec.
Definition set_result (res : BatchStepResult) (b : Batch) : Batch :=
  let '(mkBatch r st k ts v ws c rs m i cs ans rec) := b in
  mkBatch r st k ts v ws c (<[sr_step_id res := res]> rs) m i cs ans rec.
Definition set_meter (f : Meter -> Meter) (b : Batch) : Batch :=
  let '(mkBatch r st k ts v ws c rs m i cs ans rec) := b in mkBatch r st k ts v ws c rs (f m) i cs ans rec.
Definition set_interrupt (k : interruption) (b : Batch) : Batch :=
  let '(mkBatch r st p ts v ws c rs m _ cs ans rec) := b in mkBatch r st p ts v ws c rs m (Some k) cs ans rec.
Definition log_call (s : string) (b : Batch) : Batch :=
  let '(mkBatch r st k ts v ws c rs m i cs ans rec) := b in mkBatch r st k ts v ws c rs m i (s :: cs) ans rec.
Definition log_answer (s : string) (a : answer) (b : Batch) : Batch :=
  let '(mkBatch r st k ts v ws c rs m i cs ans rec) := b in
  mkBatch r st k ts v ws c rs m i cs (<[s := a]> ans) rec.
Definition log_record (res : BatchStepResult) (b : Batch) : Batch :=
  let '(mkBatch r st k ts v ws c rs m i cs ans rec) := b in
  mkBatch r st k ts v ws c rs m i cs ans (res :: rec).

(** ** Results of a step *)

Definition error_code (c : string) (more : list (string * value)) : option (list (string * value)) :=
  Some (("code", VStr c) :: more).

Definition denied_result (s : BatchStep) (d : StepDecision) (audit : option string) : BatchStepResult :=
  mkStepResult (step_id s) Step_DENIED None None None
    (error_code "DENIED" [("reason", VStr (reason d))]) None audit.

(** What the [try] statement around the executor's call stores, if anything. *)
Definition answer_result (s : BatchStep) (d : StepDecision) (started finished : string) (a : answer)
    : option BatchStepResult :=
  let entry st res err idem :=
    Some (mkStepResult (step_id s) st (Some started) (Some finished) res err idem (decision_audit d)) in
  match a with
  | Payload p => entry Step_SUCCESS (Some p) None (decision_idempotency d)
  | Unconvertible => None
  | TimeoutRaised => entry Step_TIMED_OUT None (error_code "STEP_TIMEOUT" []) None
  | CancelRaised =>
      entry Step_CANCELLED None (error_code "BATCH_CANCELLED" [("outcome", VStr "INDETERMINATE")])
        (decision_idempotency d)
  | ExceptionRaised ty => entry Step_FAILED None (error_code "STEP_FAILED" [("type", VStr ty)]) None
  end.

(** ** [run_step], from one [await] to the next *)

(** [admission.release()]: the slot goes to the task that has waited longest. *)
Definition release_slot (b : Batch) : Batch :=
  match b_waiters b with
  | [] => set_semaphore (b_slots b + 1) [] b
  | j :: ws => set_phase j Granted (set_semaphore (b_slots b) ws b)
  end.

(** A task that does not call the executor ends, with or without a slot. *)
Definition ends_with_result (i : nat) (res : BatchStepResult) (b : Batch) : Batch :=
  set_phase i Done (set_result res b).

(** With the slot held, up to the executor's call. *)
Definition inside_admission (i : nat) (s : BatchStep) (now : string) (b : Batch) : Batch :=
  if b_closed b then release_slot (ends_with_result i (not_started (step_id s)) b)
  else log_call (step_id s) (set_phase i (Running now) (set_meter enter b)).

(** Up to the semaphore, and past it when it is free. *)
Definition start_task (i : nat) (t : Task) (now : string) (b : Batch) : Batch :=
  let s := t_step t in
  let d := t_decision t in
  if negb (allowed d) then ends_with_result i (denied_result s d (decision_audit d)) b
  else if b_closed b then ends_with_result i (not_started (step_id s)) b
  else if (0 <? b_slots b) && bool_decide (b_waiters b = []) then
    inside_admission i s now (set_semaphore (b_slots b - 1) (b_waiters b) b)
  else set_phase i Queued (set_semaphore (b_slots b) (b_waiters b ++ [i]) b).

(** After the [async with] block: [governance.record], which may raise, and fail-fast. *)
Definition after_admission (record_raises : bool) (entry : option BatchStepResult) (b : Batch) : Batch :=
  match entry with
  | None => b
  | Some res =>
      let b := log_record res b in
      if record_raises then b
      else if bool_decide (batch_failure_policy (b_request b) = BatchFailFast)
              && negb (bool_decide (sr_status res = Step_SUCCESS))
           then close_admission b else b
  end.

(** From the executor's answer to the end.  A cancellation is re-raised, and so is the error of
    [dict(payload)]: both leave the block by an exception. *)
Definition answer_task (i : nat) (t : Task) (started : string) (a : answer) (now : string)
    (record_raises : bool) (b : Batch) : Batch :=
  let entry := answer_result (t_step t) (t_decision t) started now a in
  let b := log_answer (t_id t) a b in
  let b := match entry with Some res => set_result res b | None => b end in
  let b := release_slot (set_phase i Done (set_meter leave b)) in
  match a with
  | CancelRaised | Unconvertible => b
  | _ => after_admission record_raises entry b
  end.

(** ** The batch *)

Inductive batch_event : Type :=
| TaskStarted (i : nat) (now : string)
| TaskWoken (i : nat) (now : string)
| ExecutorAnswered (i : nat) (a : answer) (now : string) (record_raises : bool)
| BatchInterrupt (k : interruption).

(** Cancelling ends every task that is not in the executor; one that is learns of it by the
    executor's answer. *)
Definition cancelled_task (t : Task) : Task :=
  match t_phase t with Running _ => t | _ => in_phase Done t end.

Definition granted_slots (ts : list Task) : Z :=
  py_sum (map (fun t => if bool_decide (t_phase t = Granted) then 1 else 0) ts).

(** [wait_for] and [gather] cancel every task, then wait for all of them.  A cancellation of [run]
    prevails over the timeout. *)
Definition interrupt (k : interruption) (b : Batch) : Batch :=
  let k' := match b_interrupt b with Some Disconnected => Disconnected | _ => k end in
  set_interrupt k' (set_tasks (map cancelled_task)
    (set_semaphore (b_slots b + granted_slots (b_tasks b)) [] b)).

Definition advance (b : Batch) (e : batch_event) : Batch :=
  match e with
  | TaskStarted i now =>
      match b_tasks b !! i with
      | Some t => match t_phase t with Created => start_task i t now b | _ => b end
      | None => b
      end
  | TaskWoken i now =>
      match b_tasks b !! i with
      | Some t => match t_phase t with Granted => inside_admission i (t_step t) now b | _ => b end
      | None => b
      end
  | ExecutorAnswered i a now record_raises =>
      match b_tasks b !! i with
      | Some t => match t_phase t with Running st => answer_task i t st a now record_raises b | _ => b end
      | None => b
      end
  | BatchInterrupt k => interrupt k b
  end.

Definition advances : Batch -> list batch_event -> Batch := foldl advance.

(** [_execute], up to the first [await]. *)
Definition new_batch (r : BatchRequest) (ds : list StepDecision) (parallelism : Z) (started : string) : Batch :=
  mkBatch r started parallelism (zip_with (fun s d => mkTask s d Created) (steps r) ds)
    parallelism [] false ∅ new_meter None [] ∅ [].

Definition all_done (b : Batch) : bool := forallb (fun t => bool_decide (t_phase t = Done)) (b_tasks b).

(** [results.get(step_id) or BatchStepResult(step_id=step_id, status=NOT_STARTED)] *)
Definition reported (b : Batch) (i : string) : BatchStepResult := default (not_started i) (b_results b !! i).
Definition ordered (b : Batch) : list BatchStepResult := map (reported b) (step_ids (b_request b)).

Definition timed_out (b : Batch) : bool := bool_decide (b_interrupt b = Some TimedOut).
(** The flag [cancelled] that goes into the aggregation. *)
Definition was_cancelled (b : Batch) : bool :=
  b_closed b && negb (timed_out b)
  && existsb (fun i => bool_decide (sr_status (reported b i) = Step_NOT_STARTED)) (step_ids (b_request b)).

(** [BatchScheduler._aggregate] *)
Definition scheduler_aggregate (rs : list BatchStepResult) (cancelled timeout : bool) (r : BatchRequest)
    : BatchStatus :=
  if dry_run r && forallb (fun e => bool_decide (sr_status e = Step_NOT_STARTED)) rs then Batch_SUCCESS
  else aggregate_status rs cancelled timeout.

Section Scheduler.
Variable sha256_hex : string -> string.

(** [_finalize] *)
Definition finalize (r : BatchRequest) (rs : list BatchStepResult) (started : string) (parallelism observed : Z)
    (cancelled timeout : bool) (now : string) : result batch_exn BatchResult :=
  match batch_digest sha256_hex r with
  | Err e => Err (BatchRaised e)
  | Ok digest =>
      batch_result
        (mkBatchResult (batch_id r) (scheduler_aggregate rs cancelled timeout r) rs (count_statuses rs)
           started now ("batch-evidence:" +:+ batch_id r +:+ ":" +:+ String.substring 0 16 digest)
           parallelism observed)
  end.

(** The end of [_execute], once every task is done. *)
Definition finish (b : Batch) (now : string) : result batch_exn BatchResult :=
  if bool_decide (b_interrupt b = Some Disconnected) then Err BatchInterrupted
  else finalize (b_request b) (ordered b) (b_started b) (b_parallelism b) (max_observed (b_meter b))
         (was_cancelled b) (timed_out b) now.

(** The results of a dry run. *)
Definition dry_result (s : BatchStep) (d : StepDecision) : BatchStepResult :=
  if allowed d then not_started (step_id s) else denied_result s d None.

Definition has_mutation (ds : list StepDecision) : bool := existsb mutates ds.

(** [run], up to the first [await]: it ends at once, or a batch is under way. *)
Definition begin_run (enabled : bool) (decide_step : BatchStep -> result py_error StepDecision)
    (r : BatchRequest) (now finished : string) (c : GlobalCapacity)
    : result batch_exn BatchResult + Batch * GlobalCapacity :=
  if negb enabled then inl (Err BatchDisabledError)
  else match rmap decide_step (steps r) with
  | Err e => inl (Err (BatchRaised e))
  | Ok ds =>
      let parallelism := effective_parallelism r (has_mutation ds) in
      if dry_run r then
        inl (finalize r (zip_with dry_result (steps r) ds) now parallelism 0 false false finished)
      else match reserve parallelism c with
      | Err e => inl (Err e)
      | Ok c' => inr (new_batch r ds parallelism now, c')
      end
  end.

(** ** The process *)

Record Process := mkProcess {
  p_capacity : GlobalCapacity;
  p_batches : gmap nat Batch;
  p_next : nat;
  p_reports : list (nat * result batch_exn BatchResult)
}.

(** [run] is called with a request that was constructed; one of its batches goes on; or every task
    of one is done and [run] returns. *)
Inductive process_event : Type :=
| RunCalled (enabled : bool) (decide_step : BatchStep -> result py_error StepDecision) (r : BatchRequest)
    (now finished : string)
| BatchMoved (p : nat) (e : batch_event)
| RunEnds (p : nat) (now : string).

Definition process_step (s : Process) (e : process_event) : Process :=
  let '(mkProcess c bs next reports) := s in
  match e with
  | RunCalled enabled decide_step r now finished =>
      match begin_run enabled decide_step r now finished c with
      | inl res => mkProcess c bs (S next) ((next, res) :: reports)
      | inr (b, c') => mkProcess c' (<[next := b]> bs) (S next) reports
      end
  | BatchMoved p ev =>
      match bs !! p with
      | Some b => mkProcess c (<[p := advance b ev]> bs) next reports
      | None => s
      end
  | RunEnds p now =>
      match bs !! p with
      | Some b =>
          if all_done b
          then mkProcess (release (b_parallelism b) c) (delete p bs) next ((p, finish b now) :: reports)
          else s
      | None => s
      end
  end.

Definition process_run : Process -> list process_event -> Process := foldl process_step.
Definition new_process (c : GlobalCapacity) : Process := mkProcess c ∅ 0 [].
End Scheduler.
