(* ===== verification/BatchRuns.v ===== *)
(** * The invariants of a running batch

    Three of them, each over the parts of the state it speaks of: the semaphore, the meter, and
    what is known of every task.  Every event of a batch preserves them. *)
From S2P Require Import Prelude.
From S2P Require Import PyText.
From S2P Require Import PyValue.
From S2P Require Import BatchContract.
From S2P Require Import BatchScheduler.

(** ** Sums over the tasks *)

Definition tally (f : phase -> Z) (ts : list Task) : Z := py_sum (map (fun t => f (t_phase t)) ts).

Lemma tally_alter f ts i t p :
  ts !! i = Some t -> tally f (alter (in_phase p) i ts) = tally f ts - f (t_phase t) + f p.
Proof.
  unfold tally. revert i. induction ts as [|u ts IH]; intros [|i] Hi; simplify_eq/=; [lia|].
  rewrite (IH _ Hi). lia.
Qed.

Lemma tally_nonneg f ts : (forall p, 0 <= f p) -> 0 <= tally f ts.
Proof. intros Hf. unfold tally. induction ts as [|t ts IH]; simpl; [lia|]. specialize (Hf (t_phase t)). lia. Qed.

Lemma tally_le f g ts : (forall p, f p <= g p) -> tally f ts <= tally g ts.
Proof. intros H. unfold tally. induction ts as [|t ts IH]; simpl; [lia|]. specialize (H (t_phase t)). lia. Qed.

Lemma tally_map f (h : Task -> Task) ts : tally f (map h ts) = py_sum (map (fun t => f (t_phase (h t))) ts).
Proof. unfold tally. by rewrite map_map. Qed.

Lemma tally_zero f ts : Forall (fun t => f (t_phase t) = 0) ts -> tally f ts = 0.
Proof. unfold tally. induction 1 as [|t ts Ht _ IH]; simpl; lia. Qed.

Definition running (p : phase) : Z := match p with Running _ => 1 | _ => 0 end.
(** Holding a slot of the semaphore. *)
Definition holding (p : phase) : Z := match p with Running _ | Granted => 1 | _ => 0 end.

Lemma granted_slots_tally ts : granted_slots ts = tally holding ts - tally running ts.
Proof.
  unfold granted_slots, tally.
  induction ts as [|t ts IH]; simpl; [done|]. rewrite IH. destruct (t_phase t); simpl; lia.
Qed.

(** ** The tasks of a batch, under its operations *)

Lemma tasks_set_phase i p b : b_tasks (set_phase i p b) = alter (in_phase p) i (b_tasks b).
Proof. by destruct b. Qed.

(** What no event changes. *)
Definition static (b : Batch) : BatchRequest * string * Z * list (BatchStep * StepDecision) :=
  (b_request b, b_started b, b_parallelism b, map (fun t => (t_step t, t_decision t)) (b_tasks b)).

Lemma static_set_phase i p b : static (set_phase i p b) = static b.
Proof.
  destruct b as [r st k ts v ws c res m ii cs ans rec]. unfold static; simpl. f_equal.
  revert i. induction ts as [|t ts IH]; intros [|i]; simpl; [done..|]. f_equal. apply IH.
Qed.

Lemma static_release b : static (release_slot b) = static b.
Proof.
  unfold release_slot. destruct (b_waiters b) as [|j ws]; [by destruct b|].
  rewrite static_set_phase. by destruct b.
Qed.

Lemma static_ends i res b : static (ends_with_result i res b) = static b.
Proof. unfold ends_with_result. rewrite static_set_phase. by destruct b. Qed.

Lemma static_inside i s now b : static (inside_admission i s now b) = static b.
Proof.
  unfold inside_admission. destruct (b_closed b).
  - by rewrite static_release, static_ends.
  - transitivity (static (set_phase i (Running now) (set_meter enter b)));
      [by destruct (set_phase i (Running now) (set_meter enter b))|].
    rewrite static_set_phase. by destruct b.
Qed.

Lemma static_after x entry b : static (after_admission x entry b) = static b.
Proof. unfold after_admission. destruct entry; [|done]. destruct b, x; simpl; [done|]. by case_match. Qed.

Lemma static_answer i t st a now x b : static (answer_task i t st a now x b) = static b.
Proof.
  unfold answer_task.
  assert (Hs : forall b', static (release_slot (set_phase i Done (set_meter leave b'))) = static b').
  { intros b'. rewrite static_release, static_set_phase. by destruct b'. }
  assert (Hl : forall o, static (match o with Some res => set_result res (log_answer (t_id t) a b)
                                 | None => log_answer (t_id t) a b end) = static b)
    by (intros []; by destruct b).
  destruct a; rewrite ?static_after, Hs; by rewrite Hl.
Qed.

Lemma static_advance b e : static (advance b e) = static b.
Proof.
  destruct e as [i now|i now|i a now x|k]; simpl.
  - destruct (b_tasks b !! i) as [t|]; [|done]. destruct (t_phase t); try done.
    unfold start_task. repeat case_match; rewrite ?static_ends, ?static_inside, ?static_set_phase; by destruct b.
  - destruct (b_tasks b !! i) as [t|]; [|done]. destruct (t_phase t); try done. apply static_inside.
  - destruct (b_tasks b !! i) as [t|]; [|done]. destruct (t_phase t); try done. apply static_answer.
  - destruct b as [r st kk ts v ws c res m ii cs ans rec]. unfold static; simpl. f_equal.
    rewrite map_map. apply map_ext. intros t. unfold cancelled_task. by destruct (t_phase t).
Qed.

Lemma static_advances b es : static (advances b es) = static b.
Proof. revert b. induction es as [|e es IH]; intros b; [done|]. simpl. by rewrite IH, static_advance. Qed.

(** ** The semaphore *)

(** [h] slots are held by the code that is running. *)
Record sem_inv (h : Z) (b : Batch) : Prop := {
  si_slots : b_slots b + tally holding (b_tasks b) + h = b_parallelism b;
  si_nonneg : 0 <= b_slots b;
  si_busy : b_waiters b <> [] -> b_slots b = 0;
  si_nodup : NoDup (b_waiters b);
  si_waiters : forall j, j ∈ b_waiters b <-> exists t, b_tasks b !! j = Some t /\ t_phase t = Queued
}.

(** The semaphore's invariant reads these fields only. *)
Lemma sem_same h b b' :
  b_slots b' = b_slots b -> b_waiters b' = b_waiters b -> b_tasks b' = b_tasks b ->
  b_parallelism b' = b_parallelism b -> sem_inv h b -> sem_inv h b'.
Proof. intros H1 H2 H3 H4 []. by constructor; rewrite ?H1, ?H2, ?H3, ?H4. Qed.

(** The state differs from [b] in other fields. *)
Ltac sem_frame b := apply (sem_same _ b); [by destruct b..|].

Lemma alter_lookup_phase (ts : list Task) (i : nat) p (j : nat) :
  (exists t, alter (in_phase p) i ts !! j = Some t /\ t_phase t = Queued)
  <-> if decide (i = j) then p = Queued /\ is_Some (ts !! j) else exists t, ts !! j = Some t /\ t_phase t = Queued.
Proof.
  destruct (decide (i = j)) as [->|Hne].
  - rewrite list_lookup_alter_eq. destruct (ts !! j) as [t|] eqn:Ht; simpl.
    + split; [intros (? & [= <-] & ?)|intros [-> _]]; [by split; [|eexists]|by eexists].
    + split; [by intros (? & ? & ?)|by intros [_ [? ?]]].
  - by rewrite list_lookup_alter_ne.
Qed.

Lemma sem_set_phase h h' i p t b :
  sem_inv h b -> b_tasks b !! i = Some t -> t_phase t <> Queued -> p <> Queued ->
  h' = h + holding (t_phase t) - holding p -> sem_inv h' (set_phase i p b).
Proof.
  intros [H1 H2 H3 H4 H5] Hi Hq Hp ->. destruct b as [r st k ts v ws c res m ii cs ans rec]; simpl in *.
  constructor; simpl; [|done..|].
  - rewrite (tally_alter _ _ _ _ _ Hi). lia.
  - intros j. rewrite H5, alter_lookup_phase. destruct (decide (i = j)) as [->|]; [|done].
    split; [intros (u & ? & ?); congruence|by intros [-> _]].
Qed.

Lemma sem_take b : sem_inv 0 b -> 0 < b_slots b -> sem_inv 1 (set_semaphore (b_slots b - 1) (b_waiters b) b).
Proof.
  intros [H1 H2 H3 H4 H5] Hpos. destruct b as [r st k ts v ws c res m ii cs ans rec]; simpl in *.
  constructor; simpl; [lia|lia| |done..]. intros H. specialize (H3 H). lia.
Qed.

Lemma sem_queue i t b :
  sem_inv 0 b -> b_tasks b !! i = Some t -> t_phase t = Created -> b_slots b = 0 ->
  sem_inv 0 (set_phase i Queued (set_semaphore (b_slots b) (b_waiters b ++ [i]) b)).
Proof.
  intros [H1 H2 H3 H4 H5] Hi Hq Hz. destruct b as [r st k ts v ws c res m ii cs ans rec]; simpl in *.
  assert (i ∉ ws) by (intros (u & ? & ?)%H5; congruence).
  constructor; simpl; [|done|done| |].
  - rewrite (tally_alter _ _ _ _ _ Hi), Hq. simpl. lia.
  - apply NoDup_app. split_and!; [done| |by apply NoDup_singleton]. by intros ? ? ->%list_elem_of_singleton.
  - intros j. rewrite elem_of_app, list_elem_of_singleton, H5, alter_lookup_phase.
    destruct (decide (i = j)) as [->|]; [|naive_solver]. split; [by eauto|by right].
Qed.

Lemma sem_release b : sem_inv 1 b -> sem_inv 0 (release_slot b).
Proof.
  intros [H1 H2 H3 H4 H5]. unfold release_slot.
  destruct b as [r st k ts v ws c res m ii cs ans rec]; simpl in *. destruct ws as [|j ws].
  - constructor; simpl; [lia|lia|done..].
  - destruct (proj1 (H5 j) ltac:(left)) as (t & Hj & Hq). apply NoDup_cons in H4 as [Hnin Hnd].
    constructor; simpl; [| |intros _; by apply H3|done|].
    + rewrite (tally_alter _ _ _ _ _ Hj), Hq. simpl. lia.
    + done.
    + intros i. rewrite alter_lookup_phase. destruct (decide (j = i)) as [<-|Hne].
      * split; [done|by intros [? _]].
      * rewrite <- H5, elem_of_cons. split; [by right|by intros [->|]].
Qed.

Lemma sem_ends i t res h b :
  sem_inv h b -> b_tasks b !! i = Some t -> t_phase t <> Queued ->
  sem_inv (h + holding (t_phase t)) (ends_with_result i res b).
Proof.
  intros Hs Hi Hq. apply (sem_set_phase h _ _ _ t); [|by destruct b|done|done|simpl; lia].
  by sem_frame b.
Qed.

Lemma sem_inside i t now b :
  sem_inv (1 - holding (t_phase t)) b -> b_tasks b !! i = Some t -> t_phase t <> Queued ->
  sem_inv 0 (inside_admission i (t_step t) now b).
Proof.
  intros Hs Hi Hq. unfold inside_admission. destruct (b_closed b).
  - apply sem_release. replace 1 with (1 - holding (t_phase t) + holding (t_phase t)) by lia.
    by apply sem_ends.
  - set (b1 := set_phase i (Running now) (set_meter enter b)). sem_frame b1.
    apply (sem_set_phase (1 - holding (t_phase t)) _ _ _ t); [|by destruct b|done|done|simpl; lia].
    by sem_frame b.
Qed.

Lemma sem_start i t now b :
  sem_inv 0 b -> b_tasks b !! i = Some t -> t_phase t = Created -> sem_inv 0 (start_task i t now b).
Proof.
  intros Hs Hi Hp. unfold start_task.
  assert (He : forall res, sem_inv 0 (ends_with_result i res b)).
  { intros res. replace 0 with (0 + holding (t_phase t)) by (by rewrite Hp). apply sem_ends; [done..|by rewrite Hp]. }
  destruct (negb (allowed (t_decision t))); [done|]. destruct (b_closed b); [done|].
  destruct (0 <? b_slots b) eqn:Hv; simpl; [case_bool_decide as Hw|].
  - apply sem_inside; [rewrite Hp; apply sem_take; [done|lia]|by destruct b|by rewrite Hp].
  - eapply sem_queue; [done..|]. by apply (si_busy _ _ Hs).
  - eapply sem_queue; [done..|]. pose proof (si_nonneg _ _ Hs). lia.
Qed.

Lemma sem_after x entry b : sem_inv 0 b -> sem_inv 0 (after_admission x entry b).
Proof.
  intros Hs. unfold after_admission. destruct entry as [res|]; [|done].
  destruct x; [by sem_frame b|]. case_match; by sem_frame b.
Qed.

Lemma sem_answer i t st a now x b :
  sem_inv 0 b -> b_tasks b !! i = Some t -> t_phase t = Running st -> sem_inv 0 (answer_task i t st a now x b).
Proof.
  intros Hs Hi Hp. unfold answer_task.
  assert (Hr : forall o, sem_inv 0 (release_slot (set_phase i Done (set_meter leave
    (match o with Some res => set_result res (log_answer (t_id t) a b) | None => log_answer (t_id t) a b end))))).
  { intros o. apply sem_release. apply (sem_set_phase 0 _ _ _ t); [| |by rewrite Hp|done|by rewrite Hp].
    - destruct o; by sem_frame b.
    - by destruct b, o. }
  destruct a; try apply sem_after; apply Hr.
Qed.

Lemma sem_interrupt k b : sem_inv 0 b -> sem_inv 0 (interrupt k b).
Proof.
  intros [H1 H2 H3 H4 H5]. destruct b as [r st kk ts v ws c res m ii cs ans rec]; simpl in *.
  assert (Hh : tally holding (map cancelled_task ts) = tally running ts).
  { rewrite tally_map. unfold tally. f_equal. apply map_ext. intros t. unfold cancelled_task.
    destruct (t_phase t) eqn:E; simpl; by rewrite ?E. }
  pose proof (granted_slots_tally ts) as Hg.
  pose proof (tally_le running holding ts (fun p => ltac:(destruct p; simpl; lia))).
  constructor; simpl; [lia|lia|done|constructor|].
  intros j. split; [by intros ?%not_elem_of_nil|].
  intros (t & Ht & Hq). rewrite list_lookup_fmap in Ht.
  destruct (ts !! j) as [u|]; simplify_eq/=. unfold cancelled_task in Hq.
  destruct (t_phase u) eqn:E; simpl in Hq; congruence.
Qed.

Lemma sem_advance b e : sem_inv 0 b -> sem_inv 0 (advance b e).
Proof.
  intros Hs. destruct e as [i now|i now|i a now x|k]; simpl; [..|by apply sem_interrupt];
    destruct (b_tasks b !! i) as [t|] eqn:Hi; try done; destruct (t_phase t) eqn:Hp; try done.
  - by apply sem_start.
  - apply sem_inside; by rewrite ?Hp.
  - by apply sem_answer.
Qed.

(** ** The meter *)

Record meter_inv (b : Batch) : Prop := {
  mi_current : current (b_meter b) = tally running (b_tasks b);
  mi_sampled : current (b_meter b) <= max_observed (b_meter b);
  mi_bounded : max_observed (b_meter b) <= b_parallelism b
}.

(** The code that holds no slot leaves at most [b_parallelism] tasks running. *)
Lemma sem_bound b : sem_inv 0 b -> tally running (b_tasks b) <= b_parallelism b.
Proof.
  intros [H1 H2 _ _ _]. pose proof (tally_le running holding (b_tasks b) (fun p => ltac:(destruct p; simpl; lia))).
  lia.
Qed.

Lemma meter_same b b' :
  b_meter b' = b_meter b -> b_tasks b' = b_tasks b -> b_parallelism b' = b_parallelism b ->
  meter_inv b -> meter_inv b'.
Proof. intros H1 H2 H3 []. by constructor; rewrite ?H1, ?H2, ?H3. Qed.
Ltac meter_frame b := apply (meter_same b); [by destruct b..|].

Lemma meter_set_phase i p t b :
  meter_inv b -> b_tasks b !! i = Some t -> running (t_phase t) = running p -> meter_inv (set_phase i p b).
Proof.
  intros [H1 H2 H3] Hi Hp. destruct b as [r st k ts v ws c res m ii cs ans rec]; simpl in *.
  constructor; simpl; [|done..]. rewrite (tally_alter _ _ _ _ _ Hi). lia.
Qed.

Lemma meter_release b : sem_inv 1 b -> meter_inv b -> meter_inv (release_slot b).
Proof.
  intros Hs Hm. unfold release_slot. destruct (b_waiters b) as [|j ws] eqn:Hw; [by meter_frame b|].
  destruct (proj1 (si_waiters _ _ Hs j)) as (t & Hj & Hq); [rewrite Hw; by left|].
  apply (meter_set_phase _ _ t); [by meter_frame b|by destruct b|by rewrite Hq].
Qed.

Lemma meter_ends i t res b :
  meter_inv b -> b_tasks b !! i = Some t -> running (t_phase t) = 0 -> meter_inv (ends_with_result i res b).
Proof.
  intros Hm Hi Hp. apply (meter_set_phase _ _ t); [by meter_frame b|by destruct b|by rewrite Hp].
Qed.

Lemma meter_inside i t now b :
  sem_inv (1 - holding (t_phase t)) b -> meter_inv b -> b_tasks b !! i = Some t ->
  running (t_phase t) = 0 -> t_phase t <> Queued -> meter_inv (inside_admission i (t_step t) now b).
Proof.
  intros Hs Hm Hi Hp Hq. pose proof (sem_inside i t now b Hs Hi Hq) as Hafter.
  unfold inside_admission in *. destruct (b_closed b).
  - apply meter_release; [|by apply (meter_ends _ t)].
    replace 1 with (1 - holding (t_phase t) + holding (t_phase t)) by lia. by apply sem_ends.
  - apply sem_bound in Hafter. destruct b as [r st k ts v ws c res m ii cs ans rec], Hm as [H1 H2 H3]; simpl in *.
    rewrite (tally_alter _ _ _ _ _ Hi) in Hafter. simpl in Hafter.
    constructor; simpl; [rewrite (tally_alter _ _ _ _ _ Hi)| |]; simpl; lia.
Qed.

Lemma meter_start i t now b :
  sem_inv 0 b -> meter_inv b -> b_tasks b !! i = Some t -> t_phase t = Created -> meter_inv (start_task i t now b).
Proof.
  intros Hs Hm Hi Hp. unfold start_task.
  assert (He : forall res, meter_inv (ends_with_result i res b))
    by (intros; apply (meter_ends _ t); [done..|by rewrite Hp]).
  assert (Hq : meter_inv (set_phase i Queued (set_semaphore (b_slots b) (b_waiters b ++ [i]) b)))
    by (apply (meter_set_phase _ _ t); [by meter_frame b|by destruct b|by rewrite Hp]).
  destruct (negb (allowed (t_decision t))); [done|]. destruct (b_closed b); [done|].
  destruct (0 <? b_slots b) eqn:Hv; simpl; [case_bool_decide as Hw|]; [|done..].
  apply meter_inside; rewrite ?Hp; [apply sem_take; [done|lia]|by meter_frame b|by destruct b|done..].
Qed.

Lemma meter_after x entry b : meter_inv b -> meter_inv (after_admission x entry b).
Proof.
  intros Hs. unfold after_admission. destruct entry as [res|]; [|done].
  destruct x; [by meter_frame b|]. case_match; by meter_frame b.
Qed.

Lemma meter_answer i t st a now x b :
  sem_inv 0 b -> meter_inv b -> b_tasks b !! i = Some t -> t_phase t = Running st ->
  meter_inv (answer_task i t st a now x b).
Proof.
  intros Hs Hm Hi Hp. unfold answer_task.
  assert (Hr : forall o, meter_inv (release_slot (set_phase i Done (set_meter leave
    (match o with Some res => set_result res (log_answer (t_id t) a b) | None => log_answer (t_id t) a b end))))).
  { intros o. set (b1 := match o with Some _ => _ | None => _ end).
    assert (H1 : sem_inv 0 b1) by (destruct o; by sem_frame b).
    assert (H2 : meter_inv b1) by (destruct o; by meter_frame b).
    assert (Hi1 : b_tasks b1 !! i = Some t) by (by destruct b, o).
    apply meter_release.
    - apply (sem_set_phase 0 _ _ _ t); [by sem_frame b1|by destruct b1|by rewrite Hp|done|by rewrite Hp].
    - clearbody b1. destruct b1 as [r1 st1 k ts v ws c res m ii cs ans rec], H2 as [M1 M2 M3]; simpl in *.
      constructor; simpl; [rewrite (tally_alter _ _ _ _ _ Hi1), Hp|..]; simpl; lia. }
  destruct a; try apply meter_after; apply Hr.
Qed.

Lemma meter_interrupt k b : meter_inv b -> meter_inv (interrupt k b).
Proof.
  intros [H1 H2 H3]. destruct b as [r st kk ts v ws c res m ii cs ans rec]; simpl in *.
  constructor; simpl; [|done..]. rewrite H1, tally_map. unfold tally. f_equal. apply map_ext. intros t.
  unfold cancelled_task. destruct (t_phase t) eqn:E; simpl; by rewrite ?E.
Qed.

Lemma meter_advance b e : sem_inv 0 b -> meter_inv b -> meter_inv (advance b e).
Proof.
  intros Hs Hm. destruct e as [i now|i now|i a now x|k]; simpl; [..|by apply meter_interrupt];
    destruct (b_tasks b !! i) as [t|] eqn:Hi; try done; destruct (t_phase t) eqn:Hp; try done.
  - by apply meter_start.
  - apply meter_inside; by rewrite ?Hp.
  - by apply meter_answer.
Qed.

(** * What is known of every task of a batch

    An executor call is made at most once per step and only for a step its own governance allowed;
    what is stored about a step is what its answer says; and admission closes for a reason. *)

(** The step has not reached the executor. *)
Definition untouched (b : Batch) (id : string) : Prop :=
  id ∉ b_calls b /\ b_answers b !! id = None.

(** How an ended task has ended. *)
Inductive settled (b : Batch) (t : Task) : Prop :=
| SettledDenied : allowed (t_decision t) = false -> untouched b (t_id t) ->
    b_results b !! t_id t = Some (denied_result (t_step t) (t_decision t) (decision_audit (t_decision t))) ->
    settled b t
| SettledClosed : allowed (t_decision t) = true -> untouched b (t_id t) -> b_closed b = true ->
    b_results b !! t_id t = Some (not_started (t_id t)) -> settled b t
| SettledCancelled : b_interrupt b <> None -> untouched b (t_id t) -> b_results b !! t_id t = None -> settled b t
| SettledAnswered a started finished : allowed (t_decision t) = true -> t_id t ∈ b_calls b ->
    b_answers b !! t_id t = Some a ->
    b_results b !! t_id t = answer_result (t_step t) (t_decision t) started finished a -> settled b t.

Definition task_ok (b : Batch) (t : Task) : Prop :=
  match t_phase t with
  | Created => untouched b (t_id t) /\ b_results b !! t_id t = None
  | Queued | Granted => allowed (t_decision t) = true /\ untouched b (t_id t) /\ b_results b !! t_id t = None
  | Running _ => allowed (t_decision t) = true /\ t_id t ∈ b_calls b /\ b_answers b !! t_id t = None
                 /\ b_results b !! t_id t = None
  | Done => settled b t
  end.

Record tasks_inv (b : Batch) : Prop := {
  ti_tasks : forall j t, b_tasks b !! j = Some t -> task_ok b t;
  ti_ids : NoDup (map t_id (b_tasks b));
  ti_interrupted : b_interrupt b <> None ->
    forall j t, b_tasks b !! j = Some t -> t_phase t = Done \/ exists st, t_phase t = Running st
}.

(** What the tasks share: the calls, the records, and the reason why admission is closed. *)
Record shared_inv (b : Batch) : Prop := {
  sh_calls : NoDup (b_calls b);
  sh_called : forall id, id ∈ b_calls b -> id ∈ map t_id (b_tasks b);
  sh_closed : b_closed b = true ->
    batch_failure_policy (b_request b) = BatchFailFast
    /\ exists res, res ∈ b_recorded b /\ sr_status res <> Step_SUCCESS;
  sh_recorded : forall res, res ∈ b_recorded b ->
    sr_step_id res ∈ b_calls b /\ b_results b !! sr_step_id res = Some res
}.

(** ** Framing: what a change of one step's entries leaves alone *)

(** [b'] differs from [b] in the entries of [id], and admission may have closed. *)
Record apart (id : string) (b b' : Batch) : Prop := {
  ap_tasks : b_tasks b' = b_tasks b;
  ap_results : forall k, k <> id -> b_results b' !! k = b_results b !! k;
  ap_answers : forall k, k <> id -> b_answers b' !! k = b_answers b !! k;
  ap_calls : forall k, k <> id -> k ∈ b_calls b' <-> k ∈ b_calls b;
  ap_closed : b_closed b = true -> b_closed b' = true;
  ap_interrupt : b_interrupt b <> None -> b_interrupt b' <> None
}.

(** The two states say the same of the step [id]. *)
Record agree (id : string) (b b' : Batch) : Prop := {
  ag_results : b_results b' !! id = b_results b !! id;
  ag_answers : b_answers b' !! id = b_answers b !! id;
  ag_calls : id ∈ b_calls b' <-> id ∈ b_calls b;
  ag_closed : b_closed b = true -> b_closed b' = true;
  ag_interrupt : b_interrupt b <> None -> b_interrupt b' <> None
}.

Lemma apart_agree id k b b' : apart id b b' -> k <> id -> agree k b b'.
Proof. intros [] ?. constructor; auto. Qed.

Lemma untouched_agree id b b' : agree id b b' -> untouched b id -> untouched b' id.
Proof. intros [_ Ha Hc _ _] [H1 H2]. split; [by rewrite Hc|by rewrite Ha]. Qed.

Lemma task_ok_agree b b' t : agree (t_id t) b b' -> task_ok b t -> task_ok b' t.
Proof.
  intros Hag. pose proof (untouched_agree _ _ _ Hag) as Hu. destruct Hag as [Hr Ha Hc Hcl Hin].
  unfold task_ok. destruct (t_phase t); rewrite ?Hr, ?Ha, ?Hc; [naive_solver..|].
  intros [H1 H2 H3|H1 H2 H3 H4|H1 H2 H3|a st fin H1 H2 H3 H4].
  - apply SettledDenied; [done|by apply Hu|by rewrite Hr].
  - apply SettledClosed; [done|by apply Hu|by apply Hcl|by rewrite Hr].
  - apply SettledCancelled; [by apply Hin|by apply Hu|by rewrite Hr].
  - apply (SettledAnswered _ _ a st fin); [done|by rewrite Hc|by rewrite Ha|by rewrite Hr].
Qed.

Lemma ids_distinct ts i j t u :
  NoDup (map t_id ts) -> ts !! i = Some t -> ts !! j = Some u -> t_id t = t_id u -> i = j.
Proof.
  intros Hnd Hi Hj Heq. eapply NoDup_lookup; [exact Hnd|..]; rewrite list_lookup_fmap; [by rewrite Hi|].
  rewrite Hj. simpl. by rewrite Heq.
Qed.

Lemma ids_alter i p ts : map t_id (alter (in_phase p) i ts) = map t_id ts.
Proof. revert i. induction ts as [|t ts IH]; intros [|i]; simpl; [done..|]. f_equal. apply IH. Qed.

(** A task moves to another phase, and what is known of its step changes with it. *)
Lemma tasks_move i t p b b0 :
  tasks_inv b -> b_tasks b !! i = Some t -> apart (t_id t) b b0 -> task_ok b0 (in_phase p t) ->
  (b_interrupt b0 <> None -> b_interrupt b <> None /\ (p = Done \/ exists st, p = Running st)) ->
  tasks_inv (set_phase i p b0).
Proof.
  intros [Hall Hnd Hint] Hi Hap Ht Hp. pose proof (ap_tasks _ _ _ Hap) as Hts.
  assert (Hsame : forall v, task_ok b0 v -> task_ok (set_phase i p b0) v)
    by (intros v; apply task_ok_agree; by destruct b0; constructor).
  constructor.
  - intros j u. rewrite tasks_set_phase, Hts. destruct (decide (i = j)) as [<-|Hne].
    + rewrite list_lookup_alter_eq, Hi. intros [= <-]. by apply Hsame.
    + rewrite list_lookup_alter_ne by done. intros Hj. apply Hsame, (task_ok_agree b); [|by eapply Hall].
      apply (apart_agree (t_id t)); [done|]. intros Heq. apply Hne. by eapply ids_distinct.
  - by rewrite tasks_set_phase, Hts, ids_alter.
  - intros Hin. assert (Hin0 : b_interrupt b0 <> None) by (by destruct b0). specialize (Hp Hin0) as [Hb Hp].
    intros j u. rewrite tasks_set_phase, Hts. destruct (decide (i = j)) as [<-|Hne].
    + rewrite list_lookup_alter_eq, Hi. by intros [= <-].
    + rewrite list_lookup_alter_ne by done. by apply Hint.
Qed.

Lemma tasks_release b : sem_inv 1 b -> tasks_inv b -> tasks_inv (release_slot b).
Proof.
  intros Hs Ht. unfold release_slot. destruct (b_waiters b) as [|j ws] eqn:Hw.
  - destruct Ht as [H1 H2 H3]. destruct b. constructor; [|done..].
    intros k u Hk. eapply task_ok_agree; [|by eapply H1]. done.
  - destruct (proj1 (si_waiters _ _ Hs j)) as (t & Hj & Hq); [rewrite Hw; by left|].
    apply (tasks_move j t _ b); [done|done|by destruct b; constructor| |].
    + pose proof (ti_tasks _ Ht _ _ Hj) as Hok. unfold task_ok in *. rewrite Hq in Hok. simpl. by destruct b.
    + intros Hin. assert (Hb : b_interrupt b <> None) by (by destruct b).
      destruct (ti_interrupted _ Ht Hb _ _ Hj) as [|[? ?]]; congruence.
Qed.

Lemma shared_same b b' :
  b_calls b' = b_calls b -> map t_id (b_tasks b') = map t_id (b_tasks b) -> b_closed b' = b_closed b ->
  b_request b' = b_request b -> b_recorded b' = b_recorded b ->
  (forall res, res ∈ b_recorded b -> b_results b' !! sr_step_id res = b_results b !! sr_step_id res) ->
  shared_inv b -> shared_inv b'.
Proof.
  intros H1 H2 H3 H4 H5 H6 [S1 S2 S3 S4]. constructor; rewrite ?H1, ?H2, ?H3, ?H4, ?H5; [done..|].
  intros res Hres. rewrite (H6 res Hres). by apply S4.
Qed.

Lemma ids_release b : map t_id (b_tasks (release_slot b)) = map t_id (b_tasks b).
Proof.
  unfold release_slot. destruct (b_waiters b); [by destruct b|].
  rewrite tasks_set_phase, ids_alter. by destruct b.
Qed.

Lemma shared_release b : shared_inv b -> shared_inv (release_slot b).
Proof.
  apply shared_same; try apply ids_release; unfold release_slot; destruct (b_waiters b); by destruct b.
Qed.

(** A step that has not been called has not been recorded. *)
Lemma unrecorded b id : shared_inv b -> untouched b id -> forall res, res ∈ b_recorded b -> sr_step_id res <> id.
Proof. intros Hsh [Hnin _] res Hres <-. by apply (sh_recorded _ Hsh) in Hres as [? _]. Qed.

(** ** The operations *)

(** Both invariants. *)
Definition knows (b : Batch) : Prop := tasks_inv b /\ shared_inv b.

Lemma knows_ends i t res b :
  knows b -> b_tasks b !! i = Some t -> sr_step_id res = t_id t -> untouched b (t_id t) ->
  settled (set_result res b) t -> knows (ends_with_result i res b).
Proof.
  intros [Ht Hsh] Hi Hid Hu Hset. split.
  - apply (tasks_move i t _ b); [done|done| |unfold task_ok; simpl|].
    + destruct b; constructor; try done; simpl in *. intros k Hk. rewrite lookup_insert_ne; [done|congruence].
    + destruct Hset; [by apply SettledDenied|by apply SettledClosed|by apply SettledCancelled|].
      by eapply SettledAnswered.
    + destruct b. by split; [|left].
  - apply (shared_same b); try by destruct b.
    + unfold ends_with_result. rewrite tasks_set_phase, ids_alter. by destruct b.
    + intros r Hr. destruct b; simpl in *. apply lookup_insert_ne. rewrite Hid.
      intros Heq. by eapply (unrecorded (mkBatch _ _ _ _ _ _ _ _ _ _ _ _ _)).
Qed.

Lemma knows_denied i t b :
  knows b -> b_tasks b !! i = Some t -> t_phase t = Created -> allowed (t_decision t) = false ->
  knows (ends_with_result i (denied_result (t_step t) (t_decision t) (decision_audit (t_decision t))) b).
Proof.
  intros Hk Hi Hp Hd. pose proof (ti_tasks _ (proj1 Hk) _ _ Hi) as Hok. unfold task_ok in Hok. rewrite Hp in Hok.
  destruct Hok as [Hu Hr]. apply (knows_ends _ t); [done..|].
  apply SettledDenied; [done|by destruct b|]. destruct b. simpl. by rewrite lookup_insert_eq.
Qed.

(** A task that is admitted but has not called yet. *)
Lemma pending_ok b i t :
  tasks_inv b -> b_tasks b !! i = Some t -> t_phase t = Created \/ t_phase t = Granted ->
  untouched b (t_id t) /\ b_results b !! t_id t = None.
Proof.
  intros Ht Hi Hp. pose proof (ti_tasks _ Ht _ _ Hi) as Hok. unfold task_ok in Hok.
  destruct Hp as [Hp|Hp]; rewrite Hp in Hok; tauto.
Qed.

Lemma knows_closed i t b :
  knows b -> b_tasks b !! i = Some t -> t_phase t = Created \/ t_phase t = Granted ->
  allowed (t_decision t) = true -> b_closed b = true ->
  knows (ends_with_result i (not_started (step_id (t_step t))) b).
Proof.
  intros Hk Hi Hp Hd Hc. destruct (pending_ok _ _ _ (proj1 Hk) Hi Hp) as [Hu Hr].
  apply (knows_ends _ t); [done..|].
  apply SettledClosed; [done|by destruct b|by destruct b|]. destruct b. simpl. by rewrite lookup_insert_eq.
Qed.

Lemma knows_call i t now b :
  knows b -> b_tasks b !! i = Some t -> t_phase t = Created \/ t_phase t = Granted ->
  allowed (t_decision t) = true ->
  knows (log_call (step_id (t_step t)) (set_phase i (Running now) (set_meter enter b))).
Proof.
  intros [Ht Hsh] Hi Hp Hd. destruct (pending_ok _ _ _ Ht Hi Hp) as [[Hc Ha] Hr].
  assert (Hnone : b_interrupt b = None).
  { destruct (b_interrupt b) eqn:E; [|done].
    destruct (ti_interrupted _ Ht ltac:(by rewrite E) _ _ Hi) as [|[? ?]]; destruct Hp; congruence. }
  set (b0 := log_call (step_id (t_step t)) (set_meter enter b)).
  replace (log_call _ _) with (set_phase i (Running now) b0) by (by destruct b). split.
  - apply (tasks_move i t _ b); [done|done| | |].
    + subst b0. destruct b; constructor; try done; simpl. intros k Hk. rewrite elem_of_cons. split; [by intros [->|]|by right].
    + unfold task_ok; simpl. subst b0. destruct b; simpl in *. split_and!; [done|by left|done|done].
    + subst b0. destruct b; simpl in *. by rewrite Hnone.
  - destruct Hsh as [S1 S2 S3 S4]. subst b0. destruct b; simpl in *. constructor; simpl; [by constructor| |done|].
    + rewrite ids_alter. intros id [->|Hid]%elem_of_cons; [|by apply S2].
      apply list_elem_of_fmap. exists t. split; [done|by eapply list_elem_of_lookup_2].
    + intros res Hres. destruct (S4 res Hres). split; [by right|done].
Qed.

Lemma knows_inside i t now b :
  sem_inv (1 - holding (t_phase t)) b -> knows b -> b_tasks b !! i = Some t ->
  t_phase t = Created \/ t_phase t = Granted -> allowed (t_decision t) = true ->
  knows (inside_admission i (t_step t) now b).
Proof.
  intros Hs Hk Hi Hp Hd. unfold inside_admission. destruct (b_closed b) eqn:Hc; [|by apply knows_call].
  destruct (knows_closed i t b Hk Hi Hp Hd Hc) as [Ht Hsh]. split; [|by apply shared_release].
  apply tasks_release; [|done]. replace 1 with (1 - holding (t_phase t) + holding (t_phase t)) by lia.
  apply sem_ends; [done..|]. destruct Hp; congruence.
Qed.

Lemma knows_semaphore v ws b : knows b -> knows (set_semaphore v ws b).
Proof.
  intros [[H1 H2 H3] Hsh]. split.
  - destruct b; constructor; [|done..]. intros j t Hj. eapply task_ok_agree; [|by eapply H1]. done.
  - by apply (shared_same b); destruct b.
Qed.

Lemma knows_queue i t v ws b :
  knows b -> b_tasks b !! i = Some t -> t_phase t = Created -> allowed (t_decision t) = true ->
  knows (set_phase i Queued (set_semaphore v ws b)).
Proof.
  intros [Ht Hsh] Hi Hp Hd. destruct (pending_ok _ _ _ Ht Hi (or_introl Hp)) as [Hu Hr]. split.
  - apply (tasks_move i t _ b); [done|done|by destruct b|by destruct b|].
    intros Hin. assert (Hb : b_interrupt b <> None) by (by destruct b).
    destruct (ti_interrupted _ Ht Hb _ _ Hi) as [|[? ?]]; congruence.
  - apply (shared_same b); try by destruct b. rewrite tasks_set_phase, ids_alter. by destruct b.
Qed.

Lemma knows_start i t now b :
  sem_inv 0 b -> knows b -> b_tasks b !! i = Some t -> t_phase t = Created -> knows (start_task i t now b).
Proof.
  intros Hs Hk Hi Hp. unfold start_task. destruct (allowed (t_decision t)) eqn:Hd; simpl; [|by apply knows_denied].
  destruct (b_closed b) eqn:Hc; [by apply knows_closed; auto|].
  destruct (0 <? b_slots b) eqn:Hv; simpl; [case_bool_decide as Hw|]; [|by eapply knows_queue..].
  apply knows_inside; [rewrite Hp; apply sem_take; [done|lia]|by apply knows_semaphore|by destruct b|by left|done].
Qed.

Lemma knows_log_record res b :
  knows b -> sr_step_id res ∈ b_calls b -> b_results b !! sr_step_id res = Some res -> knows (log_record res b).
Proof.
  intros [[H1 H2 H3] [S1 S2 S3 S4]] Hc Hr. split.
  - destruct b; constructor; [|done..]. intros j t Hj. eapply task_ok_agree; [|by eapply H1]. done.
  - destruct b; simpl in *. constructor; simpl; [done..| |].
    + intros Hcl. destruct (S3 Hcl) as (? & r' & ? & ?). split; [done|]. exists r'. split; [by right|done].
    + by intros r' [->|Hr']%elem_of_cons; [|apply S4].
Qed.

Lemma knows_after x res b :
  knows b -> sr_step_id res ∈ b_calls b -> b_results b !! sr_step_id res = Some res ->
  knows (after_admission x (Some res) b).
Proof.
  intros Hk Hc Hr. unfold after_admission. pose proof (knows_log_record _ _ Hk Hc Hr) as Hk'.
  destruct x; [done|]. case_match eqn:E; [|done].
  apply andb_true_iff in E as [Hff%bool_decide_eq_true Hns%negb_true_iff%bool_decide_eq_false].
  destruct Hk' as [[H1 H2 H3] [S1 S2 S3 S4]]. destruct b; simpl in *. split.
  - constructor; [|done..]. intros j t Hj. eapply task_ok_agree; [|by eapply H1]. done.
  - constructor; simpl; [done..| |done]. intros _. split; [done|]. exists res. split; [by left|done].
Qed.

(** The part of [answer_task] up to the release of the slot. *)
Definition store_answer (i : nat) (t : Task) (st : string) (a : answer) (now : string) (b : Batch) : Batch :=
  let b := log_answer (t_id t) a b in
  set_phase i Done (set_meter leave
    (match answer_result (t_step t) (t_decision t) st now a with Some res => set_result res b | None => b end)).

Lemma answer_result_id s d st fin a res : answer_result s d st fin a = Some res -> sr_step_id res = step_id s.
Proof. by destruct a; intros [= <-]. Qed.

Lemma knows_store i t st a now b :
  knows b -> b_tasks b !! i = Some t -> t_phase t = Running st -> knows (store_answer i t st a now b).
Proof.
  intros [Ht Hsh] Hi Hp. pose proof (ti_tasks _ Ht _ _ Hi) as Hok. unfold task_ok in Hok. rewrite Hp in Hok.
  destruct Hok as (Hd & Hc & Ha & Hr). unfold store_answer.
  destruct (answer_result (t_step t) (t_decision t) st now a) as [res|] eqn:E.
  - pose proof (answer_result_id _ _ _ _ _ _ E) as Hid. fold (t_id t) in Hid. split.
    + apply (tasks_move i t _ b); [done|done| | |by destruct b; split; [|left]].
      * destruct b; constructor; try done; simpl; intros k Hk; rewrite lookup_insert_ne; congruence.
      * unfold task_ok; simpl. apply (SettledAnswered _ _ a st now); destruct b; simpl in *;
          [done|done|apply lookup_insert_eq|].
        rewrite Hid. rewrite E. apply lookup_insert_eq.
    + apply (shared_same b); try by destruct b.
      * rewrite tasks_set_phase, ids_alter. by destruct b.
      * intros r Hr'. destruct (sh_recorded _ Hsh _ Hr') as [_ Hrec]. destruct b; simpl in *.
        apply lookup_insert_ne. intros Heq. rewrite Hid in Heq. congruence.
  - split.
    + apply (tasks_move i t _ b); [done|done| | |by destruct b; split; [|left]].
      * destruct b; constructor; try done; simpl; intros k Hk; rewrite lookup_insert_ne; congruence.
      * unfold task_ok; simpl. apply (SettledAnswered _ _ a st now); destruct b; simpl in *;
          [done|done|apply lookup_insert_eq|]. rewrite E. exact Hr.
    + apply (shared_same b); try by destruct b. rewrite tasks_set_phase, ids_alter. by destruct b.
Qed.

Lemma sem_store i t st a now b :
  sem_inv 0 b -> b_tasks b !! i = Some t -> t_phase t = Running st -> sem_inv 1 (store_answer i t st a now b).
Proof.
  intros Hs Hi Hp. unfold store_answer. destruct (answer_result _ _ _ _ _) as [res|].
  all: apply (sem_set_phase 0 _ _ _ t); [by sem_frame b|by destruct b|by rewrite Hp|done|by rewrite Hp].
Qed.

Lemma release_fields b :
  b_calls (release_slot b) = b_calls b /\ b_results (release_slot b) = b_results b.
Proof. unfold release_slot. destruct (b_waiters b); by destruct b. Qed.

Lemma knows_answer i t st a now x b :
  sem_inv 0 b -> knows b -> b_tasks b !! i = Some t -> t_phase t = Running st ->
  knows (answer_task i t st a now x b).
Proof.
  intros Hs Hk Hi Hp. pose proof (ti_tasks _ (proj1 Hk) _ _ Hi) as Hok. unfold task_ok in Hok.
  rewrite Hp in Hok. destruct Hok as (_ & Hc & _ & _).
  assert (Hr : knows (release_slot (store_answer i t st a now b))).
  { destruct (knows_store i t st a now b Hk Hi Hp). split; [|by apply shared_release].
    apply tasks_release; [by eapply sem_store|done]. }
  assert (Hafter : forall res, answer_result (t_step t) (t_decision t) st now a = Some res ->
            knows (after_admission x (Some res) (release_slot (store_answer i t st a now b)))).
  { intros res E. pose proof (answer_result_id _ _ _ _ _ _ E) as Hid.
    destruct (release_fields (store_answer i t st a now b)) as [F1 F2].
    apply knows_after; [done|rewrite F1|rewrite F2]; unfold store_answer; rewrite E; destruct b; simpl.
    - by rewrite Hid.
    - by rewrite lookup_insert_eq. }
  unfold answer_task, store_answer in *. destruct a; try done; by apply Hafter.
Qed.

Lemma knows_interrupt k b : knows b -> knows (interrupt k b).
Proof.
  intros [Ht Hsh].
  assert (Hids : map t_id (map cancelled_task (b_tasks b)) = map t_id (b_tasks b)).
  { rewrite map_map. apply map_ext. intros t. unfold cancelled_task. by destruct (t_phase t). }
  split; [|by apply (shared_same b); try by destruct b].
  assert (Hag : forall t, agree (t_id t) b (interrupt k b)) by (intros t; destruct b; constructor; done).
  assert (Hin : b_interrupt (interrupt k b) <> None) by (by destruct b).
  assert (Hts : b_tasks (interrupt k b) = map cancelled_task (b_tasks b)) by (by destruct b).
  constructor; rewrite ?Hts, ?Hids; [|by apply Ht|].
  - intros j u. rewrite list_lookup_fmap. destruct (b_tasks b !! j) as [t|] eqn:Hj; [|done]. intros [= <-].
    pose proof (task_ok_agree _ _ _ (Hag t) (ti_tasks _ Ht _ _ Hj)) as Hok.
    unfold cancelled_task. unfold task_ok in *.
    destruct (t_phase t) eqn:Hp; simpl; rewrite ?Hp; [| | |done|];
      try (apply SettledCancelled; [done|by apply Hok..]).
    by destruct Hok; [apply SettledDenied|apply SettledClosed|apply SettledCancelled|eapply SettledAnswered].
  - intros _ j u. rewrite list_lookup_fmap. destruct (b_tasks b !! j) as [t|] eqn:Hj; [|done]. intros [= <-].
    unfold cancelled_task. destruct (t_phase t) eqn:Hp; simpl; rewrite ?Hp; eauto.
Qed.

Lemma knows_advance b e : sem_inv 0 b -> knows b -> knows (advance b e).
Proof.
  intros Hs Hk. destruct e as [i now|i now|i a now x|k]; simpl; [..|by apply knows_interrupt];
    destruct (b_tasks b !! i) as [t|] eqn:Hi; try done; destruct (t_phase t) eqn:Hp; try done.
  - by apply knows_start.
  - pose proof (ti_tasks _ (proj1 Hk) _ _ Hi) as Hok. unfold task_ok in Hok. rewrite Hp in Hok.
    apply knows_inside; [by rewrite Hp|done..|by right|by apply Hok].
  - by apply knows_answer.
Qed.

(** ** Every reachable batch *)

Record batch_inv (b : Batch) : Prop := {
  bi_sem : sem_inv 0 b;
  bi_meter : meter_inv b;
  bi_knows : knows b
}.

Lemma batch_advance b e : batch_inv b -> batch_inv (advance b e).
Proof.
  intros [H1 H2 H3]. constructor; [by apply sem_advance|by apply meter_advance|by apply knows_advance].
Qed.

Lemma batch_advances b es : batch_inv b -> batch_inv (advances b es).
Proof. revert b. induction es as [|e es IH]; intros b Hb; [done|]. by apply IH, batch_advance. Qed.

Lemma new_tasks ss ds :
  length ss = length ds ->
  let ts := zip_with (fun s d => mkTask s d Created) ss ds in
  map (fun t => (t_step t, t_decision t)) ts = zip ss ds /\ map t_step ts = ss
  /\ Forall (fun t => t_phase t = Created) ts.
Proof.
  simpl. revert ds. induction ss as [|s ss IH]; intros [|d ds] Hl; simplify_eq/=; [done|].
  destruct (IH ds ltac:(lia)) as (H1 & H2 & H3). split_and!; [by rewrite H1|by rewrite H2|by constructor].
Qed.

Lemma new_batch_inv r ds k now :
  length ds = length (steps r) -> NoDup (step_ids r) -> 1 <= k -> batch_inv (new_batch r ds k now).
Proof.
  intros Hl Hnd Hk. destruct (new_tasks (steps r) ds (eq_sym Hl)) as (_ & Hsteps & Hcr).
  set (ts := zip_with _ _ _) in *. rewrite Forall_lookup in Hcr.
  assert (Hz : forall f, f Created = 0 -> tally f ts = 0).
  { intros f Hf. apply tally_zero, Forall_lookup. intros i t Hi. by rewrite (Hcr i t Hi). }
  constructor.
  - constructor; simpl; [fold ts; rewrite Hz; [lia|done]|lia|done|constructor|].
    intros j. split; [by intros ?%not_elem_of_nil|]. intros (t & Hj%Hcr & Hq). congruence.
  - constructor; simpl; [fold ts; by rewrite Hz|lia..].
  - split.
    + constructor; simpl; [|fold ts|done].
      * intros j t Hj. unfold task_ok, untouched. rewrite (Hcr j t Hj). simpl.
        split_and!; [apply not_elem_of_nil|done..].
      * replace (map t_id ts) with (step_ids r); [done|]. unfold step_ids. rewrite <- Hsteps. by rewrite map_map.
    + constructor; simpl; [constructor|by intros ? ?%not_elem_of_nil|done|by intros ? ?%not_elem_of_nil].
Qed.
