(* ===== verification/BatchGuarantees.v ===== *)
(** * What a batch guarantees

    For any valid request, any decisions of its governance, and any order in which its tasks run,
    are answered and are interrupted. *)
From S2P Require Import Prelude.
From S2P Require Import PyText.
From S2P Require Import PyValue.
From S2P Require Import Canonical.
From S2P Require Import BatchContract.
From S2P Require Import BatchScheduler.
From S2P Require Import BatchRuns.

Section Guarantees.
Variable sha256_hex : string -> string.
Variable repr : string -> string.

(** ** Requests *)

Lemma distinct_steps_Ok ss seen u :
  rfold (fun seen s => do! invalid_if (str_in (step_id s) seen) ("steps: duplicate step_id " +:+ repr (step_id s)) in
    Ok (step_id s :: seen)) seen ss = Ok u ->
  NoDup (map step_id ss) /\ forall s, s ∈ ss -> step_id s ∉ seen.
Proof.
  revert seen. induction ss as [|s ss IH]; simpl; intros seen.
  - intros _. split; [constructor|by intros ? ?%not_elem_of_nil].
  - unfold invalid_if. rewrite rbind_Ok. intros (s1 & (? & H%raise_if_Ok & [= <-])%rbind_Ok & Hrest).
    destruct (IH _ Hrest) as [Hnd Hnin].
    assert (Hs : step_id s ∉ seen).
    { intros Hin. enough (str_in (step_id s) seen = true) by congruence.
      apply existsb_exists. exists (step_id s). split; [by apply list_elem_of_In|apply String.eqb_refl]. }
    split.
    + apply NoDup_cons. split; [|done]. intros (s' & Heq & Hs')%list_elem_of_fmap.
      apply (Hnin s' Hs'). rewrite <- Heq. by left.
    + intros s' [->|Hs']%elem_of_cons; [done|]. intros Hin. apply (Hnin s' Hs'). by right.
Qed.

Lemma valid_ids r r' : batch_request repr r = Ok r' -> NoDup (step_ids r).
Proof.
  unfold batch_request. rewrite !rbind_Ok. intros (? & _ & H). revert H.
  rewrite !rbind_Ok. intros (? & _ & H). revert H. rewrite !rbind_Ok. intros (? & _ & H). revert H.
  rewrite !rbind_Ok. intros (? & _ & H). revert H. rewrite !rbind_Ok. intros (? & _ & H). revert H.
  rewrite !rbind_Ok. intros (u & H & _). by apply distinct_steps_Ok in H as [? _].
Qed.

Lemma parallelism_bounds r m :
  1 <= effective_parallelism r m
  /\ effective_parallelism r m <= (if m then BATCH_MAX_PARALLELISM_MUTATION else BATCH_MAX_PARALLELISM)
  /\ (1 <= batch_parallelism r -> effective_parallelism r m <= batch_parallelism r).
Proof.
  unfold effective_parallelism, BATCH_MAX_PARALLELISM_MUTATION, BATCH_MAX_PARALLELISM. destruct m; lia.
Qed.

(** ** Batches that are under way *)

(** [b] is a batch of the request [r], whose steps were decided [ds], at some moment of its run. *)
Definition launched (r : BatchRequest) (ds : list StepDecision) (b : Batch) : Prop :=
  (exists r0, batch_request repr r0 = Ok r) /\ dry_run r = false /\ length ds = length (steps r)
  /\ exists now es, b = advances (new_batch r ds (effective_parallelism r (has_mutation ds)) now) es.

Lemma batch_request_same r0 r : batch_request repr r0 = Ok r -> r = r0.
Proof.
  unfold batch_request, invalid_if. repeat (rewrite rbind_Ok; intros (? & _ & H); revert H).
  by intros [= ->].
Qed.

Section Launched.
Context {r : BatchRequest} {ds : list StepDecision} {b : Batch}.
Hypothesis Hb : launched r ds b.

Lemma launched_inv : batch_inv b.
Proof.
  destruct Hb as ([r0 Hv] & _ & Hl & now & es & ->). pose proof (batch_request_same _ _ Hv) as <-.
  apply batch_advances, new_batch_inv; [done|by eapply valid_ids|apply parallelism_bounds].
Qed.

Lemma launched_static :
  b_request b = r /\ b_parallelism b = effective_parallelism r (has_mutation ds)
  /\ map (fun t => (t_step t, t_decision t)) (b_tasks b) = zip (steps r) ds.
Proof.
  destruct Hb as (_ & _ & Hl & now & es & ->). set (k := effective_parallelism _ _).
  pose proof (static_advances (new_batch r ds k now) es) as Hs. unfold static in Hs. simplify_eq.
  destruct (new_tasks (steps r) ds (eq_sym Hl)) as (Hz & _). simpl in *. split_and!; [done..|]. congruence.
Qed.

Lemma launched_task i s d :
  steps r !! i = Some s -> ds !! i = Some d ->
  exists t, b_tasks b !! i = Some t /\ t_step t = s /\ t_decision t = d.
Proof.
  intros Hs Hd. destruct launched_static as (_ & _ & Hz).
  assert (H : map (fun t => (t_step t, t_decision t)) (b_tasks b) !! i = Some (s, d)).
  { rewrite Hz. apply lookup_zip_with_Some. by exists s, d. }
  rewrite list_lookup_fmap in H. destruct (b_tasks b !! i) as [t|]; [|done].
  exists t. by simplify_eq/=.
Qed.

Lemma launched_step i t :
  b_tasks b !! i = Some t -> steps r !! i = Some (t_step t) /\ ds !! i = Some (t_decision t).
Proof.
  intros Hi. destruct launched_static as (_ & _ & Hz).
  assert (H : zip (steps r) ds !! i = Some (t_step t, t_decision t)) by (by rewrite <- Hz, list_lookup_fmap, Hi).
  apply lookup_zip_with_Some in H as (s & d & [= -> ->] & ? & ?). done.
Qed.

Lemma launched_ok i t : b_tasks b !! i = Some t -> task_ok b t.
Proof. apply (ti_tasks _ (proj1 (bi_knows _ launched_inv))). Qed.

(** A call was made for a task that its own decision allowed. *)
Lemma launched_called id :
  id ∈ b_calls b -> exists i s d, steps r !! i = Some s /\ step_id s = id /\ ds !! i = Some d /\ allowed d = true.
Proof.
  intros Hid. destruct (bi_knows _ launched_inv) as [Ht Hsh].
  pose proof (sh_called _ Hsh _ Hid) as (t & Heq & [i Hi]%list_elem_of_lookup)%list_elem_of_fmap.
  destruct (launched_step _ _ Hi) as [Hs Hd]. exists i, (t_step t), (t_decision t).
  split_and!; [done|done|done|]. subst id.
  pose proof (ti_tasks _ Ht _ _ Hi) as Hok. unfold task_ok in Hok.
  destruct (t_phase t); [by destruct Hok as [[? _] _]|tauto..|].
  by destruct Hok as [? [? _] _|? _ _ _|? [? _] _|? ? ? ? _ _ _].
Qed.
End Launched.

(** ** Calls *)

(** The tasks of [b] that are inside the executor. *)
Definition inflight (b : Batch) : Z := tally running (b_tasks b).
(** The tasks that hold a slot. *)
Definition admitted (b : Batch) : Z := tally holding (b_tasks b).

(** No more steps are calling the executor at once than the effective parallelism, which is within
    the request's and the ceiling of its kind: one, if any step mutates; the meter counts exactly
    them.  And a step waits only while every slot is held. *)
Lemma concurrency_lemma r ds b :
  launched r ds b ->
  let k := effective_parallelism r (has_mutation ds) in
  inflight b = current (b_meter b) /\ inflight b <= max_observed (b_meter b) /\ max_observed (b_meter b) <= k
  /\ inflight b <= admitted b /\ admitted b <= k
  /\ (k <= if has_mutation ds then BATCH_MAX_PARALLELISM_MUTATION else BATCH_MAX_PARALLELISM)
  /\ (b_waiters b <> [] -> admitted b = k).
Proof.
  intros Hb k. destruct (launched_inv Hb) as [[S1 S2 S3 _ _] [M1 M2 M3] _].
  destruct (launched_static Hb) as (_ & Hk & _). unfold inflight, admitted. rewrite Hk in *.
  pose proof (parallelism_bounds r (has_mutation ds)) as (? & ? & _).
  pose proof (tally_le running holding (b_tasks b) (fun p => ltac:(destruct p; simpl; lia))).
  split_and!; try lia. intros Hw. specialize (S3 Hw). lia.
Qed.

(** ** The end of admission *)

Lemma calls_release b : b_calls (release_slot b) = b_calls b.
Proof. apply release_fields. Qed.

Lemma calls_ends i res b : b_calls (ends_with_result i res b) = b_calls b.
Proof. by destruct b. Qed.

Lemma closed_release b : b_closed (release_slot b) = b_closed b.
Proof. unfold release_slot. destruct (b_waiters b); by destruct b. Qed.

Lemma interrupt_release b : b_interrupt (release_slot b) = b_interrupt b.
Proof. unfold release_slot. destruct (b_waiters b); by destruct b. Qed.

Lemma answer_fields i t st a now x b :
  b_calls (answer_task i t st a now x b) = b_calls b
  /\ (b_closed b = true -> b_closed (answer_task i t st a now x b) = true)
  /\ b_interrupt (answer_task i t st a now x b) = b_interrupt b.
Proof.
  assert (Hafter : forall e b', b_calls (after_admission x e b') = b_calls b'
            /\ (b_closed b' = true -> b_closed (after_admission x e b') = true)
            /\ b_interrupt (after_admission x e b') = b_interrupt b').
  { intros e b'. unfold after_admission. destruct e; [|done]. destruct x; [by destruct b'|].
    case_match; by destruct b'. }
  unfold answer_task.
  set (b1 := release_slot _).
  assert (H1 : b_calls b1 = b_calls b /\ b_closed b1 = b_closed b /\ b_interrupt b1 = b_interrupt b).
  { subst b1. rewrite calls_release, closed_release, interrupt_release.
    destruct (answer_result _ _ _ _ _); by destruct b. }
  destruct H1 as (H1 & H2 & H3).
  assert (Hgo : forall e, b_calls (after_admission x e b1) = b_calls b
            /\ (b_closed b = true -> b_closed (after_admission x e b1) = true)
            /\ b_interrupt (after_admission x e b1) = b_interrupt b).
  { intros e. destruct (Hafter e b1) as (F1 & F2 & F3). rewrite F1, F3, H1, H3. rewrite H2 in F2. done. }
  destruct a; try apply Hgo; by rewrite H1, H2, H3.
Qed.

(** Admission has ended: it is closed, or the batch is interrupted. *)
Definition admission_over (b : Batch) : bool := b_closed b || negb (bool_decide (b_interrupt b = None)).

Lemma over_advance b e :
  batch_inv b -> admission_over b = true ->
  b_calls (advance b e) = b_calls b /\ admission_over (advance b e) = true.
Proof.
  intros Hb Ho.
  assert (Hcase : b_closed b = true \/ b_interrupt b <> None).
  { unfold admission_over in Ho. apply orb_true_iff in Ho as [->|Ho]; [by left|right].
    by apply negb_true_iff, bool_decide_eq_false in Ho. }
  assert (Hpend : forall i t, b_tasks b !! i = Some t -> t_phase t = Created \/ t_phase t = Granted -> b_closed b = true).
  { intros i t Hi Hp. destruct Hcase as [|Hin]; [done|].
    destruct (ti_interrupted _ (proj1 (bi_knows _ Hb)) Hin _ _ Hi) as [|[? ?]]; destruct Hp; congruence. }
  assert (Hends : forall i res, b_closed b = true ->
            b_calls (ends_with_result i res b) = b_calls b /\ admission_over (ends_with_result i res b) = true).
  { intros i res Hc. split; [apply calls_ends|]. unfold admission_over. by destruct b; simpl in *; rewrite Hc. }
  assert (Hin : forall i s now, b_closed b = true ->
            b_calls (inside_admission i s now b) = b_calls b /\ admission_over (inside_admission i s now b) = true).
  { intros i s now Hc. unfold inside_admission. rewrite Hc. rewrite calls_release. split; [apply calls_ends|].
    unfold admission_over. rewrite closed_release. by destruct b; simpl in *; rewrite Hc. }
  destruct e as [i now|i now|i a now x|k]; simpl.
  - destruct (b_tasks b !! i) as [t|] eqn:Hi; [|done]. destruct (t_phase t) eqn:Hp; try done.
    pose proof (Hpend _ _ Hi (or_introl Hp)) as Hc. unfold start_task. rewrite Hc.
    destruct (negb _); by apply Hends.
  - destruct (b_tasks b !! i) as [t|] eqn:Hi; [|done]. destruct (t_phase t) eqn:Hp; try done.
    by apply Hin, (Hpend _ _ Hi); right.
  - destruct (b_tasks b !! i) as [t|] eqn:Hi; [|done]. destruct (t_phase t) eqn:Hp; try done.
    destruct (answer_fields i t started a now x b) as (F1 & F2 & F3). split; [done|].
    unfold admission_over. rewrite F3. destruct Hcase as [Hc|Hn]; [by rewrite F2|].
    rewrite bool_decide_eq_false_2 by done. by rewrite orb_true_r.
  - split; [by destruct b|]. unfold admission_over. destruct b; simpl. by rewrite orb_true_r.
Qed.

Lemma over_advances b es :
  batch_inv b -> admission_over b = true -> b_calls (advances b es) = b_calls b.
Proof.
  revert b. induction es as [|e es IH]; intros b Hb Ho; [done|]. simpl.
  destruct (over_advance b e Hb Ho) as [Hc Ho']. rewrite <- Hc. by apply IH; [apply batch_advance|].
Qed.
End Guarantees.

(** * What a batch reports, that it ends, and what batches share

    Everything proved of batches comes together here: the report, the aggregate status, progress,
    and the capacity of the process. *)

(** ** Aggregation *)

Definition has_status (p : StepStatus -> Prop) (rs : list BatchStepResult) : Prop := Exists (fun r => p (sr_status r)) rs.
Definition all_status (p : StepStatus -> Prop) (rs : list BatchStepResult) : Prop := Forall (fun r => p (sr_status r)) rs.

(** Neither settled by the executor nor refused: the statuses of an interrupted step. *)
Definition unresolved (s : StepStatus) : Prop := s ∈ [Step_TIMED_OUT; Step_CANCELLED; Step_NOT_STARTED].
Definition unended (s : StepStatus) : Prop := s = Step_CANCELLED \/ s = Step_NOT_STARTED.

Lemma unresolved_iff s : unresolved s <-> s = Step_TIMED_OUT \/ unended s.
Proof. unfold unresolved, unended. rewrite !elem_of_cons, elem_of_nil. tauto. Qed.
#[local] Instance unresolved_dec s : Decision (unresolved s).
Proof. unfold unresolved. apply _. Defined.

Lemma count_of_zero s rs : count_of s rs = 0 <-> all_status (fun s' => s' <> s) rs.
Proof.
  unfold count_of, all_status. induction rs as [|r rs IH]; simpl; [by split; [constructor|]|].
  rewrite Forall_cons. case_bool_decide; simpl; [split; [lia|by intros [? _]]|]. tauto.
Qed.

Lemma count_of_nonneg s rs : 0 <= count_of s rs.
Proof. unfold count_of. lia. Qed.

Lemma count_of_full s rs : count_of s rs = Z.of_nat (length rs) <-> all_status (fun s' => s' = s) rs.
Proof.
  unfold count_of, all_status. induction rs as [|r rs IH]; simpl; [by split; [constructor|]|].
  rewrite Forall_cons. case_bool_decide; simpl.
  - rewrite <- IH. split; [intros; split; [done|lia]|intros [_ ?]; lia].
  - split; [|by intros [? _]]. pose proof (List.filter_length_le (fun r => bool_decide (sr_status r = s)) rs). lia.
Qed.

Lemma forallb_status (p : StepStatus -> Prop) `{forall s, Decision (p s)} rs :
  forallb (fun s => bool_decide (p s)) (map sr_status rs) = true <-> all_status p rs.
Proof.
  unfold all_status. rewrite forallb_forall, Forall_forall. setoid_rewrite bool_decide_eq_true.
  split; intros Hf.
  - intros r Hr. apply Hf. by apply in_map, list_elem_of_In.
  - intros s (r & <- & Hr)%in_map_iff. by apply Hf, list_elem_of_In.
Qed.

Lemma existsb_status (p : StepStatus -> Prop) `{forall s, Decision (p s)} rs :
  existsb (fun s => bool_decide (p s)) (map sr_status rs) = true <-> has_status p rs.
Proof.
  unfold has_status. rewrite existsb_exists, Exists_exists. setoid_rewrite bool_decide_eq_true. split.
  - intros (s & (r & <- & Hr)%in_map_iff & Hp). exists r. split; [by apply list_elem_of_In|done].
  - intros (r & Hr & Hp). exists (sr_status r). split; [by apply in_map, list_elem_of_In|done].
Qed.

Lemma not_all_status (p : StepStatus -> Prop) `{forall s, Decision (p s)} rs :
  ~ all_status p rs <-> has_status (fun s => ~ p s) rs.
Proof.
  unfold all_status, has_status. split.
  - intros Hn. destruct (Exists_dec (fun r => ~ p (sr_status r)) rs) as [|Hne]; [done|].
    destruct Hn. apply Forall_forall. intros r Hr. destruct (decide (p (sr_status r))); [done|].
    destruct Hne. apply Exists_exists. by exists r.
  - intros (r & Hr & Hp)%Exists_exists Hall. rewrite Forall_forall in Hall. by apply Hp, Hall.
Qed.

(** The rules, in the order in which they apply. *)
Lemma aggregate_rules rs c t :
  let a := aggregate_status rs c t in
  (rs <> [] /\ all_status (fun s => s = Step_SUCCESS) rs -> a = Batch_SUCCESS)
  /\ (has_status (fun s => s = Step_SUCCESS) rs /\ has_status (fun s => s <> Step_SUCCESS) rs -> a = Batch_PARTIAL)
  /\ (all_status (fun s => s <> Step_SUCCESS) rs ->
      (t = true -> a = Batch_TIMED_OUT)
      /\ (t = false -> rs <> [] ->
          (all_status (fun s => s = Step_DENIED) rs -> a = Batch_DENIED)
          /\ (all_status unresolved rs -> has_status (fun s => s = Step_TIMED_OUT) rs -> a = Batch_TIMED_OUT)
          /\ (all_status unended rs -> a = Batch_CANCELLED)
          /\ (has_status (fun s => ~ unresolved s) rs -> has_status (fun s => s <> Step_DENIED) rs -> a = Batch_FAILED))).
Proof.
  simpl. unfold aggregate_status. rewrite length_map.
  assert (Hne : negb (bool_decide (map sr_status rs = [])) = negb (bool_decide (rs = []))) by (by destruct rs).
  rewrite Hne.
  pose proof (count_of_full Step_SUCCESS rs) as Hfull. pose proof (count_of_zero Step_SUCCESS rs) as Hzero.
  pose proof (forallb_status (fun s => s = Step_DENIED) rs) as Hd.
  assert (Hu : forallb (fun s => status_in s [Step_TIMED_OUT; Step_CANCELLED; Step_NOT_STARTED]) (map sr_status rs)
               = true <-> all_status unresolved rs) by apply (forallb_status unresolved rs).
  pose proof (existsb_status (fun s => s = Step_TIMED_OUT) rs) as Ht.
  assert (Hf : existsb (fun s => status_in s [Step_FAILED; Step_DENIED; Step_TIMED_OUT]) (map sr_status rs) = true
               <-> has_status (fun s => s ∈ [Step_FAILED; Step_DENIED; Step_TIMED_OUT]) rs) by apply existsb_status.
  split_and!.
  - intros [Hn Hall]. apply Hfull in Hall as ->. by rewrite Z.eqb_refl, bool_decide_eq_false_2.
  - intros [Hs Hns].
    assert (Hsome : count_of Step_SUCCESS rs <> 0).
    { rewrite Hzero. intros Hall. apply Exists_exists in Hs as (x & Hx & Hxs).
      unfold all_status in Hall. rewrite Forall_forall in Hall. by apply (Hall x). }
    assert (Hnall : count_of Step_SUCCESS rs <> Z.of_nat (length rs)) by (rewrite Hfull; by apply (not_all_status (fun s => s = Step_SUCCESS))).
    apply Z.eqb_neq in Hsome, Hnall. by rewrite Hsome, Hnall.
  - intros Hnone. apply Hzero in Hnone as Hz. rewrite Hz, Z.eqb_refl.
    split; [intros ->|intros -> Hnil].
    + by destruct rs.
    + rewrite (bool_decide_eq_false_2 (rs = [])) by done.
      assert (Hlen : (0 =? Z.of_nat (length rs)) = false) by (destruct rs; [done|by apply Z.eqb_neq]).
      rewrite Hlen. simpl. split_and!.
      * by intros ->%Hd.
      * intros Hall Hto. apply Ht in Hto as ->.
        destruct (forallb (fun s => bool_decide (s = Step_DENIED)) _) eqn:Ed; [|by apply Hu in Hall as ->].
        exfalso. clear Ed; pose proof (proj1 Hd eq_refl) as Ed. destruct rs as [|x rs]; [done|].
        apply Forall_cons in Ed as [E _], Hall as [U _]. rewrite E in U. by apply unresolved_iff in U as [|[|]].
      * intros Hall.
        assert (Hur : all_status unresolved rs).
        { eapply Forall_impl; [exact Hall|]. intros x Hx. apply unresolved_iff. by right. }
        destruct (forallb (fun s => bool_decide (s = Step_DENIED)) _) eqn:Ed.
        { exfalso. clear Ed; pose proof (proj1 Hd eq_refl) as Ed. destruct rs as [|x rs]; [done|].
          apply Forall_cons in Ed as [E _], Hall as [U _]. rewrite E in U. by destruct U. }
        apply Hu in Hur as ->.
        destruct (existsb (fun s => bool_decide (s = Step_TIMED_OUT)) _) eqn:Et; [|done].
        exfalso. clear Et; pose proof (proj1 Ht eq_refl) as Et. apply Exists_exists in Et as (x & Hx & E).
        unfold all_status in Hall. rewrite Forall_forall in Hall. specialize (Hall x Hx). rewrite E in Hall.
        by destruct Hall.
      * intros Hr Hnd.
        destruct (forallb (fun s => bool_decide (s = Step_DENIED)) _) eqn:Ed.
        { exfalso. clear Ed; pose proof (proj1 Hd eq_refl) as Ed. by apply (not_all_status (fun s => s = Step_DENIED) rs) in Hnd. }
        destruct (forallb (fun s => status_in s [Step_TIMED_OUT; Step_CANCELLED; Step_NOT_STARTED]) _) eqn:Eu.
        { exfalso. clear Eu; pose proof (proj1 Hu eq_refl) as Eu. by apply (not_all_status unresolved rs) in Hr. }
        destruct (existsb (fun s => status_in s [Step_FAILED; Step_DENIED; Step_TIMED_OUT]) _) eqn:Ef; [done|].
        enough (false = true) by done. apply Hf.
        apply Exists_exists in Hr as (x & Hx & E). apply Exists_exists. exists x. split; [done|].
        unfold all_status in Hnone. rewrite Forall_forall in Hnone. specialize (Hnone x Hx).
        rewrite unresolved_iff in E. unfold unended in E. rewrite !elem_of_cons.
        destruct (sr_status x); tauto.
Qed.

(** ** Counts *)

Lemma counts_sum rs : py_sum (map snd (count_statuses rs)) = Z.of_nat (length rs).
Proof.
  unfold count_statuses.
  assert (Hf : forall l : list (string * Z),
            py_sum (map snd (List.filter (fun kv => negb (snd kv =? 0)) l)) = py_sum (map snd l)).
  { induction l as [|[k v] l IH]; simpl; [done|]. destruct (v =? 0) eqn:E; simpl; rewrite IH; lia. }
  rewrite Hf. clear Hf. induction rs as [|r rs IH]; [done|].
  replace (Z.of_nat (length (r :: rs))) with (Z.of_nat (length rs) + 1) by (simpl; lia).
  rewrite <- IH. unfold count_of. simpl. destruct (sr_status r); simpl; lia.
Qed.

Section Outcomes.
Variable sha256_hex : string -> string.
Variable repr : string -> string.

Abbreviation launched := (launched repr).

(** ** The report *)

(** What the result [res] of the step [s], decided [d], says is what happened to the step. *)
Inductive faithful (b : Batch) (s : BatchStep) (d : StepDecision) : BatchStepResult -> Prop :=
| FaithfulDenied : allowed d = false -> untouched b (step_id s) ->
    faithful b s d (denied_result s d (decision_audit d))
| FaithfulUnstarted : admission_over b = true -> untouched b (step_id s) ->
    faithful b s d (not_started (step_id s))
| FaithfulAnswered a started finished : allowed d = true -> step_id s ∈ b_calls b ->
    b_answers b !! step_id s = Some a ->
    faithful b s d (default (not_started (step_id s)) (answer_result s d started finished a)).

Lemma all_done_iff b : all_done b = true <-> forall i t, b_tasks b !! i = Some t -> t_phase t = Done.
Proof.
  unfold all_done. rewrite forallb_forall. setoid_rewrite bool_decide_eq_true. split.
  - intros Hf i t Hi. apply Hf, list_elem_of_In. by eapply list_elem_of_lookup_2.
  - intros Hf t Ht. apply list_elem_of_In, list_elem_of_lookup in Ht as [i Hi]. by eapply Hf.
Qed.

Lemma reported_faithful r ds b i s d :
  launched r ds b -> all_done b = true -> steps r !! i = Some s -> ds !! i = Some d ->
  faithful b s d (reported b (step_id s)).
Proof.
  intros Hb Hdone Hs Hd. destruct (launched_task _ Hb _ _ _ Hs Hd) as (t & Hi & <- & <-).
  pose proof (launched_ok _ Hb _ _ Hi) as Hok. unfold task_ok in Hok.
  rewrite (proj1 (all_done_iff b) Hdone _ _ Hi) in Hok. unfold reported. fold (t_id t).
  destruct Hok as [H1 H2 ->|H1 H2 H3 ->|H1 H2 ->|a st fin H1 H2 H3 ->]; simpl.
  - by apply FaithfulDenied.
  - apply FaithfulUnstarted; [|done]. unfold admission_over. by rewrite H3.
  - apply FaithfulUnstarted; [|done]. unfold admission_over. rewrite bool_decide_eq_false_2 by done.
    by rewrite orb_true_r.
  - by apply FaithfulAnswered.
Qed.

Lemma faithful_id b s d res : faithful b s d res -> sr_step_id res = step_id s.
Proof.
  intros [| |a st fin _ _ _]; [done..|]. destruct (answer_result s d st fin a) as [res'|] eqn:E; [|done].
  simpl. by eapply answer_result_id.
Qed.

(** A step is reported successful exactly when the executor delivered its payload. *)
Lemma faithful_success b s d res :
  faithful b s d res ->
  sr_status res = Step_SUCCESS <-> exists p, b_answers b !! step_id s = Some (Payload p) /\ sr_result res = Some p.
Proof.
  intros [_ [_ Hn]|_ [_ Hn]|a st fin _ _ Ha]; simpl.
  1,2: split; [done|intros (p & Hp & _); congruence].
  rewrite Ha. destruct a; simpl; (split; [try done|by intros (? & ? & ?)]). eauto.
Qed.

Lemma ordered_ids r ds b :
  launched r ds b -> all_done b = true -> map sr_step_id (ordered b) = step_ids r.
Proof.
  intros Hb Hdone. unfold ordered. destruct (launched_static _ Hb) as (-> & _). rewrite map_map.
  destruct Hb as (Hv & Hdry & Hl & Hes). pose proof (conj Hv (conj Hdry (conj Hl Hes))) as Hb. unfold step_ids.
  rewrite map_map. apply map_ext_in. intros s Hs. apply list_elem_of_In, list_elem_of_lookup in Hs as [i Hs].
  destruct (lookup_lt_is_Some_2 ds i) as [d Hd]; [rewrite Hl; by eapply lookup_lt_Some|].
  by eapply faithful_id, reported_faithful.
Qed.

Lemma launched_ids r ds b : launched r ds b -> NoDup (step_ids r).
Proof. intros ([r0 Hv] & _). pose proof (batch_request_same _ _ _ Hv) as ->. by eapply valid_ids. Qed.

(** [finish] answers the report whose parts are those of the batch. *)
Lemma finish_report r ds b now :
  launched r ds b -> all_done b = true -> b_interrupt b <> Some Disconnected ->
  match batch_digest sha256_hex r with
  | Err e => finish sha256_hex b now = Err (BatchRaised e)
  | Ok digest => exists rep, finish sha256_hex b now = Ok rep /\ br_steps rep = ordered b
      /\ counts rep = count_statuses (ordered b)
      /\ aggregate rep = aggregate_status (ordered b) (was_cancelled b) (timed_out b)
      /\ br_batch_id rep = batch_id r /\ br_max_observed rep = max_observed (b_meter b)
      /\ br_parallelism rep = b_parallelism b
  end.
Proof.
  intros Hb Hdone Hdis. unfold finish. rewrite bool_decide_eq_false_2 by done.
  destruct (launched_static _ Hb) as (Hr & _). unfold finalize. rewrite Hr.
  destruct (batch_digest sha256_hex r) as [digest|e]; [|done].
  unfold batch_result, invalid_if. simpl. rewrite counts_sum, Z.eqb_refl. simpl.
  rewrite (ordered_ids r ds b Hb Hdone), bool_decide_eq_true_2 by by eapply launched_ids. simpl.
  eexists. split; [done|]. simpl. split_and!; try done.
  unfold scheduler_aggregate. by destruct Hb as (_ & -> & _).
Qed.

Lemma finish_ok r ds b now rep :
  launched r ds b -> all_done b = true -> finish sha256_hex b now = Ok rep ->
  br_steps rep = ordered b /\ aggregate rep = aggregate_status (ordered b) (was_cancelled b) (timed_out b)
  /\ counts rep = count_statuses (ordered b) /\ br_max_observed rep = max_observed (b_meter b).
Proof.
  intros Hb Hdone Hf. assert (Hdis : b_interrupt b <> Some Disconnected).
  { intros E. unfold finish in Hf. by rewrite bool_decide_eq_true_2 in Hf. }
  pose proof (finish_report r ds b now Hb Hdone Hdis) as Hrep.
  destruct (batch_digest sha256_hex r); [|congruence].
  destruct Hrep as (rep' & Hf' & ? & ? & ? & ? & ? & ?). assert (rep' = rep) as -> by congruence. done.
Qed.

Lemma ordered_lookup r ds b i s :
  launched r ds b -> steps r !! i = Some s -> ordered b !! i = Some (reported b (step_id s)).
Proof.
  intros Hb Hs. unfold ordered, step_ids. destruct (launched_static _ Hb) as (-> & _).
  by rewrite !list_lookup_fmap, Hs.
Qed.

Lemma report_lemma r ds b now rep :
  launched r ds b -> all_done b = true -> finish sha256_hex b now = Ok rep ->
  map sr_step_id (br_steps rep) = step_ids r
  /\ py_sum (map snd (counts rep)) = Z.of_nat (length (steps r))
  /\ forall i s d, steps r !! i = Some s -> ds !! i = Some d ->
     exists res, br_steps rep !! i = Some res /\ faithful b s d res
       /\ (sr_status res = Step_SUCCESS <->
           exists p, b_answers b !! step_id s = Some (Payload p) /\ sr_result res = Some p).
Proof.
  intros Hb Hdone Hf. destruct (finish_ok _ _ _ _ _ Hb Hdone Hf) as (-> & _ & -> & _).
  pose proof (ordered_ids r ds b Hb Hdone) as Hids. split_and!; [done| |].
  - rewrite counts_sum. f_equal. rewrite <- (length_map sr_step_id), Hids. apply length_map.
  - intros i s d Hs Hd. exists (reported b (step_id s)).
    pose proof (reported_faithful _ _ _ _ _ _ Hb Hdone Hs Hd) as Hfa.
    split_and!; [by eapply ordered_lookup|done|by eapply faithful_success].
Qed.

Lemma launched_nonempty r ds b : launched r ds b -> steps r <> [].
Proof.
  intros ([r0 Hv] & _). pose proof (batch_request_same _ _ _ Hv) as ->. revert Hv. unfold batch_request, invalid_if.
  do 3 (rewrite rbind_Ok; intros (? & _ & H); revert H).
  rewrite rbind_Ok. intros (? & H%raise_if_Ok & _). by apply bool_decide_eq_false in H.
Qed.

(** The batch is a success exactly when the executor delivered every step. *)
Lemma success_lemma r ds b now rep :
  launched r ds b -> all_done b = true -> finish sha256_hex b now = Ok rep ->
  aggregate rep = Batch_SUCCESS <-> forall s, s ∈ steps r -> exists p, b_answers b !! step_id s = Some (Payload p).
Proof.
  intros Hb Hdone Hf. destruct (finish_ok _ _ _ _ _ Hb Hdone Hf) as (_ & -> & _).
  assert (Hl : length ds = length (steps r)) by apply Hb.
  assert (Hstep : forall s, s ∈ steps r -> sr_status (reported b (step_id s)) = Step_SUCCESS
            <-> exists p, b_answers b !! step_id s = Some (Payload p)).
  { intros s [i Hs]%list_elem_of_lookup.
    destruct (lookup_lt_is_Some_2 ds i) as [d Hd]; [rewrite Hl; by eapply lookup_lt_Some|].
    pose proof (reported_faithful _ _ _ _ _ _ Hb Hdone Hs Hd) as Hfa.
    rewrite (faithful_success _ _ _ _ Hfa). split; [by intros (p & ? & _); exists p|].
    intros [p Hp]. destruct Hfa as [_ [_ Hn]|_ [_ Hn]|a st fin _ _ Ha]; [congruence..|].
    exists p. split; [done|]. by simplify_eq. }
  assert (Hor : ordered b = map (fun s => reported b (step_id s)) (steps r)).
  { unfold ordered, step_ids. destruct (launched_static _ Hb) as (-> & _). by rewrite map_map. }
  assert (Hall : all_status (fun s => s = Step_SUCCESS) (ordered b)
            <-> forall s, s ∈ steps r -> exists p, b_answers b !! step_id s = Some (Payload p)).
  { unfold all_status. rewrite Hor, Forall_map, Forall_forall. split; intros H s Hs; by apply (Hstep s Hs), H. }
  rewrite <- Hall. destruct (aggregate_rules (ordered b) (was_cancelled b) (timed_out b)) as (R1 & R2 & R3).
  pose proof (launched_nonempty _ _ _ Hb) as Hne.
  assert (Hne' : ordered b <> []) by (rewrite Hor; by destruct (steps r)).
  split; [|by intros; apply R1].
  intros Ha. destruct (decide (count_of Step_SUCCESS (ordered b) = Z.of_nat (length (ordered b)))) as [E|E];
    [by apply count_of_full|exfalso].
  rewrite count_of_full, (not_all_status (fun s => s = Step_SUCCESS)) in E.
  destruct (decide (count_of Step_SUCCESS (ordered b) = 0)) as [Z|Z].
  - apply count_of_zero in Z. specialize (R3 Z) as [Rt Rf].
    destruct (timed_out b); [rewrite Rt in Ha; done|].
    specialize (Rf eq_refl Hne') as (Rd & Ru & Rc & Rff). revert Ha. clear -Rd Ru Rc Rff Z.
    unfold aggregate_status. apply count_of_zero in Z as ->.
    intros Ha. repeat case_match; simplify_eq/=; try done.
    destruct (ordered b); simplify_eq/=.
  - rewrite R2 in Ha; [done|]. split; [|done].
    rewrite count_of_zero in Z. apply (not_all_status (fun s => s <> Step_SUCCESS)) in Z.
    eapply Exists_impl; [exact Z|]. intros x Hx. destruct (decide (sr_status x = Step_SUCCESS)); [done|by destruct Hx].
Qed.

(** Without fail-fast and without interruption, every step that governance allowed is executed. *)
Lemma continue_lemma r ds b i s d :
  launched r ds b -> all_done b = true -> batch_failure_policy r = BatchContinue -> b_interrupt b = None ->
  steps r !! i = Some s -> ds !! i = Some d -> allowed d = true -> step_id s ∈ b_calls b.
Proof.
  intros Hb Hdone Hpol Hint Hs Hd Ha. destruct (launched_task _ Hb _ _ _ Hs Hd) as (t & Hi & <- & <-).
  pose proof (launched_ok _ Hb _ _ Hi) as Hok. unfold task_ok in Hok.
  rewrite (proj1 (all_done_iff b) Hdone _ _ Hi) in Hok.
  destruct Hok as [H1 H2 _|H1 H2 H3 _|H1 H2 _|a st fin H1 H2 H3 _]; [congruence| |congruence|done].
  destruct (bi_knows _ (launched_inv _ Hb)) as [_ Hsh].
  destruct (sh_closed _ Hsh H3) as [Hff _]. destruct (launched_static _ Hb) as (Hr & _). congruence.
Qed.
End Outcomes.
