(* ===== verification/BatchProcess.v ===== *)
(** * Progress of a batch, and the capacity batches share

    Every event that concerns a task brings it closer to its end, and until every task has ended
    one of them can be run.  The process never has more slots reserved than its capacity. *)
From S2P Require Import Prelude.
From S2P Require Import PyText.
From S2P Require Import PyValue.
From S2P Require Import BatchContract.
From S2P Require Import BatchScheduler.
From S2P Require Import BatchRuns.
From S2P Require Import BatchGuarantees.

(** ** Progress *)

(** The event finds its task where it expects it. *)
Definition enabled (b : Batch) (e : batch_event) : bool :=
  let at_phase i p := match b_tasks b !! i with Some t => p (t_phase t) | None => false end in
  match e with
  | TaskStarted i _ => at_phase i (fun p => bool_decide (p = Created))
  | TaskWoken i _ => at_phase i (fun p => bool_decide (p = Granted))
  | ExecutorAnswered i _ _ _ => at_phase i (fun p => match p with Running _ => true | _ => false end)
  | BatchInterrupt _ => false
  end.

(** How many segments a task has left at most. *)
Definition weight (p : phase) : Z :=
  match p with Created => 4 | Queued => 3 | Granted => 2 | Running _ => 1 | Done => 0 end.
Definition remaining (b : Batch) : Z := tally weight (b_tasks b).

Lemma weight_nonneg p : 0 <= weight p.
Proof. destruct p; simpl; lia. Qed.

Lemma remaining_bound b : remaining b <= 4 * Z.of_nat (length (b_tasks b)).
Proof.
  unfold remaining, tally. induction (b_tasks b) as [|t ts IH]; [done|].
  cbn [map py_sum fold_right length]. rewrite Nat2Z.inj_succ. fold (py_sum (map (fun t => weight (t_phase t)) ts)).
  assert (weight (t_phase t) <= 4) by (destruct (t_phase t); simpl; lia). lia.
Qed.

Lemma remaining_set_phase i p t b :
  b_tasks b !! i = Some t -> remaining (set_phase i p b) = remaining b - weight (t_phase t) + weight p.
Proof. intros Hi. unfold remaining. rewrite tasks_set_phase. by apply tally_alter. Qed.

Lemma remaining_release b : sem_inv 1 b -> remaining (release_slot b) <= remaining b.
Proof.
  intros Hs. unfold release_slot. destruct (b_waiters b) as [|j ws] eqn:Hw; [by destruct b|].
  destruct (proj1 (si_waiters _ _ Hs j)) as (t & Hj & Hq); [rewrite Hw; by left|].
  rewrite (remaining_set_phase _ _ t) by (by destruct b). rewrite Hq.
  replace (remaining (set_semaphore _ _ _)) with (remaining b) by (by destruct b). simpl. lia.
Qed.

Lemma remaining_ends i t res b :
  b_tasks b !! i = Some t -> remaining (ends_with_result i res b) = remaining b - weight (t_phase t).
Proof.
  intros Hi. unfold ends_with_result. rewrite (remaining_set_phase _ _ t) by (by destruct b).
  replace (remaining (set_result res b)) with (remaining b) by (by destruct b). simpl. lia.
Qed.

Lemma remaining_inside i t now b :
  sem_inv (1 - holding (t_phase t)) b -> b_tasks b !! i = Some t -> t_phase t <> Queued ->
  remaining (inside_admission i (t_step t) now b) <= remaining b - weight (t_phase t) + 1.
Proof.
  intros Hs Hi Hq. unfold inside_admission. destruct (b_closed b).
  - pose proof (remaining_ends i t (not_started (step_id (t_step t))) b Hi).
    pose proof (remaining_release (ends_with_result i (not_started (step_id (t_step t))) b)) as Hr.
    enough (sem_inv 1 (ends_with_result i (not_started (step_id (t_step t))) b)) by (specialize (Hr ltac:(done)); lia).
    replace 1 with (1 - holding (t_phase t) + holding (t_phase t)) by lia. by apply sem_ends.
  - replace (remaining (log_call _ _)) with (remaining (set_phase i (Running now) (set_meter enter b)))
      by (by destruct b).
    rewrite (remaining_set_phase _ _ t) by (by destruct b).
    replace (remaining (set_meter enter b)) with (remaining b) by (by destruct b). simpl. lia.
Qed.

Lemma remaining_after x entry b : remaining (after_admission x entry b) = remaining b.
Proof. unfold after_admission. destruct entry; [|done]. destruct x; [by destruct b|]. case_match; by destruct b. Qed.

Lemma remaining_answer i t st a now x b :
  sem_inv 0 b -> b_tasks b !! i = Some t -> t_phase t = Running st ->
  remaining (answer_task i t st a now x b) <= remaining b - 1.
Proof.
  intros Hs Hi Hp.
  assert (H1 : remaining (release_slot (store_answer i t st a now b)) <= remaining b - 1).
  { pose proof (remaining_release _ (sem_store i t st a now b Hs Hi Hp)) as Hr.
    enough (remaining (store_answer i t st a now b) = remaining b - 1) by lia.
    unfold store_answer. set (b1 := set_meter leave _). rewrite (remaining_set_phase _ _ t).
    - rewrite Hp. simpl. replace (remaining b1) with (remaining b); [lia|].
      subst b1. destruct (answer_result _ _ _ _ _); by destruct b.
    - subst b1. destruct (answer_result _ _ _ _ _); by destruct b. }
  unfold answer_task, store_answer in *. destruct a; rewrite ?remaining_after; done.
Qed.

Lemma remaining_interrupt k b : remaining (interrupt k b) <= remaining b.
Proof.
  unfold remaining. replace (b_tasks (interrupt k b)) with (map cancelled_task (b_tasks b)) by (by destruct b).
  rewrite tally_map. unfold tally. induction (b_tasks b) as [|t ts IH]; simpl; [done|].
  assert (weight (t_phase (cancelled_task t)) <= weight (t_phase t)); [|lia].
  unfold cancelled_task. destruct (t_phase t) eqn:E; simpl; rewrite ?E; simpl; lia.
Qed.

(** What an event leaves to be done. *)
Lemma remaining_advance b e :
  sem_inv 0 b -> remaining (advance b e) + (if enabled b e then 1 else 0) <= remaining b.
Proof.
  intros Hs. destruct e as [i now|i now|i a now x|k]; simpl; [..|pose proof (remaining_interrupt k b); lia];
    destruct (b_tasks b !! i) as [t|] eqn:Hi; try lia; destruct (t_phase t) eqn:Hp; simpl; try lia.
  - unfold start_task.
    assert (He : forall res, remaining (ends_with_result i res b) + 1 <= remaining b)
      by (intros; rewrite (remaining_ends i t) by done; rewrite Hp; simpl; lia).
    assert (Hq : remaining (set_phase i Queued (set_semaphore (b_slots b) (b_waiters b ++ [i]) b)) + 1 <= remaining b).
    { rewrite (remaining_set_phase _ _ t) by (by destruct b). rewrite Hp.
      replace (remaining (set_semaphore _ _ _)) with (remaining b) by (by destruct b). simpl. lia. }
    destruct (negb (allowed (t_decision t))); [apply He|]. destruct (b_closed b); [apply He|].
    destruct (0 <? b_slots b) eqn:Hv; simpl; [case_bool_decide as Hw|]; [|done..].
    pose proof (remaining_inside i t now (set_semaphore (b_slots b - 1) (b_waiters b) b)) as Hin. rewrite Hp in Hin.
    replace (remaining (set_semaphore (b_slots b - 1) (b_waiters b) b)) with (remaining b) in Hin by (by destruct b).
    simpl in Hin. enough (remaining b - 4 + 1 + 1 <= remaining b).
    { specialize (Hin (sem_take _ Hs ltac:(lia)) ltac:(by destruct b) ltac:(done)). lia. }
    lia.
  - pose proof (remaining_inside i t now b) as Hin. rewrite Hp in Hin.
    specialize (Hin Hs Hi ltac:(done)). simpl in Hin. lia.
  - pose proof (remaining_answer i t started a now x b Hs Hi Hp). lia.
Qed.

(** How many events of the history [es] of [b] found their task. *)
Fixpoint productive (b : Batch) (es : list batch_event) : Z :=
  match es with
  | [] => 0
  | e :: rest => (if enabled b e then 1 else 0) + productive (advance b e) rest
  end.

Lemma productive_bound b es : batch_inv b -> productive b es + remaining (advances b es) <= remaining b.
Proof.
  revert b. induction es as [|e es IH]; intros b Hb; simpl; [lia|].
  pose proof (remaining_advance b e (bi_sem _ Hb)). specialize (IH _ (batch_advance _ e Hb)).
  destruct (enabled b e); lia.
Qed.

(** A batch that is not done has a task that can run, or one the executor owes an answer. *)
Lemma not_stuck b :
  batch_inv b -> 1 <= b_parallelism b -> all_done b = false ->
  exists i, forall now a x, enabled b (TaskStarted i now) = true \/ enabled b (TaskWoken i now) = true
    \/ enabled b (ExecutorAnswered i a now x) = true.
Proof.
  intros [[S1 S2 S3 S4 S5] _ _] Hk Hdone.
  assert (Hn : exists i t, b_tasks b !! i = Some t /\ t_phase t <> Done).
  { unfold all_done in Hdone. apply not_true_iff_false in Hdone. rewrite forallb_forall in Hdone.
    destruct (Exists_dec (fun t => t_phase t <> Done) (b_tasks b)) as [He|He].
    - apply Exists_exists in He as (t & [i Hi]%list_elem_of_lookup & Ht). by exists i, t.
    - destruct Hdone. intros t Ht. apply bool_decide_eq_true. destruct (decide (t_phase t = Done)); [done|].
      destruct He. apply Exists_exists. exists t. split; [by apply list_elem_of_In|done]. }
  assert (Hrun : exists i t, b_tasks b !! i = Some t /\ t_phase t <> Done /\ t_phase t <> Queued).
  { destruct Hn as (i & t & Hi & Hnd). destruct (decide (t_phase t = Queued)) as [Hq|]; [|by exists i, t].
    assert (Hw : b_waiters b <> []).
    { intros E. assert (i ∈ b_waiters b) by (apply S5; by exists t). rewrite E in *. by eapply not_elem_of_nil. }
    assert (Hh : tally holding (b_tasks b) <> 0) by (specialize (S3 Hw); lia).
    destruct (Exists_dec (fun t => holding (t_phase t) <> 0) (b_tasks b)) as [He|He].
    - apply Exists_exists in He as (u & [j Hj]%list_elem_of_lookup & Hu). exists j, u.
      split; [done|]. by destruct (t_phase u).
    - destruct Hh. apply tally_zero, Forall_forall. intros u Hu.
      destruct (decide (holding (t_phase u) = 0)); [done|]. destruct He. apply Exists_exists. by exists u. }
  destruct Hrun as (i & t & Hi & Hnd & Hnq). exists i. intros now a x. simpl. rewrite Hi.
  destruct (t_phase t); simpl; [by left|done|by right; left|by right; right|done].
Qed.

(** ** The process *)

Section Process.
Variable sha256_hex : string -> string.
Variable repr : string -> string.

(** Every call of [run] comes with a request that was constructed. *)
Definition constructed (e : process_event) : Prop :=
  match e with RunCalled _ _ r _ _ => exists r0, batch_request repr r0 = Ok r | _ => True end.

(** The slots the batches under way hold together. *)
Definition reserved (bs : gmap nat Batch) : Z := map_fold (fun _ b n => b_parallelism b + n) 0 bs.

Lemma reserved_insert bs p b :
  bs !! p = None -> reserved (<[p := b]> bs) = b_parallelism b + reserved bs.
Proof. intros Hp. unfold reserved. apply (map_fold_insert_L (fun _ b n => b_parallelism b + n)); [intros; lia|done]. Qed.

Lemma reserved_delete bs p b :
  bs !! p = Some b -> reserved bs = b_parallelism b + reserved (delete p bs).
Proof.
  intros Hp. rewrite <- (insert_delete_id bs p b Hp) at 1. apply reserved_insert, lookup_delete_eq.
Qed.

Lemma reserved_nonneg bs : (forall p b, bs !! p = Some b -> 0 <= b_parallelism b) -> 0 <= reserved bs.
Proof.
  induction bs as [|p b bs Hp IH] using map_ind; intros H; [done|].
  rewrite reserved_insert by done. pose proof (H p b ltac:(apply lookup_insert_eq)).
  assert (0 <= reserved bs); [|lia]. apply IH. intros q b' Hq. apply (H q).
  rewrite lookup_insert_ne; [done|]. congruence.
Qed.

Record process_inv (n : Z) (s : Process) : Prop := {
  pi_limit : limit (p_capacity s) = n;
  pi_used : used (p_capacity s) = reserved (p_batches s);
  pi_bound : used (p_capacity s) <= n;
  pi_fresh : forall p b, p_batches s !! p = Some b -> (p < p_next s)%nat;
  pi_launched : forall p b, p_batches s !! p = Some b -> exists r ds, launched repr r ds b
}.

Lemma launched_parallelism r ds b : launched repr r ds b -> 1 <= b_parallelism b.
Proof. intros Hb. destruct (launched_static _ Hb) as (_ & -> & _). apply parallelism_bounds. Qed.

Lemma launched_advance r ds b e : launched repr r ds b -> launched repr r ds (advance b e).
Proof.
  intros (Hv & Hd & Hl & now & es & ->). split_and!; try done. exists now, (es ++ [e]).
  unfold advances. by rewrite foldl_snoc.
Qed.

Lemma begin_run_inr en f r now fin c b c' r0 :
  begin_run sha256_hex en f r now fin c = inr (b, c') -> batch_request repr r0 = Ok r ->
  exists ds, launched repr r ds b /\ rmap f (steps r) = Ok ds /\ en = true
    /\ reserve (b_parallelism b) c = Ok c'.
Proof.
  unfold begin_run. intros H Hv. destruct en; [|done]. simpl in H.
  destruct (rmap f (steps r)) as [ds|] eqn:Hds; [|done]. destruct (dry_run r) eqn:Hdry; [done|].
  destruct (reserve _ c) as [c1|] eqn:Hres; [|done]. simplify_eq. exists ds. split_and!; [|done..].
  split_and!; [by exists r0|done| |].
  - apply rmap_Ok, Forall2_length in Hds. done.
  - by exists now, [].
Qed.

Lemma process_step_inv n s e : constructed e -> process_inv n s -> process_inv n (process_step sha256_hex s e).
Proof.
  intros Hc [P1 P2 P3 P4 P5]. destruct s as [c bs next reps]; simpl in *.
  destruct e as [en f r now fin|p ev|p now]; simpl in *.
  - destruct Hc as [r0 Hv]. destruct (begin_run sha256_hex en f r now fin c) as [res|[b c']] eqn:E.
    + constructor; simpl; [done..| |done]. intros p b Hp. specialize (P4 _ _ Hp). lia.
    + destruct (begin_run_inr _ _ _ _ _ _ _ _ _ E Hv) as (ds & Hb & _ & _ & Hres).
      unfold reserve in Hres. apply rbind_Ok in Hres as (? & Hlt%raise_if_Ok & [= <-]).
      assert (Hfresh : bs !! next = None).
      { destruct (bs !! next) eqn:En; [|done]. specialize (P4 _ _ En). lia. }
      constructor; simpl; [done|rewrite reserved_insert by done; lia|lia| |].
      * intros q b' Hq. destruct (decide (next = q)) as [<-|Hne]; [lia|].
        rewrite lookup_insert_ne in Hq by done. specialize (P4 _ _ Hq). lia.
      * intros q b' Hq. destruct (decide (next = q)) as [<-|Hne].
        -- rewrite lookup_insert_eq in Hq. simplify_eq. by exists r, ds.
        -- rewrite lookup_insert_ne in Hq by done. by eapply P5.
  - destruct (bs !! p) as [b|] eqn:Hp; [|by constructor].
    destruct (P5 _ _ Hp) as (r & ds & Hb).
    assert (Hk : b_parallelism (advance b ev) = b_parallelism b)
      by (pose proof (static_advance b ev) as Hs; unfold static in Hs; by simplify_eq).
    constructor; simpl; [done| |done| |].
    + rewrite (reserved_delete bs p b Hp) in P2. rewrite <- insert_delete_eq.
      rewrite reserved_insert by apply lookup_delete_eq. by rewrite Hk.
    + intros q b'. destruct (decide (p = q)) as [<-|Hne].
      * intros _. by eapply P4.
      * rewrite lookup_insert_ne by done. apply P4.
    + intros q b'. destruct (decide (p = q)) as [<-|Hne].
      * rewrite lookup_insert_eq. intros [= <-]. exists r, ds. by apply launched_advance.
      * rewrite lookup_insert_ne by done. apply P5.
  - destruct (bs !! p) as [b|] eqn:Hp; [|by constructor]. destruct (all_done b); [|by constructor].
    destruct (P5 _ _ Hp) as (r & ds & Hb). pose proof (launched_parallelism _ _ _ Hb).
    assert (Hrest : forall q b', delete p bs !! q = Some b' -> bs !! q = Some b')
      by (intros q b' [? ?]%lookup_delete_Some; done).
    assert (0 <= reserved (delete p bs)).
    { apply reserved_nonneg. intros q b' Hq%Hrest. destruct (P5 _ _ Hq) as (r' & ds' & Hb').
      pose proof (launched_parallelism _ _ _ Hb'). lia. }
    rewrite (reserved_delete bs p b Hp) in P2.
    constructor; simpl; [done|lia|lia| |]; intros q b' Hq%Hrest; [by eapply P4|by eapply P5].
Qed.

Lemma process_run_inv n c es :
  new_capacity n = Ok c -> Forall constructed es -> process_inv n (process_run sha256_hex (new_process c) es).
Proof.
  intros Hc Hes. assert (H0 : process_inv n (new_process c)).
  { unfold new_capacity in Hc. apply rbind_Ok in Hc as (? & Hn%raise_if_Ok & [= <-]).
    constructor; simpl; [done..|lia| |]; intros p b Hp; by rewrite lookup_empty in Hp. }
  revert H0. generalize (new_process c). induction Hes as [|e es He _ IH]; intros s Hs; [done|].
  simpl. apply IH. by apply process_step_inv.
Qed.

(** All the steps of all batches that are in the executor. *)
Definition total_inflight (bs : gmap nat Batch) : Z := map_fold (fun _ b n => inflight b + n) 0 bs.

Lemma total_inflight_le bs :
  (forall p b, bs !! p = Some b -> inflight b <= b_parallelism b) -> total_inflight bs <= reserved bs.
Proof.
  induction bs as [|p b bs Hp IH] using map_ind; intros H; [done|].
  rewrite reserved_insert by done. unfold total_inflight.
  rewrite (map_fold_insert_L (fun _ b n => inflight b + n)); [|intros; lia|done].
  pose proof (H p b ltac:(apply lookup_insert_eq)).
  assert (total_inflight bs <= reserved bs); [|unfold total_inflight in *; lia].
  apply IH. intros q b' Hq. apply (H q). rewrite lookup_insert_ne; [done|]. congruence.
Qed.
End Process.
