(* ===== verification/BatchWitness.v ===== *)
(** * Batches: the theorems, and histories they are applied to

    The theorems of the batch scheduler in one place, each with a concrete batch on which it holds,
    and runs that show corner cases of the code. *)
From S2P Require Import Prelude.
From S2P Require Import PyText.
From S2P Require Import PyValue.
From S2P Require Import Canonical.
From S2P Require Import BatchContract.
From S2P Require Import BatchScheduler.
From S2P Require Import BatchRuns.
From S2P Require Import BatchGuarantees.
From S2P Require Import BatchProcess.

(** ** Requests *)

Section Requests.
Variable repr : string -> string.

Lemma distinct_steps_iff ss seen :
  NoDup (map step_id ss) -> (forall s, s ∈ ss -> step_id s ∉ seen) ->
  exists u, rfold (fun seen s =>
    do! invalid_if (str_in (step_id s) seen) ("steps: duplicate step_id " +:+ repr (step_id s)) in
    Ok (step_id s :: seen)) seen ss = Ok u.
Proof.
  revert seen. induction ss as [|s ss IH]; simpl; intros seen Hnd Hnin; [eauto|].
  apply NoDup_cons in Hnd as [Hs Hnd].
  assert (str_in (step_id s) seen = false) as ->.
  { apply not_true_iff_false. intros (x & Hx & <-%String.eqb_eq)%existsb_exists.
    apply (Hnin s); [by left|by apply list_elem_of_In]. }
  simpl. apply IH; [done|]. intros s' Hs' [Heq|Hin]%elem_of_cons; [|by apply (Hnin s'); [right|]].
  apply Hs. rewrite <- Heq. by apply list_elem_of_fmap_2.
Qed.

(** What a request must satisfy. *)
Record well_formed (r : BatchRequest) : Prop := {
  wf_schema : schema_version r = BATCH_SCHEMA_VERSION;
  wf_mode : mode r = "BATCH";
  wf_id : batch_identifier (batch_id r) "batch_id" = Ok tt;
  wf_count : 1 <= Z.of_nat (length (steps r)) <= BATCH_MAX_ITEMS;
  wf_distinct : NoDup (step_ids r);
  wf_parallelism : 1 <= batch_parallelism r <= BATCH_MAX_PARALLELISM;
  wf_timeout : 1 <= batch_timeout_s r <= BATCH_MAX_TIMEOUT_S;
  wf_step_timeouts : Forall (fun s => step_timeout_s s <= batch_timeout_s r) (steps r)
}.

Lemma well_formed_accepted r : well_formed r -> batch_request repr r = Ok r.
Proof.
  intros [H1 H2 H3 H4 H5 H6 H7 H8]. unfold batch_request, positive_int, invalid_if.
  rewrite H1, H2, !String.eqb_refl, H3. simpl.
  rewrite bool_decide_eq_false_2 by (intros E; rewrite E in H4; simpl in H4; lia). simpl.
  assert ((BATCH_MAX_ITEMS <? Z.of_nat (length (steps r))) = false) as -> by lia. simpl.
  destruct (distinct_steps_iff (steps r) [] H5) as [u Hu]; [by intros ? ? ?%not_elem_of_nil|].
  unfold distinct_steps, invalid_if in *. rewrite Hu. simpl.
  assert ((batch_parallelism r <? 1) = false) as -> by lia.
  assert ((batch_timeout_s r <? 1) = false) as -> by lia.
  assert ((BATCH_MAX_PARALLELISM <? batch_parallelism r) = false) as -> by lia.
  assert ((BATCH_MAX_TIMEOUT_S <? batch_timeout_s r) = false) as -> by lia. simpl.
  assert (rfor (fun s => raise_if (batch_timeout_s r <? step_timeout_s s)
    (BatchValidationError ("step_timeout_s: step " +:+ repr (step_id s) +:+ " exceeds batch_timeout_s"))) (steps r) = Ok tt) as ->;
    [|done].
  apply rfor_Ok. eapply Forall_impl; [exact H8|]. simpl. intros s Hs. apply raise_if_Ok. lia.
Qed.

Lemma accepted_well_formed r r' : batch_request repr r = Ok r' -> r' = r /\ well_formed r.
Proof.
  intros Hv. pose proof (batch_request_same _ _ _ Hv) as ->. split; [done|].
  pose proof (valid_ids _ _ _ Hv) as Hids. revert Hv. unfold batch_request, positive_int, invalid_if.
  rewrite rbind_Ok. intros (? & H1%raise_if_Ok & H). revert H.
  rewrite rbind_Ok. intros (? & H2%raise_if_Ok & H). revert H.
  rewrite rbind_Ok. intros ([] & H3 & H). revert H.
  rewrite rbind_Ok. intros (? & H4%raise_if_Ok & H). revert H.
  rewrite rbind_Ok. intros (? & H5%raise_if_Ok & H). revert H.
  rewrite rbind_Ok. intros (? & _ & H). revert H.
  rewrite rbind_Ok. intros (? & H6%raise_if_Ok & H). revert H.
  rewrite rbind_Ok. intros (? & H7%raise_if_Ok & H). revert H.
  rewrite rbind_Ok. intros (? & H8%raise_if_Ok & H). revert H.
  rewrite rbind_Ok. intros (? & H9%raise_if_Ok & H). revert H.
  rewrite rbind_Ok. intros (? & H10%rfor_Ok & _).
  apply negb_false_iff, String.eqb_eq in H1, H2. apply bool_decide_eq_false in H4.
  constructor; try done; [|lia..|].
  - assert (length (steps r) <> 0%nat) by (by destruct (steps r)). lia.
  - eapply Forall_impl; [exact H10|]. intros s Hs. apply raise_if_Ok in Hs. lia.
Qed.

(** A request is accepted exactly when it is well formed: the known schema and mode, a valid
    identifier, between one and ten steps with distinct identifiers, every ceiling respected; and
    what is accepted is what was given. *)
Theorem batch_request_exact r r' : batch_request repr r = Ok r' <-> r' = r /\ well_formed r.
Proof. split; [apply accepted_well_formed|intros [-> H]; by apply well_formed_accepted]. Qed.

(** ** Batches *)

(** [C13] At most one call of the executor is made for a step, and only for a step of the request
    that its own governance decision allowed; and once admission is closed or the batch is
    interrupted no further call is made, whatever happens. *)
Theorem batch_calls_are_allowed r ds b :
  launched repr r ds b ->
  NoDup (b_calls b)
  /\ (forall id, id ∈ b_calls b ->
      exists i s d, steps r !! i = Some s /\ step_id s = id /\ ds !! i = Some d /\ allowed d = true)
  /\ (admission_over b = true -> forall es, b_calls (advances b es) = b_calls b).
Proof.
  intros Hb. split_and!; [apply (launched_inv _ Hb)|by eapply launched_called|].
  intros Ho es. by apply over_advances; [eapply launched_inv|].
Qed.

(** [C14] The steps that are in the executor are exactly those the meter counts, and never more than
    the effective parallelism: the request's, clamped to four, and to one when a step mutates.  A
    step waits only while every slot is taken. *)
Theorem batch_concurrency_is_bounded r ds b :
  launched repr r ds b ->
  let k := effective_parallelism r (has_mutation ds) in
  inflight b = current (b_meter b) /\ inflight b <= max_observed (b_meter b) /\ max_observed (b_meter b) <= k
  /\ inflight b <= admitted b /\ admitted b <= k
  /\ (k <= if has_mutation ds then BATCH_MAX_PARALLELISM_MUTATION else BATCH_MAX_PARALLELISM)
  /\ (b_waiters b <> [] -> admitted b = k).
Proof. apply concurrency_lemma. Qed.


(** A batch is reported a success exactly when the executor delivered a payload for every step
    of the request. *)
Theorem batch_success_is_every_step sha256_hex r ds b now rep :
  launched repr r ds b -> all_done b = true -> finish sha256_hex b now = Ok rep ->
  aggregate rep = Batch_SUCCESS <-> forall s, s ∈ steps r -> exists p, b_answers b !! step_id s = Some (Payload p).
Proof. apply success_lemma. Qed.

(** A batch ends: at most four events of any history concern each task, until every task has
    ended there is a task that can run or that the executor owes an answer, and when all have, the
    report is built - unless the run was cancelled or the request has no digest.  Under the policy
    that continues, without interruption, every step governance allowed has then been called. *)
Theorem batch_ends sha256_hex r ds b :
  launched repr r ds b ->
  (forall es, productive b es <= 4 * Z.of_nat (length (steps r)))
  /\ (all_done b = false -> exists i, forall now a x, enabled b (TaskStarted i now) = true
        \/ enabled b (TaskWoken i now) = true \/ enabled b (ExecutorAnswered i a now x) = true)
  /\ (all_done b = true ->
      (forall now digest, b_interrupt b <> Some Disconnected -> batch_digest sha256_hex r = Ok digest ->
         exists rep, finish sha256_hex b now = Ok rep)
      /\ (batch_failure_policy r = BatchContinue -> b_interrupt b = None ->
          forall i s d, steps r !! i = Some s -> ds !! i = Some d -> allowed d = true -> step_id s ∈ b_calls b)).
Proof.
  intros Hb. pose proof (launched_inv _ Hb) as Hi. destruct (launched_static _ Hb) as (Hr & _ & Hz). split_and!.
  - intros es. pose proof (productive_bound b es Hi).
    pose proof (tally_nonneg weight (b_tasks (advances b es)) weight_nonneg).
    assert (Hle : remaining b <= 4 * Z.of_nat (length (b_tasks b))) by apply remaining_bound.
    assert (Hl : length (b_tasks b) = length (steps r)).
    { apply (f_equal length) in Hz. rewrite length_map, length_zip in Hz.
      destruct Hb as (_ & _ & Hl & _). lia. }
    unfold remaining in *. lia.
  - apply not_stuck; [done|by eapply launched_parallelism].
  - intros Hdone. split.
    + intros now digest Hdis Hdg. pose proof (finish_report sha256_hex _ _ _ _ now Hb Hdone Hdis) as H.
      rewrite Hdg in H. destruct H as (rep & H & _). by exists rep.
    + intros. by eapply continue_lemma.
Qed.

(** At any moment of the process the slots in use are exactly those of the batches under way,
    within the capacity, and so are the steps in the executor, over all batches together. *)
Theorem capacity_is_never_exceeded sha256_hex n c es :
  new_capacity n = Ok c -> Forall (constructed repr) es ->
  let s := process_run sha256_hex (new_process c) es in
  used (p_capacity s) = reserved (p_batches s)
  /\ total_inflight (p_batches s) <= used (p_capacity s) <= n
  /\ forall p b, p_batches s !! p = Some b -> exists r ds, launched repr r ds b.
Proof.
  intros Hc Hes s. destruct (process_run_inv sha256_hex repr n c es Hc Hes) as [_ P2 P3 _ P5].
  split_and!; [done| |done|done]. fold s in P2. rewrite P2. apply total_inflight_le. intros p b Hp.
  destruct (P5 _ _ Hp) as (r & ds & Hb). destruct (launched_static _ Hb) as (_ & Hk & _).
  destruct (concurrency_lemma _ _ _ _ Hb) as (_ & _ & _ & H1 & H2 & _).
  rewrite Hk. exact (Z.le_trans _ _ _ H1 H2).
Qed.
End Requests.

(** ** Histories *)

Module Histories.

Definition sha (s : string) : string := s.
Definition rep (s : string) : string := s.
Definition step (i : string) (args : list (string * value)) : BatchStep := mkStep i "repo.read" args None None 30 [].
Definition request (p : BatchFailurePolicy) (k : Z) (ss : list BatchStep) : BatchRequest :=
  mkBatchRequest "b1" ss p k 60 false BATCH_SCHEMA_VERSION "BATCH".
Definition allow : StepDecision := mkDecision true "" None None false.
Definition deny : StepDecision := mkDecision false "no" None None false.
Definition three : list BatchStep := [step "a" []; step "b" []; step "c" []].

(** Two slots: [c] waits for [a], whose failure closes admission; [b] delivers. *)
Definition fail_fast_run : list batch_event :=
  [TaskStarted 0 "1"; TaskStarted 1 "1"; TaskStarted 2 "1"; ExecutorAnswered 0 (ExceptionRaised "E") "2" false;
   TaskWoken 2 "2"; ExecutorAnswered 1 (Payload []) "3" false].
Definition three_allowed : list StepDecision := [allow; allow; allow].
Definition fail_fast_batch (es : list batch_event) : Batch :=
  advances (new_batch (request BatchFailFast 2 three) three_allowed 2 "0") es.

Lemma fail_fast_launched es : launched rep (request BatchFailFast 2 three) three_allowed (fail_fast_batch es).
Proof.
  split_and!; [exists (request BatchFailFast 2 three); vm_compute; reflexivity|reflexivity|reflexivity|].
  exists "0", es. reflexivity.
Defined.

Lemma batch_calls_are_allowed_witness :
  b_calls (fail_fast_batch (fail_fast_run ++ fail_fast_run)) = b_calls (fail_fast_batch (take 4 fail_fast_run))
  /\ NoDup (b_calls (fail_fast_batch fail_fast_run)).
Proof.
  destruct (batch_calls_are_allowed rep _ _ _ (fail_fast_launched (take 4 fail_fast_run))) as (H1 & _ & H3).
  split; [|by apply (batch_calls_are_allowed rep _ _ _ (fail_fast_launched fail_fast_run))].
  rewrite <- (H3 ltac:(by vm_compute) (drop 4 fail_fast_run ++ fail_fast_run)). by vm_compute.
Defined.

Lemma batch_concurrency_is_bounded_witness :
  inflight (fail_fast_batch (take 3 fail_fast_run)) = 2 /\ admitted (fail_fast_batch (take 3 fail_fast_run)) = 2.
Proof.
  destruct (batch_concurrency_is_bounded rep _ _ _ (fail_fast_launched (take 3 fail_fast_run)))
    as (H & _ & _ & _ & _ & _ & Hw).
  split; [rewrite H; by vm_compute|by rewrite Hw by (vm_compute; discriminate)].
Defined.

Definition fail_fast_report : BatchResult :=
  match finish sha (fail_fast_batch fail_fast_run) "4" with
  | Ok r => r
  | Err _ => mkBatchResult "" Batch_FAILED [] [] "" "" "" 0 0
  end.


Lemma batch_success_is_every_step_witness :
  aggregate fail_fast_report = Batch_PARTIAL
  /\ ~ forall s, s ∈ three -> exists p, b_answers (fail_fast_batch fail_fast_run) !! step_id s = Some (Payload p).
Proof.
  split; [by vm_compute|]. intros H.
  apply (batch_success_is_every_step rep sha _ _ _ "4" fail_fast_report (fail_fast_launched fail_fast_run)) in H;
    [|by vm_compute..]. by vm_compute in H.
Defined.

Lemma batch_ends_witness :
  productive (fail_fast_batch []) (fail_fast_run ++ fail_fast_run) <= 12
  /\ exists r, finish sha (fail_fast_batch fail_fast_run) "4" = Ok r.
Proof.
  split.
  - apply (batch_ends rep sha _ _ _ (fail_fast_launched [])).
  - destruct (batch_ends rep sha _ _ _ (fail_fast_launched fail_fast_run)) as (_ & _ & H).
    eapply H; [by vm_compute|by vm_compute|vm_compute; reflexivity].
Defined.

Definition capacity_run : list process_event :=
  [RunCalled true (fun _ => Ok allow) (request BatchContinue 2 three) "0" "0";
   RunCalled true (fun _ => Ok allow) (request BatchContinue 2 three) "0" "0";
   BatchMoved 0 (TaskStarted 0 "1"); BatchMoved 0 (TaskStarted 1 "1")].

Lemma capacity_is_never_exceeded_witness :
  let s := process_run sha (new_process (mkCapacity 3 0)) capacity_run in
  used (p_capacity s) = 2 /\ total_inflight (p_batches s) <= 3
  /\ map fst (p_reports s) = [1%nat].
Proof.
  destruct (capacity_is_never_exceeded rep sha 3 (mkCapacity 3 0) capacity_run) as (H1 & H2 & _);
    [done| |].
  { repeat constructor; exists (request BatchContinue 2 three); vm_compute; reflexivity. }
  split_and!; [by vm_compute|lia|by vm_compute].
Defined.

(** ** Corner cases *)

(** The executor answered, but with what [dict()] does not accept: the step is reported as if it had
    never started. *)
Example executed_step_reported_not_started :
  let b := advances (new_batch (request BatchContinue 1 [step "a" []]) [allow] 1 "0")
             [TaskStarted 0 "1"; ExecutorAnswered 0 Unconvertible "2" false] in
  b_calls b = ["a"] /\ map sr_status (ordered b) = [Step_NOT_STARTED].
Proof. by vm_compute. Qed.

(** Arguments outside the canonical subset of JSON: every step is executed, and then the run raises
    while it computes the digest of the request. *)
Example executed_batch_loses_its_report :
  let r := request BatchContinue 1 [step "a" [("x", VFloat 1 (-1))]] in
  let b := advances (new_batch r [allow] 1 "0") [TaskStarted 0 "1"; ExecutorAnswered 0 (Payload []) "2" false] in
  batch_request rep r = Ok r /\ b_calls b = ["a"] /\ all_done b = true
  /\ finish sha b "3" = Err (BatchRaised TypeError).
Proof. by vm_compute. Qed.

(** A denied step does not close admission, fail-fast or not. *)
Example denied_step_does_not_fail_fast :
  b_calls (advances (new_batch (request BatchFailFast 1 three) [deny; allow; allow] 1 "0")
             [TaskStarted 0 "1"; TaskStarted 1 "1"]) = ["b"].
Proof. by vm_compute. Qed.

(** Failing fast leaves a step that is in the executor alone: it delivers. *)
Example fail_fast_does_not_cancel : map sr_status (br_steps fail_fast_report)
  = [Step_FAILED; Step_SUCCESS; Step_NOT_STARTED].
Proof. by vm_compute. Qed.

(** A batch that timed out after one success is partial. *)
Example timed_out_batch_is_partial :
  let b := advances (new_batch (request BatchContinue 1 three) three_allowed 1 "0")
             [TaskStarted 0 "1"; TaskStarted 1 "1"; ExecutorAnswered 0 (Payload []) "2" false;
              BatchInterrupt TimedOut] in
  all_done b = true /\ timed_out b = true
  /\ aggregate_status (ordered b) (was_cancelled b) (timed_out b) = Batch_PARTIAL
  /\ b_closed b = false.
Proof. by vm_compute. Qed.

(** The batch that is cancelled while it runs answers nothing. *)
Example cancelled_run_has_no_report :
  finish sha (advances (fail_fast_batch (take 1 fail_fast_run))
                [BatchInterrupt Disconnected; ExecutorAnswered 0 CancelRaised "2" false]) "3" = Err BatchInterrupted.
Proof. by vm_compute. Qed.
End Histories.
