(* ===== verification/CircuitBreaker.v ===== *)
(** * The circuit breaker of an upstream ([resilience/circuit.py])

    Every operation runs under the breaker's lock, so it is one step.  The clock's readings are
    inputs: binary64 numbers of seconds.  [transitions] and [rejections] are counters. *)
From Stdlib Require Import SpecFloat.
From S2P Require Import Prelude.
From S2P Require Import PyValue.
From S2P Require Import Canonical.

(** ** Binary64 *)

Definition fsub (a b : spec_float) : spec_float := SFsub 53 1024 a b.
(** [a >= b], [a <= b], [a < b] *)
Definition fge (a b : spec_float) : bool :=
  match SFcompare a b with Some Gt | Some Eq => true | _ => false end.
Definition fle (a b : spec_float) : bool := fge b a.
Definition flt (a b : spec_float) : bool := match SFcompare a b with Some Lt => true | _ => false end.
Definition fzero : spec_float := S754_zero false.
(** A small integer as a float. *)
Definition float_of (z : Z) : spec_float := binary_normalize 53 1024 z 0 false.

(** ** The breaker *)

Definition MAX_NAME_CHARS : nat := 32.

Inductive CircuitState : Type := Circuit_CLOSED | Circuit_OPEN | Circuit_HALF_OPEN.
#[export] Instance CircuitState_eq_dec : EqDecision CircuitState.
Proof. solve_decision. Defined.

Record CircuitBreakerConfig := mkConfig {
  failure_threshold : Z;
  recovery_seconds : spec_float;
  half_open_max_calls : Z;
  success_threshold : Z
}.

(** [CircuitBreakerConfig.__post_init__] *)
Definition circuit_config (c : CircuitBreakerConfig) : result py_error CircuitBreakerConfig :=
  let within lo hi z := (lo <=? z) && (z <=? hi) in
  do! raise_if (negb (within 1 1000 (failure_threshold c))) ValueError in
  do! raise_if (negb (flt fzero (recovery_seconds c) && fle (recovery_seconds c) (float_of 3600))) ValueError in
  do! raise_if (negb (within 1 100 (half_open_max_calls c))) ValueError in
  do! raise_if (negb (within 1 100 (success_threshold c))) ValueError in
  Ok c.

Definition default_config : CircuitBreakerConfig := mkConfig 5 (float_of 30) 1 1.

Record CircuitBreaker := mkBreaker {
  cb_config : CircuitBreakerConfig;
  cb_state : CircuitState;
  cb_failures : Z;
  cb_successes : Z;
  cb_half_open_calls : Z;
  cb_opened_at : spec_float;
  cb_transitions : Z;
  cb_rejections : Z
}.

(** [CircuitBreaker.__init__] *)
Definition new_breaker (c : CircuitBreakerConfig) : CircuitBreaker :=
  mkBreaker c Circuit_CLOSED 0 0 0 fzero 0 0.

(** [_transition]; [now] is the clock's reading if the circuit opens. *)
Definition transition (target : CircuitState) (now : spec_float) (b : CircuitBreaker) : CircuitBreaker :=
  if bool_decide (target = cb_state b) then b
  else mkBreaker (cb_config b) target 0 0 0
         (if bool_decide (target = Circuit_OPEN) then now else cb_opened_at b)
         (cb_transitions b + 1) (cb_rejections b).

(** [self._clock.now() - self._opened_at >= self.config.recovery_seconds] *)
Definition recovered (now : spec_float) (b : CircuitBreaker) : bool :=
  fge (fsub now (cb_opened_at b)) (recovery_seconds (cb_config b)).

(** [_maybe_half_open] *)
Definition maybe_half_open (now : spec_float) (b : CircuitBreaker) : CircuitBreaker :=
  if negb (bool_decide (cb_state b = Circuit_OPEN)) then b
  else if recovered now b then transition Circuit_HALF_OPEN now b else b.

Definition set_calls (n : Z) (b : CircuitBreaker) : CircuitBreaker :=
  let '(mkBreaker c s f su _ o t r) := b in mkBreaker c s f su n o t r.
Definition set_failures (n : Z) (b : CircuitBreaker) : CircuitBreaker :=
  let '(mkBreaker c s _ su h o t r) := b in mkBreaker c s n su h o t r.
Definition set_successes (n : Z) (b : CircuitBreaker) : CircuitBreaker :=
  let '(mkBreaker c s f _ h o t r) := b in mkBreaker c s f n h o t r.
Definition add_rejection (b : CircuitBreaker) : CircuitBreaker :=
  let '(mkBreaker c s f su h o t r) := b in mkBreaker c s f su h o t (r + 1).

(** [allows], with the state it may change. *)
Definition allows (now : spec_float) (b : CircuitBreaker) : bool * CircuitBreaker :=
  let b := maybe_half_open now b in
  (match cb_state b with
   | Circuit_OPEN => false
   | Circuit_HALF_OPEN => cb_half_open_calls b <? half_open_max_calls (cb_config b)
   | Circuit_CLOSED => true
   end, b).

(** [acquire]: [false] is [CircuitOpenError]. *)
Definition acquire (now : spec_float) (b : CircuitBreaker) : bool * CircuitBreaker :=
  let b := maybe_half_open now b in
  match cb_state b with
  | Circuit_OPEN => (false, add_rejection b)
  | Circuit_HALF_OPEN =>
      if half_open_max_calls (cb_config b) <=? cb_half_open_calls b then (false, add_rejection b)
      else (true, set_calls (cb_half_open_calls b + 1) b)
  | Circuit_CLOSED => (true, b)
  end.

(** [record_success] *)
Definition record_success (now : spec_float) (b : CircuitBreaker) : CircuitBreaker :=
  match cb_state b with
  | Circuit_HALF_OPEN =>
      let b := set_calls (Z.max 0 (cb_half_open_calls b - 1)) (set_successes (cb_successes b + 1) b) in
      if success_threshold (cb_config b) <=? cb_successes b then transition Circuit_CLOSED now b else b
  | _ => set_failures 0 b
  end.

(** [record_failure] *)
Definition record_failure (now : spec_float) (b : CircuitBreaker) : CircuitBreaker :=
  match cb_state b with
  | Circuit_HALF_OPEN =>
      transition Circuit_OPEN now (set_calls (Z.max 0 (cb_half_open_calls b - 1)) b)
  | _ =>
      let b := set_failures (cb_failures b + 1) b in
      if failure_threshold (cb_config b) <=? cb_failures b then transition Circuit_OPEN now b else b
  end.

(** [reset] *)
Definition reset (now : spec_float) (b : CircuitBreaker) : CircuitBreaker := transition Circuit_CLOSED now b.

(** ** Any use of a breaker *)

Inductive breaker_call : Type := Allows | Acquire | Success | Failure | CircuitReset.

Definition use_breaker (b : CircuitBreaker) (c : breaker_call * spec_float) : CircuitBreaker :=
  let '(call, now) := c in
  match call with
  | Allows => snd (allows now b)
  | Acquire => snd (acquire now b)
  | Success => record_success now b
  | Failure => record_failure now b
  | CircuitReset => reset now b
  end.
Definition uses : CircuitBreaker -> list (breaker_call * spec_float) -> CircuitBreaker := foldl use_breaker.

(** ** Invariant *)

(** What the counters are worth in each state. *)
Record breaker_inv (b : CircuitBreaker) : Prop := {
  ci_failures : 0 <= cb_failures b;
  ci_closed : cb_state b = Circuit_CLOSED ->
    cb_failures b < failure_threshold (cb_config b) /\ cb_successes b = 0 /\ cb_half_open_calls b = 0;
  ci_open : cb_state b = Circuit_OPEN -> cb_successes b = 0 /\ cb_half_open_calls b = 0;
  ci_half : cb_state b = Circuit_HALF_OPEN -> cb_failures b = 0
    /\ 0 <= cb_half_open_calls b <= half_open_max_calls (cb_config b)
    /\ 0 <= cb_successes b < success_threshold (cb_config b)
}.

Definition valid_config (c : CircuitBreakerConfig) : Prop :=
  1 <= failure_threshold c /\ 1 <= half_open_max_calls c /\ 1 <= success_threshold c
  /\ flt fzero (recovery_seconds c) = true.

Lemma circuit_config_valid c c' : circuit_config c = Ok c' -> c' = c /\ valid_config c.
Proof.
  unfold circuit_config. rewrite !rbind_Ok. intros (? & H1%raise_if_Ok & H). revert H.
  rewrite rbind_Ok. intros (? & H2%raise_if_Ok & H). revert H.
  rewrite rbind_Ok. intros (? & H3%raise_if_Ok & H). revert H.
  rewrite rbind_Ok. intros (? & H4%raise_if_Ok & [= <-]). unfold valid_config.
  apply negb_false_iff, andb_true_iff in H1, H2, H3, H4. split; [done|]. split_and!; try lia. by destruct H2.
Qed.

Lemma config_transition t now b : cb_config (transition t now b) = cb_config b.
Proof. unfold transition. by case_bool_decide. Qed.

Lemma config_use b c : cb_config (use_breaker b c) = cb_config b.
Proof.
  destruct c as [call now].
  assert (Hm : cb_config (maybe_half_open now b) = cb_config b)
    by (unfold maybe_half_open; destruct (negb _), (recovered now b); rewrite ?config_transition; done).
  destruct call; simpl.
  - done.
  - unfold acquire. destruct (cb_state (maybe_half_open now b)); [done| |].
    + rewrite <- Hm. by destruct (maybe_half_open now b).
    + destruct (_ <=? _); rewrite <- Hm; by destruct (maybe_half_open now b).
  - unfold record_success. destruct (cb_state b); [by destruct b..|].
    case_match; rewrite ?config_transition; by destruct b.
  - unfold record_failure. destruct (cb_state b); [by destruct b; simpl; case_match; rewrite ?config_transition..|].
    rewrite config_transition. by destruct b.
  - apply config_transition.
Qed.

Lemma inv_transition t now b :
  valid_config (cb_config b) -> 0 <= cb_failures b -> t <> cb_state b -> breaker_inv (transition t now b).
Proof.
  intros (H1 & H2 & H3 & _) Hf Hne. unfold transition. rewrite bool_decide_eq_false_2 by done.
  constructor; simpl; [lia|intros ->; lia|done|intros ->; lia].
Qed.

Lemma inv_maybe now b : valid_config (cb_config b) -> breaker_inv b -> breaker_inv (maybe_half_open now b).
Proof.
  intros Hv Hi. unfold maybe_half_open. case_bool_decide as Ho; simpl; [|done].
  destruct (recovered now b); [|done]. apply inv_transition; [done|apply Hi|by rewrite Ho].
Qed.

Lemma inv_use b c : valid_config (cb_config b) -> breaker_inv b -> breaker_inv (use_breaker b c).
Proof.
  intros Hv Hi. destruct c as [call now]. destruct call; simpl.
  - by apply inv_maybe.
  - pose proof (inv_maybe now b Hv Hi) as Hm. unfold acquire.
    destruct (maybe_half_open now b) as [c s f su h o t r] eqn:E, s; simpl in *; [done| |].
    + destruct Hm. by constructor.
    + destruct (half_open_max_calls c <=? h) eqn:El; simpl; [destruct Hm; by constructor|].
      destruct Hm as [M1 M2 M3 M4]. specialize (M4 eq_refl). constructor; simpl in *; [done..|]. intros _. lia.
  - unfold record_success. destruct b as [c s f su h o t r], Hi as [M1 M2 M3 M4], Hv as (V1 & V2 & V3 & V4), s; simpl in *.
    + specialize (M2 eq_refl). constructor; simpl; [lia|intros _; lia|done|done].
    + specialize (M3 eq_refl). constructor; simpl; [lia|done|done|done].
    + specialize (M4 eq_refl). destruct (success_threshold c <=? su + 1) eqn:E.
      * apply inv_transition; simpl; [done|lia|done].
      * constructor; simpl; [lia|done|done|intros _; lia].
  - unfold record_failure. destruct b as [c s f su h o t r], Hi as [M1 M2 M3 M4], s; simpl in *.
    + specialize (M2 eq_refl). destruct (failure_threshold c <=? f + 1) eqn:E.
      * apply inv_transition; simpl; [done|lia|done].
      * constructor; simpl; [lia|intros _; lia|done|done].
    + specialize (M3 eq_refl). destruct (failure_threshold c <=? f + 1) eqn:E.
      * unfold transition; simpl. constructor; simpl; [lia|done|done|done].
      * constructor; simpl; [lia|done|done|done].
    + apply inv_transition; simpl; [done| |done]. lia.
  - unfold reset. destruct (decide (Circuit_CLOSED = cb_state b)) as [E|E].
    + unfold transition. by rewrite bool_decide_eq_true_2.
    + apply inv_transition; [done|apply Hi|done].
Qed.

Lemma inv_uses b cs : valid_config (cb_config b) -> breaker_inv b -> breaker_inv (uses b cs).
Proof.
  revert b. induction cs as [|c cs IH]; intros b Hv Hi; [done|].
  simpl. apply IH; [by rewrite config_use|by apply inv_use].
Qed.

Lemma inv_new c : valid_config c -> breaker_inv (new_breaker c).
Proof. intros (H1 & H2 & H3 & _). constructor; simpl; [lia|intros _; lia|done|done]. Qed.
