(* ===== verification/UpstreamClient.v ===== *)
(** * Sending a request upstream ([client.py], [resilience/http_retry.py], [resilience/http_circuit.py])

    Any number of concurrent calls of [HermesClient._send].  A call runs up to an [await] - the
    request itself, or the pause before the next attempt - and what it is waiting for is an event,
    as is its cancellation there.  The length of the pauses ([resilience/backoff.py]) is not
    modelled: nothing depends on it.

    [u_sent], the log of the requests that were sent, is the specification's. *)
From Stdlib Require Import SpecFloat.
From S2P Require Import Prelude.
From S2P Require Import PyText.
From S2P Require Import PyValue.
From S2P Require Import Canonical.
From S2P Require Import CircuitBreaker.

(** ** Which requests are safe *)

(** [s.upper() == "GET"]: no other character has one of these letters as its upper case. *)
Definition upper_char (c : ascii) : ascii :=
  if is_lower c then Ascii.ascii_of_N (Ascii.N_of_ascii c - 32) else c.
Fixpoint upper (s : string) : string :=
  match s with EmptyString => EmptyString | String c r => String (upper_char c) (upper r) end.
Definition is_get (verb : string) : bool := String.eqb (upper verb) "GET".

(** [_IDENTIFIER] *)
Definition upstream_identifier (s : string) : bool :=
  first_rest is_alnum (fun c => is_alnum c || one_of "._:-" c) 127 s.

(** [_RUN_STATUS_RE], [_SESSION_MESSAGES_RE] *)
Definition run_status_path (p : string) : bool :=
  match strip_prefix "/v1/runs/" p with Some i => upstream_identifier i | None => false end.
Definition session_messages_path (p : string) : bool :=
  match strip_prefix "/api/sessions/" p with
  | Some rest =>
      match split_once "/" rest with
      | (i, Some tail) => upstream_identifier i && String.eqb tail "messages"
      | _ => false
      end
  | None => false
  end.

(** [classify_retry_target]: the endpoint class of a safe request. *)
Definition classify_retry_target (verb path : string) : option string :=
  if negb (is_get verb) then None
  else
    let normalized := fst (split_once "?" path) in
    if String.eqb normalized "/health" || String.eqb normalized "/health/detailed" then Some "health"
    else if run_status_path normalized then Some "runs"
    else if session_messages_path normalized then Some "sessions"
    else None.

Definition SAFE_CIRCUIT_CLASSES : list string := ["health"; "runs"; "sessions"].

(** [circuit_target] *)
Definition circuit_target (verb path : string) : option string :=
  match classify_retry_target verb path with
  | Some c => if str_in c SAFE_CIRCUIT_CLASSES then Some c else None
  | None => None
  end.

(** [is_transient_status] *)
Definition is_transient_status (status : Z) : bool :=
  (status =? 429) || (status =? 500) || (status =? 502) || (status =? 503) || (status =? 504).

(** ** Settings and policies *)

Record Settings := mkSettings {
  retry_enabled : bool;
  retry_max_attempts : Z;
  circuit_enabled : bool;
  circuit_settings : CircuitBreakerConfig
}.

(** [UpstreamRetryPolicy.max_attempts] *)
Definition max_attempts (s : Settings) : Z := if retry_enabled s then retry_max_attempts s else 1.

(** [attempts] in [_send_with_retry] *)
Definition attempts_of (s : Settings) (verb path : string) : Z :=
  match classify_retry_target verb path with Some _ => max_attempts s | None => 1 end.

(** ** Calls *)

(** What the request ends with: a response, a timeout, another transport error, an exception that is
    neither, or the cancellation of the call. *)
Inductive http_answer : Type :=
| Responded (status : Z)
| TimeoutException
| RequestError
| OtherException
| CallCancelled.

Inductive call_result : Type :=
| Answer (status : Z)
| ApiTimedOut
| ApiUnreachable
| ApiCircuitOpen
| BadSettings
| Escaped.

Inductive call_state : Type := Sending (attempt : Z) | Pausing (attempt : Z) | Over (r : call_result).

Record Call := mkCall {
  call_method : string;
  call_path : string;
  (** the breaker the call holds, if it is protected *)
  call_breaker : option string;
  call_state_ : call_state
}.

Record Upstream := mkUpstream {
  u_breakers : gmap string CircuitBreaker;
  u_calls : gmap nat Call;
  u_next : nat;
  u_sent : list (nat * Z)
}.

Section Upstream.
Variable settings : Settings.

(** [get_breaker]: the breaker of the class, made on its first use. *)
Definition get_breaker (name : string) (u : Upstream) : CircuitBreaker :=
  default (new_breaker (circuit_settings settings)) (u_breakers u !! name).

Definition put_breaker (name : string) (b : CircuitBreaker) (u : Upstream) : Upstream :=
  let '(mkUpstream bs cs n sent) := u in mkUpstream (<[name := b]> bs) cs n sent.
Definition put_call (p : nat) (c : Call) (u : Upstream) : Upstream :=
  let '(mkUpstream bs cs n sent) := u in mkUpstream bs (<[p := c]> cs) n sent.
(** [client.request(method, path)] *)
Definition send_request (p : nat) (c : Call) (attempt : Z) (u : Upstream) : Upstream :=
  let '(mkUpstream bs cs n sent) := u in
  mkUpstream bs (<[p := mkCall (call_method c) (call_path c) (call_breaker c) (Sending attempt)]> cs) n
    ((p, attempt) :: sent).
Definition new_call (u : Upstream) : Upstream :=
  let '(mkUpstream bs cs n sent) := u in mkUpstream bs cs (S n) sent.

(** [_send], up to the first request. *)
Definition start_call (verb path : string) (now : spec_float) (u : Upstream) : Upstream :=
  let p := u_next u in
  let u := new_call u in
  let call b st := mkCall verb path b st in
  match circuit_config (circuit_settings settings) with
  | Err _ => put_call p (call None (Over BadSettings)) u
  | Ok config =>
      match circuit_target verb path, circuit_enabled settings with
      | Some name, true =>
          let '(granted, b) := acquire now (get_breaker name u) in
          let u := put_breaker name b u in
          if granted then send_request p (call (Some name) (Sending 1)) 1 u
          else put_call p (call None (Over ApiCircuitOpen)) u
      | _, _ => send_request p (call None (Sending 1)) 1 u
      end
  end.

(** [breaker.record_failure()], [breaker.record_success()]; a call that is not protected records
    nothing. *)
Definition record_outcome (failed : bool) (c : Call) (now : spec_float) (u : Upstream) : Upstream :=
  match call_breaker c with
  | None => u
  | Some name =>
      let b := get_breaker name u in
      put_breaker name (if failed then record_failure now b else record_success now b) u
  end.

(** The call ends: with its outcome recorded, or by an exception that passes [except HermesAPIError]. *)
Definition end_call (p : nat) (c : Call) (r : call_result) (recorded : option bool) (now : spec_float)
    (u : Upstream) : Upstream :=
  let u := match recorded with Some failed => record_outcome failed c now u | None => u end in
  put_call p (mkCall (call_method c) (call_path c) (call_breaker c) (Over r)) u.

(** [_send_with_retry], from the end of a request to the next [await]. *)
Definition answer_call (p : nat) (c : Call) (attempt : Z) (a : http_answer) (now : spec_float)
    (u : Upstream) : Upstream :=
  let retryable := match classify_retry_target (call_method c) (call_path c) with
                   | Some _ => attempt <? attempts_of settings (call_method c) (call_path c)
                   | None => false
                   end in
  let pause := put_call p (mkCall (call_method c) (call_path c) (call_breaker c) (Pausing attempt)) u in
  match a with
  | Responded status =>
      if retryable && is_transient_status status then pause
      else end_call p c (Answer status) (Some (is_transient_status status)) now u
  | TimeoutException => if retryable then pause else end_call p c ApiTimedOut (Some true) now u
  | RequestError => if retryable then pause else end_call p c ApiUnreachable (Some true) now u
  | OtherException | CallCancelled => end_call p c Escaped None now u
  end.

Inductive upstream_event : Type :=
| CallMade (verb path : string) (now : spec_float)
| RequestEnded (p : nat) (a : http_answer) (now : spec_float)
| PauseEnded (p : nat)
| PauseCancelled (p : nat).

Definition upstream_step (u : Upstream) (e : upstream_event) : Upstream :=
  match e with
  | CallMade verb path now => start_call verb path now u
  | RequestEnded p a now =>
      match u_calls u !! p with
      | Some c => match call_state_ c with Sending k => answer_call p c k a now u | _ => u end
      | None => u
      end
  | PauseEnded p =>
      match u_calls u !! p with
      | Some c => match call_state_ c with Pausing k => send_request p c (k + 1) u | _ => u end
      | None => u
      end
  | PauseCancelled p =>
      match u_calls u !! p with
      | Some c => match call_state_ c with Pausing _ => end_call p c Escaped None fzero u | _ => u end
      | None => u
      end
  end.

Definition upstream_run : Upstream -> list upstream_event -> Upstream := foldl upstream_step.
Definition no_calls : Upstream := mkUpstream ∅ ∅ 0 [].

(** ** How often a request is sent *)

(** The requests sent for the call [p], newest first. *)
Definition sent_for (p : nat) (u : Upstream) : list Z :=
  (List.filter (fun e => bool_decide (fst e = p)) (u_sent u)).*2.

(** The attempt a call has reached. *)
Definition reached (c : Call) : option Z :=
  match call_state_ c with Sending k | Pausing k => Some k | Over _ => None end.

(** The attempts [k, k - 1, ..., 1]. *)
Fixpoint down_from (n : nat) : list Z := match n with O => [] | S m => Z.of_nat n :: down_from m end.

Record upstream_inv (u : Upstream) : Prop := {
  ui_fresh : forall p, (u_next u <= p)%nat -> u_calls u !! p = None /\ sent_for p u = [];
  (** every call has been sent as often as it says, within its attempts, in order *)
  ui_sent : forall p c, u_calls u !! p = Some c ->
    exists n, sent_for p u = down_from n /\ Z.of_nat n <= Z.max 1 (attempts_of settings (call_method c) (call_path c))
      /\ forall k, reached c = Some k -> k = Z.of_nat n /\ 1 <= k;
  (** a pausing call may be retried *)
  ui_pausing : forall p c k, u_calls u !! p = Some c -> call_state_ c = Pausing k ->
    k < attempts_of settings (call_method c) (call_path c)
}.

Lemma sent_put_call p q c u : sent_for p (put_call q c u) = sent_for p u.
Proof. by destruct u. Qed.
Lemma sent_put_breaker p n b u : sent_for p (put_breaker n b u) = sent_for p u.
Proof. by destruct u. Qed.
Lemma sent_send p q c k u :
  sent_for p (send_request q c k u) = if bool_decide (q = p) then k :: sent_for p u else sent_for p u.
Proof. destruct u. unfold sent_for. simpl. by case_bool_decide. Qed.

Lemma inv_put_breaker n b u : upstream_inv u -> upstream_inv (put_breaker n b u).
Proof. intros [H1 H2 H3]. destruct u. by constructor. Qed.

Lemma inv_record f c now u : upstream_inv u -> upstream_inv (record_outcome f c now u).
Proof. intros Hi. unfold record_outcome. destruct (call_breaker c); [by apply inv_put_breaker|done]. Qed.

(** A call ends or pauses: nothing is sent. *)
Lemma inv_settle p c st u :
  upstream_inv u -> u_calls u !! p = Some c ->
  (forall k, st = Pausing k -> k < attempts_of settings (call_method c) (call_path c) /\ reached c = Some k) ->
  (forall k, st <> Sending k) ->
  upstream_inv (put_call p (mkCall (call_method c) (call_path c) (call_breaker c) st) u).
Proof.
  intros [H1 H2 H3] Hp Hst Hns. destruct u as [bs cs n sent]; simpl in *. constructor; simpl.
  - intros q Hq. destruct (decide (p = q)) as [<-|Hne]; [|by rewrite lookup_insert_ne; [apply H1|]].
    destruct (H1 _ Hq). congruence.
  - intros q d. destruct (decide (p = q)) as [<-|Hne]; [|rewrite lookup_insert_ne by done; apply H2].
    rewrite lookup_insert_eq. intros [= <-]. destruct (H2 _ _ Hp) as (m & ? & ? & Hk). exists m.
    split_and!; [done|done|]. unfold reached at 1. simpl. destruct st as [k|k|r]; [by destruct (Hns k)| |done].
    intros k' [= <-]. by apply Hk, Hst.
  - intros q d k. destruct (decide (p = q)) as [<-|Hne]; [|rewrite lookup_insert_ne by done; apply H3].
    rewrite lookup_insert_eq. intros [= <-]. simpl. intros Hk. by apply Hst.
Qed.

(** A call that may be sent once more is. *)
Lemma inv_send p c k u :
  upstream_inv u -> u_calls u !! p = Some c -> reached c = Some k ->
  k < attempts_of settings (call_method c) (call_path c) -> upstream_inv (send_request p c (k + 1) u).
Proof.
  intros [H1 H2 H3] Hp Hr Hlt. destruct (H2 _ _ Hp) as (m & Hm & Hle & Hk). destruct (Hk _ Hr) as [Hk1 Hk2].
  constructor; intros q.
  - intros Hq. rewrite sent_send. destruct u as [bs cs n sent]; simpl in *.
    destruct (decide (p = q)) as [<-|Hne]; [destruct (H1 _ Hq); congruence|].
    rewrite lookup_insert_ne, bool_decide_eq_false_2 by done. by apply H1.
  - intros d. rewrite sent_send. replace (u_calls (send_request p c (k + 1) u)) with
      (<[p := mkCall (call_method c) (call_path c) (call_breaker c) (Sending (k + 1))]> (u_calls u)) by (by destruct u).
    destruct (decide (p = q)) as [<-|Hne].
    + rewrite lookup_insert_eq, bool_decide_eq_true_2 by done. intros [= <-]. exists (S m).
      split_and!; [cbn [down_from]; rewrite Hm; f_equal; lia|simpl call_method; simpl call_path; lia|].
      unfold reached. simpl. intros k' [= <-]. lia.
    + rewrite lookup_insert_ne, bool_decide_eq_false_2 by done. apply H2.
  - intros d k'. replace (u_calls (send_request p c (k + 1) u)) with
      (<[p := mkCall (call_method c) (call_path c) (call_breaker c) (Sending (k + 1))]> (u_calls u)) by (by destruct u).
    destruct (decide (p = q)) as [<-|Hne].
    + rewrite lookup_insert_eq. by intros [= <-].
    + rewrite lookup_insert_ne by done. apply H3.
Qed.

Lemma inv_new_call u : upstream_inv u -> upstream_inv (new_call u).
Proof.
  intros [H1 H2 H3]. destruct u; constructor; simpl in *; [|done..]. intros p Hp. apply H1. lia.
Qed.

(** A new call. *)
Lemma inv_first u c :
  upstream_inv u -> (forall k, reached c = Some k -> False) ->
  upstream_inv (put_call (u_next u) c (new_call u))
  /\ upstream_inv (send_request (u_next u) c 1 (new_call u)).
Proof.
  intros [H1 H2 H3] Hover. destruct (H1 (u_next u) ltac:(lia)) as [Hnone Hempty].
  split; constructor; intros q.
  - rewrite sent_put_call. destruct u as [bs cs n sent]; simpl in *. intros Hq.
    rewrite lookup_insert_ne by lia. apply H1. lia.
  - intros d. rewrite sent_put_call. destruct u as [bs cs n sent]; simpl in *. destruct (decide (n = q)) as [<-|Hne].
    + rewrite lookup_insert_eq. intros [= <-]. exists O. split_and!; [done|lia|]. by intros k Hk%Hover.
    + rewrite lookup_insert_ne by done. apply H2.
  - intros d k. destruct u as [bs cs n sent]; simpl in *. destruct (decide (n = q)) as [<-|Hne].
    + rewrite lookup_insert_eq. intros [= <-] Hk. exfalso. apply (Hover k). unfold reached. by rewrite Hk.
    + rewrite lookup_insert_ne by done. apply H3.
  - rewrite sent_send. destruct u as [bs cs n sent]; simpl in *. intros Hq.
    rewrite lookup_insert_ne, bool_decide_eq_false_2 by lia. apply H1. lia.
  - intros d. rewrite sent_send. destruct u as [bs cs n sent]; simpl in *. destruct (decide (n = q)) as [<-|Hne].
    + rewrite lookup_insert_eq, bool_decide_eq_true_2 by done. intros [= <-]. exists 1%nat.
      split_and!; [|lia|]; [|by unfold reached; simpl; intros k [= <-]].
      cbn [down_from]. by f_equal.
    + rewrite lookup_insert_ne, bool_decide_eq_false_2 by done. apply H2.
  - intros d k. destruct u as [bs cs n sent]; simpl in *. destruct (decide (n = q)) as [<-|Hne].
    + rewrite lookup_insert_eq. by intros [= <-].
    + rewrite lookup_insert_ne by done. apply H3.
Qed.

Lemma put_send_breaker name b p c k u :
  send_request p c k (put_breaker name b u) = put_breaker name b (send_request p c k u)
  /\ put_call p c (put_breaker name b u) = put_breaker name b (put_call p c u).
Proof. by destruct u. Qed.

Lemma inv_start verb path now u : upstream_inv u -> upstream_inv (start_call verb path now u).
Proof.
  intros Hi. unfold start_call.
  assert (Hover : forall c r, call_state_ c = Over r -> upstream_inv (put_call (u_next u) c (new_call u)))
    by (intros c r Hc; apply inv_first; [done|intros k; unfold reached; by rewrite Hc]).
  assert (Hsend : forall b, upstream_inv (send_request (u_next u) (mkCall verb path b (Sending 1)) 1 (new_call u))).
  { intros b. replace (send_request _ _ _ _) with
      (send_request (u_next u) (mkCall verb path b (Over Escaped)) 1 (new_call u)) by (by destruct u).
    by apply inv_first. }
  destruct (circuit_config _); [|by eapply Hover].
  destruct (circuit_target verb path) as [name|], (circuit_enabled settings); [|apply Hsend..].
  destruct (acquire now _) as [[] b].
  - rewrite (proj1 (put_send_breaker _ _ _ _ _ _)). by apply inv_put_breaker.
  - rewrite (proj2 (put_send_breaker _ _ _ _ 0 _)). apply inv_put_breaker. by eapply Hover.
Qed.

Lemma inv_end p c r o now u :
  upstream_inv u -> u_calls u !! p = Some c -> upstream_inv (end_call p c r o now u).
Proof.
  intros Hi Hp. unfold end_call.
  assert (Hi' : upstream_inv (match o with Some f => record_outcome f c now u | None => u end))
    by (destruct o; [by apply inv_record|done]).
  apply inv_settle; [done| |done..]. destruct o; [|done]. unfold record_outcome. destruct (call_breaker c); by destruct u.
Qed.

Lemma inv_answer p c k a now u :
  upstream_inv u -> u_calls u !! p = Some c -> call_state_ c = Sending k ->
  upstream_inv (answer_call p c k a now u).
Proof.
  intros Hi Hp Hs. unfold answer_call. set (retryable := match classify_retry_target _ _ with Some _ => _ | None => _ end).
  assert (Hpause : retryable = true ->
    upstream_inv (put_call p (mkCall (call_method c) (call_path c) (call_breaker c) (Pausing k)) u)).
  { intros Hr. apply inv_settle; [done|done| |done]. intros k' [= <-]. unfold reached. rewrite Hs. split; [|done].
    unfold retryable in Hr. destruct (classify_retry_target _ _); [lia|done]. }
  destruct a as [status| | | |]; try (by apply inv_end); destruct retryable; simpl;
    try (by apply inv_end); try by apply Hpause.
  destruct (is_transient_status status); [by apply Hpause|by apply inv_end].
Qed.

Lemma inv_step u e : upstream_inv u -> upstream_inv (upstream_step u e).
Proof.
  intros Hi. destruct e as [verb path now|p a now|p|p]; simpl; [by apply inv_start|..];
    destruct (u_calls u !! p) as [c|] eqn:Hp; try done; destruct (call_state_ c) as [k|k|r] eqn:Hs; try done.
  - by apply inv_answer.
  - apply inv_send; [done|done|unfold reached; by rewrite Hs|]. by eapply ui_pausing.
  - by apply inv_end.
Qed.

Lemma inv_run es u : upstream_inv u -> upstream_inv (upstream_run u es).
Proof. revert u. induction es as [|e es IH]; intros u Hi; [done|]. by apply IH, inv_step. Qed.

Lemma inv_no_calls : upstream_inv no_calls.
Proof. constructor; simpl; intros p; [by rewrite lookup_empty| |]; intros c; by rewrite lookup_empty. Qed.
End Upstream.
