(* ===== verification/UpstreamGuarantees.v ===== *)
(** * What retry and circuit breaking guarantee upstream, and what they do not

    A request that is not safe is sent once; a circuit that is open sends nothing and lets probes
    through once it has recovered.  And a probe whose call is cancelled is never accounted for: the
    circuit then rejects every later call. *)
From Stdlib Require Import SpecFloat.
From S2P Require Import Prelude.
From S2P Require Import PyText.
From S2P Require Import PyValue.
From S2P Require Import Canonical.
From S2P Require Import CircuitBreaker.
From S2P Require Import UpstreamClient.

(** ** The breaker *)

(** When [acquire] grants a call. *)
Definition grants (now : spec_float) (b : CircuitBreaker) : bool :=
  match cb_state b with
  | Circuit_CLOSED => true
  | Circuit_OPEN => recovered now b
  | Circuit_HALF_OPEN => cb_half_open_calls b <? half_open_max_calls (cb_config b)
  end.

Lemma acquire_grants now b :
  valid_config (cb_config b) -> breaker_inv b -> fst (acquire now b) = grants now b.
Proof.
  intros (_ & Hm & _) Hi. unfold acquire, grants, maybe_half_open.
  destruct (cb_state b) eqn:Es; simpl; rewrite ?Es.
  - done.
  - destruct (recovered now b); simpl; rewrite ?Es; [|done].
    unfold transition. rewrite Es. simpl. by destruct (Z.leb_spec (half_open_max_calls (cb_config b)) 0); [lia|].
  - rewrite Z.leb_antisym. by destruct (_ <? _).
Qed.

(** A rejected call leaves the breaker as it was, but for the counter; while it is open, also for
    the failures of calls that were admitted before. *)
Lemma acquire_rejects now b :
  fst (acquire now b) = false -> snd (acquire now b) = add_rejection (maybe_half_open now b).
Proof.
  unfold acquire. destruct (cb_state (maybe_half_open now b)); [done|done|]. by destruct (_ <=? _).
Qed.

Lemma failures_closed b ts :
  1 <= failure_threshold (cb_config b) -> cb_state b <> Circuit_HALF_OPEN ->
  (cb_state b = Circuit_OPEN -> cb_state (uses b (map (pair Failure) ts)) = Circuit_OPEN)
  /\ (cb_state b = Circuit_CLOSED -> cb_failures b < failure_threshold (cb_config b) ->
      cb_state (uses b (map (pair Failure) ts))
      = if cb_failures b + Z.of_nat (length ts) <? failure_threshold (cb_config b)
        then Circuit_CLOSED else Circuit_OPEN).
Proof.
  revert b. induction ts as [|t ts IH]; intros b Hth Hs.
  - split; [done|]. simpl map. simpl length. intros Hcl Hf. rewrite (proj2 (Z.ltb_lt _ _)) by lia. done.
  - destruct b as [c s f su h o tr r]; simpl in *. destruct s; [..|done].
    + split; [done|]. intros _ Hf.
      replace (f + Z.of_nat (S (length ts))) with (f + 1 + Z.of_nat (length ts)) by lia.
      unfold record_failure; simpl. destruct (Z.leb_spec (failure_threshold c) (f + 1)).
      * destruct (IH (transition Circuit_OPEN t (mkBreaker c Circuit_CLOSED (f + 1) su h o tr r))) as [H1 _]; [done..|].
        rewrite H1 by done. by rewrite (proj2 (Z.ltb_ge _ _)) by lia.
      * destruct (IH (mkBreaker c Circuit_CLOSED (f + 1) su h o tr r)) as [_ H1]; [done..|].
        apply H1; [done|]. simpl. lia.
    + split; [|done]. intros _. unfold record_failure; simpl.
      destruct (failure_threshold c <=? f + 1); unfold transition; simpl;
        by apply (IH (mkBreaker c Circuit_OPEN (f + 1) su h o tr r)).
Qed.


(** ** Requests *)

Section Requests.
Variable settings : Settings.

Abbreviation upstream_run := (upstream_run settings).

Lemma length_down_from n : length (down_from n) = n.
Proof. induction n as [|n IH]; simpl; [done|]. by rewrite IH. Qed.

(** [C38] Whatever the answers and the interleaving, a call sends its request at most as often as the
    retry policy allows, attempt by attempt, and just once when the request is not one of the safe
    reads: no request that is not a GET of a listed path is ever repeated. *)
Theorem unsafe_requests_are_sent_once es p c :
  let u := upstream_run no_calls es in
  u_calls u !! p = Some c ->
  Z.of_nat (length (sent_for p u)) <= Z.max 1 (attempts_of settings (call_method c) (call_path c))
  /\ sent_for p u = down_from (length (sent_for p u))
  /\ (classify_retry_target (call_method c) (call_path c) = None -> (length (sent_for p u) <= 1)%nat)
  /\ (is_get (call_method c) = false -> (length (sent_for p u) <= 1)%nat).
Proof.
  intros u Hp. pose proof (inv_run settings es no_calls (inv_no_calls settings)) as Hi.
  destruct (ui_sent _ _ Hi _ _ Hp) as (n & Hn & Hle & _). fold u in Hn. rewrite Hn, length_down_from.
  assert (Hnone : classify_retry_target (call_method c) (call_path c) = None -> (n <= 1)%nat)
    by (intros E; unfold attempts_of in Hle; rewrite E in Hle; lia).
  split_and!; [done|done|done|]. intros Hg. apply Hnone. unfold classify_retry_target. by rewrite Hg.
Qed.

(** ** A circuit whose probe is lost *)

(** The breaker of the class [name] has no probe to spare, and no call under way will give one back. *)
Definition wedged (name : string) (u : Upstream) : Prop :=
  (exists b, u_breakers u !! name = Some b /\ cb_state b = Circuit_HALF_OPEN
             /\ half_open_max_calls (cb_config b) <= cb_half_open_calls b)
  /\ forall p c, u_calls u !! p = Some c -> call_breaker c = Some name -> exists r, call_state_ c = Over r.

Lemma wedged_start name verb path now u :
  wedged name u -> wedged name (start_call settings verb path now u)
  /\ (circuit_config (circuit_settings settings) = Ok (circuit_settings settings) ->
      circuit_enabled settings = true -> circuit_target verb path = Some name ->
      u_sent (start_call settings verb path now u) = u_sent u
      /\ exists c, u_calls (start_call settings verb path now u) !! u_next u = Some c
                   /\ call_state_ c = Over ApiCircuitOpen).
Proof.
  intros [(b & Hb & Hs & Hm) Hc].
  assert (Hnew : forall bs c cs sent, (exists b, bs !! name = Some b /\ cb_state b = Circuit_HALF_OPEN
             /\ half_open_max_calls (cb_config b) <= cb_half_open_calls b) ->
            cs = u_calls u -> (call_breaker c = Some name -> exists r, call_state_ c = Over r) ->
            wedged name (mkUpstream bs (<[u_next u := c]> cs) (S (u_next u)) sent)).
  { intros bs c cs sent Hbs -> Hover. split; [done|]. simpl. intros p d.
    destruct (decide (u_next u = p)) as [<-|Hne]; [rewrite lookup_insert_eq; by intros [= <-]|].
    rewrite lookup_insert_ne by done. apply Hc. }
  unfold start_call. destruct (circuit_config _) as [cfg|] eqn:Ecfg.
  2:{ split; [|done]. destruct u; simpl in *. by apply Hnew; [exists b| |]. }
  destruct (circuit_target verb path) as [name'|] eqn:Et.
  2:{ split; [|done]. destruct u; simpl in *. by apply Hnew; [exists b| |]. }
  destruct (circuit_enabled settings) eqn:Een.
  2:{ split; [|done]. destruct u; simpl in *. by apply Hnew; [exists b| |]. }
  destruct (decide (name' = name)) as [->|Hne].
  - assert (Hget : get_breaker settings name (new_call u) = b) by (unfold get_breaker; by destruct u; simpl in *; rewrite Hb).
    rewrite Hget. unfold acquire, maybe_half_open. rewrite Hs. simpl. rewrite Hs.
    destruct (Z.leb_spec (half_open_max_calls (cb_config b)) (cb_half_open_calls b)); [|lia].
    split.
    + destruct u; simpl in *. apply Hnew; [|done|by eexists]. exists (add_rejection b).
      rewrite lookup_insert_eq. by destruct b.
    + intros _ _ _. destruct u; simpl in *. split; [done|]. eexists. by rewrite lookup_insert_eq.
  - split; [|by intros _ _ [= ->]].
    destruct (acquire now (get_breaker settings name' (new_call u))) as [[] b'];
      destruct u; simpl in *; (apply Hnew; [|done|]); try (exists b; by rewrite lookup_insert_ne);
      simpl; intros [= ->]; done.
Qed.

Lemma wedged_record name f c now u : wedged name u -> call_breaker c <> Some name -> wedged name (record_outcome settings f c now u).
Proof.
  intros [(b & Hb & Hs & Hm) Hc] Hne. unfold record_outcome. destruct (call_breaker c) as [name'|]; [|by split; [exists b|]].
  destruct u; simpl in *. split; [|done]. exists b. simpl. rewrite lookup_insert_ne; [done|congruence].
Qed.

(** A call that holds another breaker, or none, changes. *)
Lemma wedged_put name p c u : wedged name u -> call_breaker c <> Some name -> wedged name (put_call p c u).
Proof.
  intros [Hb Hc] Hne. destruct u; simpl in *. split; [done|]. simpl. intros q d.
  destruct (decide (p = q)) as [<-|Hpq]; [rewrite lookup_insert_eq; by intros [= <-]|].
  rewrite lookup_insert_ne by done. apply Hc.
Qed.

Lemma wedged_end name p c r o now u :
  wedged name u -> call_breaker c <> Some name -> wedged name (end_call settings p c r o now u).
Proof.
  intros Hw Hne. unfold end_call. apply wedged_put; [|done]. destruct o; [by apply wedged_record|done].
Qed.

Lemma wedged_step name u e : wedged name u -> wedged name (upstream_step settings u e).
Proof.
  intros Hw. destruct e as [verb path now|p a now|p|p]; simpl; [by apply wedged_start|..];
    destruct (u_calls u !! p) as [c|] eqn:Hp; try done; destruct (call_state_ c) as [k|k|r] eqn:Hs; try done;
    assert (Hne : call_breaker c <> Some name)
      by (intros E; destruct (proj2 Hw _ _ Hp E) as [r' Hr]; congruence).
  - unfold answer_call. destruct a as [status| | | |]; repeat case_match; try (by apply wedged_end); by apply wedged_put.
  - replace (send_request p c (k + 1) u) with
      (let v := put_call p (mkCall (call_method c) (call_path c) (call_breaker c) (Sending (k + 1))) u in
       mkUpstream (u_breakers v) (u_calls v) (u_next v) ((p, k + 1) :: u_sent v)) by (by destruct u).
    destruct (wedged_put name p (mkCall (call_method c) (call_path c) (call_breaker c) (Sending (k + 1))) u Hw Hne).
    by split.
  - by apply wedged_end.
Qed.

Lemma wedged_run name es u : wedged name u -> wedged name (upstream_run u es).
Proof. revert u. induction es as [|e es IH]; intros u Hw; [done|]. by apply IH, wedged_step. Qed.

(** Once a half-open circuit has no probe to spare and no call under way, it rejects every call
    of its class, at any later time and after any history, without sending anything. *)
Theorem lost_probe_rejects_forever name u es verb path now :
  wedged name u -> circuit_config (circuit_settings settings) = Ok (circuit_settings settings) ->
  circuit_enabled settings = true -> circuit_target verb path = Some name ->
  let v := upstream_run u es in
  let w := upstream_step settings v (CallMade verb path now) in
  u_sent w = u_sent v /\ exists c, u_calls w !! u_next v = Some c /\ call_state_ c = Over ApiCircuitOpen.
Proof. intros Hw Hcfg Hen Ht v w. by apply (wedged_start name verb path now v (wedged_run _ es _ Hw)). Qed.
End Requests.

(** ** Histories *)

Module UpstreamHistories.

Definition config : CircuitBreakerConfig := mkConfig 2 (float_of 30) 1 1.
Definition settings : Settings := mkSettings true 3 true config.

(** Two probes of the same breaker fail, it opens, recovers, and its probe is cancelled. *)
Definition cancelled_probe : list upstream_event :=
  [CallMade "GET" "/health" (float_of 0); RequestEnded 0 RequestError (float_of 1); PauseEnded 0;
   RequestEnded 0 (Responded 503) (float_of 2); PauseEnded 0; RequestEnded 0 (Responded 503) (float_of 3);
   CallMade "get" "/health?x=1" (float_of 3); RequestEnded 1 (Responded 200) (float_of 4);
   CallMade "GET" "/health" (float_of 4); RequestEnded 2 TimeoutException (float_of 5); PauseCancelled 2;
   CallMade "GET" "/health" (float_of 6); RequestEnded 3 (Responded 404) (float_of 7);
   CallMade "POST" "/v1/runs" (float_of 7); RequestEnded 4 TimeoutException (float_of 8)].


Lemma unsafe_requests_are_sent_once_witness :
  let u := upstream_run settings no_calls cancelled_probe in
  sent_for 0 u = [3; 2; 1] /\ (length (sent_for 4 u) <= 1)%nat.
Proof.
  split; [by vm_compute|].
  by apply (unsafe_requests_are_sent_once settings cancelled_probe 4
           (mkCall "POST" "/v1/runs" None (Over ApiTimedOut))); vm_compute.
Defined.

Definition open_then_cancelled : list upstream_event :=
  [CallMade "GET" "/health" (float_of 0); RequestEnded 0 OtherException (float_of 1);
   CallMade "GET" "/health" (float_of 0); RequestEnded 1 (Responded 503) (float_of 1); PauseEnded 1;
   RequestEnded 1 (Responded 503) (float_of 1); PauseEnded 1; RequestEnded 1 (Responded 503) (float_of 1);
   CallMade "GET" "/health" (float_of 0); RequestEnded 2 TimeoutException (float_of 1); PauseEnded 2;
   RequestEnded 2 TimeoutException (float_of 1); PauseEnded 2; RequestEnded 2 TimeoutException (float_of 2);
   CallMade "GET" "/health" (float_of 40); RequestEnded 3 CallCancelled (float_of 41)].

Lemma open_then_cancelled_wedged : wedged "health" (upstream_run settings no_calls open_then_cancelled).
Proof.
  split.
  - eexists. split; [vm_compute; reflexivity|]. by vm_compute.
  - intros p c Hp. destruct (decide (4 <= p)%nat) as [Hge|Hlt].
    + destruct (ui_fresh _ _ (inv_run settings open_then_cancelled _ (inv_no_calls settings)) p) as [Hn _];
        [by vm_compute|congruence].
    + destruct p as [|[|[|[|p]]]]; [..|lia]; vm_compute in Hp; simplify_eq/=; intros _; by eexists.
Defined.

(** The probe of a recovered circuit is cancelled, by its caller say: no later call gets through. *)
Lemma lost_probe_rejects_forever_witness :
  let v := upstream_run settings (upstream_run settings no_calls open_then_cancelled)
             [CallMade "GET" "/health" (float_of 1000)] in
  u_sent (upstream_step settings v (CallMade "GET" "/health" (float_of 2000))) = u_sent v.
Proof.
  apply (lost_probe_rejects_forever settings "health" _ [CallMade "GET" "/health" (float_of 1000)] "GET" "/health"
           (float_of 2000) open_then_cancelled_wedged); by vm_compute.
Defined.

(** With two successes to close and one probe at a time, the late success of a call that was admitted
    before the circuit opened frees a probe slot: two probes are then under way. *)
Example late_success_admits_a_second_probe :
  let c := mkConfig 1 (float_of 30) 1 2 in
  let s := mkSettings false 1 true c in
  let u := upstream_run s no_calls
    [CallMade "GET" "/health" (float_of 0); CallMade "GET" "/health" (float_of 0);
     RequestEnded 0 TimeoutException (float_of 1); CallMade "GET" "/health" (float_of 40);
     RequestEnded 1 (Responded 200) (float_of 41); CallMade "GET" "/health" (float_of 42)] in
  option_map call_state_ (u_calls u !! 2%nat) = Some (Sending 1)
  /\ option_map call_state_ (u_calls u !! 3%nat) = Some (Sending 1)
  /\ option_map cb_half_open_calls (u_breakers u !! "health") = Some 1.
Proof. by vm_compute. Qed.
End UpstreamHistories.
