(* ===== verification/RunEvents.v ===== *)
(** * The state of an upstream run, as events report it ([resilience/events.py])

    Server-sent events and polling both report to one tracker.  [observe] runs under a lock, so it
    is one step; what it stores before it raises stays stored. *)
From S2P Require Import Prelude.
From S2P Require Import PyText.

(** The statuses of [_ORDER]; any other text is [unknown]. *)
Inductive RunPhase : Type := Run_unknown | Run_queued | Run_running | Run_completed | Run_failed | Run_cancelled.
#[export] Instance RunPhase_eq_dec : EqDecision RunPhase.
Proof. solve_decision. Defined.

Definition phase_order (p : RunPhase) : Z :=
  match p with Run_unknown => 0 | Run_queued => 1 | Run_running => 2 | _ => 3 end.
Definition terminal_phase (p : RunPhase) : bool :=
  match p with Run_completed | Run_failed | Run_cancelled => true | _ => false end.

Definition phase_of_text (s : string) : RunPhase :=
  if String.eqb s "queued" then Run_queued
  else if String.eqb s "running" then Run_running
  else if String.eqb s "completed" then Run_completed
  else if String.eqb s "failed" then Run_failed
  else if String.eqb s "cancelled" then Run_cancelled
  else Run_unknown.

(** [str(status or "unknown").strip().lower()] *)
Definition normalized_phase (status : string) : RunPhase := phase_of_text (lower (py_strip status)).

(** [s[:n]], in code points *)
Fixpoint py_take (n : nat) (s : string) : string :=
  match s with
  | EmptyString => EmptyString
  | String c r =>
      if is_continuation c then String c (py_take n r)
      else match n with O => EmptyString | S m => String c (py_take m r) end
  end.

(** [str(source or "unknown").strip().lower()[:16]] *)
Definition event_origin (source : string) : string :=
  py_take 16 (lower (py_strip (if String.eqb source "" then "unknown" else source))).

Inductive observe_reason : Type := Applied | Duplicate | TerminalLock | OutOfOrder | Regression.

(** [RunObservation] *)
Record RunObservation := mkObservation {
  ro_status : RunPhase;
  ro_sequence : Z;
  ro_source : string;
  ro_applied : bool;
  ro_reason : observe_reason
}.

(** [_RunState] *)
Record RunState := mkRunState {
  rs_status : RunPhase;
  rs_sequence : Z;
  rs_terminal : bool;
  rs_duplicates : Z;
  rs_out_of_order : Z;
  rs_sources : list string
}.
Definition fresh_run : RunState := mkRunState Run_unknown (-1) false 0 0 [].

Definition add_source (o : string) (s : RunState) : RunState :=
  let '(mkRunState st q t d x ss) := s in mkRunState st q t d x (if str_in o ss then ss else o :: ss).
Definition count_duplicate (s : RunState) : RunState :=
  let '(mkRunState st q t d x ss) := s in mkRunState st q t (d + 1) x ss.
Definition count_out_of_order (s : RunState) : RunState :=
  let '(mkRunState st q t d x ss) := s in mkRunState st q t d (x + 1) ss.
Definition set_sequence (q' : Z) (s : RunState) : RunState :=
  let '(mkRunState st q t d x ss) := s in mkRunState st q' t d x ss.

Inductive tracker_error : Type := TerminalStateError.

(** One observation of one run, under the lock. *)
Definition observe_run (status : string) (sequence : option Z) (source : string) (s : RunState)
    : result tracker_error RunObservation * RunState :=
  let normalized := normalized_phase status in
  let origin := event_origin source in
  let s := add_source origin s in
  let seq := match sequence with Some q => q | None => rs_sequence s + 1 end in
  let answer s applied reason := (Ok (mkObservation (rs_status s) (rs_sequence s) origin applied reason), s) in
  if rs_terminal s then
    if bool_decide (normalized = rs_status s) then answer (count_duplicate s) false Duplicate
    else if terminal_phase normalized then (Err TerminalStateError, s)
    else answer (count_out_of_order s) false TerminalLock
  else if match sequence with Some _ => seq <=? rs_sequence s | None => false end then
    if bool_decide (normalized = rs_status s) then answer (count_duplicate s) false Duplicate
    else answer (count_out_of_order s) false OutOfOrder
  else if phase_order normalized <? phase_order (rs_status s) then answer (count_out_of_order s) false Regression
  else if bool_decide (normalized = rs_status s) && negb (terminal_phase normalized) then
    answer (set_sequence (Z.max (rs_sequence s) seq) (count_duplicate s)) false Duplicate
  else
    answer (mkRunState normalized (Z.max (rs_sequence s) seq) (terminal_phase normalized || rs_terminal s)
              (rs_duplicates s) (rs_out_of_order s) (rs_sources s)) true Applied.

(** ** The tracker *)

Abbreviation RunStateTracker := (gmap string RunState).

Definition run_state (r : string) (t : RunStateTracker) : RunState := default fresh_run (t !! r).

Definition observe (r status : string) (sequence : option Z) (source : string) (t : RunStateTracker)
    : result tracker_error RunObservation * RunStateTracker :=
  let '(res, s) := observe_run status sequence source (run_state r t) in (res, <[r := s]> t).

(** [status], [is_terminal] *)
Definition tracker_status (r : string) (t : RunStateTracker) : RunPhase :=
  match t !! r with Some s => rs_status s | None => Run_unknown end.
Definition tracker_terminal (r : string) (t : RunStateTracker) : bool :=
  match t !! r with Some s => rs_terminal s | None => false end.

(** [stats], [size] *)
Definition tracker_stats (r : string) (t : RunStateTracker) : RunPhase * Z * Z * list string :=
  match t !! r with
  | Some s => (rs_status s, rs_duplicates s, rs_out_of_order s, sort_str (rs_sources s))
  | None => (Run_unknown, 0, 0, [])
  end.
Definition tracker_size (t : RunStateTracker) : nat := size t.

(** [forget] *)
Definition forget (r : string) (t : RunStateTracker) : RunStateTracker := delete r t.

Inductive tracker_event : Type :=
| Observed (r status : string) (sequence : option Z) (source : string)
| Forgotten (r : string).

Definition tracker_step (t : RunStateTracker) (e : tracker_event)
    : option (result tracker_error RunObservation) * RunStateTracker :=
  match e with
  | Observed r status sequence source =>
      let '(res, t') := observe r status sequence source t in (Some res, t')
  | Forgotten r => (None, forget r t)
  end.

(** A history, with what each observation answered. *)
Fixpoint tracker_run (t : RunStateTracker) (es : list tracker_event)
    : list (tracker_event * result tracker_error RunObservation) * RunStateTracker :=
  match es with
  | [] => ([], t)
  | e :: rest =>
      let '(res, t') := tracker_step t e in
      let '(log, t'') := tracker_run t' rest in
      (match res with Some o => (e, o) :: log | None => log end, t'')
  end.

(** ** What one observation does *)

Definition run_inv (s : RunState) : Prop := rs_terminal s = terminal_phase (rs_status s).

Lemma observe_run_spec status sequence source s res s' :
  run_inv s -> observe_run status sequence source s = (res, s') ->
  run_inv s'
  /\ phase_order (rs_status s) <= phase_order (rs_status s') /\ rs_sequence s <= rs_sequence s'
  /\ (rs_terminal s = true \/ res = Err TerminalStateError -> rs_status s' = rs_status s)
  /\ (forall o, res = Ok o -> ro_status o = rs_status s' /\ ro_sequence o = rs_sequence s'
      /\ (ro_applied o = true -> rs_terminal s = false
          /\ (terminal_phase (rs_status s') = true \/ rs_status s <> rs_status s'))
      /\ (ro_applied o = false -> rs_status s' = rs_status s)).
Proof.
  intros Hi. unfold observe_run.
  destruct s as [st q t d x ss]; unfold run_inv in *; simpl in *.
  set (n := normalized_phase status). set (o := event_origin source).
  destruct t.
  - case_bool_decide; [|destruct (terminal_phase n) eqn:En]; intros [= <- <-]; simpl; split_and!; try done; try lia; try (by intros [?|?]).
    all: intros ? [= <-]; by split_and!.
  - destruct (match sequence with Some _ => _ | None => _ end) eqn:Eq.
    + case_bool_decide; intros [= <- <-]; simpl; split_and!; try done; try lia; try (by intros [?|?]).
      all: intros ? [= <-]; by split_and!.
    + destruct (Z.ltb_spec (phase_order n) (phase_order st)).
      { intros [= <- <-]; simpl; split_and!; try done; try lia; try (by intros [?|?]). intros ? [= <-]; by split_and!. }
      case_bool_decide as Hst; simpl; [destruct (terminal_phase n) eqn:En; simpl|].
      * congruence.
      * intros [= <- <-]; simpl; split_and!; try done; try lia; try (by intros [?|?]). intros ? [= <-]; by split_and!.
      * intros [= <- <-]; simpl. rewrite orb_false_r. split_and!; try done; try lia; try (by intros [?|?]).
        intros ? [= <-]; simpl. split_and!; try done. intros _. split; [done|]. right. congruence.
Qed.

Definition tracker_inv (t : RunStateTracker) : Prop := forall r s, t !! r = Some s -> run_inv s.

Lemma run_state_inv t r : tracker_inv t -> run_inv (run_state r t).
Proof. intros Ht. unfold run_state. destruct (t !! r) as [s|] eqn:Hr; [by eapply Ht|done]. Qed.

Lemma tracker_step_inv t e : tracker_inv t -> tracker_inv (snd (tracker_step t e)).
Proof.
  intros Ht. destruct e as [r status sequence source|r]; simpl.
  - unfold observe. destruct (observe_run status sequence source (run_state r t)) as [res s] eqn:E. simpl.
    apply observe_run_spec in E as (Hi & _); [|by apply run_state_inv].
    intros r' s'. destruct (decide (r = r')) as [<-|Hne].
    + rewrite lookup_insert_eq. by intros [= <-].
    + rewrite lookup_insert_ne by done. apply Ht.
  - intros r' s' Hr. unfold forget in Hr. apply lookup_delete_Some in Hr as [_ Hr]. by eapply Ht.
Qed.

(** The run an event speaks of. *)
Definition event_run (e : tracker_event) : string := match e with Observed r _ _ _ | Forgotten r => r end.

Lemma other_run t e r : event_run e <> r -> snd (tracker_step t e) !! r = t !! r.
Proof.
  intros Hne. destruct e as [r' status sequence source|r']; simpl in *.
  - unfold observe. destruct (observe_run _ _ _ _). simpl. by rewrite lookup_insert_ne.
  - unfold forget. by rewrite lookup_delete_ne.
Qed.

(** Observations of the run [r] that were applied and end it. *)
Definition completions (r : string) (log : list (tracker_event * result tracker_error RunObservation)) : list RunPhase :=
  omap (fun '(e, res) =>
    match e, res with
    | Observed r' _ _ _, Ok o => if String.eqb r' r && ro_applied o && terminal_phase (ro_status o)
                                 then Some (ro_status o) else None
    | _, _ => None
    end) log.

Lemma tracker_run_spec es t r :
  tracker_inv t -> Forgotten r ∉ es ->
  let '(log, t') := tracker_run t es in
  tracker_inv t'
  /\ phase_order (tracker_status r t) <= phase_order (tracker_status r t')
  /\ (tracker_terminal r t = true -> completions r log = [] /\ tracker_status r t' = tracker_status r t
      /\ tracker_terminal r t' = true)
  /\ (tracker_terminal r t = false ->
      completions r log = if tracker_terminal r t' then [tracker_status r t'] else []).
Proof.
  revert t. induction es as [|e es IH]; intros t Ht Hnf; simpl.
  - split_and!; [done|lia|done|]. by intros ->.
  - apply not_elem_of_cons in Hnf as [Hne Hnf].
    pose proof (tracker_step_inv t e Ht) as Ht'.
    destruct (tracker_step t e) as [res t'] eqn:Estep. simpl in Ht'. specialize (IH t' Ht' Hnf).
    destruct (tracker_run t' es) as [log t''] eqn:Erun. destruct IH as (I1 & I2 & I3 & I4).
    destruct (decide (event_run e = r)) as [Heq|Hother].
    + destruct e as [r' status sequence source|r']; simpl in *; [|congruence]. subst r'.
      unfold observe in Estep. destruct (observe_run status sequence source (run_state r t)) as [o s'] eqn:Eo.
      simplify_eq. destruct (observe_run_spec _ _ _ _ _ _ (run_state_inv t r Ht) Eo) as (S1 & S2 & _ & S4 & S5).
      assert (Hst : tracker_status r t = rs_status (run_state r t))
        by (unfold tracker_status, run_state; by destruct (t !! r)).
      assert (Htm : tracker_terminal r t = rs_terminal (run_state r t))
        by (unfold tracker_terminal, run_state; by destruct (t !! r)).
      assert (Hst' : tracker_status r (<[r:=s']> t) = rs_status s')
        by (unfold tracker_status; by rewrite lookup_insert_eq).
      assert (Htm' : tracker_terminal r (<[r:=s']> t) = rs_terminal s')
        by (unfold tracker_terminal; by rewrite lookup_insert_eq).
      rewrite Hst', Htm' in *. rewrite Hst, Htm. unfold run_inv in S1. unfold completions in *. simpl.
      assert (Hti : rs_terminal (run_state r t) = terminal_phase (rs_status (run_state r t)))
        by by apply run_state_inv.
      split_and!; [done|lia| |].
      * intros Hterm. specialize (S4 (or_introl Hterm)). rewrite S4 in *. rewrite S1 in *.
        destruct (I3 ltac:(by rewrite <- Hti)) as (H1 & H2 & H3). split_and!; [|done|done].
        destruct o as [o|]; simpl; [|done]. destruct (S5 o eq_refl) as (_ & _ & Ha & _).
        destruct (ro_applied o); [destruct Ha as [Ha _]; congruence|]. rewrite andb_false_r. done.
      * intros Hterm. destruct (rs_terminal s') eqn:Es'.
        -- destruct (I3 eq_refl) as (H1 & H2 & H3). rewrite H3, H2.
           assert (Hch : rs_status s' <> rs_status (run_state r t)) by (intros E; congruence).
           destruct o as [o|]; simpl.
           ++ destruct (S5 o eq_refl) as (Ho & _ & _ & Hna). rewrite String.eqb_refl.
              destruct (ro_applied o); simpl; [|by destruct Hch; apply Hna]. rewrite Ho, <- S1. by f_equal.
           ++ destruct Hch. apply S4. by destruct e; right.
        -- rewrite <- (I4 eq_refl). destruct o as [o|]; simpl; [|done].
           destruct (S5 o eq_refl) as (Ho & _). rewrite Ho, <- S1. by rewrite andb_false_r.
    + pose proof (other_run t e r Hother) as Hl. rewrite Estep in Hl. simpl in Hl.
      assert (Hst : tracker_status r t = tracker_status r t') by (unfold tracker_status; by rewrite Hl).
      assert (Htm : tracker_terminal r t = tracker_terminal r t') by (unfold tracker_terminal; by rewrite Hl).
      assert (Hlog : completions r (match res with Some o => (e, o) :: log | None => log end) = completions r log).
      { destruct res as [o|]; [|done]. unfold completions. simpl.
        destruct e as [r' ? ? ?|]; [|done]. simpl in Hother. destruct o; [|done].
        apply String.eqb_neq in Hother. by rewrite Hother. }
      rewrite Hlog, Hst, Htm. by split_and!.
Qed.

(** As long as a run is not forgotten, whatever is observed of it and of other runs, by events or
    by polling, in any order: its status never goes back, once it is terminal it never changes, and
    exactly one observation applied the completion - the one whose status is reported. *)
Theorem completion_is_applied_once es r :
  Forgotten r ∉ es ->
  let '(log, t) := tracker_run ∅ es in
  completions r log = (if tracker_terminal r t then [tracker_status r t] else [])
  /\ forall more, Forgotten r ∉ more ->
     let t' := snd (tracker_run t more) in
     phase_order (tracker_status r t) <= phase_order (tracker_status r t')
     /\ (tracker_terminal r t = true -> tracker_status r t' = tracker_status r t /\ completions r (fst (tracker_run t more)) = []).
Proof.
  intros Hnf. pose proof (tracker_run_spec es ∅ r ltac:(by intros ? ?; rewrite lookup_empty) Hnf) as H.
  destruct (tracker_run ∅ es) as [log t]. destruct H as (Hi & _ & _ & H). split; [by apply H|].
  intros more Hm. pose proof (tracker_run_spec more t r Hi Hm) as H'.
  destruct (tracker_run t more) as [log' t']. destruct H' as (_ & H1 & H2 & _). simpl. split; [done|].
  intros Ht. by destruct (H2 Ht) as (-> & -> & _).
Qed.

Lemma completion_is_applied_once_witness :
  let es := [Observed "r" "running" (Some 3) "sse"; Observed "r" " Completed " None "poll";
             Observed "s" "queued" None "sse"; Observed "r" "completed" (Some 9) "sse";
             Observed "r" "FAILED" None "sse"; Observed "r" "running" (Some 99) "sse"] in
  completions "r" (fst (tracker_run ∅ es)) = [Run_completed]
  /\ tracker_stats "r" (snd (tracker_run ∅ es)) = (Run_completed, 1, 1, ["poll"; "sse"]).
Proof.
  intros es. split; [|by vm_compute].
  assert (Hnf : Forgotten "r" ∉ es) by (subst es; set_solver).
  pose proof (completion_is_applied_once es "r" Hnf) as H.
  destruct (tracker_run ∅ es) as [log t] eqn:E. destruct H as [H _].
  simpl. rewrite H. subst es. vm_compute in E. by simplify_eq.
Defined.
