(* ===== verification/LockRegistry.v ===== *)
(** * Resource locks of the first version ([locks.py], [models.py], the reaper of [resilience/recovery.py])

    The table [resource_locks], one row per lock and owner.  Every operation is one
    [BEGIN IMMEDIATE] transaction, so it is one step; the instants it reads are inputs, in
    microseconds.  Instants are stored as ISO texts and compared as texts, as SQLite does. *)
From S2P Require Import Prelude.
From S2P Require Import PyTime.

Inductive LockType : Type := READ_SHARED | INTENT_TO_WRITE | WRITE_EXCLUSIVE | LOCK_APPROVAL_PENDING.
#[export] Instance LockType_eq_dec : EqDecision LockType.
Proof. solve_decision. Defined.

Inductive LockStatus : Type := Lock_ACTIVE | Lock_EXPIRED | Lock_RELEASED.
#[export] Instance LockStatus_eq_dec : EqDecision LockStatus.
Proof. solve_decision. Defined.

(** [ResourceLock], with its metadata as the text that is stored. *)
Record ResourceLock := mkLock {
  lk_key : string;
  lk_type : LockType;
  lk_owner : string;
  lk_execution : option string;
  lk_context : option string;
  lk_ttl : Z;
  lk_acquired : option string;
  lk_renewed : option string;
  lk_expires : option string;
  lk_status : LockStatus;
  lk_metadata : string
}.

(** The table, by its primary key. *)
Abbreviation LockTable := (gmap (string * string) ResourceLock).

Inductive lock_error : Type := LockError | OverflowError.

(** [_INCOMPATIBLE_LOCK_PAIRS]: the requested type, and one held. *)
Definition incompatible (requested held : LockType) : bool :=
  match requested, held with
  | WRITE_EXCLUSIVE, _ => true
  | INTENT_TO_WRITE, WRITE_EXCLUSIVE | LOCK_APPROVAL_PENDING, WRITE_EXCLUSIVE => true
  | _, _ => false
  end.

(** A row that [_enforce_compatibility] rejects the request for. *)
Definition conflicting (req row : ResourceLock) : bool :=
  String.eqb (lk_key row) (lk_key req) && bool_decide (lk_status row = Lock_ACTIVE)
  && negb (String.eqb (lk_owner row) (lk_owner req)) && incompatible (lk_type req) (lk_type row).

(** [_enforce_compatibility] *)
Definition enforce_compatibility (req : ResourceLock) (t : LockTable) : result lock_error unit :=
  if bool_decide (lk_type req = READ_SHARED) then Ok tt
  else raise_if (existsb (fun kv => conflicting req (snd kv)) (map_to_list t)) LockError.

Definition set_status (st : LockStatus) (l : ResourceLock) : ResourceLock :=
  let '(mkLock k ty o e c ttl a r x _ m) := l in mkLock k ty o e c ttl a r x st m.

(** [status = 'active' AND expires_at IS NOT NULL AND expires_at <= ?] *)
Definition due (now : string) (l : ResourceLock) : bool :=
  bool_decide (lk_status l = Lock_ACTIVE)
  && match lk_expires l with Some x => String.leb x now | None => false end.

(** [_reap_expired], and the same statement in [recover_state] *)
Definition reap_expired (now_us : Z) (t : LockTable) : LockTable :=
  (fun l => if due (isoformat now_us) l then set_status Lock_EXPIRED l else l) <$> t.
Definition locks_reaped (now_us : Z) (t : LockTable) : Z :=
  Z.of_nat (length (List.filter (fun kv => due (isoformat now_us) (snd kv)) (map_to_list t))).

(** The last instant of year 9999, past which [dt + timedelta] raises. *)
Definition MAX_INSTANT : Z := 253402300800 * 1000000 - 1.

(** [_expires_at] *)
Definition expires_at (now_us ttl : Z) : result lock_error (option string) :=
  if ttl <=? 0 then Ok None
  else let e := now_us + ttl * 1000000 in
       if MAX_INSTANT <? e then Err OverflowError else Ok (Some (isoformat e)).

(** [INSERT ... ON CONFLICT (lock_key, owner) DO UPDATE]: an existing row keeps [acquired_at]. *)
Definition upsert (req : ResourceLock) (now : string) (expires : option string) (t : LockTable) : LockTable :=
  let key := (lk_key req, lk_owner req) in
  let acquired := match t !! key with Some old => lk_acquired old | None => Some now end in
  <[key := mkLock (lk_key req) (lk_type req) (lk_owner req) (lk_execution req) (lk_context req) (lk_ttl req)
             acquired (Some now) expires Lock_ACTIVE (lk_metadata req)]> t.

(** [get] *)
Definition get_lock (key owner : string) (t : LockTable) : option ResourceLock := t !! (key, owner).

(** [acquire], at the instant the reaper reads and the one it reads next. *)
Definition acquire_lock (req : ResourceLock) (reaped_us now_us : Z) (t : LockTable)
    : result lock_error (option ResourceLock) * LockTable :=
  match enforce_compatibility req t with
  | Err e => (Err e, t)
  | Ok _ =>
      let t' := reap_expired reaped_us t in
      match expires_at now_us (lk_ttl req) with
      | Err e => (Err e, t)
      | Ok x =>
          let t'' := upsert req (isoformat now_us) x t' in
          (Ok (get_lock (lk_key req) (lk_owner req) t''), t'')
      end
  end.

(** [release]: what it answers is the row as it was. *)
Definition release_lock (key owner : string) (now_us : Z) (t : LockTable) : option ResourceLock * LockTable :=
  match t !! (key, owner) with
  | None => (None, t)
  | Some (mkLock k ty o e c ttl a r x st m as l) =>
      (Some l, <[(key, owner) := mkLock k ty o e c ttl a (Some (isoformat now_us)) x Lock_RELEASED m]> t)
  end.

(** [list_status]: the rows, of one lock or of all. *)
Definition list_status (key : option string) (t : LockTable) : list ResourceLock :=
  List.filter (fun l => match key with Some k => String.eqb (lk_key l) k | None => true end)
    (map snd (map_to_list t)).

Inductive lock_call : Type :=
| AcquireLock (req : ResourceLock) (reaped_us now_us : Z)
| ReleaseLock (key owner : string) (now_us : Z)
| RecoverLocks (now_us : Z).

Definition lock_step (t : LockTable) (c : lock_call) : LockTable :=
  match c with
  | AcquireLock req r n => snd (acquire_lock req r n t)
  | ReleaseLock k o n => snd (release_lock k o n t)
  | RecoverLocks n => reap_expired n t
  end.
Definition lock_run : LockTable -> list lock_call -> LockTable := foldl lock_step.

(** ** Lemmas *)

Definition active (l : ResourceLock) : bool := bool_decide (lk_status l = Lock_ACTIVE).

(** Every row is stored under its key and owner. *)
Definition rows_keyed (t : LockTable) : Prop := forall k o l, t !! (k, o) = Some l -> lk_key l = k /\ lk_owner l = o.

Lemma set_status_fields st l :
  lk_key (set_status st l) = lk_key l /\ lk_owner (set_status st l) = lk_owner l
  /\ lk_type (set_status st l) = lk_type l /\ lk_status (set_status st l) = st.
Proof. by destruct l. Qed.

Lemma reap_lookup n t k o l :
  reap_expired n t !! (k, o) = Some l ->
  exists l0, t !! (k, o) = Some l0 /\ lk_key l = lk_key l0 /\ lk_owner l = lk_owner l0 /\ lk_type l = lk_type l0
    /\ (active l = true -> l = l0).
Proof.
  unfold reap_expired. rewrite lookup_fmap. destruct (t !! (k, o)) as [l0|] eqn:E; [|done]. intros [= <-].
  exists l0. destruct (due _ l0); [|by split_and!].
  destruct (set_status_fields Lock_EXPIRED l0) as (-> & -> & -> & Hs). split_and!; try done.
  unfold active. by rewrite Hs.
Qed.

Lemma enforce_Ok req t u :
  enforce_compatibility req t = Ok u ->
  lk_type req = READ_SHARED \/ forall k o l, t !! (k, o) = Some l -> conflicting req l = false.
Proof.
  unfold enforce_compatibility. case_bool_decide as E; [by left|]. intros H%raise_if_Ok. right.
  intros k o l Hl. apply not_true_iff_false. intros Hc. apply not_true_iff_false in H. apply H.
  apply existsb_exists. exists ((k, o), l). split; [|done]. by apply list_elem_of_In, elem_of_map_to_list.
Qed.

Lemma lock_acquire_cases req r n t res t' :
  acquire_lock req r n t = (res, t') ->
  (t' = t /\ exists e, res = Err e)
  \/ exists l, res = Ok (Some l) /\ t' = <[(lk_key req, lk_owner req) := l]> (reap_expired r t)
       /\ lk_key l = lk_key req /\ lk_owner l = lk_owner req /\ lk_type l = lk_type req /\ active l = true
       /\ enforce_compatibility req t = Ok tt /\ expires_at n (lk_ttl req) = Ok (lk_expires l).
Proof.
  unfold acquire_lock. destruct (enforce_compatibility req t) as [[]|e] eqn:He.
  2:{ intros [= <- <-]. left. eauto. }
  destruct (expires_at n (lk_ttl req)) as [x|e] eqn:Ex; intros [= <- <-]; [right|left; eauto].
  unfold get_lock, upsert. rewrite lookup_insert_eq. eexists. by split_and!.
Qed.

Lemma keyed_step t c : rows_keyed t -> rows_keyed (lock_step t c).
Proof.
  intros Hk. assert (Hr : forall n, rows_keyed (reap_expired n t)).
  { intros n k o l (l0 & H0 & -> & -> & _)%reap_lookup. by apply Hk. }
  destruct c as [req r n|k o n|n]; simpl; [| |apply Hr].
  - destruct (acquire_lock req r n t) as [res t'] eqn:E. simpl.
    apply lock_acquire_cases in E as [[-> _]|(l & _ & -> & H1 & H2 & _)]; [done|].
    intros k o l'. destruct (decide ((lk_key req, lk_owner req) = (k, o))) as [[= <- <-]|Hne].
    + rewrite lookup_insert_eq. by intros [= <-].
    + rewrite lookup_insert_ne by done. apply Hr.
  - unfold release_lock. destruct (t !! (k, o)) as [[]|] eqn:E; [|done]. simpl.
    intros k' o' l'. destruct (decide ((k, o) = (k', o'))) as [[= <- <-]|Hne].
    + rewrite lookup_insert_eq. intros [= <-]. simpl. by apply (Hk _ _ _ E).
    + rewrite lookup_insert_ne by done. apply Hk.
Qed.

(** ** Exclusion *)

(** Two active locks of different owners on one key: each admits the other, or one is a reader's. *)
Definition lock_inv (t : LockTable) : Prop :=
  forall k o1 o2 l1 l2, o1 <> o2 -> t !! (k, o1) = Some l1 -> t !! (k, o2) = Some l2 ->
    active l1 = true -> active l2 = true ->
    incompatible (lk_type l1) (lk_type l2) = false \/ lk_type l1 = READ_SHARED \/ lk_type l2 = READ_SHARED.

Lemma incompatible_sym a b :
  a <> READ_SHARED -> b <> READ_SHARED -> incompatible a b = incompatible b a.
Proof. by destruct a, b. Qed.

Lemma conflicting_false req l o :
  conflicting req l = false -> lk_key l = lk_key req -> lk_owner l = o -> o <> lk_owner req -> active l = true ->
  incompatible (lk_type req) (lk_type l) = false.
Proof.
  unfold conflicting, active. intros Hc Hk Ho Hne Ha. rewrite Hk, String.eqb_refl, Ha, Ho in Hc.
  apply String.eqb_neq in Hne. by rewrite Hne in Hc.
Qed.

Lemma lock_inv_step t c : rows_keyed t -> lock_inv t -> lock_inv (lock_step t c).
Proof.
  intros Hk Hi. assert (Hr : forall n, lock_inv (reap_expired n t)).
  { intros n k o1 o2 l1 l2 Hne (m1 & H1 & _ & _ & -> & E1)%reap_lookup (m2 & H2 & _ & _ & -> & E2)%reap_lookup A1 A2.
    rewrite (E1 A1) in A1. rewrite (E2 A2) in A2. by eapply Hi. }
  destruct c as [req r n|k o n|n]; simpl; [| |apply Hr].
  - destruct (acquire_lock req r n t) as [res t'] eqn:E. simpl.
    apply lock_acquire_cases in E as [[-> _]|(l & _ & -> & Hkey & Hown & Hty & Hact & Henf & _)]; [done|].
    apply enforce_Ok in Henf.
    assert (Hone : forall o2 l2, o2 <> lk_owner req -> reap_expired r t !! (lk_key req, o2) = Some l2 -> active l2 = true ->
              incompatible (lk_type req) (lk_type l2) = false \/ lk_type req = READ_SHARED).
    { intros o2 l2 Hne (m & Hm & _ & _ & Et & Ea)%reap_lookup Ha. destruct Henf as [|Hc]; [by right|left].
      pose proof (Ea Ha) as ->. destruct (Hk _ _ _ Hm) as [K1 K2].
      by apply (conflicting_false req m o2); [eapply Hc|..]. }
    intros k o1 o2 l1 l2 Hne.
    destruct (decide ((lk_key req, lk_owner req) = (k, o1))) as [[= <- <-]|H1].
    + rewrite lookup_insert_eq. intros [= <-]. rewrite lookup_insert_ne by congruence. intros H2 A1 A2.
      rewrite Hty. destruct (Hone o2 l2 ltac:(congruence) H2 A2) as [|]; [by left|by right; left].
    + rewrite (lookup_insert_ne _ _ _ _ H1). destruct (decide ((lk_key req, lk_owner req) = (k, o2))) as [[= <- <-]|H2].
      * rewrite lookup_insert_eq. intros H3 [= <-] A1 A2. rewrite Hty.
        destruct (Hone o1 l1 ltac:(congruence) H3 A1) as [Hf|]; [|by right; right].
        destruct (decide (lk_type l1 = READ_SHARED)) as [|R1]; [by right; left|].
        destruct (decide (lk_type req = READ_SHARED)) as [|R2]; [by right; right|].
        left. by rewrite incompatible_sym.
      * rewrite lookup_insert_ne by done. by apply Hr.
  - unfold release_lock. destruct (t !! (k, o)) as [[]|] eqn:E; [|done]. simpl.
    intros k' o1 o2 l1 l2 Hne.
    destruct (decide ((k, o) = (k', o1))) as [[= <- <-]|H1].
    + rewrite lookup_insert_eq. by intros [= <-].
    + rewrite (lookup_insert_ne _ _ _ _ H1). destruct (decide ((k, o) = (k', o2))) as [[= <- <-]|H2].
      * rewrite lookup_insert_eq. by intros ? [= <-].
      * rewrite lookup_insert_ne by done. by apply Hi.
Qed.

Lemma lock_inv_run t cs : rows_keyed t -> lock_inv t -> rows_keyed (lock_run t cs) /\ lock_inv (lock_run t cs).
Proof.
  revert t. induction cs as [|c cs IH]; intros t Hk Hi; [done|]. simpl.
  apply IH; [by apply keyed_step|by apply lock_inv_step].
Qed.

(** [C40] Over any history of acquisitions, releases and recoveries: while one owner holds a lock for
    writing exclusively, no other owner holds a lock of any kind on the same key except a shared
    reader's. *)
Theorem write_locks_exclude cs k o1 o2 l1 l2 :
  let t := lock_run ∅ cs in
  o1 <> o2 -> t !! (k, o1) = Some l1 -> t !! (k, o2) = Some l2 -> active l1 = true -> active l2 = true ->
  lk_type l1 = WRITE_EXCLUSIVE -> lk_type l2 = READ_SHARED.
Proof.
  intros t Hne H1 H2 A1 A2 E.
  destruct (lock_inv_run ∅ cs ltac:(by intros ? ? ?; rewrite lookup_empty) ltac:(by intros ? ? ? ? ? ?; rewrite lookup_empty))
    as [_ Hi].
  destruct (Hi k o1 o2 l1 l2 Hne H1 H2 A1 A2) as [H|[H|H]]; [by rewrite E in H|congruence|done].
Qed.

(** What one acquisition does.  It fails, leaving every row as it was, exactly when another owner
    has an active incompatible row - expired or not - or the expiry has no date; otherwise the owner's row
    is active, of the requested type, and expires as requested. *)
Theorem acquire_lock_spec req r n t :
  match acquire_lock req r n t with
  | (Err LockError, t') => t' = t /\ lk_type req <> READ_SHARED
      /\ exists k o l, t !! (k, o) = Some l /\ conflicting req l = true
  | (Err OverflowError, t') => t' = t /\ 0 < lk_ttl req /\ MAX_INSTANT < n + lk_ttl req * 1000000
  | (Ok res, t') => exists l, res = Some l /\ t' !! (lk_key req, lk_owner req) = Some l
      /\ active l = true /\ lk_type l = lk_type req
      /\ lk_expires l = (if lk_ttl req <=? 0 then None else Some (isoformat (n + lk_ttl req * 1000000)))
      /\ forall k o, (k, o) <> (lk_key req, lk_owner req) -> t' !! (k, o) = reap_expired r t !! (k, o)
  end.
Proof.
  destruct (acquire_lock req r n t) as [[res|e] t'] eqn:E; pose proof (lock_acquire_cases _ _ _ _ _ _ E) as Hc.
  - destruct Hc as [[_ [? ?]]|(l & [= ->] & -> & _ & _ & Ht & Ha & _ & Hx)]; [done|].
    exists l. rewrite lookup_insert_eq. split_and!; try done.
    + unfold expires_at in Hx. destruct (lk_ttl req <=? 0); [congruence|]. destruct (MAX_INSTANT <? _); congruence.
    + intros k o Hne. by rewrite lookup_insert_ne by congruence.
  - unfold acquire_lock, enforce_compatibility, expires_at in E.
    case_bool_decide as Hrs.
    + destruct (Z.leb_spec (lk_ttl req) 0); [done|].
      destruct (Z.ltb_spec MAX_INSTANT (n + lk_ttl req * 1000000)); [|done]. simplify_eq. by split_and!.
    + destruct (existsb _ _) eqn:Ee; simpl in E.
      * simplify_eq. split_and!; [done|done|]. apply existsb_exists in Ee as ([[k o] l] & Hin & Hcf).
        exists k, o, l. split; [|done]. by apply elem_of_map_to_list, list_elem_of_In.
      * destruct (Z.leb_spec (lk_ttl req) 0); [done|].
        destruct (Z.ltb_spec MAX_INSTANT (n + lk_ttl req * 1000000)); [|done]. simplify_eq. by split_and!.
Qed.

(** ** Histories *)

Module LockHistories.
Definition lock (k : string) (ty : LockType) (o : string) (ttl : Z) : ResourceLock :=
  mkLock k ty o None None ttl None None None Lock_ACTIVE "{}".

Definition writer_then_others : list lock_call :=
  [AcquireLock (lock "r" WRITE_EXCLUSIVE "a" 0) 0 0; AcquireLock (lock "r" INTENT_TO_WRITE "b" 0) 1 1;
   AcquireLock (lock "r" READ_SHARED "c" 0) 2 2].

(** The writer keeps the others out, except the reader. *)
Lemma write_locks_exclude_witness :
  let t := lock_run ∅ writer_then_others in
  t !! ("r", "b") = None /\ option_map lk_type (t !! ("r", "c")) = Some READ_SHARED
  /\ option_map active (t !! ("r", "a")) = Some true.
Proof.
  intros t. split_and!; [by vm_compute| |by vm_compute].
  destruct (t !! ("r", "c")) as [l2|] eqn:E; [|by vm_compute in E]. simpl. f_equal.
  destruct (t !! ("r", "a")) as [l1|] eqn:E1; [|by vm_compute in E1].
  eapply (write_locks_exclude writer_then_others "r" "a" "c" l1 l2); try done;
    (vm_compute in E; vm_compute in E1; by simplify_eq).
Defined.

(** Finding: a shared lock is granted while another owner writes exclusively. *)
Example reader_joins_a_writer :
  let t := lock_run ∅ writer_then_others in
  option_map active (t !! ("r", "a")) = Some true /\ option_map active (t !! ("r", "c")) = Some true.
Proof. by vm_compute. Qed.

(** Finding: an exclusive lock that expired long ago refuses a new one, and goes on refusing: the check
    runs before the reaper, whose work a refusal rolls back. *)
Example expired_lock_still_refuses :
  let t := lock_run ∅ [AcquireLock (lock "r" WRITE_EXCLUSIVE "a" 60) 0 0] in
  let year := 31536000 * 1000000 in
  acquire_lock (lock "r" WRITE_EXCLUSIVE "b" 60) year year t = (Err LockError, t)
  /\ locks_reaped year t = 1.
Proof. by vm_compute. Qed.

(** Finding: what [release] answers still says that the lock is active. *)
Example release_answers_the_old_row :
  let t := lock_run ∅ [AcquireLock (lock "r" WRITE_EXCLUSIVE "a" 0) 0 0] in
  option_map lk_status (fst (release_lock "r" "a" 5 t)) = Some Lock_ACTIVE
  /\ option_map lk_status (snd (release_lock "r" "a" 5 t) !! ("r", "a")) = Some Lock_RELEASED.
Proof. by vm_compute. Qed.
End LockHistories.
