(* ===== verification/ApprovalRegistry.v ===== *)
(** * Approvals of the first version ([approvals.py])

    The table [approvals].  Every operation is one [BEGIN IMMEDIATE] transaction: what it did before
    an exception is rolled back, except what it committed itself.  Instants are read from the clock
    as inputs, in microseconds; [fromisoformat] of a stored text - which formats it knows depends on
    the version of Python - is a parameter that answers the instant and whether the text had an offset. *)
From S2P Require Import Prelude.
From S2P Require Import PyText.
From S2P Require Import PyTime.

Inductive ApprovalStatus : Type := Requested | Approved | Rejected | Expired | Consumed | Stale.
#[export] Instance ApprovalStatus_eq_dec : EqDecision ApprovalStatus.
Proof. solve_decision. Defined.

(** [ApprovalRecord]; the chain and the metadata as the texts that are stored. *)
Record Approval := mkApproval {
  ap_id : string;
  ap_action : string;
  ap_resource : option string;
  ap_fingerprint : option string;
  ap_principal : option string;
  ap_chain : string;
  ap_decision : ApprovalStatus;
  ap_expires : option string;
  ap_created : string;
  ap_decided : option string;
  ap_consumed : option string;
  ap_metadata : string;
  ap_assurance : string
}.

Abbreviation ApprovalTable := (gmap string Approval).

Inductive approval_error : Type :=
| RegistryError | ApprovalNotFound | ApprovalStaleError | ApprovalExpiredError | ApprovalStatusError
| ApprovalConsumedError | IntegrityError | ApprovalValueError | ApprovalTypeError.

(** ** Identifiers *)

(** [_validate_approval_id] *)
Definition validate_approval_id (i : string) : result approval_error unit :=
  do! raise_if (negb ((1 <=? py_len i) && (py_len i <=? 160))) RegistryError in
  raise_if (negb (match_dollar (first_rest is_alnum (fun c => is_alnum c || one_of "._:-" c) 159) i)) RegistryError.

(** [hmac.compare_digest] of texts, which must be ASCII. *)
Definition ascii_text (s : string) : bool := all_chars (fun c => code c <? 128) s.
Definition compare_digest (a b : string) : result approval_error bool :=
  do! raise_if (negb (ascii_text a && ascii_text b)) ApprovalTypeError in Ok (String.eqb a b).

(** ** Operations *)

Section Registry.
Variable fromisoformat : string -> option (Z * bool).

Definition set_decision (d : ApprovalStatus) (decided : string) (a : Approval) : Approval :=
  let '(mkApproval i ac r f p ch _ e c _ co m s) := a in mkApproval i ac r f p ch d e c (Some decided) co m s.
Definition set_principal (p' : option string) (a : Approval) : Approval :=
  let '(mkApproval i ac r f p ch d e c de co m s) := a in
  mkApproval i ac r f (match p' with Some _ => p' | None => p end) ch d e c de co m s.
Definition set_consumed (now : string) (a : Approval) : Approval :=
  let '(mkApproval i ac r f p ch _ e c de _ m s) := a in mkApproval i ac r f p ch Consumed e c de (Some now) m s.

(** An operation answers a record or raises, and leaves a table. *)
Abbreviation op := (result approval_error Approval * ApprovalTable)%type.

(** [get] *)
Definition get_approval (i : string) (t : ApprovalTable) : result approval_error Approval :=
  do! validate_approval_id i in
  match t !! i with Some a => Ok a | None => Err ApprovalNotFound end.

(** [create] *)
Definition create (a : Approval) (t : ApprovalTable) : op :=
  match validate_approval_id (ap_id a) with
  | Err e => (Err e, t)
  | Ok _ =>
      match t !! ap_id a with
      | Some _ => (Err IntegrityError, t)
      | None => let t' := <[ap_id a := a]> t in (get_approval (ap_id a) t', t')
      end
  end.

(** The first statement of a transaction: the row. *)
Definition with_row (i : string) (t : ApprovalTable) (k : Approval -> op) : op :=
  match validate_approval_id i with
  | Err e => (Err e, t)
  | Ok _ => match t !! i with Some a => k a | None => (Err ApprovalNotFound, t) end
  end.

(** The update is committed and the new row read back. *)
Definition commit (i : string) (a : Approval) (t : ApprovalTable) : op :=
  let t' := <[i := a]> t in (get_approval i t', t').

(** [respond], at the instant it records and the one it compares with. *)
Definition respond (i : string) (d : ApprovalStatus) (principal : option string) (now_us check_us : Z)
    (t : ApprovalTable) : op :=
  with_row i t (fun a =>
    if negb (bool_decide (ap_decision a = Requested)) then (Err ApprovalStatusError, t)
    else
      let expired :=
        match ap_expires a with
        | None => Ok false
        | Some x =>
            match fromisoformat x with
            | None => Err ApprovalValueError
            | Some (_, false) => Err ApprovalTypeError
            | Some (e, true) => Ok (e <=? check_us)
            end
        end in
      match expired with
      | Err e => (Err e, t)
      | Ok true => (Err ApprovalExpiredError, t)
      | Ok false => commit i (set_principal principal (set_decision d (isoformat now_us) a)) t
      end).

Definition is_empty (o : option string) : bool :=
  match o with Some s => String.eqb s "" | None => true end.

(** The checks of [consume] after those of the decision and the expiry. *)
Definition consume_checks (a : Approval) (fp : option string) (require_fingerprint : bool)
    (expected_action : option string) (now : string) : result approval_error unit :=
  do! raise_if (String.ltb now (ap_created a)) ApprovalExpiredError in
  do! raise_if (match expected_action with Some x => negb (String.eqb (ap_action a) x) | None => false end)
        ApprovalStaleError in
  do! raise_if (require_fingerprint && is_empty fp) ApprovalStaleError in
  do! raise_if (require_fingerprint && is_empty (ap_fingerprint a)) ApprovalStaleError in
  do! (match fp, ap_fingerprint a with
       | Some f, Some s => let! same := compare_digest f s in raise_if (negb same) ApprovalStaleError
       | _, _ => Ok tt
       end) in
  raise_if (match ap_fingerprint a, fp with Some _, None => true | _, _ => false end) ApprovalStaleError.

(** [consume]; an expired approval is marked so, and committed, before it raises. *)
Definition consume (i : string) (fp : option string) (require_fingerprint : bool)
    (expected_action : option string) (now_us : Z) (t : ApprovalTable) : op :=
  let now := isoformat now_us in
  with_row i t (fun a =>
    if bool_decide (ap_decision a = Consumed) || match ap_consumed a with Some _ => true | None => false end
    then (Err ApprovalConsumedError, t)
    else if bool_decide (ap_decision a = Expired) then (Err ApprovalExpiredError, t)
    else if negb (bool_decide (ap_decision a = Approved)) then (Err ApprovalStatusError, t)
    else
      let expired :=
        match ap_expires a with
        | None => Some false
        | Some x => match fromisoformat x with None => None | Some (e, _) => Some (e <=? now_us) end
        end in
      match expired with
      | None => (Err ApprovalExpiredError, t)
      | Some true => (Err ApprovalExpiredError, <[i := set_decision Expired now a]> t)
      | Some false =>
          match consume_checks a fp require_fingerprint expected_action now with
          | Err e => (Err e, t)
          | Ok _ => commit i (set_consumed now a) t
          end
      end).

(** [mark_stale] *)
Definition mark_stale (i : string) (now_us : Z) (t : ApprovalTable) : op :=
  with_row i t (fun a =>
    match ap_decision a with
    | Stale | Consumed | Rejected => (get_approval i t, t)
    | _ => commit i (set_decision Stale (isoformat now_us) a) t
    end).

(** [expire] *)
Definition expire (i : string) (now_us : Z) (t : ApprovalTable) : op :=
  with_row i t (fun a =>
    if negb (bool_decide (ap_decision a = Requested)) then (get_approval i t, t)
    else commit i (set_decision Expired (isoformat now_us) a) t).

(** ** Histories *)

Inductive approval_call : Type :=
| Create (a : Approval)
| Respond (i : string) (d : ApprovalStatus) (principal : option string) (now_us check_us : Z)
| Consume (i : string) (fp : option string) (require_fingerprint : bool) (expected_action : option string) (now_us : Z)
| MarkStale (i : string) (now_us : Z)
| Expire (i : string) (now_us : Z).

Definition run_call (c : approval_call) (t : ApprovalTable) : op :=
  match c with
  | Create a => create a t
  | Respond i d p n k => respond i d p n k t
  | Consume i f r x n => consume i f r x n t
  | MarkStale i n => mark_stale i n t
  | Expire i n => expire i n t
  end.

(** Where a history leads, and what each call answered. *)
Fixpoint approval_run (t : ApprovalTable) (cs : list approval_call)
    : list (approval_call * result approval_error Approval) * ApprovalTable :=
  match cs with
  | [] => ([], t)
  | c :: rest =>
      let '(res, t') := run_call c t in
      let '(log, t'') := approval_run t' rest in
      ((c, res) :: log, t'')
  end.

(** The successful consumptions of [i]. *)
Definition consumptions (i : string) (log : list (approval_call * result approval_error Approval)) : nat :=
  length (List.filter (fun '(c, res) =>
    match c with Consume j _ _ _ _ => String.eqb j i && is_ok res | _ => false end) log).

(** ** What a call does to a row *)

(** The parts of a row no call changes. *)
Definition bound_parts (a : Approval) :=
  (ap_id a, ap_action a, ap_resource a, ap_fingerprint a, ap_expires a, ap_created a, ap_metadata a, ap_assurance a).

(** Rejected, consumed and stale are final. *)
Definition final (a : Approval) : bool :=
  match ap_decision a with Rejected | Consumed | Stale => true | _ => false end
  || match ap_consumed a with Some _ => true | None => false end.

(** How a row may change. *)
Inductive changes (a : Approval) : Approval -> Prop :=
| Unchanged : changes a a
| Responded d p x : ap_decision a = Requested -> changes a (set_principal p (set_decision d x a))
| Marked d x : (d = Expired \/ d = Stale) -> (ap_decision a <> Rejected /\ ap_decision a <> Consumed /\ ap_decision a <> Stale) ->
    changes a (set_decision d x a)
| Used x : ap_decision a = Approved -> ap_consumed a = None -> changes a (set_consumed x a).

Lemma changes_bound a b : changes a b -> bound_parts b = bound_parts a.
Proof. intros [|d p x _|d x _ _|x _ _]; by destruct a. Qed.

Lemma with_row_cases i t k o :
  with_row i t k = o -> (exists e, o = (Err e, t)) \/ exists a, t !! i = Some a /\ validate_approval_id i = Ok tt /\ o = k a.
Proof.
  intros <-. unfold with_row. destruct (validate_approval_id i) as [[]|e]; [|left; eauto].
  destruct (t !! i) as [a|]; [right; eauto|left; eauto].
Qed.

Lemma commit_ok i a t : validate_approval_id i = Ok tt -> commit i a t = (Ok a, <[i := a]> t).
Proof. intros Hv. unfold commit, get_approval. by rewrite Hv, lookup_insert_eq. Qed.

Lemma same_row i t a : validate_approval_id i = Ok tt -> t !! i = Some a -> get_approval i t = Ok a.
Proof. intros Hv Ha. unfold get_approval. by rewrite Hv, Ha. Qed.

(** The row a call is about. *)
Definition call_id (c : approval_call) : string :=
  match c with
  | Create a => ap_id a
  | Respond i _ _ _ _ | Consume i _ _ _ _ | MarkStale i _ | Expire i _ => i
  end.

(** What a successful consumption has established. *)
Definition consumable (i : string) (fp : option string) (require_fingerprint : bool)
    (expected_action : option string) (now_us : Z) (a : Approval) : Prop :=
  ap_decision a = Approved /\ ap_consumed a = None
  /\ (forall x, ap_expires a = Some x -> exists e o, fromisoformat x = Some (e, o) /\ now_us < e)
  /\ (forall x, expected_action = Some x -> ap_action a = x)
  /\ ap_fingerprint a = match ap_fingerprint a with Some _ => fp | None => None end
  /\ (require_fingerprint = true -> exists f, fp = Some f /\ f <> "" /\ ap_fingerprint a = Some f).

Lemma consume_checks_Ok a fp rq x now u :
  consume_checks a fp rq x now = Ok u ->
  (forall y, x = Some y -> ap_action a = y)
  /\ ap_fingerprint a = match ap_fingerprint a with Some _ => fp | None => None end
  /\ (rq = true -> exists f, fp = Some f /\ f <> "" /\ ap_fingerprint a = Some f).
Proof.
  unfold consume_checks. rewrite rbind_Ok. intros (_ & _ & H). revert H.
  rewrite rbind_Ok. intros (? & H2%raise_if_Ok & H). revert H.
  rewrite rbind_Ok. intros (? & H3%raise_if_Ok & H). revert H.
  rewrite rbind_Ok. intros (? & H4%raise_if_Ok & H). revert H.
  rewrite rbind_Ok. intros (? & H5 & H6%raise_if_Ok).
  assert (Hsame : forall f s, fp = Some f -> ap_fingerprint a = Some s -> s = f).
  { intros f s -> Es. rewrite Es in H5. unfold compare_digest in H5.
    destruct (negb _); simpl in H5; [done|]. apply raise_if_Ok, negb_false_iff, String.eqb_eq in H5. done. }
  split_and!.
  - intros y ->. by apply negb_false_iff, String.eqb_eq in H2.
  - destruct (ap_fingerprint a) as [s|] eqn:Es; [|done]. destruct fp as [f|]; [|done]. f_equal. by apply Hsame.
  - intros ->. simpl in H3, H4. destruct fp as [f|]; [|done]. exists f. simpl in H3. apply String.eqb_neq in H3.
    split_and!; [done|done|]. destruct (ap_fingerprint a) as [s|] eqn:Es; [|done]. f_equal. by apply Hsame.
Qed.

(** What one call does: a new row, a change of its own row, or nothing. *)
Lemma run_call_spec c t res t' :
  run_call c t = (res, t') ->
  (t' = t /\ match c, res with Create _, Ok _ | Consume _ _ _ _ _, Ok _ => False | _, _ => True end)
  \/ (exists a, c = Create a /\ t !! ap_id a = None /\ t' = <[ap_id a := a]> t)
  \/ (exists a b, t !! call_id c = Some a /\ changes a b /\ t' = <[call_id c := b]> t
      /\ match c with
         | Consume i f r x n =>
             ((exists e, res = Err e) /\ ap_decision a = Approved /\ b = set_decision Expired (isoformat n) a)
             \/ (consumable i f r x n a /\ b = set_consumed (isoformat n) a /\ res = Ok b)
         | _ => True
         end).
Proof.
  destruct c as [a|i d p n k|i f r x n|i n|i n]; simpl.
  - unfold create. destruct (validate_approval_id (ap_id a)) eqn:Hv; [|intros [= <- <-]; by left].
    destruct (t !! ap_id a) eqn:Ha; intros [= <- <-]; [by left|]. right; left. eauto.
  - unfold respond. intros [[e [= -> ->]]|(a & Ha & Hv & Hk)]%with_row_cases; [by left|].
    case_bool_decide as Hr; simpl in Hk; [|simplify_eq; by left].
    destruct (match ap_expires a with Some _ => _ | None => _ end) as [[]|e]; [simplify_eq; by left| |simplify_eq; by left].
    rewrite commit_ok in Hk by done. simplify_eq. right; right. eexists a, _.
    split_and!; [done|by apply Responded|done|done].
  - unfold consume. intros [[e [= -> ->]]|(a & Ha & Hv & Hk)]%with_row_cases; [by left|].
    destruct (bool_decide (ap_decision a = Consumed) || _) eqn:Ec; [simplify_eq; by left|].
    apply orb_false_iff in Ec as [_ Hc].
    destruct (bool_decide (ap_decision a = Expired)); [simplify_eq; by left|].
    case_bool_decide as Hap; simpl in Hk; [|simplify_eq; by left].
    assert (Hcn : ap_consumed a = None) by (by destruct (ap_consumed a)).
    destruct (match ap_expires a with Some _ => _ | None => _ end) as [[]|] eqn:Ex; [| |simplify_eq; by left].
    + simplify_eq. right; right. exists a, (set_decision Expired (isoformat n) a).
      split_and!; [done| |done|left; split_and!; [by eexists|done|done]]. apply Marked; [by left|]. by rewrite Hap.
    + destruct (consume_checks a f r x (isoformat n)) as [u|e] eqn:Ek; [|simplify_eq; by left].
      rewrite commit_ok in Hk by done. simplify_eq. right; right. eexists a, _.
      split_and!; [done|by apply Used|done|right]. split; [|done].
      apply consume_checks_Ok in Ek as (K1 & K2 & K3). split_and!; try done.
      intros y Ey. rewrite Ey in Ex. destruct (fromisoformat y) as [[e o]|]; [|done].
      simplify_eq. exists e, o. split; [done|]. lia.
  - unfold mark_stale. intros [[e [= -> ->]]|(a & Ha & Hv & Hk)]%with_row_cases; [by left|].
    destruct (ap_decision a) eqn:Hd; try (simplify_eq; by left);
      rewrite commit_ok in Hk by done; simplify_eq; right; right; eexists a, _;
      (split_and!; [done| |done|done]); apply Marked; rewrite ?Hd; auto.
  - unfold expire. intros [[e [= -> ->]]|(a & Ha & Hv & Hk)]%with_row_cases; [by left|].
    case_bool_decide as Hr; simpl in Hk; [|simplify_eq; by left].
    rewrite commit_ok in Hk by done. simplify_eq. right; right. eexists a, _.
    split_and!; [done| |done|done]. apply Marked; [by left|]. by rewrite Hr.
Qed.

Lemma changes_consumed a b x : changes a b -> ap_consumed a = Some x -> ap_consumed b = Some x.
Proof. intros [|d p y _|d y _ _|y _ Hn] Hc; [done|by destruct a..|congruence]. Qed.

Lemma changes_final a b : changes a b -> final a = true -> ap_consumed a = None \/ ap_decision a = Consumed ->
  b = a.
Proof.
  intros [|d p y Hr|d y _ Hn|y Ha Hn] Hf Hc; [done|exfalso..]; unfold final in Hf.
  - destruct Hc as [Hc|Hc]; [|congruence]. by rewrite Hr, Hc in Hf.
  - destruct Hc as [Hc|Hc]; [|tauto]. rewrite Hc in Hf. destruct (ap_decision a); simpl in Hf; tauto || done.
  - by rewrite Ha, Hn in Hf.
Qed.

(** A row is there for good, and keeps what binds it. *)
Lemma run_call_row c t res t' i a :
  run_call c t = (res, t') -> t !! i = Some a -> exists b, t' !! i = Some b /\ changes a b.
Proof.
  intros Hrun Ha.
  apply run_call_spec in Hrun as [[-> _]|[(a' & _ & Hn & ->)|(a' & b & Ha' & Hch & -> & _)]].
  - exists a. split; [done|constructor].
  - exists a. rewrite lookup_insert_ne by congruence. split; [done|constructor].
  - destruct (decide (call_id c = i)) as [E|Hne].
    + exists b. rewrite E in *. rewrite lookup_insert_eq. split; [done|]. by simplify_eq.
    + exists a. rewrite lookup_insert_ne by done. split; [done|constructor].
Qed.

(** A consumed row admits no further consumption, and stays consumed. *)
Lemma consumption_stays cs t i a x :
  t !! i = Some a -> ap_consumed a = Some x ->
  consumptions i (fst (approval_run t cs)) = 0%nat
  /\ exists b, snd (approval_run t cs) !! i = Some b /\ ap_consumed b = Some x.
Proof.
  revert t a. induction cs as [|c cs IH]; intros t a Ha Hx; simpl; [by split; [|exists a]|].
  destruct (run_call c t) as [res t'] eqn:Hrun.
  destruct (run_call_row _ _ _ _ _ _ Hrun Ha) as (b & Hb & Hch).
  destruct (IH t' b Hb (changes_consumed _ _ _ Hch Hx)) as [H1 H2].
  destruct (approval_run t' cs) as [log t''] eqn:Er. simpl in *. split; [|done].
  unfold consumptions in *. simpl. destruct c as [|j d p n k|j f r y n|j n|j n]; try done.
  destruct (String.eqb_spec j i) as [->|Hji]; simpl; [|done].
  apply run_call_spec in Hrun as [[-> Hcase]|[(? & ? & _)|(a' & b' & Ha' & Hch' & -> & Hcase)]]; [|done|].
  - by destruct res.
  - simpl in *. destruct Hcase as [[[e ->] _]|[(_ & Hn & _) _]]; [done|]. congruence.
Qed.

Lemma single_use_lemma cs t i : (consumptions i (fst (approval_run t cs)) <= 1)%nat.
Proof.
  revert t. induction cs as [|c cs IH]; intros t; simpl; [unfold consumptions; simpl; lia|].
  destruct (run_call c t) as [res t'] eqn:Hrun. specialize (IH t').
  destruct (approval_run t' cs) as [log t''] eqn:Er. simpl in *. unfold consumptions in *. simpl.
  destruct c as [|j d p n k|j f r y n|j n|j n]; try done.
  destruct (String.eqb_spec j i) as [->|Hji]; simpl; [|done]. destruct res as [b|e]; simpl; [|done].
  apply run_call_spec in Hrun as [[_ []]|[(? & ? & _)|(a & b' & Ha & _ & -> & Hcase)]]; [done|].
  destruct Hcase as [[[? ?] _]|(_ & -> & [= ->])]; [done|].
  pose proof (consumption_stays cs (<[i := set_consumed (isoformat n) a]> t) i (set_consumed (isoformat n) a)
    (isoformat n) ltac:(apply lookup_insert_eq) ltac:(by destruct a)) as [H0 _].
  unfold consumptions in H0. simpl in Er. rewrite Er in H0. simpl in H0. lia.
Qed.

Lemma history_row cs t i a :
  t !! i = Some a -> exists b, snd (approval_run t cs) !! i = Some b /\ bound_parts b = bound_parts a
    /\ (final a = true -> ap_consumed a = None \/ ap_decision a = Consumed -> b = a).
Proof.
  revert t a. induction cs as [|c cs IH]; intros t a Ha; simpl; [by exists a|].
  destruct (run_call c t) as [res t'] eqn:Hrun. destruct (run_call_row _ _ _ _ _ _ Hrun Ha) as (b & Hb & Hch).
  destruct (IH t' b Hb) as (b' & Hb' & Hp & Hf). destruct (approval_run t' cs) as [log t''] eqn:Er. simpl in *.
  exists b'. split_and!; [done|by rewrite Hp; apply changes_bound|].
  intros H1 H2. pose proof (changes_final _ _ Hch H1 H2) as ->. by apply Hf.
Qed.

(** An approval is consumed at most once, over any history of all the operations on any approvals;
    its action, its resource, its fingerprint and its expiry never change; and once it is consumed,
    rejected or stale, nothing changes any more. *)
Theorem approvals_are_single_use cs t i :
  (consumptions i (fst (approval_run t cs)) <= 1)%nat
  /\ forall a, t !! i = Some a -> exists b, snd (approval_run t cs) !! i = Some b /\ bound_parts b = bound_parts a
      /\ (final a = true -> ap_consumed a = None \/ ap_decision a = Consumed -> b = a).
Proof. split; [apply single_use_lemma|]. intros a. apply history_row. Qed.

(** A consumption that succeeds found the approval approved, unconsumed and not expired, for the
    expected action, and bound to the fingerprint that was presented - which is there, and not
    empty, when one is required; and it leaves it consumed.  One that fails changes nothing,
    except that an approval found expired is marked so. *)
Theorem consume_is_checked i fp rq x now_us t :
  match consume i fp rq x now_us t with
  | (Ok b, t') => exists a, t !! i = Some a /\ consumable i fp rq x now_us a
      /\ b = set_consumed (isoformat now_us) a /\ t' = <[i := b]> t
  | (Err _, t') => t' = t \/ exists a, t !! i = Some a /\ ap_decision a = Approved
      /\ t' = <[i := set_decision Expired (isoformat now_us) a]> t
  end.
Proof.
  destruct (consume i fp rq x now_us t) as [res t'] eqn:E.
  pose proof (run_call_spec (Consume i fp rq x now_us) t res t' E) as [[-> H]|[(? & ? & _)|(a & b & Ha & Hch & -> & H)]];
    [|done|].
  - destruct res; [done|]. by left.
  - simpl in *. destruct H as [([e ->] & Hd & ->)|(Hc & -> & ->)]; [right|]; by exists a.
Qed.
End Registry.

(** ** Histories *)

Module ApprovalHistories.
(** The texts the registry itself writes, read back; every other text is refused. *)
Definition parse (s : string) : option (Z * bool) :=
  if String.eqb s (isoformat 100000000) then Some (100000000, true)
  else if String.eqb s "1970-01-01" then Some (0, false) else None.
Definition approval (i : string) (expires : option string) : Approval :=
  mkApproval i "deploy" (Some "prod") (Some "fp") None "[]" Requested expires (isoformat 0) None None "{}" "caller_asserted".

(** Approved, then consumed: a second consumer and a late refusal come too late. *)
Definition happy : list approval_call :=
  [Create (approval "a1" (Some (isoformat 100000000))); Respond "a1" Approved (Some "bob") 1000000 1000000;
   Consume "a1" (Some "other") true None 2000000; Consume "a1" (Some "fp") true (Some "deploy") 3000000;
   Consume "a1" (Some "fp") true (Some "deploy") 4000000; MarkStale "a1" 5000000].

Lemma approvals_are_single_use_witness :
  consumptions "a1" (fst (approval_run parse ∅ happy)) = 1%nat
  /\ (consumptions "a1" (fst (approval_run parse ∅ (happy ++ happy))) <= 1)%nat.
Proof. split; [by vm_compute|]. apply (approvals_are_single_use parse (happy ++ happy) ∅ "a1"). Defined.

(** [respond] cannot read an expiry without an offset, which [consume] takes for UTC. *)
Example naive_expiry :
  let t := <["a1" := approval "a1" (Some "1970-01-01")]> ∅ in
  fst (respond parse "a1" Approved None 0 0 t) = Err ApprovalTypeError
  /\ fst (consume parse "a1" (Some "fp") true None 5
            (<["a1" := set_decision Approved "" (approval "a1" (Some "1970-01-01"))]> ∅)) = Err ApprovalExpiredError.
Proof. by vm_compute. Qed.

(** An identifier may end with a newline, which the pattern was meant to exclude. *)
Example newline_identifier : validate_approval_id ("a1" +:+ String (Ascii.ascii_of_nat 10) "") = Ok tt.
Proof. by vm_compute. Qed.
End ApprovalHistories.
