(* ===== verification/ResolverContract.v ===== *)
(** * The contract of the resolver ([v2/resolver_contract.py])

    Reason codes, budgets, typed intents and the decision record. *)
From S2P Require Import Prelude.
From S2P Require Import PyText.
From S2P Require Import PyValue.
From S2P Require Import Canonical.

Definition RESOLVER_CONTRACT_VERSION : string := "1".

Inductive ExecutionMode : Type := Mode_DIRECT | Mode_BATCH | Mode_DAG | Mode_RUNBOOK | Mode_HYBRID | Mode_AGENTIC.
#[export] Instance ExecutionMode_eq_dec : EqDecision ExecutionMode.
Proof. solve_decision. Defined.
Definition mode_value (m : ExecutionMode) : string :=
  match m with
  | Mode_DIRECT => "DIRECT" | Mode_BATCH => "BATCH" | Mode_DAG => "DAG"
  | Mode_RUNBOOK => "RUNBOOK" | Mode_HYBRID => "HYBRID" | Mode_AGENTIC => "AGENTIC"
  end.

Inductive ResolverReason : Type :=
| R_DIRECT_EXACT | R_RUNBOOK_MATCH | R_BATCH_INDEPENDENT | R_DAG_TYPED_PLAN
| R_AGENTIC_AMBIGUOUS_INTENT | R_AGENTIC_UNBOUND_ARGUMENT | R_AGENTIC_UNKNOWN_TARGET
| R_AGENTIC_NO_CONTRACT_COVERAGE | R_AGENTIC_RESIDUAL_SUBINTENT
| R_REJ_DIRECT_NOT_READY | R_REJ_DIRECT_MULTI_TOOL | R_REJ_DIRECT_UNBOUND | R_REJ_NO_RUNBOOK
| R_REJ_RUNBOOK_VERSION_UNPINNED | R_REJ_NOT_INDEPENDENT | R_REJ_NOT_PLANNABLE | R_REJ_CYCLE_DETECTED
| E_REQ_INVALID | E_POLICY_DENY | E_BUDGET_NODES | E_BUDGET_TOKENS | E_BUDGET_DEADLINE
| E_AGENTIC_NOT_ALLOWED | E_AGENTIC_BUDGET_EXHAUSTED | E_AGENTIC_APPROVAL_MISSING
| E_AGENTIC_POLICY_FORBIDDEN | E_AGENTIC_CONTEXT_SHAPING_FAILED | E_SAFETY_DOWNGRADE_REFUSED
| E_RESOLVER_NONDETERMINISM.
#[export] Instance ResolverReason_eq_dec : EqDecision ResolverReason.
Proof. solve_decision. Defined.

Definition reason_value (r : ResolverReason) : string :=
  match r with
  | R_DIRECT_EXACT => "R-DIRECT-EXACT"
  | R_RUNBOOK_MATCH => "R-RUNBOOK-MATCH"
  | R_BATCH_INDEPENDENT => "R-BATCH-INDEPENDENT"
  | R_DAG_TYPED_PLAN => "R-DAG-TYPED-PLAN"
  | R_AGENTIC_AMBIGUOUS_INTENT => "R-AGENTIC-AMBIGUOUS-INTENT"
  | R_AGENTIC_UNBOUND_ARGUMENT => "R-AGENTIC-UNBOUND-ARGUMENT"
  | R_AGENTIC_UNKNOWN_TARGET => "R-AGENTIC-UNKNOWN-TARGET"
  | R_AGENTIC_NO_CONTRACT_COVERAGE => "R-AGENTIC-NO-CONTRACT-COVERAGE"
  | R_AGENTIC_RESIDUAL_SUBINTENT => "R-AGENTIC-RESIDUAL-SUBINTENT"
  | R_REJ_DIRECT_NOT_READY => "R-REJ-DIRECT-NOT-READY"
  | R_REJ_DIRECT_MULTI_TOOL => "R-REJ-DIRECT-MULTI-TOOL"
  | R_REJ_DIRECT_UNBOUND => "R-REJ-DIRECT-UNBOUND"
  | R_REJ_NO_RUNBOOK => "R-REJ-NO-RUNBOOK"
  | R_REJ_RUNBOOK_VERSION_UNPINNED => "R-REJ-RUNBOOK-VERSION-UNPINNED"
  | R_REJ_NOT_INDEPENDENT => "R-REJ-NOT-INDEPENDENT"
  | R_REJ_NOT_PLANNABLE => "R-REJ-NOT-PLANNABLE"
  | R_REJ_CYCLE_DETECTED => "R-REJ-CYCLE-DETECTED"
  | E_REQ_INVALID => "E-REQ-INVALID"
  | E_POLICY_DENY => "E-POLICY-DENY"
  | E_BUDGET_NODES => "E-BUDGET-NODES"
  | E_BUDGET_TOKENS => "E-BUDGET-TOKENS"
  | E_BUDGET_DEADLINE => "E-BUDGET-DEADLINE"
  | E_AGENTIC_NOT_ALLOWED => "E-AGENTIC-NOT-ALLOWED"
  | E_AGENTIC_BUDGET_EXHAUSTED => "E-AGENTIC-BUDGET-EXHAUSTED"
  | E_AGENTIC_APPROVAL_MISSING => "E-AGENTIC-APPROVAL-MISSING"
  | E_AGENTIC_POLICY_FORBIDDEN => "E-AGENTIC-POLICY-FORBIDDEN"
  | E_AGENTIC_CONTEXT_SHAPING_FAILED => "E-AGENTIC-CONTEXT-SHAPING-FAILED"
  | E_SAFETY_DOWNGRADE_REFUSED => "E-SAFETY-DOWNGRADE-REFUSED"
  | E_RESOLVER_NONDETERMINISM => "E-RESOLVER-NONDETERMINISM"
  end.

(** [is_mode_selection], [is_rejection], [is_refusal], [selects_agentic]: read off the text. *)
Definition is_rejection (r : ResolverReason) : bool := String.prefix "R-REJ-" (reason_value r).
Definition is_mode_selection (r : ResolverReason) : bool :=
  String.prefix "R-" (reason_value r) && negb (is_rejection r).
Definition is_refusal (r : ResolverReason) : bool := String.prefix "E-" (reason_value r).
Definition selects_agentic (r : ResolverReason) : bool := is_mode_selection r && contains "AGENTIC" (reason_value r).

(** [MODE_FOR_REASON] *)
Definition MODE_FOR_REASON (r : ResolverReason) : option ExecutionMode :=
  match r with
  | R_DIRECT_EXACT => Some Mode_DIRECT
  | R_RUNBOOK_MATCH => Some Mode_RUNBOOK
  | R_BATCH_INDEPENDENT => Some Mode_BATCH
  | R_DAG_TYPED_PLAN => Some Mode_DAG
  | R_AGENTIC_AMBIGUOUS_INTENT | R_AGENTIC_UNBOUND_ARGUMENT | R_AGENTIC_UNKNOWN_TARGET
  | R_AGENTIC_NO_CONTRACT_COVERAGE | R_AGENTIC_RESIDUAL_SUBINTENT => Some Mode_AGENTIC
  | _ => None
  end.

Definition MODE_PREFERENCE : list ExecutionMode := [Mode_DIRECT; Mode_BATCH; Mode_DAG; Mode_RUNBOOK; Mode_AGENTIC].

(** [preference_index]: [list.index] raises when the mode is not there. *)
Fixpoint index_of (m : ExecutionMode) (l : list ExecutionMode) : option Z :=
  match l with
  | [] => None
  | x :: rest => if bool_decide (x = m) then Some 0 else z ← index_of m rest; Some (z + 1)
  end.
Definition preference_index (m : ExecutionMode) : option Z := index_of m MODE_PREFERENCE.

(** [ResolverContractError] *)
Inductive resolver_exn : Type := ResolverContractError (reason : ResolverReason) (subject : string).

Definition contract_if (b : bool) (subject : string) : result resolver_exn unit :=
  raise_if b (ResolverContractError E_REQ_INVALID subject).

(** ** Budgets *)

Record ResolverBudget := mkBudget {
  batch_max_nodes : Z;
  dag_max_nodes : Z;
  dag_max_depth : Z;
  max_escalations_per_request : Z;
  agentic_token_budget : Z;
  agentic_deadline_s : Z;
  direct_deadline_s : Z;
  min_coverage_permille : Z
}.
Definition default_budget : ResolverBudget := mkBudget 50 200 12 1 0 120 10 500.

(** [ResolverBudget.__post_init__] *)
Definition resolver_budget (b : ResolverBudget) : result resolver_exn ResolverBudget :=
  do! rfor (fun '(name, value) => contract_if (value <? 0) name)
        [("batch_max_nodes", batch_max_nodes b); ("dag_max_nodes", dag_max_nodes b);
         ("dag_max_depth", dag_max_depth b); ("max_escalations_per_request", max_escalations_per_request b);
         ("agentic_token_budget", agentic_token_budget b); ("agentic_deadline_s", agentic_deadline_s b);
         ("direct_deadline_s", direct_deadline_s b);
         ("min_deterministic_coverage_permille", min_coverage_permille b)] in
  do! contract_if (negb ((0 <=? min_coverage_permille b) && (min_coverage_permille b <=? 1000)))
        "min_deterministic_coverage_permille" in
  Ok b.

(** [allows_agentic] *)
Definition allows_agentic (b : ResolverBudget) : bool := 0 <? agentic_token_budget b.

Definition budget_canonical (b : ResolverBudget) : value :=
  VDict [("agentic_deadline_s", VInt (agentic_deadline_s b)); ("agentic_token_budget", VInt (agentic_token_budget b));
         ("batch_max_nodes", VInt (batch_max_nodes b)); ("dag_max_depth", VInt (dag_max_depth b));
         ("dag_max_nodes", VInt (dag_max_nodes b)); ("direct_deadline_s", VInt (direct_deadline_s b));
         ("max_escalations_per_request", VInt (max_escalations_per_request b));
         ("min_deterministic_coverage_permille", VInt (min_coverage_permille b))].

(** ** Intents *)

(** [_IDENT], [_identifier] *)
Definition ident_char (c : ascii) : bool := is_lower c || is_num c || one_of "._-" c.
Definition ident (s : string) : bool := first_rest (fun c => is_lower c || is_num c) ident_char 127 s.
Definition identifier (v field : string) : result resolver_exn string :=
  let text := lower (py_strip v) in
  do! contract_if (negb (ident text)) field in Ok text.

Record IntentOperation := mkOperation {
  op_capability : string;
  op_target : string;
  op_bound : bool;
  op_depends : list string;
  op_ref : string
}.

(** [IntentOperation.__post_init__] *)
Definition intent_operation (o : IntentOperation) : result resolver_exn IntentOperation :=
  let! cap := identifier (op_capability o) "capability_id" in
  do! contract_if (blank (op_target o)) "target_scope_ref" in
  Ok (mkOperation cap (op_target o) (op_bound o) (op_depends o) (if String.eqb (op_ref o) "" then cap else op_ref o)).

Definition operation_canonical (o : IntentOperation) : value :=
  VDict [("capability_id", VStr (op_capability o)); ("depends_on", VList (map VStr (op_depends o)));
         ("fully_bound", VBool (op_bound o)); ("operation_ref", VStr (op_ref o));
         ("target_scope_ref", VStr (op_target o))].

Record ResolverIntent := mkIntent {
  request_id : string;
  principal_ref : string;
  operations : list IntentOperation;
  residual_subintent : bool;
  unknown_target : bool;
  no_contract_coverage : bool;
  runbook_ref : string;
  runbook_version_pinned : bool;
  approval_ref : string;
  agentic_allowance : bool;
  escalation_count : Z
}.

(** [ResolverIntent.__post_init__] *)
Definition resolver_intent (i : ResolverIntent) : result resolver_exn ResolverIntent :=
  do! contract_if (blank (request_id i)) "request_id" in
  do! contract_if (blank (principal_ref i)) "principal_ref" in
  do! contract_if (negb (bool_decide (NoDup (map op_ref (operations i))))) "operation_ref" in
  Ok i.

Definition node_count (i : ResolverIntent) : Z := Z.of_nat (length (operations i)).
Definition has_dependencies (i : ResolverIntent) : bool :=
  existsb (fun o => negb (bool_decide (op_depends o = []))) (operations i).
Definition homogeneous (i : ResolverIntent) : bool :=
  Z.of_nat (length (dedup (map op_capability (operations i)))) =? 1.
Definition intent_bound (i : ResolverIntent) : bool := forallb op_bound (operations i).

Definition intent_canonical (i : ResolverIntent) : value :=
  VDict [("agentic_allowance", VBool (agentic_allowance i)); ("approval_ref", VStr (approval_ref i));
         ("escalation_count", VInt (escalation_count i)); ("no_contract_coverage", VBool (no_contract_coverage i));
         ("operations", VList (map operation_canonical (operations i)));
         ("principal_ref", VStr (principal_ref i)); ("request_id", VStr (request_id i));
         ("residual_subintent", VBool (residual_subintent i)); ("runbook_ref", VStr (runbook_ref i));
         ("runbook_version_pinned", VBool (runbook_version_pinned i)); ("unknown_target", VBool (unknown_target i))].

(** ** Decisions *)

Record ResolverDecision := mkDecision {
  rd_request : string;
  rd_mode : option ExecutionMode;
  rd_reason : ResolverReason;
  rd_rejected : list ResolverReason;
  rd_deterministic : Z;
  rd_total : Z;
  rd_escalations : Z;
  rd_tokens : Z;
  rd_intent_digest : string;
  rd_budget_digest : string;
  rd_snapshot_digest : string
}.

(** [ResolverDecision.__post_init__]; [MODE_FOR_REASON[reason]] raises on a mode selection it does not
    list. *)
Definition resolver_decision (d : ResolverDecision) : result resolver_exn ResolverDecision :=
  do! (if is_mode_selection (rd_reason d) then
         contract_if (negb (bool_decide (rd_mode d = MODE_FOR_REASON (rd_reason d)))) "mode/reason disagreement"
       else contract_if (negb (bool_decide (rd_mode d = None))) "refusal carries a mode") in
  do! rfor (fun r => contract_if (negb (is_rejection r)) "non-rejection in rejected_branches") (rd_rejected d) in
  Ok d.

(** [refused], [deterministic_coverage_permille] *)
Definition refused (d : ResolverDecision) : bool := is_refusal (rd_reason d).
Definition coverage_permille (d : ResolverDecision) : Z :=
  if rd_total d <=? 0 then
    if negb (refused d) && negb (bool_decide (rd_mode d = Some Mode_AGENTIC)) then 1000 else 0
  else rd_deterministic d * 1000 / rd_total d.

Definition decision_canonical (d : ResolverDecision) : value :=
  VDict [("agentic_tokens_authorized", VInt (rd_tokens d)); ("budget_digest", VStr (rd_budget_digest d));
         ("contract_version", VStr RESOLVER_CONTRACT_VERSION);
         ("deterministic_coverage_permille", VInt (coverage_permille d));
         ("deterministic_nodes", VInt (rd_deterministic d)); ("escalation_count", VInt (rd_escalations d));
         ("intent_digest", VStr (rd_intent_digest d));
         ("mode", VStr match rd_mode d with Some m => mode_value m | None => "REFUSED" end);
         ("primary_reason_code", VStr (reason_value (rd_reason d)));
         ("rejected_branches", VList (map (fun r => VStr (reason_value r)) (rd_rejected d)));
         ("request_id", VStr (rd_request d)); ("snapshot_digest", VStr (rd_snapshot_digest d));
         ("total_nodes", VInt (rd_total d))].

Section Digest.
Variable sha256_hex : string -> string.

(** The three [digest] methods. *)
Definition budget_digest (b : ResolverBudget) : result py_error string := canonical_hash sha256_hex (budget_canonical b).
Definition intent_digest (i : ResolverIntent) : result py_error string := canonical_hash sha256_hex (intent_canonical i).
Definition decision_digest (d : ResolverDecision) : result py_error string := canonical_hash sha256_hex (decision_canonical d).
End Digest.

(** ** The closed vocabulary *)

(** Exactly one of the three kinds, and a mode exactly for a mode selection. *)
Lemma reason_kinds r :
  (if is_mode_selection r then 1 else 0) + (if is_rejection r then 1 else 0) + (if is_refusal r then 1 else 0) = 1
  /\ (is_mode_selection r = true <-> MODE_FOR_REASON r <> None)
  /\ (selects_agentic r = true <-> MODE_FOR_REASON r = Some Mode_AGENTIC).
Proof. destruct r; vm_compute; split_and!; (split; [done|by intros H; try destruct H]) || done. Qed.

(** The digests always exist: the canonical forms hold nothing but texts, integers and booleans. *)
Lemma operation_valid o : valid (operation_canonical o).
Proof. apply valid_dict. repeat constructor; simpl. apply valid_texts. Qed.

Lemma intent_valid i : valid (intent_canonical i).
Proof.
  apply valid_dict. repeat constructor; simpl. apply valid_list, Forall_map, Forall_forall.
  intros o _. apply operation_valid.
Qed.

Lemma budget_valid b : valid (budget_canonical b).
Proof. apply valid_dict. by repeat constructor. Qed.

Lemma decision_valid d : valid (decision_canonical d).
Proof.
  apply valid_dict. repeat constructor; simpl. apply valid_list, Forall_map, Forall_forall. done.
Qed.
