(* ===== verification/ResolverGraph.v ===== *)
(** * The dependencies of an intent ([_has_cycle] and [_depth] of [v2/resolver.py])

    Both are recursive searches; their recursion nests at most as deep as there are operations,
    which is their fuel.  The first finds a cycle exactly when there is one, and without one the
    second is the length of the longest chain of dependencies. *)
From stdpp Require Import relations.
From S2P Require Import Prelude.

(** The marks of [state]: 1, on the way down, and 2, done. *)
Inductive mark : Type := Grey | Black.
#[export] Instance mark_eq_dec : EqDecision mark.
Proof. solve_decision. Defined.

Section Graph.
Variable graph : list (string * list string).

(** [graph.get(node, ())], [node in graph] *)
Definition deps (n : string) : list string := default [] (dget n graph).
Definition in_graph (n : string) : bool := dhas n graph.

(** [visit] *)
Fixpoint visit (fuel : nat) (node : string) (state : gmap string mark) : bool * gmap string mark :=
  match fuel with
  | O => (false, state)
  | S fuel =>
      match state !! node with
      | Some Grey => (true, state)
      | Some Black => (false, state)
      | None =>
          (fix loop (ps : list string) (st : gmap string mark) : bool * gmap string mark :=
             match ps with
             | [] => (false, <[node := Black]> st)
             | p :: rest =>
                 if in_graph p then
                   match visit fuel p st with
                   | (true, st') => (true, st')
                   | (false, st') => loop rest st'
                   end
                 else loop rest st
             end) (deps node) (<[node := Grey]> state)
      end
  end.

(** [any(visit(node) for node in graph)] *)
Fixpoint any_visit (fuel : nat) (nodes : list string) (state : gmap string mark) : bool :=
  match nodes with
  | [] => false
  | n :: rest => match visit fuel n state with
                 | (true, _) => true
                 | (false, st) => any_visit fuel rest st
                 end
  end.

Definition graph_fuel : nat := S (length graph).
Definition has_cycle : bool := any_visit graph_fuel (dkeys graph) ∅.

(** [max(values, default=0)] *)
Definition max_default (l : list Z) : Z := match l with [] => 0 | x :: r => foldl Z.max x r end.

(** [depth] *)
Fixpoint node_depth (fuel : nat) (node : string) (seen : list string) (memo : gmap string Z)
    : Z * gmap string Z :=
  match fuel with
  | O => (0, memo)
  | S fuel =>
      if str_in node seen then (0, memo)
      else match memo !! node with
      | Some v => (v, memo)
      | None =>
          let '(vs, memo') :=
            (fix loop (ps : list string) (m : gmap string Z) : list Z * gmap string Z :=
               match ps with
               | [] => ([], m)
               | p :: rest =>
                   let '(v, m') := node_depth fuel p (node :: seen) m in
                   let '(vs, m'') := loop rest m' in (v :: vs, m'')
               end) (List.filter in_graph (deps node)) memo in
          let value := 1 + max_default vs in
          (value, <[node := value]> memo')
      end
  end.

Fixpoint depths (fuel : nat) (nodes : list string) (memo : gmap string Z) : list Z :=
  match nodes with
  | [] => []
  | n :: rest => let '(v, m) := node_depth fuel n [] memo in v :: depths fuel rest m
  end.

(** [_depth] *)
Definition graph_depth : Z := max_default (depths graph_fuel (dkeys graph) ∅).

(** ** The relation the searches are about *)

(** [a] consumes the output of [b], and both are operations of the intent. *)
Definition depends (a b : string) : Prop := b ∈ deps a /\ in_graph b = true.

Lemma in_graph_keys n : in_graph n = true <-> n ∈ dkeys graph.
Proof.
  unfold in_graph, dhas, dkeys. induction graph as [|[k v] g IH]; simpl; [by split; [|intros ?%not_elem_of_nil]|].
  rewrite elem_of_cons. destruct (String.eqb_spec n k) as [->|Hne]; [by split; [left|]|].
  rewrite IH. split; [by right|by intros [?|?]].
Qed.

Lemma depends_source a b : depends a b -> in_graph a = true.
Proof.
  intros [Hb _]. unfold deps, in_graph, dhas in *. destruct (dget a graph); [done|by apply not_elem_of_nil in Hb].
Qed.

Lemma tc_source a b : tc depends a b -> in_graph a = true.
Proof. intros [x y H|x y z H _]; by eapply depends_source. Qed.

(** ** The search for a cycle *)

(** Every node of [l] was reached from the next one. *)
Fixpoint stack (l : list string) : Prop :=
  match l with
  | x :: ((y :: _) as r) => depends y x /\ stack r
  | _ => True
  end.

Lemma stack_reach l x n : stack (n :: l) -> x ∈ l -> tc depends x n.
Proof.
  revert n. induction l as [|y l IH]; intros n Hs Hx; [by apply not_elem_of_nil in Hx|].
  destruct Hs as [Hyn Hs]. apply elem_of_cons in Hx as [->|Hx]; [by apply tc_once|].
  eapply tc_r; [by apply IH|done].
Qed.

(** [done] lists the finished nodes, what a node depends on after it. *)
Record search_inv (path done : list string) (st : gmap string mark) : Prop := {
  se_grey : forall x, st !! x = Some Grey <-> x ∈ path;
  se_black : forall x, st !! x = Some Black <-> x ∈ done;
  se_stack : stack path;
  se_nodup : NoDup done;
  se_order : forall l1 x l2, done = l1 ++ x :: l2 -> forall y, depends x y -> y ∈ l2;
  se_known : forall x m, st !! x = Some m -> in_graph x = true
}.

(** The nodes without a mark. *)
Definition unmarked (st : gmap string mark) : nat :=
  length (List.filter (fun n => bool_decide (st !! n = None)) (dkeys graph)).

Lemma unmarked_mark st n m :
  in_graph n = true -> st !! n = None -> (unmarked (<[n := m]> st) < unmarked st)%nat.
Proof.
  intros Hn Hs. apply (filter_length_strict _ _ _ n).
  - intros y. rewrite !bool_decide_eq_true. intros Hy. destruct (decide (n = y)) as [<-|Hne]; [done|].
    by rewrite lookup_insert_ne in Hy.
  - by apply in_graph_keys.
  - rewrite lookup_insert_eq. by apply bool_decide_eq_false.
  - by apply bool_decide_eq_true.
Qed.

Lemma unmarked_fuel st : (unmarked st < graph_fuel)%nat.
Proof.
  unfold unmarked, graph_fuel, dkeys. rewrite <- (length_map fst graph). apply Nat.lt_succ_r, List.filter_length_le.
Qed.

(** Marks are only added. *)
Definition grows (st st' : gmap string mark) : Prop := forall x, st' !! x = None -> st !! x = None.

Lemma grows_unmarked st st' : grows st st' -> (unmarked st' <= unmarked st)%nat.
Proof. intros H. apply filter_length_mono. intros x. rewrite !bool_decide_eq_true. apply H. Qed.

(** What a visit finds. *)
Definition visit_result (path : list string) (node : string) (done : list string) (st : gmap string mark)
    (res : bool * gmap string mark) : Prop :=
  match res with
  | (true, _) => exists x, tc depends x x
  | (false, st') => exists done', search_inv path (done' ++ done) st' /\ node ∈ done' ++ done /\ grows st st'
  end.

Lemma visit_spec fuel node path done st :
  search_inv path done st -> in_graph node = true ->
  match path with [] => True | p :: _ => depends p node end ->
  (unmarked st < fuel)%nat -> visit_result path node done st (visit fuel node st).
Proof.
  revert node path done st. induction fuel as [|fuel IHf]; intros node path done st Hi Hn Hp Hf; [lia|].
  simpl. destruct (st !! node) as [[]|] eqn:Hs.
  - apply (se_grey _ _ _ Hi) in Hs. exists node. apply (stack_reach path); [|done].
    destruct path; [done|]. split; [done|apply Hi].
  - exists []. split_and!; [done|by apply (se_black _ _ _ Hi)|by intros x].
  - set (st1 := <[node := Grey]> st).
    assert (Hnp : node ∉ path) by (intros H%(se_grey _ _ _ Hi); congruence).
    assert (Hnd : node ∉ done) by (intros H%(se_black _ _ _ Hi); congruence).
    assert (Hi1 : search_inv (node :: path) done st1).
    { destruct Hi as [G B S N O K]. constructor; [| | |done|done|].
      - intros x. rewrite elem_of_cons. unfold st1. destruct (decide (node = x)) as [<-|Hne].
        + rewrite lookup_insert_eq. split; [by left|done].
        + rewrite lookup_insert_ne by done. rewrite G. split; [by right|by intros [?|?]].
      - intros x. unfold st1. destruct (decide (node = x)) as [<-|Hne].
        + rewrite lookup_insert_eq. split; [done|by intros ?%Hnd].
        + by rewrite lookup_insert_ne.
      - destruct path; [done|]. by split.
      - intros x m. unfold st1. destruct (decide (node = x)) as [<-|Hne]; [done|].
        rewrite lookup_insert_ne by done. apply K. }
    assert (Hu1 : (unmarked st1 < fuel)%nat) by (pose proof (unmarked_mark st node Grey Hn Hs); unfold st1; lia).
    assert (Hg1 : grows st st1).
    { intros x. unfold st1. destruct (decide (node = x)) as [<-|Hne]; [by rewrite lookup_insert_eq|].
      by rewrite lookup_insert_ne. }
    (* the loop: what is before [ps] is finished *)
    assert (Hloop : forall ps pre st2 done2, deps node = pre ++ ps ->
      search_inv (node :: path) (done2 ++ done) st2 -> grows st st2 -> (unmarked st2 < fuel)%nat ->
      (forall y, y ∈ pre -> in_graph y = true -> y ∈ done2 ++ done) ->
      visit_result path node done st
        ((fix loop (ps : list string) (st : gmap string mark) : bool * gmap string mark :=
           match ps with
           | [] => (false, <[node := Black]> st)
           | p :: rest =>
               if in_graph p then
                 match visit fuel p st with
                 | (true, st') => (true, st')
                 | (false, st') => loop rest st'
                 end
               else loop rest st
           end) ps st2)).
    { induction ps as [|p ps IHp]; intros pre st2 done2 Hdeps Hi2 Hg2 Hu2 Hpre.
      - rewrite app_nil_r in Hdeps. exists (node :: done2). destruct Hi2 as [G B S N O K].
        assert (Hgn : st2 !! node = Some Grey) by (apply G; by left).
        assert (Hnd2 : node ∉ done2 ++ done) by (intros H%B; congruence).
        split_and!; [|by left|].
        + constructor.
          * intros x. destruct (decide (node = x)) as [<-|Hne].
            -- rewrite lookup_insert_eq. split; [done|by intros ?%Hnp].
            -- rewrite lookup_insert_ne, G, elem_of_cons by done. split; [by intros [?|?]|by right].
          * intros x. simpl. rewrite elem_of_cons. destruct (decide (node = x)) as [<-|Hne].
            -- rewrite lookup_insert_eq. split; [by left|done].
            -- rewrite lookup_insert_ne, B by done. split; [by right|by intros [?|?]].
          * destruct path; [done|by destruct S].
          * simpl. by apply NoDup_cons.
          * intros l1 x l2 Hl y Hy. destruct l1 as [|z l1]; simplify_eq/=.
            -- destruct Hy as [Hy1 Hy2]. by apply Hpre.
            -- by eapply O.
          * intros x m. destruct (decide (node = x)) as [<-|Hne]; [done|]. rewrite lookup_insert_ne by done. apply K.
        + intros x. destruct (decide (node = x)) as [<-|Hne]; [by rewrite lookup_insert_eq|].
          rewrite lookup_insert_ne by done. apply Hg2.
      - destruct (in_graph p) eqn:Hpg.
        + pose proof (IHf p (node :: path) (done2 ++ done) st2 Hi2 Hpg) as Hv.
          assert (Hdep : depends node p) by (split; [rewrite Hdeps; set_solver|done]).
          specialize (Hv Hdep Hu2). destruct (visit fuel p st2) as [[] st3]; [done|].
          destruct Hv as (d3 & Hi3 & Hp3 & Hg3).
          apply (IHp (pre ++ [p]) st3 (d3 ++ done2)).
          * by rewrite <- app_assoc.
          * by rewrite <- app_assoc.
          * intros x Hx. by apply Hg2, Hg3.
          * pose proof (grows_unmarked _ _ Hg3). lia.
          * intros y. rewrite elem_of_app, list_elem_of_singleton, <- app_assoc. intros [Hy| ->] Hyg; [|done].
            apply elem_of_app. right. by apply Hpre.
        + apply (IHp (pre ++ [p]) st2 done2); [by rewrite <- app_assoc|done|done|done|].
          intros y. rewrite elem_of_app, list_elem_of_singleton. intros [Hy| ->] Hyg; [by apply Hpre|congruence]. }
    apply (Hloop (deps node) [] st1 []); [done|done|done|done|]. by intros y ?%not_elem_of_nil.
Qed.

Lemma any_visit_spec fuel nodes done st :
  search_inv [] done st -> (forall n, n ∈ nodes -> in_graph n = true) -> (unmarked st < fuel)%nat ->
  if any_visit fuel nodes st then exists x, tc depends x x
  else exists done' st', search_inv [] (done' ++ done) st' /\ forall n, n ∈ nodes -> n ∈ done' ++ done.
Proof.
  revert done st. induction nodes as [|n nodes IH]; intros done st Hi Hin Hf; simpl.
  - exists [], st. split; [done|]. by intros ? ?%not_elem_of_nil.
  - pose proof (visit_spec fuel n [] done st Hi (Hin n ltac:(left)) I Hf) as Hv.
    destruct (visit fuel n st) as [[] st1]; [done|]. destruct Hv as (d1 & Hi1 & Hn1 & Hg1).
    pose proof (grows_unmarked _ _ Hg1).
    specialize (IH (d1 ++ done) st1 Hi1 ltac:(intros; apply Hin; by right) ltac:(lia)).
    destruct (any_visit fuel nodes st1); [done|]. destruct IH as (d2 & st2 & Hi2 & Hall).
    exists (d2 ++ d1), st2. rewrite <- app_assoc. split; [done|].
    intros m [->|Hm]%elem_of_cons; [by apply elem_of_app; right|by apply Hall].
Qed.

(** In a finished order, what a node reaches comes after it. *)
Lemma order_reach done st l1 x l2 y :
  search_inv [] done st -> done = l1 ++ x :: l2 -> tc depends x y -> y ∈ l2.
Proof.
  intros Hi Hd Hxy. revert l1 l2 Hd. induction Hxy as [x y Hxy|x z y Hxz Hzy IH]; intros l1 l2 Hd.
  - by eapply (se_order _ _ _ Hi).
  - pose proof (se_order _ _ _ Hi _ _ _ Hd _ Hxz) as (l3 & l4 & ->)%list_elem_of_split.
    rewrite elem_of_app, elem_of_cons. right. right. eapply (IH (l1 ++ x :: l3)). by rewrite Hd, <- app_assoc.
Qed.

Lemma search_inv_empty : search_inv [] [] ∅.
Proof.
  constructor; [| |done|constructor|by intros []|].
  - intros x. rewrite lookup_empty. split; [done|by intros ?%not_elem_of_nil].
  - intros x. rewrite lookup_empty. split; [done|by intros ?%not_elem_of_nil].
  - intros x m. by rewrite lookup_empty.
Qed.

(** Without a cycle there is an order of all the operations, dependencies last. *)
Lemma has_cycle_false :
  has_cycle = false -> exists done st, search_inv [] done st /\ forall n, in_graph n = true -> n ∈ done.
Proof.
  intros H. pose proof (any_visit_spec graph_fuel (dkeys graph) [] ∅ search_inv_empty) as Hs.
  unfold has_cycle in H. rewrite H in Hs. destruct Hs as (d & st & Hi & Hall).
  - intros n Hn. by apply in_graph_keys.
  - apply unmarked_fuel.
  - exists (d ++ []), st. split; [done|]. intros n Hn. apply Hall. by apply in_graph_keys.
Qed.

(** [has_cycle] finds a cycle exactly when there is one. *)
Lemma has_cycle_iff : has_cycle = true <-> exists x, tc depends x x.
Proof.
  split.
  - intros H. pose proof (any_visit_spec graph_fuel (dkeys graph) [] ∅ search_inv_empty) as Hs.
    unfold has_cycle in H. rewrite H in Hs. apply Hs.
    + intros n Hn. by apply in_graph_keys.
    + apply unmarked_fuel.
  - intros [x Hx]. destruct has_cycle eqn:E; [done|exfalso].
    destruct (has_cycle_false E) as (done & st & Hi & Hall).
    assert (Hin : in_graph x = true) by (by eapply tc_source).
    destruct (list_elem_of_split _ _ (Hall x Hin)) as (l1 & l2 & Hd).
    pose proof (order_reach _ _ _ _ _ _ Hi Hd Hx) as Hin2. pose proof (se_nodup _ _ _ Hi) as Hnd.
    rewrite Hd in Hnd. apply NoDup_app in Hnd as (_ & _ & [Hnin _]%NoDup_cons). done.
Qed.

(** ** The depth *)

(** Each operation of the list depends on the next. *)
Fixpoint dep_chain (l : list string) : Prop :=
  match l with
  | x :: ((y :: _) as r) => depends x y /\ dep_chain r
  | _ => True
  end.

(** [v] operations is the longest chain from [n]. *)
Definition is_depth (n : string) (v : Z) : Prop :=
  (exists l, dep_chain (n :: l) /\ Z.of_nat (length (n :: l)) = v)
  /\ forall l, dep_chain (n :: l) -> Z.of_nat (length (n :: l)) <= v.

Lemma is_depth_pos n v : is_depth n v -> 1 <= v.
Proof. intros [(l & _ & <-) _]. simpl. lia. Qed.

Lemma foldl_max l x : (forall y, y ∈ l -> y <= foldl Z.max x l) /\ x <= foldl Z.max x l
  /\ (foldl Z.max x l = x \/ foldl Z.max x l ∈ l).
Proof.
  revert x. induction l as [|z l IH]; intros x; simpl; [split_and!; [by intros ? ?%not_elem_of_nil|lia|by left]|].
  destruct (IH (Z.max x z)) as (H1 & H2 & H3). split_and!.
  - intros y [->|Hy]%elem_of_cons; [lia|by apply H1].
  - lia.
  - rewrite elem_of_cons. destruct H3 as [->|]; [|by right; right].
    destruct (Z.max_spec x z) as [[_ ->]|[_ ->]]; [right; by left|by left].
Qed.

Lemma max_default_spec l :
  (forall y, y ∈ l -> y <= max_default l) /\ (l = [] /\ max_default l = 0 \/ max_default l ∈ l).
Proof.
  destruct l as [|x l]; simpl; [split; [by intros ? ?%not_elem_of_nil|by left]|].
  destruct (foldl_max l x) as (H1 & H2 & H3). split.
  - intros y [->|Hy]%elem_of_cons; [done|by apply H1].
  - right. rewrite elem_of_cons. tauto.
Qed.

(** The depth of an operation from those of what it depends on. *)
Lemma is_depth_step n vs :
  Forall2 is_depth (List.filter in_graph (deps n)) vs -> is_depth n (1 + max_default vs).
Proof.
  intros Hvs. destruct (max_default_spec vs) as [Hub Hmax]. split.
  - destruct Hmax as [[-> ->]|Hin].
    + exists []. done.
    + apply list_elem_of_lookup in Hin as [i Hi]. destruct (Forall2_lookup_r _ _ _ _ _ Hvs Hi) as (p & Hp & Hd).
      destruct Hd as [(l & Hl & Hlen) _]. exists (p :: l). split; [|simpl in *; lia].
      split; [|done]. apply list_elem_of_lookup_2, list_elem_of_In, filter_In in Hp as [Hp1 Hp2].
      split; [by apply list_elem_of_In|done].
  - intros [|p l] Hl.
    + simpl. destruct Hmax as [[_ ->]|Hin]; [lia|].
      apply list_elem_of_lookup in Hin as [i Hi]. destruct (Forall2_lookup_r _ _ _ _ _ Hvs Hi) as (p & _ & Hd%is_depth_pos).
      lia.
    + destruct Hl as [[Hp Hg] Hl].
      assert (Hin : p ∈ List.filter in_graph (deps n)) by (apply list_elem_of_In, filter_In; split; [by apply list_elem_of_In|done]).
      apply list_elem_of_lookup in Hin as [i Hi]. destruct (Forall2_lookup_l _ _ _ _ _ Hvs Hi) as (v & Hv & [_ Hd]).
      specialize (Hd l Hl). specialize (Hub v ltac:(by eapply list_elem_of_lookup_2)). simpl length in *. lia.
Qed.

Section Acyclic.
Context {done : list string} {st : gmap string mark}.
Hypothesis Hdone : search_inv [] done st.

Definition memo_ok (m : gmap string Z) : Prop := forall x v, m !! x = Some v -> is_depth x v.

Lemma acyclic_order n : n ∈ done -> ~ tc depends n n.
Proof.
  intros (l1 & l2 & Hd)%list_elem_of_split Hn. pose proof (order_reach _ _ _ _ _ _ Hdone Hd Hn) as Hin.
  pose proof (se_nodup _ _ _ Hdone) as Hnd. rewrite Hd in Hnd.
  by apply NoDup_app in Hnd as (_ & _ & [? _]%NoDup_cons).
Qed.

Lemma node_depth_spec fuel n seen memo l1 l2 :
  done = l1 ++ n :: l2 -> (length l2 < fuel)%nat -> (forall s, s ∈ seen -> tc depends s n) -> memo_ok memo ->
  is_depth n (fst (node_depth fuel n seen memo)) /\ memo_ok (snd (node_depth fuel n seen memo)).
Proof.
  revert n seen memo l1 l2. induction fuel as [|fuel IH]; intros n seen memo l1 l2 Hd Hf Hseen Hm; [lia|].
  simpl. assert (Hn : n ∈ done) by (rewrite Hd; set_solver).
  assert (str_in n seen = false) as ->.
  { apply not_true_iff_false. intros (s & Hs & <-%String.eqb_eq)%existsb_exists.
    by apply (acyclic_order n Hn), Hseen, list_elem_of_In. }
  destruct (memo !! n) as [v|] eqn:Hmn; [by split; [apply Hm|]|].
  set (loop := fix loop (ps : list string) (m : gmap string Z) : list Z * gmap string Z :=
               match ps with
               | [] => ([], m)
               | p :: rest =>
                   let '(v, m') := node_depth fuel p (n :: seen) m in
                   let '(vs, m'') := loop rest m' in (v :: vs, m'')
               end).
  assert (Hloop : forall ps m, (forall p, p ∈ ps -> depends n p) -> memo_ok m ->
            Forall2 is_depth ps (fst (loop ps m)) /\ memo_ok (snd (loop ps m))).
  { induction ps as [|p ps IHp]; intros m Hps Hmm; simpl; [by split; [constructor|]|].
    assert (Hp : depends n p) by (apply Hps; by left).
    pose proof (se_order _ _ _ Hdone _ _ _ Hd _ Hp) as (l3 & l4 & Hl)%list_elem_of_split.
    destruct (IH p (n :: seen) m (l1 ++ n :: l3) l4) as [Hv Hm'].
    - rewrite Hd, Hl. by rewrite <- app_assoc.
    - rewrite Hl, length_app in Hf. simpl in Hf. lia.
    - intros s [->|Hs]%elem_of_cons; [by apply tc_once|]. eapply tc_r; [by apply Hseen|done].
    - done.
    - destruct (node_depth fuel p (n :: seen) m) as [v m1]. simpl in *.
      destruct (IHp m1 ltac:(intros; apply Hps; by right) Hm') as [Hvs Hm2].
      destruct (loop ps m1) as [vs m2]. simpl in *. split; [by constructor|done]. }
  destruct (Hloop (List.filter in_graph (deps n)) memo) as [Hvs Hm'].
  - intros p [Hp1 Hp2]%list_elem_of_In%filter_In. split; [by apply list_elem_of_In|done].
  - done.
  - destruct (loop _ memo) as [vs m]. simpl in *. pose proof (is_depth_step n vs Hvs) as Hdep. split; [done|].
    intros x v. destruct (decide (n = x)) as [<-|Hne]; [rewrite lookup_insert_eq; by intros [= <-]|].
    rewrite lookup_insert_ne by done. apply Hm'.
Qed.

Lemma depths_spec fuel nodes memo :
  (length done <= fuel)%nat -> (forall n, n ∈ nodes -> n ∈ done) -> memo_ok memo ->
  Forall2 is_depth nodes (depths fuel nodes memo).
Proof.
  intros Hf. revert memo. induction nodes as [|n nodes IH]; intros memo Hin Hm; simpl; [constructor|].
  destruct (list_elem_of_split _ _ (Hin n ltac:(by left))) as (l1 & l2 & Hd).
  destruct (node_depth_spec fuel n [] memo l1 l2 Hd) as [Hv Hm'].
  - rewrite Hd, length_app in Hf. simpl in Hf. lia.
  - by intros s ?%not_elem_of_nil.
  - done.
  - destruct (node_depth fuel n [] memo) as [v m]. simpl in *. constructor; [done|].
    apply IH; [|done]. intros k Hk. apply Hin. by right.
Qed.
End Acyclic.

(** Without a cycle, the depth is the length of the longest chain of dependencies. *)
Lemma graph_depth_spec :
  has_cycle = false ->
  (forall l, (forall x, x ∈ l -> in_graph x = true) -> dep_chain l -> Z.of_nat (length l) <= graph_depth)
  /\ exists l, (forall x, x ∈ l -> in_graph x = true) /\ dep_chain l /\ Z.of_nat (length l) = graph_depth.
Proof.
  intros (done & st & Hi & Hall)%has_cycle_false.
  assert (Hlen : (length done <= graph_fuel)%nat).
  { unfold graph_fuel. rewrite <- (length_map fst graph). apply Nat.le_le_succ_r.
    apply submseteq_length, NoDup_submseteq; [apply (se_nodup _ _ _ Hi)|].
    intros x Hx. apply in_graph_keys. apply (se_black _ _ _ Hi) in Hx. by eapply (se_known _ _ _ Hi). }
  assert (Hvs : Forall2 is_depth (dkeys graph) (depths graph_fuel (dkeys graph) ∅)).
  { apply (depths_spec Hi); [done| |by intros x v; rewrite lookup_empty].
    intros n Hn. apply Hall. by apply in_graph_keys. }
  unfold graph_depth. set (vs := depths _ _ _) in *. destruct (max_default_spec vs) as [Hub Hmax]. split.
  - intros [|n l] Hin Hl.
    + destruct Hmax as [[_ ->]|Hin']; [simpl; lia|].
      apply list_elem_of_lookup in Hin' as [i Hi']. destruct (Forall2_lookup_r _ _ _ _ _ Hvs Hi') as (p & _ & Hd%is_depth_pos).
      simpl. lia.
    + assert (Hn : n ∈ dkeys graph) by (apply in_graph_keys, Hin; by left).
      apply list_elem_of_lookup in Hn as [i Hn]. destruct (Forall2_lookup_l _ _ _ _ _ Hvs Hn) as (v & Hv & [_ Hd]).
      specialize (Hd l Hl). specialize (Hub v ltac:(by eapply list_elem_of_lookup_2)). lia.
  - destruct Hmax as [[_ ->]|Hin]; [exists []; split_and!; [by intros ? ?%not_elem_of_nil|done|done]|].
    apply list_elem_of_lookup in Hin as [i Hi']. destruct (Forall2_lookup_r _ _ _ _ _ Hvs Hi') as (n & Hn & [(l & Hl & Heq) _]).
    exists (n :: l). split_and!; [|done|done].
    assert (Hg : in_graph n = true) by (apply in_graph_keys; by eapply list_elem_of_lookup_2).
    clear -Hl Hg. revert n Hg Hl. induction l as [|y l IH]; intros n Hg Hl x.
    + by intros ->%list_elem_of_singleton.
    + destruct Hl as [[_ Hy] Hl]. intros [->|Hx]%elem_of_cons; [done|by eapply IH].
Qed.
End Graph.
