(* ===== verification/Resolver.v ===== *)
(** * The deterministic mode resolver ([v2/resolver.py], [v2/audit_chain.py])

    One pure function walks the decision tree.  A stage either decides, or hands on the list of the
    branches it rejected: in the model the decision is the left alternative of a sum, so that a
    later stage is reached exactly when no earlier one has returned. *)
From stdpp Require Import relations.
From S2P Require Import Prelude.
From S2P Require Import PyText.
From S2P Require Import PyValue.
From S2P Require Import Canonical.
From S2P Require Import MutationContract.
From S2P Require Import ResolverContract.
From S2P Require Import ResolverGraph.

(** What [resolve] passes to [_decision]. *)
Record Outcome := mkOutcome {
  oc_reason : ResolverReason;
  oc_rejected : list ResolverReason;
  oc_nodes : Z;
  oc_tokens : Z
}.

(** A decision, or the branches rejected so far. *)
Definition stage : Type := Outcome + list ResolverReason.
Definition refuse (r : ResolverReason) (rejected : list ResolverReason) : stage := inl (mkOutcome r rejected 0 0).
Definition select (r : ResolverReason) (rejected : list ResolverReason) (nodes : Z) : stage :=
  inl (mkOutcome r rejected nodes 0).
Definition reject (rejected : list ResolverReason) (r : ResolverReason) : stage := inr (rejected ++ [r]).
Definition and_then (s : stage) (k : list ResolverReason -> stage) : stage :=
  match s with inl o => inl o | inr rejected => k rejected end.

Record ModeResolver := mkResolver {
  snapshot : gmap string CapabilityState;
  snapshot_digest : string;
  budget : ResolverBudget;
  runbooks : gmap string bool;
  write_capabilities : list string
}.

(** The dependencies of an intent, by operation. *)
Definition intent_graph (i : ResolverIntent) : list (string * list string) :=
  map (fun o => (op_ref o, op_depends o)) (operations i).

Section Resolver.
Variable m : ModeResolver.

(** [_usable] *)
Definition usable (o : IntentOperation) : bool :=
  match snapshot m !! op_capability o with
  | None => false
  | Some s =>
      if str_in (op_capability o) (write_capabilities m) then bool_decide (s = Cap_READY)
      else bool_decide (s = Cap_READY) || bool_decide (s = Cap_DEGRADED)
  end.

(** [deterministic_nodes] *)
Definition deterministic_nodes (i : ResolverIntent) : Z :=
  Z.of_nat (length (List.filter usable (operations i))).

(** S0, S1, and the escalations already spent. *)
Definition admission_stage (i : ResolverIntent) (policy : PolicyDecision) : stage :=
  if (node_count i =? 0) && negb (residual_subintent i || no_contract_coverage i || unknown_target i)
  then refuse E_REQ_INVALID []
  else if bool_decide (policy = Policy_DENY) then refuse E_POLICY_DENY []
  else if max_escalations_per_request (budget m) <? escalation_count i then refuse E_AGENTIC_BUDGET_EXHAUSTED []
  else inr [].

(** S2, S3 *)
Definition direct_stage (i : ResolverIntent) (rejected : list ResolverReason) : stage :=
  match operations i with
  | [o] =>
      if residual_subintent i then reject rejected R_REJ_DIRECT_MULTI_TOOL
      else if negb (op_bound o) then reject rejected R_REJ_DIRECT_UNBOUND
      else if negb (usable o) then reject rejected R_REJ_DIRECT_NOT_READY
      else select R_DIRECT_EXACT rejected 1
  | [] => inr rejected
  | _ => reject rejected R_REJ_DIRECT_MULTI_TOOL
  end.

(** S6 *)
Definition batch_stage (i : ResolverIntent) (rejected : list ResolverReason) : stage :=
  if 1 <? node_count i then
    if residual_subintent i then reject rejected R_REJ_NOT_INDEPENDENT
    else if has_dependencies i || negb (homogeneous i) then reject rejected R_REJ_NOT_INDEPENDENT
    else if negb (intent_bound i) then reject rejected R_REJ_DIRECT_UNBOUND
    else if batch_max_nodes (budget m) <? node_count i then refuse E_BUDGET_NODES rejected
    else if negb (deterministic_nodes i =? node_count i) then reject rejected R_REJ_DIRECT_NOT_READY
    else select R_BATCH_INDEPENDENT rejected (deterministic_nodes i)
  else inr rejected.

(** S5 *)
Definition runbook_stage (i : ResolverIntent) (rejected : list ResolverReason) : stage :=
  match (if String.eqb (runbook_ref i) "" then None else runbooks m !! runbook_ref i) with
  | None => reject rejected R_REJ_NO_RUNBOOK
  | Some pinned =>
      if negb (pinned && runbook_version_pinned i) then reject rejected R_REJ_RUNBOOK_VERSION_UNPINNED
      else if negb (intent_bound i) then reject rejected R_REJ_DIRECT_UNBOUND
      else if residual_subintent i then reject rejected R_REJ_NOT_PLANNABLE
      else select R_RUNBOOK_MATCH rejected (deterministic_nodes i)
  end.

(** S7 *)
Definition dag_stage (i : ResolverIntent) (rejected : list ResolverReason) : stage :=
  if (1 <? node_count i) && negb (residual_subintent i) then
    if has_cycle (intent_graph i) then reject rejected R_REJ_CYCLE_DETECTED
    else if negb (intent_bound i) then reject rejected R_REJ_DIRECT_UNBOUND
    else if (dag_max_nodes (budget m) <? node_count i) || (dag_max_depth (budget m) <? graph_depth (intent_graph i))
         then refuse E_BUDGET_NODES rejected
    else if negb (deterministic_nodes i =? node_count i) then reject rejected R_REJ_DIRECT_NOT_READY
    else select R_DAG_TYPED_PLAN rejected (deterministic_nodes i)
  else reject rejected R_REJ_NOT_PLANNABLE.

(** [needs_approval] *)
Definition needs_approval (i : ResolverIntent) : bool :=
  existsb (fun o => str_in (op_capability o) (write_capabilities m)) (operations i).

(** The precise agentic cause. *)
Definition agentic_reason (i : ResolverIntent) : ResolverReason :=
  if no_contract_coverage i then R_AGENTIC_NO_CONTRACT_COVERAGE
  else if unknown_target i then R_AGENTIC_UNKNOWN_TARGET
  else if negb (intent_bound i) then R_AGENTIC_UNBOUND_ARGUMENT
  else if residual_subintent i && (0 <? deterministic_nodes i) then R_AGENTIC_RESIDUAL_SUBINTENT
  else R_AGENTIC_AMBIGUOUS_INTENT.

(** S8 *)
Definition agentic_stage (i : ResolverIntent) (policy_allows context_ok : bool) (rejected : list ResolverReason)
    : Outcome :=
  let refused r := mkOutcome r rejected 0 0 in
  if negb (agentic_allowance i && allows_agentic (budget m)) then refused E_AGENTIC_NOT_ALLOWED
  else if max_escalations_per_request (budget m) <=? escalation_count i then refused E_AGENTIC_BUDGET_EXHAUSTED
  else if needs_approval i && String.eqb (approval_ref i) "" then refused E_AGENTIC_APPROVAL_MISSING
  else if negb policy_allows then refused E_AGENTIC_POLICY_FORBIDDEN
  else if negb context_ok then refused E_AGENTIC_CONTEXT_SHAPING_FAILED
  else mkOutcome (agentic_reason i) rejected (deterministic_nodes i) (agentic_token_budget (budget m)).

Definition resolve_outcome (i : ResolverIntent) (policy : PolicyDecision) (policy_allows context_ok : bool) : Outcome :=
  match and_then (and_then (and_then (and_then (admission_stage i policy) (direct_stage i)) (batch_stage i))
                    (runbook_stage i)) (dag_stage i) with
  | inl o => o
  | inr rejected => agentic_stage i policy_allows context_ok rejected
  end.

Section Digests.
Variable sha256_hex : string -> string.

(** What [_decision] may raise: the decision record refuses, or a digest fails. *)
Inductive resolve_error : Type := Contract (e : resolver_exn) | Encoding (e : py_error).

(** [_decision] *)
Definition make_decision (i : ResolverIntent) (o : Outcome) : result resolve_error ResolverDecision :=
  match intent_digest sha256_hex i, budget_digest sha256_hex (budget m) with
  | Ok di, Ok db =>
      match resolver_decision
              (mkDecision (request_id i) (if is_mode_selection (oc_reason o) then MODE_FOR_REASON (oc_reason o) else None)
                 (oc_reason o) (oc_rejected o) (oc_nodes o) (node_count i) (escalation_count i) (oc_tokens o)
                 di db (snapshot_digest m)) with
      | Ok d => Ok d
      | Err e => Err (Contract e)
      end
  | Err e, _ | _, Err e => Err (Encoding e)
  end.

(** [resolve] *)
Definition resolve (i : ResolverIntent) (policy : PolicyDecision) (policy_allows context_ok : bool)
    : result resolve_error ResolverDecision :=
  make_decision i (resolve_outcome i policy policy_allows context_ok).

Definition same_text (a b : result py_error string) : bool :=
  match a, b with Ok x, Ok y => String.eqb x y | _, _ => false end.

(** [replay_decision]: the first decision, and how many of the repetitions differ in canonical form. *)
Definition replay_decision (i : ResolverIntent) (policy : PolicyDecision) (policy_allows context_ok : bool)
    (repetitions : nat) : result resolve_error (ResolverDecision * Z) :=
  let! first := resolve i policy policy_allows context_ok in
  let text d := canonical_json_text (decision_canonical d) in
  let! mismatches := rfold (fun n _ =>
      let! candidate := resolve i policy policy_allows context_ok in
      Ok (n + if same_text (text candidate) (text first) then 0 else 1))
      0 (seq 0 (repetitions - 1)) in
  Ok (first, mismatches).
End Digests.
End Resolver.

(** ** The audit chain ([v2/audit_chain.py]) *)

Definition MAX_REJECTED_BRANCHES : Z := 16.
Definition MAX_REASON_LABELS_PER_RUN : Z := 1 + MAX_REJECTED_BRANCHES.
Definition MAX_NODES_PER_REQUEST : Z := 200.
Definition MAX_AGENTIC_ESCALATIONS : Z := 1.

Record AuditLink := mkLink {
  al_request : string;
  al_decision_digest : string;
  al_executed_digest : string;
  al_matched : bool;
  al_mode : string;
  al_reason : string
}.

Section AuditChain.
Variable sha256_hex : string -> string.

(** [bind_audit_link] *)
Definition bind_audit_link (d : ResolverDecision) (executed : ResolverIntent) : result py_error AuditLink :=
  let! e := intent_digest sha256_hex executed in
  let! dd := decision_digest sha256_hex d in
  Ok (mkLink (rd_request d) dd e (String.eqb e (rd_intent_digest d))
        (match rd_mode d with Some mo => mode_value mo | None => "REFUSED" end) (reason_value (rd_reason d))).

(** [AuditLink.canonical], [AuditLink.digest] *)
Definition link_canonical (l : AuditLink) : value :=
  VDict [("decision_digest", VStr (al_decision_digest l)); ("executed_plan_digest", VStr (al_executed_digest l));
         ("matched", VBool (al_matched l)); ("mode", VStr (al_mode l)); ("reason_code", VStr (al_reason l));
         ("request_id", VStr (al_request l))].
Definition link_digest (l : AuditLink) : result py_error string := canonical_hash sha256_hex (link_canonical l).

(** [digest_chain] *)
Definition digest_chain (payloads : list value) : result py_error string :=
  rfold (fun acc p => let! leaf := canonical_hash sha256_hex p in Ok (sha256_hex (acc +:+ leaf)))
    (sha256_hex "") payloads.
End AuditChain.

(** [enforce_cardinality]: whether it refuses. *)
Definition exceeds_cardinality (i : ResolverIntent) (budget_nodes : Z) : bool :=
  (MAX_NODES_PER_REQUEST <? node_count i) || (budget_nodes <? node_count i)
  || (MAX_AGENTIC_ESCALATIONS <? escalation_count i).

(** [truncated_rejected_branches] *)
Definition truncated_rejected_branches (d : ResolverDecision) : list string :=
  let codes := reason_value (rd_reason d) :: map reason_value (rd_rejected d) in
  if MAX_REASON_LABELS_PER_RUN <? Z.of_nat (length codes)
  then take (Z.to_nat MAX_REASON_LABELS_PER_RUN) codes ++ ["OVERFLOW"] else codes.

(** [link_reason_code] *)
Definition link_reason_code (d : ResolverDecision) : string := reason_value (rd_reason d).
