(* ===== verification/ResolverGuarantees.v ===== *)
(** * What the resolver decides

    It always decides; a mode is selected only when its conditions hold and those of the modes before
    it do not; nothing agentic without an allowance; and the audit link says whether what was executed
    is what was decided on. *)
From stdpp Require Import relations.
From S2P Require Import Prelude.
From S2P Require Import PyText.
From S2P Require Import PyValue.
From S2P Require Import Canonical.
From S2P Require Import MutationContract.
From S2P Require Import DagDigest.
From S2P Require Import ResolverContract.
From S2P Require Import ResolverGraph.
From S2P Require Import Resolver.

Section Guarantees.
Variable m : ModeResolver.
Variable i : ResolverIntent.

(** ** The conditions of the modes, independently of the walk *)

Definition all_usable : Prop := Forall (fun o => usable m o = true) (operations i).
Definition all_bound : Prop := Forall (fun o => op_bound o = true) (operations i).
Definition independent : Prop :=
  Forall (fun o => op_depends o = []) (operations i)
  /\ forall a b, a ∈ operations i -> b ∈ operations i -> op_capability a = op_capability b.
Definition acyclic_plan : Prop := forall x, ~ tc (depends (intent_graph i)) x x.
(** No chain of dependent operations is longer than [n]. *)
Definition chains_within (n : Z) : Prop :=
  forall l, (forall x, x ∈ l -> in_graph (intent_graph i) x = true) -> dep_chain (intent_graph i) l ->
    Z.of_nat (length l) <= n.

Definition qualifies (mode : ExecutionMode) : Prop :=
  match mode with
  | Mode_DIRECT => node_count i = 1 /\ residual_subintent i = false /\ all_bound /\ all_usable
  | Mode_BATCH => 1 < node_count i /\ residual_subintent i = false /\ independent /\ all_bound /\ all_usable
                  /\ node_count i <= batch_max_nodes (budget m)
  | Mode_RUNBOOK => runbook_ref i <> "" /\ runbooks m !! runbook_ref i = Some true
                    /\ runbook_version_pinned i = true /\ all_bound /\ residual_subintent i = false
  | Mode_DAG => 1 < node_count i /\ residual_subintent i = false /\ acyclic_plan /\ all_bound /\ all_usable
                /\ node_count i <= dag_max_nodes (budget m) /\ chains_within (dag_max_depth (budget m))
  | _ => False
  end.

(** What the agentic gate asks for. *)
Definition agentic_gate (policy_allows context_ok : bool) : Prop :=
  agentic_allowance i = true /\ 0 < agentic_token_budget (budget m)
  /\ escalation_count i < max_escalations_per_request (budget m)
  /\ (forall o, o ∈ operations i -> op_capability o ∈ write_capabilities m -> approval_ref i <> "")
  /\ policy_allows = true /\ context_ok = true.

Lemma forallb_Forall {A} (f : A -> bool) l : forallb f l = true <-> Forall (fun x => f x = true) l.
Proof. rewrite forallb_forall, Forall_forall. by setoid_rewrite list_elem_of_In. Qed.

Lemma bound_iff : intent_bound i = true <-> all_bound.
Proof. apply forallb_Forall. Qed.

Lemma filter_full {A} (f : A -> bool) l : length (List.filter f l) = length l <-> Forall (fun x => f x = true) l.
Proof.
  induction l as [|x l IH]; simpl; [by split; [constructor|]|]. rewrite Forall_cons, <- IH.
  pose proof (List.filter_length_le f l). destruct (f x); simpl; split; try lia; try tauto; intros [? ?]; done.
Qed.

Lemma usable_iff : (deterministic_nodes m i =? node_count i) = true <-> all_usable.
Proof. unfold deterministic_nodes, node_count, all_usable. rewrite Z.eqb_eq, <- filter_full. lia. Qed.

Lemma dedup_one (l : list string) :
  l <> [] -> length (dedup l) = 1%nat <-> forall a b, a ∈ l -> b ∈ l -> a = b.
Proof.
  intros Hl. unfold dedup. split.
  - intros H1 a b Ha Hb. apply elem_of_remove_dups in Ha, Hb.
    destruct (remove_dups l) as [|x [|]]; [done| |done]. apply list_elem_of_singleton in Ha, Hb. congruence.
  - intros Hall. pose proof (NoDup_remove_dups l) as Hnd.
    destruct (remove_dups l) as [|x [|y r]] eqn:E; [|done|].
    + destruct l as [|z l]; [done|]. assert (Hz : z ∈ remove_dups (z :: l)) by (apply elem_of_remove_dups; by left).
      rewrite E in Hz. by apply not_elem_of_nil in Hz.
    + exfalso. apply NoDup_cons in Hnd as [Hnin _]. apply Hnin.
      rewrite (Hall x y); [by left|..]; apply elem_of_remove_dups; rewrite E; [by left|by right; left].
Qed.

Lemma independent_iff :
  operations i <> [] -> has_dependencies i || negb (homogeneous i) = false <-> independent.
Proof.
  intros Hne. unfold independent. rewrite orb_false_iff, negb_false_iff. unfold has_dependencies, homogeneous.
  rewrite Z.eqb_eq. split.
  - intros [Hd Hh]. split.
    + apply Forall_forall. intros o Ho. apply not_true_iff_false in Hd. destruct (decide (op_depends o = [])) as [|Hn]; [done|].
      destruct Hd. apply existsb_exists. exists o. split; [by apply list_elem_of_In|]. by rewrite bool_decide_eq_false_2.
    + intros a b Ha Hb. apply (proj1 (dedup_one (map op_capability (operations i)) ltac:(by destruct (operations i))));
        [lia|by apply list_elem_of_fmap_2..].
  - intros [Hd Hh]. split.
    + apply not_true_iff_false. intros (o & Ho & Hn)%existsb_exists. rewrite Forall_forall in Hd.
      apply list_elem_of_In, Hd in Ho. by rewrite Ho in Hn.
    + enough (length (dedup (map op_capability (operations i))) = 1%nat) by lia.
      apply dedup_one; [by destruct (operations i)|].
      intros a b (x & -> & Hx)%list_elem_of_fmap (y & -> & Hy)%list_elem_of_fmap. by apply Hh.
Qed.

Lemma acyclic_iff : has_cycle (intent_graph i) = false <-> acyclic_plan.
Proof.
  unfold acyclic_plan. destruct (has_cycle (intent_graph i)) eqn:E; split; try done.
  - intros H. apply has_cycle_iff in E as [x Hx]. by destruct (H x).
  - intros _ x Hx. assert (has_cycle (intent_graph i) = true) by (apply has_cycle_iff; eauto). congruence.
Qed.

Lemma chains_iff n :
  has_cycle (intent_graph i) = false -> (n <? graph_depth (intent_graph i)) = false <-> chains_within n.
Proof.
  intros [Hub (l & Hl & Hc & Hd)]%graph_depth_spec. rewrite Z.ltb_ge. unfold chains_within. split.
  - intros Hn l' Hl' Hc'. specialize (Hub l' Hl' Hc'). lia.
  - intros H. specialize (H l Hl Hc). lia.
Qed.

(** ** The stages *)

(** A stage that decides for a mode does so exactly under its conditions. *)
Definition decided (s : stage) : option ResolverReason := match s with inl o => Some (oc_reason o) | inr _ => None end.

Lemma direct_decides rej :
  (decided (direct_stage m i rej) = Some R_DIRECT_EXACT <-> qualifies Mode_DIRECT)
  /\ (decided (direct_stage m i rej) = None <-> ~ qualifies Mode_DIRECT).
Proof.
  unfold direct_stage, qualifies, node_count, all_bound, all_usable.
  destruct (operations i) as [|o [|o' l]]; simpl.
  - split; split; try done; intros H; lia.
  - rewrite !Forall_singleton. destruct (residual_subintent i), (op_bound o), (usable m o); simpl; naive_solver.
  - split; split; try done; [|intros _ H]; lia.
Qed.

Lemma count_nonempty : 1 < node_count i -> operations i <> [].
Proof. unfold node_count. by destruct (operations i). Qed.

Lemma batch_decides rej :
  (decided (batch_stage m i rej) = Some R_BATCH_INDEPENDENT <-> qualifies Mode_BATCH)
  /\ (decided (batch_stage m i rej) = None -> ~ qualifies Mode_BATCH)
  /\ (decided (batch_stage m i rej) = Some R_BATCH_INDEPENDENT \/ decided (batch_stage m i rej) = Some E_BUDGET_NODES
      \/ decided (batch_stage m i rej) = None).
Proof.
  unfold batch_stage, qualifies. destruct (Z.ltb_spec 1 (node_count i)) as [Hn|Hn].
  2:{ simpl. split_and!; [split; [done|lia]|lia|by right; right]. }
  pose proof (independent_iff (count_nonempty Hn)) as Hi. pose proof bound_iff as Hb. pose proof usable_iff as Hu.
  destruct (residual_subintent i); simpl; [split_and!; [naive_solver|naive_solver|by right; right]|].
  destruct (has_dependencies i || negb (homogeneous i)) eqn:Ed; simpl.
  { assert (~ independent) by (intros H; apply Hi in H; congruence).
    split_and!; [naive_solver|naive_solver|by right; right]. }
  assert (independent) by by apply Hi.
  destruct (intent_bound i) eqn:Eb; simpl.
  2:{ assert (~ all_bound) by (intros H'; apply Hb in H'; congruence).
      split_and!; [naive_solver|naive_solver|by right; right]. }
  assert (all_bound) by by apply Hb.
  destruct (Z.ltb_spec (batch_max_nodes (budget m)) (node_count i)); simpl.
  { split_and!; [split; [done|lia]|done|by right; left]. }
  destruct (deterministic_nodes m i =? node_count i) eqn:Eu; simpl.
  - assert (all_usable) by by apply Hu. split_and!; [by split_and!|done|by left].
  - assert (~ all_usable) by (intros H'; apply Hu in H'; congruence).
    split_and!; [naive_solver|naive_solver|by right; right].
Qed.

Lemma runbook_decides rej :
  (decided (runbook_stage m i rej) = Some R_RUNBOOK_MATCH <-> qualifies Mode_RUNBOOK)
  /\ (decided (runbook_stage m i rej) = None <-> ~ qualifies Mode_RUNBOOK).
Proof.
  unfold runbook_stage, qualifies. pose proof bound_iff as Hb.
  destruct (String.eqb_spec (runbook_ref i) "") as [He|He]; simpl; [split; split; try done; tauto|].
  destruct (runbooks m !! runbook_ref i) as [[]|]; simpl.
  2,3: naive_solver.
  destruct (runbook_version_pinned i); simpl; [|naive_solver].
  destruct (intent_bound i) eqn:Eb; simpl.
  - assert (all_bound) by by apply Hb. destruct (residual_subintent i); simpl; naive_solver.
  - assert (~ all_bound) by (intros H'; apply Hb in H'; congruence). naive_solver.
Qed.

Lemma dag_decides rej :
  (decided (dag_stage m i rej) = Some R_DAG_TYPED_PLAN <-> qualifies Mode_DAG)
  /\ (decided (dag_stage m i rej) = None -> ~ qualifies Mode_DAG)
  /\ (decided (dag_stage m i rej) = Some R_DAG_TYPED_PLAN \/ decided (dag_stage m i rej) = Some E_BUDGET_NODES
      \/ decided (dag_stage m i rej) = None).
Proof.
  unfold dag_stage, qualifies. pose proof bound_iff as Hb. pose proof usable_iff as Hu.
  destruct (Z.ltb_spec 1 (node_count i)) as [Hn|Hn]; simpl.
  2:{ split_and!; [split; [done|lia]|lia|by right; right]. }
  destruct (residual_subintent i); simpl; [split_and!; [naive_solver|naive_solver|by right; right]|].
  destruct (has_cycle (intent_graph i)) eqn:Ec; simpl.
  { assert (~ acyclic_plan) by (intros H; apply acyclic_iff in H; congruence).
    split_and!; [naive_solver|naive_solver|by right; right]. }
  pose proof (proj1 acyclic_iff Ec) as Hac. pose proof (chains_iff (dag_max_depth (budget m)) Ec) as Hch.
  destruct (intent_bound i) eqn:Eb; simpl.
  2:{ assert (~ all_bound) by (intros H'; apply Hb in H'; congruence).
      split_and!; [naive_solver|naive_solver|by right; right]. }
  assert (all_bound) by by apply Hb.
  destruct (Z.ltb_spec (dag_max_nodes (budget m)) (node_count i)); simpl.
  { split_and!; [split; [done|lia]|done|by right; left]. }
  destruct (dag_max_depth (budget m) <? graph_depth (intent_graph i)) eqn:Edep; simpl.
  { assert (~ chains_within (dag_max_depth (budget m))) by (intros H'; apply Hch in H'; congruence).
    split_and!; [naive_solver|naive_solver|by right; left]. }
  assert (chains_within (dag_max_depth (budget m))) by by apply Hch.
  destruct (deterministic_nodes m i =? node_count i) eqn:Eu; simpl.
  - assert (all_usable) by by apply Hu. split_and!; [by split_and!|done|by left].
  - assert (~ all_usable) by (intros H'; apply Hu in H'; congruence).
    split_and!; [naive_solver|naive_solver|by right; right].
Qed.

(** A refusal for the nodes is one of a plan over a bound. *)
Definition over_budget : Prop :=
  1 < node_count i
  /\ (batch_max_nodes (budget m) < node_count i \/ dag_max_nodes (budget m) < node_count i
      \/ dag_max_depth (budget m) < graph_depth (intent_graph i)).

Lemma budget_refusals rej :
  (decided (batch_stage m i rej) = Some E_BUDGET_NODES -> over_budget)
  /\ (decided (dag_stage m i rej) = Some E_BUDGET_NODES -> over_budget).
Proof.
  unfold batch_stage, dag_stage, over_budget. destruct (Z.ltb_spec 1 (node_count i)); simpl; [|by split].
  split; repeat case_match; simpl; try done; intros _; split; try done.
  - left. by apply Z.ltb_lt.
  - right. by match goal with H : _ || _ = true |- _ => apply orb_true_iff in H as [H%Z.ltb_lt|H%Z.ltb_lt]; [left|right] end.
Qed.

Lemma agentic_spec pa ck rej :
  let o := agentic_stage m i pa ck rej in
  (MODE_FOR_REASON (oc_reason o) = Some Mode_AGENTIC <-> agentic_gate pa ck)
  /\ (MODE_FOR_REASON (oc_reason o) = None \/ MODE_FOR_REASON (oc_reason o) = Some Mode_AGENTIC)
  /\ oc_reason o <> E_BUDGET_NODES
  /\ oc_tokens o = (if bool_decide (MODE_FOR_REASON (oc_reason o) = Some Mode_AGENTIC)
                    then agentic_token_budget (budget m) else 0)
  /\ oc_rejected o = rej.
Proof.
  unfold agentic_stage, agentic_gate, allows_agentic.
  destruct (agentic_allowance i); simpl; [|split_and!; try done; [split; [done|naive_solver]|by left]].
  destruct (Z.ltb_spec 0 (agentic_token_budget (budget m))); simpl;
    [|split_and!; try done; [split; [done|lia]|by left]].
  destruct (Z.leb_spec (max_escalations_per_request (budget m)) (escalation_count i)); simpl;
    [split_and!; try done; [split; [done|lia]|by left]|].
  assert (Hap : needs_approval m i && String.eqb (approval_ref i) "" = false
    <-> forall o, o ∈ operations i -> op_capability o ∈ write_capabilities m -> approval_ref i <> "").
  { unfold needs_approval. rewrite andb_false_iff. split.
    - intros [Hn|Hn] o Ho Hc; [|by apply String.eqb_neq in Hn]. apply not_true_iff_false in Hn. destruct Hn.
      apply existsb_exists. exists o. split; [by apply list_elem_of_In|].
      apply existsb_exists. exists (op_capability o). split; [by apply list_elem_of_In|apply String.eqb_refl].
    - intros H'. destruct (String.eqb_spec (approval_ref i) "") as [E|]; [left|by right].
      apply not_true_iff_false. intros (o & Ho & (c & Hc & <-%String.eqb_eq)%existsb_exists)%existsb_exists.
      by apply (H' o); [apply list_elem_of_In..|]. }
  destruct (needs_approval m i && String.eqb (approval_ref i) "") eqn:Ena; simpl.
  { split_and!; try done; [split; [done|]|by left]. intros (_ & _ & _ & Hg & _). apply Hap in Hg. done. }
  pose proof (proj1 Hap eq_refl).
  destruct pa; simpl; [|split_and!; try done; [split; [done|naive_solver]|by left]].
  destruct ck; simpl; [|split_and!; try done; [split; [done|naive_solver]|by left]].
  unfold agentic_reason. repeat case_match; simpl; split_and!; try done; by right.
Qed.

(** ** The decision *)

(** Neither refused at once nor out of escalations. *)
Definition admitted_intent (policy : PolicyDecision) : Prop :=
  (operations i <> [] \/ residual_subintent i || no_contract_coverage i || unknown_target i = true)
  /\ policy <> Policy_DENY /\ escalation_count i <= max_escalations_per_request (budget m).

Lemma admission_decides policy :
  (admission_stage m i policy = inr [] /\ admitted_intent policy)
  \/ exists r, admission_stage m i policy = refuse r [] /\ ~ admitted_intent policy
       /\ (r = E_REQ_INVALID \/ r = E_POLICY_DENY \/ r = E_AGENTIC_BUDGET_EXHAUSTED)
       /\ (policy = Policy_DENY -> r = E_REQ_INVALID \/ r = E_POLICY_DENY).
Proof.
  unfold admission_stage, admitted_intent.
  assert (Hz : (node_count i =? 0) = true <-> operations i = [])
    by (unfold node_count; destruct (operations i); simpl; split; done).
  destruct (node_count i =? 0) eqn:Ez.
  - pose proof (proj1 Hz eq_refl) as He.
    destruct (residual_subintent i || no_contract_coverage i || unknown_target i) eqn:Ef; simpl.
    + case_bool_decide; [right; exists E_POLICY_DENY; split_and!; [done|tauto|auto|auto]|].
      destruct (Z.ltb_spec (max_escalations_per_request (budget m)) (escalation_count i)).
      * right. exists E_AGENTIC_BUDGET_EXHAUSTED. split_and!; [done|intros (_ & _ & ?); lia|auto|done].
      * left. split_and!; [done|by right|done|done].
    + right. exists E_REQ_INVALID. split_and!; [done|intros ([|] & _); done|auto|auto].
  - assert (operations i <> []) by (intros E; apply Hz in E; done). simpl.
    case_bool_decide; [right; exists E_POLICY_DENY; split_and!; [done|tauto|auto|auto]|].
    destruct (Z.ltb_spec (max_escalations_per_request (budget m)) (escalation_count i)).
    + right. exists E_AGENTIC_BUDGET_EXHAUSTED. split_and!; [done|intros (_ & _ & ?); lia|auto|done].
    + left. split_and!; [done|by left|done|done].
Qed.

Lemma decided_inl s r : decided s = Some r -> exists o, s = inl o /\ oc_reason o = r.
Proof. destruct s as [o|]; [intros [= <-]; eauto|done]. Qed.

(** A deterministic stage authorises no tokens, and appends at most one rejection. *)
Definition clean (s : stage) : Prop :=
  match s with
  | inl o => oc_tokens o = 0 /\ Forall (fun r => is_rejection r = true) (oc_rejected o)
  | inr rej => Forall (fun r => is_rejection r = true) rej
  end.

Lemma clean_stages rej :
  Forall (fun r => is_rejection r = true) rej ->
  clean (direct_stage m i rej) /\ clean (batch_stage m i rej) /\ clean (runbook_stage m i rej) /\ clean (dag_stage m i rej).
Proof.
  intros Hr. assert (Ha : forall r, is_rejection r = true -> Forall (fun r => is_rejection r = true) (rej ++ [r]))
    by (intros; apply Forall_app; split; [done|by apply Forall_singleton]).
  unfold direct_stage, batch_stage, runbook_stage, dag_stage, reject, refuse, select.
  split_and!; repeat case_match; simpl; auto; split; done.
Qed.

(** The walk, case by case. *)
Inductive walk (pa ck : bool) (o : Outcome) : Prop :=
| WalkDirect : oc_reason o = R_DIRECT_EXACT -> qualifies Mode_DIRECT -> oc_tokens o = 0 -> walk pa ck o
| WalkBatch : oc_reason o = R_BATCH_INDEPENDENT -> qualifies Mode_BATCH -> ~ qualifies Mode_DIRECT ->
    oc_tokens o = 0 -> walk pa ck o
| WalkRunbook : oc_reason o = R_RUNBOOK_MATCH -> qualifies Mode_RUNBOOK -> ~ qualifies Mode_DIRECT ->
    ~ qualifies Mode_BATCH -> oc_tokens o = 0 -> walk pa ck o
| WalkDag : oc_reason o = R_DAG_TYPED_PLAN -> qualifies Mode_DAG -> ~ qualifies Mode_DIRECT -> ~ qualifies Mode_BATCH ->
    ~ qualifies Mode_RUNBOOK -> oc_tokens o = 0 -> walk pa ck o
| WalkBudget : oc_reason o = E_BUDGET_NODES -> over_budget -> ~ qualifies Mode_DIRECT -> ~ qualifies Mode_BATCH -> oc_tokens o = 0 -> walk pa ck o
| WalkAgentic rej : o = agentic_stage m i pa ck rej -> ~ qualifies Mode_DIRECT -> ~ qualifies Mode_BATCH ->
    ~ qualifies Mode_RUNBOOK -> ~ qualifies Mode_DAG -> walk pa ck o.

Lemma resolve_walk policy pa ck :
  let o := resolve_outcome m i policy pa ck in
  Forall (fun r => is_rejection r = true) (oc_rejected o)
  /\ (admitted_intent policy -> walk pa ck o)
  /\ (~ admitted_intent policy -> MODE_FOR_REASON (oc_reason o) = None /\ is_refusal (oc_reason o) = true /\ oc_tokens o = 0
      /\ (policy = Policy_DENY -> oc_reason o = E_REQ_INVALID \/ oc_reason o = E_POLICY_DENY)).
Proof.
  simpl. unfold resolve_outcome.
  destruct (admission_decides policy) as [[-> Ha]|(r & -> & Hna & Hr & Hdeny)].
  2:{ simpl. split_and!; [constructor|done|]. intros _. split_and!; [by destruct Hr as [->|[->| ->]]..|done|done]. }
  cbn [and_then].
  destruct (direct_decides []) as [D1 D2]. destruct (clean_stages [] ltac:(constructor)) as (K1 & _).
  destruct (direct_stage m i []) as [o|rej1] eqn:E1; cbn [and_then].
  { assert (Hq : qualifies Mode_DIRECT).
    { destruct (decide (oc_reason o = R_DIRECT_EXACT)) as [E|E]; [apply D1; by rewrite <- E|].
      exfalso. unfold direct_stage, select, reject in E1. repeat case_match; simplify_eq/=. }
    destruct K1 as [K1 K1']. split_and!; [done|intros _|tauto].
    apply D1 in Hq as Hd. injection Hd as Hd. by apply WalkDirect. }
  pose proof (proj1 D2 eq_refl) as Hnd.
  destruct (batch_decides rej1) as (B1 & B2 & B3). destruct (clean_stages rej1 K1) as (_ & K2 & _).
  destruct (batch_stage m i rej1) as [o|rej2] eqn:E2; cbn [and_then].
  { destruct K2 as [K2 K2']. split_and!; [done|intros _|tauto]. destruct B3 as [B3|[B3|B3]]; [| |done].
    - apply B1 in B3 as Hq. injection B3 as B3. by apply WalkBatch.
    - injection B3 as B3. apply WalkBudget; [done| |done| |done].
      { apply (proj1 (budget_refusals rej1)). rewrite E2. simpl. by rewrite B3. }
      intros Hq. apply B1 in Hq. simpl in Hq. congruence. }
  pose proof (B2 eq_refl) as Hnb.
  destruct (runbook_decides rej2) as [R1 R2]. destruct (clean_stages rej2 K2) as (_ & _ & K3 & _).
  destruct (runbook_stage m i rej2) as [o|rej3] eqn:E3; cbn [and_then].
  { assert (Hq : qualifies Mode_RUNBOOK).
    { destruct (decide (oc_reason o = R_RUNBOOK_MATCH)) as [E|E]; [apply R1; by rewrite <- E|].
      exfalso. unfold runbook_stage, select, reject in E3. repeat case_match; simplify_eq/=. }
    destruct K3 as [K3 K3']. split_and!; [done|intros _|tauto].
    apply R1 in Hq as Hd. injection Hd as Hd. by apply WalkRunbook. }
  pose proof (proj1 R2 eq_refl) as Hnr.
  destruct (dag_decides rej3) as (G1 & G2 & G3). destruct (clean_stages rej3 K3) as (_ & _ & _ & K4).
  destruct (dag_stage m i rej3) as [o|rej4] eqn:E4; simpl.
  { destruct K4 as [K4 K4']. split_and!; [done|intros _|tauto]. destruct G3 as [G3|[G3|G3]]; [| |done].
    - apply G1 in G3 as Hq. injection G3 as G3. by apply WalkDag.
    - injection G3 as G3. apply WalkBudget; try done.
      apply (proj2 (budget_refusals rej3)). rewrite E4. simpl. by rewrite G3. }
  pose proof (G2 eq_refl) as Hng.
  destruct (agentic_spec pa ck rej4) as (_ & _ & _ & _ & Hrej). split_and!; [by rewrite Hrej|intros _|tauto].
  by eapply WalkAgentic.
Qed.
End Guarantees.

(** ** The decision is always made *)

Section Decisions.
Variable sha256_hex : string -> string.

(** The record [resolve] returns. *)
Definition decision_of (m : ModeResolver) (i : ResolverIntent) (o : Outcome) : ResolverDecision :=
  mkDecision (request_id i) (MODE_FOR_REASON (oc_reason o)) (oc_reason o) (oc_rejected o) (oc_nodes o) (node_count i)
    (escalation_count i) (oc_tokens o) (sha256_hex (json_dumps (intent_canonical i)))
    (sha256_hex (json_dumps (budget_canonical (budget m)))) (snapshot_digest m).

Lemma mode_of_reason r : (if is_mode_selection r then MODE_FOR_REASON r else None) = MODE_FOR_REASON r.
Proof. by destruct r. Qed.

Lemma rejections_pass l :
  Forall (fun r => is_rejection r = true) l ->
  rfor (fun r => contract_if (negb (is_rejection r)) "non-rejection in rejected_branches") l = Ok tt.
Proof. induction 1 as [|r l Hr _ IH]; simpl; [done|]. unfold contract_if. by rewrite Hr. Qed.

Lemma resolve_Ok m i policy pa ck :
  resolve m sha256_hex i policy pa ck = Ok (decision_of m i (resolve_outcome m i policy pa ck)).
Proof.
  destruct (resolve_walk m i policy pa ck) as (Hrej & _). unfold resolve, make_decision, intent_digest, budget_digest.
  rewrite (hash_valid _ _ (intent_valid i)), (hash_valid _ _ (budget_valid _)), mode_of_reason.
  set (o := resolve_outcome m i policy pa ck) in *. unfold resolver_decision. cbn [rd_reason rd_mode rd_rejected].
  rewrite (rejections_pass _ Hrej).
  assert ((if is_mode_selection (oc_reason o)
           then contract_if (negb (bool_decide (MODE_FOR_REASON (oc_reason o) = MODE_FOR_REASON (oc_reason o)))) "mode/reason disagreement"
           else contract_if (negb (bool_decide (MODE_FOR_REASON (oc_reason o) = None))) "refusal carries a mode") = Ok tt) as ->
    by (by destruct (oc_reason o)).
  done.
Qed.

Lemma refusal_iff r : is_refusal r = true -> MODE_FOR_REASON r = None.
Proof. by destruct r. Qed.

Lemma agentic_tokens m i pa ck rej :
  agentic_gate m i pa ck -> oc_tokens (agentic_stage m i pa ck rej) = agentic_token_budget (budget m).
Proof.
  destruct (agentic_spec m i pa ck rej) as (H1 & _ & _ & -> & _). intros Hg%H1. by rewrite bool_decide_eq_true_2.
Qed.

(** The mode of a decision, and what it means. *)
Record selection (m : ModeResolver) (i : ResolverIntent) (policy : PolicyDecision) (pa ck : bool) (d : ResolverDecision)
    : Prop := {
  sel_direct : rd_mode d = Some Mode_DIRECT <-> admitted_intent m i policy /\ qualifies m i Mode_DIRECT;
  sel_batch : rd_mode d = Some Mode_BATCH <-> admitted_intent m i policy /\ qualifies m i Mode_BATCH;
  sel_runbook : rd_mode d = Some Mode_RUNBOOK -> admitted_intent m i policy /\ qualifies m i Mode_RUNBOOK
    /\ ~ qualifies m i Mode_DIRECT /\ ~ qualifies m i Mode_BATCH;
  sel_dag : rd_mode d = Some Mode_DAG -> admitted_intent m i policy /\ qualifies m i Mode_DAG
    /\ ~ qualifies m i Mode_DIRECT /\ ~ qualifies m i Mode_BATCH /\ ~ qualifies m i Mode_RUNBOOK;
  sel_agentic : rd_mode d = Some Mode_AGENTIC -> admitted_intent m i policy /\ agentic_gate m i pa ck
    /\ forall mode, ~ qualifies m i mode;
  sel_hybrid : rd_mode d <> Some Mode_HYBRID;
  sel_tokens : rd_tokens d = if bool_decide (rd_mode d = Some Mode_AGENTIC) then agentic_token_budget (budget m) else 0;
  sel_refused : refused d = true <-> rd_mode d = None;
  sel_reason : refused d = true -> admitted_intent m i policy ->
    over_budget m i \/ ((forall mode, ~ qualifies m i mode) /\ ~ agentic_gate m i pa ck)
}.

Lemma refused_iff d : rd_mode d = MODE_FOR_REASON (rd_reason d) -> is_rejection (rd_reason d) = false ->
  refused d = true <-> rd_mode d = None.
Proof. unfold refused. intros ->. by destruct (rd_reason d). Qed.

Lemma modes_exclusive m i : qualifies m i Mode_DIRECT -> qualifies m i Mode_BATCH -> False.
Proof. unfold qualifies. intros (H & _) (H' & _). lia. Qed.

Lemma no_mode m i : ~ qualifies m i Mode_DIRECT -> ~ qualifies m i Mode_BATCH -> ~ qualifies m i Mode_RUNBOOK ->
  ~ qualifies m i Mode_DAG -> forall mode, ~ qualifies m i mode.
Proof. intros ? ? ? ? []; (assumption || intros []). Qed.

Lemma walk_selection m i policy pa ck o :
  admitted_intent m i policy -> walk m i pa ck o -> selection m i policy pa ck (decision_of m i o).
Proof.
  intros Ha Hw. pose proof (modes_exclusive m i) as Hx.
  destruct Hw as [E Q T|E Q D T|E Q D B T|E Q D B R T|E O D B T|rej -> D B R G].
  1-5: constructor; unfold refused; cbn [rd_mode rd_reason rd_tokens decision_of]; rewrite ?E; simpl; try done;
    try (rewrite T; done); try tauto; intros; naive_solver.
  pose proof (no_mode m i D B R G) as Hn. destruct (agentic_spec m i pa ck rej) as (H1 & H2 & _ & H4 & _).
  constructor; cbn [rd_mode rd_tokens decision_of].
  1,2: split; [destruct H2 as [->| ->]; done|naive_solver].
  1,2: destruct H2 as [->| ->]; done.
  - intros Hg%H1. done.
  - destruct H2 as [->| ->]; done.
  - done.
  - apply refused_iff; [done|]. cbn [rd_reason decision_of]. unfold agentic_stage. repeat case_match; try done.
    all: cbn [oc_reason]; unfold agentic_reason; repeat case_match; done.
  - unfold refused. cbn [rd_reason decision_of]. intros Hr%refusal_iff _. right. split; [done|].
    intros Hg%H1. congruence.
Qed.

Lemma refused_selection m i policy pa ck o :
  ~ admitted_intent m i policy -> MODE_FOR_REASON (oc_reason o) = None -> is_refusal (oc_reason o) = true -> oc_tokens o = 0 ->
  selection m i policy pa ck (decision_of m i o).
Proof.
  intros Hna Hm Hr Ht. constructor; unfold refused; cbn [rd_mode rd_reason rd_tokens decision_of]; rewrite ?Hm, ?Hr; try done.
  1,2: split; [done|tauto].
Qed.

Lemma resolve_selection m i policy pa ck :
  selection m i policy pa ck (decision_of m i (resolve_outcome m i policy pa ck)).
Proof.
  destruct (resolve_walk m i policy pa ck) as (_ & Hw & Hr).
  assert (Hdec : admitted_intent m i policy \/ ~ admitted_intent m i policy).
  { destruct (admission_decides m i policy) as [[_ ?]|(r & _ & ? & _)]; [by left|by right]. }
  destruct Hdec as [Ha|Ha]; [by apply walk_selection, Hw|]. destruct (Hr Ha) as (? & ? & ? & _). by apply refused_selection.
Qed.
End Decisions.
