(* ===== verification/ResolverWitness.v ===== *)
(** * The decision and the plan that runs ([v2/audit_chain.py]), and concrete requests

    The audit link binds a decision to the intent it was made for; the chain of digests cannot be
    altered unnoticed; then concrete intents, one for each way the walk can end. *)
From stdpp Require Import relations.
From S2P Require Import Prelude.
From S2P Require Import PyText.
From S2P Require Import PyValue.
From S2P Require Import Canonical.
From S2P Require Import DagDigest.
From S2P Require Import MutationContract.
From S2P Require Import ResolverContract.
From S2P Require Import ResolverGraph.
From S2P Require Import Resolver.
From S2P Require Import ResolverGuarantees.

(** ** The canonical form of an intent determines it *)

Lemma normal_operations l1 l2 :
  map normal (map operation_canonical l1) = map normal (map operation_canonical l2) -> l1 = l2.
Proof.
  revert l2. induction l1 as [|o1 l1 IH]; intros [|o2 l2] H; try done. cbn [map] in H. apply cons_eq_inj in H as [H Hl].
  f_equal; [|by apply IH]. destruct o1 as [a1 b1 c1 d1 e1], o2 as [a2 b2 c2 d2 e2].
  unfold operation_canonical in H. dict_fields H F.
  pose proof (F "capability_id") as E1. pose proof (F "depends_on") as E2. pose proof (F "fully_bound") as E3.
  pose proof (F "operation_ref") as E4. pose proof (F "target_scope_ref") as E5. simpl in *.
  injection E1 as ->. injection E3 as ->. injection E4 as ->. injection E5 as ->. injection E2 as E2.
  rewrite !map_normal_strs in E2. by apply vstr_map_inj in E2 as ->.
Qed.

Lemma intent_canonical_inj i j : normal (intent_canonical i) = normal (intent_canonical j) -> i = j.
Proof.
  destruct i as [a b c d e f g h k l n], j as [a' b' c' d' e' f' g' h' k' l' n']. unfold intent_canonical.
  intros H. dict_fields H F.
  pose proof (F "agentic_allowance") as E1. pose proof (F "approval_ref") as E2. pose proof (F "escalation_count") as E3.
  pose proof (F "no_contract_coverage") as E4. pose proof (F "operations") as E5. pose proof (F "principal_ref") as E6.
  pose proof (F "request_id") as E7. pose proof (F "residual_subintent") as E8. pose proof (F "runbook_ref") as E9.
  pose proof (F "runbook_version_pinned") as E10. pose proof (F "unknown_target") as E11. cbn in E1, E2, E3, E4, E6, E7, E8, E9, E10, E11. simplify_eq.
  f_equal. by apply normal_operations.
Qed.

(** ** The audit link and the chain of digests *)

Section AuditChain.
Variable sha256_hex : string -> string.

Lemma link_total d e : exists l, bind_audit_link sha256_hex d e = Ok l
  /\ al_matched l = String.eqb (sha256_hex (json_dumps (intent_canonical e))) (rd_intent_digest d)
  /\ al_decision_digest l = sha256_hex (json_dumps (decision_canonical d)).
Proof.
  unfold bind_audit_link, intent_digest, decision_digest.
  rewrite (hash_valid _ _ (intent_valid e)), (hash_valid _ _ (decision_valid d)). simpl. eauto.
Qed.

Lemma append_eq_length a b c d :
  String.length a = String.length c -> a +:+ b = c +:+ d -> a = c /\ b = d.
Proof.
  revert c. induction a as [|x a IH]; intros [|y c] Hl H; try done. simpl in *. injection H as -> H.
  destruct (IH c ltac:(lia) H) as [-> ->]. done.
Qed.

Lemma chain_snoc ps p h :
  digest_chain sha256_hex (ps ++ [p]) = Ok h ->
  exists acc, digest_chain sha256_hex ps = Ok acc /\ valid p /\ h = sha256_hex (acc +:+ sha256_hex (json_dumps p)).
Proof.
  unfold digest_chain. rewrite rfold_app. intros (acc & Hacc & H)%rbind_Ok. exists acc. split; [done|].
  cbn [rfold] in H. apply rbind_Ok in H as (s & (leaf & Hl & [= <-])%rbind_Ok & [= <-]).
  unfold canonical_hash in Hl. apply rbind_Ok in Hl as (t & [Hv ->]%text_valid & [= <-]). done.
Qed.

Hypothesis sha256_length : forall x, String.length (sha256_hex x) = 64%nat.

Lemma chain_length ps h : digest_chain sha256_hex ps = Ok h -> String.length h = 64%nat.
Proof.
  destruct ps as [|p ps _] using rev_ind; [by intros [= <-]|]. by intros (acc & _ & _ & ->)%chain_snoc.
Qed.

Lemma chain_evident ps qs h :
  digest_chain sha256_hex ps = Ok h -> digest_chain sha256_hex qs = Ok h ->
  map normal ps = map normal qs \/ collision sha256_hex.
Proof.
  revert qs h. induction ps as [|p ps IH] using rev_ind; intros qs h Hp Hq;
    destruct qs as [|q qs _] using rev_ind.
  - by left.
  - apply chain_snoc in Hq as (acc & _ & _ & Hh). injection Hp as <-. right.
    apply digest_cases in Hh as [Hh|]; [|done]. apply (f_equal String.length) in Hh.
    rewrite length_str_app, sha256_length in Hh. simpl in Hh. lia.
  - apply chain_snoc in Hp as (acc & _ & _ & Hh). injection Hq as <-. right.
    apply digest_cases in Hh as [Hh|]; [|done]. apply (f_equal String.length) in Hh.
    rewrite length_str_app, sha256_length in Hh. simpl in Hh. lia.
  - apply chain_snoc in Hp as (a & Ha & Hvp & ->). apply chain_snoc in Hq as (b & Hb & Hvq & Hh).
    apply digest_cases in Hh as [Hh|]; [|by right].
    apply append_eq_length in Hh as [-> Hh]; [|by rewrite (chain_length _ _ Ha), (chain_length _ _ Hb)].
    apply digest_cases in Hh as [Hh|]; [|by right]. apply dumps_eq_iff in Hh; [|done..].
    destruct (IH _ _ Ha Hb) as [IHe|]; [|by right]. left. rewrite !map_app, IHe. cbn [map]. by rewrite Hh.
Qed.
End AuditChain.

(** ** What the resolver promises *)


Section Audit.
Variable sha256_hex : string -> string.

(** The audit link of a decision and of an executed intent is marked as matching exactly when
    the executed intent is the one that was decided on, field by field. *)
Theorem audit_link_binds m i policy policy_allows context_ok d executed :
  (forall x y, sha256_hex x = sha256_hex y -> x = y) ->
  resolve m sha256_hex i policy policy_allows context_ok = Ok d ->
  exists l, bind_audit_link sha256_hex d executed = Ok l /\ (al_matched l = true <-> executed = i).
Proof.
  intros Hfree [= <-]%(eq_trans (eq_sym (resolve_Ok sha256_hex m i policy policy_allows context_ok))).
  destruct (link_total sha256_hex (decision_of sha256_hex m i (resolve_outcome m i policy policy_allows context_ok)) executed)
    as (l & Hl & Hm & _).
  exists l. split; [done|]. rewrite Hm. cbn [rd_intent_digest decision_of]. rewrite String.eqb_eq. split; [|by intros ->].
  intros H%Hfree. apply intent_canonical_inj. by apply dumps_eq_iff; [apply intent_valid..|].
Qed.

(** A chain of digests cannot be altered unnoticed: two chains with the same digest are of the
    same payloads in the same order, or exhibit two texts with one SHA-256. *)
Theorem digest_chain_evident ps qs h :
  (forall x, String.length (sha256_hex x) = 64%nat) ->
  digest_chain sha256_hex ps = Ok h -> digest_chain sha256_hex qs = Ok h ->
  map normal ps = map normal qs \/ collision sha256_hex.
Proof. intros Hlen. by apply chain_evident. Qed.
End Audit.

(** A replay always agrees with the first decision. *)
Lemma replay_agrees sha m i policy pa ck n :
  exists d, replay_decision m sha i policy pa ck n = Ok (d, 0).
Proof.
  unfold replay_decision. rewrite !resolve_Ok. set (d := decision_of _ _ _ _). exists d. cbn [rbind].
  assert (Hs : same_text (canonical_json_text (decision_canonical d)) (canonical_json_text (decision_canonical d)) = true).
  { pose proof (valid_text _ (decision_valid d)) as Ht. unfold canonical_json_bytes in Ht. rewrite Ht. apply String.eqb_refl. }
  rewrite Hs. induction (seq 0 (n - 1)) as [|x l IH]; [done|exact IH].
Qed.

(** The labels of a decision are bounded, and those of the resolver's own decisions are all there. *)
Lemma labels_bounded d : (length (truncated_rejected_branches d) <= 18)%nat.
Proof.
  unfold truncated_rejected_branches. case_match eqn:E.
  { rewrite length_app, length_take. change (Z.to_nat MAX_REASON_LABELS_PER_RUN) with 17%nat. simpl length. lia. }
  apply Z.ltb_ge in E. unfold MAX_REASON_LABELS_PER_RUN, MAX_REJECTED_BRANCHES in E. lia.
Qed.

(** ** Concrete requests *)

Module ResolverRequests.
Definition caps : gmap string CapabilityState :=
  <["github.read" := Cap_READY]> (<["github.write" := Cap_READY]> (<["wiki.read" := Cap_DEGRADED]> ∅)).
Definition tokens : ResolverBudget := mkBudget 3 4 2 1 1000 120 10 500.
Definition resolver : ModeResolver := mkResolver caps "snap" tokens (<["nightly" := true]> ∅) ["github.write"].
Definition op (cap ref : string) (deps : list string) : IntentOperation := mkOperation cap "o/r" true deps ref.
Definition request (ops : list IntentOperation) (runbook : string) : ResolverIntent :=
  mkIntent "req-1" "user" ops false false false runbook true "" true 0.
Definition answer (i : ResolverIntent) : option (option ExecutionMode * ResolverReason * list ResolverReason) :=
  match resolve resolver (fun s => s) i Policy_ALLOW true true with
  | Ok d => Some (rd_mode d, rd_reason d, rd_rejected d)
  | Err _ => None
  end.

Example one_operation_is_direct :
  answer (request [op "wiki.read" "a" []] "") = Some (Some Mode_DIRECT, R_DIRECT_EXACT, []).
Proof. vm_compute. reflexivity. Qed.

Example alike_and_independent_is_batch :
  answer (request [op "github.read" "a" []; op "github.read" "b" []] "nightly")
  = Some (Some Mode_BATCH, R_BATCH_INDEPENDENT, [R_REJ_DIRECT_MULTI_TOOL]).
Proof. vm_compute. reflexivity. Qed.

Definition chain2 : list IntentOperation := [op "github.read" "a" []; op "github.write" "b" ["a"]].

(** A runbook is chosen before a typed plan, though [MODE_PREFERENCE] lists it after. *)
Example runbook_before_dag :
  answer (request chain2 "nightly") = Some (Some Mode_RUNBOOK, R_RUNBOOK_MATCH, [R_REJ_DIRECT_MULTI_TOOL; R_REJ_NOT_INDEPENDENT])
  /\ answer (request chain2 "")
     = Some (Some Mode_DAG, R_DAG_TYPED_PLAN, [R_REJ_DIRECT_MULTI_TOOL; R_REJ_NOT_INDEPENDENT; R_REJ_NO_RUNBOOK])
  /\ preference_index Mode_DAG = Some 2 /\ preference_index Mode_RUNBOOK = Some 3.
Proof. vm_compute. done. Qed.

Example a_cycle_is_no_plan :
  answer (request [op "github.read" "a" ["b"]; op "github.read" "b" ["a"]] "")
  = Some (Some Mode_AGENTIC, R_AGENTIC_AMBIGUOUS_INTENT,
          [R_REJ_DIRECT_MULTI_TOOL; R_REJ_NOT_INDEPENDENT; R_REJ_NO_RUNBOOK; R_REJ_CYCLE_DETECTED]).
Proof. vm_compute. reflexivity. Qed.

Example too_deep_a_plan :
  answer (request [op "github.read" "a" []; op "github.read" "b" ["a"]; op "github.read" "c" ["b"]] "")
  = Some (None, E_BUDGET_NODES, [R_REJ_DIRECT_MULTI_TOOL; R_REJ_NOT_INDEPENDENT; R_REJ_NO_RUNBOOK]).
Proof. vm_compute. reflexivity. Qed.

(** A dependency on no operation of the intent is not looked at. *)
Example unknown_dependency_is_ignored :
  answer (request [op "github.read" "a" ["nowhere"]; op "github.write" "b" ["a"]] "")
  = Some (Some Mode_DAG, R_DAG_TYPED_PLAN, [R_REJ_DIRECT_MULTI_TOOL; R_REJ_NOT_INDEPENDENT; R_REJ_NO_RUNBOOK]).
Proof. vm_compute. reflexivity. Qed.

Example audit_link_binds_witness :
  exists d l, resolve resolver (fun s => s) (request chain2 "") Policy_ALLOW true true = Ok d
    /\ bind_audit_link (fun s => s) d (request chain2 "nightly") = Ok l
    /\ (al_matched l = true <-> request chain2 "nightly" = request chain2 "").
Proof.
  destruct (audit_link_binds (fun s => s) resolver (request chain2 "") Policy_ALLOW true true
              (decision_of (fun s => s) resolver (request chain2 "")
                 (resolve_outcome resolver (request chain2 "") Policy_ALLOW true true)) (request chain2 "nightly"))
    as (l & Hl & Hiff).
  - intros x y H. exact H.
  - apply resolve_Ok.
  - eexists _, l. split; [apply resolve_Ok|]. split; [exact Hl|exact Hiff].
Defined.

(** A digest of the right length. *)
Definition blank64 : string := "0000000000000000000000000000000000000000000000000000000000000000".
Definition sha64 (s : string) : string := String.substring 0 64 (s +:+ blank64).

Lemma sha64_length s : String.length (sha64 s) = 64%nat.
Proof.
  unfold sha64. assert (H : forall n t, (n <= String.length t)%nat -> String.length (String.substring 0 n t) = n).
  { induction n as [|n IH]; intros [|c t] Hn; simpl in *; try lia; [done..|]. rewrite IH; lia. }
  apply H. rewrite length_str_app. change (String.length blank64) with 64%nat. lia.
Qed.

Example digest_chain_evident_witness :
  let ps := [VDict [("a", VInt 1); ("b", VInt 2)]; VStr "x"] in
  let qs := [VDict [("b", VInt 2); ("a", VInt 1)]; VStr "x"] in
  digest_chain sha64 ps = digest_chain sha64 qs /\ (map normal ps = map normal qs \/ collision sha64).
Proof.
  split; [vm_compute; reflexivity|].
  refine (digest_chain_evident sha64 _ _ _ sha64_length _ _); [|vm_compute; reflexivity]. vm_compute. reflexivity.
Defined.
End ResolverRequests.
