(* ===== verification/RunbookContract.v ===== *)
(** * The contract of runbooks ([v2/runbook_contract.py])

    A runbook is the reusable form of a DAG plan: typed nodes and parameters, an owner, classes of
    policy, approval and rollback.  The dataclasses are records, each [__post_init__] a function
    that returns the record or the exception it raises; the detail of an exception is left out.
    A field's annotation is its type here, and the digits of a version are ASCII. *)
From S2P Require Import Prelude.
From S2P Require Import PyText.
From S2P Require Import PyValue.
From S2P Require Import Canonical.
From S2P Require Import DagContract.

Definition RUNBOOK_FEATURE_ENABLED : bool := false.
Definition RUNBOOK_IR_SCHEMA_VERSION : Z := 1.
Definition RUNBOOK_MAX_ID_LEN : Z := 64.
Definition RUNBOOK_MAX_REVIEW_CADENCE_DAYS : Z := 180.

Inductive RunbookReason : Type :=
| RB_MALFORMED | RB_IR_VERSION_UNSUPPORTED | RB_TOO_LARGE | RB_ID_INVALID | RB_NAMESPACE_COLLISION
| RB_DIGEST_CONFLICT | RB_VERSION_BUMP_INVALID | RB_SCHEMA_INVALID | RB_SECRET_PARAMETER | RB_PARAM_UNKNOWN
| RB_PARAM_OVERSIZE | RB_PARAM_OUT_OF_CONSTRAINT | RB_GRAPH_CYCLE | RB_UNREACHABLE_NODE | RB_UNSAFE_BINDING
| RB_TYPE_MISMATCH | RB_UNPINNED_REFERENCE | RB_REFERENCE_UNKNOWN | RB_REFERENCE_YANKED
| RB_CAPABILITY_SUPERSET | RB_CAPABILITY_MISSING | RB_ADMIN_CAPABILITY_FORBIDDEN | RB_POLICY_MISSING
| RB_POLICY_CLASS_TOO_WEAK | RB_APPROVAL_CLASS_TOO_WEAK | RB_DESTRUCTIVE_UNDERDECLARED
| RB_IRREVERSIBLE_UNACCEPTED | RB_ROLLBACK_UNDECLARED | RB_COMPENSATION_UNREGISTERED | RB_TIMEOUT_MISSING
| RB_TIMEOUT_INCONSISTENT | RB_RETRY_CLASS_MISSING | RB_AGENTIC_NOT_PERMITTED | RB_OWNER_UNRESOLVABLE
| RB_OWNER_KIND_INSUFFICIENT | RB_REVIEW_CADENCE_INVALID | RB_TESTS_MISSING | RB_TESTS_STALE
| RB_COMPILE_NONDETERMINISTIC | RB_DIGEST_MISMATCH | RB_DIGEST_REQUIRED | RB_UNKNOWN | RB_UNKNOWN_VERSION
| RB_YANKED | RB_NOT_PROMOTED | RB_REVIEW_OVERDUE | RB_SCOPE_DENIED | RB_POLICY_DENIED
| RB_CAPABILITY_NOT_READY | RB_INSUFFICIENT_CAPABILITY | RB_CAPABILITY_DRIFT | RB_IDEMPOTENCY_CONFLICT
| RB_APPROVAL_INVALID | RB_LEASE_UNAVAILABLE | RB_AUDIT_WRITE_FAILED | RB_REDACTION_UNPROVEN
| RB_SECRET_IN_RESULT.
#[export] Instance RunbookReason_eq_dec : EqDecision RunbookReason.
Proof. solve_decision. Defined.

(** [RB_TESTS_STALE] shares its text with no member of that name. *)
Definition runbook_reason_value (r : RunbookReason) : string :=
  match r with
  | RB_MALFORMED => "RB_MALFORMED"
  | RB_IR_VERSION_UNSUPPORTED => "RB_IR_VERSION_UNSUPPORTED"
  | RB_TOO_LARGE => "RB_TOO_LARGE"
  | RB_ID_INVALID => "RB_ID_INVALID"
  | RB_NAMESPACE_COLLISION => "RB_NAMESPACE_COLLISION"
  | RB_DIGEST_CONFLICT => "RB_DIGEST_CONFLICT"
  | RB_VERSION_BUMP_INVALID => "RB_VERSION_BUMP_INVALID"
  | RB_SCHEMA_INVALID => "RB_SCHEMA_INVALID"
  | RB_SECRET_PARAMETER => "RB_SECRET_PARAMETER"
  | RB_PARAM_UNKNOWN => "RB_PARAM_UNKNOWN"
  | RB_PARAM_OVERSIZE => "RB_PARAM_OVERSIZE"
  | RB_PARAM_OUT_OF_CONSTRAINT => "RB_PARAM_OUT_OF_CONSTRAINT"
  | RB_GRAPH_CYCLE => "RB_GRAPH_CYCLE"
  | RB_UNREACHABLE_NODE => "RB_UNREACHABLE_NODE"
  | RB_UNSAFE_BINDING => "RB_UNSAFE_BINDING"
  | RB_TYPE_MISMATCH => "RB_TYPE_MISMATCH"
  | RB_UNPINNED_REFERENCE => "RB_UNPINNED_REFERENCE"
  | RB_REFERENCE_UNKNOWN => "RB_REFERENCE_UNKNOWN"
  | RB_REFERENCE_YANKED => "RB_REFERENCE_YANKED"
  | RB_CAPABILITY_SUPERSET => "RB_CAPABILITY_SUPERSET"
  | RB_CAPABILITY_MISSING => "RB_CAPABILITY_MISSING"
  | RB_ADMIN_CAPABILITY_FORBIDDEN => "RB_ADMIN_CAPABILITY_FORBIDDEN"
  | RB_POLICY_MISSING => "RB_POLICY_MISSING"
  | RB_POLICY_CLASS_TOO_WEAK => "RB_POLICY_CLASS_TOO_WEAK"
  | RB_APPROVAL_CLASS_TOO_WEAK => "RB_APPROVAL_CLASS_TOO_WEAK"
  | RB_DESTRUCTIVE_UNDERDECLARED => "RB_DESTRUCTIVE_UNDERDECLARED"
  | RB_IRREVERSIBLE_UNACCEPTED => "RB_IRREVERSIBLE_UNACCEPTED"
  | RB_ROLLBACK_UNDECLARED => "RB_ROLLBACK_UNDECLARED"
  | RB_COMPENSATION_UNREGISTERED => "RB_COMPENSATION_UNREGISTERED"
  | RB_TIMEOUT_MISSING => "RB_TIMEOUT_MISSING"
  | RB_TIMEOUT_INCONSISTENT => "RB_TIMEOUT_INCONSISTENT"
  | RB_RETRY_CLASS_MISSING => "RB_RETRY_CLASS_MISSING"
  | RB_AGENTIC_NOT_PERMITTED => "RB_AGENTIC_NOT_PERMITTED"
  | RB_OWNER_UNRESOLVABLE => "RB_OWNER_UNRESOLVABLE"
  | RB_OWNER_KIND_INSUFFICIENT => "RB_OWNER_KIND_INSUFFICIENT"
  | RB_REVIEW_CADENCE_INVALID => "RB_REVIEW_CADENCE_INVALID"
  | RB_TESTS_MISSING => "RB_TESTS_MISSING"
  | RB_TESTS_STALE => "RB_TESTS_FAILED"
  | RB_COMPILE_NONDETERMINISTIC => "RB_COMPILE_NONDETERMINISTIC"
  | RB_DIGEST_MISMATCH => "RB_DIGEST_MISMATCH"
  | RB_DIGEST_REQUIRED => "RB_DIGEST_REQUIRED"
  | RB_UNKNOWN => "RB_UNKNOWN"
  | RB_UNKNOWN_VERSION => "RB_UNKNOWN_VERSION"
  | RB_YANKED => "RB_YANKED"
  | RB_NOT_PROMOTED => "RB_NOT_PROMOTED"
  | RB_REVIEW_OVERDUE => "RB_REVIEW_OVERDUE"
  | RB_SCOPE_DENIED => "RB_SCOPE_DENIED"
  | RB_POLICY_DENIED => "RB_POLICY_DENIED"
  | RB_CAPABILITY_NOT_READY => "RB_CAPABILITY_NOT_READY"
  | RB_INSUFFICIENT_CAPABILITY => "RB_INSUFFICIENT_CAPABILITY"
  | RB_CAPABILITY_DRIFT => "RB_CAPABILITY_DRIFT"
  | RB_IDEMPOTENCY_CONFLICT => "RB_IDEMPOTENCY_CONFLICT"
  | RB_APPROVAL_INVALID => "RB_APPROVAL_INVALID"
  | RB_LEASE_UNAVAILABLE => "RB_LEASE_UNAVAILABLE"
  | RB_AUDIT_WRITE_FAILED => "RB_AUDIT_WRITE_FAILED"
  | RB_REDACTION_UNPROVEN => "RB_REDACTION_UNPROVEN"
  | RB_SECRET_IN_RESULT => "RB_SECRET_IN_RESULT"
  end.

(** [RunbookError], or an exception of the code below it; [Untyped] marks a document whose fields do
    not have the annotated types, about which the model says nothing. *)
Inductive rb_exn : Type :=
| RunbookError (reason : RunbookReason)
| Raised (e : exn)
| Untyped.

Definition rb_if (b : bool) (r : RunbookReason) : result rb_exn unit := raise_if b (RunbookError r).
Definition lift_exn {A} (m : result exn A) : result rb_exn A :=
  match m with Ok a => Ok a | Err e => Err (Raised e) end.
Definition lift_python {A} (m : result py_error A) : result rb_exn A :=
  match m with Ok a => Ok a | Err e => Err (Raised (PyError e)) end.
Definition key_missing {A} : result rb_exn A := Err (Raised (PyError KeyError)).

(** ** Closed vocabulary *)

Inductive RunbookState : Type := RB_ADMITTED | RB_ACTIVE | RB_DEPRECATED | RB_YANKED_STATE.
#[export] Instance RunbookState_eq_dec : EqDecision RunbookState.
Proof. solve_decision. Defined.

Inductive PolicyClass : Type := PC_READ_ONLY | PC_MUTATING_LOW | PC_MUTATING_HIGH | PC_RESTRICTED.
#[export] Instance PolicyClass_eq_dec : EqDecision PolicyClass.
Proof. solve_decision. Defined.
Definition policy_class_value (c : PolicyClass) : string :=
  match c with
  | PC_READ_ONLY => "READ_ONLY" | PC_MUTATING_LOW => "MUTATING_LOW"
  | PC_MUTATING_HIGH => "MUTATING_HIGH" | PC_RESTRICTED => "RESTRICTED"
  end.
(** [PolicyClass._rank], [at_least] *)
Definition policy_rank (c : PolicyClass) : Z :=
  match c with PC_READ_ONLY => 0 | PC_MUTATING_LOW => 1 | PC_MUTATING_HIGH => 2 | PC_RESTRICTED => 3 end.
Definition policy_at_least (c other : PolicyClass) : bool := policy_rank other <=? policy_rank c.

Inductive ApprovalClass : Type := AC_NONE | AC_SINGLE | AC_DUAL | AC_OWNER_PLUS_SECURITY.
#[export] Instance ApprovalClass_eq_dec : EqDecision ApprovalClass.
Proof. solve_decision. Defined.
Definition approval_class_value (c : ApprovalClass) : string :=
  match c with
  | AC_NONE => "NONE" | AC_SINGLE => "SINGLE" | AC_DUAL => "DUAL"
  | AC_OWNER_PLUS_SECURITY => "OWNER_PLUS_SECURITY"
  end.
Definition approval_rank (c : ApprovalClass) : Z :=
  match c with AC_NONE => 0 | AC_SINGLE => 1 | AC_DUAL => 2 | AC_OWNER_PLUS_SECURITY => 3 end.
Definition approval_at_least (c other : ApprovalClass) : bool := approval_rank other <=? approval_rank c.

Inductive RollbackSupport : Type := RS_NOT_APPLICABLE | RS_AUTOMATIC | RS_MANUAL | RS_NOT_SUPPORTED.
#[export] Instance RollbackSupport_eq_dec : EqDecision RollbackSupport.
Proof. solve_decision. Defined.
Definition rollback_support_value (c : RollbackSupport) : string :=
  match c with
  | RS_NOT_APPLICABLE => "NOT_APPLICABLE" | RS_AUTOMATIC => "AUTOMATIC"
  | RS_MANUAL => "MANUAL" | RS_NOT_SUPPORTED => "NOT_SUPPORTED"
  end.
Definition rollback_rank (c : RollbackSupport) : Z :=
  match c with RS_NOT_APPLICABLE => 0 | RS_AUTOMATIC => 1 | RS_MANUAL => 2 | RS_NOT_SUPPORTED => 3 end.
(** [weaker_than] *)
Definition rollback_weaker (c other : RollbackSupport) : bool := rollback_rank other <? rollback_rank c.

Inductive ParamType : Type :=
| PT_STRING | PT_INTEGER | PT_BOOLEAN | PT_ENUM | PT_RESOURCE_REF | PT_OBJECT | PT_ARRAY.
#[export] Instance ParamType_eq_dec : EqDecision ParamType.
Proof. solve_decision. Defined.
Definition param_type_value (t : ParamType) : string :=
  match t with
  | PT_STRING => "string" | PT_INTEGER => "integer" | PT_BOOLEAN => "boolean" | PT_ENUM => "enum"
  | PT_RESOURCE_REF => "resource_ref" | PT_OBJECT => "object" | PT_ARRAY => "array"
  end.

Inductive ParamSensitivity : Type := PS_PUBLIC | PS_INTERNAL | PS_SENSITIVE.
#[export] Instance ParamSensitivity_eq_dec : EqDecision ParamSensitivity.
Proof. solve_decision. Defined.
Definition param_sensitivity_value (s : ParamSensitivity) : string :=
  match s with PS_PUBLIC => "public" | PS_INTERNAL => "internal" | PS_SENSITIVE => "sensitive" end.

(** [_SECRET_NAME_HINTS] *)
Definition SECRET_NAME_HINTS : list string :=
  ["token"; "refresh_token"; "api_token"; "auth_token"; "id_token"; "secret"; "password"; "private_key";
   "cookie"; "authorization"; "credential"; "client_secret"].

(** [_NAME_RE], [^[a-z][a-z0-9_]{0,62}$] *)
Definition NAME_RE (s : string) : bool :=
  match_dollar (first_rest is_lower (fun c => is_lower c || is_num c || (code c =? 95)) 62) s.

(** [_RUNBOOK_ID_RE], [^RB-[A-Z0-9]+(-[A-Z0-9]+)+-[0-9]{3}$]: no segment holds a hyphen. *)
Definition id_segment (s : string) : bool := all_chars (fun c => is_upper c || is_num c) s && negb (String.eqb s "").
Definition three_digits (s : string) : bool := all_chars is_num s && (byte_len s =? 3).
Definition RUNBOOK_ID_RE (s : string) : bool :=
  match_dollar
    (fun t => match split_on "-" t with
              | rb :: rest =>
                  String.eqb rb "RB" && (3 <=? Z.of_nat (length rest))
                  && forallb id_segment (removelast rest) && three_digits (List.last rest "")
              | [] => false
              end) s.

(** [_parse_semver] *)
Fixpoint digits_value (acc : Z) (s : string) : Z :=
  match s with EmptyString => acc | String c rest => digits_value (10 * acc + (code c - 48)) rest end.
Definition is_digits (s : string) : bool := all_chars is_num s && negb (String.eqb s "").
Definition parse_semver (version : string) : result rb_exn (Z * Z * Z) :=
  match split_on "." version with
  | [a; b; c] =>
      if is_digits a && is_digits b && is_digits c
      then Ok (digits_value 0 a, digits_value 0 b, digits_value 0 c)
      else Err (RunbookError RB_VERSION_BUMP_INVALID)
  | _ => Err (RunbookError RB_VERSION_BUMP_INVALID)
  end.

(** ** Data *)

Record ParamConstraint := mkConstraint {
  max_length : option Z;
  pattern : option string;
  minimum : option Z;
  maximum : option Z;
  enum_values : list string;
  max_items : option Z;
  max_depth : option Z
}.

Record RunbookParameter := mkRbParameter {
  pm_name : string;
  pm_type : ParamType;
  pm_required : bool;
  pm_default : value;
  pm_constraints : ParamConstraint;
  pm_sensitivity : ParamSensitivity;
  pm_resource_kind : option string
}.

(** [Parameter.__post_init__] *)
Definition parameter (p : RunbookParameter) : result rb_exn RunbookParameter :=
  do! rb_if (negb (NAME_RE (pm_name p))) RB_SCHEMA_INVALID in
  do! rb_if (pm_required p && negb (bool_decide (pm_default p = VNone))) RB_SCHEMA_INVALID in
  do! rb_if (bool_decide (pm_type p = PT_RESOURCE_REF) && falsy (pm_resource_kind p)) RB_SCHEMA_INVALID in
  do! rb_if (existsb (fun hint => contains hint (lower (pm_name p))) SECRET_NAME_HINTS) RB_SECRET_PARAMETER in
  Ok p.

(** A binding is a mapping; a key may be missing. *)
Record RunbookBinding := mkRbBinding {
  rb_target : option string;
  rb_source : option string;
  rb_type : option string;
  rb_required : option bool;
  rb_max_bytes : option Z
}.

Record RunbookNode := mkRunbookNode {
  rn_key : string;
  rn_tool : string;
  rn_tool_version : string;
  rn_args : list (string * value);
  rn_depends : list string;
  rn_bindings : list RunbookBinding;
  rn_compensation : option string;
  rn_timeout : Z;
  rn_epoch : Z;
  rn_retry : string
}.

Definition unpinned (version : string) : bool := str_in version [""; "*"; "latest"].

(** [RunbookNode.__post_init__] *)
Definition runbook_node (n : RunbookNode) : result rb_exn RunbookNode :=
  do! rb_if (negb (NAME_RE (rn_key n))) RB_SCHEMA_INVALID in
  do! rb_if (unpinned (rn_tool_version n)) RB_UNPINNED_REFERENCE in
  Ok n.

Record RunbookOwner := mkOwner { ow_id : string; ow_kind : string; ow_contact : string; ow_cadence : Z }.

(** [RunbookOwner.__post_init__] *)
Definition runbook_owner (o : RunbookOwner) : result rb_exn RunbookOwner :=
  do! rb_if (negb (str_in (ow_kind o) ["role"; "team"])) RB_OWNER_KIND_INSUFFICIENT in
  do! rb_if (negb ((1 <=? ow_cadence o) && (ow_cadence o <=? RUNBOOK_MAX_REVIEW_CADENCE_DAYS))) RB_REVIEW_CADENCE_INVALID in
  Ok o.

Record RunbookManifest := mkManifest {
  rm_id : string;
  rm_version : string;
  rm_nodes : list RunbookNode;
  rm_parameters : list RunbookParameter;
  rm_outputs : list RunbookParameter;
  rm_capabilities : list string;
  rm_credentials : list string;
  rm_scope : string;
  rm_min_state : string;
  rm_policy : PolicyClass;
  rm_approval : ApprovalClass;
  rm_destructive : bool;
  rm_irreversible : bool;
  rm_rollback : RollbackSupport;
  rm_timeout : Z;
  rm_approval_ttl : Z;
  rm_lease_ttl : Z;
  rm_escalations : Z;
  rm_tokens : Z;
  rm_owner : option RunbookOwner;
  rm_signature : bool;
  rm_title : string;
  rm_description : string
}.

(** [RunbookManifest.__post_init__] *)
Definition runbook_manifest (m : RunbookManifest) : result rb_exn RunbookManifest :=
  do! rb_if (negb (RUNBOOK_ID_RE (rm_id m))) RB_ID_INVALID in
  do! rb_if (RUNBOOK_MAX_ID_LEN <? py_len (rm_id m)) RB_ID_INVALID in
  do! rb_if (rm_signature m && negb (rm_tokens m =? 0)) RB_AGENTIC_NOT_PERMITTED in
  do! rb_if (bool_decide (rm_owner m = None)) RB_OWNER_UNRESOLVABLE in
  do! rb_if ((rm_timeout m <=? 0) || (900000 <? rm_timeout m)) RB_TIMEOUT_MISSING in
  do! rb_if (negb (bool_decide (rm_approval m = AC_NONE)) && (rm_approval_ttl m <=? 0)) RB_TIMEOUT_MISSING in
  do! rb_if (DAG_MAX_NODES <? Z.of_nat (length (rm_nodes m))) RB_TOO_LARGE in
  Ok m.

(** [version_tuple] *)
Definition version_tuple (m : RunbookManifest) : result rb_exn (Z * Z * Z) := parse_semver (rm_version m).

(** [runbook_id_disjoint_from_tools] *)
Definition runbook_id_disjoint_from_tools (runbook_id : string) (tool_names : list string) : result rb_exn unit :=
  rb_if (str_in runbook_id tool_names) RB_NAMESPACE_COLLISION.

(** [<=] on tuples *)
Definition tuple_leb (x y : Z * Z * Z) : bool :=
  let '(a, b, c) := x in let '(a', b', c') := y in
  (a <? a') || ((a =? a') && ((b <? b') || ((b =? b') && (c <=? c')))).

(** [version_bump_valid] *)
Definition version_bump_valid (new : Z * Z * Z) (prev : option (Z * Z * Z)) (weakening : bool) : result rb_exn unit :=
  match prev with
  | None => rb_if (negb (bool_decide (new = (1, 0, 0)))) RB_VERSION_BUMP_INVALID
  | Some p =>
      do! rb_if (tuple_leb new p) RB_VERSION_BUMP_INVALID in
      rb_if (weakening && (fst (fst new) =? fst (fst p))) RB_VERSION_BUMP_INVALID
  end.

(** ** Lemmas *)

Lemma rb_if_Ok b r u : rb_if b r = Ok u <-> b = false.
Proof. unfold rb_if. destruct u. by destruct b. Qed.

Lemma lift_exn_Ok {A} (m : result exn A) a : lift_exn m = Ok a <-> m = Ok a.
Proof. destruct m; simpl; split; congruence. Qed.

Lemma lift_python_Ok {A} (m : result py_error A) a : lift_python m = Ok a <-> m = Ok a.
Proof. destruct m; simpl; split; congruence. Qed.

Example runbook_identifiers :
  map RUNBOOK_ID_RE ["RB-GH-ISSUE-001"; "RB-GH-001"; "RB-GH"; "RB--X-001"; "RB-GH-ISSUE-01"; "RB-gh-ISSUE-001"]
  = [true; false; false; false; false; false].
Proof. reflexivity. Qed.

Example versions :
  parse_semver "1.12.3" = Ok (1, 12, 3) /\ parse_semver "01.0.0" = Ok (1, 0, 0)
  /\ parse_semver "1.0" = Err (RunbookError RB_VERSION_BUMP_INVALID).
Proof. done. Qed.
