(* ===== verification/RunbookDigest.v ===== *)
(** * The canonical form of a runbook ([v2/runbook_digest.py])

    The intermediate representation leaves out what is editorial; the digest is the SHA-256 of its
    canonical text.  [repr] is Python's rendering of a value, which only the commitment to a
    sensitive argument uses. *)
From S2P Require Import Prelude.
From S2P Require Import PyText.
From S2P Require Import PyValue.
From S2P Require Import Canonical.
From S2P Require Import DagContract.
From S2P Require Import DagStore.
From S2P Require Import RunbookContract.

Definition IR_VERSION_PREFIX : string := "runbookir/1".
Definition newline : string := String nl "".

Definition voptz (o : option Z) : value := match o with Some z => VInt z | None => VNone end.

(** [_canonical_param] *)
Definition ir_constraint (c : ParamConstraint) : value :=
  VDict [("max_length", voptz (max_length c)); ("pattern", vopt (pattern c)); ("minimum", voptz (minimum c));
         ("maximum", voptz (maximum c)); ("enum_values", VList (map VStr (enum_values c)));
         ("max_items", voptz (max_items c)); ("max_depth", voptz (max_depth c))].
Definition ir_param (p : RunbookParameter) : value :=
  VDict [("name", VStr (pm_name p)); ("type", VStr (param_type_value (pm_type p))); ("required", VBool (pm_required p));
         ("default", pm_default p); ("constraints", ir_constraint (pm_constraints p));
         ("sensitivity", VStr (param_sensitivity_value (pm_sensitivity p)));
         ("resource_kind", vopt (pm_resource_kind p))].

(** [sorted(node.bindings, key=lambda x: (x["target"], x["source"]))] *)
Definition binding_key (b : RunbookBinding) : result rb_exn (string * string) :=
  match rb_target b, rb_source b with Some t, Some s => Ok (t, s) | _, _ => key_missing end.
Definition sorted_bindings (bs : list RunbookBinding) : list RunbookBinding :=
  sort_by (fun b => default "" (rb_target b)) (sort_by (fun b => default "" (rb_source b)) bs).

Definition ir_binding (b : RunbookBinding) : value :=
  VDict [("target", vopt (rb_target b)); ("source", vopt (rb_source b));
         ("type", VStr (default "string" (rb_type b))); ("required", VBool (default true (rb_required b)));
         ("max_bytes", voptz (rb_max_bytes b))].

(** [_canonical_node] *)
Definition ir_node (n : RunbookNode) : result rb_exn value :=
  do! rfor (fun b => do! binding_key b in Ok tt) (rn_bindings n) in
  Ok (VDict [("key", VStr (rn_key n)); ("tool", VStr (rn_tool n)); ("tool_version", VStr (rn_tool_version n));
             ("args", VDict (sort_items (rn_args n)));
             ("depends_on", VList (map VStr (sort_str (rn_depends n))));
             ("bindings", VList (map ir_binding (sorted_bindings (rn_bindings n))));
             ("compensation", vopt (rn_compensation n)); ("node_timeout_ms", VInt (rn_timeout n));
             ("retry_class", VStr (rn_retry n))]).

Definition ir_owner (o : RunbookOwner) : value :=
  VDict [("id", VStr (ow_id o)); ("kind", VStr (ow_kind o)); ("contact", VStr (ow_contact o));
         ("review_cadence_days", VInt (ow_cadence o))].

(** [canonical_ir] *)
Definition canonical_ir (m : RunbookManifest) : result rb_exn value :=
  let! nodes := rmap ir_node (rm_nodes m) in
  Ok (VDict [("ir_schema_version", VInt RUNBOOK_IR_SCHEMA_VERSION); ("runbook_id", VStr (rm_id m));
             ("version", VStr (rm_version m)); ("nodes", VList nodes);
             ("parameter_schema", VList (map ir_param (rm_parameters m)));
             ("output_schema", VList (map ir_param (rm_outputs m)));
             ("requires_capabilities", VList (map VStr (sort_str (rm_capabilities m))));
             ("credential_capability_ids", VList (map VStr (sort_str (rm_credentials m))));
             ("resource_scope", VStr (rm_scope m)); ("min_capability_state", VStr (rm_min_state m));
             ("policy_class", VStr (policy_class_value (rm_policy m)));
             ("approval_class", VStr (approval_class_value (rm_approval m)));
             ("destructive_action", VBool (rm_destructive m));
             ("accepted_irreversibility", VBool (rm_irreversible m));
             ("rollback_support", VStr (rollback_support_value (rm_rollback m)));
             ("timeout_ms", VInt (rm_timeout m)); ("approval_ttl_ms", VInt (rm_approval_ttl m));
             ("lease_ttl_ms", VInt (rm_lease_ttl m)); ("max_agentic_escalations", VInt (rm_escalations m));
             ("max_agentic_tokens", VInt (rm_tokens m));
             ("owner", match rm_owner m with Some o => ir_owner o | None => VNone end);
             ("requires_signature", VBool (rm_signature m))]).

(** [canonical_ir_bytes] *)
Definition canonical_ir_bytes (m : RunbookManifest) : result rb_exn string :=
  let! ir := canonical_ir m in
  let! text := lift_python (canonical_json_text ir) in
  Ok (IR_VERSION_PREFIX +:+ newline +:+ text).

(** [_is_sensitive_param] *)
Definition is_sensitive_param (m : RunbookManifest) (name : string) : bool :=
  match List.find (fun p => String.eqb (pm_name p) name) (rm_parameters m) with
  | Some p => bool_decide (pm_sensitivity p = PS_SENSITIVE)
  | None => false
  end.

Section Digest.
Variable sha256_hex : string -> string.
Variable repr : value -> string.

(** [runbook_digest] *)
Definition runbook_digest (m : RunbookManifest) : result rb_exn string :=
  let! bytes := canonical_ir_bytes m in Ok (sha256_hex bytes).

(** [_salted_commitment] *)
Definition salted_commitment (key : string) (v : value) : string :=
  "commitment:" +:+ String.substring 0 32 (sha256_hex (key +:+ ":" +:+ to_str repr v)).

Definition committed (m : RunbookManifest) (kv : string * value) : string * value :=
  (fst kv, if is_sensitive_param m (fst kv)
           then VDict [("commitment", VStr (salted_commitment (fst kv) (snd kv)))] else snd kv).

(** [plan_digest_inputs] *)
Definition plan_digest_inputs (m : RunbookManifest) (arguments : list (string * value)) (scope : string)
    (capabilities : list string) (capability_hash runbook_hash policy approval : string) (destructive : bool)
    (budgets : list (string * Z)) (principal : string) (preconditions : list (string * value)) : result rb_exn value :=
  let! dig := runbook_digest m in
  let! nodes := rmap ir_node (rm_nodes m) in
  Ok (VDict [("digest_schema_version", VInt 1); ("runbook_id", VStr (rm_id m)); ("runbook_version", VStr (rm_version m));
             ("runbook_digest", VStr dig); ("resolved_arguments", VDict (map (committed m) (sort_items arguments)));
             ("resolved_resource_scope", VStr scope);
             ("effective_capabilities", VList (map VStr (sort_str capabilities)));
             ("capability_snapshot_hash", VStr capability_hash); ("runbook_snapshot_hash", VStr runbook_hash);
             ("policy_class", VStr policy); ("approval_class", VStr approval);
             ("destructive_action", VBool destructive); ("resolved_node_plan", VList nodes);
             ("budgets", VDict (map (fun kv => (fst kv, VInt (snd kv))) (sort_items budgets)));
             ("principal_ref", VStr principal); ("expected_preconditions", VDict (sort_items preconditions))]).

(** [plan_digest] *)
Definition runbook_plan_digest (m : RunbookManifest) (arguments : list (string * value)) (scope : string)
    (capabilities : list string) (capability_hash runbook_hash policy approval : string) (destructive : bool)
    (budgets : list (string * Z)) (principal : string) (preconditions : list (string * value)) : result rb_exn string :=
  let! payload := plan_digest_inputs m arguments scope capabilities capability_hash runbook_hash policy approval
                    destructive budgets principal preconditions in
  let! text := lift_python (canonical_json_text payload) in
  Ok (sha256_hex ("plan/1" +:+ newline +:+ text)).
End Digest.
