(* ===== verification/RunbookLoader.v ===== *)
(** * Reading runbooks ([v2/runbook_loader.py], [_ir_to_manifest] of [v2/runbook_engine.py])

    The loader builds a manifest from an untrusted document; the engine turns the stored
    representation back into such a document.  What is stored reads back as the manifest that was
    admitted, in its normal form. *)
From S2P Require Import Prelude.
From S2P Require Import PyText.
From S2P Require Import PyValue.
From S2P Require Import Canonical.
From S2P Require Import DagContract.
From S2P Require Import DagDigest.
From S2P Require Import RunbookContract.
From S2P Require Import RunbookDigest.

(** ** Reading a document: [raw[k]], [raw.get(k, dflt)], [v or dflt], and the annotated types *)

Definition field (raw : value) (k : string) : result rb_exn value :=
  match raw with
  | VDict d => match dget k d with Some v => Ok v | None => key_missing end
  | _ => Err Untyped
  end.
Definition field_or (raw : value) (k : string) (dflt : value) : result rb_exn value :=
  match raw with VDict d => Ok (default dflt (dget k d)) | _ => Err Untyped end.
Definition or_else (v dflt : value) : value := if truthy v then v else dflt.

Definition as_str (v : value) : result rb_exn string := match v with VStr s => Ok s | _ => Err Untyped end.
Definition as_int (v : value) : result rb_exn Z := match v with VInt z => Ok z | _ => Err Untyped end.
Definition as_bool (v : value) : result rb_exn bool := match v with VBool b => Ok b | _ => Err Untyped end.
Definition as_list (v : value) : result rb_exn (list value) := match v with VList l => Ok l | _ => Err Untyped end.
Definition as_dict (v : value) : result rb_exn (list (string * value)) :=
  match v with VDict d => Ok d | _ => Err Untyped end.
Definition as_opt {A} (f : value -> result rb_exn A) (v : value) : result rb_exn (option A) :=
  match v with VNone => Ok None | _ => let! a := f v in Ok (Some a) end.
Definition as_strs (v : value) : result rb_exn (list string) := let! l := as_list v in rmap as_str l.

(** [_enum] *)
Definition enum_member {A} (val : A -> string) (members : list A) (v : value) : result rb_exn A :=
  match v with
  | VStr s => match List.find (fun a => String.eqb (val a) s) members with
              | Some a => Ok a
              | None => Err (RunbookError RB_SCHEMA_INVALID)
              end
  | _ => Err (RunbookError RB_SCHEMA_INVALID)
  end.

Definition PARAM_TYPES : list ParamType :=
  [PT_STRING; PT_INTEGER; PT_BOOLEAN; PT_ENUM; PT_RESOURCE_REF; PT_OBJECT; PT_ARRAY].
Definition SENSITIVITIES : list ParamSensitivity := [PS_PUBLIC; PS_INTERNAL; PS_SENSITIVE].
Definition POLICY_CLASSES : list PolicyClass := [PC_READ_ONLY; PC_MUTATING_LOW; PC_MUTATING_HIGH; PC_RESTRICTED].
Definition APPROVAL_CLASSES : list ApprovalClass := [AC_NONE; AC_SINGLE; AC_DUAL; AC_OWNER_PLUS_SECURITY].
Definition ROLLBACKS : list RollbackSupport := [RS_NOT_APPLICABLE; RS_AUTOMATIC; RS_MANUAL; RS_NOT_SUPPORTED].

Definition get_opt_int (raw : value) (k : string) : result rb_exn (option Z) :=
  let! v := field_or raw k VNone in as_opt as_int v.
Definition get_opt_str (raw : value) (k : string) : result rb_exn (option string) :=
  let! v := field_or raw k VNone in as_opt as_str v.

(** [_param] *)
Definition load_constraint (cons : value) : result rb_exn ParamConstraint :=
  let! a := get_opt_int cons "max_length" in
  let! b := get_opt_str cons "pattern" in
  let! c := get_opt_int cons "minimum" in
  let! d := get_opt_int cons "maximum" in
  let! e := field_or cons "enum_values" (VList []) in
  let! e := as_strs e in
  let! f := get_opt_int cons "max_items" in
  let! g := get_opt_int cons "max_depth" in
  Ok (mkConstraint a b c d e f g).

Definition load_param (raw : value) : result rb_exn RunbookParameter :=
  let! cons := field_or raw "constraints" (VDict []) in
  let! name := field raw "name" in
  let! type := field raw "type" in
  let! type := enum_member param_type_value PARAM_TYPES type in
  let! req := field_or raw "required" (VBool true) in
  let! dflt := field_or raw "default" VNone in
  let! c := load_constraint (or_else cons (VDict [])) in
  let! sens := field_or raw "sensitivity" (VStr "public") in
  let! sens := enum_member param_sensitivity_value SENSITIVITIES sens in
  let! rk := get_opt_str raw "resource_kind" in
  let! name := as_str name in
  let! req := as_bool req in
  parameter (mkRbParameter name type req dflt c sens rk).

(** The mapping of a binding is kept as it is. *)
Definition load_binding (raw : value) : result rb_exn RunbookBinding :=
  let opt {A} (f : value -> result rb_exn A) (k : string) : result rb_exn (option A) :=
    match raw with
    | VDict d => match dget k d with Some v => let! a := f v in Ok (Some a) | None => Ok None end
    | _ => Err Untyped
    end in
  let! t := opt as_str "target" in
  let! s := opt as_str "source" in
  let! ty := opt as_str "type" in
  let! r := opt as_bool "required" in
  let! m := get_opt_int raw "max_bytes" in
  Ok (mkRbBinding t s ty r m).

(** [_node] *)
Definition load_node (raw : value) : result rb_exn RunbookNode :=
  let! key := field raw "key" in
  let! tl := field raw "tool" in
  let! tv := field raw "tool_version" in
  let! ar := field_or raw "args" (VDict []) in
  let! ar := as_dict (or_else ar (VDict [])) in
  let! dep := field_or raw "depends_on" (VList []) in
  let! dep := as_strs (or_else dep (VList [])) in
  let! bs := field_or raw "bindings" (VList []) in
  let! bs := as_list (or_else bs (VList [])) in
  let! bs := rmap load_binding bs in
  let! comp := get_opt_str raw "compensation" in
  let! tmo := field_or raw "node_timeout_ms" (VInt 120000) in
  let! ep := field_or raw "idempotency_attempt_epoch" (VInt 0) in
  let! rc := field_or raw "retry_class" (VStr "NONE") in
  let! key := as_str key in
  let! tl := as_str tl in
  let! tv := as_str tv in
  let! tmo := as_int tmo in
  let! ep := as_int ep in
  let! rc := as_str rc in
  runbook_node (mkRunbookNode key tl tv ar dep bs comp tmo ep rc).

(** [_KNOWN] *)
Definition KNOWN_FIELDS : list string :=
  ["runbook_id"; "version"; "nodes"; "parameter_schema"; "output_schema"; "requires_capabilities";
   "credential_capability_ids"; "resource_scope"; "min_capability_state"; "policy_class"; "approval_class";
   "destructive_action"; "accepted_irreversibility"; "rollback_support"; "timeout_ms"; "approval_ttl_ms";
   "lease_ttl_ms"; "max_agentic_escalations"; "max_agentic_tokens"; "owner"; "requires_signature"; "title";
   "description"].

Definition load_owner (raw : value) : result rb_exn (option RunbookOwner) :=
  if truthy raw then
    let! i := field raw "id" in
    let! k := field raw "kind" in
    let! c := field raw "contact" in
    let! r := field raw "review_cadence_days" in
    let! i := as_str i in
    let! k := as_str k in
    let! c := as_str c in
    let! r := as_int r in
    let! o := runbook_owner (mkOwner i k c r) in
    Ok (Some o)
  else Ok None.

Definition strs_or_empty (raw : value) (k : string) : result rb_exn (list string) :=
  let! v := field_or raw k (VList []) in as_strs (or_else v (VList [])).
Definition params_or_empty (raw : value) (k : string) : result rb_exn (list RunbookParameter) :=
  let! v := field_or raw k (VList []) in
  let! l := as_list (or_else v (VList [])) in
  rmap load_param l.
Definition typed_or {A} (f : value -> result rb_exn A) (raw : value) (k : string) (dflt : value) : result rb_exn A :=
  let! v := field_or raw k dflt in f v.

(** [load_manifest] *)
Definition load_manifest (raw : value) : result rb_exn RunbookManifest :=
  let! d := as_dict raw in
  do! rb_if (existsb (fun k => negb (str_in k KNOWN_FIELDS)) (dkeys d)) RB_SCHEMA_INVALID in
  let! o := field_or raw "owner" VNone in
  let! owner := load_owner o in
  let! i := field raw "runbook_id" in
  let! v := field raw "version" in
  let! ns := field raw "nodes" in
  let! ns := as_list ns in
  let! ns := rmap load_node ns in
  let! ps := params_or_empty raw "parameter_schema" in
  let! os := params_or_empty raw "output_schema" in
  let! caps := strs_or_empty raw "requires_capabilities" in
  let! creds := strs_or_empty raw "credential_capability_ids" in
  let! scope := typed_or as_str raw "resource_scope" (VStr "") in
  let! mins := typed_or as_str raw "min_capability_state" (VStr "READY") in
  let! pc := typed_or (enum_member policy_class_value POLICY_CLASSES) raw "policy_class" (VStr "READ_ONLY") in
  let! ac := typed_or (enum_member approval_class_value APPROVAL_CLASSES) raw "approval_class" (VStr "NONE") in
  let! de := field_or raw "destructive_action" (VBool false) in
  let! ir := field_or raw "accepted_irreversibility" (VBool false) in
  let! rs := typed_or (enum_member rollback_support_value ROLLBACKS) raw "rollback_support" (VStr "NOT_APPLICABLE") in
  let! tmo := typed_or as_int raw "timeout_ms" (VInt 900000) in
  let! attl := typed_or as_int raw "approval_ttl_ms" (VInt 300000) in
  let! lttl := typed_or as_int raw "lease_ttl_ms" (VInt 60000) in
  let! esc := typed_or as_int raw "max_agentic_escalations" (VInt 0) in
  let! tok := typed_or as_int raw "max_agentic_tokens" (VInt 0) in
  let! sg := field_or raw "requires_signature" (VBool false) in
  let! ti := typed_or as_str raw "title" (VStr "") in
  let! ds := typed_or as_str raw "description" (VStr "") in
  let! i := as_str i in
  let! v := as_str v in
  runbook_manifest (mkManifest i v ns ps os caps creds scope mins pc ac (truthy de) (truthy ir) rs tmo attl lttl
                      esc tok owner (truthy sg) ti ds).

(** [_ir_to_manifest] *)
Definition ir_node_to_manifest (n : value) : result rb_exn value :=
  let! key := field n "key" in
  let! tl := field n "tool" in
  let! tv := field n "tool_version" in
  let! ar := field n "args" in
  let! dep := field n "depends_on" in
  let! bs := field n "bindings" in
  let! comp := field_or n "compensation" VNone in
  let! tmo := field_or n "node_timeout_ms" (VInt 120000) in
  let! rc := field_or n "retry_class" (VStr "NONE") in
  Ok (VDict [("key", key); ("tool", tl); ("tool_version", tv); ("args", ar); ("depends_on", dep); ("bindings", bs);
             ("compensation", comp); ("node_timeout_ms", tmo); ("retry_class", rc)]).

Definition ir_param_to_manifest (p : value) : result rb_exn value :=
  let! name := field p "name" in
  let! ty := field p "type" in
  let! rq := field p "required" in
  let! df := field_or p "default" VNone in
  let! cs := field p "constraints" in
  let! se := field p "sensitivity" in
  let! rk := field_or p "resource_kind" VNone in
  Ok (VDict [("name", name); ("type", ty); ("required", rq); ("default", df); ("constraints", cs);
             ("sensitivity", se); ("resource_kind", rk)]).

Definition copied_fields : list string :=
  ["requires_capabilities"; "credential_capability_ids"; "resource_scope"; "min_capability_state"; "policy_class";
   "approval_class"; "destructive_action"; "accepted_irreversibility"; "rollback_support"; "timeout_ms";
   "approval_ttl_ms"; "lease_ttl_ms"; "max_agentic_escalations"; "max_agentic_tokens"].

Definition ir_to_manifest (ir : value) : result rb_exn value :=
  let! ns := field ir "nodes" in
  let! ns := as_list ns in
  let! ns := rmap ir_node_to_manifest ns in
  let! ps := field_or ir "parameter_schema" (VList []) in
  let! ps := as_list ps in
  let! ps := rmap ir_param_to_manifest ps in
  let! owner := field_or ir "owner" VNone in
  let! i := field ir "runbook_id" in
  let! v := field ir "version" in
  let! os := field_or ir "output_schema" (VList []) in
  let! cs := rmap (fun k => let! x := field ir k in Ok (k, x)) copied_fields in
  let! sg := field ir "requires_signature" in
  Ok (VDict ([("runbook_id", i); ("version", v); ("nodes", VList ns); ("parameter_schema", VList ps);
              ("output_schema", os)] ++ cs ++ [("owner", or_else owner VNone); ("requires_signature", sg)])).

(** What the engine makes of the stored representation. *)
Definition reload (ir : value) : result rb_exn RunbookManifest :=
  let! raw := ir_to_manifest ir in load_manifest raw.
