(* ===== verification/RunbookRoundTrip.v ===== *)
(** * What is stored is what was admitted

    The stored representation of a runbook reads back as its normal form, and two runbooks have the
    same representation exactly when they have the same normal form. *)
From S2P Require Import Prelude.
From S2P Require Import PyText.
From S2P Require Import PyValue.
From S2P Require Import Canonical.
From S2P Require Import DagContract.
From S2P Require Import DagDigest.
From S2P Require Import RunbookContract.
From S2P Require Import RunbookDigest.
From S2P Require Import RunbookLoader.

(** ** Normal forms *)

(** Defaults filled in, the order that does not matter fixed, what is not in the representation reset. *)
Definition normal_args (a : list (string * value)) : list (string * value) :=
  sort_items (map (fun '(k, x) => (k, normal x)) (sort_items a)).
Definition normal_binding (b : RunbookBinding) : RunbookBinding :=
  mkRbBinding (rb_target b) (rb_source b) (Some (default "string" (rb_type b))) (Some (default true (rb_required b)))
    (rb_max_bytes b).
Definition normal_node (n : RunbookNode) : RunbookNode :=
  mkRunbookNode (rn_key n) (rn_tool n) (rn_tool_version n) (normal_args (rn_args n)) (sort_str (rn_depends n))
    (map normal_binding (sorted_bindings (rn_bindings n))) (rn_compensation n) (rn_timeout n) 0 (rn_retry n).
Definition normal_param (p : RunbookParameter) : RunbookParameter :=
  mkRbParameter (pm_name p) (pm_type p) (pm_required p) (normal (pm_default p)) (pm_constraints p)
    (pm_sensitivity p) (pm_resource_kind p).
Definition normal_manifest (m : RunbookManifest) : RunbookManifest :=
  mkManifest (rm_id m) (rm_version m) (map normal_node (rm_nodes m)) (map normal_param (rm_parameters m))
    (map normal_param (rm_outputs m)) (sort_str (rm_capabilities m)) (sort_str (rm_credentials m)) (rm_scope m)
    (rm_min_state m) (rm_policy m) (rm_approval m) (rm_destructive m) (rm_irreversible m) (rm_rollback m)
    (rm_timeout m) (rm_approval_ttl m) (rm_lease_ttl m) (rm_escalations m) (rm_tokens m) (rm_owner m)
    (rm_signature m) "" "".

(** Built through the checks of its parts. *)
Record constructed_runbook (m : RunbookManifest) : Prop := {
  cr_manifest : runbook_manifest m = Ok m;
  cr_nodes : Forall (fun n => runbook_node n = Ok n) (rm_nodes m);
  cr_parameters : Forall (fun p => parameter p = Ok p) (rm_parameters m);
  cr_outputs : Forall (fun p => parameter p = Ok p) (rm_outputs m);
  cr_owner : forall o, rm_owner m = Some o -> runbook_owner o = Ok o
}.

(** ** Reading normal forms *)

(** A document whose fields are those of [d]. *)
Definition reads (raw : value) (d : list (string * value)) : Prop :=
  exists d', raw = VDict d' /\ forall k, dget k d' = dget k d.

Lemma reads_literal d : reads (VDict d) d.
Proof. by exists d. Qed.

Lemma reads_normal d : NoDup (dkeys d) -> reads (normal (VDict d)) (map (fun '(k, x) => (k, normal x)) d).
Proof. intros Hd. cbn [normal]. eexists. split; [done|]. intros k. by rewrite dget_normal, dget_map. Qed.

Lemma reads_field raw d k : reads raw d -> field raw k = match dget k d with Some v => Ok v | None => key_missing end.
Proof. intros (d' & -> & H). simpl. by rewrite H. Qed.

Lemma reads_field_or raw d k dflt : reads raw d -> field_or raw k dflt = Ok (default dflt (dget k d)).
Proof. intros (d' & -> & H). simpl. by rewrite H. Qed.

Lemma normal_opt o : normal (vopt o) = vopt o.
Proof. by destruct o. Qed.
Lemma normal_optz o : normal (voptz o) = voptz o.
Proof. by destruct o. Qed.
Lemma as_opt_str o : as_opt as_str (vopt o) = Ok o.
Proof. by destruct o. Qed.
Lemma as_opt_int o : as_opt as_int (voptz o) = Ok o.
Proof. by destruct o. Qed.

Lemma normal_strs l : normal (VList (map VStr l)) = VList (map VStr l).
Proof. cbn [normal]. by rewrite map_normal_strs. Qed.

Lemma as_strs_map l : as_strs (VList (map VStr l)) = Ok l.
Proof. unfold as_strs. cbn [as_list rbind]. induction l as [|x l IH]; [done|]. simpl. by rewrite IH. Qed.

Lemma or_else_list l : or_else (VList l) (VList []) = VList l.
Proof. by destruct l. Qed.
Lemma or_else_dict d : or_else (VDict d) (VDict []) = VDict d.
Proof. by destruct d. Qed.

Lemma rmap_map_Ok {E A B D} (f : B -> result E D) (g : A -> B) (h : A -> D) l :
  Forall (fun x => f (g x) = Ok (h x)) l -> rmap f (map g l) = Ok (map h l).
Proof. induction 1 as [|x l Hx _ IH]; [done|]. simpl. by rewrite Hx, IH. Qed.

Lemma rmap_Ok_map {E A B} (f : A -> result E B) (g : A -> B) l :
  Forall (fun x => f x = Ok (g x)) l -> rmap f l = Ok (map g l).
Proof. rewrite <- (map_id l) at 2. by apply rmap_map_Ok. Qed.

Lemma enum_param_type t : enum_member param_type_value PARAM_TYPES (VStr (param_type_value t)) = Ok t.
Proof. by destruct t. Qed.
Lemma enum_sensitivity t : enum_member param_sensitivity_value SENSITIVITIES (VStr (param_sensitivity_value t)) = Ok t.
Proof. by destruct t. Qed.
Lemma enum_policy t : enum_member policy_class_value POLICY_CLASSES (VStr (policy_class_value t)) = Ok t.
Proof. by destruct t. Qed.
Lemma enum_approval t : enum_member approval_class_value APPROVAL_CLASSES (VStr (approval_class_value t)) = Ok t.
Proof. by destruct t. Qed.
Lemma enum_rollback t : enum_member rollback_support_value ROLLBACKS (VStr (rollback_support_value t)) = Ok t.
Proof. by destruct t. Qed.

Lemma bind_field {B} raw d k v (f : value -> result rb_exn B) :
  reads raw d -> dget k d = Some v -> rbind (field raw k) f = f v.
Proof. intros H Hk. by rewrite (reads_field _ _ _ H), Hk. Qed.

Lemma bind_field_or {B} raw d k dflt v (f : value -> result rb_exn B) :
  reads raw d -> default dflt (dget k d) = v -> rbind (field_or raw k dflt) f = f v.
Proof. intros H Hk. by rewrite (reads_field_or _ _ _ _ H), Hk. Qed.

(** Reads the fields of a document along [H]. *)
Ltac read_field H :=
  match goal with
  | |- context [rbind (field ?raw ?k) ?f] => erewrite (bind_field raw _ k _ f H) by reflexivity
  | |- context [rbind (field_or ?raw ?k ?x) ?f] => erewrite (bind_field_or raw _ k x _ f H) by (cbn [dget String.eqb Ascii.eqb Bool.eqb from_option Datatypes.id]; reflexivity)
  end.
Ltac read_fields H :=
  repeat (read_field H; cbv beta; cbn [rbind];
          rewrite ?or_else_list, ?or_else_dict, ?as_opt_int, ?as_opt_str, ?as_strs_map, ?enum_param_type, ?enum_sensitivity,
            ?enum_policy, ?enum_approval, ?enum_rollback;
          cbn [rbind as_str as_int as_bool as_list as_dict]).

(** ** The parts *)

Ltac reads_of H ir :=
  eassert (reads (normal ir) _) as H by (apply reads_normal; keys_distinct);
  cbn [map] in H; rewrite ?normal_opt, ?normal_optz, ?normal_strs in H; cbn [normal] in H.

Lemma load_constraint_normal c : load_constraint (normal (ir_constraint c)) = Ok c.
Proof.
  reads_of H (ir_constraint c). unfold load_constraint, get_opt_int, get_opt_str. read_fields H. by destruct c.
Qed.

Lemma constraint_truthy c : or_else (normal (ir_constraint c)) (VDict []) = normal (ir_constraint c).
Proof. done. Qed.

Lemma normal_none v : bool_decide (normal v = VNone) = bool_decide (v = VNone).
Proof. by destruct v. Qed.

Lemma load_param_reads raw p :
  parameter p = Ok p ->
  reads raw [("name", VStr (pm_name p)); ("type", VStr (param_type_value (pm_type p))); ("required", VBool (pm_required p));
             ("default", normal (pm_default p)); ("constraints", normal (ir_constraint (pm_constraints p)));
             ("sensitivity", VStr (param_sensitivity_value (pm_sensitivity p)));
             ("resource_kind", vopt (pm_resource_kind p))] ->
  load_param raw = Ok (normal_param p).
Proof.
  intros Hp H. unfold load_param, get_opt_str. read_fields H.
  rewrite constraint_truthy, load_constraint_normal. cbn [rbind]. read_fields H. cbn [as_str as_bool rbind].
  unfold parameter in *. cbn [pm_name pm_required pm_default pm_type pm_resource_kind]. rewrite normal_none.
  apply rbind_Ok in Hp as ([] & -> & Hp). apply rbind_Ok in Hp as ([] & -> & Hp).
  apply rbind_Ok in Hp as ([] & -> & Hp). by apply rbind_Ok in Hp as ([] & -> & Hp).
Qed.

Lemma reads_ir_param p :
  reads (normal (ir_param p))
    [("name", VStr (pm_name p)); ("type", VStr (param_type_value (pm_type p))); ("required", VBool (pm_required p));
     ("default", normal (pm_default p)); ("constraints", normal (ir_constraint (pm_constraints p)));
     ("sensitivity", VStr (param_sensitivity_value (pm_sensitivity p)));
     ("resource_kind", vopt (pm_resource_kind p))].
Proof. reads_of H (ir_param p). exact H. Qed.

Lemma load_output p : parameter p = Ok p -> load_param (normal (ir_param p)) = Ok (normal_param p).
Proof. intros Hp. apply load_param_reads; [done|apply reads_ir_param]. Qed.

Lemma load_parameter p :
  parameter p = Ok p ->
  exists raw, ir_param_to_manifest (normal (ir_param p)) = Ok raw /\ load_param raw = Ok (normal_param p).
Proof.
  intros Hp. pose proof (reads_ir_param p) as H. unfold ir_param_to_manifest. read_fields H.
  eexists. split; [done|]. apply load_param_reads; [done|apply reads_literal].
Qed.

Lemma load_binding_normal b k :
  binding_key b = Ok k -> load_binding (normal (ir_binding b)) = Ok (normal_binding b).
Proof.
  unfold binding_key. destruct b as [[t|] [s|] ty r mb]; simpl; try done. intros _.
  unfold ir_binding. cbn [rb_target rb_source rb_type rb_required rb_max_bytes vopt].
  by destruct mb.
Qed.

Lemma sorted_bindings_perm bs : sorted_bindings bs ≡ₚ bs.
Proof. unfold sorted_bindings. by rewrite !sort_by_perm. Qed.

Lemma ir_node_Ok n v :
  ir_node n = Ok v -> Forall (fun b => exists k, binding_key b = Ok k) (rn_bindings n).
Proof.
  unfold ir_node. intros ([] & Hb & _)%rbind_Ok. apply rfor_Ok in Hb.
  eapply Forall_impl; [exact Hb|]. intros b (k & Hk & _)%rbind_Ok. eauto.
Qed.

Lemma normal_args_truthy a : or_else (VDict (normal_args a)) (VDict []) = VDict (normal_args a).
Proof. apply or_else_dict. Qed.

Lemma load_node_reads raw n :
  runbook_node n = Ok n -> Forall (fun b => exists k, binding_key b = Ok k) (rn_bindings n) ->
  reads raw
    [("key", VStr (rn_key n)); ("tool", VStr (rn_tool n)); ("tool_version", VStr (rn_tool_version n));
     ("args", VDict (normal_args (rn_args n))); ("depends_on", VList (map VStr (sort_str (rn_depends n))));
     ("bindings", VList (map normal (map ir_binding (sorted_bindings (rn_bindings n)))));
     ("compensation", vopt (rn_compensation n)); ("node_timeout_ms", VInt (rn_timeout n));
     ("retry_class", VStr (rn_retry n))] ->
  load_node raw = Ok (normal_node n).
Proof.
  intros Hn Hb H. unfold load_node, get_opt_str. read_fields H.
  rewrite map_map.
  rewrite (rmap_map_Ok _ _ normal_binding).
  2:{ rewrite sorted_bindings_perm. eapply Forall_impl; [exact Hb|]. intros b [k Hk]. by eapply load_binding_normal. }
  cbn [rbind]. read_fields H. unfold runbook_node in *.
  cbn [rn_key rn_tool_version]. apply rbind_Ok in Hn as ([] & -> & Hn). by apply rbind_Ok in Hn as ([] & -> & Hn).
Qed.

Lemma load_node_normal n v :
  runbook_node n = Ok n -> ir_node n = Ok v ->
  exists raw, ir_node_to_manifest (normal v) = Ok raw /\ load_node raw = Ok (normal_node n).
Proof.
  intros Hn Hv. pose proof (ir_node_Ok n v Hv) as Hb. unfold ir_node in Hv.
  apply rbind_Ok in Hv as (u & _ & [= <-]).
  match goal with |- context [normal ?d] => reads_of H d end.
  unfold ir_node_to_manifest. read_fields H. eexists. split; [done|].
  apply load_node_reads; [done|done|apply reads_literal].
Qed.

Lemma load_owner_normal o : runbook_owner o = Ok o -> load_owner (normal (ir_owner o)) = Ok (Some o).
Proof.
  intros Ho. reads_of H (ir_owner o). unfold load_owner.
  change (truthy (normal (ir_owner o))) with true. cbn [Datatypes.id]. read_fields H.
  destruct o. simpl in *. by rewrite Ho.
Qed.

(** ** The whole *)

(** The element-wise readings along a list. *)
Lemma rmap_chain {E A B C D} (f : A -> result E B) (g : B -> result E C) (h : C -> result E D) (nf : A -> D)
    (norm : B -> B) l bs :
  rmap f l = Ok bs ->
  Forall (fun x => forall b, f x = Ok b -> exists c, g (norm b) = Ok c /\ h c = Ok (nf x)) l ->
  exists cs, rmap g (map norm bs) = Ok cs /\ rmap h cs = Ok (map nf l).
Proof.
  intros Hbs Hl. revert bs Hbs. induction Hl as [|x l Hx _ IH]; intros bs Hbs.
  - injection Hbs as <-. by exists [].
  - cbn [rmap] in Hbs. apply rbind_Ok in Hbs as (b & Hb & Hbs). apply rbind_Ok in Hbs as (bs' & Hbs' & [= <-]).
    destruct (Hx b Hb) as (c & Hc & Hn). destruct (IH bs' Hbs') as (cs & Hcs & Hns).
    exists (c :: cs). cbn [map rmap]. rewrite Hc. cbn [rbind]. rewrite Hcs. cbn [rbind]. split; [done|].
    cbn [rmap]. rewrite Hn. cbn [rbind]. by rewrite Hns.
Qed.

Lemma strs_reads raw d k l :
  reads raw d -> dget k d = Some (VList (map VStr l)) -> strs_or_empty raw k = Ok l.
Proof. intros H Hk. unfold strs_or_empty. rewrite (reads_field_or _ _ _ _ H), Hk. simpl. by rewrite or_else_list, as_strs_map. Qed.

Lemma owner_present m : constructed_runbook m -> exists o, rm_owner m = Some o /\ runbook_owner o = Ok o.
Proof.
  intros Hm. pose proof (cr_owner _ Hm) as Ho. pose proof (cr_manifest _ Hm) as H. unfold runbook_manifest in H.
  apply rbind_Ok in H as (u1 & _ & H). apply rbind_Ok in H as (u2 & _ & H). apply rbind_Ok in H as (u3 & _ & H).
  apply rbind_Ok in H as (u4 & H4 & _). apply rb_if_Ok, bool_decide_eq_false in H4.
  destruct (rm_owner m) as [o|]; [|done]. exists o. split; [done|by apply Ho].
Qed.

Lemma manifest_normal m o :
  rm_owner m = Some o -> runbook_manifest m = Ok m -> runbook_manifest (normal_manifest m) = Ok (normal_manifest m).
Proof.
  unfold runbook_manifest. cbn [normal_manifest rm_id rm_signature rm_tokens rm_owner rm_timeout rm_approval rm_approval_ttl rm_nodes].
  rewrite length_map. intros _ H.
  repeat match type of H with rbind _ _ = Ok _ => let E := fresh in apply rbind_Ok in H as ([] & E & H); rewrite E; cbn [rbind] end.
  done.
Qed.

(** Reading the manifest document. *)
Lemma load_manifest_reads m ns ps o :
  runbook_manifest m = Ok m -> rm_owner m = Some o -> runbook_owner o = Ok o ->
  Forall (fun p => parameter p = Ok p) (rm_outputs m) ->
  rmap load_node ns = Ok (map normal_node (rm_nodes m)) -> rmap load_param ps = Ok (map normal_param (rm_parameters m)) ->
  load_manifest (VDict
       [("runbook_id", VStr (rm_id m)); ("version", VStr (rm_version m)); ("nodes", VList ns); ("parameter_schema", VList ps);
         ("output_schema", VList (map normal (map ir_param (rm_outputs m))));
         ("requires_capabilities", VList (map VStr (sort_str (rm_capabilities m))));
         ("credential_capability_ids", VList (map VStr (sort_str (rm_credentials m))));
         ("resource_scope", VStr (rm_scope m)); ("min_capability_state", VStr (rm_min_state m));
         ("policy_class", VStr (policy_class_value (rm_policy m)));
         ("approval_class", VStr (approval_class_value (rm_approval m)));
         ("destructive_action", VBool (rm_destructive m)); ("accepted_irreversibility", VBool (rm_irreversible m));
         ("rollback_support", VStr (rollback_support_value (rm_rollback m))); ("timeout_ms", VInt (rm_timeout m));
         ("approval_ttl_ms", VInt (rm_approval_ttl m)); ("lease_ttl_ms", VInt (rm_lease_ttl m));
         ("max_agentic_escalations", VInt (rm_escalations m)); ("max_agentic_tokens", VInt (rm_tokens m));
         ("owner", normal (ir_owner o)); ("requires_signature", VBool (rm_signature m))]) = Ok (normal_manifest m).
Proof.
  intros Hm Ho Hok Hos Hns Hps. set (d := [_; _; _; _; _; _; _; _; _; _; _; _; _; _; _; _; _; _; _; _; _]).
  pose proof (reads_literal d) as H. unfold load_manifest. cbn [as_dict rbind].
  assert (existsb (fun k => negb (str_in k KNOWN_FIELDS)) (dkeys d) = false) as -> by reflexivity.
  cbn [rb_if raise_if rbind]. generalize (VDict d) H. clear H. subst d. intros raw H.
  unfold typed_or, params_or_empty. read_fields H. rewrite (load_owner_normal o Hok). cbn [rbind]. read_fields H.
  rewrite Hns. cbn [rbind]. read_fields H. rewrite Hps. cbn [rbind]. read_fields H.
  rewrite map_map, (rmap_map_Ok _ _ normal_param) by (eapply Forall_impl; [exact Hos|apply load_output]). cbn [rbind].
  rewrite (strs_reads raw _ "requires_capabilities" (sort_str (rm_capabilities m)) H eq_refl). cbn [rbind].
  rewrite (strs_reads raw _ "credential_capability_ids" (sort_str (rm_credentials m)) H eq_refl). cbn [rbind].
  read_fields H.
  cbn [truthy]. rewrite <- Ho. by apply (manifest_normal m o).
Qed.

Lemma reload_canonical m ir :
  constructed_runbook m -> canonical_ir m = Ok ir -> reload (normal ir) = Ok (normal_manifest m).
Proof.
  intros Hm Hir. unfold canonical_ir in Hir. apply rbind_Ok in Hir as (nodes & Hnodes & [= <-]).
  match goal with |- context [normal ?d] => reads_of H d end.
  destruct (rmap_chain ir_node ir_node_to_manifest load_node normal_node normal _ _ Hnodes) as (ns & Hns1 & Hns2).
  { eapply Forall_impl; [exact (cr_nodes _ Hm)|]. intros n Hn v. by apply load_node_normal. }
  destruct (rmap_chain (fun p => Ok (E := rb_exn) (ir_param p)) ir_param_to_manifest load_param normal_param normal
              (rm_parameters m) (map ir_param (rm_parameters m))) as (ps & Hps1 & Hps2).
  { apply rmap_Ok_map, Forall_forall. done. }
  { eapply Forall_impl; [exact (cr_parameters _ Hm)|]. intros p Hp v [= <-]. by apply load_parameter. }
  destruct (owner_present m Hm) as (o & Ho & Hok).
  unfold reload, ir_to_manifest. read_fields H. rewrite Hns1. cbn [rbind]. read_fields H.
  rewrite Hps1. cbn [rbind]. read_fields H. unfold copied_fields. cbn [rmap]. read_fields H.
  rewrite Ho. change (or_else (normal (ir_owner o)) VNone) with (normal (ir_owner o)).
  apply load_manifest_reads; [apply Hm|done|done|apply Hm|done|done].
Qed.

(** ** The representation and the normal form determine each other *)

Lemma map_eq_via {A B C} (f : A -> B) (g : A -> C) (P : A -> Prop) l1 l2 :
  (forall x y, P x -> P y -> f x = f y -> g x = g y) -> Forall P l1 -> Forall P l2 -> map f l1 = map f l2 -> map g l1 = map g l2.
Proof.
  intros Hfg. revert l2. induction l1 as [|x l1 IH]; intros [|y l2] H1 H2 H; try done.
  apply Forall_cons in H1 as [? ?]. apply Forall_cons in H2 as [? ?]. cbn [map] in *. apply cons_eq_inj in H as [? ?].
  f_equal; [by apply Hfg|by apply IH].
Qed.

Lemma same_binding b c : normal_binding b = normal_binding c -> normal (ir_binding b) = normal (ir_binding c).
Proof.
  destruct b as [t s ty r mb], c as [t' s' ty' r' mb']. unfold normal_binding, ir_binding. simpl.
  intros [= -> -> -> -> ->]. done.
Qed.

(** The fields of the representation, from those of the normal form. *)
Lemma same_node n1 n2 v1 v2 :
  ir_node n1 = Ok v1 -> ir_node n2 = Ok v2 -> normal_node n1 = normal_node n2 -> normal v1 = normal v2.
Proof.
  unfold ir_node. intros (u1 & _ & [= <-])%rbind_Ok (u2 & _ & [= <-])%rbind_Ok H.
  pose proof (f_equal rn_key H) as E1. pose proof (f_equal rn_tool H) as E2. pose proof (f_equal rn_tool_version H) as E3.
  pose proof (f_equal rn_args H) as E4. pose proof (f_equal rn_depends H) as E5. pose proof (f_equal rn_bindings H) as E6.
  pose proof (f_equal rn_compensation H) as E7. pose proof (f_equal rn_timeout H) as E8. pose proof (f_equal rn_retry H) as E9.
  cbn [normal_node rn_key rn_tool rn_tool_version rn_args rn_depends rn_bindings rn_compensation rn_timeout rn_retry] in *.
  assert (A : normal (VDict (sort_items (rn_args n1))) = normal (VDict (sort_items (rn_args n2))))
    by exact (f_equal VDict E4).
  assert (B : normal (VList (map ir_binding (sorted_bindings (rn_bindings n1))))
    = normal (VList (map ir_binding (sorted_bindings (rn_bindings n2))))).
  { apply normal_list. rewrite !map_map.
    apply (map_eq_via normal_binding (fun x => normal (ir_binding x)) (fun _ => True)) in E6; [done| |by apply Forall_forall..].
    intros x y _ _. apply same_binding. }
  apply normal_dict_congr. cbn [map]. by rewrite E1, E2, E3, E5, E7, E8, E9, A, B.
Qed.

Lemma same_param p q : normal_param p = normal_param q -> normal (ir_param p) = normal (ir_param q).
Proof.
  destruct p as [a b c d e f g], q as [a' b' c' d' e' f' g']. intros H.
  unfold normal_param in H. cbn in H. injection H as -> -> -> Hd -> -> ->.
  apply normal_dict_congr. cbn [map pm_name pm_type pm_required pm_default pm_constraints pm_sensitivity pm_resource_kind].
  by rewrite Hd.
Qed.

Lemma same_params ps qs :
  map normal_param ps = map normal_param qs -> normal (VList (map ir_param ps)) = normal (VList (map ir_param qs)).
Proof.
  intros H. apply normal_list. rewrite !map_map.
  apply (map_eq_via normal_param (fun x => normal (ir_param x)) (fun _ => True)) in H; [done| |by apply Forall_forall..].
  intros x y _ _. apply same_param.
Qed.

Lemma same_nodes ns ms vs ws :
  rmap ir_node ns = Ok vs -> rmap ir_node ms = Ok ws -> map normal_node ns = map normal_node ms ->
  normal (VList vs) = normal (VList ws).
Proof.
  intros Hv Hw H. apply normal_list. revert ms vs ws Hv Hw H.
  induction ns as [|n ns IH]; intros [|k ms] vs ws Hv Hw H; try done; cbn [map rmap] in *.
  - by injection Hv as <-; injection Hw as <-.
  - apply cons_eq_inj in H as [H1 H2].
    apply rbind_Ok in Hv as (v & Hv & Hv'). apply rbind_Ok in Hv' as (vs' & Hvs & [= <-]).
    apply rbind_Ok in Hw as (w & Hw & Hw'). apply rbind_Ok in Hw' as (ws' & Hws & [= <-]).
    cbn [map]. f_equal; [by eapply same_node|by eapply IH].
Qed.

Lemma same_manifest m1 m2 ir1 ir2 :
  canonical_ir m1 = Ok ir1 -> canonical_ir m2 = Ok ir2 -> normal_manifest m1 = normal_manifest m2 -> normal ir1 = normal ir2.
Proof.
  unfold canonical_ir. intros (ns1 & H1 & [= <-])%rbind_Ok (ns2 & H2 & [= <-])%rbind_Ok H.
  pose proof (same_nodes _ _ _ _ H1 H2 (f_equal rm_nodes H)) as En.
  pose proof (same_params _ _ (f_equal rm_parameters H)) as Ep. pose proof (same_params _ _ (f_equal rm_outputs H)) as Eo.
  apply normal_dict_congr. cbn [map]. rewrite En, Ep, Eo.
  let go f := (let E := fresh in pose proof (f_equal f H) as E; cbn [normal_manifest f] in E; rewrite E; clear E) in
  go rm_id;  go rm_version;  go rm_capabilities;  go rm_credentials;
  go rm_scope;  go rm_min_state;  go rm_policy;  go rm_approval;
  go rm_destructive;  go rm_irreversible;  go rm_rollback;  go rm_timeout;
  go rm_approval_ttl;  go rm_lease_ttl;  go rm_escalations;  go rm_tokens;
  go rm_owner;  go rm_signature.
  done.
Qed.

(** ** What is stored *)

(** [raw.partition(newline)], and the body if there is one. *)
Definition ir_body (raw : string) : string :=
  match snd (split_once nl raw) with Some body => if String.eqb body "" then raw else body | None => raw end.

Lemma ir_body_text m bytes :
  canonical_ir_bytes m = Ok bytes ->
  exists ir, canonical_ir m = Ok ir /\ valid ir /\ bytes = IR_VERSION_PREFIX +:+ newline +:+ json_dumps ir
    /\ ir_body bytes = json_dumps ir.
Proof.
  unfold canonical_ir_bytes. intros (ir & Hir & (t & Ht%lift_python_Ok & [= <-])%rbind_Ok)%rbind_Ok.
  pose proof (text_valid ir t Ht) as [Hv ->]. exists ir. split_and!; [done|done|done|].
  unfold ir_body.
  assert (Hs : split_once nl (IR_VERSION_PREFIX +:+ newline +:+ json_dumps ir) = (IR_VERSION_PREFIX, Some (json_dumps ir)))
    by reflexivity.
  rewrite Hs. cbn [snd]. destruct (String.eqb_spec (json_dumps ir) "") as [He|]; [|done].
  pose proof (loads_dumps ir Hv) as Hl. rewrite He in Hl. vm_compute in Hl. done.
Qed.

Section Digest.
Variable sha256_hex : string -> string.

Lemma digest_bytes m d :
  runbook_digest sha256_hex m = Ok d -> exists bytes, canonical_ir_bytes m = Ok bytes /\ d = sha256_hex bytes.
Proof. unfold runbook_digest. intros (b & Hb & [= <-])%rbind_Ok. eauto. Qed.

Lemma stored_reloads m bytes :
  constructed_runbook m -> canonical_ir_bytes m = Ok bytes ->
  exists v, json_loads (ir_body bytes) = Some v /\ reload v = Ok (normal_manifest m).
Proof.
  intros Hm Hb. destruct (ir_body_text m bytes Hb) as (ir & Hir & Hv & _ & ->).
  exists (normal ir). split; [by apply loads_dumps|by apply reload_canonical].
Qed.

(** [C30] What the registry stores of a runbook reads back, by the engine's way, as the runbook in
    its normal form: everything but the title, the description and the attempt epochs. *)
Theorem stored_runbook_reloads m bytes :
  constructed_runbook m -> canonical_ir_bytes m = Ok bytes ->
  exists v, json_loads (ir_body bytes) = Some v /\ reload v = Ok (normal_manifest m).
Proof. apply stored_reloads. Qed.

Lemma same_bytes m1 m2 b1 b2 :
  constructed_runbook m1 -> constructed_runbook m2 -> canonical_ir_bytes m1 = Ok b1 -> canonical_ir_bytes m2 = Ok b2 ->
  b1 = b2 <-> normal_manifest m1 = normal_manifest m2.
Proof.
  intros C1 C2 H1 H2. split.
  - intros ->. destruct (stored_reloads m1 b2 C1 H1) as (v & Hv & Hr). destruct (stored_reloads m2 b2 C2 H2) as (w & Hw & Hq).
    congruence.
  - intros H. destruct (ir_body_text _ _ H1) as (i1 & I1 & V1 & -> & _). destruct (ir_body_text _ _ H2) as (i2 & I2 & V2 & -> & _).
    f_equal. f_equal. apply dumps_eq_iff; [done..|]. by eapply same_manifest.
Qed.

(** Two runbooks have the same digest exactly when they have the same normal form: an
    editorial change keeps the digest, any other change gives another one (SHA-256 collisions excluded). *)
Theorem runbook_digest_binds m1 m2 d1 d2 :
  (forall x y, sha256_hex x = sha256_hex y -> x = y) ->
  constructed_runbook m1 -> constructed_runbook m2 ->
  runbook_digest sha256_hex m1 = Ok d1 -> runbook_digest sha256_hex m2 = Ok d2 ->
  d1 = d2 <-> normal_manifest m1 = normal_manifest m2.
Proof.
  intros Hfree C1 C2 (b1 & H1 & ->)%digest_bytes (b2 & H2 & ->)%digest_bytes.
  rewrite <- (same_bytes m1 m2 b1 b2) by done. split; [apply Hfree|by intros ->].
Qed.
End Digest.
