(* ===== verification/RunbookAdmission.v ===== *)
(** * Admission of runbooks ([v2/runbook_admission.py])

    One pass over a manifest, stage by stage; the first stage that fails decides.  The ordering of
    the nodes is Kahn's, on the edges of the runbook. *)
From stdpp Require Import relations.
From S2P Require Import Prelude.
From S2P Require Import PyText.
From S2P Require Import PyValue.
From S2P Require Import Canonical.
From S2P Require Import DagContract.
From S2P Require Import DagValidation.
From S2P Require Import DagOrder.
From S2P Require Import RunbookContract.
From S2P Require Import RunbookDigest.

(** ** Ordering *)

(** [adj] and [indeg], as the list of the edges. *)
Definition runbook_edges (ns : list RunbookNode) : list edge :=
  concat (map (fun n => map (fun dep => (dep, rn_key n)) (rn_depends n)) ns).

(** The [while ready] loop. *)
Fixpoint drain (fuel : nat) (es : list edge) (indeg : gmap string Z) (ready order : list string)
    : result exn (list string) :=
  match ready with
  | [] => Ok order
  | nxt :: ready' =>
      match fuel with
      | O => Err Diverged
      | S fuel' =>
          let! st := release (sort_str (successors es nxt)) indeg ready' in
          drain fuel' es (fst st) (sort_str (snd st)) (order ++ [nxt])
      end
  end.

(** [_topo_with_ranks]; keys may repeat, so the loop may take twice as many steps as there are nodes. *)
Definition topo_fuel (keys : list string) : nat := length keys + length keys.
Definition topo_with_ranks (ns : list RunbookNode) : result rb_exn (list string) :=
  let keys := map rn_key ns in
  do! rfor (fun n => rfor (fun dep => rb_if (negb (str_in dep keys)) RB_GRAPH_CYCLE) (rn_depends n)) ns in
  let! indeg := lift_exn (indegrees keys (runbook_edges ns)) in
  let ready := sort_str (filter (fun k => indeg !! k = Some 0) keys) in
  let! order := lift_exn (drain (topo_fuel keys) (runbook_edges ns) indeg ready []) in
  do! rb_if (negb (Nat.eqb (length order) (length keys))) RB_GRAPH_CYCLE in
  Ok order.

(** [rank_nodes] *)
Definition rank_nodes (m : RunbookManifest) : result rb_exn (list (string * Z)) :=
  let! order := topo_with_ranks (rm_nodes m) in
  Ok (fst (foldl (fun '(d, i) k => (dset k i d, i + 1)) ([], 0) order)).

(** ** Bindings *)

Definition UNSAFE_SOURCE_MARKERS : list string := ["{{"; "${"; "eval("; "exec("; "`"].

(** [_check_binding_safety]: a missing source is the empty text. *)
Definition safe_source (source : string) : result rb_exn unit :=
  do! rb_if (negb (str_in (fst (split_once ":" source)) ["param"; "node"; "literal"])) RB_UNSAFE_BINDING in
  rb_if (existsb (fun mk => contains mk source) UNSAFE_SOURCE_MARKERS) RB_UNSAFE_BINDING.
Definition check_binding_safety (n : RunbookNode) : result rb_exn unit :=
  rfor (fun b => safe_source (default "" (rb_source b))) (rn_bindings n).

(** ** Classes *)

(** [_aggregate_policy_class], [_required_approval_class], [_is_destructive] *)
Definition aggregate_policy_class (m : RunbookManifest) : PolicyClass := rm_policy m.
Definition required_approval_class (m : RunbookManifest) : ApprovalClass :=
  if rm_destructive m then AC_DUAL
  else if bool_decide (rm_policy m = PC_MUTATING_HIGH) then AC_DUAL
  else if bool_decide (rm_policy m = PC_READ_ONLY) && negb (rm_destructive m) then AC_NONE
  else AC_SINGLE.
Definition is_destructive (m : RunbookManifest) : bool :=
  existsb (fun n => contains "delete" (rn_tool n) || contains "force" (rn_tool n)) (rm_nodes m).

(** [_check_timeouts] *)
Definition check_timeouts (m : RunbookManifest) : result rb_exn unit :=
  do! rb_if (rm_timeout m <=? 0) RB_TIMEOUT_MISSING in
  do! rb_if (negb (bool_decide (rm_approval m = AC_NONE)) && (rm_approval_ttl m <=? 0)) RB_TIMEOUT_MISSING in
  do! rb_if (rm_lease_ttl m <=? 0) RB_TIMEOUT_MISSING in
  rfor (fun n => rb_if ((rn_timeout n <=? 0) || (rm_timeout m <? rn_timeout n)) RB_TIMEOUT_INCONSISTENT) (rm_nodes m).

Definition missing (xs ys : list string) : bool := existsb (fun x => negb (str_in x ys)) xs.
Definition admin_capability (c : string) : bool := String.prefix "github.admin" c || String.eqb c "repository.delete".
Definition high_blast (m : RunbookManifest) : bool := rm_destructive m || bool_decide (rm_policy m = PC_MUTATING_HIGH).

(** The nodes stage 11 looks at. *)
Definition mutating_rows (m : RunbookManifest) (mutating_tools : option (list string)) : list RunbookNode :=
  match mutating_tools with
  | None => rm_nodes m
  | Some tools => List.filter (fun n => str_in (rn_tool n) tools) (rm_nodes m)
  end.

Definition check_rollback (m : RunbookManifest) (mutating_tools : option (list string)) (compensations : list string)
    : result rb_exn unit :=
  match rm_rollback m with
  | RS_AUTOMATIC =>
      rfor (fun n => match rn_compensation n with
                     | None => Err (RunbookError RB_ROLLBACK_UNDECLARED)
                     | Some c => rb_if (negb (str_in c compensations)) RB_COMPENSATION_UNREGISTERED
                     end) (mutating_rows m mutating_tools)
  | RS_NOT_SUPPORTED => rb_if (negb (rm_irreversible m)) RB_IRREVERSIBLE_UNACCEPTED
  | _ => Ok tt
  end.

Definition check_owner (m : RunbookManifest) : result rb_exn unit :=
  match rm_owner m with
  | None => Err (RunbookError RB_OWNER_UNRESOLVABLE)
  | Some o =>
      do! rb_if (String.eqb (ow_id o) "") RB_OWNER_UNRESOLVABLE in
      rb_if (high_blast m && negb (String.eqb (ow_kind o) "team")) RB_OWNER_KIND_INSUFFICIENT
  end.

Record AdmissionContext := mkAdmission {
  tool_names : list string;
  prev_version : option (Z * Z * Z);
  prev_digest : option string;
  node_capabilities : list string;
  registered_compensations : list string;
  existing : option RunbookState;
  signature_required : bool;
  prev_policy_class : option PolicyClass;
  mutating_tools : option (list string)
}.

Definition weakening (m : RunbookManifest) (c : AdmissionContext) : bool :=
  match prev_policy_class c with None => false | Some p => negb (policy_at_least (rm_policy m) p) end.

Section Admission.
Variable sha256_hex : string -> string.

(** [validate_admission] *)
Definition validate_admission (m : RunbookManifest) (c : AdmissionContext) : result rb_exn string :=
  do! runbook_id_disjoint_from_tools (rm_id m) (tool_names c) in
  let! digest := runbook_digest sha256_hex m in
  do! rb_if (negb (bool_decide (existing c = None)) && negb (String.eqb (rm_id m) "")
             && negb (bool_decide (prev_digest c = None))) RB_DIGEST_CONFLICT in
  let! version := version_tuple m in
  do! version_bump_valid version (prev_version c) (weakening m c) in
  let! order := topo_with_ranks (rm_nodes m) in
  do! rfor check_binding_safety (rm_nodes m) in
  do! rfor (fun n => rb_if (unpinned (rn_tool_version n)) RB_UNPINNED_REFERENCE) (rm_nodes m) in
  do! rb_if (missing (rm_capabilities m) (node_capabilities c)) RB_CAPABILITY_SUPERSET in
  do! rb_if (missing (node_capabilities c) (rm_capabilities m)) RB_CAPABILITY_MISSING in
  do! rb_if (existsb admin_capability (rm_capabilities m)) RB_ADMIN_CAPABILITY_FORBIDDEN in
  do! rb_if (negb (policy_at_least (rm_policy m) (aggregate_policy_class m))) RB_POLICY_CLASS_TOO_WEAK in
  do! rb_if (negb (approval_at_least (rm_approval m) (required_approval_class m))) RB_APPROVAL_CLASS_TOO_WEAK in
  do! rb_if (is_destructive m && negb (rm_destructive m)) RB_DESTRUCTIVE_UNDERDECLARED in
  do! rb_if (rm_destructive m && negb (is_destructive m) && negb (rm_irreversible m)) RB_IRREVERSIBLE_UNACCEPTED in
  do! check_rollback m (mutating_tools c) (registered_compensations c) in
  do! check_timeouts m in
  do! check_owner m in
  do! canonical_ir_bytes m in
  do! rb_if (signature_required c && negb (rm_signature m)) RB_DIGEST_MISMATCH in
  Ok digest.
End Admission.

(** * The order of a runbook's nodes

    The ordering of the admission always ends, and on a graph without repeated keys or edges it is the
    ordering of the plan validator ([v2/dag_validation.py]): it succeeds exactly without a cycle. *)

(** ** It ends *)

Section Total.
Variables (keys : list string) (es : list edge).

(** How many entries of [keys] still wait for something. *)
Definition waits (m : gmap string Z) (k : string) : bool :=
  match m !! k with Some z => 1 <=? z | None => false end.
Definition waiting (m : gmap string Z) : nat := length (List.filter (waits m) keys).

Lemma release_ends succs m ready :
  (forall s, s ∈ succs -> s ∈ keys) -> (forall k, k ∈ keys -> is_Some (m !! k)) ->
  exists m' r', release succs m ready = Ok (m', r') /\ (forall k, k ∈ keys -> is_Some (m' !! k))
    /\ (length r' + waiting m' <= length ready + waiting m)%nat.
Proof.
  revert m ready. induction succs as [|s succs IH]; intros m ready Hs Hm; simpl; [by exists m, ready|].
  assert (Hk : s ∈ keys) by (apply Hs; by left). destruct (Hm s Hk) as [z Hz].
  unfold get_key. rewrite Hz. cbn [rbind].
  assert (Hmono : forall k, waits (<[s := z - 1]> m) k = true -> waits m k = true).
  { unfold waits. intros k. destruct (decide (s = k)) as [<-|Hne]; [|by rewrite lookup_insert_ne].
    rewrite lookup_insert_eq, Hz, !Z.leb_le. lia. }
  destruct (IH (<[s := z - 1]> m) (if z - 1 =? 0 then ready ++ [s] else ready)) as (m' & r' & Hr & Hm' & Hle).
  { intros k Hin. apply Hs. by right. }
  { intros k Hin. destruct (decide (s = k)) as [<-|Hne]; [rewrite lookup_insert_eq; eauto|].
    rewrite lookup_insert_ne by done. by apply Hm. }
  exists m', r'. split_and!; [done|done|]. destruct (Z.eqb_spec (z - 1) 0) as [E|E].
  - assert (lt (waiting (<[s := (z - 1)%Z]> m)) (waiting m)).
    { apply (filter_length_strict _ _ _ s); [done|done| |]; unfold waits; [rewrite lookup_insert_eq|rewrite Hz].
      - apply Z.leb_gt. lia.
      - apply Z.leb_le. lia. }
    rewrite length_app in Hle. simpl in Hle. lia.
  - pose proof (filter_length_mono _ _ keys Hmono). unfold waiting in *. lia.
Qed.

Lemma drain_ends fuel m ready order :
  (forall e, e ∈ es -> snd e ∈ keys) -> (forall k, k ∈ keys -> is_Some (m !! k)) ->
  (length ready + waiting m <= fuel)%nat -> exists o, drain fuel es m ready order = Ok o.
Proof.
  intros Hes. revert m ready order. induction fuel as [|fuel IH]; intros m [|c ready] order Hm Hf; simpl in *;
    try (by eexists); [lia|].
  destruct (release_ends (sort_str (successors es c)) m ready) as (m' & r' & -> & Hm' & Hle); [|done|].
  { intros s Hs. apply elem_of_sort_str, elem_of_successors in Hs. by apply (Hes (c, s)). }
  cbn [rbind fst snd]. apply IH; [done|]. assert (length (sort_str r') = length r') as -> by (unfold sort_str; by rewrite sort_by_perm).
  lia.
Qed.
End Total.

Lemma elem_of_runbook_edges ns d k :
  (d, k) ∈ runbook_edges ns <-> exists n, n ∈ ns /\ rn_key n = k /\ d ∈ rn_depends n.
Proof.
  unfold runbook_edges. rewrite list_elem_of_In, in_concat. split.
  - intros (l & Hl & Hd). apply in_map_iff in Hl as (n & <- & Hn). apply in_map_iff in Hd as (x & [= <- <-] & Hx).
    exists n. by rewrite !list_elem_of_In.
  - intros (n & Hn & <- & Hd). exists (map (fun dep => (dep, rn_key n)) (rn_depends n)). split.
    + apply (in_map (fun n => map (fun dep => (dep, rn_key n)) (rn_depends n))). by apply list_elem_of_In.
    + apply in_map_iff. exists d. split; [done|by apply list_elem_of_In].
Qed.

(** The first loop passes exactly when every dependency is a node. *)
Definition dependencies_known (ns : list RunbookNode) : Prop :=
  forall n d, n ∈ ns -> d ∈ rn_depends n -> d ∈ map rn_key ns.

Lemma unknown_dependencies ns :
  rfor (fun n => rfor (fun dep => rb_if (negb (str_in dep (map rn_key ns))) RB_GRAPH_CYCLE) (rn_depends n)) ns = Ok tt
  <-> dependencies_known ns.
Proof.
  rewrite rfor_Ok, Forall_forall. unfold dependencies_known. split.
  - intros H n d Hn Hd. specialize (H n Hn). rewrite rfor_Ok, Forall_forall in H. specialize (H d Hd).
    apply rb_if_Ok, negb_false_iff in H. by apply str_in_elem.
  - intros H n Hn. rewrite rfor_Ok, Forall_forall. intros d Hd. apply rb_if_Ok, negb_false_iff, str_in_elem. by eapply H.
Qed.

Lemma unknown_error ns e :
  rfor (fun n => rfor (fun dep => rb_if (negb (str_in dep (map rn_key ns))) RB_GRAPH_CYCLE) (rn_depends n)) ns = Err e ->
  e = RunbookError RB_GRAPH_CYCLE.
Proof.
  generalize (map rn_key ns). intros keys. induction ns as [|n ns IH]; simpl; [done|].
  induction (rn_depends n) as [|d ds IHd]; simpl; [done|]. unfold rb_if at 1. destruct (negb (str_in d keys)); simpl; [congruence|done].
Qed.

Lemma indegrees_known ns :
  dependencies_known ns ->
  exists m, indegrees (map rn_key ns) (runbook_edges ns) = Ok m /\ forall k, k ∈ map rn_key ns -> is_Some (m !! k).
Proof.
  intros Hk. unfold indegrees. set (init := list_to_map (map (fun i => (i, 0)) (map rn_key ns)) : gmap string Z).
  assert (Hinit : forall k, k ∈ map rn_key ns -> is_Some (init !! k)).
  { intros k Hin. unfold init. apply elem_of_dom. rewrite dom_list_to_map. apply elem_of_list_to_set.
    rewrite <- list_fmap_compose. simpl. by rewrite list_fmap_id. }
  destruct (indegrees_loop init init (runbook_edges ns)) as (m & Hm & Hget).
  { intros [d k] He. apply elem_of_runbook_edges in He as (n & Hn & <- & Hd). simpl. split; apply Hinit.
    - by eapply Hk.
    - by apply list_elem_of_fmap_2. }
  exists m. split; [done|]. intros k Hin. rewrite Hget. destruct (Hinit k Hin) as [z ->]. by eexists.
Qed.

(** The ordering returns an order of all the keys, or refuses the graph; nothing else. *)
Lemma topo_total ns :
  (exists order, topo_with_ranks ns = Ok order /\ length order = length ns)
  \/ topo_with_ranks ns = Err (RunbookError RB_GRAPH_CYCLE).
Proof.
  unfold topo_with_ranks. set (checks := rfor _ ns). destruct checks as [[]|e] eqn:E; subst checks.
  2:{ right. by rewrite (unknown_error ns e E). }
  apply unknown_dependencies in E. cbn [rbind]. destruct (indegrees_known ns E) as (m & -> & Hm). cbn [lift_exn rbind].
  destruct (drain_ends (map rn_key ns) (runbook_edges ns) (topo_fuel (map rn_key ns)) m
              (sort_str (filter (fun k => m !! k = Some 0) (map rn_key ns))) []) as [o Ho].
  - intros [d k] He. apply elem_of_runbook_edges in He as (n & Hn & <- & _). simpl. by apply list_elem_of_fmap_2.
  - done.
  - unfold sort_str, topo_fuel. rewrite sort_by_perm. pose proof (length_filter (fun k => m !! k = Some 0) (map rn_key ns)).
    pose proof (List.filter_length_le (waits m) (map rn_key ns)). unfold waiting. lia.
  - rewrite Ho. cbn [lift_exn rbind]. rewrite length_map. destruct (Nat.eqb_spec (length o) (length ns)) as [Hl|Hl].
    + left. exists o. by rewrite Hl.
    + right. done.
Qed.

(** ** It is the validator's *)

Lemma kahn_drain fuel fuel' es m ready ranks order o rk :
  kahn fuel es m ready ranks order = Ok (o, rk) -> (fuel <= fuel')%nat -> drain fuel' es m ready order = Ok o.
Proof.
  revert fuel' m ready ranks order. induction fuel as [|fuel IH]; intros [|fuel'] m [|c ready] ranks order H Hf;
    simpl in *; try (by injection H as -> ->); try done; try lia.
  apply rbind_Ok in H as (r & _ & H). apply rbind_Ok in H as ([m' r'] & -> & H). cbn [rbind fst snd].
  eapply IH; [exact H|lia].
Qed.

Lemma well_formed_runbook ns :
  NoDup (map rn_key ns) -> NoDup (runbook_edges ns) -> dependencies_known ns ->
  well_formed_graph (map rn_key ns) (runbook_edges ns).
Proof.
  intros H1 H2 H3. split_and!; [done|done|]. apply Forall_forall. intros [d k] (n & Hn & <- & Hd)%elem_of_runbook_edges.
  simpl. split; [by eapply H3|by apply list_elem_of_fmap_2].
Qed.

Lemma topo_is_topological ns order :
  NoDup (map rn_key ns) -> NoDup (runbook_edges ns) ->
  topo_with_ranks ns = Ok order <->
  dependencies_known ns /\ exists ranks, topological_order (map rn_key ns) (runbook_edges ns) = Ok (order, ranks).
Proof.
  intros H1 H2. unfold topo_with_ranks. split.
  - intros ([] & Hd%unknown_dependencies & H)%rbind_Ok. split; [done|].
    destruct (well_formed_runbook ns H1 H2 Hd) as (_ & _ & H3). rewrite Forall_forall in H3.
    destruct (indegrees_spec _ _ H1 H3) as (m & Hm & Hget).
    destruct (kahn_spec _ _ H1 H2 H3 (length (map rn_key ns)) _ _ _ _ (kahn_init _ _ H1 _ Hget)) as (m' & rk & o & Hk & _);
      [simpl; lia|].
    rewrite Hm in H. cbn [lift_exn rbind] in H.
    rewrite (kahn_drain _ (topo_fuel (map rn_key ns)) _ _ _ _ _ _ _ Hk ltac:(unfold topo_fuel; lia)) in H. cbn [lift_exn rbind] in H.
    apply rbind_Ok in H as ([] & Hl%rb_if_Ok & [= <-]). exists rk. unfold topological_order. rewrite Hm. cbn [rbind].
    rewrite Hk. cbn [rbind fst]. by rewrite Hl.
  - intros (Hd & rk & H). rewrite (proj2 (unknown_dependencies ns) Hd). cbn [rbind].
    unfold topological_order in H. apply rbind_Ok in H as (m & -> & H). apply rbind_Ok in H as ([o rk'] & Hk & H).
    apply rbind_Ok in H as ([] & Hl & [= -> ->]). cbn [lift_exn rbind].
    rewrite (kahn_drain _ (topo_fuel (map rn_key ns)) _ _ _ _ _ _ _ Hk ltac:(unfold topo_fuel; lia)). cbn [lift_exn rbind fst] in *.
    destruct (negb _); [done|]. done.
Qed.

(** * What admission admits

    Admission lets a runbook through exactly when every condition holds, stated here without the order
    of the stages. *)

(** ** The conditions *)

(** One version is later than another. *)
Definition later (p v : Z * Z * Z) : Prop :=
  let '(a, b, c) := p in let '(a', b', c') := v in
  a < a' \/ (a = a' /\ (b < b' \/ (b = b' /\ c < c'))).

Definition bump_allowed (v : Z * Z * Z) (prev : option (Z * Z * Z)) (weaker : bool) : Prop :=
  match prev with
  | None => v = (1, 0, 0)
  | Some p => later p v /\ (weaker = true -> fst (fst p) < fst (fst v))
  end.

Definition bindings_safe (m : RunbookManifest) : Prop :=
  forall n b, n ∈ rm_nodes m -> b ∈ rn_bindings n ->
    let source := default "" (rb_source b) in
    fst (split_once ":" source) ∈ ["param"; "node"; "literal"]
    /\ forall mk, mk ∈ UNSAFE_SOURCE_MARKERS -> contains mk source = false.

Definition rollback_declared (m : RunbookManifest) (c : AdmissionContext) : Prop :=
  match rm_rollback m with
  | RS_AUTOMATIC => forall n, n ∈ mutating_rows m (mutating_tools c) ->
      exists k, rn_compensation n = Some k /\ k ∈ registered_compensations c
  | RS_NOT_SUPPORTED => rm_irreversible m = true
  | _ => True
  end.

Record admissible (m : RunbookManifest) (c : AdmissionContext) : Prop := {
  ad_namespace : rm_id m ∉ tool_names c;
  ad_fresh : existing c = None \/ rm_id m = "" \/ prev_digest c = None;
  ad_version : exists v, version_tuple m = Ok v /\ bump_allowed v (prev_version c) (weakening m c);
  ad_ordered : exists order, topo_with_ranks (rm_nodes m) = Ok order;
  ad_bindings : bindings_safe m;
  ad_pinned : forall n, n ∈ rm_nodes m -> rn_tool_version n ∉ [""; "*"; "latest"];
  ad_capabilities : forall k, k ∈ rm_capabilities m <-> k ∈ node_capabilities c;
  ad_no_admin : forall k, k ∈ rm_capabilities m -> admin_capability k = false;
  ad_approval : approval_rank (required_approval_class m) <= approval_rank (rm_approval m);
  ad_destructive : is_destructive m = true -> rm_destructive m = true;
  ad_irreversible : rm_destructive m = true -> is_destructive m = true \/ rm_irreversible m = true;
  ad_rollback : rollback_declared m c;
  ad_timeouts : 0 < rm_timeout m /\ (rm_approval m <> AC_NONE -> 0 < rm_approval_ttl m) /\ 0 < rm_lease_ttl m
    /\ forall n, n ∈ rm_nodes m -> 0 < rn_timeout n <= rm_timeout m;
  ad_owner : exists o, rm_owner m = Some o /\ ow_id o <> "" /\ (high_blast m = true -> ow_kind o = "team");
  ad_signature : signature_required c = true -> rm_signature m = true
}.

(** ** Stage by stage *)

Lemma rbind_unit_Ok {E B} (m : result E unit) (k : result E B) b :
  rbind m (fun _ => k) = Ok b <-> m = Ok tt /\ k = Ok b.
Proof. rewrite rbind_Ok. split; [by intros ([] & ? & ?)|intros [? ?]; by exists tt]. Qed.

Lemma version_stage v prev w : version_bump_valid v prev w = Ok tt <-> bump_allowed v prev w.
Proof.
  destruct v as [[a b] c], prev as [[[a' b'] c']|]; simpl; [|by rewrite rb_if_Ok, negb_false_iff, bool_decide_eq_true].
  rewrite rbind_unit_Ok, !rb_if_Ok, andb_false_iff. simpl.
  rewrite !orb_false_iff, !andb_false_iff, !orb_false_iff, !andb_false_iff, !Z.ltb_ge, !Z.leb_gt, !Z.eqb_neq.
  destruct w; simpl; split; intros; repeat (split || intros); try lia; intuition (try congruence; lia).
Qed.

Lemma binding_stage m : rfor check_binding_safety (rm_nodes m) = Ok tt <-> bindings_safe m.
Proof.
  rewrite rfor_Ok, Forall_forall. unfold bindings_safe, check_binding_safety. split.
  - intros H n b Hn Hb. specialize (H n Hn). rewrite rfor_Ok, Forall_forall in H. specialize (H b Hb).
    unfold safe_source in H. apply rbind_unit_Ok in H as [H1%rb_if_Ok H2%rb_if_Ok].
    split; [by apply str_in_elem, negb_false_iff|]. intros mk Hmk. apply not_true_iff_false. intros Hc.
    apply not_true_iff_false in H2. apply H2, existsb_exists. exists mk. split; [by apply list_elem_of_In|done].
  - intros H n Hn. rewrite rfor_Ok, Forall_forall. intros b Hb. destruct (H n b Hn Hb) as [H1 H2].
    apply rbind_unit_Ok. rewrite !rb_if_Ok. split; [by apply negb_false_iff, str_in_elem|].
    apply not_true_iff_false. intros (mk & Hmk & Hc)%existsb_exists. apply list_elem_of_In in Hmk. by rewrite H2 in Hc.
Qed.

Lemma pinned_stage m :
  rfor (fun n => rb_if (unpinned (rn_tool_version n)) RB_UNPINNED_REFERENCE) (rm_nodes m) = Ok tt
  <-> forall n, n ∈ rm_nodes m -> rn_tool_version n ∉ [""; "*"; "latest"].
Proof.
  rewrite rfor_Ok, Forall_forall. split; intros H n Hn; specialize (H n Hn).
  - by apply rb_if_Ok, str_in_false in H.
  - by apply rb_if_Ok, str_in_false.
Qed.

Lemma missing_false xs ys : missing xs ys = false <-> forall x, x ∈ xs -> x ∈ ys.
Proof.
  unfold missing. split.
  - intros H x Hx. destruct (str_in x ys) eqn:E; [by apply str_in_elem|]. apply not_true_iff_false in H. destruct H.
    apply existsb_exists. exists x. split; [by apply list_elem_of_In|by rewrite E].
  - intros H. apply not_true_iff_false. intros (x & Hx & Hn)%existsb_exists. apply list_elem_of_In, H, str_in_elem in Hx.
    by rewrite Hx in Hn.
Qed.

Lemma no_admin_stage m :
  existsb admin_capability (rm_capabilities m) = false <-> forall k, k ∈ rm_capabilities m -> admin_capability k = false.
Proof.
  split.
  - intros H k Hk. apply not_true_iff_false. intros Hc. apply not_true_iff_false in H. apply H, existsb_exists.
    exists k. split; [by apply list_elem_of_In|done].
  - intros H. apply not_true_iff_false. intros (k & Hk & Hc)%existsb_exists. apply list_elem_of_In in Hk. by rewrite H in Hc.
Qed.

Lemma rollback_stage m c :
  check_rollback m (mutating_tools c) (registered_compensations c) = Ok tt <-> rollback_declared m c.
Proof.
  unfold check_rollback, rollback_declared. destruct (rm_rollback m); try done.
  - rewrite rfor_Ok, Forall_forall. split; intros H n Hn; specialize (H n Hn).
    + destruct (rn_compensation n) as [k|]; [|done]. exists k. split; [done|].
      by apply rb_if_Ok, negb_false_iff, str_in_elem in H.
    + destruct H as (k & -> & Hk). by apply rb_if_Ok, negb_false_iff, str_in_elem.
  - by rewrite rb_if_Ok, negb_false_iff.
Qed.

Lemma timeout_stage m :
  check_timeouts m = Ok tt
  <-> 0 < rm_timeout m /\ (rm_approval m <> AC_NONE -> 0 < rm_approval_ttl m) /\ 0 < rm_lease_ttl m
      /\ forall n, n ∈ rm_nodes m -> 0 < rn_timeout n <= rm_timeout m.
Proof.
  unfold check_timeouts. rewrite !rbind_unit_Ok, !rb_if_Ok, rfor_Ok, Forall_forall, andb_false_iff, negb_false_iff,
    bool_decide_eq_true, !Z.leb_gt.
  assert (Hn : (forall n, n ∈ rm_nodes m -> rb_if ((rn_timeout n <=? 0) || (rm_timeout m <? rn_timeout n)) RB_TIMEOUT_INCONSISTENT = Ok tt)
               <-> forall n, n ∈ rm_nodes m -> 0 < rn_timeout n <= rm_timeout m).
  { split; intros H n Hn; specialize (H n Hn).
    - apply rb_if_Ok, orb_false_iff in H as [H1%Z.leb_gt H2%Z.ltb_ge]. lia.
    - apply rb_if_Ok, orb_false_iff. rewrite Z.leb_gt, Z.ltb_ge. lia. }
  rewrite Hn. destruct (decide (rm_approval m = AC_NONE)); tauto.
Qed.

Lemma owner_stage m :
  check_owner m = Ok tt
  <-> exists o, rm_owner m = Some o /\ ow_id o <> "" /\ (high_blast m = true -> ow_kind o = "team").
Proof.
  unfold check_owner. destruct (rm_owner m) as [o|]; [|by split; [done|intros (? & ? & _)]].
  rewrite rbind_unit_Ok, !rb_if_Ok, andb_false_iff, negb_false_iff, String.eqb_eq, String.eqb_neq. split.
  - intros [H1 H2]. exists o. split_and!; [done|done|]. intros Hb. destruct H2; congruence.
  - intros (? & [= <-] & H1 & H2). split; [done|]. destruct (high_blast m); [right; by apply H2|by left].
Qed.

Lemma digest_bytes_Ok sha m d : runbook_digest sha m = Ok d -> exists b, canonical_ir_bytes m = Ok b.
Proof. unfold runbook_digest. intros (b & Hb & _)%rbind_Ok. eauto. Qed.

