(* ===== verification/RunbookRegistry.v ===== *)
(** * The runbook registry ([v2/runbook_registry.py])

    One row per identifier and version.  SQLite is the map of its rows: an insertion fails on a key that
    is there, an update on a key that is not changes nothing. *)
From S2P Require Import Prelude.
From S2P Require Import PyText.
From S2P Require Import PyValue.
From S2P Require Import Canonical.
From S2P Require Import DagContract.
From S2P Require Import RunbookContract.
From S2P Require Import RunbookDigest.
From S2P Require Import RunbookRoundTrip.

(** ** Secret-shaped text *)

Definition SECRET_WORDS : list string :=
  ["authorization"; "bearer"; "client_secret"; "private_key"; "password"; "passwd"; "api_key"; "access_token";
   "refresh_token"; "id_token"; "auth_token"; "session_cookie"].

(** [_SECRET_WORD_RE.search]: a word with no letter on either side. *)
Definition word_ends (s : string) : bool := match s with EmptyString => true | String c _ => negb (is_lower c) end.
Definition word_here (w s : string) : bool :=
  String.prefix w s && word_ends (String.substring (String.length w) (String.length s - String.length w) s).
Fixpoint secret_from (after_letter : bool) (s : string) : bool :=
  (negb after_letter && existsb (fun w => word_here w s) SECRET_WORDS)
  || match s with EmptyString => false | String c rest => secret_from (is_lower c) rest end.
Definition secret_word (text : string) : bool := secret_from false (lower text).

(** [_walk_strings] *)
Fixpoint walk_strings (v : value) : list string :=
  match v with
  | VStr s => [s]
  | VDict d => concat (map (fun kv => fst kv :: walk_strings (snd kv)) d)
  | VList l => concat (map walk_strings l)
  | _ => []
  end.

(** ** Rows *)

Record RegistryRow := mkRow {
  row_digest : string;
  row_state : RunbookState;
  row_ir : string;
  row_signature : bool;
  row_owner : string;
  row_record : string
}.

Abbreviation runbook_key := (string * string)%type.
Abbreviation RunbookRegistry := (gmap runbook_key RegistryRow).

Record RegistryRecord := mkRecord {
  rec_id : string;
  rec_version : string;
  rec_digest : string;
  rec_state : RunbookState;
  rec_ir : string;
  rec_signature : bool;
  rec_owner : string
}.

Definition record_of (k : runbook_key) (r : RegistryRow) : RegistryRecord :=
  mkRecord (fst k) (snd k) (row_digest r) (row_state r) (row_ir r) (row_signature r) (row_owner r).

(** [assert_no_secret_material] *)
Definition secret_free (rec : RegistryRecord) : result rb_exn unit :=
  match json_loads (ir_body (rec_ir rec)) with
  | None => Err (RunbookError RB_MALFORMED)
  | Some payload => rb_if (existsb secret_word (walk_strings payload)) RB_SECRET_IN_RESULT
  end.

Definition set_state (s : RunbookState) (r : RegistryRow) : RegistryRow :=
  mkRow (row_digest r) s (row_ir r) (row_signature r) (row_owner r) (row_record r).

Section Registry.
Variable sha256_hex : string -> string.

Definition registry_op := st RunbookRegistry rb_exn.

(** [get] *)
Definition read_row (k : runbook_key) (reg : RunbookRegistry) : result rb_exn RegistryRecord :=
  match reg !! k with
  | None => Err (RunbookError RB_UNKNOWN)
  | Some r =>
      do! rb_if (negb (String.eqb (sha256_hex (row_ir r)) (row_record r))) RB_DIGEST_CONFLICT in
      do! secret_free (record_of k r) in
      Ok (record_of k r)
  end.
Definition get_runbook (runbook_id version : string) : registry_op RegistryRecord := fun reg =>
  (read_row (runbook_id, version) reg, reg).

(** [admit]; the digest is the caller's when there is one *)
Definition admit_runbook (m : RunbookManifest) (digest : option string) : registry_op RegistryRecord :=
  let* computed := slift (match digest with
                          | Some d => if String.eqb d "" then runbook_digest sha256_hex m else Ok d
                          | None => runbook_digest sha256_hex m
                          end) in
  let* ir_bytes := slift (canonical_ir_bytes m) in
  let* reg := sget in
  do* match reg !! (rm_id m, rm_version m) with
      | Some _ => sraise (RunbookError RB_DIGEST_CONFLICT)
      | None => smodify (<[(rm_id m, rm_version m) :=
                  mkRow computed RB_ADMITTED ir_bytes (rm_signature m)
                    match rm_owner m with Some o => ow_id o | None => "" end (sha256_hex ir_bytes)]>)
      end in
  get_runbook (rm_id m) (rm_version m).

(** [transition] *)
Definition transition (runbook_id version : string) (new : RunbookState) : registry_op RegistryRecord :=
  let* rec := get_runbook runbook_id version in
  if bool_decide (new = RB_YANKED_STATE) && bool_decide (rec_state rec = RB_YANKED_STATE) then sret rec
  else
    do* smodify (alter (set_state new) (runbook_id, version)) in
    get_runbook runbook_id version.

(** [is_yanked]: an exception of the registry is no. *)
Definition is_yanked (runbook_id version : string) : registry_op bool := fun reg =>
  match read_row (runbook_id, version) reg with
  | Ok rec => (Ok (bool_decide (rec_state rec = RB_YANKED_STATE)), reg)
  | Err (RunbookError _) => (Ok false, reg)
  | Err e => (Err e, reg)
  end.

(** [__contains__] *)
Definition has_runbook (k : runbook_key) (reg : RunbookRegistry) : bool :=
  match reg !! k with Some _ => true | None => false end.

(** [__iter__], as a list; the first secret-shaped record ends it. *)
Definition iterate (reg : RunbookRegistry) : result rb_exn (list RegistryRecord) :=
  rmap (fun '(k, r) => do! secret_free (record_of k r) in Ok (record_of k r))
    (filter (fun '(k, r) => sha256_hex (row_ir r) = row_record r) (map_to_list reg)).

(** ** Histories *)

Inductive registry_call : Type :=
| CallAdmit (m : RunbookManifest) (digest : option string)
| CallGet (runbook_id version : string)
| CallTransition (runbook_id version : string) (new : RunbookState).

Definition registry_step (c : registry_call) (reg : RunbookRegistry) : RunbookRegistry :=
  match c with
  | CallAdmit m d => snd (admit_runbook m d reg)
  | CallGet i v => snd (get_runbook i v reg)
  | CallTransition i v s => snd (transition i v s reg)
  end.

(** A row that came from an admission, whatever its state is by now. *)
Definition admitted_row (k : runbook_key) (r : RegistryRow) : Prop :=
  row_record r = sha256_hex (row_ir r)
  /\ exists m, k = (rm_id m, rm_version m) /\ canonical_ir_bytes m = Ok (row_ir r).

Definition registry_inv (reg : RunbookRegistry) : Prop := map_Forall admitted_row reg.

Definition same_content (r r' : RegistryRow) : Prop := set_state (row_state r) r' = r.

Lemma admit_spec m d reg :
  snd (admit_runbook m d reg) = reg
  \/ exists ir h, canonical_ir_bytes m = Ok ir /\ reg !! (rm_id m, rm_version m) = None
       /\ snd (admit_runbook m d reg) = <[(rm_id m, rm_version m) :=
            mkRow h RB_ADMITTED ir (rm_signature m) match rm_owner m with Some o => ow_id o | None => "" end (sha256_hex ir)]> reg.
Proof.
  unfold admit_runbook, sbind, slift, sget, smodify, sraise, get_runbook.
  destruct d as [d|]; repeat case_match; simplify_eq/=; try (by left); right; eauto 10.
Qed.

Lemma transition_spec i v s reg :
  snd (transition i v s reg) = reg \/ snd (transition i v s reg) = alter (set_state s) (i, v) reg.
Proof.
  unfold transition, sbind, get_runbook, smodify, sret. destruct (read_row (i, v) reg); [|by left].
  destruct (_ && _); [by left|by right].
Qed.

Lemma registry_step_inv c reg : registry_inv reg -> registry_inv (registry_step c reg).
Proof.
  intros Hi. destruct c as [m d|i v|i v s]; simpl; [|done|].
  - destruct (admit_spec m d reg) as [->|(ir & h & Hir & Hn & ->)]; [done|].
    apply map_Forall_insert_2; [|done]. split; [done|]. by exists m.
  - destruct (transition_spec i v s reg) as [->| ->]; [done|]. intros k r. rewrite lookup_alter.
    case_decide as E; [subst k|apply Hi]. intros (r0 & Hr & ->)%fmap_Some. by apply (Hi (i, v)) in Hr.
Qed.

(** Every row of a registry built by its calls came from an admission. *)
Lemma registry_inv_run calls : registry_inv (foldl (fun reg c => registry_step c reg) ∅ calls).
Proof.
  assert (H : forall reg, registry_inv reg -> registry_inv (foldl (fun reg c => registry_step c reg) reg calls)).
  { induction calls as [|c calls IH]; intros reg Hr; [done|]. simpl. by apply IH, registry_step_inv. }
  apply H, map_Forall_empty.
Qed.

Lemma registry_step_keeps c reg k r :
  reg !! k = Some r -> exists r', registry_step c reg !! k = Some r' /\ same_content r r'.
Proof.
  intros Hr. assert (Hrefl : same_content r r) by (by destruct r).
  destruct c as [m d|i v|i v s]; simpl; [|by exists r|].
  - destruct (admit_spec m d reg) as [->|(ir & h & Hir & Hn & ->)]; [by exists r|]. exists r.
    rewrite lookup_insert_ne; [done|]. intros <-. congruence.
  - destruct (transition_spec i v s reg) as [->| ->]; [by exists r|]. rewrite lookup_alter. case_decide as E; [|by exists r].
    subst k. rewrite Hr. exists (set_state s r). split; [done|]. by destruct r.
Qed.

(** Nothing but the state of a row ever changes. *)
Lemma rows_are_permanent calls reg k r :
  reg !! k = Some r -> exists r', foldl (fun reg c => registry_step c reg) reg calls !! k = Some r' /\ same_content r r'.
Proof.
  revert reg r. induction calls as [|c calls IH]; intros reg r Hr; simpl; [exists r; split; [done|by destruct r]|].
  destruct (registry_step_keeps c reg k r Hr) as (r1 & H1 & S1). destruct (IH _ r1 H1) as (r2 & H2 & S2).
  exists r2. split; [done|]. unfold same_content in *. rewrite <- S1, <- S2. by destruct r2.
Qed.
End Registry.
