(* ===== verification/RunbookCompile.v ===== *)
(** * Compiling a runbook to a plan ([v2/runbook_compile.py]) *)
From S2P Require Import Prelude.
From S2P Require Import PyText.
From S2P Require Import PyValue.
From S2P Require Import Canonical.
From S2P Require Import DagContract.
From S2P Require Import RunbookContract.
From S2P Require Import RunbookAdmission.

Section Compile.
(** [unicodedata.normalize("NFC", text)] *)
Variable nfc : string -> string.

(** One entry of the dict of bindings: the key is evaluated first. *)
Definition compile_binding (b : RunbookBinding) : result rb_exn (string * Binding) :=
  match rb_target b, rb_source b with
  | Some t, Some s =>
      let x := mkBinding s (default "string" (rb_type b)) (default true (rb_required b))
                 (default DAG_MAX_BINDING_BYTES (rb_max_bytes b)) in
      do! lift_exn (binding_post_init nfc x) in Ok (t, x)
  | _, _ => key_missing
  end.

Definition non_empty (s : option string) : option string :=
  match s with Some t => if String.eqb t "" then None else Some t | None => None end.

Definition compile_node (n : RunbookNode) : result rb_exn Node :=
  let! bs := rmap compile_binding (rn_bindings n) in
  let idem := mkIdempotency true (rn_epoch n) in
  do! lift_exn (idempotency_post_init idem) in
  let comp := mkCompensation <$> non_empty (rn_compensation n) in
  do! match comp with Some c => lift_exn (compensation_post_init nfc c) | None => Ok tt end in
  lift_exn (node_post_init nfc
    (mkNode (rn_key n) NodeKind_TOOL (Some (rn_tool n)) None (rn_args n) (foldl (fun d '(t, b) => dset t b d) [] bs)
       (rn_depends n) None (Some idem) OnFailure_ABORT_PLAN (rn_timeout n) None comp "")).

(** A caller may only tighten. *)
Definition tighten (tightened : option (list (string * Z))) (name : string) (base : Z) : Z :=
  match tightened with
  | None => base
  | Some d => match dget name d with Some v => Z.min base v | None => base end
  end.

Definition mutating_runbook (m : RunbookManifest) : bool := negb (bool_decide (rm_policy m = PC_READ_ONLY)).

Definition compile_budget (m : RunbookManifest) (count : Z) (tightened : option (list (string * Z))) : Budget :=
  mkBudget (if count =? 0 then 1 else count)
    (tighten tightened "max_parallelism" (if mutating_runbook m then DAG_MAX_PARALLELISM_MUTATION else DAG_MAX_PARALLELISM))
    (tighten tightened "max_external_calls" (Z.max 1 count))
    (tighten tightened "max_total_wall_ms" (rm_timeout m)) 1048576 1048576 [] [].

Definition compile_rollback (r : RollbackSupport) : RollbackPolicy :=
  if str_in (rollback_support_value r) ["AUTOMATIC"; "MANUAL"] then RollbackPolicy_COMPENSATE_ON_FAILURE else RollbackPolicy_NONE.

(** [compile_runbook_to_plan] *)
Definition compile_runbook_to_plan (m : RunbookManifest) (caller_capabilities : list string)
    (tightened : option (list (string * Z))) : result rb_exn PlanDefinition :=
  do! rb_if (missing (rm_capabilities m) caller_capabilities) RB_INSUFFICIENT_CAPABILITY in
  let! ns := rmap compile_node (rm_nodes m) in
  let b := compile_budget m (Z.of_nat (length ns)) tightened in
  do! lift_exn (budget_post_init nfc b) in
  let p := mkPlan ("runbook:" +:+ rm_id m +:+ ":" +:+ rm_version m) ns b FailurePolicy_FAIL_FAST (rm_timeout m)
             (compile_rollback (rm_rollback m)) None false DAG_SCHEMA_VERSION "DAG" "" in
  do! lift_exn (plan_post_init nfc p) in
  Ok p.

(** ** Lemmas *)

(** The caller's budget never widens one. *)
Lemma tighten_le t name base : tighten t name base <= base.
Proof. unfold tighten. destruct t as [d|]; [destruct (dget name d)|]; lia. Qed.

Lemma compile_spec m caps t p :
  compile_runbook_to_plan m caps t = Ok p ->
  (forall c, c ∈ rm_capabilities m -> c ∈ caps)
  /\ rmap compile_node (rm_nodes m) = Ok (nodes p)
  /\ budget p = compile_budget m (Z.of_nat (length (rm_nodes m))) t
  /\ plan_id p = "runbook:" +:+ rm_id m +:+ ":" +:+ rm_version m
  /\ deadline_ms p = rm_timeout m /\ failure_policy p = FailurePolicy_FAIL_FAST
  /\ rollback_policy p = compile_rollback (rm_rollback m) /\ approval p = None /\ dry_run p = false
  /\ plan_post_init nfc p = Ok tt /\ budget_post_init nfc (budget p) = Ok tt.
Proof.
  unfold compile_runbook_to_plan. intros ([] & Hc%rb_if_Ok & H)%rbind_Ok.
  apply rbind_Ok in H as (ns & Hns & H). apply rbind_Ok in H as ([] & Hb%lift_exn_Ok & H).
  apply rbind_Ok in H as ([] & Hp%lift_exn_Ok & [= <-]). cbn [nodes budget plan_id deadline_ms failure_policy rollback_policy approval dry_run].
  rewrite (Forall2_length _ _ _ (proj1 (rmap_Ok _ _ _) Hns)). split_and!; try done.
  intros c Hin. unfold missing in Hc. destruct (str_in c caps) eqn:E; [by apply str_in_elem|].
  apply not_true_iff_false in Hc. destruct Hc. apply existsb_exists. exists c. split; [by apply list_elem_of_In|by rewrite E].
Qed.

(** A node that compiles keeps its key, its tool, its arguments and its dependencies. *)
Lemma compile_node_spec n x :
  compile_node n = Ok x ->
  id x = rn_key n /\ kind x = NodeKind_TOOL /\ tool x = Some (rn_tool n) /\ depends_on x = rn_depends n
  /\ timeout_ms x = rn_timeout n /\ compensation x = mkCompensation <$> non_empty (rn_compensation n).
Proof.
  unfold compile_node. intros (bs & _ & H)%rbind_Ok. apply rbind_Ok in H as (u & _ & H). apply rbind_Ok in H as (u' & _ & H).
  apply lift_exn_Ok in H. unfold node_post_init in H.
  repeat (apply rbind_Ok in H as (? & _ & H)). injection H as <-. done.
Qed.
End Compile.

(** ** Bindings

    A plan's binding reads [<node>.result...]; admission wants [param], [node] or [literal] before the
    first colon.  No text is both. *)

Definition not_colon (c : ascii) : bool := negb (Ascii.eqb c ":").

Lemma no_colon_split s : all_chars not_colon s = true -> fst (split_once ":" s) = s.
Proof.
  induction s as [|c s IH]; [done|]. rewrite all_chars_cons, andb_true_iff. intros [Hc Hs].
  cbn [split_once]. apply negb_true_iff in Hc. rewrite Hc. destruct (split_once ":" s) as [a b]. simpl in *. by rewrite IH.
Qed.

Lemma split_parts (p : ascii -> bool) sep s :
  forallb (all_chars p) (split_on sep s) = true -> all_chars (fun c => p c || Ascii.eqb c sep) s = true.
Proof.
  induction s as [|c s IH]; [done|]. cbn [split_on]. rewrite all_chars_cons. destruct (Ascii.eqb c sep).
  - rewrite orb_true_r. simpl. apply IH.
  - destruct (split_on sep s) as [|w ws]; simpl in *; rewrite !orb_false_r, !andb_true_iff; intros [H1 H2].
    + split; [by destruct H1|by apply IH].
    + destruct H1 as [Hc Hw]. split; [done|]. apply IH. by rewrite Hw.
Qed.

Lemma chars_no_colon (p : ascii -> bool) : p ":"%char = false -> forall c, p c = true -> not_colon c = true.
Proof. intros Hp c Hc. unfold not_colon. destruct (Ascii.eqb_spec c ":") as [->|]; [congruence|done]. Qed.

Lemma source_no_colon s : BINDING_SOURCE_RE s = true -> all_chars not_colon s = true.
Proof.
  unfold BINDING_SOURCE_RE, match_dollar.
  set (P := fun t => match split_on "." t with
              | a :: r :: ws => chars_between node_id_char 1 64 a && String.eqb r "result" && forallb word ws
              | _ => false end).
  assert (HP : forall t, P t = true -> all_chars not_colon t = true).
  { intros t Ht. apply (all_chars_impl (fun c => not_colon c || Ascii.eqb c "."));
      [intros c Hc; apply orb_true_iff in Hc as [Hc|Hc]; [done|by apply Ascii.eqb_eq in Hc as ->]|].
    apply split_parts. unfold P in Ht. destruct (split_on "." t) as [|a [|r ws]]; try done.
    rewrite !andb_true_iff in Ht. destruct Ht as [[Ha Hr] Hws]. apply String.eqb_eq in Hr as ->. unfold chars_between in Ha.
    rewrite !andb_true_iff in Ha. destruct Ha as [[Ha _] _]. simpl forallb. rewrite !andb_true_iff. split.
    - by apply (all_chars_impl node_id_char); [apply chars_no_colon|].
    - apply forallb_forall. intros w Hw. rewrite forallb_forall in Hws. specialize (Hws w Hw).
      apply andb_true_iff in Hws as [Hws _]. by apply (all_chars_impl word_char); [apply chars_no_colon|]. }
  intros [H|H]%orb_true_iff; [by apply HP|]. destruct (chop_newline s) as [t|] eqn:E; [|done].
  apply chop_newline_spec in E as ->. rewrite all_chars_app. by rewrite (HP t H).
Qed.

(** What admission accepts as a source, no plan does. *)
Lemma safe_source_no_plan s : safe_source s = Ok tt -> BINDING_SOURCE_RE s = false.
Proof.
  unfold safe_source. intros ([] & H%rb_if_Ok & _)%rbind_Ok. apply negb_false_iff, str_in_elem in H.
  destruct (BINDING_SOURCE_RE s) eqn:E; [|done]. rewrite (no_colon_split s (source_no_colon s E)) in H.
  rewrite !elem_of_cons in H. by destruct H as [->|[->|[->|H%not_elem_of_nil]]].
Qed.

Lemma compile_binding_source nfc b x : compile_binding nfc b = Ok x -> exists s, rb_source b = Some s /\ BINDING_SOURCE_RE s = true.
Proof.
  unfold compile_binding. destruct (rb_target b) as [t|]; [|done]. destruct (rb_source b) as [s|]; [|done].
  intros ([] & H%lift_exn_Ok & _)%rbind_Ok. exists s. split; [done|]. unfold binding_post_init in H.
  apply rbind_Ok in H as (? & _ & H). apply rbind_Ok in H as (? & H & _). cbn [source] in H.
  by destruct (BINDING_SOURCE_RE s).
Qed.

(** A runbook whose bindings admission accepts compiles only if it has none. *)
Lemma compiled_without_bindings nfc n x :
  check_binding_safety n = Ok tt -> compile_node nfc n = Ok x -> rn_bindings n = [].
Proof.
  unfold check_binding_safety, compile_node. intros Hs (bs & Hbs & _)%rbind_Ok.
  destruct (rn_bindings n) as [|b l]; [done|exfalso]. cbn [rmap rfor] in *.
  apply rbind_Ok in Hs as ([] & Hs & _). apply rbind_Ok in Hbs as (y & Hy & _).
  apply compile_binding_source in Hy as (s & Hb & Hre). rewrite Hb in Hs. simpl in Hs.
  by rewrite (safe_source_no_plan s Hs) in Hre.
Qed.
