(* ===== verification/RunbookEngine.v ===== *)
(** * Invoking a runbook ([v2/runbook_engine.py])

    The pipeline before the run is a function of the registry and the request; from the idempotency
    check on, the stores change.  The DAG engine runs the compiled plan.  The store of finished
    executions is an interface: the source only asks it for [load_execution] and [save_execution], which
    the checkpoint store does not have.  The approval gateway is an input, its calls are recorded. *)
From S2P Require Import Prelude.
From S2P Require Import PyText.
From S2P Require Import PyValue.
From S2P Require Import Canonical.
From S2P Require Import DagContract.
From S2P Require Import DagValidation.
From S2P Require Import DagStore.
From S2P Require Import DagEngine.
From S2P Require Import RunbookContract.
From S2P Require Import RunbookDigest.
From S2P Require Import RunbookLoader.
From S2P Require Import RunbookRoundTrip.
From S2P Require Import RunbookAdmission.
From S2P Require Import RunbookRegistry.
From S2P Require Import RunbookCompile.

(** ** The store of finished executions *)

Record Recorded := mkRecorded { rc_plan_digest : string; rc_status : PlanStatus }.

Class ExecutionStore (S : Type) := {
  load_execution : S -> string -> option Recorded;
  save_execution : S -> string -> Recorded -> S
}.
(** It is a map from keys to records. *)
Class ExecutionStoreLaws (S : Type) `{ExecutionStore S} := {
  load_saved : forall s k r, load_execution (save_execution s k r) k = Some r;
  load_other : forall s k k' r, k <> k' -> load_execution (save_execution s k r) k' = load_execution s k'
}.

#[export] Instance map_executions : ExecutionStore (gmap string Recorded) := {
  load_execution := fun s k => s !! k;
  save_execution := fun s k r => <[k := r]> s
}.
#[export] Instance map_executions_laws : ExecutionStoreLaws (gmap string Recorded).
Proof. split; intros; simpl; [apply lookup_insert_eq|by apply lookup_insert_ne]. Qed.

(** ** Requests and results *)

Record InvocationRequest := mkInvocation {
  iv_runbook : string;
  iv_version : string;
  iv_expected_digest : string;
  iv_arguments : list (string * value);
  iv_key : string;
  iv_approval_ref : option string;
  iv_expected_plan : option string;
  iv_budget : option (list (string * Z));
  iv_deadline : option Z;
  iv_principal : string
}.

Record InvocationResult := mkInvocationResult {
  ir_status : PlanStatus;
  ir_runbook_digest : string;
  ir_plan_digest : string;
  ir_report : option ExecutionReport
}.

(** What steps 1 to 8 produce. *)
Record Prepared := mkPrepared {
  pr_record : RegistryRecord;
  pr_manifest : RunbookManifest;
  pr_plan : PlanDefinition;
  pr_digest : string
}.

Record RunbookWorld (S : Type) := mkWorld {
  rw_registry : RunbookRegistry;
  rw_executions : S;
  rw_dag : Store;
  rw_asked : list (string * string * string)
}.
Arguments mkWorld {S}.
Arguments rw_registry {S}.
Arguments rw_executions {S}.
Arguments rw_dag {S}.
Arguments rw_asked {S}.

Definition set_asked {S} (a : string * string * string) (w : RunbookWorld S) : RunbookWorld S :=
  mkWorld (rw_registry w) (rw_executions w) (rw_dag w) (rw_asked w ++ [a]).
Definition set_dag {S} (d : Store) (w : RunbookWorld S) : RunbookWorld S :=
  mkWorld (rw_registry w) (rw_executions w) d (rw_asked w).
Definition set_executions {S} (e : S) (w : RunbookWorld S) : RunbookWorld S :=
  mkWorld (rw_registry w) e (rw_dag w) (rw_asked w).

(** [_validate_arguments] *)
Definition schema_of (m : RunbookManifest) : list (string * RunbookParameter) :=
  foldl (fun d p => dset (pm_name p) p d) [] (rm_parameters m).
Definition check_argument (schema : list (string * RunbookParameter)) (kv : string * value) : result rb_exn unit :=
  match dget (fst kv) schema with
  | None => Err (RunbookError RB_PARAM_UNKNOWN)
  | Some p =>
      do! rb_if (match snd kv, max_length (pm_constraints p) with
                 | VStr s, Some n => n <? py_len s
                 | _, _ => false
                 end) RB_PARAM_OVERSIZE in
      rb_if (bool_decide (pm_type p = PT_INTEGER)
             && negb (match snd kv with VInt _ | VBool _ => true | _ => false end)) RB_PARAM_OUT_OF_CONSTRAINT
  end.
Definition validate_arguments (m : RunbookManifest) (arguments : list (string * value)) : result rb_exn unit :=
  let schema := schema_of m in
  do! rfor (check_argument schema) arguments in
  rfor (fun np => rb_if (pm_required (snd np) && negb (dhas (fst np) arguments)) RB_PARAM_UNKNOWN) schema.

(** [_intersect_scope] *)
Definition intersect_scope (m : RunbookManifest) : string := if String.eqb (rm_scope m) "" then "*" else rm_scope m.

(** [_is_review_overdue]: no manifest has the attribute it looks for. *)
Definition is_review_overdue (m : RunbookManifest) : bool := true.

(** [_manifest_for] *)
Definition manifest_for (rec : RegistryRecord) : result rb_exn RunbookManifest :=
  match json_loads (ir_body (rec_ir rec)) with
  | None => Err (Raised (PyError ValueError))
  | Some ir => reload ir
  end.

Section Engine.
Variable sha256_hex : string -> string.
Variable repr : value -> string.
Variable nfc : string -> string.
Variable catalog : StaticToolCatalog.
Variable decide_node : ValidatedPlan -> Node -> list (string * value) -> NodeDecision.
Variables (engine_ceiling : Z) (engine_owner : string).
Variable enabled : bool.
Variable authorized : gmap runbook_key (list string).
(** [approve]: what it raises, if anything; [None] when there is no gateway. *)
Variable gateway : option (string -> string -> string -> option rb_exn).

(** [_authorized_for] *)
Definition authorized_for (principal : string) (k : runbook_key) : bool :=
  match authorized !! k with None => false | Some allowed => str_in principal allowed end.

(** Step 1: a denied registry lookup says no more than that the runbook is not known. *)
Definition find_record (k : runbook_key) (reg : RunbookRegistry) : result rb_exn RegistryRecord :=
  match read_row sha256_hex k reg with
  | Ok rec => Ok rec
  | Err (RunbookError _) => Err (RunbookError RB_UNKNOWN)
  | Err e => Err e
  end.

(** Steps 1 to 8. *)
Definition prepare (rq : InvocationRequest) (reg : RunbookRegistry) : result rb_exn Prepared :=
  let k := (iv_runbook rq, iv_version rq) in
  do! rb_if (negb enabled) RB_NOT_PROMOTED in
  do! rb_if (negb (authorized_for (iv_principal rq) k)) RB_UNKNOWN in
  let! rec := find_record k reg in
  do! rb_if (bool_decide (rec_state rec = RB_YANKED_STATE)) RB_YANKED in
  do! rb_if (negb (bool_decide (rec_state rec = RB_ACTIVE) || bool_decide (rec_state rec = RB_DEPRECATED))) RB_NOT_PROMOTED in
  do! rb_if (negb (String.eqb (iv_expected_digest rq) (rec_digest rec))) RB_DIGEST_MISMATCH in
  let! m := manifest_for rec in
  do! rb_if (high_blast m && is_review_overdue m) RB_REVIEW_OVERDUE in
  do! validate_arguments m (iv_arguments rq) in
  let caps := sort_str (projected catalog) in
  let! p := compile_runbook_to_plan nfc m caps (iv_budget rq) in
  let! d := runbook_plan_digest sha256_hex repr m (iv_arguments rq) (intersect_scope m) caps "cap-snapshot" (rec_digest rec)
              (policy_class_value (rm_policy m)) (approval_class_value (rm_approval m)) (rm_destructive m)
              [("max_total_wall_ms", max_total_wall_ms (budget p))] (iv_principal rq) [] in
  Ok (mkPrepared rec m p d).

Context {S : Type} `{ExecutionStore S}.
Definition invoke_op := st (RunbookWorld S) rb_exn.

(** Step 10. *)
Definition obtain_approval (rq : InvocationRequest) (p : Prepared) : invoke_op unit :=
  if bool_decide (rm_approval (pr_manifest p) = AC_NONE) then sret tt
  else
    match iv_approval_ref rq, gateway with
    | None, _ | _, None => sraise (RunbookError RB_APPROVAL_INVALID)
    | Some _, Some approve =>
        let rd := rec_digest (pr_record p) in
        do* smodify (set_asked (rd, pr_digest p, iv_principal rq)) in
        match approve rd (pr_digest p) (iv_principal rq) with
        | Some e => sraise e
        | None => sret tt
        end
    end.

(** The operations of the DAG engine, on the checkpoint store. *)
Definition on_dag {A} (op : store_op A) : invoke_op A := fun w =>
  let '(res, d) := op (rw_dag w) in (lift_exn res, set_dag d w).

(** Step 11: validation, admission, the run under a schedule, the record. *)
Definition run_plan (rq : InvocationRequest) (p : Prepared) (sched : wave -> choice) : invoke_op InvocationResult :=
  let* vp := slift (lift_exn (validate_plan sha256_hex (pr_plan p) catalog)) in
  let* c := on_dag (admit_execution sha256_hex decide_node true engine_owner vp (iv_key rq) (iv_principal rq)
                      (rec_digest (pr_record p)) (pr_digest p) 0 (10 ^ 12) false) in
  let* report := on_dag (run sha256_hex repr catalog decide_node None true engine_ceiling vp c None sched) in
  do* smodify (fun w => set_executions
         (save_execution (rw_executions w) (iv_key rq) (mkRecorded (pr_digest p) (report_status report))) w) in
  sret (mkInvocationResult (report_status report) (rec_digest (pr_record p)) (pr_digest p) (Some report)).

(** [invoke] *)
Definition invoke (rq : InvocationRequest) (sched : wave -> choice) : invoke_op InvocationResult := fun w =>
  match prepare rq (rw_registry w) with
  | Err e => (Err e, w)
  | Ok p =>
      match load_execution (rw_executions w) (iv_key rq) with
      | Some r =>
          if negb (String.eqb (rc_plan_digest r) (pr_digest p)) then (Err (RunbookError RB_IDEMPOTENCY_CONFLICT), w)
          else (Ok (mkInvocationResult (rc_status r) (rec_digest (pr_record p)) (pr_digest p) None), w)
      | None => (do* obtain_approval rq p in run_plan rq p sched) w
      end
  end.
End Engine.
