(* ===== verification/RunbookGuarantees.v ===== *)
(** * What invoking a runbook guarantees

    Nothing happens before every check has passed; a finished invocation is not repeated; a caller
    narrows; and which runbooks can never be invoked. *)
From S2P Require Import Prelude.
From S2P Require Import PyText.
From S2P Require Import PyValue.
From S2P Require Import Canonical.
From S2P Require Import DagContract.
From S2P Require Import DagValidation.
From S2P Require Import DagAdmission.
From S2P Require Import DagStore.
From S2P Require Import DagDurability.
From S2P Require Import DagEngine.
From S2P Require Import DagWitness.
From S2P Require Import RunbookContract.
From S2P Require Import RunbookDigest.
From S2P Require Import RunbookLoader.
From S2P Require Import RunbookRoundTrip.
From S2P Require Import RunbookAdmission.
From S2P Require Import RunbookRegistry.
From S2P Require Import RunbookCompile.
From S2P Require Import RunbookEngine.

Section Guarantees.
Variable sha256_hex : string -> string.
Variable repr : value -> string.
Variable nfc : string -> string.
Variable catalog : StaticToolCatalog.
Variable decide_node : ValidatedPlan -> Node -> list (string * value) -> NodeDecision.
Variables (engine_ceiling : Z) (engine_owner : string).
Variable enabled : bool.
Variable authorized : gmap runbook_key (list string).
Variable gateway : option (string -> string -> string -> option rb_exn).
Context {S : Type} `{ExecutionStore S}.

Local Notation prepare := (prepare sha256_hex repr nfc catalog enabled authorized).
Local Notation invoke := (invoke sha256_hex repr nfc catalog decide_node engine_ceiling engine_owner enabled authorized gateway).
Local Notation run_plan := (run_plan sha256_hex repr catalog decide_node engine_ceiling engine_owner).

(** ** The checks before the run *)

(** What holds of a request that passes steps 1 to 8. *)
Record cleared (rq : InvocationRequest) (reg : RunbookRegistry) (p : Prepared) : Prop := {
  cl_enabled : enabled = true;
  cl_authorized : exists allowed, authorized !! (iv_runbook rq, iv_version rq) = Some allowed /\ iv_principal rq ∈ allowed;
  cl_stored : exists row, reg !! (iv_runbook rq, iv_version rq) = Some row /\ sha256_hex (row_ir row) = row_record row
    /\ pr_record p = record_of (iv_runbook rq, iv_version rq) row /\ secret_free (pr_record p) = Ok tt;
  cl_state : rec_state (pr_record p) = RB_ACTIVE \/ rec_state (pr_record p) = RB_DEPRECATED;
  cl_digest : iv_expected_digest rq = rec_digest (pr_record p);
  cl_manifest : manifest_for (pr_record p) = Ok (pr_manifest p);
  cl_blast : high_blast (pr_manifest p) = false;
  cl_arguments : validate_arguments (pr_manifest p) (iv_arguments rq) = Ok tt;
  cl_plan : compile_runbook_to_plan nfc (pr_manifest p) (sort_str (projected catalog)) (iv_budget rq) = Ok (pr_plan p);
  cl_plan_digest : runbook_plan_digest sha256_hex repr (pr_manifest p) (iv_arguments rq) (intersect_scope (pr_manifest p))
      (sort_str (projected catalog)) "cap-snapshot" (rec_digest (pr_record p))
      (policy_class_value (rm_policy (pr_manifest p))) (approval_class_value (rm_approval (pr_manifest p)))
      (rm_destructive (pr_manifest p)) [("max_total_wall_ms", max_total_wall_ms (budget (pr_plan p)))] (iv_principal rq) []
    = Ok (pr_digest p)
}.

Lemma prepare_cleared rq reg p : prepare rq reg = Ok p -> cleared rq reg p.
Proof.
  unfold RunbookEngine.prepare. intros ([] & E1%rb_if_Ok & Hp)%rbind_Ok.
  apply rbind_Ok in Hp as ([] & E2%rb_if_Ok & Hp). apply rbind_Ok in Hp as (rec & Hrec & Hp).
  apply rbind_Ok in Hp as ([] & _ & Hp). apply rbind_Ok in Hp as ([] & E4%rb_if_Ok & Hp).
  apply rbind_Ok in Hp as ([] & E5%rb_if_Ok & Hp). apply rbind_Ok in Hp as (m & Hm & Hp).
  apply rbind_Ok in Hp as ([] & E6%rb_if_Ok & Hp). apply rbind_Ok in Hp as ([] & E7 & Hp).
  apply rbind_Ok in Hp as (pl & Hpl & Hp). apply rbind_Ok in Hp as (d & Hd & [= <-]).
  constructor; cbn [pr_record pr_manifest pr_plan pr_digest]; try done.
  - by apply negb_false_iff.
  - apply negb_false_iff in E2. unfold authorized_for in E2. destruct (authorized !! _) as [allowed|]; [|done].
    exists allowed. split; [done|by apply str_in_elem].
  - unfold find_record, read_row in Hrec. destruct (reg !! _) as [row|]; [|done]. exists row.
    destruct (String.eqb_spec (sha256_hex (row_ir row)) (row_record row)) as [E|]; [|done]. cbn [negb rb_if raise_if rbind] in Hrec.
    destruct (secret_free _) as [[]|] eqn:Es; cbn [rbind] in Hrec; [|by destruct e]. injection Hrec as <-. done.
  - apply negb_false_iff, orb_true_iff in E4. rewrite !bool_decide_eq_true in E4. done.
  - by apply negb_false_iff, String.eqb_eq in E5.
  - unfold is_review_overdue in E6. by rewrite andb_true_r in E6.
Qed.

(** ** The invocation *)

(** The approval the manifest asks for was asked of the gateway, which raised nothing. *)
Definition approved (rq : InvocationRequest) (p : Prepared) : Prop :=
  rm_approval (pr_manifest p) <> AC_NONE ->
  is_Some (iv_approval_ref rq) /\ exists approve, gateway = Some approve
    /\ approve (rec_digest (pr_record p)) (pr_digest p) (iv_principal rq) = None.

Lemma obtain_approval_spec rq p (w w' : RunbookWorld S) res :
  obtain_approval gateway rq p w = (res, w') ->
  rw_registry w' = rw_registry w /\ rw_executions w' = rw_executions w /\ rw_dag w' = rw_dag w
  /\ (res = Ok tt -> approved rq p)
  /\ (rw_asked w' = rw_asked w \/ rw_asked w' = rw_asked w ++ [(rec_digest (pr_record p), pr_digest p, iv_principal rq)]).
Proof.
  unfold obtain_approval, approved. case_bool_decide as Ha.
  - intros [= <- <-]. split_and!; try done. by left.
  - destruct (iv_approval_ref rq) as [t|]; [|intros [= <- <-]; split_and!; try done; by left].
    destruct gateway as [f|]; [|intros [= <- <-]; split_and!; try done; by left].
    unfold sbind, smodify. destruct (f _ _ _) eqn:Ef; intros [= <- <-]; split_and!; try done; try (by right).
    intros _ _. split; [by eexists|]. exists f. done.
Qed.

Lemma run_plan_spec rq p sched (w w' : RunbookWorld S) res :
  run_plan rq p sched w = (res, w') ->
  rw_registry w' = rw_registry w /\ rw_asked w' = rw_asked w
  /\ (rw_dag w' <> rw_dag w -> exists vp, validate_plan sha256_hex (pr_plan p) catalog = Ok vp)
  /\ match res with
     | Ok r => exists vp c d report,
         validate_plan sha256_hex (pr_plan p) catalog = Ok vp
         /\ admit_execution sha256_hex decide_node true engine_owner vp (iv_key rq) (iv_principal rq)
              (rec_digest (pr_record p)) (pr_digest p) 0 (10 ^ 12) false (rw_dag w) = (Ok c, d)
         /\ run sha256_hex repr catalog decide_node None true engine_ceiling vp c None sched d = (Ok report, rw_dag w')
         /\ r = mkInvocationResult (report_status report) (rec_digest (pr_record p)) (pr_digest p) (Some report)
         /\ rw_executions w' = save_execution (rw_executions w) (iv_key rq) (mkRecorded (pr_digest p) (report_status report))
     | Err _ => rw_executions w' = rw_executions w
     end.
Proof.
  unfold RunbookEngine.run_plan, sbind, slift, on_dag, smodify, sret.
  destruct (validate_plan sha256_hex (pr_plan p) catalog) as [vp|e] eqn:Ev; cbn [lift_exn].
  2:{ intros [= <- <-]. by split_and!. }
  destruct (admit_execution _ _ _ _ _ _ _ _ _ _ _ _ (rw_dag w)) as [[c|e] d] eqn:Ea; cbn [lift_exn].
  2:{ intros [= <- <-]. split_and!; try done. by exists vp. }
  cbn [rw_dag set_dag]. destruct (run _ _ _ _ _ _ _ _ _ _ _ d) as [[report|e] d'] eqn:Er; cbn [lift_exn].
  2:{ intros [= <- <-]. split_and!; try done. by exists vp. }
  intros [= <- <-]. split_and!; try done; [by exists vp|]. exists vp, c, d, report. done.
Qed.

(** An invocation that did anything at all was cleared, new and approved. *)
Lemma invoke_spec rq sched (w w' : RunbookWorld S) res :
  invoke rq sched w = (res, w') ->
  w' = w \/ exists p, prepare rq (rw_registry w) = Ok p /\ cleared rq (rw_registry w) p
    /\ load_execution (rw_executions w) (iv_key rq) = None
    /\ rw_registry w' = rw_registry w
    /\ (rw_asked w' = rw_asked w \/ rw_asked w' = rw_asked w ++ [(rec_digest (pr_record p), pr_digest p, iv_principal rq)])
    /\ (rw_dag w' <> rw_dag w \/ rw_executions w' <> rw_executions w ->
        approved rq p /\ exists vp, validate_plan sha256_hex (pr_plan p) catalog = Ok vp).
Proof.
  unfold RunbookEngine.invoke. destruct (prepare rq (rw_registry w)) as [p|e] eqn:Hp; [|intros [= <- <-]; by left].
  destruct (load_execution (rw_executions w) (iv_key rq)) as [r|] eqn:Hl.
  { destruct (negb _); intros [= <- <-]; by left. }
  intros Hi. right. exists p. pose proof (prepare_cleared _ _ _ Hp) as Hc. split_and!; try done.
  all: unfold sbind in Hi; destruct (obtain_approval gateway rq p w) as [[[]|e] w1] eqn:Ha;
    apply obtain_approval_spec in Ha as (A1 & A2 & A3 & A4 & A5).
  2,4,6: injection Hi as <- <-; try done; intros [?|?]; congruence.
  all: apply run_plan_spec in Hi as (R1 & R2 & R3 & R4).
  - congruence.
  - rewrite R2. exact A5.
  - intros Hch. split; [by apply A4|]. destruct Hch as [Hch|Hch]; [apply R3; congruence|].
    destruct res as [r|]; [destruct R4 as (vp & ? & ? & ? & Hv & _); by exists vp|congruence].
Qed.

(** [C27] Nothing happens before everything is in order.  If an invocation changed a store or asked for
    an approval, then the feature is on, the principal is authorised for this runbook and version, the
    registry has it, intact, free of secrets and active or deprecated, under the digest the caller
    expected; the manifest read back from it is not of high blast radius; the arguments fit its
    parameters; its capabilities are projected; no execution is recorded under the key - and if a
    store changed, the approval the manifest asks for was given for this digest and this plan, and the
    compiled plan is valid.  The registry never changes. *)
Theorem runbook_runs_are_cleared rq sched (w w' : RunbookWorld S) res :
  invoke rq sched w = (res, w') ->
  w' = w \/ exists p, cleared rq (rw_registry w) p
    /\ load_execution (rw_executions w) (iv_key rq) = None
    /\ rw_registry w' = rw_registry w
    /\ (rw_asked w' = rw_asked w \/ rw_asked w' = rw_asked w ++ [(rec_digest (pr_record p), pr_digest p, iv_principal rq)])
    /\ (rw_dag w' <> rw_dag w \/ rw_executions w' <> rw_executions w ->
        approved rq p /\ exists vp, validate_plan sha256_hex (pr_plan p) catalog = Ok vp).
Proof.
  intros Hi. destruct (invoke_spec rq sched w w' res Hi) as [->|(p & _ & Hc & Hrest)]; [by left|].
  right. by exists p.
Qed.

(** ** Once *)

Context `{!ExecutionStoreLaws S}.

(** A request that ended with a result. *)
Lemma invoke_Ok rq sched (w w' : RunbookWorld S) r :
  invoke rq sched w = (Ok r, w') ->
  exists p, prepare rq (rw_registry w) = Ok p /\ rw_registry w' = rw_registry w
    /\ ir_plan_digest r = pr_digest p /\ ir_runbook_digest r = rec_digest (pr_record p)
    /\ load_execution (rw_executions w') (iv_key rq) = Some (mkRecorded (pr_digest p) (ir_status r)).
Proof.
  unfold RunbookEngine.invoke. destruct (prepare rq (rw_registry w)) as [p|e] eqn:Hp; [|done]. intros Hi. exists p.
  destruct (load_execution (rw_executions w) (iv_key rq)) as [rc|] eqn:Hl.
  { destruct (String.eqb_spec (rc_plan_digest rc) (pr_digest p)) as [E|]; [|done].
    injection Hi as <- <-. split_and!; try done. rewrite Hl. destruct rc. simpl in *. congruence. }
  unfold sbind in Hi. destruct (obtain_approval gateway rq p w) as [[[]|e] w1] eqn:Ha; [|done].
  apply obtain_approval_spec in Ha as (A1 & _). apply run_plan_spec in Hi as (R1 & _ & _ & R4).
  destruct R4 as (vp & c & d & report & _ & _ & _ & -> & ->). split_and!; try done; [congruence|].
  cbn [ir_status]. apply load_saved.
Qed.


(** ** Never *)

Lemma high_blast_normal m : high_blast (normal_manifest m) = high_blast m.
Proof. done. Qed.

Lemma safe_normal n : check_binding_safety n = Ok tt -> check_binding_safety (normal_node n) = Ok tt.
Proof.
  unfold check_binding_safety. rewrite !rfor_Ok. cbn [rn_bindings normal_node]. intros Hs.
  apply Forall_map. rewrite sorted_bindings_perm. eapply Forall_impl; [exact Hs|]. done.
Qed.

Lemma bindings_normal n : rn_bindings (normal_node n) = [] -> rn_bindings n = [].
Proof.
  cbn [rn_bindings normal_node]. intros E%map_eq_nil. apply Permutation_nil. rewrite <- E. apply sorted_bindings_perm.
Qed.

(** A stored runbook, reloaded. *)
Lemma reloaded k row m :
  constructed_runbook m -> canonical_ir_bytes m = Ok (row_ir row) -> manifest_for (record_of k row) = Ok (normal_manifest m).
Proof.
  intros Hm Hb. unfold manifest_for. cbn [rec_ir record_of]. destruct (stored_reloads m _ Hm Hb) as (v & -> & Hr). exact Hr.
Qed.

Lemma never_prepared rq reg row m :
  constructed_runbook m -> bindings_safe m ->
  reg !! (iv_runbook rq, iv_version rq) = Some row -> canonical_ir_bytes m = Ok (row_ir row) ->
  high_blast m = true \/ (exists n, n ∈ rm_nodes m /\ rn_bindings n <> []) ->
  exists e, prepare rq reg = Err e.
Proof.
  intros Hm Hsafe Hrow Hb Hbad. destruct (prepare rq reg) as [p|e] eqn:Hp; [exfalso|by exists e].
  apply prepare_cleared in Hp. destruct (cl_stored _ _ _ Hp) as (row' & Hrow' & _ & Hrec & _).
  rewrite Hrow in Hrow'. injection Hrow' as <-. pose proof (cl_manifest _ _ _ Hp) as Hman. rewrite Hrec in Hman.
  rewrite (reloaded _ _ _ Hm Hb) in Hman. injection Hman as Hman. destruct Hbad as [Hbad|(n & Hn & Hne)].
  - pose proof (cl_blast _ _ _ Hp) as Hbl. rewrite <- Hman, high_blast_normal in Hbl. congruence.
  - destruct (compile_spec _ _ _ _ _ (cl_plan _ _ _ Hp)) as (_ & Hns & _). rewrite <- Hman in Hns. apply rmap_Ok in Hns.
    destruct (list_elem_of_lookup_1 _ _ Hn) as [j Hj].
    destruct (Forall2_lookup_l _ _ _ j (normal_node n) Hns) as (x & _ & Hx).
    { cbn [rm_nodes normal_manifest]. change (map normal_node (rm_nodes m)) with (normal_node <$> rm_nodes m).
      by rewrite list_lookup_fmap, Hj. }
    apply Hne, bindings_normal. eapply compiled_without_bindings; [|exact Hx]. apply safe_normal.
    apply binding_stage in Hsafe. rewrite rfor_Ok, Forall_forall in Hsafe. by apply Hsafe.
Qed.

(** Two kinds of runbook can be admitted, promoted and authorised, and never be invoked: those that
    are destructive or of the class MUTATING_HIGH, whose review is always overdue, and those with a
    binding, whose source admission accepts only in a form no plan does.  Every invocation of such a
    runbook fails and changes nothing. *)
Theorem some_runbooks_never_run rq sched (w : RunbookWorld S) row m :
  constructed_runbook m -> bindings_safe m ->
  rw_registry w !! (iv_runbook rq, iv_version rq) = Some row -> canonical_ir_bytes m = Ok (row_ir row) ->
  high_blast m = true \/ (exists n, n ∈ rm_nodes m /\ rn_bindings n <> []) ->
  exists e, invoke rq sched w = (Err e, w).
Proof.
  intros Hm Hsafe Hrow Hb Hbad. destruct (never_prepared rq (rw_registry w) row m Hm Hsafe Hrow Hb Hbad) as [e He].
  exists e. unfold RunbookEngine.invoke. by rewrite He.
Qed.

(** ** What is not looked at *)

(** The same request but for the approval's identifier, the plan digest expected and the deadline. *)
Definition same_but_ignored (a b : InvocationRequest) : Prop :=
  iv_runbook a = iv_runbook b /\ iv_version a = iv_version b /\ iv_expected_digest a = iv_expected_digest b
  /\ iv_arguments a = iv_arguments b /\ iv_key a = iv_key b /\ iv_budget a = iv_budget b
  /\ iv_principal a = iv_principal b /\ (iv_approval_ref a = None <-> iv_approval_ref b = None).

(** The engine does not look at which approval the caller refers to, at the plan digest the caller
    expects, or at the caller's deadline: requests that differ in nothing else do the same. *)
Lemma ignored_fields a b sched (w : RunbookWorld S) : same_but_ignored a b -> invoke a sched w = invoke b sched w.
Proof.
  intros (E1 & E2 & E3 & E4 & E5 & E6 & E7 & Hr). unfold RunbookEngine.invoke.
  assert (prepare a (rw_registry w) = prepare b (rw_registry w)) as ->
    by (unfold RunbookEngine.prepare; by rewrite E1, E2, E3, E4, E6, E7).
  destruct (prepare b (rw_registry w)) as [p|e]; [|done]. rewrite E5. destruct (load_execution _ _); [done|].
  assert (obtain_approval gateway a p = obtain_approval gateway b p) as ->.
  { unfold obtain_approval. rewrite E7. destruct (iv_approval_ref a), (iv_approval_ref b); try done; naive_solver. }
  unfold RunbookEngine.run_plan. by rewrite E5, E7.
Qed.
End Guarantees.

(** * Runbooks at concrete inputs

    One runbook from its admission to its second invocation, the theorems at it, and what admission lets
    through or stores that its documentation says it does not. *)

(** ** A runbook *)

Definition read_issue : RunbookNode :=
  mkRunbookNode "a" "github.get_issue" "1" [("repository", VStr "o/r"); ("number", VInt 7)] [] [] None 30000 0 "NONE".
Definition number_param : RunbookParameter :=
  mkRbParameter "number" PT_INTEGER false (VInt 7) (mkConstraint None None (Some 1) None [] None None) PS_PUBLIC None.
Definition runbook_of (title : string) (ns : list RunbookNode) (pc : PolicyClass) (ac : ApprovalClass)
    (destructive : bool) (kind : string) : RunbookManifest :=
  mkManifest "RB-GH-ISSUE-001" "1.0.0" ns [number_param] [] ["github.get_issue"] [] "o/r" "READY" pc ac destructive false
    RS_NOT_APPLICABLE 60000 300000 60000 0 0 (Some (mkOwner "ops" kind "ops@example" 90)) false title "".
Definition demo_runbook : RunbookManifest := runbook_of "Read" [read_issue] PC_READ_ONLY AC_SINGLE false "team".

Lemma demo_constructed : constructed_runbook demo_runbook.
Proof. constructor; [by vm_compute|repeat constructor|repeat constructor|constructor|by intros ? [= <-]]. Qed.

Definition demo_bytes : string := match canonical_ir_bytes demo_runbook with Ok b => b | Err _ => "" end.
Lemma demo_bytes_Ok : canonical_ir_bytes demo_runbook = Ok demo_bytes.
Proof. by vm_compute. Qed.

Lemma stored_runbook_reloads_witness :
  exists v, json_loads (ir_body demo_bytes) = Some v /\ reload v = Ok (normal_manifest demo_runbook).
Proof. exact (stored_runbook_reloads demo_runbook demo_bytes demo_constructed demo_bytes_Ok). Defined.

(** Another title, the same digest. *)
Definition retitled : RunbookManifest := runbook_of "Read an issue" [read_issue] PC_READ_ONLY AC_SINGLE false "team".
Lemma retitled_constructed : constructed_runbook retitled.
Proof. constructor; [by vm_compute|repeat constructor|repeat constructor|constructor|by intros ? [= <-]]. Qed.

Lemma runbook_digest_binds_witness :
  exists d, runbook_digest no_hash demo_runbook = Ok d /\ runbook_digest no_hash retitled = Ok d
    /\ (d = d <-> normal_manifest demo_runbook = normal_manifest retitled).
Proof.
  exists demo_bytes. split; [by vm_compute|]. split; [by vm_compute|].
  exact (runbook_digest_binds no_hash demo_runbook retitled demo_bytes demo_bytes (fun x y H => H) demo_constructed
           retitled_constructed ltac:(by vm_compute) ltac:(by vm_compute)).
Defined.

(** ** Admission *)

Definition first_admission (caps tools : list string) : AdmissionContext :=
  mkAdmission ["github.get_issue"] None None caps [] None false None (Some tools).

Example demo_admitted :
  validate_admission no_hash demo_runbook (first_admission ["github.get_issue"] []) = Ok demo_bytes.
Proof. by vm_compute. Qed.

(** A runbook that declares itself READ_ONLY without approval is admitted although its only tool is one
    of the mutating ones: the class it is compared with is its own. *)
Example mutating_runbook_admitted_as_read_only :
  is_ok (validate_admission no_hash (runbook_of "Write" [read_issue] PC_READ_ONLY AC_NONE false "team")
           (first_admission ["github.get_issue"] ["github.get_issue"])) = true.
Proof. by vm_compute. Qed.

(** Two nodes with one key are admitted; only the plan refuses them. *)
Example repeated_keys_are_admitted :
  let m := runbook_of "Twice" [read_issue; read_issue] PC_READ_ONLY AC_NONE false "team" in
  is_ok (validate_admission no_hash m (first_admission ["github.get_issue"] [])) = true
  /\ compile_runbook_to_plan no_hash m ["github.get_issue"] None
     = Err (Raised (PlanValidationError PLAN_DUPLICATE_NODE "a")).
Proof. by vm_compute. Qed.

(** ** The registry *)

Definition demo_registry_calls : list registry_call :=
  [CallAdmit demo_runbook None; CallTransition "RB-GH-ISSUE-001" "1.0.0" RB_ACTIVE].
Definition demo_rows : RunbookRegistry := foldl (fun reg c => registry_step no_hash c reg) ∅ demo_registry_calls.

(** A runbook that was yanked can be made active again. *)
Example yanked_can_be_reactivated :
  let reg := foldl (fun reg c => registry_step no_hash c reg) demo_rows
               [CallTransition "RB-GH-ISSUE-001" "1.0.0" RB_YANKED_STATE; CallTransition "RB-GH-ISSUE-001" "1.0.0" RB_ACTIVE] in
  match read_row no_hash ("RB-GH-ISSUE-001", "1.0.0") reg with Ok rec => rec_state rec = RB_ACTIVE | Err _ => False end.
Proof. by vm_compute. Qed.

(** An admission refused for a secret-shaped word leaves its row, and blocks the identifier. *)
Definition secretive : RunbookManifest :=
  runbook_of "Secret" [mkRunbookNode "a" "github.get_issue" "1" [("password", VStr "x")] [] [] None 30000 0 "NONE"]
    PC_READ_ONLY AC_NONE false "team".
Example refused_admission_is_stored :
  let '(res, reg) := admit_runbook no_hash secretive None ∅ in
  res = Err (RunbookError RB_SECRET_IN_RESULT)
  /\ fst (admit_runbook no_hash demo_runbook None reg) = Err (RunbookError RB_DIGEST_CONFLICT).
Proof. by vm_compute. Qed.

(** The caller's digest is stored as it is given. *)
Example any_digest_is_stored :
  match fst (admit_runbook no_hash demo_runbook (Some "forged") ∅) with Ok rec => rec_digest rec = "forged" | Err _ => False end.
Proof. by vm_compute. Qed.

(** ** Invocations *)

Definition demo_world (reg : RunbookRegistry) : RunbookWorld (gmap string Recorded) := mkWorld reg ∅ empty_store [].
Definition demo_allowed : gmap runbook_key (list string) := <[("RB-GH-ISSUE-001", "1.0.0") := ["alice"]]> ∅.
Definition demo_invocation (ref : option string) : InvocationRequest :=
  mkInvocation "RB-GH-ISSUE-001" "1.0.0" demo_bytes [("number", VInt 7)] "key-1" ref None None None "alice".
Abbreviation demo_invoke := (invoke no_hash no_repr no_hash demo_catalog allow_all 2 "engine-0" true demo_allowed
  (Some (fun _ _ _ => None))).
Abbreviation demo_first := (demo_invoke (demo_invocation (Some "ap-1")) (greedy (answers false)) (demo_world demo_rows)).
Definition demo_after : RunbookWorld (gmap string Recorded) := snd demo_first.
Definition demo_result : InvocationResult :=
  match fst demo_first with Ok r => r | Err _ => mkInvocationResult PlanStatus_ABORTED "" "" None end.

Lemma demo_first_Ok : demo_first = (Ok demo_result, demo_after).
Proof. by vm_compute. Qed.

Example demo_invocation_completes :
  ir_status demo_result = PlanStatus_COMPLETED
  /\ rw_asked demo_after = [(demo_bytes, ir_plan_digest demo_result, "alice")].
Proof. by vm_compute. Qed.

(** The approver the gateway is told of is the caller, whatever the approval that is referred to. *)
Example any_approval_reference_will_do :
  demo_invoke (demo_invocation (Some "")) (greedy (answers false)) (demo_world demo_rows) = demo_first.
Proof. apply ignored_fields. by split_and!. Qed.

Lemma runbook_runs_are_cleared_witness :
  demo_after = demo_world demo_rows
  \/ exists p, cleared no_hash no_repr no_hash demo_catalog true demo_allowed (demo_invocation (Some "ap-1")) demo_rows p.
Proof.
  destruct (runbook_runs_are_cleared no_hash no_repr no_hash demo_catalog allow_all 2 "engine-0" true demo_allowed
              (Some (fun _ _ _ => None)) (demo_invocation (Some "ap-1")) (greedy (answers false)) (demo_world demo_rows)
              demo_after (Ok demo_result) demo_first_Ok) as [E|(p & Hp & _)]; [by left|right; by exists p].
Defined.


(** ** Runbooks that never run *)

Definition bound_node : RunbookNode :=
  mkRunbookNode "a" "github.get_issue" "1" [("repository", VStr "o/r")] []
    [mkRbBinding (Some "args.number") (Some "param:number") (Some "int") None None] None 30000 0 "NONE".
Definition bound_runbook : RunbookManifest := runbook_of "Bound" [bound_node] PC_READ_ONLY AC_NONE false "team".
Lemma bound_constructed : constructed_runbook bound_runbook.
Proof. constructor; [by vm_compute|repeat constructor|repeat constructor|constructor|by intros ? [= <-]]. Qed.

Definition bound_bytes : string := match canonical_ir_bytes bound_runbook with Ok b => b | Err _ => "" end.
Definition bound_rows : RunbookRegistry :=
  foldl (fun reg c => registry_step no_hash c reg) ∅
    [CallAdmit bound_runbook None; CallTransition "RB-GH-ISSUE-001" "1.0.0" RB_ACTIVE].

(** It is admitted, active and authorised. *)
Example bound_admitted :
  is_ok (validate_admission no_hash bound_runbook (first_admission ["github.get_issue"] [])) = true.
Proof. by vm_compute. Qed.

Lemma some_runbooks_never_run_witness :
  exists e, demo_invoke (mkInvocation "RB-GH-ISSUE-001" "1.0.0" bound_bytes [("number", VInt 7)] "key-1" None None None None "alice")
              (greedy (answers false)) (demo_world bound_rows) = (Err e, demo_world bound_rows).
Proof.
  refine (some_runbooks_never_run no_hash no_repr no_hash demo_catalog allow_all 2 "engine-0" true demo_allowed
           (Some (fun _ _ _ => None)) _ _ (demo_world bound_rows)
           (mkRow bound_bytes RB_ACTIVE bound_bytes false "ops" bound_bytes) bound_runbook bound_constructed _ _ _ _).
  - apply binding_stage. by vm_compute.
  - by vm_compute.
  - by vm_compute.
  - right. exists bound_node. split; [by left|done].
Defined.
