(* ===== verification/ProviderContract.v ===== *)
(** * What a provider may do ([v2/provider_contract.py])

    Declarations of capabilities, the credential domain of a provider and its manifest, each with the
    normalization and the checks of its constructor, and the scan for secret-shaped material.  Fields
    have the types their annotations give; the checks of those types are left out. *)
From S2P Require Import Prelude.
From S2P Require Import PyText.
From S2P Require Import PyValue.
From S2P Require Import Canonical.
From S2P Require Import ToolSchema.

Definition PROVIDER_FEATURE_ENABLED : bool := false.
Definition PROVIDER_CONTRACT_VERSION : string := "1".
Definition PROVIDER_MAX_CAPABILITIES : Z := 32.
Definition PROVIDER_MAX_SCOPES : Z := 16.
Definition PROVIDER_MAX_EGRESS_HOSTS : Z := 8.
Definition PROVIDER_MIN_RESULT_BYTES : Z := 1024.
Definition PROVIDER_MAX_RESULT_BYTES : Z := 1048576.
Definition PROVIDER_MAX_DEADLINE_MS : Z := 60000.

(** ** Vocabularies *)

Inductive ProviderReason : Type :=
| P_OK | E_REQ_INVALID | E_PROVIDER_UNKNOWN | E_PROVIDER_DISABLED | E_CAP_UNDECLARED | E_CAP_DUPLICATE
| E_CAP_SCOPE_EXCEEDS_CREDENTIAL | E_CAP_PROBE_INCONCLUSIVE | E_CAP_NOT_READY | E_CAP_WRITE_DISCOVERY_DENIED
| E_SCOPE_DENY | E_POLICY_DENY | E_POLICY_UNAVAILABLE | E_APPROVAL_MISSING | E_APPROVAL_DIGEST_MISMATCH
| E_IDEMPOTENCY_REPLAY | E_IDEMPOTENCY_UNAVAILABLE | E_CRED_CROSS_DOMAIN | E_CRED_UNAVAILABLE | E_CRED_REVOKED
| E_AUDIT_UNAVAILABLE | E_PROVIDER_EGRESS_DENIED | E_PROVIDER_REDIRECT | E_PROVIDER_SHAPE
| E_PROVIDER_RESULT_TOO_LARGE | E_PROVIDER_DEADLINE | E_PROVIDER_FAULT | E_PROVIDER_AUTH | E_PROVIDER_RATE_LIMIT
| E_BUDGET_EXCEEDED | E_MANIFEST_INVALID | E_MANIFEST_CONTRACT_MISMATCH.
#[export] Instance ProviderReason_eq_dec : EqDecision ProviderReason.
Proof. solve_decision. Defined.

Definition provider_reason_value (r : ProviderReason) : string :=
  match r with
  | P_OK => "OK"
  | E_REQ_INVALID => "E-REQ-INVALID"
  | E_PROVIDER_UNKNOWN => "E-PROVIDER-UNKNOWN"
  | E_PROVIDER_DISABLED => "E-PROVIDER-DISABLED"
  | E_CAP_UNDECLARED => "E-CAP-UNDECLARED"
  | E_CAP_DUPLICATE => "E-CAP-DUPLICATE"
  | E_CAP_SCOPE_EXCEEDS_CREDENTIAL => "E-CAP-SCOPE-EXCEEDS-CREDENTIAL"
  | E_CAP_PROBE_INCONCLUSIVE => "E-CAP-PROBE-INCONCLUSIVE"
  | E_CAP_NOT_READY => "E-CAP-NOT-READY"
  | E_CAP_WRITE_DISCOVERY_DENIED => "E-CAP-WRITE-DISCOVERY-DENIED"
  | E_SCOPE_DENY => "E-SCOPE-DENY"
  | E_POLICY_DENY => "E-POLICY-DENY"
  | E_POLICY_UNAVAILABLE => "E-POLICY-UNAVAILABLE"
  | E_APPROVAL_MISSING => "E-APPROVAL-MISSING"
  | E_APPROVAL_DIGEST_MISMATCH => "E-APPROVAL-DIGEST-MISMATCH"
  | E_IDEMPOTENCY_REPLAY => "E-IDEMPOTENCY-REPLAY"
  | E_IDEMPOTENCY_UNAVAILABLE => "E-IDEMPOTENCY-UNAVAILABLE"
  | E_CRED_CROSS_DOMAIN => "E-CRED-CROSS-DOMAIN"
  | E_CRED_UNAVAILABLE => "E-CRED-UNAVAILABLE"
  | E_CRED_REVOKED => "E-CRED-REVOKED"
  | E_AUDIT_UNAVAILABLE => "E-AUDIT-UNAVAILABLE"
  | E_PROVIDER_EGRESS_DENIED => "E-PROVIDER-EGRESS-DENIED"
  | E_PROVIDER_REDIRECT => "E-PROVIDER-REDIRECT"
  | E_PROVIDER_SHAPE => "E-PROVIDER-SHAPE"
  | E_PROVIDER_RESULT_TOO_LARGE => "E-PROVIDER-RESULT-TOO-LARGE"
  | E_PROVIDER_DEADLINE => "E-PROVIDER-DEADLINE"
  | E_PROVIDER_FAULT => "E-PROVIDER-FAULT"
  | E_PROVIDER_AUTH => "E-PROVIDER-AUTH"
  | E_PROVIDER_RATE_LIMIT => "E-PROVIDER-RATE-LIMIT"
  | E_BUDGET_EXCEEDED => "E-BUDGET-EXCEEDED"
  | E_MANIFEST_INVALID => "E-MANIFEST-INVALID"
  | E_MANIFEST_CONTRACT_MISMATCH => "E-MANIFEST-CONTRACT-MISMATCH"
  end.

Inductive CapabilityClass : Type := DIRECT_READ | DIRECT_WRITE.
#[export] Instance CapabilityClass_eq_dec : EqDecision CapabilityClass.
Proof. solve_decision. Defined.
Definition capability_class_value (c : CapabilityClass) : string :=
  match c with DIRECT_READ => "DIRECT_READ" | DIRECT_WRITE => "DIRECT_WRITE" end.
Definition class_is_write (c : CapabilityClass) : bool := bool_decide (c = DIRECT_WRITE).

Inductive ProviderStatus : Type := Lane_ACCEPTED | Lane_CANDIDATE | Lane_BLOCKED_UNCONFIRMED.
#[export] Instance ProviderStatus_eq_dec : EqDecision ProviderStatus.
Proof. solve_decision. Defined.
Definition provider_status_value (s : ProviderStatus) : string :=
  match s with
  | Lane_ACCEPTED => "ACCEPTED"
  | Lane_CANDIDATE => "CANDIDATE"
  | Lane_BLOCKED_UNCONFIRMED => "BLOCKED_UNCONFIRMED"
  end.

(** [ProviderContractError], with its reason and the name of the field. *)
Inductive contract_exn : Type :=
| ProviderContractError (reason : ProviderReason) (field_name : string)
| ContractRaised (e : py_error).
Definition manifest_if (b : bool) (reason : ProviderReason) (field_name : string) : result contract_exn unit :=
  raise_if b (ProviderContractError reason field_name).

(** ** Fields *)

(** [_IDENTIFIER_RE.fullmatch], [_HOST_RE.fullmatch], [_SCOPE_RE.fullmatch] *)
Definition PROVIDER_IDENTIFIER_RE (s : string) : bool :=
  forallb (bracketed is_ident_outer is_ident_inner) (split_on "." s).
Definition is_host_char (c : ascii) : bool := is_ident_outer c || one_of "-" c.
Definition HOST_RE (s : string) : bool :=
  let labels := split_on "." s in
  forallb (bracketed is_ident_outer is_host_char) labels && (2 <=? Z.of_nat (length labels)).
Definition is_scope_char (c : ascii) : bool := is_alnum c || one_of "._:/-" c.
Definition SCOPE_RE (s : string) : bool := first_rest is_alnum is_scope_char 127 s.

Definition provider_identifier (raw field_name : string) : result contract_exn string :=
  let text := lower (py_strip raw) in
  do! manifest_if (String.eqb text "" || negb (PROVIDER_IDENTIFIER_RE text)) E_MANIFEST_INVALID field_name in
  Ok text.

Definition SECRET_SHAPED_NAMES : list string :=
  ["apikey"; "api_key"; "authorization"; "bearer"; "cookie"; "credential"; "passwd"; "password"; "private_key";
   "refresh_token"; "secret"; "token"].

(** The credential names of two adjacent segments. *)
Fixpoint adjacent_secret (segments : list string) : bool :=
  match segments with
  | a :: ((b :: _) as rest) => str_in (a +:+ "_" +:+ b) SECRET_SHAPED_NAMES || adjacent_secret rest
  | _ => false
  end.
Definition is_secret_shaped (name : string) : bool :=
  let lowered := lower (py_strip name) in
  let segments := filter (fun s => s <> "") (split_any (one_of "._-:/") lowered) in
  str_in lowered SECRET_SHAPED_NAMES || existsb (fun s => str_in s SECRET_SHAPED_NAMES) segments
  || adjacent_secret segments.

Definition reject_secret_shaped (v field_name : string) : result contract_exn string :=
  do! manifest_if (is_secret_shaped v) E_MANIFEST_INVALID field_name in Ok v.

Definition provider_host (raw field_name : string) : result contract_exn string :=
  let text := lower (py_strip raw) in
  do! manifest_if (String.eqb text "" || contains "*" text || negb (HOST_RE text)) E_MANIFEST_INVALID field_name in
  Ok text.
Definition provider_scope (raw field_name : string) : result contract_exn string :=
  let text := py_strip raw in
  do! manifest_if (String.eqb text "" || contains "*" text || negb (SCOPE_RE text)) E_MANIFEST_INVALID field_name in
  Ok text.
Definition bounded_int (v : Z) (field_name : string) (minimum maximum : Z) : result contract_exn Z :=
  do! manifest_if (negb ((minimum <=? v) && (v <=? maximum))) E_MANIFEST_INVALID field_name in Ok v.

(** [len(xs) > n], [len(set(xs)) != len(xs)] *)
Definition longer_than {A} (n : Z) (l : list A) : bool := n <? Z.of_nat (length l).
Definition repeats (l : list string) : bool := negb (bool_decide (NoDup l)).

(** ** Declarations *)

Record CapabilityDeclaration := mkDeclaration {
  cd_id : string;
  cd_class : CapabilityClass;
  cd_tool : string;
  cd_credential : string;
  cd_tier : SecurityTier;
  cd_mutation : MutationClass;
  cd_idempotency : IdempotencySemantics;
  cd_scopes : list string;
  cd_hosts : list string;
  cd_max_bytes : Z;
  cd_deadline : Z;
  cd_approval : bool
}.
#[export] Instance CapabilityDeclaration_eq_dec : EqDecision CapabilityDeclaration.
Proof. solve_decision. Defined.

Definition declaration_is_write (c : CapabilityDeclaration) : bool := class_is_write (cd_class c).

(** The class of a capability agrees with its effects. *)
Definition check_class (c : CapabilityDeclaration) : result contract_exn unit :=
  let read_idem := bool_decide (cd_idempotency c = Idem_READ) in
  match cd_class c with
  | DIRECT_READ =>
      do! manifest_if (mutates (cd_mutation c)) E_MANIFEST_INVALID "mutation_class" in
      do! manifest_if (negb read_idem) E_MANIFEST_INVALID "idempotency" in
      manifest_if (negb (is_read_only_tier (cd_tier c))) E_MANIFEST_INVALID "security_tier"
  | DIRECT_WRITE =>
      do! manifest_if (negb (mutates (cd_mutation c))) E_MANIFEST_INVALID "mutation_class" in
      do! manifest_if read_idem E_MANIFEST_INVALID "idempotency" in
      manifest_if (is_read_only_tier (cd_tier c)) E_MANIFEST_INVALID "security_tier"
  end.

(** [CapabilityDeclaration.__post_init__] *)
Definition capability_declaration (c : CapabilityDeclaration) : result contract_exn CapabilityDeclaration :=
  let! cid := provider_identifier (cd_id c) "capability_id" in
  do! reject_secret_shaped cid "capability_id" in
  let! tool := provider_identifier (cd_tool c) "tool_id" in
  let! cred := provider_identifier (cd_credential c) "credential_capability_id" in
  let! scopes := rmap (fun s => provider_scope s "scopes") (cd_scopes c) in
  do! manifest_if (bool_decide (scopes = []) || longer_than PROVIDER_MAX_SCOPES scopes || repeats scopes)
        E_MANIFEST_INVALID "scopes" in
  let! hosts := rmap (fun h => provider_host h "egress_hosts") (cd_hosts c) in
  do! manifest_if (bool_decide (hosts = []) || longer_than PROVIDER_MAX_EGRESS_HOSTS hosts || repeats hosts)
        E_MANIFEST_INVALID "egress_hosts" in
  let! bytes := bounded_int (cd_max_bytes c) "max_result_bytes" PROVIDER_MIN_RESULT_BYTES PROVIDER_MAX_RESULT_BYTES in
  let! deadline := bounded_int (cd_deadline c) "deadline_ms" 1 PROVIDER_MAX_DEADLINE_MS in
  do! check_class c in
  Ok (mkDeclaration cid (cd_class c) tool cred (cd_tier c) (cd_mutation c) (cd_idempotency c) (sort_str scopes)
        (sort_str hosts) bytes deadline (cd_approval c)).

Definition strs (l : list string) : value := VList (map VStr l).

Definition declaration_canonical (c : CapabilityDeclaration) : list (string * value) :=
  [("approval_required", VBool (cd_approval c)); ("capability_class", VStr (capability_class_value (cd_class c)));
   ("capability_id", VStr (cd_id c)); ("credential_capability_id", VStr (cd_credential c));
   ("deadline_ms", VInt (cd_deadline c)); ("egress_hosts", strs (cd_hosts c));
   ("idempotency", VStr (idempotency_value (cd_idempotency c))); ("max_result_bytes", VInt (cd_max_bytes c));
   ("mutation_class", VStr (class_value (cd_mutation c))); ("scopes", strs (cd_scopes c));
   ("security_tier", VStr (tier_value (cd_tier c))); ("tool_id", VStr (cd_tool c))].

(** ** Credential domains *)

Record CredentialDomain := mkDomain {
  dom_provider : string;
  dom_read : option string;
  dom_write : option string;
  dom_granted : list (string * list string)
}.

Definition option_list {A} (o : option A) : list A := match o with Some a => [a] | None => [] end.

Definition domain_capability_ids (d : CredentialDomain) : list string :=
  option_list (dom_read d) ++ option_list (dom_write d).
Definition domain_contains (d : CredentialDomain) (credential : string) : bool :=
  str_in credential (domain_capability_ids d).

Definition optional_field (o : option string) (field_name : string) : result contract_exn (option string) :=
  match o with
  | None => Ok None
  | Some raw => let! s := provider_identifier raw field_name in Ok (Some s)
  end.

(** One entry of [granted_scopes], with its scopes as a sorted set. *)
Definition grant_entry (ids : list string) (granted : list (string * list string)) (entry : string * list string) :
  result contract_exn (list (string * list string)) :=
  let! capability := provider_identifier (fst entry) "granted_scopes" in
  do! manifest_if (negb (str_in capability ids)) E_MANIFEST_INVALID "granted_scopes" in
  let! scopes := rmap (fun s => provider_scope s "granted_scopes") (snd entry) in
  let values := sort_str (dedup scopes) in
  do! manifest_if (bool_decide (values = []) || longer_than PROVIDER_MAX_SCOPES values)
        E_MANIFEST_INVALID "granted_scopes" in
  Ok (dset capability values granted).

(** [set(xs) != set(ys)] *)
Definition same_set (l k : list string) : bool :=
  forallb (fun x => str_in x k) l && forallb (fun x => str_in x l) k.

(** [CredentialDomain.__post_init__] *)
Definition credential_domain (d : CredentialDomain) : result contract_exn CredentialDomain :=
  let! pid := provider_identifier (dom_provider d) "provider_id" in
  let! read := optional_field (dom_read d) "read_capability_id" in
  let! write := optional_field (dom_write d) "write_capability_id" in
  let ids := option_list read ++ option_list write in
  do! manifest_if (bool_decide (ids = [])) E_MANIFEST_INVALID "credential_domain" in
  let! granted := rfold (grant_entry ids) [] (dom_granted d) in
  do! manifest_if (negb (same_set (dkeys granted) ids)) E_MANIFEST_INVALID "granted_scopes" in
  Ok (mkDomain pid read write granted).

(** [granted_scopes.get(credential, ())] *)
Definition granted_to (d : CredentialDomain) (credential : string) : list string :=
  match dget credential (dom_granted d) with Some s => s | None => [] end.

(** ** Manifests *)

Record ProviderManifest := mkProviderManifest {
  pm_id : string;
  pm_version : string;
  pm_contract : string;
  pm_capabilities : list CapabilityDeclaration;
  pm_domain : CredentialDomain;
  pm_status : ProviderStatus
}.

Definition is_version_char (c : ascii) : bool := is_alnum c || one_of ".+-" c.

(** The checks of one capability against the manifest. *)
Definition check_capability (pid : string) (d : CredentialDomain) (c : CapabilityDeclaration) :
  result contract_exn unit :=
  do! manifest_if (negb (String.prefix (pid +:+ ".") (cd_id c))) E_MANIFEST_INVALID "capability_id" in
  do! manifest_if (negb (domain_contains d (cd_credential c))) E_CRED_CROSS_DOMAIN "credential_capability_id" in
  match dget (cd_credential c) (dom_granted d) with
  | None => Err (ContractRaised KeyError)
  | Some granted =>
      do! manifest_if (negb (forallb (fun s => str_in s granted) (cd_scopes c)))
            E_CAP_SCOPE_EXCEEDS_CREDENTIAL (cd_id c) in
      manifest_if (declaration_is_write c && bool_decide (Some (cd_credential c) = dom_read d))
        E_CRED_CROSS_DOMAIN (cd_id c)
  end.

(** [ProviderManifest.__post_init__] *)
Definition provider_manifest (m : ProviderManifest) : result contract_exn ProviderManifest :=
  let! pid := provider_identifier (pm_id m) "provider_id" in
  let version := py_strip (pm_version m) in
  do! manifest_if (String.eqb version "" || (32 <? py_len version) || negb (all_chars is_version_char version))
        E_MANIFEST_INVALID "provider_version" in
  do! manifest_if (negb (String.eqb (pm_contract m) PROVIDER_CONTRACT_VERSION))
        E_MANIFEST_CONTRACT_MISMATCH "contract_version" in
  let capabilities := pm_capabilities m in
  do! manifest_if (bool_decide (capabilities = []) || longer_than PROVIDER_MAX_CAPABILITIES capabilities)
        E_MANIFEST_INVALID "capabilities" in
  do! manifest_if (repeats (map cd_id capabilities)) E_CAP_DUPLICATE "capabilities" in
  do! manifest_if (negb (String.eqb (dom_provider (pm_domain m)) pid)) E_CRED_CROSS_DOMAIN "credential_domain" in
  do! rfor (check_capability pid (pm_domain m)) capabilities in
  Ok (mkProviderManifest pid version (pm_contract m) (sort_by cd_id capabilities) (pm_domain m) (pm_status m)).

(** [ProviderManifest.capability] and the derived views *)
Definition manifest_capability (m : ProviderManifest) (cid : string) : result contract_exn CapabilityDeclaration :=
  match List.find (fun c => String.eqb (cd_id c) cid) (pm_capabilities m) with
  | Some c => Ok c
  | None => Err (ProviderContractError E_CAP_UNDECLARED cid)
  end.
Definition manifest_capability_ids (m : ProviderManifest) : list string := map cd_id (pm_capabilities m).
Definition write_capabilities (m : ProviderManifest) : list CapabilityDeclaration :=
  List.filter declaration_is_write (pm_capabilities m).
Definition manifest_hosts (m : ProviderManifest) : list string :=
  sort_str (dedup (concat (map cd_hosts (pm_capabilities m)))).
Definition declared_capability_ids (ms : list ProviderManifest) : list string :=
  sort_str (concat (map manifest_capability_ids ms)).

Section Digests.
Variable sha256_hex : string -> string.

Definition scope_digest (d : CredentialDomain) (credential : string) : result py_error string :=
  canonical_hash sha256_hex (VDict [("capability", VStr credential); ("scopes", strs (granted_to d credential))]).

(** A dict display over [ids]: a repeated key keeps one entry. *)
Definition scope_digests (d : CredentialDomain) (ids : list string) : result py_error (list (string * value)) :=
  rfold (fun acc c => let! h := scope_digest d c in Ok (dset c (VStr h) acc)) [] ids.

Definition domain_canonical (d : CredentialDomain) : result py_error value :=
  let! digests := scope_digests d (domain_capability_ids d) in
  Ok (VDict [("capability_ids", strs (domain_capability_ids d)); ("provider_id", VStr (dom_provider d));
             ("scope_digests", VDict digests)]).

Definition provider_manifest_canonical (m : ProviderManifest) : result py_error value :=
  let! domain := domain_canonical (pm_domain m) in
  Ok (VDict [("capabilities", VList (map (fun c => VDict (declaration_canonical c)) (pm_capabilities m)));
             ("contract_version", VStr (pm_contract m)); ("credential_domain", domain);
             ("provider_id", VStr (pm_id m)); ("provider_version", VStr (pm_version m));
             ("status", VStr (provider_status_value (pm_status m)))]).
Definition manifest_digest (m : ProviderManifest) : result py_error string :=
  let! v := provider_manifest_canonical m in canonical_hash sha256_hex v.
Definition manifest_canonical_json (m : ProviderManifest) : result py_error string :=
  let! v := provider_manifest_canonical m in canonical_json_text v.
End Digests.

(** ** Secret-shaped material *)

Definition REFERENCE_SUFFIXES : list string :=
  ["_id"; "_ids"; "_ref"; "_refs"; "_digest"; "_count"; "_state"; "_class"].
Definition SECRET_VALUE_PREFIXES : list string :=
  ["bearer "; "basic "; "ghp_"; "gho_"; "github_pat_"; "glpat-"; "xoxb-"; "-----begin"].

(** [lowered[: -len(suffix)]] *)
Definition chop_suffix (suffix s : string) : string := String.substring 0 (String.length s - String.length suffix) s.

(** [_key_is_secret]: both ways out of the loop over suffixes answer no. *)
Definition key_is_secret (name : string) : bool :=
  let lowered := lower (py_strip name) in
  if str_in lowered SECRET_SHAPED_NAMES then true
  else if existsb (fun s => ends_with s lowered && str_in (chop_suffix s lowered) SECRET_SHAPED_NAMES)
            REFERENCE_SUFFIXES
  then false
  else false.
Definition value_is_secret (s : string) : bool :=
  let lowered := lower (py_strip s) in
  str_in lowered SECRET_SHAPED_NAMES || existsb (fun p => String.prefix p lowered) SECRET_VALUE_PREFIXES.

(** The elements of a list, each under its index. *)
Definition audit_items (scan : string -> value -> list string) (path : string) : nat -> list value -> list string :=
  fix go i l := match l with
                | [] => []
                | v :: rest => scan (path +:+ "[" +:+ pretty (Z.of_nat i) +:+ "]") v ++ go (S i) rest
                end.

(** [audit_safe]: the paths of the secret-shaped material of a payload. *)
Fixpoint audit_safe (path : string) (payload : value) : list string :=
  match payload with
  | VDict d =>
      concat (map (fun '(k, v) => (if key_is_secret k then [path +:+ "." +:+ k] else [])
                                  ++ audit_safe (path +:+ "." +:+ k) v) d)
  | VStr s => if value_is_secret s then [path] else []
  | VList l => audit_items audit_safe path 0 l
  | _ => []
  end.
Definition is_safe (payload : value) : bool := bool_decide (audit_safe "$" payload = []).

Example audit_finds :
  audit_safe "$" (VDict [("token", VInt 1); ("token_count", VInt 2); ("l", VList [VStr "x"; VStr " Bearer y"])])
  = ["$.token"; "$.l[1]"].
Proof. by vm_compute. Qed.
