(* ===== verification/ProviderRegistry.v ===== *)
(** * The provider registry and health probes ([v2/provider_registry.py], [v2/provider_health.py])

    Manifests are registered from an allow-list; each capability has a readiness state that probes
    classify.  The dicts of the registry keep the order of insertion: their listings are sorted. *)
From S2P Require Import Prelude.
From S2P Require Import PyText.
From S2P Require Import PyValue.
From S2P Require Import Canonical.
From S2P Require Import MutationContract.
From S2P Require Import ProviderContract.

(** ** Readiness *)

Definition STATE_RANK (s : CapabilityState) : Z :=
  match s with
  | Cap_DENIED => 0
  | Cap_UNAVAILABLE => 1
  | Cap_DEGRADED => 2
  | Cap_CONFIGURED => 3
  | Cap_AVAILABLE => 4
  | Cap_HEALTHY => 5
  | Cap_READY => 6
  end.

Record HealthReport := mkReport { hr_capability : string; hr_state : CapabilityState; hr_reason : ProviderReason }.

Definition report_canonical (r : HealthReport) : value :=
  VDict [("capability_id", VStr (hr_capability r)); ("reason", VStr (provider_reason_value (hr_reason r)));
         ("state", VStr (capability_state_value (hr_state r)))].

(** ** The registry *)

(** [ProviderRegistryError], with what a manifest's own lookup or a digest may raise. *)
Inductive provider_exn : Type :=
| ProviderRegistryError (reason : ProviderReason) (subject : string)
| RegistryContract (e : contract_exn)
| RegistryPython (e : py_error).

Definition of_contract {A} (m : result contract_exn A) : result provider_exn A :=
  match m with Ok a => Ok a | Err e => Err (RegistryContract e) end.
Definition of_python {A} (m : result py_error A) : result provider_exn A :=
  match m with Ok a => Ok a | Err e => Err (RegistryPython e) end.
Definition refuse_if (b : bool) (reason : ProviderReason) (subject : string) : result provider_exn unit :=
  raise_if b (ProviderRegistryError reason subject).

Record ProviderRegistry := mkProviderRegistry {
  pr_allow : list string;
  pr_tools : list string;
  pr_manifests : gmap string ProviderManifest;
  pr_states : gmap string CapabilityState;
  pr_frozen : bool
}.

(** [ProviderRegistry.__init__] *)
Definition new_provider_registry (allow tools : list string) : ProviderRegistry :=
  mkProviderRegistry (sort_str (dedup (map (fun s => lower (py_strip s)) allow)))
    (dedup (map (fun s => lower (py_strip s)) tools)) ∅ ∅ false.

(** The loop over the capabilities of a manifest; the states are set after it. *)
Definition check_new (reg : ProviderRegistry) (c : CapabilityDeclaration) : result provider_exn unit :=
  do! refuse_if (negb (str_in (cd_tool c) (pr_tools reg))) E_CAP_UNDECLARED (cd_id c) in
  refuse_if (bool_decide (is_Some (pr_states reg !! cd_id c))) E_CAP_DUPLICATE (cd_id c).

Definition configure (cs : list CapabilityDeclaration) (states : gmap string CapabilityState) : gmap string CapabilityState :=
  foldl (fun s c => <[cd_id c := Cap_CONFIGURED]> s) states cs.

(** [register] *)
Definition register_provider (m : ProviderManifest) (reg : ProviderRegistry) : result provider_exn ProviderRegistry :=
  do! refuse_if (pr_frozen reg) E_PROVIDER_DISABLED (pm_id m) in
  do! refuse_if (negb (str_in (pm_id m) (pr_allow reg))) E_PROVIDER_UNKNOWN (pm_id m) in
  do! refuse_if (bool_decide (pm_status m = Lane_BLOCKED_UNCONFIRMED)) E_PROVIDER_DISABLED (pm_id m) in
  do! refuse_if (bool_decide (is_Some (pr_manifests reg !! pm_id m))) E_CAP_DUPLICATE (pm_id m) in
  do! rfor (check_new reg) (pm_capabilities m) in
  Ok (mkProviderRegistry (pr_allow reg) (pr_tools reg) (<[pm_id m := m]> (pr_manifests reg))
        (configure (pm_capabilities m) (pr_states reg)) (pr_frozen reg)).

Definition freeze_registry (reg : ProviderRegistry) : ProviderRegistry :=
  mkProviderRegistry (pr_allow reg) (pr_tools reg) (pr_manifests reg) (pr_states reg) true.

(** [build_registry] *)
Definition build_provider_registry (allow tools : list string) (ms : list ProviderManifest) :
  result provider_exn ProviderRegistry :=
  let! reg := rfold (fun reg m => register_provider m reg) (new_provider_registry allow tools) ms in
  Ok (freeze_registry reg).

(** ** Lookup *)

(** [capability_id.split(".", 1)[0]] *)
Definition provider_of (cid : string) : string := fst (split_once "." cid).

Definition lookup_manifest (pid : string) (reg : ProviderRegistry) : result provider_exn ProviderManifest :=
  match pr_manifests reg !! pid with
  | Some m => Ok m
  | None => Err (ProviderRegistryError E_PROVIDER_UNKNOWN pid)
  end.
Definition lookup_capability (cid : string) (reg : ProviderRegistry) : result provider_exn CapabilityDeclaration :=
  let! m := lookup_manifest (provider_of cid) reg in of_contract (manifest_capability m cid).
Definition lookup_state (cid : string) (reg : ProviderRegistry) : result provider_exn CapabilityState :=
  match pr_states reg !! cid with
  | Some s => Ok s
  | None => Err (ProviderRegistryError E_CAP_UNDECLARED cid)
  end.
Definition provider_ids (reg : ProviderRegistry) : list string := sort_str (map fst (map_to_list (pr_manifests reg))).
Definition registry_capability_ids (reg : ProviderRegistry) : list string :=
  sort_str (map fst (map_to_list (pr_states reg))).

(** ** Probe reports *)

Definition set_readiness (cid : string) (s : CapabilityState) (reg : ProviderRegistry) : ProviderRegistry :=
  mkProviderRegistry (pr_allow reg) (pr_tools reg) (pr_manifests reg) (<[cid := s]> (pr_states reg)) (pr_frozen reg).

Definition readiness_op := st ProviderRegistry provider_exn.

(** One turn of [apply_health]: the lower of the two states. *)
Definition apply_report (r : HealthReport) : readiness_op HealthReport := fun reg =>
  match lookup_state (hr_capability r) reg with
  | Err e => (Err e, reg)
  | Ok current =>
      let effective := if STATE_RANK (hr_state r) <=? STATE_RANK current then hr_state r else current in
      (Ok (mkReport (hr_capability r) effective (hr_reason r)), set_readiness (hr_capability r) effective reg)
  end.

(** One turn of [promote_configured]. *)
Definition promote_report (r : HealthReport) : readiness_op HealthReport := fun reg =>
  match lookup_state (hr_capability r) reg with
  | Err e => (Err e, reg)
  | Ok current =>
      if negb (bool_decide (current = Cap_CONFIGURED)) then apply_report r reg
      else match lookup_capability (hr_capability r) reg with
           | Err e => (Err e, reg)
           | Ok c =>
               let state := if declaration_is_write c && negb (bool_decide (hr_state r = Cap_READY))
                            then Cap_UNAVAILABLE else hr_state r in
               (Ok (mkReport (hr_capability r) state (hr_reason r)), set_readiness (hr_capability r) state reg)
           end
  end.

(** The loop over the reports, with the reports as applied. *)
Definition each_report (turn : HealthReport -> readiness_op HealthReport) : list HealthReport -> readiness_op (list HealthReport) :=
  fix go rs := match rs with
               | [] => sret []
               | r :: rest => let* a := turn r in let* applied := go rest in sret (a :: applied)
               end.
Definition apply_health : list HealthReport -> readiness_op (list HealthReport) := each_report apply_report.
Definition promote_configured : list HealthReport -> readiness_op (list HealthReport) := each_report promote_report.

(** [is_usable] *)
Definition usable_state (c : CapabilityDeclaration) (s : CapabilityState) : bool :=
  if declaration_is_write c then bool_decide (s = Cap_READY)
  else bool_decide (s = Cap_READY) || bool_decide (s = Cap_DEGRADED).
Definition is_usable (cid : string) (reg : ProviderRegistry) : result provider_exn bool :=
  let! c := lookup_capability cid reg in
  let! s := lookup_state cid reg in
  Ok (usable_state c s).

(** ** Snapshots *)

Section Snapshots.
Variable sha256_hex : string -> string.

(** [{**declaration.canonical(), "state": ...}] *)
Definition with_readiness (c : CapabilityDeclaration) (s : CapabilityState) : value :=
  VDict (declaration_canonical c ++ [("state", VStr (capability_state_value s))]).

Definition registry_snapshot_payload (reg : ProviderRegistry) : result provider_exn value :=
  let! capabilities := rmap (fun cid => let! c := lookup_capability cid reg in
                                        let! s := lookup_state cid reg in
                                        Ok (with_readiness c s)) (registry_capability_ids reg) in
  let! providers := rmap (fun pid => let! m := lookup_manifest pid reg in
                                     of_python (provider_manifest_canonical sha256_hex m)) (provider_ids reg) in
  Ok (VDict [("capabilities", VList capabilities); ("providers", VList providers)]).
Definition provider_snapshot_hash (reg : ProviderRegistry) : result provider_exn string :=
  let! v := registry_snapshot_payload reg in of_python (canonical_hash sha256_hex v).

(** [write_capability_digest] *)
Definition write_capability_digest (reg : ProviderRegistry) : result provider_exn string :=
  let! ms := rmap (fun pid => lookup_manifest pid reg) (provider_ids reg) in
  let! payload := rmap (fun c => let! s := lookup_state (cd_id c) reg in Ok (with_readiness c s))
                    (concat (map write_capabilities ms)) in
  of_python (canonical_hash sha256_hex (VDict [("write_capabilities", VList payload)])).
End Snapshots.

(** ** Probes ([v2/provider_health.py]); the request itself is made elsewhere *)

Record ProbeRequest := mkProbe { pq_capability : string; pq_host : string; pq_path : string; pq_headers : list (string * string) }.
Record ProbeOutcome := mkOutcome { po_status : Z; po_bytes : Z; po_reason : ProviderReason }.

Definition classify_probe (o : ProbeOutcome) (c : CapabilityDeclaration) : HealthReport :=
  if negb (bool_decide (po_reason o = P_OK)) then
    mkReport (cd_id c)
      (if bool_decide (po_reason o = E_PROVIDER_AUTH) || bool_decide (po_reason o = E_CRED_REVOKED)
       then Cap_DENIED else Cap_UNAVAILABLE) (po_reason o)
  else if po_status o =? 200 then mkReport (cd_id c) Cap_READY P_OK
  else if (po_status o =? 401) || (po_status o =? 403) then mkReport (cd_id c) Cap_DENIED E_PROVIDER_AUTH
  else if po_status o =? 429 then mkReport (cd_id c) Cap_DEGRADED E_PROVIDER_RATE_LIMIT
  else mkReport (cd_id c) (if declaration_is_write c then Cap_UNAVAILABLE else Cap_DEGRADED) E_CAP_PROBE_INCONCLUSIVE.

(** [egress_hosts[0]] of a declaration without hosts; a constructed one has some. *)
Inductive probe_exn : Type := ProbeIndexError.

Section Probing.
(** The request, and the headers for a credential capability. *)
Variable execute : ProbeRequest -> ProbeOutcome.
Variable headers_for : string -> list (string * string).

(** [probe_manifest] *)
Definition probe_capability (paths : gmap string string) (c : CapabilityDeclaration) : result probe_exn HealthReport :=
  match paths !! cd_id c with
  | None => Ok (mkReport (cd_id c) Cap_UNAVAILABLE E_CAP_PROBE_INCONCLUSIVE)
  | Some path =>
      match cd_hosts c with
      | [] => Err ProbeIndexError
      | host :: _ => Ok (classify_probe (execute (mkProbe (cd_id c) host path (headers_for (cd_credential c)))) c)
      end
  end.
Definition probe_manifest (paths : gmap string string) (m : ProviderManifest) : result probe_exn (list HealthReport) :=
  rmap (probe_capability paths) (pm_capabilities m).
End Probing.
