(* ===== verification/ProviderCredentials.v ===== *)
(** * Credential domains and authorization handles ([v2/provider_credentials.py])

    The material is a function of the headers, supplied from outside ([apply] of a record): it answers
    the headers with the authorization, or raises.  Handles are values: their one mutable field is
    threaded.  Representations and the refusals to copy or pickle are left out. *)
From S2P Require Import Prelude.
From S2P Require Import PyText.
From S2P Require Import PyValue.
From S2P Require Import Canonical.
From S2P Require Import ProviderContract.

Definition DEFAULT_HANDLE_TTL_MS : Z := 30000.

(** [CredentialError]; what the material, or a digest, raises. *)
Inductive credential_exn : Type :=
| CredentialError (reason : ProviderReason) (subject : string)
| MaterialRaised
| CredentialPython (e : py_error).

Abbreviation headers := (list (string * string)).

(** ** Handles *)

Record AuthorizationHandle := mkHandle {
  ah_provider : string;
  ah_capability : string;
  ah_apply : headers -> option headers;
  ah_deadline : Z;
  ah_spent : bool
}.

Definition spend (h : AuthorizationHandle) : AuthorizationHandle :=
  mkHandle (ah_provider h) (ah_capability h) (ah_apply h) (ah_deadline h) true.
Definition handle_expired (now_ms : Z) (h : AuthorizationHandle) : bool := ah_deadline h <? now_ms.

(** [AuthorizationHandle.apply] *)
Definition apply_handle (now_ms : Z) (hs : headers) : st AuthorizationHandle credential_exn headers := fun h =>
  if ah_spent h then (Err (CredentialError E_CRED_UNAVAILABLE (ah_capability h)), h)
  else if handle_expired now_ms h then (Err (CredentialError E_CRED_UNAVAILABLE (ah_capability h)), spend h)
  else (match ah_apply h hs with Some hs' => Ok hs' | None => Err MaterialRaised end, spend h).

(** ** The broker *)

Record CredentialRecord := mkCredential {
  cr_provider : string;
  cr_capability : string;
  cr_ready : bool;
  cr_apply : headers -> option headers;
  cr_broad : bool
}.

Abbreviation credential_key := (string * string)%type.

Record ProviderCredentialBroker := mkBroker {
  br_domains : gmap string CredentialDomain;
  br_records : gmap credential_key CredentialRecord;
  br_revoked : gset credential_key
}.

Definition new_broker (domains : gmap string CredentialDomain) : ProviderCredentialBroker := mkBroker domains ∅ ∅.
Definition set_records (f : gmap credential_key CredentialRecord -> gmap credential_key CredentialRecord)
  (b : ProviderCredentialBroker) : ProviderCredentialBroker := mkBroker (br_domains b) (f (br_records b)) (br_revoked b).
Definition set_revoked (f : gset credential_key -> gset credential_key) (b : ProviderCredentialBroker) :
  ProviderCredentialBroker := mkBroker (br_domains b) (br_records b) (f (br_revoked b)).

(** The domain of a provider, if it has the credential capability. *)
Definition domain_with (pid credential : string) (b : ProviderCredentialBroker) : result credential_exn CredentialDomain :=
  match br_domains b !! pid with
  | Some d => if domain_contains d credential then Ok d else Err (CredentialError E_CRED_CROSS_DOMAIN credential)
  | None => Err (CredentialError E_CRED_CROSS_DOMAIN credential)
  end.

(** [register] *)
Definition register_credential (r : CredentialRecord) : st ProviderCredentialBroker credential_exn unit := fun b =>
  match domain_with (cr_provider r) (cr_capability r) b with
  | Err e => (Err e, b)
  | Ok _ =>
      if cr_broad r then (Err (CredentialError E_CRED_CROSS_DOMAIN (cr_capability r)), b)
      else (Ok tt, set_records <[(cr_provider r, cr_capability r) := r]> b)
  end.

(** [status], [status_map] *)
Definition credential_status (pid credential : string) (b : ProviderCredentialBroker) : bool :=
  if bool_decide ((pid, credential) ∈ br_revoked b) then false
  else match br_records b !! (pid, credential) with Some r => cr_ready r | None => false end.
Definition status_map (pid : string) (b : ProviderCredentialBroker) : result credential_exn (list (string * bool)) :=
  match br_domains b !! pid with
  | None => Err (CredentialError E_CRED_CROSS_DOMAIN pid)
  | Some d => Ok (foldl (fun m c => dset c (credential_status pid c b) m) [] (domain_capability_ids d))
  end.

(** [scope_digest] *)
Definition broker_scope_digest (sha256_hex : string -> string) (pid credential : string) (b : ProviderCredentialBroker) :
  result credential_exn string :=
  let! d := domain_with pid credential b in
  match scope_digest sha256_hex d credential with Ok h => Ok h | Err e => Err (CredentialPython e) end.

(** [resolve] *)
Definition resolve_credential (pid credential : string) (requested : list string) (ttl_ms now_ms : Z)
  (b : ProviderCredentialBroker) : result credential_exn AuthorizationHandle :=
  let! d := domain_with pid credential b in
  do! raise_if (negb (forallb (fun s => str_in s (granted_to d credential)) requested))
        (CredentialError E_CRED_CROSS_DOMAIN credential) in
  do! raise_if (bool_decide ((pid, credential) ∈ br_revoked b)) (CredentialError E_CRED_REVOKED credential) in
  match br_records b !! (pid, credential) with
  | None => Err (CredentialError E_CRED_UNAVAILABLE credential)
  | Some r =>
      do! raise_if (negb (cr_ready r)) (CredentialError E_CRED_UNAVAILABLE credential) in
      Ok (mkHandle pid credential (cr_apply r) (now_ms + Z.max 1 ttl_ms) false)
  end.

(** [rotate]: the revocation is lifted before the record is checked. *)
Definition rotate_credential (r : CredentialRecord) : st ProviderCredentialBroker credential_exn unit :=
  do* smodify (set_revoked (fun s => s ∖ {[(cr_provider r, cr_capability r)]})) in
  register_credential r.

(** [revoke] *)
Definition revoke_credential (pid credential : string) : ProviderCredentialBroker -> ProviderCredentialBroker :=
  set_revoked (fun s => {[(pid, credential)]} ∪ s).
