(* ===== verification/ProviderAudit.v ===== *)
(** * The integration audit ledger ([v2/provider_audit.py])

    Records are chained by digests: each carries the digest of the one before it.  The sink is an
    interface; the in-memory one implements it. *)
From S2P Require Import Prelude.
From S2P Require Import PyText.
From S2P Require Import PyValue.
From S2P Require Import Canonical.
From S2P Require Import DagDigest.
From S2P Require Import ProviderContract.

(** ["0" * 64] *)
Definition CHAIN_GENESIS : string :=
  "0000000000000000000000000000000000000000000000000000000000000000".

Inductive AuditKind : Type := Kind_INTENT | Kind_TERMINAL.
#[export] Instance AuditKind_eq_dec : EqDecision AuditKind.
Proof. solve_decision. Defined.
Definition audit_kind_value (k : AuditKind) : string :=
  match k with Kind_INTENT => "INTENT" | Kind_TERMINAL => "TERMINAL" end.

Inductive OutcomeClass : Type := O_SUCCESS | O_PARTIAL | O_REFUSED | O_ERROR | O_UNKNOWN.
#[export] Instance OutcomeClass_eq_dec : EqDecision OutcomeClass.
Proof. solve_decision. Defined.
Definition outcome_class_value (o : OutcomeClass) : string :=
  match o with
  | O_SUCCESS => "success"
  | O_PARTIAL => "partial"
  | O_REFUSED => "refused"
  | O_ERROR => "error"
  | O_UNKNOWN => "unknown"
  end.
Definition requires_manual_resolution (o : OutcomeClass) : bool := bool_decide (o = O_UNKNOWN).

(** [AuditError], or what a digest raises. *)
Inductive ledger_exn : Type :=
| AuditError (reason : ProviderReason) (subject : string)
| LedgerPython (e : py_error).

Abbreviation payload := (list (string * value)).

(** ** Sinks *)

(** An append-only sink: what it retains, and the append, which refuses or keeps the record. *)
Class ProviderSink (S : Type) := {
  sink_retained : S -> list payload;
  sink_append : string -> payload -> S -> result ledger_exn S
}.
Class ProviderSinkLaws (S : Type) `{ProviderSink S} := {
  append_retains rid p s s' : sink_append rid p s = Ok s' -> sink_retained s' = sink_retained s ++ [p]
}.

(** [MemoryAuditSink], with its records in the order of [_order] *)
Record MemoryAuditSink := mkMemory { ms_records : list (string * payload); ms_available : bool }.
Definition new_memory_sink : MemoryAuditSink := mkMemory [] true.
Definition set_sink_available (b : bool) (s : MemoryAuditSink) : MemoryAuditSink := mkMemory (ms_records s) b.
Definition memory_exists (rid : string) (s : MemoryAuditSink) : bool := dhas rid (ms_records s).
Definition memory_records (s : MemoryAuditSink) : list payload := map snd (ms_records s).
Definition memory_append (rid : string) (p : payload) (s : MemoryAuditSink) : result ledger_exn MemoryAuditSink :=
  do! raise_if (negb (ms_available s)) (AuditError E_AUDIT_UNAVAILABLE rid) in
  do! raise_if (memory_exists rid s) (AuditError E_AUDIT_UNAVAILABLE rid) in
  Ok (mkMemory (ms_records s ++ [(rid, p)]) (ms_available s)).

#[export] Instance memory_provider_sink : ProviderSink MemoryAuditSink := {
  sink_retained := memory_records;
  sink_append := memory_append
}.
#[export] Instance memory_provider_sink_laws : ProviderSinkLaws MemoryAuditSink.
Proof.
  split. cbn. unfold memory_append. intros rid p s s' H.
  apply rbind_Ok in H as (_ & _ & H). apply rbind_Ok in H as (_ & _ & [= <-]).
  unfold memory_records. cbn [ms_records]. by rewrite map_app.
Qed.

(** ** Records *)

Record IntegrationAuditRecord := mkAudit {
  ar_id : string;
  ar_kind : AuditKind;
  ar_request : string;
  ar_principal : string;
  ar_provider : string;
  ar_capability : string;
  ar_tool : string;
  ar_mode : string;
  ar_target : string;
  ar_mutation : string;
  ar_tier : string;
  ar_policy : string;
  ar_reason : ProviderReason;
  ar_readiness : string;
  ar_credential : string;
  ar_scopes : string;
  ar_outcome : OutcomeClass;
  ar_calls : Z;
  ar_bytes : Z;
  ar_duration : Z;
  ar_key_digest : string;
  ar_operation : string;
  ar_approval : string;
  ar_prev : string;
  ar_extra : payload
}.

(** [dataclasses] copy with another [prev_digest] *)
Definition link_to (prev : string) (r : IntegrationAuditRecord) : IntegrationAuditRecord :=
  mkAudit (ar_id r) (ar_kind r) (ar_request r) (ar_principal r) (ar_provider r) (ar_capability r) (ar_tool r)
    (ar_mode r) (ar_target r) (ar_mutation r) (ar_tier r) (ar_policy r) (ar_reason r) (ar_readiness r)
    (ar_credential r) (ar_scopes r) (ar_outcome r) (ar_calls r) (ar_bytes r) (ar_duration r) (ar_key_digest r)
    (ar_operation r) (ar_approval r) prev (ar_extra r).

(** [IntegrationAuditRecord.canonical] *)
Definition audit_canonical (r : IntegrationAuditRecord) : payload :=
  [("approval_ref", VStr (ar_approval r)); ("byte_count", VInt (ar_bytes r)); ("capability_id", VStr (ar_capability r));
   ("credential_capability_id", VStr (ar_credential r)); ("duration_ms", VInt (ar_duration r));
   ("idempotency_key_digest", VStr (ar_key_digest r)); ("kind", VStr (audit_kind_value (ar_kind r)));
   ("mode", VStr (ar_mode r)); ("mutation_class", VStr (ar_mutation r)); ("operation_digest", VStr (ar_operation r));
   ("outcome", VStr (outcome_class_value (ar_outcome r))); ("policy_decision", VStr (ar_policy r));
   ("prev_digest", VStr (ar_prev r)); ("principal_ref", VStr (ar_principal r)); ("provider_call_count", VInt (ar_calls r));
   ("provider_id", VStr (ar_provider r)); ("readiness_state", VStr (ar_readiness r));
   ("reason_code", VStr (provider_reason_value (ar_reason r))); ("record_id", VStr (ar_id r));
   ("request_id", VStr (ar_request r)); ("scope_set_digest", VStr (ar_scopes r)); ("security_tier", VStr (ar_tier r));
   ("target_scope_ref", VStr (ar_target r)); ("tool_id", VStr (ar_tool r))]
  ++ match ar_extra r with [] => [] | extra => [("extra", VDict extra)] end.

Definition audit_canonical_json (r : IntegrationAuditRecord) : result py_error string :=
  canonical_json_text (VDict (audit_canonical r)).

(** ** The ledger *)

Section Ledger.
Variable sha256_hex : string -> string.
Context {S : Type} `{ProviderSink S}.

Record IntegrationAuditLedger := mkLedger {
  il_sink : S;
  il_head : string;
  il_terminals : gset string;
  il_intents : gset string;
  il_digests : list string
}.

Definition new_ledger (sink : S) : IntegrationAuditLedger := mkLedger sink CHAIN_GENESIS ∅ ∅ [].

Definition audit_digest (r : IntegrationAuditRecord) : result py_error string :=
  canonical_hash sha256_hex (VDict (audit_canonical r)).

Definition set_sink (s : S) (l : IntegrationAuditLedger) : IntegrationAuditLedger :=
  mkLedger s (il_head l) (il_terminals l) (il_intents l) (il_digests l).

(** The new head, and the request as seen. *)
Definition advance_head (h : string) (k : AuditKind) (request_id : string) (l : IntegrationAuditLedger) :
  IntegrationAuditLedger :=
  match k with
  | Kind_TERMINAL => mkLedger (il_sink l) h ({[request_id]} ∪ il_terminals l) (il_intents l) (il_digests l ++ [h])
  | Kind_INTENT => mkLedger (il_sink l) h (il_terminals l) ({[request_id]} ∪ il_intents l) (il_digests l ++ [h])
  end.

Definition has_intent (request_id : string) (l : IntegrationAuditLedger) : bool :=
  bool_decide (request_id ∈ il_intents l).
Definition has_terminal (request_id : string) (l : IntegrationAuditLedger) : bool :=
  bool_decide (request_id ∈ il_terminals l).

(** [IntegrationAuditLedger.append] *)
Definition ledger_append (r : IntegrationAuditRecord) : st IntegrationAuditLedger ledger_exn IntegrationAuditRecord :=
  let* l := sget in
  do* slift (raise_if (bool_decide (ar_kind r = Kind_TERMINAL) && has_terminal (ar_request r) l)
               (AuditError E_AUDIT_UNAVAILABLE (ar_request r))) in
  do* slift (raise_if (bool_decide (ar_kind r = Kind_INTENT) && has_intent (ar_request r) l)
               (AuditError E_AUDIT_UNAVAILABLE (ar_request r))) in
  let linked := link_to (il_head l) r in
  do* slift (raise_if (negb (is_safe (VDict (audit_canonical linked)))) (AuditError E_AUDIT_UNAVAILABLE "redaction")) in
  let* sink := slift (sink_append (ar_id linked) (audit_canonical linked) (il_sink l)) in
  do* smodify (set_sink sink) in
  let* head := slift (match audit_digest linked with Ok h => Ok h | Err e => Err (LedgerPython e) end) in
  do* smodify (advance_head head (ar_kind linked) (ar_request linked)) in
  sret linked.

(** [payload.get("prev_digest") != previous] *)
Definition follows (previous : string) (p : payload) : bool :=
  match dget "prev_digest" p with Some (VStr s) => String.eqb s previous | _ => false end.

(** The walk of [verify_chain] from a digest on: the last digest, if every record follows. *)
Fixpoint walk_chain (previous : string) (records : list payload) : result py_error (option string) :=
  match records with
  | [] => Ok (Some previous)
  | p :: rest =>
      if follows previous p then let! h := canonical_hash sha256_hex (VDict p) in walk_chain h rest else Ok None
  end.
Definition verify_chain (records : list payload) (l : IntegrationAuditLedger) : result py_error bool :=
  let! last := walk_chain CHAIN_GENESIS records in
  Ok match last with Some h => String.eqb h (il_head l) | None => false end.
End Ledger.

(** * The chain of the integration ledger

    What an append does; the invariant of a ledger; and the evidence the chain gives: a corpus that
    verifies is the retained one. *)

(** ** One append *)

Definition entry_of {S} (l : IntegrationAuditLedger (S := S)) (r : IntegrationAuditRecord) : payload :=
  audit_canonical (link_to (il_head l) r).

Lemma audit_valid r : ar_extra r = [] -> valid (VDict (audit_canonical r)).
Proof. destruct r. simpl. intros ->. reflexivity. Qed.

Section Chain.
Variable sha256_hex : string -> string.
Context {S : Type} `{ProviderSinkLaws S}.
Implicit Types l : IntegrationAuditLedger (S := S).

Definition record_digest (p : payload) : string := sha256_hex (json_dumps (VDict p)).
Definition retained l : list payload := sink_retained (il_sink l).

(** An append that was made: the sink took the linked record, and the head is its digest. *)
Definition appended l (r : IntegrationAuditRecord) l' : Prop :=
  (ar_kind r = Kind_TERMINAL -> ar_request r ∉ il_terminals l)
  /\ (ar_kind r = Kind_INTENT -> ar_request r ∉ il_intents l)
  /\ is_safe (VDict (entry_of l r)) = true
  /\ exists s, sink_append (ar_id r) (entry_of l r) (il_sink l) = Ok s
     /\ l' = advance_head (record_digest (entry_of l r)) (ar_kind r) (ar_request r) (set_sink s l).

Lemma append_cases r l res l' :
  ar_extra r = [] -> ledger_append sha256_hex r l = (res, l') ->
  (exists e, res = Err e /\ l' = l) \/ (res = Ok (link_to (il_head l) r) /\ appended l r l').
Proof.
  intros Hx. unfold ledger_append, sget. rewrite sbind_unfold. cbn [slift]. rewrite sbind_lift.
  destruct (raise_if _ _) as [[]|e] eqn:E1; [|intros [= <- <-]; left; eauto]. rewrite sbind_lift.
  destruct (raise_if (bool_decide (ar_kind r = Kind_INTENT) && _) _) as [[]|e] eqn:E2; [|intros [= <- <-]; left; eauto].
  rewrite sbind_lift. destruct (raise_if (negb _) _) as [[]|e] eqn:E3; [|intros [= <- <-]; left; eauto].
  rewrite sbind_lift. destruct (sink_append _ _ _) as [s|e] eqn:E4; [|intros [= <- <-]; left; eauto].
  unfold smodify. rewrite sbind_unfold. unfold audit_digest.
  rewrite (hash_valid sha256_hex _ (audit_valid (link_to (il_head l) r) Hx)), sbind_lift.
  unfold sbind, sret. intros [<- <-]%pair_equal_spec.
  right. split; [done|]. apply raise_if_Ok in E1, E2, E3. unfold has_terminal, has_intent in *.
  split_and!; [| |by apply negb_false_iff|exists s; done].
  - intros Hk. rewrite (bool_decide_eq_true_2 _ Hk) in E1. by apply bool_decide_eq_false in E1.
  - intros Hk. rewrite (bool_decide_eq_true_2 _ Hk) in E2. by apply bool_decide_eq_false in E2.
Qed.

Lemma appended_retained l r l' : appended l r l' -> retained l' = retained l ++ [entry_of l r].
Proof.
  intros (_ & _ & _ & s & Hs & ->). apply append_retains in Hs. unfold retained.
  by destruct (ar_kind r).
Qed.
Lemma appended_head l r l' : appended l r l' -> il_head l' = record_digest (entry_of l r).
Proof. intros (_ & _ & _ & s & Hs & ->). by destruct (ar_kind r). Qed.

(** ** Walking a chain *)

Lemma walk_app h ps qs :
  walk_chain sha256_hex h (ps ++ qs)
  = let! last := walk_chain sha256_hex h ps in
    match last with Some h' => walk_chain sha256_hex h' qs | None => Ok None end.
Proof.
  revert h. induction ps as [|p ps IH]; intros h; [done|]. cbn [app walk_chain].
  destruct (follows h p); [|done]. destruct (canonical_hash _ _); [apply IH|done].
Qed.

Lemma walk_snoc h ps p h' :
  walk_chain sha256_hex h (ps ++ [p]) = Ok (Some h') <->
  exists prev, walk_chain sha256_hex h ps = Ok (Some prev) /\ follows prev p = true /\ valid (VDict p) /\ h' = record_digest p.
Proof.
  rewrite walk_app, rbind_Ok. split.
  - intros ([prev|] & -> & Hp); [|done]. exists prev. cbn [walk_chain] in Hp.
    destruct (follows prev p); [|done]. apply rbind_Ok in Hp as (t & [Hv ->]%hash_Ok & [= <-]). done.
  - intros (prev & -> & Hf & Hv & ->). exists (Some prev). split; [done|]. cbn [walk_chain].
    by rewrite Hf, (hash_valid _ _ Hv).
Qed.

Lemma follows_prev h p : follows h p = true <-> dget "prev_digest" p = Some (VStr h).
Proof.
  unfold follows. destruct (dget _ p) as [[]|]; try (split; [done|congruence]).
  rewrite String.eqb_eq. split; congruence.
Qed.

(** A text whose digest is the genesis link. *)
Definition genesis_preimage : Prop := exists t, sha256_hex t = CHAIN_GENESIS.

(** Two corpora that walk to one digest are the same, record by record. *)
Lemma walk_evident ps qs h :
  Forall (fun p : payload => NoDup (dkeys p)) ps -> Forall (fun p : payload => NoDup (dkeys p)) qs ->
  walk_chain sha256_hex CHAIN_GENESIS ps = Ok (Some h) -> walk_chain sha256_hex CHAIN_GENESIS qs = Ok (Some h) ->
  map (fun p => normal (VDict p)) ps = map (fun p => normal (VDict p)) qs \/ collision sha256_hex \/ genesis_preimage.
Proof.
  revert qs h. induction ps as [|p ps IH] using rev_ind; intros qs h Np Nq Hp Hq;
    destruct qs as [|q qs _] using rev_ind.
  - by left.
  - injection Hp as <-. apply walk_snoc in Hq as (_ & _ & _ & _ & Hh). right. right. by eexists.
  - injection Hq as <-. apply walk_snoc in Hp as (_ & _ & _ & _ & Hh). right. right. by eexists.
  - apply walk_snoc in Hp as (a & Ha & Fa & Va & ->). apply walk_snoc in Hq as (b & Hb & Fb & Vb & Hh).
    apply digest_cases in Hh as [Hh|]; [|by right; left]. apply dumps_eq_iff in Hh; [|done..].
    apply Forall_app in Np as [Np [Npp _]%Forall_cons], Nq as [Nq [Nqq _]%Forall_cons].
    pose proof (normal_dict_get p q "prev_digest" Npp Nqq Hh) as Hprev.
    apply follows_prev in Fa, Fb. rewrite Fa, Fb in Hprev. injection Hprev as ->.
    destruct (IH qs b Np Nq Ha Hb) as [E|]; [|by right]. left. by rewrite !map_app, E; cbn [map]; rewrite Hh.
Qed.

(** ** The invariant of a ledger *)

(** The requests of the records of a kind, in order. *)
Definition requests_of (k : AuditKind) (ps : list payload) : list value :=
  omap (fun p => if bool_decide (dget "kind" p = Some (VStr (audit_kind_value k))) then dget "request_id" p else None) ps.

Definition seen (k : AuditKind) l : gset string :=
  match k with Kind_TERMINAL => il_terminals l | Kind_INTENT => il_intents l end.

Record ledger_inv l : Prop := {
  inv_chain : walk_chain sha256_hex CHAIN_GENESIS (retained l) = Ok (Some (il_head l));
  inv_dicts : Forall (fun p : payload => NoDup (dkeys p)) (retained l);
  inv_once k : NoDup (requests_of k (retained l));
  inv_seen k i : VStr i ∈ requests_of k (retained l) <-> i ∈ seen k l
}.

Lemma empty_ledger_inv s : sink_retained s = [] -> ledger_inv (new_ledger s).
Proof.
  intros Hs. unfold new_ledger. split; unfold retained; cbn [il_sink il_head]; rewrite ?Hs; try done.
  - intros k. constructor.
  - intros k i. rewrite elem_of_nil. by destruct k; cbn; rewrite elem_of_empty.
Qed.

Lemma entry_kind l r : dget "kind" (entry_of l r) = Some (VStr (audit_kind_value (ar_kind r))).
Proof. done. Qed.
Lemma entry_request l r : dget "request_id" (entry_of l r) = Some (VStr (ar_request r)).
Proof. done. Qed.
Lemma entry_keys l r : ar_extra r = [] -> NoDup (dkeys (entry_of l r)).
Proof. destruct r. cbn. intros ->. apply (bool_decide_unpack _). vm_compute. exact I. Qed.

Lemma audit_kind_value_inj j k : audit_kind_value j = audit_kind_value k -> j = k.
Proof. by destruct j, k. Qed.

Lemma requests_snoc k ps l r :
  requests_of k (ps ++ [entry_of l r]) = requests_of k ps ++ (if bool_decide (ar_kind r = k) then [VStr (ar_request r)] else []).
Proof.
  unfold requests_of. rewrite omap_app. f_equal. cbn [omap list_omap]. rewrite entry_kind.
  destruct (decide (ar_kind r = k)) as [->|Hne].
  - by rewrite !bool_decide_eq_true_2, entry_request by done.
  - rewrite !bool_decide_eq_false_2; [done|done|]. intros [= E]. by apply audit_kind_value_inj in E.
Qed.

Lemma seen_advance k j h i s l :
  seen k (advance_head h j i (set_sink s l)) = if bool_decide (j = k) then {[i]} ∪ seen k l else seen k l.
Proof. by destruct j, k. Qed.

Lemma appended_inv l r l' : ar_extra r = [] -> appended l r l' -> ledger_inv l -> ledger_inv l'.
Proof.
  intros Hx Ha [Hc Hd Ho Hs]. pose proof (appended_retained _ _ _ Ha) as Hr. pose proof (appended_head _ _ _ Ha) as Hh.
  assert (Hfresh : ar_request r ∉ seen (ar_kind r) l).
  { destruct Ha as (Ht & Hi & _). destruct (ar_kind r); cbn; auto. }
  assert (Hseen : forall k, seen k l' = if bool_decide (ar_kind r = k) then {[ar_request r]} ∪ seen k l else seen k l).
  { intros k. destruct Ha as (_ & _ & _ & s & _ & ->). apply seen_advance. }
  split; rewrite ?Hr, ?Hh.
  - apply walk_snoc. exists (il_head l). split_and!; [done|by apply follows_prev|by apply audit_valid|done].
  - apply Forall_app. split; [done|]. apply Forall_singleton. by apply entry_keys.
  - intros k. rewrite requests_snoc. case_bool_decide as E; [|by rewrite app_nil_r]. subst k.
    apply NoDup_app. split; [done|]. split; [|apply NoDup_singleton].
    intros x Hx' ->%list_elem_of_singleton. by apply Hs in Hx'.
  - intros k i. rewrite Hseen, requests_snoc, elem_of_app, (Hs k i). case_bool_decide.
    + rewrite elem_of_union, elem_of_singleton, list_elem_of_singleton. naive_solver.
    + rewrite elem_of_nil. tauto.
Qed.

Lemma append_inv r l res l' :
  ar_extra r = [] -> ledger_append sha256_hex r l = (res, l') -> ledger_inv l -> ledger_inv l'.
Proof.
  intros Hx Ha Hl. destruct (append_cases _ _ _ _ Hx Ha) as [(e & _ & ->)|[_ Happ]]; [done|by eapply appended_inv].
Qed.

(** The retained records verify, and whatever else verifies against the head is the same corpus. *)
Lemma inv_verifies l : ledger_inv l -> verify_chain sha256_hex (retained l) l = Ok true.
Proof. intros [Hc _ _ _]. unfold verify_chain. rewrite Hc. cbn [rbind]. by rewrite String.eqb_refl. Qed.

Lemma inv_evident l ps :
  ledger_inv l -> Forall (fun p : payload => NoDup (dkeys p)) ps -> verify_chain sha256_hex ps l = Ok true ->
  map (fun p => normal (VDict p)) ps = map (fun p => normal (VDict p)) (retained l)
  \/ collision sha256_hex \/ genesis_preimage.
Proof.
  intros [Hc Hd _ _] Hp Hv. unfold verify_chain in Hv. apply rbind_Ok in Hv as ([h|] & Hw & [= Hv]).
  apply String.eqb_eq in Hv as ->. by apply (walk_evident _ _ (il_head l)).
Qed.
End Chain.
