(* ===== verification/ProviderGateway.v ===== *)
(** * The provider gateway ([v2/provider_gateway.py])

    The whole of [invoke] over the gateway's state: registry, policy, scopes, broker, ledger, approvals,
    replay store and counters.  The adapter is code of the provider: what it answers, and what the clock
    says, are inputs of an invocation; every call of it is logged with what it was given. *)
From S2P Require Import Prelude.
From S2P Require Import PyText.
From S2P Require Import PyValue.
From S2P Require Import Canonical.
From S2P Require Import ToolSchema.
From S2P Require Import MutationContract.
From S2P Require Import ProviderContract.
From S2P Require Import ProviderRegistry.
From S2P Require Import ProviderCredentials.
From S2P Require Import ProviderAudit.

(** ** Requests and outcomes *)

Record ProviderRequest := mkProviderRequest {
  pq_id : string;
  pq_principal : string;
  pq_provider : string;
  pq_capability_id : string;
  pq_target : string;
  pq_arguments : list (string * value);
  pq_approval : string;
  pq_approved_digest : string;
  pq_key : string;
  pq_mode : string
}.

Section OperationDigest.
Variable sha256_hex : string -> string.

(** [ProviderRequest.operation_digest] *)
Definition operation_payload (rq : ProviderRequest) : value :=
  VDict [("arguments", VDict (pq_arguments rq)); ("capability_id", VStr (pq_capability_id rq));
         ("provider_id", VStr (pq_provider rq)); ("target_scope_ref", VStr (pq_target rq))].
Definition operation_digest (rq : ProviderRequest) : result py_error string :=
  canonical_hash sha256_hex (operation_payload rq).
End OperationDigest.

Record GatewayOutcome := mkGatewayOutcome {
  go_request : string;
  go_outcome : OutcomeClass;
  go_reason : ProviderReason;
  go_payload : list (string * value);
  go_degraded : bool;
  go_calls : Z;
  go_resolutions : Z;
  go_bytes : Z;
  go_duration : Z
}.
Definition outcome_refused (o : GatewayOutcome) : bool := bool_decide (go_outcome o = O_REFUSED).

(** ** The ports *)

(** [ProviderDenied] *)
Definition denied A := result ProviderReason A.

Record PolicyPort := mkPolicyPort { pp_decisions : gmap string string; pp_available : bool }.
Definition policy_set_available (b : bool) (p : PolicyPort) : PolicyPort := mkPolicyPort (pp_decisions p) b.
Definition policy_set (capability decision : string) (p : PolicyPort) : PolicyPort :=
  mkPolicyPort (<[capability := decision]> (pp_decisions p)) (pp_available p).
Definition policy_evaluate (capability : string) (p : PolicyPort) : denied string :=
  if negb (pp_available p) then Err E_POLICY_UNAVAILABLE
  else Ok match pp_decisions p !! capability with Some d => d | None => "DENY" end.

Record ReplayStore := mkReplay { rs_entries : gmap string GatewayOutcome; rs_available : bool }.
Definition replay_set_available (b : bool) (s : ReplayStore) : ReplayStore := mkReplay (rs_entries s) b.
Definition replay_lookup (key : string) (s : ReplayStore) : denied (option GatewayOutcome) :=
  if negb (rs_available s) then Err E_IDEMPOTENCY_UNAVAILABLE else Ok (rs_entries s !! key).
(** [record]: [setdefault] keeps an entry that is there. *)
Definition replay_record (key : string) (o : GatewayOutcome) (s : ReplayStore) : denied ReplayStore :=
  if negb (rs_available s) then Err E_IDEMPOTENCY_UNAVAILABLE
  else Ok match rs_entries s !! key with
          | Some _ => s
          | None => mkReplay (<[key := o]> (rs_entries s)) (rs_available s)
          end.

Record ApprovalStore := mkApprovals { as_granted : gmap string string; as_consumed : gset string; as_available : bool }.
Definition approvals_set_available (b : bool) (s : ApprovalStore) : ApprovalStore :=
  mkApprovals (as_granted s) (as_consumed s) b.
Definition grant_approval (ref digest : string) (s : ApprovalStore) : ApprovalStore :=
  mkApprovals (<[ref := digest]> (as_granted s)) (as_consumed s) (as_available s).
(** [bind] *)
Definition bind_approval (ref digest : string) (s : ApprovalStore) : denied ApprovalStore :=
  do! raise_if (negb (as_available s)) E_APPROVAL_MISSING in
  match as_granted s !! ref with
  | None => Err E_APPROVAL_MISSING
  | Some approved =>
      do! raise_if (String.eqb ref "") E_APPROVAL_MISSING in
      do! raise_if (bool_decide (ref ∈ as_consumed s)) E_APPROVAL_MISSING in
      do! raise_if (negb (String.eqb approved digest)) E_APPROVAL_DIGEST_MISMATCH in
      Ok (mkApprovals (as_granted s) ({[ref]} ∪ as_consumed s) (as_available s))
  end.

Abbreviation ScopeResolver := (gmap string (list string)).
Definition allow_scope (capability : string) (targets : list string) (s : ScopeResolver) : ScopeResolver :=
  <[capability := targets]> s.
Definition require_scope (capability target : string) (s : ScopeResolver) : denied string :=
  if str_in target match s !! capability with Some l => l | None => [] end then Ok target else Err E_SCOPE_DENY.

(** ** The adapter and the clock *)

(** What an adapter does: return a result, raise [ProviderDenied], or raise anything else.  Its
    payload may be of any type; the counts are integers. *)
Inductive AdapterAnswer : Type :=
| Returned (payload : value) (byte_count provider_calls : Z)
| Denied (reason : ProviderReason)
| Faulted.

(** The nanoseconds the clock shows at the reads of one invocation. *)
Record Moments := mkMoments { at_start : Z; at_refusal : Z; at_resolution : Z; at_use : Z; at_end : Z }.
Definition in_ms (ns : Z) : Z := ns / 1000000.

Record AdapterCall := mkCall { ac_request : ProviderRequest; ac_headers : headers; ac_budget : Z }.

(** ** The gateway *)

Inductive gateway_exn : Type :=
| GatewayAudit (e : ledger_exn)
| GatewayDenied (reason : ProviderReason)
| GatewayRegistry (e : provider_exn)
| GatewayCredential (e : credential_exn)
| GatewayPython (e : py_error).

Section Gateway.
Variable sha256_hex : string -> string.
Context {S : Type} `{ProviderSink S}.

Record ProviderGateway := mkGateway {
  gw_registry : ProviderRegistry;
  gw_policy : PolicyPort;
  gw_scopes : ScopeResolver;
  gw_broker : ProviderCredentialBroker;
  gw_audit : IntegrationAuditLedger (S := S);
  gw_adapters : gset string;
  gw_approvals : ApprovalStore;
  gw_replay : ReplayStore;
  gw_calls : Z;
  gw_resolutions : Z;
  gw_unknown : list string;
  gw_log : list AdapterCall
}.

Definition new_gateway reg policy scopes broker audit adapters : ProviderGateway :=
  mkGateway reg policy scopes broker audit adapters (mkApprovals ∅ ∅ true) (mkReplay ∅ true) 0 0 [] [].

Definition set_audit (l : IntegrationAuditLedger) (g : ProviderGateway) : ProviderGateway :=
  mkGateway (gw_registry g) (gw_policy g) (gw_scopes g) (gw_broker g) l (gw_adapters g) (gw_approvals g) (gw_replay g)
    (gw_calls g) (gw_resolutions g) (gw_unknown g) (gw_log g).
Definition set_approvals (a : ApprovalStore) (g : ProviderGateway) : ProviderGateway :=
  mkGateway (gw_registry g) (gw_policy g) (gw_scopes g) (gw_broker g) (gw_audit g) (gw_adapters g) a (gw_replay g)
    (gw_calls g) (gw_resolutions g) (gw_unknown g) (gw_log g).
Definition set_replay (r : ReplayStore) (g : ProviderGateway) : ProviderGateway :=
  mkGateway (gw_registry g) (gw_policy g) (gw_scopes g) (gw_broker g) (gw_audit g) (gw_adapters g) (gw_approvals g) r
    (gw_calls g) (gw_resolutions g) (gw_unknown g) (gw_log g).
Definition add_calls (n : Z) (g : ProviderGateway) : ProviderGateway :=
  mkGateway (gw_registry g) (gw_policy g) (gw_scopes g) (gw_broker g) (gw_audit g) (gw_adapters g) (gw_approvals g)
    (gw_replay g) (gw_calls g + n) (gw_resolutions g) (gw_unknown g) (gw_log g).
Definition add_resolution (g : ProviderGateway) : ProviderGateway :=
  mkGateway (gw_registry g) (gw_policy g) (gw_scopes g) (gw_broker g) (gw_audit g) (gw_adapters g) (gw_approvals g)
    (gw_replay g) (gw_calls g) (gw_resolutions g + 1) (gw_unknown g) (gw_log g).
Definition add_unknown (request_id : string) (g : ProviderGateway) : ProviderGateway :=
  mkGateway (gw_registry g) (gw_policy g) (gw_scopes g) (gw_broker g) (gw_audit g) (gw_adapters g) (gw_approvals g)
    (gw_replay g) (gw_calls g) (gw_resolutions g) (gw_unknown g ++ [request_id]) (gw_log g).
Definition log_adapter (c : AdapterCall) (g : ProviderGateway) : ProviderGateway :=
  mkGateway (gw_registry g) (gw_policy g) (gw_scopes g) (gw_broker g) (gw_audit g) (gw_adapters g) (gw_approvals g)
    (gw_replay g) (gw_calls g) (gw_resolutions g) (gw_unknown g) (gw_log g ++ [c]).

Definition gateway_op := st ProviderGateway gateway_exn.

(** *** Records *)

Definition text_digest (m : result py_error string) : result gateway_exn string :=
  match m with Ok h => Ok h | Err e => Err (GatewayPython e) end.

(** The digest of the scopes a declaration's credential has, empty when the broker refuses. *)
Definition record_scopes (rq : ProviderRequest) (c : option CapabilityDeclaration) (b : ProviderCredentialBroker) :
  result gateway_exn string :=
  match c with
  | None => Ok ""
  | Some c => match broker_scope_digest sha256_hex (pq_provider rq) (cd_credential c) b with
              | Ok h => Ok h
              | Err (CredentialError _ _) => Ok ""
              | Err e => Err (GatewayCredential e)
              end
  end.

Definition from_declaration (f : CapabilityDeclaration -> string) (c : option CapabilityDeclaration) : string :=
  match c with Some c => f c | None => "" end.

(** The record of an invocation, before it is linked. *)
Definition audit_record (rq : ProviderRequest) (kind : AuditKind) (c : option CapabilityDeclaration) (outcome : OutcomeClass)
  (reason : ProviderReason) (decision readiness : string) (calls bytes duration : Z) (scopes key operation : string) :
  IntegrationAuditRecord :=
  let suffix := match kind with Kind_INTENT => "intent" | Kind_TERMINAL => "terminal" end in
  mkAudit (pq_id rq +:+ ":" +:+ suffix) kind (pq_id rq) (pq_principal rq) (pq_provider rq) (pq_capability_id rq)
    (from_declaration cd_tool c) (pq_mode rq) (pq_target rq)
    (from_declaration (fun c => class_value (cd_mutation c)) c)
    (from_declaration (fun c => tier_value (cd_tier c)) c) decision reason readiness
    (from_declaration cd_credential c) scopes outcome calls bytes duration key operation (pq_approval rq)
    CHAIN_GENESIS [].

(** [_record] *)
Definition record (rq : ProviderRequest) (kind : AuditKind) (c : option CapabilityDeclaration) (outcome : OutcomeClass)
  (reason : ProviderReason) (decision readiness : string) (calls bytes duration : Z) : gateway_op unit :=
  let* g := sget in
  let* scopes := slift (record_scopes rq c (gw_broker g)) in
  let* key := slift (if String.eqb (pq_key rq) "" then Ok ""
                     else text_digest (canonical_hash sha256_hex (VDict [("k", VStr (pq_key rq))]))) in
  let* operation := slift (text_digest (operation_digest sha256_hex rq)) in
  let r := audit_record rq kind c outcome reason decision readiness calls bytes duration scopes key operation in
  let '(answer, ledger) := ledger_append sha256_hex r (gw_audit g) in
  do* smodify (set_audit ledger) in
  match answer with Ok _ => sret tt | Err e => sraise (GatewayAudit e) end.

(** [_refuse] *)
Definition refuse (ck : Moments) (rq : ProviderRequest) (reason : ProviderReason) (c : option CapabilityDeclaration)
  (decision readiness : string) : gateway_op GatewayOutcome :=
  let duration := if at_start ck =? 0 then 0 else in_ms (at_refusal ck - at_start ck) in
  do* record rq Kind_TERMINAL c O_REFUSED reason decision readiness 0 0 duration in
  sret (mkGatewayOutcome (pq_id rq) O_REFUSED reason [] false 0 0 0 duration).

(** *** Stages 1 to 5 *)

(** The reason of an exception of the registry, [E_PROVIDER_UNKNOWN] when it has none. *)
Definition lookup_reason (e : provider_exn) : ProviderReason :=
  match e with
  | ProviderRegistryError r _ | RegistryContract (ProviderContractError r _) => r
  | _ => E_PROVIDER_UNKNOWN
  end.

(** A refusal on the way: its reason, and what is known of the capability, the decision and the readiness. *)
Record Refusal := mkRefusal {
  rf_reason : ProviderReason;
  rf_declaration : option CapabilityDeclaration;
  rf_decision : string;
  rf_readiness : string
}.
(** What the first stages settle. *)
Record Cleared := mkCleared { cl_declaration : CapabilityDeclaration; cl_decision : string; cl_readiness : string }.

Definition deny {A} (b : bool) (r : Refusal) (k : result gateway_exn (A + Refusal)) : result gateway_exn (A + Refusal) :=
  if b then Ok (inr r) else k.

Definition clear_request (rq : ProviderRequest) (g : ProviderGateway) : result gateway_exn (Cleared + Refusal) :=
  match lookup_capability (pq_capability_id rq) (gw_registry g) with
  | Err e => Ok (inr (mkRefusal (lookup_reason e) None "" ""))
  | Ok c =>
      deny (negb (String.eqb (provider_of (cd_id c)) (pq_provider rq))) (mkRefusal E_PROVIDER_UNKNOWN None "" "")
      (deny (negb (bool_decide (pq_provider rq ∈ gw_adapters g))) (mkRefusal E_PROVIDER_UNKNOWN (Some c) "" "")
      (deny (negb (is_safe (VDict (pq_arguments rq)))) (mkRefusal E_REQ_INVALID (Some c) "" "")
      match require_scope (pq_capability_id rq) (pq_target rq) (gw_scopes g) with
      | Err r => Ok (inr (mkRefusal r (Some c) "" ""))
      | Ok _ =>
          match policy_evaluate (pq_capability_id rq) (gw_policy g) with
          | Err r => Ok (inr (mkRefusal r (Some c) "" ""))
          | Ok decision =>
              deny (negb (str_in decision ["ALLOW"; "APPROVAL_REQUIRED"])) (mkRefusal E_POLICY_DENY (Some c) decision "")
              match lookup_state (pq_capability_id rq) (gw_registry g), is_usable (pq_capability_id rq) (gw_registry g) with
              | Ok state, Ok usable =>
                  let readiness := capability_state_value state in
                  deny (negb usable) (mkRefusal E_CAP_NOT_READY (Some c) decision readiness)
                    (Ok (inl (mkCleared c decision readiness)))
              | Err e, _ | _, Err e => Err (GatewayRegistry e)
              end
          end
      end))
  end.

(** *** Stages 6 to 8, of a write: an answer when it ends the invocation *)

Definition requires_key (i : IdempotencySemantics) : bool :=
  match i with Idem_KEYED_IDEMPOTENT => true | _ => false end.

Definition needs_binding (cl : Cleared) : bool :=
  cd_approval (cl_declaration cl) || String.eqb (cl_decision cl) "APPROVAL_REQUIRED".

Definition refuse_write (ck : Moments) (rq : ProviderRequest) (cl : Cleared) (reason : ProviderReason) :
  gateway_op (option GatewayOutcome) :=
  let* o := refuse ck rq reason (Some (cl_declaration cl)) (cl_decision cl) (cl_readiness cl) in sret (Some o).

Definition bind_stage (ck : Moments) (rq : ProviderRequest) (cl : Cleared) : gateway_op (option GatewayOutcome) :=
  if needs_binding cl then
    let* digest := slift (text_digest (operation_digest sha256_hex rq)) in
    let* g := sget in
    match bind_approval (pq_approval rq) digest (gw_approvals g) with
    | Err r => refuse_write ck rq cl r
    | Ok a => do* smodify (set_approvals a) in sret None
    end
  else sret None.

Definition replay_stage (ck : Moments) (rq : ProviderRequest) (cl : Cleared) : gateway_op (option GatewayOutcome) :=
  if requires_key (cd_idempotency (cl_declaration cl)) && String.eqb (pq_key rq) "" then refuse_write ck rq cl E_REQ_INVALID
  else if String.eqb (pq_key rq) "" then sret None
  else
    let* g := sget in
    match replay_lookup (pq_key rq) (gw_replay g) with
    | Err r => refuse_write ck rq cl r
    | Ok None => sret None
    | Ok (Some prior) =>
        do* record rq Kind_TERMINAL (Some (cl_declaration cl)) (go_outcome prior) E_IDEMPOTENCY_REPLAY (cl_decision cl)
              (cl_readiness cl) 0 0 0 in
        sret (Some (mkGatewayOutcome (pq_id rq) (go_outcome prior) E_IDEMPOTENCY_REPLAY (go_payload prior) false 0 0 0 0))
    end.

(** An [AuditError] of the write-ahead record ends the invocation; no other exception is caught. *)
Definition intent_stage (rq : ProviderRequest) (cl : Cleared) : gateway_op (option GatewayOutcome) := fun g =>
  match record rq Kind_INTENT (Some (cl_declaration cl)) O_UNKNOWN P_OK (cl_decision cl) (cl_readiness cl) 0 0 0 g with
  | (Ok _, g') => (Ok None, g')
  | (Err (GatewayAudit (AuditError _ _)), g') =>
      (Ok (Some (mkGatewayOutcome (pq_id rq) O_REFUSED E_AUDIT_UNAVAILABLE [] false 0 0 0 0)), g')
  | (Err e, g') => (Err e, g')
  end.

(** Go on unless the invocation has ended. *)
Definition unless_ended (m : gateway_op (option GatewayOutcome)) (k : gateway_op (option GatewayOutcome)) :
  gateway_op (option GatewayOutcome) :=
  let* o := m in match o with Some _ => sret o | None => k end.
Definition write_stages (ck : Moments) (rq : ProviderRequest) (cl : Cleared) : gateway_op (option GatewayOutcome) :=
  if declaration_is_write (cl_declaration cl) then
    unless_ended (bind_stage ck rq cl) (unless_ended (replay_stage ck rq cl) (intent_stage rq cl))
  else sret None.

(** *** Stages 9 to 12 *)

(** The calls to count, the bytes, the class of the outcome, its reason and the payload of an answer. *)
Record Settled := mkSettled {
  sd_calls : Z;
  sd_bytes : Z;
  sd_outcome : OutcomeClass;
  sd_reason : ProviderReason;
  sd_payload : list (string * value)
}.

Definition denied_class (c : CapabilityDeclaration) (r : ProviderReason) : OutcomeClass :=
  if declaration_is_write c && bool_decide (r = E_PROVIDER_DEADLINE) then O_UNKNOWN else O_REFUSED.
Definition settle_denied (c : CapabilityDeclaration) (calls bytes : Z) (r : ProviderReason) : Settled :=
  mkSettled calls bytes (denied_class c r) r [].

Definition settle (c : CapabilityDeclaration) (a : AdapterAnswer) : Settled :=
  match a with
  | Returned p bytes calls =>
      let n := Z.max 0 calls in
      if cd_max_bytes c <? bytes then settle_denied c n bytes E_PROVIDER_RESULT_TOO_LARGE
      else match p with
           | VDict d => if is_safe p then mkSettled n bytes O_SUCCESS P_OK d else settle_denied c n bytes E_PROVIDER_SHAPE
           | _ => settle_denied c n bytes E_PROVIDER_SHAPE
           end
  | Denied r => settle_denied c 0 0 r
  | Faulted => mkSettled 1 0 (if declaration_is_write c then O_UNKNOWN else O_ERROR) E_PROVIDER_FAULT []
  end.

Definition keep_outcome (rq : ProviderRequest) (c : CapabilityDeclaration) (o : GatewayOutcome) : gateway_op unit :=
  if declaration_is_write c && negb (String.eqb (pq_key rq) "") && bool_decide (go_outcome o = O_SUCCESS) then
    let* g := sget in
    match replay_record (pq_key rq) o (gw_replay g) with
    | Ok r => smodify (set_replay r)
    | Err e => sraise (GatewayDenied e)
    end
  else sret tt.

(** The call of the adapter with its headers, and the end of the invocation; [calls0] and [resolutions0]
    are the counters at its start. *)
Definition execute_call (ck : Moments) (rq : ProviderRequest) (cl : Cleared) (hs : headers) (a : AdapterAnswer)
  (calls0 resolutions0 : Z) : gateway_op GatewayOutcome :=
  let c := cl_declaration cl in
  do* smodify (log_adapter (mkCall rq hs (cd_deadline c))) in
  let s := settle c a in
  do* smodify (add_calls (sd_calls s)) in
  let duration := in_ms (at_end ck - at_start ck) in
  do* smodify (if bool_decide (sd_outcome s = O_UNKNOWN) then add_unknown (pq_id rq) else id) in
  let* g := sget in
  do* record rq Kind_TERMINAL (Some c) (sd_outcome s) (sd_reason s) (cl_decision cl) (cl_readiness cl)
        (gw_calls g - calls0) (sd_bytes s) duration in
  let o := mkGatewayOutcome (pq_id rq) (sd_outcome s) (sd_reason s) (sd_payload s)
             (negb (declaration_is_write c) && String.eqb (cl_readiness cl) "DEGRADED")
             (gw_calls g - calls0) (gw_resolutions g - resolutions0) (sd_bytes s) duration in
  do* keep_outcome rq c o in
  sret o.

Definition perform (ck : Moments) (rq : ProviderRequest) (cl : Cleared) (a : AdapterAnswer) (calls0 resolutions0 : Z) :
  gateway_op GatewayOutcome :=
  let c := cl_declaration cl in
  let refused r := refuse ck rq r (Some c) (cl_decision cl) (cl_readiness cl) in
  let* g := sget in
  match resolve_credential (pq_provider rq) (cd_credential c) (cd_scopes c) (cd_deadline c) (in_ms (at_resolution ck))
          (gw_broker g) with
  | Err (CredentialError r _) => refused r
  | Err e => sraise (GatewayCredential e)
  | Ok handle =>
      do* smodify add_resolution in
      match fst (apply_handle (in_ms (at_use ck)) [] handle) with
      | Err (CredentialError r _) => refused r
      | Err e => sraise (GatewayCredential e)
      | Ok hs => execute_call ck rq cl hs a calls0 resolutions0
      end
  end.

(** [ProviderGateway.invoke] *)
Definition invoke (ck : Moments) (a : AdapterAnswer) (rq : ProviderRequest) : gateway_op GatewayOutcome :=
  let* g := sget in
  let* cleared := slift (clear_request rq g) in
  match cleared with
  | inr r => refuse ck rq (rf_reason r) (rf_declaration r) (rf_decision r) (rf_readiness r)
  | inl cl =>
      let* ended := write_stages ck rq cl in
      match ended with
      | Some o => sret o
      | None => perform ck rq cl a (gw_calls g) (gw_resolutions g)
      end
  end.
End Gateway.
