(* ===== verification/ProviderGuarantees.v ===== *)
(** * What the provider gateway guarantees

    What each stage of an invocation may change; then: an adapter is called only after every stage
    let it; approvals and keys are used once; outcomes are recorded once, in a chain that is evidence;
    probed readiness only falls; manifests are least-privilege. *)
From S2P Require Import Prelude.
From S2P Require Import PyText.
From S2P Require Import PyValue.
From S2P Require Import Canonical.
From S2P Require Import DagDigest.
From S2P Require Import ToolSchema.
From S2P Require Import MutationContract.
From S2P Require Import ProviderContract.
From S2P Require Import ProviderRegistry.
From S2P Require Import ProviderCredentials.
From S2P Require Import ProviderAudit.
From S2P Require Import ProviderGateway.

Section Runs.
Variable sha256_hex : string -> string.
Context {S : Type} `{ProviderSinkLaws S}.
Implicit Types g : ProviderGateway (S := S).

(** ** Frames *)

(** Nothing changed but the ledger, the approvals and the count of resolutions. *)
Definition quiet g g' : Prop :=
  exists l a n, g' = mkGateway (gw_registry g) (gw_policy g) (gw_scopes g) (gw_broker g) l (gw_adapters g) a (gw_replay g)
                       (gw_calls g) n (gw_unknown g) (gw_log g).

Lemma quiet_refl g : quiet g g.
Proof. destruct g. by eexists _, _, _. Qed.
Lemma quiet_trans g1 g2 g3 : quiet g1 g2 -> quiet g2 g3 -> quiet g1 g3.
Proof. intros (l & a & n & ->) (l' & a' & n' & ->). by eexists _, _, _. Qed.
Lemma quiet_audit l g : quiet g (set_audit l g).
Proof. by eexists _, _, _. Qed.
Lemma quiet_approvals a g : quiet g (set_approvals a g).
Proof. by eexists _, _, _. Qed.
Lemma quiet_resolution g : quiet g (add_resolution g).
Proof. by eexists _, _, _. Qed.

(** The approvals that are consumed stay so. *)
Definition consumed_grows g g' : Prop := as_consumed (gw_approvals g) ⊆ as_consumed (gw_approvals g').

Lemma set_audit_same g : set_audit (gw_audit g) g = g.
Proof. by destruct g. Qed.

(** ** Records *)

(** One record was appended, and it is the terminal record that says the outcome. *)
Definition recorded_outcome (l l' : IntegrationAuditLedger (S := S)) (o : GatewayOutcome) : Prop :=
  exists r, ar_extra r = [] /\ appended sha256_hex l r l' /\ ar_kind r = Kind_TERMINAL /\ ar_request r = go_request o
    /\ ar_outcome r = go_outcome o /\ ar_reason r = go_reason o /\ ar_calls r = go_calls o.

Lemma record_cases rq kind c o r dec rd n b d g res g' :
  record sha256_hex rq kind c o r dec rd n b d g = (res, g') ->
  (exists e, res = Err e /\ g' = g)
  \/ (res = Ok tt /\ exists scopes key operation l, operation_digest sha256_hex rq = Ok operation
      /\ appended sha256_hex (gw_audit g) (audit_record rq kind c o r dec rd n b d scopes key operation) l
      /\ g' = set_audit l g).
Proof.
  unfold record, sget. rewrite sbind_unfold. cbn beta iota. rewrite sbind_lift.
  destruct (record_scopes _ _ _ _) as [scopes|e]; [|intros [= <- <-]; left; eauto]. rewrite sbind_lift.
  destruct (if String.eqb _ _ then _ else _) as [key|e]; [|intros [= <- <-]; left; eauto]. rewrite sbind_lift.
  unfold text_digest. destruct (operation_digest _ _) as [operation|e]; [|intros [= <- <-]; left; eauto].
  destruct (ledger_append sha256_hex _ _) as [answer l] eqn:E. unfold smodify. rewrite sbind_unfold.
  apply append_cases in E as [(e & -> & ->)|[-> Happ]]; [| |done].
  - rewrite set_audit_same. intros [= <- <-]. left. eauto.
  - intros [= <- <-]. right. split; [done|]. by exists scopes, key, operation, l.
Qed.

(** How an invocation, or a part of it, ends without a call: by an exception, with the ledger as it was,
    or with an outcome on record. *)
Definition ends (rq : ProviderRequest) g (res : result gateway_exn GatewayOutcome) g' : Prop :=
  quiet g g' /\ gw_approvals g' = gw_approvals g
  /\ ((exists e, res = Err e /\ gw_audit g' = gw_audit g)
      \/ exists o, res = Ok o /\ go_request o = pq_id rq /\ go_calls o = 0 /\ recorded_outcome (gw_audit g) (gw_audit g') o).

Lemma ends_err rq g e : ends rq g (Err e) g.
Proof. split_and!; [apply quiet_refl|done|]. left. eauto. Qed.

Lemma record_ends rq c o r dec rd d g (k : GatewayOutcome) res g' :
  go_request k = pq_id rq -> go_outcome k = o -> go_reason k = r -> go_calls k = 0 ->
  (do* record sha256_hex rq Kind_TERMINAL c o r dec rd 0 0 d in sret k) g = (res, g') -> ends rq g res g'.
Proof.
  intros Hq Ho Hr Hc. intros [([] & g1 & H1 & [= <- <-])|(e & H1 & ->)]%sbind_inv; apply record_cases in H1.
  - destruct H1 as [(? & ? & _)|(_ & sc & ky & op & l & _ & Happ & ->)]; [done|].
    split_and!; [apply quiet_audit|done|]. right. exists k. split_and!; [done..|]. eexists. split_and!; [|exact Happ|..]; done.
  - destruct H1 as [(? & [= <-] & ->)|(? & _)]; [apply ends_err|done].
Qed.

Lemma refuse_ends ck rq reason c dec rd g res g' :
  refuse sha256_hex ck rq reason c dec rd g = (res, g') -> ends rq g res g'.
Proof. by apply record_ends. Qed.

(** ** Stages 1 to 5 *)

(** Everything the first five stages ask of a request. *)
Record admissible g (rq : ProviderRequest) (cl : Cleared) : Prop := {
  ad_declared : lookup_capability (pq_capability_id rq) (gw_registry g) = Ok (cl_declaration cl);
  ad_provider : provider_of (cd_id (cl_declaration cl)) = pq_provider rq;
  ad_adapter : pq_provider rq ∈ gw_adapters g;
  ad_safe : audit_safe "$" (VDict (pq_arguments rq)) = [];
  ad_scope : exists targets, gw_scopes g !! pq_capability_id rq = Some targets /\ pq_target rq ∈ targets;
  ad_policy : pp_available (gw_policy g) = true /\ pp_decisions (gw_policy g) !! pq_capability_id rq = Some (cl_decision cl);
  ad_decision : cl_decision cl = "ALLOW" \/ cl_decision cl = "APPROVAL_REQUIRED";
  ad_state : exists s, lookup_state (pq_capability_id rq) (gw_registry g) = Ok s
             /\ usable_state (cl_declaration cl) s = true /\ cl_readiness cl = capability_state_value s
}.

Lemma deny_inl {A} b r (k : result gateway_exn (A + Refusal)) x : deny b r k = Ok (inl x) -> b = false /\ k = Ok (inl x).
Proof. by destruct b. Qed.

Lemma clear_request_spec g rq cl : clear_request rq g = Ok (inl cl) <-> admissible g rq cl.
Proof.
  unfold clear_request. split.
  - destruct (lookup_capability _ _) as [c|e] eqn:Hc; [|done].
    intros [H1 HH]%deny_inl. apply deny_inl in HH as [H2 HH]. apply deny_inl in HH as [H3 HH].
    unfold require_scope in HH. destruct (str_in _ _) eqn:H4; [|done].
    unfold policy_evaluate in HH. destruct (pp_available (gw_policy g)) eqn:H5; [|done]. cbn [negb] in HH.
    apply deny_inl in HH as [H6 HH]. destruct (lookup_state _ _) as [s|e] eqn:H7; [|done].
    unfold is_usable in HH. rewrite Hc, H7 in HH. cbn [rbind] in HH. apply deny_inl in HH as [H8 [= <-]].
    bool_prop. unfold is_safe in *. bool_prop.
    assert (Hd : is_Some (pp_decisions (gw_policy g) !! pq_capability_id rq)).
    { by destruct (pp_decisions (gw_policy g) !! _). }
    destruct Hd as [d Hd]. rewrite Hd in H6. cbn in H6. split; cbn; try done.
    + destruct (gw_scopes g !! _) as [ts|]; [|done]. exists ts. by apply str_in_elem in H4.
    + by rewrite Hd.
    + rewrite Hd. unfold str_in in H6. cbn in H6. rewrite orb_false_r in H6. apply orb_true_iff in H6 as [?%String.eqb_eq|?%String.eqb_eq]; auto.
    + by exists s.
  - intros [Hc Hp Ha Hs (ts & Hts & Hin) [Hav Hd] Hdec (s & Hst & Hu & Hr)]. rewrite Hc. unfold deny.
    rewrite Hp, String.eqb_refl. cbn [negb]. rewrite bool_decide_eq_true_2 by done. cbn [negb].
    unfold is_safe. rewrite bool_decide_eq_true_2 by done. cbn [negb]. unfold require_scope. rewrite Hts.
    apply str_in_elem in Hin. rewrite Hin. unfold policy_evaluate. rewrite Hav, Hd. cbn [negb].
    assert (Hin' : str_in (cl_decision cl) ["ALLOW"; "APPROVAL_REQUIRED"] = true) by (by destruct Hdec as [-> | ->]).
    rewrite Hin', Hst. cbn [negb]. unfold is_usable. rewrite Hc, Hst. cbn [rbind]. rewrite Hu. cbn [negb].
    do 2 f_equal. destruct cl; cbn in *. by subst.
Qed.

(** ** Stages 6 to 8 *)

(** How a stage of a write ends the invocation; [unrecorded] when the ledger refused the intent. *)
Definition unrecorded (rq : ProviderRequest) (o : GatewayOutcome) : Prop :=
  go_request o = pq_id rq /\ go_outcome o = O_REFUSED /\ go_reason o = E_AUDIT_UNAVAILABLE /\ go_calls o = 0.

Definition stage_ends rq g (res : result gateway_exn (option GatewayOutcome)) g' : Prop :=
  exists r, res = (let! o := r in Ok (Some o)) /\ ends rq g r g'.

Lemma refuse_write_ends ck rq cl reason g res g' :
  refuse_write sha256_hex ck rq cl reason g = (res, g') -> stage_ends rq g res g'.
Proof.
  unfold refuse_write. intros [(o & g1 & H1 & [= <- <-])|(e & H1 & ->)]%sbind_inv; apply refuse_ends in H1.
  - by exists (Ok o).
  - by exists (Err e).
Qed.

Lemma bind_stage_cases ck rq cl g res g' :
  bind_stage sha256_hex ck rq cl g = (res, g') ->
  stage_ends rq g res g' \/ res = Ok None /\
  (needs_binding cl = false /\ g' = g
   \/ needs_binding cl = true /\ exists digest a, operation_digest sha256_hex rq = Ok digest
      /\ bind_approval (pq_approval rq) digest (gw_approvals g) = Ok a /\ g' = set_approvals a g).
Proof.
  unfold bind_stage. destruct (needs_binding cl); [|intros [= <- <-]; auto]. rewrite sbind_lift. unfold text_digest.
  destruct (operation_digest _ _) as [digest|e] eqn:Hd.
  2: { intros [= <- <-]. left. exists (Err (GatewayPython e)). split; [done|apply ends_err]. }
  unfold sget. rewrite sbind_unfold. cbn beta iota. destruct (bind_approval _ _ _) as [a|r] eqn:Ha.
  - intros [= <- <-]. right. split; [done|]. right. split; [done|]. by exists digest, a.
  - intros Hr%refuse_write_ends. by left.
Qed.

Lemma replay_stage_cases ck rq cl g res g' :
  replay_stage sha256_hex ck rq cl g = (res, g') ->
  stage_ends rq g res g' \/ res = Ok None /\ g' = g
  /\ (requires_key (cd_idempotency (cl_declaration cl)) = true -> pq_key rq <> "")
  /\ (pq_key rq <> "" -> rs_available (gw_replay g) = true /\ rs_entries (gw_replay g) !! pq_key rq = None).
Proof.
  unfold replay_stage. destruct (requires_key _ && _) eqn:Hk; [intros Hr%refuse_write_ends; by left|].
  destruct (String.eqb_spec (pq_key rq) "") as [Hq|Hq].
  { intros [= <- <-]. right. split_and!; [done|done| |done]. intros Hrk. by rewrite Hrk in Hk. }
  unfold sget. rewrite sbind_unfold. cbn beta iota. unfold replay_lookup.
  destruct (rs_available _) eqn:Hav; cbn [negb]; [|intros Hr%refuse_write_ends; by left].
  destruct (rs_entries _ !! _) as [prior|] eqn:Hp; [|intros [= <- <-]; right; done].
  intros Hr. left. unfold stage_ends.
  assert (He : exists r, res = (let! o := r in Ok (Some o))
     /\ (do* record sha256_hex rq Kind_TERMINAL (Some (cl_declaration cl)) (go_outcome prior) E_IDEMPOTENCY_REPLAY
               (cl_decision cl) (cl_readiness cl) 0 0 0 in
         sret (mkGatewayOutcome (pq_id rq) (go_outcome prior) E_IDEMPOTENCY_REPLAY (go_payload prior) false 0 0 0 0)) g = (r, g')).
  { rewrite sbind_unfold in Hr. rewrite sbind_unfold. destruct (record _ _ _ _ _ _ _ _ _ _ _ _) as [[[]|e] g1].
    - injection Hr as <- <-. by eexists (Ok _).
    - injection Hr as <- <-. by eexists (Err _). }
  destruct He as (r & -> & He). exists r. split; [done|]. by eapply record_ends in He.
Qed.

Lemma intent_stage_cases rq cl g res g' :
  intent_stage sha256_hex rq cl g = (res, g') ->
  (exists e, res = Err e /\ g' = g) \/ (exists o, res = Ok (Some o) /\ unrecorded rq o /\ g' = g)
  \/ res = Ok None /\ exists r operation l, ar_extra r = [] /\ ar_kind r = Kind_INTENT /\ ar_request r = pq_id rq
     /\ operation_digest sha256_hex rq = Ok operation /\ ar_operation r = operation /\ ar_principal r = pq_principal rq
     /\ appended sha256_hex (gw_audit g) r l /\ g' = set_audit l g.
Proof.
  unfold intent_stage. destruct (record _ _ _ _ _ _ _ _ _ _ _ g) as [[[]|e] g1] eqn:E; apply record_cases in E.
  - destruct E as [(? & ? & _)|(_ & sc & ky & op & l & Hop & Happ & ->)]; [done|]. intros [= <- <-]. right. right.
    split; [done|]. eexists _, op, l. split_and!; [| | | | | |exact Happ|]; done.
  - destruct E as [(? & [= <-] & ->)|(? & _)]; [|done].
    destruct e as [[]| | | |]; intros [= <- <-]; try (left; by eauto). right. left. eexists. split; [done|]. done.
Qed.

(** What stands behind a write that is about to be made. *)
Record write_ready g (rq : ProviderRequest) (cl : Cleared) g' : Prop := {
  wr_approval : needs_binding cl = true -> exists digest, operation_digest sha256_hex rq = Ok digest
    /\ as_granted (gw_approvals g) !! pq_approval rq = Some digest /\ pq_approval rq ∉ as_consumed (gw_approvals g);
  wr_consumed : as_consumed (gw_approvals g') =
    if needs_binding cl then {[pq_approval rq]} ∪ as_consumed (gw_approvals g) else as_consumed (gw_approvals g);
  wr_key : requires_key (cd_idempotency (cl_declaration cl)) = true -> pq_key rq <> "";
  wr_fresh : pq_key rq <> "" -> rs_available (gw_replay g) = true /\ rs_entries (gw_replay g) !! pq_key rq = None;
  wr_intent : exists r operation, ar_extra r = [] /\ ar_kind r = Kind_INTENT /\ ar_request r = pq_id rq
     /\ operation_digest sha256_hex rq = Ok operation /\ ar_operation r = operation /\ ar_principal r = pq_principal rq
     /\ appended sha256_hex (gw_audit g) r (gw_audit g');
  wr_quiet : quiet g g'
}.

Lemma bind_approval_spec ref digest a a' :
  bind_approval ref digest a = Ok a' ->
  as_granted a !! ref = Some digest /\ ref ∉ as_consumed a /\ as_consumed a' = {[ref]} ∪ as_consumed a.
Proof.
  unfold bind_approval. intros Hb. res_inv. destruct (as_granted a !! ref) as [d|]; [|done]. res_inv. bool_prop. by subst.
Qed.

(** How the stages of a write end: the approval may be gone, the ledger has at most the one record. *)
Definition write_ends rq g (res : result gateway_exn (option GatewayOutcome)) g' : Prop :=
  quiet g g' /\ as_consumed (gw_approvals g) ⊆ as_consumed (gw_approvals g')
  /\ ((exists e, res = Err e /\ gw_audit g' = gw_audit g)
      \/ exists o, res = Ok (Some o) /\ go_request o = pq_id rq /\ go_calls o = 0
         /\ (recorded_outcome (gw_audit g) (gw_audit g') o \/ unrecorded rq o /\ gw_audit g' = gw_audit g)).

Lemma stage_write_ends rq g g1 res g' :
  quiet g g1 -> gw_audit g1 = gw_audit g -> as_consumed (gw_approvals g) ⊆ as_consumed (gw_approvals g1) ->
  stage_ends rq g1 res g' -> write_ends rq g res g'.
Proof.
  intros Hq Ha Hc (r & -> & Hq' & Hap & Hr). split_and!; [by eapply quiet_trans|by rewrite Hap|].
  rewrite <- Ha. destruct Hr as [(e & -> & ?)|(o & -> & ? & ? & ?)]; [left; by exists e|right; exists o; auto].
Qed.

Lemma unless_ended_inv m k g res g' :
  unless_ended (S := S) m k g = (res, g') ->
  (exists g1, m g = (Ok None, g1) /\ k g1 = (res, g')) \/ (m g = (res, g') /\ res <> Ok None).
Proof.
  unfold unless_ended. intros [([o|] & g1 & Hm & Hk)|(e & Hm & ->)]%sbind_inv.
  - injection Hk as <- <-. by right.
  - left. eauto.
  - by right.
Qed.

Lemma write_stages_cases ck rq cl g res g' :
  declaration_is_write (cl_declaration cl) = true -> write_stages sha256_hex ck rq cl g = (res, g') ->
  write_ends rq g res g' \/ (res = Ok None /\ write_ready g rq cl g').
Proof.
  intros Hw. unfold write_stages. rewrite Hw. intros [(g1 & H1 & H2)|[H1 Hn]]%unless_ended_inv; apply bind_stage_cases in H1.
  2: { destruct H1 as [H1|[-> _]]; [|done]. left. by eapply stage_write_ends; [apply quiet_refl|..]. }
  destruct H1 as [(r & Hr & _)|[_ Hb]]; [by destruct r|].
  assert (Hg1 : quiet g g1 /\ gw_audit g1 = gw_audit g /\ gw_replay g1 = gw_replay g
    /\ (needs_binding cl = true -> exists digest, operation_digest sha256_hex rq = Ok digest
        /\ as_granted (gw_approvals g) !! pq_approval rq = Some digest /\ pq_approval rq ∉ as_consumed (gw_approvals g))
    /\ as_consumed (gw_approvals g1) =
       if needs_binding cl then {[pq_approval rq]} ∪ as_consumed (gw_approvals g) else as_consumed (gw_approvals g)).
  { destruct Hb as [[Hnb ->]|(Hnb & digest & a & Hd & (Hg & Hc & Ha)%bind_approval_spec & ->)]; rewrite Hnb.
    - split_and!; [apply quiet_refl|done..].
    - split_and!; [apply quiet_approvals|done|done|by exists digest|done]. }
  destruct Hg1 as (Hq & Hau & Hrp & Hbind & Hcons).
  assert (Hsub : as_consumed (gw_approvals g) ⊆ as_consumed (gw_approvals g1)) by (rewrite Hcons; destruct (needs_binding cl); set_solver).
  apply unless_ended_inv in H2 as [(g2 & H2 & H3)|[H2 Hn]]; apply replay_stage_cases in H2.
  2: { destruct H2 as [H2|(-> & _)]; [|done]. left. by eapply stage_write_ends. }
  destruct H2 as [(r & Hr & _)|(_ & -> & Hk & Hf)]; [by destruct r|].
  apply intent_stage_cases in H3 as [(e & -> & ->)|[(o & -> & Hu & ->)|(-> & r & op & l & Hi)]].
  - left. split_and!; [done|done|]. left. eauto.
  - left. split_and!; [done|done|]. right. exists o. destruct Hu as (? & ? & ? & ?). split_and!; try done. right. by split_and!.
  - right. split; [done|]. destruct Hi as (Hx & Hki & Hri & Hop & Hro & Hpr & Happ & ->). rewrite Hau in Happ. rewrite Hrp in Hf.
    split; try done; [exists r, op; by split_and!|]. eapply quiet_trans; [exact Hq|apply quiet_audit].
Qed.

(** ** Stages 9 to 12 *)

(** The credential behind a call: of the provider's own domain, with the scopes of the declaration, neither
    revoked nor expired; the headers are what its material makes. *)
Definition credential_used (ck : Moments) g (rq : ProviderRequest) (c : CapabilityDeclaration) (hs : headers) : Prop :=
  exists d r, br_domains (gw_broker g) !! pq_provider rq = Some d /\ cd_credential c ∈ domain_capability_ids d
    /\ (forall s, s ∈ cd_scopes c -> s ∈ granted_to d (cd_credential c))
    /\ (pq_provider rq, cd_credential c) ∉ br_revoked (gw_broker g)
    /\ br_records (gw_broker g) !! (pq_provider rq, cd_credential c) = Some r /\ cr_ready r = true
    /\ cr_apply r [] = Some hs /\ in_ms (at_use ck) <= in_ms (at_resolution ck) + Z.max 1 (cd_deadline c).

Lemma resolve_credential_spec pid cred scopes ttl now b h :
  resolve_credential pid cred scopes ttl now b = Ok h ->
  exists d r, br_domains b !! pid = Some d /\ cred ∈ domain_capability_ids d /\ (forall s, s ∈ scopes -> s ∈ granted_to d cred)
    /\ (pid, cred) ∉ br_revoked b /\ br_records b !! (pid, cred) = Some r /\ cr_ready r = true
    /\ h = mkHandle pid cred (cr_apply r) (now + Z.max 1 ttl) false.
Proof.
  unfold resolve_credential, domain_with. intros Hr. apply rbind_Ok in Hr as (d & Hd & Hr).
  destruct (br_domains b !! pid) as [d'|]; [|done]. destruct (domain_contains d' cred) eqn:Hc; [|done]. injection Hd as ->.
  apply rbind_Ok in Hr as (u1 & Hs%raise_if_Ok & Hr). apply rbind_Ok in Hr as (u2 & Hv%raise_if_Ok & Hr).
  destruct (br_records b !! _) as [r|]; [|done]. apply rbind_Ok in Hr as (u3 & Hy%raise_if_Ok & [= <-]).
  apply negb_false_iff in Hs, Hy. apply bool_decide_eq_false in Hv. apply str_in_elem in Hc.
  exists d, r. split_and!; try done. intros s Hin. apply str_in_elem. rewrite forallb_forall in Hs.
  apply Hs. by apply list_elem_of_In.
Qed.

Lemma apply_handle_fresh now p c f dl hs :
  fst (apply_handle now [] (mkHandle p c f dl false)) = Ok hs -> f [] = Some hs /\ now <= dl.
Proof.
  unfold apply_handle, handle_expired. cbn [ah_spent ah_deadline ah_apply]. destruct (Z.ltb_spec dl now); [done|].
  cbn [fst]. destruct (f []); [|done]. intros [= ->]. done.
Qed.

Lemma perform_cases ck rq cl a calls0 res0 g res g' :
  perform sha256_hex ck rq cl a calls0 res0 g = (res, g') ->
  ends rq g res g'
  \/ exists hs, credential_used ck g rq (cl_declaration cl) hs
     /\ execute_call sha256_hex ck rq cl hs a calls0 res0 (add_resolution g) = (res, g').
Proof.
  unfold perform, sget. rewrite sbind_unfold. cbn beta iota zeta.
  destruct (resolve_credential _ _ _ _ _ _) as [h|e] eqn:Hr.
  2: { destruct e; intros He; left; [by eapply refuse_ends|injection He as <- <-; apply ends_err..]. }
  unfold smodify. rewrite sbind_unfold. destruct (fst (apply_handle _ _ _)) as [hs|e] eqn:Hh.
  - intros He. right. exists hs. split; [|done].
    apply resolve_credential_spec in Hr as (d & r & ? & ? & ? & ? & ? & ? & ->). apply apply_handle_fresh in Hh as [? ?].
    exists d, r. by split_and!.
  - assert (Hq : forall r, ends rq (add_resolution g) r g' -> ends rq g r g').
    { intros r (Hq & Ha & Hx). split_and!; [|done|done]. eapply quiet_trans; [apply quiet_resolution|done]. }
    destruct e; intros He; left; apply Hq; [by eapply refuse_ends|injection He as <- <-; apply ends_err..].
Qed.

(** What a call leaves: its entry in the log, its count, and - unless the ledger or the replay store
    raised - its outcome on record, kept under its key when it is a success. *)
Record call_made g (rq : ProviderRequest) (cl : Cleared) (hs : headers) (a : AdapterAnswer)
    (res : result gateway_exn GatewayOutcome) g' : Prop := {
  cm_log : gw_log g' = gw_log g ++ [mkCall rq hs (cd_deadline (cl_declaration cl))];
  cm_calls : gw_calls g' = gw_calls g + sd_calls (settle (cl_declaration cl) a);
  cm_approvals : gw_approvals g' = gw_approvals g;
  cm_outcome : forall o, res = Ok o ->
    go_request o = pq_id rq /\ go_outcome o = sd_outcome (settle (cl_declaration cl) a)
    /\ go_reason o = sd_reason (settle (cl_declaration cl) a) /\ go_payload o = sd_payload (settle (cl_declaration cl) a)
    /\ recorded_outcome (gw_audit g) (gw_audit g') o
    /\ (declaration_is_write (cl_declaration cl) = true -> pq_key rq <> "" -> go_outcome o = O_SUCCESS ->
        is_Some (rs_entries (gw_replay g') !! pq_key rq));
  cm_ledger : gw_audit g' = gw_audit g \/ exists r, ar_extra r = [] /\ appended sha256_hex (gw_audit g) r (gw_audit g');
  cm_replay : forall k, is_Some (rs_entries (gw_replay g) !! k) -> is_Some (rs_entries (gw_replay g') !! k)
}.

Lemma keep_outcome_cases rq c o g res g' :
  keep_outcome rq c o g = (res, g') ->
  exists r, g' = set_replay r g /\ (forall k, is_Some (rs_entries (gw_replay g) !! k) -> is_Some (rs_entries r !! k))
    /\ (res = Ok tt -> declaration_is_write c = true -> pq_key rq <> "" -> go_outcome o = O_SUCCESS -> is_Some (rs_entries r !! pq_key rq)).
Proof.
  unfold keep_outcome, sraise, sret, smodify. destruct (_ && _ && _) eqn:E.
  - unfold sget. rewrite sbind_unfold. cbn beta iota. unfold replay_record. destruct (negb (rs_available _)).
    { intros [= <- <-]. exists (gw_replay g). split_and!; [by destruct g|done|done]. }
    destruct (rs_entries (gw_replay g) !! pq_key rq) as [p|] eqn:Ep; intros [= <- <-].
    + exists (gw_replay g). split_and!; [done|done|by rewrite Ep].
    + eexists. split_and!; [done| |intros; cbn; by rewrite lookup_insert_eq]. intros k Hk. cbn.
      destruct (decide (k = pq_key rq)) as [->|Hne]; [by rewrite lookup_insert_eq|by rewrite lookup_insert_ne].
  - intros [= <- <-]. exists (gw_replay g). split_and!; [by destruct g|done|]. intros _ Hw Hk Ho. exfalso.
    apply String.eqb_neq in Hk. by rewrite Hw, Hk, bool_decide_eq_true_2 in E.
Qed.

Lemma execute_call_made ck rq cl hs a calls0 res0 g res g' :
  gw_calls g = calls0 -> execute_call sha256_hex ck rq cl hs a calls0 res0 g = (res, g') -> call_made g rq cl hs a res g'.
Proof.
  intros Hc. unfold execute_call, smodify, sget. do 3 (rewrite sbind_unfold; cbn beta iota).
  set (s := settle (cl_declaration cl) a). rewrite sbind_unfold. cbn beta iota.
  set (g1 := (if bool_decide (sd_outcome s = O_UNKNOWN) then _ else _) _).
  assert (Hg1 : gw_log g1 = gw_log g ++ [mkCall rq hs (cd_deadline (cl_declaration cl))]
    /\ gw_calls g1 = gw_calls g + sd_calls s /\ gw_approvals g1 = gw_approvals g /\ gw_audit g1 = gw_audit g
    /\ gw_replay g1 = gw_replay g) by (unfold g1; by destruct (bool_decide _)).
  destruct Hg1 as (Hl & Hn & Hap & Hau & Hrp). clearbody g1.
  intros [([] & g2 & H1 & H2)|(e & H1 & ->)]%sbind_inv; apply record_cases in H1.
  2: { destruct H1 as [(? & [= <-] & ->)|(? & _)]; [|done].
       split; [done|by rewrite Hn|done|done|by left|by rewrite Hrp]. }
  destruct H1 as [(? & ? & _)|(_ & sc & ky & op & l & _ & Happ & ->)]; [done|]. rewrite Hau in Happ.
  apply sbind_inv in H2 as [([] & g3 & H2 & [= <- <-])|(e & H2 & ->)];
    apply keep_outcome_cases in H2 as (r & -> & Hmono & Hkeep); cbn [gw_replay set_audit] in Hmono; rewrite Hrp in Hmono.
  - split; cbn [gw_log gw_calls gw_approvals gw_audit gw_replay set_replay set_audit]; try done.
    + intros o [= <-]. cbn. split_and!; try done; [|by apply Hkeep].
      eexists. split_and!; [|exact Happ|..]; done.
    + right. by eexists; split; [|exact Happ].
  - split; cbn [gw_log gw_calls gw_approvals gw_audit gw_replay set_replay set_audit]; try done.
    right. by eexists; split; [|exact Happ].
Qed.

(** ** A whole invocation *)

(** The ledger grew, record by record. *)
Definition ledger_step (l l' : IntegrationAuditLedger (S := S)) : Prop :=
  exists r, ar_extra r = [] /\ appended sha256_hex l r l'.
Abbreviation ledger_grows := (rtc ledger_step).

Lemma outcome_step l l' o : recorded_outcome l l' o -> ledger_step l l'.
Proof. intros (r & Hx & Ha & _). by exists r. Qed.

(** What an invocation can come to: no call, and an outcome on record unless the ledger refused the
    write-ahead record; or the one call, with everything behind it. *)
Inductive invocation (ck : Moments) (a : AdapterAnswer) (rq : ProviderRequest) g
    (res : result gateway_exn GatewayOutcome) g' : Prop :=
| Uncalled (l : IntegrationAuditLedger (S := S)) :
    quiet g g' -> as_consumed (gw_approvals g) ⊆ as_consumed (gw_approvals g') ->
    ledger_grows (gw_audit g) l ->
    match res with
    | Err _ => gw_audit g' = l
    | Ok o => go_request o = pq_id rq /\ go_calls o = 0
              /\ (recorded_outcome l (gw_audit g') o \/ unrecorded rq o /\ gw_audit g' = gw_audit g)
    end -> invocation ck a rq g res g'
| Called cl hs g1 :
    admissible g rq cl ->
    (if declaration_is_write (cl_declaration cl) then write_ready g rq cl g1 else g1 = g) ->
    credential_used ck g rq (cl_declaration cl) hs ->
    call_made (add_resolution g1) rq cl hs a res g' -> invocation ck a rq g res g'.

Lemma ends_uncalled ck a rq g g1 res g' :
  quiet g g1 -> as_consumed (gw_approvals g) ⊆ as_consumed (gw_approvals g1) -> ledger_grows (gw_audit g) (gw_audit g1) ->
  ends rq g1 res g' -> invocation ck a rq g res g'.
Proof.
  intros Hq Hc Hl (Hq' & Ha & Hr). apply (Uncalled _ _ _ _ _ _ (gw_audit g1)).
  - by eapply quiet_trans.
  - by rewrite Ha.
  - done.
  - destruct Hr as [(e & -> & ->)|(o & -> & ? & ? & ?)]; auto.
Qed.

Lemma quiet_broker g g' : quiet g g' -> gw_broker g' = gw_broker g /\ gw_calls g' = gw_calls g.
Proof. by intros (l & a & n & ->). Qed.

Lemma credential_quiet ck g g1 rq c hs : quiet g g1 -> credential_used ck g1 rq c hs -> credential_used ck g rq c hs.
Proof. intros [Hb _]%quiet_broker. unfold credential_used. by rewrite Hb. Qed.

Lemma perform_invocation ck a rq cl g g1 res g' :
  admissible g rq cl -> (if declaration_is_write (cl_declaration cl) then write_ready g rq cl g1 else g1 = g) ->
  perform sha256_hex ck rq cl a (gw_calls g) (gw_resolutions g) g1 = (res, g') -> invocation ck a rq g res g'.
Proof.
  intros Had Hw Hp.
  assert (Hg1 : quiet g g1 /\ as_consumed (gw_approvals g) ⊆ as_consumed (gw_approvals g1) /\ ledger_grows (gw_audit g) (gw_audit g1)).
  { destruct (declaration_is_write _); [|by subst; split_and!; [apply quiet_refl|..]].
    destruct Hw as [_ Hcons _ _ (r & op & Hx & _ & _ & _ & _ & _ & Happ) Hq]. split_and!; [done| |].
    - rewrite Hcons. destruct (needs_binding cl); set_solver.
    - apply rtc_once. by exists r. }
  destruct Hg1 as (Hq & Hc & Hl). apply perform_cases in Hp as [He|(hs & Hcr & He)].
  - by eapply ends_uncalled.
  - apply (Called _ _ _ _ _ _ cl hs g1); [done|done|by eapply credential_quiet|].
    eapply execute_call_made; [|exact He]. by apply quiet_broker in Hq as [_ Hn].
Qed.

Lemma invoke_invocation ck a rq g res g' : invoke sha256_hex ck a rq g = (res, g') -> invocation ck a rq g res g'.
Proof.
  unfold invoke, sget. rewrite sbind_unfold. cbn beta iota. rewrite sbind_lift.
  destruct (clear_request rq g) as [[cl|r]|e] eqn:Hcl.
  2: { intros He%refuse_ends. by eapply ends_uncalled; [apply quiet_refl|..]. }
  2: { intros [= <- <-]. eapply ends_uncalled; [apply quiet_refl|done|done|apply ends_err]. }
  apply clear_request_spec in Hcl. destruct (declaration_is_write (cl_declaration cl)) eqn:Hw.
  - intros Hi. apply sbind_inv in Hi as [(r & g1 & Hs & Hi)|(e & Hs & ->)]; apply (write_stages_cases _ _ _ _ _ _ Hw) in Hs.
    + destruct Hs as [(Hq & Hc & [(e & ? & _)|(o & [= ->] & Hid & Hn & Hr)])|[[= ->] Hr]]; [done| |].
      * injection Hi as <- <-. apply (Uncalled _ _ _ _ _ _ (gw_audit g)); [done|done|done|by split_and!].
      * eapply perform_invocation; [exact Hcl|by rewrite Hw|exact Hi].
    + destruct Hs as [(Hq & Hc & [(e' & [= <-] & Ha)|(o & ? & _)])|[? _]]; [|done|done].
      by apply (Uncalled _ _ _ _ _ _ (gw_audit g)).
  - unfold write_stages. rewrite Hw. intros Hi. eapply perform_invocation; [exact Hcl|by rewrite Hw|exact Hi].
Qed.
End Runs.

(** ** Histories of a gateway *)

Section Histories.
Variable sha256_hex : string -> string.
Context {S : Type} `{ProviderSinkLaws S}.
Implicit Types g : ProviderGateway (S := S).

(** An invocation, an operation on one of the stores, or a change of the sink that keeps its records. *)
Inductive gateway_event : Type :=
| Invoked (ck : Moments) (a : AdapterAnswer) (rq : ProviderRequest)
| PolicyChanged (p : PolicyPort)
| ScopeAllowed (capability : string) (targets : list string)
| ApprovalGranted (ref digest : string)
| ApprovalsAvailable (b : bool)
| ReplayAvailable (b : bool)
| HealthApplied (rs : list HealthReport)
| HealthPromoted (rs : list HealthReport)
| CredentialRegistered (r : CredentialRecord)
| CredentialRotated (r : CredentialRecord)
| CredentialRevoked (pid credential : string)
| SinkChanged (s : S).

Definition set_stores (reg : ProviderRegistry) (p : PolicyPort) (sc : ScopeResolver) (b : ProviderCredentialBroker) g :
  ProviderGateway (S := S) :=
  mkGateway reg p sc b (gw_audit g) (gw_adapters g) (gw_approvals g) (gw_replay g) (gw_calls g) (gw_resolutions g)
    (gw_unknown g) (gw_log g).
Definition set_registry reg g := set_stores reg (gw_policy g) (gw_scopes g) (gw_broker g) g.
Definition set_broker b g := set_stores (gw_registry g) (gw_policy g) (gw_scopes g) b g.

Definition gateway_step (e : gateway_event) g : ProviderGateway (S := S) :=
  match e with
  | Invoked ck a rq => snd (invoke sha256_hex ck a rq g)
  | PolicyChanged p => set_stores (gw_registry g) p (gw_scopes g) (gw_broker g) g
  | ScopeAllowed c ts => set_stores (gw_registry g) (gw_policy g) (allow_scope c ts (gw_scopes g)) (gw_broker g) g
  | ApprovalGranted ref digest => set_approvals (grant_approval ref digest (gw_approvals g)) g
  | ApprovalsAvailable b => set_approvals (approvals_set_available b (gw_approvals g)) g
  | ReplayAvailable b => set_replay (replay_set_available b (gw_replay g)) g
  | HealthApplied rs => set_registry (snd (apply_health rs (gw_registry g))) g
  | HealthPromoted rs => set_registry (snd (promote_configured rs (gw_registry g))) g
  | CredentialRegistered r => set_broker (snd (register_credential r (gw_broker g))) g
  | CredentialRotated r => set_broker (snd (rotate_credential r (gw_broker g))) g
  | CredentialRevoked pid c => set_broker (revoke_credential pid c (gw_broker g)) g
  | SinkChanged s =>
      if bool_decide (sink_retained s = retained (gw_audit g)) then set_audit (set_sink s (gw_audit g)) g else g
  end.
Definition gateway_run (es : list gateway_event) g : ProviderGateway (S := S) := foldl (fun g e => gateway_step e g) g es.

Lemma step_invocation ck a rq g : invocation sha256_hex ck a rq g (fst (invoke sha256_hex ck a rq g)) (gateway_step (Invoked ck a rq) g).
Proof. by apply invoke_invocation, surjective_pairing. Qed.

(** *** The ledger over a history *)

Abbreviation ledger_grows := (rtc (ledger_step sha256_hex)).

Lemma invocation_grows ck a rq g res g' : invocation sha256_hex ck a rq g res g' -> ledger_grows (gw_audit g) (gw_audit g').
Proof.
  intros [l Hq Hc Hl Hr|cl hs g1 Had Hw Hcr Hm].
  - destruct res as [o|e]; [|by rewrite Hr]. destruct Hr as (_ & _ & [Ho|[_ ->]]); [|done].
    eapply rtc_r; [exact Hl|by eapply outcome_step].
  - assert (Hg1 : ledger_grows (gw_audit g) (gw_audit g1)).
    { destruct (declaration_is_write _); [|by subst]. destruct Hw as [_ _ _ _ (r & op & Hx & _ & _ & _ & _ & _ & Happ) _].
      apply rtc_once. by exists r. }
    destruct (cm_ledger _ _ _ _ _ _ _ _ Hm) as [He|(r & Hx & Happ)].
    + by rewrite He.
    + eapply rtc_r; [exact Hg1|]. by exists r.
Qed.

Lemma grows_inv l l' : ledger_grows l l' -> ledger_inv sha256_hex l -> ledger_inv sha256_hex l'.
Proof. induction 1 as [|l l1 l2 (r & Hx & Ha) _ IH]; [done|]. intros Hl. apply IH. by eapply appended_inv. Qed.

Lemma grows_retained l l' : ledger_grows l l' -> exists more, retained l' = retained l ++ more.
Proof.
  induction 1 as [|l l1 l2 (r & Hx & Ha) _ (more & IH)]; [exists []; by rewrite app_nil_r|].
  exists (entry_of l r :: more). by rewrite IH, (appended_retained sha256_hex _ _ _ Ha), <- app_assoc.
Qed.

Lemma sink_change_inv s l : sink_retained s = retained l -> ledger_inv sha256_hex l -> ledger_inv sha256_hex (set_sink s l).
Proof. intros Hs [Hc Hd Ho Hn]. by split; unfold retained; cbn [il_sink il_head set_sink]; rewrite ?Hs. Qed.

Lemma step_ledger e g :
  (ledger_inv sha256_hex (gw_audit g) -> ledger_inv sha256_hex (gw_audit (gateway_step e g)))
  /\ exists more, retained (gw_audit (gateway_step e g)) = retained (gw_audit g) ++ more.
Proof.
  destruct e; try (split; [done|by exists []; rewrite app_nil_r]).
  - pose proof (invocation_grows _ _ _ _ _ _ (step_invocation ck a rq g)) as Hg. split; [by apply grows_inv|by apply grows_retained].
  - cbn [gateway_step]. case_bool_decide as Hs; [|split; [done|by exists []; rewrite app_nil_r]]. split.
    + by apply sink_change_inv.
    + exists []. by rewrite app_nil_r.
Qed.

Lemma run_ledger es g :
  (ledger_inv sha256_hex (gw_audit g) -> ledger_inv sha256_hex (gw_audit (gateway_run es g)))
  /\ exists more, retained (gw_audit (gateway_run es g)) = retained (gw_audit g) ++ more.
Proof.
  revert g. induction es as [|e es IH]; intros g; [split; [done|by exists []; rewrite app_nil_r]|].
  destruct (step_ledger e g) as [Hi (m1 & Hm1)], (IH (gateway_step e g)) as [Hi' (m2 & Hm2)]. split; [by auto|].
  exists (m1 ++ m2). cbn [gateway_run foldl]. unfold gateway_run in Hm2. by rewrite Hm2, Hm1, app_assoc.
Qed.

(** *** Approvals and keys over a history *)

Lemma step_consumed e g :
  as_consumed (gw_approvals g) ⊆ as_consumed (gw_approvals (gateway_step e g))
  /\ forall k, is_Some (rs_entries (gw_replay g) !! k) -> is_Some (rs_entries (gw_replay (gateway_step e g)) !! k).
Proof.
  destruct e; try done; [|cbn [gateway_step]; by case_bool_decide].
  destruct (step_invocation ck a rq g) as [l (l' & ap & n & ->) Hc _ _|cl hs g1 Had Hw Hcr Hm]; [done|].
  rewrite (cm_approvals _ _ _ _ _ _ _ _ Hm).
  assert (Hg1 : as_consumed (gw_approvals g) ⊆ as_consumed (gw_approvals g1) /\ gw_replay g1 = gw_replay g).
  { destruct (declaration_is_write _); [|by subst]. destruct Hw as [_ Hcons _ _ _ (l' & ap & n & ->)]. split; [|done].
    rewrite Hcons. destruct (needs_binding cl); set_solver. }
  destruct Hg1 as [Hcons Hrp]. split; [done|]. intros k Hk. apply (cm_replay _ _ _ _ _ _ _ _ Hm). cbn. by rewrite Hrp.
Qed.

Lemma run_consumed es g :
  as_consumed (gw_approvals g) ⊆ as_consumed (gw_approvals (gateway_run es g))
  /\ forall k, is_Some (rs_entries (gw_replay g) !! k) -> is_Some (rs_entries (gw_replay (gateway_run es g)) !! k).
Proof.
  revert g. induction es as [|e es IH]; intros g; [done|]. destruct (step_consumed e g) as [H1 H2], (IH (gateway_step e g)) as [H3 H4].
  split; [by etrans|auto].
Qed.

(** *** The theorems *)

(** What a terminal record says of an outcome. *)
Definition says (p : payload) (o : GatewayOutcome) : Prop :=
  dget "kind" p = Some (VStr "TERMINAL") /\ dget "request_id" p = Some (VStr (go_request o))
  /\ dget "outcome" p = Some (VStr (outcome_class_value (go_outcome o)))
  /\ dget "reason_code" p = Some (VStr (provider_reason_value (go_reason o)))
  /\ dget "provider_call_count" p = Some (VInt (go_calls o)).


Definition called g (ck : Moments) (a : AdapterAnswer) (rq : ProviderRequest) : Prop :=
  gw_log (snd (invoke sha256_hex ck a rq g)) <> gw_log g.
(** The request is one for a write; and one that has to bring an approval. *)
Definition is_write_of g (rq : ProviderRequest) : Prop :=
  exists cl, admissible g rq cl /\ declaration_is_write (cl_declaration cl) = true.
Definition needs_approval_of g (rq : ProviderRequest) : Prop :=
  exists cl, admissible g rq cl /\ declaration_is_write (cl_declaration cl) = true /\ needs_binding cl = true.

Lemma admissible_unique g rq cl1 cl2 : admissible g rq cl1 -> admissible g rq cl2 -> cl1 = cl2.
Proof. intros H1%clear_request_spec H2%clear_request_spec. congruence. Qed.

Lemma called_cases ck a rq g :
  called g ck a rq -> exists cl hs g1, admissible g rq cl
    /\ (if declaration_is_write (cl_declaration cl) then write_ready sha256_hex g rq cl g1 else g1 = g)
    /\ call_made sha256_hex (add_resolution g1) rq cl hs a (fst (invoke sha256_hex ck a rq g)) (gateway_step (Invoked ck a rq) g).
Proof.
  intros Hc. destruct (step_invocation ck a rq g) as [l (l' & ap & n & Hg) _ _ _|cl hs g1 Had Hw Hcr Hm].
  - exfalso. apply Hc. cbn [gateway_step] in Hg. by rewrite Hg.
  - by exists cl, hs, g1.
Qed.

(** [C16] Approvals and keys are used once: of two calls, however far apart and whatever came between, two that
    needed an approval brought different ones; and if the first was a write that succeeded under a key, the
    second is no write under that key. *)
Theorem provider_writes_are_single g ck a rq es ck2 a2 rq2 :
  called g ck a rq ->
  let g2 := gateway_run es (gateway_step (Invoked ck a rq) g) in
  called g2 ck2 a2 rq2 ->
  (needs_approval_of g rq -> needs_approval_of g2 rq2 -> pq_approval rq2 <> pq_approval rq)
  /\ (forall o, fst (invoke sha256_hex ck a rq g) = Ok o -> go_outcome o = O_SUCCESS -> pq_key rq <> "" ->
      is_write_of g rq -> is_write_of g2 rq2 -> pq_key rq2 <> pq_key rq).
Proof.
  intros Hc1 g2 Hc2. destruct (called_cases _ _ _ _ Hc1) as (cl & hs & g1 & Had & Hw & Hm).
  destruct (called_cases _ _ _ _ Hc2) as (cl2 & hs2 & g3 & Had2 & Hw2 & _).
  destruct (run_consumed es (gateway_step (Invoked ck a rq) g)) as [Hcons Hkeys]. fold g2 in Hcons, Hkeys. split.
  - intros (c & Hc & Hcw & Hn) (c2 & Hc' & Hcw2 & Hn2) E.
    rewrite <- (admissible_unique _ _ _ _ Had Hc) in Hcw, Hn. rewrite <- (admissible_unique _ _ _ _ Had2 Hc') in Hcw2, Hn2.
    rewrite Hcw in Hw. rewrite Hcw2 in Hw2. destruct (wr_approval _ _ _ _ _ Hw2 Hn2) as (d & _ & _ & Hfresh).
    apply Hfresh. rewrite E. apply Hcons. rewrite (cm_approvals _ _ _ _ _ _ _ _ Hm). cbn [gw_approvals add_resolution].
    rewrite (wr_consumed _ _ _ _ _ Hw), Hn. set_solver.
  - intros o Ho Hs Hk (c & Hc & Hcw) (c2 & Hc' & Hcw2) E.
    rewrite <- (admissible_unique _ _ _ _ Had Hc) in Hcw. rewrite <- (admissible_unique _ _ _ _ Had2 Hc') in Hcw2.
    rewrite Hcw2 in Hw2. destruct (wr_fresh _ _ _ _ _ Hw2) as [_ Hnone]; [by rewrite E|].
    destruct (cm_outcome _ _ _ _ _ _ _ _ Hm o Ho) as (_ & _ & _ & _ & _ & Hkept).
    specialize (Hkept Hcw Hk Hs). apply Hkeys in Hkept. rewrite <- E, Hnone in Hkept. by destruct Hkept.
Qed.

Lemma recorded_says l l' o :
  recorded_outcome sha256_hex l l' o -> exists p, retained l' = retained l ++ [p] /\ says p o.
Proof.
  intros (r & Hx & Ha & Hk & Hq & Ho & Hr & Hn). exists (entry_of l r).
  split; [by apply (appended_retained sha256_hex)|]. unfold says. rewrite <- Hq, <- Ho, <- Hr, <- Hn.
  assert (E : audit_kind_value (ar_kind r) = "TERMINAL") by by rewrite Hk.
  split_and!; [|done..]. by rewrite entry_kind, E.
Qed.

Lemma invocation_recorded ck a rq g o :
  fst (invoke sha256_hex ck a rq g) = Ok o -> ~ unrecorded rq o ->
  go_request o = pq_id rq /\ exists more p, retained (gw_audit (gateway_step (Invoked ck a rq) g)) = retained (gw_audit g) ++ more ++ [p]
    /\ says p o.
Proof.
  intros Ho Hu. destruct (step_invocation ck a rq g) as [l _ _ Hl Hr|cl hs g1 Had Hw Hcr Hm].
  - rewrite Ho in Hr. destruct Hr as (Hq & _ & [Hr|[? _]]); [|done]. split; [done|].
    destruct (grows_retained _ _ Hl) as (more & Hmore), (recorded_says _ _ _ Hr) as (p & Hp & Hs).
    exists more, p. by rewrite Hp, Hmore, <- app_assoc.
  - destruct (cm_outcome _ _ _ _ _ _ _ _ Hm o Ho) as (Hq & _ & _ & _ & Hr & _). split; [done|].
    apply recorded_says in Hr as (p & Hp & Hs). cbn [gw_audit add_resolution] in Hp.
    assert (Hg1 : ledger_grows (gw_audit g) (gw_audit g1)).
    { destruct (declaration_is_write _); [|by subst]. destruct Hw as [_ _ _ _ (r & op & Hx & _ & _ & _ & _ & _ & Happ) _].
      apply rtc_once. by exists r. }
    destruct (grows_retained _ _ Hg1) as (more & Hmore). exists more, p. by rewrite Hp, Hmore, <- app_assoc.
Qed.

Lemma requests_app k ps qs : requests_of k (ps ++ qs) = requests_of k ps ++ requests_of k qs.
Proof. apply omap_app. Qed.

Lemma says_request p o : says p o -> requests_of Kind_TERMINAL [p] = [VStr (go_request o)].
Proof.
  intros (Hk & Hq & _). unfold requests_of. cbn [omap list_omap]. rewrite Hk, Hq. by rewrite bool_decide_eq_true_2.
Qed.

(** A gateway at its start, over a sink without records. *)
Variable reg : ProviderRegistry.
Variable policy : PolicyPort.
Variable scopes : ScopeResolver.
Variable broker : ProviderCredentialBroker.
Variable adapters : gset string.
Variable sink : S.
Abbreviation start := (new_gateway reg policy scopes broker (new_ledger sink) adapters).

Lemma start_inv es : sink_retained sink = [] -> ledger_inv sha256_hex (gw_audit (gateway_run es start)).
Proof. intros Hs. apply run_ledger. cbn [gw_audit new_gateway]. by apply empty_ledger_inv. Qed.


(** [C33] The chain is evidence: after any history the retained records verify against the head of the ledger, and
    any corpus that verifies is the retained one, record by record and in order - or exhibits two texts with
    one SHA-256, or a text whose SHA-256 is the genesis link. *)
Theorem integration_chain_is_evident es ps :
  sink_retained sink = [] -> Forall (fun p : payload => NoDup (dkeys p)) ps ->
  let l := gw_audit (gateway_run es start) in
  verify_chain sha256_hex (retained l) l = Ok true
  /\ (verify_chain sha256_hex ps l = Ok true ->
      map (fun p => normal (VDict p)) ps = map (fun p => normal (VDict p)) (retained l)
      \/ collision sha256_hex \/ genesis_preimage sha256_hex).
Proof.
  intros Hs Hp. cbn zeta. split; [by apply inv_verifies, start_inv|]. apply inv_evident; [by apply start_inv|done].
Qed.
End Histories.

(** ** Readiness *)

Section Readiness.

Inductive readiness_call : Type := ReportsApplied (rs : list HealthReport) | ReportsPromoted (rs : list HealthReport).
Definition readiness_reports (c : readiness_call) : list HealthReport :=
  match c with ReportsApplied rs | ReportsPromoted rs => rs end.
Definition readiness_step (c : readiness_call) (reg : ProviderRegistry) : ProviderRegistry :=
  match c with
  | ReportsApplied rs => snd (apply_health rs reg)
  | ReportsPromoted rs => snd (promote_configured rs reg)
  end.
Definition readiness_run (cs : list readiness_call) (reg : ProviderRegistry) : ProviderRegistry :=
  foldl (fun reg c => readiness_step c reg) reg cs.

(** Reports that come from a probe of some manifest. *)
Definition probed (rs : list HealthReport) : Prop :=
  exists execute headers_for paths m, probe_manifest execute headers_for paths m = Ok rs.

Lemma classify_state o c : hr_state (classify_probe o c) <> Cap_CONFIGURED.
Proof.
  unfold classify_probe. destruct (negb _); [by destruct (_ || _)|]. destruct (po_status o =? 200); [done|].
  destruct (_ || _); [done|]. destruct (po_status o =? 429); [done|]. by destruct (declaration_is_write c).
Qed.

Lemma probed_states rs : probed rs -> Forall (fun r => hr_state r <> Cap_CONFIGURED) rs.
Proof.
  intros (ex & hf & paths & m & Hp). unfold probe_manifest in Hp. apply rmap_Ok in Hp.
  induction Hp as [|c r cs rs Hr _ IH]; constructor; [|done].
  unfold probe_capability in Hr. destruct (paths !! cd_id c); [|by injection Hr as <-].
  destruct (cd_hosts c); [done|]. injection Hr as <-. apply classify_state.
Qed.

(** One capability left [CONFIGURED], and no report says [CONFIGURED]: its state only falls; nothing else
    of the registry changes but states that are there. *)
Record demoted (reg reg' : ProviderRegistry) : Prop := {
  de_manifests : pr_manifests reg' = pr_manifests reg;
  de_dom : forall cid, is_Some (pr_states reg' !! cid) <-> is_Some (pr_states reg !! cid);
  de_falls cid s : pr_states reg !! cid = Some s -> s <> Cap_CONFIGURED ->
    exists s', pr_states reg' !! cid = Some s' /\ STATE_RANK s' <= STATE_RANK s /\ s' <> Cap_CONFIGURED
}.

Lemma demoted_refl reg : demoted reg reg.
Proof. split; [done|done|]. intros cid s Hs Hc. by exists s. Qed.
Lemma demoted_trans r1 r2 r3 : demoted r1 r2 -> demoted r2 r3 -> demoted r1 r3.
Proof.
  intros [M1 D1 F1] [M2 D2 F2]. split; [by rewrite M2|intros; by rewrite D2|].
  intros cid s Hs Hc. destruct (F1 cid s Hs Hc) as (s1 & Hs1 & Hr1 & Hc1), (F2 cid s1 Hs1 Hc1) as (s2 & ? & ? & ?).
  exists s2. split_and!; [done|lia|done].
Qed.

Lemma set_readiness_demoted cid new reg current :
  pr_states reg !! cid = Some current ->
  (current <> Cap_CONFIGURED -> STATE_RANK new <= STATE_RANK current /\ new <> Cap_CONFIGURED) ->
  demoted reg (set_readiness cid new reg).
Proof.
  intros Hcur Hnew. split; [done| |].
  - intros k. unfold set_readiness. cbn [pr_states]. destruct (decide (cid = k)) as [<-|Hne].
    + rewrite lookup_insert_eq, Hcur. split; intros _; by eexists.
    + by rewrite lookup_insert_ne.
  - intros k s Hs Hc. unfold set_readiness. cbn [pr_states]. destruct (decide (cid = k)) as [<-|Hne].
    + rewrite lookup_insert_eq. rewrite Hcur in Hs. injection Hs as ->. destruct (Hnew Hc). by exists new.
    + rewrite lookup_insert_ne by done. by exists s.
Qed.

Lemma lookup_state_Ok cid reg s : lookup_state cid reg = Ok s -> pr_states reg !! cid = Some s.
Proof. unfold lookup_state. destruct (_ !! cid); [|done]. by intros [= ->]. Qed.

Lemma apply_report_demoted r reg : hr_state r <> Cap_CONFIGURED -> demoted reg (snd (apply_report r reg)).
Proof.
  intros Hr. unfold apply_report. destruct (lookup_state _ _) as [cur|e] eqn:E; [|apply demoted_refl].
  apply lookup_state_Ok in E. cbn [snd]. eapply set_readiness_demoted; [exact E|].
  intros Hc. destruct (Z.leb_spec (STATE_RANK (hr_state r)) (STATE_RANK cur)); split; done || lia.
Qed.

Lemma promote_report_demoted r reg : hr_state r <> Cap_CONFIGURED -> demoted reg (snd (promote_report r reg)).
Proof.
  intros Hr. unfold promote_report. destruct (lookup_state _ _) as [cur|e] eqn:E; [|apply demoted_refl].
  destruct (negb _) eqn:Hn; [by apply apply_report_demoted|]. apply negb_false_iff, bool_decide_eq_true in Hn as ->.
  destruct (lookup_capability _ _) as [c|e]; [|apply demoted_refl]. cbn [snd].
  eapply set_readiness_demoted; [by apply lookup_state_Ok|]. by intros [].
Qed.

Lemma each_report_demoted turn rs reg :
  (forall r reg, hr_state r <> Cap_CONFIGURED -> demoted reg (snd (turn r reg))) ->
  Forall (fun r => hr_state r <> Cap_CONFIGURED) rs -> demoted reg (snd (each_report turn rs reg)).
Proof.
  intros Ht Hrs. revert reg. induction Hrs as [|r rs Hr _ IH]; intros reg; [apply demoted_refl|].
  cbn [each_report]. rewrite sbind_unfold. pose proof (Ht r reg Hr) as H1. destruct (turn r reg) as [[a|e] reg1]; [|done].
  rewrite sbind_unfold. pose proof (IH reg1) as H2. fold (each_report turn) in *.
  destruct (each_report turn rs reg1) as [[l|e] reg2]; by eapply demoted_trans.
Qed.

(** What a probe said is never raised: over any sequence of probe reports, applied or promoted, no capability
    appears or disappears and no manifest changes; and a capability that has left [CONFIGURED] only falls, so
    it is usable in the end only if it was before. *)
Theorem probed_readiness_never_rises cs reg :
  Forall (fun c => probed (readiness_reports c)) cs -> demoted reg (readiness_run cs reg).
Proof.
  intros Hcs. revert reg. induction Hcs as [|c cs Hc _ IH]; intros reg; [apply demoted_refl|].
  eapply demoted_trans; [|apply IH]. apply probed_states in Hc. destruct c as [rs|rs]; cbn [readiness_step].
  - apply each_report_demoted; [apply apply_report_demoted|done].
  - apply each_report_demoted; [apply promote_report_demoted|done].
Qed.
End Readiness.

(** ** Manifests *)

Lemma provider_identifier_Ok raw f s : provider_identifier raw f = Ok s -> PROVIDER_IDENTIFIER_RE s = true.
Proof. unfold provider_identifier, manifest_if. intros Hp. res_inv. by bool_prop. Qed.

Lemma provider_scope_Ok raw f s : provider_scope raw f = Ok s -> contains "*" s = false.
Proof. unfold provider_scope, manifest_if. intros Hp. res_inv. by bool_prop. Qed.

Lemma rmap_all {E A B} (f : A -> result E B) (P : B -> Prop) xs ys :
  (forall x y, f x = Ok y -> P y) -> rmap f xs = Ok ys -> Forall P ys.
Proof. intros Hf Hr%rmap_Ok. induction Hr; constructor; eauto. Qed.

(** What a constructed declaration satisfies. *)
Record declaration_wf (c : CapabilityDeclaration) : Prop := {
  dw_id : is_secret_shaped (cd_id c) = false;
  dw_scopes : cd_scopes c <> [] /\ Z.of_nat (length (cd_scopes c)) <= PROVIDER_MAX_SCOPES /\ NoDup (cd_scopes c);
  dw_wildcard : Forall (fun s => contains "*" s = false) (cd_scopes c);
  dw_hosts : cd_hosts c <> [] /\ Z.of_nat (length (cd_hosts c)) <= PROVIDER_MAX_EGRESS_HOSTS;
  dw_bytes : PROVIDER_MIN_RESULT_BYTES <= cd_max_bytes c <= PROVIDER_MAX_RESULT_BYTES;
  dw_deadline : 1 <= cd_deadline c <= PROVIDER_MAX_DEADLINE_MS;
  dw_class : if declaration_is_write c
             then mutates (cd_mutation c) = true /\ cd_idempotency c <> Idem_READ /\ is_read_only_tier (cd_tier c) = false
             else mutates (cd_mutation c) = false /\ cd_idempotency c = Idem_READ /\ is_read_only_tier (cd_tier c) = true
}.

Lemma bounded_int_Ok v f lo hi n : bounded_int v f lo hi = Ok n -> n = v /\ lo <= v <= hi.
Proof. unfold bounded_int, manifest_if. intros Hb. res_inv. bool_prop. lia. Qed.

Lemma check_class_Ok c u : check_class c = Ok u ->
  if declaration_is_write c
  then mutates (cd_mutation c) = true /\ cd_idempotency c <> Idem_READ /\ is_read_only_tier (cd_tier c) = false
  else mutates (cd_mutation c) = false /\ cd_idempotency c = Idem_READ /\ is_read_only_tier (cd_tier c) = true.
Proof.
  unfold check_class, declaration_is_write, class_is_write, manifest_if.
  destruct (cd_class c); cbn; intros Hc; res_inv; bool_prop; by split_and!.
Qed.

Lemma sort_str_keeps (P : string -> Prop) l : Forall P l -> Forall P (sort_str l).
Proof. intros Hl. unfold sort_str. by rewrite sort_by_perm. Qed.

Lemma sort_str_nil l : sort_str l = [] -> l = [].
Proof. intros Hl. apply nil_length_inv. rewrite <- (length_sort_by id l). unfold sort_str in Hl. by rewrite Hl. Qed.

Lemma capability_declaration_wf c c' : capability_declaration c = Ok c' -> declaration_wf c'.
Proof.
  unfold capability_declaration, reject_secret_shaped, manifest_if, longer_than, repeats. intros Hc. res_inv.
  repeat match goal with Hb : bounded_int _ _ _ _ = Ok _ |- _ => apply bounded_int_Ok in Hb as [-> ?] end.
  bool_prop.
  match goal with Hs : rmap (fun s => provider_scope _ _) _ = Ok _ |- _ => apply (rmap_all _ (fun s => contains "*" s = false)) in Hs; [|by intros ? ? ?%provider_scope_Ok] end.
  split; cbn; try done.
  - split_and!; [by intros ?%sort_str_nil| |].
    + unfold sort_str. rewrite length_sort_by. lia.
    + unfold sort_str. by rewrite sort_by_perm.
  - by apply sort_str_keeps.
  - split; [by intros ?%sort_str_nil|]. unfold sort_str. rewrite length_sort_by. lia.
  - by eapply (check_class_Ok c).
Qed.

(** What a manifest grants to a capability. *)
Record capability_contained (m : ProviderManifest) (c : CapabilityDeclaration) : Prop := {
  ct_id : String.prefix (pm_id m +:+ ".") (cd_id c) = true;
  ct_credential : cd_credential c ∈ domain_capability_ids (pm_domain m);
  ct_scopes : forall s, s ∈ cd_scopes c -> s ∈ granted_to (pm_domain m) (cd_credential c);
  ct_write : declaration_is_write c = true -> dom_write (pm_domain m) = Some (cd_credential c) /\ dom_read (pm_domain m) <> Some (cd_credential c);
  ct_lookup : manifest_capability m (cd_id c) = Ok c
}.

Lemma check_capability_Ok pid d c u :
  check_capability pid d c = Ok u ->
  String.prefix (pid +:+ ".") (cd_id c) = true /\ cd_credential c ∈ domain_capability_ids d
  /\ (forall s, s ∈ cd_scopes c -> s ∈ granted_to d (cd_credential c))
  /\ (declaration_is_write c = true -> dom_write d = Some (cd_credential c) /\ dom_read d <> Some (cd_credential c)).
Proof.
  unfold check_capability, manifest_if, granted_to, domain_contains. intros Hc.
  apply rbind_Ok in Hc as (u1 & Hp%raise_if_Ok & Hc). apply rbind_Ok in Hc as (u2 & Hd%raise_if_Ok & Hc).
  destruct (dget (cd_credential c) (dom_granted d)) as [granted|]; [|done].
  apply rbind_Ok in Hc as (u3 & Hs%raise_if_Ok & Hw%raise_if_Ok). apply negb_false_iff in Hp, Hd, Hs. apply str_in_elem in Hd.
  split_and!; [done|done| |].
  - intros s Hin. apply str_in_elem. rewrite forallb_forall in Hs. apply Hs. by apply list_elem_of_In.
  - intros Hwr. rewrite Hwr in Hw. cbn [andb] in Hw. apply bool_decide_eq_false in Hw. split; [|congruence].
    unfold domain_capability_ids in Hd. apply elem_of_app in Hd as [Hd|Hd].
    + exfalso. apply Hw. destruct (dom_read d) as [r|]; cbn in Hd; [|by apply elem_of_nil in Hd].
      apply list_elem_of_singleton in Hd. by rewrite Hd.
    + destruct (dom_write d) as [w|]; cbn in Hd; [|by apply elem_of_nil in Hd].
      apply list_elem_of_singleton in Hd. by rewrite Hd.
Qed.

Lemma find_by_id (l : list CapabilityDeclaration) c :
  NoDup (map cd_id l) -> c ∈ l -> List.find (fun x => String.eqb (cd_id x) (cd_id c)) l = Some c.
Proof.
  induction l as [|x l IH]; intros Hn Hc; [by apply elem_of_nil in Hc|]. cbn [List.find].
  destruct (String.eqb_spec (cd_id x) (cd_id c)) as [E|E].
  - f_equal. apply (NoDup_map_eq cd_id (x :: l) x c Hn); [by apply elem_of_cons; left|done|done].
  - apply elem_of_cons in Hc as [->|Hc]; [done|]. cbn [map] in Hn. apply NoDup_cons in Hn as [_ Hn]. auto.
Qed.

(** [C34] A manifest that loads is least-privilege: of the contract's version and with at most thirty-two
    capabilities of distinct names; each named under the provider, bound to a credential of its own domain
    that has every scope it declares - a write to the write credential, which is not the read credential -
    with explicit scopes and hosts, bounded result and deadline, a name that is not secret-shaped, and a
    class that agrees with its effects; and each is found under its name. *)
Theorem manifests_are_least_privilege m m' :
  provider_manifest m = Ok m' ->
  Forall (fun c => exists c0, capability_declaration c0 = Ok c) (pm_capabilities m) ->
  pm_contract m' = PROVIDER_CONTRACT_VERSION /\ pm_capabilities m' <> []
  /\ Z.of_nat (length (pm_capabilities m')) <= PROVIDER_MAX_CAPABILITIES /\ NoDup (map cd_id (pm_capabilities m'))
  /\ pm_capabilities m' ≡ₚ pm_capabilities m /\ dom_provider (pm_domain m') = pm_id m'
  /\ forall c, c ∈ pm_capabilities m' -> declaration_wf c /\ capability_contained m' c.
Proof.
  intros Hm Hmade. unfold provider_manifest, manifest_if, longer_than, repeats in Hm.
  apply rbind_Ok in Hm as (pid & _ & Hm). apply rbind_Ok in Hm as (u1 & _ & Hm).
  apply rbind_Ok in Hm as (u2 & Hv%raise_if_Ok & Hm). apply rbind_Ok in Hm as (u3 & Hc%raise_if_Ok & Hm).
  apply rbind_Ok in Hm as (u4 & Hn%raise_if_Ok & Hm). apply rbind_Ok in Hm as (u5 & Hd%raise_if_Ok & Hm).
  apply rbind_Ok in Hm as (u6 & Hall & [= <-]). bool_prop. cbn [pm_contract pm_capabilities pm_domain pm_id].
  assert (Hp : sort_by cd_id (pm_capabilities m) ≡ₚ pm_capabilities m) by apply sort_by_perm.
  assert (Hnd : NoDup (map cd_id (sort_by cd_id (pm_capabilities m)))) by by rewrite Hp.
  split_and!; try done.
  - intros E. rewrite E in Hp. by apply Permutation_nil_l in Hp.
  - rewrite length_sort_by. lia.
  - intros c Hin. assert (Hin' : c ∈ pm_capabilities m) by by rewrite <- Hp. split.
    + rewrite Forall_forall in Hmade. destruct (Hmade c Hin') as (c0 & Hc0). by eapply capability_declaration_wf.
    + rewrite rfor_Ok, Forall_forall in Hall. destruct (check_capability_Ok _ _ _ _ (Hall c Hin')) as (? & ? & ? & ?).
      split; try done. unfold manifest_capability. cbn [pm_capabilities]. by rewrite find_by_id.
Qed.
