(* ===== verification/ProviderWitness.v ===== *)
(** * Concrete invocations of the provider gateway

    A provider with a read and a write, on which the theorems are applied; and runs that show corner
    cases of the code. *)
From S2P Require Import Prelude.
From S2P Require Import PyText.
From S2P Require Import PyValue.
From S2P Require Import Canonical.
From S2P Require Import ToolSchema.
From S2P Require Import MutationContract.
From S2P Require Import ProviderContract.
From S2P Require Import ProviderRegistry.
From S2P Require Import ProviderCredentials.
From S2P Require Import ProviderAudit.
From S2P Require Import ProviderGateway.
From S2P Require Import ProviderGuarantees.

Module Gateways.

(** A digest without collisions. *)
Definition sha (s : string) : string := "#" +:+ s.

Definition read_issues : CapabilityDeclaration :=
  mkDeclaration "demo.issues_read" DIRECT_READ "demo_read" "demo_reader" T1 Class_NONE Idem_READ ["issues:read"]
    ["api.demo.test"] 4096 5000 false.
Definition create_issue : CapabilityDeclaration :=
  mkDeclaration "demo.issue_create" DIRECT_WRITE "demo_write" "demo_writer" T2 Class_STANDARD Idem_KEYED_IDEMPOTENT
    ["issues:write"] ["api.demo.test"] 4096 5000 true.
Definition note_issue : CapabilityDeclaration :=
  mkDeclaration "demo.issue_note" DIRECT_WRITE "demo_write" "demo_writer" T2 Class_LOW Idem_KEYED_IDEMPOTENT
    ["issues:write"] ["api.demo.test"] 4096 5000 false.
Definition demo_domain : CredentialDomain :=
  mkDomain "demo" (Some "demo_reader") (Some "demo_writer")
    [("demo_reader", ["issues:read"]); ("demo_writer", ["issues:read"; "issues:write"])].
Definition raw_manifest : ProviderManifest :=
  mkProviderManifest "demo" " 1.0 " "1" [read_issues; create_issue; note_issue] demo_domain Lane_ACCEPTED.
Definition manifest : ProviderManifest :=
  mkProviderManifest "demo" "1.0" "1" [create_issue; note_issue; read_issues] demo_domain Lane_ACCEPTED.

Lemma manifest_loads : provider_manifest raw_manifest = Ok manifest.
Proof. by vm_compute. Qed.

Definition configured : ProviderRegistry :=
  match build_provider_registry ["demo"] ["demo_read"; "demo_write"] [manifest] with
  | Ok reg => reg
  | Err _ => new_provider_registry [] []
  end.
Definition ready_reports : list HealthReport :=
  map (fun c => mkReport c Cap_READY P_OK) ["demo.issues_read"; "demo.issue_create"; "demo.issue_note"].
Definition registry : ProviderRegistry := snd (promote_configured ready_reports configured).

Definition policy : PolicyPort :=
  mkPolicyPort (list_to_map [("demo.issues_read", "ALLOW"); ("demo.issue_create", "ALLOW"); ("demo.issue_note", "ALLOW")]) true.
Definition scopes : ScopeResolver :=
  list_to_map (map (fun c => (c, ["team/repo"])) ["demo.issues_read"; "demo.issue_create"; "demo.issue_note"]).
Definition material (hs : headers) : option headers := Some (hs ++ [("authorization", "opaque")]).
Definition broker : ProviderCredentialBroker :=
  snd (register_credential (mkCredential "demo" "demo_writer" true material false)
    (snd (register_credential (mkCredential "demo" "demo_reader" true material false) (new_broker {["demo" := demo_domain]})))).
Abbreviation start := (new_gateway registry policy scopes broker (new_ledger new_memory_sink) {["demo"]}).

Definition ck : Moments := mkMoments 1000000 3000000 2000000 3000000 9000000.
Definition request (id capability approval key : string) : ProviderRequest :=
  mkProviderRequest id "agent" "demo" capability "team/repo" [("title", VStr "x")] approval "" key "DIRECT".
Definition created : AdapterAnswer := Returned (VDict [("number", VInt 7)]) 20 1.

Definition digest_of (rq : ProviderRequest) : string :=
  match operation_digest sha rq with Ok h => h | Err _ => "" end.
Definition create1 : ProviderRequest := request "r1" "demo.issue_create" "a1" "k1".
Definition create2 : ProviderRequest := request "r2" "demo.issue_create" "a2" "k2".
Definition approvals : list (gateway_event (S := MemoryAuditSink)) :=
  [ApprovalGranted "a1" (digest_of create1); ApprovalGranted "a2" (digest_of create2)].
Abbreviation approved := (gateway_run sha approvals start).
Abbreviation result_of g a rq := (fst (invoke sha ck a rq g)).
Abbreviation after g a rq := (snd (invoke sha ck a rq g)).

(** The write is made, once, with its headers and its budget; the second request of its approval is refused. *)
Example write_is_made :
  (result_of approved created create1, gw_log (after approved created create1))
  = (Ok (mkGatewayOutcome "r1" O_SUCCESS P_OK [("number", VInt 7)] false 1 1 20 8),
     [mkCall create1 [("authorization", "opaque")] 5000]).
Proof. by vm_compute. Qed.

Example approval_is_spent :
  result_of (after approved created create1) created (request "r3" "demo.issue_create" "a1" "k3")
  = Ok (mkGatewayOutcome "r3" O_REFUSED E_APPROVAL_MISSING [] false 0 0 0 2).
Proof. by vm_compute. Qed.

Ltac admitted := eexists; split; [apply clear_request_spec; vm_compute; reflexivity|vm_compute; try split; reflexivity].

Lemma provider_writes_are_single_witness :
  (needs_approval_of approved create1 -> needs_approval_of (after approved created create1) create2 -> "a2" <> "a1")
  /\ (forall o, result_of approved created create1 = Ok o -> go_outcome o = O_SUCCESS -> "k1" <> "" ->
      is_write_of approved create1 -> is_write_of (after approved created create1) create2 -> "k2" <> "k1").
Proof.
  apply (provider_writes_are_single sha approved ck created create1 [] ck created create2);
    unfold called; vm_compute; discriminate.
Defined.


Lemma both_need_approval : needs_approval_of approved create1 /\ needs_approval_of (after approved created create1) create2.
Proof. split; admitted. Qed.


Lemma integration_chain_is_evident_witness :
  let l := gw_audit (gateway_run sha (approvals ++ [Invoked ck created create1]) start) in
  verify_chain sha (retained l) l = Ok true
  /\ (verify_chain sha (retained l) l = Ok true ->
      map (fun p => normal (VDict p)) (retained l) = map (fun p => normal (VDict p)) (retained l)
      \/ collision sha \/ genesis_preimage sha).
Proof.
  apply (integration_chain_is_evident sha registry policy scopes broker {["demo"]} new_memory_sink
           (approvals ++ [Invoked ck created create1])).
  - reflexivity.
  - vm_compute. repeat constructor; set_solver.
Defined.

(** Dropping the intent, or changing an outcome, is noticed. *)
Example tampering_is_noticed :
  let l := gw_audit (gateway_run sha (approvals ++ [Invoked ck created create1]) start) in
  verify_chain sha (drop 1 (retained l)) l = Ok false
  /\ verify_chain sha (map (dset "outcome" (VStr "refused")) (retained l)) l = Ok false
  /\ length (retained l) = 2%nat.
Proof. by vm_compute. Qed.

Definition down : ProbeRequest -> ProbeOutcome := fun _ => mkOutcome 503 0 P_OK.
Definition probe_paths : gmap string string := {["demo.issue_create" := "/health"]}.
Definition down_reports : list HealthReport :=
  match probe_manifest down (fun _ => []) probe_paths manifest with Ok rs => rs | Err _ => [] end.

Lemma probed_readiness_never_rises_witness :
  probed down_reports /\ demoted registry (readiness_run [ReportsApplied down_reports; ReportsPromoted down_reports] registry).
Proof.
  assert (Hp : probed down_reports) by (exists down, (fun _ => []), probe_paths, manifest; reflexivity).
  split; [exact Hp|]. apply (probed_readiness_never_rises [ReportsApplied down_reports; ReportsPromoted down_reports]).
  repeat constructor; exact Hp.
Defined.

Lemma manifests_are_least_privilege_witness :
  provider_manifest raw_manifest = Ok manifest /\ forall c, c ∈ pm_capabilities manifest -> declaration_wf c /\ capability_contained manifest c.
Proof.
  split; [vm_compute; reflexivity|].
  apply (manifests_are_least_privilege raw_manifest manifest).
  - vm_compute. reflexivity.
  - repeat constructor; [exists read_issues|exists create_issue|exists note_issue]; vm_compute; reflexivity.
Defined.

(** ** Corner cases *)

(** A read under [APPROVAL_REQUIRED] is made without any approval. *)
Example read_needs_no_approval :
  let g := gateway_step sha (PolicyChanged (policy_set "demo.issues_read" "APPROVAL_REQUIRED" policy)) start in
  result_of g created (request "r" "demo.issues_read" "" "")
  = Ok (mkGatewayOutcome "r" O_SUCCESS P_OK [("number", VInt 7)] false 1 1 20 8).
Proof. by vm_compute. Qed.

(** The second read of one request identifier is made, and then raises: there is no record of it. *)
Example reused_identifier_calls_and_raises :
  let rq := request "r" "demo.issues_read" "" "" in
  let g := after start created rq in
  (result_of g created rq, length (gw_log (after g created rq)), length (retained (gw_audit (after g created rq))))
  = (Err (GatewayAudit (AuditError E_AUDIT_UNAVAILABLE "r")), 2%nat, 1%nat).
Proof. by vm_compute. Qed.

(** A read for a principal whose name is secret-shaped is made, and then cannot be recorded. *)
Example unrecordable_principal_calls_and_raises :
  let rq := mkProviderRequest "r" "token" "demo" "demo.issues_read" "team/repo" [] "" "" "" "DIRECT" in
  (result_of start created rq, length (gw_log (after start created rq)), retained (gw_audit (after start created rq)))
  = (Err (GatewayAudit (AuditError E_AUDIT_UNAVAILABLE "redaction")), 1%nat, []).
Proof. by vm_compute. Qed.

(** A write whose result is too large is reported as refused and not kept under its key: the same request,
    under a new identifier, is made again. *)
Example oversized_write_is_repeated :
  let big := Returned (VDict []) 5000 1 in
  let g := after start big (request "r1" "demo.issue_note" "" "k") in
  (result_of start big (request "r1" "demo.issue_note" "" "k"), length (gw_log (after g big (request "r2" "demo.issue_note" "" "k"))))
  = (Ok (mkGatewayOutcome "r1" O_REFUSED E_PROVIDER_RESULT_TOO_LARGE [] false 1 1 5000 8), 2%nat).
Proof. by vm_compute. Qed.

(** So is a write of unknown outcome; and of an adapter that reports a deadline, no call is counted. *)
Example unknown_write_is_repeated :
  let g := after start (Denied E_PROVIDER_DEADLINE) (request "r1" "demo.issue_note" "" "k") in
  let g' := after g created (request "r2" "demo.issue_note" "" "k") in
  (gw_unknown g, gw_calls g, length (gw_log g), length (gw_log g')) = (["r1"], 0, 1%nat, 2%nat).
Proof. by vm_compute. Qed.

(** A replay asks for an approval of its own before it is recognised as one. *)
Example replay_needs_an_approval :
  result_of (after approved created create1) created (request "r3" "demo.issue_create" "a1" "k1")
  = Ok (mkGatewayOutcome "r3" O_REFUSED E_APPROVAL_MISSING [] false 0 0 0 2).
Proof. by vm_compute. Qed.

(** Arguments without a canonical text raise, unrecorded. *)
Example float_arguments_raise :
  let rq := mkProviderRequest "r" "agent" "demo" "demo.issue_note" "team/repo" [("x", VFloat 1 (-1))] "" "" "k" "DIRECT" in
  (result_of start created rq, retained (gw_audit (after start created rq))) = (Err (GatewayPython TypeError), []).
Proof. by vm_compute. Qed.

(** A report of [CONFIGURED] brings a failed capability back to where it can be promoted. *)
Example configured_report_reopens_promotion :
  let reg := readiness_run [ReportsApplied [mkReport "demo.issue_note" Cap_CONFIGURED P_OK]; ReportsPromoted ready_reports] registry in
  (lookup_state "demo.issue_note" (readiness_run [ReportsApplied [mkReport "demo.issue_note" Cap_CONFIGURED P_OK]] registry),
   lookup_state "demo.issue_note" reg) = (Ok Cap_CONFIGURED, Ok Cap_READY).
Proof. by vm_compute. Qed.

(** A rotation that is refused has lifted the revocation. *)
Example refused_rotation_restores :
  let b := revoke_credential "demo" "demo_writer" broker in
  let '(r, b') := rotate_credential (mkCredential "demo" "demo_writer" true material true) b in
  (credential_status "demo" "demo_writer" b, r, credential_status "demo" "demo_writer" b')
  = (false, Err (CredentialError E_CRED_CROSS_DOMAIN "demo_writer"), true).
Proof. by vm_compute. Qed.

(** A provider whose identifier has a dot is registered, and none of its capabilities is ever found. *)
Definition dotted_read : CapabilityDeclaration :=
  mkDeclaration "a.b.read" DIRECT_READ "demo_read" "reader" T1 Class_NONE Idem_READ ["x"] ["api.demo.test"] 4096 5000 false.
Example dotted_provider_is_unreachable :
  let m := provider_manifest (mkProviderManifest "a.b" "1" "1" [dotted_read]
             (mkDomain "a.b" (Some "reader") None [("reader", ["x"])]) Lane_ACCEPTED) in
  exists m' reg, m = Ok m' /\ build_provider_registry ["a.b"] ["demo_read"] [m'] = Ok reg
    /\ lookup_capability "a.b.read" reg = Err (ProviderRegistryError E_PROVIDER_UNKNOWN "a")
    /\ registry_snapshot_payload sha reg = Err (ProviderRegistryError E_PROVIDER_UNKNOWN "a").
Proof. eexists _, _. split_and!; vm_compute; reflexivity. Qed.
End Gateways.
