(* ===== verification/Hybrid.v ===== *)
(** * Deterministic first, reasoning for the residual ([v2/hybrid_execution.py])

    The coordinator resolves an intent, executes what is deterministic, and asks a reasoning step for
    a plan only when the resolver says so; the plan goes through the resolver again.  The executor and
    the reasoning step belong to the caller: in the model they may answer or raise anything, depending
    on everything that was asked before ([log]). *)
From S2P Require Import Prelude.
From S2P Require Import PyText.
From S2P Require Import PyValue.
From S2P Require Import Canonical.
From S2P Require Import MutationContract.
From S2P Require Import ResolverContract.
From S2P Require Import ResolverGraph.
From S2P Require Import Resolver.
From S2P Require Import ResolverGuarantees.
From S2P Require Import ProviderContract.

(** ** What a reasoning step sees and answers *)

Record AgenticContext := mkContext {
  ac_request : string;
  ac_summary : string;
  ac_capabilities : list string;
  ac_targets : list string;
  ac_escalations : Z;
  ac_tokens : Z
}.

(** [AgenticContext.digest] *)
Definition context_digest (sha256_hex : string -> string) (c : AgenticContext) : result py_error string :=
  canonical_hash sha256_hex
    (VDict [("available_capability_ids", VList (map VStr (ac_capabilities c)));
            ("escalations_remaining", VInt (ac_escalations c)); ("intent_summary", VStr (ac_summary c));
            ("request_id", VStr (ac_request c)); ("target_scope_refs", VList (map VStr (ac_targets c)));
            ("token_budget", VInt (ac_tokens c))]).

Record AgenticProposal := mkProposal {
  pp_operations : list IntentOperation;
  pp_tokens : Z;
  pp_abandoned : bool
}.

Inductive shaping_error : Type := ContextShapingError (message : string).

(** Whether a text of [forbidden] occurs in the summary. *)
Definition carries_forbidden (summary : string) (forbidden : list (string * value)) : bool :=
  existsb (fun item => match item.2 with VStr s => negb (String.eqb s "") && contains s summary | _ => false end) forbidden.

(** What [shape_context] hands to [audit_safe]. *)
Definition context_payload (c : AgenticContext) : value :=
  VDict [("intent_summary", VStr (ac_summary c)); ("capability_ids", VList (map VStr (ac_capabilities c)));
         ("targets", VList (map VStr (ac_targets c)))].

(** [shape_context] *)
Definition shape_context (i : ResolverIntent) (b : ResolverBudget) (summary : string) (forbidden : list (string * value))
    : result shaping_error AgenticContext :=
  do! raise_if (carries_forbidden summary forbidden) (ContextShapingError "summary carries forbidden material") in
  let context := mkContext (request_id i) summary (sort_str (dedup (map op_capability (operations i))))
                   (sort_str (dedup (map op_target (operations i))))
                   (Z.max 0 (max_escalations_per_request b - escalation_count i)) (agentic_token_budget b) in
  do! raise_if (negb (is_safe (context_payload context)))
        (ContextShapingError "shaped context contains secret-shaped material") in
  Ok context.

(** ** The outcome *)

Record HybridOutcome := mkHybridOutcome {
  ho_request : string;
  ho_decisions : list ResolverDecision;
  ho_final : ResolverDecision;
  ho_executed : Z;
  ho_total : Z;
  ho_tokens : Z;
  ho_escalations : Z;
  ho_partial : bool
}.

(** [mode], [reason_codes] *)
Definition ho_mode (o : HybridOutcome) : option ExecutionMode := rd_mode (ho_final o).
Definition reason_codes (o : HybridOutcome) : list ResolverReason := map rd_reason (ho_decisions o).

(** ** The coordinator *)

Section Coordinator.
Variable sha256_hex : string -> string.
(** What the executor and the reasoning step may raise. *)
Context {X : Type}.

(** A call the coordinator made, with its answer. *)
Inductive Event : Type :=
| Executed (d : ResolverDecision) (ops : list IntentOperation) (answer : result X Z)
| Reasoned (c : AgenticContext) (answer : result X AgenticProposal).

Record HybridCoordinator := mkCoordinator {
  hc_resolver : ModeResolver;
  hc_executor : list Event -> ResolverDecision -> list IntentOperation -> result X Z;
  hc_agentic : option (list Event -> AgenticContext -> result X AgenticProposal)
}.

(** The keyword arguments of [run]. *)
Record HybridRequest := mkRequest {
  rq_policy : PolicyDecision;
  rq_policy_allows : bool;
  rq_summary : string;
  rq_forbidden : list (string * value)
}.

Inductive run_error : Type :=
| ResolveRaised (e : resolve_error)
| ContractRaised (e : resolver_exn)
| EncodingRaised (e : py_error)
| CalleeRaised (e : X)
| Diverged.

(** The locals of [run]. *)
Record Progress := mkProgress {
  pg_current : ResolverIntent;
  pg_decisions : list ResolverDecision;
  pg_executed : Z;
  pg_tokens : Z;
  pg_escalations : Z;
  pg_partial : bool
}.

Definition lift_err {E A} (f : E -> run_error) (m : result E A) : result run_error A :=
  match m with Ok a => Ok a | Err e => Err (f e) end.

Variable c : HybridCoordinator.
Variable rq : HybridRequest.

Definition hc_budget : ResolverBudget := budget (hc_resolver c).

Definition call_executor (d : ResolverDecision) (ops : list IntentOperation) : st (list Event) run_error Z := fun log =>
  let a := hc_executor c log d ops in (lift_err CalleeRaised a, log ++ [Executed d ops a]).
Definition call_agentic (step : list Event -> AgenticContext -> result X AgenticProposal) (ctx : AgenticContext)
    : st (list Event) run_error AgenticProposal := fun log =>
  let a := step log ctx in (lift_err CalleeRaised a, log ++ [Reasoned ctx a]).

(** The context of a turn, and whether shaping it went well: without an allowance it is not shaped. *)
Definition turn_context (i : ResolverIntent) : option AgenticContext * bool :=
  if agentic_allowance i && allows_agentic hc_budget then
    match shape_context i hc_budget (rq_summary rq) (rq_forbidden rq) with
    | Ok ctx => (Some ctx, true)
    | Err _ => (None, false)
    end
  else (None, true).

Definition finish (intent : ResolverIntent) (p : Progress) (final : ResolverDecision) (partial : bool) : HybridOutcome :=
  mkHybridOutcome (request_id intent) (pg_decisions p) final (pg_executed p) (node_count intent) (pg_tokens p)
    (pg_escalations p) partial.

(** The decision recorded when the tokens ran out. *)
Definition exhausted_decision (intent : ResolverIntent) (p : Progress) (d : ResolverDecision)
    : result run_error ResolverDecision :=
  let! di := lift_err EncodingRaised (intent_digest sha256_hex (pg_current p)) in
  let! db := lift_err EncodingRaised (budget_digest sha256_hex hc_budget) in
  lift_err ContractRaised
    (resolver_decision (mkDecision (request_id (pg_current p)) None E_AGENTIC_BUDGET_EXHAUSTED (rd_rejected d)
       (pg_executed p) (node_count intent) (pg_escalations p) 0 di db (rd_snapshot_digest d))).

(** The intent made of a proposal. *)
Definition next_intent (i : ResolverIntent) (ops : list IntentOperation) : ResolverIntent :=
  mkIntent (request_id i) (principal_ref i) ops false false false (runbook_ref i) (runbook_version_pinned i)
    (approval_ref i) (agentic_allowance i) (escalation_count i + 1).

(** A turn after AGENTIC was selected, from the reasoning step on. *)
Definition escalate (intent : ResolverIntent) (p : Progress) (d : ResolverDecision) (ctx : option AgenticContext)
    : st (list Event) run_error (HybridOutcome + Progress) :=
  match hc_agentic c, ctx with
  | Some step, Some ctx =>
      let* proposal := call_agentic step ctx in
      let p := mkProgress (pg_current p) (pg_decisions p) (pg_executed p) (pg_tokens p + Z.max 0 (pp_tokens proposal))
                 (pg_escalations p + 1) (pg_partial p) in
      if agentic_token_budget hc_budget <? pg_tokens p then
        let* exhausted := slift (exhausted_decision intent p d) in
        let p := mkProgress (pg_current p) (pg_decisions p ++ [exhausted]) (pg_executed p) (pg_tokens p)
                   (pg_escalations p) (pg_partial p) in
        sret (inl (finish intent p exhausted true))
      else if pp_abandoned proposal || bool_decide (pp_operations proposal = []) then
        sret (inl (finish intent p d true))
      else
        let* next := slift (lift_err ContractRaised (resolver_intent (next_intent (pg_current p) (pp_operations proposal)))) in
        sret (inr (mkProgress next (pg_decisions p) (pg_executed p) (pg_tokens p) (pg_escalations p) true))
  | _, _ => sret (inl (finish intent p d true))
  end.

(** A turn after AGENTIC was selected: first what is fully bound. *)
Definition agentic_turn (intent : ResolverIntent) (p : Progress) (d : ResolverDecision) (ctx : option AgenticContext)
    : st (list Event) run_error (HybridOutcome + Progress) :=
  let part := List.filter op_bound (operations (pg_current p)) in
  let* n := (if negb (bool_decide (part = [])) && (0 <? rd_deterministic d) then call_executor d part else sret 0) in
  escalate intent
    (mkProgress (pg_current p) (pg_decisions p) (pg_executed p + n) (pg_tokens p) (pg_escalations p) (pg_partial p)) d ctx.

(** One turn of the loop of [run]: an outcome, or what the next turn starts from. *)
Definition turn (intent : ResolverIntent) (p : Progress) : st (list Event) run_error (HybridOutcome + Progress) :=
  let '(ctx, shaping_ok) := turn_context (pg_current p) in
  let* d := slift (lift_err ResolveRaised
                     (resolve (hc_resolver c) sha256_hex (pg_current p) (rq_policy rq) (rq_policy_allows rq) shaping_ok)) in
  let p := mkProgress (pg_current p) (pg_decisions p ++ [d]) (pg_executed p) (pg_tokens p) (pg_escalations p)
             (pg_partial p) in
  if negb (bool_decide (rd_mode d = None)) && negb (bool_decide (rd_mode d = Some Mode_AGENTIC)) then
    let* n := call_executor d (operations (pg_current p)) in
    let p := mkProgress (pg_current p) (pg_decisions p) (pg_executed p + n) (pg_tokens p) (pg_escalations p) (pg_partial p) in
    sret (inl (finish intent p d (pg_partial p)))
  else if refused d then
    sret (inl (finish intent p d (pg_partial p || (0 <? pg_executed p))))
  else agentic_turn intent p d ctx.

Fixpoint hybrid_loop (fuel : nat) (intent : ResolverIntent) (p : Progress) : st (list Event) run_error HybridOutcome :=
  match fuel with
  | O => sraise Diverged
  | S fuel =>
      let* r := turn intent p in
      match r with
      | inl o => sret o
      | inr p => hybrid_loop fuel intent p
      end
  end.

(** [HybridCoordinator.run], with the log of what it called. *)
Definition hybrid_run (fuel : nat) (intent : ResolverIntent) : result run_error HybridOutcome * list Event :=
  hybrid_loop fuel intent (mkProgress intent [] 0 0 0 false) [].

(** Each further turn spends an escalation, so these are enough turns ([hybrid_run_ends]). *)
Definition turns (intent : ResolverIntent) : nat :=
  S (Z.to_nat (max_escalations_per_request hc_budget - escalation_count intent)).
End Coordinator.
Arguments Event X : clear implicits.
Arguments HybridCoordinator X : clear implicits.
Arguments run_error X : clear implicits.
