(* ===== verification/HybridGuarantees.v ===== *)
(** * What the hybrid coordinator promises ([v2/hybrid_execution.py])

    Over every executor and every reasoning step: nothing is called without a decision of the
    resolver on the intent at hand, reasoning sees a safe context only, the outcome counts what
    happened, and a run ends within the escalations of its budget. *)
From S2P Require Import Prelude.
From S2P Require Import PyText.
From S2P Require Import PyValue.
From S2P Require Import Canonical.
From S2P Require Import MutationContract.
From S2P Require Import ResolverContract.
From S2P Require Import ResolverGraph.
From S2P Require Import Resolver.
From S2P Require Import ResolverGuarantees.
From S2P Require Import ResolverWitness.
From S2P Require Import ProviderContract.
From S2P Require Import Hybrid.

(** ** What a log says *)

Section Logs.
Context {X : Type}.
Implicit Types log : list (Event X).

(** How often reasoning was asked, and its latest proposal. *)
Fixpoint rounds log : Z :=
  match log with [] => 0 | Reasoned _ _ :: rest => 1 + rounds rest | _ :: rest => rounds rest end.
Definition proposal_of (e : Event X) : option AgenticProposal :=
  match e with Reasoned _ (Ok p) => Some p | _ => None end.
Definition latest log : option AgenticProposal := last (omap proposal_of log).

(** What the executor and the reasoning step said they did. *)
Definition executed_by (e : Event X) : Z := match e with Executed _ _ (Ok n) => n | _ => 0 end.
Definition tokens_by (e : Event X) : Z := match proposal_of e with Some p => Z.max 0 (pp_tokens p) | None => 0 end.
Definition total (f : Event X -> Z) log : Z := foldr Z.add 0 (map f log).

(** The intent the coordinator works on after a log: the first one, or the plan proposed last, with
    the identity, the approval and the runbook of the first. *)
Definition intent_after (start : ResolverIntent) log : ResolverIntent :=
  match latest log with
  | None => start
  | Some p =>
      mkIntent (request_id start) (principal_ref start) (pp_operations p) false false false (runbook_ref start)
        (runbook_version_pinned start) (approval_ref start) (agentic_allowance start) (escalation_count start + rounds log)
  end.

Lemma rounds_app l1 l2 : rounds (l1 ++ l2) = rounds l1 + rounds l2.
Proof. induction l1 as [|[] l1 IH]; simpl; rewrite ?IH; lia. Qed.

Lemma rounds_nonneg log : 0 <= rounds log.
Proof. induction log as [|[] log IH]; simpl; lia. Qed.

Lemma total_snoc f log e : total f (log ++ [e]) = total f log + f e.
Proof. unfold total. induction log as [|x log IH]; simpl in *; lia. Qed.

Lemma latest_snoc log e : latest (log ++ [e]) = match proposal_of e with Some p => Some p | None => latest log end.
Proof.
  unfold latest. rewrite omap_app. cbn [omap list_omap]. destruct (proposal_of e); [apply last_snoc|by rewrite app_nil_r].
Qed.

Lemma intent_after_executed start log d ops a : intent_after start (log ++ [Executed d ops a]) = intent_after start log.
Proof. unfold intent_after. rewrite latest_snoc, rounds_app. cbn [proposal_of rounds]. by rewrite Z.add_0_r. Qed.
End Logs.

(** ** The context *)

Lemma shape_context_spec i b summary forbidden ctx :
  shape_context i b summary forbidden = Ok ctx ->
  ac_request ctx = request_id i /\ ac_summary ctx = summary
  /\ ac_escalations ctx = Z.max 0 (max_escalations_per_request b - escalation_count i)
  /\ (forall k s, (k, VStr s) ∈ forbidden -> s <> "" -> contains s summary = false)
  /\ audit_safe "$" (context_payload ctx) = [].
Proof.
  unfold shape_context. intros ([] & Hf%raise_if_Ok & ([] & Hs%raise_if_Ok & [= <-])%rbind_Ok)%rbind_Ok.
  split_and!; [done..| |].
  - intros k s Hin Hne. apply not_true_iff_false. intros Hc. apply not_true_iff_false in Hf. apply Hf. unfold carries_forbidden.
    apply existsb_exists. exists (k, VStr s). split; [by apply list_elem_of_In|]. simpl. rewrite Hc, andb_true_r.
    by apply negb_true_iff, String.eqb_neq.
  - by apply negb_false_iff, bool_decide_eq_true in Hs.
Qed.

(** ** Calls and the decisions behind them *)

Section Guarantees.
Variable sha256_hex : string -> string.
Context {X : Type}.
Variable c : HybridCoordinator X.
Variable rq : HybridRequest.
Variable start : ResolverIntent.

Notation m := (hc_resolver c).
Notation resolved i ck d := (resolve m sha256_hex i (rq_policy rq) (rq_policy_allows rq) ck = Ok d).

(** A call made when [log] had happened: the resolver decided on the current intent, and what was
    called is what its decision allows. *)
Definition cleared (log : list (Event X)) (e : Event X) : Prop :=
  let i := intent_after start log in
  rq_policy rq <> Policy_DENY
  /\ match e with
     | Executed d ops _ =>
         (exists ck, resolved i ck d)
         /\ ((exists mode, rd_mode d = Some mode /\ qualifies m i mode /\ ops = operations i)
             \/ (rd_mode d = Some Mode_AGENTIC /\ agentic_gate m i (rq_policy_allows rq) true
                 /\ ops = List.filter op_bound (operations i)))
     | Reasoned ctx _ =>
         agentic_gate m i (rq_policy_allows rq) true /\ (forall mode, ~ qualifies m i mode)
         /\ shape_context i (budget m) (rq_summary rq) (rq_forbidden rq) = Ok ctx
     end.

Definition all_cleared (log : list (Event X)) : Prop := forall l1 e l2, log = l1 ++ e :: l2 -> cleared l1 e.

Lemma all_cleared_nil : all_cleared [].
Proof. intros l1 e l2 H. by destruct l1. Qed.

Lemma all_cleared_snoc log e : all_cleared log -> cleared log e -> all_cleared (log ++ [e]).
Proof.
  intros Hl He l1 e' l2 H. induction l2 as [|y l2 _] using rev_ind.
  - apply app_inj_tail in H as [-> ->]. done.
  - rewrite app_comm_cons, app_assoc in H. apply app_inj_tail in H as [-> _]. by eapply Hl.
Qed.

(** ** The decision of a turn *)

Lemma decision_spec i ck :
  exists d, resolved i ck d /\ selection m i (rq_policy rq) (rq_policy_allows rq) ck d.
Proof. eexists. split; [apply resolve_Ok|apply resolve_selection]. Qed.

Lemma admitted_policy i : admitted_intent m i (rq_policy rq) -> rq_policy rq <> Policy_DENY.
Proof. by intros (_ & ? & _). Qed.

Lemma mode_qualifies i ck d mode :
  selection m i (rq_policy rq) (rq_policy_allows rq) ck d -> rd_mode d = Some mode -> mode <> Mode_AGENTIC ->
  admitted_intent m i (rq_policy rq) /\ qualifies m i mode.
Proof.
  intros S Hd Hne. destruct mode; try done.
  - by apply S.
  - by apply S.
  - apply (sel_dag _ _ _ _ _ _ S) in Hd. tauto.
  - apply (sel_runbook _ _ _ _ _ _ S) in Hd. tauto.
  - by apply (sel_hybrid _ _ _ _ _ _ S) in Hd.
Qed.

(** An agentic decision means a shaped context. *)
Lemma context_shaped i ck ctx d :
  turn_context c rq i = (ctx, ck) -> selection m i (rq_policy rq) (rq_policy_allows rq) ck d ->
  rd_mode d = Some Mode_AGENTIC ->
  ck = true /\ exists ctx', ctx = Some ctx' /\ shape_context i (budget m) (rq_summary rq) (rq_forbidden rq) = Ok ctx'.
Proof.
  intros Hc S Hd. destruct (sel_agentic _ _ _ _ _ _ S Hd) as (_ & (Ha & Hb & _ & _ & _ & ->) & _).
  split; [done|]. unfold turn_context, hc_budget, allows_agentic in Hc. rewrite Ha in Hc.
  replace (0 <? agentic_token_budget (budget m)) with true in Hc by lia. simpl in Hc.
  destruct (shape_context _ _ _ _) as [x|] eqn:E; simplify_eq. by exists x.
Qed.

(** ** One turn *)

(** What the counters of [run] hold when [log] has happened. *)
Record counts (log : list (Event X)) (p : Progress) : Prop := {
  co_executed : pg_executed p = total executed_by log;
  co_tokens : pg_tokens p = total tokens_by log;
  co_escalations : pg_escalations p = rounds log
}.

(** What all its locals hold. *)
Record tracks (log : list (Event X)) (p : Progress) : Prop := {
  tr_counts : counts log p;
  tr_cleared : all_cleared log;
  tr_current : pg_current p = intent_after start log;
  tr_count : escalation_count (pg_current p) = escalation_count start + rounds log;
  tr_partial : pg_partial p = (0 <? rounds log);
  tr_budget : pg_tokens p <= Z.max 0 (agentic_token_budget (budget m))
}.

(** What an outcome says of a log. *)
Record faithful (log : list (Event X)) (o : HybridOutcome) : Prop := {
  fa_request : ho_request o = request_id start;
  fa_total : ho_total o = node_count start;
  fa_executed : ho_executed o = total executed_by log;
  fa_tokens : ho_tokens o = total tokens_by log;
  fa_escalations : ho_escalations o = rounds log;
  fa_final : last (ho_decisions o) = Some (ho_final o);
  fa_partial : ho_partial o = (0 <? rounds log) || bool_decide (ho_mode o = Some Mode_AGENTIC)
                              || (refused (ho_final o) && (0 <? ho_executed o));
  fa_budget : Z.max 0 (agentic_token_budget (budget m)) < ho_tokens o -> rd_reason (ho_final o) = E_AGENTIC_BUDGET_EXHAUSTED
}.

(** How a turn may end. *)
Definition ends (log : list (Event X)) (p : Progress) (r : result (run_error X) (HybridOutcome + Progress))
    (log' : list (Event X)) : Prop :=
  all_cleared log'
  /\ (rounds log' = rounds log
      \/ (rounds log' = rounds log + 1 /\ escalation_count (pg_current p) < max_escalations_per_request (budget m)))
  /\ match r with
     | Ok (inl o) => faithful log' o
     | Ok (inr p') => tracks log' p' /\ rounds log' = rounds log + 1
     | Err e => e <> Diverged
     end.

Lemma executed_tracks log p d ops n ds :
  tracks log p -> cleared log (Executed d ops (Ok n)) ->
  tracks (log ++ [Executed d ops (Ok n)])
    (mkProgress (pg_current p) ds (pg_executed p + n) (pg_tokens p) (pg_escalations p) (pg_partial p)).
Proof.
  intros [[]] Hc. split; [split|..]; cbn [pg_current pg_executed pg_tokens pg_escalations pg_partial];
    rewrite ?intent_after_executed, ?rounds_app, ?total_snoc; cbn [rounds executed_by tokens_by proposal_of];
    rewrite ?Z.add_0_r; try done; try lia. by apply all_cleared_snoc.
Qed.

Lemma reasoned_counts log p ctx pr i ds partial :
  counts log p ->
  counts (log ++ [Reasoned ctx (Ok pr)])
    (mkProgress i ds (pg_executed p) (pg_tokens p + Z.max 0 (pp_tokens pr)) (pg_escalations p + 1) partial).
Proof.
  intros []. split; cbn [pg_executed pg_tokens pg_escalations]; rewrite ?rounds_app, ?total_snoc;
    cbn [rounds executed_by tokens_by proposal_of]; lia.
Qed.

(** The intent made of a proposal is the one the log determines. *)
Lemma next_intent_after log p ctx pr :
  tracks log p -> next_intent (pg_current p) (pp_operations pr) = intent_after start (log ++ [Reasoned ctx (Ok pr)]).
Proof.
  intros [_ _ Hi Hn _ _]. unfold next_intent. rewrite Hn, Hi. unfold intent_after.
  rewrite latest_snoc, rounds_app. cbn [proposal_of rounds]. replace (rounds log + (1 + 0)) with (rounds log + 1) by lia.
  rewrite Z.add_assoc. by destruct (latest log).
Qed.

(** The outcome of a turn that ends the run. *)
Lemma finish_faithful log p ds final partial :
  counts log p -> pg_decisions p = ds ++ [final] ->
  (pg_tokens p <= Z.max 0 (agentic_token_budget (budget m)) \/ rd_reason final = E_AGENTIC_BUDGET_EXHAUSTED) ->
  partial = (0 <? rounds log) || bool_decide (rd_mode final = Some Mode_AGENTIC)
            || (refused final && (0 <? pg_executed p)) ->
  faithful log (finish start p final partial).
Proof.
  intros [] Hd Hb ->. split; cbn [finish ho_decisions ho_final ho_tokens]; try done; [|intros; destruct Hb; [lia|done]].
  rewrite Hd. apply last_snoc.
Qed.

Lemma resolver_decision_id d d' : resolver_decision d = Ok d' -> d' = d.
Proof. unfold resolver_decision. intros H. res_inv. done. Qed.

Lemma resolver_intent_id i i' : resolver_intent i = Ok i' -> i' = i.
Proof. unfold resolver_intent. intros H. res_inv. done. Qed.

Lemma exhausted_spec p d :
  match exhausted_decision sha256_hex c start p d with
  | Ok x => rd_mode x = None /\ rd_reason x = E_AGENTIC_BUDGET_EXHAUSTED
  | Err e => e <> Diverged
  end.
Proof.
  unfold exhausted_decision. destruct (intent_digest _ _); [|done]. destruct (budget_digest _ _); [|done]. cbn [lift_err rbind].
  destruct (resolver_decision _) as [x|e] eqn:E; [|done]. by apply resolver_decision_id in E as ->.
Qed.

(** A turn after AGENTIC was selected, from the reasoning step on. *)
Lemma escalate_ends log p d ds ctx r log' :
  let i := pg_current p in
  tracks log p -> pg_decisions p = ds ++ [d] -> rd_mode d = Some Mode_AGENTIC ->
  rq_policy rq <> Policy_DENY -> agentic_gate m i (rq_policy_allows rq) true -> (forall mode, ~ qualifies m i mode) ->
  shape_context i (budget m) (rq_summary rq) (rq_forbidden rq) = Ok ctx ->
  escalate sha256_hex c start p d (Some ctx) log = (r, log') -> ends log p r log'.
Proof.
  intros i Ht Hd Hm Hp Hg Hq Hs. pose proof Ht as [Hc Hcl Hi Hn Hpa Hb]. unfold escalate.
  destruct (hc_agentic c) as [step|].
  2:{ intros [<- <-]%pair_equal_spec. split_and!; [done|by left|]. eapply finish_faithful; [done..|by left|].
      rewrite bool_decide_eq_true_2 by done. by rewrite orb_true_r. }
  assert (Hcall : forall a, all_cleared (log ++ [Reasoned ctx a])).
  { intros a. apply all_cleared_snoc; [done|]. subst i. by rewrite Hi in *. }
  assert (Hround : forall a, rounds (log ++ [Reasoned ctx a]) = rounds log + 1) by (intros; by rewrite rounds_app).
  assert (Hlt : escalation_count i < max_escalations_per_request (budget m)) by apply Hg.
  assert (Hsome : forall a, (0 <? rounds (log ++ [Reasoned ctx a])) = true)
    by (intros; rewrite Hround; pose proof (rounds_nonneg log); lia).
  unfold sbind, call_agentic. destruct (step log ctx) as [pr|x]; cbn [lift_err].
  2:{ intros [<- <-]%pair_equal_spec. split_and!; [done|right; by rewrite Hround|done]. }
  pose proof (fun i ds partial => reasoned_counts log p ctx pr i ds partial Hc) as Hc'. cbn [pg_tokens pg_current].
  destruct (agentic_token_budget (hc_budget c) <? _) eqn:Hbudget.
  { pose proof (exhausted_spec (mkProgress (pg_current p) (pg_decisions p) (pg_executed p)
      (pg_tokens p + Z.max 0 (pp_tokens pr)) (pg_escalations p + 1) (pg_partial p)) d) as He. unfold slift.
    destruct (exhausted_decision _ _ _ _ _) as [x|x]; intros [<- <-]%pair_equal_spec;
      (split_and!; [done|right; by rewrite Hround|]); [|done].
    eapply finish_faithful; [done..| |]; [right; tauto|by rewrite Hsome]. }
  unfold hc_budget in Hbudget. cbn [pg_tokens] in Hbudget. destruct (pp_abandoned pr || _).
  { intros [<- <-]%pair_equal_spec. split_and!; [done|right; by rewrite Hround|].
    eapply finish_faithful; [done..| |]; [left; simpl; lia|by rewrite Hsome]. }
  unfold slift. destruct (resolver_intent _) as [next|x] eqn:E; cbn [lift_err]; intros [<- <-]%pair_equal_spec.
  2:{ split_and!; [done|right; by rewrite Hround|done]. }
  apply resolver_intent_id in E as ->. split_and!; [done|right; by rewrite Hround| |apply Hround].
  rewrite (next_intent_after log p ctx pr) by done.
  split; cbn [pg_current pg_tokens pg_partial]; [apply Hc'|done|done| |by rewrite Hsome|lia].
  rewrite <- (next_intent_after log p ctx pr) by done. cbn [next_intent escalation_count]. rewrite Hround. lia.
Qed.

(** A turn after AGENTIC was selected. *)
Lemma agentic_ends log p d ck ctx r log' ds :
  tracks log p -> turn_context c rq (pg_current p) = (ctx, ck) -> resolved (pg_current p) ck d ->
  selection m (pg_current p) (rq_policy rq) (rq_policy_allows rq) ck d -> rd_mode d = Some Mode_AGENTIC ->
  pg_decisions p = ds ++ [d] ->
  agentic_turn sha256_hex c start p d ctx log = (r, log') -> ends log p r log'.
Proof.
  intros Ht Ec Hd S Hm Hds. destruct (context_shaped _ _ _ _ Ec S Hm) as (-> & ctx' & -> & Hs).
  destruct (sel_agentic _ _ _ _ _ _ S Hm) as (Ha%admitted_policy & Hg & Hq). unfold agentic_turn, sbind.
  destruct (negb _ && _).
  2:{ cbn [sret]. rewrite Z.add_0_r. destruct p. by eapply escalate_ends. }
  set (ops := List.filter _ _). pose proof Ht as [_ Hcl Hi _ _ _].
  assert (Hcall : forall a, cleared log (Executed d ops a)).
  { intros a. split; [done|]. rewrite <- Hi. split; [by exists true|]. by right. }
  unfold call_executor. destruct (hc_executor _ _ _ _) as [n|x]; cbn [lift_err].
  2:{ intros [<- <-]%pair_equal_spec. split_and!; [by apply all_cleared_snoc|left; rewrite rounds_app; cbn; lia|done]. }
  intros He. eapply escalate_ends in He as (H1 & H2 & H3); [| |done..].
  - split_and!; [done| |]; rewrite rounds_app in *; cbn [rounds] in *; rewrite !Z.add_0_r in *; done.
  - by apply executed_tracks.
Qed.

(** A turn, from a log its locals track. *)
Lemma turn_ends log p r log' :
  tracks log p -> turn sha256_hex c rq start p log = (r, log') -> ends log p r log'.
Proof.
  intros Ht. pose proof Ht as [Hc Hcl Hi Hn Hpa Hb]. unfold turn. destruct (turn_context c rq (pg_current p)) as [ctx ck] eqn:Ec.
  destruct (decision_spec (pg_current p) ck) as (d & Hd & S). rewrite Hd. unfold sbind at 1. cbn [slift lift_err].
  set (p1 := mkProgress _ _ _ _ _ _).
  assert (Ht1 : tracks log p1) by (destruct Hc; by (split; [split|..])).
  destruct (negb _ && negb _) eqn:Emode.
  - apply andb_true_iff in Emode as [E1%negb_true_iff%bool_decide_eq_false E2%negb_true_iff%bool_decide_eq_false].
    destruct (rd_mode d) as [mode|] eqn:Em; [|done].
    destruct (mode_qualifies _ _ _ mode S Em ltac:(congruence)) as [Ha Hq].
    assert (Hcall : forall a, cleared log (Executed d (operations (pg_current p)) a)).
    { intros a. split; [by eapply admitted_policy|]. rewrite <- Hi. split; [by exists ck|]. left. by exists mode. }
    unfold sbind, call_executor. cbn [pg_current p1]. destruct (hc_executor _ _ _ _) as [n|x] eqn:Ex; cbn [lift_err];
      intros [<- <-]%pair_equal_spec;
      (split_and!; [apply all_cleared_snoc; [done|by apply Hcall]|left; rewrite rounds_app; cbn; lia|]); [|done].
    pose proof (executed_tracks log p d _ n (pg_decisions p1) Ht (Hcall _)) as [Hc' _ _ _ Hp' Hb'].
    eapply finish_faithful; [done..|by left|].
    assert (refused d = false) as ->.
    { apply not_true_iff_false. intros Hr%(sel_refused _ _ _ _ _ _ S). congruence. }
    rewrite Em, bool_decide_eq_false_2 by done. by rewrite !orb_false_r.
  - destruct (refused d) eqn:Er.
    + intros [<- <-]%pair_equal_spec. apply (sel_refused _ _ _ _ _ _ S) in Er as Hm.
      split_and!; [done|by left|]. eapply (finish_faithful log p1); [apply Ht1|done|by left|].
      cbn [p1 pg_partial pg_executed]. rewrite Hpa, Hm, Er, bool_decide_eq_false_2 by done. by rewrite orb_false_r.
    + assert (rd_mode d = Some Mode_AGENTIC) as Hm.
      { destruct (rd_mode d) as [mode|] eqn:Em; [|by apply (sel_refused _ _ _ _ _ _ S) in Em; congruence].
        by destruct mode. }
      by eapply agentic_ends.
Qed.

(** ** The whole run *)

Lemma loop_ends fuel : forall p log r log', tracks log p -> hybrid_loop sha256_hex c rq fuel start p log = (r, log') ->
  all_cleared log'
  /\ rounds log' <= Z.max (rounds log) (max_escalations_per_request (budget m) - escalation_count start)
  /\ match r with
     | Ok o => faithful log' o
     | Err e => e = Diverged ->
         (fuel <= Z.to_nat (max_escalations_per_request (budget m) - escalation_count (pg_current p)))%nat
     end.
Proof.
  induction fuel as [|fuel IH]; intros p log r log' Ht; cbn [hybrid_loop].
  { intros [<- <-]%pair_equal_spec. split_and!; [apply Ht|lia|intros _; lia]. }
  unfold sbind. destruct (turn _ _ _ _ p log) as [[[o|p']|e] log1] eqn:E; apply (turn_ends _ _ _ _ Ht) in E as (H1 & H2 & H3).
  - intros [<- <-]%pair_equal_spec. pose proof (tr_count _ _ Ht). split_and!; [done|lia|done].
  - intros (K1 & K2 & K3)%IH; [|apply H3]. destruct H3 as [H3 H4].
    pose proof (tr_count _ _ Ht). pose proof (tr_count _ _ H3). split_and!; [done|lia|].
    destruct r as [o|e]; [done|]. intros ->. specialize (K3 eq_refl). lia.
  - intros [<- <-]%pair_equal_spec. pose proof (tr_count _ _ Ht). split_and!; [done|lia|done].
Qed.

Lemma start_tracks : tracks [] (mkProgress start [] 0 0 0 false).
Proof. split; [by split|..]; cbn; try done; try lia. apply all_cleared_nil. Qed.

Lemma loop_more fuel k : forall p log,
  fst (hybrid_loop sha256_hex c rq fuel start p log) <> Err Diverged ->
  hybrid_loop sha256_hex c rq (fuel + k) start p log = hybrid_loop sha256_hex c rq fuel start p log.
Proof.
  induction fuel as [|fuel IH]; intros p log; cbn [hybrid_loop Nat.add]; [done|].
  unfold sbind. destruct (turn _ _ _ _ p log) as [[[o|p']|e] log1]; try done. apply IH.
Qed.
End Guarantees.

(** ** The theorems *)

Section Theorems.
Variable sha256_hex : string -> string.
Context {X : Type}.
Implicit Types c : HybridCoordinator X.

(** [C18] Nothing runs without a decision: whatever the executor and the reasoning step answer, every call
    of a run was made under the decision of the resolver on the intent at hand (the first intent, or
    the plan proposed last under the first intent's principal, approval and runbook, with one
    escalation more for each time reasoning was asked).  The executor is given all of an intent that
    qualifies for the mode chosen, or, when the agentic gate was passed, the fully bound part of it;
    reasoning is asked only when no mode qualifies and the gate is passed, with a context in which no
    forbidden text and no secret-shaped material occurs. *)
Theorem hybrid_calls_are_cleared c rq start fuel r log l1 e l2 :
  hybrid_run sha256_hex c rq fuel start = (r, log) -> log = l1 ++ e :: l2 ->
  let m := hc_resolver c in
  let i := intent_after start l1 in
  rq_policy rq <> Policy_DENY
  /\ match e with
     | Executed d ops _ =>
         (exists ck, resolve m sha256_hex i (rq_policy rq) (rq_policy_allows rq) ck = Ok d)
         /\ ((exists mode, rd_mode d = Some mode /\ qualifies m i mode /\ ops = operations i)
             \/ (rd_mode d = Some Mode_AGENTIC /\ agentic_gate m i (rq_policy_allows rq) true
                 /\ ops = List.filter op_bound (operations i)))
     | Reasoned ctx _ =>
         agentic_gate m i (rq_policy_allows rq) true /\ (forall mode, ~ qualifies m i mode)
         /\ ac_request ctx = request_id start /\ ac_summary ctx = rq_summary rq /\ 0 < ac_escalations ctx
         /\ (forall k s, (k, VStr s) ∈ rq_forbidden rq -> s <> "" -> contains s (ac_summary ctx) = false)
         /\ audit_safe "$" (context_payload ctx) = []
     end.
Proof.
  intros Hr Hl. destruct (loop_ends sha256_hex c rq start fuel _ _ _ _ (start_tracks sha256_hex c rq start) Hr) as (Hc & _).
  destruct (Hc l1 e l2 Hl) as [Hp He]. split; [done|]. destruct e as [d ops a|ctx a]; [done|].
  destruct He as (Hg & Hq & Hs). apply shape_context_spec in Hs as (H1 & H2 & H3 & H4 & H5). split_and!; try done.
  - rewrite H1. unfold intent_after. by destruct (latest l1).
  - rewrite H3. destruct Hg as (_ & _ & Hg & _). lia.
  - by rewrite H2.
Qed.

(** [C21] A run ends, within the escalations of its budget: whatever the executor and the reasoning step
    answer, the loop needs no more turns than there are escalations left, and one; more fuel changes
    nothing, and reasoning is asked no more often than that. *)
Theorem hybrid_run_ends c rq start k :
  let b := budget (hc_resolver c) in
  exists r log, hybrid_run sha256_hex c rq (turns c start + k) start = (r, log)
    /\ hybrid_run sha256_hex c rq (turns c start) start = (r, log)
    /\ r <> Err Diverged
    /\ rounds log <= Z.max 0 (max_escalations_per_request b - escalation_count start).
Proof.
  destruct (hybrid_run sha256_hex c rq (turns c start) start) as [r log] eqn:E. exists r, log.
  destruct (loop_ends sha256_hex c rq start _ _ _ _ _ (start_tracks sha256_hex c rq start) E) as (_ & Hn & Hr).
  assert (r <> Err Diverged) as Hd.
  { intros ->. specialize (Hr eq_refl). unfold turns, hc_budget in Hr. cbn [pg_current] in Hr. lia. }
  split_and!; [|done..]. unfold hybrid_run in *. rewrite loop_more; [done|]. by rewrite E.
Qed.

(** The outcome says what happened: the operations the executor reports, the tokens the reasoning
    step reports, how often it was asked and the decision that ended the run; it is complete exactly
    when nothing was left to reasoning and nothing refused after an effect; and more tokens than the
    budget holds were spent only when the run was refused for it. *)
Theorem hybrid_outcome_is_faithful c rq start fuel o log :
  hybrid_run sha256_hex c rq fuel start = (Ok o, log) ->
  ho_request o = request_id start /\ ho_total o = node_count start
  /\ ho_executed o = total executed_by log /\ ho_tokens o = total tokens_by log /\ ho_escalations o = rounds log
  /\ last (ho_decisions o) = Some (ho_final o)
  /\ (ho_partial o = false <->
       rounds log = 0 /\ ho_mode o <> Some Mode_AGENTIC /\ (refused (ho_final o) = true -> ho_executed o <= 0))
  /\ (Z.max 0 (agentic_token_budget (budget (hc_resolver c))) < ho_tokens o ->
       rd_reason (ho_final o) = E_AGENTIC_BUDGET_EXHAUSTED).
Proof.
  intros Hr. destruct (loop_ends sha256_hex c rq start fuel _ _ _ _ (start_tracks sha256_hex c rq start) Hr)
    as (_ & _ & []).
  split_and!; try done. rewrite fa_partial0. pose proof (rounds_nonneg log).
  rewrite !orb_false_iff, andb_false_iff, bool_decide_eq_false. destruct (refused (ho_final o)); naive_solver lia.
Qed.
End Theorems.

(** ** Concrete runs *)

Module HybridRuns.
Definition bound (cap ref : string) : IntentOperation := mkOperation cap "o/r" true [] ref.
Definition unbound (cap ref : string) : IntentOperation := mkOperation cap "o/r" false [] ref.
Definition start (ops : list IntentOperation) : ResolverIntent := ResolverRequests.request ops "".
Definition request : HybridRequest := mkRequest Policy_ALLOW true "list the issues" [("token", VStr "ghp_x")].

(** The executor counts what it is given; the reasoning step always proposes the same. *)
Definition coordinator (p : AgenticProposal) : HybridCoordinator string :=
  mkCoordinator ResolverRequests.resolver (fun _ _ ops => Ok (Z.of_nat (length ops))) (Some (fun _ _ => Ok p)).
Definition run (p : AgenticProposal) (ops : list IntentOperation) :=
  let c := coordinator p in hybrid_run (fun s => s) c request (turns c (start ops)) (start ops).

(** What was called, and how the run ended. *)
Definition called (e : Event string) : option (list string) :=
  match e with Executed _ ops _ => Some (map op_ref ops) | Reasoned _ _ => None end.
Definition summary (x : result (run_error string) HybridOutcome * list (Event string)) :=
  (map called x.2,
   match x.1 with Ok o => Some (reason_codes o, ho_executed o, ho_total o, ho_tokens o, ho_partial o) | Err _ => None end).

Definition two : list IntentOperation := [bound "github.read" "a"; unbound "github.read" "b"].
Definition three : list IntentOperation := [bound "github.read" "a"; bound "github.read" "b"; bound "github.read" "c"].

(** The bound part is executed, then the whole plan: the operations executed are more than those of
    the intent, and what had been executed is executed again. *)
Example deterministic_part_is_repeated :
  summary (run (mkProposal three 400 false) two)
  = ([Some ["a"]; None; Some ["a"; "b"; "c"]],
     Some ([R_AGENTIC_UNBOUND_ARGUMENT; R_BATCH_INDEPENDENT], 4, 2, 400, true)).
Proof. vm_compute. reflexivity. Qed.

(** An operation on a capability the snapshot does not hold is executed, because another operation
    is usable. *)
Example unusable_part_is_executed :
  usable ResolverRequests.resolver (bound "slack.read" "s") = false
  /\ summary (run (mkProposal [] 0 true) [bound "slack.read" "s"; unbound "github.read" "b"])
     = ([Some ["s"]; None], Some ([R_AGENTIC_UNBOUND_ARGUMENT], 1, 2, 0, true)).
Proof. vm_compute. done. Qed.

Example tokens_run_out :
  summary (run (mkProposal three 1001 false) two)
  = ([Some ["a"]; None], Some ([R_AGENTIC_UNBOUND_ARGUMENT; E_AGENTIC_BUDGET_EXHAUSTED], 1, 2, 1001, true)).
Proof. vm_compute. reflexivity. Qed.

(** A plan that is again unbound is refused: the one escalation is spent. *)
Example escalations_run_out :
  summary (run (mkProposal two 10 false) two)
  = ([Some ["a"]; None], Some ([R_AGENTIC_UNBOUND_ARGUMENT; E_AGENTIC_BUDGET_EXHAUSTED], 1, 2, 10, true)).
Proof. vm_compute. reflexivity. Qed.

(** A plan that names an operation twice raises out of [run], after the first part was executed. *)
Example malformed_plan_raises :
  (run (mkProposal [bound "github.read" "a"; bound "github.read" "a"] 10 false) two).1
  = Err (ContractRaised (ResolverContractError ResolverContract.E_REQ_INVALID "operation_ref"))
  /\ map called (run (mkProposal [bound "github.read" "a"; bound "github.read" "a"] 10 false) two).2 = [Some ["a"]; None].
Proof. vm_compute. done. Qed.

(** The three calls of the first run, each cleared. *)
Definition plan : AgenticProposal := mkProposal three 400 false.
Definition first_two : list (Event string) := take 2 (run plan two).2.

Example hybrid_calls_are_cleared_witness :
  exists e, (run plan two).2 = first_two ++ [e] /\ called e = Some ["a"; "b"; "c"]
    /\ match e with
       | Executed d ops _ => (exists mode, rd_mode d = Some mode /\ qualifies ResolverRequests.resolver
                                (intent_after (start two) first_two) mode /\ ops = three)
                             \/ rd_mode d = Some Mode_AGENTIC
       | Reasoned _ _ => False
       end.
Proof.
  destruct (run plan two) as [r log] eqn:E. 
  assert (exists e, log = first_two ++ [e] /\ called e = Some ["a"; "b"; "c"]) as (e & He & Hc).
  { unfold first_two. rewrite E. vm_compute in E. injection E as _ <-. eexists. split; reflexivity. }
  exists e. split; [exact He|]. split; [exact Hc|].
  pose proof (hybrid_calls_are_cleared (fun s => s) (coordinator plan) request (start two) _ r log first_two e [] E He) as [_ H].
  destruct e as [d ops a|]; [|discriminate]. destruct H as [_ [(mode & H1 & H2 & H3)|(H1 & _)]]; [left|right; exact H1].
  exists mode. split; [exact H1|]. split; [exact H2|]. rewrite H3. vm_compute. reflexivity.
Defined.

Example hybrid_outcome_is_faithful_witness :
  exists o, (run plan two).1 = Ok o /\ ho_executed o = total executed_by (run plan two).2 /\ ho_escalations o = 1.
Proof.
  destruct (run plan two) as [[o|x] log] eqn:E; [|vm_compute in E; discriminate].
  pose proof (hybrid_outcome_is_faithful (fun s => s) (coordinator plan) request (start two) _ o log E)
    as (_ & _ & H1 & _ & H2 & _).
  exists o. split; [reflexivity|]. split; [exact H1|]. rewrite H2. vm_compute in E. injection E as _ <-. reflexivity.
Defined.
End HybridRuns.
