(* ===== verification/PromptPolicy.v ===== *)
(** * The policy of the first version ([policy.py]) and its enforcement ([server.py])

    Loading, classification, the decision and what the tools of the server make of it.  The
    environment and the file are inputs, with what [json.loads] makes of their text; [repr] is
    Python's text of a number with a point, a list or an object, which the loader only meets where a
    document has one for a name. *)
From S2P Require Import Prelude.
From S2P Require Import PyText.
From S2P Require Import PyValue.
From S2P Require Import Canonical.

(** ** Vocabulary ([protocol.py]) *)

Inductive DecisionType : Type := D_ALLOW | D_DENY | D_REQUIRE_APPROVAL.
#[export] Instance DecisionType_eq_dec : EqDecision DecisionType.
Proof. solve_decision. Defined.
Definition decision_value (d : DecisionType) : string :=
  match d with D_ALLOW => "ALLOW" | D_DENY => "DENY" | D_REQUIRE_APPROVAL => "REQUIRE_APPROVAL" end.
Definition decision_of_text (s : string) : option DecisionType :=
  if String.eqb s "ALLOW" then Some D_ALLOW
  else if String.eqb s "DENY" then Some D_DENY
  else if String.eqb s "REQUIRE_APPROVAL" then Some D_REQUIRE_APPROVAL else None.

Inductive MutationClass : Type := M_NONE | M_WRITE | M_DELETE | M_ADMIN.
#[export] Instance MutationClass_eq_dec : EqDecision MutationClass.
Proof. solve_decision. Defined.
Definition mutation_value (c : MutationClass) : string :=
  match c with M_NONE => "none" | M_WRITE => "write" | M_DELETE => "delete" | M_ADMIN => "admin" end.

Inductive TrustLabel : Type :=
| TRUSTED_POLICY | USER_INSTRUCTION | AGENT_PROPOSAL | TOOL_RESULT | UNTRUSTED_CONTENT | TRUST_UNKNOWN.
#[export] Instance TrustLabel_eq_dec : EqDecision TrustLabel.
Proof. solve_decision. Defined.
Definition trust_value (t : TrustLabel) : string :=
  match t with
  | TRUSTED_POLICY => "trusted_policy" | USER_INSTRUCTION => "user_instruction" | AGENT_PROPOSAL => "agent_proposal"
  | TOOL_RESULT => "tool_result" | UNTRUSTED_CONTENT => "untrusted_content" | TRUST_UNKNOWN => "unknown"
  end.
(** [TrustLabel(text)]; [None] is its [ValueError]. *)
Definition trust_of_text (s : string) : option TrustLabel :=
  List.find (fun t => String.eqb (trust_value t) s)
    [TRUSTED_POLICY; USER_INSTRUCTION; AGENT_PROPOSAL; TOOL_RESULT; UNTRUSTED_CONTENT; TRUST_UNKNOWN].

(** ** Documents *)

Inductive policy_exn : Type := PolicyError (message : string) | PolicyConfigError (message : string).
Definition policy_message (e : policy_exn) : string := match e with PolicyError m | PolicyConfigError m => m end.

(** [s.upper()], as far as it yields a letter of a decision: from the ASCII letters and from the
    dotless i U+0131 (bytes 196, 177), whose capital is [I]. *)
Definition upper_char (c : ascii) : ascii :=
  if between 97 122 c then Ascii.ascii_of_N (Ascii.N_of_ascii c - 32) else c.
Fixpoint upper (s : string) : string :=
  match s with
  | EmptyString => EmptyString
  | String c rest =>
      match rest with
      | String d rest' => if (code c =? 196) && (code d =? 177) then String "I" (upper rest') else String (upper_char c) (upper rest)
      | EmptyString => String (upper_char c) ""
      end
  end.

(** A policy in normal form. *)
Record Policy := mkPolicy {
  pl_name : string;
  pl_version : string;
  pl_read_only : list string;
  pl_mutating : list string;
  pl_deny : list string;
  pl_approval : list string;
  pl_unknown : DecisionType
}.

Definition policy_value (p : Policy) : value :=
  let names l := VList (map VStr l) in
  VDict [("name", VStr (pl_name p)); ("version", VStr (pl_version p)); ("read_only_actions", names (pl_read_only p));
         ("mutating_actions", names (pl_mutating p)); ("deny_actions", names (pl_deny p));
         ("require_approval_actions", names (pl_approval p));
         ("unknown_action_decision", VStr (decision_value (pl_unknown p)))].

(** [_string_list] *)
Definition string_list (v : option value) (field : string) : result policy_exn (list string) :=
  match v with
  | None | Some VNone => Ok []
  | Some (VList l) =>
      rmap (fun item =>
        match item with
        | VStr s => do! raise_if (blank s) (PolicyError ("policy." +:+ field +:+ " must contain non-empty strings")) in
                    Ok (lower (py_strip s))
        | _ => Err (PolicyError ("policy." +:+ field +:+ " must contain non-empty strings"))
        end) l
  | _ => Err (PolicyError ("policy." +:+ field +:+ " must be a list of strings"))
  end.

Section Loading.
Variable repr : value -> string.
Variable sha256_hex : string -> string.

(** [str(value)] of a JSON value. *)
Definition py_text (v : value) : string :=
  match v with
  | VStr s => s
  | VInt z => pretty z
  | VBool b => if b then "True" else "False"
  | VNone => "None"
  | _ => repr v
  end.
(** [str(document.get(key) or default)] *)
Definition text_or (key default : string) (d : list (string * value)) : string :=
  match dget key d with Some v => if truthy v then py_text v else default | None => default end.

(** [validate_policy_document] *)
Definition validate_policy_document (document : value) : result policy_exn Policy :=
  match document with
  | VDict d =>
      let! read_only := string_list (dget "read_only_actions" d) "read_only_actions" in
      let! mutating := string_list (dget "mutating_actions" d) "mutating_actions" in
      let! deny := string_list (dget "deny_actions" d) "deny_actions" in
      let! approval := string_list (dget "require_approval_actions" d) "require_approval_actions" in
      match decision_of_text (upper (py_strip (text_or "unknown_action_decision" "DENY" d))) with
      | None => Err (PolicyError "policy.unknown_action_decision must be ALLOW/DENY/REQUIRE_APPROVAL")
      | Some unknown =>
          do! raise_if (existsb (fun a => str_in a mutating) read_only)
                (PolicyError "policy declares the same action as read-only and mutating") in
          do! raise_if (bool_decide (read_only = []) && bool_decide (mutating = []) && negb (bool_decide (unknown = D_DENY)))
                (PolicyConfigError "empty policy is only allowed with unknown_action_decision=DENY") in
          Ok (mkPolicy (text_or "name" "unnamed" d) (text_or "version" "0" d) read_only mutating deny approval unknown)
      end
  | _ => Err (PolicyError "policy document must be a JSON object")
  end.

(** [_policy_hash] *)
Definition policy_hash (p : Policy) : string := sha256_hex (json_dumps (policy_value p)).

(** ** Loading *)

Inductive policy_file : Type := FileMissing | FileUnreadable | FileDocument (document : value).

(** What is read of the environment: the texts of three variables, with what [json.loads] makes of
    the inline document ([None]: it raises) and what opening and parsing the file gives. *)
Record PolicyEnv := mkEnv {
  env_mode : option string;
  env_inline : option (string * option value);
  env_path : option (string * policy_file)
}.

(** [security_mode], [is_strict_mode] *)
Definition security_mode (e : PolicyEnv) : string :=
  let mode := lower (py_strip (default "production" (env_mode e))) in
  if String.eqb mode "" then "production" else mode.
Definition RELAXED_MODES : list string := ["development"; "dev"; "test"].
Definition is_strict_mode (e : PolicyEnv) : bool := negb (str_in (security_mode e) RELAXED_MODES).

Record LoadedPolicy := mkLoaded {
  lp_policy : option Policy;
  lp_source : string;
  lp_valid : bool;
  lp_hash : option string;
  lp_name : option string;
  lp_error : option string;
  lp_mode : string;
  lp_notes : list string
}.

Definition load_failed (source error mode : string) : LoadedPolicy := mkLoaded None source false None None (Some error) mode [].
Definition loaded (source : string) (p : Policy) (mode : string) (notes : list string) : LoadedPolicy :=
  mkLoaded (Some p) source true (Some (policy_hash p)) (Some (pl_name p)) None mode notes.

(** [LoadedPolicy.require] *)
Definition require (l : LoadedPolicy) : result policy_exn Policy :=
  match lp_valid l, lp_policy l with
  | true, Some p => Ok p
  | _, _ =>
      let m := default "" (lp_error l) in Err (PolicyError (if String.eqb m "" then "policy is not loaded" else m))
  end.

Definition BUILTIN_SAFE_POLICY : value :=
  VDict [("name", VStr "builtin-safe"); ("version", VStr "0.9.0");
         ("read_only_actions", VList (map VStr
            ["read"; "status"; "health"; "list"; "manifest"; "readiness"; "capabilities"; "agent-card"; "hermes_health";
             "hermes_readiness"; "hermes_status"; "hermes_wait"; "hermes_recent_runs"; "hermes_capabilities";
             "hermes_agent_card"; "hermes_policy_evaluate"; "hermes_approval_status"; "hermes_result_manifest";
             "hermes_plan"; "hermes_checkpoint_status"; "hermes_saga_status"; "hermes_lock_status";
             "hermes_quota_status"; "hermes_prompt"; "hermes_submit"]));
         ("mutating_actions", VList (map VStr
            ["hermes_stop"; "hermes_approval_create"; "hermes_approval_respond"; "hermes_execute_approved_plan";
             "hermes_checkpoint_create"; "hermes_continue"; "hermes_saga_start"; "hermes_saga_compensate";
             "hermes_lock_acquire"; "hermes_lock_release"]));
         ("deny_actions", VList []); ("require_approval_actions", VList []); ("unknown_action_decision", VStr "DENY")].

Definition given (o : option string) : bool := match o with Some s => negb (blank s) | None => false end.

(** [load_policy]; [None] when the built-in policy itself is refused, which [builtin_loads] excludes. *)
Definition load_policy (e : PolicyEnv) : result policy_exn LoadedPolicy :=
  let mode := security_mode e in
  if given (fst <$> env_inline e) then
    Ok match env_inline e with
       | Some (_, Some document) =>
           match validate_policy_document document with
           | Ok p => loaded "inline" p mode []
           | Err x => load_failed "inline" (policy_message x) mode
           end
       | _ => load_failed "inline" "invalid JSON in policy inline env" mode
       end
  else if given (fst <$> env_path e) then
    Ok match env_path e with
       | Some (_, FileDocument document) =>
           match validate_policy_document document with
           | Ok p => loaded "file" p mode []
           | Err x => load_failed "file" (policy_message x) mode
           end
       | Some (_, FileMissing) => load_failed "file" "configured policy file is missing" mode
       | _ => load_failed "file" "policy file could not be parsed" mode
       end
  else
    let! p := validate_policy_document BUILTIN_SAFE_POLICY in Ok (loaded "builtin" p mode ["using built-in safe policy"]).

(** [get_active_policy]: the policy and what is cached afterwards. *)
Definition get_active_policy (refresh : bool) (e : PolicyEnv) (cached : option LoadedPolicy)
    : result policy_exn LoadedPolicy * option LoadedPolicy :=
  match refresh, cached with
  | false, Some l => (Ok l, Some l)
  | _, _ => match load_policy e with Ok l => (Ok l, Some l) | Err x => (Err x, cached) end
  end.

(** ** The decision *)

Record PolicyEvaluationInput := mkEvaluation {
  pe_action : string;
  pe_trust : TrustLabel;
  pe_class : MutationClass
}.

Record PolicyEvaluationResult := mkEvaluated {
  pr_decision : DecisionType;
  pr_reason : string;
  pr_effective : list (string * value);
  pr_approval : bool
}.

(** [classify_action], of a given policy *)
Definition classify_action (action : string) (p : Policy) : option MutationClass :=
  let normalized := lower (py_strip action) in
  if String.eqb normalized "" then None
  else if str_in normalized (pl_read_only p) then Some M_NONE
  else if str_in normalized (pl_mutating p) then Some M_WRITE
  else None.

(** [_trust_risk] *)
Definition trust_risk (t : TrustLabel) : string :=
  match t with
  | TRUSTED_POLICY | USER_INSTRUCTION => "low"
  | AGENT_PROPOSAL => "medium"
  | TOOL_RESULT => "low"
  | UNTRUSTED_CONTENT => "high"
  | TRUST_UNKNOWN => "unknown"
  end.

Definition mutates (c : MutationClass) : bool := match c with M_NONE => false | _ => true end.

(** [_evaluate_policy_impl], from the policy on. *)
Definition evaluate_with (source : string) (hash : option string) (p : Policy) (ev : PolicyEvaluationInput)
    : PolicyEvaluationResult :=
  let effective := [("source", VStr source); ("policy_name", VStr (pl_name p)); ("policy_hash", vopt hash)] in
  let action := py_strip (pe_action ev) in
  if String.eqb action "" then mkEvaluated D_DENY "missing action" effective false
  else
    let declared := classify_action action p in
    let class :=
      match declared with
      | None => pe_class ev
      | Some c => if bool_decide (c = M_NONE) && mutates (pe_class ev) then pe_class ev else c
      end in
    let risk := trust_risk (pe_trust ev) in
    let effective := effective ++
      [("trust_risk", VStr risk); ("action", VStr action);
       ("declared_class", VStr match declared with Some c => mutation_value c | None => "unknown" end);
       ("mutation_class", VStr (mutation_value class))] in
    if str_in (lower action) (pl_deny p) then mkEvaluated D_DENY "deny_actions" effective false
    else if str_in (lower action) (pl_approval p) then mkEvaluated D_REQUIRE_APPROVAL "require_approval_actions" effective true
    else
      match declared with
      | None =>
          mkEvaluated (pl_unknown p) "unknown action for active policy" effective
            (bool_decide (pl_unknown p = D_REQUIRE_APPROVAL))
      | Some _ =>
          if mutates class then
            mkEvaluated D_REQUIRE_APPROVAL ("mutation class " +:+ mutation_value class +:+ " requires approval") effective true
          else if String.eqb risk "high" then mkEvaluated D_REQUIRE_APPROVAL "high-risk trust label" effective true
          else mkEvaluated D_ALLOW "read-only action allowed by policy" effective false
      end.

(** [evaluate_policy], under the active policy or under a given document *)
Definition evaluate_active (l : LoadedPolicy) (ev : PolicyEvaluationInput) : result policy_exn PolicyEvaluationResult :=
  let! p := require l in Ok (evaluate_with (lp_source l) (lp_hash l) p ev).
Definition evaluate_policy (l : LoadedPolicy) (document : option value) (ev : PolicyEvaluationInput)
    : result policy_exn PolicyEvaluationResult :=
  match document with
  | None => evaluate_active l ev
  | Some d => let! p := validate_policy_document d in Ok (evaluate_with "explicit" (Some (policy_hash p)) p ev)
  end.

(** ** Enforcement by the tools of the server *)

(** [_mutation_from_action] *)
Definition mutation_from_action (l : LoadedPolicy) (action : string) : option MutationClass :=
  match require l with Ok p => classify_action action p | Err _ => Some M_ADMIN end.

(** The trust label of a call; a text that names none is untrusted content. *)
Definition trust_label (text : option string) : TrustLabel :=
  match text with
  | None => TRUST_UNKNOWN
  | Some s => if String.eqb s "" then TRUST_UNKNOWN else default UNTRUSTED_CONTENT (trust_of_text s)
  end.

(** [_policy_decision_from_inputs]; [None] is its ["error"]. *)
Definition policy_decision_from_inputs (l : LoadedPolicy) (action : string) (class : option MutationClass)
    (trust : option string) : option (DecisionType * string) :=
  let class := match class with Some c => c | None => default M_NONE (mutation_from_action l action) end in
  match evaluate_active l (mkEvaluation action (trust_label trust) class) with
  | Ok r => Some (pr_decision r, pr_reason r)
  | Err _ => None
  end.

Inductive policy_block : Type := PolicyRequiresApproval | PolicyDenied.

(** [_enforce_policy]; [None] when the call may proceed. *)
Definition enforce_policy (l : LoadedPolicy) (action : string) (class : option MutationClass) (trust : option string)
    : option policy_block :=
  match policy_decision_from_inputs l action class trust with
  | Some (D_ALLOW, _) => None
  | Some (D_REQUIRE_APPROVAL, _) => Some PolicyRequiresApproval
  | Some (D_DENY, _) | None => Some PolicyDenied
  end.

End Loading.

(** ** What a policy says of an action *)

Lemma classify_spec p a :
  let n := lower (py_strip a) in
  (classify_action a p = Some M_NONE <-> n <> "" /\ n ∈ pl_read_only p)
  /\ (classify_action a p = Some M_WRITE <-> n <> "" /\ n ∉ pl_read_only p /\ n ∈ pl_mutating p)
  /\ (classify_action a p = None \/ classify_action a p = Some M_NONE \/ classify_action a p = Some M_WRITE).
Proof.
  intros n. unfold classify_action. fold n.
  destruct (String.eqb_spec n "") as [E|E]; [split_and!; [split; [done|tauto]..|by left]|].
  destruct (str_in n (pl_read_only p)) eqn:Er; [apply str_in_elem in Er|apply str_in_false in Er].
  { split_and!; [done|split; [done|tauto]|tauto]. }
  destruct (str_in n (pl_mutating p)) eqn:Em; [apply str_in_elem in Em|apply str_in_false in Em];
    (split_and!; [split; [done|tauto]|split; [done|tauto]|tauto]).
Qed.

(** Whether an action is declared. *)
Definition undeclared (p : Policy) (a : string) : Prop := classify_action a p = None.

Lemma evaluate_spec source hash p ev :
  let a := py_strip (pe_action ev) in
  let r := evaluate_with source hash p ev in
  let listed := lower a ∈ pl_deny p \/ lower a ∈ pl_approval p in
  (pr_decision r = D_ALLOW <->
     a <> "" /\ ~ listed
     /\ ((classify_action a p = Some M_NONE /\ pe_class ev = M_NONE /\ pe_trust ev <> UNTRUSTED_CONTENT)
         \/ (undeclared p a /\ pl_unknown p = D_ALLOW)))
  /\ (pr_decision r = D_DENY <->
      a = "" \/ lower a ∈ pl_deny p \/ (~ listed /\ undeclared p a /\ pl_unknown p = D_DENY))
  /\ pr_approval r = bool_decide (pr_decision r = D_REQUIRE_APPROVAL).
Proof.
  intros a r listed. subst r listed. unfold evaluate_with, undeclared. fold a.
  destruct (String.eqb_spec a "") as [->|Ha]; [cbn; split_and!; [split; [done|tauto]|tauto|done]|].
  destruct (str_in (lower a) (pl_deny p)) eqn:Ed; [apply str_in_elem in Ed; cbn; split_and!; [split; [done|tauto]|tauto|done]|].
  destruct (str_in (lower a) (pl_approval p)) eqn:Eap;
    [apply str_in_elem in Eap; apply str_in_false in Ed; cbn; split_and!; [split; [done|tauto]|split; [done|tauto]|done]|].
  apply str_in_false in Ed, Eap. destruct (classify_spec p a) as (_ & _ & Hc).
  destruct (classify_action a p) as [c|] eqn:Ec.
  2:{ cbn. split_and!; [|split; [tauto|]|done]; [split; [tauto|]|]; naive_solver. }
  assert (c = M_NONE \/ c = M_WRITE) as [-> | ->] by naive_solver.
  - destruct (pe_class ev); cbn; try (split_and!; [split; [done|naive_solver]|split; [done|naive_solver]|done]).
    destruct (pe_trust ev); cbn; (split_and!; [naive_solver|naive_solver|done]).
  - cbn. split_and!; [naive_solver|naive_solver|done].
Qed.

(** [C32] The decision, exactly.  An action is allowed when it is declared read-only, its caller declares no
    mutation and its content is not untrusted, or when it is declared nowhere and the policy allows
    unknown actions; in either case it is on neither list of exceptions.  It is denied when there is
    none, when it is on the deny list, or when it is declared nowhere and the policy denies those.
    Everything else needs an approval, and says so. *)
Theorem policy_decision_exact source hash p ev :
  let a := py_strip (pe_action ev) in
  let r := evaluate_with source hash p ev in
  let listed := lower a ∈ pl_deny p \/ lower a ∈ pl_approval p in
  (pr_decision r = D_ALLOW <->
     a <> "" /\ ~ listed
     /\ ((classify_action a p = Some M_NONE /\ pe_class ev = M_NONE /\ pe_trust ev <> UNTRUSTED_CONTENT)
         \/ (undeclared p a /\ pl_unknown p = D_ALLOW)))
  /\ (pr_decision r = D_DENY <->
      a = "" \/ lower a ∈ pl_deny p \/ (~ listed /\ undeclared p a /\ pl_unknown p = D_DENY))
  /\ pr_approval r = bool_decide (pr_decision r = D_REQUIRE_APPROVAL).
Proof. apply evaluate_spec. Qed.

(** The tools fail closed: a call proceeds only under a policy that was loaded and validated and
    whose decision is ALLOW; in particular never for an action the policy declares mutating, and under
    untrusted content (or a label that is no trust label) only for an undeclared action of a policy that allows
    undeclared actions. *)
Theorem enforcement_fails_closed l action class trust :
  enforce_policy l action class trust = None ->
  exists p, require l = Ok p /\ lp_valid l = true
    /\ let a := py_strip action in
       ~ (lower a ∈ pl_deny p \/ lower a ∈ pl_approval p)
       /\ ((classify_action a p = Some M_NONE /\ default M_NONE class = M_NONE /\ trust_label trust <> UNTRUSTED_CONTENT)
           \/ (undeclared p a /\ pl_unknown p = D_ALLOW)).
Proof.
  unfold enforce_policy, policy_decision_from_inputs, evaluate_active. set (cl := match class with Some _ => _ | None => _ end).
  destruct (require l) as [p|e] eqn:Hr; [|done]. cbn [rbind].
  destruct (evaluate_spec (lp_source l) (lp_hash l) p (mkEvaluation action (trust_label trust) cl)) as (H & _).
  cbn [pe_action pe_class pe_trust] in H. destruct (pr_decision _); [|done..]. intros _.
  destruct (proj1 H eq_refl) as (_ & Hl & Hcase). exists p. split_and!; [done| |done|].
  { unfold require in Hr. by destruct (lp_valid l). }
  destruct Hcase as [(H1 & H2 & H3)|Hcase]; [left|by right]. split_and!; [done| |done]. by destruct class.
Qed.

(** A computed statement, of each of a list of names. *)
Ltac each_name := repeat (apply Forall_cons; split; [vm_compute; reflexivity|]); apply Forall_nil; exact I.

Section Loaded.
Variable repr : value -> string.
Variable sha256_hex : string -> string.

Lemma string_list_normal v field l :
  string_list v field = Ok l -> Forall (fun a => exists s, a = lower (py_strip s) /\ blank s = false) l.
Proof.
  unfold string_list. intros H. repeat case_match; simplify_eq; try constructor.
  apply rmap_Ok in H. eapply Forall2_Forall_r; [exact H|]. apply Forall_forall. intros x _ y Hy.
  destruct x; try done. apply rbind_Ok in Hy as ([] & Hb%raise_if_Ok & [= <-]). eauto.
Qed.

(** What a document must be to be loaded: its names of actions are in normal form, no action is both
    read-only and mutating, and a policy that declares nothing denies what it does not know. *)
Theorem loaded_policy_is_sane document p :
  validate_policy_document repr document = Ok p ->
  Forall (fun a => exists s, a = lower (py_strip s) /\ blank s = false)
    (pl_read_only p ++ pl_mutating p ++ pl_deny p ++ pl_approval p)
  /\ (forall a, a ∈ pl_read_only p -> a ∉ pl_mutating p)
  /\ (pl_read_only p = [] -> pl_mutating p = [] -> pl_unknown p = D_DENY).
Proof.
  unfold validate_policy_document. destruct document as [| | | | | |d|]; try done.
  intros (ro & H1 & (mu & H2 & (de & H3 & (ap & H4 & H)%rbind_Ok)%rbind_Ok)%rbind_Ok)%rbind_Ok.
  destruct (decision_of_text _) as [u|]; [|done].
  apply rbind_Ok in H as ([] & Ho%raise_if_Ok & H). apply rbind_Ok in H as ([] & He%raise_if_Ok & [= <-]).
  cbn [pl_read_only pl_mutating pl_deny pl_approval pl_unknown]. split_and!.
  - rewrite !Forall_app. split_and!; eapply string_list_normal; eassumption.
  - intros a Ha Hm. apply str_in_elem in Hm. apply not_true_iff_false in Ho. apply Ho, existsb_exists. exists a.
    split; [by apply list_elem_of_In|done].
  - intros -> ->. simpl in He. by apply negb_false_iff, bool_decide_eq_true in He.
Qed.

(** The built-in policy in normal form. *)
Definition builtin_policy : Policy :=
  Eval vm_compute in match validate_policy_document (fun _ => "") BUILTIN_SAFE_POLICY with
                     | Ok p => p
                     | Err _ => mkPolicy "" "" [] [] [] [] D_DENY
                     end.
Lemma builtin_validates : validate_policy_document repr BUILTIN_SAFE_POLICY = Ok builtin_policy.
Proof. vm_compute. reflexivity. Qed.

(** The built-in policy loads whatever the mode; under it the actions declared read-only proceed
    unless the content is untrusted, and then need an approval; those declared mutating always need
    one; every other action is denied. *)
Theorem builtin_policy_is_safe mode trust :
  exists l p, load_policy repr sha256_hex (mkEnv mode None None) = Ok l /\ require l = Ok p
    /\ Forall (fun a => enforce_policy l a None trust
                        = if bool_decide (trust_label trust = UNTRUSTED_CONTENT) then Some PolicyRequiresApproval else None)
         (pl_read_only p)
    /\ Forall (fun a => enforce_policy l a None trust = Some PolicyRequiresApproval) (pl_mutating p)
    /\ forall a, undeclared p (py_strip a) -> enforce_policy l a None trust = Some PolicyDenied.
Proof.
  exists (loaded sha256_hex "builtin" builtin_policy (security_mode (mkEnv mode None None)) ["using built-in safe policy"]), builtin_policy.
  split; [unfold load_policy; by rewrite builtin_validates|]. split; [reflexivity|].
  unfold enforce_policy, policy_decision_from_inputs, evaluate_active, loaded, mutation_from_action, require.
  cbn [lp_valid lp_policy lp_source lp_hash rbind].
  generalize (policy_hash sha256_hex builtin_policy). generalize (trust_label trust). intros t h. split_and!.
  - cbn [pl_read_only builtin_policy]. destruct t; each_name.
  - cbn [pl_mutating builtin_policy]. destruct t; each_name.
  - intros a Hu. match goal with |- context [evaluate_with ?s ?h ?p ?ev] => destruct (evaluate_spec s h p ev) as (_ & Hd & _) end.
    assert (Hn : forall x : string, ~ x ∈ @nil string) by (intros x; apply not_elem_of_nil).
    rewrite (proj2 Hd); [done|]. right; right. split_and!; [|exact Hu|done]. by intros [H%Hn|H%Hn].
Qed.
End Loaded.

(** ** Corner cases *)

Module PolicyCases.
Definition open_policy : value := VDict [("read_only_actions", VList [VStr " Read "]); ("unknown_action_decision", VStr "allow")].
Definition environment : PolicyEnv := mkEnv None (Some ("{...}", Some open_policy)) None.
Definition decided (action : string) (class : option MutationClass) (trust : string) : option (option policy_block) :=
  match load_policy (fun _ => "") (fun s => s) environment with
  | Ok l => Some (enforce_policy l action class (Some trust))
  | Err _ => None
  end.

(** Where unknown actions are allowed, neither the mutation the caller declares nor untrusted content
    is looked at; both need an approval for a declared action. *)
Example unknown_actions_skip_the_checks :
  decided "drop" (Some M_ADMIN) "untrusted_content" = Some None
  /\ decided "READ" (Some M_ADMIN) "user_instruction" = Some (Some PolicyRequiresApproval)
  /\ decided "READ" None "untrusted_content" = Some (Some PolicyRequiresApproval)
  /\ decided "READ" None "no such label" = Some (Some PolicyRequiresApproval)
  /\ decided "READ" None "" = Some None.
Proof. vm_compute. done. Qed.

Lemma enforcement_fails_closed_witness :
  match load_policy (fun _ => "") (fun s => s) environment with
  | Ok l => enforce_policy l "READ" None None = None /\ exists p, require l = Ok p /\ lp_valid l = true
  | Err _ => False
  end.
Proof.
  vm_compute load_policy. split; [vm_compute; reflexivity|].
  edestruct enforcement_fails_closed as (p & H1 & H2 & _); [|exists p; split; [exact H1|exact H2]].
  instantiate (1 := None). instantiate (1 := None). instantiate (1 := "READ"). vm_compute. reflexivity.
Defined.

Lemma loaded_policy_is_sane_witness :
  exists p, validate_policy_document (fun _ => "") open_policy = Ok p /\ pl_read_only p = ["read"]
    /\ forall a, a ∈ pl_read_only p -> a ∉ pl_mutating p.
Proof.
  eexists. split; [vm_compute; reflexivity|]. split; [reflexivity|].
  edestruct (loaded_policy_is_sane (fun _ => "") open_policy) as (_ & H & _); [vm_compute; reflexivity|]. exact H.
Defined.
End PolicyCases.
