(* ===== verification/PromptGate.v ===== *)
(** * Submitting a prompt ([prompt_approvals.py], [registry.py], [hermes_submit] and [hermes_prompt] of [server.py])

    The way of a prompt through the first version: the policy, the approval bound to exactly this
    request, the registry of runs by client request, the upstream call.  One handler runs until its
    next await, so the guard is one step; between awaits any other handler, any other use of the
    approvals and a restart of the process may come.  Instants are inputs, in microseconds; the
    answer of the upstream and whether the registry could be written are too.  The reasons in the
    outcomes are left out, and so is what [hermes_prompt] reads of the run it follows when the request
    is already on record: nothing decides on them. *)
From S2P Require Import Prelude.
From S2P Require Import PyText.
From S2P Require Import PyTime.
From S2P Require Import PyValue.
From S2P Require Import Canonical.
From S2P Require Import ApprovalRegistry.
From S2P Require Import PromptPolicy.

(** ** The registry of runs ([registry.py]) *)

Record RunMapping := mkMapping {
  rm_fingerprint : string;
  rm_execution : string;
  rm_session : option string;
  rm_status : string;
  rm_created : string;
  rm_updated : string
}.
Abbreviation RunTable := (gmap string RunMapping).

Inductive registry_error : Type := ClientRequestIdError | FingerprintConflictError.

(** [_validate_client_request_id] *)
Definition validate_client_request_id (i : string) : result registry_error unit :=
  do! raise_if (negb ((1 <=? py_len i) && (py_len i <=? 160))) ClientRequestIdError in
  raise_if (negb (match_dollar (first_rest is_alnum (fun c => is_alnum c || one_of "._:-" c) 159) i)) ClientRequestIdError.

(** [RunRegistry.get], [record], [update_status]: one transaction each. *)
Definition get_run (i : string) (t : RunTable) : result registry_error (option RunMapping) :=
  do! validate_client_request_id i in Ok (t !! i).

Definition set_updated (now : string) (m : RunMapping) : RunMapping :=
  mkMapping (rm_fingerprint m) (rm_execution m) (rm_session m) (rm_status m) (rm_created m) now.

Definition record_run (i fingerprint execution : string) (session : option string) (status : string) (now_us : Z) (t : RunTable)
    : result registry_error (option RunMapping) * RunTable :=
  let now := isoformat now_us in
  match validate_client_request_id i with
  | Err e => (Err e, t)
  | Ok _ =>
      match t !! i with
      | Some m =>
          if negb (String.eqb (rm_fingerprint m) fingerprint) then (Err FingerprintConflictError, t)
          else let t' := <[i := set_updated now m]> t in (get_run i t', t')
      | None => let t' := <[i := mkMapping fingerprint execution session status now now]> t in (get_run i t', t')
      end
  end.

Definition update_status (i status : string) (execution : option string) (now_us : Z) (t : RunTable)
    : result registry_error (option RunMapping) * RunTable :=
  match validate_client_request_id i with
  | Err e => (Err e, t)
  | Ok _ =>
      match t !! i with
      | None => (Ok None, t)
      | Some m =>
          let m' := mkMapping (rm_fingerprint m) (default (rm_execution m) execution) (rm_session m) status (rm_created m)
                      (isoformat now_us) in
          let t' := <[i := m']> t in (get_run i t', t')
      end
  end.

(** [prompt.splitlines()]: the breaks of text, a carriage return and a newline being one. *)
Fixpoint splitlines (current s : string) : list string :=
  match s with
  | EmptyString => if String.eqb current "" then [] else [current]
  | String c s1 =>
      let plain := splitlines (current +:+ String c "") s1 in
      if code c =? 13 then
        match s1 with
        | String d s2 => if code d =? 10 then current :: splitlines "" s2 else current :: splitlines "" s1
        | EmptyString => [current]
        end
      else if between 10 12 c || between 28 30 c then current :: splitlines "" s1
      else
        match s1 with
        | EmptyString => plain
        | String d s2 =>
            if (code c =? 194) && (code d =? 133) then current :: splitlines "" s2
            else
              match s2 with
              | EmptyString => plain
              | String e s3 =>
                  if (code c =? 226) && (code d =? 128) && ((code e =? 168) || (code e =? 169))
                  then current :: splitlines "" s3 else plain
              end
        end
  end.

(** [_normalize_prompt] *)
Definition normalize_prompt (prompt : string) : string := join (String nl "") (splitlines "" (py_strip prompt)).

(** ** Requests *)

Inductive prompt_tool : Type := SubmitTool | PromptTool.
#[export] Instance prompt_tool_eq_dec : EqDecision prompt_tool.
Proof. solve_decision. Defined.

(** The arguments of [hermes_submit] and [hermes_prompt]; an absent list is an empty one. *)
Record PromptRequest := mkPrompt {
  rq_tool : prompt_tool;
  rq_prompt : string;
  rq_client : option string;
  rq_session : option string;
  rq_agent : option string;
  rq_subagents : list string;
  rq_orchestration : string;
  rq_actions : list string;
  rq_scopes : list string;
  rq_trust : list string
}.

Definition tool_action (rq : PromptRequest) : string :=
  match rq_tool rq with SubmitTool => "hermes_submit" | PromptTool => "hermes_prompt" end.
(** [hermes_submit] knows no session. *)
Definition session_of (rq : PromptRequest) : option string :=
  match rq_tool rq with SubmitTool => None | PromptTool => rq_session rq end.

Section Gate.
Variable sha256_hex : string -> string.
Variable fromisoformat : string -> option (Z * bool).

Definition hash_of (v : value) : string := sha256_hex (json_dumps v).

(** [compute_fingerprint] *)
Definition run_fingerprint (rq : PromptRequest) : string :=
  hash_of (VDict [("prompt", VStr (normalize_prompt (rq_prompt rq))); ("session_id", vopt (session_of rq));
                  ("agent", vopt (rq_agent rq)); ("subagents", VList (map VStr (sort_str (rq_subagents rq))));
                  ("orchestration", VStr (rq_orchestration rq))]).

(** ** What an approval is bound to ([_request_binding]) *)

Definition request_payload (rq : PromptRequest) : value :=
  let texts l := VList (map VStr l) in
  VDict [("action", VStr (tool_action rq)); ("prompt_sha256", VStr (sha256_hex (rq_prompt rq)));
         ("client_request_id", vopt (rq_client rq)); ("session_id", vopt (session_of rq)); ("agent", vopt (rq_agent rq));
         ("subagents", texts (rq_subagents rq)); ("orchestration", VStr (rq_orchestration rq));
         ("expected_actions", texts (rq_actions rq)); ("resource_scopes", texts (rq_scopes rq));
         ("trust_labels", texts (rq_trust rq))].
Definition request_digest (rq : PromptRequest) : string := hash_of (request_payload rq).
Definition RESOURCE_PREFIX : string := "request-sha256:".
Definition request_resource (rq : PromptRequest) : string := RESOURCE_PREFIX +:+ request_digest rq.
Definition has_client (rq : PromptRequest) : bool := bool_decide (rq_client rq <> None).
Definition request_metadata (rq : PromptRequest) : value :=
  VDict [("kind", VStr "prompt-policy-handoff"); ("request_digest", VStr (request_digest rq));
         ("client_request_id_present", VBool (has_client rq))].
(** Its text as it is stored, with the default separators. *)
Definition metadata_text (rq : PromptRequest) : string :=
  let field k v := quote k +:+ ": " +:+ v in
  "{" +:+ join ", " [field "client_request_id_present" (if has_client rq then "true" else "false");
                     field "kind" (quote "prompt-policy-handoff"); field "request_digest" (quote (request_digest rq))] +:+ "}".
(** [_resource_fingerprint] *)
Definition request_fingerprint (rq : PromptRequest) : string :=
  hash_of (VDict [("resource", VStr (request_resource rq)); ("metadata", request_metadata rq)]).
(** [_approval_id_for_resource] *)
Definition APPROVAL_PREFIX : string := "approval-prompt-".
Definition removeprefix (prefix s : string) : string :=
  if String.prefix prefix s then String.substring (String.length prefix) (String.length s - String.length prefix) s else s.
Definition approval_id (rq : PromptRequest) : string :=
  APPROVAL_PREFIX +:+ String.substring 0 48 (removeprefix RESOURCE_PREFIX (request_resource rq)).

(** ** Resolving an approval ([resolve_required_prompt_approval]) *)

Definition status_value (s : ApprovalStatus) : string :=
  match s with
  | Requested => "requested" | Approved => "approved" | Rejected => "rejected"
  | Expired => "expired" | Consumed => "consumed" | Stale => "stale"
  end.

Record PromptApprovalOutcome := mkPromptOutcome {
  po_allowed : bool;
  po_required : bool;
  po_id : string;
  po_decision : string;
  po_resource : string;
  po_existing : bool
}.

(** The instants a guard reads: for the expiry and the creation of a new record, for the check of the
    expiry, for a consumption, and for the mark of an expired record. *)
Record Clock := mkClock { ck_expiry : Z; ck_created : Z; ck_check : Z; ck_consume : Z; ck_expire : Z }.

Definition PROMPT_APPROVAL_TTL_US : Z := 900000000.

(** [_is_expired] *)
Definition is_expired (now_us : Z) (a : Approval) : bool :=
  match ap_expires a with
  | None => false
  | Some x => match fromisoformat x with None => true | Some (e, _) => e <=? now_us end
  end.

(** [_existing_execution_matches] *)
Definition existing_execution_matches (rq : PromptRequest) (runs : RunTable) : bool :=
  match rq_client rq with
  | None => false
  | Some i =>
      match get_run i runs with
      | Ok (Some m) => String.eqb (rm_fingerprint m) (run_fingerprint rq)
      | _ => false
      end
  end.

Definition blocked (rq : PromptRequest) (decision : string) : PromptApprovalOutcome :=
  mkPromptOutcome false true (approval_id rq) decision (request_resource rq) false.
Definition allowed (rq : PromptRequest) (existing : bool) : PromptApprovalOutcome :=
  mkPromptOutcome true false (approval_id rq) (status_value Consumed) (request_resource rq) existing.

(** The record that asks for the approval. *)
Definition new_request (rq : PromptRequest) (ck : Clock) : Approval :=
  mkApproval (approval_id rq) (tool_action rq) (Some (request_resource rq)) (Some (request_fingerprint rq)) None "[]"
    Requested (Some (isoformat (ck_expiry ck + PROMPT_APPROVAL_TTL_US))) (isoformat (ck_created ck)) None None
    (metadata_text rq) "caller_asserted".

(** What [consume] raises that is caught. *)
Definition caught (e : approval_error) : bool :=
  match e with
  | ApprovalConsumedError | ApprovalExpiredError | ApprovalStaleError | ApprovalStatusError => true
  | _ => false
  end.

(** From the record on. *)
Definition resolve_record (rq : PromptRequest) (ck : Clock) (runs : RunTable) (a : Approval) (t : ApprovalTable)
    : result approval_error PromptApprovalOutcome * ApprovalTable :=
  if negb (String.eqb (ap_action a) (tool_action rq)) || negb (bool_decide (ap_resource a = Some (request_resource rq)))
  then (Ok (blocked rq "stale"), t)
  else if negb (bool_decide (ap_fingerprint a = Some (request_fingerprint rq))) then (Ok (blocked rq "stale"), t)
  else if is_expired (ck_check ck) a then
    (Ok (blocked rq "expired"),
     if bool_decide (ap_decision a = Requested) then snd (expire (approval_id rq) (ck_expire ck) t) else t)
  else
    match ap_decision a with
    | Requested => (Ok (blocked rq (status_value Requested)), t)
    | Approved =>
        match consume fromisoformat (approval_id rq) (Some (request_fingerprint rq)) true (Some (tool_action rq)) (ck_consume ck) t with
        | (Ok _, t') => (Ok (allowed rq false), t')
        | (Err e, t') => ((if caught e then Ok (blocked rq "blocked") else Err e), t')
        end
    | Consumed =>
        (Ok (if existing_execution_matches rq runs then allowed rq true else blocked rq (status_value Consumed)), t)
    | d => (Ok (blocked rq (status_value d)), t)
    end.

Definition resolve_required_prompt_approval (rq : PromptRequest) (ck : Clock) (runs : RunTable) (t : ApprovalTable)
    : result approval_error PromptApprovalOutcome * ApprovalTable :=
  match get_approval (approval_id rq) t with
  | Ok a => resolve_record rq ck runs a t
  | Err ApprovalNotFound =>
      match create (new_request rq ck) t with
      | (Ok a, t') => resolve_record rq ck runs a t'
      | (Err _, t') => (Ok (blocked rq "error"), t')
      end
  | Err e => (Err e, t)
  end.

(** ** The guard ([_enforce_prompt_policy]) *)

(** How a prompt got past the guard; the code keeps only that it did. *)
Inductive grant : Type := Unguarded | ByPolicy | ByApproval | ByExisting.
Inductive refusal : Type := RefusedByPolicy (b : policy_block) | AwaitsApproval (o : PromptApprovalOutcome) | HandoffFailed.

Definition enforce_prompt_policy (l : LoadedPolicy) (rq : PromptRequest) (ck : Clock) (runs : RunTable) (t : ApprovalTable)
    : (grant + refusal) * ApprovalTable :=
  let trust := head (rq_trust rq) in
  match policy_decision_from_inputs l (tool_action rq) None trust with
  | Some (D_REQUIRE_APPROVAL, _) =>
      match resolve_required_prompt_approval rq ck runs t with
      | (Ok o, t') => (if po_allowed o then inl (if po_existing o then ByExisting else ByApproval) else inr (AwaitsApproval o), t')
      | (Err _, t') => (inr HandoffFailed, t')
      end
  | _ => (match enforce_policy l (tool_action rq) None trust with None => inl ByPolicy | Some b => inr (RefusedByPolicy b) end, t)
  end.

(** The handler up to its first await: without trust labels nothing is enforced. *)
Definition guard (l : LoadedPolicy) (rq : PromptRequest) (ck : Clock) (runs : RunTable) (t : ApprovalTable)
    : (grant + refusal) * ApprovalTable :=
  if bool_decide (rq_trust rq = []) then (inl Unguarded, t) else enforce_prompt_policy l rq ck runs t.

(** ** The handlers *)

(** What the upstream answers to a prompt. *)
Record UpstreamRun := mkRun { ur_execution : string; ur_session : option string; ur_status : string }.

Inductive answer : Type :=
| PromptEmpty | Refused (r : refusal) | RegistryFailed (e : registry_error) | DifferentFingerprint
| ExistingRun (m : RunMapping) | UpstreamFailed | Completed (r : UpstreamRun) (warning : bool)
| RecordRaised (e : registry_error) | WasCancelled.

(** Where a handler is suspended: at the lock of its client request, in the lookup, in the upstream
    call, in recording the run (again, when it was cancelled there), in following an existing run. *)
Inductive phase : Type :=
| AtLock (g : grant) | Looking (g : grant) | Calling | Recording (r : UpstreamRun) (cancelled : bool) | Following (m : RunMapping)
| Ended (a : answer).

Record Task := mkTask { tk_request : PromptRequest; tk_phase : phase }.

(** The two tables on disk; of the process the locks held, the handlers, the records whose handlers
    did not wait for them; and the prompts sent upstream, in order. *)
Record Server := mkServer {
  sv_approvals : ApprovalTable;
  sv_runs : RunTable;
  sv_held : gset string;
  sv_tasks : gmap nat Task;
  sv_detached : list (PromptRequest * UpstreamRun);
  sv_next : nat;
  sv_sent : list (nat * PromptRequest * grant)
}.
Definition start_server (t : ApprovalTable) (runs : RunTable) : Server := mkServer t runs ∅ ∅ [] 0 [].

Definition set_phase (n : nat) (p : phase) (s : Server) : Server :=
  mkServer (sv_approvals s) (sv_runs s) (sv_held s) (alter (fun k => mkTask (tk_request k) p) n (sv_tasks s))
    (sv_detached s) (sv_next s) (sv_sent s).
Definition set_runs (runs : RunTable) (s : Server) : Server :=
  mkServer (sv_approvals s) runs (sv_held s) (sv_tasks s) (sv_detached s) (sv_next s) (sv_sent s).
Definition set_held (held : gset string) (s : Server) : Server :=
  mkServer (sv_approvals s) (sv_runs s) held (sv_tasks s) (sv_detached s) (sv_next s) (sv_sent s).
Definition detach (rq : PromptRequest) (r : UpstreamRun) (s : Server) : Server :=
  mkServer (sv_approvals s) (sv_runs s) (sv_held s) (sv_tasks s) (sv_detached s ++ [(rq, r)]) (sv_next s) (sv_sent s).
Definition send (n : nat) (rq : PromptRequest) (g : grant) (s : Server) : Server :=
  mkServer (sv_approvals s) (sv_runs s) (sv_held s) (sv_tasks s) (sv_detached s) (sv_next s) (sv_sent s ++ [(n, rq, g)]).

(** A handler ends, and lets go of its lock. *)
Definition finish_task (n : nat) (rq : PromptRequest) (a : answer) (s : Server) : Server :=
  set_phase n (Ended a) match rq_client rq with Some i => set_held (sv_held s ∖ {[i]}) s | None => s end.

(** [registry.record] of the run of a request. *)
Definition record_of (rq : PromptRequest) (r : UpstreamRun) (now_us : Z) (runs : RunTable)
    : result registry_error (option RunMapping) * RunTable :=
  match rq_client rq with
  | Some i => record_run i (run_fingerprint rq) (ur_execution r) (ur_session r) (ur_status r) now_us runs
  | None => (Ok None, runs)
  end.

Inductive event : Type :=
| Begin (l : LoadedPolicy) (rq : PromptRequest) (ck : Clock)
| Acquire (n : nat)
| Look (n : nat)
| Answer (n : nat) (r : option UpstreamRun)
| Recorded (n : nat) (now_us : Z) (written : bool)
| Followed (n : nat)
| Cancel (n : nat)
| Landed (k : nat) (now_us : Z) (written : bool)
| OtherApproval (c : approval_call)
| OtherStatus (i status : string) (execution : option string) (now_us : Z)
| ProcessRestart.

(** [_validate_prompt] and the guard. *)
Definition begin_task (l : LoadedPolicy) (rq : PromptRequest) (ck : Clock) (s : Server) : Server :=
  let '(r, t) := if blank (rq_prompt rq) then (None, sv_approvals s)
                 else let '(r, t) := guard l rq ck (sv_runs s) (sv_approvals s) in (Some r, t) in
  let p := match r with None => Ended PromptEmpty | Some (inl g) => AtLock g | Some (inr x) => Ended (Refused x) end in
  mkServer t (sv_runs s) (sv_held s) (<[sv_next s := mkTask rq p]> (sv_tasks s)) (sv_detached s) (S (sv_next s)) (sv_sent s).

(** The lookup under the lock. *)
Definition look (n : nat) (rq : PromptRequest) (g : grant) (i : string) (s : Server) : Server :=
  match get_run i (sv_runs s) with
  | Err e => finish_task n rq (RegistryFailed e) s
  | Ok (Some m) =>
      if negb (String.eqb (rm_fingerprint m) (run_fingerprint rq)) then finish_task n rq DifferentFingerprint s
      else match rq_tool rq with
           | SubmitTool => finish_task n rq (ExistingRun m) s
           | PromptTool => set_phase n (Following m) s
           end
  | Ok None => set_phase n Calling (send n rq g s)
  end.

(** A cancellation at an await.  [hermes_submit] shields the first recording and records again. *)
Definition cancel (n : nat) (rq : PromptRequest) (p : phase) (s : Server) : Server :=
  match p with
  | AtLock _ => set_phase n (Ended WasCancelled) s
  | Looking _ | Calling | Following _ => finish_task n rq WasCancelled s
  | Recording r false =>
      match rq_tool rq with
      | SubmitTool => set_phase n (Recording r true) (detach rq r s)
      | PromptTool => finish_task n rq WasCancelled (detach rq r s)
      end
  | Recording r true => finish_task n rq WasCancelled (detach rq r s)
  | Ended _ => s
  end.

(** What the handler makes of a recording. *)
Definition recorded (n : nat) (rq : PromptRequest) (r : UpstreamRun) (cancelled : bool) (now_us : Z) (written : bool)
    (s : Server) : Server :=
  let ending warning := if cancelled then WasCancelled else Completed r warning in
  if written then
    match record_of rq r now_us (sv_runs s) with
    | (Ok _, runs) => finish_task n rq (ending false) (set_runs runs s)
    | (Err e, runs) => finish_task n rq (RecordRaised e) (set_runs runs s)
    end
  else finish_task n rq (ending true) s.

(** An event that does not fit the state changes nothing. *)
Definition server_step (s : Server) (e : event) : Server :=
  let with_task n k := match sv_tasks s !! n with Some (mkTask rq p) => k rq p | None => s end in
  match e with
  | Begin l rq ck => begin_task l rq ck s
  | Acquire n => with_task n (fun rq p =>
      match p, rq_client rq with
      | AtLock g, None => set_phase n Calling (send n rq g s)
      | AtLock g, Some i =>
          if bool_decide (i ∈ sv_held s) then s else set_phase n (Looking g) (set_held ({[i]} ∪ sv_held s) s)
      | _, _ => s
      end)
  | Look n => with_task n (fun rq p =>
      match p, rq_client rq with Looking g, Some i => look n rq g i s | _, _ => s end)
  | Answer n r => with_task n (fun rq p =>
      match p, r, rq_client rq with
      | Calling, None, _ => finish_task n rq UpstreamFailed s
      | Calling, Some r, None => finish_task n rq (Completed r false) s
      | Calling, Some r, Some _ => set_phase n (Recording r false) s
      | _, _, _ => s
      end)
  | Recorded n now_us written => with_task n (fun rq p =>
      match p with Recording r cancelled => recorded n rq r cancelled now_us written s | _ => s end)
  | Followed n => with_task n (fun rq p => match p with Following m => finish_task n rq (ExistingRun m) s | _ => s end)
  | Cancel n => with_task n (fun rq p => cancel n rq p s)
  | Landed k now_us written =>
      match sv_detached s !! k with
      | Some (rq, r) =>
          mkServer (sv_approvals s) (if written then snd (record_of rq r now_us (sv_runs s)) else sv_runs s) (sv_held s)
            (sv_tasks s) (delete k (sv_detached s)) (sv_next s) (sv_sent s)
      | None => s
      end
  | OtherApproval c =>
      mkServer (snd (run_call fromisoformat c (sv_approvals s))) (sv_runs s) (sv_held s) (sv_tasks s) (sv_detached s)
        (sv_next s) (sv_sent s)
  | OtherStatus i status execution now_us => set_runs (snd (update_status i status execution now_us (sv_runs s))) s
  | ProcessRestart => mkServer (sv_approvals s) (sv_runs s) ∅ ∅ [] (sv_next s) (sv_sent s)
  end.

Definition server_run (s : Server) (es : list event) : Server := fold_left server_step es s.

End Gate.

(** ** The tables only grow *)

Section Guarantees.
Variable sha256_hex : string -> string.
Variable fromisoformat : string -> option (Z * bool).

Notation approval_id := (approval_id sha256_hex).
Notation request_resource := (request_resource sha256_hex).
Notation request_fingerprint := (request_fingerprint sha256_hex).
Notation run_fingerprint := (run_fingerprint sha256_hex).
Notation step := (server_step sha256_hex fromisoformat).
Notation srun := (server_run sha256_hex fromisoformat).

(** An approval stays, with what binds it, and stays consumed. *)
Definition grows (t t' : ApprovalTable) : Prop :=
  forall i a, t !! i = Some a -> exists b, t' !! i = Some b /\ bound_parts b = bound_parts a
    /\ forall x, ap_consumed a = Some x -> ap_consumed b = Some x.

Lemma grows_refl t : grows t t.
Proof. intros i a Ha. by exists a. Qed.

Lemma grows_trans t1 t2 t3 : grows t1 t2 -> grows t2 t3 -> grows t1 t3.
Proof.
  intros H1 H2 i a (b & Hb & E & Hc)%H1. apply H2 in Hb as (b' & Hb' & E' & Hc'). exists b'.
  split_and!; [done|congruence|auto].
Qed.

Lemma call_grows c t : grows t (snd (run_call fromisoformat c t)).
Proof.
  intros i a Ha. destruct (run_call fromisoformat c t) as [res t'] eqn:E.
  destruct (run_call_row _ _ _ _ _ _ _ E Ha) as (b & Hb & Hch). exists b.
  split_and!; [done|by apply changes_bound|]. intros x. by apply changes_consumed.
Qed.

(** A run stays, under its fingerprint. *)
Definition keeps_runs (t t' : RunTable) : Prop :=
  forall i m, t !! i = Some m -> exists m', t' !! i = Some m' /\ rm_fingerprint m' = rm_fingerprint m.

Lemma keeps_runs_refl t : keeps_runs t t.
Proof. intros i m Hm. by exists m. Qed.

Lemma keeps_runs_trans t1 t2 t3 : keeps_runs t1 t2 -> keeps_runs t2 t3 -> keeps_runs t1 t3.
Proof. intros H1 H2 i m (m1 & Hm & E)%H1. apply H2 in Hm as (m2 & ? & ?). exists m2. split; [done|congruence]. Qed.

Lemma insert_keeps i (m0 m1 : RunMapping) (t : RunTable) :
  t !! i = Some m0 -> rm_fingerprint m1 = rm_fingerprint m0 -> keeps_runs t (<[i := m1]> t).
Proof.
  intros Hi E j m Hm. destruct (decide (i = j)) as [->|Hne]; [|exists m; by rewrite lookup_insert_ne].
  exists m1. rewrite lookup_insert_eq. split; [done|congruence].
Qed.

Lemma record_keeps i fp ex se st now t : keeps_runs t (snd (record_run i fp ex se st now t)).
Proof.
  unfold record_run. destruct (validate_client_request_id i); [|apply keeps_runs_refl].
  destruct (t !! i) as [m|] eqn:Hm.
  - destruct (negb _); [apply keeps_runs_refl|]. simpl. by eapply insert_keeps.
  - simpl. intros j m Hj. exists m. by rewrite lookup_insert_ne by congruence.
Qed.

Lemma record_of_keeps rq r now t : keeps_runs t (snd (record_of sha256_hex rq r now t)).
Proof. unfold record_of. destruct (rq_client rq); [apply record_keeps|apply keeps_runs_refl]. Qed.

Lemma status_keeps i st ex now t : keeps_runs t (snd (update_status i st ex now t)).
Proof.
  unfold update_status. destruct (validate_client_request_id i); [|apply keeps_runs_refl].
  destruct (t !! i) as [m|] eqn:Hm; [|apply keeps_runs_refl]. simpl. by eapply insert_keeps.
Qed.

(** ** The guard *)

(** An approval of exactly this request. *)
Definition bound_to (rq : PromptRequest) (a : Approval) : Prop :=
  ap_action a = tool_action rq /\ ap_resource a = Some (request_resource rq)
  /\ ap_fingerprint a = Some (request_fingerprint rq).

(** What stands behind a grant, when the guard ran. *)
Definition granted (l : LoadedPolicy) (rq : PromptRequest) (ck : Clock) (runs : RunTable) (t : ApprovalTable) (g : grant) : Prop :=
  match g with
  | Unguarded => rq_trust rq = []
  | ByPolicy => enforce_policy l (tool_action rq) None (head (rq_trust rq)) = None
  | ByApproval => exists a, t !! approval_id rq = Some a /\ bound_to rq a
      /\ consumable fromisoformat (approval_id rq) (Some (request_fingerprint rq)) true (Some (tool_action rq)) (ck_consume ck) a
  | ByExisting => exists i m, rq_client rq = Some i /\ runs !! i = Some m /\ rm_fingerprint m = run_fingerprint rq
  end.

(** What the guard answers and does to the approvals. *)
Definition guarded (l : LoadedPolicy) (rq : PromptRequest) (ck : Clock) (runs : RunTable) (t : ApprovalTable)
    (r : grant + refusal) (t' : ApprovalTable) : Prop :=
  grows t t'
  /\ match r with
     | inl g => granted l rq ck runs t g
         /\ (g = ByApproval -> exists b x, t' !! approval_id rq = Some b /\ ap_consumed b = Some x)
     | inr _ => True
     end.

Lemma existing_spec rq runs :
  existing_execution_matches sha256_hex rq runs = true ->
  exists i m, rq_client rq = Some i /\ runs !! i = Some m /\ rm_fingerprint m = run_fingerprint rq.
Proof.
  unfold existing_execution_matches, get_run. destruct (rq_client rq) as [i|]; [|done].
  destruct (validate_client_request_id i); [|done]. cbn [rbind]. destruct (runs !! i) as [m|] eqn:Hm; [|done].
  intros E%String.eqb_eq. by exists i, m.
Qed.

(** What resolving from a record answers. *)
Lemma resolve_record_spec rq ck runs a t o t' :
  resolve_record sha256_hex fromisoformat rq ck runs a t = (Ok o, t') -> po_allowed o = true ->
  (po_existing o = true /\ t' = t /\ existing_execution_matches sha256_hex rq runs = true)
  \/ (po_existing o = false /\ bound_to rq a /\ ap_decision a = Approved
      /\ exists b, consume fromisoformat (approval_id rq) (Some (request_fingerprint rq)) true (Some (tool_action rq)) (ck_consume ck) t = (Ok b, t')).
Proof.
  intros H Hal. unfold resolve_record in H.
  destruct (negb _ || negb _) eqn:E1; [by injection H as <- <-|].
  apply orb_false_iff in E1 as [Ea%negb_false_iff%String.eqb_eq Er%negb_false_iff%bool_decide_eq_true].
  destruct (negb _) eqn:E2; [by injection H as <- <-|]. apply negb_false_iff, bool_decide_eq_true in E2.
  destruct (is_expired _ _ _); [by injection H as <- <-|].
  destruct (ap_decision a) eqn:Ed; try (by injection H as <- <-).
  - right. destruct (consume _ _ _ _ _ _ _) as [[b|e] t1].
    + injection H as <- <-. split_and!; [done|by split_and!|done|by exists b].
    + destruct (caught e); [|done]. by injection H as <- <-.
  - left. injection H as <- <-. destruct (existing_execution_matches _ _ _); [by split_and!|done].
Qed.

Lemma resolve_record_grows rq ck runs a t :
  grows t (snd (resolve_record sha256_hex fromisoformat rq ck runs a t)).
Proof.
  unfold resolve_record. destruct (_ || _); [apply grows_refl|]. destruct (negb _); [apply grows_refl|].
  destruct (is_expired _ _ _).
  { simpl. case_bool_decide; [|apply grows_refl]. apply (call_grows (Expire (approval_id rq) (ck_expire ck))). }
  destruct (ap_decision a); try apply grows_refl.
  pose proof (call_grows (Consume (approval_id rq) (Some (request_fingerprint rq)) true (Some (tool_action rq)) (ck_consume ck)) t) as Hg.
  simpl in Hg. by destruct (consume _ _ _ _ _ _ _) as [[b|e] t1].
Qed.

(** A consumption that succeeded, and the row it found. *)
Lemma consumed_row rq ck t b t' :
  consume fromisoformat (approval_id rq) (Some (request_fingerprint rq)) true (Some (tool_action rq)) (ck_consume ck) t = (Ok b, t') ->
  exists a x, t !! approval_id rq = Some a
    /\ consumable fromisoformat (approval_id rq) (Some (request_fingerprint rq)) true (Some (tool_action rq)) (ck_consume ck) a
    /\ t' !! approval_id rq = Some b /\ ap_consumed b = Some x.
Proof.
  intros H. pose proof (run_call_spec fromisoformat (Consume (approval_id rq) (Some (request_fingerprint rq)) true
    (Some (tool_action rq)) (ck_consume ck)) t (Ok b) t' H) as [[_ []]|[(? & ? & _)|(a & b' & Ha & _ & -> & Hc)]]; [done|].
  cbn [call_id] in *. destruct Hc as [[[e ?] _]|(Hc & -> & [= ->])]; [done|].
  exists a, (isoformat (ck_consume ck)). rewrite lookup_insert_eq. split_and!; [done..|]. by destruct a.
Qed.

Lemma resolve_spec rq ck runs t o t' :
  resolve_required_prompt_approval sha256_hex fromisoformat rq ck runs t = (Ok o, t') -> po_allowed o = true ->
  (po_existing o = true /\ existing_execution_matches sha256_hex rq runs = true)
  \/ (po_existing o = false /\ exists a x b, t !! approval_id rq = Some a /\ bound_to rq a
      /\ consumable fromisoformat (approval_id rq) (Some (request_fingerprint rq)) true (Some (tool_action rq)) (ck_consume ck) a
      /\ t' !! approval_id rq = Some b /\ ap_consumed b = Some x).
Proof.
  unfold resolve_required_prompt_approval. intros H Hal. destruct (get_approval (approval_id rq) t) as [a|[]] eqn:Eg; try done.
  - apply resolve_record_spec in H as [(H1 & _ & H2)|(H1 & H2 & _ & b & H3)]; [by left| |done]. right. split; [done|].
    apply consumed_row in H3 as (a' & x & Ha' & Hc & Hb & Hx).
    assert (a' = a) as ->.
    { unfold get_approval in Eg. apply rbind_Ok in Eg as (_ & _ & Eg). rewrite Ha' in Eg. by injection Eg as ->. }
    by exists a, x, b.
  - destruct (create (new_request sha256_hex rq ck) t) as [[a|e] t1] eqn:Ec; [|by injection H as <- <-].
    apply resolve_record_spec in H as [(H1 & _ & H2)|(_ & _ & Hd & _)]; [by left| |done].
    exfalso. unfold create in Ec. destruct (validate_approval_id _) as [[]|] eqn:Hv; [|done].
    destruct (t !! _); [done|]. injection Ec as Ec <-. unfold get_approval in Ec. cbn [ap_id new_request] in *. rewrite Hv, lookup_insert_eq in Ec.
    by injection Ec as <-.
Qed.

Lemma resolve_grows rq ck runs t : grows t (snd (resolve_required_prompt_approval sha256_hex fromisoformat rq ck runs t)).
Proof.
  unfold resolve_required_prompt_approval. destruct (get_approval _ t) as [a|[]]; try apply grows_refl; [apply resolve_record_grows|].
  pose proof (call_grows (Create (new_request sha256_hex rq ck)) t) as Hg. simpl in Hg.
  destruct (create _ t) as [[a|e] t1]; [|done]. eapply grows_trans; [exact Hg|]. apply resolve_record_grows.
Qed.

Lemma guard_spec l rq ck runs t r t' :
  guard sha256_hex fromisoformat l rq ck runs t = (r, t') -> guarded l rq ck runs t r t'.
Proof.
  unfold guard. case_bool_decide as Ht.
  { intros [= <- <-]. split; [apply grows_refl|]. by split. }
  unfold enforce_prompt_policy. intros H.
  assert (Hpol : (match enforce_policy l (tool_action rq) None (head (rq_trust rq)) with
                  | None => inl ByPolicy | Some b => inr (RefusedByPolicy b) end, t) = (r, t') -> guarded l rq ck runs t r t').
  { destruct (enforce_policy _ _ _ _) eqn:E; intros [= <- <-]; (split; [apply grows_refl|]); [done|]. by split. }
  destruct (policy_decision_from_inputs _ _ _ _) as [[[] ?]|]; try by apply Hpol. clear Hpol.
  pose proof (resolve_grows rq ck runs t) as Hg.
  destruct (resolve_required_prompt_approval _ _ rq ck runs t) as [[o|e] t1] eqn:Er; [|by injection H as <- <-].
  simpl in Hg. destruct (po_allowed o) eqn:Hal; [|by injection H as <- <-].
  apply resolve_spec in Er as [[Hx He%existing_spec]|(Hx & a & x & b & Ha & Hb & Hc & Hb' & Hx')]; [| |done];
    rewrite Hx in H; injection H as <- <-; (split; [done|]).
  - by split.
  - split; [by exists a|]. intros _. by exists b, x.
Qed.

(** ** What a history keeps *)

(** The grant of a handler that has not sent its prompt yet. *)
Definition waiting (p : phase) : option grant :=
  match p with AtLock g | Looking g => Some g | _ => None end.

(** The handler [n] holds the approval [i]: it sent its prompt with it, or is still to send it. *)
Definition claims (s : Server) (n : nat) (i : string) : Prop :=
  exists rq, approval_id rq = i
    /\ ((n, rq, ByApproval) ∈ sv_sent s
        \/ exists p, sv_tasks s !! n = Some (mkTask rq p) /\ waiting p = Some ByApproval).

(** What stands behind a grant, at the moment of the history when the guard ran. *)
Definition was_granted (s0 : Server) (es : list event) (rq : PromptRequest) (g : grant) : Prop :=
  exists es1 l ck es2, es = es1 ++ Begin l rq ck :: es2
    /\ let s := srun s0 es1 in granted l rq ck (sv_runs s) (sv_approvals s) g.

Record lawful (s0 : Server) (es : list event) (s : Server) : Prop := {
  lf_fresh : forall n, (is_Some (sv_tasks s !! n) \/ n ∈ map (fun x => x.1.1) (sv_sent s)) -> (n < sv_next s)%nat;
  lf_once : NoDup (map (fun x => x.1.1) (sv_sent s));
  lf_waiting : forall n k, sv_tasks s !! n = Some k -> is_Some (waiting (tk_phase k)) -> n ∉ map (fun x => x.1.1) (sv_sent s);
  lf_consumed : forall n i, claims s n i -> exists a x, sv_approvals s !! i = Some a /\ ap_consumed a = Some x;
  lf_claims : forall n n' i, claims s n i -> claims s n' i -> n = n';
  lf_granted : forall n k g, sv_tasks s !! n = Some k -> waiting (tk_phase k) = Some g -> was_granted s0 es (tk_request k) g;
  lf_existing : forall n k, sv_tasks s !! n = Some k -> waiting (tk_phase k) = Some ByExisting ->
    exists i m, rq_client (tk_request k) = Some i /\ sv_runs s !! i = Some m;
  lf_sent : forall n rq g, (n, rq, g) ∈ sv_sent s -> g <> ByExisting /\ was_granted s0 es rq g
}.

Lemma was_granted_snoc s0 es e rq g : was_granted s0 es rq g -> was_granted s0 (es ++ [e]) rq g.
Proof. intros (es1 & l & ck & es2 & -> & H). exists es1, l, ck, (es2 ++ [e]). split; [by rewrite <- app_assoc|done]. Qed.

(** ** Events that send nothing *)

(** A step that starts no handler and sends no prompt: tables grow, handlers only move on. *)
Record calm (s s' : Server) : Prop := {
  qu_approvals : grows (sv_approvals s) (sv_approvals s');
  qu_runs : keeps_runs (sv_runs s) (sv_runs s');
  qu_next : sv_next s' = sv_next s;
  qu_sent : sv_sent s' = sv_sent s;
  qu_tasks : forall n k', sv_tasks s' !! n = Some k' -> exists k, sv_tasks s !! n = Some k /\ tk_request k' = tk_request k
    /\ (waiting (tk_phase k') = None \/ waiting (tk_phase k') = waiting (tk_phase k))
}.

Lemma calm_claims s s' n i : calm s s' -> claims s' n i -> claims s n i.
Proof.
  intros Hq (rq & E & H). exists rq. split; [done|]. destruct H as [H|(p & Hp & Hw)]; [left; by rewrite <- (qu_sent _ _ Hq)|right].
  destruct (qu_tasks _ _ Hq _ _ Hp) as ([rq' p'] & Hk & Er & Hw'). simpl in *. subst rq'. exists p'. split; [done|].
  destruct Hw' as [Hw'|Hw']; congruence.
Qed.

Lemma calm_lawful s0 es e s s' : calm s s' -> lawful s0 es s -> lawful s0 (es ++ [e]) s'.
Proof.
  intros Hq [L1 L2 L3 L4 L5 L6 L7 L8]. pose proof Hq as [Ha Hr Hn Hs Ht]. split; rewrite ?Hs, ?Hn.
  - intros n [[k' Hk]|Hin]; apply L1; [left|by right]. apply Ht in Hk as (k & Hk & _). by eexists.
  - done.
  - intros n k' (k & Hk & _ & Hw)%Ht Hs'. apply (L3 n k Hk). destruct Hw as [Hw|Hw]; rewrite Hw in Hs'; [by destruct Hs'|done].
  - intros n i Hc. destruct (L4 n i (calm_claims _ _ _ _ Hq Hc)) as (a & x & Hi & Hx).
    apply Ha in Hi as (b & Hb & _ & Hcb). exists b, x. auto.
  - intros n n' i H1 H2. eapply L5; eapply calm_claims; eassumption.
  - intros n k' g (k & Hk & Er & Hw)%Ht Hg. rewrite Er. apply was_granted_snoc. apply (L6 n k g Hk). destruct Hw; congruence.
  - intros n k' (k & Hk & Er & Hw)%Ht Hg. rewrite Er. destruct (L7 n k Hk) as (i & m & Hi & Hm); [destruct Hw; congruence|].
    apply Hr in Hm as (m' & Hm' & _). by exists i, m'.
  - intros n rq g (H1 & H2)%L8. split; [done|by apply was_granted_snoc].
Qed.

Lemma calm_refl s : calm s s.
Proof.
  split; [apply grows_refl|apply keeps_runs_refl|done|done|]. intros n k Hk. exists k. split_and!; [done|done|by right].
Qed.

Lemma calm_trans s1 s2 s3 : calm s1 s2 -> calm s2 s3 -> calm s1 s3.
Proof.
  intros [A1 R1 N1 S1 T1] [A2 R2 N2 S2 T2]. split; [by eapply grows_trans|by eapply keeps_runs_trans|congruence|congruence|].
  intros n k3 (k2 & Hk2 & E2 & W2)%T2. apply T1 in Hk2 as (k1 & Hk1 & E1 & W1). exists k1. split_and!; [done|congruence|].
  destruct W2 as [W2|W2]; [by left|]. rewrite W2. done.
Qed.

Lemma calm_phase n p s k : sv_tasks s !! n = Some k -> (waiting p = None \/ waiting p = waiting (tk_phase k)) -> calm s (set_phase n p s).
Proof.
  intros Hk Hw. split; [apply grows_refl|apply keeps_runs_refl|done|done|].
  intros n' k' Hk'. cbn [sv_tasks set_phase] in Hk'. destruct (decide (n' = n)) as [->|Hne].
  - rewrite lookup_alter_eq, Hk in Hk'. simpl in Hk'. injection Hk' as <-. by exists k.
  - rewrite lookup_alter_ne in Hk' by done. exists k'. split_and!; [done|done|by right].
Qed.

Lemma calm_runs runs s : keeps_runs (sv_runs s) runs -> calm s (set_runs runs s).
Proof. intros H. split; [apply grows_refl|done|done|done|]. intros n k Hk. exists k. split_and!; [done|done|by right]. Qed.

Lemma calm_held held s : calm s (set_held held s).
Proof. split; [apply grows_refl|apply keeps_runs_refl|done|done|]. intros n k Hk. exists k. split_and!; [done|done|by right]. Qed.

Lemma calm_detach rq r s : calm s (detach rq r s).
Proof. split; [apply grows_refl|apply keeps_runs_refl|done|done|]. intros n k Hk. exists k. split_and!; [done|done|by right]. Qed.

Lemma calm_finish n rq a s k : sv_tasks s !! n = Some k -> calm s (finish_task n rq a s).
Proof.
  intros Hk. unfold finish_task. destruct (rq_client rq).
  - eapply calm_trans; [apply calm_held|]. eapply calm_phase; [exact Hk|by left].
  - eapply calm_phase; [exact Hk|by left].
Qed.

(** ** Every event *)

(** How a step may go: calmly, by starting a handler, or by sending a prompt. *)
Inductive stepped (s : Server) (e : event) : Server -> Prop :=
| Calmly s' : calm s s' -> stepped s e s'
| Starting l rq ck : e = Begin l rq ck -> stepped s e (begin_task sha256_hex fromisoformat l rq ck s)
| Sending n rq g p : sv_tasks s !! n = Some (mkTask rq p) -> waiting p = Some g ->
    match rq_client rq with None => True | Some i => sv_runs s !! i = None end ->
    stepped s e (set_phase n Calling (send n rq g s)).

Lemma look_stepped s e n rq g i :
  sv_tasks s !! n = Some (mkTask rq (Looking g)) -> rq_client rq = Some i -> stepped s e (look sha256_hex n rq g i s).
Proof.
  intros Hk Hi. unfold look, get_run. destruct (validate_client_request_id i); cbn [rbind].
  - destruct (sv_runs s !! i) as [m|] eqn:Hm; [|eapply Sending; [exact Hk|done|by rewrite Hi]].
    apply Calmly. destruct (negb _); [by eapply calm_finish|]. destruct (rq_tool rq); [by eapply calm_finish|].
    eapply calm_phase; [exact Hk|by left].
  - apply Calmly. by eapply calm_finish.
Qed.

Lemma cancel_calm s n rq p : sv_tasks s !! n = Some (mkTask rq p) -> calm s (cancel n rq p s).
Proof.
  intros Hk. destruct p as [g|g| |r [|]|m|a]; cbn [cancel]; try (by eapply calm_finish); [eapply calm_phase; [exact Hk|by left]|..].
  - eapply calm_trans; [apply calm_detach|]. by eapply calm_finish.
  - destruct (rq_tool rq); (eapply calm_trans; [apply calm_detach|]); [|by eapply calm_finish].
    eapply calm_phase; [exact Hk|by left].
  - apply calm_refl.
Qed.

Lemma recorded_calm s n rq r cancelled now written p :
  sv_tasks s !! n = Some (mkTask rq p) -> calm s (recorded sha256_hex n rq r cancelled now written s).
Proof.
  intros Hk. unfold recorded. destruct written; [|by eapply calm_finish].
  pose proof (record_of_keeps rq r now (sv_runs s)) as Hr. destruct (record_of _ rq r now (sv_runs s)) as [[o|e] runs]; simpl in Hr;
    (eapply calm_trans; [by apply calm_runs|]); by eapply calm_finish.
Qed.

Lemma step_cases s e : stepped s e (step s e).
Proof.
  assert (Hq : stepped s e s) by apply Calmly, calm_refl.
  destruct e as [l rq ck|n|n|n r|n now w|n|n|k now w|c|i st ex now|]; cbn [server_step]; try (by eapply Starting);
    try (destruct (sv_tasks s !! n) as [[rq p]|] eqn:Hk; [|exact Hq]).
  - destruct p as [g| | | | |]; try exact Hq. destruct (rq_client rq) as [i|] eqn:Hi.
    + case_bool_decide; [exact Hq|]. apply Calmly. eapply calm_trans; [apply calm_held|]. eapply calm_phase; [exact Hk|by right].
    + eapply Sending; [exact Hk|done|by rewrite Hi].
  - destruct p as [|g| | | |]; try exact Hq. destruct (rq_client rq) as [i|] eqn:Hi; [|exact Hq]. by apply look_stepped.
  - destruct p; try exact Hq. apply Calmly. destruct r as [r|]; [|by eapply calm_finish].
    destruct (rq_client rq); [|by eapply calm_finish]. eapply calm_phase; [exact Hk|by left].
  - destruct p as [| | |r x| |]; try exact Hq. apply Calmly. by eapply recorded_calm.
  - destruct p as [| | | |m|]; try exact Hq. apply Calmly. by eapply calm_finish.
  - apply Calmly. by apply cancel_calm.
  - destruct (sv_detached s !! k) as [[rq r]|]; [|exact Hq]. apply Calmly.
    split; [apply grows_refl| |done|done|intros n t Hn; exists t; split_and!; [done|done|by right]].
    cbn [sv_runs]. destruct w; [apply record_of_keeps|apply keeps_runs_refl].
  - apply Calmly. split; [apply call_grows|apply keeps_runs_refl|done|done|intros n t Hn; exists t; split_and!; [done|done|by right]].
  - apply Calmly, calm_runs, status_keeps.
  - apply Calmly. split; [apply grows_refl|apply keeps_runs_refl|done|done|]. intros n t Hn. cbn [sv_tasks] in Hn. by apply lookup_empty_Some in Hn.
Qed.

(** What [begin_task] adds. *)
Lemma begin_spec l rq ck s :
  let s' := begin_task sha256_hex fromisoformat l rq ck s in
  grows (sv_approvals s) (sv_approvals s') /\ sv_runs s' = sv_runs s /\ sv_next s' = S (sv_next s) /\ sv_sent s' = sv_sent s
  /\ exists p, sv_tasks s' = <[sv_next s := mkTask rq p]> (sv_tasks s)
     /\ forall g, waiting p = Some g -> granted l rq ck (sv_runs s) (sv_approvals s) g
        /\ (g = ByApproval -> exists b x, sv_approvals s' !! approval_id rq = Some b /\ ap_consumed b = Some x).
Proof.
  unfold begin_task. destruct (blank (rq_prompt rq)).
  { split_and!; [apply grows_refl|done|done|done|]. eexists. split; [reflexivity|]. done. }
  destruct (guard _ _ _ _ _ _ _) as [r t] eqn:E. apply guard_spec in E as (Hg & Hr).
  split_and!; [exact Hg|done|done|done|]. eexists. split; [reflexivity|]. intros g Hw.
  destruct r as [g'|x]; [|done]. injection Hw as ->. exact Hr.
Qed.

(** A claim of an approval that was free is new. *)
Lemma granted_fresh s0 es s l rq ck n :
  lawful s0 es s -> granted l rq ck (sv_runs s) (sv_approvals s) ByApproval -> ~ claims s n (approval_id rq).
Proof.
  intros L (a & Ha & _ & (_ & Hn & _)) Hc. destruct (lf_consumed _ _ _ L _ _ Hc) as (b & x & Hb & Hx). congruence.
Qed.

Lemma begin_lawful s0 es l rq ck :
  let s := srun s0 es in
  lawful s0 es s -> lawful s0 (es ++ [Begin l rq ck]) (begin_task sha256_hex fromisoformat l rq ck s).
Proof.
  intros s L. pose proof L as [L1 L2 L3 L4 L5 L6 L7 L8].
  destruct (begin_spec l rq ck s) as (Ha & Hr & Hn & Hs & p & Ht & Hp). set (s' := begin_task _ _ _ _ _ _) in *.
  assert (Hnew : sv_tasks s !! sv_next s = None).
  { destruct (sv_tasks s !! sv_next s) eqn:E; [|done]. exfalso. enough (sv_next s < sv_next s)%nat by lia. apply L1. left. by rewrite E. }
  assert (Hnot : sv_next s ∉ map (fun x => x.1.1) (sv_sent s)) by (intros H; enough (sv_next s < sv_next s)%nat by lia; apply L1; by right).
  assert (Hold : forall n i, claims s' n i -> claims s n i \/ (n = sv_next s /\ i = approval_id rq /\ waiting p = Some ByApproval)).
  { intros n i (rq' & E & H). rewrite Hs, Ht in H. destruct H as [H|(p' & H & Hw)]; [left; exists rq'; auto|].
    destruct (decide (n = sv_next s)) as [->|Hne].
    - rewrite lookup_insert_eq in H. injection H as <- <-. right. done.
    - rewrite lookup_insert_ne in H by done. left. exists rq'. split; [done|right]. by exists p'. }
  split; rewrite ?Hs, ?Hn, ?Hr.
  - intros n [Hi|Hi]; [|specialize (L1 n (or_intror Hi)); lia]. rewrite Ht in Hi. destruct (decide (n = sv_next s)) as [->|Hne]; [lia|].
    rewrite lookup_insert_ne in Hi by done. specialize (L1 n (or_introl Hi)). lia.
  - done.
  - intros n k. rewrite Ht. destruct (decide (n = sv_next s)) as [->|Hne]; [done|]. rewrite lookup_insert_ne by done. apply L3.
  - intros n i [Hc|(-> & -> & Hw)]%Hold.
    + destruct (L4 n i Hc) as (a & x & Hi & Hx). apply Ha in Hi as (b & Hb & _ & Hcb). exists b, x. auto.
    + by apply (proj2 (Hp _ Hw)).
  - intros n n' i [H1|(-> & -> & Hw)]%Hold [H2|(-> & E & Hw')]%Hold.
    + by eapply L5.
    + subst i. exfalso. eapply granted_fresh; [done|exact (proj1 (Hp _ Hw'))|exact H1].
    + exfalso. eapply granted_fresh; [done|exact (proj1 (Hp _ Hw))|exact H2].
    + done.
  - intros n k g. rewrite Ht. destruct (decide (n = sv_next s)) as [->|Hne].
    + rewrite lookup_insert_eq. intros [= <-] Hw. exists es, l, ck, []. split; [done|]. by apply Hp.
    + rewrite lookup_insert_ne by done. intros Hk Hw. by apply was_granted_snoc, (L6 n).
  - intros n k. rewrite Ht. destruct (decide (n = sv_next s)) as [->|Hne].
    + rewrite lookup_insert_eq. intros [= <-] Hw. apply Hp in Hw as [(i & m & Hi & Hm & _) _]. by exists i, m.
    + rewrite lookup_insert_ne by done. apply L7.
  - intros n rq' g (H1 & H2)%L8. split; [done|by apply was_granted_snoc].
Qed.

Lemma send_lawful s0 es e s n rq g p :
  lawful s0 es s -> sv_tasks s !! n = Some (mkTask rq p) -> waiting p = Some g ->
  match rq_client rq with None => True | Some i => sv_runs s !! i = None end ->
  lawful s0 (es ++ [e]) (set_phase n Calling (send n rq g s)).
Proof.
  intros L Hk Hw Hnone. pose proof L as [L1 L2 L3 L4 L5 L6 L7 L8].
  assert (Hg : g <> ByExisting).
  { intros ->. destruct (L7 n _ Hk Hw) as (i & m & Hi & Hm). simpl in Hi. rewrite Hi, Hm in Hnone. done. }
  set (s' := set_phase n Calling (send n rq g s)).
  assert (Ht : forall n' k', sv_tasks s' !! n' = Some k' -> (n' = n /\ waiting (tk_phase k') = None) \/ (n' <> n /\ sv_tasks s !! n' = Some k')).
  { intros n' k'. cbn [s' sv_tasks set_phase send]. destruct (decide (n' = n)) as [->|Hne].
    - rewrite lookup_alter_eq, Hk. simpl. intros [= <-]. by left.
    - rewrite lookup_alter_ne by done. by right. }
  assert (Hold : forall n' i, claims s' n' i -> claims s n' i).
  { intros n' i (rq' & E & H). exists rq'. split; [done|]. destruct H as [H|(p' & [(-> & Hw')|(Hne & Hp')]%Ht & H)].
    - cbn [s' sv_sent set_phase send] in H. apply elem_of_app in H as [H|H]; [by left|right].
      apply list_elem_of_singleton in H. injection H as -> -> ->. by exists p.
    - simpl in Hw'. congruence.
    - right. by exists p'. }
  split.
  - cbn [s' sv_next set_phase send sv_sent]. intros n' [[k' [(-> & _)|(_ & Hk')]%Ht]|H].
    + apply L1. left. by eexists.
    + apply L1. left. by eexists.
    + rewrite map_app in H. apply elem_of_app in H as [H|H]; [apply L1; by right|]. apply list_elem_of_singleton in H as ->.
      apply L1. left. by eexists.
  - cbn [s' set_phase send sv_sent]. rewrite map_app. apply NoDup_app. split_and!; [done| |apply NoDup_singleton].
    intros x Hx Hx'. apply list_elem_of_singleton in Hx' as ->. apply (L3 n _ Hk); [by exists g|done].
  - intros n' k' [(-> & Hw')|(Hne & Hk')]%Ht Hs; [rewrite Hw' in Hs; by destruct Hs|].
    cbn [s' set_phase send sv_sent]. rewrite map_app. intros [H|H]%elem_of_app; [by apply (L3 n' k')|].
    by apply list_elem_of_singleton in H.
  - intros n' i Hc%Hold. by apply (L4 n').
  - intros n1 n2 i H1%Hold H2%Hold. by eapply L5.
  - intros n' k' g' [(-> & Hw')|(Hne & Hk')]%Ht Hs; [congruence|]. by apply was_granted_snoc, (L6 n').
  - intros n' k' [(-> & Hw')|(Hne & Hk')]%Ht Hs; [congruence|]. by apply (L7 n').
  - cbn [s' set_phase send sv_sent]. intros n' rq' g' [H|H]%elem_of_app.
    + apply L8 in H as (? & ?). split; [done|by apply was_granted_snoc].
    + apply list_elem_of_singleton in H. injection H as -> -> ->. split; [done|]. apply was_granted_snoc. by apply (L6 n _ _ Hk).
Qed.

Lemma start_lawful t runs : lawful (start_server t runs) [] (start_server t runs).
Proof.
  assert (Hc : forall n i, ~ claims (start_server t runs) n i).
  { intros n i (rq & _ & [H|(p & H & _)]); [by apply not_elem_of_nil in H|]. simpl in H. by rewrite lookup_empty in H. }
  split; simpl.
  - intros n [[k H]|H]; [by rewrite lookup_empty in H|by apply not_elem_of_nil in H].
  - constructor.
  - intros n k H. by rewrite lookup_empty in H.
  - intros n i H. by apply Hc in H.
  - intros n n' i H. by apply Hc in H.
  - intros n k g H. by rewrite lookup_empty in H.
  - intros n k H. by rewrite lookup_empty in H.
  - intros n rq g H. by apply not_elem_of_nil in H.
Qed.

Lemma run_lawful t runs es : lawful (start_server t runs) es (srun (start_server t runs) es).
Proof.
  induction es as [|e es IH] using rev_ind; [apply start_lawful|]. unfold server_run in *. rewrite fold_left_app. cbn [fold_left].
  destruct (step_cases (fold_left step es (start_server t runs)) e) as [s' Hq|l rq ck ->|n rq g p Hk Hw Hr].
  - by eapply calm_lawful.
  - by apply begin_lawful.
  - by eapply send_lawful.
Qed.

(** ** The locks of client requests *)

(** Whether a handler is between taking the lock of its client request and letting go of it. *)
Definition holding (p : phase) : bool :=
  match p with Looking _ | Calling | Recording _ _ | Following _ => true | AtLock _ | Ended _ => false end.
Definition holds (s : Server) (n : nat) (i : string) : Prop :=
  exists rq p, sv_tasks s !! n = Some (mkTask rq p) /\ holding p = true /\ rq_client rq = Some i.
Definition exclusive (s : Server) : Prop :=
  (forall n i, holds s n i -> i ∈ sv_held s) /\ (forall n n' i, holds s n i -> holds s n' i -> n = n').

Lemma no_tasks_exclusive s : sv_tasks s = ∅ -> exclusive s.
Proof.
  intros E. assert (H : forall n i, ~ holds s n i); [|by split; [intros n i H'%H|intros n n' i H'%H]].
  intros n i (rq & p & Hk & _). rewrite E in Hk. by apply lookup_empty_Some in Hk.
Qed.

Lemma exclusive_narrow s s' :
  exclusive s -> (forall n i, holds s' n i -> holds s n i) -> (forall n i, holds s' n i -> i ∈ sv_held s -> i ∈ sv_held s') -> exclusive s'.
Proof. intros [H1 H2] Hn Hh. split; [|eauto]. intros n i H. eapply Hh; [done|]. by eapply H1, Hn. Qed.

Lemma holds_set_phase s n p n' i :
  holds (set_phase n p s) n' i ->
  (n' <> n /\ holds s n' i) \/ (n' = n /\ holding p = true /\ exists k, sv_tasks s !! n = Some k /\ rq_client (tk_request k) = Some i).
Proof.
  intros (rq & q & Hk & Hq & Hi). cbn [sv_tasks set_phase] in Hk. destruct (decide (n' = n)) as [->|Hne].
  - right. rewrite lookup_alter_eq in Hk. destruct (sv_tasks s !! n) as [k|]; [|done]. injection Hk as <- <-. split_and!; [done..|]. by exists k.
  - left. rewrite lookup_alter_ne in Hk by done. split; [done|]. by exists rq, q.
Qed.

Lemma exclusive_phase s n rq p p' :
  exclusive s -> sv_tasks s !! n = Some (mkTask rq p) -> (holding p' = true -> holding p = true) -> exclusive (set_phase n p' s).
Proof.
  intros Hx Hk Hp. eapply exclusive_narrow; [done| |done]. intros n' i [[_ H]|(-> & Hh & k & Hk' & Hi)]%holds_set_phase; [done|].
  rewrite Hk in Hk'. injection Hk' as <-. exists rq, p. auto.
Qed.

Lemma exclusive_finish s n rq p a :
  exclusive s -> sv_tasks s !! n = Some (mkTask rq p) -> holding p = true -> exclusive (finish_task n rq a s).
Proof.
  intros Hx Hk Hp. unfold finish_task. destruct (rq_client rq) as [j|] eqn:Hj; [|by eapply exclusive_phase].
  eapply exclusive_narrow; [done| |].
  - intros n' i [[_ H]|(_ & [=] & _)]%holds_set_phase. exact H.
  - intros n' i [[Hne H]|(_ & [=] & _)]%holds_set_phase Hi. cbn [sv_held set_phase set_held]. apply elem_of_difference. split; [done|].
    intros ->%elem_of_singleton. apply Hne. eapply (proj2 Hx); [exact H|]. by exists rq, p.
Qed.

Lemma exclusive_acquire s n rq g i :
  exclusive s -> sv_tasks s !! n = Some (mkTask rq (AtLock g)) -> rq_client rq = Some i -> i ∉ sv_held s ->
  exclusive (set_phase n (Looking g) (set_held ({[i]} ∪ sv_held s) s)).
Proof.
  intros [H1 H2] Hk Hi Hfree.
  assert (Hown : forall n' j, holds (set_phase n (Looking g) (set_held ({[i]} ∪ sv_held s) s)) n' j ->
            (n' <> n /\ holds s n' j) \/ (n' = n /\ j = i)).
  { intros n' j [[Hne H]|(-> & _ & k & Hk' & Hj)]%holds_set_phase; [by left|]. right. cbn in Hk'. rewrite Hk in Hk'.
    injection Hk' as <-. simpl in Hj. split; congruence. }
  split.
  - intros n' j [[_ H]|[_ ->]]%Hown; cbn [sv_held set_phase set_held]; [|set_solver]. apply H1 in H. set_solver.
  - intros n1 n2 j [[_ Ha]|[-> ->]]%Hown [[_ Hb]|[-> E]]%Hown; [by eapply H2| | |done].
    + subst j. by apply H1 in Ha.
    + by apply H1 in Hb.
Qed.

Lemma step_exclusive s e : (forall n, is_Some (sv_tasks s !! n) -> (n < sv_next s)%nat) -> exclusive s -> exclusive (step s e).
Proof.
  intros Hfresh Hx. destruct e as [l rq ck|n|n|n r|n now w|n|n|k now w|c|i st ex now|]; cbn [server_step];
    try (destruct (sv_tasks s !! n) as [[rq p]|] eqn:Hk; [|exact Hx]).
  - destruct (begin_spec l rq ck s) as (_ & _ & _ & _ & p & Ht & Hp).
    assert (Hheld : sv_held (begin_task sha256_hex fromisoformat l rq ck s) = sv_held s)
      by (unfold begin_task; destruct (if blank _ then _ else _); done).
    eapply exclusive_narrow; [exact Hx| |by rewrite Hheld]. intros n i (rq' & q & Hq & Hh & Hi). rewrite Ht in Hq.
    destruct (decide (n = sv_next s)) as [->|Hne]; [|rewrite lookup_insert_ne in Hq by done; by exists rq', q].
    exfalso. rewrite lookup_insert_eq in Hq. injection Hq as -> ->. clear Hp.
    revert Ht. unfold begin_task. destruct (if blank _ then _ else _) as [r t]. cbn [sv_tasks]. intros Ht.
    apply (f_equal (fun m => m !! sv_next s)) in Ht. rewrite !lookup_insert_eq in Ht. injection Ht as Ht. subst q. by destruct r as [[]|].
  - destruct p as [g| | | | |]; try exact Hx. destruct (rq_client rq) as [i|] eqn:Hi.
    + case_bool_decide; [exact Hx|]. by eapply exclusive_acquire.
    + assert (Hx' : exclusive (send n rq g s)) by exact Hx. eapply exclusive_narrow; [exact Hx'| |done].
      intros n' j [[_ H]|(-> & _ & k & Hk' & Hj)]%holds_set_phase; [done|]. cbn in Hk'. rewrite Hk in Hk'. injection Hk' as <-. simpl in Hj. congruence.
  - destruct p as [|g| | | |]; try exact Hx. destruct (rq_client rq) as [i|] eqn:Hi; [|exact Hx]. unfold look.
    destruct (get_run i (sv_runs s)) as [[m|]|x]; [|exact (exclusive_phase (send n rq g s) n rq _ Calling Hx Hk (fun _ => eq_refl))|by eapply exclusive_finish].
    destruct (negb _); [by eapply exclusive_finish|]. destruct (rq_tool rq); [by eapply exclusive_finish|by eapply exclusive_phase].
  - destruct p; try exact Hx. destruct r as [r|]; [|by eapply exclusive_finish].
    destruct (rq_client rq) eqn:Hi; [by eapply exclusive_phase|]. by eapply exclusive_finish.
  - destruct p as [| | |r x| |]; try exact Hx. unfold recorded. destruct w; [|by eapply exclusive_finish].
    destruct (record_of _ rq r now (sv_runs s)) as [[o|y] runs]; by eapply (exclusive_finish (set_runs runs s)).
  - destruct p as [| | | |m|]; try exact Hx. by eapply exclusive_finish.
  - destruct p as [g|g| |r [|]|m|a]; cbn [cancel]; try (by eapply exclusive_finish); [by eapply exclusive_phase| |exact Hx].
    destruct (rq_tool rq); [by eapply (exclusive_phase (detach rq r s))|by eapply (exclusive_finish (detach rq r s))].
  - destruct (sv_detached s !! k) as [[rq r]|]; exact Hx.
  - exact Hx.
  - exact Hx.
  - apply no_tasks_exclusive. done.
Qed.

(** ** A recorded run *)

(** The prompts of a client request that were sent. *)
Definition sends (i : string) (s : Server) : list (nat * PromptRequest * grant) :=
  List.filter (fun x => bool_decide (rq_client x.1.2 = Some i)) (sv_sent s).

Lemma step_sends s e i : is_Some (sv_runs s !! i) -> sends i (step s e) = sends i s /\ keeps_runs (sv_runs s) (sv_runs (step s e)).
Proof.
  intros Hi. destruct (step_cases s e) as [s' []|l rq ck ->|n rq g p Hk Hw Hr]; unfold sends.
  - by rewrite qu_sent0.
  - destruct (begin_spec l rq ck s) as (_ & -> & _ & -> & _). split; [done|apply keeps_runs_refl].
  - cbn [sv_sent set_phase send sv_runs]. split; [|apply keeps_runs_refl]. rewrite List.filter_app. cbn [List.filter].
    rewrite bool_decide_eq_false_2, app_nil_r; [done|]. simpl. intros E. rewrite E in Hr. rewrite Hr in Hi. by destruct Hi.
Qed.

Lemma run_sends es : forall s i m, sv_runs s !! i = Some m ->
  sends i (srun s es) = sends i s /\ exists m', sv_runs (srun s es) !! i = Some m' /\ rm_fingerprint m' = rm_fingerprint m.
Proof.
  induction es as [|e es IH]; intros s i m Hm; [split; [done|by exists m]|].
  destruct (step_sends s e i) as [E Hr]; [by eexists|]. apply Hr in Hm as (m1 & Hm1 & E1).
  destruct (IH _ _ _ Hm1) as (E2 & m2 & Hm2 & E3). cbn [server_run fold_left]. unfold server_run in *.
  split; [congruence|]. exists m2. split; [done|congruence].
Qed.

Lemma run_exclusive t runs es : exclusive (srun (start_server t runs) es).
Proof.
  induction es as [|e es IH] using rev_ind; [by apply no_tasks_exclusive|].
  pose proof (run_lawful t runs es) as L. unfold server_run in *. rewrite fold_left_app. cbn [fold_left]. apply step_exclusive; [|done].
  intros n Hn. apply (lf_fresh _ _ _ L). by left.
Qed.

(** ** The payload of an approval *)

Lemma request_valid rq : valid (request_payload sha256_hex rq).
Proof. apply valid_dict. repeat constructor; simpl; apply valid_vopt || apply valid_texts. Qed.

(** ** The theorems *)

(** [C19] Every prompt that reaches the upstream was let through: over any history of submissions, of
    anything else that happens to approvals and runs, of cancellations and restarts, a prompt was sent
    only if it carried no trust label, if the policy in force allowed it, or if, when its guard ran,
    there was an approval of exactly this request, approved, unexpired and unused, which is used up
    now; no two prompts were sent with one approval; and none because an earlier run existed. *)
Theorem prompts_are_authorised t runs es :
  let s0 := start_server t runs in
  let s := srun s0 es in
  (forall n rq g, (n, rq, g) ∈ sv_sent s ->
     g <> ByExisting
     /\ (exists es1 l ck es2, es = es1 ++ Begin l rq ck :: es2
          /\ granted l rq ck (sv_runs (srun s0 es1)) (sv_approvals (srun s0 es1)) g)
     /\ (g = ByApproval -> exists a x, sv_approvals s !! approval_id rq = Some a /\ ap_consumed a = Some x))
  /\ (forall j k n n' rq rq', sv_sent s !! j = Some (n, rq, ByApproval) -> sv_sent s !! k = Some (n', rq', ByApproval) ->
       j <> k -> approval_id rq <> approval_id rq').
Proof.
  intros s0 s. pose proof (run_lawful t runs es) as L. fold s0 in L. fold s in L. split.
  - intros n rq g Hin. destruct (lf_sent _ _ _ L _ _ _ Hin) as [H1 H2]. split_and!; [done|done|]. intros ->.
    apply (lf_consumed _ _ _ L n). exists rq. auto.
  - intros j k n n' rq rq' Hj Hk Hjk E. apply Hjk.
    assert (n = n') as ->.
    { eapply (lf_claims _ _ _ L); [exists rq; split; [done|left; by eapply list_elem_of_lookup_2]|].
      exists rq'. split; [done|left; by eapply list_elem_of_lookup_2]. }
    eapply (NoDup_lookup _ _ _ _ (lf_once _ _ _ L)); rewrite list_lookup_fmap; [rewrite Hj|rewrite Hk]; done.
Qed.

(** [C20] A client request whose run is on record is never sent again: whatever happens afterwards,
    restarts included, no further prompt of that client request reaches the upstream, and the record
    keeps its fingerprint. *)
Theorem recorded_runs_are_not_repeated s es i m :
  sv_runs s !! i = Some m ->
  sends i (srun s es) = sends i s /\ exists m', sv_runs (srun s es) !! i = Some m' /\ rm_fingerprint m' = rm_fingerprint m.
Proof. apply run_sends. Qed.

(** At most one handler at a time is between the lookup and the recording of a client request. *)
Theorem client_requests_exclude t runs es n n' i :
  let s := srun (start_server t runs) es in holds s n i -> holds s n' i -> n = n'.
Proof. intros s. apply (run_exclusive t runs es). Qed.

(** An approval binds the request: two requests one approval fits agree in the tool, the prompt, the
    client request, the session, the agents, the orchestration, the actions, the scopes and the trust
    labels, or exhibit two texts with one SHA-256. *)
Theorem approval_binds_request rq rq' a :
  bound_to rq a -> bound_to rq' a ->
  (rq_tool rq = rq_tool rq' /\ rq_prompt rq = rq_prompt rq' /\ rq_client rq = rq_client rq' /\ session_of rq = session_of rq'
   /\ rq_agent rq = rq_agent rq' /\ rq_subagents rq = rq_subagents rq' /\ rq_orchestration rq = rq_orchestration rq'
   /\ rq_actions rq = rq_actions rq' /\ rq_scopes rq = rq_scopes rq' /\ rq_trust rq = rq_trust rq')
  \/ collision sha256_hex.
Proof.
  intros (Ha & Hr & _) (Ha' & Hr' & _). rewrite Hr in Hr'. apply (inj Some) in Hr' as Hd.
  change (RESOURCE_PREFIX +:+ request_digest sha256_hex rq = RESOURCE_PREFIX +:+ request_digest sha256_hex rq') in Hd.
  assert (Hinj : forall p x y : string, p +:+ x = p +:+ y -> x = y) by (induction p; simpl; intros; simplify_eq; auto).
  apply Hinj in Hd. unfold request_digest, hash_of in Hd. apply digest_cases in Hd as [Hd|Hc]; [|by right].
  apply dumps_eq_iff in Hd; [|apply request_valid..]. unfold request_payload in Hd. dict_fields Hd F.
  pose proof (F "prompt_sha256") as E1. injection E1 as E1. apply digest_cases in E1 as [E1|Hc]; [left|by right].
  pose proof (F "action") as E2. pose proof (F "client_request_id") as E3. pose proof (F "session_id") as E4.
  pose proof (F "agent") as E5. pose proof (F "subagents") as E6. pose proof (F "orchestration") as E7.
  pose proof (F "expected_actions") as E8. pose proof (F "resource_scopes") as E9. pose proof (F "trust_labels") as E10.
  simpl in *. injection E2 as E2. injection E3 as E3%vopt_inj. injection E4 as E4%vopt_inj. injection E5 as E5%vopt_inj.
  injection E6 as E6. injection E7 as E7. injection E8 as E8. injection E9 as E9. injection E10 as E10.
  rewrite !map_normal_strs in *. apply vstr_map_inj in E6, E8, E9, E10. split_and!; try done.
  unfold tool_action in E2. by destruct (rq_tool rq), (rq_tool rq').
Qed.
End Guarantees.

(** ** Histories *)

Module PromptHistories.
(** A digest that tells texts of different lengths apart, and an expiry that can be read back. *)
Definition zeros : string := "00000000000000000000000000000000000000000000000000000000".
Definition sha (s : string) : string := pretty (Z.of_nat (String.length s)) +:+ "x" +:+ zeros.
Definition parse (s : string) : option (Z * bool) :=
  if String.eqb s (isoformat 900000000) then Some (900000000, true) else None.
Definition ck : Clock := mkClock 0 0 1000000 2000000 3000000.
Definition late : Clock := mkClock 0 0 900000000 900000000 900000000.

Definition builtin : LoadedPolicy :=
  match load_policy (fun _ => "") sha (mkEnv None None None) with Ok l => l | Err _ => load_failed "none" "" "" end.
(** A policy that could not be loaded. *)
Definition broken : LoadedPolicy := load_failed "file" "configured policy file is missing" "production".

Definition prompt (tool : prompt_tool) (text : string) (client : option string) (trust : list string) : PromptRequest :=
  mkPrompt tool text client None None [] "auto" [] [] trust.
Definition gated : PromptRequest := prompt SubmitTool "deploy the site" (Some "c1") ["untrusted_content"].
Definition run1 : UpstreamRun := mkRun "run-1" (Some "s-1") "running".
Abbreviation go es := (server_run sha parse (start_server ∅ ∅) es).
Definition phase_of (s : Server) (n : nat) : option phase := tk_phase <$> sv_tasks s !! n.
Definition approve : event := OtherApproval (Respond (approval_id sha gated) Approved (Some "bob") 500000 500000).

(** The prompt waits for its approval, is sent with it, and a repetition finds the run. *)
Definition gated_history : list event :=
  [Begin builtin gated ck; approve; Begin builtin gated ck; Acquire 1; Look 1; Answer 1 (Some run1); Recorded 1 4000000 true;
   Begin builtin gated ck; Acquire 2; Look 2].

Example gated_prompt :
  (phase_of (go gated_history) 0, sv_sent (go gated_history), phase_of (go gated_history) 1, phase_of (go gated_history) 2)
  = (Some (Ended (Refused (AwaitsApproval (blocked sha gated "requested")))), [(1%nat, gated, ByApproval)],
     Some (Ended (Completed run1 false)),
     Some (Ended (ExistingRun (mkMapping (run_fingerprint sha gated) "run-1" (Some "s-1") "running" (isoformat 4000000) (isoformat 4000000))))).
Proof. vm_compute. reflexivity. Qed.

(** The approval of a prompt whose call failed is spent: the request stays blocked. *)
Example spent_approval_blocks :
  let s := go ([Begin builtin gated ck; approve; Begin builtin gated ck; Acquire 1; Look 1; Answer 1 None; Begin builtin gated ck]) in
  phase_of s 2 = Some (Ended (Refused (AwaitsApproval (blocked sha gated "consumed")))).
Proof. vm_compute. reflexivity. Qed.

Example late_approval_expires :
  let s := go [Begin builtin gated ck; approve; Begin builtin gated late] in
  phase_of s 1 = Some (Ended (Refused (AwaitsApproval (blocked sha gated "expired")))).
Proof. vm_compute. reflexivity. Qed.

(** Without trust labels no policy is asked, not even one that could not be loaded; and of several
    labels only the first counts. *)
Example unlabelled_prompts_pass :
  let free := prompt SubmitTool "deploy the site" None [] in
  let mixed := prompt SubmitTool "deploy the site" None ["user_instruction"; "untrusted_content"] in
  let s := go [Begin broken free ck; Acquire 0; Begin builtin mixed ck; Acquire 1; Begin broken mixed ck] in
  (sv_sent s, phase_of s 2)
  = ([(0%nat, free, Unguarded); (1%nat, mixed, ByPolicy)], Some (Ended (Refused (RefusedByPolicy PolicyDenied)))).
Proof. vm_compute. reflexivity. Qed.

(** [hermes_prompt] cancelled while its run is recorded lets go of its lock before the record is
    there: a repetition is sent again.  [hermes_submit] keeps the lock. *)
Definition cancelled_history (tool : prompt_tool) : list event :=
  let rq := prompt tool "deploy the site" (Some "c1") [] in
  [Begin builtin rq ck; Acquire 0; Look 0; Answer 0 (Some run1); Cancel 0; Begin builtin rq ck; Acquire 1; Look 1].
Example cancelled_prompt_is_sent_twice :
  (length (sv_sent (go (cancelled_history PromptTool))), length (sv_sent (go (cancelled_history SubmitTool)))) = (2%nat, 1%nat).
Proof. vm_compute. reflexivity. Qed.

(** A run that could not be recorded is reported with a warning, and its request is sent again. *)
Example unrecorded_run_is_sent_twice :
  let rq := prompt SubmitTool "deploy the site" (Some "c1") [] in
  let s := go [Begin builtin rq ck; Acquire 0; Look 0; Answer 0 (Some run1); Recorded 0 4000000 false;
               Begin builtin rq ck; Acquire 1; Look 1] in
  (phase_of s 0, length (sv_sent s)) = (Some (Ended (Completed run1 true)), 2%nat).
Proof. vm_compute. reflexivity. Qed.

Lemma recorded_runs_are_not_repeated_witness :
  exists m, sv_runs (go (take 7 gated_history)) !! "c1" = Some m
    /\ sends "c1" (server_run sha parse (go (take 7 gated_history)) [ProcessRestart; Begin builtin gated ck; Acquire 2; Look 2])
       = sends "c1" (go (take 7 gated_history)).
Proof.
  exists (mkMapping (run_fingerprint sha gated) "run-1" (Some "s-1") "running" (isoformat 4000000) (isoformat 4000000)).
  split; [vm_compute; reflexivity|].
  eapply (recorded_runs_are_not_repeated sha parse (go (take 7 gated_history))). vm_compute. reflexivity.
Defined.

Lemma prompts_are_authorised_witness :
  exists a x, sv_approvals (go gated_history) !! approval_id sha gated = Some a /\ ap_consumed a = Some x.
Proof.
  destruct (prompts_are_authorised sha parse ∅ ∅ gated_history) as [H _].
  destruct (H 1%nat gated ByApproval) as (_ & _ & Hc); [|exact (Hc eq_refl)].
  apply (list_elem_of_lookup_2 _ 0%nat). vm_compute. reflexivity.
Defined.

Lemma client_requests_exclude_witness :
  let s := go (take 5 gated_history) in
  holds s 1 "c1" /\ (holds s 1 "c1" -> 1%nat = 1%nat).
Proof.
  split; [|intros H; exact (client_requests_exclude sha parse ∅ ∅ (take 5 gated_history) 1 1 "c1" H H)].
  exists gated, Calling. vm_compute. auto.
Defined.
End PromptHistories.
